(* ===== verification/_CoqProject ===== *)
-Q . S2P
Prelude.v
GoStr.v
GoFloat.v
Window.v
Breaker.v
Bbr.v
Version.v
SqlQuery.v
MongoQuery.v
JwtLib.v
Token.v
TokenStore.v
Jwt.v
Cipher.v
SseClient.v
SseHub.v
FieldName.v
JyStruct.v
JySound.v
JyTypes.v
GoAst.v
GoMerge.v
GoMergeFacts.v
SqlNames.v
SqlFields.v
SqlTables.v
SqlCode.v
SqlGen.v
Files.v
Replacer.v
Utils.v
GenCommon.v
ProtoParse.v
ProtoFacts.v
ProtoJson.v
ProtoPlugins.v
Cache.v
Errcode.v
Amqp.v
AmqpConn.v
Ws.v
Where.v
TextTemplate.v
SqlTemplates.v
ProtoTemplates.v
GenTexts.v
GenRules.v
GenCommands.v
GenNames.v
Swagger.v
Kafka.v
HttpCli.v
Discovery.v
Middleware.v
IdCode.v
Cpu.v
ErrorX.v
OtelLog.v
Prof.v
GenRun.v
Observe.v
Logs.v
