(* ===== verification/Prelude.v ===== *)
(** * The milady Go packages: a verification library

    milady is a framework and code generator for Go services.  This library
    models the packages a running service depends on (resilience,
    authentication, queries, caching, events) and the parts of the generator
    that compute.  It is a shallow embedding: a Go function is a Rocq function
    that can be evaluated, a stateful object a record passed along, and a
    theorem speaks about those functions.  No axiom is used.

    ** Files, and what they model (paths under src/)

    - Prelude.v (this file): outcomes of Go code ([result]: a value, an error,
      a panic), indexing, folds and maps in that monad, machine integers with
      their wrap-around, time, reachability, the hint database and tactics.
    - GoStr.v: the string functions of strings and strconv the code uses, on
      byte strings; GoFloat.v: float64 as [spec_float], with the exactness
      lemmas that turn float comparisons into integer ones.
    - Window.v: pkg/shield/window (the ring of buckets, the policy that rolls
      it over).  Breaker.v: pkg/shield/circuitbreaker, pkg/container/group and
      the gRPC interceptor that uses them; it is built on the window.  Bbr.v:
      pkg/shield/ratelimit, on the window too.
    - Version.v: pkg/utils/version (parsing, printing, comparison, the highest
      supported version).
    - SqlQuery.v: pkg/sgorm/query; MongoQuery.v: pkg/mgo/query (conditions
      and pages from a request to a query, for gorm and for MongoDB).
    - JwtLib.v: what the code relies on of golang-jwt, versions 4 and 5, as
      classes with laws and a function that satisfies them.  Token.v:
      pkg/token over version 4.  TokenStore.v: pkg/jwt/core and
      pkg/jwt/store (the interface of refresh-token stores as a class with
      laws, the memory store as an instance, the Redis store).  Jwt.v:
      pkg/jwt, the gin middleware, over version 5 and any store.
    - Cipher.v: pkg/gocrypto/wcipher, aes.go and des.go (padding, modes, the
      cipher objects and their state, the entry points).
    - SseClient.v and SseHub.v: pkg/sse (the event format and the client that
      reads and reconnects; the hub with its goroutines).
    - FieldName.v (pkg/jy2struct: how a key becomes a Go name), JyStruct.v (the
      conversion of a JSON or YAML document to struct declarations), JySound.v
      and JyTypes.v (its proofs: it ends, and the document fits the types).
    - GoAst.v: pkg/goast/ast.go and filter.go (blocks of Go code and their
      comments, on trees with the fields of go/ast that are read).  GoMerge.v:
      pkg/goast/merge.go; GoMergeFacts.v: its proofs.
    - SqlNames.v (the names of pkg/sql2code/parser), SqlFields.v (types of the
      columns in Go and protobuf, zero values, the key), SqlTables.v (tables
      of postgres, sqlite and mongodb as statements), SqlCode.v (a statement
      to the data and texts around the templates), SqlGen.v (ParseSQL,
      options, pkg/sql2code itself).  TextTemplate.v: text/template, its
      parser and its evaluation; SqlTemplates.v: the templates of
      pkg/sql2code/parser, parsed and evaluated on the data.
    - Files.v (a disk as a tree, filepath and os; pkg/gofile), Replacer.v
      (pkg/replacer: templates copied with rules), GenCommon.v
      (cmd/milady/commands/generate/common.go and gen.info), GenTexts.v
      (template.go), GenRules.v (the rules and files of every command),
      GenCommands.v (the commands on the disk), GenNames.v (what the rules
      make of the names), GenRun.v (the RunE functions: names, tables in turn,
      configuration maps), Swagger.v (swagger.go, on JSON documents).
    - ProtoParse.v, ProtoFacts.v (the parser of the protoc plugins in
      cmd/protoc-gen-go-gin and protoc-gen-go-rpc-tmpl, and its proofs),
      ProtoJson.v (cmd/protoc-gen-json-field), ProtoPlugins.v (what the plugins
      write and keep), ProtoTemplates.v (their templates).
    - Cache.v: pkg/cache and pkg/encoding; Errcode.v: pkg/errcode and
      pkg/gin/response; Where.v: pkg/store and its conditions.
    - Amqp.v and AmqpConn.v: pkg/rabbitmq (producers and consumers; the
      connection with its monitor).  Kafka.v: pkg/kafka.  Ws.v: pkg/ws.
      HttpCli.v: pkg/httpcli.  Discovery.v: pkg/servicerd.  Middleware.v: the
      middleware of gin and gRPC that stands between a request and the
      breaker, the limiter and the log, over Breaker.v and Bbr.v.  Observe.v:
      pkg/middleware; Logs.v: the logging of requests.
    - IdCode.v: pkg/id, pkg/rid, pkg/krand.  Cpu.v: pkg/shield/cpu.  Utils.v:
      pkg/utils, pkg/conf, pkg/gocron, pkg/stat, pkg/mapp, pkg/gobash.
      ErrorX.v: pkg/errorsx.  OtelLog.v: pkg/otelslog.  Prof.v: pkg/prof.
    Each file opens with a comment that says what it holds; inside, the
    definitions carry the names of the source, followed by the proofs and the
    concrete witnesses.

    ** How the parts meet

    A service: Middleware.v asks Breaker.v and Bbr.v, which count in Window.v
    and read the figure of Cpu.v; Jwt.v keeps its tokens in any store that
    satisfies the class of TokenStore.v; answers go through Errcode.v.  The
    generator: a statement becomes data (SqlFields, SqlTables), data become
    texts (SqlCode, SqlTemplates over TextTemplate), the texts are replaced in
    copied templates (GenRules over Replacer over Files) and merged with the
    code of the user (GoMerge); the plugins of protoc (ProtoPlugins) use the
    same templates and merging.

    ** What the theorems show

    - Resilience: a window holds exactly the points of its span; the breaker
      admits by the counts of the window and never refuses a healthy service;
      the BBR limiter counts its requests in flight exactly and recovers;
      around handlers that panic, the gin breaker counts every call and the
      limiter never gets them back.
    - Versions: parsing inverts printing, comparison is lexicographic,
      HighestSupportedVersion is maximal; where the order is not transitive.
    - Queries: placeholders and arguments agree, no value reaches the text of
      a query, pages are bounded; the MongoDB filter of a flat list of columns
      means and-before-or, the one built with parentheses is always built.
    - Tokens: a token that was signed authenticates its subject exactly in its
      window; refreshing rotates the refresh token; a refresh token can be
      spent twice by concurrent requests; a store answers by its history.
    - Encryption: every mode gives back the messages, in order, whatever the
      interleaving of the two directions; where padding panics.
    - Events and messages: the client gets what the server wrote; when it waits
      and gives up; the hub never uses a closed channel and delivers in order,
      but a reconnecting user can be cut off; a consumer of RabbitMQ accounts
      for each message by the answers of the handler and the broker, a connection is the only live one; the messages Kafka
      loses are exactly those that failed before a success; the backoff of the
      WebSocket client.
    - jy2struct: a generated name is an exported identifier, the conversion
      ends on every finite document, and decoding the document into the
      struct it generated would succeed.
    - Merging: a file merged with itself is unchanged; without the cover
      option no byte of the existing file is lost; every new block arrives.
    - Code from SQL: the fields are the columns in order with their types and
      key; protobuf types are scalar types; the key is the best column; the
      statements declare every column; Pascal case does not depend on the
      order of a Go map; every table has all its code, message fields are
      numbered from one without gaps.
    - Generator: a listing of a directory is complete; saving is all or
      nothing; gen.info is read back; the imports of a mono-repo; every
      generated file has the name its template stands for; the responses of a
      swagger document are wrapped, but for schemas that are not objects; a
      command runs its tables in turn up to the first that fails;
      plugins keep the code of the user, name handlers uniquely, give
      every route a handler, and their templates render.
    - Stores: a cache and the registry of etcd answer by the last writes, the
      cache also after commands that failed; an error code is answered with
      its http code and message; an error with a reason crosses gRPC; a server
      reads the query that a GET was given; attributes of a log record are
      nested as slog asks, when every group has some.
    - Small packages: codes are unique in the range where nothing wraps; alarms
      are fifteen minutes apart; names and entries of tasks are one to one;
      close functions are called once; a printed list of processors is read
      back; a password in an address is hidden.
    The theorems that state defects (their names say so) are listed with the
    findings of the manifest.

    ** Conventions and bounds

    Strings are byte strings and case and space are ASCII (the inputs the
    packages meet: headers, identifiers, keys, file names).  [int], [int64] and
    [time.Duration] are [Z] with [wrap64] where the code can overflow.  A
    clock reading is an argument, and so is a random draw.  A map that is
    ranged over is a [gmap] where the order does not matter, else a list or
    an order given as a function.  Maps and slices that are shared (Amqp,
    HttpCli, the nacos registry) are in a heap.  A disk has neither symbolic
    links nor permissions nor volume names.  Goroutines are interleaved
    between the points where they block, lock or hand over: a sequence of
    actions is a schedule.  Code outside src/ is a class (JwtLib, JwtLib5,
    RedisClient, Platform, Json, Store, Ristretto, Etcd, Partitions, Offsets,
    Session, GrpcStatus, Machine) or a variable of a section (ParseFloat,
    time.Parse, the [%v] verb, ObjectIDFromHex, NewCipher; the JSON and YAML
    decoders; go/parser, go/printer and gofmt; the SQL parser, xstrings and
    inflection; the descriptors of protogen; gorm, net/url, kin-openapi, cron,
    gopsutil; the answers of brokers and of dialling; the order of a range
    over a map; the windows flag and the working directory) with its
    documented laws as hypotheses; each has a concrete function that satisfies
    them, used in the witnesses.  Fuel appears in decimal printing
    (the binary logarithm plus one is enough, [log2_fuel]), in the block loop
    of a cipher (the input's length, [crypt_loop_paired]), in the Redis scan
    and the resending of events, which loop until the server says stop, in a
    listing of a disk (its depth), in the search for all matches (the length
    plus one), in the parser of templates (three times its tokens plus one)
    and in ConsumePartition (two calls: the second is refused).

    ** Not modelled

    What only wires libraries together or does I/O, where a model would be a
    copy of the calls: the servers of pkg/gin and pkg/grpc, the options of
    their clients, pkg/sasynq and pkg/dlock, the drivers of pkg/sgorm, pkg/mgo,
    pkg/goredis and pkg/store/mysqlx, logging and tracing (pkg/log, pkg/logger,
    pkg/loggerx, pkg/tracer) below what a request logs, what profiles contain, the option structs of
    pkg/options with their flags, pkg/app, pkg/core and pkg/server, the help
    and flags of the commands of cmd/ (cobra) and those that run other
    programs, hashes and RSA of pkg/gocrypto, which are one call of the
    standard library each; pkg/gin/middleware/auth and the gRPC jwtAuth, which
    call functions that pkg/jwt does not declare; the generated and vendored
    code under third_party/ and docs/. *)

From stdpp Require Export base tactics option list gmap strings.
From Stdlib Require Export ZArith Lia ZifyBool.

#[global] Open Scope Z_scope.

(** ** Outcomes of Go code *)

(** A Go function that returns [(T, error)] and may also panic.  [Ok] is a nil
    error, [Err] a non-nil error, [Panic] a run-time panic (an index out of
    range, a division by zero, an explicit [panic(...)] or a nil
    dereference). *)
Inductive result (E A : Type) : Type :=
  | Ok (a : A)
  | Err (e : E)
  | Panic.
Arguments Ok {E A} a.
Arguments Err {E A} e.
Arguments Panic {E A}.

#[export] Instance result_ret {E} : MRet (result E) := fun A a => Ok a.
#[export] Instance result_bind {E} : MBind (result E) := fun A B f m =>
  match m with
  | Ok a => f a
  | Err e => Err e
  | Panic => Panic
  end.
#[export] Instance result_fmap {E} : FMap (result E) := fun A B f m =>
  match m with
  | Ok a => Ok (f a)
  | Err e => Err e
  | Panic => Panic
  end.

#[export] Instance result_eq_dec {E A} `{EqDecision E, EqDecision A} :
  EqDecision (result E A).
Proof. solve_decision. Defined.

(** The two predicates clients ask of an outcome. *)
Definition is_ok {E A} (m : result E A) : bool :=
  match m with Ok _ => true | _ => false end.
Definition is_panic {E A} (m : result E A) : bool :=
  match m with Panic => true | _ => false end.

(** A bounds-checked slice read [s[i]]: Go panics out of range. *)
Definition at_index {E A} (l : list A) (i : Z) : result E A :=
  if decide (0 <= i < Z.of_nat (length l)) then
    match l !! Z.to_nat i with Some a => Ok a | None => Panic end
  else Panic.

Lemma bind_ok {E A B} (f : A -> result E B) m b :
  m ≫= f = Ok b <-> exists a, m = Ok a /\ f a = Ok b.
Proof. destruct m; simpl; naive_solver. Qed.

Lemma at_index_lookup {E A} (l : list A) (i : nat) a :
  l !! i = Some a -> at_index (E := E) l (Z.of_nat i) = Ok a.
Proof.
  intros H. unfold at_index. pose proof (lookup_lt_Some _ _ _ H).
  rewrite decide_True by lia. by rewrite Nat2Z.id, H.
Qed.

Lemma at_index_inv {E A} (l : list A) i a :
  at_index (E := E) l i = Ok a -> 0 <= i /\ l !! Z.to_nat i = Some a.
Proof.
  unfold at_index. case_decide; [|done]. destruct (l !! Z.to_nat i); naive_solver.
Qed.

(** A left fold in the [result] monad: the [for range] loops that can return
    or panic from the body. *)
Fixpoint foldM {E A S} (f : S -> A -> result E S) (s : S) (l : list A) : result E S :=
  match l with
  | [] => Ok s
  | a :: l' => s' ← f s a; foldM f s' l'
  end.

Lemma foldM_app {E A S} (f : S -> A -> result E S) l1 l2 s :
  foldM f s (l1 ++ l2) = s' ← foldM f s l1; foldM f s' l2.
Proof.
  revert s. induction l1 as [|a l1 IH]; intros s; simpl; [done|].
  destruct (f s a); simpl; [apply IH|done|done].
Qed.

(** [f] on every element, left to right, stopping at the first failure. *)
Fixpoint traverse {E A B} (f : A -> result E B) (l : list A) : result E (list B) :=
  match l with
  | [] => Ok []
  | a :: l' => b ← f a; bs ← traverse f l'; Ok (b :: bs)
  end.

Lemma traverse_ok {E A B} (f : A -> result E B) l l' :
  traverse f l = Ok l' <-> Forall2 (fun a b => f a = Ok b) l l'.
Proof.
  revert l'. induction l as [|a l IH]; intros l'; cbn.
  - split; [intros [= <-]; constructor|by inversion 1].
  - rewrite bind_ok. setoid_rewrite bind_ok. split.
    + intros (b & Hb & bs & Hbs & [= <-]). constructor; [done|by apply IH].
    + inversion 1; subst. eexists. split; [done|]. eexists. split; [by apply IH|done].
Qed.

Lemma traverse_no_panic {E A B} (f : A -> result E B) l :
  (forall a, f a <> Panic) -> traverse f l <> Panic.
Proof.
  intros Hf. induction l as [|a l IH]; cbn; [done|]. specialize (Hf a).
  destruct (f a); [|done..]. cbn. by destruct (traverse f l).
Qed.

(** Filtering keeps what holds of every element. *)
Lemma Forall_filter_keep {A} (P Q : A -> Prop) `{!forall x, Decision (P x)} (l : list A) :
  Forall Q l -> Forall Q (filter P l).
Proof. rewrite !Forall_forall. intros HQ x [_ Hx]%list_elem_of_filter. auto. Qed.

Lemma filter_agree {A} (P Q : A -> Prop) `{!forall x, Decision (P x), !forall x, Decision (Q x)} (l : list A) :
  (forall x, x ∈ l -> P x <-> Q x) -> filter P l = filter Q l.
Proof.
  induction l as [|a l IH]; intros Hl; [done|]. rewrite !filter_cons, IH by (intros x Hx; apply Hl; by right).
  pose proof (Hl a ltac:(by left)). repeat case_decide; tauto.
Qed.

(** ** Machine integers

    [int], [int64] and [time.Duration] are 64-bit two's complement on the
    platforms the repository builds for; [uint64]/[uint] wrap modulo [2^64];
    [byte] modulo [2^8]. *)
Definition int64_min : Z := - 2 ^ 63.
Definition int64_max : Z := 2 ^ 63 - 1.
Definition wrap64 (z : Z) : Z := (z + 2 ^ 63) mod 2 ^ 64 - 2 ^ 63.
Definition wrapu64 (z : Z) : Z := z mod 2 ^ 64.
Definition wrap8 (z : Z) : Z := z mod 2 ^ 8.
Definition in_int64 (z : Z) : Prop := int64_min <= z <= int64_max.

Lemma wrap64_id z : in_int64 z -> wrap64 z = z.
Proof.
  unfold in_int64, int64_min, int64_max, wrap64. intros H.
  rewrite Z.mod_small by lia. lia.
Qed.

Lemma wrap64_range z : in_int64 (wrap64 z).
Proof.
  unfold in_int64, int64_min, int64_max, wrap64.
  pose proof (Z.mod_pos_bound (z + 2 ^ 63) (2 ^ 64)). lia.
Qed.

Lemma wrap64_shift z d : wrap64 (wrap64 z + d) = wrap64 (z + d).
Proof.
  unfold wrap64. f_equal. replace ((z + 2 ^ 63) mod 2 ^ 64 - 2 ^ 63 + d + 2 ^ 63)
    with ((z + 2 ^ 63) mod 2 ^ 64 + d) by lia.
  rewrite Zplus_mod_idemp_l. f_equal. lia.
Qed.

Lemma wrapu64_id z : 0 <= z < 2 ^ 64 -> wrapu64 z = z.
Proof. apply Z.mod_small. Qed.

(** ** Time

    A [time.Time] is its reading in nanoseconds (Go's monotonic clock), a
    [time.Duration] an int64 number of nanoseconds.  [time.Since] and
    [Time.Sub] saturate at the bounds of [Duration]. *)
Abbreviation time := Z (only parsing).
Definition nanosecond : Z := 1.
Definition millisecond : Z := 1000000.
Definition second : Z := 1000 * millisecond.
Definition minute : Z := 60 * second.
Definition hour : Z := 60 * minute.

Definition saturate64 (z : Z) : Z := Z.max int64_min (Z.min int64_max z).

(** [time.Since(t)] read at clock [now]. *)
Definition since (now t : Z) : Z := saturate64 (now - t).

(** [t.Unix()]: whole seconds, rounded down. *)
Definition unix (t : Z) : Z := t / second.

Lemma since_id now t : in_int64 (now - t) -> since now t = now - t.
Proof. unfold in_int64, since, saturate64. lia. Qed.

(** ** Reachability *)

(** Zero or more steps of a transition relation. *)
Inductive star {S : Type} (step : S -> S -> Prop) : S -> S -> Prop :=
  | star_refl s : star step s s
  | star_step s1 s2 s3 : step s1 s2 -> star step s2 s3 -> star step s1 s3.

Lemma star_invariant {S} (step : S -> S -> Prop) (I : S -> Prop) :
  (forall s s', step s s' -> I s -> I s') ->
  forall s s', star step s s' -> I s -> I s'.
Proof. intros Hstep s s' H. induction H; eauto. Qed.

Lemma star_trans {S} (step : S -> S -> Prop) s1 s2 s3 :
  star step s1 s2 -> star step s2 s3 -> star step s1 s3.
Proof. intros H. induction H; eauto using star. Qed.

Lemma star_one {S} (step : S -> S -> Prop) s1 s2 : step s1 s2 -> star step s1 s2.
Proof. eauto using star. Qed.

(** ** Automation *)

Create HintDb milady.
#[export] Hint Resolve wrap64_range star_refl star_one : milady.
#[export] Hint Rewrite @bind_ok : milady.

(** Unfold a monadic hypothesis [H : ... = Ok _] one bind at a time. *)
Ltac ok_inv :=
  repeat match goal with
  | H : (_ ≫= _) = Ok _ |- _ => apply bind_ok in H; destruct H as (? & ? & H)
  | H : mret _ = Ok _ |- _ => injection H as H; subst
  | H : Ok _ = Ok _ |- _ => injection H as H; subst
  | H : Err _ = Ok _ |- _ => discriminate H
  | H : Panic = Ok _ |- _ => discriminate H
  end.

(** Case analysis on the [match]/[if] scrutinees of a hypothesis. *)
Ltac split_match_in H :=
  repeat (match type of H with
  | context [match ?x with _ => _ end] => let E := fresh "E" in destruct x eqn:E
  end; try discriminate H).

(** Lists of length at most [n], by index arithmetic. *)
Ltac list_lia := rewrite ?length_app, ?length_cons, ?length_insert, ?length_nil in *; lia.
