(* ===== verification/GoStr.v ===== *)
(** * Go's strings and strconv

    A Go string is a byte string.  The functions of [strings], [strconv] and
    [fmt] that the packages call, on the bytes they handle: case mapping and
    white space are those of ASCII.  Then the facts the components share:
    prefixes and suffixes, splitting and joining, decimal numerals. *)

From S2P Require Import Prelude.
From Stdlib Require Import Ascii.
From Stdlib Require String.

(** ** Characters *)

Definition is_digit (c : ascii) : bool :=
  let n := nat_of_ascii c in (48 <=? n)%nat && (n <=? 57)%nat.
Definition is_upper (c : ascii) : bool :=
  let n := nat_of_ascii c in (65 <=? n)%nat && (n <=? 90)%nat.
Definition is_lower (c : ascii) : bool :=
  let n := nat_of_ascii c in (97 <=? n)%nat && (n <=? 122)%nat.
Definition is_alpha (c : ascii) : bool := is_upper c || is_lower c.
Definition lower (c : ascii) : ascii :=
  if is_upper c then ascii_of_nat (nat_of_ascii c + 32) else c.
Definition upper (c : ascii) : ascii :=
  if is_lower c then ascii_of_nat (nat_of_ascii c - 32) else c.
(** [unicode.IsSpace] on ASCII. *)
Definition is_space (c : ascii) : bool := Ascii.is_space c.
Definition digit_val (c : ascii) : Z := Z.of_nat (nat_of_ascii c) - 48.
Definition digit_char (d : Z) : ascii := ascii_of_nat (Z.to_nat (d + 48)).

Definition dquote : ascii := ascii_of_nat 34.
Definition newline : ascii := ascii_of_nat 10.
Definition single (c : ascii) : string := String c "".

(** ** Package strings *)

Fixpoint str_len (s : string) : nat :=
  match s with EmptyString => O | String _ s' => S (str_len s') end.

(** [strings.HasPrefix(s, p)]. *)
Fixpoint HasPrefix (s p : string) {struct p} : bool :=
  match p, s with
  | EmptyString, _ => true
  | String b p', String a s' => bool_decide (a = b) && HasPrefix s' p'
  | String _ _, EmptyString => false
  end.

(** [s[n:]]; the callers guarantee [n <= len(s)]. *)
Fixpoint str_drop (n : nat) (s : string) : string :=
  match n, s with
  | S n', String _ s' => str_drop n' s'
  | _, _ => s
  end.

(** [s[:n]]. *)
Fixpoint str_take (n : nat) (s : string) : string :=
  match n, s with
  | S n', String a s' => String a (str_take n' s')
  | _, _ => EmptyString
  end.

Definition HasSuffix (s p : string) : bool :=
  (str_len p <=? str_len s)%nat && bool_decide (str_drop (str_len s - str_len p) s = p).
Definition TrimPrefix (s p : string) : string :=
  if HasPrefix s p then str_drop (str_len p) s else s.
Definition TrimSuffix (s p : string) : string :=
  if HasSuffix s p then str_take (str_len s - str_len p) s else s.

(** [strings.Index(s, p)]. *)
Fixpoint Index (s p : string) : option nat :=
  if HasPrefix s p then Some O
  else match s with
       | EmptyString => None
       | String _ s' => S <$> Index s' p
       end.
Definition Contains (s p : string) : bool :=
  match Index s p with Some _ => true | None => false end.

(** [strings.Split(s, sep)] for a separator of one byte. *)
Fixpoint Split (s : string) (sep : ascii) : list string :=
  match s with
  | EmptyString => [""]
  | String a s' =>
      if bool_decide (a = sep) then "" :: Split s' sep
      else match Split s' sep with
           | [] => [String a ""]
           | p :: ps => String a p :: ps
           end
  end.

(** [strings.SplitN(s, sep, 2)] for a separator of one byte. *)
Fixpoint Cut (s : string) (sep : ascii) : option (string * string) :=
  match s with
  | EmptyString => None
  | String a s' =>
      if bool_decide (a = sep) then Some ("", s')
      else match Cut s' sep with
           | Some (l, r) => Some (String a l, r)
           | None => None
           end
  end.

(** [strings.Join(l, sep)]. *)
Fixpoint Join (l : list string) (sep : string) : string :=
  match l with
  | [] => ""
  | [p] => p
  | p :: ps => p +:+ sep +:+ Join ps sep
  end.

Fixpoint map_str (f : ascii -> ascii) (s : string) : string :=
  match s with EmptyString => EmptyString | String a s' => String (f a) (map_str f s') end.
Definition ToLower : string -> string := map_str lower.
Definition ToUpper : string -> string := map_str upper.

Fixpoint trim_left_by (f : ascii -> bool) (s : string) : string :=
  match s with
  | String a s' => if f a then trim_left_by f s' else s
  | EmptyString => EmptyString
  end.
Fixpoint trim_right_by (f : ascii -> bool) (s : string) : string :=
  match s with
  | EmptyString => EmptyString
  | String a s' =>
      match trim_right_by f s' with
      | EmptyString => if f a then EmptyString else String a EmptyString
      | t => String a t
      end
  end.
Definition TrimSpace (s : string) : string := trim_left_by is_space (trim_right_by is_space s).
(** [strings.Trim(s, cutset)] for a cutset of one byte. *)
Definition Trim (s : string) (c : ascii) : string :=
  let f a := bool_decide (a = c) in trim_left_by f (trim_right_by f s).

(** [strings.ReplaceAll(s, old, new)] for a one-byte [old]. *)
Fixpoint ReplaceChar (s : string) (old : ascii) (new : string) : string :=
  match s with
  | EmptyString => EmptyString
  | String a s' =>
      if bool_decide (a = old) then new +:+ ReplaceChar s' old new
      else String a (ReplaceChar s' old new)
  end.

(** [strings.Replace(s, old, new, 1)]. *)
Definition Replace1 (s old new : string) : string :=
  match Index s old with
  | Some i => str_take i s +:+ new +:+ str_drop (i + str_len old) s
  | None => s
  end.

(** [strings.ReplaceAll(s, old, new)]: without overlaps, from the left; an
    empty [old] is found before every character and at the end. *)
Definition replace_from (old new : string) : string -> nat -> string :=
  fix go s skip := match s with
    | EmptyString => EmptyString
    | String c s' =>
        match skip with
        | S k => go s' k
        | O => if HasPrefix s old then new +:+ go s' (str_len old - 1)%nat else String c (go s' O)
        end
    end.
Fixpoint between (new s : string) : string :=
  match s with EmptyString => new | String c s' => new +:+ String c (between new s') end.
Definition ReplaceAll (s old new : string) : string :=
  match old with EmptyString => between new s | _ => replace_from old new s O end.

Fixpoint forall_chars (f : ascii -> bool) (s : string) : bool :=
  match s with EmptyString => true | String a s' => f a && forall_chars f s' end.

Fixpoint count_char (c : ascii) (s : string) : nat :=
  match s with
  | EmptyString => O
  | String a s' => ((if bool_decide (a = c) then 1 else 0) + count_char c s')%nat
  end.

(** Lookup in a Go map literal. *)
Fixpoint assoc {A} (m : list (string * A)) (k : string) : option A :=
  match m with
  | [] => None
  | (k', v) :: m' => if bool_decide (k = k') then Some v else assoc m' k
  end.

Lemma assoc_Forall {A} (P : A -> Prop) m k v : Forall P (map snd m) -> assoc m k = Some v -> P v.
Proof.
  induction m as [|[k' v'] m IH]; [done|]. cbn. rewrite Forall_cons. intros [Hv Hm].
  case_bool_decide; [by intros [= <-]|auto].
Qed.

(** ** Package strconv *)

Fixpoint digits_value (acc : Z) (s : string) : option Z :=
  match s with
  | EmptyString => Some acc
  | String c s' => if is_digit c then digits_value (10 * acc + digit_val c) s' else None
  end.

(** [strconv.ParseUint(s, 10, 64)]; [None] is any error. *)
Definition ParseUint (s : string) : option Z :=
  match s with
  | EmptyString => None
  | _ => v ← digits_value 0 s; if v <? 2 ^ 64 then Some v else None
  end.

(** [strconv.Atoi(s)]. *)
Definition Atoi (s : string) : option Z :=
  let digits t := match t with EmptyString => None | _ => digits_value 0 t end in
  v ← match s with
      | String "-" t => Z.opp <$> digits t
      | String "+" t => digits t
      | t => digits t
      end;
  if decide (int64_min <= v <= int64_max) then Some v else None.

(** [strconv.ParseBool(s)]. *)
Definition ParseBool (s : string) : option bool :=
  if decide (s ∈ ["1"; "t"; "T"; "true"; "TRUE"; "True"]) then Some true
  else if decide (s ∈ ["0"; "f"; "F"; "false"; "FALSE"; "False"]) then Some false
  else None.

(** [%d] of an unsigned integer. *)
Fixpoint dec_go (fuel : nat) (n : Z) (acc : string) : string :=
  match fuel with
  | O => acc
  | S fuel' =>
      let acc' := String (digit_char (n mod 10)) acc in
      if n <? 10 then acc' else dec_go fuel' (n / 10) acc'
  end.
Definition FormatUint (n : Z) : string := dec_go (S (Z.to_nat (Z.log2 n))) n "".

#[global] Arguments FormatUint n : simpl never.
#[global] Arguments ParseUint s : simpl never.

(** ** Prefixes, suffixes and positions *)

Lemma app_cons_s a (s t : string) : String a s +:+ t = String a (s +:+ t).
Proof. done. Qed.

Lemma app_nil_l_s (s : string) : "" +:+ s = s.
Proof. done. Qed.

Lemma app_nil_s (s : string) : s +:+ "" = s.
Proof. induction s as [|a s IH]; [done|]. rewrite app_cons_s. by rewrite IH. Qed.

Lemma app_assoc_s (s t u : string) : (s +:+ t) +:+ u = s +:+ t +:+ u.
Proof. induction s as [|a s IH]; [done|]. rewrite !app_cons_s. f_equal. exact IH. Qed.

Lemma str_len_app s t : str_len (s +:+ t) = (str_len s + str_len t)%nat.
Proof. induction s as [|a s IH]; [done|]. rewrite app_cons_s. cbn. by rewrite IH. Qed.

Lemma drop_app s t : str_drop (str_len s) (s +:+ t) = t.
Proof. induction s as [|a s IH]; [by destruct t|]. exact IH. Qed.

Lemma take_app s t : str_take (str_len s) (s +:+ t) = s.
Proof. induction s as [|a s IH]; [by destruct t|]. rewrite app_cons_s. cbn. f_equal. exact IH. Qed.

Lemma take_drop_s n s : str_take n s +:+ str_drop n s = s.
Proof.
  revert s. induction n as [|n IH]; intros [|a s]; try done. cbn. rewrite app_cons_s. f_equal. apply IH.
Qed.

Lemma str_len_drop n s : str_len (str_drop n s) = (str_len s - n)%nat.
Proof. revert s. induction n as [|n IH]; intros [|a s]; done || apply IH. Qed.

Lemma HasPrefix_spec s p : HasPrefix s p = true <-> exists t, s = p +:+ t.
Proof.
  revert s. induction p as [|b p IH]; intros s; cbn.
  - split; [intros _; by exists s|done].
  - destruct s as [|a s]; cbn.
    + split; [done|]. by intros [t Ht].
    + rewrite andb_true_iff, bool_decide_eq_true, IH. split.
      * intros [-> [t ->]]. by exists t.
      * intros [t Ht]. injection Ht as -> ->. split; [done|]. by exists t.
Qed.

Lemma HasPrefix_app p t : HasPrefix (p +:+ t) p = true.
Proof. apply HasPrefix_spec. by exists t. Qed.

Lemma HasSuffix_spec s p : HasSuffix s p = true <-> exists t, s = t +:+ p.
Proof.
  unfold HasSuffix. rewrite andb_true_iff, bool_decide_eq_true, Nat.leb_le. split.
  - intros [_ H]. exists (str_take (str_len s - str_len p) s).
    rewrite <- (take_drop_s (str_len s - str_len p) s) at 1. by rewrite H at 1.
  - intros [t ->]. rewrite str_len_app. split; [lia|].
    replace (str_len t + str_len p - str_len p)%nat with (str_len t) by lia. apply drop_app.
Qed.

Lemma TrimPrefix_app p t : TrimPrefix (p +:+ t) p = t.
Proof. unfold TrimPrefix. rewrite HasPrefix_app. apply drop_app. Qed.

Lemma TrimSuffix_app t p : TrimSuffix (t +:+ p) p = t.
Proof.
  unfold TrimSuffix. rewrite (proj2 (HasSuffix_spec _ _)) by by exists t.
  rewrite str_len_app. replace (str_len t + str_len p - str_len p)%nat with (str_len t) by lia.
  apply take_app.
Qed.

Lemma Index_spec s p i :
  Index s p = Some i -> exists u, str_drop i s = p +:+ u /\ (i <= str_len s)%nat.
Proof.
  revert i. induction s as [|a s IH]; intros i; cbn [Index].
  - destruct (HasPrefix "" p) eqn:E; [|done]. intros [= <-]. cbn [str_drop].
    apply HasPrefix_spec in E as [u Hu]. exists u. split; [done|lia].
  - destruct (HasPrefix (String a s) p) eqn:E.
    + intros [= <-]. apply HasPrefix_spec in E as [u Hu]. exists u. split; [done|lia].
    + destruct (Index s p) as [j|] eqn:Ej; [|done]. intros [= <-].
      destruct (IH j eq_refl) as (u & Hu & Hl). exists u. cbn. split; [done|lia].
Qed.

(** The first occurrence is at most any occurrence. *)
Lemma Index_first t p u : exists i, Index (t +:+ p +:+ u) p = Some i /\ (i <= str_len t)%nat.
Proof.
  induction t as [|a t IH].
  - exists O. cbn [str_len]. split; [|lia].
    change ("" +:+ p +:+ u) with (p +:+ u).
    destruct (p +:+ u) eqn:E; cbn [Index]; rewrite <- E; by rewrite HasPrefix_app.
  - rewrite app_cons_s. cbn [Index]. destruct (HasPrefix _ _).
    + exists O. cbn. split; [done|lia].
    + destruct IH as (i & -> & Hi). exists (S i). cbn. split; [done|lia].
Qed.

Lemma Contains_spec s p : Contains s p = true <-> exists t u, s = t +:+ p +:+ u.
Proof.
  unfold Contains. split.
  - destruct (Index s p) as [i|] eqn:E; [|done]. intros _. apply Index_spec in E as (u & Hu & _).
    exists (str_take i s), u. rewrite <- Hu. by rewrite take_drop_s.
  - intros (t & u & ->). by destruct (Index_first t p u) as (i & -> & _).
Qed.
Lemma Contains_app s t p : Contains t p = true -> Contains (s +:+ t) p = true.
Proof. rewrite !Contains_spec. intros (a & b & ->). exists (s +:+ a), b. by rewrite app_assoc_s. Qed.
Lemma Contains_app_l s t p : Contains s p = true -> Contains (s +:+ t) p = true.
Proof. rewrite !Contains_spec. intros (a & b & ->). exists a, (b +:+ t). by rewrite !app_assoc_s. Qed.

Lemma Replace1_cases s old new :
  (exists t u, s = t +:+ old +:+ u /\ Replace1 s old new = t +:+ new +:+ u) \/ Replace1 s old new = s.
Proof.
  unfold Replace1. destruct (Index s old) as [i|] eqn:E; [|by right]. left.
  apply Index_spec in E as (u & Hu & Hi). exists (str_take i s), u. split.
  - rewrite <- Hu. by rewrite take_drop_s.
  - assert (forall m n (w : string), str_drop (m + n) w = str_drop n (str_drop m w)) as Hdrop.
    { intros m. induction m as [|m IH]; intros n w; [done|]. destruct w; [by destruct n|apply IH]. }
    by rewrite Hdrop, Hu, drop_app.
Qed.

Lemma replace_from_skip old new : forall t u, replace_from old new (t +:+ u) (str_len t) = replace_from old new u O.
Proof. induction t as [|c t IH]; intros u; [done|]. rewrite app_cons_s. cbn. apply IH. Qed.

(** The first occurrence is replaced, the search goes on after it. *)
Lemma ReplaceAll_first t old u new : old <> "" ->
  Index (t +:+ old +:+ u) old = Some (str_len t) -> ReplaceAll (t +:+ old +:+ u) old new = t +:+ new +:+ ReplaceAll u old new.
Proof.
  destruct old as [|c old]; [done|]. intros _. unfold ReplaceAll. induction t as [|a t IH]; intros Hi.
  - rewrite !app_nil_l_s. rewrite app_cons_s. cbn [replace_from]. rewrite <- (app_cons_s c old u), HasPrefix_app.
    f_equal. cbn [str_len]. replace (S (str_len old) - 1)%nat with (str_len old) by lia. apply replace_from_skip.
  - rewrite (app_cons_s a t), (app_cons_s a t (new +:+ _)) in *. cbn [replace_from Index str_len] in *.
    destruct (HasPrefix _ _); [done|]. f_equal. apply IH. by destruct (Index _ _); simplify_eq/=.
Qed.

Lemma ReplaceAll_absent s old new : old <> "" -> Index s old = None -> ReplaceAll s old new = s.
Proof.
  destruct old as [|c old]; [done|]. intros _. unfold ReplaceAll. induction s as [|a s IH]; intros Hi; [done|].
  cbn [Index replace_from] in *. destruct (HasPrefix _ _); [done|]. f_equal. apply IH. by destruct (Index _ _).
Qed.

(** ** Splitting and joining *)

Lemma Split_nonempty s sep : Split s sep <> [].
Proof.
  induction s as [|a s IH]; cbn; [done|]. case_bool_decide; [done|]. by destruct (Split s sep).
Qed.

Lemma Join_cons p ps sep : ps <> [] -> Join (p :: ps) sep = p +:+ sep +:+ Join ps sep.
Proof. by destruct ps. Qed.

Lemma Join_Split s sep : Join (Split s sep) (single sep) = s.
Proof.
  induction s as [|a s IH]; [done|]. cbn [Split]. case_bool_decide as E.
  - subst a. rewrite Join_cons by apply Split_nonempty. by rewrite IH.
  - pose proof (Split_nonempty s sep) as Hne. destruct (Split s sep) as [|p ps]; [done|].
    destruct ps as [|q ps]; [cbn in *; by rewrite IH|].
    rewrite Join_cons in IH |- * by done. rewrite app_cons_s. by rewrite IH.
Qed.

Definition no_char (c : ascii) (s : string) : Prop := count_char c s = O.

Lemma no_char_cons c a s : no_char c (String a s) <-> a <> c /\ no_char c s.
Proof. unfold no_char. cbn. case_bool_decide; split; intros; [lia|naive_solver|split; [done|lia]|naive_solver]. Qed.

Lemma count_char_app c s t : count_char c (s +:+ t) = (count_char c s + count_char c t)%nat.
Proof. induction s as [|a s IH]; [done|]. rewrite app_cons_s. cbn. rewrite IH. lia. Qed.

Lemma no_char_app c s t : no_char c (s +:+ t) <-> no_char c s /\ no_char c t.
Proof. unfold no_char. rewrite count_char_app. lia. Qed.

Lemma Split_no_sep s sep : Forall (no_char sep) (Split s sep).
Proof.
  induction s as [|a s IH]; cbn; [by repeat constructor|].
  case_bool_decide; [by constructor|]. destruct (Split s sep) as [|p ps].
  - constructor; [|constructor]. by apply no_char_cons.
  - apply Forall_cons in IH as [Hp Hps]. constructor; [|done]. by apply no_char_cons.
Qed.

Lemma Split_plain s sep : no_char sep s -> Split s sep = [s].
Proof.
  induction s as [|a s IH]; [done|]. rewrite no_char_cons. intros [Ha Hs]. cbn.
  rewrite bool_decide_false by done. by rewrite IH.
Qed.

Lemma Split_app_sep p t sep : no_char sep p -> Split (p +:+ String sep t) sep = p :: Split t sep.
Proof.
  induction p as [|a p IH].
  - intros _. rewrite app_nil_l_s. cbn. by rewrite bool_decide_true.
  - rewrite no_char_cons. intros [Ha Hp]. rewrite app_cons_s. cbn.
    rewrite bool_decide_false by done. by rewrite IH.
Qed.

Lemma Cut_app p t sep : no_char sep p -> Cut (p +:+ String sep t) sep = Some (p, t).
Proof.
  induction p as [|a p IH].
  - intros _. rewrite app_nil_l_s. cbn. by rewrite bool_decide_true.
  - rewrite no_char_cons. intros [Ha Hp]. rewrite app_cons_s. cbn.
    rewrite bool_decide_false by done. by rewrite IH.
Qed.

Lemma Split_Join ps sep :
  ps <> [] -> Forall (no_char sep) ps -> Split (Join ps (single sep)) sep = ps.
Proof.
  intros Hne H. induction H as [|p ps Hp Hps IH]; [done|]. destruct ps as [|q ps].
  - by apply Split_plain.
  - rewrite Join_cons by done. change (single sep +:+ ?x) with (String sep x).
    rewrite Split_app_sep by done. f_equal. by apply IH.
Qed.

(** ** Decimal numerals *)

Lemma digit_char_spec d :
  0 <= d < 10 -> is_digit (digit_char d) = true /\ digit_val (digit_char d) = d.
Proof.
  intros H. unfold is_digit, digit_val, digit_char. rewrite nat_ascii_embedding by lia.
  rewrite andb_true_iff, !Nat.leb_le. lia.
Qed.

Lemma digits_value_app s t acc :
  digits_value acc (s +:+ t) = v ← digits_value acc s; digits_value v t.
Proof.
  revert acc. induction s as [|c s IH]; intros acc; [done|]. rewrite app_cons_s. cbn.
  destruct (is_digit c); [apply IH|done].
Qed.

Lemma dec_go_value fuel : forall n acc,
  0 <= n < 2 ^ Z.of_nat fuel ->
  forall a, exists k, 0 <= k /\
    digits_value a (dec_go fuel n acc) = digits_value (a * 10 ^ k + n) acc.
Proof.
  induction fuel as [|fuel IH]; intros n acc Hn a.
  - exists 0. cbn in *. split; [lia|]. f_equal. lia.
  - cbn [dec_go]. pose proof (Z.mod_pos_bound n 10 ltac:(lia)) as Hm.
    destruct (digit_char_spec (n mod 10) Hm) as [Hd Hv].
    destruct (n <? 10) eqn:E.
    + apply Z.ltb_lt in E. exists 1. split; [lia|]. cbn [digits_value]. rewrite Hd, Hv.
      f_equal. rewrite Z.mod_small by lia. lia.
    + apply Z.ltb_ge in E.
      assert (0 <= n / 10 < 2 ^ Z.of_nat fuel) as Hn'.
      { split; [apply Z.div_pos; lia|]. apply Z.div_lt_upper_bound; [lia|].
        rewrite Nat2Z.inj_succ, Z.pow_succ_r in Hn by lia. lia. }
      destruct (IH (n / 10) (String (digit_char (n mod 10)) acc) Hn' a) as (k & Hk & ->).
      exists (k + 1). split; [lia|]. cbn [digits_value]. rewrite Hd, Hv. f_equal.
      rewrite Z.pow_add_r by lia. pose proof (Z.div_mod n 10 ltac:(lia)). lia.
Qed.

Lemma dec_go_nonempty fuel n acc : dec_go (S fuel) n acc <> "".
Proof.
  revert n acc. induction fuel as [|fuel IH]; intros n acc; cbn [dec_go]; destruct (_ <? _); try done.
  apply IH.
Qed.

Lemma log2_fuel n : 0 <= n -> 0 <= n < 2 ^ Z.of_nat (S (Z.to_nat (Z.log2 n))).
Proof.
  intros Hn. rewrite Nat2Z.inj_succ, Z2Nat.id by apply Z.log2_nonneg. split; [done|].
  destruct (decide (n = 0)) as [->|]; [cbn; lia|].
  replace (Z.succ (Z.log2 n)) with (Z.log2 n + 1) by lia.
  pose proof (Z.log2_spec n ltac:(lia)) as [_ H]. by replace (Z.log2 n + 1) with (Z.succ (Z.log2 n)) by lia.
Qed.

Lemma digits_value_FormatUint n : 0 <= n -> digits_value 0 (FormatUint n) = Some n.
Proof.
  intros Hn. unfold FormatUint. destruct (dec_go_value _ n "" (log2_fuel n Hn) 0) as (k & _ & ->).
  cbn. f_equal.
Qed.

(** Printing then parsing an unsigned integer. *)
Lemma ParseUint_FormatUint n : 0 <= n < 2 ^ 64 -> ParseUint (FormatUint n) = Some n.
Proof.
  intros Hn. unfold FormatUint. pose proof (log2_fuel n ltac:(lia)) as Hf.
  destruct (dec_go_value _ n "" Hf 0) as (k & _ & Hv).
  set (s := dec_go _ n "") in *.
  assert (s <> "") as Hne by apply dec_go_nonempty.
  unfold ParseUint. destruct s as [|c s']; [done|]. rewrite Hv. cbn [digits_value].
  replace (0 * 10 ^ k + n) with n by lia. cbn. by rewrite (proj2 (Z.ltb_lt n (2 ^ 64))) by lia.
Qed.

Lemma forall_chars_app f s t : forall_chars f (s +:+ t) = forall_chars f s && forall_chars f t.
Proof. induction s as [|a s IH]; [done|]. rewrite app_cons_s. cbn. by rewrite IH, andb_assoc. Qed.

Lemma dec_go_digits fuel : forall n acc,
  0 <= n -> forall_chars is_digit acc = true -> forall_chars is_digit (dec_go fuel n acc) = true.
Proof.
  induction fuel as [|fuel IH]; intros n acc Hn Hacc; [done|]. cbn [dec_go].
  pose proof (Z.mod_pos_bound n 10 ltac:(lia)) as Hm.
  destruct (digit_char_spec (n mod 10) Hm) as [Hd _].
  assert (forall_chars is_digit (String (digit_char (n mod 10)) acc) = true) by (cbn; by rewrite Hd).
  destruct (n <? 10); [done|]. apply IH; [|done]. apply Z.div_pos; lia.
Qed.

Lemma FormatUint_digits n : 0 <= n -> forall_chars is_digit (FormatUint n) = true.
Proof. intros. by apply dec_go_digits. Qed.

(** ** Replacing what follows a separator *)

Lemma HasPrefix_sep c s v p : no_char c p -> HasPrefix (s +:+ String c v) p = HasPrefix s p.
Proof.
  revert p. induction s as [|a s IH]; intros [|b p]; intros Hp; try done.
  - apply no_char_cons in Hp as [Hb _]. rewrite app_nil_l_s. cbn. by rewrite bool_decide_eq_false_2.
  - apply no_char_cons in Hp as [_ Hp]. rewrite app_cons_s. cbn. by rewrite IH.
Qed.

Lemma replace_skip_plain c p new s u : no_char c s ->
  replace_from (String c p) new (s +:+ u) O = s +:+ replace_from (String c p) new u O.
Proof.
  induction s as [|a s IH]; [done|]. intros [Ha Hs]%no_char_cons. rewrite !app_cons_s. cbn [replace_from HasPrefix].
  rewrite bool_decide_eq_false_2 by done. cbn [andb]. by rewrite IH.
Qed.

(** A separator and a text after it, replaced: part by part. *)
Definition after_sep (p p' s : string) : string := if HasPrefix s p then p' +:+ str_drop (str_len p) s else s.

Lemma ReplaceAll_sep c p p' s0 parts : no_char c p -> Forall (no_char c) (s0 :: parts) ->
  ReplaceAll (Join (s0 :: parts) (single c)) (String c p) (String c p') = Join (s0 :: map (after_sep p p') parts) (single c).
Proof.
  intros Hp. unfold ReplaceAll. revert s0. induction parts as [|s1 parts IH]; intros s0 Hall; apply Forall_cons in Hall as [H0 Hall].
  - cbn. rewrite <- (app_nil_s s0) at 1. rewrite replace_skip_plain by done. cbn. by rewrite app_nil_s.
  - cbn [map]. rewrite !(Join_cons s0) by done. rewrite replace_skip_plain by done. f_equal.
    change (single c +:+ ?x) with (String c x). set (t := Join (s1 :: parts) (single c)) in *.
    assert (HasPrefix (String c t) (String c p) = HasPrefix s1 p) as He.
    { cbn. rewrite bool_decide_eq_true_2 by done. cbn [andb]. unfold t. destruct parts as [|s2 parts]; [done|].
      by apply HasPrefix_sep. }
    cbn [replace_from]. rewrite He. unfold after_sep. destruct (HasPrefix s1 p) eqn:E.
    + apply HasPrefix_spec in E as [r ->]. rewrite drop_app. cbn [str_len].
      replace (S (str_len p) - 1)%nat with (str_len p) by lia.
      assert (t = p +:+ Join (r :: parts) (single c)) as ->.
      { unfold t. destruct parts as [|s2 parts]; [done|]. rewrite (Join_cons (p +:+ r)), (Join_cons r) by done. by rewrite app_assoc_s. }
      rewrite replace_from_skip, app_cons_s. f_equal. apply Forall_cons in Hall as [H1 Hall]. apply no_char_app in H1 as [_ H1].
      rewrite IH by (by constructor). destruct parts as [|s2 parts]; [done|]. cbn [map].
      rewrite (Join_cons r), (Join_cons (p' +:+ r)) by done. by rewrite app_assoc_s.
    + change (single c +:+ ?x) with (String c x). f_equal. by apply IH.
Qed.

(** ** Decimal numbers with a sign, and separators that are strings *)

(** The verb [%d] and [strconv.Itoa]. *)
Definition Itoa (n : Z) : string := if n <? 0 then String "-" (FormatUint (- n)) else FormatUint n.

Lemma FormatUint_cons n : exists a s, FormatUint n = String a s.
Proof. unfold FormatUint. destruct (dec_go _ n "") eqn:E; [by apply dec_go_nonempty in E|eauto]. Qed.

Lemma Itoa_no_char c n : is_digit c = false -> c <> "-"%char -> no_char c (Itoa n).
Proof.
  intros Hc Hm. assert (forall m, 0 <= m -> no_char c (FormatUint m)) as H.
  { intros m Hm0. pose proof (FormatUint_digits m Hm0) as Hd. revert Hd. generalize (FormatUint m). intros s.
    induction s as [|a s IH]; [done|]. cbn. intros [Ha Hs]%andb_prop. apply no_char_cons.
    split; [intros ->; congruence|by apply IH]. }
  unfold Itoa. destruct (n <? 0) eqn:E; [|apply H; lia]. apply no_char_cons. split; [congruence|apply H; lia].
Qed.

Lemma Atoi_Itoa n : in_int64 n -> Atoi (Itoa n) = Some n.
Proof.
  intros Hn. unfold in_int64 in Hn. unfold Itoa, Atoi. destruct (n <? 0) eqn:E.
  - destruct (FormatUint_cons (- n)) as (a & s & Hs). pose proof (digits_value_FormatUint (- n) ltac:(lia)) as Hv.
    rewrite Hs in *. cbn -[digits_value] in *. rewrite Hv. cbn. rewrite decide_True by lia. f_equal. lia.
  - destruct (FormatUint_cons n) as (a & s & Hs). pose proof (digits_value_FormatUint n ltac:(lia)) as Hv.
    pose proof (FormatUint_digits n ltac:(lia)) as Hd. rewrite Hs in *. cbn [forall_chars] in Hd.
    apply andb_prop in Hd as [Ha _].
    destruct a as [[|] [|] [|] [|] [|] [|] [|] [|]]; try discriminate Ha; cbn -[digits_value]; rewrite Hv; cbn;
      by rewrite decide_True by lia.
Qed.

(** [strings.Split(s, sep)] for a separator that is not empty. *)
Definition split_from (sep : string) : string -> nat -> list string :=
  fix go s skip := match s with
    | EmptyString => [""]
    | String c s' =>
        match skip with
        | S k => go s' k
        | O => if HasPrefix s sep then "" :: go s' (str_len sep - 1)%nat
               else match go s' O with p :: ps => String c p :: ps | [] => [single c] end
        end
    end.
Definition SplitStr (s sep : string) : list string := split_from sep s O.

Lemma split_from_skip sep : forall t u, split_from sep (t +:+ u) (str_len t) = split_from sep u O.
Proof. induction t as [|c t IH]; intros u; [done|]. rewrite app_cons_s. cbn. apply IH. Qed.

Lemma SplitStr_nonempty s sep : SplitStr s sep <> [].
Proof.
  unfold SplitStr. assert (forall n, split_from sep s n <> []) as H; [|apply H].
  induction s as [|c s IH]; intros [|n]; [done..| |apply IH].
  cbn [split_from]. destruct (HasPrefix _ _); [done|]. by destruct (split_from sep s 0).
Qed.

(** The part before the first separator, and the parts of the rest. *)
Lemma SplitStr_first t sep u : sep <> "" ->
  Index (t +:+ sep +:+ u) sep = Some (str_len t) -> SplitStr (t +:+ sep +:+ u) sep = t :: SplitStr u sep.
Proof.
  destruct sep as [|c sep]; [done|]. intros _. unfold SplitStr. induction t as [|a t IH]; intros Hi.
  - rewrite !app_nil_l_s. rewrite app_cons_s. cbn [split_from]. rewrite <- (app_cons_s c sep u), HasPrefix_app.
    f_equal. cbn [str_len]. replace (S (str_len sep) - 1)%nat with (str_len sep) by lia. apply split_from_skip.
  - rewrite (app_cons_s a t) in *. cbn [split_from Index str_len] in *.
    destruct (HasPrefix _ _); [done|]. rewrite IH; [done|]. by destruct (Index _ _); simplify_eq/=.
Qed.

Lemma SplitStr_absent s sep : sep <> "" -> Index s sep = None -> SplitStr s sep = [s].
Proof.
  destruct sep as [|c sep]; [done|]. intros _. unfold SplitStr. induction s as [|a s IH]; intros Hi; [done|].
  cbn [Index split_from] in *. destruct (HasPrefix _ _); [done|]. rewrite IH; [done|]. by destruct (Index _ _).
Qed.

(** A separator whose first character is not in the rest of it: the first
    occurrence is the one put there. *)
Lemma Index_app_first c p t u : no_char c p -> Index t (String c p) = None ->
  Index (t +:+ String c p +:+ u) (String c p) = Some (str_len t).
Proof.
  intros Hp. induction t as [|a t IH]; intros Ht.
  - rewrite app_nil_l_s. pose proof (HasPrefix_app (String c p) u) as H. rewrite app_cons_s in *. cbn [Index]. by rewrite H.
  - cbn [Index HasPrefix] in Ht. rewrite (app_cons_s a t). cbn [Index HasPrefix str_len].
    rewrite (app_cons_s c p u), HasPrefix_sep by done. destruct (_ && _) in Ht |- *; [done|].
    rewrite <- (app_cons_s c p u), IH; [done|]. by destruct (Index t _).
Qed.

Lemma Index_no_char c p t : no_char c t -> Index t (String c p) = None.
Proof.
  induction t as [|a t IH]; intros Ht; [done|]. apply no_char_cons in Ht as [Ha Ht]. cbn [Index HasPrefix].
  rewrite bool_decide_eq_false_2 by done. cbn [andb]. by rewrite IH.
Qed.

(** No occurrence spans a character that the searched text has not. *)
Lemma Index_none_app p t a u : no_char a p -> Index t p = None -> Index (String a u) p = None ->
  Index (t +:+ String a u) p = None.
Proof.
  intros Ha. induction t as [|b t IH]; intros Ht Hu; [done|]. cbn [Index] in Ht. rewrite app_cons_s. cbn [Index].
  change (String b (t +:+ String a u)) with (String b t +:+ String a u). rewrite HasPrefix_sep by done.
  destruct (HasPrefix (String b t) p) in Ht |- *; [done|]. rewrite IH; [done| |done]. by destruct (Index t p).
Qed.

#[export] Hint Resolve HasPrefix_app Split_nonempty Split_no_sep : milady.
