(* ===== verification/GoFloat.v ===== *)
(** * Go's float64

    The [float64] of Go is IEEE 754 binary64 with round to nearest even; the
    model is the Standard Library's executable [spec_float] at precision 53 and
    maximal exponent 1024.  The part the packages rely on is proved: integers
    below [2^53] convert exactly, and their sums and comparisons are exact.

    The conversion [int64(f)] of a value that does not fit is left
    implementation dependent by the Go specification; it is the parameter
    [oor] of the class [Platform]. *)

From Stdlib Require Import SpecFloat.
From S2P Require Import Prelude.

Definition float64 : Type := spec_float.

Definition prec64 : Z := 53.
Definition emax64 : Z := 1024.

Definition fadd : float64 -> float64 -> float64 := SFadd prec64 emax64.
Definition fsub : float64 -> float64 -> float64 := SFsub prec64 emax64.
Definition fmul : float64 -> float64 -> float64 := SFmul prec64 emax64.
Definition fdiv : float64 -> float64 -> float64 := SFdiv prec64 emax64.
Definition fltb : float64 -> float64 -> bool := SFltb.

(** [float64(n)] for an integer [n]. *)
Definition f_of_Z (n : Z) : float64 := binary_normalize prec64 emax64 n 0 false.

Definition f0 : float64 := S754_zero false.
Definition max_float64 : float64 := S754_finite false (2 ^ 53 - 1)%positive 971.

(** Decimal constants of the source are the correctly rounded quotient of two
    exactly represented integers. *)
Definition f_ratio (p q : Z) : float64 := fdiv (f_of_Z p) (f_of_Z q).

(** The integer part (truncation towards zero) of a finite value. *)
Definition f_trunc (f : float64) : option Z :=
  match f with
  | S754_zero _ => Some 0
  | S754_finite s m e =>
      let v := if 0 <=? e then Zpos m * 2 ^ e else Zpos m / 2 ^ (- e) in
      Some (if s then - v else v)
  | _ => None
  end.

Class Platform : Type := { oor : float64 -> Z; oor_range : forall f, in_int64 (oor f) }.

(** [int64(f)]. *)
Definition int64_of_float `{Platform} (f : float64) : Z :=
  match f_trunc f with
  | Some z => if decide (int64_min <= z <= int64_max) then z else oor f
  | None => oor f
  end.

(** amd64: [CVTTSD2SQ] yields the integer indefinite value. *)
Definition amd64 : Platform.
Proof.
  refine {| oor := fun _ => int64_min |}.
  intros _. unfold in_int64, int64_min, int64_max. lia.
Defined.

(** arm64: [FCVTZS] saturates (NaN gives 0). *)
Definition arm64_oor (f : float64) : Z :=
  match f with
  | S754_nan | S754_zero _ => 0
  | S754_infinity s | S754_finite s _ _ => if s then int64_min else int64_max
  end.
Definition arm64 : Platform.
Proof.
  refine {| oor := arm64_oor |}.
  intros []; cbn; unfold in_int64, int64_min, int64_max; try destruct s; lia.
Defined.

(** [math.Max] and [math.Min], with Go's rules for infinities, NaN and signed
    zeros. *)
Definition f_is_nan (f : float64) : bool := match f with S754_nan => true | _ => false end.
Definition f_max (x y : float64) : float64 :=
  match x, y with
  | S754_infinity false, _ | _, S754_infinity false => S754_infinity false
  | S754_nan, _ | _, S754_nan => S754_nan
  | S754_zero true, S754_zero _ => y
  | S754_zero false, S754_zero _ => x
  | _, _ => if fltb y x then x else y
  end.
Definition f_min (x y : float64) : float64 :=
  match x, y with
  | S754_infinity true, _ | _, S754_infinity true => S754_infinity true
  | S754_nan, _ | _, S754_nan => S754_nan
  | S754_zero true, S754_zero _ => x
  | S754_zero false, S754_zero _ => y
  | _, _ => if fltb x y then x else y
  end.

(** [math.Floor] and [math.Ceil]. *)
Definition f_floor (f : float64) : float64 :=
  match f with
  | S754_finite s m e =>
      if 0 <=? e then f
      else let q := (if s then - Zpos m else Zpos m) / 2 ^ (- e) in
           if q =? 0 then S754_zero s else f_of_Z q
  | _ => f
  end.
Definition f_ceil (f : float64) : float64 := SFopp (f_floor (SFopp f)).

(** ** Exactness of small integers *)

Definition digits (m : positive) : Z := Zpos (digits2_pos m).

Lemma digits_bounds m : 2 ^ (digits m - 1) <= Zpos m < 2 ^ digits m.
Proof.
  unfold digits. induction m as [m IH|m IH|]; simpl digits2_pos.
  - rewrite Pos2Z.inj_succ.
    replace (Z.succ (Zpos (digits2_pos m)) - 1) with (Zpos (digits2_pos m) - 1 + 1) by lia.
    rewrite Z.pow_succ_r by lia. rewrite Z.pow_add_r by lia. lia.
  - rewrite Pos2Z.inj_succ.
    replace (Z.succ (Zpos (digits2_pos m)) - 1) with (Zpos (digits2_pos m) - 1 + 1) by lia.
    rewrite Z.pow_succ_r by lia. rewrite Z.pow_add_r by lia. lia.
  - simpl. lia.
Qed.

Lemma digits_unique m d : 1 <= d -> 2 ^ (d - 1) <= Zpos m < 2 ^ d -> digits m = d.
Proof.
  intros Hd [H1 H2]. pose proof (digits_bounds m) as [H3 H4].
  assert (d - 1 < digits m) by (apply (Z.pow_lt_mono_r_iff 2); unfold digits in *; lia).
  assert (digits m - 1 < d) by (apply (Z.pow_lt_mono_r_iff 2); unfold digits in *; lia).
  lia.
Qed.

Lemma digits_pos m : 1 <= digits m.
Proof. unfold digits. lia. Qed.

Lemma digits_le m d : 0 <= d -> Zpos m < 2 ^ d -> digits m <= d.
Proof.
  intros Hd H. pose proof (digits_bounds m) as [H1 _].
  assert (digits m - 1 < d); [|lia].
  apply (Z.pow_lt_mono_r_iff 2); lia.
Qed.

(** [m * 2^k] as a positive. *)
Definition scale (m : positive) (k : Z) : positive := Z.to_pos (Zpos m * 2 ^ k).

Lemma Zpos_scale m k : 0 <= k -> Zpos (scale m k) = Zpos m * 2 ^ k.
Proof. intros. unfold scale. rewrite Z2Pos.id; [done|]. pose proof (Z.pow_pos_nonneg 2 k). nia. Qed.

Lemma scale_0 m : scale m 0 = m.
Proof. apply Pos2Z.inj. rewrite Zpos_scale by lia. lia. Qed.

Lemma scale_scale m j k : 0 <= j -> 0 <= k -> scale (scale m j) k = scale m (j + k).
Proof.
  intros. apply Pos2Z.inj. rewrite !Zpos_scale by lia. rewrite Z.pow_add_r by lia. lia.
Qed.

Lemma digits_scale m k : 0 <= k -> digits (scale m k) = digits m + k.
Proof.
  intros Hk. pose proof (digits_pos m). pose proof (digits_bounds m) as [H1 H2].
  pose proof (Z.pow_pos_nonneg 2 k).
  apply digits_unique; [lia|]. rewrite Zpos_scale by lia.
  replace (digits m + k - 1) with (digits m - 1 + k) by lia.
  rewrite !Z.pow_add_r by lia. nia.
Qed.

Lemma iter_xO_scale m p : Pos.iter xO m p = scale m (Zpos p).
Proof.
  apply Pos2Z.inj. rewrite Zpos_scale by lia.
  induction p as [|p IH] using Pos.peano_ind; [simpl; lia|].
  rewrite Pos.iter_succ, Pos2Z.inj_xO, IH, Pos2Z.inj_succ, Z.pow_succ_r by lia. lia.
Qed.

Lemma shl_align_down m e e' :
  e' <= e -> shl_align m e e' = (scale m (e - e'), e').
Proof.
  intros H. unfold shl_align. destruct (e' - e) eqn:E; [|lia|].
  - replace e' with e by lia. by rewrite Z.sub_diag, scale_0.
  - rewrite iter_xO_scale. do 2 f_equal. lia.
Qed.

Lemma iter_shr_exact p m :
  SpecFloat.iter_pos shr_1 p {| shr_m := Zpos (scale m (Zpos p)); shr_r := false; shr_s := false |} =
  {| shr_m := Zpos m; shr_r := false; shr_s := false |}.
Proof.
  revert m. induction p as [p IH|p IH|]; intros m; simpl SpecFloat.iter_pos.
  - assert (scale m (Zpos p~1) = xO (scale (scale m (Zpos p)) (Zpos p))) as ->.
    { apply Pos2Z.inj. rewrite Pos2Z.inj_xO, !Zpos_scale by lia.
      rewrite Pos2Z.inj_xI, Z.pow_add_r, Z.pow_twice_r by lia. lia. }
    simpl shr_1. by rewrite !IH.
  - assert (scale m (Zpos p~0) = scale (scale m (Zpos p)) (Zpos p)) as ->.
    { rewrite scale_scale by lia. f_equal. lia. }
    by rewrite !IH.
  - assert (scale m 1 = xO m) as ->; [|done].
    apply Pos2Z.inj. rewrite Zpos_scale by lia. lia.
Qed.

(** The canonical binary64 of a positive integer below [2^53]. *)
Definition canon (m : positive) : float64 :=
  S754_finite false (scale m (53 - digits m)) (digits m - 53).

Lemma fexp_small d e : d <= 53 -> -1021 <= d -> fexp prec64 emax64 (d + e - e) = d - 53.
Proof. intros. unfold fexp, emin, prec64, emax64. lia. Qed.

Lemma shr_fexp_exact m k e :
  digits m + e <= 53 -> -1021 <= digits m + e -> 0 <= k ->
  digits m + e - 53 - e = 0 ->
  shr_fexp prec64 emax64 (Zpos (scale m k)) (e - k) loc_Exact =
  ({| shr_m := Zpos m; shr_r := false; shr_s := false |}, e).
Proof.
  intros H1 H2 Hk H3. unfold shr_fexp, shr. simpl Zdigits2.
  change (Z.pos (digits2_pos (scale m k))) with (digits (scale m k)).
  rewrite digits_scale by lia.
  assert (fexp prec64 emax64 (digits m + k + (e - k)) - (e - k) = k) as ->.
  { unfold fexp, emin, prec64, emax64. lia. }
  destruct k as [|k|k]; [|  |lia].
  - rewrite scale_0, Z.sub_0_r. done.
  - simpl shr_record_of_loc. rewrite iter_shr_exact. f_equal. lia.
Qed.

Lemma binary_round_aux_exact m j :
  digits m <= 53 -> 53 - digits m <= j ->
  binary_round_aux prec64 emax64 false (Zpos (scale m j)) (- j) loc_Exact = canon m.
Proof.
  intros Hd Hj. pose proof (digits_pos m) as Hd1.
  set (c := scale m (53 - digits m)).
  assert (Hc : digits c = 53) by (unfold c; rewrite digits_scale; lia).
  replace j with (53 - digits m + (j - (53 - digits m))) by lia.
  rewrite <- scale_scale by lia. fold c.
  replace (- (53 - digits m + (j - (53 - digits m))))
    with (digits m - 53 - (j - (53 - digits m))) by lia.
  unfold binary_round_aux. rewrite shr_fexp_exact by lia. simpl.
  pose proof (shr_fexp_exact c 0 (digits m - 53)) as Hz.
  rewrite scale_0, Z.sub_0_r in Hz. rewrite Hz by lia. simpl.
  destruct (digits m - 53 <=? emax64 - prec64) eqn:E; [done|].
  apply Z.leb_gt in E. unfold emax64, prec64 in E. lia.
Qed.

Lemma binary_round_exact m k :
  digits m <= 53 -> 0 <= k ->
  binary_round prec64 emax64 false (scale m k) (- k) = canon m.
Proof.
  intros Hd Hk. pose proof (digits_pos m) as Hd1. unfold binary_round.
  change (Z.pos (digits2_pos (scale m k))) with (digits (scale m k)).
  rewrite digits_scale by lia.
  replace (fexp prec64 emax64 (digits m + k + - k)) with (digits m - 53)
    by (unfold fexp, emin, prec64, emax64; lia).
  destruct (decide (digits m - 53 <= - k)).
  - rewrite shl_align_down by lia. rewrite scale_scale by lia.
    replace (k + (- k - (digits m - 53))) with (53 - digits m) by lia.
    replace (digits m - 53) with (- (53 - digits m)) by lia.
    apply binary_round_aux_exact; lia.
  - unfold shl_align. destruct (digits m - 53 - - k) eqn:E; [lia| |lia].
    apply binary_round_aux_exact; lia.
Qed.

Lemma small_digits m : Zpos m < 2 ^ 53 -> digits m <= 53.
Proof. apply digits_le. lia. Qed.

Lemma f_of_Z_canon m : Zpos m < 2 ^ 53 -> f_of_Z (Zpos m) = canon m.
Proof.
  intros H. unfold f_of_Z, binary_normalize.
  pose proof (binary_round_exact m 0 (small_digits _ H) ltac:(lia)) as Hr.
  by rewrite scale_0 in Hr.
Qed.

(** Sums of integers are exact below [2^53]. *)
Lemma fadd_exact a b :
  0 <= a -> 0 <= b -> a + b < 2 ^ 53 -> fadd (f_of_Z a) (f_of_Z b) = f_of_Z (a + b).
Proof.
  intros Ha Hb Hab. destruct a as [|a|a]; [|destruct b as [|b|b]; [| |lia]|lia].
  - destruct b as [|b|b]; [done| |lia]. rewrite f_of_Z_canon by lia.
    rewrite Z.add_0_l. rewrite f_of_Z_canon by lia. done.
  - rewrite Z.add_0_r. rewrite f_of_Z_canon by lia. done.
  - replace (Zpos a + Zpos b) with (Zpos (a + b)) by lia.
    rewrite !f_of_Z_canon by lia. unfold fadd, canon, SFadd.
    pose proof (small_digits a ltac:(lia)). pose proof (small_digits b ltac:(lia)).
    set (ez := Z.min (digits a - 53) (digits b - 53)).
    rewrite !shl_align_down by lia. simpl fst. simpl cond_Zopp.
    rewrite !scale_scale by lia.
    replace (53 - digits a + (digits a - 53 - ez)) with (- ez) by lia.
    replace (53 - digits b + (digits b - 53 - ez)) with (- ez) by lia.
    rewrite !Zpos_scale by lia.
    rewrite <- Z.mul_add_distr_r.
    replace (Zpos a + Zpos b) with (Zpos (a + b)) by lia.
    rewrite <- Zpos_scale by lia. unfold binary_normalize.
    pose proof (binary_round_exact (a + b) (- ez)) as Hr.
    rewrite Z.opp_involutive in Hr. apply Hr; [apply small_digits; lia|lia].
Qed.

(** Products of integers are exact below [2^53]. *)
Lemma fmul_exact a b :
  0 <= a -> 0 <= b -> a * b < 2 ^ 53 -> a < 2 ^ 53 -> b < 2 ^ 53 ->
  fmul (f_of_Z a) (f_of_Z b) = f_of_Z (a * b).
Proof.
  intros Ha Hb Hab Ha' Hb'. destruct a as [|a|a]; [|destruct b as [|b|b]; [| |lia]|lia].
  - destruct b as [|b|b]; [done| |lia]. by rewrite (f_of_Z_canon b) by lia.
  - by rewrite (f_of_Z_canon a) by lia.
  - change (Zpos a * Zpos b) with (Zpos (a * b)) in *.
    rewrite !f_of_Z_canon by lia. unfold fmul, canon, SFmul. simpl xorb.
    pose proof (small_digits a ltac:(lia)). pose proof (small_digits b ltac:(lia)).
    pose proof (small_digits (a * b) ltac:(lia)).
    pose proof (digits_pos a). pose proof (digits_pos b).
    pose proof (digits_pos (a * b)).
    set (j := 53 - digits a + (53 - digits b)).
    replace (Zpos (scale a (53 - digits a) * scale b (53 - digits b))) with (Zpos (scale (a * b) j)).
    2:{ rewrite Pos2Z.inj_mul, !Zpos_scale by lia. unfold j. rewrite Z.pow_add_r by lia. lia. }
    replace (digits a - 53 + (digits b - 53)) with (- j) by (unfold j; lia).
    apply binary_round_aux_exact; [done|].
    assert (digits a + digits b - 2 < digits (a * b)); [|unfold j; lia].
    apply (Z.pow_lt_mono_r_iff 2); [lia..|].
    pose proof (digits_bounds a). pose proof (digits_bounds b). pose proof (digits_bounds (a * b)).
    replace (digits a + digits b - 2) with (digits a - 1 + (digits b - 1)) by lia.
    rewrite Z.pow_add_r by lia.
    pose proof (Z.pow_pos_nonneg 2 (digits a - 1)). pose proof (Z.pow_pos_nonneg 2 (digits b - 1)).
    eapply Z.le_lt_trans; [|apply (proj2 (digits_bounds (a * b)))].
    rewrite Pos2Z.inj_mul. apply Z.mul_le_mono_nonneg; lia.
Qed.

(** Comparisons of integers are exact below [2^53]. *)
Lemma fltb_exact a b :
  0 <= a < 2 ^ 53 -> 0 <= b < 2 ^ 53 -> fltb (f_of_Z a) (f_of_Z b) = (a <? b).
Proof.
  intros Ha Hb. destruct a as [|a|a]; [|destruct b as [|b|b]; [| |lia]|lia].
  - destruct b as [|b|b]; [done| |lia]. by rewrite f_of_Z_canon by lia.
  - by rewrite f_of_Z_canon by lia.
  - rewrite !f_of_Z_canon by lia. unfold fltb, canon, SFltb, SFcompare.
    pose proof (small_digits a ltac:(lia)). pose proof (small_digits b ltac:(lia)).
    pose proof (digits_bounds a). pose proof (digits_bounds b).
    pose proof (digits_pos a). pose proof (digits_pos b).
    destruct (Z.compare_spec (digits a - 53) (digits b - 53)) as [E|E|E].
    + change (Pos.compare_cont Eq) with Pos.compare.
      change (Pos.compare ?x ?y) with (Zpos x ?= Zpos y).
      rewrite !Zpos_scale by lia. replace (digits b) with (digits a) by lia.
      rewrite <- Zmult_compare_compat_r by (pose proof (Z.pow_pos_nonneg 2 (53 - digits a)); lia).
      unfold Z.ltb. by destruct (Zpos a ?= Zpos b).
    + symmetry. apply Z.ltb_lt.
      pose proof (Z.pow_le_mono_r 2 (digits a) (digits b - 1)). lia.
    + symmetry. apply Z.ltb_ge.
      pose proof (Z.pow_le_mono_r 2 (digits b) (digits a - 1)). lia.
Qed.

(** Truncation gives the integer back. *)
Lemma f_trunc_exact n : 0 <= n < 2 ^ 53 -> f_trunc (f_of_Z n) = Some n.
Proof.
  intros Hn. destruct n as [|m|m]; [done| |lia]. rewrite f_of_Z_canon by lia.
  pose proof (small_digits m ltac:(lia)). unfold f_trunc, canon.
  rewrite Zpos_scale by lia. f_equal.
  destruct (0 <=? digits m - 53) eqn:E.
  - apply Z.leb_le in E. assert (digits m = 53) as -> by lia. simpl. lia.
  - replace (- (digits m - 53)) with (53 - digits m) by lia.
    apply Z.div_mul. pose proof (Z.pow_pos_nonneg 2 (53 - digits m)). lia.
Qed.

Lemma int64_of_float_exact `{Platform} n :
  0 <= n < 2 ^ 53 -> int64_of_float (f_of_Z n) = n.
Proof.
  intros Hn. unfold int64_of_float. rewrite f_trunc_exact by done.
  rewrite decide_True; [done|]. unfold int64_min, int64_max. lia.
Qed.

Lemma int64_of_float_range `{Platform} f : in_int64 (int64_of_float f).
Proof.
  unfold int64_of_float. destruct (f_trunc f); [case_decide|]; [done|apply oor_range..].
Qed.

#[export] Hint Resolve int64_of_float_range : milady.

(** The sum of a list of integers, in floating point and exactly. *)
Definition fsum (l : list float64) : float64 := foldl fadd f0 l.
Definition zsum (l : list Z) : Z := foldr Z.add 0 l.

Lemma zsum_app l1 l2 : zsum (l1 ++ l2) = zsum l1 + zsum l2.
Proof. unfold zsum. induction l1; simpl; lia. Qed.

Lemma zsum_nonneg l : Forall (fun z => 0 <= z) l -> 0 <= zsum l.
Proof. induction 1; simpl; lia. Qed.

Lemma fsum_exact_from a l :
  0 <= a -> Forall (fun z => 0 <= z) l -> a + zsum l < 2 ^ 53 ->
  foldl fadd (f_of_Z a) (f_of_Z <$> l) = f_of_Z (a + zsum l).
Proof.
  intros Ha Hl. revert a Ha. induction Hl as [|z l Hz Hl IH]; intros a Ha Hs; simpl in *.
  - by rewrite Z.add_0_r.
  - pose proof (zsum_nonneg l Hl). rewrite fadd_exact by lia.
    rewrite IH by lia. f_equal. lia.
Qed.

Lemma fsum_exact l :
  Forall (fun z => 0 <= z) l -> zsum l < 2 ^ 53 ->
  fsum (f_of_Z <$> l) = f_of_Z (zsum l).
Proof. intros. apply (fsum_exact_from 0); [lia|done|lia]. Qed.
