(* ===== verification/Window.v ===== *)
(** * pkg/shield/window: the rolling counter

    The ring of buckets ([window.go]), its iterator ([iterator.go]), the policy
    that moves the ring with time ([policy.go]), the counter ([counter.go]) and
    the reductions ([reduce.go]).  Clock readings are explicit arguments.  A
    bucket's [next] pointer is the index of a bucket of the same window.  The
    methods of [RollingPolicy] hold its mutex throughout, so each is one atomic
    step.

    The refinement: a counter that received a sequence of timed additions
    reports exactly the additions whose time slot is among the last [size]
    slots. *)

From Stdlib Require Import SpecFloat.
From S2P Require Import Prelude GoFloat.

(** ** window.go *)

Record Bucket := mkBucket { Points : list float64; Count : Z; next : nat }.

Definition Bucket_Append (b : Bucket) (val : float64) : Bucket :=
  mkBucket (Points b ++ [val]) (wrap64 (Count b + 1)) (next b).

Definition Bucket_Add (b : Bucket) (offset : nat) (val : float64) : result string Bucket :=
  match Points b !! offset with
  | Some p => Ok (mkBucket (<[offset := fadd p val]> (Points b)) (wrap64 (Count b + 1)) (next b))
  | None => Panic
  end.

Definition Bucket_Reset (b : Bucket) : Bucket := mkBucket [] 0 (next b).

Record Window := mkWindow { buckets : list Bucket; wsize : Z }.

(** [NewWindow]: [make] panics on a negative size; each bucket points to its
    successor, the last one to the first. *)
Definition NewWindow (Size : Z) : result string Window :=
  if decide (Size < 0) then Panic
  else Ok (mkWindow
    ((fun offset : nat =>
        let nextOffset := Z.of_nat offset + 1 in
        let nextOffset := if nextOffset =? Size then 0 else nextOffset in
        mkBucket [] 0 (Z.to_nat nextOffset)) <$> seq 0 (Z.to_nat Size)) Size).

(** The index expression [offset % w.size] used to read [w.buckets]. *)
Definition ring_index (w : Window) (offset : Z) : result string Z :=
  if wsize w =? 0 then Panic else Ok (Z.rem offset (wsize w)).

Definition Window_Bucket (w : Window) (offset : Z) : result string Bucket :=
  i ← ring_index w offset; at_index (buckets w) i.

Definition set_bucket (w : Window) (i : Z) (b : Bucket) : Window :=
  mkWindow (<[Z.to_nat i := b]> (buckets w)) (wsize w).

Definition ResetBucket (w : Window) (offset : Z) : result string Window :=
  i ← ring_index w offset;
  b ← at_index (buckets w) i;
  Ok (set_bucket w i (Bucket_Reset b)).

Fixpoint reset_loop (w : Window) (offset : Z) (i : Z) (n : nat) : result string Window :=
  match n with
  | O => Ok w
  | S n' => w' ← ResetBucket w (wrap64 (offset + i)); reset_loop w' offset (i + 1) n'
  end.

Definition ResetBuckets (w : Window) (offset count : Z) : result string Window :=
  reset_loop w offset 0 (Z.to_nat count).

Definition ResetWindow (w : Window) : result string Window :=
  reset_loop w 0 0 (length (buckets w)).

Definition Window_Append (w : Window) (offset : Z) (val : float64) : result string Window :=
  i ← ring_index w offset;
  b ← at_index (buckets w) i;
  Ok (set_bucket w i (Bucket_Append b val)).

Definition Window_Add (w : Window) (offset : Z) (val : float64) : result string Window :=
  i ← ring_index w offset;
  b ← at_index (buckets w) i;
  if Count b =? 0 then Ok (set_bucket w i (Bucket_Append b val))
  else b' ← Bucket_Add b 0 val; Ok (set_bucket w i b').

(** ** iterator.go *)

Record Iterator := mkIterator { it_count : Z; iteratedCount : Z; cur : nat }.

Definition Window_Iterator (w : Window) (offset count : Z) : result string Iterator :=
  i ← ring_index w offset;
  _ ← at_index (buckets w) i;
  Ok (mkIterator count 0 (Z.to_nat i)).

Definition Iterator_Next (it : Iterator) : bool := negb (it_count it =? iteratedCount it).

Definition Iterator_Bucket (w : Window) (it : Iterator) : result string (Bucket * Iterator) :=
  if negb (Iterator_Next it) then Panic
  else match buckets w !! cur it with
       | Some bucket =>
           Ok (bucket, mkIterator (it_count it) (wrap64 (iteratedCount it + 1)) (next bucket))
       | None => Panic
       end.

(** [for iterator.Next() && cond { bucket := iterator.Bucket(); body }].  The
    loop visits at most [count] buckets; running out of fuel is the error
    below, which [iter_loop_visits] excludes. *)
Fixpoint iter_loop {A} (fuel : nat) (w : Window) (cond : A -> bool) (body : A -> Bucket -> A)
    (acc : A) (it : Iterator) : result string A :=
  if Iterator_Next it && cond acc then
    match fuel with
    | O => Err "out of fuel"%string
    | S fuel' =>
        '(b, it') ← Iterator_Bucket w it;
        iter_loop fuel' w cond body (body acc b) it'
    end
  else Ok acc.

Definition for_next {A} (w : Window) (cond : A -> bool) (body : A -> Bucket -> A) (acc : A)
    (it : Iterator) : result string A :=
  iter_loop (Z.to_nat (it_count it)) w cond body acc it.

Definition always {A} (_ : A) : bool := true.

(** ** reduce.go *)

Definition Sum (w : Window) (it : Iterator) : result string float64 :=
  for_next w always (fun result b => foldl fadd result (Points b)) f0 it.

Definition Avg (w : Window) (it : Iterator) : result string float64 :=
  '(result, count) ← for_next w always
    (fun acc b => foldl (fun '(r, c) p => (fadd r p, fadd c (f_of_Z 1))) acc (Points b)) (f0, f0) it;
  Ok (fdiv result count).

Definition Min_step (acc : float64 * bool) (p : float64) : float64 * bool :=
  let '(result, started) := acc in
  if negb started then (p, true) else (if fltb p result then p else result, started).

Definition Min (w : Window) (it : Iterator) : result string float64 :=
  '(result, _) ← for_next w always (fun acc b => foldl Min_step acc (Points b)) (f0, false) it;
  Ok result.

Definition Max_step (acc : float64 * bool) (p : float64) : float64 * bool :=
  let '(result, started) := acc in
  if negb started then (p, true) else (if fltb result p then p else result, started).

Definition Max (w : Window) (it : Iterator) : result string float64 :=
  '(result, _) ← for_next w always (fun acc b => foldl Max_step acc (Points b)) (f0, false) it;
  Ok result.

Definition Count_reduce (w : Window) (it : Iterator) : result string float64 :=
  n ← for_next w always (fun result b => wrap64 (result + Count b)) 0 it;
  Ok (f_of_Z n).

(** ** policy.go *)

Record RollingPolicy := mkPolicy {
  psize : Z; window : Window; offset : Z; bucketDuration : Z; lastAppendTime : Z }.

Definition NewRollingPolicy (w : Window) (BucketDuration now : Z) : RollingPolicy :=
  mkPolicy (wsize w) w 0 BucketDuration now.

Definition timespan (r : RollingPolicy) (now : Z) : result string Z :=
  if bucketDuration r =? 0 then Panic
  else
    let v := wrap64 (Z.quot (since now (lastAppendTime r)) (bucketDuration r)) in
    Ok (if v >? -1 then v else psize r).

Definition apply (f : Window -> Z -> float64 -> result string Window) (val : float64) (now : Z)
    (r : RollingPolicy) : result string RollingPolicy :=
  ts ← timespan r now;
  r' ← (if ts >? 0 then
          if psize r =? 0 then Panic
          else
            let start := Z.rem (wrap64 (offset r + 1)) (psize r) in
            let end_ := Z.rem (wrap64 (offset r + ts)) (psize r) in
            let ts' := if ts >? psize r then psize r else ts in
            w ← ResetBuckets (window r) start ts';
            Ok (mkPolicy (psize r) w end_ (bucketDuration r)
                  (lastAppendTime r + wrap64 (ts * bucketDuration r)))
        else Ok r);
  w ← f (window r') (offset r') val;
  Ok (mkPolicy (psize r') w (offset r') (bucketDuration r') (lastAppendTime r')).

Definition Policy_Append (val : float64) := apply Window_Append val.
Definition Policy_Add (val : float64) := apply Window_Add val.

Definition Reduce {A} (zero : A) (f : Window -> Iterator -> result string A) (now : Z)
    (r : RollingPolicy) : result string A :=
  ts ← timespan r now;
  let count := wrap64 (psize r - ts) in
  if count >? 0 then
    let off := wrap64 (offset r + ts + 1) in
    let off := if off >=? psize r then wrap64 (off - psize r) else off in
    it ← Window_Iterator (window r) off count;
    f (window r) it
  else Ok zero.

(** ** counter.go *)

Definition NewRollingCounter (Size BucketDuration now : Z) : result string RollingPolicy :=
  w ← NewWindow Size; Ok (NewRollingPolicy w BucketDuration now).

Definition Counter_Add (val now : Z) (r : RollingPolicy) : result string RollingPolicy :=
  if decide (val < 0) then Panic else Policy_Add (f_of_Z val) now r.

Definition Counter_Reduce {A} (zero : A) (f : Window -> Iterator -> result string A) (now : Z)
  (r : RollingPolicy) : result string A := Reduce zero f now r.
Definition Counter_Avg := Counter_Reduce f0 Avg.
Definition Counter_Min := Counter_Reduce f0 Min.
Definition Counter_Max := Counter_Reduce f0 Max.
Definition Counter_Sum := Counter_Reduce f0 Sum.
Definition Counter_Value `{Platform} (now : Z) (r : RollingPolicy) : result string Z :=
  s ← Counter_Sum now r; Ok (int64_of_float s).
Definition Counter_Timespan (now : Z) (r : RollingPolicy) : result string Z := timespan r now.

(** ** Ring arithmetic *)

Section Ring.
Context (n : Z) (Hn : 0 < n).

Lemma mod_to_nat_lt s : (Z.to_nat (s mod n) < Z.to_nat n)%nat.
Proof. pose proof (Z.mod_pos_bound s n Hn). lia. Qed.

Lemma slot_distinct s s' : 0 < s' - s < n -> s mod n <> s' mod n.
Proof.
  intros H E. assert ((s' - s) mod n = 0) as E'.
  { rewrite Zminus_mod, E, Z.sub_diag. apply Z.mod_0_l. lia. }
  rewrite Z.mod_small in E' by lia. lia.
Qed.

Lemma slot_eq s s' : 0 <= s' - s < n -> s mod n = s' mod n -> s = s'.
Proof. intros H E. destruct (decide (s = s')); [done|]. by destruct (slot_distinct s s'); [lia|]. Qed.

Lemma rem_mod s : 0 <= s -> Z.rem s n = s mod n.
Proof. intros. apply Z.rem_mod_nonneg; lia. Qed.

Lemma mod_wrap_add a t : (a mod n + t) mod n = (a + t) mod n.
Proof. apply Zplus_mod_idemp_l. Qed.

End Ring.

(** A window of [n] buckets, and its bucket for an absolute slot [s]. *)
Definition ring (n : Z) (w : Window) : Prop :=
  0 < n /\ wsize w = n /\ Z.of_nat (length (buckets w)) = n.

Definition at_slot (n : Z) (w : Window) (s : Z) : option Bucket :=
  buckets w !! Z.to_nat (s mod n).

Lemma ring_lookup n w s : ring n w -> exists b, at_slot n w s = Some b.
Proof.
  intros (Hn & _ & Hl). apply lookup_lt_is_Some.
  pose proof (mod_to_nat_lt n Hn s). lia.
Qed.

Lemma ring_read n w s b :
  ring n w -> 0 <= s -> at_slot n w s = Some b ->
  ring_index w s = Ok (s mod n) /\ at_index (E := string) (buckets w) (s mod n) = Ok b.
Proof.
  intros (Hn & Hs & Hl) H0 Hb. unfold ring_index. rewrite Hs.
  destruct (n =? 0) eqn:E; [lia|]. rewrite rem_mod by lia. split; [done|].
  pose proof (Z.mod_pos_bound s n Hn). rewrite <- (Z2Nat.id (s mod n)) by lia.
  apply at_index_lookup. exact Hb.
Qed.

Lemma set_bucket_ring n w i b : ring n w -> ring n (set_bucket w i b).
Proof. intros (? & ? & ?). unfold ring, set_bucket. simpl. rewrite length_insert. done. Qed.

Lemma set_bucket_same n w s b :
  ring n w -> at_slot n (set_bucket w (s mod n) b) s = Some b.
Proof.
  intros (Hn & _ & Hl). unfold at_slot, set_bucket. simpl. apply list_lookup_insert_eq.
  pose proof (mod_to_nat_lt n Hn s). lia.
Qed.

Lemma set_bucket_other n w s s' b :
  ring n w -> s mod n <> s' mod n ->
  at_slot n (set_bucket w (s mod n) b) s' = at_slot n w s'.
Proof.
  intros (Hn & _ & Hl) H. unfold at_slot, set_bucket. simpl. apply list_lookup_insert_ne.
  pose proof (Z.mod_pos_bound s n Hn). pose proof (Z.mod_pos_bound s' n Hn). lia.
Qed.

(** Whether one of the slots [off + i, ..., off + i + cnt - 1] shares the bucket
    of slot [s]. *)
Fixpoint hits (n off i : Z) (cnt : nat) (s : Z) : bool :=
  match cnt with
  | O => false
  | S cnt' => ((off + i) mod n =? s mod n) || hits n off (i + 1) cnt' s
  end.

Lemma hits_spec n off cnt s : forall i,
  hits n off i cnt s = true <->
  exists t, i <= t < i + Z.of_nat cnt /\ (off + t) mod n = s mod n.
Proof.
  induction cnt as [|cnt IH]; intros i; simpl.
  - split; [done|]. intros (t & Ht & _). lia.
  - rewrite orb_true_iff, Z.eqb_eq, IH. split.
    + intros [H|(t & Ht & H)]; eexists; (split; [|exact H]); lia.
    + intros (t & Ht & H). destruct (decide (t = i)) as [->|]; [by left|].
      right. exists t. split; [lia|done].
Qed.

(** Resetting [cnt] buckets from slot [off]: exactly the slots
    [off, ..., off + cnt - 1] are emptied, and no index is out of range. *)
Lemma reset_loop_spec n cnt : forall w off i,
  ring n w -> 0 <= off -> 0 <= i -> off + i + Z.of_nat cnt <= int64_max ->
  exists w', reset_loop w off i cnt = Ok w' /\ ring n w' /\
    forall s, at_slot n w' s =
      (if hits n off i cnt s then Bucket_Reset <$> at_slot n w s else at_slot n w s).
Proof.
  unfold int64_max. induction cnt as [|cnt IH]; intros w off i Hr Ho Hi Hb; [by exists w|].
  destruct (ring_lookup n w (off + i) Hr) as [b Hat].
  destruct (ring_read n w (off + i) b Hr ltac:(lia) Hat) as [E1 E2].
  cbn [reset_loop]. unfold ResetBucket.
  rewrite wrap64_id by (unfold in_int64, int64_min, int64_max; lia).
  rewrite E1. cbn. rewrite E2. cbn.
  set (w1 := set_bucket w ((off + i) mod n) (Bucket_Reset b)).
  destruct (IH w1 off (i + 1)) as (w' & Hw' & Hr' & Hs); [by apply set_bucket_ring|lia..|].
  exists w'. split; [exact Hw'|]. split; [done|]. intros s. rewrite Hs. simpl.
  destruct ((off + i) mod n =? s mod n) eqn:E; simpl.
  - apply Z.eqb_eq in E.
    assert (at_slot n w1 s = Some (Bucket_Reset b)) as ->.
    { unfold at_slot. rewrite <- E. by apply set_bucket_same. }
    assert (at_slot n w s = Some b) as -> by (unfold at_slot; by rewrite <- E).
    by destruct (hits _ _ _ _ _).
  - apply Z.eqb_neq in E. unfold w1. by rewrite set_bucket_other.
Qed.

(** ** The abstract view: timed events in slots *)

(** An event is the slot it fell in and the value added. *)
Definition event : Type := (Z * float64)%type.

Definition slot_vals (ev : list event) (s : Z) : list float64 :=
  (filter (fun e : event => e.1 = s) ev).*2.

(** What [Add] leaves in a bucket that received [vals]: one running total. *)
Definition fill (vals : list float64) : list float64 :=
  match vals with [] => [] | v :: vs => [foldl fadd v vs] end.

(** The bucket [b] records exactly the events of slot [s]. *)
Definition records (n : Z) (ev : list event) (s : Z) (b : Bucket) : Prop :=
  Points b = fill (slot_vals ev s) /\
  Count b = Z.of_nat (length (slot_vals ev s)) /\
  next b = Z.to_nat ((s + 1) mod n).

Record Rep (n dur T0 c : Z) (ev : list event) (r : RollingPolicy) : Prop := {
  rep_ring : ring n (window r);
  rep_psize : psize r = n;
  rep_dur : bucketDuration r = dur;
  rep_offset : offset r = c mod n;
  rep_last : lastAppendTime r = T0 + c * dur;
  rep_cur : 0 <= c;
  rep_past : Forall (fun e : event => e.1 <= c) ev;
  rep_slots : forall k, 0 <= k < n ->
    exists b, at_slot n (window r) (c - k) = Some b /\ records n ev (c - k) b }.

Lemma slot_vals_app ev s e :
  slot_vals (ev ++ [e]) s = slot_vals ev s ++ (if decide (e.1 = s) then [e.2] else []).
Proof.
  unfold slot_vals. rewrite filter_app, fmap_app. f_equal.
  rewrite filter_cons, filter_nil. by case_decide.
Qed.

Lemma slot_vals_future ev s c : Forall (fun e : event => e.1 <= c) ev -> c < s -> slot_vals ev s = [].
Proof.
  intros H Hs. unfold slot_vals.
  enough (filter (fun e : event => e.1 = s) ev = []) as -> by done.
  induction H as [|e ev He _ IH]; [done|]. rewrite filter_cons_False by lia. done.
Qed.

Lemma slot_vals_length ev s : (length (slot_vals ev s) <= length ev)%nat.
Proof. unfold slot_vals. rewrite length_fmap. apply length_filter. Qed.

Lemma new_window_rep n dur T0 :
  0 < n -> exists r, NewRollingCounter n dur T0 = Ok r /\ Rep n dur T0 0 [] r.
Proof.
  intros Hn. unfold NewRollingCounter, NewWindow. rewrite decide_False by lia. cbn.
  eexists. split; [done|]. split; cbn; try done; try lia.
  - unfold ring. cbn. rewrite length_fmap, length_seq. lia.
  - intros k Hk. replace (0 - k) with (- k) by lia. unfold at_slot. cbn.
    pose proof (mod_to_nat_lt n Hn (- k)) as Hlt.
    rewrite list_lookup_fmap, lookup_seq_lt by lia. cbn.
    eexists. split; [done|]. split; [done|]. split; [done|]. cbn. f_equal.
    pose proof (Z.mod_pos_bound (- k) n Hn).
    rewrite Z2Nat.id by lia.
    replace (- k + 1) with ((- k) + 1) by lia.
    rewrite <- (Zplus_mod_idemp_l (- k) 1 n).
    destruct ((- k) mod n + 1 =? n) eqn:E.
    + apply Z.eqb_eq in E. rewrite E. by rewrite Z.mod_same by lia.
    + apply Z.eqb_neq in E. by rewrite (Z.mod_small (_ + 1)) by lia.
Qed.

Section Policy.
Context (n dur T0 : Z).

(** Clock readings and sizes that stay far from the int64 bounds. *)
Definition sane (now : Z) : Prop :=
  0 < dur /\ 0 < n < 2 ^ 61 /\ T0 <= now < T0 + 2 ^ 61.

(** The slot of a clock reading. *)
Definition slot_of (now : Z) : Z := (now - T0) / dur.

Lemma timespan_spec c ev r now :
  Rep n dur T0 c ev r -> sane now -> T0 + c * dur <= now ->
  timespan r now = Ok (slot_of now - c) /\ c <= slot_of now < 2 ^ 61.
Proof.
  intros H (Hd & Hn & Hnow) Hc. destruct H as [_ Hp Hdur _ Hlast Hc0 _ _].
  unfold timespan. rewrite Hdur, Hlast.
  destruct (dur =? 0) eqn:E; [lia|]. clear E.
  assert (0 <= c * dur) by nia.
  rewrite since_id by (unfold in_int64, int64_min, int64_max; lia).
  rewrite Z.quot_div_nonneg by lia.
  replace (now - (T0 + c * dur)) with (now - T0 + (- c) * dur) by lia.
  rewrite Z.div_add by lia. fold (slot_of now).
  assert (c <= slot_of now) by (unfold slot_of; apply Z.div_le_lower_bound; lia).
  assert (slot_of now < 2 ^ 61).
  { unfold slot_of. apply Z.div_lt_upper_bound; nia. }
  rewrite wrap64_id by (unfold in_int64, int64_min, int64_max; lia).
  replace (slot_of now + - c >? -1) with true; [|symmetry; apply Z.gtb_lt; lia].
  split; [f_equal|]; lia.
Qed.

(** Moving the ring to the slot of [now], as [apply] does before adding. *)
Definition advanced (r : RollingPolicy) (now : Z) : result string RollingPolicy :=
  ts ← timespan r now;
  if ts >? 0 then
    if psize r =? 0 then Panic
    else
      w ← ResetBuckets (window r) (Z.rem (wrap64 (offset r + 1)) (psize r))
            (if ts >? psize r then psize r else ts);
      Ok (mkPolicy (psize r) w (Z.rem (wrap64 (offset r + ts)) (psize r)) (bucketDuration r)
            (lastAppendTime r + wrap64 (ts * bucketDuration r)))
  else Ok r.

Lemma apply_advanced f val now r :
  apply f val now r =
  r' ← advanced r now;
  w ← f (window r') (offset r') val;
  Ok (mkPolicy (psize r') w (offset r') (bucketDuration r') (lastAppendTime r')).
Proof.
  unfold apply, advanced. destruct (timespan r now) as [ts| |]; cbn; [|done..].
  destruct (ts >? 0); [|done]. by destruct (psize r =? 0).
Qed.

(** Slots [c+1 .. c+ts] share a bucket with slot [c + ts - k] exactly when that
    slot is one of the new ones. *)
Lemma hits_new c ts k :
  0 < n -> 0 < ts -> 0 <= k < n ->
  hits n ((c + 1) mod n) 0 (Z.to_nat (if ts >? n then n else ts)) (c + ts - k) = (k <? ts).
Proof.
  intros Hn Hts Hk. apply Bool.eq_true_iff_eq. rewrite hits_spec, Z.ltb_lt.
  setoid_rewrite mod_wrap_add.
  destruct (ts >? n) eqn:E; [apply Z.gtb_lt in E|rewrite Z.gtb_ltb, Z.ltb_ge in E].
  - split; [lia|]. intros _. exists ((ts - k - 1) mod n).
    pose proof (Z.mod_pos_bound (ts - k - 1) n Hn). split; [lia|].
    rewrite Zplus_mod_idemp_r. f_equal. lia.
  - split.
    + intros (t & Ht & Heq). destruct (decide (k < ts)); [done|].
      exfalso. apply (slot_distinct n Hn (c + ts - k) (c + 1 + t)); [lia|done].
    + intros H. exists (ts - k - 1). split; [lia|]. f_equal. lia.
Qed.

Lemma advanced_spec c ev r now :
  Rep n dur T0 c ev r -> sane now -> T0 + c * dur <= now ->
  exists r', advanced r now = Ok r' /\ Rep n dur T0 (slot_of now) ev r'.
Proof.
  intros H Hsane Hc. destruct (timespan_spec c ev r now H Hsane Hc) as [Hts Hb].
  destruct Hsane as (Hd & Hn & Hnow). unfold advanced. rewrite Hts. cbn.
  set (c' := slot_of now) in *. set (ts := c' - c) in *.
  destruct H as [Hr Hp Hdur Ho Hlast Hc0 Hpast Hslots].
  destruct (ts >? 0) eqn:E; [apply Z.gtb_lt in E|rewrite Z.gtb_ltb, Z.ltb_ge in E].
  2:{ exists r. split; [done|]. replace c' with c by lia. by split. }
  rewrite Hp, Hdur, Hlast, Ho. destruct (n =? 0) eqn:E0; [lia|].
  pose proof (Z.mod_pos_bound c n ltac:(lia)).
  assert (Hw : forall z, 0 <= z <= n + ts -> wrap64 z = z).
  { intros z Hz. apply wrap64_id. unfold in_int64, int64_min, int64_max. lia. }
  rewrite (Hw (c mod n + 1)), (Hw (c mod n + ts)) by lia.
  rewrite !rem_mod, !mod_wrap_add by lia. unfold ResetBuckets.
  pose proof (Z.mod_pos_bound (c + 1) n ltac:(lia)).
  destruct (reset_loop_spec n (Z.to_nat (if ts >? n then n else ts)) (window r) ((c + 1) mod n) 0)
    as (w & -> & Hr' & Hs); [done|lia..| |].
  { unfold int64_max. destruct (ts >? n); lia. }
  cbn. eexists. split; [done|].
  assert (c * dur + ts * dur <= now - T0).
  { replace (c * dur + ts * dur) with (dur * c') by lia.
    unfold c', slot_of. apply Z.mul_div_le. lia. }
  assert (0 <= c * dur) by nia. assert (0 <= ts * dur) by nia.
  split; cbn; try done; [f_equal; lia| |lia| |].
  - rewrite wrap64_id by (unfold in_int64, int64_min, int64_max; lia). lia.
  - eapply Forall_impl; [exact Hpast|]. cbn. lia.
  - intros k Hk. rewrite Hs. replace c' with (c + ts) by lia. rewrite hits_new by lia.
    destruct (k <? ts) eqn:Ek; [apply Z.ltb_lt in Ek|apply Z.ltb_ge in Ek].
    + destruct (ring_lookup n (window r) (c + ts - k) Hr) as [b Hat].
      rewrite Hat. cbn. eexists. split; [done|]. unfold records. cbn.
      rewrite (slot_vals_future ev _ c) by (done || lia). split; [done|]. split; [done|].
      destruct (Hslots ((- (ts - k)) mod n)) as (b' & Hb' & _ & _ & Hnext);
        [apply Z.mod_pos_bound; lia|].
      assert (Hmod : forall d, (c - (- (ts - k)) mod n + d) mod n = (c + ts - k + d) mod n).
      { intros d. rewrite Zplus_mod, Zminus_mod, Zmod_mod, <- Zminus_mod, <- Zplus_mod.
        f_equal. lia. }
      specialize (Hmod 0) as Hm0. rewrite !Z.add_0_r in Hm0.
      unfold at_slot in Hb', Hat. rewrite Hm0 in Hb'. rewrite Hb' in Hat.
      injection Hat as <-. rewrite Hnext. by rewrite Hmod.
    + destruct (Hslots (k - ts)) as (b & Hat & Hrec); [lia|].
      replace (c - (k - ts)) with (c + ts - k) in * by lia. eauto.
Qed.

Lemma add_content vals v : fill (vals ++ [v]) =
  match fill vals with [] => [v] | p :: _ => [fadd p v] end.
Proof. destruct vals as [|x vals]; [done|]. simpl. by rewrite foldl_app. Qed.

(** One [Policy_Add] at a time not before the last one records one event. *)
Lemma policy_add_spec c ev r v now :
  Rep n dur T0 c ev r -> sane now -> T0 + c * dur <= now -> Z.of_nat (length ev) < 2 ^ 61 ->
  exists r', Policy_Add v now r = Ok r' /\
    Rep n dur T0 (slot_of now) (ev ++ [(slot_of now, v)]) r'.
Proof.
  intros H Hsane Hc Hlen. unfold Policy_Add. rewrite apply_advanced.
  destruct (advanced_spec c ev r now H Hsane Hc) as (r1 & -> & H1). cbn.
  destruct Hsane as (Hd & Hn & Hnow). set (c' := slot_of now) in *.
  destruct H1 as [Hr Hp Hdur Ho Hlast Hc0 Hpast Hslots].
  destruct (Hslots 0 ltac:(lia)) as (b & Hat & HP & HC & HN). rewrite Z.sub_0_r in *.
  pose proof (Z.mod_pos_bound c' n ltac:(lia)) as Hm.
  assert (Hat' : at_slot n (window r1) (c' mod n) = Some b).
  { unfold at_slot. by rewrite Zmod_mod. }
  destruct (ring_read n (window r1) (c' mod n) b Hr ltac:(lia) Hat') as [E1 E2].
  rewrite Zmod_mod in E1, E2. unfold Window_Add. rewrite Ho, E1. cbn. rewrite E2. cbn.
  pose proof (slot_vals_length ev c').
  assert (Hcnt : wrap64 (Count b + 1) = Z.of_nat (length (slot_vals ev c' ++ [v]))).
  { rewrite length_app, HC, wrap64_id; [cbn; lia|]. unfold in_int64, int64_min, int64_max. lia. }
  assert (exists b', (if Count b =? 0 then Ok (set_bucket (window r1) (c' mod n) (Bucket_Append b v))
             else b' ← Bucket_Add b 0 v; Ok (set_bucket (window r1) (c' mod n) b')) =
            Ok (E := string) (set_bucket (window r1) (c' mod n) b') /\
          records n (ev ++ [(c', v)]) c' b') as (b' & -> & Hb').
  { unfold records, Bucket_Add, Bucket_Append. rewrite slot_vals_app. cbn.
    rewrite decide_True by done. rewrite add_content. rewrite HC, HP in *. rewrite Hcnt.
    clear HC HP Hcnt. destruct (slot_vals ev c') as [|x vs] eqn:Ev; cbn.
    - eexists. split; [done|]. cbn. by rewrite HN.
    - eexists. split; [done|]. cbn. by rewrite HN. }
  cbn. eexists. split; [done|]. split; cbn; try done.
  - by apply set_bucket_ring.
  - apply Forall_app. split; [done|]. by apply Forall_singleton.
  - intros k Hk. destruct (decide (k = 0)) as [->|Hk0].
    + rewrite Z.sub_0_r. exists b'. split; [|done]. by apply set_bucket_same.
    + rewrite set_bucket_other; [|done|].
      * destruct (Hslots k Hk) as (bk & Hak & Hrk). exists bk. split; [done|].
        unfold records in *. rewrite slot_vals_app. cbn. rewrite decide_False by lia.
        by rewrite app_nil_r.
      * intros E. symmetry in E. revert E. apply slot_distinct; lia.
Qed.

(** ** Reading the ring *)

(** The bucket that slot [s] must hold. *)
Definition abs_bucket (ev : list event) (s : Z) : Bucket :=
  mkBucket (fill (slot_vals ev s)) (Z.of_nat (length (slot_vals ev s))) (Z.to_nat ((s + 1) mod n)).

Lemma records_abs ev s b : records n ev s b -> b = abs_bucket ev s.
Proof. intros (HP & HC & HN). destruct b. cbn in *. by subst. Qed.

(** The loop [for cond { body }] over a list. *)
Fixpoint fold_while {A B} (cond : A -> bool) (body : A -> B -> A) (acc : A) (l : list B) : A :=
  match l with
  | [] => acc
  | b :: l' => if cond acc then fold_while cond body (body acc b) l' else acc
  end.

Lemma fold_while_always {A B} (body : A -> B -> A) l : forall acc,
  fold_while always body acc l = foldl body acc l.
Proof. induction l as [|b l IH]; intros acc; simpl; [done|]. apply IH. Qed.

(** The iterator walks consecutive slots, within its fuel and without panic. *)
Lemma iter_loop_visits {A} (cond : A -> bool) (body : A -> Bucket -> A) w ev m :
  forall s acc it fuel, 0 < n -> (m <= fuel)%nat ->
  cur it = Z.to_nat (s mod n) ->
  0 <= iteratedCount it -> it_count it = iteratedCount it + Z.of_nat m ->
  it_count it <= int64_max ->
  (forall i, 0 <= i < Z.of_nat m -> at_slot n w (s + i) = Some (abs_bucket ev (s + i))) ->
  iter_loop fuel w cond body acc it =
  Ok (fold_while cond body acc (abs_bucket ev <$> seqZ s (Z.of_nat m))).
Proof.
  induction m as [|m IH]; intros s acc it fuel Hn Hf Hc Hi Hcnt Hmax Hat.
  - destruct fuel; simpl; unfold Iterator_Next; by replace (_ =? _) with true by (symmetry; lia).
  - destruct fuel as [|fuel]; [lia|]. rewrite seqZ_cons by lia. simpl.
    assert (Iterator_Next it = true) as Hnext by (unfold Iterator_Next; lia).
    rewrite Hnext. simpl. destruct (cond acc); [|done].
    unfold Iterator_Bucket. rewrite Hnext. simpl.
    specialize (Hat 0 ltac:(lia)) as H0. rewrite Z.add_0_r in H0. unfold at_slot in H0.
    rewrite Hc, H0. simpl.
    replace (Z.pred (Z.of_nat (S m))) with (Z.of_nat m) by lia.
    replace (Z.succ s) with (s + 1) by lia.
    apply IH; simpl; [lia..| | | | |].
    + done.
    + rewrite wrap64_id by (unfold in_int64, int64_min in *; lia). lia.
    + rewrite wrap64_id by (unfold in_int64, int64_min in *; lia). lia.
    + lia.
    + intros i Hi'. replace (s + 1 + i) with (s + (i + 1)) by lia. apply Hat. lia.
Qed.

(** [Reduce] applied to a loop visits the slots [now - n < s <= c], oldest
    first, where [c] is the slot of the last addition. *)
Lemma reduce_visits {A R} (zero : R) (cond : A -> bool) (body : A -> Bucket -> A) (acc : A)
    (k : A -> result string R) c ev r now :
  Rep n dur T0 c ev r -> sane now -> T0 + c * dur <= now ->
  Reduce zero (fun w it => x ← for_next w cond body acc it; k x) now r =
  if slot_of now - c <? n
  then k (fold_while cond body acc
            (abs_bucket ev <$> seqZ (slot_of now - n + 1) (n - (slot_of now - c))))
  else Ok zero.
Proof.
  intros H Hsane Hc. destruct (timespan_spec c ev r now H Hsane Hc) as [Hts Hb].
  destruct Hsane as (Hd & Hn & Hnow). unfold Reduce. rewrite Hts. cbn.
  destruct H as [Hr Hp Hdur Ho Hlast Hc0 Hpast Hslots].
  rewrite Hp, Ho. set (c' := slot_of now) in *. set (ts := c' - c) in *.
  pose proof (Z.mod_pos_bound c n ltac:(lia)).
  rewrite (wrap64_id (n - ts)) by (unfold in_int64, int64_min, int64_max; lia).
  destruct (n - ts >? 0) eqn:E; [apply Z.gtb_lt in E|rewrite Z.gtb_ltb, Z.ltb_ge in E].
  2:{ by replace (ts <? n) with false by lia. }
  replace (ts <? n) with true by lia.
  rewrite (wrap64_id (c mod n + ts + 1)) by (unfold in_int64, int64_min, int64_max; lia).
  set (off := if _ >=? n then _ else _).
  assert (Hoff : 0 <= off < n /\ off mod n = (c' - n + 1) mod n).
  { assert ((c mod n + ts + 1) mod n = (c' - n + 1) mod n) as Hm.
    { rewrite <- Z.add_assoc, mod_wrap_add.
      replace (c + (ts + 1)) with (c' - n + 1 + 1 * n) by lia. by rewrite Z.mod_add by lia. }
    unfold off. destruct (c mod n + ts + 1 >=? n) eqn:E2.
    - apply Z.geb_le in E2. rewrite wrap64_id by (unfold in_int64, int64_min, int64_max; lia).
      split; [lia|]. rewrite <- Hm. rewrite <- (Z.mod_add (c mod n + ts + 1 - n) 1 n) by lia.
      f_equal. lia.
    - rewrite Z.geb_leb, Z.leb_gt in E2. split; [lia|done]. }
  destruct Hoff as [Hoff Hmod]. unfold Window_Iterator.
  assert (Hlook : forall i, 0 <= i < n - ts ->
    at_slot n (window r) (c' - n + 1 + i) = Some (abs_bucket ev (c' - n + 1 + i))).
  { intros i Hi. destruct (Hslots (n - ts - 1 - i)) as (b & Hat & Hrec); [lia|].
    replace (c - (n - ts - 1 - i)) with (c' - n + 1 + i) in * by lia.
    by rewrite Hat, (records_abs _ _ _ Hrec). }
  destruct (ring_lookup n (window r) off Hr) as [b Hatb].
  destruct (ring_read n (window r) off b Hr ltac:(lia) Hatb) as [-> E2].
  cbn. rewrite E2. cbn. unfold for_next. cbn.
  rewrite (iter_loop_visits cond body (window r) ev (Z.to_nat (n - ts)) (c' - n + 1));
    cbn; rewrite ?Z2Nat.id by lia; try lia; try done.
  unfold int64_max. lia.
Qed.

End Policy.

(** ** The sliding window *)

(** A timed addition: the clock reading and the value. *)
Definition op : Type := (Z * Z)%type.

Definition to_events (dur T0 : Z) (ops : list op) : list event :=
  (fun o : op => (slot_of dur T0 o.1, f_of_Z o.2)) <$> ops.

(** The values of the additions whose slot is in [lo, lo + m). *)
Definition in_slots (dur T0 lo m : Z) (ops : list op) : list Z :=
  (filter (fun o : op => lo <= slot_of dur T0 o.1 < lo + m) ops).*2.

(** Specification: the sum of the additions of the last [n] slots at [now]. *)
Definition window_total (n dur T0 : Z) (ops : list op) (now : Z) : Z :=
  zsum (in_slots dur T0 (slot_of dur T0 now - n + 1) n ops).

(** The additions of a run, in order, each at its own clock reading. *)
Definition run_adds (ops : list op) (r : RollingPolicy) : result string RollingPolicy :=
  foldM (fun r (o : op) => Counter_Add o.2 o.1 r) r ops.

(** Clock readings that never go backwards, from [t] on. *)
Fixpoint ordered_from (t : Z) (ops : list op) : Prop :=
  match ops with [] => True | o :: ops' => t <= o.1 /\ ordered_from o.1 ops' end.

Definition last_time (t : Z) (ops : list op) : Z := foldl (fun _ (o : op) => o.1) t ops.

Section Counter.
Context (n dur T0 : Z).

Definition good_op (o : op) : Prop := sane n dur T0 o.1 /\ 0 <= o.2.

(** After any run of additions the ring represents the recorded events. *)
Lemma run_adds_rep ops : forall c ev r t,
  Rep n dur T0 c ev r -> T0 + c * dur <= t -> ordered_from t ops -> Forall good_op ops ->
  Z.of_nat (length ev + length ops) < 2 ^ 61 ->
  exists r' c', run_adds ops r = Ok r' /\
    Rep n dur T0 c' (ev ++ to_events dur T0 ops) r' /\
    T0 + c' * dur <= last_time t ops.
Proof.
  induction ops as [|[t1 v] ops IH]; intros c ev r t H Ht Ho Hg Hlen; cbn in *.
  - exists r, c. by rewrite app_nil_r.
  - destruct Ho as [Ht1 Ho]. apply Forall_cons in Hg as [[Hs Hv] Hg]. cbn in *.
    unfold Counter_Add. rewrite decide_False by lia.
    destruct (policy_add_spec n dur T0 c ev r (f_of_Z v) t1 H Hs) as (r1 & -> & H1); [lia..|].
    cbn. destruct (IH _ _ r1 t1 H1) as (r' & c' & Hr' & HR & Hl); [|done|done| |].
    + destruct Hs as (Hd & _ & _). unfold slot_of.
      pose proof (Z.mul_div_le (t1 - T0) dur Hd). lia.
    + rewrite length_app. cbn. lia.
    + exists r', c'. split; [done|]. split; [|done].
      by rewrite <- app_assoc in HR.
Qed.

Lemma ordered_last ops : forall t, ordered_from t ops -> t <= last_time t ops.
Proof.
  induction ops as [|o ops IH]; intros t H; cbn in *; [lia|].
  destruct H as [H1 H2]. specialize (IH _ H2). unfold last_time in IH. lia.
Qed.

(** The values of one slot. *)
Definition slot_ints (ops : list op) (s : Z) : list Z :=
  (filter (fun o : op => slot_of dur T0 o.1 = s) ops).*2.

Lemma slot_vals_ints ops s :
  slot_vals (to_events dur T0 ops) s = f_of_Z <$> slot_ints ops s.
Proof.
  unfold slot_vals, slot_ints, to_events.
  induction ops as [|o ops IH]; [done|]. rewrite fmap_cons, !filter_cons. cbn.
  case_decide; cbn; by rewrite IH.
Qed.

Lemma zsum_seqZ_indicator lo m s v :
  0 <= m ->
  zsum ((fun s' => if decide (s = s') then v else 0) <$> seqZ lo m) =
  if decide (lo <= s < lo + m) then v else 0.
Proof.
  intros Hm. revert lo. pattern m. apply natlike_ind; [..|done]; clear m Hm.
  - intros lo. rewrite seqZ_nil by lia. cbn. by rewrite decide_False by lia.
  - intros m Hm IH lo. rewrite seqZ_cons by lia. cbn.
    replace (Z.pred (Z.succ m)) with m by lia. fold (zsum ((fun s' =>
      if decide (s = s') then v else 0) <$> seqZ (Z.succ lo) m)). rewrite IH.
    repeat case_decide; lia.
Qed.

Lemma zsum_seqZ_add (f g : Z -> Z) l :
  zsum ((fun s => f s + g s) <$> l) = zsum (f <$> l) + zsum (g <$> l).
Proof. unfold zsum. induction l; cbn in *; lia. Qed.

(** Summing slot by slot is summing the additions that fall in the slots. *)
Lemma zsum_slots ops lo m :
  0 <= m ->
  zsum ((fun s => zsum (slot_ints ops s)) <$> seqZ lo m) = zsum (in_slots dur T0 lo m ops).
Proof.
  intros Hm. unfold slot_ints, in_slots. induction ops as [|o ops IH].
  - cbn. generalize (seqZ lo m). intros l. unfold zsum. by induction l.
  - rewrite filter_cons.
    assert (forall s, zsum (filter (fun o : op => slot_of dur T0 o.1 = s) (o :: ops)).*2 =
      (if decide (slot_of dur T0 o.1 = s) then o.2 else 0) +
      zsum (filter (fun o : op => slot_of dur T0 o.1 = s) ops).*2) as Hcons.
    { intros s. rewrite filter_cons. unfold zsum. case_decide; cbn; lia. }
    rewrite (list_fmap_ext _ (fun s => (if decide (slot_of dur T0 o.1 = s) then o.2 else 0) +
      zsum (filter (fun o : op => slot_of dur T0 o.1 = s) ops).*2)); [|intros ? s _; apply Hcons].
    rewrite zsum_seqZ_add, IH, zsum_seqZ_indicator by done.
    unfold zsum. case_decide; cbn; lia.
Qed.

Lemma good_slot_ints ops s : Forall good_op ops -> Forall (fun z => 0 <= z) (slot_ints ops s).
Proof.
  intros H. unfold slot_ints. apply Forall_fmap, Forall_filter_keep.
  eapply Forall_impl; [exact H|]. by intros o [_ ?].
Qed.

Lemma good_in_slots ops lo m : Forall good_op ops -> Forall (fun z => 0 <= z) (in_slots dur T0 lo m ops).
Proof.
  intros H. unfold in_slots. apply Forall_fmap, Forall_filter_keep.
  eapply Forall_impl; [exact H|]. by intros o [_ ?].
Qed.

(** A bucket of integers holds their exact sum. *)
Lemma fill_ints vs :
  Forall (fun z => 0 <= z) vs -> zsum vs < 2 ^ 53 ->
  fill (f_of_Z <$> vs) = match vs with [] => [] | _ => [f_of_Z (zsum vs)] end.
Proof.
  intros Hpos Hs. destruct vs as [|v vs]; [done|].
  apply Forall_cons in Hpos as [Hv Hvs]. cbn in *. by rewrite fsum_exact_from.
Qed.

(** Counting is summing ones. *)
Lemma length_in_slots ops lo m :
  Z.of_nat (length (in_slots dur T0 lo m ops)) =
  zsum (in_slots dur T0 lo m ((fun o : op => (o.1, 1)) <$> ops)).
Proof.
  unfold in_slots. induction ops as [|o ops IH]; [done|].
  rewrite fmap_cons, !filter_cons. cbn [fst]. case_decide; [|exact IH].
  rewrite !fmap_cons. unfold zsum in *. cbn in *. lia.
Qed.

Lemma length_slot_ints ops s :
  Z.of_nat (length (slot_ints ops s)) = zsum (slot_ints ((fun o : op => (o.1, 1)) <$> ops) s).
Proof.
  unfold slot_ints. induction ops as [|o ops IH]; [done|].
  rewrite fmap_cons, !filter_cons. cbn [fst]. case_decide; [|exact IH].
  rewrite !fmap_cons. unfold zsum in *. cbn in *. lia.
Qed.

(** The floating-point sum over the slots is the integer sum, below [2^53]. *)
Lemma sum_slots ops l : forall a,
  Forall good_op ops -> 0 <= a ->
  a + zsum ((fun s => zsum (slot_ints ops s)) <$> l) < 2 ^ 53 ->
  foldl (fun x b => foldl fadd x (Points b)) (f_of_Z a)
    (abs_bucket n (to_events dur T0 ops) <$> l) =
  f_of_Z (a + zsum ((fun s => zsum (slot_ints ops s)) <$> l)).
Proof.
  induction l as [|s l IH]; intros a Hg Ha Hlt; cbn in *; [by rewrite Z.add_0_r|].
  pose proof (good_slot_ints ops s Hg) as Hpos. pose proof (zsum_nonneg _ Hpos).
  assert (Hrest : 0 <= zsum ((fun s => zsum (slot_ints ops s)) <$> l)).
  { apply zsum_nonneg, Forall_fmap, Forall_true. intros s'. cbn.
    by apply zsum_nonneg, good_slot_ints. }
  rewrite slot_vals_ints. unfold zsum in *.
  fold (zsum (slot_ints ops s)) in *. fold (zsum ((fun s => zsum (slot_ints ops s)) <$> l)) in *.
  rewrite fill_ints by (done || lia).
  assert (foldl fadd (f_of_Z a) (match slot_ints ops s with [] => []
    | _ => [f_of_Z (zsum (slot_ints ops s))] end) = f_of_Z (a + zsum (slot_ints ops s))) as ->.
  { destruct (slot_ints ops s); cbn [foldl]; [by rewrite Z.add_0_r|]. by rewrite fadd_exact by lia. }
  rewrite IH by (done || lia). f_equal. lia.
Qed.

(** Only the upper end that matters: no addition is past slot [c]. *)
Lemma in_slots_past ops c lo m m' :
  Forall (fun o : op => slot_of dur T0 o.1 <= c) ops -> c < lo + m -> c < lo + m' ->
  in_slots dur T0 lo m ops = in_slots dur T0 lo m' ops.
Proof.
  intros H Hm Hm'. unfold in_slots. f_equal.
  induction H as [|o ops Ho _ IH]; [done|]. rewrite !filter_cons, IH.
  repeat case_decide; done || lia.
Qed.

Lemma in_slots_none ops lo : in_slots dur T0 lo 0 ops = [].
Proof.
  unfold in_slots. induction ops as [|o ops IH]; [done|].
  rewrite filter_cons_False by lia. exact IH.
Qed.

Lemma rep_past_ops c ops r :
  Rep n dur T0 c (to_events dur T0 ops) r -> Forall (fun o : op => slot_of dur T0 o.1 <= c) ops.
Proof. intros H. exact (proj1 (Forall_fmap _ _ _) (rep_past _ _ _ _ _ _ H)). Qed.

(** [Sum] of a represented ring is the specified window total. *)
Lemma sum_spec c ops r now :
  Rep n dur T0 c (to_events dur T0 ops) r -> sane n dur T0 now -> T0 + c * dur <= now ->
  Forall good_op ops -> window_total n dur T0 ops now < 2 ^ 53 ->
  Counter_Sum now r = Ok (f_of_Z (window_total n dur T0 ops now)).
Proof.
  intros HR Hs Hc Hg Htot. pose proof (rep_past_ops c ops r HR) as Hpast.
  destruct (timespan_spec n dur T0 c _ r now HR Hs Hc) as [_ Hb].
  assert (Heq : Counter_Sum now r = Reduce f0 (fun w it =>
    x ← for_next w always (fun x b => foldl fadd x (Points b)) f0 it; Ok x) now r).
  { unfold Counter_Sum, Counter_Reduce, Reduce, Sum. destruct (timespan r now); cbn; [|done..].
    destruct (_ >? 0); [|done]. destruct (Window_Iterator _ _ _); cbn; [|done..].
    by destruct (for_next _ _ _ _ _). }
  rewrite Heq, (reduce_visits n dur T0 _ _ _ _ _ c (to_events dur T0 ops)) by (done || lia).
  unfold window_total in *. set (lo := slot_of dur T0 now - n + 1) in *.
  destruct (slot_of dur T0 now - c <? n) eqn:E; [apply Z.ltb_lt in E|apply Z.ltb_ge in E].
  - rewrite fold_while_always, (in_slots_past ops c lo n (n - (slot_of dur T0 now - c))) in *
      by (done || lia).
    pose proof (sum_slots ops (seqZ lo (n - (slot_of dur T0 now - c))) 0 Hg ltac:(lia)) as Hsum.
    rewrite zsum_slots in Hsum by lia. rewrite Z.add_0_l in Hsum.
    change f0 with (f_of_Z 0). by rewrite Hsum.
  - by rewrite (in_slots_past ops c lo n 0), in_slots_none by (done || lia).
Qed.

End Counter.


(** C1: after any run of timed additions of non-negative integers, [Value]
    reports exactly the additions whose time slot is among the last [n] slots at
    the time of the reading: the ring of reused buckets implements a sliding
    window, with no stale and no lost value, as long as the total stays below
    [2^53].  The run itself never panics. *)
Theorem sliding_window_value `{Platform} n dur T0 ops now :
  sane n dur T0 now ->
  ordered_from T0 ops -> last_time T0 ops <= now -> Forall (good_op n dur T0) ops ->
  Z.of_nat (length ops) < 2 ^ 61 -> window_total n dur T0 ops now < 2 ^ 53 ->
  (r0 ← NewRollingCounter n dur T0; r ← run_adds ops r0; Counter_Value now r) =
  Ok (window_total n dur T0 ops now).
Proof.
  intros Hs Ho Hl Hg Hlen Htot. pose proof Hs as (Hd & Hn & Hnow).
  destruct (new_window_rep n dur T0 ltac:(lia)) as (r0 & -> & H0). cbn.
  destruct (run_adds_rep n dur T0 ops 0 [] r0 T0 H0) as (r & c & -> & HR & Hc); [lia|done..|].
  cbn. unfold Counter_Value. rewrite (sum_spec n dur T0 c ops) by (done || lia). cbn.
  rewrite int64_of_float_exact; [done|].
  split; [|done]. apply zsum_nonneg, (good_in_slots n); done.
Qed.

Definition demo_ops : list op := [(1, 5); (12, 7); (14, 1); (35, 2); (47, 4)].

Lemma sliding_window_value_witness :
  (r0 ← NewRollingCounter 3 10 0; r ← run_adds demo_ops r0; @Counter_Value amd64 52 r) = Ok 6 /\
  window_total 3 10 0 demo_ops 52 = 6.
Proof.
  split; [|vm_compute; reflexivity].
  refine (@sliding_window_value amd64 3 10 0 demo_ops 52 _ _ _ _ _ _).
  - unfold sane. lia.
  - cbn. lia.
  - cbn. lia.
  - unfold demo_ops, good_op, sane. repeat constructor; cbn; lia.
  - cbn. lia.
  - vm_compute. reflexivity.
Defined.
