(* ===== verification/Breaker.v ===== *)
(** * pkg/shield/circuitbreaker, pkg/container/group and the gRPC breaker interceptors

    The SRE breaker ([sre.go]) counts its marks with the rolling counter of
    [Window]; the interceptors ([pkg/grpc/interceptor/breaker.go]) keep one
    breaker per method in a lazy [Group] ([pkg/container/group/group.go]).  The
    random draw [b.r.Float64()] and the clock readings are arguments. *)

From Stdlib Require Import SpecFloat.
From S2P Require Import Prelude GoFloat Window.

(** ** sre.go *)

Record options := mkOptions { success : float64; request : Z; bucket : Z; win : Z }.

Definition Option_ : Type := options -> options.

Definition WithSuccess (s : float64) : Option_ :=
  fun c => mkOptions s (request c) (bucket c) (win c).
Definition WithRequest (r : Z) : Option_ :=
  fun c => mkOptions (success c) r (bucket c) (win c).
Definition WithWindow (d : Z) : Option_ :=
  fun c => mkOptions (success c) (request c) (bucket c) d.
Definition WithBucket (b : Z) : Option_ :=
  fun c => mkOptions (success c) (request c) b (win c).

Inductive State := StateOpen | StateClosed.
#[export] Instance State_eq_dec : EqDecision State.
Proof. solve_decision. Defined.

Record Breaker := mkBreaker { stat : RollingPolicy; k : float64; brequest : Z; state : State }.

Definition default_options : options := mkOptions (f_ratio 6 10) 100 10 (3 * second).

Definition NewBreaker (opts : list Option_) (now : Z) : result string Breaker :=
  let opt := foldl (fun c o => o c) default_options opts in
  if bucket opt =? 0 then Panic
  else
    stat ← NewRollingCounter (bucket opt) (wrap64 (Z.quot (win opt) (bucket opt))) now;
    Ok (mkBreaker stat (fdiv (f_of_Z 1) (success opt)) (request opt) StateClosed).

(** The closure of [summary]: both counters are captured variables. *)
Definition summary_step `{Platform} (acc : Z * Z) (b : Bucket) : Z * Z :=
  (foldl (fun s p => wrap64 (s + int64_of_float p)) acc.1 (Points b), wrap64 (acc.2 + Count b)).

Definition summary `{Platform} (now : Z) (b : Breaker) : result string (Z * Z) :=
  Counter_Reduce (0, 0) (fun w it => x ← for_next w always summary_step (0, 0) it; Ok x) now (stat b).

Inductive allow_error := ErrNotAllowed.
#[export] Instance allow_error_eq_dec : EqDecision allow_error.
Proof. solve_decision. Defined.

Definition trueOnProba (u proba : float64) : bool := fltb u proba.

(** [atomic.CompareAndSwapInt32(&b.state, from, to)]. *)
Definition cas (from to : State) (b : Breaker) : Breaker :=
  if decide (state b = from) then mkBreaker (stat b) (k b) (brequest b) to else b.

(** [Allow]: the breaker after the call and the error returned. *)
Definition Allow `{Platform} (now : Z) (u : float64) (b : Breaker) :
    result string (Breaker * option allow_error) :=
  '(accepts, total) ← summary now b;
  let requests := fmul (k b) (f_of_Z accepts) in
  if (total <? brequest b) || fltb (f_of_Z total) requests then
    Ok (cas StateOpen StateClosed b, None)
  else
    let b := cas StateClosed StateOpen b in
    let dr := f_max f0 (fdiv (fsub (f_of_Z total) requests) (f_of_Z (wrap64 (total + 1)))) in
    Ok (b, if trueOnProba u dr then Some ErrNotAllowed else None).

Definition MarkSuccess (now : Z) (b : Breaker) : result string Breaker :=
  s ← Counter_Add 1 now (stat b); Ok (mkBreaker s (k b) (brequest b) (state b)).

Definition MarkFailed (now : Z) (b : Breaker) : result string Breaker :=
  s ← Counter_Add 0 now (stat b); Ok (mkBreaker s (k b) (brequest b) (state b)).

(** ** group.go

    The values are pointers to breakers: a group maps a key to the object it
    created, and updates through the pointer are updates of the map. *)

Record Group (A : Type) := mkGroup { new : Z -> result string A; vals : gmap string A }.
Arguments mkGroup {A}. Arguments new {A}. Arguments vals {A}.

Definition NewGroup {A} (fn : Z -> result string A) : Group A := mkGroup fn ∅.

Definition Group_Get {A} (key : string) (now : Z) (g : Group A) : result string (A * Group A) :=
  match vals g !! key with
  | Some v => Ok (v, g)
  | None => v ← new g now; Ok (v, mkGroup (new g) (<[key := v]> (vals g)))
  end.

(** An update of the object of [key] through its pointer. *)
Definition Group_put {A} (key : string) (v : A) (g : Group A) : Group A :=
  mkGroup (new g) (<[key := v]> (vals g)).

Definition Group_Clear {A} (g : Group A) : Group A := mkGroup (new g) ∅.

Definition Group_Reset {A} (fn : Z -> result string A) (g : Group A) : Group A :=
  Group_Clear (mkGroup fn (vals g)).

(** ** grpc/interceptor/breaker.go *)

(** The codes of [google.golang.org/grpc/codes] named by the interceptors. *)
Definition codes_Internal : Z := 13.
Definition codes_Unavailable : Z := 14.

(** Errors of a call are opaque; [status.FromError] of the grpc library gives a
    code and whether the error carries a status. *)
Section Interceptor.
Context `{Platform} {Err_ Reply : Type} (FromError : Err_ -> Z * bool)
  (StatusServiceUnavailable : allow_error -> Err_).

Record circuitBreakerOptions := mkCbOptions {
  group : Group Breaker;
  validCodes : gset Z;
  unaryServerDegradeHandler : option (option Reply * option Err_) }.

Definition defaultCircuitBreakerOptions : circuitBreakerOptions :=
  mkCbOptions (NewGroup (NewBreaker [])) {[codes_Internal; codes_Unavailable]} None.

Definition WithBreakerOption (opts : list Option_) (o : circuitBreakerOptions) :=
  match opts with
  | [] => o
  | _ => mkCbOptions (NewGroup (NewBreaker opts)) (validCodes o) (unaryServerDegradeHandler o)
  end.

Definition WithValidCode (codes : list Z) (o : circuitBreakerOptions) :=
  mkCbOptions (group o) (foldl (fun s c => {[c]} ∪ s) (validCodes o) codes)
    (unaryServerDegradeHandler o).

(** One call: the clock when it is admitted, the random draw, the clock when
    the callee returned and what it returned. *)
Record call := mkCall { started : Z; draw : float64; finished : Z; reply : option Reply;
                        callee_err : option Err_ }.

(** The marking after the callee returned. *)
Definition mark_outcome (o : circuitBreakerOptions) (c : call) (b : Breaker) : result string Breaker :=
  match callee_err c with
  | Some err =>
      let '(code, ok) := FromError err in
      if ok && bool_decide (code ∈ validCodes o) then MarkFailed (finished c) b
      else MarkSuccess (finished c) b
  | None => Ok b
  end.

Definition with_group (o : circuitBreakerOptions) (g : Group Breaker) : circuitBreakerOptions :=
  mkCbOptions g (validCodes o) (unaryServerDegradeHandler o).

Definition UnaryServerCircuitBreaker (method : string) (c : call) (o : circuitBreakerOptions) :
    result string (circuitBreakerOptions * (option Reply * option Err_)) :=
  '(b, g) ← Group_Get method (started c) (group o);
  '(b, err) ← Allow (started c) (draw c) b;
  match err with
  | Some e =>
      b ← MarkFailed (started c) b;
      Ok (with_group o (Group_put method b g),
          match unaryServerDegradeHandler o with
          | Some r => r
          | None => (None, Some (StatusServiceUnavailable e))
          end)
  | None =>
      b ← mark_outcome o c b;
      Ok (with_group o (Group_put method b g), (reply c, callee_err c))
  end.

Definition UnaryClientCircuitBreaker (method : string) (c : call) (o : circuitBreakerOptions) :
    result string (circuitBreakerOptions * option Err_) :=
  '(b, g) ← Group_Get method (started c) (group o);
  '(b, err) ← Allow (started c) (draw c) b;
  match err with
  | Some e =>
      b ← MarkFailed (started c) b;
      Ok (with_group o (Group_put method b g), Some (StatusServiceUnavailable e))
  | None =>
      b ← mark_outcome o c b;
      Ok (with_group o (Group_put method b g), callee_err c)
  end.

Definition StreamClientCircuitBreaker (method : string) (c : call) (o : circuitBreakerOptions) :
    result string (circuitBreakerOptions * (option Reply * option Err_)) :=
  '(b, g) ← Group_Get method (started c) (group o);
  '(b, err) ← Allow (started c) (draw c) b;
  match err with
  | Some e =>
      b ← MarkFailed (started c) b;
      Ok (with_group o (Group_put method b g), (None, Some (StatusServiceUnavailable e)))
  | None =>
      b ← mark_outcome o c b;
      Ok (with_group o (Group_put method b g), (reply c, callee_err c))
  end.

Definition StreamServerCircuitBreaker (method : string) (c : call) (o : circuitBreakerOptions) :
    result string (circuitBreakerOptions * option Err_) :=
  UnaryClientCircuitBreaker method c o.

End Interceptor.

(** ** The summary of a represented ring *)

Section Summary.
Context `{Platform} (n dur T0 : Z).

(** The windowed number of successes and of marks: marks are additions of 1 for
    a success and of 0 for a failure. *)
Definition accepted (ops : list op) (now : Z) : Z := window_total n dur T0 ops now.
Definition attempted (ops : list op) (now : Z) : Z :=
  Z.of_nat (length (in_slots dur T0 (slot_of dur T0 now - n + 1) n ops)).

Lemma summary_slots ops l : forall a t,
  Forall (good_op n dur T0) ops -> 0 <= a -> 0 <= t ->
  a + zsum ((fun s => zsum (slot_ints dur T0 ops s)) <$> l) < 2 ^ 53 ->
  t + zsum ((fun s => Z.of_nat (length (slot_ints dur T0 ops s))) <$> l) < 2 ^ 53 ->
  foldl summary_step (a, t) (abs_bucket n (to_events dur T0 ops) <$> l) =
  (a + zsum ((fun s => zsum (slot_ints dur T0 ops s)) <$> l),
   t + zsum ((fun s => Z.of_nat (length (slot_ints dur T0 ops s))) <$> l)).
Proof.
  induction l as [|s l IH]; intros a t Hg Ha Ht Hlt Hlt'; cbn in *; [f_equal; lia|].
  pose proof (good_slot_ints n dur T0 ops s Hg) as Hpos. pose proof (zsum_nonneg _ Hpos).
  assert (0 <= zsum ((fun s => zsum (slot_ints dur T0 ops s)) <$> l)).
  { apply zsum_nonneg, Forall_fmap, Forall_true. intros s'. cbn.
    by eapply zsum_nonneg, good_slot_ints. }
  assert (0 <= zsum ((fun s => Z.of_nat (length (slot_ints dur T0 ops s))) <$> l)).
  { apply zsum_nonneg, Forall_fmap, Forall_true. intros s'. cbn. lia. }
  unfold zsum in *. fold (zsum (slot_ints dur T0 ops s)) in *.
  fold (zsum ((fun s => zsum (slot_ints dur T0 ops s)) <$> l)) in *.
  fold (zsum ((fun s => Z.of_nat (length (slot_ints dur T0 ops s))) <$> l)) in *.
  assert (summary_step (a, t) (abs_bucket n (to_events dur T0 ops) s) =
    (a + zsum (slot_ints dur T0 ops s), t + Z.of_nat (length (slot_ints dur T0 ops s)))) as Hstep.
  { unfold summary_step, abs_bucket. cbn.
    rewrite slot_vals_ints, length_fmap, fill_ints by (done || lia).
    rewrite (wrap64_id (t + _)) by (unfold in_int64, int64_min, int64_max; lia). f_equal.
    destruct (slot_ints dur T0 ops s) eqn:E; cbn [foldl]; [cbn; lia|]. rewrite <- E in *.
    rewrite int64_of_float_exact by lia.
    rewrite wrap64_id by (unfold in_int64, int64_min, int64_max; lia). done. }
  rewrite Hstep.
  rewrite IH by (done || lia). f_equal; lia.
Qed.

Lemma summary_spec c ops b now :
  Rep n dur T0 c (to_events dur T0 ops) (stat b) -> sane n dur T0 now -> T0 + c * dur <= now ->
  Forall (good_op n dur T0) ops -> accepted ops now < 2 ^ 53 -> attempted ops now < 2 ^ 53 ->
  summary now b = Ok (accepted ops now, attempted ops now).
Proof.
  intros HR Hs Hc Hg Hacc Hatt. pose proof (rep_past_ops n dur T0 c ops _ HR) as Hpast.
  destruct (timespan_spec n dur T0 c _ _ now HR Hs Hc) as [_ Hb].
  unfold summary, Counter_Reduce.
  rewrite (reduce_visits n dur T0 _ _ _ _ _ c (to_events dur T0 ops)) by (done || lia).
  unfold accepted, attempted, window_total in *.
  set (lo := slot_of dur T0 now - n + 1) in *.
  destruct (slot_of dur T0 now - c <? n) eqn:E; [apply Z.ltb_lt in E|apply Z.ltb_ge in E].
  - rewrite fold_while_always, (in_slots_past dur T0 ops c lo n (n - (slot_of dur T0 now - c))) in *
      by (done || lia).
    set (m := n - (slot_of dur T0 now - c)) in *.
    pose proof (zsum_slots dur T0 ops lo m ltac:(lia)) as Hz.
    pose proof (zsum_slots dur T0 ((fun o : op => (o.1, 1)) <$> ops) lo m ltac:(lia)) as Hz1.
    rewrite (list_fmap_ext _ (fun s => Z.of_nat (length (slot_ints dur T0 ops s)))),
      <- (length_in_slots dur T0) in Hz1 by (intros; by rewrite length_slot_ints by done).
    rewrite (summary_slots ops (seqZ lo m) 0 0), Hz, Hz1 by (done || lia). done.
  - by rewrite (in_slots_past dur T0 ops c lo n 0), in_slots_none by (done || lia).
Qed.

End Summary.

(** ** Marks over a run *)

(** A mark: the clock reading and whether it was a success. *)
Definition mark : Type := (Z * bool)%type.
Definition mark_op (m : mark) : op := (m.1, if m.2 then 1 else 0).

Definition do_mark (b : Breaker) (m : mark) : result string Breaker :=
  if m.2 then MarkSuccess m.1 b else MarkFailed m.1 b.

Definition run_marks (ms : list mark) (b : Breaker) : result string Breaker := foldM do_mark b ms.

Lemma do_mark_add b m :
  do_mark b m = s ← Counter_Add (mark_op m).2 (mark_op m).1 (stat b);
                Ok (mkBreaker s (k b) (brequest b) (state b)).
Proof. by destruct m as [t []]. Qed.

Lemma run_marks_adds ms : forall b,
  run_marks ms b = s ← run_adds (mark_op <$> ms) (stat b);
                   Ok (mkBreaker s (k b) (brequest b) (state b)).
Proof.
  unfold run_marks, run_adds. induction ms as [|m ms IH]; intros b; cbn [foldM fmap list_fmap].
  - by destruct b.
  - rewrite do_mark_add. destruct (Counter_Add _ _ _) as [s| |]; cbn; [|done..]. apply IH.
Qed.

Lemma mark_ops_good n dur T0 ms :
  Forall (fun m : mark => sane n dur T0 m.1) ms -> Forall (good_op n dur T0) (mark_op <$> ms).
Proof.
  intros Hms. apply Forall_fmap. eapply Forall_impl; [exact Hms|].
  intros [t []] Ht; (split; [done|cbn; lia]).
Qed.

(** [Allow] as a function of the two windowed counts. *)
Definition admitted (b : Breaker) (accepts total : Z) : bool :=
  (total <? brequest b) || fltb (f_of_Z total) (fmul (k b) (f_of_Z accepts)).

Definition drop_ratio (b : Breaker) (accepts total : Z) : float64 :=
  f_max f0 (fdiv (fsub (f_of_Z total) (fmul (k b) (f_of_Z accepts))) (f_of_Z (total + 1))).

Lemma allow_summary `{Platform} now u b accepts total :
  summary now b = Ok (accepts, total) -> 0 <= total < 2 ^ 53 ->
  Allow now u b =
  Ok (mkBreaker (stat b) (k b) (brequest b)
        (if admitted b accepts total then StateClosed else StateOpen),
      if admitted b accepts total then None
      else if fltb u (drop_ratio b accepts total) then Some ErrNotAllowed else None).
Proof.
  intros Hsum Ht. unfold Allow, admitted, drop_ratio, cas, trueOnProba. rewrite Hsum. cbn.
  rewrite (wrap64_id (total + 1)) by (unfold in_int64, int64_min, int64_max; lia).
  destruct b as [st k0 r []]; cbn; by destruct (_ || _).
Qed.

Section Decision.
Context `{Platform} (n dur T0 now : Z) (b0 : Breaker) (ms : list mark).

Definition history : list op := mark_op <$> ms.
Definition windowed_total : Z := attempted n dur T0 history now.
Definition windowed_accepts : Z := accepted n dur T0 history now.

(** The assumptions on a run: sensible clocks, fewer than [2^53] marks. *)
Definition fair_run : Prop :=
  sane n dur T0 now /\ ordered_from T0 history /\ last_time T0 history <= now /\
  Forall (fun m : mark => sane n dur T0 m.1) ms /\ Z.of_nat (length ms) < 2 ^ 53.

Lemma in_slots_length lo m ops : (length (in_slots dur T0 lo m ops) <= length ops)%nat.
Proof. unfold in_slots. rewrite length_fmap. apply length_filter. Qed.

Lemma zsum_bounded l : Forall (fun z => z <= 1) l -> zsum l <= Z.of_nat (length l).
Proof. unfold zsum. induction 1; cbn [foldr length] in *; lia. Qed.

Lemma history_bounds :
  fair_run -> 0 <= windowed_accepts <= windowed_total /\ windowed_total < 2 ^ 53.
Proof.
  intros (_ & _ & _ & Hms & Hlen). unfold windowed_accepts, windowed_total, accepted, attempted,
    window_total.
  pose proof (mark_ops_good n dur T0 ms Hms) as Hg.
  pose proof (in_slots_length (slot_of dur T0 now - n + 1) n history) as Hl.
  unfold history in *. rewrite length_fmap in Hl.
  split; [|lia]. split.
  - eapply zsum_nonneg, good_in_slots, Hg.
  - apply zsum_bounded. unfold in_slots. apply Forall_fmap, Forall_filter_keep, Forall_fmap, Forall_true.
    intros [t []]; cbn; lia.
Qed.

Lemma run_marks_summary :
  fair_run -> NewRollingCounter n dur T0 = Ok (stat b0) ->
  exists b, run_marks ms b0 = Ok b /\ k b = k b0 /\ brequest b = brequest b0 /\
    summary now b = Ok (windowed_accepts, windowed_total).
Proof.
  intros Hf Hnew. destruct (history_bounds Hf) as [Hb Hb2].
  destruct Hf as (Hs & Ho & Hl & Hms & Hlen). pose proof Hs as (Hd & Hn & Hnow).
  pose proof (mark_ops_good n dur T0 ms Hms) as Hg.
  destruct (new_window_rep n dur T0 ltac:(lia)) as (r0 & E0 & H0).
  rewrite Hnew in E0. injection E0 as <-.
  destruct (run_adds_rep n dur T0 history 0 [] (stat b0) T0 H0) as (r & c & Hr & HR & Hc);
    [lia|done|done|unfold history; rewrite length_fmap; cbn; lia|].
  rewrite run_marks_adds. fold history. rewrite Hr. cbn.
  eexists. split; [done|]. cbn. repeat split.
  apply (summary_spec n dur T0 c history); unfold windowed_accepts, windowed_total in *; cbn;
    (done || lia).
Qed.

End Decision.

(** C2: after any run of marks the decision of [Allow] is exactly the SRE rule
    applied to the successes and the requests of the last window: admitted, and
    the breaker closed, when the window holds fewer requests than the minimum
    or fewer than [k] times its successes; otherwise the breaker is open and
    the request is refused exactly when the draw is below the drop ratio. *)
Theorem breaker_decision `{Platform} n dur T0 now b0 ms u :
  fair_run n dur T0 now ms -> NewRollingCounter n dur T0 = Ok (stat b0) ->
  let total := windowed_total n dur T0 now ms in
  let accepts := windowed_accepts n dur T0 now ms in
  exists b b', run_marks ms b0 = Ok b /\
    Allow now u b =
    Ok (b', if admitted b0 accepts total then None
            else if fltb u (drop_ratio b0 accepts total) then Some ErrNotAllowed else None) /\
    state b' = (if admitted b0 accepts total then StateClosed else StateOpen).
Proof.
  intros Hf Hnew total accepts. destruct (history_bounds n dur T0 now ms Hf) as [Hb Hb2].
  destruct (run_marks_summary n dur T0 now b0 ms Hf Hnew) as (b & Hrun & Hk & Hreq & Hsum).
  exists b. eexists. split; [done|].
  rewrite (allow_summary now u b _ _ Hsum) by (unfold total in *; lia).
  unfold admitted, drop_ratio. rewrite Hk, Hreq. split; reflexivity.
Qed.

Definition demo_marks : list mark := [(1, true); (2, false); (12, false); (14, false); (15, true)].

Definition demo_breaker : Breaker :=
  match NewBreaker [WithSuccess (f_ratio 1 2); WithRequest 3; WithBucket 3; WithWindow 30] 0 with
  | Ok b => b
  | _ => mkBreaker (mkPolicy 0 (mkWindow [] 0) 0 0 0) f0 0 StateClosed
  end.

Lemma demo_fair : fair_run 3 10 0 16 demo_marks.
Proof.
  unfold fair_run, demo_marks, sane. cbn. repeat split; try lia.
  repeat constructor; cbn; lia.
Qed.

Lemma breaker_decision_witness :
  exists b b', run_marks demo_marks demo_breaker = Ok b /\
    @Allow amd64 16 f0 b = Ok (b', Some ErrNotAllowed) /\ state b' = StateOpen.
Proof.
  exact (@breaker_decision amd64 3 10 0 16 demo_breaker demo_marks f0 demo_fair eq_refl).
Defined.

(** a breaker whose multiplier is the integer [K] (success ratio [1/K])
    never refuses a request, whatever the draw, while the windowed successes
    times [K] exceed the windowed requests. *)
Theorem healthy_never_refused `{Platform} n dur T0 now b0 ms u K :
  fair_run n dur T0 now ms -> NewRollingCounter n dur T0 = Ok (stat b0) ->
  k b0 = f_of_Z K -> 0 <= K < 2 ^ 53 ->
  K * windowed_accepts n dur T0 now ms < 2 ^ 53 ->
  windowed_total n dur T0 now ms < K * windowed_accepts n dur T0 now ms ->
  exists b b', run_marks ms b0 = Ok b /\ Allow now u b = Ok (b', None) /\ state b' = StateClosed.
Proof.
  intros Hf Hnew Hk HK Hprod Hlt. destruct (history_bounds n dur T0 now ms Hf) as [Hb Hb2].
  destruct (run_marks_summary n dur T0 now b0 ms Hf Hnew) as (b & Hrun & Hkb & Hreq & Hsum).
  exists b. eexists. split; [done|].
  rewrite (allow_summary now u b _ _ Hsum) by lia.
  assert (admitted b (windowed_accepts n dur T0 now ms) (windowed_total n dur T0 now ms) = true) as ->;
    [|split; reflexivity].
  unfold admitted. rewrite Hkb, Hk, fmul_exact, fltb_exact by lia.
  apply orb_true_iff. right. by apply Z.ltb_lt.
Qed.

Definition healthy_marks : list mark := [(1, true); (2, true); (12, true); (14, false); (15, true)].

Lemma healthy_never_refused_witness :
  exists b b', run_marks healthy_marks demo_breaker = Ok b /\
    @Allow amd64 16 f0 b = Ok (b', None) /\ state b' = StateClosed.
Proof.
  refine (@healthy_never_refused amd64 3 10 0 16 demo_breaker healthy_marks f0 2 _ eq_refl _ _ _ _).
  - unfold fair_run, healthy_marks, sane. cbn. repeat split; try lia.
    repeat constructor; cbn; lia.
  - vm_compute. reflexivity.
  - lia.
  - vm_compute. reflexivity.
  - vm_compute. reflexivity.
Defined.

(** ** The interceptor never counts a success *)

Section Starvation.
Context `{Platform} {Err_ Reply : Type} (FromError : Err_ -> Z * bool)
  (StatusServiceUnavailable : allow_error -> Err_).
Context (n dur T0 : Z) (method : string).

(** The breaker's ring holds only failures, at most [m] of them, none after [t]. *)
Definition starved (b : Breaker) (t : Z) (m : nat) : Prop :=
  exists c ops, Rep n dur T0 c (to_events dur T0 ops) (stat b) /\ T0 + c * dur <= t /\
    Forall (good_op n dur T0) ops /\ Forall (fun o : op => o.2 = 0) ops /\ (length ops <= m)%nat.

Lemma zsum_zeros l : Forall (fun z => z = 0) l -> zsum l = 0.
Proof. unfold zsum. induction 1; cbn [foldr] in *; lia. Qed.

Lemma starved_summary b t m now :
  starved b t m -> t <= now -> sane n dur T0 now -> Z.of_nat m < 2 ^ 53 ->
  exists total, summary now b = Ok (0, total) /\ 0 <= total < 2 ^ 53.
Proof.
  intros (c & ops & HR & Hc & Hg & Hz & Hlen) Ht Hs Hm.
  assert (Hacc : accepted n dur T0 ops now = 0).
  { apply zsum_zeros. unfold in_slots. by apply Forall_fmap, Forall_filter_keep. }
  pose proof (in_slots_length dur T0 (slot_of dur T0 now - n + 1) n ops).
  exists (attempted n dur T0 ops now). rewrite <- Hacc. unfold attempted. split; [|lia].
  apply (summary_spec n dur T0 c ops); unfold attempted; (done || lia).
Qed.

Lemma starved_allow b t m now u :
  starved b t m -> t <= now -> sane n dur T0 now -> Z.of_nat m < 2 ^ 53 ->
  exists b' e, Allow now u b = Ok (b', e) /\ stat b' = stat b /\ brequest b' = brequest b.
Proof.
  intros Hb Ht Hs Hm. destruct (starved_summary b t m now Hb Ht Hs Hm) as (total & Hsum & Htot).
  rewrite (allow_summary now u b _ _ Hsum) by lia. eauto.
Qed.

Lemma starved_mark_failed b t m now :
  starved b t m -> t <= now -> sane n dur T0 now -> Z.of_nat m < 2 ^ 53 ->
  exists b', MarkFailed now b = Ok b' /\ starved b' now (S m) /\ brequest b' = brequest b.
Proof.
  intros (c & ops & HR & Hc & Hg & Hz & Hlen) Ht Hs Hm.
  destruct (run_adds_rep n dur T0 [(now, 0)] c _ (stat b) t HR Hc) as (r & c' & Hr & HR' & Hc').
  { done. } { apply Forall_singleton. split; [done|cbn; lia]. }
  { unfold to_events. rewrite length_fmap. cbn. lia. }
  unfold MarkFailed. cbn in Hr. destruct (Counter_Add 0 now (stat b)) as [s| |]; [|done..].
  injection Hr as ->. eexists. split; [done|]. split; [|done].
  exists c', (ops ++ [(now, 0)]). unfold to_events in *. rewrite fmap_app. split; [exact HR'|].
  split; [exact Hc'|]. repeat split.
  - apply Forall_app. split; [done|]. apply Forall_singleton. split; [done|cbn; lia].
  - apply Forall_app. split; [done|]. by repeat constructor.
  - rewrite length_app. cbn. lia.
Qed.

(** A call that succeeds, or fails with a code that counts as a failure. *)
Definition nil_or_critical (o : circuitBreakerOptions (Err_ := Err_) (Reply := Reply))
    (c : call (Err_ := Err_) (Reply := Reply)) : Prop :=
  match callee_err c with
  | None => True
  | Some e => (FromError e).2 = true /\ (FromError e).1 ∈ validCodes o
  end.

Definition server_step (o : circuitBreakerOptions) (c : call) :=
  fst <$> UnaryServerCircuitBreaker (Reply := Reply) FromError StatusServiceUnavailable method c o.

Definition run_calls (cs : list call) (o : circuitBreakerOptions) := foldM server_step o cs.

(** Sequential calls: each starts after the previous one finished. *)
Fixpoint calls_from (t : Z) (cs : list (call (Err_ := Err_) (Reply := Reply))) : Prop :=
  match cs with
  | [] => True
  | c :: cs' => t <= started c <= finished c /\ sane n dur T0 (started c) /\
                sane n dur T0 (finished c) /\ calls_from (finished c) cs'
  end.

Lemma starved_step o c b t m :
  vals (group o) !! method = Some b -> starved b t m -> nil_or_critical o c ->
  t <= started c <= finished c -> sane n dur T0 (started c) -> sane n dur T0 (finished c) ->
  Z.of_nat m < 2 ^ 53 ->
  exists o' b', server_step o c = Ok o' /\ vals (group o') !! method = Some b' /\
    starved b' (finished c) (S m) /\ brequest b' = brequest b /\ validCodes o' = validCodes o.
Proof.
  intros Hget Hb Hc Ht Hs Hf Hm. unfold server_step, UnaryServerCircuitBreaker, Group_Get.
  rewrite Hget. cbn.
  destruct (starved_allow b t m (started c) (draw c) Hb ltac:(lia) Hs Hm) as (b1 & e & -> & Hst & Hreq).
  assert (Hb1 : starved b1 t m) by (unfold starved in *; by rewrite Hst).
  assert (Hmono : forall b t t' m m', starved b t m -> t <= t' -> (m <= m')%nat -> starved b t' m').
  { intros b' t1 t2 m1 m2 (c1 & ops & ? & ? & ? & ? & ?) ? ?. exists c1, ops. split_and!; (done || lia). }
  cbn. destruct e as [e|].
  - destruct (starved_mark_failed b1 t m (started c) Hb1 ltac:(lia) Hs Hm) as (b2 & -> & Hb2 & Hr2).
    cbn. do 2 eexists. split; [done|]. cbn. rewrite lookup_insert_eq. split; [done|].
    repeat split; [eapply Hmono; eauto; lia|congruence].
  - unfold mark_outcome, nil_or_critical in *. destruct (callee_err c) as [err|].
    + destruct (FromError err) as [code ok]. cbn in Hc. destruct Hc as [-> Hin].
      rewrite bool_decide_true by done. cbn.
      destruct (starved_mark_failed b1 t m (finished c) Hb1 ltac:(lia) Hf Hm) as (b2 & -> & Hb2 & Hr2).
      cbn. do 2 eexists. split; [done|]. cbn. rewrite lookup_insert_eq. split; [done|].
      repeat split; [done|congruence].
    + cbn. do 2 eexists. split; [done|]. cbn. rewrite lookup_insert_eq. split; [done|].
      repeat split; [eapply Hmono; eauto; lia|done].
Qed.

Lemma starved_run cs : forall o b t m,
  vals (group o) !! method = Some b -> starved b t m -> Forall (nil_or_critical o) cs ->
  calls_from t cs -> Z.of_nat (m + length cs) < 2 ^ 53 ->
  exists o' b' t', run_calls cs o = Ok o' /\ vals (group o') !! method = Some b' /\
    starved b' t' (m + length cs) /\ brequest b' = brequest b /\
    (forall u, Forall (fun c => finished c <= u) cs -> t <= u -> t' <= u).
Proof.
  unfold run_calls. induction cs as [|c cs IH]; intros o b t m Hget Hb Hcs Ht Hm; cbn in *.
  - exists o, b, t. rewrite Nat.add_0_r. repeat split; auto.
  - apply Forall_cons in Hcs as [Hc Hcs]. destruct Ht as (Ht & Hs & Hf & Hrest).
    destruct (starved_step o c b t m) as (o1 & b1 & -> & Hget1 & Hb1 & Hr1 & Hv1); [done..|lia|].
    cbn. destruct (IH o1 b1 (finished c) (S m)) as (o2 & b2 & t2 & Hrun & Hget2 & Hb2 & Hr2 & Hu);
      [done|done| |done|lia|].
    { eapply Forall_impl; [exact Hcs|]. unfold nil_or_critical. by rewrite Hv1. }
    exists o2, b2, t2. replace (m + S (length cs))%nat with (S m + length cs)%nat by lia.
    repeat split; [done..|congruence|].
    intros u [Hcu Hcsu]%Forall_cons Htu. apply Hu; done.
Qed.

(** the interceptors mark nothing when the callee returns nil, so on a
    method whose calls succeed or fail critically the windowed success count
    stays 0 however many calls succeeded: as soon as the window holds
    [request] failures the breaker opens, even at a negligible failure rate. *)
Theorem interceptor_counts_no_success (o : circuitBreakerOptions) b0 cs now u :
  vals (group o) !! method = Some b0 -> NewRollingCounter n dur T0 = Ok (stat b0) ->
  Forall (nil_or_critical o) cs -> calls_from T0 cs -> Z.of_nat (length cs) < 2 ^ 53 ->
  sane n dur T0 now -> Forall (fun c => finished c <= now) cs ->
  exists o' b total b' e, run_calls cs o = Ok o' /\ vals (group o') !! method = Some b /\
    summary now b = Ok (0, total) /\ Allow now u b = Ok (b', e) /\
    state b' = (if total <? brequest b0 then StateClosed else StateOpen).
Proof.
  intros Hget Hnew Hcs Ht Hlen Hs Hfin. pose proof Hs as (Hd & Hn & Hnow).
  destruct (new_window_rep n dur T0 ltac:(lia)) as (r0 & E0 & H0).
  rewrite Hnew in E0. injection E0 as <-.
  assert (Hb0 : starved b0 T0 0) by (exists 0, []; split_and!; (done || lia || constructor)).
  destruct (starved_run cs o b0 T0 0 Hget Hb0 Hcs Ht Hlen) as (o' & b & t & Hrun & Hg & Hb & Hr & Hu).
  specialize (Hu now Hfin ltac:(lia)).
  destruct (starved_summary b t _ now Hb Hu Hs ltac:(lia)) as (total & Hsum & Htot).
  exists o', b, total. do 2 eexists. split; [done|]. split; [done|]. split; [done|].
  rewrite (allow_summary now u b _ _ Hsum) by lia. split; [done|]. cbn. rewrite <- Hr.
  assert (admitted b 0 total = (total <? brequest b)) as ->; [|done].
  unfold admitted. destruct (total <? brequest b); [done|]. cbn.
  change (f_of_Z 0) with f0. unfold fltb, SFltb.
  destruct total as [|p|p]; [| |lia]; [by destruct (k b)|].
  rewrite f_of_Z_canon by lia. by destruct (k b).
Qed.

End Starvation.

(** A hundred successes and three failures: the breaker is open. *)
Definition demo_call (t : Z) (err : option Z) : call (Err_ := Z) (Reply := unit) :=
  mkCall t (S754_finite false (2 ^ 52)%positive (-53)) t (Some ()) err.

Definition demo_calls : list call :=
  [demo_call 1 (Some 13); demo_call 2 None; demo_call 3 None; demo_call 3 (Some 14);
   demo_call 4 None; demo_call 5 None; demo_call 6 (Some 13); demo_call 7 None].

Definition demo_group : circuitBreakerOptions (Err_ := Z) (Reply := unit) :=
  mkCbOptions (mkGroup (NewBreaker []) {["/svc/Get" := demo_breaker]})
    {[codes_Internal; codes_Unavailable]} None.

Lemma interceptor_counts_no_success_witness :
  exists o' b total b' e,
    @run_calls amd64 Z unit (fun e => (e, true)) (fun _ => 14) "/svc/Get"%string demo_calls demo_group = Ok o' /\
    vals (group o') !! "/svc/Get"%string = Some b /\
    @summary amd64 9 b = Ok (0, total) /\ @Allow amd64 9 f0 b = Ok (b', e) /\
    state b' = (if total <? brequest demo_breaker then StateClosed else StateOpen).
Proof.
  refine (@interceptor_counts_no_success amd64 Z unit (fun e => (e, true)) (fun _ => 14)
    3 10 0 "/svc/Get"%string demo_group demo_breaker demo_calls 9 f0 _ _ _ _ _ _ _).
  - vm_compute. reflexivity.
  - vm_compute. reflexivity.
  - unfold demo_calls, nil_or_critical. repeat constructor; cbn; set_solver.
  - unfold demo_calls, sane. repeat split; vm_compute; congruence.
  - cbn. lia.
  - unfold sane. lia.
  - unfold demo_calls. repeat (apply Forall_cons; split; [cbn; lia|]). constructor.
Defined.
