(* ===== verification/Bbr.v ===== *)
(** * pkg/shield/ratelimit: the BBR-like limiter

    [bbr.go] over two rolling counters of [Window].  The global CPU gauge, the
    number of CPUs and the clock are arguments; the clock readings inside one
    call are taken to coincide.  The fields the code updates atomically are
    fields of the limiter record, and the interleavings of [Allow] and of the
    returned done functions are sequences of steps. *)

From Stdlib Require Import SpecFloat.
From S2P Require Import Prelude GoFloat Window.

(** ** The CPU gauge *)

Definition getMin (l r : Z) : Z := if l <? r then l else r.

Definition decay : float64 := f_ratio 95 100.

(** One tick of [cpuproc]: the exponential moving average of the usage. *)
Definition cpuproc_tick `{Platform} (usage prevCPU : Z) : Z :=
  let usage := getMin usage 1000 in
  int64_of_float (fadd (fmul (f_of_Z prevCPU) decay)
                       (fmul (f_of_Z usage) (fsub (f_of_Z 1) decay))).

(** ** The limiter *)

Record lopts := mkLopts { oWindow : Z; oBucket : Z; oCPUThreshold : Z; oCPUQuota : float64 }.

Definition WithWindow (d : Z) (o : lopts) : lopts :=
  mkLopts d (oBucket o) (oCPUThreshold o) (oCPUQuota o).
Definition WithBucket (b : Z) (o : lopts) : lopts :=
  mkLopts (oWindow o) b (oCPUThreshold o) (oCPUQuota o).
Definition WithCPUThreshold (t : Z) (o : lopts) : lopts :=
  mkLopts (oWindow o) (oBucket o) t (oCPUQuota o).
Definition WithCPUQuota (q : float64) (o : lopts) : lopts :=
  mkLopts (oWindow o) (oBucket o) (oCPUThreshold o) q.

Record counterCache := mkCache { cval : Z; ctime : Z }.

Record BBR := mkBBR {
  passStat : RollingPolicy; rtStat : RollingPolicy; inFlight : Z; bucketPerSecond : Z;
  lbucketDuration : Z; prevDropTime : option Z; maxPASSCache : option counterCache;
  minRtCache : option counterCache; opts : lopts }.

Definition set_inFlight (n : Z) (l : BBR) : BBR :=
  mkBBR (passStat l) (rtStat l) n (bucketPerSecond l) (lbucketDuration l) (prevDropTime l)
    (maxPASSCache l) (minRtCache l) (opts l).
Definition set_prevDropTime (t : option Z) (l : BBR) : BBR :=
  mkBBR (passStat l) (rtStat l) (inFlight l) (bucketPerSecond l) (lbucketDuration l) t
    (maxPASSCache l) (minRtCache l) (opts l).
Definition set_maxPASSCache (c : counterCache) (l : BBR) : BBR :=
  mkBBR (passStat l) (rtStat l) (inFlight l) (bucketPerSecond l) (lbucketDuration l)
    (prevDropTime l) (Some c) (minRtCache l) (opts l).
Definition set_minRtCache (c : counterCache) (l : BBR) : BBR :=
  mkBBR (passStat l) (rtStat l) (inFlight l) (bucketPerSecond l) (lbucketDuration l)
    (prevDropTime l) (maxPASSCache l) (Some c) (opts l).
Definition set_stats (pass rt : RollingPolicy) (l : BBR) : BBR :=
  mkBBR pass rt (inFlight l) (bucketPerSecond l) (lbucketDuration l)
    (prevDropTime l) (maxPASSCache l) (minRtCache l) (opts l).

Definition quota_zero (q : float64) : bool := match q with S754_zero _ => true | _ => false end.

Definition NewLimiter (os : list (lopts -> lopts)) (now : Z) : result string BBR :=
  let opt := foldl (fun o f => f o) (mkLopts (10 * second) 100 800 f0) os in
  if oBucket opt =? 0 then Panic
  else
    let bucketDuration := wrap64 (Z.quot (oWindow opt) (oBucket opt)) in
    passStat ← NewRollingCounter (oBucket opt) bucketDuration now;
    rtStat ← NewRollingCounter (oBucket opt) bucketDuration now;
    if bucketDuration =? 0 then Panic
    else Ok (mkBBR passStat rtStat 0 (Z.quot second bucketDuration) bucketDuration None None None opt).

(** The CPU getter chosen by [NewLimiter]. *)
Definition cpu `{Platform} (gCPU numCPU : Z) (l : BBR) : Z :=
  if quota_zero (oCPUQuota (opts l)) then gCPU
  else int64_of_float (fdiv (fmul (f_of_Z gCPU) (f_of_Z numCPU)) (oCPUQuota (opts l))).

Definition ltimespan (now lastTime : Z) (l : BBR) : result string Z :=
  if lbucketDuration l =? 0 then Panic
  else
    let v := wrap64 (Z.quot (since now lastTime) (lbucketDuration l)) in
    Ok (if v >? -1 then v else oBucket (opts l)).

Definition pass_step (acc : Z * float64) (b : Bucket) : Z * float64 :=
  (acc.1 + 1, f_max acc.2 (foldl fadd f0 (Points b))).

Definition raw_max_pass `{Platform} (now : Z) (l : BBR) : result string Z :=
  f ← Counter_Reduce f0 (fun w it =>
        '(_, result) ← for_next w (fun acc : Z * float64 => acc.1 <? oBucket (opts l)) pass_step
          (1, f_of_Z 1) it; Ok result) now (passStat l);
  Ok (int64_of_float f).

(** [None] when the cache is empty or a bucket old. *)
Definition cached (now : Z) (c : option counterCache) (l : BBR) : result string (option Z) :=
  match c with
  | Some ps => ts ← ltimespan now (ctime ps) l; Ok (if ts <? 1 then Some (cval ps) else None)
  | None => Ok None
  end.

Definition maxPASS `{Platform} (now : Z) (l : BBR) : result string (Z * BBR) :=
  hit ← cached now (maxPASSCache l) l;
  match hit with
  | Some v => Ok (v, l)
  | None => raw ← raw_max_pass now l; Ok (raw, set_maxPASSCache (mkCache raw now) l)
  end.

Definition rt_step (acc : Z * float64) (b : Bucket) : Z * float64 :=
  (acc.1 + 1,
   if decide (Points b = []) then acc.2
   else f_min acc.2 (fdiv (foldl fadd f0 (Points b)) (f_of_Z (Count b)))).

Definition raw_min_rt `{Platform} (now : Z) (l : BBR) : result string Z :=
  f ← Counter_Reduce f0 (fun w it =>
        '(_, result) ← for_next w (fun acc : Z * float64 => acc.1 <? oBucket (opts l)) rt_step
          (1, max_float64) it; Ok result) now (rtStat l);
  let rawMinRT := int64_of_float (f_ceil f) in
  Ok (if rawMinRT <=? 0 then 1 else rawMinRT).

Definition minRT `{Platform} (now : Z) (l : BBR) : result string (Z * BBR) :=
  hit ← cached now (minRtCache l) l;
  match hit with
  | Some v => Ok (v, l)
  | None => raw ← raw_min_rt now l; Ok (raw, set_minRtCache (mkCache raw now) l)
  end.

Definition in_flight_formula `{Platform} (product : Z) : Z :=
  int64_of_float (fadd (f_floor (fdiv (f_of_Z product) (f_of_Z 1000))) (f_ratio 1 2)).

Definition maxInFlight `{Platform} (now : Z) (l : BBR) : result string (Z * BBR) :=
  '(p, l) ← maxPASS now l;
  '(r, l) ← minRT now l;
  Ok (in_flight_formula (wrap64 (wrap64 (p * r) * bucketPerSecond l)), l).

(** [inFlight > 1 && inFlight > l.maxInFlight()], short-circuited. *)
Definition over_limit `{Platform} (now : Z) (l : BBR) : result string (bool * BBR) :=
  if inFlight l >? 1 then
    '(m, l') ← maxInFlight now l; Ok (inFlight l >? m, l')
  else Ok (false, l).

(** [t, _ := l.prevDropTime.Load().(time.Duration)]. *)
Definition drop_time (l : BBR) : Z := default 0 (prevDropTime l).

Definition shouldDrop `{Platform} (now gCPU numCPU : Z) (l : BBR) : result string (bool * BBR) :=
  if cpu gCPU numCPU l <? oCPUThreshold (opts l) then
    if drop_time l =? 0 then Ok (false, l)
    else if wrap64 (now - drop_time l) <=? second then over_limit now l
    else Ok (false, set_prevDropTime (Some 0) l)
  else
    d ← over_limit now l;
    let '(drop, l') := (d : bool * BBR) in
    if drop then
      if negb (drop_time l' =? 0) then Ok (drop, l')
      else Ok (drop, set_prevDropTime (Some now) l')
    else Ok (drop, l').

Record Stat := mkStat { sCPU : Z; sInFlight : Z; sMaxInFlight : Z; sMinRt : Z; sMaxPass : Z }.

Definition Stat_snapshot `{Platform} (now gCPU numCPU : Z) (l : BBR) : result string (Stat * BBR) :=
  let c := cpu gCPU numCPU l in
  '(r, l) ← minRT now l;
  '(p, l) ← maxPASS now l;
  '(m, l) ← maxInFlight now l;
  Ok (mkStat c (inFlight l) m r p, l).

Inductive limit_error := ErrLimitExceed.

(** [Allow]: on admission the done function carries its start time. *)
Definition LAllow `{Platform} (now gCPU numCPU : Z) (l : BBR) :
    result string (BBR * (Z + limit_error)) :=
  d ← shouldDrop now gCPU numCPU l;
  let '(drop, l) := (d : bool * BBR) in
  if drop then Ok (l, inr ErrLimitExceed)
  else Ok (set_inFlight (wrap64 (inFlight l + 1)) l, inl now).

(** The done function of a request started at [start]. *)
Definition Done (start now : Z) (l : BBR) : result string BBR :=
  let rt := Z.quot (since now start) millisecond in
  let rt := if rt <=? 0 then 1 else rt in
  rs ← Counter_Add rt now (rtStat l);
  let l := set_inFlight (wrap64 (inFlight l - 1)) (set_stats (passStat l) rs l) in
  ps ← Counter_Add 1 now (passStat l);
  Ok (set_stats ps (rtStat l) l).

(** ** Requests in flight *)

Section InFlight.
Context `{Platform}.

(** The limiter together with the start times of the requests that were
    admitted and whose done function has not run yet. *)
Record world := mkWorld { limiter : BBR; outstanding : list Z }.

Inductive step : world -> world -> Prop :=
  | step_allow w now gCPU numCPU l' start :
      LAllow now gCPU numCPU (limiter w) = Ok (l', inl start) ->
      step w (mkWorld l' (start :: outstanding w))
  | step_refuse w now gCPU numCPU l' :
      LAllow now gCPU numCPU (limiter w) = Ok (l', inr ErrLimitExceed) ->
      step w (mkWorld l' (outstanding w))
  | step_done w now l' start before after :
      outstanding w = before ++ start :: after ->
      Done start now (limiter w) = Ok l' ->
      step w (mkWorld l' (before ++ after))
  | step_stat w now gCPU numCPU s l' :
      Stat_snapshot now gCPU numCPU (limiter w) = Ok (s, l') ->
      step w (mkWorld l' (outstanding w)).

(** Reading the caches does not touch the in-flight counter or the drop time. *)
Definition same_control (l l' : BBR) : Prop :=
  inFlight l' = inFlight l /\ prevDropTime l' = prevDropTime l /\ opts l' = opts l.

Lemma same_control_trans l1 l2 l3 : same_control l1 l2 -> same_control l2 l3 -> same_control l1 l3.
Proof. unfold same_control. naive_solver congruence. Qed.

Lemma maxPASS_control now l p l' : maxPASS now l = Ok (p, l') -> same_control l l'.
Proof.
  unfold maxPASS. intros Hm. ok_inv. destruct x as [v|]; ok_inv; done.
Qed.

Lemma minRT_control now l p l' : minRT now l = Ok (p, l') -> same_control l l'.
Proof.
  unfold minRT. intros Hm. ok_inv. destruct x as [v|]; ok_inv; done.
Qed.

Lemma maxInFlight_control now l m l' : maxInFlight now l = Ok (m, l') -> same_control l l'.
Proof.
  unfold maxInFlight. intros Hm. apply bind_ok in Hm as ([p l1] & H1 & Hm).
  apply bind_ok in Hm as ([r l2] & H2 & Hm). injection Hm as <- <-.
  eauto using same_control_trans, maxPASS_control, minRT_control.
Qed.

Lemma over_limit_control now l d l' :
  over_limit now l = Ok (d, l') -> same_control l l' /\ (d = true -> 1 < inFlight l).
Proof.
  unfold over_limit. destruct (inFlight l >? 1) eqn:E; intros Hm.
  - apply bind_ok in Hm as ([m l1] & H1 & Hm). injection Hm as <- <-.
    split; [by eapply maxInFlight_control|]. intros _. apply Z.gtb_lt in E. lia.
  - injection Hm as <- <-. done.
Qed.

Lemma shouldDrop_inFlight now gCPU numCPU l d l' :
  shouldDrop now gCPU numCPU l = Ok (d, l') ->
  inFlight l' = inFlight l /\ (d = true -> 1 < inFlight l).
Proof.
  unfold shouldDrop. destruct (_ <? _).
  - destruct (_ =? 0); [intros [= <- <-]; done|].
    destruct (_ <=? _); [|intros [= <- <-]; done].
    intros [(? & _) ?]%over_limit_control. done.
  - intros Hm. apply bind_ok in Hm as ([d1 l1] & [(H1 & _) H2]%over_limit_control & Hm).
    destruct d1; [|injection Hm as <- <-; done].
    destruct (negb _); injection Hm as <- <-; done.
Qed.

Lemma Done_inFlight start now l l' : Done start now l = Ok l' -> inFlight l' = wrap64 (inFlight l - 1).
Proof. unfold Done. intros Hm. ok_inv. done. Qed.

Lemma Stat_inFlight now gCPU numCPU l s l' :
  Stat_snapshot now gCPU numCPU l = Ok (s, l') -> inFlight l' = inFlight l.
Proof.
  unfold Stat_snapshot. intros Hm.
  apply bind_ok in Hm as ([r l1] & H1%minRT_control & Hm).
  apply bind_ok in Hm as ([p l2] & H2%maxPASS_control & Hm).
  apply bind_ok in Hm as ([m l3] & H3%maxInFlight_control & Hm). injection Hm as <- <-.
  unfold same_control in *. naive_solver congruence.
Qed.

(** The counter is the number of outstanding requests, modulo [2^64]. *)
Definition counted (w : world) : Prop :=
  inFlight (limiter w) = wrap64 (Z.of_nat (length (outstanding w))).

Lemma step_counted w w' : step w w' -> counted w -> counted w'.
Proof.
  unfold counted. intros Hs. destruct Hs as [w now g nc l' st Ha|w now g nc l' Ha|
    w now l' st b a Ho Hd|w now g nc s l' Hst]; cbn; intros Hc.
  - unfold LAllow in Ha. apply bind_ok in Ha as ([[] l1] & Hd & Ha); [done|].
    injection Ha as <- _. cbn. apply shouldDrop_inFlight in Hd as [-> _].
    rewrite Hc, wrap64_shift. f_equal. lia.
  - unfold LAllow in Ha. apply bind_ok in Ha as ([[] l1] & Hd & Ha); [|done].
    injection Ha as <-. by apply shouldDrop_inFlight in Hd as [-> _].
  - apply Done_inFlight in Hd. rewrite Hd, Hc. rewrite Ho, !length_app. cbn.
    rewrite <- Z.add_opp_r, wrap64_shift. f_equal. lia.
  - by rewrite (Stat_inFlight _ _ _ _ _ _ Hst).
Qed.

Lemma new_limiter_counted os now l : NewLimiter os now = Ok l -> counted (mkWorld l []).
Proof.
  unfold NewLimiter. intros Hm. destruct (_ =? 0); [done|]. ok_inv.
  destruct (_ =? 0); ok_inv. done.
Qed.

End InFlight.

(** C3: under any interleaving of admissions, refusals, completions and
    snapshots, the in-flight counter is the number of admitted requests not yet
    done, so it is never negative; and a request is only ever refused while at
    least two others are in flight. *)
Theorem bbr_in_flight_exact `{Platform} os now0 l0 w :
  NewLimiter os now0 = Ok l0 -> star step (mkWorld l0 []) w ->
  Z.of_nat (length (outstanding w)) < 2 ^ 63 ->
  inFlight (limiter w) = Z.of_nat (length (outstanding w)) /\
  (forall now gCPU numCPU l', LAllow now gCPU numCPU (limiter w) = Ok (l', inr ErrLimitExceed) ->
     (2 <= length (outstanding w))%nat).
Proof.
  intros Hnew Hstar Hlen.
  assert (Hc : counted w) by (eapply star_invariant; [apply step_counted|done|by eapply new_limiter_counted]).
  unfold counted in Hc. rewrite wrap64_id in Hc by (unfold in_int64, int64_min, int64_max; lia).
  split; [done|]. intros now g nc l' Ha. unfold LAllow in Ha.
  apply bind_ok in Ha as ([[] l1] & Hd & Ha); [|done].
  apply shouldDrop_inFlight in Hd as [_ Hd]. specialize (Hd eq_refl). lia.
Qed.

Definition demo_limiter : BBR :=
  match NewLimiter [WithWindow second; WithBucket 10] 0 with
  | Ok l => l
  | _ => mkBBR (mkPolicy 0 (mkWindow [] 0) 0 0 0) (mkPolicy 0 (mkWindow [] 0) 0 0 0) 0 0 0 None None None
           (mkLopts 0 0 0 f0)
  end.

Definition demo_world : world :=
  match @LAllow amd64 5 900 4 demo_limiter with
  | Ok (l, inl t) => mkWorld l [t]
  | _ => mkWorld demo_limiter []
  end.

Lemma bbr_in_flight_exact_witness :
  inFlight (limiter demo_world) = 1 /\
  (forall now gCPU numCPU l',
     @LAllow amd64 now gCPU numCPU (limiter demo_world) = Ok (l', inr ErrLimitExceed) ->
     (2 <= length (outstanding demo_world))%nat).
Proof.
  refine (@bbr_in_flight_exact amd64 [WithWindow second; WithBucket 10] 0 demo_limiter demo_world _ _ _).
  - vm_compute. reflexivity.
  - apply star_one. unfold demo_world.
    destruct (@LAllow amd64 5 900 4 demo_limiter) as [[l [t|[]]]| |] eqn:E; try (vm_compute in E; discriminate E).
    exact (@step_allow amd64 (mkWorld demo_limiter []) 5 900 4 l t E).
  - vm_compute. reflexivity.
Defined.

(** ** Recovery after an overload *)

Section Recovery.
Context `{Platform}.

Inductive arrival := Arrive (now gCPU numCPU : Z) | Finish (start now : Z).

(** Serve one event; the list records for every arrival whether it was refused. *)
Definition serve (acc : BBR * list bool) (e : arrival) : result string (BBR * list bool) :=
  match e with
  | Arrive now gCPU numCPU =>
      r ← LAllow now gCPU numCPU acc.1;
      let '(l, out) := (r : BBR * (Z + limit_error)) in
      Ok (l, acc.2 ++ [match out with inl _ => false | inr _ => true end])
  | Finish start now => l ← Done start now acc.1; Ok (l, acc.2)
  end.

Definition serve_all (es : list arrival) (l : BBR) : result string (BBR * list bool) :=
  foldM serve (l, []) es.

(** An arrival at or after [t0] that finds the CPU below the threshold. *)
Definition calm (t0 : Z) (l : BBR) (e : arrival) : Prop :=
  match e with
  | Arrive now gCPU numCPU =>
      t0 <= now < 2 ^ 62 /\ cpu gCPU numCPU l < oCPUThreshold (opts l)
  | Finish _ _ => True
  end.

(** No drop phase, or one that started more than a second before [t0]. *)
Definition cooled (t0 : Z) (l : BBR) : Prop :=
  0 <= drop_time l /\ (drop_time l = 0 \/ second < t0 - drop_time l).

Lemma Done_control start now l l' :
  Done start now l = Ok l' -> prevDropTime l' = prevDropTime l /\ opts l' = opts l.
Proof. unfold Done. intros Hm. ok_inv. done. Qed.

Lemma calm_opts t0 l l' e : opts l' = opts l -> calm t0 l e -> calm t0 l' e.
Proof. unfold calm, cpu. by intros ->. Qed.

Lemma calm_serve t0 l outs e l' outs' :
  0 <= t0 -> cooled t0 l -> calm t0 l e -> serve (l, outs) e = Ok (l', outs') ->
  cooled t0 l' /\ opts l' = opts l /\ (Forall (fun b => b = false) outs -> Forall (fun b => b = false) outs').
Proof.
  intros Ht0 [Hpos Hcool] Hcalm Hs. destruct e as [now g nc|start now]; cbn in *.
  - destruct Hcalm as [Hnow Hcpu]. apply bind_ok in Hs as ([l1 o] & Ha & Hs).
    injection Hs as <- <-. unfold LAllow in Ha. apply bind_ok in Ha as ([d l2] & Hd & Ha).
    assert (d = false /\ cooled t0 l2 /\ opts l2 = opts l) as (-> & Hc2 & Ho2).
    { unfold shouldDrop in Hd. rewrite (proj2 (Z.ltb_lt _ _) Hcpu) in Hd.
      destruct (drop_time l =? 0) eqn:E.
      - injection Hd as <- <-. unfold cooled. repeat split; [done|]. by left; apply Z.eqb_eq.
      - apply Z.eqb_neq in E. destruct Hcool as [?|Hcool]; [done|].
        assert (second < wrap64 (now - drop_time l)).
        { unfold second, millisecond in *.
          rewrite wrap64_id by (unfold in_int64, int64_min, int64_max; lia). lia. }
        rewrite (proj2 (Z.leb_gt _ _)) in Hd by done. injection Hd as <- <-.
        unfold cooled, drop_time. cbn. repeat split; [lia|by left]. }
    injection Ha as <- <-. repeat split; [apply Hc2|apply Hc2|done|].
    intros HF. apply Forall_app. split; [done|]. by repeat constructor.
  - apply bind_ok in Hs as (l1 & [Hp Ho]%Done_control & Hs). injection Hs as <- <-.
    unfold cooled, drop_time. rewrite Hp. by repeat split.
Qed.

(** C4: recovery.  Once the drop phase began more than a second ago (or there
    was none), no arrival that finds the CPU below the threshold is refused,
    for as long as the CPU stays below it, however many requests are in flight
    and in any interleaving with completions. *)
Theorem bbr_recovers t0 l es l' outs :
  0 <= t0 -> cooled t0 l -> Forall (calm t0 l) es -> serve_all es l = Ok (l', outs) ->
  Forall (fun refused => refused = false) outs.
Proof.
  intros Ht0 Hc Hes. unfold serve_all.
  assert (Hgen : forall es l outs0, cooled t0 l -> Forall (calm t0 l) es ->
    Forall (fun b => b = false) outs0 -> foldM serve (l, outs0) es = Ok (l', outs) ->
    Forall (fun b => b = false) outs).
  { clear l Hc es Hes. induction es as [|e es IH]; intros l outs0 Hc Hes Ho Hs; cbn in Hs.
    - by injection Hs as <- <-.
    - apply Forall_cons in Hes as [He Hes]. apply bind_ok in Hs as ([l1 o1] & Hs1 & Hs).
      destruct (calm_serve t0 l outs0 e l1 o1 Ht0 Hc He Hs1) as (Hc1 & Ho1 & HF).
      eapply (IH l1 o1); eauto. eapply Forall_impl; [exact Hes|]. intros. by eapply calm_opts. }
  by apply Hgen.
Qed.

End Recovery.

Definition hot_limiter : BBR :=
  set_prevDropTime (Some second) (set_inFlight 50 demo_limiter).

Lemma bbr_recovers_witness :
  exists l', @serve_all amd64 [Arrive (3 * second) 100 4; Finish 5 (3 * second); Arrive (4 * second) 700 4]
               hot_limiter = Ok (l', [false; false]) /\
             Forall (fun refused => refused = false) [false; false].
Proof.
  destruct (@serve_all amd64 [Arrive (3 * second) 100 4; Finish 5 (3 * second); Arrive (4 * second) 700 4]
    hot_limiter) as [[l outs]| |] eqn:E; [|vm_compute in E; discriminate E..].
  assert (outs = [false; false]) as -> by (vm_compute in E; congruence).
  exists l. split; [done|].
  refine (@bbr_recovers amd64 (3 * second) hot_limiter _ l [false; false] _ _ _ E).
  - vm_compute. congruence.
  - split; [vm_compute; congruence|]. right. vm_compute. reflexivity.
  - apply Forall_cons; split; [|apply Forall_cons; split; [exact I|apply Forall_singleton]];
      (split; [split; vm_compute; congruence|vm_compute; reflexivity]).
Defined.
