(* ===== verification/Version.v ===== *)
(** * Version numbers (pkg/utils/version/version.go)

    [parse] with its two regular expressions read as deterministic scanners,
    the comparison of versions, [String] and [HighestSupportedVersion].  The
    theorems: printing is a right inverse of parsing, the comparison is the
    lexicographic order of the zero-padded components, the highest supported
    version is a maximum, and the pre-release comparison has a cycle. *)

From S2P Require Import Prelude GoStr.
From Stdlib Require Import Ascii.
From Stdlib Require String.

Module Version.

(** ** The data *)

Record Version : Type := mkVersion {
  components : list Z;
  semver : bool;
  preRelease : string;
  buildMetadata : string }.

(** One constructor per [fmt.Errorf]/[errors.New]. *)
Inductive error : Type :=
  | ErrParse | ErrIllegal | ErrZeroPrefix | ErrNonNumeric | ErrExtra
  | ErrEmptyArray | ErrNotFound | ErrNotV1.

#[export] Instance error_eq_dec : EqDecision error.
Proof. solve_decision. Defined.

(** ** The two regular expressions *)

(** [\s] of Go's syntax: tab, line feed, form feed, carriage return, space. *)
Definition re_space (c : ascii) : bool :=
  let n := nat_of_ascii c in
  (n =? 9)%nat || (n =? 10)%nat || (n =? 12)%nat || (n =? 13)%nat || (n =? 32)%nat.

(** [[0-9A-Za-z-]]. *)
Definition ident_char (c : ascii) : bool := is_digit c || is_alpha c || bool_decide (c = "-"%char).

Definition head_is (f : ascii -> bool) (s : string) : bool :=
  match s with String a _ => f a | EmptyString => false end.

(** The longest prefix matching [f+(\.f+)*], once the head is in [f]. *)
Fixpoint dotted (f : ascii -> bool) (s : string) : string * string :=
  match s with
  | EmptyString => ("", "")
  | String a s' =>
      if f a || (bool_decide (a = "."%char) && head_is f s')
      then let (x, r) := dotted f s' in (String a x, r)
      else ("", s)
  end.

(** [versionMatchRE.FindStringSubmatch]. *)
Definition versionMatchRE (str : string) : option (string * string) :=
  let s := TrimPrefix (trim_left_by re_space str) "v" in
  if head_is is_digit s then
    let (numbers, extra) := dotted is_digit s in
    if bool_decide (count_char newline extra = O) then Some (numbers, extra) else None
  else None.

(** An optional group [(?:c(f+(\.f+)* ))?]. *)
Definition opt_group (c : ascii) (s : string) : option (string * string) :=
  match s with
  | String a t =>
      if bool_decide (a = c) then if head_is ident_char t then Some (dotted ident_char t) else None
      else Some ("", s)
  | EmptyString => Some ("", s)
  end.

(** [extraMatchRE.FindStringSubmatch]. *)
Definition extraMatchRE (extra : string) : option (string * string) :=
  '(pre, r) ← opt_group "-"%char extra;
  '(meta, r') ← opt_group "+"%char r;
  if forall_chars re_space r' then Some (pre, meta) else None.

(** ** Parsing *)

(** [strings.HasPrefix(comp, "0") && comp != "0"]. *)
Definition zero_prefixed (comp : string) : bool :=
  HasPrefix comp "0" && negb (bool_decide (comp = "0")).

(** The loop over the components; [first] is [i == 0]. *)
Fixpoint parse_components (semver first : bool) (comps : list string) : result error (list Z) :=
  match comps with
  | [] => Ok []
  | comp :: rest =>
      if (first || semver) && zero_prefixed comp then Err ErrZeroPrefix
      else match ParseUint comp with
           | None => Err ErrNonNumeric
           | Some num => ns ← parse_components semver false rest; Ok (num :: ns)
           end
  end.

Definition is_numeric (comp : string) : bool :=
  match ParseUint comp with Some _ => true | None => false end.

Definition parse (str : string) (semver : bool) : result error Version :=
  match versionMatchRE str with
  | None => Err ErrParse
  | Some (numbers, extra) =>
      let comps := Split numbers "."%char in
      if (semver && negb (length comps =? 3)%nat) || (negb semver && (length comps <? 2)%nat)
      then Err ErrIllegal
      else
        ns ← parse_components semver true comps;
        if semver && negb (bool_decide (extra = "")) then
          match extraMatchRE extra with
          | None => Err ErrExtra
          | Some (pre, meta) =>
              if existsb (fun comp => is_numeric comp && zero_prefixed comp) (Split pre "."%char)
              then Err ErrZeroPrefix
              else Ok (mkVersion ns semver pre meta)
          end
        else Ok (mkVersion ns semver "" "")
  end.

Definition ParseGeneric (str : string) : result error Version := parse str false.
Definition ParseSemantic (str : string) : result error Version := parse str true.

(** The [Must] forms panic on error. *)
Definition MustParseGeneric (str : string) : result error Version :=
  match ParseGeneric str with Ok v => Ok v | _ => Panic end.
Definition MustParseSemantic (str : string) : result error Version :=
  match ParseSemantic str with Ok v => Ok v | _ => Panic end.

(** ** Accessors and builders *)

Definition MajorMinor (major minor : Z) : Version := mkVersion [major; minor] false "" "".
Definition Major (v : Version) : result error Z := at_index (components v) 0.
Definition Minor (v : Version) : result error Z := at_index (components v) 1.
Definition Patch (v : Version) : result error Z :=
  if (length (components v) <? 3)%nat then Ok 0 else at_index (components v) 2.
Definition BuildMetadata (v : Version) : string := buildMetadata v.
Definition PreRelease (v : Version) : string := preRelease v.
Definition Components (v : Version) : list Z := components v.

Definition WithMajor (v : Version) (major : Z) : result error Version :=
  mi ← Minor v; pa ← Patch v;
  Ok (mkVersion [major; mi; pa] (semver v) (preRelease v) (buildMetadata v)).
Definition WithMinor (v : Version) (minor : Z) : result error Version :=
  ma ← Major v; pa ← Patch v;
  Ok (mkVersion [ma; minor; pa] (semver v) (preRelease v) (buildMetadata v)).
Definition WithPatch (v : Version) (patch : Z) : result error Version :=
  ma ← Major v; mi ← Minor v;
  Ok (mkVersion [ma; mi; patch] (semver v) (preRelease v) (buildMetadata v)).
Definition WithPreRelease (v : Version) (pre : string) : result error Version :=
  ma ← Major v; mi ← Minor v; pa ← Patch v;
  Ok (mkVersion [ma; mi; pa] (semver v) pre (buildMetadata v)).
Definition WithBuildMetadata (v : Version) (meta : string) : result error Version :=
  ma ← Major v; mi ← Minor v; pa ← Patch v;
  Ok (mkVersion [ma; mi; pa] (semver v) (preRelease v) meta).

(** [v.String()]; a nil receiver prints as [<nil>]. *)
Definition String' (v : option Version) : string :=
  match v with
  | None => "<nil>"
  | Some v =>
      Join (map FormatUint (components v)) "."
      +:+ (if bool_decide (preRelease v = "") then "" else "-" +:+ preRelease v)
      +:+ (if bool_decide (buildMetadata v = "") then "" else "+" +:+ buildMetadata v)
  end.

(** ** Comparison *)

Fixpoint onlyZeros (array : list Z) : bool :=
  match array with
  | [] => true
  | num :: rest => if bool_decide (num = 0) then onlyZeros rest else false
  end.

(** The loop over the common components; [None] when it falls through. *)
Fixpoint cmp_common (v o : list Z) : option Z :=
  match v, o with
  | a :: v', b :: o' => if b <? a then Some 1 else if a <? b then Some (-1) else cmp_common v' o'
  | _, _ => None
  end.

(** The loop over the common pre-release identifiers. *)
Fixpoint cmp_idents (v o : list string) : option Z :=
  match v, o with
  | a :: v', b :: o' =>
      let strs :=
        if String.ltb b a then Some 1 else if String.ltb a b then Some (-1) else cmp_idents v' o' in
      match ParseUint a, ParseUint b with
      | Some vNum, Some oNum =>
          if oNum <? vNum then Some 1 else if vNum <? oNum then Some (-1) else cmp_idents v' o'
      | _, _ => strs
      end
  | _, _ => None
  end.

Definition compareInternal (v other : Version) : Z :=
  let vLen := length (components v) in
  let oLen := length (components other) in
  match cmp_common (components v) (components other) with
  | Some c => c
  | None =>
      if (oLen <? vLen)%nat && negb (onlyZeros (drop oLen (components v))) then 1
      else if (vLen <? oLen)%nat && negb (onlyZeros (drop vLen (components other))) then -1
      else if negb (semver v) || negb (semver other) then 0
      else if bool_decide (preRelease v = "") && negb (bool_decide (preRelease other = "")) then 1
      else if negb (bool_decide (preRelease v = "")) && bool_decide (preRelease other = "") then -1
      else if bool_decide (preRelease v = preRelease other) then 0
      else
        let vPR := Split (preRelease v) "."%char in
        let oPR := Split (preRelease other) "."%char in
        match cmp_idents vPR oPR with
        | Some c => c
        | None =>
            if (length oPR <? length vPR)%nat then 1
            else if (length vPR <? length oPR)%nat then -1 else 0
        end
  end.

Definition AtLeast (v min : Version) : bool := negb (bool_decide (compareInternal v min = -1)).
Definition LessThan (v other : Version) : bool := bool_decide (compareInternal v other = -1).
Definition Compare (v : Version) (other : string) : result error Z :=
  ov ← parse other (semver v); Ok (compareInternal v ov).

(** The loop of [HighestSupportedVersion], over the list from its end. *)
Definition highest_step (best : option Version) (str : string) : result error (option Version) :=
  match ParseGeneric str with
  | Ok cur =>
      ma ← Major cur;
      if 1 <? ma then Ok best
      else match best with
           | None => Ok (Some cur)
           | Some b => Ok (Some (if LessThan b cur then cur else b))
           end
  | Err _ => Ok best
  | Panic => Panic
  end.

Definition HighestSupportedVersion (versions : list string) : result error Version :=
  match versions with
  | [] => Err ErrEmptyArray
  | _ =>
      best ← foldM highest_step None (rev versions);
      match best with
      | None => Err ErrNotFound
      | Some v => ma ← Major v; if bool_decide (ma = 1) then Ok v else Err ErrNotV1
      end
  end.

(** ** The comparison is lexicographic *)

(** Component [i], zero where the version has none. *)
Definition comp (l : list Z) (i : nat) : Z := default 0 (l !! i).

(** [c] is the comparison of the infinite sequences [f] and [g] at their
    first difference. *)
Definition Lex (c : Z) (f g : nat -> Z) : Prop :=
  (c = 0 /\ forall i, f i = g i) \/
  (exists i, (forall j, (j < i)%nat -> f j = g j) /\
    ((f i < g i /\ c = -1) \/ (g i < f i /\ c = 1))).

(** The part of [compareInternal] on the components. *)
Definition cmp_components (v o : list Z) : Z :=
  match cmp_common v o with
  | Some c => c
  | None =>
      if (length o <? length v)%nat && negb (onlyZeros (drop (length o) v)) then 1
      else if (length v <? length o)%nat && negb (onlyZeros (drop (length v) o)) then -1
      else 0
  end.

Definition uints (l : list Z) : Prop := Forall (fun n => 0 <= n < 2 ^ 64) l.

Lemma Lex_shift c f g :
  f O = g O -> Lex c (fun i => f (S i)) (fun i => g (S i)) -> Lex c f g.
Proof.
  intros H0 [[-> H]|(i & Hj & Hi)].
  - left. split; [done|]. intros [|i]; auto.
  - right. exists (S i). split; [|done]. intros [|j] Hlt; [done|]. apply Hj. lia.
Qed.

Lemma Lex_opp c f g : Lex c f g -> Lex (- c) g f.
Proof.
  intros [[-> H]|(i & Hj & Hi)]; [left|right].
  - split; [done|]. auto.
  - exists i. split; [intros; symmetry; auto|]. destruct Hi as [[? ->]|[? ->]]; [right|left]; lia.
Qed.

Lemma Lex_fun c1 c2 f g : Lex c1 f g -> Lex c2 f g -> c1 = c2.
Proof.
  intros [[-> H]|(i & Hj & Hi)] [[-> H']|(i' & Hj' & Hi')].
  - done.
  - specialize (H i'). lia.
  - specialize (H' i). lia.
  - destruct (lt_eq_lt_dec i i') as [[Hlt| ->]|Hlt].
    + specialize (Hj' i Hlt). lia.
    + lia.
    + specialize (Hj i' Hlt). lia.
Qed.

(** Not greater is transitive. *)
Lemma Lex_trans c1 c2 c3 f g h :
  Lex c1 f g -> Lex c2 g h -> Lex c3 f h -> c1 <> 1 -> c2 <> 1 -> c3 <> 1.
Proof.
  intros H1 H2 H3 Hc1 Hc2. enough (exists c, Lex c f h /\ c <> 1) as (c & Hc & Hne).
  { by rewrite (Lex_fun _ _ _ _ H3 Hc). }
  destruct H1 as [[-> H]|(i & Hj & Hi)], H2 as [[-> H']|(i' & Hj' & Hi')].
  - exists 0. split; [|done]. left. split; [done|]. intros k. by rewrite H.
  - exists c2. split; [|done]. right. exists i'. split; [intros; rewrite H; auto|]. by rewrite H.
  - exists c1. split; [|done]. right. exists i. split; [intros; rewrite <- H'; auto|]. by rewrite <- H'.
  - exists (-1). split; [|done]. right. destruct (lt_eq_lt_dec i i') as [[Hlt| ->]|Hlt].
    + exists i. split; [intros; rewrite Hj, Hj' by lia; done|]. specialize (Hj' i Hlt). lia.
    + exists i'. split; [intros; rewrite Hj, Hj' by lia; done|]. lia.
    + exists i'. split; [intros; rewrite Hj, Hj' by lia; done|]. specialize (Hj i' Hlt). lia.
Qed.

Lemma onlyZeros_spec l : onlyZeros l = true -> forall i, comp l i = 0.
Proof.
  induction l as [|x l IH]; intros H i; [done|]. cbn in H. case_bool_decide; [|done].
  destruct i as [|i]; [done|]. by apply IH.
Qed.

Lemma tail_first l :
  uints l -> onlyZeros l = false ->
  exists i, (forall j, (j < i)%nat -> comp l j = 0) /\ 0 < comp l i.
Proof.
  induction l as [|x l IH]; intros Hu H; [done|]. apply Forall_cons in Hu as [Hx Hu].
  cbn in H. case_bool_decide.
  - destruct (IH Hu H) as (i & Hj & Hi). exists (S i). split; [|done].
    intros [|j] Hlt; [done|]. apply Hj. lia.
  - exists O. split; [lia|]. cbn. lia.
Qed.

Lemma cmp_components_cons a b v o :
  cmp_components (a :: v) (b :: o) =
  if b <? a then 1 else if a <? b then -1 else cmp_components v o.
Proof. unfold cmp_components. cbn. by destruct (b <? a), (a <? b). Qed.

Lemma cmp_components_nil_r v : uints v -> Lex (cmp_components v []) (comp v) (comp []).
Proof.
  intros Hu. unfold cmp_components. destruct v as [|a v]; [left; by split|].
  cbn [cmp_common length drop]. destruct (onlyZeros (a :: v)) eqn:E; cbn.
  - left. split; [done|]. intros i. by rewrite onlyZeros_spec.
  - destruct (tail_first _ Hu E) as (i & Hj & Hi). right. exists i.
    split; [intros; by rewrite Hj|]. right. unfold comp at 1. cbn. done.
Qed.

Lemma cmp_components_opp v o : cmp_components o v = - cmp_components v o.
Proof.
  revert o. induction v as [|a v IH]; intros [|b o]; try done.
  - unfold cmp_components. cbn [cmp_common length drop]. cbn. by destruct (negb _).
  - unfold cmp_components. cbn [cmp_common length drop]. cbn. by destruct (negb _).
  - rewrite !cmp_components_cons, (IH o).
    destruct (b <? a) eqn:E, (a <? b) eqn:E'; try done; lia.
Qed.

Lemma cmp_components_lex v o : uints v -> uints o -> Lex (cmp_components v o) (comp v) (comp o).
Proof.
  revert o. induction v as [|a v IH]; intros o Hv Ho.
  - rewrite cmp_components_opp. apply Lex_opp. by apply cmp_components_nil_r.
  - destruct o as [|b o]; [by apply cmp_components_nil_r|].
    apply Forall_cons in Hv as [? Hv]. apply Forall_cons in Ho as [? Ho].
    rewrite cmp_components_cons. destruct (b <? a) eqn:E; [|destruct (a <? b) eqn:E'].
    + right. exists O. split; [lia|]. right. cbn. lia.
    + right. exists O. split; [lia|]. left. cbn. lia.
    + apply Lex_shift; [cbn; lia|]. by apply IH.
Qed.

Lemma compareInternal_components v o c :
  compareInternal v o = c ->
  cmp_components (components v) (components o) <> 0 \/ semver v && semver o = false \/
  preRelease v = preRelease o ->
  cmp_components (components v) (components o) = c.
Proof.
  unfold compareInternal, cmp_components. destruct (cmp_common _ _); [done|].
  destruct (_ && negb (onlyZeros (drop (length (components o)) _))); [done|].
  destruct (_ && _); [done|]. intros <- [?|[H|H]]; [done| |].
  - by destruct (semver v), (semver o).
  - destruct (_ || _); [done|]. rewrite H. repeat case_bool_decide; done.
Qed.

(** ** The scanners *)

(** The rest of a [dotted] match after its head. *)
Fixpoint dotted_ok (f : ascii -> bool) (s : string) : bool :=
  match s with
  | EmptyString => true
  | String a s' => (f a || (bool_decide (a = "."%char) && head_is f s')) && dotted_ok f s'
  end.

(** Where a [dotted] match ends. *)
Definition stops (f : ascii -> bool) (r : string) : bool :=
  match r with
  | EmptyString => true
  | String a _ => negb (f a) && negb (bool_decide (a = "."%char))
  end.

Lemma dotted_app f x r : dotted_ok f x = true -> stops f r = true -> dotted f (x +:+ r) = (x, r).
Proof.
  intros Hx Hr. induction x as [|a x IH].
  - rewrite app_nil_l_s. destruct r as [|b r]; [done|]. cbn in *.
    destruct (f b); [done|]. by case_bool_decide.
  - cbn in Hx. apply andb_true_iff in Hx as [Ha Hx]. rewrite app_cons_s. cbn [dotted].
    replace (f a || _) with true; [by rewrite IH|]. symmetry.
    apply orb_true_iff in Ha as [->|Ha]; [done|]. apply andb_true_iff in Ha as [-> Ha].
    destruct x as [|b x]; [done|]. rewrite app_cons_s. cbn in *. rewrite Ha. by destruct (f a).
Qed.

Lemma dotted_sound f s x r :
  dotted f s = (x, r) -> s = x +:+ r /\ dotted_ok f x = true /\ head_is f x = head_is f s.
Proof.
  revert x r. induction s as [|a s IH]; intros x r; cbn; [by intros [= <- <-]|].
  destruct (f a || _) eqn:E.
  - destruct (dotted f s) as [y r'] eqn:Ed. intros [= <- <-].
    destruct (IH _ _ eq_refl) as (-> & Hy & Hh). rewrite app_cons_s. split; [done|]. split; [|done].
    cbn. by rewrite Hh, E, Hy.
  - intros [= <- <-]. split; [done|]. split; [done|]. cbn. by destruct (f a).
Qed.

Lemma no_char_forall c f s : f c = false -> forall_chars f s = true -> no_char c s.
Proof.
  intros Hc. induction s as [|a s IH]; [done|]. cbn. rewrite andb_true_iff. intros [Ha Hs].
  apply no_char_cons. split; [congruence|auto].
Qed.

Lemma dotted_ok_no_char c f s :
  f c = false -> c <> "."%char -> dotted_ok f s = true -> no_char c s.
Proof.
  intros Hc Hdot. induction s as [|a s IH]; [done|]. cbn. rewrite andb_true_iff. intros [Ha Hs].
  apply no_char_cons. split; [|auto]. intros ->. rewrite Hc in Ha. by rewrite bool_decide_false in Ha.
Qed.

(** Printed numbers. *)
Lemma dec_go_head fuel : forall n acc,
  0 < n < 2 ^ Z.of_nat fuel -> exists c s, dec_go fuel n acc = String c s /\ c <> "0"%char.
Proof.
  induction fuel as [|fuel IH]; intros n acc Hn; [cbn in Hn; lia|]. cbn [dec_go].
  pose proof (Z.mod_pos_bound n 10 ltac:(lia)) as Hm.
  destruct (digit_char_spec (n mod 10) Hm) as [_ Hd].
  destruct (n <? 10) eqn:E.
  - eexists _, _. split; [done|]. intros Hc. rewrite Hc in Hd.
    rewrite Z.mod_small in Hd by lia. change (digit_val _) with 0 in Hd. lia.
  - apply IH. assert (0 < n / 10) by (apply Z.div_str_pos; lia). split; [done|].
    apply Z.div_lt_upper_bound; [lia|]. rewrite Nat2Z.inj_succ, Z.pow_succ_r in Hn by lia. lia.
Qed.

Lemma FormatUint_not_zero_prefixed n : 0 <= n -> zero_prefixed (FormatUint n) = false.
Proof.
  intros Hn. destruct (decide (n = 0)) as [->|]; [done|].
  pose proof (log2_fuel n Hn) as Hf.
  destruct (dec_go_head _ n "" ltac:(split; [lia|apply Hf])) as (c & s & E & Hc).
  unfold zero_prefixed, FormatUint. rewrite E. cbn. by rewrite bool_decide_false.
Qed.

Lemma parse_components_format semver first ns :
  uints ns -> parse_components semver first (map FormatUint ns) = Ok ns.
Proof.
  revert first. induction ns as [|n ns IH]; intros first Hu; [done|].
  apply Forall_cons in Hu as [Hn Hu]. cbn [map parse_components]. rewrite FormatUint_not_zero_prefixed, andb_false_r by lia.
  rewrite ParseUint_FormatUint by done. by rewrite IH.
Qed.

Lemma head_FormatUint n t : 0 <= n -> head_is is_digit (FormatUint n +:+ t) = true.
Proof.
  intros Hn. pose proof (FormatUint_digits n Hn) as Hd.
  assert (FormatUint n <> "") as Hne by apply dec_go_nonempty.
  destruct (FormatUint n) as [|c s]; [done|]. rewrite app_cons_s. cbn in *.
  by destruct (is_digit c).
Qed.

Lemma dotted_ok_digits s t :
  forall_chars is_digit s = true -> dotted_ok is_digit t = true ->
  dotted_ok is_digit (s +:+ t) = true.
Proof.
  intros Hs Ht. induction s as [|a s IH]; [done|]. cbn in Hs. apply andb_true_iff in Hs as [Ha Hs].
  rewrite app_cons_s. cbn. rewrite Ha. by apply IH.
Qed.

Lemma dotted_ok_numbers ns :
  uints ns -> dotted_ok is_digit (Join (map FormatUint ns) ".") = true.
Proof.
  induction ns as [|n ns IH]; intros Hu; [done|]. apply Forall_cons in Hu as [Hn Hu].
  assert (forall_chars is_digit (FormatUint n) = true) as Hd by (apply FormatUint_digits; lia).
  destruct ns as [|m ns].
  - cbn. rewrite <- (app_nil_s (FormatUint n)). by apply dotted_ok_digits.
  - cbn [map]. rewrite Join_cons by done. apply dotted_ok_digits; [done|].
    change ("." +:+ ?s) with (String "."%char s). cbn [dotted_ok].
    assert (head_is is_digit (Join (map FormatUint (m :: ns)) ".") = true) as Hh.
    { apply Forall_cons in Hu as [Hm _]. cbn [map]. destruct ns as [|k ns].
      - cbn. rewrite <- (app_nil_s (FormatUint m)). apply head_FormatUint. lia.
      - cbn [map]. rewrite Join_cons by done. apply head_FormatUint. lia. }
    cbn [map] in Hh |- *. rewrite Hh. cbn. by apply IH.
Qed.

Lemma Split_numbers ns :
  uints ns -> ns <> [] ->
  Split (Join (map FormatUint ns) ".") "."%char = map FormatUint ns.
Proof.
  intros Hu Hne. apply Split_Join; [by destruct ns|]. apply Forall_map.
  eapply Forall_impl; [apply Hu|]. intros n Hn.
  apply (no_char_forall _ is_digit); [done|]. apply FormatUint_digits. simpl in Hn. lia.
Qed.

Lemma trim_left_by_head f g s :
  (forall c, g c = true -> f c = false) -> head_is g s = true -> trim_left_by f s = s.
Proof. intros H Hs. destruct s as [|a s]; [done|]. cbn in *. by rewrite H. Qed.

Lemma digit_not_space c : is_digit c = true -> re_space c = false.
Proof. unfold is_digit, re_space. set (n := nat_of_ascii c). cbv zeta. lia. Qed.

Lemma ident_not_space c : ident_char c = true -> re_space c = false.
Proof.
  unfold ident_char, is_alpha, is_digit, is_upper, is_lower, re_space.
  case_bool_decide; [by subst|]. set (n := nat_of_ascii c). cbv zeta. lia.
Qed.

Lemma ident_not_stop c : ident_char c = true -> c <> "+"%char /\ c <> newline /\ c <> "."%char.
Proof. intros H. by repeat split; intros ->. Qed.

(** The numbers and the rest are found again. *)
Lemma versionMatchRE_print ns extra :
  uints ns -> ns <> [] -> stops is_digit extra = true -> no_char newline extra ->
  versionMatchRE (Join (map FormatUint ns) "." +:+ extra) = Some (Join (map FormatUint ns) ".", extra).
Proof.
  intros Hu Hne Hs Hnl. set (s := Join _ _).
  assert (head_is is_digit (s +:+ extra) = true) as Hh.
  { unfold s. destruct ns as [|n ns]; [done|]. apply Forall_cons in Hu as [Hn Hu]. destruct ns as [|m ns].
    - cbn. apply head_FormatUint. lia.
    - cbn [map]. rewrite Join_cons, app_assoc_s by done. apply head_FormatUint. lia. }
  unfold versionMatchRE. rewrite (trim_left_by_head _ is_digit) by (apply digit_not_space || done).
  assert (TrimPrefix (s +:+ extra) "v" = s +:+ extra) as ->.
  { unfold TrimPrefix. destruct (s +:+ extra) as [|a t]; [done|]. cbn in *.
    by rewrite bool_decide_false by by intros ->. }
  rewrite Hh, dotted_app by (done || by apply dotted_ok_numbers). by rewrite bool_decide_true.
Qed.

(** ** What parsing returns *)

(** A group that matched: empty (not taken) or dotted identifiers. *)
Definition group_ok (g : string) : Prop :=
  g = "" \/ head_is ident_char g = true /\ dotted_ok ident_char g = true.

(** The type invariant of a parsed version. *)
Definition parsed (b : bool) (v : Version) : Prop :=
  semver v = b /\ uints (components v) /\
  (if b then length (components v) = 3%nat else (2 <= length (components v))%nat) /\
  (if b then
     group_ok (preRelease v) /\ group_ok (buildMetadata v) /\
     existsb (fun c => is_numeric c && zero_prefixed c) (Split (preRelease v) "."%char) = false
   else preRelease v = "" /\ buildMetadata v = "").

Lemma digits_value_nonneg s acc n : 0 <= acc -> digits_value acc s = Some n -> 0 <= n.
Proof.
  revert acc. induction s as [|c s IH]; intros acc Ha; cbn; [by intros [= <-]|].
  destruct (is_digit c) eqn:E; [|done]. apply IH. unfold is_digit in E. unfold digit_val. cbv zeta in E. lia.
Qed.

Lemma ParseUint_range s n : ParseUint s = Some n -> 0 <= n < 2 ^ 64.
Proof.
  unfold ParseUint. destruct s as [|c s]; [done|].
  destruct (digits_value 0 _) as [v|] eqn:E; [|done]. cbn.
  apply digits_value_nonneg in E; [|done]. destruct (v <? _) eqn:E'; [|done]. intros [= <-].
  apply Z.ltb_lt in E'. lia.
Qed.

Lemma parse_components_ok semver first comps ns :
  parse_components semver first comps = Ok ns -> uints ns /\ length ns = length comps.
Proof.
  revert first ns. induction comps as [|c comps IH]; intros first ns; cbn;
    [intros [= <-]; split; [constructor|done]|].
  destruct (_ && _); [done|]. destruct (ParseUint c) as [n|] eqn:En; [|done].
  rewrite bind_ok. intros (ns' & Hns & [= <-]). destruct (IH _ _ Hns). split; [|cbn; lia].
  constructor; [by eapply ParseUint_range|done].
Qed.

Lemma opt_group_ok c s g r :
  opt_group c s = Some (g, r) ->
  group_ok g /\ s = (if bool_decide (g = "") then r else String c (g +:+ r)).
Proof.
  unfold opt_group. destruct s as [|a t]; [intros [= <- <-]; split; [by left|done]|].
  case_bool_decide as E.
  - subst a. destruct (head_is _ t) eqn:Hh; [|done]. intros [= H].
    destruct (dotted_sound _ _ _ _ H) as (-> & Hok & Hg). rewrite Hh in Hg.
    split; [by right|]. by rewrite bool_decide_false by by intros ->.
  - intros [= <- <-]. split; [by left|done].
Qed.

Lemma parse_ok s b v : parse s b = Ok v -> parsed b v.
Proof.
  unfold parse. destruct (versionMatchRE s) as [[numbers extra]|]; [|done].
  destruct (_ || _) eqn:El; [done|]. rewrite bind_ok. intros (ns & Hns & H).
  apply parse_components_ok in Hns as [Hu Hlen].
  assert (if b then length ns = 3%nat else (2 <= length ns)%nat) as Hl.
  { rewrite Hlen. destruct b; cbn in El; lia. }
  clear El. destruct (b && _) eqn:Eb.
  - apply andb_true_iff in Eb as [-> _].
    destruct (extraMatchRE extra) as [[pre meta]|] eqn:Ee; [|done].
    destruct (existsb _ _) eqn:Ex; [done|]. injection H as <-.
    unfold extraMatchRE in Ee.
    destruct (opt_group "-"%char extra) as [[p r]|] eqn:E1; [|done]. cbn in Ee.
    destruct (opt_group "+"%char r) as [[m r']|] eqn:E2; [|done]. cbn in Ee.
    destruct (forall_chars _ _); [|done]. injection Ee as -> ->.
    repeat split; try done; by eapply opt_group_ok.
  - injection H as <-. unfold parsed. cbn [preRelease buildMetadata semver components].
    repeat split; try done. destruct b; [|done]. by repeat split; try left.
Qed.

Lemma opt_group_app c g r :
  c <> "."%char -> ident_char c = false \/ c = "-"%char ->
  group_ok g -> stops ident_char r = true -> head_is (fun a => bool_decide (a = c)) r = false ->
  opt_group c ((if bool_decide (g = "") then "" else single c +:+ g) +:+ r) = Some (g, r).
Proof.
  intros Hdot Hc Hg Hr Hh. case_bool_decide as E.
  - subst g. rewrite app_nil_l_s. destruct r as [|a r]; [done|].
    cbn in Hh |- *. by rewrite Hh.
  - destruct Hg as [?|[Hhd Hok]]; [done|]. unfold single.
    rewrite app_assoc_s. change (String c "" +:+ ?s) with (String c s). cbn [opt_group].
    rewrite bool_decide_true by done.
    assert (head_is ident_char (g +:+ r) = true) as ->.
    { destruct g as [|a g]; [done|]. by rewrite app_cons_s. }
    by rewrite dotted_app.
Qed.

(** The text after the numbers that [String] prints. *)
Definition print_extra (v : Version) : string :=
  (if bool_decide (preRelease v = "") then "" else single "-"%char +:+ preRelease v)
  +:+ (if bool_decide (buildMetadata v = "") then "" else single "+"%char +:+ buildMetadata v).

Lemma group_no_newline c g :
  c <> newline -> group_ok g -> no_char newline (if bool_decide (g = "") then "" else single c +:+ g).
Proof.
  intros Hc Hg. case_bool_decide; [done|]. change (single c +:+ g) with (String c g).
  apply no_char_cons. split; [done|]. destruct Hg as [->|[_ Hg]]; [done|].
  by apply (dotted_ok_no_char _ ident_char).
Qed.

Lemma print_extra_match pre meta ns b :
  group_ok pre -> group_ok meta ->
  extraMatchRE (print_extra (mkVersion ns b pre meta)) = Some (pre, meta).
Proof.
  intros Hp Hm. unfold extraMatchRE, print_extra. cbn [preRelease buildMetadata].
  set (m := if bool_decide (meta = "") then _ else _).
  rewrite opt_group_app; try (done || by right).
  - change (Some (?a, ?b) ≫= ?f) with (f (a, b)). cbn beta iota. rewrite <- (app_nil_s m).
    unfold m. rewrite opt_group_app; try (done || by left).
  - unfold m. case_bool_decide; [done|]. done.
  - unfold m. case_bool_decide; done.
Qed.

Lemma print_extra_scan v b :
  parsed b v -> stops is_digit (print_extra v) = true /\ no_char newline (print_extra v).
Proof.
  intros (_ & _ & _ & H). assert (group_ok (preRelease v) /\ group_ok (buildMetadata v)) as [Hp Hm].
  { destruct b; [naive_solver|]. destruct H as [-> ->]. split; by left. }
  split.
  - unfold print_extra. repeat case_bool_decide; done.
  - unfold print_extra. apply no_char_app. split; by apply group_no_newline.
Qed.

Lemma print_extra_empty v b :
  parsed b v -> print_extra v = "" -> preRelease v = "" /\ buildMetadata v = "".
Proof. intros _. unfold print_extra. repeat case_bool_decide; done. Qed.

Lemma String_parsed v : String' (Some v) = Join (map FormatUint (components v)) "." +:+ print_extra v.
Proof. done. Qed.

(** ** The generic order on parsed versions *)

Lemma generic_lex b1 b2 v o :
  parsed b1 v -> parsed b2 o -> b1 && b2 = false \/ preRelease v = preRelease o ->
  Lex (compareInternal v o) (comp (components v)) (comp (components o)).
Proof.
  intros (Hsv & Huv & _) (Hso & Huo & _) H.
  rewrite <- (compareInternal_components v o _ eq_refl) by (rewrite Hsv, Hso; naive_solver).
  by apply cmp_components_lex.
Qed.

Lemma generic_refl v : parsed false v -> compareInternal v v <> 1.
Proof.
  intros H. destruct (generic_lex false false v v H H (or_introl eq_refl)) as [[-> _]|(i & _ & Hi)]; lia.
Qed.

Lemma generic_total v o :
  parsed false v -> parsed false o -> compareInternal v o <> -1 -> compareInternal o v <> 1.
Proof.
  intros Hv Ho Hne Hc. apply Hne.
  pose proof (generic_lex false false v o Hv Ho (or_introl eq_refl)) as H1.
  pose proof (Lex_opp _ _ _ (generic_lex false false o v Ho Hv (or_introl eq_refl))) as H2.
  rewrite Hc in H2. by rewrite (Lex_fun _ _ _ _ H1 H2).
Qed.

Lemma generic_trans u v w :
  parsed false u -> parsed false v -> parsed false w ->
  compareInternal u v <> 1 -> compareInternal v w <> 1 -> compareInternal u w <> 1.
Proof.
  intros Hu Hv Hw. apply (Lex_trans _ _ _ (comp (components u)) (comp (components v)) (comp (components w)));
    apply (generic_lex false false); auto.
Qed.

Lemma Major_parsed b v : parsed b v -> exists m, Major v = Ok m.
Proof.
  intros (_ & _ & Hl & _). unfold Major, at_index.
  assert (0 < length (components v))%nat as H by (destruct b; lia).
  rewrite decide_True by lia. destruct (components v) as [|m ms]; [cbn in H; lia|]. by exists m.
Qed.

(** The candidates among the strings read so far, and the best of them. *)
Definition candidate (seen : list string) (w : Version) : Prop :=
  exists s m, s ∈ seen /\ ParseGeneric s = Ok w /\ Major w = Ok m /\ m <= 1.

Definition best_of (seen : list string) (best : option Version) : Prop :=
  match best with
  | None => forall w, ~ candidate seen w
  | Some b => candidate seen b /\ forall w, candidate seen w -> compareInternal w b <> 1
  end.

Lemma candidate_parsed seen w : candidate seen w -> parsed false w.
Proof. intros (s & m & _ & H & _). by apply (parse_ok s). Qed.

Lemma candidate_snoc seen s w :
  candidate (seen ++ [s]) w <->
  candidate seen w \/ (ParseGeneric s = Ok w /\ exists m, Major w = Ok m /\ m <= 1).
Proof.
  unfold candidate. split.
  - intros (t & m & Ht & Hp & Hm). apply elem_of_app in Ht as [Ht|Ht%list_elem_of_singleton]; [left|right].
    + by exists t, m.
    + subst t. split; [done|]. by exists m.
  - intros [(t & m & Ht & Hp)|(Hp & m & Hm)].
    + exists t, m. split; [apply elem_of_app; by left|done].
    + exists s, m. split; [apply elem_of_app; right; by apply list_elem_of_singleton|done].
Qed.

Lemma best_of_same seen s best :
  (forall w m, ParseGeneric s = Ok w -> Major w = Ok m -> m <= 1 -> False) ->
  best_of seen best -> best_of (seen ++ [s]) best.
Proof.
  intros Hno Hb.
  assert (forall w, candidate (seen ++ [s]) w <-> candidate seen w) as Hc.
  { intros w. rewrite candidate_snoc. split; [|tauto]. intros [?|(Hp & m & Hm & Hle)]; [done|].
    exfalso. eauto. }
  destruct best as [b|]; cbn in *; [|intros w; by rewrite Hc].
  rewrite Hc. destruct Hb as [? Hb]. split; [done|]. intros w. rewrite Hc. apply Hb.
Qed.

Lemma parse_components_no_panic sv first comps : parse_components sv first comps <> Panic.
Proof.
  revert first. induction comps as [|c comps IH]; intros first; cbn; [done|].
  destruct (_ && _); [done|]. destruct (ParseUint c); [|done]. specialize (IH false).
  by destruct (parse_components sv false comps).
Qed.

Lemma parse_no_panic s b : parse s b <> Panic.
Proof.
  unfold parse. destruct (versionMatchRE s) as [[numbers extra]|]; [|done]. destruct (_ || _); [done|].
  pose proof (parse_components_no_panic b true (Split numbers "."%char)) as H.
  destruct (parse_components _ _ _); cbn; [|done..]. destruct (b && _); [|done].
  destruct (extraMatchRE extra) as [[? ?]|]; [|done]. by destruct (existsb _ _).
Qed.

Lemma highest_step_best seen s best :
  best_of seen best -> exists best', highest_step best s = Ok best' /\ best_of (seen ++ [s]) best'.
Proof.
  intros Hb. unfold highest_step. destruct (ParseGeneric s) as [cur|e|] eqn:Ep.
  - pose proof (parse_ok _ _ _ Ep) as Hcur. destruct (Major_parsed _ _ Hcur) as [m Hm].
    rewrite Hm. cbn. destruct (1 <? m) eqn:E1.
    { exists best. split; [done|]. apply best_of_same; [|done].
      intros w m' Hp Hm' Hle. assert (m' = m) as -> by congruence. lia. }
    assert (candidate (seen ++ [s]) cur) as Hcc.
    { apply candidate_snoc. right. split; [done|]. exists m. split; [done|lia]. }
    destruct best as [b|].
    + destruct Hb as [Hcb Hb]. eexists. split; [done|]. cbn [best_of].
      pose proof (candidate_parsed _ _ Hcb) as Hpb. unfold LessThan. case_bool_decide as El; split.
      * done.
      * intros w [Hw|(Hw & _)]%candidate_snoc.
        -- apply (generic_trans w b cur); auto; [by eapply candidate_parsed|lia].
        -- assert (w = cur) as -> by congruence. by apply generic_refl.
      * apply candidate_snoc. by left.
      * intros w [Hw|(Hw & _)]%candidate_snoc; [by apply Hb|].
        assert (w = cur) as -> by congruence. by apply generic_total.
    + eexists. split; [done|]. split; [done|]. intros w [Hw|(Hw & _)]%candidate_snoc.
      * by apply Hb in Hw.
      * assert (w = cur) as -> by congruence. by apply generic_refl.
  - exists best. split; [done|]. apply best_of_same; [congruence|done].
  - by destruct (parse_no_panic s false).
Qed.

Lemma highest_fold l seen best :
  best_of seen best -> exists best', foldM highest_step best l = Ok best' /\ best_of (seen ++ l) best'.
Proof.
  revert seen best. induction l as [|s l IH]; intros seen best Hb.
  - exists best. by rewrite app_nil_r.
  - destruct (highest_step_best seen s best Hb) as (b1 & H1 & Hb1).
    destruct (IH _ _ Hb1) as (b2 & H2 & Hb2). exists b2. cbn. rewrite H1. split; [done|].
    by rewrite <- app_assoc in Hb2.
Qed.

Lemma candidate_rev l w : candidate (rev l) w <-> candidate l w.
Proof.
  unfold candidate. split; intros (s & m & Hs & H); exists s, m; split; try done;
    apply list_elem_of_In; apply list_elem_of_In in Hs; by apply in_rev; rewrite ?rev_involutive.
Qed.

Lemma lt_major_compare v w mv mw :
  parsed false v -> parsed false w -> Major v = Ok mv -> Major w = Ok mw -> mv < mw ->
  compareInternal w v = 1.
Proof.
  intros Hv Hw Hmv Hmw Hlt.
  apply at_index_inv in Hmv as [_ Hmv]. apply at_index_inv in Hmw as [_ Hmw].
  change (Z.to_nat 0) with O in Hmv, Hmw.
  destruct (generic_lex false false w v Hw Hv (or_introl eq_refl)) as [[_ H]|(i & Hj & Hi)].
  - specialize (H O). unfold comp in H. rewrite Hmv, Hmw in H. cbn in H. lia.
  - destruct i as [|i].
    + unfold comp in Hi. rewrite Hmv, Hmw in Hi. cbn in Hi. lia.
    + specialize (Hj O ltac:(lia)). unfold comp in Hj. rewrite Hmv, Hmw in Hj. cbn in Hj. lia.
Qed.

(** ** The properties *)

(** whatever string a version was parsed from (leading [v], white space,
    trailing text), the string [String] prints for it parses to the same
    version, for generic and for semantic versions. *)
Theorem parse_String_roundtrip (s : string) (b : bool) (v : Version) :
  parse s b = Ok v -> parse (String' (Some v)) b = Ok v.
Proof.
  intros H. apply parse_ok in H as Hp. clear H. rewrite String_parsed.
  pose proof (print_extra_scan v b Hp) as [Hs Hnl]. pose proof (print_extra_empty v b Hp) as He.
  destruct Hp as (Hsv & Hu & Hl & Hx).
  assert (components v <> []) as Hne by (intros E; rewrite E in Hl; cbn in Hl; destruct b; lia).
  unfold parse. rewrite versionMatchRE_print, Split_numbers by done.
  rewrite length_map, parse_components_format by done.
  replace (_ || _) with false by (destruct b; lia).
  destruct v as [ns sv pre meta]. cbn in *. subst sv. destruct b; cbn.
  - destruct Hx as (Hg & Hm & Hz). rewrite print_extra_match by done. rewrite Hz.
    case_bool_decide as E; [|done]. by destruct (He E) as [-> ->].
  - by destruct Hx as [-> ->].
Qed.

(** unless two semantic versions with different pre-releases meet, the
    comparison of parsed versions is that of their components, read as
    infinite sequences padded with zeros, at the first difference. *)
Theorem compare_lexicographic s1 b1 v s2 b2 o :
  parse s1 b1 = Ok v -> parse s2 b2 = Ok o ->
  b1 && b2 = false \/ preRelease v = preRelease o ->
  Lex (compareInternal v o) (comp (components v)) (comp (components o)).
Proof. intros Hv Ho. apply (generic_lex b1 b2); by eapply parse_ok. Qed.

(** [HighestSupportedVersion] never panics; it returns a version exactly
    when some string parses with major number 1, and what it returns is one
    of the listed versions, has major number 1 and is not below any listed
    version whose major number is at most 1. *)
Theorem highest_supported_maximal (l : list string) :
  is_panic (HighestSupportedVersion l) = false /\
  (is_ok (HighestSupportedVersion l) = true <->
   exists s w, s ∈ l /\ ParseGeneric s = Ok w /\ Major w = Ok 1) /\
  (forall v, HighestSupportedVersion l = Ok v ->
   Major v = Ok 1 /\ (exists s, s ∈ l /\ ParseGeneric s = Ok v) /\
   forall s w m, s ∈ l -> ParseGeneric s = Ok w -> Major w = Ok m -> m <= 1 -> compareInternal w v <> 1).
Proof.
  destruct (highest_fold (rev l) [] None) as (best & Hf & Hb).
  { intros w (s & m & Hs & _). by apply not_elem_of_nil in Hs. }
  cbn [app] in Hb.
  assert (HighestSupportedVersion l =
    match best with
    | None => match l with [] => Err ErrEmptyArray | _ => Err ErrNotFound end
    | Some v => ma ← Major v; if bool_decide (ma = 1) then Ok v else Err ErrNotV1
    end) as ->.
  { unfold HighestSupportedVersion. rewrite Hf. destruct l; cbn; [|done].
    cbn in Hf. by injection Hf as <-. }
  destruct best as [b|].
  - destruct Hb as [Hcb Hmax]. pose proof (candidate_parsed _ _ Hcb) as Hpb.
    rewrite candidate_rev in Hcb.
    destruct Hcb as (s & m & Hs & Hp & Hm & Hle). rewrite Hm. cbn.
    case_bool_decide as E1.
    + subst m. split; [done|]. split; [split; [|done]; intros _; by exists s, b|].
      intros v [= <-]. split; [done|]. split; [by exists s|].
      intros s' w m' Hs' Hp' Hm' Hle'. apply Hmax. rewrite candidate_rev. by exists s', m'.
    + split; [done|]. split; [|done]. split; [done|]. intros (s' & w & Hs' & Hp' & Hm').
      exfalso. assert (compareInternal w b <> 1) as Hne.
      { apply Hmax. rewrite candidate_rev. by exists s', 1. }
      apply Hne. apply (lt_major_compare b w m 1); auto; [by apply (parse_ok s')|lia].
  - assert (forall w, ~ candidate l w) as Hno by (intros w; rewrite <- candidate_rev; apply Hb).
    split; [by destruct l|]. split; [|by destruct l]. split; [by destruct l|].
    intros (s & w & Hs & Hp & Hm). exfalso. apply (Hno w). by exists s, 1.
Qed.

(** the semantic comparison has a cycle on pre-releases that mix numeric
    and alphanumeric identifiers, so it is not an order: numeric identifiers
    are compared with the others as strings, where the Semantic Versioning
    rule puts them below. *)
Theorem prerelease_cycle :
  Compare (mkVersion [1; 0; 0] true "2" "") "1.0.0-10" = Ok (-1) /\
  Compare (mkVersion [1; 0; 0] true "10" "") "1.0.0-1a" = Ok (-1) /\
  Compare (mkVersion [1; 0; 0] true "1a" "") "1.0.0-2" = Ok (-1).
Proof. repeat split; vm_compute; reflexivity. Qed.

(** ** Witnesses *)

Lemma parse_String_roundtrip_witness :
  String' (Some (mkVersion [1; 20; 3] true "rc.1" "b7")) = "1.20.3-rc.1+b7" /\
  parse "1.20.3-rc.1+b7" true = Ok (mkVersion [1; 20; 3] true "rc.1" "b7").
Proof.
  split; [vm_compute; reflexivity|].
  refine (parse_String_roundtrip "  v1.20.3-rc.1+b7 " true (mkVersion [1; 20; 3] true "rc.1" "b7") _).
  vm_compute. reflexivity.
Defined.

Lemma compare_lexicographic_witness :
  Lex (compareInternal (mkVersion [1; 9] false "" "") (mkVersion [1; 10; 0] true "rc" ""))
    (comp [1; 9]) (comp [1; 10; 0]).
Proof.
  refine (compare_lexicographic "v1.9x" false (mkVersion [1; 9] false "" "") "1.10.0-rc" true
    (mkVersion [1; 10; 0] true "rc" "") _ _ _); [vm_compute; reflexivity..|by left].
Defined.

Lemma highest_supported_maximal_witness :
  HighestSupportedVersion ["v1.2"; "v1.10"; "v2.0"; "x"] = Ok (mkVersion [1; 10] false "" "") /\
  compareInternal (mkVersion [1; 2] false "" "") (mkVersion [1; 10] false "" "") <> 1.
Proof.
  assert (HighestSupportedVersion ["v1.2"; "v1.10"; "v2.0"; "x"] = Ok (mkVersion [1; 10] false "" ""))
    as H by (vm_compute; reflexivity).
  split; [done|].
  destruct (highest_supported_maximal ["v1.2"; "v1.10"; "v2.0"; "x"]) as (_ & _ & Hmax).
  destruct (Hmax _ H) as (_ & _ & Hall). apply (Hall "v1.2" _ 1); [by left|vm_compute; reflexivity..|lia].
Defined.

End Version.
