(* ===== verification/SqlQuery.v ===== *)
(** * SQL query conditions (pkg/sgorm/query: query_condition.go, page.go)

    The conversion of a list of column conditions from a request to the text
    and the arguments of a gorm condition, and paging.  The theorems: the
    placeholders of the text and the arguments correspond, the text does not
    depend on the values and mentions whitelisted columns only, when the
    conversion to [IN] happens, what a page can be and when sorting panics.

    [strconv.ParseFloat] and the list of [time.Parse] attempts are variables
    of the section, as are the types of times and of values of other dynamic
    types. *)

From S2P Require Import Prelude GoStr.
From Stdlib Require Import Ascii SpecFloat.

Module SqlQuery.

(** ** Constants *)

Definition Eq := "eq".
Definition AND := "and".

Definition expMap : list (string * string) :=
  [("eq", " = "); ("neq", " <> "); ("gt", " > "); ("gte", " >= "); ("lt", " < "); ("lte", " <= ");
   ("like", " LIKE "); ("in", " IN "); ("notin", " NOT IN "); ("isnull", " IS NULL ");
   ("isnotnull", " IS NOT NULL ");
   ("=", " = "); ("!=", " <> "); (">", " > "); (">=", " >= "); ("<", " < "); ("<=", " <= ");
   ("not in", " NOT IN "); ("is null", " IS NULL "); ("is not null", " IS NOT NULL ")].

Definition logicMap : list (string * string) :=
  [("and", " AND "); ("or", " OR "); ("&", " AND "); ("&&", " AND "); ("|", " OR "); ("||", " OR ");
   ("AND", " AND "); ("OR", " OR ");
   ("and:(", " AND "); ("and:)", " AND "); ("or:(", " OR "); ("or:)", " OR ")].

(** Indexing a [map[string]string]: the empty string for a missing key. *)
Definition get (m : list (string * string)) (k : string) : string := default "" (assoc m k).

Section Conditions.
Context {Time Other : Type}.

(** A non-nil [interface{}]; [VOther] is a value of any other dynamic type. *)
Inductive value : Type :=
  | VStr (s : string)
  | VInt (n : Z)
  | VBool (b : bool)
  | VFloat (f : spec_float)
  | VTime (t : Time)
  | VList (l : list value)
  | VOther (o : Other).

(** [strconv.ParseFloat(s, 64)] and the first of the layouts that
    [time.Parse] accepts. *)
Variable ParseFloat : string -> option spec_float.
Variable ParseTime : string -> option Time.

(** A nil [Value] is [None]. *)
Record Column : Type := mkColumn {
  Name : string;
  Exp : string;
  Value : option value;
  Logic : string }.

Inductive error : Type :=
  | ErrNotAllowed | ErrNilValue | ErrValueType | ErrExp | ErrLogic | ErrValidate.

Record rulerOptions : Type := mkRuler {
  whitelistNames : option (gmap string bool);
  validateFn : option (list Column -> bool) }.

Definition WithWhitelistNames (w : gmap string bool) (o : rulerOptions) : rulerOptions :=
  mkRuler (Some w) (validateFn o).
(** [fn] answers whether the columns are valid (a nil error). *)
Definition WithValidateFn (fn : list Column -> bool) (o : rulerOptions) : rulerOptions :=
  mkRuler (whitelistNames o) (Some fn).
Definition apply (o : rulerOptions) (opts : list (rulerOptions -> rulerOptions)) : rulerOptions :=
  foldl (fun o opt => opt o) o opts.

(** ** One column *)

(** [ReplaceAll] of [%] and [_] by their escaped forms. *)
Definition escape_like (s : string) : string :=
  ReplaceChar (ReplaceChar s "%"%char "\%") "_"%char "\_".

(** The runes but the first and the last are escaped; [%] and [_] are single
    bytes of UTF-8, so bytes give the same text. *)
Definition like_value (val : string) : string :=
  let n := str_len val in
  let val :=
    if (2 <? n)%nat then
      str_take 1 val +:+ escape_like (str_take (n - 2) (str_drop 1 val)) +:+ str_drop (n - 1) val
    else val in
  if HasPrefix val "%" || HasPrefix val "_" || HasSuffix val "%" || HasSuffix val "_" then val
  else "%" +:+ val +:+ "%".

(** One element of a comma-separated [IN] list. *)
Definition in_value (s : string) : value :=
  let s := TrimSpace s in
  if HasPrefix s (single dquote) then VStr (Trim s dquote)
  else if HasPrefix s "'" then VStr (Trim s "'"%char)
  else match Atoi s with Some n => VInt n | None => VStr s end.

Definition checkExp (c : Column) : result error (string * Column) :=
  let exp := if bool_decide (Exp c = "") then Eq else Exp c in
  match assoc expMap (ToLower exp) with
  | None => Err ErrExp
  | Some v =>
      '(symbol, val) ←
        (if bool_decide (v = " LIKE ") then
           match Value c with
           | Some (VStr s) => Ok ("?", Some (VStr (like_value s)))
           | _ => Err ErrValueType
           end
         else if bool_decide (v = " IN ") || bool_decide (v = " NOT IN ") then
           Ok ("(?)",
               match Value c with
               | Some (VStr s) => Some (VList (map in_value (Split s ","%char)))
               | other => other
               end)
         else if bool_decide (v = " IS NULL ") || bool_decide (v = " IS NOT NULL ") then Ok ("", None)
         else Ok ("?", Value c));
      if bool_decide (Logic c = "") then Ok (symbol, mkColumn (Name c) v val AND)
      else
        let logic := ToLower (Logic c) in
        match assoc logicMap logic with
        | Some _ => Ok (symbol, mkColumn (Name c) v val logic)
        | None => Err ErrLogic
        end
  end.

Definition convertValue (v : value) : value :=
  match v with
  | VStr s0 =>
      let s := TrimSpace s0 in
      if HasPrefix s (single dquote) then
        let s2 := Trim s dquote in
        match Atoi s2 with Some _ => VStr s2 | None => VStr s end
      else match Atoi s with
           | Some n => VInt n
           | None =>
               match ParseBool s with
               | Some b => VBool b
               | None =>
                   match ParseFloat s with
                   | Some f => VFloat f
                   | None => match ParseTime s with Some t => VTime t | None => v end
                   end
               end
           end
  | _ => v
  end.

(** ** The conversion *)

(** The text a checked column adds; [last] is [i == l-1]. *)
Definition column_text (last : bool) (name exp logic symbol : string) : string :=
  let base := name +:+ exp +:+ symbol in
  let close := bool_decide (logic = "or:)") || bool_decide (logic = "and:)") in
  let open := bool_decide (logic = "or:(") || bool_decide (logic = "and:(") in
  if last then if close then base +:+ " ) " else base
  else if open then " ( " +:+ base +:+ get logicMap logic
  else if close then base +:+ " ) " +:+ get logicMap logic
  else base +:+ get logicMap logic.

(** The locals of the loop. *)
Record loop : Type := mkLoop { str : string; args : list value; isUseIN : bool }.

Definition convert_column (o : rulerOptions) (field : string) (last : bool) (st : loop)
    (column : Column) : result error loop :=
  let allowed :=
    match whitelistNames o with None => true | Some w => default false (w !! Name column) end in
  if bool_decide (Name column = "") || negb allowed then Err ErrNotAllowed
  else
    column ←
      match Value column with
      | None =>
          let v := get expMap (ToLower (Exp column)) in
          if negb (bool_decide (v = " IS NULL ")) && negb (bool_decide (v = " IS NOT NULL "))
          then Err ErrNilValue else Ok column
      | Some v => Ok (mkColumn (Name column) (Exp column) (Some (convertValue v)) (Logic column))
      end;
    '(symbol, column) ← checkExp column;
    let use :=
      if isUseIN st then
        bool_decide (field = Name column) && bool_decide (Exp column = get expMap Eq)
      else false in
    Ok (mkLoop (str st +:+ column_text last (Name column) (Exp column) (Logic column) symbol)
          (args st ++ match Value column with Some v => [v] | None => [] end) use).

Fixpoint convert_columns (o : rulerOptions) (field : string) (st : loop) (columns : list Column)
    : result error loop :=
  match columns with
  | [] => Ok st
  | column :: rest =>
      st' ← convert_column o field (bool_decide (length rest = O)) st column;
      convert_columns o field st' rest
  end.

Definition ConvertToGormConditions (columns : list Column)
    (opts : list (rulerOptions -> rulerOptions)) : result error (string * list value) :=
  match columns with
  | [] => Ok ("", [])
  | first :: _ =>
      let field := Name first in
      let o := apply (mkRuler None None) opts in
      if match validateFn o with Some fn => negb (fn columns) | None => false end then Err ErrValidate
      else
        st ← convert_columns o field (mkLoop "" [] (negb (length columns =? 1)%nat)) columns;
        if isUseIN st then Ok (field +:+ " IN (?)", [VList (args st)])
        else Ok (str st, args st)
  end.

(** [Conditions.CheckValid]; [None] is a nil error. *)
Definition CheckValid (columns : list Column) : bool := negb (length columns =? 0)%nat.
Definition ConvertToGorm := ConvertToGormConditions.

End Conditions.
Arguments value : clear implicits.
Arguments Column : clear implicits.
Arguments rulerOptions : clear implicits.
Arguments loop : clear implicits.

(** ** Paging (page.go) *)

Record Page : Type := mkPage { page : Z; limit : Z; sort : string }.

(** [defaultMaxSize] is a package variable: an argument here. *)
Definition SetMaxSize (maxValue : Z) : Z := if maxValue <? 10 then 10 else maxValue.
Definition Offset (p : Page) : Z := wrap64 (page p * limit p).
Definition Size (p : Page) : Z := limit p.
Definition DefaultPage (page : Z) : Page :=
  mkPage (if page <? 0 then 0 else page) 20 "id DESC".

(** One sort column; [name[0]] panics on an empty name. *)
Definition sort_item (name : string) : result unit string :=
  match name with
  | EmptyString => Panic
  | String c rest =>
      if bool_decide (c = "-"%char) && negb (bool_decide (rest = "")) then Ok (rest +:+ " DESC")
      else Ok (name +:+ " ASC")
  end.

Definition getSort (columnNames : string) : result unit string :=
  let columnNames := ReplaceChar columnNames " "%char "" in
  if bool_decide (columnNames = "") then Ok "id DESC"
  else
    strs ← foldM (fun strs name => s ← sort_item name; Ok (strs ++ [s])) [] (Split columnNames ","%char);
    Ok (Join strs ", ").

Definition NewPage (defaultMaxSize page limit : Z) (columnNames : string) : result unit Page :=
  let page := if page <? 0 then 0 else page in
  let limit := if (defaultMaxSize <? limit) || (limit <? 1) then defaultMaxSize else limit in
  s ← getSort columnNames;
  Ok (mkPage page limit s).

(** [Params.ConvertToPage]: the order, the limit and the offset. *)
Definition ConvertToPage (defaultMaxSize page limit : Z) (sort : string)
    : result unit (string * Z * Z) :=
  p ← NewPage defaultMaxSize page limit sort;
  Ok (SqlQuery.sort p, SqlQuery.limit p, Offset p).

(** ** What a checked column is *)

Section Proofs.
Context {Time Other : Type} (ParseFloat : string -> option spec_float)
  (ParseTime : string -> option Time).
Implicit Types (c : Column Time Other) (st : loop Time Other).

(** The operator, the placeholder and the connective of a column, from its
    expression and logic alone. *)
Definition norm_exp (exp : string) : option string :=
  assoc expMap (ToLower (if bool_decide (exp = "") then Eq else exp)).
Definition norm_symbol (v : string) : string :=
  if bool_decide (v = " IN ") || bool_decide (v = " NOT IN ") then "(?)"
  else if bool_decide (v = " IS NULL ") || bool_decide (v = " IS NOT NULL ") then "" else "?".
Definition norm_logic (logic : string) : string :=
  if bool_decide (logic = "") then AND else ToLower logic.
(** The operator and the connective of a column are in the tables. *)
Definition listed c : Prop := is_Some (norm_exp (Exp c)) /\ is_Some (assoc logicMap (norm_logic (Logic c))).

Lemma checkExp_shape c sym c' :
  checkExp c = Ok (sym, c') ->
  Name c' = Name c /\ norm_exp (Exp c) = Some (Exp c') /\ sym = norm_symbol (Exp c') /\
  Logic c' = norm_logic (Logic c) /\ is_Some (assoc logicMap (norm_logic (Logic c))) /\
  (if bool_decide (Exp c' = " IS NULL ") || bool_decide (Exp c' = " IS NOT NULL ")
   then Value c' = None else is_Some (Value c) -> is_Some (Value c')).
Proof.
  unfold checkExp, norm_exp, norm_symbol, norm_logic.
  destruct (assoc expMap _) as [v|] eqn:Ev; [|done]. rewrite bind_ok.
  intros ([symbol val] & Hv & H).
  assert (sym = symbol /\ Name c' = Name c /\ Exp c' = v /\ Value c' = val /\
    Logic c' = (if bool_decide (Logic c = "") then AND else ToLower (Logic c)) /\
    is_Some (assoc logicMap (if bool_decide (Logic c = "") then AND else ToLower (Logic c))))
    as (-> & -> & -> & -> & -> & Hl).
  { case_bool_decide; [injection H as <- <-; split_and!; [done..|by eexists]|]. destruct (assoc logicMap _); [|done].
    injection H as <- <-. split_and!; [done..|by eexists]. }
  clear H. do 2 (split; [done|]).
  destruct (bool_decide (v = " LIKE ")) eqn:El; [apply bool_decide_eq_true in El; subst v|].
  { destruct (Value c) as [[]|]; try done. injection Hv as <- <-.
    do 3 (split; [done|]). intros _. by eexists. }
  destruct (bool_decide (v = " IN ") || bool_decide (v = " NOT IN ")) eqn:Ei.
  { injection Hv as <- <-. do 3 (split; [done|]). replace (_ || _) with false.
    - intros [w ->]. by destruct w.
    - symmetry. apply orb_true_iff in Ei as [Ei|Ei]; apply bool_decide_eq_true in Ei; by subst v. }
  destruct (bool_decide (v = " IS NULL ") || _); injection Hv as <- <-; done.
Qed.

(** What [convert_column] adds, and what it requires. *)
Lemma convert_column_ok o field last st c st' :
  convert_column ParseFloat ParseTime o field last st c = Ok st' ->
  Name c <> "" /\
  (forall w, whitelistNames o = Some w -> w !! Name c = Some true) /\
  is_Some (assoc logicMap (norm_logic (Logic c))) /\
  exists v sym val,
    norm_exp (Exp c) = Some v /\ sym = norm_symbol v /\
    str st' = str st +:+ column_text last (Name c) v (norm_logic (Logic c)) sym /\
    args st' = args st ++ val /\
    (length val = if bool_decide (v = " IS NULL ") || bool_decide (v = " IS NOT NULL ") then O else 1%nat) /\
    isUseIN st' = isUseIN st && bool_decide (field = Name c) && bool_decide (v = " = ").
Proof.
  unfold convert_column. destruct (bool_decide (Name c = "") || _) eqn:E0; [done|].
  apply orb_false_iff in E0 as [Hn Hw]. apply bool_decide_eq_false in Hn.
  rewrite bind_ok. intros (c1 & Hc1 & H). rewrite bind_ok in H. destruct H as ([sym c2] & H2 & [= <-]).
  assert (Name c1 = Name c /\ Exp c1 = Exp c /\ Logic c1 = Logic c /\
    (Value c1 = None -> norm_exp (Exp c) = Some " IS NULL " \/ norm_exp (Exp c) = Some " IS NOT NULL "))
    as (Hn1 & He1 & Hl1 & Hv1).
  { destruct (Value c) eqn:Ev.
    - by injection Hc1 as <-.
    - destruct (negb _ && _) eqn:Eb; [done|]. injection Hc1 as <-. do 3 (split; [done|]). intros _.
      unfold norm_exp. unfold get in Eb. destruct (assoc expMap (ToLower (Exp c))) as [v|] eqn:Ea.
      + destruct (bool_decide (Exp c = "")) eqn:Ee; [apply bool_decide_eq_true in Ee; by rewrite Ee in Ea|].
        rewrite Ea. cbn in Eb.
        apply andb_false_iff in Eb as [Eb|Eb]; apply negb_false_iff, bool_decide_eq_true in Eb;
          subst v; auto.
      + done. }
  apply checkExp_shape in H2 as (Hn2 & He2 & -> & Hl2 & Hlog & Hval). rewrite He1 in He2. rewrite Hn1 in Hn2.
  split; [done|]. split.
  { intros w Ew. rewrite Ew in Hw. destruct (w !! Name c) as [[]|]; by cbn in Hw. }
  split; [by rewrite <- Hl1|].
  exists (Exp c2), (norm_symbol (Exp c2)), (match Value c2 with Some v => [v] | None => [] end).
  split; [done|]. split; [done|]. cbn [str args isUseIN].
  split; [by rewrite Hn2, Hl2, Hl1|].
  split; [done|]. split.
  - destruct (bool_decide (Exp c2 = " IS NULL ") || _) eqn:Eb; [by rewrite Hval|].
    destruct (Value c1) as [w|] eqn:Ew1.
    + destruct Hval as [w' ->]; [by eexists|done].
    + apply orb_false_iff in Eb as [Ea Eb]. apply bool_decide_eq_false in Ea, Eb.
      rewrite He2 in Hv1. destruct (Hv1 eq_refl) as [[= ?]|[= ?]]; done.
  - rewrite Hn2. by destruct (isUseIN st).
Qed.

(** ** The text of a condition, from its shape *)

(** Everything of a column but its value. *)
Definition shape c : string * string * string := (Name c, Exp c, Logic c).

Definition render_column (last : bool) (x : string * string * string) : string :=
  let '(name, exp, logic) := x in
  let v := default "" (norm_exp exp) in
  column_text last name v (norm_logic logic) (norm_symbol v).

Fixpoint render_columns (l : list (string * string * string)) : string :=
  match l with
  | [] => ""
  | x :: rest => render_column (bool_decide (length rest = O)) x +:+ render_columns rest
  end.

(** An equality on column [field]. *)
Definition equality_on (field : string) (x : string * string * string) : bool :=
  let '(name, exp, _) := x in bool_decide (field = name) && bool_decide (norm_exp exp = Some " = ").

Definition render (l : list (string * string * string)) : string :=
  match l with
  | [] => ""
  | (field, _, _) :: _ =>
      if negb (length l =? 1)%nat && forallb (equality_on field) l then field +:+ " IN (?)"
      else render_columns l
  end.

(** A column that takes an argument. *)
Definition takes_arg (x : string * string * string) : bool :=
  let '(_, exp, _) := x in
  negb (bool_decide (norm_exp exp = Some " IS NULL ") || bool_decide (norm_exp exp = Some " IS NOT NULL ")).
Definition count_args (l : list (string * string * string)) : nat := length (List.filter takes_arg l).

Definition name_ok (w : option (gmap string bool)) c : Prop :=
  Name c <> "" /\ forall m, w = Some m -> m !! Name c = Some true.

Lemma bool_decide_Some {A} `{EqDecision A} (a b : A) : bool_decide (Some a = Some b) = bool_decide (a = b).
Proof. apply bool_decide_ext. naive_solver. Qed.

Lemma convert_columns_ok o field cs : forall st st',
  convert_columns ParseFloat ParseTime o field st cs = Ok st' ->
  Forall (name_ok (whitelistNames o)) cs /\
  Forall listed cs /\
  str st' = str st +:+ render_columns (map shape cs) /\
  (exists vals, args st' = args st ++ vals /\ length vals = count_args (map shape cs)) /\
  isUseIN st' = isUseIN st && forallb (equality_on field) (map shape cs).
Proof.
  induction cs as [|c cs IH]; intros st st' H.
  - injection H as <-. split; [done|]. split; [done|]. cbn [map render_columns forallb].
    rewrite app_nil_s, andb_true_r. split; [done|]. split; [|done]. exists []. by rewrite app_nil_r.
  - cbn [convert_columns] in H. apply bind_ok in H as (st1 & H1 & H).
    apply convert_column_ok in H1 as (Hn & Hw & Hlog & v & sym & val & Hv & -> & Hstr & Hargs & Hlen & Huse).
    destruct (IH _ _ H) as (Hns & Hes & Hstr' & (vals & Hargs' & Hlen') & Huse').
    split; [by constructor|]. split; [constructor; [split; [by rewrite Hv|done]|done]|].
    cbn [map render_columns forallb]. split; [|split].
    + rewrite Hstr', Hstr, app_assoc_s, length_map. unfold render_column. cbn [shape]. by rewrite Hv.
    + exists (val ++ vals). rewrite Hargs', Hargs, app_assoc, length_app, Hlen, Hlen'. split; [done|].
      unfold count_args. cbn [List.filter takes_arg shape]. rewrite Hv, !bool_decide_Some.
      by destruct (_ || _).
    + rewrite Huse', Huse. cbn [equality_on shape]. by rewrite Hv, bool_decide_Some, !andb_assoc.
Qed.

Lemma norm_logic_text l : count_char "?"%char (get logicMap (norm_logic l)) = O.
Proof.
  unfold get. destruct (assoc logicMap _) as [t|] eqn:E; [|done].
  apply (assoc_Forall (no_char "?"%char)) in E; [done|]. by repeat constructor.
Qed.

Lemma render_column_marks last name exp logic :
  no_char "?"%char name -> is_Some (norm_exp exp) ->
  count_char "?"%char (render_column last (name, exp, logic)) =
  if takes_arg (name, exp, logic) then 1%nat else O.
Proof.
  intros Hn [v Hv]. unfold render_column, column_text, takes_arg. rewrite Hv. cbn [from_option id].
  rewrite !bool_decide_Some.
  assert (count_char "?"%char (name +:+ v +:+ norm_symbol v) =
    if negb (bool_decide (v = " IS NULL ") || bool_decide (v = " IS NOT NULL ")) then 1%nat else O) as <-.
  { rewrite !count_char_app, Hn.
    assert (no_char "?"%char v) as ->.
    { apply (assoc_Forall (no_char "?"%char)) in Hv; [done|]. by repeat constructor. }
    unfold norm_symbol. destruct (bool_decide (v = " IN ") || _) eqn:Ei.
    - apply orb_true_iff in Ei as [Ei|Ei]; apply bool_decide_eq_true in Ei; by subst v.
    - by destruct (bool_decide (v = " IS NULL ") || _). }
  destruct last; [|destruct (_ || _) ; [|destruct (_ || _)]]; try destruct (_ || _);
    rewrite ?count_char_app, ?norm_logic_text;
    change (count_char "?"%char " ( ") with O; change (count_char "?"%char " ) ") with O; lia.
Qed.

Lemma render_columns_marks cs :
  Forall (fun c => no_char "?"%char (Name c)) cs -> Forall listed cs ->
  count_char "?"%char (render_columns (map shape cs)) = count_args (map shape cs).
Proof.
  unfold count_args. induction cs as [|c cs IH]; intros Hn He; [done|].
  apply Forall_cons in Hn as [Hn Hns]. apply Forall_cons in He as [[He _] Hes].
  cbn [map render_columns List.filter]. rewrite count_char_app, IH by done. unfold shape at 1 3.
  rewrite render_column_marks by done. by destruct (takes_arg _).
Qed.

(** A successful conversion, in terms of the shapes of its columns. *)
Lemma convert_ok columns opts sql vs :
  ConvertToGormConditions ParseFloat ParseTime columns opts = Ok (sql, vs) ->
  sql = render (map shape columns) /\
  Forall (name_ok (whitelistNames (apply (mkRuler None None) opts))) columns /\
  Forall listed columns /\
  exists vals, length vals = count_args (map shape columns) /\
   vs = if negb (length columns =? 1)%nat &&
           match columns with [] => false | c :: _ => forallb (equality_on (Name c)) (map shape columns) end
        then [VList vals] else vals.
Proof.
  unfold ConvertToGormConditions. destruct columns as [|c0 cs0].
  { intros [= <- <-]. do 3 (split; [done|]). by exists []. }
  destruct (match validateFn _ with Some _ => _ | None => _ end); [done|].
  rewrite bind_ok. intros (st & H & Hr).
  apply convert_columns_ok in H as (Hn & He & Hstr & (vals & Hargs & Hlen) & Huse).
  cbn [str args isUseIN] in Hstr, Hargs, Huse. rewrite app_nil_l_s in Hstr. cbn [app] in Hargs. subst vals.
  assert (render (map shape (c0 :: cs0)) = if isUseIN st then Name c0 +:+ " IN (?)" else str st) as ->.
  { rewrite Huse, Hstr. unfold render. by rewrite length_map. }
  rewrite <- Huse.
  destruct (isUseIN st); injection Hr as <- <-; (do 3 (split; [done|])); by exists (args st).
Qed.
End Proofs.

(** ** Sorting *)

Definition sort_step (strs : list string) (name : string) : result unit (list string) :=
  s ← sort_item name; Ok (strs ++ [s]).

(** The text of one sort column. *)
Definition sort_text (name : string) : string :=
  if HasPrefix name "-" && negb (bool_decide (name = "-")) then TrimPrefix name "-" +:+ " DESC"
  else name +:+ " ASC".

Lemma sort_item_spec name : sort_item name = if bool_decide (name = "") then Panic else Ok (sort_text name).
Proof.
  destruct name as [|c rest]; [done|]. rewrite bool_decide_false by done. cbn [sort_item]. unfold sort_text.
  unfold TrimPrefix. cbn [HasPrefix str_len str_drop].
  destruct (bool_decide (c = "-"%char)) eqn:Ec; [|done]. apply bool_decide_eq_true in Ec as ->. cbn [andb].
  replace (bool_decide (String "-" rest = "-")) with (bool_decide (rest = "")).
  - by destruct (bool_decide _).
  - apply bool_decide_ext. split; [by intros ->|by intros [=]].
Qed.

Lemma sort_fold names : forall acc,
  foldM sort_step acc names =
  if bool_decide ("" ∈ names) then Panic else Ok (acc ++ map sort_text names).
Proof.
  induction names as [|n names IH]; intros acc; [cbn; by rewrite app_nil_r|].
  cbn [foldM]. change (sort_step acc n) with (s ← sort_item n; Ok (acc ++ [s])). rewrite sort_item_spec.
  destruct (decide (n = "")) as [->|Hn].
  - rewrite bool_decide_true by done. rewrite bool_decide_true by left. done.
  - rewrite bool_decide_false by done. cbn. rewrite IH.
    replace (bool_decide ("" ∈ n :: names)) with (bool_decide ("" ∈ names)).
    + destruct (bool_decide _); [done|]. by rewrite <- app_assoc.
    + apply bool_decide_ext. rewrite elem_of_cons. naive_solver.
Qed.

Lemma getSort_spec columnNames :
  getSort columnNames =
  let s := ReplaceChar columnNames " "%char "" in
  if bool_decide (s = "") then Ok "id DESC"
  else if bool_decide ("" ∈ Split s ","%char) then Panic
  else Ok (Join (map sort_text (Split s ","%char)) ", ").
Proof.
  unfold getSort. cbv zeta. destruct (bool_decide (ReplaceChar _ _ _ = "")); [done|].
  change (foldM _ [] ?l) with (foldM sort_step [] l). rewrite sort_fold.
  by destruct (bool_decide _).
Qed.

(** ** The properties *)

Section Properties.
Context {Time Other : Type} (ParseFloat : string -> option spec_float)
  (ParseTime : string -> option Time).

(** C5: when no column name contains a question mark, the text of a
    successful conversion has exactly as many placeholders as there are
    arguments. *)
Theorem placeholders_match_arguments (columns : list (Column Time Other)) opts sql args :
  Forall (fun c => no_char "?"%char (Name c)) columns ->
  ConvertToGormConditions ParseFloat ParseTime columns opts = Ok (sql, args) ->
  count_char "?"%char sql = length args.
Proof.
  intros Hq H. destruct (convert_ok _ _ _ _ _ _ H) as (-> & _ & He & vals & Hlen & ->).
  unfold render. destruct columns as [|c cs]; [done|]. cbn [map shape].
  rewrite length_cons, length_map.
  change ((Name c, Exp c, Logic c) :: map shape cs) with (map shape (c :: cs)).
  cbn [length]. destruct (_ && _).
  - rewrite count_char_app. apply Forall_cons in Hq as [-> _]. done.
  - rewrite Hlen. apply (render_columns_marks (c :: cs)); done.
Qed.

(** C6: the text of a successful conversion is a function of the names, the
    expressions and the connectives of the columns alone (no value reaches
    it), the expression of every column and its connective, the default included,
    are keys of the two tables, and every name is non-empty and in the white list when there
    is one. *)
Theorem text_independent_of_values (columns : list (Column Time Other)) opts sql args :
  ConvertToGormConditions ParseFloat ParseTime columns opts = Ok (sql, args) ->
  sql = render (map shape columns) /\
  Forall (fun c => is_Some (norm_exp (Exp c)) /\ is_Some (assoc logicMap (norm_logic (Logic c))) /\ Name c <> "" /\
    forall w, whitelistNames (apply (mkRuler None None) opts) = Some w -> w !! Name c = Some true) columns.
Proof.
  intros H. destruct (convert_ok _ _ _ _ _ _ H) as (-> & Hn & He & _). split; [done|].
  apply (Forall_impl (fun c => name_ok (whitelistNames (apply (mkRuler None None) opts)) c /\ listed c)).
  - apply Forall_and. by split.
  - intros c [[? ?] [? ?]]. by split_and!.
Qed.

(** when at least two columns are equalities on one column name, the
    conversion is [name IN (?)] with all the values, whatever connective was
    given: conditions joined by [and] become a disjunction. *)
Theorem same_column_is_in (c : Column Time Other) cs opts sql args :
  cs <> [] ->
  Forall (fun c' => Name c' = Name c /\ norm_exp (Exp c') = Some " = ") (c :: cs) ->
  ConvertToGormConditions ParseFloat ParseTime (c :: cs) opts = Ok (sql, args) ->
  sql = Name c +:+ " IN (?)" /\ exists vals, args = [VList vals] /\ length vals = S (length cs).
Proof.
  intros Hne Heq H. destruct (convert_ok _ _ _ _ _ _ H) as (-> & _ & _ & vals & Hlen & ->).
  assert (forallb (equality_on (Name c)) (map shape (c :: cs)) = true) as Hall.
  { apply forallb_forall. intros x (c' & <- & Hc')%in_map_iff. rewrite Forall_forall in Heq.
    apply list_elem_of_In, Heq in Hc' as [Hn He]. unfold equality_on, shape.
    by rewrite Hn, He, !bool_decide_true. }
  assert (negb (length (c :: cs) =? 1)%nat = true) as Hl by (destruct cs; done).
  split.
  { unfold render. rewrite length_map. change (map shape (c :: cs)) with (shape c :: map shape cs) in Hall |- *.
    unfold shape at 1. by rewrite Hl, Hall. }
  rewrite Hl, Hall. exists vals. split; [done|]. rewrite Hlen. unfold count_args.
  change (S (length cs)) with (length (c :: cs)). revert Heq. generalize (c :: cs).
  intros l Heq. induction Heq as [|x xs [_ Hx] _ IH]; [done|].
  cbn [map List.filter]. unfold takes_arg at 1, shape at 1. rewrite Hx.
  change (S (length (List.filter takes_arg (map shape xs))) = S (length xs)). by f_equal.
Qed.

End Properties.

(** C7: a page never has a negative number or a limit outside [1..max], keeps
    the requested values when they are in range, and the offset is the
    product when it fits; building it panics exactly when the sort text,
    without its spaces, is non-empty and has an empty column name. *)
Theorem page_bounds (max page limit : Z) (columnNames : string) :
  1 <= max ->
  let s := ReplaceChar columnNames " "%char "" in
  (is_panic (NewPage max page limit columnNames) = true <-> s <> "" /\ "" ∈ Split s ","%char) /\
  forall p, NewPage max page limit columnNames = Ok p ->
    0 <= SqlQuery.page p /\ 1 <= SqlQuery.limit p <= max /\
    (0 <= page -> SqlQuery.page p = page) /\ (1 <= limit <= max -> SqlQuery.limit p = limit) /\
    (in_int64 (SqlQuery.page p * SqlQuery.limit p) -> 0 <= Offset p).
Proof.
  intros Hmax s. unfold NewPage. rewrite getSort_spec. fold s. cbv zeta. split.
  - destruct (decide (s = "")) as [E|E]; [rewrite bool_decide_true by done|rewrite bool_decide_false by done].
    + cbn. naive_solver.
    + case_bool_decide; cbn; naive_solver.
  - intros p. rewrite bind_ok. intros (t & _ & [= <-]). unfold Offset.
    cbn [SqlQuery.page SqlQuery.limit].
    destruct (page <? 0) eqn:Ep, ((max <? limit) || (limit <? 1)) eqn:El;
      repeat split; try lia; intros Hin; rewrite wrap64_id by done; lia.
Qed.

(** A [like] column whose value reads as a number is rejected, since the
    value was converted before the operator is looked at. *)
Example like_on_number_rejected :
  ConvertToGormConditions (Time := unit) (Other := unit) (fun _ => None) (fun _ => None)
    [mkColumn "phone" "like" (Some (VStr "138")) ""] [] = Err ErrValueType.
Proof. reflexivity. Qed.

(** ** Witnesses *)

Lemma placeholders_match_arguments_witness :
  count_char "?"%char " ( name = ? OR age > ? )  AND x IS NULL " = 2%nat.
Proof.
  refine (placeholders_match_arguments (Time := unit) (Other := unit) (fun _ => None) (fun _ => None)
    [mkColumn "name" "" (Some (VStr "zh")) "or:("; mkColumn "age" ">" (Some (VStr " 10")) "and:)";
     mkColumn "x" "isnull" None ""] [] _ [VStr "zh"; VInt 10] _ _).
  - repeat constructor.
  - vm_compute. reflexivity.
Defined.

Lemma text_independent_of_values_witness :
  "a <> ?" = render [("a", "!=", "")] /\ ("a" : string) <> "".
Proof.
  assert (ConvertToGormConditions (Time := unit) (Other := unit) (fun _ => None) (fun _ => None)
    [mkColumn "a" "!=" (Some (VStr "x' OR 1=1")) ""] [WithWhitelistNames (<["a" := true]> ∅)] =
    Ok ("a <> ?", [VStr "x' OR 1=1"])) as H by (vm_compute; reflexivity).
  destruct (text_independent_of_values _ _ _ _ _ _ H) as [H1 H2].
  split; [exact H1|]. apply Forall_cons in H2 as [(_ & _ & H2 & _) _]. exact H2.
Defined.

Lemma same_column_is_in_witness :
  "a IN (?)" = "a" +:+ " IN (?)" /\
  exists vals, [VList [VInt 1; VInt 2]] = [VList (Time := unit) (Other := unit) vals] /\ length vals = 2%nat.
Proof.
  refine (same_column_is_in (fun _ => None) (fun _ => None)
    (mkColumn "a" "" (Some (VInt 1)) "and") [mkColumn "a" "=" (Some (VInt 2)) "and"] [] _ _ _ _ _).
  - done.
  - by repeat constructor.
  - vm_compute. reflexivity.
Defined.

Lemma page_bounds_witness :
  is_panic (NewPage 1000 0 20 "name,,age") = true /\
  NewPage 1000 (-3) 20 "-name,age" = Ok (mkPage 0 20 "name DESC, age ASC").
Proof.
  split; [|vm_compute; reflexivity].
  apply (page_bounds 1000 0 20 "name,,age"); [lia|]. split; [done|]. vm_compute. right. left.
Defined.

End SqlQuery.
