(* ===== verification/MongoQuery.v ===== *)
(** * MongoDB query conditions (pkg/mgo/query: query_condition.go, page.go)

    The conversion of column conditions to a filter document, by precedence
    for flat lists and with a stack for lists with parentheses, and paging.
    The theorems: a flat list means the disjunction of the conjunctions that
    precedence gives it, the stack builder fails exactly on unbalanced
    parentheses and invalid columns and never pops an empty stack, what it
    loses, and the bounds of a page.

    [bson.M] values are lists of fields; a field is replaced when it is set
    again.  [primitive.ObjectIDFromHex], [strconv.ParseFloat], the layouts of
    [time.Parse] and the [%v] formatting of a value are variables. *)

From S2P Require Import Prelude GoStr.
From Stdlib Require Import Ascii SpecFloat.

Module MongoQuery.

(** ** Constants *)

Definition Eq := "eq".
Definition AND := "and".
Definition OR := "or".

Definition expMap : list (string * string) :=
  [("eq", "="); ("=", "="); ("neq", "!="); ("!=", "!="); ("gt", ">"); (">", ">"); ("gte", ">=");
   (">=", ">="); ("lt", "<"); ("<", "<"); ("lte", "<="); ("<=", "<="); ("like", "like"); ("in", "in");
   ("nin", "nin"); ("notin", "nin"); ("not in", "nin"); ("isnull", "isnull");
   ("isnotnull", "isnotnull"); ("is null", "isnull"); ("is not null", "isnotnull")].

Definition logicMap : list (string * string) :=
  [("and", AND); ("AND", AND); ("&", AND); ("&&", AND);
   ("or", OR); ("OR", OR); ("|", OR); ("||", OR);
   ("and:(", AND); ("and:)", AND); ("or:(", OR); ("or:)", OR)].

(** [regexp.QuoteMeta]. *)
Definition is_meta (c : ascii) : bool :=
  negb (bool_decide (count_char c "\.+*?()|[]{}^$" = O)).
Fixpoint QuoteMeta (s : string) : string :=
  match s with
  | EmptyString => EmptyString
  | String a s' => if is_meta a then String "\" (String a (QuoteMeta s')) else String a (QuoteMeta s')
  end.

Section Conditions.
Context {Time Other : Type}.

(** Values: what a request holds and what a filter is built of. *)
Inductive value : Type :=
  | BStr (s : string)
  | BInt (n : Z)
  | BBool (b : bool)
  | BFloat (f : spec_float)
  | BTime (t : Time)
  | BOid (id : string)
  | BList (l : list value)
  | BDoc (fields : list (string * value))
  | BOther (o : Other).

Variable ObjectIDFromHex : string -> option string.
Variable ParseFloat : string -> option spec_float.
Variable ParseTime : string -> option Time.
Variable Sprint : value -> string.

Record Column : Type := mkColumn {
  Name : string;
  Exp : string;
  Value : option value;
  Logic : string }.

Inductive error : Type :=
  | ErrNotAllowed | ErrName | ErrNil | ErrExp | ErrLogic | ErrMismatch | ErrUnclosed | ErrValidate | ErrEmpty.

Record rulerOptions : Type := mkRuler {
  whitelistNames : option (gmap string bool);
  validateFn : option (list Column -> bool) }.

Definition WithWhitelistNames (w : gmap string bool) (o : rulerOptions) : rulerOptions :=
  mkRuler (Some w) (validateFn o).
Definition WithValidateFn (fn : list Column -> bool) (o : rulerOptions) : rulerOptions :=
  mkRuler (whitelistNames o) (Some fn).
Definition apply (o : rulerOptions) (opts : list (rulerOptions -> rulerOptions)) : rulerOptions :=
  foldl (fun o opt => opt o) o opts.

(** ** One column *)

Definition checkName (whitelists : option (gmap string bool)) (c : Column) : result error unit :=
  if bool_decide (Name c = "") ||
     match whitelists with None => false | Some w => negb (default false (w !! Name c)) end
  then Err ErrNotAllowed else Ok tt.

(** The value, when the column has a name and a value. *)
Definition checkValid (c : Column) : result error value :=
  if bool_decide (Name c = "") then Err ErrName
  else match Value c with None => Err ErrNil | Some v => Ok v end.

Definition convertLogic (c : Column) : result error Column :=
  let logic := if bool_decide (Logic c = "") then AND else Logic c in
  match assoc logicMap (ToLower logic) with
  | Some v => Ok (mkColumn (Name c) (Exp c) (Value c) v)
  | None => Err ErrLogic
  end.

Definition checkLogic (c : Column) : result error Column :=
  let logic := if bool_decide (Logic c = "") then AND else Logic c in
  match assoc logicMap (ToLower logic) with
  | Some _ => Ok (mkColumn (Name c) (Exp c) (Value c) logic)
  | None => Err ErrLogic
  end.

Definition isObjectID (v : value) : option string :=
  match v with
  | BStr s => if (str_len s =? 24)%nat then ObjectIDFromHex s else None
  | _ => None
  end.

(** The function [convertValue]. *)
Definition convertValue (v : value) : value :=
  match v with
  | BStr s0 =>
      let s := TrimSpace s0 in
      if HasPrefix s (single dquote) then
        let s2 := Trim s dquote in
        match Atoi s2 with Some _ => BStr s2 | None => BStr s end
      else match Atoi s with
           | Some n => BInt n
           | None =>
               match ParseBool s with
               | Some b => BBool b
               | None =>
                   match ParseFloat s with
                   | Some f => BFloat f
                   | None => match ParseTime s with Some t => BTime t | None => v end
                   end
               end
           end
  | _ => v
  end.

Definition in_value (s : string) : value :=
  let s := TrimSpace s in
  if HasPrefix s (single dquote) then BStr (Trim s dquote)
  else if HasPrefix s "'" then BStr (Trim s "'"%char)
  else match Atoi s with Some n => BInt n | None => BStr s end.

(** The [switch c.Exp]. *)
Definition exp_value (exp : string) (v : value) : value :=
  if bool_decide (exp = "!=") then BDoc [("$ne", v)]
  else if bool_decide (exp = ">") then BDoc [("$gt", v)]
  else if bool_decide (exp = ">=") then BDoc [("$gte", v)]
  else if bool_decide (exp = "<") then BDoc [("$lt", v)]
  else if bool_decide (exp = "<=") then BDoc [("$lte", v)]
  else if bool_decide (exp = "isnull") then BDoc [("$exist", BBool false)]
  else if bool_decide (exp = "isnotnull") then BDoc [("$exist", BBool true)]
  else if bool_decide (exp = "like") then
    BDoc [("$regex", BStr (QuoteMeta (Sprint v))); ("$options", BStr "i")]
  else if bool_decide (exp = "in") || bool_decide (exp = "nin") then
    match v with
    | BStr val => BDoc [("$" +:+ exp, BList (map in_value (Split val ","%char)))]
    | _ => BDoc [("$" +:+ exp, v)]
    end
  else v.

(** The method [convertValue]: the column after it. *)
Definition Column_convertValue (c : Column) : result error Column :=
  v ← checkValid c;
  let '(name, v) :=
    match isObjectID v with
    | Some oid =>
        (if bool_decide (Name c = "id") then "_id"
         else if HasSuffix (Name c) ":oid" then TrimSuffix (Name c) ":oid" else Name c, BOid oid)
    | None => (Name c, convertValue v)
    end in
  let exp := if bool_decide (Exp c = "") then Eq else Exp c in
  match assoc expMap (ToLower exp) with
  | Some exp => Ok (mkColumn name exp (Some (exp_value exp v)) (Logic c))
  | None => Err ErrExp
  end.

Definition convert (c : Column) : result error Column :=
  c ← Column_convertValue c; convertLogic c.

(** A value that is nil prints as nil; a converted column has one. *)
Definition value_of (c : Column) : value := default (BList []) (Value c).

(** The column after it and the document [bson.M{c.Name: c.Value}]. *)
Definition createSingleCondition (c : Column) : result error (Column * list (string * value)) :=
  c ← Column_convertValue c; Ok (c, [(Name c, value_of c)]).

(** ** Flat lists *)

(** One round of the first loop of [buildFilterWithPrecedence]. *)
Definition group_step (st : list (list Column) * list Column) (col : Column)
    : list (list Column) * list Column :=
  let '(orGroups, currentAndGroup) := st in
  let currentAndGroup := currentAndGroup ++ [col] in
  if bool_decide (ToLower (Logic col) = "or") then (orGroups ++ [currentAndGroup], [])
  else (orGroups, currentAndGroup).

Definition split_groups (columns : list Column) : list (list Column) :=
  let '(orGroups, currentAndGroup) := foldl group_step ([], []) columns in
  match currentAndGroup with [] => orGroups | _ => orGroups ++ [currentAndGroup] end.

Definition docs (l : list (list (string * value))) : value := BList (map BDoc l).

(** One group: the columns after it and the document it adds, if any. *)
Definition group_filter (group : list Column)
    : result error (list Column * list (list (string * value))) :=
  r ← traverse createSingleCondition group;
  let andParts := map snd r in
  Ok (map fst r,
      match andParts with
      | [] => []
      | [p] => [p]
      | _ => [[("$and", docs andParts)]]
      end).

(** The filter, and the columns as the in-place conversions leave them. *)
Definition buildFilterWithPrecedence (columns : list Column)
    : result error (list (string * value) * list Column) :=
  cols ← traverse convertLogic columns;
  rs ← traverse group_filter (split_groups cols);
  let orParts := concat (map snd rs) in
  Ok (match orParts with
      | [] => []
      | [p] => p
      | _ => [("$or", docs orParts)]
      end, concat (map fst rs)).

(** ** Lists with parentheses *)

Record filterGroup : Type := mkGroup {
  operator : string;
  filters : list (list (string * value)) }.

(** [m[k] = v]. *)
Fixpoint doc_set (m : list (string * value)) (k : string) (v : value) : list (string * value) :=
  match m with
  | [] => [(k, v)]
  | (k', v') :: m' => if bool_decide (k' = k) then (k, v) :: m' else (k', v') :: doc_set m' k v
  end.

(** The merge of an [$and] group. *)
Definition merge (fs : list (list (string * value))) : list (string * value) :=
  foldl (fun m f => foldl (fun m '(k, v) => doc_set m k v) m f) [] fs.

Definition add_filter (f : list (string * value)) (g : filterGroup) : filterGroup :=
  mkGroup (operator g) (filters g ++ [f]).
Definition set_or (op : string) (g : filterGroup) : filterGroup :=
  if bool_decide (op = "$or") then mkGroup "$or" (filters g) else g.

(** One round of the loop; the stack has its top first, and indexing an empty
    one panics. *)
Definition stack_step (stack : list filterGroup) (col : Column) : result error (list filterGroup) :=
  col ← checkLogic col;
  '(col, single) ← createSingleCondition col;
  let logic := ToLower (Logic col) in
  let logic := if bool_decide (logic = "") then "and" else logic in
  let op := if HasPrefix logic "or" then "$or" else "$and" in
  if HasSuffix logic ":(" then Ok (mkGroup op [single] :: stack)
  else if HasSuffix logic ":)" then
    if (length stack <? 2)%nat then Err ErrMismatch
    else match stack with
         | currentGroup :: parentGroup :: rest =>
             let currentGroup := add_filter single currentGroup in
             let combined :=
               if bool_decide (operator currentGroup = "$and") then merge (filters currentGroup)
               else [(operator currentGroup, docs (filters currentGroup))] in
             Ok (set_or op (add_filter combined parentGroup) :: rest)
         | _ => Panic
         end
  else match stack with
       | topGroup :: rest => Ok (set_or op (add_filter single topGroup) :: rest)
       | [] => Panic
       end.

Definition buildFilterWithStack (columns : list Column) : result error (list (string * value)) :=
  stack ← foldM stack_step [mkGroup "$and" []] columns;
  if negb (length stack =? 1)%nat then Err ErrUnclosed
  else match stack with
       | rootGroup :: _ =>
           match filters rootGroup with
           | [f] => if bool_decide (operator rootGroup = "$and") then Ok f
                    else Ok [(operator rootGroup, docs (filters rootGroup))]
           | fs => Ok [(operator rootGroup, docs fs)]
           end
       | [] => Panic
       end.

(** ** The conversion *)

Definition open_paren (c : Column) : bool := Contains (Logic c) "(".
Definition close_paren (c : Column) : bool := Contains (Logic c) ")".

Definition convertMultiColumns (w : option (gmap string bool)) (columns : list Column)
    : result error (list (string * value) * list Column) :=
  match columns with
  | [] => Ok ([("filter", BDoc [])], [])
  | _ =>
      _ ← traverse (checkName w) columns;
      let countLeft := length (List.filter open_paren columns) in
      let countRight := length (List.filter close_paren columns) in
      if negb (countLeft =? countRight)%nat then Err ErrMismatch
      else if existsb open_paren columns || existsb close_paren columns then
        f ← buildFilterWithStack columns; Ok (f, columns)
      else buildFilterWithPrecedence columns
  end.

(** The filter and the columns of [p] after the call. *)
Definition ConvertToMongoFilter (columns : list Column) (opts : list (rulerOptions -> rulerOptions))
    : result error (list (string * value) * list Column) :=
  let o := apply (mkRuler None None) opts in
  if match validateFn o with Some fn => negb (fn columns) | None => false end then Err ErrValidate
  else match columns with
  | [] => Ok ([], [])
  | [c] =>
      _ ← checkName (whitelistNames o) c;
      c ← convert c;
      Ok ([(Name c, value_of c)], [c])
  | [c0; c1] =>
      _ ← checkName (whitelistNames o) c0;
      _ ← checkName (whitelistNames o) c1;
      c0 ← convert c0;
      c1 ← convert c1;
      let both := docs [[(Name c0, value_of c0)]; [(Name c1, value_of c1)]] in
      Ok ([(if bool_decide (Logic c0 = AND) then "$and" else "$or", both)], [c0; c1])
  | _ => convertMultiColumns (whitelistNames o) columns
  end.

Definition ConvertToMongo := ConvertToMongoFilter.

(** [Conditions.CheckValid]. *)
Definition check_column (c : Column) : result error unit :=
  _ ← checkValid c;
  if negb (bool_decide (Exp c = "")) && bool_decide (assoc expMap (Exp c) = None) then Err ErrExp
  else if negb (bool_decide (Logic c = "")) && bool_decide (assoc logicMap (Logic c) = None)
  then Err ErrLogic else Ok tt.
Definition CheckValid (columns : list Column) : result error unit :=
  match columns with
  | [] => Err ErrEmpty
  | _ => _ ← traverse check_column columns; Ok tt
  end.

End Conditions.
Arguments value : clear implicits.
Arguments Column : clear implicits.
Arguments rulerOptions : clear implicits.
Arguments filterGroup : clear implicits.

(** ** Paging (page.go) *)

(** [bson.D] of the sort columns: names with 1 or -1. *)
Record Page : Type := mkPage { page : Z; limit : Z; sort : list (string * Z) }.

Definition oidName := "_id".
Definition SetMaxSize (maxValue : Z) : Z := if maxValue <? 10 then 10 else maxValue.
Definition Skip (p : Page) : Z := wrap64 (page p * limit p).
Definition DefaultPage (page : Z) : Page := mkPage (if page <? 0 then 0 else page) 10 [(oidName, -1)].

Definition sort_item (name : string) : result unit (string * Z) :=
  let oid n := if bool_decide (n = "id") then oidName else n in
  match name with
  | EmptyString => Panic
  | String c rest =>
      if bool_decide (c = "-"%char) && negb (bool_decide (rest = "")) then Ok (oid rest, -1)
      else Ok (oid name, 1)
  end.

Definition getSort (columnNames : string) : result unit (list (string * Z)) :=
  let columnNames := ReplaceChar columnNames " "%char "" in
  if bool_decide (columnNames = "") then Ok [(oidName, -1)]
  else traverse sort_item (Split columnNames ","%char).

Definition NewPage (defaultMaxSize page limit : Z) (columnNames : string) : result unit Page :=
  let page := if page <? 0 then 0 else page in
  let limit := if defaultMaxSize <? limit then defaultMaxSize else if limit <? 1 then 10 else limit in
  s ← getSort columnNames;
  Ok (mkPage page limit s).

Definition ConvertToPage (defaultMaxSize page limit : Z) (sort : string)
    : result unit (list (string * Z) * Z * Z) :=
  p ← NewPage defaultMaxSize page limit sort;
  Ok (MongoQuery.sort p, MongoQuery.limit p, Skip p).

(** ** What a filter means *)

Section Semantics.
Context {Time Other : Type}.
Notation value := (value Time Other).
Notation Column := (Column Time Other).
Context (ObjectIDFromHex : string -> option string) (ParseFloat : string -> option spec_float)
  (ParseTime : string -> option Time) (Sprint : value -> string).
(** Whether the document at hand satisfies a field condition. *)
Variable sat : string -> value -> bool.

Notation convertv := (Column_convertValue ObjectIDFromHex ParseFloat ParseTime Sprint).
Notation single_condition := (createSingleCondition ObjectIDFromHex ParseFloat ParseTime Sprint).

(** A filter is the conjunction of its fields; [$and] and [$or] combine
    filters, any other field is a condition on the document. *)
Fixpoint eval (v : value) : bool :=
  match v with
  | BDoc fields =>
      forallb (fun kv : string * value =>
        let (k, w) := kv in
        match w with
        | BList ds =>
            if bool_decide (k = "$and") then forallb eval ds
            else if bool_decide (k = "$or") then existsb eval ds
            else sat k w
        | _ => sat k w
        end) fields
  | _ => false
  end.
Definition matches (f : list (string * value)) : bool := eval (BDoc f).

(** The condition a column states, and the reading of a flat list: the
    connective of a column links it to the next one, [and] binds tighter than
    [or], the last connective is ignored. *)
Definition column_holds (c : Column) : bool :=
  match convertv c with Ok c' => sat (Name c') (value_of c') | _ => false end.
Definition is_or (c : Column) : bool :=
  match convertLogic c with Ok c' => bool_decide (Logic c' = OR) | _ => false end.
Fixpoint flat_meaning (acc : bool) (columns : list Column) : bool :=
  match columns with
  | [] => acc
  | [c] => acc && column_holds c
  | c :: rest =>
      if is_or c then (acc && column_holds c) || flat_meaning true rest
      else flat_meaning (acc && column_holds c) rest
  end.

(** A field that is not one of the two combinators. *)
Definition plain_field (k : string) : Prop := k <> "$and" /\ k <> "$or".

Lemma matches_single k v : plain_field k -> matches [(k, v)] = sat k v.
Proof.
  intros [H1 H2]. unfold matches. cbn. rewrite andb_true_r.
  destruct v; try done. by rewrite !bool_decide_false.
Qed.

Lemma matches_and l : matches [("$and", docs l)] = forallb matches l.
Proof.
  unfold matches, docs. cbn. rewrite andb_true_r. induction l as [|d l IH]; [done|]. cbn. by f_equal.
Qed.

Lemma matches_or l : matches [("$or", docs l)] = existsb matches l.
Proof.
  unfold matches, docs. cbn. rewrite andb_true_r. induction l as [|d l IH]; [done|]. cbn. by f_equal.
Qed.

Lemma matches_parts l : l <> [] ->
  matches (match l with [] => [] | [p] => p | _ => [("$or", docs l)] end) = existsb matches l.
Proof.
  destruct l as [|p [|q l]]; intros H; [done| |apply matches_or]. cbn. by rewrite orb_false_r.
Qed.

(** The name a column has after its conversion is a plain field. *)
Definition plain (c : Column) : Prop :=
  forall c', convertv c = Ok c' -> plain_field (Name c').

Lemma single_condition_ok c c' d :
  plain c -> single_condition c = Ok (c', d) -> convertv c = Ok c' /\ matches d = column_holds c.
Proof.
  unfold createSingleCondition. intros Hp H. apply bind_ok in H as (c1 & Hc & [= <- <-]).
  split; [done|]. unfold column_holds. rewrite Hc. apply matches_single. by apply Hp.
Qed.

Lemma group_filter_ok group cols parts :
  Forall plain group -> group <> [] ->
  group_filter ObjectIDFromHex ParseFloat ParseTime Sprint group = Ok (cols, parts) ->
  exists p, parts = [p] /\ matches p = forallb column_holds group.
Proof.
  unfold group_filter. intros Hp Hne. rewrite bind_ok. intros (r & Hr & H).
  apply traverse_ok in Hr.
  assert (map matches (map snd r) = map column_holds group) as Hm.
  { clear H Hne. induction Hr as [|c [c' d] cs r Hc Hr IH]; [done|].
    apply Forall_cons in Hp as [Hp Hps]. cbn. f_equal; [|by apply IH].
    by eapply single_condition_ok in Hc as [_ ?]. }
  injection H as <- <-. destruct (map snd r) as [|p [|q l]] eqn:E.
  - by destruct group.
  - exists p. split; [done|]. destruct group as [|c [|c2 cs]]; try done.
    cbn in Hm |- *. injection Hm as ->. by rewrite andb_true_r.
  - eexists. split; [done|]. rewrite matches_and.
    rewrite <- (map_id group) at 1. clear -Hm. revert Hm. generalize (p :: q :: l). intros ds.
    rewrite map_id. revert ds. induction group as [|c cs IH]; intros [|d ds] H; try done.
    cbn in *. injection H as -> H. by rewrite (IH _ H).
Qed.

Lemma convertLogic_ok (c c' : Column) :
  convertLogic c = Ok c' ->
  Name c' = Name c /\ Exp c' = Exp c /\ Value c' = Value c /\ (Logic c' = AND \/ Logic c' = OR).
Proof.
  unfold convertLogic. destruct (assoc logicMap _) as [v|] eqn:E; [|done]. intros [= <-].
  do 3 (split; [done|]). apply (assoc_Forall (fun v => v = AND \/ v = OR)) in E; [done|].
  repeat constructor; (by left) || by right.
Qed.

Lemma convertv_ext (c c' : Column) :
  Name c' = Name c -> Exp c' = Exp c -> Value c' = Value c ->
  match convertv c, convertv c' with
  | Ok d, Ok d' => Name d = Name d' /\ Value d = Value d'
  | Ok _, _ | _, Ok _ => False
  | _, _ => True
  end.
Proof.
  intros Hn He Hv. unfold Column_convertValue, checkValid. rewrite Hn, He, Hv.
  destruct (bool_decide (Name c = "")); [by cbn|]. destruct (Value c) as [v|]; [|by cbn].
  cbn -[assoc ToLower]. destruct (isObjectID ObjectIDFromHex v); by destruct (assoc expMap _).
Qed.

Lemma column_holds_ext (c c' : Column) :
  Name c' = Name c -> Exp c' = Exp c -> Value c' = Value c -> column_holds c = column_holds c'.
Proof.
  intros Hn He Hv. pose proof (convertv_ext c c' Hn He Hv) as H. unfold column_holds, value_of.
  destruct (convertv c), (convertv c'); try done. by destruct H as [-> ->].
Qed.

Lemma plain_ext (c c' : Column) :
  Name c' = Name c -> Exp c' = Exp c -> Value c' = Value c -> plain c -> plain c'.
Proof.
  intros Hn He Hv Hp d Hd. pose proof (convertv_ext c c' Hn He Hv) as H. rewrite Hd in H.
  destruct (convertv c) as [d0|?|] eqn:Ec; try done. destruct H as [<- _]. by apply Hp.
Qed.

(** *** The groups of a flat list *)

Definition logic_norm (c : Column) : Prop := Logic c = AND \/ Logic c = OR.
Definition finalize (st : list (list Column) * list Column) : list (list Column) :=
  match snd st with [] => fst st | _ => fst st ++ [snd st] end.

Lemma split_groups_finalize cols : split_groups cols = finalize (foldl group_step ([], []) cols).
Proof. unfold split_groups, finalize. by destruct (foldl _ _ _) as [gs cur]. Qed.

Lemma finalize_snoc gs (cur : list Column) c : finalize (gs, cur ++ [c]) = gs ++ [cur ++ [c]].
Proof. unfold finalize. cbn. by destruct cur. Qed.

Lemma is_or_norm (c : Column) : logic_norm c -> is_or c = bool_decide (ToLower (Logic c) = "or").
Proof. unfold is_or, convertLogic. by intros [-> | ->]. Qed.

Lemma group_fold cols : forall gs cur,
  cols <> [] -> Forall logic_norm cols ->
  existsb (forallb column_holds) (finalize (foldl group_step (gs, cur) cols)) =
  existsb (forallb column_holds) gs || flat_meaning (forallb column_holds cur) cols.
Proof.
  induction cols as [|c cols IH]; intros gs cur Hne Hn; [done|]. apply Forall_cons in Hn as [Hc Hn].
  cbn [foldl group_step]. destruct cols as [|c2 cols].
  - cbn [foldl flat_meaning].
    assert (existsb (forallb column_holds) (gs ++ [cur ++ [c]]) =
      existsb (forallb column_holds) gs || (forallb column_holds cur && column_holds c)) as E.
    { rewrite existsb_app. cbn. by rewrite orb_false_r, forallb_app; cbn; rewrite andb_true_r. }
    destruct (bool_decide _); [exact E|]. by rewrite finalize_snoc.
  - cbn [flat_meaning]. rewrite (is_or_norm c Hc). destruct (bool_decide _).
    + rewrite IH by done. rewrite existsb_app. cbn [existsb]. rewrite forallb_app. cbn [forallb].
      by rewrite andb_true_r, orb_false_r, orb_assoc.
    + rewrite IH by done. rewrite forallb_app. cbn [forallb]. by rewrite andb_true_r.
Qed.

Lemma group_fold_members (P : Column -> Prop) cols : forall gs cur,
  Forall P cols -> Forall P cur -> Forall (fun g => g <> [] /\ Forall P g) gs ->
  Forall (fun g => g <> [] /\ Forall P g) (finalize (foldl group_step (gs, cur) cols)).
Proof.
  induction cols as [|c cols IH]; intros gs cur Hc Hcur Hgs.
  - unfold finalize. cbn. destruct cur as [|c cur]; [done|]. apply Forall_app. split; [done|].
    by constructor.
  - apply Forall_cons in Hc as [Hc Hcs]. cbn [foldl group_step].
    assert (Forall P (cur ++ [c])) as Hcur' by (apply Forall_app; split; [done|by constructor]).
    destruct (bool_decide _); [|by apply IH]. apply IH; [done|constructor|].
    apply Forall_app. split; [done|]. constructor; [|constructor]. split; [by destruct cur|done].
Qed.

Lemma finalize_nonempty cols : forall gs cur,
  cols <> [] -> finalize (foldl group_step (gs, cur) cols) <> [].
Proof.
  induction cols as [|c cols IH]; intros gs cur Hne; [done|]. cbn [foldl group_step].
  destruct cols as [|c2 cols].
  - cbn [foldl]. destruct (bool_decide _); [|rewrite finalize_snoc]; by destruct gs.
  - destruct (bool_decide _); by apply IH.
Qed.

(** The conversion of the connectives keeps the reading. *)
Lemma flat_meaning_converted cols cols' acc :
  Forall2 (fun c c' => convertLogic c = Ok c') cols cols' ->
  flat_meaning acc cols' = flat_meaning acc cols.
Proof.
  intros H. revert acc. induction H as [|c c' cols cols' Hc H IH]; intros acc; [done|].
  pose proof (convertLogic_ok _ _ Hc) as (Hn & He & Hv & Hl). cbn [flat_meaning].
  rewrite (column_holds_ext c c') by done.
  assert (is_or c' = is_or c) as ->.
  { rewrite is_or_norm by done. unfold is_or. rewrite Hc. by destruct Hl as [-> | ->]. }
  rewrite !IH. inversion H; subst; done.
Qed.

Lemma precedence_meaning columns f cols :
  columns <> [] -> Forall plain columns ->
  buildFilterWithPrecedence ObjectIDFromHex ParseFloat ParseTime Sprint columns = Ok (f, cols) ->
  matches f = flat_meaning true columns.
Proof.
  intros Hne Hp. unfold buildFilterWithPrecedence. rewrite bind_ok. intros (cs & Hcs & H).
  rewrite bind_ok in H. destruct H as (rs & Hrs & [= <- <-]).
  apply traverse_ok in Hcs, Hrs.
  assert (cs <> [] /\ Forall logic_norm cs /\ Forall plain cs) as (Hne' & Hln & Hp').
  { split; [by inversion Hcs; subst|]. clear -Hp Hcs. induction Hcs as [|c c' ? ? Hc Hcs IH]; [done|].
    apply Forall_cons in Hp as [Hp Hps]. destruct (IH Hps). apply convertLogic_ok in Hc as (? & ? & ? & ?).
    split; constructor; try done. by apply (plain_ext c). }
  rewrite <- (flat_meaning_converted columns cs true Hcs).
  pose proof (group_fold cs [] [] Hne' Hln) as Hg. cbn [existsb orb forallb] in Hg. rewrite <- Hg.
  pose proof (group_fold_members plain cs [] [] Hp' ltac:(constructor) ltac:(constructor)) as Hm.
  rewrite <- split_groups_finalize in Hg, Hm |- *.
  assert (existsb matches (concat (map snd rs)) = existsb (forallb column_holds) (split_groups cs) /\
    length (concat (map snd rs)) = length (split_groups cs)) as [He Hl].
  { clear -Hrs Hm. induction Hrs as [|g [cols parts] gs rs Hgf Hrs IH]; [done|].
    apply Forall_cons in Hm as [[Hgne Hgp] Hm]. destruct (IH Hm) as [IH1 IH2].
    destruct (group_filter_ok _ _ _ Hgp Hgne Hgf) as (p & -> & Hpm).
    cbn [map snd concat app existsb length]. by rewrite Hpm, IH1, IH2. }
  rewrite <- He. apply matches_parts. intros E. rewrite E in Hl. cbn in Hl.
  rewrite split_groups_finalize in Hl. destruct (finalize _) eqn:Ef; [|done].
  by apply finalize_nonempty in Ef.
Qed.
End Semantics.

(** ** The stack *)

Section Stack.
Context {Time Other : Type}.
Notation value := (value Time Other).
Notation Column := (Column Time Other).
Context (ObjectIDFromHex : string -> option string) (ParseFloat : string -> option spec_float)
  (ParseTime : string -> option Time) (Sprint : value -> string).
Notation single_condition := (createSingleCondition ObjectIDFromHex ParseFloat ParseTime Sprint).
Notation stack_step := (stack_step ObjectIDFromHex ParseFloat ParseTime Sprint).

(** What the logic of a column does to the stack. *)
Inductive paren : Type := POpen | PClose | PNone.
Definition paren_of (c : Column) : paren :=
  let logic := ToLower (if bool_decide (Logic c = "") then AND else Logic c) in
  if HasSuffix logic ":(" then POpen else if HasSuffix logic ":)" then PClose else PNone.

(** [d] groups are open. *)
Fixpoint balanced (d : nat) (columns : list Column) : bool :=
  match columns with
  | [] => (d =? 0)%nat
  | c :: rest =>
      match paren_of c, d with
      | POpen, _ => balanced (S d) rest
      | PClose, O => false
      | PClose, S d' => balanced d' rest
      | PNone, _ => balanced d rest
      end
  end.

Definition valid_column (c : Column) : bool := is_ok (checkLogic c) && is_ok (single_condition c).

Lemma single_condition_no_panic (c : Column) : single_condition c <> Panic.
Proof.
  unfold createSingleCondition, Column_convertValue, checkValid.
  destruct (bool_decide (Name c = "")); [done|]. destruct (Value c) as [v|]; [|done]. cbn -[assoc ToLower].
  destruct (isObjectID ObjectIDFromHex v); by destruct (assoc expMap _).
Qed.

Lemma checkLogic_ok (c c1 : Column) :
  checkLogic c = Ok c1 ->
  c1 = mkColumn (Name c) (Exp c) (Value c) (if bool_decide (Logic c = "") then AND else Logic c).
Proof. unfold checkLogic. destruct (assoc logicMap _); [|done]. by intros [= <-]. Qed.

(** The condition a column adds; its logic does not matter. *)
Lemma single_condition_logic (c : Column) logic c' d :
  single_condition (mkColumn (Name c) (Exp c) (Value c) logic) = Ok (c', d) ->
  Logic c' = logic /\ exists c2, single_condition c = Ok (c2, d).
Proof.
  unfold createSingleCondition, Column_convertValue, checkValid. cbn [Name Exp Value Logic].
  destruct (bool_decide (Name c = "")); [done|]. destruct (Value c) as [v|]; [|done]. cbn -[assoc ToLower].
  destruct (isObjectID ObjectIDFromHex v); destruct (assoc expMap _); try done; cbn;
    intros [= <- <-]; split; try done; by eexists.
Qed.

Lemma single_condition_logic_err (c : Column) logic :
  is_ok (single_condition (mkColumn (Name c) (Exp c) (Value c) logic)) = is_ok (single_condition c).
Proof.
  unfold createSingleCondition, Column_convertValue, checkValid. cbn [Name Exp Value Logic].
  destruct (bool_decide (Name c = "")); [done|]. destruct (Value c) as [v|]; [|done]. cbn -[assoc ToLower].
  destruct (isObjectID ObjectIDFromHex v); by destruct (assoc expMap _).
Qed.

(** One column on a stack that is not empty. *)
Lemma stack_step_spec (top : filterGroup Time Other) rest (c : Column) :
  match stack_step (top :: rest) c with
  | Ok stack' =>
      valid_column c = true /\ stack' <> [] /\
      match paren_of c with
      | POpen => length stack' = S (S (length rest))
      | PClose => length stack' = length rest
      | PNone => length stack' = S (length rest)
      end
  | Err _ => valid_column c = false \/ (paren_of c = PClose /\ rest = [])
  | Panic => False
  end.
Proof.
  unfold MongoQuery.stack_step, valid_column.
  destruct (checkLogic c) as [c1|e|] eqn:E1; cbn [is_ok andb].
  2: by left.
  2: { revert E1. unfold checkLogic. by destruct (assoc logicMap _). }
  cbn [mbind result_bind]. apply checkLogic_ok in E1. subst c1.
  pose proof (single_condition_logic_err c (if bool_decide (Logic c = "") then AND else Logic c)) as Hok.
  destruct (single_condition (mkColumn _ _ _ _)) as [[c2 d]|e|] eqn:E2.
  2: { left. by rewrite <- Hok. }
  2: by apply single_condition_no_panic in E2.
  cbn [mbind result_bind]. apply single_condition_logic in E2 as [-> _]. rewrite <- Hok. cbn [is_ok].
  unfold paren_of.
  set (logic := if bool_decide (Logic c = "") then AND else Logic c).
  assert (ToLower logic <> "") as Hne.
  { unfold logic. destruct (bool_decide (Logic c = "")) eqn:E; [done|].
    apply bool_decide_eq_false in E. by destruct (Logic c). }
  rewrite bool_decide_false by done.
  destruct (HasSuffix (ToLower logic) ":("); [done|].
  destruct (HasSuffix (ToLower logic) ":)"); [|done].
  destruct rest as [|parent rest]; cbn; [by right|done].
Qed.

Lemma stack_fold_spec columns : forall (top : filterGroup Time Other) rest,
  match foldM stack_step (top :: rest) columns with
  | Ok stack => stack <> [] /\
      forallb valid_column columns && balanced (length rest) columns = (length stack =? 1)%nat /\
      forallb valid_column columns = true
  | Err _ => forallb valid_column columns && balanced (length rest) columns = false
  | Panic => False
  end.
Proof.
  induction columns as [|c columns IH]; intros top rest.
  - cbn. repeat split. by destruct rest.
  - cbn [foldM forallb balanced]. pose proof (stack_step_spec top rest c) as Hs.
    destruct (stack_step (top :: rest) c) as [stack|e|] eqn:Es; [|cbn [mbind result_bind]|done].
    + destruct Hs as (Hv & Hne & Hl). rewrite Hv. destruct stack as [|top' rest']; [done|].
      specialize (IH top' rest'). cbn [mbind result_bind andb].
      assert (match paren_of c with
        | POpen => balanced (S (length rest)) columns
        | PClose => match length rest with O => false | S d' => balanced d' columns end
        | PNone => balanced (length rest) columns
        end = balanced (length rest') columns) as ->; [|exact IH].
      cbn [length] in Hl. destruct (paren_of c).
      * injection Hl as ->. done.
      * by rewrite <- Hl.
      * injection Hl as ->. done.
    + destruct Hs as [-> | [-> ->]]; [done|]. cbn. by rewrite andb_false_r.
Qed.

Lemma buildFilterWithStack_spec columns :
  buildFilterWithStack ObjectIDFromHex ParseFloat ParseTime Sprint columns <> Panic /\
  is_ok (buildFilterWithStack ObjectIDFromHex ParseFloat ParseTime Sprint columns) =
    forallb valid_column columns && balanced 0 columns.
Proof.
  unfold buildFilterWithStack. pose proof (stack_fold_spec columns (mkGroup "$and" []) []) as H.
  cbn [length] in H. destruct (foldM _ _ _) as [stack|e|]; [|by rewrite H|done].
  destruct H as (Hne & Hb & Hv). rewrite Hb. cbn [mbind result_bind].
  destruct stack as [|root [|g2 stack]]; [done| |done]. cbn [length negb Nat.eqb].
  destruct (filters root) as [|f [|f2 fs]]; [done| |done]. by destruct (bool_decide _).
Qed.

(** Setting a field again drops the earlier value. *)
Lemma merge_same k (v w : value) : merge [[(k, v)]; [(k, w)]] = [(k, w)].
Proof. cbn. by rewrite bool_decide_true. Qed.

End Stack.

(** ** Sorting *)

Lemma sort_item_panic name : is_panic (sort_item name) = bool_decide (name = "").
Proof. destruct name as [|c rest]; [done|]. cbn. by destruct (_ && _). Qed.

Lemma traverse_sort_panic names : is_panic (traverse sort_item names) = bool_decide ("" ∈ names).
Proof.
  induction names as [|n names IH]; [done|]. cbn [traverse].
  pose proof (sort_item_panic n) as Hn. destruct (sort_item n) as [p|e|] eqn:E.
  - cbn in Hn. symmetry in Hn. apply bool_decide_eq_false in Hn. cbn [mbind result_bind].
    rewrite (bool_decide_ext _ ("" ∈ names)).
    + rewrite <- IH. by destruct (traverse sort_item names).
    + rewrite elem_of_cons. naive_solver.
  - destruct n as [|c rest]; [done|]. cbn in E. by destruct (_ && _).
  - cbn in Hn. symmetry in Hn. apply bool_decide_eq_true in Hn as ->.
    symmetry. apply bool_decide_eq_true. left.
Qed.

(** ** The properties *)

Lemma TrimSuffix_head s p q : HasPrefix s (single q) = false -> HasPrefix (TrimSuffix s p) (single q) = false.
Proof.
  unfold TrimSuffix. destruct (HasSuffix s p); [|done]. destruct s as [|a s]; [done|].
  generalize (str_len (String a s) - str_len p)%nat. intros [|n]; [done|]. cbn.
  by rewrite !andb_true_r.
Qed.

Section Properties.
Context {Time Other : Type}.
Notation value := (value Time Other).
Notation Column := (Column Time Other).
Context (ObjectIDFromHex : string -> option string) (ParseFloat : string -> option spec_float)
  (ParseTime : string -> option Time) (Sprint : value -> string).

(** No name starts with a dollar sign. *)
Definition no_dollar (c : Column) : Prop := HasPrefix (Name c) "$" = false.

Lemma no_dollar_plain c : no_dollar c -> plain ObjectIDFromHex ParseFloat ParseTime Sprint c.
Proof.
  intros Hd c'. unfold Column_convertValue, checkValid.
  destruct (bool_decide (Name c = "")); [done|]. destruct (Value c) as [v|]; [|done]. cbn -[assoc ToLower].
  assert (forall n, HasPrefix n "$" = false -> plain_field n) as Hp.
  { intros n Hn. split; by intros ->. }
  destruct (isObjectID ObjectIDFromHex v); destruct (assoc expMap _); try done; intros [= <-];
    apply Hp; cbn [Name]; [|done].
  destruct (bool_decide _); [done|]. destruct (HasSuffix _ _); [|done]. by apply (TrimSuffix_head _ _ "$"%char).
Qed.

Notation convertv := (Column_convertValue ObjectIDFromHex ParseFloat ParseTime Sprint).
Notation reading sat := (flat_meaning ObjectIDFromHex ParseFloat ParseTime Sprint sat true).

Lemma convertv_logic (c d : Column) : convertv c = Ok d -> Logic d = Logic c.
Proof.
  unfold Column_convertValue. rewrite bind_ok. intros (v & _ & H).
  destruct (match isObjectID _ _ with Some _ => _ | None => _ end). destruct (assoc expMap _); [|done].
  by injection H as <-.
Qed.

(** A converted column: its field and what it states. *)
Lemma convert_field sat (c d : Column) :
  no_dollar c -> convert ObjectIDFromHex ParseFloat ParseTime Sprint c = Ok d ->
  matches sat [(Name d, value_of d)] = column_holds ObjectIDFromHex ParseFloat ParseTime Sprint sat c /\
  is_or c = bool_decide (Logic d = OR) /\ (Logic d = AND \/ Logic d = OR).
Proof.
  intros Hp H. apply no_dollar_plain in Hp. apply bind_ok in H as (e & He & Hl).
  pose proof (convertLogic_ok _ _ Hl) as (Hn & _ & Hv & Hlog). split; [|split; [|done]].
  - unfold value_of. rewrite Hn, Hv. rewrite matches_single by by apply Hp.
    unfold column_holds. by rewrite He.
  - unfold is_or, convertLogic in *. rewrite <- (convertv_logic _ _ He).
    destruct (assoc logicMap _); [|done]. by injection Hl as <-.
Qed.

(** C8: a list of columns without parentheses, none of whose names starts
    with a dollar sign, converts to a filter that a document matches exactly
    when it satisfies the list read with [and] binding tighter than [or] and
    the last connective ignored, for one, two or more columns. *)
Theorem mongo_flat_meaning (sat : string -> value -> bool) (columns cols : list Column) opts f :
  columns <> [] ->
  Forall (fun c => no_dollar c /\ open_paren c = false /\ close_paren c = false) columns ->
  ConvertToMongoFilter ObjectIDFromHex ParseFloat ParseTime Sprint columns opts = Ok (f, cols) ->
  matches sat f = reading sat columns.
Proof.
  intros Hne Hall. unfold ConvertToMongoFilter.
  destruct (match validateFn _ with Some _ => _ | None => _ end); [done|].
  destruct columns as [|c0 [|c1 [|c2 rest]]]; [done| | |].
  - rewrite bind_ok. intros (_ & _ & H). apply bind_ok in H as (c & Hc & [= <- _]).
    apply Forall_cons in Hall as [(Hd & _) _]. by apply (convert_field sat) in Hc as [-> _].
  - intros H. apply bind_ok in H as (_ & _ & H). apply bind_ok in H as (_ & _ & H).
    apply bind_ok in H as (d0 & H0 & H). apply bind_ok in H as (d1 & H1 & [= <- _]).
    apply Forall_cons in Hall as [(Hd0 & _) Hall]. apply Forall_cons in Hall as [(Hd1 & _) _].
    apply (convert_field sat) in H0 as (E0 & Hor & Hlog); [|done].
    apply (convert_field sat) in H1 as (E1 & _ & _); [|done].
    cbn [flat_meaning andb]. rewrite Hor. destruct Hlog as [-> | ->].
    + rewrite bool_decide_true by done. rewrite bool_decide_false by done. rewrite matches_and.
      cbn [forallb]. by rewrite E0, E1, andb_true_r.
    + rewrite bool_decide_false by done. rewrite bool_decide_true by done. rewrite matches_or.
      cbn [existsb]. by rewrite E0, E1, orb_false_r.
  - set (cs := c0 :: c1 :: c2 :: rest) in *. unfold convertMultiColumns. unfold cs at 1.
    rewrite bind_ok. intros (_ & _ & H).
    assert (forall p : Column -> bool, (forall c, c ∈ cs -> p c = false) -> existsb p cs = false) as Hex.
    { intros p Hpc. apply not_true_is_false. intros (c & Hc & Hpt)%existsb_exists.
      apply list_elem_of_In in Hc. by rewrite Hpc in Hpt. }
    pose proof Hall as Hall'. rewrite Forall_forall in Hall'.
    rewrite !Hex in H by (intros c Hc; by apply Hall' in Hc as (_ & ? & ?)).
    destruct (negb _); [done|]. cbn [orb] in H. eapply precedence_meaning; [done| |exact H].
    eapply Forall_impl; [exact Hall|]. intros c (Hc & _). by apply no_dollar_plain.
Qed.

(** with parentheses the stack is never indexed when empty, and the
    conversion succeeds exactly when every column is valid and the
    parentheses of the columns are balanced. *)
Theorem mongo_stack_total (columns : list Column) :
  buildFilterWithStack ObjectIDFromHex ParseFloat ParseTime Sprint columns <> Panic /\
  is_ok (buildFilterWithStack ObjectIDFromHex ParseFloat ParseTime Sprint columns) =
    forallb (valid_column ObjectIDFromHex ParseFloat ParseTime Sprint) columns && balanced 0 columns.
Proof. apply buildFilterWithStack_spec. Qed.

(** A column in front of a parenthesis, on any stack. *)
Lemma stack_step_paren (c d : Column) logic stack :
  convertv c = Ok d -> ToLower (Logic c) = logic -> logic = "and:(" \/ logic = "and:)" ->
  stack_step ObjectIDFromHex ParseFloat ParseTime Sprint stack c =
  if bool_decide (logic = "and:(") then Ok (mkGroup "$and" [[(Name d, value_of d)]] :: stack)
  else if (length stack <? 2)%nat then Err ErrMismatch
  else match stack with
       | currentGroup :: parentGroup :: rest =>
           let g := add_filter [(Name d, value_of d)] currentGroup in
           Ok (add_filter (if bool_decide (operator g = "$and") then merge (filters g)
                           else [(operator g, docs (filters g))]) parentGroup :: rest)
       | _ => Panic
       end.
Proof.
  intros Hc Hl Hlog. unfold stack_step, checkLogic.
  assert (bool_decide (Logic c = "") = false) as ->.
  { apply bool_decide_eq_false. intros E. rewrite E in Hl. subst logic. by destruct Hlog. }
  rewrite Hl. assert (assoc logicMap logic = Some AND) as -> by by destruct Hlog as [-> | ->].
  cbn [mbind result_bind]. replace (mkColumn _ _ _ _) with c by by destruct c.
  unfold createSingleCondition. rewrite Hc. cbn [mbind result_bind].
  rewrite (convertv_logic _ _ Hc), Hl. by destruct Hlog as [-> | ->].
Qed.

(** in a group [(a and b)] of two conditions on one field the first one
    is lost: the filter is the same whatever its operator and its value. *)
Theorem mongo_and_group_loses (c1 c1' c2 d1 d1' d2 : Column) (rest : list Column) :
  ToLower (Logic c1) = "and:(" -> ToLower (Logic c1') = "and:(" -> ToLower (Logic c2) = "and:)" ->
  convertv c1 = Ok d1 -> convertv c1' = Ok d1' -> convertv c2 = Ok d2 ->
  Name d1 = Name d2 -> Name d1' = Name d2 ->
  buildFilterWithStack ObjectIDFromHex ParseFloat ParseTime Sprint (c1 :: c2 :: rest) =
  buildFilterWithStack ObjectIDFromHex ParseFloat ParseTime Sprint (c1' :: c2 :: rest).
Proof.
  intros L1 L1' L2 C1 C1' C2 N1 N1'. unfold buildFilterWithStack. cbn [foldM].
  rewrite (stack_step_paren c1 d1 _ _ C1 L1 (or_introl eq_refl)).
  rewrite (stack_step_paren c1' d1' _ _ C1' L1' (or_introl eq_refl)).
  rewrite !bool_decide_true by done. cbn [mbind result_bind].
  rewrite !(stack_step_paren c2 d2 _ _ C2 L2 (or_intror eq_refl)).
  rewrite !bool_decide_false by done. cbn [length Nat.ltb Nat.leb add_filter operator filters app].
  rewrite !bool_decide_true by done. rewrite N1, N1'. by rewrite !merge_same.
Qed.
End Properties.

(** a page never has a negative number or a limit outside [1..max] (when
    the maximum is at least 10), keeps the requested values when they are in
    range, and building it panics exactly when the sort text, without its
    spaces, is non-empty and has an empty column name. *)
Theorem mongo_page_bounds (max page limit : Z) (columnNames : string) :
  10 <= max ->
  let s := ReplaceChar columnNames " "%char "" in
  (is_panic (NewPage max page limit columnNames) = true <-> s <> "" /\ "" ∈ Split s ","%char) /\
  forall p, NewPage max page limit columnNames = Ok p ->
    0 <= MongoQuery.page p /\ 1 <= MongoQuery.limit p <= max /\
    (0 <= page -> MongoQuery.page p = page) /\ (1 <= limit <= max -> MongoQuery.limit p = limit) /\
    (in_int64 (MongoQuery.page p * MongoQuery.limit p) -> 0 <= Skip p).
Proof.
  intros Hmax s. unfold NewPage, getSort. fold s. cbv zeta. split.
  - destruct (decide (s = "")) as [E|E]; [rewrite bool_decide_true by done|rewrite bool_decide_false by done].
    + cbn. naive_solver.
    + pose proof (traverse_sort_panic (Split s ","%char)) as H.
      destruct (traverse sort_item _); cbn in H |- *; symmetry in H;
        [apply bool_decide_eq_false in H|apply bool_decide_eq_false in H|apply bool_decide_eq_true in H];
        naive_solver.
  - intros p. rewrite bind_ok. intros (t & _ & [= <-]). unfold Skip.
    cbn [MongoQuery.page MongoQuery.limit].
    destruct (page <? 0) eqn:Ep, (max <? limit) eqn:El, (limit <? 1) eqn:El';
      repeat split; try lia; intros Hin; rewrite wrap64_id by done; lia.
Qed.

(** ** Examples of what the conversion does *)

Definition run_filter (columns : list (Column unit unit)) :=
  ConvertToMongoFilter (fun _ => None) (fun _ => None) (fun _ => None) (fun _ => "") columns [].

(** One [or] at a level turns every condition of the level into a disjunct:
    [a = 1 and b = 2 or (c = 3 or d = 4)] matches a document with [a = 1] only. *)
Example stack_or_absorbs_and :
  (f ← run_filter
    [mkColumn "a" "" (Some (BInt 1)) "and"; mkColumn "b" "" (Some (BInt 2)) "or";
     mkColumn "c" "" (Some (BInt 3)) "or:("; mkColumn "d" "" (Some (BInt 4)) "or:)"];
   Ok (matches (fun k _ => bool_decide (k = "a")) (fst f))) = Ok true.
Proof. vm_compute. reflexivity. Qed.

(** With parentheses around, [||] is read as [and]. *)
Example stack_symbol_or_is_and :
  (f ← run_filter
    [mkColumn "a" "" (Some (BInt 1)) "||"; mkColumn "b" "" (Some (BInt 2)) "and:(";
     mkColumn "c" "" (Some (BInt 3)) "and:)"];
   Ok (fst f)) =
  Ok [("$and", docs [[("a", BInt 1)]; [("b", BInt 2); ("c", BInt 3)]])].
Proof. vm_compute. reflexivity. Qed.

(** Converting the same parameters again nests the operator. *)
Example second_conversion_differs :
  (r ← run_filter [mkColumn "a" ">" (Some (BInt 1)) ""];
   r2 ← run_filter (snd r);
   Ok (fst r, fst r2)) =
  Ok ([("a", BDoc [("$gt", BInt 1)])], [("a", BDoc [("$gt", BDoc [("$gt", BInt 1)])])]).
Proof. vm_compute. reflexivity. Qed.

(** ** Witnesses *)

Lemma mongo_flat_meaning_witness :
  matches (fun k _ => bool_decide (k = "c"))
    [("$or", docs (Time := unit) (Other := unit)
       [[("$and", docs [[("a", BInt 1)]; [("b", BInt 2)]])]; [("c", BInt 3)]])] = true.
Proof.
  refine (mongo_flat_meaning (fun _ => None) (fun _ => None) (fun _ => None) (fun _ => "")
    (fun k _ => bool_decide (k = "c"))
    [mkColumn "a" "" (Some (BInt 1)) "and"; mkColumn "b" "" (Some (BInt 2)) "or";
     mkColumn "c" "" (Some (BInt 3)) ""] _ [] _ _ _ _).
  - done.
  - by repeat constructor.
  - vm_compute. reflexivity.
Defined.

Lemma mongo_and_group_loses_witness :
  buildFilterWithStack (Time := unit) (Other := unit) (fun _ => None) (fun _ => None) (fun _ => None) (fun _ => "")
    [mkColumn "age" ">" (Some (BInt 10)) "and:("; mkColumn "age" "<" (Some (BInt 20)) "and:)"] =
  buildFilterWithStack (fun _ => None) (fun _ => None) (fun _ => None) (fun _ => "")
    [mkColumn "age" "=" (Some (BStr "x")) "and:("; mkColumn "age" "<" (Some (BInt 20)) "and:)"].
Proof.
  eapply mongo_and_group_loses; [vm_compute; reflexivity..].
Defined.

Lemma mongo_page_bounds_witness :
  is_panic (NewPage 1000 0 20 "name,") = true /\
  NewPage 1000 (-3) 0 "-id,age" = Ok (mkPage 0 10 [("_id", -1); ("age", 1)]).
Proof.
  split; [|vm_compute; reflexivity].
  apply (mongo_page_bounds 1000 0 20 "name,"); [lia|]. split; [done|]. vm_compute. right. left.
Defined.

End MongoQuery.
