(* ===== verification/JwtLib.v ===== *)
(** * The JWT library (github.com/golang-jwt/jwt, v4 and v5)

    Claims, and what the two token packages rely on in the library: the class
    [JwtLib] for version 4 (pkg/token), the class [JwtLib5] for version 5
    (pkg/jwt), each with its laws and a concrete function that satisfies
    them. *)

From S2P Require Import Prelude GoStr.
From Stdlib Require Import Ascii.

(** A claim value; a decoded number is [VFloat] of an integer here. *)
Inductive claim : Type :=
  | VNull
  | VStr (s : string)
  | VInt (n : Z)
  | VFloat (n : Z)
  | VBool (b : bool).
Abbreviation MapClaims := (gmap string claim).

(** Decoding a signed claim: numbers become floats. *)
Definition json_decoded (v : claim) : claim := match v with VInt n => VFloat n | _ => v end.

#[export] Instance claim_eq_dec : EqDecision claim.
Proof. solve_decision. Defined.

#[export] Instance claim_countable : Countable claim.
Proof.
  refine (inj_countable'
    (fun v => match v with
              | VNull => inl (inl None) | VStr s => inl (inl (Some s)) | VInt n => inl (inr n)
              | VFloat n => inr (inl n) | VBool b => inr (inr b)
              end)
    (fun x => match x with
              | inl (inl None) => VNull | inl (inl (Some s)) => VStr s | inl (inr n) => VInt n
              | inr (inl n) => VFloat n | inr (inr b) => VBool b
              end) _).
  by intros [].
Defined.

(** ** Version 4 *)

(** Signing with HS256, and parsing at a time with a key function that gives
    the key for an HMAC token and an error for the others; [None] is an
    error. *)
Class JwtLib : Type := {
  SignedString : string -> MapClaims -> option string;
  jwt_Parse : Z -> string -> string -> option MapClaims }.

(** A signed token parses with its key exactly while [nbf] and [iat] have
    passed and [exp] has not, in whole seconds, and gives the decoded claims
    back; compact serialisation has no white space and is not empty. *)
Class JwtLaws (L : JwtLib) : Prop := {
  parse_signed key claims tok now nbf iat exp :
    SignedString key claims = Some tok ->
    claims !! "nbf" = Some (VInt nbf) -> claims !! "iat" = Some (VInt iat) ->
    claims !! "exp" = Some (VInt exp) ->
    jwt_Parse now tok key =
      if decide (nbf <= unix now /\ iat <= unix now /\ unix now < exp)
      then Some (json_decoded <$> claims) else None;
  sign_succeeds key claims : is_Some (SignedString key claims);
  compact_token key claims tok :
    SignedString key claims = Some tok -> tok <> "" /\ forall_chars (fun c => negb (is_space c)) tok = true }.

(** ** Version 5 *)

(** The errors of the library that the middleware tells apart; an error of
    [Parse] joins several. *)
Inductive jwt_error : Type :=
  | JExpired          (* jwt.ErrTokenExpired *)
  | JInvalidExp       (* jwt.ErrInvalidType, "exp is invalid" *)
  | JExpRequired      (* jwt.ErrTokenRequiredClaimMissing, "exp claim is required" *)
  | JOther.

#[export] Instance jwt_error_eq_dec : EqDecision jwt_error.
Proof. solve_decision. Defined.

(** [(token, err)] of [Parse]: on an error the token is nil when it could not
    be decoded. *)
Inductive parsed : Type :=
  | Valid (claims : MapClaims)
  | Invalid (claims : option MapClaims) (errs : list jwt_error).

(** Keys are opaque; [verifies sign_key key] says that [key] checks what
    [sign_key] signed (equality for HMAC, a key pair for RSA).  The key
    function maps the token's algorithm to the key, or [None] for an error.
    [token_alg] is the algorithm in the header of a token, when it decodes
    and names a known method. *)
Class JwtLib5 : Type := {
  known_method : string -> bool;
  verifies : string -> string -> Prop;
  sign5 : string -> string -> MapClaims -> option string;
  token_alg : string -> option string;
  parse5 : Z -> (string -> option string) -> string -> parsed }.

(** The default validation of version 5: [exp] when there is one; [nbf] and
    [iat] are absent in the tokens the middleware signs. *)
Definition exp_verdict (now : Z) (claims : MapClaims) : parsed :=
  match claims !! "exp" with
  | Some (VInt e) => if unix now <? e then Valid (json_decoded <$> claims)
                     else Invalid (Some (json_decoded <$> claims)) [JExpired]
  | _ => Valid (json_decoded <$> claims)
  end.

Class JwtLaws5 (L : JwtLib5) : Prop := {
  sign5_known alg key claims tok : sign5 alg key claims = Some tok -> known_method alg = true;
  token_alg_signed alg key claims tok : sign5 alg key claims = Some tok -> token_alg tok = Some alg;
  parse5_signed alg key key' claims tok now keyfunc :
    sign5 alg key claims = Some tok ->
    claims !! "nbf" = None -> claims !! "iat" = None ->
    (claims !! "exp" = None \/ exists e, claims !! "exp" = Some (VInt e)) ->
    keyfunc alg = Some key' -> verifies key key' ->
    parse5 now keyfunc tok = exp_verdict now claims;
  sign5_compact alg key claims tok :
    sign5 alg key claims = Some tok -> tok <> "" /\ forall_chars (fun c => negb (is_space c)) tok = true }.

(** ** A function that satisfies the laws of version 4 *)

(** The token is the numeral of the encoded key and claims. *)
Definition toy_sign (key : string) (claims : MapClaims) : string :=
  FormatUint (Zpos (encode (key, claims))).

Definition in_window (now : Z) (claims : MapClaims) : bool :=
  match claims !! "nbf", claims !! "iat", claims !! "exp" with
  | Some (VInt nbf), Some (VInt iat), Some (VInt exp) =>
      (nbf <=? unix now) && (iat <=? unix now) && (unix now <? exp)
  | _, _, _ => false
  end.

Definition numeral_decode {A} `{Countable A} (tok : string) : option A :=
  match digits_value 0 tok with Some (Zpos p) => decode p | _ => None end.

Definition toy_parse (now : Z) (tok key : string) : option MapClaims :=
  match numeral_decode (A := string * MapClaims) tok with
  | Some (key', claims) =>
      if bool_decide (key' = key) && in_window now claims then Some (json_decoded <$> claims) else None
  | None => None
  end.

Definition toy_lib : JwtLib := {|
  SignedString key claims := Some (toy_sign key claims);
  jwt_Parse := toy_parse |}.

Lemma forall_chars_impl (f g : ascii -> bool) s :
  (forall a, f a = true -> g a = true) -> forall_chars f s = true -> forall_chars g s = true.
Proof.
  intros H. induction s as [|a s IH]; [done|]. cbn. rewrite !andb_true_iff. intros [Ha Hs]. auto.
Qed.

Lemma numeral_compact n :
  0 <= n -> FormatUint n <> "" /\ forall_chars (fun c => negb (is_space c)) (FormatUint n) = true.
Proof.
  intros Hn. split; [apply dec_go_nonempty|].
  apply (forall_chars_impl is_digit); [|by apply FormatUint_digits].
  intros [[] [] [] [] [] [] [] []]; vm_compute; congruence.
Qed.

Lemma numeral_decode_encode {A} `{Countable A} (x : A) : numeral_decode (FormatUint (Zpos (encode x))) = Some x.
Proof. unfold numeral_decode. rewrite digits_value_FormatUint by lia. by rewrite decode_encode. Qed.

Lemma toy_laws : JwtLaws toy_lib.
Proof.
  split.
  - intros key claims tok now nbf iat exp [= <-] Hn Hi He. cbn. unfold toy_parse, toy_sign.
    rewrite numeral_decode_encode. rewrite bool_decide_true by done. cbn [andb].
    unfold in_window. rewrite Hn, Hi, He.
    destruct ((nbf <=? unix now) && (iat <=? unix now) && (unix now <? exp)) eqn:E; destruct (decide _); done || lia.
  - intros. by eexists.
  - intros key claims tok [= <-]. by apply numeral_compact.
Qed.

(** ** A function that satisfies the laws of version 5 *)

Definition toy_lib5 : JwtLib5 := {|
  known_method alg := bool_decide (alg ∈ ["HS256"; "RS256"]);
  verifies := eq;
  sign5 alg key claims :=
    if bool_decide (alg ∈ ["HS256"; "RS256"]) then Some (FormatUint (Zpos (encode (alg, key, claims)))) else None;
  token_alg tok := (fun x => fst (fst x)) <$> numeral_decode (A := string * string * MapClaims) tok;
  parse5 now keyfunc tok :=
    match numeral_decode (A := string * string * MapClaims) tok with
    | Some (alg, key, claims) =>
        if bool_decide (keyfunc alg = Some key) then exp_verdict now claims else Invalid None [JOther]
    | None => Invalid None [JOther]
    end |}.

Lemma toy_laws5 : JwtLaws5 toy_lib5.
Proof.
  split; cbn; intros *; destruct (bool_decide (alg ∈ _)) eqn:E; try done.
  - intros [= <-]. by rewrite numeral_decode_encode.
  - intros [= <-] _ _ _ Hk <-. rewrite numeral_decode_encode. by rewrite bool_decide_true.
  - intros [= <-]. by apply numeral_compact.
Qed.
