(* ===== verification/Token.v ===== *)
(** * Tokens of a service (pkg/token/token.go)

    The package configuration behind a [sync.Once], the matching of skipped
    paths, signing and parsing through the JWT library, and the extraction of
    the token from a request.  The theorems: a signed token authenticates its
    subject exactly while it is in its window, path matching never slices out
    of range and accepts whatever the pattern denotes, what it accepts beyond,
    and that only the first initialisation counts.

    The library golang-jwt is the class [JwtLib] of JwtLib.v; the gRPC middleware's
    [AuthFromMD] is a variable. *)

From S2P Require Import Prelude GoStr JwtLib.
From Stdlib Require Import Ascii.

Module Token.

Inductive error : Type :=
  | ErrMissingIdentityKey | ErrInvalidIdentityKey | ErrEmptyToken | ErrEmptyAuthHeader
  | ErrMalformedAuthHeader | ErrInvalidKey | ErrParse | ErrSign | ErrUnauthenticated.

(** ** Configuration *)

Record Config : Type := mkConfig {
  key : string;
  identityKey : string;
  expiration : Z;
  skipPaths : list string }.

(** The package variables [config] and [once]. *)
Record state : Type := mkState { config : Config; done_once : bool }.

Definition initial : state := mkState (mkConfig "" "" (2 * hour) []) false.

Definition WithKey (k : string) (c : Config) : Config :=
  if bool_decide (k = "") then c else mkConfig k (identityKey c) (expiration c) (skipPaths c).
Definition WithIdentityKey (i : string) (c : Config) : Config :=
  mkConfig (key c) i (expiration c) (skipPaths c).
Definition WithExpiration (e : Z) (c : Config) : Config :=
  if 0 <? e then mkConfig (key c) (identityKey c) e (skipPaths c) else c.
Definition WithSkipPaths (paths : list string) (c : Config) : Config :=
  mkConfig (key c) (identityKey c) (expiration c) (skipPaths c ++ paths).
Definition commonPaths : list string :=
  ["/health"; "/healthz"; "/health/*"; "/ready"; "/readiness"; "/live"; "/liveness"; "/metrics";
   "/prometheus"; "/status"; "/ping"; "/version"; "/info"; "/favicon.ico"; "/robots.txt"].
Definition WithCommonSkipPaths : Config -> Config := WithSkipPaths commonPaths.
Definition WithSkipPathsPattern (patterns : list string) : Config -> Config := WithSkipPaths patterns.

Definition Init (k : string) (opts : list (Config -> Config)) (s : state) : state :=
  if done_once s then s
  else mkState (foldl (fun c opt => opt c) (WithKey k (config s)) opts) true.

Definition Reset (s : state) : state :=
  mkState (mkConfig "Rtg8BPKNEf2mB4mgvKONGPZZQSaJWNLijxR42qRgq0iBb5" "identityKey" (2 * hour) []) false.

(** ** Paths *)

(** The loop over the middle parts; [s[n:]] panics when [n] exceeds the
    length. *)
Fixpoint match_parts (str : string) (currentPos : nat) (parts : list string) : result unit bool :=
  match parts with
  | [] => Ok true
  | part :: rest =>
      if bool_decide (part = "") then match_parts str currentPos rest
      else if (str_len str <? currentPos)%nat then Panic
      else match Index (str_drop currentPos str) part with
           | None => Ok false
           | Some index => match_parts str (currentPos + (index + str_len part)) rest
           end
  end.

Definition matchWildcard (str pattern : string) : result unit bool :=
  match Split pattern "*"%char with
  | [] => Panic
  | [_] => Ok (bool_decide (str = pattern))
  | first :: rest =>
      if negb (HasPrefix str first) then Ok false
      else if (0 <? str_len (List.last rest ""))%nat && negb (HasSuffix str (List.last rest "")) then Ok false
      else match_parts str (str_len first) (removelast rest)
  end.

Definition matchPath (requestPath pattern : string) : result unit bool :=
  if bool_decide (requestPath = pattern) then Ok true
  else if HasSuffix pattern "/*" then Ok (HasPrefix requestPath (TrimSuffix pattern "/*"))
  else if HasSuffix pattern "*" then Ok (HasPrefix requestPath (TrimSuffix pattern "*"))
  else if Contains pattern "*" then matchWildcard requestPath pattern
  else Ok false.

Fixpoint shouldSkipPath (requestPath : string) (paths : list string) : result unit bool :=
  match paths with
  | [] => Ok false
  | skipPath :: rest =>
      b ← matchPath requestPath skipPath; if (b : bool) then Ok true else shouldSkipPath requestPath rest
  end.

Definition IsPathSkipped (c : Config) (path : string) : result unit bool := shouldSkipPath path (skipPaths c).

(** ** Tokens *)

Section Tokens.
Context {L : JwtLib}.

Definition extractIdentity (c : Config) (claims : MapClaims) : result error string :=
  if bool_decide (identityKey c = "") then Ok ""
  else match claims !! identityKey c with
       | None => Err ErrMissingIdentityKey
       | Some (VStr identity) => if bool_decide (identity = "") then Err ErrInvalidIdentityKey else Ok identity
       | Some _ => Err ErrInvalidIdentityKey
       end.

(** The checks and the library call that [ParseIdentity], [Parse],
    [GetClaims] and [ParseWithKey] share. *)
Definition ParseWithKey (now : Z) (tokenString k : string) : result error MapClaims :=
  if bool_decide (tokenString = "") then Err ErrEmptyToken
  else if bool_decide (k = "") then Err ErrInvalidKey
  else match jwt_Parse now tokenString k with Some claims => Ok claims | None => Err ErrParse end.

Definition ParseIdentity (now : Z) (c : Config) (tokenString k : string) : result error string :=
  claims ← ParseWithKey now tokenString k; extractIdentity c claims.
Definition Parse (now : Z) (c : Config) (tokenString : string) : result error unit :=
  _ ← ParseWithKey now tokenString (key c); Ok tt.
Definition GetClaims (now : Z) (c : Config) (tokenString : string) : result error MapClaims :=
  ParseWithKey now tokenString (key c).

(** The token and its expiry time. *)
Definition sign_claims (c : Config) (claims : MapClaims) (expireAt : Z) : result error (string * Z) :=
  match SignedString (key c) claims with
  | Some tokenString => Ok (tokenString, expireAt)
  | None => Err ErrSign
  end.

Definition Sign (now : Z) (c : Config) (identityValue : string) : result error (string * Z) :=
  if bool_decide (key c = "") then Err ErrInvalidKey
  else
    let expireAt := now + expiration c in
    let claims : MapClaims :=
      <["exp" := VInt (unix expireAt)]> (<["iat" := VInt (unix now)]> (<["nbf" := VInt (unix now)]> ∅)) in
    let claims :=
      if negb (bool_decide (identityKey c = "")) && negb (bool_decide (identityValue = ""))
      then <[identityKey c := VStr identityValue]> claims else claims in
    sign_claims c claims expireAt.

(** [if _, exists := claims[k]; !exists { claims[k] = v }]. *)
Definition set_default (k : string) (v : claim) (claims : MapClaims) : MapClaims :=
  match claims !! k with Some _ => claims | None => <[k := v]> claims end.

Definition SignWithClaims (now : Z) (c : Config) (customClaims : MapClaims) : result error (string * Z) :=
  if bool_decide (key c = "") then Err ErrInvalidKey
  else
    let expireAt := now + expiration c in
    let claims := set_default "nbf" (VInt (unix now)) customClaims in
    let claims := set_default "iat" (VInt (unix now)) claims in
    let claims := set_default "exp" (VInt (unix expireAt)) claims in
    sign_claims c claims expireAt.

(** ** Requests *)

(** [fmt.Sscanf(header, "Bearer %s", &token)]: the literal, at least one
    space, then the token up to the next space. *)
Fixpoint take_token (s : string) : string :=
  match s with
  | String a s' => if is_space a then "" else String a (take_token s')
  | EmptyString => ""
  end.

Definition parseAuthorizationHeader (header : string) : result error string :=
  if HasPrefix header "Bearer" then
    match TrimPrefix header "Bearer" with
    | String a rest =>
        if is_space a then
          let token := take_token (trim_left_by is_space rest) in
          if bool_decide (token = "") then Err ErrMalformedAuthHeader else Ok token
        else Err ErrMalformedAuthHeader
    | EmptyString => Err ErrMalformedAuthHeader
    end
  else Err ErrMalformedAuthHeader.

(** A gin context has a path and an [Authorization] header (empty when
    missing); any other context is handed to the gRPC middleware. *)
Inductive context {Md : Type} : Type :=
  | Gin (path header : string)
  | Grpc (md : Md).
Arguments context : clear implicits.

Context {Md : Type} (AuthFromMD : Md -> option string).

Definition shouldSkipRequestPath (c : Config) (ctx : context Md) : result error bool :=
  match ctx with
  | Gin path _ => match shouldSkipPath path (skipPaths c) with Ok b => Ok b | _ => Panic end
  | Grpc _ => Ok false
  end.

Definition extractTokenFromGin (header : string) : result error string :=
  if bool_decide (header = "") then Err ErrEmptyAuthHeader else parseAuthorizationHeader header.
Definition extractTokenFromGRPC (md : Md) : result error string :=
  match AuthFromMD md with Some token => Ok token | None => Err ErrUnauthenticated end.
Definition extractTokenFromRequest (ctx : context Md) : result error string :=
  match ctx with
  | Gin _ header => extractTokenFromGin header
  | Grpc md => extractTokenFromGRPC md
  end.

Definition ParseRequestIgnoreSkip (now : Z) (c : Config) (ctx : context Md) : result error string :=
  token ← extractTokenFromRequest ctx; ParseIdentity now c token (key c).

Definition ParseRequest (now : Z) (c : Config) (ctx : context Md) : result error string :=
  skip ← shouldSkipRequestPath c ctx;
  if (skip : bool) then Ok "" else ParseRequestIgnoreSkip now c ctx.

End Tokens.

Definition GetConfig (s : state) : Config := config s.
Definition IsIdentityRequired (s : state) : bool := negb (bool_decide (identityKey (config s) = "")).
Definition GetExpiration (s : state) : Z := expiration (config s).
Definition GetSkipPaths (s : state) : list string := skipPaths (config s).

(** ** Path matching *)

(** The paths a pattern denotes: a star stands for any text. *)
Inductive Glob : string -> string -> Prop :=
  | Glob_nil : Glob "" ""
  | Glob_star u p v : Glob p v -> Glob (String "*"%char p) (u +:+ v)
  | Glob_char a p s : a <> "*"%char -> Glob p s -> Glob (String a p) (String a s).

(** The same on the parts between the stars. *)
Fixpoint GlobParts (parts : list string) (s : string) : Prop :=
  match parts with
  | [] => False
  | [q] => s = q
  | q :: qs => exists u v, s = q +:+ u +:+ v /\ GlobParts qs v
  end.

Lemma GlobParts_cons a q qs s : GlobParts (q :: qs) s -> GlobParts (String a q :: qs) (String a s).
Proof.
  destruct qs as [|q2 qs]; [by intros -> |]. intros (u & v & -> & H). exists u, v. by split.
Qed.

Lemma Glob_parts p s : Glob p s -> GlobParts (Split p "*"%char) s.
Proof.
  induction 1 as [|u p v _ IH|a p s Ha _ IH]; [done| |].
  - cbn [Split]. rewrite bool_decide_true by done.
    pose proof (Split_nonempty p "*"%char) as Hne. destruct (Split p "*"%char) as [|q qs]; [done|].
    exists u, v. by split.
  - cbn [Split]. rewrite bool_decide_false by done.
    destruct (Split p "*"%char) as [|q qs]; [done|]. by apply GlobParts_cons.
Qed.

Lemma Glob_plain p s : no_char "*"%char p -> Glob p s -> s = p.
Proof.
  intros Hp H. induction H as [|u p v _ _|a p s Ha _ IH]; [done| |].
  - by apply no_char_cons in Hp as [? _].
  - apply no_char_cons in Hp as [_ Hp]. by rewrite IH.
Qed.

Lemma drop_app_le n s t : (n <= str_len s)%nat -> str_drop n (s +:+ t) = str_drop n s +:+ t.
Proof.
  revert s. induction n as [|n IH]; intros [|a s] H; cbn in H; try lia; try done.
  rewrite app_cons_s. cbn. apply IH. lia.
Qed.

Lemma drop_all_l n s t : str_len s = n -> str_drop n (s +:+ t) = t.
Proof. intros <-. apply drop_app. Qed.

Lemma Index_end s p i : Index s p = Some i -> (i + str_len p <= str_len s)%nat.
Proof.
  intros H. apply Index_spec in H as (u & Hu & Hi). pose proof (str_len_drop i s) as Hl.
  rewrite Hu, str_len_app in Hl. lia.
Qed.

Lemma match_parts_total str parts : forall pos,
  (pos <= str_len str)%nat -> exists b, match_parts str pos parts = Ok b.
Proof.
  induction parts as [|part parts IH]; intros pos Hpos; [by exists true|]. cbn [match_parts].
  destruct (bool_decide (part = "")); [by apply IH|].
  replace (str_len str <? pos)%nat with false by lia.
  destruct (Index _ part) as [i|] eqn:Ei; [|by exists false]. apply IH.
  apply Index_end in Ei. rewrite str_len_drop in Ei. lia.
Qed.

(** The leftmost match of every part leaves room for the others. *)
Lemma match_parts_complete parts : forall t w pos,
  GlobParts parts w -> (pos <= str_len t)%nat -> match_parts (t +:+ w) pos (removelast parts) = Ok true.
Proof.
  induction parts as [|q [|q2 qs] IH]; intros t w pos Hg Hpos; [done|done|].
  destruct Hg as (u & v & -> & Hg). change (removelast (q :: q2 :: qs)) with (q :: removelast (q2 :: qs)).
  cbn [match_parts].
  assert (t +:+ q +:+ u +:+ v = (t +:+ q +:+ u) +:+ v) as E by (by rewrite !app_assoc_s).
  destruct (bool_decide (q = "")).
  - rewrite E. apply IH; [done|]. rewrite !str_len_app. lia.
  - replace (str_len (t +:+ q +:+ u +:+ v) <? pos)%nat with false by (rewrite !str_len_app; lia).
    rewrite drop_app_le by done.
    destruct (Index_first (str_drop pos t) q (u +:+ v)) as (i & -> & Hi). rewrite str_len_drop in Hi.
    rewrite E. apply IH; [done|]. rewrite !str_len_app. lia.
Qed.

Lemma GlobParts_last parts s : GlobParts parts s -> HasSuffix s (List.last parts "") = true.
Proof.
  revert s. induction parts as [|q [|q2 qs] IH]; intros s Hg; [done| |].
  - cbn in Hg |- *. subst s. apply HasSuffix_spec. by exists "".
  - destruct Hg as (u & v & -> & Hg). apply IH in Hg. apply HasSuffix_spec in Hg as [x ->].
    change (List.last (q :: q2 :: qs) "") with (List.last (q2 :: qs) "").
    apply HasSuffix_spec. exists (q +:+ u +:+ x). by rewrite !app_assoc_s.
Qed.

Lemma matchWildcard_complete p s : Glob p s -> matchWildcard s p = Ok true.
Proof.
  intros H. apply Glob_parts in H as Hg. unfold matchWildcard.
  destruct (Split p "*"%char) as [|first [|q qs]] eqn:E; [done| |].
  - cbn in Hg. subst first. pose proof (Join_Split p "*"%char) as Hj. rewrite E in Hj. cbn in Hj.
    by rewrite bool_decide_true.
  - destruct Hg as (u & v & -> & Hg). rewrite HasPrefix_app. cbn [negb].
    pose proof (GlobParts_last _ _ Hg) as Hs. apply HasSuffix_spec in Hs as [x Hx].
    replace (HasSuffix (first +:+ u +:+ v) (List.last (q :: qs) "")) with true.
    + cbn [negb]. rewrite andb_false_r. rewrite <- app_assoc_s. apply match_parts_complete; [done|].
      rewrite str_len_app. lia.
    + symmetry. apply HasSuffix_spec. rewrite Hx. exists (first +:+ u +:+ x). by rewrite !app_assoc_s.
Qed.

Lemma matchWildcard_total s p : exists b, matchWildcard s p = Ok b.
Proof.
  unfold matchWildcard. pose proof (Split_nonempty p "*"%char) as Hne.
  destruct (Split p "*"%char) as [|first [|q qs]]; [done|by eexists|].
  destruct (HasPrefix s first) eqn:Ep; [|by eexists]. cbn [negb].
  destruct (_ && _); [by eexists|]. apply match_parts_total.
  apply HasPrefix_spec in Ep as [t ->]. rewrite str_len_app. lia.
Qed.

Lemma Contains_star p : Contains p "*" = false -> no_char "*"%char p.
Proof.
  unfold Contains. induction p as [|a p IH]; [done|]. cbn [Index HasPrefix].
  destruct (bool_decide (a = "*"%char)) eqn:Ea; cbn [andb]; [by destruct p|].
  apply bool_decide_eq_false in Ea. intros H. apply no_char_cons. split; [done|]. apply IH.
  by destruct (Index p "*").
Qed.

Lemma Glob_trailing q s : no_char "*"%char q -> Glob (q +:+ "*") s -> HasPrefix s q = true.
Proof.
  revert s. induction q as [|a q IH]; intros s Hq H; [done|]. rewrite app_cons_s in H.
  apply no_char_cons in Hq as [Ha Hq]. inversion H; subst; [done|]. cbn.
  rewrite bool_decide_true by done. by apply IH.
Qed.

Lemma suffix_split p q : HasSuffix p q = true -> p = TrimSuffix p q +:+ q.
Proof. intros H. apply HasSuffix_spec in H as [t ->]. by rewrite TrimSuffix_app. Qed.

Lemma trim_star q : TrimSuffix (q +:+ "/*") "*" = q +:+ "/".
Proof. change (q +:+ "/*") with (q +:+ "/" +:+ "*"). by rewrite <- app_assoc_s, TrimSuffix_app. Qed.

(** ** Authorisation headers *)

Lemma trim_left_none f s :
  match s with String a _ => f a | EmptyString => false end = false -> trim_left_by f s = s.
Proof. destruct s as [|a s]; [done|]. cbn. by intros ->. Qed.

Lemma take_token_all s : forall_chars (fun c => negb (is_space c)) s = true -> take_token s = s.
Proof.
  induction s as [|a s IH]; [done|]. cbn. rewrite andb_true_iff, negb_true_iff.
  intros [-> Hs]. by rewrite IH.
Qed.

Lemma bearer_header tok :
  tok <> "" -> forall_chars (fun c => negb (is_space c)) tok = true ->
  parseAuthorizationHeader ("Bearer " +:+ tok) = Ok tok.
Proof.
  intros Hne Hs. unfold parseAuthorizationHeader.
  change ("Bearer " +:+ tok) with ("Bearer" +:+ String " "%char tok).
  rewrite HasPrefix_app, TrimPrefix_app. change (is_space " "%char) with true. cbv iota.
  assert (trim_left_by is_space tok = tok) as ->.
  { apply trim_left_none. destruct tok as [|a t]; [done|]. cbn in *. by destruct (is_space a). }
  rewrite take_token_all by done. by rewrite bool_decide_false.
Qed.

(** ** The properties *)

(** C9: a token signed for an identity, sent as a bearer token on a path that
    is not skipped, gives the identity back exactly while it is in its
    window of whole seconds, and an error outside; this needs an identity key
    that is none of the time claims. *)
Theorem signed_token_authenticates {L : JwtLib} (laws : JwtLaws L) {Md} (AuthFromMD : Md -> option string)
    (c : Config) (now now' : Z) (identity tok path : string) (expireAt : Z) :
  identityKey c ∉ ["" : string; "nbf"; "iat"; "exp"] -> identity <> "" ->
  shouldSkipPath path (skipPaths c) = Ok false ->
  Sign now c identity = Ok (tok, expireAt) ->
  expireAt = now + expiration c /\
  ParseRequest AuthFromMD now' c (Gin path ("Bearer " +:+ tok)) =
    if decide (unix now <= unix now' < unix expireAt) then Ok identity else Err ErrParse.
Proof.
  intros Hik Hid Hskip. rewrite !not_elem_of_cons in Hik. destruct Hik as (Hk0 & Hk1 & Hk2 & Hk3 & _).
  unfold Sign. destruct (bool_decide (key c = "")) eqn:Ek; [done|].
  rewrite !bool_decide_false by done. cbn [negb andb]. unfold sign_claims.
  set (claims := <[identityKey c := VStr identity]> _ : MapClaims).
  destruct (SignedString (key c) claims) as [t|] eqn:Es; [|done]. intros [= <- <-]. split; [done|].
  destruct (compact_token _ _ _ Es) as [Hne Hsp].
  unfold ParseRequest, shouldSkipRequestPath. rewrite Hskip. cbn [mbind result_bind].
  unfold ParseRequestIgnoreSkip, extractTokenFromRequest, extractTokenFromGin.
  rewrite bool_decide_false by done. rewrite bearer_header by done. cbn [mbind result_bind].
  unfold ParseIdentity, ParseWithKey. rewrite (bool_decide_false (t = "")) by done. rewrite Ek.
  rewrite (parse_signed _ claims t now' (unix now) (unix now) (unix (now + expiration c)) Es).
  - destruct (decide _) as [Hw|Hw]; destruct (decide _) as [Hw'|Hw']; try lia; [|done].
    cbn [mbind result_bind]. unfold extractIdentity. rewrite bool_decide_false by done.
    rewrite lookup_fmap. unfold claims. rewrite lookup_insert_eq. cbn. by rewrite bool_decide_false.
  - unfold claims. by rewrite lookup_insert_ne, !lookup_insert_ne, lookup_insert_eq by done.
  - unfold claims. by rewrite lookup_insert_ne, lookup_insert_ne, lookup_insert_eq by done.
  - unfold claims. by rewrite lookup_insert_ne, lookup_insert_eq by done.
Qed.

(** matching a path never slices out of range, and a path that a pattern
    denotes is matched when the pattern has no star but the last or does not
    end with one. *)
Theorem match_path_complete (path pattern : string) :
  (exists b, matchPath path pattern = Ok b) /\
  (Glob pattern path -> no_char "*"%char (TrimSuffix pattern "*") \/ HasSuffix pattern "*" = false ->
   matchPath path pattern = Ok true).
Proof.
  unfold matchPath. split.
  - destruct (bool_decide _); [by eexists|]. destruct (HasSuffix pattern "/*"); [by eexists|].
    destruct (HasSuffix pattern "*"); [by eexists|]. destruct (Contains pattern "*"); [|by eexists].
    apply matchWildcard_total.
  - intros Hg Hor. destruct (bool_decide (path = pattern)) eqn:Ee; [done|].
    destruct (HasSuffix pattern "*") eqn:Es.
    + destruct Hor as [Hq|?]; [|done]. apply suffix_split in Es. rewrite Es in Hg.
      pose proof (Glob_trailing _ _ Hq Hg) as Hp.
      destruct (HasSuffix pattern "/*") eqn:Es2; [|by rewrite Hp].
      apply suffix_split in Es2.
      assert (TrimSuffix pattern "*" = TrimSuffix pattern "/*" +:+ "/") as E.
      { rewrite Es2 at 1. apply trim_star. }
      rewrite E in Hp. apply HasPrefix_spec in Hp as [t ->]. by rewrite app_assoc_s, HasPrefix_app.
    + assert (HasSuffix pattern "/*" = false) as ->.
      { apply not_true_is_false. intros H%HasSuffix_spec. destruct H as [t Ht].
        assert (HasSuffix pattern "*" = true); [|congruence].
        apply HasSuffix_spec. exists (t +:+ "/"). by rewrite Ht, app_assoc_s. }
      destruct (Contains pattern "*") eqn:Ec; [by apply matchWildcard_complete|].
      apply Contains_star in Ec. apply (Glob_plain _ _ Ec) in Hg. by rewrite bool_decide_true in Ee.
Qed.

(** with the common skip paths every path that starts with [/health] is
    served without authentication, whatever follows: [/health/*] is matched
    without its slash. *)
Theorem common_paths_skip_every_health (c : Config) (suffix : string) :
  skipPaths c = [] ->
  IsPathSkipped (WithCommonSkipPaths c) ("/health" +:+ suffix) = Ok true.
Proof.
  intros Hc. unfold IsPathSkipped, WithCommonSkipPaths, WithSkipPaths. cbn [skipPaths]. rewrite Hc.
  assert (forall p, p ∈ ["/health"; "/healthz"] ->
    matchPath ("/health" +:+ suffix) p = Ok (bool_decide ("/health" +:+ suffix = p))) as Hp.
  { intros p Hin. unfold matchPath. rewrite !elem_of_cons in Hin.
    destruct Hin as [->|[->|Hin%not_elem_of_nil]]; [| |done]; by destruct (bool_decide _). }
  cbn [commonPaths app shouldSkipPath]. rewrite (Hp "/health") by left. rewrite (Hp "/healthz") by (right; left).
  cbn [mbind result_bind]. destruct (bool_decide (_ = "/health")); [done|].
  destruct (bool_decide (_ = "/healthz")); [done|].
  replace (matchPath ("/health" +:+ suffix) "/health/*") with (@Ok unit bool true); [done|].
  unfold matchPath. destruct (bool_decide _); [done|].
  change (HasSuffix "/health/*" "/*") with true. change (TrimSuffix "/health/*" "/*") with "/health".
  by rewrite HasPrefix_app.
Qed.

(** A pattern with a star in the middle and one at the end denotes paths that
    it does not match. *)
Example middle_and_trailing_star :
  Glob "/a/*/b/*" "/a/1/b/2" /\ matchPath "/a/1/b/2" "/a/*/b/*" = Ok false.
Proof.
  split; [|reflexivity].
  change "/a/1/b/2" with ("/a/" +:+ ("1" +:+ ("/b/" +:+ ("2" +:+ "")))).
  repeat first [apply Glob_nil | apply (Glob_star "1") | apply (Glob_star "2") | apply Glob_char; [done|]].
Qed.

(** After an initialisation every other one is without effect until [Reset],
    and an empty key keeps the one configured. *)
Lemma init_once (s : state) (inits : list (string * list (Config -> Config))) k opts :
  let s1 := Init k opts s in
  foldl (fun s i => Init (fst i) (snd i) s) s1 inits = s1 /\
  (done_once s = false -> opts = [] ->
   key (config s1) = if bool_decide (k = "") then key (config s) else k).
Proof.
  intros s1. split.
  - assert (done_once s1 = true) as Hd by (unfold s1, Init; by destruct (done_once s) eqn:E).
    induction inits as [|[k' o'] inits IH]; [done|]. cbn.
    assert (Init k' o' s1 = s1) as -> by (unfold Init; by rewrite Hd). exact IH.
  - intros Hd ->. unfold s1, Init. rewrite Hd. cbn. unfold WithKey. by destruct (bool_decide _).
Qed.

(** ** Witnesses *)

Definition sample : Config := mkConfig "secret" "sub" (2 * hour) ["/login"].

Lemma signed_token_authenticates_witness :
  exists tok, Sign (L := JwtLib.toy_lib) 0 sample "alice" = Ok (tok, 2 * hour) /\
  ParseRequest (L := JwtLib.toy_lib) (fun _ : unit => None) minute sample (Gin "/orders" ("Bearer " +:+ tok)) = Ok "alice" /\
  ParseRequest (L := JwtLib.toy_lib) (fun _ : unit => None) (2 * hour) sample (Gin "/orders" ("Bearer " +:+ tok)) = Err ErrParse.
Proof.
  eexists. split; [reflexivity|]. split.
  - refine (proj2 (signed_token_authenticates JwtLib.toy_laws (fun _ : unit => None) sample 0 minute "alice" _
      "/orders" (2 * hour) _ _ _ eq_refl)); [|done|reflexivity].
    rewrite !not_elem_of_cons. repeat split; done || apply not_elem_of_nil.
  - refine (proj2 (signed_token_authenticates JwtLib.toy_laws (fun _ : unit => None) sample 0 (2 * hour) "alice" _
      "/orders" (2 * hour) _ _ _ eq_refl)); [|done|reflexivity].
    rewrite !not_elem_of_cons. repeat split; done || apply not_elem_of_nil.
Defined.

Lemma match_path_complete_witness : matchPath "/api/v1/users" "/api/*/users" = Ok true.
Proof.
  apply (match_path_complete "/api/v1/users" "/api/*/users"); [|by right].
  change "/api/v1/users" with ("/api/" +:+ ("v1" +:+ ("/users" +:+ ""))).
  repeat first [apply Glob_nil | apply (Glob_star "v1") | apply Glob_char; [done|]].
Defined.

Lemma common_paths_skip_every_health_witness :
  IsPathSkipped (WithCommonSkipPaths (mkConfig "k" "sub" hour [])) "/healthadmin/delete" = Ok true.
Proof. apply (common_paths_skip_every_health (mkConfig "k" "sub" hour []) "admin/delete"). reflexivity. Defined.

End Token.
