(* ===== verification/TokenStore.v ===== *)
(** * Refresh-token stores (pkg/jwt/core/core.go, pkg/jwt/store)

    The interface [core.TokenStore] as a type class with the laws its comments
    promise, the in-memory store as an instance, and the factory.  The
    theorems: the store answers every history of timed operations by the last
    write, [Cleanup] removes and counts exactly the expired tokens, and the
    race between the two critical sections of [Get].

    A method of the store holds its mutex throughout, so it is one step;
    [Get] releases the read lock before it takes the write lock, so it is two
    (see [get_read] and [get_purge]).  The clock read by [time.Now] is an
    argument. *)

From S2P Require Import Prelude GoStr GoFloat.

(** ** The interface (core.go) *)

Inductive store_error : Type :=
  | ErrRefreshTokenNotFound
  | ErrRefreshTokenExpired
  | ErrEmptyToken
  | ErrNotInFuture
  | ErrBackend.

#[export] Instance store_error_eq_dec : EqDecision store_error.
Proof. solve_decision. Defined.

(** [None] is a nil error; every operation returns the store after it. *)
Class TokenStore (S U : Type) : Type := {
  Set_ : Z -> string -> U -> Z -> S -> option store_error * S;
  Get : Z -> string -> S -> result store_error U * S;
  Delete : string -> S -> option store_error * S;
  Cleanup : Z -> S -> result store_error Z * S;
  Count : S -> result store_error Z }.

(** The tokens a store holds, with their user data and expiry, and what the
    operations do to them.  A store may drop a token once it has expired. *)
Class TokenStoreLaws (S U : Type) `{TokenStore S U} : Type := {
  entries : S -> gmap string (U * Z);
  Set_entries now tok u e s r s' :
    Set_ now tok u e s = (r, s') ->
    match r with
    | None => tok <> "" /\ entries s' = <[tok := (u, e)]> (entries s)
    | Some _ => entries s' = entries s
    end;
  Get_ok now tok s u :
    fst (Get now tok s) = Ok u <->
    tok <> "" /\ exists e, entries s !! tok = Some (u, e) /\ now <= e;
  Get_no_panic now tok s : fst (Get now tok s) <> Panic;
  Get_entries now tok s :
    entries (snd (Get now tok s)) = entries s \/
    exists u e, entries s !! tok = Some (u, e) /\ e < now /\
      entries (snd (Get now tok s)) = delete tok (entries s);
  Delete_entries tok s r s' :
    tok <> "" -> Delete tok s = (r, s') ->
    entries s' = match r with None => delete tok (entries s) | Some _ => entries s end;
  Delete_not_found tok s :
    fst (Delete tok s) = Some ErrRefreshTokenNotFound -> entries s !! tok = None }.

(** [RefreshTokenData] and [Token]. *)
Record RefreshTokenData (U : Type) : Type := mkData { UserData : U; Expiry : Z; Created : Z }.
Arguments mkData {U}.
Arguments UserData {U}.
Arguments Expiry {U}.
Arguments Created {U}.

Definition IsExpired {U} (now : Z) (r : RefreshTokenData U) : bool := Expiry r <? now.

Record TokenPair : Type := mkToken {
  AccessToken : string; TokenType : string; RefreshToken : string; ExpiresAt : Z; CreatedAt : Z }.

Definition ExpiresIn (now : Z) (t : TokenPair) : Z := wrap64 (ExpiresAt t - unix now).

(** ** The in-memory store (memory.go) *)

Module Memory.
Section Memory.
Context {U : Type}.
Abbreviation store := (gmap string (RefreshTokenData U)).

Definition NewInMemoryRefreshTokenStore : store := ∅.

Definition Set' (now : Z) (token : string) (userData : U) (expiry : Z) (s : store)
    : option store_error * store :=
  if bool_decide (token = "") then (Some ErrEmptyToken, s)
  else (None, <[token := mkData userData expiry now]> s).

(** The first critical section of [Get]: what it read. *)
Definition get_read (token : string) (s : store) : option (RefreshTokenData U) := s !! token.
(** The second one, entered when the data read has expired. *)
Definition get_purge (token : string) (s : store) : store := delete token s.

Definition Get' (now : Z) (token : string) (s : store) : result store_error U * store :=
  if bool_decide (token = "") then (Err ErrRefreshTokenNotFound, s)
  else match get_read token s with
       | None => (Err ErrRefreshTokenNotFound, s)
       | Some data =>
           if IsExpired now data then (Err ErrRefreshTokenExpired, get_purge token s)
           else (Ok (UserData data), s)
       end.

Definition Delete' (token : string) (s : store) : option store_error * store :=
  if bool_decide (token = "") then (None, s) else (None, delete token s).

(** One round of the loop over the map. *)
Definition cleanup_step (now : Z) (st : store * Z) (kv : string * RefreshTokenData U) : store * Z :=
  if IsExpired now (snd kv) then (delete (fst kv) (fst st), snd st + 1) else st.
Definition Cleanup' (now : Z) (s : store) : result store_error Z * store :=
  let '(s', cleaned) := foldl (cleanup_step now) (s, 0) (map_to_list s) in (Ok cleaned, s').

Definition Count' (s : store) : result store_error Z := Ok (Z.of_nat (size s)).

Definition GetAll (now : Z) (s : store) : store :=
  foldl (fun r kv => if IsExpired now (snd kv) then r
                     else <[fst kv := mkData (UserData (snd kv)) (Expiry (snd kv)) (Created (snd kv))]> r)
    ∅ (map_to_list s).

Definition Clear (s : store) : store := ∅.

#[export] Instance memory_store : TokenStore store U := {
  Set_ := Set'; Get := Get'; Delete := Delete'; Cleanup := Cleanup'; Count := Count' }.

(** ** The laws *)

Lemma get_ok now token s u :
  fst (Get' now token s) = Ok u <->
  token <> "" /\ exists d, s !! token = Some d /\ UserData d = u /\ now <= Expiry d.
Proof.
  unfold Get', get_read, IsExpired. destruct (decide (token = "")) as [->|Hne].
  - rewrite bool_decide_true by done. naive_solver.
  - rewrite bool_decide_false by done. destruct (s !! token) as [d|]; [|naive_solver].
    destruct (Expiry d <? now) eqn:E; cbn; split.
    + done.
    + intros (_ & d' & [= <-] & _ & ?). lia.
    + intros [= <-]. split; [done|]. exists d. repeat split. lia.
    + by intros (_ & d' & [= <-] & <- & _).
Qed.

#[export] Program Instance memory_laws : TokenStoreLaws store U := {
  entries s := (fun d => (UserData d, Expiry d)) <$> s }.
Next Obligation.
  cbn. intros now tok u e s r s'. unfold Set'. case_bool_decide as E; intros [= <- <-]; [done|].
  split; [done|]. by rewrite fmap_insert.
Qed.
Next Obligation.
  cbn. intros now tok s u. rewrite get_ok. setoid_rewrite lookup_fmap. split.
  - intros (Hne & d & Hd & <- & He). split; [done|]. exists (Expiry d). by rewrite Hd.
  - intros (Hne & e & Hd & He). split; [done|]. destruct (s !! tok) as [d|]; [|done].
    injection Hd as <- <-. by exists d.
Qed.
Next Obligation.
  cbn. intros now tok s. unfold Get'. destruct (bool_decide _); [done|].
  destruct (get_read tok s) as [d|]; [|done]. by destruct (IsExpired now d).
Qed.
Next Obligation.
  cbn. intros now tok s. unfold Get', get_read, get_purge, IsExpired. destruct (bool_decide _); [by left|].
  destruct (s !! tok) as [d|] eqn:Ed; [|by left]. destruct (Expiry d <? now) eqn:E; [right|by left].
  exists (UserData d), (Expiry d). rewrite lookup_fmap, Ed. split; [done|]. split; [lia|].
  cbn. by rewrite fmap_delete.
Qed.
Next Obligation.
  cbn. intros tok s r s' Hne. unfold Delete'. rewrite bool_decide_false by done.
  intros [= <- <-]. by rewrite fmap_delete.
Qed.
Next Obligation. cbn. intros tok s. unfold Delete'. by destruct (bool_decide _). Qed.

(** ** Histories *)

Inductive event : Type :=
  | ESet (token : string) (userData : U) (expiry : Z)
  | EGet (token : string)
  | EDelete (token : string)
  | ECleanup
  | EClear.

Definition step (s : store) (ev : Z * event) : store :=
  match snd ev with
  | ESet token u e => snd (Set' (fst ev) token u e s)
  | EGet token => snd (Get' (fst ev) token s)
  | EDelete token => snd (Delete' token s)
  | ECleanup => snd (Cleanup' (fst ev) s)
  | EClear => Clear s
  end.
Definition run : store -> list (Z * event) -> store := foldl step.

(** The last write to [token]. *)
Definition write (token : string) (w : option (U * Z)) (ev : Z * event) : option (U * Z) :=
  match snd ev with
  | ESet t u e => if bool_decide (t = token /\ t <> "") then Some (u, e) else w
  | EDelete t => if bool_decide (t = token /\ t <> "") then None else w
  | EClear => None
  | _ => w
  end.
Definition last_write (token : string) : list (Z * event) -> option (U * Z) := foldl (write token) None.

(** ** Cleanup *)

Definition live (now : Z) (d : RefreshTokenData U) : Prop := now <= Expiry d.

Lemma cleanup_fold now l : forall (s : store) n,
  NoDup l.*1 -> (forall k d, (k, d) ∈ l -> s !! k = Some d) ->
  let '(s', n') := foldl (cleanup_step now) (s, n) l in
  n' - n = Z.of_nat (size s) - Z.of_nat (size s') /\
  forall k, s' !! k = match s !! k with
                      | Some d => if decide (k ∈ l.*1 /\ IsExpired now d = true) then None else Some d
                      | None => None
                      end.
Proof.
  induction l as [|[k d] l IH]; intros s n Hnd Hl.
  - cbn. split; [lia|]. intros k. destruct (s !! k); [|done].
    rewrite decide_False; [done|]. intros [H _]. by apply not_elem_of_nil in H.
  - cbn [fmap list_fmap fst] in Hnd. apply NoDup_cons in Hnd as [Hk Hnd]. cbn [foldl].
    unfold cleanup_step at 2. cbn [fst snd].
    destruct (IsExpired now d) eqn:Ed.
    + assert (s !! k = Some d) as Hs by (apply Hl; left).
      specialize (IH (delete k s) (n + 1) Hnd). destruct (foldl _ _ l) as [s' n'].
      destruct IH as [Hn Hlk].
      { intros k' d' Hin. rewrite lookup_delete_ne; [apply Hl; by right|]. intros ->.
        apply Hk. apply list_elem_of_fmap. by exists (k', d'). }
      split.
      * rewrite map_size_delete, Hs in Hn. 
        assert (size s <> 0%nat) as Hne. { intros E. apply map_size_empty_iff in E. subst s. done. }
        lia.
      * intros k'. rewrite Hlk. destruct (decide (k = k')) as [<-|Hne].
        -- rewrite lookup_delete_eq, Hs. rewrite decide_True; [done|]. split; [left|done].
        -- rewrite lookup_delete_ne by done. destruct (s !! k') as [d'|]; [|done].
           cbn [fmap list_fmap fst]. destruct (decide _) as [[Hi He]|Hno].
           ++ rewrite decide_True; [done|]. split; [by right|done].
           ++ rewrite decide_False; [done|]. rewrite elem_of_cons. naive_solver.
    + specialize (IH s n Hnd ltac:(intros; apply Hl; by right)). destruct (foldl _ _ l) as [s' n'].
      destruct IH as [Hn Hlk]. split; [done|]. intros k'. rewrite Hlk.
      destruct (s !! k') as [d'|] eqn:Ek'; [|done]. cbn [fmap list_fmap fst].
      destruct (decide _) as [[Hi He]|Hno].
      * rewrite decide_True; [done|]. split; [by right|done].
      * rewrite decide_False; [done|]. rewrite elem_of_cons. intros [[->|Hi] He]; [|naive_solver].
        rewrite (Hl k d) in Ek' by left. congruence.
Qed.

Lemma cleanup_spec now s :
  exists s', Cleanup' now s = (Ok (Z.of_nat (size s) - Z.of_nat (size s')), s') /\
  forall k, s' !! k = match s !! k with
                      | Some d => if IsExpired now d then None else Some d
                      | None => None
                      end.
Proof.
  unfold Cleanup'. pose proof (cleanup_fold now (map_to_list s) s 0 (NoDup_fst_map_to_list s)) as H.
  destruct (foldl _ _ _) as [s' n'] eqn:E. destruct H as [Hn Hl].
  { intros k d. by rewrite elem_of_map_to_list. }
  exists s'. split; [do 2 f_equal; lia|]. intros k. rewrite Hl. destruct (s !! k) as [d|] eqn:Ek; [|done].
  destruct (IsExpired now d) eqn:Ed.
  - rewrite decide_True; [done|]. split; [|done]. apply list_elem_of_fmap. exists (k, d).
    split; [done|]. by apply elem_of_map_to_list.
  - rewrite decide_False; [done|]. by intros [_ ?].
Qed.

(** ** The answers of the store *)

(** [s] holds the last writes [lw], except for tokens that expired before
    [t] and were dropped. *)
Definition holds (t : Z) (s : store) (lw : string -> option (U * Z)) : Prop :=
  forall token, (fun d => (UserData d, Expiry d)) <$> s !! token = lw token \/
    (s !! token = None /\ exists u e, lw token = Some (u, e) /\ e < t).

Lemma holds_later t t' s lw : t <= t' -> holds t s lw -> holds t' s lw.
Proof.
  intros Hle H token. destruct (H token) as [?|(Hs & u & e & Hl & He)]; [by left|right].
  split; [done|]. exists u, e. split; [done|lia].
Qed.

(** A store that only lost expired tokens still holds the writes. *)
Lemma holds_dropped t (s s' : store) lw :
  (forall k, s' !! k = s !! k \/ (s' !! k = None /\ exists d, s !! k = Some d /\ IsExpired t d = true)) ->
  holds t s lw -> holds t s' lw.
Proof.
  intros Hd H token. destruct (Hd token) as [E|(Hn & d & Hs & He)]; [rewrite E; apply H|].
  destruct (H token) as [Hl|(Hs' & _)]; [|congruence]. right. split; [done|].
  rewrite Hs in Hl. exists (UserData d), (Expiry d). split; [done|]. unfold IsExpired in He. lia.
Qed.

Lemma step_holds t s lw ev :
  holds t s lw -> t <= fst ev -> holds (fst ev) (step s ev) (fun token => write token (lw token) ev).
Proof.
  intros H Ht. apply (holds_later _ _ _ _ Ht) in H. destruct ev as [now ev]. cbn [fst] in *.
  unfold step, write. cbn [fst snd]. destruct ev as [tok u e|tok|tok| |].
  - unfold Set'. intros token. destruct (bool_decide (tok = "")) eqn:E0; cbn [snd].
    + apply bool_decide_eq_true in E0. rewrite bool_decide_false by naive_solver. apply H.
    + apply bool_decide_eq_false in E0. destruct (decide (tok = token)) as [<-|Hne].
      * rewrite lookup_insert_eq, bool_decide_true by done. by left.
      * rewrite lookup_insert_ne by done. rewrite bool_decide_false by naive_solver. apply H.
  - apply (holds_dropped now s); [|done]. intros k. unfold Get', get_read, get_purge.
    destruct (bool_decide _); [by left|]. destruct (s !! tok) as [d|] eqn:Ed; [|by left].
    destruct (IsExpired now d) eqn:Ex; [|by left]. cbn [snd].
    destruct (decide (tok = k)) as [<-|Hne]; [right|left; by rewrite lookup_delete_ne].
    rewrite lookup_delete_eq. split; [done|]. by exists d.
  - unfold Delete'. intros token. destruct (bool_decide (tok = "")) eqn:E0; cbn [snd].
    + apply bool_decide_eq_true in E0. rewrite bool_decide_false by naive_solver. apply H.
    + apply bool_decide_eq_false in E0. destruct (decide (tok = token)) as [<-|Hne].
      * rewrite lookup_delete_eq, bool_decide_true by done. by left.
      * rewrite lookup_delete_ne by done. rewrite bool_decide_false by naive_solver. apply H.
  - apply (holds_dropped now s); [|done]. intros k. destruct (cleanup_spec now s) as (s' & -> & Hl).
    cbn [snd]. rewrite Hl. destruct (s !! k) as [d|]; [|by left].
    destruct (IsExpired now d) eqn:Ex; [right|by left]. split; [done|]. by exists d.
  - intros token. left. unfold Clear. by rewrite lookup_empty.
Qed.

(** The times of a history never go back, from [t] to [now]. *)
Fixpoint times_from (t : Z) (h : list (Z * event)) (now : Z) : Prop :=
  match h with
  | [] => t <= now
  | ev :: h' => t <= fst ev /\ times_from (fst ev) h' now
  end.

Lemma run_holds h : forall t s lw now,
  holds t s lw -> times_from t h now ->
  holds now (run s h) (fun token => foldl (write token) (lw token) h).
Proof.
  induction h as [|ev h IH]; intros t s lw now H Ht; [by apply (holds_later t)|].
  destruct Ht as [Ht Hts]. cbn. by apply (IH (fst ev)); [apply (step_holds t)|].
Qed.
End Memory.
Arguments event : clear implicits.

(** C10: after any history of operations in time order on a fresh store, [Get]
    answers with the user data of the last write to the token exactly when
    that write was a [Set] whose expiry has not passed, whatever was purged or
    cleaned up in between; it never panics. *)
Theorem memory_store_history {U} (h : list (Z * event U)) (t now : Z) (token : string) :
  times_from t h now -> token <> "" ->
  is_panic (fst (Get' now token (run NewInMemoryRefreshTokenStore h))) = false /\
  forall u, fst (Get' now token (run NewInMemoryRefreshTokenStore h)) = Ok u <->
    exists e, last_write token h = Some (u, e) /\ now <= e.
Proof.
  intros Ht Hne. split.
  - unfold Get'. destruct (bool_decide _); [done|]. destruct (get_read _ _) as [d|]; [|done].
    by destruct (IsExpired now d).
  - intros u. rewrite get_ok.
    assert (holds t (NewInMemoryRefreshTokenStore (U := U)) (fun _ => None)) as H0.
    { intros tok. left. unfold NewInMemoryRefreshTokenStore. by rewrite lookup_empty. }
    destruct (run_holds h t _ _ now H0 Ht token) as [E|(Hn & u' & e & E & He)]; unfold last_write.
    + rewrite <- E. split.
      * intros (_ & d & -> & <- & He). exists (Expiry d). by split.
      * intros (e & Hd & He). split; [done|]. destruct (_ !! token) as [d|]; [|done].
        injection Hd as <- <-. by exists d.
    + rewrite E, Hn. split; [naive_solver|]. intros (e' & [= <- <-] & He'). lia.
Qed.

(** [Cleanup] removes exactly the expired tokens and returns how many it
    removed. *)
Theorem memory_cleanup_exact {U} (now : Z) (s s' : gmap string (RefreshTokenData U)) r :
  Cleanup' now s = (r, s') ->
  r = Ok (Z.of_nat (size s) - Z.of_nat (size s')) /\
  forall token d, s' !! token = Some d <-> s !! token = Some d /\ now <= Expiry d.
Proof.
  intros H. destruct (cleanup_spec now s) as (s1 & E & Hl). rewrite E in H. injection H as <- <-.
  split; [done|]. intros token d. rewrite Hl. unfold IsExpired. destruct (s !! token) as [d'|]; [|naive_solver].
  destruct (Expiry d' <? now) eqn:Ex.
  - split; [done|]. intros [[= ->] ?]. lia.
  - split; [intros [= ->]; split; [done|lia]|naive_solver].
Qed.

(** Between its two critical sections [Get] can be overtaken by a [Set] of
    the same token: the purge then deletes the token just stored. *)
Lemma purge_deletes_fresh_token {U} (now now' : Z) token (u : U) e (s : gmap string (RefreshTokenData U)) d :
  get_read token s = Some d -> IsExpired now d = true ->
  let s1 := snd (Set' now token u e s) in
  fst (Get' now' token (get_purge token s1)) = Err ErrRefreshTokenNotFound.
Proof.
  intros _ _ s1. unfold Get', get_read, get_purge. rewrite lookup_delete_eq. by destruct (bool_decide _).
Qed.

Lemma memory_store_history_witness :
  fst (Get' 5 "t" (run NewInMemoryRefreshTokenStore
    [(0, ESet "t" true 3); (4, EGet "t"); (4, ESet "t" false 9); (5, ECleanup)])) = Ok false.
Proof.
  apply (memory_store_history [(0, ESet "t" true 3); (4, EGet "t"); (4, ESet "t" false 9); (5, ECleanup)] 0 5 "t").
  - cbn. lia.
  - done.
  - exists 9. split; [reflexivity|lia].
Defined.

Lemma memory_cleanup_exact_witness :
  let s : gmap string (RefreshTokenData unit) := <["a" := mkData tt 3 0]> (<["b" := mkData tt 7 0]> ∅) in
  fst (Cleanup' 5 s) = Ok (Z.of_nat (size s) - Z.of_nat (size (snd (Cleanup' 5 s)))) /\
  snd (Cleanup' 5 s) !! "b" = Some (mkData tt 7 0).
Proof.
  intros s. destruct (memory_cleanup_exact 5 s (snd (Cleanup' 5 s)) (fst (Cleanup' 5 s))) as [Hr Hl].
  - by destruct (Cleanup' 5 s).
  - split; [exact Hr|]. apply Hl. split; [reflexivity|cbn; lia].
Defined.

End Memory.

(** ** The Redis store (redis.go), its options (pkg/jwt/jwt_redis.go) and the factory (factory.go) *)

(** What the store uses of the client github.com/redis/rueidis: each command
    at a time, on the server state it returns; [None] is a command error. *)
Inductive reply : Type := RNil | RErr | RVal (s : string).

Class RedisClient (R : Type) : Type := {
  redis_ping : R -> bool;
  redis_setex : Z -> string -> Z -> string -> R -> bool * R;
  redis_get : Z -> string -> R -> reply;
  (** [DoCache], with the client-side time to live. *)
  redis_get_cached : Z -> Z -> string -> R -> reply;
  redis_del : string -> R -> bool * R;
  (** Keys and the next cursor. *)
  redis_scan : Z -> string -> R -> option (list string * Z);
  redis_flushdb : R -> bool * R }.

(** The documented behaviour the round trip needs: SETEX refuses a time to
    live that is not positive, and a key that was set is read back until its
    time to live has passed, also through the client-side cache, which the
    server invalidates. *)
Class RedisLaws (R : Type) `{RedisClient R} : Prop := {
  setex_positive now k secs v r : fst (redis_setex now k secs v r) = true -> 0 < secs;
  setex_get_cached now k secs v r now' ttl :
    fst (redis_setex now k secs v r) = true -> now <= now' ->
    redis_get_cached now' ttl k (snd (redis_setex now k secs v r)) =
      if decide (now' < now + secs * second) then RVal v else RNil }.

Module Redis.

(** [TLSConfig] is a pointer: nil or the name of a configuration. *)
Record RedisConfig : Type := mkRedisConfig {
  Addr : string;
  Password : string;
  DB : Z;
  TLSConfig : option string;
  CacheSize : Z;
  CacheTTL : Z;
  PoolSize : Z;
  ConnMaxIdleTime : Z;
  ConnMaxLifetime : Z;
  KeyPrefix : string }.

Definition DefaultRedisConfig : RedisConfig :=
  mkRedisConfig "localhost:6379" "" 0 None (128 * 1024 * 1024) minute 10 (30 * minute) hour "milady-jwt:".

Definition WithRedisAddr (addr : string) (c : RedisConfig) : RedisConfig :=
  mkRedisConfig addr (Password c) (DB c) (TLSConfig c) (CacheSize c) (CacheTTL c) (PoolSize c)
    (ConnMaxIdleTime c) (ConnMaxLifetime c) (KeyPrefix c).
Definition WithRedisAuth (password : string) (db : Z) (c : RedisConfig) : RedisConfig :=
  mkRedisConfig (Addr c) password db (TLSConfig c) (CacheSize c) (CacheTTL c) (PoolSize c)
    (ConnMaxIdleTime c) (ConnMaxLifetime c) (KeyPrefix c).
Definition WithRedisCache (size ttl : Z) (c : RedisConfig) : RedisConfig :=
  mkRedisConfig (Addr c) (Password c) (DB c) (TLSConfig c) size ttl (PoolSize c)
    (ConnMaxIdleTime c) (ConnMaxLifetime c) (KeyPrefix c).
Definition WithRedisPool (poolSize maxIdle maxLife : Z) (c : RedisConfig) : RedisConfig :=
  mkRedisConfig (Addr c) (Password c) (DB c) (TLSConfig c) (CacheSize c) (CacheTTL c) poolSize
    maxIdle maxLife (KeyPrefix c).
Definition WithRedisKeyPrefix (prefix : string) (c : RedisConfig) : RedisConfig :=
  mkRedisConfig (Addr c) (Password c) (DB c) (TLSConfig c) (CacheSize c) (CacheTTL c) (PoolSize c)
    (ConnMaxIdleTime c) (ConnMaxLifetime c) prefix.
Definition WithRedisTLS (tls : string) (c : RedisConfig) : RedisConfig :=
  mkRedisConfig (Addr c) (Password c) (DB c) (Some tls) (CacheSize c) (CacheTTL c) (PoolSize c)
    (ConnMaxIdleTime c) (ConnMaxLifetime c) (KeyPrefix c).

Section Redis.
Context {R U : Type} `{RedisClient R} `{Platform}.
(** [json.Marshal] and [json.Unmarshal] of [RefreshTokenData]. *)
Context (marshal : RefreshTokenData U -> option string) (unmarshal : string -> option (RefreshTokenData U)).

(** The store: the client is the server state, passed along. *)
Record RedisRefreshTokenStore : Type := mkStore { prefix : string; cacheTTL : Z }.

(** [connect] is [rueidis.NewClient]. *)
Definition NewRedisRefreshTokenStore (connect : RedisConfig -> option R) (config : option RedisConfig)
    : result store_error (RedisRefreshTokenStore * R) :=
  let config := default DefaultRedisConfig config in
  match connect config with
  | None => Err ErrBackend
  | Some client =>
      if redis_ping client then Ok (mkStore (KeyPrefix config) (CacheTTL config), client) else Err ErrBackend
  end.

Definition buildKey (s : RedisRefreshTokenStore) (token : string) : string := prefix s +:+ token.

(** [int64(ttl.Seconds())], through float64. *)
Definition ttl_seconds (ttl : Z) : Z :=
  int64_of_float (fadd (f_of_Z (Z.quot ttl second)) (fdiv (f_of_Z (Z.rem ttl second)) (f_of_Z 1000000000))).

Definition Set_redis (now : Z) (s : RedisRefreshTokenStore) (token : string) (userData : U) (expiry : Z)
    (r : R) : option store_error * R :=
  if bool_decide (token = "") then (Some ErrEmptyToken, r)
  else match marshal (mkData userData expiry now) with
       | None => (Some ErrBackend, r)
       | Some data =>
           let ttl := saturate64 (expiry - now) in
           if ttl <=? 0 then (Some ErrNotInFuture, r)
           else
             let '(ok, r') := redis_setex now (buildKey s token) (ttl_seconds ttl) data r in
             (if ok then None else Some ErrBackend, r')
       end.

(** The answer, and the key that a goroutine deletes later. *)
Definition Get_redis (now : Z) (s : RedisRefreshTokenStore) (token : string) (r : R)
    : result store_error U * option string :=
  if bool_decide (token = "") then (Err ErrRefreshTokenNotFound, None)
  else
    let key := buildKey s token in
    match redis_get_cached now (cacheTTL s) key r with
    | RNil => (Err ErrRefreshTokenNotFound, None)
    | RErr => (Err ErrBackend, None)
    | RVal data =>
        match unmarshal data with
        | None => (Err ErrBackend, None)
        | Some tokenData =>
            if IsExpired now tokenData then (Err ErrRefreshTokenExpired, Some key)
            else (Ok (UserData tokenData), None)
        end
    end.

Definition Delete_redis (s : RedisRefreshTokenStore) (token : string) (r : R) : option store_error * R :=
  if bool_decide (token = "") then (None, r)
  else let '(ok, r') := redis_del (buildKey s token) r in (if ok then None else Some ErrBackend, r').

(** One key of a scan batch. *)
Definition cleanup_key (now : Z) (st : R * Z) (key : string) : R * Z :=
  match redis_get now key (fst st) with
  | RVal data =>
      match unmarshal data with
      | Some tokenData =>
          if IsExpired now tokenData then
            let '(ok, r') := redis_del key (fst st) in (r', if ok then snd st + 1 else snd st)
          else st
      | None => st
      end
  | _ => st
  end.

(** The loop over the cursor; the fuel bounds the number of batches. *)
Fixpoint cleanup_scan (fuel : nat) (now : Z) (s : RedisRefreshTokenStore) (cursor : Z) (st : R * Z)
    : result store_error (R * Z) :=
  match fuel with
  | O => Err ErrBackend
  | S fuel' =>
      match redis_scan cursor (buildKey s "*") (fst st) with
      | None => Err ErrBackend
      | Some (keys, cursor') =>
          let st' := foldl (cleanup_key now) st keys in
          if cursor' =? 0 then Ok st' else cleanup_scan fuel' now s cursor' st'
      end
  end.
Definition Cleanup_redis (fuel : nat) (now : Z) (s : RedisRefreshTokenStore) (r : R) := cleanup_scan fuel now s 0 (r, 0).

Fixpoint count_scan (fuel : nat) (s : RedisRefreshTokenStore) (cursor count : Z) (r : R) : result store_error Z :=
  match fuel with
  | O => Err ErrBackend
  | S fuel' =>
      match redis_scan cursor (buildKey s "*") r with
      | None => Err ErrBackend
      | Some (keys, cursor') =>
          let count := count + Z.of_nat (length keys) in
          if cursor' =? 0 then Ok count else count_scan fuel' s cursor' count r
      end
  end.
Definition Count_redis (fuel : nat) (s : RedisRefreshTokenStore) (r : R) := count_scan fuel s 0 0 r.

Definition Ping (r : R) : bool := redis_ping r.
Definition FlushDB (r : R) : bool * R := redis_flushdb r.

(** ** Factory *)

(** A [StoreType] is a string. *)
Record Config : Type := mkConfig { Type_ : string; RedisCfg : option RedisConfig }.
Definition DefaultConfig : Config := mkConfig "memory" None.
Definition NewMemoryConfig : Config := mkConfig "memory" None.
Definition NewRedisConfig (redisConfig : option RedisConfig) : Config :=
  mkConfig "redis" (Some (default DefaultRedisConfig redisConfig)).

Inductive created : Type :=
  | CreatedMemory
  | CreatedRedis (s : RedisRefreshTokenStore) (r : R).

Definition CreateStore (connect : RedisConfig -> option R) (config : option Config)
    : result store_error created :=
  let config := default DefaultConfig config in
  if bool_decide (Type_ config = "memory") then Ok CreatedMemory
  else if bool_decide (Type_ config = "redis") then
    '(s, r) ← NewRedisRefreshTokenStore connect (Some (default DefaultRedisConfig (RedisCfg config)));
    Ok (CreatedRedis s r)
  else Err ErrBackend.

Definition NewStore := CreateStore.
Definition MustNewStore (connect : RedisConfig -> option R) (config : option Config) : result store_error created :=
  match NewStore connect config with Ok s => Ok s | _ => Panic end.
Definition NewMemoryStore : created := CreatedMemory.
Definition NewRedisStore (connect : RedisConfig -> option R) (config : option RedisConfig)
    : result store_error (RedisRefreshTokenStore * R) := NewRedisRefreshTokenStore connect config.

(** a token can be stored only with at least one whole second to live;
    [Get] then reads its user data back exactly while neither the whole
    seconds of its time to live nor its expiry have passed. *)
Theorem redis_set_get {L : RedisLaws R} (s : RedisRefreshTokenStore) token u now now' expiry (r : R) :
  (forall d data, marshal d = Some data -> unmarshal data = Some d) ->
  fst (Set_redis now s token u expiry r) = None -> now <= now' ->
  0 < ttl_seconds (saturate64 (expiry - now)) /\
  fst (Get_redis now' s token (snd (Set_redis now s token u expiry r))) =
    if decide (now' < now + ttl_seconds (saturate64 (expiry - now)) * second) then
      if expiry <? now' then Err ErrRefreshTokenExpired else Ok u
    else Err ErrRefreshTokenNotFound.
Proof.
  intros Hjson. unfold Set_redis, Get_redis.
  destruct (bool_decide (token = "")) eqn:E0; [done|].
  destruct (marshal (mkData u expiry now)) as [data|] eqn:Em; [|done].
  destruct (saturate64 (expiry - now) <=? 0) eqn:Et; [done|].
  set (secs := ttl_seconds _).
  pose proof (setex_get_cached now (buildKey s token) secs data r now' (cacheTTL s)) as Hg.
  pose proof (setex_positive now (buildKey s token) secs data r) as Hp.
  destruct (redis_setex now (buildKey s token) secs data r) as [ok r'].
  cbn [fst snd] in *. destruct ok; [|done]. intros _ Hle. split; [by apply Hp|].
  rewrite Hg by done. destruct (decide _) as [Hlt|Hge]; [|done].
  rewrite (Hjson _ _ Em). unfold IsExpired. cbn [Expiry UserData].
  by destruct (expiry <? now').
Qed.
End Redis.

(** A token with 999 milliseconds to live is sent with a time to live of 0. *)
Example sub_second_ttl `{Platform} : ttl_seconds (999 * millisecond) = 0 /\ ttl_seconds (1999 * millisecond) = 1.
Proof. split; vm_compute; reflexivity. Qed.

(** ** A client that satisfies the laws: one server map of values and deadlines *)

Abbreviation toy_server := (gmap string (string * Z)).

#[local] Instance toy_client : RedisClient toy_server := {
  redis_ping _ := true;
  redis_setex now k secs v r := if 0 <? secs then (true, <[k := (v, now + secs * second)]> r) else (false, r);
  redis_get now k r :=
    match r !! k with Some (v, d) => if now <? d then RVal v else RNil | None => RNil end;
  redis_get_cached now _ k r :=
    match r !! k with Some (v, d) => if now <? d then RVal v else RNil | None => RNil end;
  redis_del k r := (true, delete k r);
  redis_scan _ _ r := Some (fst <$> map_to_list r, 0);
  redis_flushdb _ := (true, ∅) }.

#[local] Instance toy_client_laws : RedisLaws toy_server.
Proof.
  split.
  - intros now k secs v r. cbn. destruct (0 <? secs) eqn:E; [lia|done].
  - intros now k secs v r now' ttl. cbn. destruct (0 <? secs) eqn:E; [|done]. intros _ Hle. cbn [snd].
    rewrite lookup_insert_eq. destruct (decide _); destruct (now' <? _) eqn:E'; done || lia.
Qed.

Lemma redis_set_get_witness :
  let st := mkStore "jwt:" minute in
  let js := fun d : RefreshTokenData unit => Some (FormatUint (Zpos (encode (Expiry d, Created d)))) in
  let un := fun s => match digits_value 0 s with
                     | Some (Zpos p) => match decode p with Some (e, c) => Some (mkData tt e c) | None => None end
                     | _ => None end in
  let _ := amd64 in
  fst (Get_redis un (1 * second) st "t" (snd (Set_redis js 0 st "t" tt (2 * second + 500) (∅ : toy_server)))) = Ok tt.
Proof.
  intros st js un pl.
  refine (eq_trans (proj2 (redis_set_get (L := toy_client_laws) js un st "t" tt 0 (1 * second) (2 * second + 500) ∅ _ _ _)) _).
  - intros [[] e c] data [= <-]. unfold un. cbn [Expiry Created].
    rewrite digits_value_FormatUint by lia.
    by rewrite decode_encode.
  - vm_compute. reflexivity.
  - unfold second, millisecond; lia.
  - vm_compute. reflexivity.
Defined.

End Redis.
