(* ===== verification/Jwt.v ===== *)
(** * The gin JWT middleware (pkg/jwt/jwt.go, jwt_redis.go)

    Initialisation, token extraction and parsing, the middleware, the login,
    logout and refresh handlers, token generation and the refresh window.
    The theorems: the first source of [TokenLookup] that holds a token wins,
    the middleware lets a request through exactly on a valid token with an
    expiry and an authorised identity, a generated token is accepted exactly
    until its expiry, refreshing rotates the refresh token, and what two
    concurrent refreshes can do.

    golang-jwt is the class [JwtLib5], the store the class [TokenStore]; file
    reading and key parsing are variables.  A nil callback field is [None]
    and reads as the default that [MiddlewareInit] installs.  Each reading of
    the clock is an argument; [TimeFunc] maps the wall clock to the time the
    middleware uses.  Parser options other than [WithTimeFunc] are not
    modelled. *)

From S2P Require Import Prelude GoStr JwtLib TokenStore.
From Stdlib Require Import Ascii.

#[local] Existing Instance Memory.memory_store.
#[local] Existing Instance Memory.memory_laws.

Module Jwt.

Inductive error : Type :=
  | ErrMissingSecretKey | ErrForbidden | ErrMissingAuthenticatorFunc | ErrFailedTokenCreation
  | ErrExpiredToken | ErrEmptyAuthHeader | ErrMissingExpField | ErrWrongFormatOfExp
  | ErrInvalidAuthHeader | ErrEmptyQueryToken | ErrEmptyCookieToken | ErrEmptyParamToken
  | ErrInvalidSigningAlgorithm | ErrNoPrivKeyFile | ErrNoPubKeyFile | ErrInvalidPrivKey
  | ErrInvalidPubKey | ErrInvalidRefreshToken | ErrMissingOrigIat | ErrOrigIatFormat
  | ErrMissingRefreshParam | ErrRand
  | ErrLib (errs : list jwt_error)
  | ErrStore (e : store_error)
  | ErrUser (msg : string).

(** ** Requests and contexts *)

(** What a handler reads of the request; a missing value is empty, and
    [json_refresh] is the [refresh_token] of a JSON body that binds. *)
Record request : Type := mkRequest {
  header : string -> string;
  query : string -> string;
  form : string -> string;
  cookie : string -> string;
  param : string -> string;
  json_refresh : option string }.

(** A value of the key-value store of a gin context. *)
Inductive ctx_value : Type := CClaims (m : MapClaims) | CString (s : string) | CIdentity (v : claim).

(** What a handler writes. *)
Inductive response : Type :=
  | RHeader (name value : string)
  | RUnauthorized (code : Z) (err : error)
  | RSameSite (n : Z)
  | RCookie (name value : string) (maxage : Z)
  | RLogin (t : TokenPair)
  | RLogout
  | RRefresh (t : TokenPair).

(** gin runs the handlers after the middleware exactly when the context was
    not aborted, called [Next] or not. *)
Record ctx : Type := mkCtx {
  req : request;
  keys : gmap string ctx_value;
  aborted : bool;
  log : list response }.

Definition c_set (k : string) (v : ctx_value) (c : ctx) : ctx :=
  mkCtx (req c) (<[k := v]> (keys c)) (aborted c) (log c).
Definition c_emit (r : response) (c : ctx) : ctx := mkCtx (req c) (keys c) (aborted c) (log c ++ [r]).
Definition c_abort (c : ctx) : ctx := mkCtx (req c) (keys c) true (log c).

(** ** The middleware *)

Inductive store_choice : Type := NoStore | CustomStore | InMemoryStore | RedisStore.

Section Middleware.
Context {U : Type}.

Record GinJWTMiddleware : Type := mkMiddleware {
  Realm : string;
  SigningAlgorithm : string;
  Key : option string;
  KeyFunc : option (string -> option string);
  Timeout : Z;
  TimeoutFunc : option (U -> Z);
  MaxRefresh : Z;
  Authenticator : option (request -> result error U);
  Authorizer : option (ctx -> option claim -> bool);
  PayloadFunc : option (U -> MapClaims);
  IdentityHandler : option (ctx -> option claim);
  IdentityKey : string;
  TokenLookup : string;
  TokenHeadName : string;
  TimeFunc : option (Z -> Z);
  PrivKeyFile : string;
  PrivKeyBytes : option string;
  PubKeyFile : string;
  PrivateKeyPassphrase : string;
  PubKeyBytes : option string;
  privKey : option string;
  pubKey : option string;
  SendCookie : bool;
  CookieMaxAge : Z;
  CookieName : string;
  CookieSameSite : Z;
  SendAuthorization : bool;
  DisabledAbort : bool;
  (** The [WithTimeFunc] options, in order. *)
  ParseOptions : list (Z -> Z);
  ExpField : string;
  RefreshTokenTimeout : Z;
  RefreshTokenStore : store_choice;
  RefreshTokenLength : Z;
  UseRedisStore : bool }.

(** [if x == "" { x = d }] and [if x == 0 { x = d }]. *)
Definition or_str (x d : string) : string := if bool_decide (x = "") then d else x.
Definition or_z (x d : Z) : Z := if x =? 0 then d else x.

Definition time_of (mw : GinJWTMiddleware) (wall : Z) : Z := default id (TimeFunc mw) wall.
Definition timeout_of (mw : GinJWTMiddleware) (data : U) : Z :=
  match TimeoutFunc mw with Some f => f data | None => Timeout mw end.

Definition usingPublicKeyAlgo (mw : GinJWTMiddleware) : bool :=
  bool_decide (SigningAlgorithm mw ∈ ["RS256"; "RS512"; "RS384"]).

(** [EnableRedisStore]; the options build the configuration given to the
    connection. *)
Definition EnableRedisStore (opts : list (Redis.RedisConfig -> Redis.RedisConfig)) : bool * Redis.RedisConfig :=
  (true, foldl (fun c opt => opt c) Redis.DefaultRedisConfig opts).

(** [initializeRedisStore]: [connected] is the success of the connection. *)
Definition initializeRedisStore (use connected : bool) (s : store_choice) : store_choice :=
  if use then if connected then RedisStore else InMemoryStore else s.

(** *** Keys *)

Context (ReadFile : string -> option string)
  (ParsePKCS8 : string -> string -> option (option string))
  (ParseRSAPrivateKeyFromPEM ParseRSAPublicKeyFromPEM : string -> option string).

(** [ParsePKCS8] answers the RSA key, or that the key is of another kind. *)
Definition privateKey (mw : GinJWTMiddleware) : result error string :=
  keyData ←
    (if bool_decide (PrivKeyFile mw = "") then Ok (default "" (PrivKeyBytes mw))
     else match ReadFile (PrivKeyFile mw) with Some content => Ok content | None => Err ErrNoPrivKeyFile end);
  if negb (bool_decide (PrivateKeyPassphrase mw = "")) then
    match ParsePKCS8 keyData (PrivateKeyPassphrase mw) with
    | Some (Some rsaKey) => Ok rsaKey
    | _ => Err ErrInvalidPrivKey
    end
  else match ParseRSAPrivateKeyFromPEM keyData with Some key => Ok key | None => Err ErrInvalidPrivKey end.

Definition publicKey (mw : GinJWTMiddleware) : result error string :=
  keyData ←
    (if bool_decide (PubKeyFile mw = "") then Ok (default "" (PubKeyBytes mw))
     else match ReadFile (PubKeyFile mw) with Some content => Ok content | None => Err ErrNoPubKeyFile end);
  match ParseRSAPublicKeyFromPEM keyData with Some key => Ok key | None => Err ErrInvalidPubKey end.

(** The private and the public key. *)
Definition readKeys (mw : GinJWTMiddleware) : result error (string * string) :=
  priv ← privateKey mw; pub ← publicKey mw; Ok (priv, pub).

(** The fields [MiddlewareInit] sets before it looks at the keys. *)
Definition init_defaults (connected : bool) (mw : GinJWTMiddleware) : GinJWTMiddleware :=
  let timeout := or_z (Timeout mw) hour in {|
    Realm := or_str (Realm mw) "milady jwt";
    SigningAlgorithm := or_str (SigningAlgorithm mw) "HS256";
    Key := Key mw; KeyFunc := KeyFunc mw;
    Timeout := timeout;
    TimeoutFunc := TimeoutFunc mw; MaxRefresh := MaxRefresh mw;
    Authenticator := Authenticator mw; Authorizer := Authorizer mw; PayloadFunc := PayloadFunc mw;
    IdentityHandler := IdentityHandler mw;
    IdentityKey := or_str (IdentityKey mw) "identity";
    TokenLookup := or_str (TokenLookup mw) "header:Authorization";
    TokenHeadName := or_str (TrimSpace (TokenHeadName mw)) "Bearer";
    TimeFunc := TimeFunc mw;
    PrivKeyFile := PrivKeyFile mw; PrivKeyBytes := PrivKeyBytes mw; PubKeyFile := PubKeyFile mw;
    PrivateKeyPassphrase := PrivateKeyPassphrase mw; PubKeyBytes := PubKeyBytes mw;
    privKey := privKey mw; pubKey := pubKey mw;
    SendCookie := SendCookie mw;
    CookieMaxAge := or_z (CookieMaxAge mw) timeout;
    CookieName := or_str (CookieName mw) "jwt";
    CookieSameSite := CookieSameSite mw; SendAuthorization := SendAuthorization mw;
    DisabledAbort := DisabledAbort mw; ParseOptions := ParseOptions mw;
    ExpField := or_str (ExpField mw) "exp";
    RefreshTokenTimeout := or_z (RefreshTokenTimeout mw) (30 * 24 * hour);
    RefreshTokenStore :=
      match RefreshTokenStore mw with
      | NoStore =>
          match initializeRedisStore (UseRedisStore mw) connected NoStore with
          | NoStore => InMemoryStore
          | s => s
          end
      | s => s
      end;
    RefreshTokenLength := or_z (RefreshTokenLength mw) 32;
    UseRedisStore := UseRedisStore mw |}.

Definition with_keys (privpub : option string * option string) (opts : list (Z -> Z))
    (mw : GinJWTMiddleware) : GinJWTMiddleware := {|
    Realm := Realm mw; SigningAlgorithm := SigningAlgorithm mw; Key := Key mw; KeyFunc := KeyFunc mw;
    Timeout := Timeout mw; TimeoutFunc := TimeoutFunc mw; MaxRefresh := MaxRefresh mw;
    Authenticator := Authenticator mw; Authorizer := Authorizer mw; PayloadFunc := PayloadFunc mw;
    IdentityHandler := IdentityHandler mw; IdentityKey := IdentityKey mw;
    TokenLookup := TokenLookup mw; TokenHeadName := TokenHeadName mw; TimeFunc := TimeFunc mw;
    PrivKeyFile := PrivKeyFile mw; PrivKeyBytes := PrivKeyBytes mw; PubKeyFile := PubKeyFile mw;
    PrivateKeyPassphrase := PrivateKeyPassphrase mw; PubKeyBytes := PubKeyBytes mw;
    privKey := fst privpub; pubKey := snd privpub;
    SendCookie := SendCookie mw; CookieMaxAge := CookieMaxAge mw; CookieName := CookieName mw;
    CookieSameSite := CookieSameSite mw; SendAuthorization := SendAuthorization mw;
    DisabledAbort := DisabledAbort mw; ParseOptions := opts; ExpField := ExpField mw;
    RefreshTokenTimeout := RefreshTokenTimeout mw; RefreshTokenStore := RefreshTokenStore mw;
    RefreshTokenLength := RefreshTokenLength mw; UseRedisStore := UseRedisStore mw |}.

Definition MiddlewareInit (connected : bool) (mw0 : GinJWTMiddleware) : result error GinJWTMiddleware :=
  let mw := init_defaults connected mw0 in
  match KeyFunc mw with
  | Some _ => Ok mw
  | None =>
      if usingPublicKeyAlgo mw then
        '(priv, pub) ← readKeys mw;
        Ok (with_keys (Some priv, Some pub) (ParseOptions mw) mw)
      else match Key mw with
           | None => Err ErrMissingSecretKey
           | Some _ => Ok (with_keys (privKey mw, pubKey mw) (ParseOptions mw ++ [time_of mw]) mw)
           end
  end.

Definition New := MiddlewareInit.

Definition ClearSensitiveData (mw : GinJWTMiddleware) : GinJWTMiddleware := {|
    Realm := Realm mw; SigningAlgorithm := SigningAlgorithm mw; Key := None; KeyFunc := KeyFunc mw;
    Timeout := Timeout mw; TimeoutFunc := TimeoutFunc mw; MaxRefresh := MaxRefresh mw;
    Authenticator := Authenticator mw; Authorizer := Authorizer mw; PayloadFunc := PayloadFunc mw;
    IdentityHandler := IdentityHandler mw; IdentityKey := IdentityKey mw;
    TokenLookup := TokenLookup mw; TokenHeadName := TokenHeadName mw; TimeFunc := TimeFunc mw;
    PrivKeyFile := PrivKeyFile mw; PrivKeyBytes := None; PubKeyFile := PubKeyFile mw;
    PrivateKeyPassphrase := ""; PubKeyBytes := None; privKey := None; pubKey := None;
    SendCookie := SendCookie mw; CookieMaxAge := CookieMaxAge mw; CookieName := CookieName mw;
    CookieSameSite := CookieSameSite mw; SendAuthorization := SendAuthorization mw;
    DisabledAbort := DisabledAbort mw; ParseOptions := ParseOptions mw; ExpField := ExpField mw;
    RefreshTokenTimeout := RefreshTokenTimeout mw; RefreshTokenStore := RefreshTokenStore mw;
    RefreshTokenLength := RefreshTokenLength mw; UseRedisStore := UseRedisStore mw |}.

(** *** Extracting and parsing the token *)

(** A token and the error of its source. *)
Definition jwtFromHeader (mw : GinJWTMiddleware) (r : request) (key : string) : string * option error :=
  let authHeader := header r key in
  if bool_decide (authHeader = "") then ("", Some ErrEmptyAuthHeader)
  else match Cut authHeader " "%char with
       | Some (scheme, token) =>
           if bool_decide (scheme = TokenHeadName mw) then (token, None) else ("", Some ErrInvalidAuthHeader)
       | None => ("", Some ErrInvalidAuthHeader)
       end.
Definition jwtFromQuery (r : request) (key : string) : string * option error :=
  let token := query r key in
  if bool_decide (token = "") then ("", Some ErrEmptyQueryToken) else (token, None).
Definition jwtFromCookie (r : request) (key : string) : string * option error :=
  let token := cookie r key in
  if bool_decide (token = "") then ("", Some ErrEmptyCookieToken) else (token, None).
Definition jwtFromParam (r : request) (key : string) : string * option error :=
  let token := param r key in
  if bool_decide (token = "") then ("", Some ErrEmptyParamToken) else (token, None).
Definition jwtFromForm (r : request) (key : string) : string * option error :=
  let token := form r key in
  if bool_decide (token = "") then ("", Some ErrEmptyParamToken) else (token, None).

(** The [switch k]: [None] for a source it does not know. *)
Definition from_source (mw : GinJWTMiddleware) (r : request) (k v : string) : option (string * option error) :=
  if bool_decide (k = "header") then Some (jwtFromHeader mw r v)
  else if bool_decide (k = "query") then Some (jwtFromQuery r v)
  else if bool_decide (k = "cookie") then Some (jwtFromCookie r v)
  else if bool_decide (k = "param") then Some (jwtFromParam r v)
  else if bool_decide (k = "form") then Some (jwtFromForm r v)
  else None.

(** The loop of [ParseToken]; [parts[1]] panics when a method has no colon. *)
Fixpoint find_token (mw : GinJWTMiddleware) (r : request) (methods : list string)
    (st : string * option error) : result error (string * option error) :=
  match methods with
  | [] => Ok st
  | method :: rest =>
      if bool_decide (fst st <> "") then Ok st
      else match Split (TrimSpace method) ":"%char with
           | k :: v :: _ =>
               find_token mw r rest (default st (from_source mw r (TrimSpace k) (TrimSpace v)))
           | _ => Panic
           end
  end.

Context {L : JwtLib5}.

(** The key function of the middleware. *)
Definition key_for (mw : GinJWTMiddleware) (alg : string) : option string :=
  match KeyFunc mw with
  | Some f => f alg
  | None =>
      if bool_decide (alg = SigningAlgorithm mw) && known_method alg then
        Some (default "" (if usingPublicKeyAlgo mw then pubKey mw else Key mw))
      else None
  end.

(** The time the parser validates at: that of the last [WithTimeFunc]. *)
Definition parse_time (mw : GinJWTMiddleware) (wall : Z) : Z := default id (last (ParseOptions mw)) wall.

(** [ParseTokenString]. *)
Definition ParseTokenString (mw : GinJWTMiddleware) (wall : Z) (token : string) : parsed :=
  parse5 (parse_time mw wall) (key_for mw) token.

(** The key function of [ParseToken] stores the token it is called for when
    the algorithm is the symmetric one configured. *)
Definition stores_token (mw : GinJWTMiddleware) (token : string) : bool :=
  match KeyFunc mw with
  | Some _ => false
  | None => bool_decide (token_alg token = Some (SigningAlgorithm mw)) && known_method (SigningAlgorithm mw)
            && negb (usingPublicKeyAlgo mw)
  end.

Definition ParseToken (mw : GinJWTMiddleware) (wall : Z) (c : ctx) : ctx * result error parsed :=
  match find_token mw (req c) (Split (TokenLookup mw) ","%char) ("", None) with
  | Ok (_, Some err) => (c, Err err)
  | Ok (token, None) =>
      (if stores_token mw token then c_set "JWT_TOKEN" (CString token) c else c,
       Ok (ParseTokenString mw wall token))
  | Err e => (c, Err e)
  | Panic => (c, Panic)
  end.

(** The claims of a valid token; an error of the library is an error. *)
Definition GetClaimsFromJWT (mw : GinJWTMiddleware) (wall : Z) (c : ctx) : ctx * result error MapClaims :=
  let '(c, r) := ParseToken mw wall c in
  match r with
  | Ok (Valid claims) =>
      (match keys c !! "JWT_TOKEN" with
       | Some (CString tokenStr) =>
           if SendAuthorization mw then c_emit (RHeader "Authorization" (TokenHeadName mw +:+ " " +:+ tokenStr)) c
           else c
       | _ => c
       end, Ok claims)
  | Ok (Invalid _ errs) => (c, Err (ErrLib errs))
  | Err e => (c, Err e)
  | Panic => (c, Panic)
  end.

Definition ExtractClaims (c : ctx) : MapClaims :=
  match keys c !! "JWT_PAYLOAD" with Some (CClaims m) => m | _ => ∅ end.
Definition ExtractClaimsFromToken (token : option MapClaims) : MapClaims := default ∅ token.
Definition GetToken (c : ctx) : string :=
  match keys c !! "JWT_TOKEN" with Some (CString s) => s | _ => "" end.

(** A nil interface is [None], also when the claim is a JSON null. *)
Definition claim_value (claims : MapClaims) (k : string) : option claim :=
  match claims !! k with Some VNull | None => None | Some v => Some v end.

Definition identity_of (mw : GinJWTMiddleware) (c : ctx) : option claim :=
  match IdentityHandler mw with
  | Some f => f c
  | None => claim_value (ExtractClaims c) (IdentityKey mw)
  end.

(** *** The middleware function *)

Definition unauthorized (mw : GinJWTMiddleware) (code : Z) (err : error) (c : ctx) : ctx :=
  let c := c_emit (RHeader "WWW-Authenticate" ("JWT realm=" +:+ single dquote +:+ Realm mw +:+ single dquote)) c in
  let c := if DisabledAbort mw then c else c_abort c in
  c_emit (RUnauthorized code err) c.

Definition handleTokenError (mw : GinJWTMiddleware) (err : error) (c : ctx) : ctx :=
  match err with
  | ErrLib errs =>
      if bool_decide (JExpired ∈ errs) then unauthorized mw 401 ErrExpiredToken c
      else if bool_decide (JInvalidExp ∈ errs) then unauthorized mw 400 ErrWrongFormatOfExp c
      else if bool_decide (JExpRequired ∈ errs) then unauthorized mw 400 ErrMissingExpField c
      else unauthorized mw 401 err c
  | _ => unauthorized mw 401 err c
  end.

(** Sets the payload and, when there is one, the identity. *)
Definition set_payload (mw : GinJWTMiddleware) (claims : MapClaims) (c : ctx) : ctx * option claim :=
  let c := c_set "JWT_PAYLOAD" (CClaims claims) c in
  let identity := identity_of mw c in
  (match identity with Some v => c_set (IdentityKey mw) (CIdentity v) c | None => c end, identity).

Definition middlewareImpl (mw : GinJWTMiddleware) (wall : Z) (c : ctx) : result unit ctx :=
  let '(c, r) := GetClaimsFromJWT mw wall c in
  match r with
  | Panic => Panic
  | Err err => Ok (handleTokenError mw err c)
  | Ok claims =>
      if bool_decide (claim_value claims "exp" = None) then Ok (unauthorized mw 400 ErrMissingExpField c)
      else
        let '(c, identity) := set_payload mw claims c in
        if match Authorizer mw with Some f => f c identity | None => true end then Ok c
        else Ok (unauthorized mw 403 ErrForbidden c)
  end.

(** *** Token generation *)

Definition reservedClaims : list string := ["exp"; "iat"; "nbf"; "iss"; "aud"; "sub"; "jti"; "orig_iat"].

Definition signedString (mw : GinJWTMiddleware) (claims : MapClaims) : result error string :=
  match sign5 (SigningAlgorithm mw) (default "" (if usingPublicKeyAlgo mw then privKey mw else Key mw)) claims with
  | Some tokenString => Ok tokenString
  | None => Err (ErrLib [JOther])
  end.

Definition access_claims (mw : GinJWTMiddleware) (data : U) (expire now : Z) : MapClaims :=
  let custom : MapClaims :=
    match PayloadFunc mw with
    | Some f => filter (fun kv => kv.1 ∉ reservedClaims) (f data)
    | None => ∅
    end in
  <["orig_iat" := VInt (unix now)]> (<[ExpField mw := VInt (unix expire)]> custom).

(** [t_exp] and [t_now] are the two readings of the clock. *)
Definition generateAccessToken (mw : GinJWTMiddleware) (t_exp t_now : Z) (data : U) : result error (string * Z) :=
  if negb (known_method (SigningAlgorithm mw)) then Err ErrInvalidSigningAlgorithm
  else
    let expire := time_of mw t_exp + timeout_of mw data in
    let now := time_of mw t_now in
    tokenString ← signedString mw (access_claims mw data expire now);
    Ok (tokenString, expire).

(** [base64.URLEncoding.EncodeToString]. *)
Definition b64_char (n : Z) : ascii :=
  let alphabet := "ABCDEFGHIJKLMNOPQRSTUVWXYZabcdefghijklmnopqrstuvwxyz0123456789-_" in
  match String.get (Z.to_nat n) alphabet with Some a => a | None => "="%char end.
Fixpoint URLEncode (bytes : list Z) : string :=
  match bytes with
  | a :: b :: c :: rest =>
      String (b64_char (a / 4)) (String (b64_char (a mod 4 * 16 + b / 16))
        (String (b64_char (b mod 16 * 4 + c / 64)) (String (b64_char (c mod 64)) (URLEncode rest))))
  | [a; b] =>
      String (b64_char (a / 4)) (String (b64_char (a mod 4 * 16 + b / 16))
        (String (b64_char (b mod 16 * 4)) "="))
  | [a] => String (b64_char (a / 4)) (String (b64_char (a mod 4 * 16)) "==")
  | [] => ""
  end.

(** [random] is what [rand.Read] fills [RefreshTokenLength] bytes with, or
    its error. *)
Definition generateRefreshToken (random : option (list Z)) : result error string :=
  match random with Some bytes => Ok (URLEncode bytes) | None => Err ErrRand end.

Context {S : Type} `{TokenStore S U}.

Definition storeRefreshToken (mw : GinJWTMiddleware) (wall : Z) (token : string) (data : U) (s : S)
    : option error * S :=
  let '(e, s') := Set_ wall token data (time_of mw wall + RefreshTokenTimeout mw) s in (ErrStore <$> e, s').

Definition revokeRefreshToken (token : string) (s : S) : option error * S :=
  let '(e, s') := Delete token s in (ErrStore <$> e, s').

(** The readings of the clock of one token generation. *)
Record readings : Type := mkReadings { r_exp : Z; r_iat : Z; r_refresh : Z; r_created : Z }.

Definition TokenGenerator (mw : GinJWTMiddleware) (t : readings) (random : option (list Z)) (data : U) (s : S)
    : result error TokenPair * S :=
  match generateAccessToken mw (r_exp t) (r_iat t) data with
  | Err e => (Err e, s)
  | Panic => (Panic, s)
  | Ok (accessToken, expire) =>
      match generateRefreshToken random with
      | Err e => (Err e, s)
      | Panic => (Panic, s)
      | Ok refreshToken =>
          let '(e, s') := storeRefreshToken mw (r_refresh t) refreshToken data s in
          match e with
          | Some e => (Err e, s')
          | None =>
              (Ok (mkToken accessToken "Bearer" refreshToken (unix expire) (unix (time_of mw (r_created t)))), s')
          end
      end
  end.

Definition TokenGeneratorWithRevocation (mw : GinJWTMiddleware) (t : readings) (random : option (list Z))
    (data : U) (oldRefreshToken : string) (s : S) : result error TokenPair * S :=
  let '(r, s) := TokenGenerator mw t random data s in
  match r with
  | Ok tokenPair =>
      let '(e, s) := Delete oldRefreshToken s in
      match e with
      | None | Some ErrRefreshTokenNotFound => (Ok tokenPair, s)
      | Some e => (Err (ErrStore e), s)
      end
  | r => (r, s)
  end.

Definition validateRefreshToken (wall : Z) (token : string) (s : S) : result error U * S :=
  let '(r, s) := Get wall token s in
  (match r with
   | Ok userData => Ok userData
   | Err ErrRefreshTokenNotFound => Err ErrInvalidRefreshToken
   | Err e => Err (ErrStore e)
   | Panic => Panic
   end, s).

(** *** Handlers *)

(** [t1] and [t2] are the two readings of the clock. *)
Definition SetCookie (mw : GinJWTMiddleware) (t1 t2 : Z) (token : string) (c : ctx) : ctx :=
  if SendCookie mw then
    let maxage := wrap64 (unix (time_of mw t1 + CookieMaxAge mw) - unix (time_of mw t2)) in
    let c := if CookieSameSite mw =? 0 then c else c_emit (RSameSite (CookieSameSite mw)) c in
    c_emit (RCookie (CookieName mw) token maxage) c
  else c.

Definition extractRefreshToken (r : request) : string :=
  let token := form r "refresh_token" in
  let token := if bool_decide (token = "") then query r "refresh_token" else token in
  if bool_decide (token = "") then default "" (json_refresh r) else token.

Definition LoginHandler (mw : GinJWTMiddleware) (t : readings) (t1 t2 : Z) (random : option (list Z))
    (c : ctx) (s : S) : result unit ctx * S :=
  match Authenticator mw with
  | None => (Ok (unauthorized mw 500 ErrMissingAuthenticatorFunc c), s)
  | Some auth =>
      match auth (req c) with
      | Err e => (Ok (unauthorized mw 401 e c), s)
      | Panic => (Panic, s)
      | Ok data =>
          let '(r, s) := TokenGenerator mw t random data s in
          match r with
          | Ok tokenPair => (Ok (c_emit (RLogin tokenPair) (SetCookie mw t1 t2 (AccessToken tokenPair) c)), s)
          | Err _ => (Ok (unauthorized mw 500 ErrFailedTokenCreation c), s)
          | Panic => (Panic, s)
          end
      end
  end.

Definition LogoutHandler (mw : GinJWTMiddleware) (wall : Z) (c : ctx) (s : S) : result unit ctx * S :=
  let '(c, r) := GetClaimsFromJWT mw wall c in
  match r with
  | Panic => (Panic, s)
  | _ =>
      let c := match r with Ok claims => fst (set_payload mw claims c) | _ => c end in
      let refreshToken := extractRefreshToken (req c) in
      let s := if bool_decide (refreshToken = "") then s else snd (revokeRefreshToken refreshToken s) in
      let c :=
        if SendCookie mw then
          let c := if CookieSameSite mw =? 0 then c else c_emit (RSameSite (CookieSameSite mw)) c in
          c_emit (RCookie (CookieName mw) "" (-1)) c
        else c in
      (Ok (c_emit RLogout c), s)
  end.

Definition RefreshHandler (mw : GinJWTMiddleware) (wall : Z) (t : readings) (t1 t2 : Z)
    (random : option (list Z)) (c : ctx) (s : S) : result unit ctx * S :=
  let refreshToken := extractRefreshToken (req c) in
  if bool_decide (refreshToken = "") then (Ok (unauthorized mw 400 ErrMissingRefreshParam c), s)
  else
    let '(r, s) := validateRefreshToken wall refreshToken s in
    match r with
    | Err e => (Ok (unauthorized mw 401 e c), s)
    | Panic => (Panic, s)
    | Ok userData =>
        let '(r, s) := TokenGeneratorWithRevocation mw t random userData refreshToken s in
        match r with
        | Ok tokenPair => (Ok (c_emit (RRefresh tokenPair) (SetCookie mw t1 t2 (AccessToken tokenPair) c)), s)
        | Err e => (Ok (unauthorized mw 500 e c), s)
        | Panic => (Panic, s)
        end
    end.

(** [int64(float64)] of a claim that is a whole number. *)
Definition CheckIfTokenExpire (mw : GinJWTMiddleware) (wall t_now : Z) (c : ctx) : ctx * result error MapClaims :=
  let '(c, r) := ParseToken mw wall c in
  let check (claims : option MapClaims) : result error MapClaims :=
    match claims with
    | None => Panic
    | Some claims =>
        match claims !! "orig_iat" with
        | None => Err ErrMissingOrigIat
        | Some (VFloat origIat) =>
            if origIat <? unix (time_of mw t_now - MaxRefresh mw) then Err ErrExpiredToken else Ok claims
        | Some _ => Err ErrOrigIatFormat
        end
    end in
  (c, match r with
      | Ok (Valid claims) => check (Some claims)
      | Ok (Invalid claims errs) => if bool_decide (JExpired ∈ errs) then check claims else Err (ErrLib errs)
      | Err e => Err e
      | Panic => Panic
      end).

End Middleware.
Arguments GinJWTMiddleware : clear implicits.

(** ** Sources of the token *)

Section Proofs.
Context {U : Type} {L : JwtLib5}.
Implicit Types (mw : GinJWTMiddleware U) (c : ctx) (r : request).

Definition has_colon (method : string) : Prop := (2 <= length (Split (TrimSpace method) ":"%char))%nat.

(** The token a method of [TokenLookup] gives; empty for an unknown source. *)
Definition yields mw r (method : string) : string :=
  match Split (TrimSpace method) ":"%char with
  | k :: v :: _ => default "" (fst <$> from_source mw r (TrimSpace k) (TrimSpace v))
  | _ => ""
  end.

Definition first_token mw r (methods : list string) : string :=
  default "" (head (List.filter (fun t => negb (bool_decide (t = ""))) (map (yields mw r) methods))).

Lemma from_source_error mw r k v t e : from_source mw r k v = Some (t, e) -> t <> "" -> e = None.
Proof.
  unfold from_source, jwtFromHeader, jwtFromQuery, jwtFromCookie, jwtFromParam, jwtFromForm.
  repeat case_match; intros [= <- <-]; done.
Qed.

Lemma find_token_stop mw r methods t e : t <> "" -> find_token mw r methods (t, e) = Ok (t, e).
Proof. intros Ht. destruct methods; cbn; [done|]. by rewrite bool_decide_true. Qed.

Lemma find_token_first mw r methods : forall e,
  Forall has_colon methods ->
  exists e', find_token mw r methods ("", e) = Ok (first_token mw r methods, e') /\
  (first_token mw r methods <> "" -> e' = None).
Proof.
  induction methods as [|m ms IH]; intros e Hc; [by exists e|]. apply Forall_cons in Hc as [Hm Hms].
  cbn [find_token fst]. rewrite bool_decide_false by tauto.
  unfold first_token. cbn [map List.filter]. unfold has_colon in Hm.
  destruct (Split (TrimSpace m) ":"%char) as [|k [|v rest]] eqn:E; cbn in Hm; [lia|lia|].
  assert (yields mw r m = default "" (fst <$> from_source mw r (TrimSpace k) (TrimSpace v))) as ->
    by (unfold yields; by rewrite E).
  destruct (from_source mw r (TrimSpace k) (TrimSpace v)) as [[t e1]|] eqn:Es.
  - change (default "" (fst <$> Some (t, e1))) with t. cbn [from_option id].
    destruct (decide (t = "")) as [->|Ht].
    + rewrite bool_decide_true by done. cbn [negb]. by apply IH.
    + rewrite bool_decide_false by done. cbn [negb head]. exists e1.
      rewrite find_token_stop by done. split; [done|]. intros _. by eapply from_source_error.
  - change (default "" (fst <$> (None : option (string * option error)))) with ("" : string).
    rewrite bool_decide_true by done. cbn [negb]. by apply IH.
Qed.

Lemma find_token_header mw r tok :
  TokenLookup mw = "header:Authorization" -> no_char " "%char (TokenHeadName mw) -> tok <> "" ->
  header r "Authorization" = TokenHeadName mw +:+ " " +:+ tok ->
  find_token mw r (Split (TokenLookup mw) ","%char) ("", None) = Ok (tok, None).
Proof.
  intros El Hh Ht Hr.
  assert (Split (TokenLookup mw) ","%char = ["header:Authorization"]) as -> by by rewrite El.
  cbn [find_token fst]. rewrite bool_decide_false by tauto.
  change (Split (TrimSpace "header:Authorization") ":"%char) with ["header"; "Authorization"]. cbv iota.
  change (from_source mw r (TrimSpace "header") (TrimSpace "Authorization"))
    with (Some (jwtFromHeader mw r "Authorization")).
  assert (jwtFromHeader mw r "Authorization" = (tok, None)) as ->; [|done].
  unfold jwtFromHeader. rewrite Hr. change (" " +:+ tok) with (String " "%char tok).
  rewrite Cut_app by done. rewrite bool_decide_false; [by rewrite bool_decide_true|].
  by destruct (TokenHeadName mw).
Qed.

(** ** Tokens the middleware signed *)

Lemma access_claims_absent mw data expire now k :
  k ∈ reservedClaims -> k <> "orig_iat" -> k <> ExpField mw -> access_claims mw data expire now !! k = None.
Proof.
  intros Hk Ho He. unfold access_claims. rewrite !lookup_insert_ne by done.
  destruct (PayloadFunc mw) as [f|]; [|done]. apply map_lookup_filter_None. right. cbn. naive_solver.
Qed.

Lemma access_claims_custom mw data expire now k v f :
  PayloadFunc mw = Some f -> f data !! k = Some v -> k ∉ reservedClaims -> k <> ExpField mw ->
  access_claims mw data expire now !! k = Some v.
Proof.
  intros Hf Hv Hk He. unfold access_claims. rewrite Hf, !lookup_insert_ne by (set_solver || done).
  apply map_lookup_filter_Some. by split.
Qed.

Context (laws : JwtLaws5 L).

(** A middleware ready to serve with a symmetric key. *)
Definition hmac_ready mw : Prop :=
  KeyFunc mw = None /\ usingPublicKeyAlgo mw = false /\ TokenLookup mw = "header:Authorization" /\
  no_char " "%char (TokenHeadName mw) /\ verifies (default "" (Key mw)) (default "" (Key mw)).

(** A request that carries [tok] in its header. *)
Definition carries mw c (tok : string) : Prop :=
  header (req c) "Authorization" = TokenHeadName mw +:+ " " +:+ tok.

Lemma generated_parse mw t_exp t_now data tok expire wall c :
  hmac_ready mw -> generateAccessToken mw t_exp t_now data = Ok (tok, expire) -> carries mw c tok ->
  ExpField mw ∉ ["nbf"; "iat"; "orig_iat"] ->
  expire = time_of mw t_exp + timeout_of mw data /\
  ParseToken mw wall c =
    (c_set "JWT_TOKEN" (CString tok) c,
     Ok (exp_verdict (parse_time mw wall) (access_claims mw data expire (time_of mw t_now)))).
Proof.
  intros (Hkf & Hpub & Hlook & Hhead & Hver) Hg Hc Hef.
  rewrite !not_elem_of_cons in Hef. destruct Hef as (He1 & He2 & He3 & _).
  unfold generateAccessToken in Hg. destruct (known_method (SigningAlgorithm mw)) eqn:Ek; [|done].
  cbn [negb] in Hg. apply bind_ok in Hg as (tok' & Hs & [= -> <-]). split; [done|].
  unfold signedString in Hs. rewrite Hpub in Hs. destruct (sign5 _ _ _) as [tok'|] eqn:Es; [|done].
  injection Hs as ->. destruct (sign5_compact _ _ _ _ Es) as [Hne _].
  unfold ParseToken. rewrite (find_token_header mw (req c) tok) by done. f_equal.
  - unfold stores_token. rewrite Hkf, (token_alg_signed _ _ _ _ Es), bool_decide_true, Ek, Hpub by done. done.
  - f_equal. unfold ParseTokenString.
    eapply (parse5_signed (SigningAlgorithm mw) _ (default "" (Key mw))); [exact Es| | | | |exact Hver].
    + by apply access_claims_absent; [set_solver|..].
    + by apply access_claims_absent; [set_solver|..].
    + destruct (decide (ExpField mw = "exp")) as [E|E].
      * right. eexists. unfold access_claims. rewrite lookup_insert_ne, E by done. by rewrite lookup_insert_eq.
      * left. by apply access_claims_absent; [set_solver|..].
    + unfold key_for. by rewrite Hkf, bool_decide_true, Ek, Hpub by done.
Qed.

Lemma decoded_lookup (claims : MapClaims) k v :
  claims !! k = Some v -> v <> VNull -> claim_value (json_decoded <$> claims) k = Some (json_decoded v).
Proof. intros Hk Hv. unfold claim_value. rewrite lookup_fmap, Hk. by destruct v. Qed.
End Proofs.

(** ** Initialisation *)

Section Init.
Context {U : Type} {L : JwtLib5} (ReadFile : string -> option string)
  (ParsePKCS8 : string -> string -> option (option string))
  (ParsePriv ParsePub : string -> option string).
Implicit Types mw : GinJWTMiddleware U.
Notation init := (MiddlewareInit ReadFile ParsePKCS8 ParsePriv ParsePub).

(** What a successful initialisation leaves. *)
Lemma init_ok connected mw0 mw :
  init connected mw0 = Ok mw ->
  let d := init_defaults connected mw0 in
  (KeyFunc mw0 <> None /\ mw = d) \/
  (KeyFunc mw0 = None /\ usingPublicKeyAlgo d = true /\
   exists priv pub, mw = with_keys (Some priv, Some pub) (ParseOptions mw0) d) \/
  (KeyFunc mw0 = None /\ usingPublicKeyAlgo d = false /\ Key mw0 <> None /\
   mw = with_keys (privKey mw0, pubKey mw0) (ParseOptions mw0 ++ [time_of mw0]) d).
Proof.
  intros H d. unfold MiddlewareInit in H. fold d in H. cbv zeta in H.
  change (KeyFunc d) with (KeyFunc mw0) in H. destruct (KeyFunc mw0) eqn:Ek.
  { injection H as <-. by left. }
  right. destruct (usingPublicKeyAlgo d) eqn:Ep.
  - left. split; [done|]. split; [done|]. apply bind_ok in H as ([priv pub] & _ & [= <-]). by exists priv, pub.
  - right. change (Key d) with (Key mw0) in H. destruct (Key mw0); [|done]. by injection H as <-.
Qed.

Lemma init_hmac_time connected mw0 mw wall :
  init connected mw0 = Ok mw -> KeyFunc mw = None -> usingPublicKeyAlgo mw = false ->
  parse_time mw wall = time_of mw wall.
Proof.
  intros H Hk Hp. apply init_ok in H as [(Hkf & ->)|[(_ & Hpub & priv & pub & ->)|(_ & _ & _ & ->)]].
  - done.
  - change (usingPublicKeyAlgo (init_defaults connected mw0) = false) in Hp. congruence.
  - unfold parse_time. cbn [ParseOptions with_keys]. by rewrite last_snoc.
Qed.

(** initialisation succeeds only with a key function, two readable RSA
    keys or a symmetric key, and then no field a handler relies on is empty;
    the time function reaches the parser on the symmetric path, and on the
    others the parser validates with the wall clock unless the caller gave
    the option itself. *)
Theorem init_spec connected mw0 mw :
  init connected mw0 = Ok mw ->
  (KeyFunc mw <> None \/ (usingPublicKeyAlgo mw = true /\ privKey mw <> None /\ pubKey mw <> None) \/ Key mw <> None) /\
  TokenLookup mw <> "" /\ TokenHeadName mw <> "" /\ SigningAlgorithm mw <> "" /\ IdentityKey mw <> "" /\
  ExpField mw <> "" /\ CookieName mw <> "" /\ Timeout mw <> 0 /\ RefreshTokenTimeout mw <> 0 /\
  RefreshTokenLength mw <> 0 /\ RefreshTokenStore mw <> NoStore /\
  (forall wall,
    if bool_decide (KeyFunc mw = None) && negb (usingPublicKeyAlgo mw) then parse_time mw wall = time_of mw wall
    else ParseOptions mw0 = [] -> parse_time mw wall = wall).
Proof.
  intros H. pose proof (init_hmac_time connected mw0 mw) as Ht. pose proof H as H0.
  assert (forall x d, d <> "" -> or_str x d <> "") as Hs by (intros; unfold or_str; by case_bool_decide).
  assert (forall x d, d <> 0 -> or_z x d <> 0) as Hz by (intros x d Hd; unfold or_z; destruct (x =? 0) eqn:E; lia).
  assert (forall mw', mw' = init_defaults connected mw0 ->
    TokenLookup mw' <> "" /\ TokenHeadName mw' <> "" /\ SigningAlgorithm mw' <> "" /\ IdentityKey mw' <> "" /\
    ExpField mw' <> "" /\ CookieName mw' <> "" /\ Timeout mw' <> 0 /\ RefreshTokenTimeout mw' <> 0 /\
    RefreshTokenLength mw' <> 0 /\ RefreshTokenStore mw' <> NoStore) as Hd.
  { intros mw' ->. cbn. repeat split; try (by apply Hs); try (by apply Hz).
    destruct (RefreshTokenStore mw0); try done. by destruct (UseRedisStore mw0), connected. }
  specialize (Hd _ eq_refl).
  apply init_ok in H as [(Hkf & ->)|[(Hkf & Hpub & priv & pub & ->)|(Hkf & Hpub & Hk & ->)]].
  - split; [by left|]. destruct Hd as (? & ? & ? & ? & ? & ? & ? & ? & ? & ?). do 10 (split; [done|]).
    intros wall. change (KeyFunc (init_defaults connected mw0)) with (KeyFunc mw0).
    destruct (KeyFunc mw0) eqn:Ek; [|done]. rewrite bool_decide_false by done.
    intros Ho. unfold parse_time. cbn [ParseOptions init_defaults]. by rewrite Ho.
  - split; [right; left; by split|]. destruct Hd as (? & ? & ? & ? & ? & ? & ? & ? & ? & ?). do 10 (split; [done|]).
    intros wall. replace (_ && _) with false.
    + intros Ho. unfold parse_time. cbn [ParseOptions with_keys]. by rewrite Ho.
    + symmetry. apply andb_false_iff. right. apply negb_false_iff. exact Hpub.
  - split; [by right; right|]. destruct Hd as (? & ? & ? & ? & ? & ? & ? & ? & ? & ?). do 10 (split; [done|]).
    intros wall. rewrite bool_decide_true by exact Hkf.
    change (usingPublicKeyAlgo (with_keys _ _ _)) with (usingPublicKeyAlgo (init_defaults connected mw0)).
    rewrite Hpub. cbn [andb negb]. by apply (Ht wall).
Qed.
End Init.

(** ** The middleware on its own tokens *)

Section Gate.
Context {U : Type} {L : JwtLib5} (laws : JwtLaws5 L).
Implicit Types (mw : GinJWTMiddleware U) (c : ctx).

(** whatever the request, the token tried is that of the first source of
    [TokenLookup] that has one; an error is reported only when none has; and
    the lookup does not panic when every source is written with a colon. *)
Theorem first_source_wins mw (wall : Z) c :
  Forall has_colon (Split (TokenLookup mw) ","%char) ->
  let tok := first_token mw (req c) (Split (TokenLookup mw) ","%char) in
  match snd (ParseToken mw wall c) with
  | Ok p => p = ParseTokenString mw wall tok
  | Err _ => tok = ""
  | Panic => False
  end.
Proof.
  intros Hc tok. unfold ParseToken.
  destruct (find_token_first mw (req c) _ None Hc) as (e & -> & He). fold tok in He |- *.
  destruct e as [e|]; [|done]. cbn [snd]. destruct (decide (tok = "")); [done|]. by apply He in n.
Qed.

Lemma claims_of_generated mw t_exp t_now data tok expire wall c :
  hmac_ready mw -> generateAccessToken mw t_exp t_now data = Ok (tok, expire) -> carries mw c tok ->
  ExpField mw ∉ ["nbf"; "iat"; "orig_iat"] ->
  exists c1, req c1 = req c /\ aborted c1 = aborted c /\
  GetClaimsFromJWT mw wall c =
    (c1, match exp_verdict (parse_time mw wall) (access_claims mw data expire (time_of mw t_now)) with
         | Valid claims => Ok claims
         | Invalid _ errs => Err (ErrLib errs)
         end).
Proof.
  intros Hr Hg Hc He. destruct (generated_parse laws mw t_exp t_now data tok expire wall c Hr Hg Hc He) as [_ Hp].
  unfold GetClaimsFromJWT. rewrite Hp.
  destruct (exp_verdict _ _) as [claims|cl errs].
  - cbn [keys c_set]. rewrite lookup_insert_eq.
    destruct (SendAuthorization mw); eexists; (split; [|split; [|reflexivity]]); reflexivity.
  - eexists; (split; [|split; [|reflexivity]]); reflexivity.
Qed.

Lemma unauthorized_log mw code err c :
  last (log (unauthorized mw code err c)) = Some (RUnauthorized code err) /\
  aborted (unauthorized mw code err c) = (aborted c || negb (DisabledAbort mw)).
Proof.
  unfold unauthorized. cbn [log c_emit aborted]. rewrite last_snoc. split; [done|].
  destruct (DisabledAbort mw); cbn; [by rewrite orb_false_r|by rewrite orb_true_r].
Qed.

Lemma set_payload_ctx mw claims c :
  IdentityKey mw <> "JWT_PAYLOAD" ->
  aborted (fst (set_payload mw claims c)) = aborted c /\
  ExtractClaims (fst (set_payload mw claims c)) = claims.
Proof.
  intros Hk. unfold set_payload. cbv zeta. destruct (identity_of _ _) as [v|]; cbn [fst]; split; try done;
    unfold ExtractClaims; cbn [keys c_set].
  - by rewrite lookup_insert_ne, lookup_insert_eq.
  - by rewrite lookup_insert_eq.
Qed.

(** C11: with a symmetric key, a token the middleware generated is let through
    exactly until the second of its expiry, which is its creation plus the
    timeout, with its claims as payload; afterwards the request is aborted
    with 401 and the expiry error.  The middleware is initialized with the
    default lookup of the token and the default name of the expiry, has no
    authorizer of its own, aborts, and keeps the identity apart from the
    payload; the request was not aborted before. *)
Theorem generated_token_until_expiry ReadFile ParsePKCS8 ParsePriv ParsePub connected mw0 mw
    t_exp t_now (data : U) tok expire wall c :
  MiddlewareInit ReadFile ParsePKCS8 ParsePriv ParsePub connected mw0 = Ok mw ->
  hmac_ready mw -> ExpField mw = "exp" -> IdentityKey mw <> "JWT_PAYLOAD" ->
  Authorizer mw = None -> DisabledAbort mw = false -> aborted c = false ->
  generateAccessToken mw t_exp t_now data = Ok (tok, expire) -> carries mw c tok ->
  expire = time_of mw t_exp + timeout_of mw data /\
  exists c', middlewareImpl mw wall c = Ok c' /\
  if decide (unix (time_of mw wall) < unix expire)
  then aborted c' = false /\
       ExtractClaims c' = json_decoded <$> access_claims mw data expire (time_of mw t_now)
  else aborted c' = true /\ last (log c') = Some (RUnauthorized 401 ErrExpiredToken).
Proof.
  intros Hi Hr He Hik Ha Hd Hab Hg Hc.
  assert (ExpField mw ∉ ["nbf"; "iat"; "orig_iat"]) as Hef by (rewrite He; set_solver).
  split; [by eapply (generated_parse laws mw _ _ _ _ _ wall)|].
  destruct (claims_of_generated mw t_exp t_now data tok expire wall c Hr Hg Hc Hef) as (c1 & _ & Hc1 & Hgc).
  pose proof Hr as (Hk & Hp & _). rewrite (init_hmac_time _ _ _ _ _ _ _ wall Hi Hk Hp) in Hgc.
  set (claims := access_claims mw data expire (time_of mw t_now)) in *.
  assert (claims !! "exp" = Some (VInt (unix expire))) as Hexp.
  { unfold claims, access_claims. rewrite lookup_insert_ne, He by done. by rewrite lookup_insert_eq. }
  unfold middlewareImpl. rewrite Hgc. unfold exp_verdict. rewrite Hexp.
  destruct (unix (time_of mw wall) <? unix expire) eqn:Elt; destruct (decide _) as [Hlt|Hge]; try lia.
  - rewrite (decoded_lookup claims "exp" (VInt (unix expire))) by done. rewrite bool_decide_false by done.
    destruct (set_payload_ctx mw (json_decoded <$> claims) c1 Hik) as [Hs1 Hs2].
    destruct (set_payload mw _ c1) as [c2 identity]. rewrite Ha. exists c2. cbn [fst] in *. by rewrite Hs1, Hc1.
  - unfold handleTokenError. rewrite bool_decide_true by left. eexists. split; [done|].
    destruct (unauthorized_log mw 401 ErrExpiredToken c1) as [-> ->]. by rewrite Hd, orb_true_r.
Qed.

(** with any other [ExpField] the middleware rejects every token it
    generates, with 400 and the missing-expiry error: the expiry is stored
    under the configured name and looked up as [exp]. *)
Theorem custom_exp_field_rejected mw t_exp t_now (data : U) tok expire wall c :
  hmac_ready mw -> ExpField mw ∉ ["exp"; "nbf"; "iat"; "orig_iat"] ->
  generateAccessToken mw t_exp t_now data = Ok (tok, expire) -> carries mw c tok ->
  exists c', middlewareImpl mw wall c = Ok c' /\
  last (log c') = Some (RUnauthorized 400 ErrMissingExpField).
Proof.
  intros Hr He Hg Hc. rewrite not_elem_of_cons in He. destruct He as [He Hef].
  destruct (claims_of_generated mw t_exp t_now data tok expire wall c Hr Hg Hc Hef) as (c1 & _ & _ & Hgc).
  set (claims := access_claims mw data expire (time_of mw t_now)) in *.
  assert (claims !! "exp" = None) as Hexp by (apply access_claims_absent; [set_solver|done..]).
  unfold middlewareImpl. rewrite Hgc. unfold exp_verdict. rewrite Hexp.
  rewrite bool_decide_true by (unfold claim_value; by rewrite lookup_fmap, Hexp).
  eexists. split; [done|]. apply unauthorized_log.
Qed.

(** a generated token can be refreshed, whether it has expired or not,
    exactly while its creation is at most [MaxRefresh] ago, in whole
    seconds. *)
Theorem refresh_window mw t_exp t_now (data : U) tok expire wall t c :
  hmac_ready mw -> ExpField mw = "exp" ->
  generateAccessToken mw t_exp t_now data = Ok (tok, expire) -> carries mw c tok ->
  snd (CheckIfTokenExpire mw wall t c) =
    if decide (unix (time_of mw t - MaxRefresh mw) <= unix (time_of mw t_now))
    then Ok (json_decoded <$> access_claims mw data expire (time_of mw t_now)) else Err ErrExpiredToken.
Proof.
  intros Hr He Hg Hc.
  assert (ExpField mw ∉ ["nbf"; "iat"; "orig_iat"]) as Hef by (rewrite He; set_solver).
  destruct (generated_parse laws mw t_exp t_now data tok expire wall c Hr Hg Hc Hef) as [_ Hp].
  unfold CheckIfTokenExpire. rewrite Hp. set (claims := access_claims _ _ _ _).
  assert ((json_decoded <$> claims) !! "orig_iat" = Some (VFloat (unix (time_of mw t_now)))) as Ho.
  { unfold claims, access_claims. by rewrite lookup_fmap, lookup_insert_eq. }
  assert (exists b, exp_verdict (parse_time mw wall) claims =
    if b : bool then Valid (json_decoded <$> claims) else Invalid (Some (json_decoded <$> claims)) [JExpired]) as [b ->].
  { unfold exp_verdict. destruct (claims !! "exp") as [[]|]; try (by exists true).
    by exists (unix (parse_time mw wall) <? n). }
  cbn [snd]. destruct b; [|rewrite bool_decide_true by left]; rewrite Ho;
    destruct (unix (time_of mw t_now) <? _) eqn:E; destruct (decide _); done || lia.
Qed.
End Gate.

(** ** Refreshing *)

Section Refresh.
Context {U : Type} {L : JwtLib5} {S : Type} `{TokenStore S U}.
Implicit Types (mw : GinJWTMiddleware U) (c : ctx) (s : S).

(** *** Two refreshes at once

    [RefreshHandler] enters the store three times: it reads the old token,
    stores the new one and deletes the old one. *)
Inductive pc : Type :=
  | AtGet
  | AtSet (u : U)
  | AtDelete (tk : TokenPair)
  | Succeeded (tk : TokenPair)
  | Failed.

(** What one request brings. *)
Record client : Type := mkClient { c_wall : Z; c_times : readings; c_random : option (list Z) }.

Definition client_step mw (old : string) (cl : client) (p : pc) (s : S) : pc * S :=
  match p with
  | AtGet =>
      let '(r, s') := validateRefreshToken (c_wall cl) old s in
      (match r with Ok u => AtSet u | _ => Failed end, s')
  | AtSet u =>
      let '(r, s') := TokenGenerator mw (c_times cl) (c_random cl) u s in
      (match r with Ok tk => AtDelete tk | _ => Failed end, s')
  | AtDelete tk =>
      let '(e, s') := Delete old s in
      (match e with None | Some ErrRefreshTokenNotFound => Succeeded tk | Some _ => Failed end, s')
  | p => (p, s)
  end.

(** One step of either client. *)
Inductive race mw (old : string) (a b : client) : pc * pc * S -> pc * pc * S -> Prop :=
  | race_a pa pb s pa' s' : client_step mw old a pa s = (pa', s') -> race mw old a b (pa, pb, s) (pa', pb, s')
  | race_b pa pb s pb' s' : client_step mw old b pb s = (pb', s') -> race mw old a b (pa, pb, s) (pa, pb', s').

(** The steps of one client in a row are the handler. *)
Lemma client_steps_handler mw cl t1 t2 c s :
  let old := extractRefreshToken (req c) in
  old <> "" ->
  let '(p1, s1) := client_step mw old cl AtGet s in
  let '(p2, s2) := client_step mw old cl p1 s1 in
  let '(p3, s3) := client_step mw old cl p2 s2 in
  snd (RefreshHandler mw (c_wall cl) (c_times cl) t1 t2 (c_random cl) c s) = s3 /\
  forall tk, p3 = Succeeded tk <->
    exists c', fst (RefreshHandler mw (c_wall cl) (c_times cl) t1 t2 (c_random cl) c s) = Ok c' /\
      last (log c') = Some (RRefresh tk).
Proof.
  intros old Hold. unfold RefreshHandler. fold old. rewrite bool_decide_false by done.
  cbn [client_step]. destruct (validateRefreshToken (c_wall cl) old s) as [[u|e|] s1]; cbn [client_step fst snd].
  2: { split; [done|]. intros tk. split; [done|]. intros (c' & [= <-] & Hl).
       by rewrite (proj1 (unauthorized_log _ _ _ _)) in Hl. }
  2: { split; [done|]. intros tk. split; [done|]. by intros (c' & ? & _). }
  unfold TokenGeneratorWithRevocation.
  destruct (TokenGenerator mw (c_times cl) (c_random cl) u s1) as [[tp|e|] s2]; cbn [client_step fst snd].
  2: { split; [done|]. intros tk. split; [done|]. intros (c' & [= <-] & Hl).
       by rewrite (proj1 (unauthorized_log _ _ _ _)) in Hl. }
  2: { split; [done|]. intros tk. split; [done|]. by intros (c' & ? & _). }
  destruct (Delete old s2) as [e s3].
  assert (forall tk, last (log (c_emit (RRefresh tp) (SetCookie mw t1 t2 (AccessToken tp) c))) = Some (RRefresh tk)
    <-> tp = tk) as Hok.
  { intros tk. cbn [c_emit log]. rewrite last_snoc. naive_solver. }
  destruct e as [[]|]; cbn [fst snd]; (split; [done|]); intros tk.
  all: try (split; [intros [= <-]; eexists; split; [done|]; by apply Hok | intros (c' & [= <-] & Hl); by apply Hok in Hl as ->]).
  all: split; [done|]; intros (c' & [= <-] & Hl); by rewrite (proj1 (unauthorized_log _ _ _ _)) in Hl.
Qed.

Context {SL : TokenStoreLaws S U}.

Lemma TokenGenerator_ok mw t random u s tk s' :
  TokenGenerator mw t random u s = (Ok tk, s') ->
  RefreshToken tk <> "" /\
  entries s' = <[RefreshToken tk := (u, time_of mw (r_refresh t) + RefreshTokenTimeout mw)]> (entries s).
Proof.
  unfold TokenGenerator. destruct (generateAccessToken _ _ _ _) as [[at_ ex]|e|]; [|done|done].
  destruct (generateRefreshToken random) as [rt|e|]; [|done|done].
  unfold storeRefreshToken. destruct (Set_ _ _ _ _ _) as [e s1] eqn:Es.
  destruct e as [e|]; [done|]. cbn. intros [= <- <-].
  apply Set_entries in Es. cbn [RefreshToken]. exact Es.
Qed.

Lemma Get_live now tok s u : fst (Get now tok s) = Ok u -> entries (snd (Get now tok s)) = entries s.
Proof.
  intros Hg. destruct (Get_entries now tok s) as [E|(u' & e & Hs & He & _)]; [done|].
  apply Get_ok in Hg as (_ & e' & Hs' & He'). rewrite Hs in Hs'. injection Hs' as -> ->. lia.
Qed.

(** A refresh with a token that is not in the store is refused. *)
Lemma refresh_refused mw wall t t1 t2 random c s :
  extractRefreshToken (req c) <> "" -> entries s !! extractRefreshToken (req c) = None ->
  exists c' s' err, RefreshHandler mw wall t t1 t2 random c s = (Ok c', s') /\
    last (log c') = Some (RUnauthorized 401 err).
Proof.
  intros Hne Hno. unfold RefreshHandler. rewrite bool_decide_false by done. unfold validateRefreshToken.
  pose proof (Get_ok wall (extractRefreshToken (req c)) s) as Hg.
  pose proof (Get_no_panic wall (extractRefreshToken (req c)) s) as Hp.
  destruct (Get wall _ s) as [[u|e|] s1]; cbn [fst] in *; [|clear Hg Hp|done].
  - destruct (proj1 (Hg u) eq_refl) as (_ & e & He & _). congruence.
  - destruct e; do 3 eexists; (split; [reflexivity|]); apply unauthorized_log.
Qed.

(** The three steps of a client that succeeds. *)
Lemma client_success mw old cl s p1 s1 p2 s2 tk s3 :
  old <> "" ->
  client_step mw old cl AtGet s = (p1, s1) -> client_step mw old cl p1 s1 = (p2, s2) ->
  client_step mw old cl p2 s2 = (Succeeded tk, s3) ->
  exists u e, entries s !! old = Some (u, e) /\ c_wall cl <= e /\
    entries s3 = delete old
      (<[RefreshToken tk := (u, time_of mw (r_refresh (c_times cl)) + RefreshTokenTimeout mw)]> (entries s)).
Proof.
  intros Hne E1 E2 E3. cbn [client_step] in E1. unfold validateRefreshToken in E1.
  pose proof (Get_ok (c_wall cl) old s) as Hg. pose proof (Get_live (c_wall cl) old s) as Hgl.
  destruct (Get (c_wall cl) old s) as [[u|e|] s1']; cbn [fst snd] in Hg, Hgl.
  2: { destruct e; injection E1 as <- <-; injection E2 as <- <-; discriminate E3. }
  2: { injection E1 as <- <-. injection E2 as <- <-. discriminate E3. }
  injection E1 as <- <-. destruct (proj1 (Hg u) eq_refl) as (_ & e & He & Hle).
  exists u, e. split; [done|]. split; [done|]. specialize (Hgl u eq_refl).
  cbn [client_step] in E2. destruct (TokenGenerator mw _ _ u s1') as [[tp|e2|] s2'] eqn:Et.
  2,3: injection E2 as <- <-; discriminate E3.
  injection E2 as <- <-. apply TokenGenerator_ok in Et as [_ Et].
  cbn [client_step] in E3. pose proof (Delete_not_found old s2') as Hnf.
  destruct (Delete old s2') as [d s3'] eqn:Ed. pose proof (Delete_entries _ _ _ _ Hne Ed) as Hde.
  destruct d as [[]|]; try discriminate E3; injection E3 as <- <-; rewrite Hde, Et, Hgl; [|done].
  rewrite <- Hgl, <- Et. symmetry. apply delete_id. by apply Hnf.
Qed.

(** C12: a refresh that succeeds had a live refresh token, and rotates it:
    the store afterwards is the one before with the new token, for the same
    user data and the configured time, and without the old one; the old
    token is then refused whenever it comes again. *)
Theorem refresh_rotates mw wall t t1 t2 random c s c' s' tk :
  RefreshHandler mw wall t t1 t2 random c s = (Ok c', s') ->
  last (log c') = Some (RRefresh tk) ->
  let old := extractRefreshToken (req c) in
  (exists u e, entries s !! old = Some (u, e) /\ wall <= e /\
    entries s' = delete old
      (<[RefreshToken tk := (u, time_of mw (r_refresh t) + RefreshTokenTimeout mw)]> (entries s))) /\
  forall wall' t' t1' t2' random' c2, extractRefreshToken (req c2) = old ->
    exists c2' s2' err, RefreshHandler mw wall' t' t1' t2' random' c2 s' = (Ok c2', s2') /\
      last (log c2') = Some (RUnauthorized 401 err).
Proof.
  intros Hr Hl old.
  assert (old <> "") as Hne.
  { intros E. unfold RefreshHandler in Hr. fold old in Hr. rewrite bool_decide_true in Hr by done.
    injection Hr as <- <-. by rewrite (proj1 (unauthorized_log _ _ _ _)) in Hl. }
  assert (exists u e, entries s !! old = Some (u, e) /\ wall <= e /\
    entries s' = delete old
      (<[RefreshToken tk := (u, time_of mw (r_refresh t) + RefreshTokenTimeout mw)]> (entries s))) as Hent.
  { pose proof (client_steps_handler mw (mkClient wall t random) t1 t2 c s Hne) as Hst. fold old in Hst.
    destruct (client_step mw old _ AtGet s) as [p1 s1] eqn:E1.
    destruct (client_step mw old _ p1 s1) as [p2 s2] eqn:E2.
    destruct (client_step mw old _ p2 s2) as [p3 s3] eqn:E3.
    cbn [c_wall c_times c_random] in Hst. rewrite Hr in Hst. cbn [fst snd] in Hst. destruct Hst as [<- Hst].
    rewrite (proj2 (Hst tk)) in E3 by by exists c'.
    apply (client_success mw old (mkClient wall t random) s p1 s1 p2 s2 tk s' Hne E1 E2 E3). }
  split; [done|]. intros wall' t' t1' t2' random' c2 Hc2. apply refresh_refused; rewrite Hc2; [done|].
  destruct Hent as (u & e & _ & _ & ->). apply lookup_delete_eq.
Qed.
End Refresh.

(** ** Two clients with the same refresh token *)

Section Race.
Context {U : Type} {L : JwtLib5}.
Implicit Types mw : GinJWTMiddleware U.
Abbreviation mstore := (gmap string (RefreshTokenData U)).

(** A token generation on the in-memory store that succeeds. *)
Lemma memory_generate mw t bytes u (s : mstore) :
  is_ok (generateAccessToken mw (r_exp t) (r_iat t) u) = true -> URLEncode bytes <> "" ->
  exists tk, RefreshToken tk = URLEncode bytes /\
  TokenGenerator mw t (Some bytes) u s =
    (Ok tk, <[URLEncode bytes := mkData u (time_of mw (r_refresh t) + RefreshTokenTimeout mw) (r_refresh t)]> s).
Proof.
  intros Hg Hb. unfold TokenGenerator. destruct (generateAccessToken _ _ _ _) as [[tok ex]|e|]; [|done|done].
  cbn [generateRefreshToken]. unfold storeRefreshToken. cbn [Set_ Memory.memory_store].
  unfold Memory.Set'. rewrite bool_decide_false by done. cbn [fmap option_fmap option_map].
  by eexists (mkToken _ _ _ _ _).
Qed.

(** a refresh token can be spent twice: when two requests with the same
    live token interleave, both succeed and the store ends with two live
    refresh tokens for its user, although the old token was to be revoked by
    the first use. *)
Theorem refresh_token_spent_twice mw (old : string) (u : U) e created (s : mstore) (a b : client) ba bb :
  old <> "" -> s !! old = Some (mkData u e created) -> c_wall a <= e -> c_wall b <= e ->
  c_random a = Some ba -> c_random b = Some bb ->
  URLEncode ba <> "" -> URLEncode bb <> "" -> URLEncode ba <> URLEncode bb ->
  URLEncode ba <> old -> URLEncode bb <> old ->
  is_ok (generateAccessToken mw (r_exp (c_times a)) (r_iat (c_times a)) u) = true ->
  is_ok (generateAccessToken mw (r_exp (c_times b)) (r_iat (c_times b)) u) = true ->
  exists ta tb (s' : mstore),
    star (race mw old a b) (AtGet, AtGet, s) (Succeeded ta, Succeeded tb, s') /\
    RefreshToken ta <> RefreshToken tb /\
    UserData <$> s' !! RefreshToken ta = Some u /\ UserData <$> s' !! RefreshToken tb = Some u.
Proof.
  intros Hne Hs Hwa Hwb Hra Hrb Hea Heb Hab Hao Hbo Hga Hgb.
  assert (forall wall, wall <= e -> Get wall old s = (Ok u, s)) as Hget.
  { intros wall Hw. cbn. unfold Memory.Get', Memory.get_read, IsExpired.
    rewrite bool_decide_false by done. rewrite Hs. cbn [Expiry]. by replace (e <? wall) with false by lia. }
  assert (forall s0 : mstore, Delete old s0 = (None, delete old s0)) as Hdel.
  { intros s0. cbn. unfold Memory.Delete'. by rewrite bool_decide_false. }
  destruct (memory_generate mw (c_times a) ba u s Hga Hea) as (ta & Hta & Ga).
  set (s1 := <[URLEncode ba := _]> s : mstore) in *.
  destruct (memory_generate mw (c_times b) bb u s1 Hgb Heb) as (tb & Htb & Gb).
  set (s2 := <[URLEncode bb := _]> s1 : mstore) in *.
  exists ta, tb, (delete old (delete old s2)). split.
  - eapply star_step. { apply race_a. cbn [client_step]. unfold validateRefreshToken. by rewrite Hget. }
    eapply star_step. { apply race_b. cbn [client_step]. unfold validateRefreshToken. by rewrite Hget. }
    eapply star_step. { apply race_a. cbn [client_step]. by rewrite Hra, Ga. }
    eapply star_step. { apply race_b. cbn [client_step]. by rewrite Hrb, Gb. }
    eapply star_step. { apply race_a. cbn [client_step]. by rewrite Hdel. }
    apply star_one. apply race_b. cbn [client_step]. by rewrite Hdel.
  - rewrite Hta, Htb. split; [done|]. unfold s2, s1. rewrite !lookup_delete_ne by done.
    rewrite lookup_insert_ne, !lookup_insert_eq by done. done.
Qed.
End Race.

(** ** Witnesses *)

Definition sample : GinJWTMiddleware string := {|
  Realm := ""; SigningAlgorithm := ""; Key := Some "secret"; KeyFunc := None; Timeout := 0; TimeoutFunc := None;
  MaxRefresh := hour; Authenticator := None; Authorizer := None;
  PayloadFunc := Some (fun u => <["identity" := VStr u]> (<["exp" := VInt 0]> ∅)); IdentityHandler := None;
  IdentityKey := ""; TokenLookup := ""; TokenHeadName := " Bearer "; TimeFunc := None;
  PrivKeyFile := ""; PrivKeyBytes := None; PubKeyFile := ""; PrivateKeyPassphrase := ""; PubKeyBytes := None;
  privKey := None; pubKey := None; SendCookie := true; CookieMaxAge := 0; CookieName := ""; CookieSameSite := 0;
  SendAuthorization := true; DisabledAbort := false; ParseOptions := []; ExpField := "";
  RefreshTokenTimeout := 0; RefreshTokenStore := NoStore; RefreshTokenLength := 0; UseRedisStore := false |}.

Definition sample_init : result error (GinJWTMiddleware string) :=
  MiddlewareInit (fun _ => None) (fun _ _ => None) (fun _ => None) (fun _ => None) false sample.

Definition sample_ready : GinJWTMiddleware string :=
  with_keys (None, None) [time_of sample] (init_defaults false sample).

Lemma sample_init_ok : sample_init = Ok sample_ready.
Proof. reflexivity. Qed.

Definition request_with (auth body : string) : request :=
  mkRequest (fun k => if bool_decide (k = "Authorization") then auth else "") (fun _ => "")
    (fun k => if bool_decide (k = "refresh_token") then body else "") (fun _ => "") (fun _ => "") None.
Definition context_with (auth body : string) : ctx := mkCtx (request_with auth body) ∅ false [].

Lemma sample_hmac_ready : hmac_ready (L := toy_lib5) sample_ready.
Proof. repeat split. Qed.

Lemma sample_signs t1 t2 u :
  exists tok, generateAccessToken (L := toy_lib5) sample_ready t1 t2 u = Ok (tok, t1 + hour).
Proof. by eexists. Qed.

Lemma init_spec_witness : TokenLookup sample_ready <> "" /\ RefreshTokenStore sample_ready <> NoStore.
Proof.
  destruct (init_spec (fun _ => None) (fun _ _ => None) (fun _ => None) (fun _ => None) false sample
    sample_ready sample_init_ok) as (_ & H1 & _ & _ & _ & _ & _ & _ & _ & _ & H2 & _).
  split; [exact H1|exact H2].
Defined.

Lemma first_source_wins_witness :
  match snd (ParseToken (L := toy_lib5) sample_ready 0 (context_with "Bearer abc" "")) with
  | Ok p => p = ParseTokenString (L := toy_lib5) sample_ready 0 "abc"
  | Err _ => ("abc" : string) = ""
  | Panic => False
  end.
Proof.
  apply (first_source_wins (L := toy_lib5) sample_ready 0 (context_with "Bearer abc" "")).
  repeat constructor.
Defined.

Lemma generated_token_until_expiry_witness :
  exists tok, generateAccessToken (L := toy_lib5) sample_ready 0 0 "alice" = Ok (tok, hour) /\
  (exists c', middlewareImpl (L := toy_lib5) sample_ready minute (context_with ("Bearer" +:+ " " +:+ tok) "") = Ok c' /\
   aborted c' = false) /\
  (exists c', middlewareImpl (L := toy_lib5) sample_ready hour (context_with ("Bearer" +:+ " " +:+ tok) "") = Ok c' /\
   aborted c' = true).
Proof.
  destruct (sample_signs 0 0 "alice") as [tok Ht]. exists tok. split; [exact Ht|]. split.
  - destruct (generated_token_until_expiry toy_laws5 _ _ _ _ _ _ sample_ready 0 0 "alice" tok _ minute
      (context_with ("Bearer" +:+ " " +:+ tok) "") sample_init_ok sample_hmac_ready eq_refl ltac:(done) eq_refl eq_refl
      eq_refl Ht eq_refl) as (_ & c' & Hc & H).
    exists c'. split; [exact Hc|]. rewrite decide_True in H by (vm_compute; reflexivity). exact (proj1 H).
  - destruct (generated_token_until_expiry toy_laws5 _ _ _ _ _ _ sample_ready 0 0 "alice" tok _ hour
      (context_with ("Bearer" +:+ " " +:+ tok) "") sample_init_ok sample_hmac_ready eq_refl ltac:(done) eq_refl eq_refl
      eq_refl Ht eq_refl) as (_ & c' & Hc & H).
    exists c'. split; [exact Hc|]. rewrite decide_False in H by (vm_compute; congruence). exact (proj1 H).
Defined.

Definition sample_custom : GinJWTMiddleware string := {|
  Realm := ""; SigningAlgorithm := "HS256"; Key := Some "secret"; KeyFunc := None; Timeout := hour; TimeoutFunc := None;
  MaxRefresh := hour; Authenticator := None; Authorizer := None; PayloadFunc := None; IdentityHandler := None;
  IdentityKey := "identity"; TokenLookup := "header:Authorization"; TokenHeadName := "Bearer"; TimeFunc := None;
  PrivKeyFile := ""; PrivKeyBytes := None; PubKeyFile := ""; PrivateKeyPassphrase := ""; PubKeyBytes := None;
  privKey := None; pubKey := None; SendCookie := false; CookieMaxAge := 0; CookieName := ""; CookieSameSite := 0;
  SendAuthorization := false; DisabledAbort := false; ParseOptions := [id]; ExpField := "expires_at";
  RefreshTokenTimeout := hour; RefreshTokenStore := InMemoryStore; RefreshTokenLength := 32; UseRedisStore := false |}.

Lemma custom_exp_field_rejected_witness :
  exists tok expire c', generateAccessToken (L := toy_lib5) sample_custom 0 0 "alice" = Ok (tok, expire) /\
  middlewareImpl (L := toy_lib5) sample_custom 0 (context_with ("Bearer" +:+ " " +:+ tok) "") = Ok c' /\
  last (log c') = Some (RUnauthorized 400 ErrMissingExpField).
Proof.
  assert (exists tok expire, generateAccessToken (L := toy_lib5) sample_custom 0 0 "alice" = Ok (tok, expire))
    as (tok & expire & Ht) by (do 2 eexists; reflexivity).
  exists tok, expire.
  destruct (custom_exp_field_rejected toy_laws5 sample_custom 0 0 "alice" tok expire 0
    (context_with ("Bearer" +:+ " " +:+ tok) "")) as (c' & Hc & Hl).
  - repeat split.
  - vm_compute. intros Hin. repeat (apply elem_of_cons in Hin as [?|Hin]; [done|]). by apply not_elem_of_nil in Hin.
  - exact Ht.
  - reflexivity.
  - exists c'. split; [exact Ht|]. split; [exact Hc|exact Hl].
Defined.

Lemma refresh_window_witness :
  exists tok claims, generateAccessToken (L := toy_lib5) sample_ready 0 0 "alice" = Ok (tok, hour) /\
  snd (CheckIfTokenExpire (L := toy_lib5) sample_ready (2 * hour) hour (context_with ("Bearer" +:+ " " +:+ tok) ""))
    = Ok claims.
Proof.
  destruct (sample_signs 0 0 "alice") as [tok Ht]. exists tok. eexists. split; [exact Ht|].
  rewrite (refresh_window toy_laws5 sample_ready 0 0 "alice" tok _ (2 * hour) hour
    (context_with ("Bearer" +:+ " " +:+ tok) "") sample_hmac_ready eq_refl Ht eq_refl).
  rewrite decide_True by (vm_compute; congruence). reflexivity.
Defined.

Definition sample_store : gmap string (RefreshTokenData string) := <["old" := mkData "alice" hour 0]> ∅.
Definition sample_times : readings := mkReadings minute minute minute minute.

Lemma refresh_rotates_witness :
  exists c' s', RefreshHandler (L := toy_lib5) sample_ready minute sample_times minute minute (Some [1; 2; 3])
    (context_with "" "old") sample_store = (Ok c', s') /\
  entries s' !! "old" = None /\ (exists x, entries s' !! "AQID" = Some x).
Proof.
  assert (exists c' s' tk, RefreshHandler (L := toy_lib5) sample_ready minute sample_times minute minute (Some [1; 2; 3])
    (context_with "" "old") sample_store = (Ok c', s') /\ last (log c') = Some (RRefresh tk) /\
    RefreshToken tk = "AQID") as (c' & s' & tk & Hr & Hl & Htk).
  { do 3 eexists. split; [reflexivity|]. split; reflexivity. }
  exists c', s'. split; [exact Hr|].
  destruct (refresh_rotates sample_ready minute sample_times minute minute (Some [1; 2; 3]) (context_with "" "old")
    sample_store c' s' tk Hr Hl) as [(u & e & _ & _ & ->) _].
  rewrite Htk. change (extractRefreshToken (req (context_with "" "old"))) with ("old" : string).
  split; [apply lookup_delete_eq|]. eexists. rewrite lookup_delete_ne by done. apply lookup_insert_eq.
Defined.

Lemma refresh_token_spent_twice_witness :
  exists ta tb s', star (race (L := toy_lib5) sample_ready "old" (mkClient minute sample_times (Some [1; 2; 3]))
      (mkClient minute sample_times (Some [4; 5; 6])))
    (AtGet, AtGet, sample_store) (Succeeded ta, Succeeded tb, s') /\
  RefreshToken ta <> RefreshToken tb.
Proof.
  destruct (refresh_token_spent_twice (L := toy_lib5) sample_ready "old" "alice" hour 0 sample_store
    (mkClient minute sample_times (Some [1; 2; 3])) (mkClient minute sample_times (Some [4; 5; 6])) [1; 2; 3] [4; 5; 6])
    as (ta & tb & s' & Hs & Hne & _).
  1-11: vm_compute; (congruence || reflexivity).
  1-2: reflexivity.
  exists ta, tb, s'. split; [exact Hs|exact Hne].
Defined.

End Jwt.
