(* ===== verification/Cipher.v ===== *)
(** * Symmetric encryption (pkg/gocrypto: aes.go, des.go, option.go; pkg/gocrypto/wcipher)

    Padding, the block and stream modes, the cipher objects with the state
    their two directions keep between calls, and the AES and DES entry
    points.  The theorems: unpadding inverts padding and when it panics,
    decryption inverts encryption message by message for every mode, the
    entry points round trip, and that the CFB mode is OFB.

    A byte is a number below 256.  The block primitive of crypto/aes and
    crypto/des is a [Block] with its laws as hypotheses; the modes that
    crypto/cipher builds on it (CBC, OFB, CTR) are written out. *)

From S2P Require Import Prelude GoStr.
From Stdlib Require Import Ascii.

Module Cipher.

Abbreviation bytes := (list Z).
Definition is_byte (b : Z) : Prop := 0 <= b < 256.

(** [cipher.Block]. *)
Record Block : Type := mkBlock {
  block_size : nat;
  block_encrypt : bytes -> bytes;
  block_decrypt : bytes -> bytes }.

(** ** Padding (padding.go) *)

Record Padding : Type := mkPadding {
  pad : bytes -> nat -> bytes;
  unpad : bytes -> result unit bytes }.

(** The conversion to [byte] wraps. *)
Definition pkcs57_pad (src : bytes) (blockSize : nat) : bytes :=
  let paddingSize := (blockSize - length src mod blockSize)%nat in
  src ++ repeat (wrap8 (Z.of_nat paddingSize)) paddingSize.

(** [src[length-1]] and the slice panic out of range. *)
Definition pkcs57_unpad (src : bytes) : result unit bytes :=
  let length_ := Z.of_nat (length src) in
  unPadding ← at_index src (length_ - 1);
  if decide (0 <= length_ - unPadding <= length_) then Ok (take (Z.to_nat (length_ - unPadding)) src)
  else Panic.

Definition NewPKCS57Padding : Padding := mkPadding pkcs57_pad pkcs57_unpad.

(** ** Block modes (ecb.go and crypto/cipher) *)

(** A block mode maps its state and a block to a block and the next state. *)
Record BlockMode : Type := mkMode {
  mode_size : nat;
  mode_step : bytes -> bytes -> bytes * bytes;
  mode_state : bytes }.

Definition xor_bytes : bytes -> bytes -> bytes := zip_with Z.lxor.

Definition ecb_encrypt_step (b : Block) (st p : bytes) : bytes * bytes := (block_encrypt b p, st).
Definition ecb_decrypt_step (b : Block) (st c : bytes) : bytes * bytes := (block_decrypt b c, st).
Definition NewECBEncrypt (b : Block) : BlockMode := mkMode (block_size b) (ecb_encrypt_step b) [].
Definition NewECBDecrypt (b : Block) : BlockMode := mkMode (block_size b) (ecb_decrypt_step b) [].

(** [cipher.NewCBCEncrypter] and [cipher.NewCBCDecrypter]: the state is the
    last ciphertext block. *)
Definition cbc_encrypt_step (b : Block) (iv p : bytes) : bytes * bytes :=
  let c := block_encrypt b (xor_bytes p iv) in (c, c).
Definition cbc_decrypt_step (b : Block) (iv c : bytes) : bytes * bytes :=
  (xor_bytes (block_decrypt b c) iv, c).
Definition NewCBCEncrypter (b : Block) (iv : bytes) : BlockMode := mkMode (block_size b) (cbc_encrypt_step b) iv.
Definition NewCBCDecrypter (b : Block) (iv : bytes) : BlockMode := mkMode (block_size b) (cbc_decrypt_step b) iv.

(** The loop of [CryptBlocks]; the length of the input is enough fuel. *)
Fixpoint crypt_loop (fuel : nat) (size : nat) (step : bytes -> bytes -> bytes * bytes) (st src : bytes)
    : bytes * bytes :=
  match src, fuel with
  | [], _ | _, O => ([], st)
  | _, S fuel' =>
      let '(out, st') := step st (take size src) in
      let '(rest, st'') := crypt_loop fuel' size step st' (drop size src) in
      (out ++ rest, st'')
  end.

Definition CryptBlocks (m : BlockMode) (src : bytes) : result unit (bytes * BlockMode) :=
  if negb (length src mod mode_size m =? 0)%nat then Panic
  else
    let '(dst, st) := crypt_loop (length src) (mode_size m) (mode_step m) (mode_state m) src in
    Ok (dst, mkMode (mode_size m) (mode_step m) st).

(** ** Streams (crypto/cipher) *)

(** The key stream and how much of it was used. *)
Record Stream : Type := mkStream { key_stream : nat -> Z; position : nat }.

Definition stream_of_blocks (size : nat) (block : nat -> bytes) (i : nat) : Z :=
  nth (i mod size) (block (i / size)%nat) 0.

Fixpoint ofb_block (b : Block) (iv : bytes) (j : nat) : bytes :=
  match j with O => block_encrypt b iv | S j' => block_encrypt b (ofb_block b iv j') end.
Definition NewOFB (b : Block) (iv : bytes) : Stream := mkStream (stream_of_blocks (block_size b) (ofb_block b iv)) 0.

(** The counter is the big-endian number of [iv] plus the block number. *)
Definition from_be (l : bytes) : Z := foldl (fun acc b => acc * 256 + b) 0 l.
Fixpoint to_be (n : nat) (v : Z) : bytes :=
  match n with O => [] | S n' => to_be n' (v / 256) ++ [v mod 256] end.
Definition ctr_block (b : Block) (iv : bytes) (j : nat) : bytes :=
  block_encrypt b (to_be (length iv) (from_be iv + Z.of_nat j)).
Definition NewCTR (b : Block) (iv : bytes) : Stream := mkStream (stream_of_blocks (block_size b) (ctr_block b iv)) 0.

Definition XORKeyStream (s : Stream) (src : bytes) : bytes * Stream :=
  (imap (fun i x => Z.lxor x (key_stream s (position s + i))) src,
   mkStream (key_stream s) (position s + length src)).

(** ** Ciphers (cipher.go) *)

Inductive Cipher : Type :=
  | blockCipher (padding : Padding) (encrypt decrypt : BlockMode)
  | streamCipher (encrypt decrypt : Stream).

Definition NewBlockCipher : Padding -> BlockMode -> BlockMode -> Cipher := blockCipher.
Definition NewStreamCipher : Stream -> Stream -> Cipher := streamCipher.

Definition Encrypt (c : Cipher) (plaintext : bytes) : result unit (bytes * Cipher) :=
  match c with
  | blockCipher padding encrypt decrypt =>
      '(ciphertext, encrypt') ← CryptBlocks encrypt (pad padding plaintext (mode_size encrypt));
      Ok (ciphertext, blockCipher padding encrypt' decrypt)
  | streamCipher encrypt decrypt =>
      let '(ciphertext, encrypt') := XORKeyStream encrypt plaintext in
      Ok (ciphertext, streamCipher encrypt' decrypt)
  end.

Definition Decrypt (c : Cipher) (ciphertext : bytes) : result unit (bytes * Cipher) :=
  match c with
  | blockCipher padding encrypt decrypt =>
      '(plaintext, decrypt') ← CryptBlocks decrypt ciphertext;
      plaintext ← unpad padding plaintext;
      Ok (plaintext, blockCipher padding encrypt decrypt')
  | streamCipher encrypt decrypt =>
      let '(plaintext, decrypt') := XORKeyStream decrypt ciphertext in
      Ok (plaintext, streamCipher encrypt decrypt')
  end.

(** ** Modes (mode.go) *)

(** [cipherMode] is the base type, whose [Cipher] is nil. *)
Inductive CipherMode : Type :=
  | cipherMode
  | ecbCipherModel (padding : Padding)
  | cbcCipherModel (padding : Padding)
  | ofbCipherModel
  | ctrCipherModel.

Definition NewECBMode : CipherMode := ecbCipherModel NewPKCS57Padding.
Definition NewCBCMode : CipherMode := cbcCipherModel NewPKCS57Padding.
Definition NewCFBMode : CipherMode := ofbCipherModel.
Definition NewOFBMode : CipherMode := ofbCipherModel.
Definition NewCTRMode : CipherMode := ctrCipherModel.

(** The receiver after the call and the returned mode: the stream modes
    promote the method of the embedded base type, which returns the base. *)
Definition SetPadding (m : CipherMode) (padding : Padding) : CipherMode * CipherMode :=
  match m with
  | ecbCipherModel _ => (ecbCipherModel padding, ecbCipherModel padding)
  | cbcCipherModel _ => (cbcCipherModel padding, cbcCipherModel padding)
  | cipherMode => (cipherMode, cipherMode)
  | ofbCipherModel => (ofbCipherModel, cipherMode)
  | ctrCipherModel => (ctrCipherModel, cipherMode)
  end.

Definition mode_cipher (m : CipherMode) (b : Block) (iv : bytes) : option Cipher :=
  match m with
  | cipherMode => None
  | ecbCipherModel padding => Some (NewBlockCipher padding (NewECBEncrypt b) (NewECBDecrypt b))
  | cbcCipherModel padding => Some (NewBlockCipher padding (NewCBCEncrypter b iv) (NewCBCDecrypter b iv))
  | ofbCipherModel => Some (NewStreamCipher (NewOFB b iv) (NewOFB b iv))
  | ctrCipherModel => Some (NewStreamCipher (NewCTR b iv) (NewCTR b iv))
  end.

(** ** Entry points (factor.go, aes.go, des.go, option.go)

    The AES and the DES functions have the same bodies over another
    primitive, [NewCipher] below; the key is a field of the options. *)

Inductive error : Type := ErrKeySize | ErrUnknownMode | ErrHex.

Section Entry.
(** [aes.NewCipher] or [des.NewCipher]. *)
Variable NewCipher : bytes -> option Block.

(** The initial vector is the head of the key; a nil cipher is [None]. *)
Definition NewAESWith (key : bytes) (mode : CipherMode) : result error (option Cipher) :=
  match NewCipher key with
  | None => Err ErrKeySize
  | Some block =>
      if (length key <? block_size block)%nat then Panic
      else Ok (mode_cipher mode block (take (block_size block) key))
  end.
Definition NewAES (key : bytes) : result error (option Cipher) := NewAESWith key NewECBMode.

Definition getCipherMode (mode : string) : result error CipherMode :=
  if bool_decide (mode = "ECB") then Ok NewECBMode
  else if bool_decide (mode = "CBC") then Ok NewCBCMode
  else if bool_decide (mode = "CFB") then Ok NewCFBMode
  else if bool_decide (mode = "CTR") then Ok NewCTRMode
  else Err ErrUnknownMode.

(** Calling a nil cipher panics. *)
Definition use_cipher (f : Cipher -> result unit (bytes * Cipher)) (c : option Cipher) : result error bytes :=
  match c with
  | Some c => match f c with Ok (out, _) => Ok out | _ => Panic end
  | None => Panic
  end.

Definition aesEncryptByMode (mode : string) (rawData key : bytes) : result error bytes :=
  cipherMode ← getCipherMode mode;
  cip ← NewAESWith key cipherMode;
  use_cipher (fun c => Encrypt c rawData) cip.
Definition aesDecryptByMode (mode : string) (cipherData key : bytes) : result error bytes :=
  cipherMode ← getCipherMode mode;
  cip ← NewAESWith key cipherMode;
  use_cipher (fun c => Decrypt c cipherData) cip.

(** [aesOptions] and [desOptions]. *)
Record options : Type := mkOptions { key : bytes; mode : string }.
Definition option_fn : Type := options -> options.
Definition WithKey (k : bytes) (o : options) : options := mkOptions k (mode o).
Definition WithModeCBC (o : options) : options := mkOptions (key o) "CBC".
Definition WithModeECB (o : options) : options := mkOptions (key o) "ECB".
Definition WithModeCFB (o : options) : options := mkOptions (key o) "CFB".
Definition WithModeCTR (o : options) : options := mkOptions (key o) "CTR".
Definition apply (o : options) (opts : list option_fn) : options := foldl (fun o opt => opt o) o opts.

Fixpoint bytes_of_string (s : string) : bytes :=
  match s with EmptyString => [] | String a s' => Z.of_nat (nat_of_ascii a) :: bytes_of_string s' end.
Fixpoint string_of_bytes (l : bytes) : string :=
  match l with [] => "" | b :: l' => String (ascii_of_nat (Z.to_nat b)) (string_of_bytes l') end.

Definition defaultAesOptions : options := mkOptions (bytes_of_string "mKoF_pL,NjI9=I;w") "ECB".
Definition defaultDesOptions : options := mkOptions (bytes_of_string "VgY7*uHb") "ECB".

(** [defaults] is one of the two above. *)
Definition AesEncrypt (defaults : options) (rawData : bytes) (opts : list option_fn) : result error bytes :=
  let o := apply defaults opts in aesEncryptByMode (mode o) rawData (key o).
Definition AesDecrypt (defaults : options) (cipherData : bytes) (opts : list option_fn) : result error bytes :=
  let o := apply defaults opts in aesDecryptByMode (mode o) cipherData (key o).

(** encoding/hex. *)
Definition hex_digit (n : Z) : ascii := ascii_of_nat (Z.to_nat (if n <? 10 then n + 48 else n + 87)).
Definition hex_value (c : ascii) : option Z :=
  let n := Z.of_nat (nat_of_ascii c) in
  if (48 <=? n) && (n <=? 57) then Some (n - 48)
  else if (97 <=? n) && (n <=? 102) then Some (n - 87)
  else if (65 <=? n) && (n <=? 70) then Some (n - 55)
  else None.
Fixpoint hex_encode (l : bytes) : string :=
  match l with
  | [] => ""
  | b :: l' => String (hex_digit (b / 16)) (String (hex_digit (b mod 16)) (hex_encode l'))
  end.
Fixpoint hex_decode (s : string) : option bytes :=
  match s with
  | EmptyString => Some []
  | String a (String b s') =>
      x ← hex_value a; y ← hex_value b; l ← hex_decode s'; Some (x * 16 + y :: l)
  | String _ EmptyString => None
  end.

Definition AesEncryptHex (defaults : options) (rawData : string) (opts : list option_fn)
    : result error string :=
  cipherData ← AesEncrypt defaults (bytes_of_string rawData) opts; Ok (hex_encode cipherData).
Definition AesDecryptHex (defaults : options) (cipherStr : string) (opts : list option_fn)
    : result error string :=
  match hex_decode cipherStr with
  | None => Err ErrHex
  | Some cipherData => rawData ← AesDecrypt defaults cipherData opts; Ok (string_of_bytes rawData)
  end.
End Entry.

(** ** DES

    des.go repeats aes.go over [des.NewCipher]. *)
Definition NewDESWith (des_NewCipher : bytes -> option Block) := NewAESWith des_NewCipher.
Definition NewDES (des_NewCipher : bytes -> option Block) := NewAES des_NewCipher.
Definition desEncryptByMode (des_NewCipher : bytes -> option Block) := aesEncryptByMode des_NewCipher.
Definition desDecryptByMode (des_NewCipher : bytes -> option Block) := aesDecryptByMode des_NewCipher.
Definition DesEncrypt (des_NewCipher : bytes -> option Block) := AesEncrypt des_NewCipher.
Definition DesDecrypt (des_NewCipher : bytes -> option Block) := AesDecrypt des_NewCipher.
Definition DesEncryptHex (des_NewCipher : bytes -> option Block) := AesEncryptHex des_NewCipher.
Definition DesDecryptHex (des_NewCipher : bytes -> option Block) := AesDecryptHex des_NewCipher.

Arguments XORKeyStream : simpl never.

(** ** Padding *)

Lemma lookup_repeat {A} (x : A) n i : (i < n)%nat -> repeat x n !! i = Some x.
Proof. revert i. induction n as [|n IH]; intros [|i] H; cbn; [lia..|done|]. apply IH. lia. Qed.

Lemma pad_size bs n : (1 <= bs)%nat -> (1 <= bs - n mod bs <= bs)%nat.
Proof. intros Hbs. pose proof (Nat.mod_upper_bound n bs ltac:(lia)). lia. Qed.

Lemma pkcs57_pad_length src bs :
  (1 <= bs)%nat -> exists k, length (pkcs57_pad src bs) = (k * bs)%nat.
Proof.
  intros Hbs. exists (S (length src / bs)). unfold pkcs57_pad. rewrite length_app, repeat_length.
  pose proof (Nat.div_mod_eq (length src) bs). pose proof (pad_size bs (length src) Hbs). nia.
Qed.

Lemma pkcs57_pad_bytes src bs : Forall is_byte src -> Forall is_byte (pkcs57_pad src bs).
Proof.
  intros Hs. apply Forall_app. split; [done|]. rewrite Forall_forall. intros x Hx.
  apply list_elem_of_In, repeat_spec in Hx as ->. apply Z.mod_pos_bound. lia.
Qed.

(** UnPadding keeps the head of its input whose length the last byte tells. *)
Lemma pkcs57_unpad_last src b :
  last src = Some b -> 0 <= b ->
  pkcs57_unpad src =
    if decide (b <= Z.of_nat (length src)) then Ok (take (Z.to_nat (Z.of_nat (length src) - b)) src) else Panic.
Proof.
  rewrite last_lookup. intros Hb Hpos. unfold pkcs57_unpad.
  destruct src as [|x src]; [done|].
  replace (Z.of_nat (length (x :: src)) - 1) with (Z.of_nat (pred (length (x :: src)))) by (cbn; lia).
  rewrite (at_index_lookup _ _ b) by done. cbn [mbind result_bind].
  repeat case_decide; [done|lia|lia|done].
Qed.

(** For a block size from 1 to 255, the padded message is a positive
    number of whole blocks, longer than the message by at most one block, and
    UnPadding gives the message back; for a block size of 256 or more, the
    size of the padding may not fit in its byte, and it does not. *)
Theorem padding_roundtrip (src : bytes) (bs : nat) :
  (1 <= bs)%nat ->
  (exists k, length (pkcs57_pad src bs) = (S k * bs)%nat) /\
  (length src < length (pkcs57_pad src bs) <= length src + bs)%nat /\
  (pkcs57_unpad (pkcs57_pad src bs) = Ok src <-> (bs - length src mod bs < 256)%nat).
Proof.
  intros Hbs. pose proof (pad_size bs (length src) Hbs) as Hn. split; [|split].
  - exists (length src / bs)%nat. unfold pkcs57_pad. rewrite length_app, repeat_length.
    pose proof (Nat.div_mod_eq (length src) bs). nia.
  - unfold pkcs57_pad. rewrite length_app, repeat_length. lia.
  - unfold pkcs57_pad. set (n := (bs - length src mod bs)%nat) in *.
    assert (0 <= wrap8 (Z.of_nat n) <= Z.of_nat n) as Hw.
    { unfold wrap8. pose proof (Z.mod_pos_bound (Z.of_nat n) (2 ^ 8)).
      pose proof (Z.mod_le (Z.of_nat n) (2 ^ 8)). lia. }
    rewrite (pkcs57_unpad_last _ (wrap8 (Z.of_nat n))); [|..|lia].
    + rewrite length_app, repeat_length, decide_True by lia. split.
      * intros [= H]. apply (f_equal length) in H.
        rewrite length_take, length_app, repeat_length in H.
        pose proof (Z.mod_pos_bound (Z.of_nat n) (2 ^ 8)). unfold wrap8 in *. lia.
      * intros H. assert (wrap8 (Z.of_nat n) = Z.of_nat n) as -> by (apply Z.mod_small; lia).
        f_equal. replace (Z.to_nat _) with (length src) by lia. by rewrite take_app_length.
    + rewrite last_lookup, length_app, repeat_length, lookup_app_r by lia.
      apply lookup_repeat. lia.
Qed.

(** On a block of bytes, UnPadding panics exactly when the input is empty
    or its last byte is larger than its length; the other padding bytes are
    not looked at, and a last byte 0 removes nothing. *)
Theorem unpadding_panics (src : bytes) :
  Forall is_byte src ->
  (pkcs57_unpad src = Panic <-> src = [] \/ exists b, last src = Some b /\ Z.of_nat (length src) < b) /\
  (forall msg, pkcs57_unpad src = Ok msg <->
     exists b tail, src = msg ++ tail /\ last src = Some b /\ Z.of_nat (length tail) = b).
Proof.
  intros Hs. destruct (last src) as [b|] eqn:Hb.
  - assert (src <> []) as Hne by (by intros ->).
    assert (is_byte b) as Hbyte.
    { rewrite last_lookup in Hb. by apply (Forall_lookup_1 _ _ _ _ Hs Hb). }
    unfold is_byte in Hbyte. rewrite (pkcs57_unpad_last _ b) by (done || lia). case_decide as Hle.
    + split; [naive_solver lia|]. intros msg. split.
      * intros [= <-]. eexists b, (drop _ src). rewrite take_drop. split_and!; [done..|].
        rewrite length_drop. lia.
      * intros (b' & tail & Hsrc & [= <-] & Hlen). rewrite Hsrc, length_app at 1.
        replace (Z.to_nat _) with (length msg) by lia. rewrite Hsrc. by rewrite take_app_length.
    + split; [naive_solver lia|]. intros msg. split; [done|].
      intros (b' & tail & Hsrc & [= <-] & Hlen). rewrite Hsrc, length_app in Hle. lia.
  - apply last_None in Hb as ->. split; [naive_solver|]. intros msg. split; [done|].
    by intros (b & tail & _ & ? & _).
Qed.

Lemma padding_roundtrip_witness :
  pkcs57_unpad (pkcs57_pad [1; 2; 3] 16) = Ok [1; 2; 3] /\
  pkcs57_unpad (pkcs57_pad [1; 2; 3] 300) <> Ok [1; 2; 3].
Proof.
  split; [apply (padding_roundtrip [1; 2; 3] 16); cbn; lia|].
  intros H. apply (padding_roundtrip [1; 2; 3] 300) in H; cbn in H; lia.
Defined.

Lemma unpadding_panics_witness :
  pkcs57_unpad [7; 200] = Panic /\ pkcs57_unpad [7; 9; 2] = Ok [7].
Proof.
  split; apply unpadding_panics.
  - repeat constructor; unfold is_byte; lia.
  - right. exists 200. split; [reflexivity|cbn; lia].
  - repeat constructor; unfold is_byte; lia.
  - exists 2, [9; 2]. repeat split.
Defined.

(** ** The two directions of a cipher object *)

Lemma lxor_byte a b : is_byte a -> is_byte b -> is_byte (Z.lxor a b).
Proof.
  unfold is_byte. intros Ha Hb. pose proof (proj2 (Z.lxor_nonneg a b) ltac:(lia)) as Hn. split; [done|].
  destruct (decide (Z.lxor a b = 0)) as [->|]; [lia|].
  change 256 with (2 ^ 8). apply Z.log2_lt_pow2; [lia|].
  pose proof (Z.log2_lxor a b ltac:(lia) ltac:(lia)).
  pose proof (Z.log2_le_mono a 255 ltac:(lia)). pose proof (Z.log2_le_mono b 255 ltac:(lia)).
  change (Z.log2 255) with 7 in *. lia.
Qed.

Lemma lxor_twice a b : Z.lxor (Z.lxor a b) b = a.
Proof. by rewrite Z.lxor_assoc, Z.lxor_nilpotent, Z.lxor_0_r. Qed.

Lemma xor_bytes_twice p iv : length p = length iv -> xor_bytes (xor_bytes p iv) iv = p.
Proof.
  unfold xor_bytes. revert iv. induction p as [|x p IH]; intros [|y iv] [=]; cbn; [done|].
  by rewrite lxor_twice, IH.
Qed.

Lemma xor_bytes_bytes p iv : Forall is_byte p -> Forall is_byte iv -> Forall is_byte (xor_bytes p iv).
Proof.
  unfold xor_bytes. intros Hp. revert iv. induction Hp as [|x p Hx Hp IH]; intros [|y iv] Hiv; cbn; auto.
  inversion_clear Hiv. constructor; [by apply lxor_byte|auto].
Qed.

(** What the primitives of crypto/aes and crypto/des promise. *)
Record BlockLaws (b : Block) : Prop := {
  law_size : (1 <= block_size b <= 255)%nat;
  law_length p : length p = block_size b -> length (block_encrypt b p) = block_size b;
  law_bytes p : length p = block_size b -> Forall is_byte p -> Forall is_byte (block_encrypt b p);
  law_inverse p : length p = block_size b -> Forall is_byte p -> block_decrypt b (block_encrypt b p) = p }.

(** One step of the decrypter undoes one step of the encrypter and both go
    to the same state, in the states of [I]. *)
Definition paired (I : bytes -> Prop) (size : nat) (e d : bytes -> bytes -> bytes * bytes) : Prop :=
  forall st p, I st -> length p = size -> Forall is_byte p ->
    exists c st', e st p = (c, st') /\ d st c = (p, st') /\ length c = size /\ Forall is_byte c /\ I st'.

Lemma ecb_paired b : BlockLaws b -> paired (fun _ => True) (block_size b) (ecb_encrypt_step b) (ecb_decrypt_step b).
Proof.
  intros Hb st p _ Hl Hp. exists (block_encrypt b p), st. unfold ecb_encrypt_step, ecb_decrypt_step.
  rewrite (law_inverse b Hb) by done. rewrite (law_length b Hb) by done.
  split_and!; [done..| |done]. by apply (law_bytes b Hb).
Qed.

Definition iv_ok (b : Block) (iv : bytes) : Prop := length iv = block_size b /\ Forall is_byte iv.

Lemma cbc_paired b : BlockLaws b -> paired (iv_ok b) (block_size b) (cbc_encrypt_step b) (cbc_decrypt_step b).
Proof.
  intros Hb iv p [Hiv Hivb] Hl Hp. unfold cbc_encrypt_step, cbc_decrypt_step.
  assert (length (xor_bytes p iv) = block_size b) as Hx.
  { unfold xor_bytes. rewrite length_zip_with. lia. }
  assert (Forall is_byte (xor_bytes p iv)) as Hxb by by apply xor_bytes_bytes.
  eexists _, _. split; [reflexivity|]. rewrite (law_inverse b Hb), xor_bytes_twice by (done || lia).
  assert (Forall is_byte (block_encrypt b (xor_bytes p iv))) by by apply (law_bytes b Hb).
  rewrite (law_length b Hb) by done. split_and!; [done..|]. split; [by apply (law_length b Hb)|done].
Qed.

Lemma crypt_loop_paired I size e d k : paired I size e d -> (1 <= size)%nat ->
  forall st src f, I st -> length src = (k * size)%nat -> Forall is_byte src -> (k <= f)%nat ->
  exists c st', crypt_loop f size e st src = (c, st') /\ length c = (k * size)%nat /\ I st' /\ Forall is_byte c /\
    forall f', (k <= f')%nat -> crypt_loop f' size d st c = (src, st').
Proof.
  intros Hpair Hsize. induction k as [|k IH]; intros st src f HI Hlen Hb Hf.
  { destruct src; [|done]. exists [], st. split_and!; [by destruct f|done..|constructor|]. by intros []. }
  destruct src as [|x src']; [cbn in Hlen; lia|]. remember (x :: src') as src.
  assert (length (take size src) = size) as Ht by (rewrite length_take; lia).
  destruct (Hpair st (take size src)) as (c1 & st1 & He & Hd & Hc1 & Hb1 & HI1);
    [done..|by apply Forall_take|].
  destruct f as [|f]; [lia|].
  destruct (IH st1 (drop size src) f) as (c2 & st2 & Hrest & Hc2 & HI2 & Hb2 & Hback);
    [done|rewrite length_drop; lia|by apply Forall_drop|lia|].
  exists (c1 ++ c2), st2. split_and!.
  - rewrite Heqsrc. cbn [crypt_loop]. rewrite <- Heqsrc. rewrite He. cbn. by rewrite Hrest.
  - rewrite length_app. lia.
  - done.
  - by apply Forall_app.
  - intros [|f'] Hf'; [lia|]. destruct (c1 ++ c2) as [|y cs] eqn:Hcs.
    { apply app_eq_nil in Hcs as [-> ->]. cbn in Hc1. lia. }
    cbn [crypt_loop]. rewrite <- Hcs. rewrite <- Hc1 at 1. rewrite take_app_length, Hd.
    rewrite <- Hc1 at 2. rewrite drop_app_length, Hback by lia. by rewrite take_drop.
Qed.

(** The paddings the modes are given invert, on blocks of the mode's size. *)
Definition lossless (p : Padding) (size : nat) : Prop :=
  forall src, Forall is_byte src ->
    unpad p (pad p src size) = Ok src /\ Forall is_byte (pad p src size) /\
    exists k, length (pad p src size) = (k * size)%nat.

Lemma pkcs57_lossless size : (1 <= size <= 255)%nat -> lossless NewPKCS57Padding size.
Proof.
  intros Hs src Hsrc. cbn. split_and!; [|by apply pkcs57_pad_bytes|apply pkcs57_pad_length; lia].
  unfold pkcs57_pad. pose proof (pad_size size (length src) ltac:(lia)) as Hn.
  set (n := (size - length src mod size)%nat) in *.
  assert (wrap8 (Z.of_nat n) = Z.of_nat n) as -> by (apply Z.mod_small; lia).
  rewrite (pkcs57_unpad_last _ (Z.of_nat n)); [|..|lia].
  - rewrite length_app, repeat_length, decide_True by lia. f_equal.
    replace (Z.to_nat _) with (length src) by lia. by rewrite take_app_length.
  - rewrite last_lookup, length_app, repeat_length, lookup_app_r by lia. apply lookup_repeat. lia.
Qed.

(** Both directions of the object are at the same point. *)
Inductive synced : Cipher -> Prop :=
  | synced_block I p size e d st :
      (1 <= size)%nat -> lossless p size -> paired I size e d -> I st ->
      synced (blockCipher p (mkMode size e st) (mkMode size d st))
  | synced_stream s : (forall i, is_byte (key_stream s i)) -> synced (streamCipher s s).

Lemma XORKeyStream_twice s src out s' :
  XORKeyStream s src = (out, s') -> XORKeyStream s out = (src, s').
Proof.
  unfold XORKeyStream. intros [= <- <-]. f_equal; [|by rewrite length_imap].
  apply list_eq. intros i. rewrite !list_lookup_imap. destruct (src !! i) as [x|]; cbn; [|done].
  by rewrite lxor_twice.
Qed.

Lemma synced_roundtrip c m : synced c -> Forall is_byte m ->
  exists ct c1 c2, Encrypt c m = Ok (ct, c1) /\ Decrypt c1 ct = Ok (m, c2) /\ synced c2 /\ Forall is_byte ct.
Proof.
  intros Hc Hm. destruct Hc as [I p size e d st Hsize Hpad Hpair HI|s Hks]; cbn.
  - destruct (Hpad m Hm) as (Hun & Hb & k & Hk). unfold CryptBlocks. cbn.
    destruct (crypt_loop_paired I size e d k Hpair Hsize st (pad p m size) (length (pad p m size)))
      as (c & st' & He & Hlen & HI' & Hcb & Hd); [done..|nia|].
    assert ((k * size) mod size = 0)%nat as Hmod by (apply Nat.Div0.mod_mul).
    rewrite Hk, Hmod. cbn [Nat.eqb negb]. rewrite Hk in He. rewrite He. cbn [mbind result_bind].
    eexists _, _, _. split; [reflexivity|]. cbn. unfold CryptBlocks. cbn.
    rewrite Hlen, Hmod. cbn [Nat.eqb negb]. rewrite (Hd (k * size)%nat) by nia. cbn.
    rewrite Hun. cbn. split; [done|]. split; [by econstructor|done].
  - destruct (XORKeyStream s m) as [out s'] eqn:Hx. exists out, (streamCipher s' s), (streamCipher s' s').
    split; [done|]. cbn.
    rewrite (XORKeyStream_twice _ _ _ _ Hx). split; [done|].
    unfold XORKeyStream in Hx. injection Hx as <- <-. split; [by constructor|].
    rewrite Forall_lookup. intros i x. rewrite list_lookup_imap. rewrite Forall_lookup in Hm.
    destruct (m !! i) as [y|] eqn:Hy; [|done]. intros [= <-]. apply lxor_byte; [by apply (Hm i)|done].
Qed.

(** The directions do not disturb each other. *)
Lemma Encrypt_Decrypt_commute c ct m c1 p x c2 :
  Decrypt c ct = Ok (m, c1) -> Encrypt c p = Ok (x, c2) ->
  exists c12, Decrypt c2 ct = Ok (m, c12) /\ Encrypt c1 p = Ok (x, c12).
Proof.
  destruct c as [pd e d|e d]; cbn.
  - intros ([pt d'] & Hd & (pt' & Hu & [= -> <-])%bind_ok)%bind_ok.
    intros ([cx e'] & He & [= -> <-])%bind_ok. cbn. rewrite Hd. cbn. rewrite Hu. cbn.
    rewrite He. cbn. by eexists.
  - destruct (XORKeyStream d ct) eqn:Hd, (XORKeyStream e p) eqn:He.
    intros [= <- <-] [= <- <-]. cbn. rewrite Hd, He. by eexists.
Qed.

Lemma Encrypt_after_Decrypt c ct m c1 p x c2 :
  Decrypt c ct = Ok (m, c1) -> Encrypt c1 p = Ok (x, c2) -> exists c0, Encrypt c p = Ok (x, c0).
Proof.
  destruct c as [pd e d|e d]; cbn.
  - intros ([pt d'] & Hd & (pt' & Hu & [= -> <-])%bind_ok)%bind_ok.
    intros ([cx e'] & He & [= -> <-])%bind_ok. rewrite He. cbn. by eexists.
  - destruct (XORKeyStream d ct) eqn:Hd. intros [= <- <-]. cbn.
    destruct (XORKeyStream e p). intros [= <- <-]. by eexists.
Qed.

Lemma Decrypt_after_Encrypt c p x c1 ct m c2 :
  Encrypt c p = Ok (x, c1) -> Decrypt c1 ct = Ok (m, c2) -> exists c0, Decrypt c ct = Ok (m, c0).
Proof.
  destruct c as [pd e d|e d]; cbn.
  - intros ([cx e'] & He & [= -> <-])%bind_ok. cbn.
    intros ([pt d'] & -> & (pt' & Hu & [= -> <-])%bind_ok)%bind_ok. cbn. rewrite Hu. by eexists.
  - destruct (XORKeyStream e p) eqn:He. intros [= <- <-]. cbn.
    destruct (XORKeyStream d ct). intros [= <- <-]. by eexists.
Qed.

(** The ciphertexts [wire], decrypted in order, are the messages [ms]. *)
Inductive in_flight : Cipher -> list bytes -> list bytes -> Prop :=
  | in_flight_nil c : synced c -> in_flight c [] []
  | in_flight_cons c c1 ct m wire ms :
      Decrypt c ct = Ok (m, c1) -> in_flight c1 wire ms -> in_flight c (ct :: wire) (m :: ms).

Lemma in_flight_encrypt c wire ms m :
  in_flight c wire ms -> Forall is_byte m ->
  exists ct c', Encrypt c m = Ok (ct, c') /\ in_flight c' (wire ++ [ct]) (ms ++ [m]).
Proof.
  intros H Hm. induction H as [c Hs|c c1 ct m1 wire ms Hd _ IH].
  - destruct (synced_roundtrip c m Hs Hm) as (ct & c1 & c2 & He & Hd & Hs2 & _).
    exists ct, c1. split; [done|]. by apply (in_flight_cons _ c2), in_flight_nil.
  - destruct IH as (x & c2 & He & Hf). destruct (Encrypt_after_Decrypt _ _ _ _ _ _ _ Hd He) as [c0 He0].
    destruct (Encrypt_Decrypt_commute _ _ _ _ _ _ _ Hd He0) as (c12 & Hd' & He').
    rewrite He in He'. simplify_eq. exists x, c0. split; [done|]. by apply (in_flight_cons _ c12).
Qed.

(** A use of one cipher object: messages are encrypted onto a wire and
    decrypted from its front, in any interleaving. *)
Inductive op : Type := OpEncrypt (m : bytes) | OpDecrypt.

Definition use_step (s : Cipher * list bytes * list bytes) (o : op)
    : result unit (Cipher * list bytes * list bytes) :=
  let '(c, wire, received) := s in
  match o, wire with
  | OpEncrypt m, _ => '(ct, c) ← Encrypt c m; Ok (c, wire ++ [ct], received)
  | OpDecrypt, [] => Ok (c, wire, received)
  | OpDecrypt, ct :: wire => '(m, c) ← Decrypt c ct; Ok (c, wire, received ++ [m])
  end.

Definition sent (ops : list op) : list bytes := omap (fun o => match o with OpEncrypt m => Some m | OpDecrypt => None end) ops.

Lemma use_in_flight ops c wire received pending :
  in_flight c wire pending -> Forall (Forall is_byte) (sent ops) ->
  exists c' wire' received' pending',
    foldM use_step (c, wire, received) ops = Ok (c', wire', received') /\
    in_flight c' wire' pending' /\ received ++ pending ++ sent ops = received' ++ pending'.
Proof.
  revert c wire received pending. induction ops as [|o ops IH]; intros c wire received pending Hf Hops.
  { eexists _, _, _, _. split; [done|]. split; [done|]. cbn. by rewrite app_nil_r. }
  destruct o as [m|]; cbn in *.
  - inversion_clear Hops as [|? ? Hm Hops'].
    destruct (in_flight_encrypt c wire pending m Hf Hm) as (ct & c1 & -> & Hf1). cbn.
    destruct (IH _ _ received _ Hf1 Hops') as (c' & w' & r' & p' & -> & Hf' & Heq).
    eexists _, _, _, _. split; [done|]. split; [done|]. by rewrite <- Heq, <- !app_assoc.
  - inversion Hf as [c0 Hs|c0 c1 ct m wire' ms Hd Hf']; subst; cbn.
    + apply (IH _ _ received _ Hf Hops).
    + rewrite Hd. cbn. destruct (IH _ _ (received ++ [m]) _ Hf' Hops) as (c' & w' & r' & p' & -> & Hf'' & Heq).
      eexists _, _, _, _. split; [done|]. split; [done|]. by rewrite <- Heq, <- !app_assoc.
Qed.

(** The four modes of the entry points, and OFB. *)
Definition standard (m : CipherMode) : Prop :=
  m = NewECBMode \/ m = NewCBCMode \/ m = NewCFBMode \/ m = NewOFBMode \/ m = NewCTRMode.

Lemma stream_of_blocks_bytes size block i :
  (forall j, Forall is_byte (block j)) -> is_byte (stream_of_blocks size block i).
Proof.
  intros H. unfold stream_of_blocks.
  destruct (nth_in_or_default (i mod size) (block (i / size)%nat) 0) as [Hin| ->].
  - specialize (H (i / size)%nat). rewrite Forall_forall in H. by apply H, list_elem_of_In.
  - unfold is_byte. lia.
Qed.

Lemma ofb_bytes b iv i : BlockLaws b -> iv_ok b iv -> is_byte (key_stream (NewOFB b iv) i).
Proof.
  intros Hb [Hl Hiv]. apply stream_of_blocks_bytes. intros j.
  enough (length (ofb_block b iv j) = block_size b /\ Forall is_byte (ofb_block b iv j)) by tauto.
  induction j as [|j [IHl IHb]]; cbn; (split; [by apply (law_length b Hb)|by apply (law_bytes b Hb)]).
Qed.

Lemma to_be_bytes n v : length (to_be n v) = n /\ Forall is_byte (to_be n v).
Proof.
  revert v. induction n as [|n IH]; intros v; cbn; [done|]. destruct (IH (v / 256)) as [Hl Hb].
  split; [list_lia|]. apply Forall_app. split; [done|]. constructor; [|done].
  apply Z.mod_pos_bound. lia.
Qed.

Lemma ctr_bytes b iv i : BlockLaws b -> iv_ok b iv -> is_byte (key_stream (NewCTR b iv) i).
Proof.
  intros Hb [Hl Hiv]. apply stream_of_blocks_bytes. intros j. unfold ctr_block.
  destruct (to_be_bytes (length iv) (from_be iv + Z.of_nat j)) as [Htl Htb].
  apply (law_bytes b Hb); [lia|done].
Qed.

Lemma mode_cipher_synced m b iv : standard m -> BlockLaws b -> iv_ok b iv ->
  exists c, mode_cipher m b iv = Some c /\ synced c.
Proof.
  intros Hm Hb Hiv. pose proof (law_size b Hb) as Hs.
  pose proof (pkcs57_lossless (block_size b) Hs) as Hp.
  destruct Hm as [->|[->|[->|[->| ->]]]]; cbn; (eexists; split; [reflexivity|]).
  - eapply synced_block; [lia|done|by apply ecb_paired|done].
  - eapply synced_block; [lia|done|by apply cbc_paired|done].
  - constructor. intros i. by apply ofb_bytes.
  - constructor. intros i. by apply ofb_bytes.
  - constructor. intros i. by apply ctr_bytes.
Qed.

(** C13: However encryptions and decryptions of one cipher object interleave,
    in every mode, no operation panics and the messages come out unchanged and
    in order: what was received is a prefix of what was sent, and decrypting
    the rest of the wire gives the remainder. *)
Theorem cipher_channel (m : CipherMode) (b : Block) (iv : bytes) (ops : list op) :
  standard m -> BlockLaws b -> length iv = block_size b -> Forall is_byte iv ->
  Forall (Forall is_byte) (sent ops) ->
  exists c c' wire received, mode_cipher m b iv = Some c /\
    foldM use_step (c, [], []) ops = Ok (c', wire, received) /\
    exists pending, sent ops = received ++ pending /\ length wire = length pending /\
      exists c'', foldM use_step (c', wire, received) (repeat OpDecrypt (length wire)) = Ok (c'', [], sent ops).
Proof.
  intros Hm Hb Hl Hbytes Hops. destruct (mode_cipher_synced m b iv Hm Hb (conj Hl Hbytes)) as (c & Hc & Hs).
  destruct (use_in_flight ops c [] [] [] (in_flight_nil c Hs) Hops) as (c' & w & r & p & Hrun & Hf & Heq).
  exists c, c', w, r. split; [done|]. split; [done|]. exists p. cbn in Heq.
  split; [done|]. rewrite Heq. clear - Hf. revert r.
  induction Hf as [c Hs|c c1 ct m wire ms Hd Hf IH]; intros r.
  - split; [done|]. exists c. cbn. by rewrite app_nil_r.
  - destruct (IH (r ++ [m])) as [Hlen [c'' Hrun]]. split; [cbn; lia|].
    exists c''. cbn. rewrite Hd. cbn. rewrite Hrun. by rewrite <- app_assoc.
Qed.

(** ** A concrete primitive *)

(** Reversal of a block, xored with the key. *)
Definition toy_block (key : bytes) : Block :=
  mkBlock (length key) (fun p => rev (xor_bytes p key)) (fun c => xor_bytes (rev c) key).

Definition toy_NewCipher (size : nat) (key : bytes) : option Block :=
  if (length key =? size)%nat then Some (toy_block key) else None.

Lemma toy_block_laws k : (1 <= length k <= 255)%nat -> Forall is_byte k -> BlockLaws (toy_block k).
Proof.
  intros Hk Hb. split; cbn; [done|..]; intros p Hp.
  - rewrite length_rev. unfold xor_bytes. rewrite length_zip_with. lia.
  - intros Hpb. apply Forall_rev. by apply xor_bytes_bytes.
  - intros _. by rewrite rev_involutive, xor_bytes_twice.
Qed.

Definition toy_key : bytes := bytes_of_string "0123456789012345".

Lemma toy_key_bytes : Forall is_byte toy_key.
Proof. repeat constructor; unfold is_byte; cbn; lia. Qed.

Lemma toy_cipher_laws : BlockLaws (toy_block toy_key).
Proof. apply toy_block_laws; [cbn; lia|apply toy_key_bytes]. Qed.

(** Three messages under CBC, two of them read: the first two. *)
Lemma cipher_channel_witness :
  exists c c' wire received, mode_cipher NewCBCMode (toy_block toy_key) toy_key = Some c /\
    foldM use_step (c, [], []) [OpEncrypt [1; 2]; OpDecrypt; OpEncrypt []; OpEncrypt [3]; OpDecrypt]
      = Ok (c', wire, received) /\
    exists pending, [[1; 2]; []; [3]] = received ++ pending /\ length wire = length pending /\
      exists c'', foldM use_step (c', wire, received) (repeat OpDecrypt (length wire)) = Ok (c'', [], [[1; 2]; []; [3]]).
Proof.
  apply (cipher_channel NewCBCMode (toy_block toy_key) toy_key
    [OpEncrypt [1; 2]; OpDecrypt; OpEncrypt []; OpEncrypt [3]; OpDecrypt]).
  - right. left. reflexivity.
  - exact toy_cipher_laws.
  - reflexivity.
  - exact toy_key_bytes.
  - repeat constructor; unfold is_byte; lia.
Defined.

(** ** The entry points *)

Section EntryProofs.
Variable NewCipher : bytes -> option Block.

(** The key is the head of its own initial vector: it is long enough. *)
Definition PrimitiveLaws : Prop :=
  forall k b, Forall is_byte k -> NewCipher k = Some b -> BlockLaws b /\ (block_size b <= length k)%nat.

Definition supported (mode : string) : Prop := mode = "ECB" \/ mode = "CBC" \/ mode = "CFB" \/ mode = "CTR".

Lemma getCipherMode_supported m :
  (supported m /\ exists cm, getCipherMode m = Ok cm /\ standard cm) \/
  (~ supported m /\ getCipherMode m = Err ErrUnknownMode).
Proof.
  unfold getCipherMode, supported, standard.
  repeat (case_bool_decide; [left; split; [tauto|eexists; split; [reflexivity|tauto]]|]).
  right. split; [tauto|done].
Qed.

(** The result of encryption by the cases of its arguments. *)
Lemma aesEncryptByMode_spec m raw k : PrimitiveLaws -> Forall is_byte k -> Forall is_byte raw ->
  (~ supported m /\ aesEncryptByMode NewCipher m raw k = Err ErrUnknownMode) \/
  (supported m /\ NewCipher k = None /\ aesEncryptByMode NewCipher m raw k = Err ErrKeySize) \/
  (supported m /\ is_Some (NewCipher k) /\ exists ct, aesEncryptByMode NewCipher m raw k = Ok ct /\
     Forall is_byte ct /\ aesDecryptByMode NewCipher m ct k = Ok raw).
Proof.
  intros Hlaws Hk Hraw. unfold aesEncryptByMode, aesDecryptByMode.
  destruct (getCipherMode_supported m) as [(Hm & cm & -> & Hcm)|[Hm ->]]; [right|by left]. cbn.
  unfold NewAESWith. destruct (NewCipher k) as [b|] eqn:Hb; [right|by left].
  destruct (Hlaws k b Hk Hb) as [Hblock Hsize].
  destruct (Nat.ltb_spec (length k) (block_size b)) as [|_]; [lia|].
  destruct (mode_cipher_synced cm b (take (block_size b) k)) as (c & -> & Hc); [done..| |].
  { split; [rewrite length_take; lia|by apply Forall_take]. }
  destruct (synced_roundtrip c raw Hc Hraw) as (ct & c1 & c2 & He & Hd & _ & Hct).
  split; [done|]. split; [done|]. exists ct. cbn. rewrite He. split; [done|]. split; [done|].
  by destruct (Decrypt_after_Encrypt _ _ _ _ _ _ _ He Hd) as [c0 ->].
Qed.

Lemma hex_byte b s l : is_byte b -> hex_decode s = Some l ->
  hex_decode (String (hex_digit (b / 16)) (String (hex_digit (b mod 16)) s)) = Some (b :: l).
Proof.
  intros Hb Hs. cbn [hex_decode].
  assert (forall n, 0 <= n < 16 -> hex_value (hex_digit n) = Some n) as Hd.
  { intros n Hn.
    assert (Forall (fun i => hex_value (hex_digit i) = Some i) (seqZ 0 16)) as Hall by (vm_compute; repeat constructor).
    rewrite Forall_forall in Hall. apply Hall. rewrite elem_of_seqZ. lia. }
  unfold is_byte in Hb. pose proof (Z.mod_pos_bound b 16).
  rewrite !Hd by (split; [apply Z.div_pos|apply Z.div_lt_upper_bound]; lia) || lia.
  cbn. rewrite Hs. cbn. do 2 f_equal. pose proof (Z.div_mod b 16). lia.
Qed.

Lemma hex_roundtrip l : Forall is_byte l -> hex_decode (hex_encode l) = Some l.
Proof. induction 1 as [|b l Hb Hl IH]; [done|]. cbn [hex_encode]. by apply hex_byte. Qed.

Lemma string_bytes_roundtrip s : string_of_bytes (bytes_of_string s) = s /\ Forall is_byte (bytes_of_string s).
Proof.
  induction s as [|a s [IH IHb]]; cbn; [done|]. rewrite Nat2Z.id, ascii_nat_embedding, IH. split; [done|].
  constructor; [|done]. pose proof (nat_ascii_bounded a). unfold is_byte. lia.
Qed.

(** Encryption never panics: it fails exactly on an unknown mode or a key
    the primitive refuses, and otherwise decryption with the same options
    gives the data back, as bytes and through the hexadecimal strings. *)
Theorem entry_roundtrip (defaults : options) (opts : list option_fn) (raw : string) :
  let o := apply defaults opts in
  PrimitiveLaws -> Forall is_byte (key o) ->
  match AesEncryptHex NewCipher defaults raw opts with
  | Ok cipherStr =>
      supported (mode o) /\ is_Some (NewCipher (key o)) /\
      AesDecryptHex NewCipher defaults cipherStr opts = Ok raw /\
      exists ct, AesEncrypt NewCipher defaults (bytes_of_string raw) opts = Ok ct /\ cipherStr = hex_encode ct /\
        AesDecrypt NewCipher defaults ct opts = Ok (bytes_of_string raw)
  | Err ErrKeySize => supported (mode o) /\ NewCipher (key o) = None
  | Err ErrUnknownMode => ~ supported (mode o)
  | Err ErrHex | Panic => False
  end.
Proof.
  intros o Hlaws Hk. destruct (string_bytes_roundtrip raw) as [Hraw Hb].
  unfold AesEncryptHex, AesDecryptHex, AesEncrypt, AesDecrypt. fold o.
  destruct (aesEncryptByMode_spec (mode o) (bytes_of_string raw) (key o)) as
    [[Hm ->]|[(Hm & Hn & ->)|(Hm & Hs & ct & -> & Hct & Hd)]]; [done..| |]; cbn; [done|].
  split_and!; [done..| |].
  - by rewrite hex_roundtrip, Hd; cbn; [rewrite Hraw|].
  - by exists ct.
Qed.
End EntryProofs.

Lemma entry_roundtrip_witness :
  match AesEncryptHex (toy_NewCipher 16) defaultAesOptions "hello" [WithKey toy_key; WithModeCTR] with
  | Ok s => AesDecryptHex (toy_NewCipher 16) defaultAesOptions s [WithKey toy_key; WithModeCTR] = Ok "hello"
  | _ => False
  end.
Proof.
  pose proof (entry_roundtrip (toy_NewCipher 16) defaultAesOptions [WithKey toy_key; WithModeCTR] "hello") as H.
  destruct (AesEncryptHex (toy_NewCipher 16) defaultAesOptions "hello" [WithKey toy_key; WithModeCTR]) eqn:E.
  - apply H.
    + intros k b Hk. unfold toy_NewCipher. destruct (Nat.eqb_spec (length k) 16); [|done]. intros [= <-].
      split; [|cbn; lia]. apply toy_block_laws; [lia|done].
    + exact toy_key_bytes.
  - vm_compute in E. discriminate.
  - vm_compute in E. discriminate.
Defined.

(** [NewCFBMode] builds the OFB cipher: the CFB mode of the entry points is OFB. *)
Lemma cfb_is_ofb NewCipher raw k : aesEncryptByMode NewCipher "CFB" raw k =
  (cip ← NewAESWith NewCipher k NewOFBMode; use_cipher (fun c => Encrypt c raw) cip).
Proof. reflexivity. Qed.

End Cipher.
