(* ===== verification/SseClient.v ===== *)
(** * Server-sent events: the wire and the client (pkg/sse: event.go, client.go, sendEvent of server.go)

    The event and its validity, the text the server writes for it, the client
    that reads the stream line by line and calls back, and the loop that
    reconnects with a backoff.  The theorems: what the server writes the
    client's callbacks get, in order; the backoff between attempts and when
    the client gives up; when its channel is closed twice.

    The JSON library (sonic) is the class [Json].  The client runs in a
    goroutine of its own: what other goroutines do to it while it reads or
    waits is part of its input, between two lines or during a wait. *)

From S2P Require Import Prelude GoStr.
From Stdlib Require Import Ascii.

Module SseClient.

(** ** JSON *)

(** [interface{}] values are [option any], nil being [None]. *)
Class Json (any : Type) := {
  Marshal : option any -> option string;
  Unmarshal : string -> option (option any) }.

(** A [plain] value is one that Unmarshal makes (maps, slices, strings,
    float64, bool, nil).  Encoded text has no raw newline and no space
    around it. *)
Class JsonLaws (any : Type) `{Json any} := {
  plain : option any -> Prop;
  marshal_total v : plain v -> is_Some (Marshal v);
  marshal_inverse v s : plain v -> Marshal v = Some s -> Unmarshal s = Some v;
  marshal_line v s : Marshal v = Some s -> no_char newline s /\ TrimSpace s = s }.

(** ** Events (event.go) *)

Record Event (any : Type) : Type := mkEvent { ID : string; Event_ : string; Data : option any }.
Arguments mkEvent {any}.
Arguments ID {any}.
Arguments Event_ {any}.
Arguments Data {any}.

Definition DefaultEventType : string := "message".

Inductive event_error : Type := ErrInvalidEvent | ErrInvalidData.

Definition CheckValid {any} (e : Event any) : option event_error :=
  if bool_decide (Event_ e = "") then Some ErrInvalidEvent
  else match Data e with None => Some ErrInvalidData | Some _ => None end.

Section Client.
Context {any : Type} `{Json any}.
Local Abbreviation Event := (Event any).

(** The bytes [sendEvent] writes (server.go); [None] is a marshalling error. *)
Definition event_text (e : Event) : option string :=
  data ← Marshal (Data e);
  Some ("id: " +:+ ID e +:+ String newline "event: " +:+ Event_ e +:+ String newline "data: " +:+ data +:+
        String newline (single newline)).
Definition heartbeat_text : string := ": heartbeat" +:+ String newline (single newline).

(** ** Client state *)

(** [stopCh] is closed or not; the callbacks are the event types that have
    one, and the calls are logged. *)
Record SSEClient : Type := mkClient {
  callbacks : gset string;
  lastEventID : string;
  connected : bool;
  stopCh_closed : bool;
  goroutines : nat;
  reconnectTimeInterval : Z }.

Definition NewClient (interval : Z) : SSEClient := mkClient ∅ "" false false 0 interval.
Definition OnEvent (eventType : string) (c : SSEClient) : SSEClient :=
  mkClient ({[eventType]} ∪ callbacks c) (lastEventID c) (connected c) (stopCh_closed c) (goroutines c) (reconnectTimeInterval c).
Definition setConnectStatus (st : bool) (c : SSEClient) : SSEClient :=
  mkClient (callbacks c) (lastEventID c) st (stopCh_closed c) (goroutines c) (reconnectTimeInterval c).
Definition set_lastEventID (id : string) (c : SSEClient) : SSEClient :=
  mkClient (callbacks c) id (connected c) (stopCh_closed c) (goroutines c) (reconnectTimeInterval c).

(** [close] of a closed channel panics. *)
Definition Disconnect {E} (c : SSEClient) : result E SSEClient :=
  if stopCh_closed c then Panic
  else Ok (mkClient (callbacks c) (lastEventID c) false true (goroutines c) (reconnectTimeInterval c)).

(** [Connect] starts [connectServer] in a goroutine, which sets [connected]. *)
Inductive connect_error : Type := ErrAlreadyConnected.
Definition Connect (c : SSEClient) : result connect_error SSEClient :=
  if connected c then Err ErrAlreadyConnected
  else Ok (mkClient (callbacks c) (lastEventID c) (connected c) (stopCh_closed c) (S (goroutines c)) (reconnectTimeInterval c)).

(** ** Reading the stream *)

(** The local variables of [stream]; the calls made so far come with them. *)
Record fields : Type := mkFields { eventType : string; eventID : string; eventData : list string }.
Definition no_fields : fields := mkFields "" "" [].

(** [processEvent]: the client, the callback called, whether it failed. *)
Definition processEvent (eventType eventID data : string) (c : SSEClient) : SSEClient * option Event * bool :=
  let c := if bool_decide (eventID = "") then c else set_lastEventID eventID c in
  let eventType := if bool_decide (eventType = "") then DefaultEventType else eventType in
  if bool_decide (eventType ∈ callbacks c) then
    match Unmarshal data with
    | None => (c, None, true)
    | Some eventData => (c, Some (mkEvent eventID eventType eventData), false)
    end
  else (c, None, false).

(** What arrives: a line of the body (without its newline), or another
    goroutine's call. *)
Inductive input : Type :=
  | Line (line : string)
  | CallDisconnect
  | CallOnEvent (eventType : string).

Record reading : Type := mkReading { client : SSEClient; pending : fields; calls : list Event }.

(** Why [stream] returns from its loop: with an error text, or with nil. *)
Definition returned : Type := SSEClient * list Event * option string.

(** The field of a line that is neither blank nor a comment. *)
Definition parse_field (line : string) (f : fields) : fields :=
  if HasPrefix line "event:" then mkFields (TrimSpace (str_drop 6 line)) (eventID f) (eventData f)
  else if HasPrefix line "id:" then mkFields (eventType f) (TrimSpace (str_drop 3 line)) (eventData f)
  else if HasPrefix line "data:" then mkFields (eventType f) (eventID f) (eventData f ++ [TrimSpace (str_drop 5 line)])
  else f.

(** One iteration of the loop: [Err] is a return. *)
Definition read_line (r : reading) (line : string) : result returned reading :=
  if bool_decide (line = "") then
    match eventData (pending r) with
    | [] => Ok r
    | ds =>
        let '(c, call, failed) :=
          processEvent (eventType (pending r)) (eventID (pending r)) (Join ds (single newline)) (client r) in
        let calls := calls r ++ option_list call in
        if failed then Ok (mkReading c (pending r) calls) else Ok (mkReading c no_fields calls)
    end
  else if HasPrefix line ":" then Ok r
  else
    let f := parse_field line (pending r) in
    if bool_decide (eventType f = "close") then
      c ← Disconnect (client r); Err (c, calls r, Some "close event received")
    else if stopCh_closed (client r) then Err (client r, calls r, None)
    else Ok (mkReading (client r) f (calls r)).

Definition input_step (r : reading) (i : input) : result returned reading :=
  match i with
  | Line line => read_line r line
  | CallDisconnect => c ← Disconnect (client r); Ok (mkReading c (pending r) (calls r))
  | CallOnEvent t => Ok (mkReading (OnEvent t (client r)) (pending r) (calls r))
  end.

(** The loop over the body, which ends with the reader's error [end_err];
    a last line without a newline is not processed. *)
Definition read_body (c : SSEClient) (body : list input) (end_err : string) : result unit returned :=
  match foldM input_step (mkReading c no_fields []) body with
  | Ok r => Ok (client r, calls r, Some end_err)
  | Err out => Ok out
  | Panic => Panic
  end.
(** The lines [ReadString] gives: those that end with a newline. *)
Definition body_lines (text : string) : list string := removelast (Split text newline).

(** ** Reconnecting *)

Record retryStrategy : Type := mkStrategy { backoff : Z; maxBackoff : Z; retryCount : Z; maxRetries : Z }.

Definition retry (s : retryStrategy) : retryStrategy * bool :=
  let count := wrap64 (retryCount s + 1) in
  let backoff :=
    if 1 <? count then
      let nextBackoff := wrap64 (backoff s * 2) in
      if maxBackoff s <? nextBackoff then maxBackoff s else nextBackoff
    else backoff s in
  (mkStrategy backoff (maxBackoff s) count (maxRetries s), (0 <? maxRetries s) && (maxRetries s <=? count)).
Definition reset (d : Z) (s : retryStrategy) : retryStrategy := mkStrategy d (maxBackoff s) 0 (maxRetries s).

(** What one request meets: an error of [http.NewRequest] or [client.Do], with
    whether another goroutine disconnects meanwhile, or a response with its
    status, its body and the error that ends the body. *)
Inductive attempt : Type :=
  | DoError (err : string) (disconnects : bool)
  | Response (status : Z) (body : list input) (end_err : string).

Definition stream (c : SSEClient) (s : retryStrategy) (a : attempt)
    : result unit (SSEClient * retryStrategy * list Event * option string) :=
  match a with
  | DoError err disconnects => c ← (if disconnects then Disconnect c else Ok c); Ok (c, s, [], Some err)
  | Response status body end_err =>
      let c := setConnectStatus true c in
      let s := reset (reconnectTimeInterval c) s in
      if negb (status =? 200) then Ok (c, s, [], Some ("unexpected status code: " +:+ FormatUint status))
      else '(c, calls, err) ← read_body c body end_err; Ok (c, s, calls, err)
  end.

(** The loop of [connectServer] over the attempts it makes, each followed by
    whether another goroutine disconnects during the wait after it.  The
    result: the client, the calls, the waits, and whether the loop returned.
    A closed [stopCh] is taken over a timer that has fired at the same time. *)
Record connection : Type := mkConnection {
  conn_client : SSEClient;
  conn_strategy : retryStrategy;
  conn_calls : list Event;
  conn_waits : list Z }.

Definition connect_step (noConnectionErrText : string) (st : connection) (a : attempt * bool)
    : result connection connection :=
  match stream (conn_client st) (conn_strategy st) a.1 with
  | Panic => Panic
  | Err _ => Panic
  | Ok (c, s, calls, err) =>
      let calls := conn_calls st ++ calls in
      let wait c s :=
        if stopCh_closed c then Err (mkConnection c s calls (conn_waits st))
        else if a.2 then c ← Disconnect c; Err (mkConnection c s calls (conn_waits st))
        else Ok (mkConnection c s calls (conn_waits st ++ [backoff s])) in
      match err with
      | Some err =>
          if Contains err noConnectionErrText then
            let c := setConnectStatus false c in
            let '(s, isExits) := retry s in
            if isExits then c ← Disconnect c; Err (mkConnection c s calls (conn_waits st)) else wait c s
          else wait c (reset (reconnectTimeInterval c) s)
      | None => wait c s
      end
  end.

Definition start_connection (c : SSEClient) : connection :=
  mkConnection (setConnectStatus true c) (mkStrategy (reconnectTimeInterval c) (30 * second) 0 5) [] [].
Definition connectServer (noConnectionErrText : string) (c : SSEClient) (attempts : list (attempt * bool))
    : result connection connection :=
  foldM (connect_step noConnectionErrText) (start_connection c) attempts.
End Client.
Arguments input : clear implicits.
Arguments attempt : clear implicits.
Arguments reading : clear implicits.
Arguments returned : clear implicits.
Arguments connection : clear implicits.

Definition default_noConnectionErrText : string :=
  "No connection could be made because the target machine actively refused it".

(** ** The wire *)

Lemma TrimSpace_space s : TrimSpace (String " " s) = TrimSpace s.
Proof. unfold TrimSpace. cbn. by destruct (trim_right_by is_space s). Qed.

Lemma body_lines_line p t : no_char newline p -> body_lines (p +:+ String newline t) = p :: body_lines t.
Proof.
  intros Hp. unfold body_lines. rewrite Split_app_sep by done.
  pose proof (Split_nonempty t newline). by destruct (Split t newline).
Qed.

Section WireProofs.
Context {any : Type} `{HJ : Json any} {HL : JsonLaws any}.
Local Abbreviation Event := (Event any).

(** What a server writes on one connection. *)
Inductive frame : Type := FEvent (e : Event) | FHeartbeat.
Definition frame_text (f : frame) : option string :=
  match f with FEvent e => event_text e | FHeartbeat => Some heartbeat_text end.
Definition events (fs : list frame) : list Event :=
  omap (fun f => match f with FEvent e => Some e | FHeartbeat => None end) fs.
Fixpoint frames_text (fs : list frame) : option string :=
  match fs with
  | [] => Some ""
  | f :: fs => t ← frame_text f; ts ← frames_text fs; Some (t +:+ ts)
  end.

(** An event the format can carry. *)
Definition wire_ok (e : Event) : Prop :=
  no_char newline (ID e) /\ TrimSpace (ID e) = ID e /\
  no_char newline (Event_ e) /\ TrimSpace (Event_ e) = Event_ e /\ plain (Data e).

(** What the client makes of it. *)
Definition type_of (e : Event) : string := if bool_decide (Event_ e = "") then DefaultEventType else Event_ e.
Definition called (c : SSEClient) (e : Event) : option Event :=
  if bool_decide (type_of e ∈ callbacks c) then Some (mkEvent (ID e) (type_of e) (Data e)) else None.
Definition remember (e : Event) (c : SSEClient) : SSEClient :=
  if bool_decide (ID e = "") then c else set_lastEventID (ID e) c.

Lemma frame_lines_event e data t : wire_ok e -> Marshal (Data e) = Some data -> event_text e = Some t ->
  forall rest, body_lines (t +:+ rest) =
    ["id: " +:+ ID e; "event: " +:+ Event_ e; "data: " +:+ data; ""] ++ body_lines rest.
Proof.
  intros (Hid & _ & Hty & _ & _) Hd Ht rest. unfold event_text in Ht. rewrite Hd in Ht. cbn in Ht.
  injection Ht as <-. pose proof (proj1 (marshal_line _ _ Hd)) as Hdata.
  replace (_ +:+ rest) with (("id: " +:+ ID e) +:+ String newline (("event: " +:+ Event_ e) +:+ String newline
    (("data: " +:+ data) +:+ String newline ("" +:+ String newline rest)))).
  - rewrite !body_lines_line; [done|done|..]; apply no_char_app; split; done.
  - unfold single. by repeat first [rewrite app_assoc_s | rewrite app_cons_s | rewrite app_nil_l_s].
Qed.

Lemma frame_lines_heartbeat rest : body_lines (heartbeat_text +:+ rest) = [": heartbeat"; ""] ++ body_lines rest.
Proof.
  change (heartbeat_text +:+ rest) with (": heartbeat" +:+ String newline ("" +:+ String newline rest)).
  by rewrite !body_lines_line.
Qed.

Lemma parse_id s f : parse_field ("id: " +:+ s) f = mkFields (eventType f) (TrimSpace s) (eventData f).
Proof. rewrite <- (TrimSpace_space s). reflexivity. Qed.
Lemma parse_event s f : parse_field ("event: " +:+ s) f = mkFields (TrimSpace s) (eventID f) (eventData f).
Proof. rewrite <- (TrimSpace_space s). reflexivity. Qed.
Lemma parse_data s f : parse_field ("data: " +:+ s) f = mkFields (eventType f) (eventID f) (eventData f ++ [TrimSpace s]).
Proof. rewrite <- (TrimSpace_space s). reflexivity. Qed.

Lemma read_field line r :
  line <> "" -> HasPrefix line ":" = false -> stopCh_closed (client r) = false ->
  eventType (parse_field line (pending r)) <> "close" ->
  read_line r line = Ok (mkReading (client r) (parse_field line (pending r)) (calls r)).
Proof.
  intros Hne Hc Hs Ht. unfold read_line. rewrite (bool_decide_false _ Hne), Hc. cbn.
  by rewrite (bool_decide_false _ Ht), Hs.
Qed.

Lemma read_close r : stopCh_closed (client r) = false ->
  read_line r ("event: " +:+ "close") =
    c ← Disconnect (client r); Err (c, calls r, Some "close event received").
Proof. done. Qed.

Lemma read_event c cs e data :
  wire_ok e -> Marshal (Data e) = Some data -> Event_ e <> "close" -> stopCh_closed c = false ->
  foldM input_step (mkReading c no_fields cs)
    (Line <$> ["id: " +:+ ID e; "event: " +:+ Event_ e; "data: " +:+ data; ""]) =
  Ok (mkReading (remember e c) no_fields (cs ++ option_list (called c e))).
Proof.
  intros (_ & Hid & _ & Hty & Hp) Hd Hne Hs. pose proof (marshal_line _ _ Hd) as [_ Hdata].
  cbn [fmap list_fmap foldM input_step].
  rewrite read_field; [|done..|by rewrite parse_id].
  rewrite parse_id, Hid. cbn [mbind result_bind foldM input_step client pending calls].
  rewrite read_field; [|done..|by rewrite parse_event, Hty].
  rewrite parse_event, Hty. cbn [mbind result_bind foldM input_step client pending calls eventID eventData no_fields].
  rewrite read_field; [|done..|by rewrite parse_data].
  rewrite parse_data, Hdata. cbn [mbind result_bind foldM input_step client pending calls eventID eventData eventType app].
  unfold read_line. rewrite bool_decide_true by done. cbn [pending eventData eventID eventType Join client calls].
  unfold processEvent, called, remember, type_of.
  destruct (bool_decide (ID e = "")); cbn [callbacks set_lastEventID];
    (case_bool_decide; [rewrite (marshal_inverse _ _ Hp Hd)|]; done).
Qed.

Lemma remember_keeps e c : callbacks (remember e c) = callbacks c /\ stopCh_closed (remember e c) = stopCh_closed c.
Proof. unfold remember. by case_bool_decide. Qed.

Definition remember_all (es : list Event) (c : SSEClient) : SSEClient := foldl (fun c e => remember e c) c es.

Lemma read_frames fs text rest c cs :
  frames_text fs = Some text -> Forall (fun e => wire_ok e /\ Event_ e <> "close") (events fs) ->
  stopCh_closed c = false ->
  foldM input_step (mkReading c no_fields cs) (Line <$> body_lines (text +:+ rest)) =
  foldM input_step (mkReading (remember_all (events fs) c) no_fields (cs ++ omap (called c) (events fs)))
    (Line <$> body_lines rest).
Proof.
  revert text c cs. induction fs as [|f fs IH]; intros text c cs Ht Hok Hs.
  { injection Ht as <-. cbn. by rewrite app_nil_r. }
  cbn in Ht. apply bind_Some in Ht as (t & Hf & Ht). apply bind_Some in Ht as (ts & Hts & [= <-]).
  rewrite app_assoc_s. destruct f as [e|]; cbn in Hf, Hok.
  - inversion Hok as [|? ? [Hw Hne] Hok']; subst. destruct Hw as (H1 & H2 & H3 & H4 & H5).
    destruct (marshal_total _ H5) as [data Hd].
    rewrite (frame_lines_event e data t) by done.
    rewrite fmap_app, foldM_app, (read_event _ _ e data) by done. cbn [mbind result_bind].
    destruct (remember_keeps e c) as [Hcb Hst]. rewrite IH by (done || by rewrite Hst). f_equal.
    rewrite <- app_assoc. f_equal. cbn. unfold called at 2. rewrite Hcb.
    by destruct (called c e).
  - injection Hf as <-. rewrite frame_lines_heartbeat. rewrite fmap_app, foldM_app. cbn. by apply IH.
Qed.

(** C16: On a connection that carries events and heartbeats, the client calls
    back exactly the events whose type has a callback, in order, with the
    identifier, the type (message when empty) and the data the server sent,
    and remembers the last non-empty identifier.  A close event ends the
    reading: the client has disconnected, and nothing after it is read.
    Identifiers and types have no newline and no blanks at their ends, and
    the client was not stopped before. *)
Theorem wire_roundtrip (fs : list frame) (text : string) (c : SSEClient) (err : string) :
  frames_text fs = Some text -> Forall (fun e => wire_ok e /\ Event_ e <> "close") (events fs) ->
  stopCh_closed c = false ->
  read_body c (Line <$> body_lines text) err =
    Ok (remember_all (events fs) c, omap (called c) (events fs), Some err) /\
  forall e t rest, wire_ok e -> Event_ e = "close" -> event_text e = Some t ->
    exists c', Disconnect (E := unit) (remember_all (events fs) c) = Ok c' /\
      read_body c (Line <$> body_lines (text +:+ t +:+ rest)) err =
        Ok (c', omap (called c) (events fs), Some "close event received").
Proof.
  intros Ht Hok Hs. assert (stopCh_closed (remember_all (events fs) c) = false) as Hs'.
  { unfold remember_all. clear Hok. revert c Hs. induction (events fs) as [|e es IH]; intros c Hs; [done|].
    cbn. apply IH. by rewrite (proj2 (remember_keeps e c)). }
  unfold read_body. split.
  - pose proof (read_frames fs text "" c [] Ht Hok Hs) as H. rewrite app_nil_s in H. by rewrite H.
  - intros e t rest Hw Hclose Hte. rewrite (read_frames fs text _ c [] Ht Hok Hs).
    pose proof Hw as (_ & Hid & _ & _ & Hp). destruct (marshal_total _ Hp) as [data Hd].
    rewrite (frame_lines_event e data t) by done. rewrite fmap_app, foldM_app.
    cbn [fmap list_fmap foldM input_step].
    rewrite read_field; [|done..|by rewrite parse_id].
    rewrite parse_id, Hclose. cbn [mbind result_bind foldM input_step client pending calls].
    rewrite read_close by done. eexists. unfold Disconnect. cbn [client]. rewrite Hs'. split; reflexivity.
Qed.
End WireProofs.

(** ** Backoff *)

#[local] Arguments Contains : simpl never.
#[local] Arguments Z.mul : simpl never.

Section Backoff.
Context {any : Type} `{HJ : Json any}.
Variable text : string.
Variable d : Z.
Hypothesis interval_range : 0 <= d < 2 ^ 62.

(** A refused attempt, and one that is not and does not disconnect. *)
Definition refused (a : attempt) : bool :=
  match a with DoError err disconnects => Contains err text | Response _ _ _ => false end.
Definition closes (i : input) : bool :=
  match i with
  | Line line => HasPrefix line "event:" && bool_decide (TrimSpace (str_drop 6 line) = "close")
  | CallDisconnect => true
  | CallOnEvent _ => false
  end.
Definition undisturbed (a : attempt) : bool :=
  match a with
  | DoError _ disconnects => negb disconnects
  | Response status body end_err =>
      negb (existsb closes body) && negb (Contains end_err text) &&
      negb (Contains ("unexpected status code: " +:+ FormatUint status) text)
  end.

(** The number of refusals in a row at the end of each attempt. *)
Fixpoint in_a_row (k : Z) (l : list attempt) : list Z :=
  match l with
  | [] => []
  | a :: l => let k := if refused a then k + 1 else 0 in k :: in_a_row k l
  end.

Definition wait_after (k : Z) : Z := if k <=? 1 then d else Z.min (d * 2 ^ (k - 1)) (30 * second).

Definition alive (c : SSEClient) : Prop := stopCh_closed c = false /\ reconnectTimeInterval c = d.

Definition after (k : Z) (waits : list Z) (st : connection any) : Prop :=
  alive (conn_client st) /\ conn_waits st = waits /\ conn_strategy st = mkStrategy (wait_after k) (30 * second) k 5.

Lemma parse_field_close line f : eventType (parse_field line f) = "close" ->
  eventType f = "close" \/ closes (Line line) = true.
Proof.
  unfold parse_field, closes. destruct (HasPrefix line "event:"); cbn [eventType andb].
  - intros ->. by right.
  - destruct (HasPrefix line "id:"), (HasPrefix line "data:"); cbn [eventType]; tauto.
Qed.

Lemma undisturbed_step (r : reading any) i : closes i = false -> eventType (pending r) <> "close" -> alive (client r) ->
  exists r', input_step r i = Ok r' /\ eventType (pending r') <> "close" /\ alive (client r').
Proof.
  intros Hi Ht [Hs Hd]. destruct i as [line| |t]; cbn; [|done|by eexists]. unfold read_line.
  case_bool_decide.
  - destruct (eventData (pending r)) as [|x l]; [by eexists|]. unfold processEvent.
    destruct (bool_decide (eventID (pending r) = "")); cbn [callbacks set_lastEventID];
      (case_bool_decide; [destruct (Unmarshal _)|]; eexists; (split; [reflexivity|]); cbn; done).
  - destruct (HasPrefix line ":"); [by eexists|]. rewrite bool_decide_false.
    + rewrite Hs. eexists. split; [done|]. split; [|done]. cbn. intros E.
      apply parse_field_close in E as [|E]; [done|]. by rewrite Hi in E.
    + intros E. apply parse_field_close in E as [|E]; [done|]. by rewrite Hi in E.
Qed.

Lemma undisturbed_body body (r : reading any) :
  existsb closes body = false -> eventType (pending r) <> "close" -> alive (client r) ->
  exists r', foldM input_step r body = Ok r' /\ alive (client r').
Proof.
  revert r. induction body as [|i body IH]; intros r Hb Ht Ha; [by eexists|].
  cbn in Hb. apply orb_false_iff in Hb as [Hi Hb].
  destruct (undisturbed_step r i Hi Ht Ha) as (r' & Hr & Ht' & Ha'). cbn. rewrite Hr. cbn. by apply IH.
Qed.

Lemma undisturbed_answer c s status body end_err :
  undisturbed (Response status body end_err) = true -> alive c ->
  exists c' calls err, stream c s (Response status body end_err) = Ok (c', reset d s, calls, Some err) /\
    alive c' /\ Contains err text = false.
Proof.
  cbn. intros [[Hb%negb_true_iff He%negb_true_iff]%andb_true_iff Hc%negb_true_iff]%andb_true_iff [Hs Hd].
  destruct (status =? 200); cbn.
  - destruct (undisturbed_body body (mkReading (setConnectStatus true c) no_fields []) Hb) as (r & Hr & Ha);
      [done|done|]. unfold read_body. rewrite Hr. cbn. rewrite Hd. eexists _, _, _. split; [reflexivity|done].
  - rewrite Hd. eexists _, _, _. split; [reflexivity|done].
Qed.

Lemma retry_spec k : 0 <= k < 5 ->
  retry (mkStrategy (wait_after k) (30 * second) k 5) =
    (mkStrategy (wait_after (k + 1)) (30 * second) (k + 1) 5, bool_decide (k = 4)).
Proof.
  intros Hk. unfold retry. cbn [backoff maxBackoff retryCount maxRetries].
  rewrite (wrap64_id (k + 1)) by (unfold in_int64, int64_min, int64_max; lia). f_equal.
  - f_equal. destruct (Z.ltb_spec 1 (k + 1)) as [H1|H1]; unfold wait_after, second, millisecond.
    + destruct (Z.leb_spec (k + 1) 1) as [|_]; [lia|].
      assert (2 ^ (k + 1 - 1) = 2 * 2 ^ (k - 1)) as -> by (rewrite <- Z.pow_succ_r by lia; f_equal; lia).
      pose proof (Z.pow_pos_nonneg 2 (k - 1)). assert (k = 1 -> 2 ^ (k - 1) = 1) as Hone by (by intros ->).
      destruct (Z.leb_spec k 1); rewrite wrap64_id by (unfold in_int64, int64_min, int64_max; nia);
        match goal with |- context [?a <? ?b] => destruct (Z.ltb_spec a b) end; nia.
    + by destruct (Z.leb_spec k 1), (Z.leb_spec (k + 1) 1); try lia.
  - cbn. case_bool_decide; lia.
Qed.

(** One attempt, by what it meets. *)
Lemma connect_step_spec st a k waits : undisturbed a = true -> 0 <= k < 5 -> after k waits st ->
  match connect_step text st (a, false) with
  | Ok st' => let k := if refused a then k + 1 else 0 in k < 5 /\ after k (waits ++ [wait_after k]) st'
  | Err st' => refused a = true /\ k = 4 /\ conn_waits st' = waits /\
      stopCh_closed (conn_client st') = true /\ connected (conn_client st') = false
  | Panic => False
  end.
Proof.
  intros Ha Hk ([Hs Hd] & Hw & Hst). unfold connect_step. cbn [fst snd]. rewrite Hst.
  destruct a as [err dis|status body end_err].
  - cbn in Ha. destruct dis; [done|]. cbn [stream mbind result_bind refused].
    destruct (Contains err text).
    + rewrite retry_spec by done. cbn [conn_client]. case_bool_decide as H4.
      * unfold Disconnect. cbn. rewrite Hs. done.
      * cbn. rewrite Hs. cbn. split; [lia|]. rewrite Hw. done.
    + rewrite Hs. cbn. split; [lia|]. rewrite Hd, Hw. repeat split; done.
  - destruct (undisturbed_answer (conn_client st) (mkStrategy (wait_after k) (30 * second) k 5) status body end_err Ha)
      as (c' & calls & err & -> & [Hs' Hd'] & Hc); [done|].
    rewrite Hc, Hs'. cbn. split; [lia|]. rewrite Hd', Hw. repeat split; done.
Qed.

Lemma run_after l st k waits : forallb undisturbed l = true -> 0 <= k < 5 -> after k waits st ->
  match foldM (connect_step text) st (map (fun a => (a, false)) l) with
  | Ok st' => 5 ∉ in_a_row k l /\ stopCh_closed (conn_client st') = false /\
      conn_waits st' = waits ++ map wait_after (in_a_row k l)
  | Err st' =>
      stopCh_closed (conn_client st') = true /\ connected (conn_client st') = false /\
      exists given rest, in_a_row k l = given ++ 5 :: rest /\ 5 ∉ given /\
        conn_waits st' = waits ++ map wait_after given
  | Panic => False
  end.
Proof.
  revert st k waits. induction l as [|a l IH]; intros st k waits Hl Hk Hst.
  { cbn. destruct Hst as ([Hs _] & Hw & _). rewrite app_nil_r. split_and!; [apply not_elem_of_nil|done..]. }
  cbn in Hl. apply andb_true_iff in Hl as [Ha Hl].
  pose proof (connect_step_spec st a k waits Ha Hk Hst) as H1. cbn [map foldM in_a_row].
  destruct (connect_step text st (a, false)) as [st1|st1|]; cbn [mbind result_bind]; [| |done].
  - destruct H1 as [Hk' Hst1]. set (k' := if refused a then k + 1 else 0) in *.
    assert (0 <= k' < 5) as Hk1 by (unfold k' in *; destruct (refused a); lia).
    specialize (IH st1 k' _ Hl Hk1 Hst1).
    destruct (foldM _ st1 _) as [st2|st2|]; [| |done].
    + destruct IH as (Hin & Hs & Hw). split_and!; [|done|].
      * rewrite not_elem_of_cons. split; [lia|done].
      * by rewrite Hw, <- app_assoc.
    + destruct IH as (Hs & Hc & given & rest & -> & Hin & Hw). split_and!; [done..|].
      exists (k' :: given), rest. split_and!; [done| |].
      * rewrite not_elem_of_cons. split; [lia|done].
      * by rewrite Hw, <- app_assoc.
  - destruct H1 as (Hr & -> & Hw & Hs & Hc). split_and!; [done..|]. rewrite Hr.
    exists [], (in_a_row 5 l). split_and!; [done|apply not_elem_of_nil|]. by rewrite app_nil_r.
Qed.

(** C17: Among attempts during which nobody disconnects, the client gives up
    (disconnects, never to read again) exactly at the fifth refusal in a row,
    with no other panic or return; the wait after an attempt is the interval,
    doubled after each further refusal in a row, up to thirty seconds. *)
Theorem reconnect_backoff (c : SSEClient) (l : list attempt) :
  stopCh_closed c = false -> reconnectTimeInterval c = d -> forallb undisturbed l = true ->
  let counts := in_a_row 0 l in
  match connectServer text c (map (fun a => (a, false)) l) with
  | Ok st => 5 ∉ counts /\ stopCh_closed (conn_client st) = false /\ conn_waits st = map wait_after counts
  | Err st =>
      stopCh_closed (conn_client st) = true /\ connected (conn_client st) = false /\
      exists given rest, counts = given ++ 5 :: rest /\ 5 ∉ given /\ conn_waits st = map wait_after given
  | Panic => False
  end.
Proof.
  intros Hs Hd Hl. assert (after 0 [] (start_connection (any := any) c)) as H0.
  { unfold after, alive, start_connection. cbn. by rewrite Hd. }
  apply (run_after l _ 0 [] Hl ltac:(lia) H0).
Qed.
End Backoff.

(** ** A JSON of numbers *)

Lemma trim_right_compact s : forall_chars (fun a => negb (is_space a)) s = true -> trim_right_by is_space s = s.
Proof.
  induction s as [|a s IH]; [done|]. cbn. intros [Ha Hs]%andb_true_iff. rewrite (IH Hs).
  destruct (is_space a); [done|]. by destruct s.
Qed.

Lemma TrimSpace_compact s : forall_chars (fun a => negb (is_space a)) s = true -> TrimSpace s = s.
Proof.
  intros Hs. unfold TrimSpace. rewrite trim_right_compact by done. destruct s as [|a s]; [done|].
  cbn in Hs |- *. by destruct (is_space a).
Qed.

Lemma compact_no_newline s : forall_chars is_digit s = true -> no_char newline s.
Proof.
  induction s as [|a s IH]; [done|]. cbn [forall_chars]. intros [Ha Hs]%andb_true_iff.
  apply no_char_cons. split; [|by apply IH]. by intros ->.
Qed.

Definition toy_json : Json N := {|
  Marshal v := Some (match v with None => "null" | Some n => FormatUint (Z.of_N n) end);
  Unmarshal s := if bool_decide (s = "null") then Some None else (fun z => Some (Z.to_N z)) <$> digits_value 0 s |}.

Lemma digits_compact s :
  forall_chars is_digit s = true -> forall_chars (fun a => negb (is_space a)) s = true.
Proof.
  induction s as [|a s IH]; [done|]. cbn [forall_chars]. intros [Ha Hs]%andb_true_iff.
  rewrite (IH Hs), andb_true_r. revert Ha. clear. by destruct a as [[] [] [] [] [] [] [] []].
Qed.

Lemma toy_json_laws : @JsonLaws N toy_json.
Proof.
  refine {| plain := fun _ => True |}.
  - by intros.
  - intros [n|] s _ [= <-]; cbn; [|done].
    pose proof (FormatUint_digits (Z.of_N n) ltac:(lia)) as Hd.
    rewrite bool_decide_false by (intros E; by rewrite E in Hd).
    rewrite digits_value_FormatUint by lia. cbn. by rewrite N2Z.id.
  - intros [n|] s [= <-]; [|done]. pose proof (FormatUint_digits (Z.of_N n) ltac:(lia)) as Hd.
    split; [by apply compact_no_newline|by apply TrimSpace_compact, digits_compact].
Defined.

Definition toy_client : SSEClient := OnEvent "message" (NewClient (2 * second)).
Definition toy_frames : list (frame (any := N)) :=
  [FHeartbeat; FEvent (mkEvent "a" "message" (Some 7%N)); FEvent (mkEvent "b" "other" None); FEvent (mkEvent "" "" (Some 8%N))].

Lemma wire_roundtrip_witness :
  exists text, frames_text (HJ := toy_json) toy_frames = Some text /\
  exists c, read_body (H := toy_json) toy_client (Line <$> body_lines text) "EOF" =
    Ok (c, [mkEvent "a" "message" (Some 7%N); mkEvent "" "message" (Some 8%N)], Some "EOF") /\ lastEventID c = "b".
Proof.
  destruct (frames_text (HJ := toy_json) toy_frames) as [text|] eqn:Ht; [|vm_compute in Ht; discriminate].
  exists text. split; [reflexivity|].
  assert (Forall (fun e => wire_ok (HL := toy_json_laws) e /\ Event_ e <> "close") (events toy_frames)) as Hok.
  { change (events toy_frames) with [mkEvent "a" "message" (Some 7%N); mkEvent "b" "other" None; mkEvent "" "" (Some 8%N)].
    rewrite !Forall_cons. unfold wire_ok. cbn. split_and!; try reflexivity; try discriminate; done. }
  eexists. split.
  - apply (proj1 (wire_roundtrip (HJ := toy_json) (HL := toy_json_laws) toy_frames text toy_client "EOF" Ht Hok eq_refl)).
  - reflexivity.
Defined.

(** Two refusals, an answer, then the server is gone for good. *)
Definition sample_attempts : list attempt :=
  let refusal := DoError ("dial tcp: " +:+ default_noConnectionErrText +:+ ".") false in
  [refusal; refusal; Response 200 [Line "data: 7"; Line ""] "EOF"] ++ repeat refusal 6.

Lemma reconnect_backoff_witness :
  exists st, connectServer (H := toy_json) default_noConnectionErrText toy_client (map (fun a => (a, false)) sample_attempts)
      = Err st /\
    stopCh_closed (conn_client st) = true /\
    conn_waits st = map (fun n => n * second) [2; 4; 2; 2; 4; 8; 16].
Proof.
  pose proof (reconnect_backoff (HJ := toy_json) default_noConnectionErrText (2 * second) ltac:(split; vm_compute; congruence)
    toy_client sample_attempts eq_refl eq_refl eq_refl) as H.
  destruct (connectServer _ _ _) as [st|st|] eqn:E; [vm_compute in E; discriminate| |destruct H].
  exists st. split; [reflexivity|]. split; [apply H|].
  vm_compute in E. injection E as <-. reflexivity.
Defined.

(** On Linux the refusal of a connection reads otherwise: the default text
    never matches, and the client tries for ever at the same interval. *)
Lemma linux_refusal_not_recognised n :
  let a := (DoError "dial tcp 127.0.0.1:8080: connect: connection refused" false, false) in
  exists st, connectServer (H := toy_json) default_noConnectionErrText toy_client (repeat a n) = Ok st /\
    conn_waits st = repeat (2 * second) n.
Proof.
  intros a. unfold connectServer.
  assert (Contains "dial tcp 127.0.0.1:8080: connect: connection refused" default_noConnectionErrText = false) as Hc
    by (vm_compute; reflexivity).
  enough (forall st, stopCh_closed (conn_client st) = false -> reconnectTimeInterval (conn_client st) = 2 * second ->
    exists st', foldM (connect_step (H := toy_json) default_noConnectionErrText) st (repeat a n) = Ok st' /\
      conn_waits st' = conn_waits st ++ repeat (2 * second) n) as Hgen.
  { by apply (Hgen (start_connection toy_client)). }
  induction n as [|n IH]; intros st Hs Hd; [exists st; by rewrite app_nil_r|].
  assert (connect_step (H := toy_json) default_noConnectionErrText st a =
    Ok (mkConnection (conn_client st) (reset (reconnectTimeInterval (conn_client st)) (conn_strategy st))
      (conn_calls st ++ []) (conn_waits st ++ [reconnectTimeInterval (conn_client st)]))) as Hstep.
  { unfold connect_step. cbn [fst snd a stream mbind result_bind]. by rewrite Hc, Hs. }
  cbn [repeat foldM]. rewrite Hstep. cbn [mbind result_bind].
  destruct (IH (mkConnection (conn_client st) (reset (reconnectTimeInterval (conn_client st)) (conn_strategy st))
    (conn_calls st ++ []) (conn_waits st ++ [reconnectTimeInterval (conn_client st)]))) as (st' & -> & Hw); [done..|].
  exists st'. split; [done|]. rewrite Hw. cbn. by rewrite Hd, <- app_assoc.
Qed.

(** The user's Disconnect after the server closed (or after the client gave
    up) closes the channel again. *)
Lemma disconnect_after_close c :
  stopCh_closed c = true -> Disconnect (E := unit) c = Panic.
Proof. unfold Disconnect. by intros ->. Qed.

(** Two calls of Connect before the first goroutine runs both start one. *)
Lemma connect_twice c : connected c = false ->
  exists c' c'', Connect c = Ok c' /\ Connect c' = Ok c'' /\ goroutines c'' = S (S (goroutines c)).
Proof. unfold Connect. intros ->. cbn. by eexists _, _. Qed.

(** After data that is not JSON, the fields of the event are kept: the next
    event is read with its data prepended, and fails too. *)
Lemma bad_data_poisons_next :
  exists c, read_body (H := toy_json) toy_client (Line <$> ["data: x"; ""; "id: 1"; "data: 7"; ""]) "EOF"
    = Ok (c, [], Some "EOF") /\ lastEventID c = "1".
Proof. by eexists. Qed.

(** A newline in an event's identifier or type makes another field of it. *)
Lemma newline_in_type_closes :
  exists text c, event_text (H := toy_json) (mkEvent "1" ("x" +:+ String newline "event: close") (Some 7%N)) = Some text /\
    read_body (H := toy_json) toy_client (Line <$> body_lines text) "EOF" = Ok (c, [], Some "close event received").
Proof. by eexists _, _. Qed.

End SseClient.
