(* ===== verification/SseHub.v ===== *)
(** * Server-sent events: the hub (pkg/sse: hub.go, server.go, safemap.go, task.go)

    The event center: the goroutine of [Hub.run], the goroutines that serve a
    client each, those that push, the pool of retrying tasks and the sweep of
    [Close], as one state and one executable step for each thing a goroutine
    does between two blocking points.  The theorems: nothing panics and the
    registrations are sound as long as [Close] does not sweep, what a client
    is written is what was routed to it, in order; and that a client that
    reconnects is cut off when its old connection ends.

    A step that would block is [Err Blocked].  The buffered channels are lists
    with a capacity; [register] and [unregister] are unbuffered and so are one
    step of the hub and the client together. *)

From S2P Require Import Prelude GoStr SseClient.

Module SseHub.
Export SseClient.

(** ** The store of events (event.go) *)

Class Store (any S : Type) := {
  Save : S -> Event any -> option S;
  ListByLastID : S -> string -> string -> Z -> option (list (Event any) * string) }.

(** ** State *)

(** Where the goroutine of a client is in [Serve]. *)
Inductive phase : Type := Registering | Resending | Streaming | Unregistering | Gone.
#[export] Instance phase_eq_dec : EqDecision phase.
Proof. solve_decision. Defined.

Section Hub.
Context {any S : Type} `{HJ : Json any} `{HS : Store any S}.
Local Abbreviation Event := (Event any).

(** [UserClient], with what its writer was given: by [resendEvents] and by
    the stream. *)
Record UserClient : Type := mkUserClient {
  UID : string;
  Send : list Event;
  send_closed : bool;
  isSendClosedEvent : bool;
  served : phase;
  eventType_ : string;
  lastEventID_ : string;
  resent : list Event;
  written : list Event }.

Record UserEvent : Type := mkUserEvent { ue_UID : string; ue_Event : Event }.

Record PushStats : Type := mkStats { total : Z; success : Z; failed : Z; timeout : Z }.
Definition IncTotal (s : PushStats) : PushStats := mkStats (wrap64 (total s + 1)) (success s) (failed s) (timeout s).
Definition IncSuccess (s : PushStats) : PushStats := mkStats (total s) (wrap64 (success s + 1)) (failed s) (timeout s).
Definition IncFailed (s : PushStats) : PushStats := mkStats (total s) (success s) (wrap64 (failed s + 1)) (timeout s).
Definition IncTimeout (s : PushStats) : PushStats := mkStats (total s) (success s) (failed s) (wrap64 (timeout s + 1)).
Definition Snapshot (s : PushStats) : Z * Z * Z * Z := (total s, success s, failed s, timeout s).

Record hubOptions : Type := mkHubOptions {
  enableResendEvents : bool;
  pushBufferSize : nat;
  workerNum : nat }.
Definition defaultHubOptions : hubOptions := mkHubOptions false 1000 10.
Definition WithEnableResendEvents (o : hubOptions) : hubOptions := mkHubOptions true (pushBufferSize o) (workerNum o).
Definition WithPushBufferSize (size : Z) (o : hubOptions) : hubOptions :=
  if size <=? 0 then o else mkHubOptions (enableResendEvents o) (Z.to_nat size) (workerNum o).
Definition WithWorkerNum (num : Z) (o : hubOptions) : hubOptions :=
  if num <=? 0 then o else mkHubOptions (enableResendEvents o) (pushBufferSize o) (Z.to_nat num).

(** [clients] maps a user to its client, an index of [objs]; [sending] is the
    hub inside [trySendWithTimeout] with its number of timeouts, [tasks] the
    submitted pushes with theirs; [pushFailed] logs [pushFailedHandleFn]. *)
Record Hub : Type := mkHub {
  options : hubOptions;
  store : option S;
  clients : gmap string nat;
  objs : list UserClient;
  broadcast : list UserEvent;
  tasks : list (UserEvent * nat);
  sending : option (nat * UserEvent * nat);
  stats : PushStats;
  pushFailed : list (string * Event);
  stopped : bool }.

Definition maxRetry : nat := 3.
Definition task_capacity : nat := 10000.

Definition NewHub (opts : list (hubOptions -> hubOptions)) (st : option S) : Hub :=
  mkHub (foldl (fun o opt => opt o) defaultHubOptions opts) st ∅ [] [] [] None (mkStats 0 0 0 0) [] false.

Definition set_clients (m : gmap string nat) (h : Hub) : Hub :=
  mkHub (options h) (store h) m (objs h) (broadcast h) (tasks h) (sending h) (stats h) (pushFailed h) (stopped h).
Definition set_objs (l : list UserClient) (h : Hub) : Hub :=
  mkHub (options h) (store h) (clients h) l (broadcast h) (tasks h) (sending h) (stats h) (pushFailed h) (stopped h).
Definition set_broadcast (q : list UserEvent) (h : Hub) : Hub :=
  mkHub (options h) (store h) (clients h) (objs h) q (tasks h) (sending h) (stats h) (pushFailed h) (stopped h).
Definition set_tasks (q : list (UserEvent * nat)) (h : Hub) : Hub :=
  mkHub (options h) (store h) (clients h) (objs h) (broadcast h) q (sending h) (stats h) (pushFailed h) (stopped h).
Definition set_sending (x : option (nat * UserEvent * nat)) (h : Hub) : Hub :=
  mkHub (options h) (store h) (clients h) (objs h) (broadcast h) (tasks h) x (stats h) (pushFailed h) (stopped h).
Definition set_stats (s : PushStats) (h : Hub) : Hub :=
  mkHub (options h) (store h) (clients h) (objs h) (broadcast h) (tasks h) (sending h) s (pushFailed h) (stopped h).
Definition set_store (s : option S) (h : Hub) : Hub :=
  mkHub (options h) s (clients h) (objs h) (broadcast h) (tasks h) (sending h) (stats h) (pushFailed h) (stopped h).
Definition log_failed (uid : string) (e : Event) (h : Hub) : Hub :=
  mkHub (options h) (store h) (clients h) (objs h) (broadcast h) (tasks h) (sending h) (stats h) (pushFailed h ++ [(uid, e)]) (stopped h).
Definition set_stopped (h : Hub) : Hub :=
  mkHub (options h) (store h) (clients h) (objs h) (broadcast h) (tasks h) (sending h) (stats h) (pushFailed h) true.

(** safemap.go, over the map of the hub. *)
Definition Has (uid : string) (h : Hub) : bool := bool_decide (is_Some (clients h !! uid)).
Definition OnlineClientsNum (h : Hub) : nat := size (clients h).

Definition set_served (p : phase) (c : UserClient) : UserClient :=
  mkUserClient (UID c) (Send c) (send_closed c) (isSendClosedEvent c) p (eventType_ c) (lastEventID_ c) (resent c) (written c).
Definition set_Send (q : list Event) (c : UserClient) : UserClient :=
  mkUserClient (UID c) q (send_closed c) (isSendClosedEvent c) (served c) (eventType_ c) (lastEventID_ c) (resent c) (written c).
Definition set_send_closed (c : UserClient) : UserClient :=
  mkUserClient (UID c) (Send c) true (isSendClosedEvent c) (served c) (eventType_ c) (lastEventID_ c) (resent c) (written c).
Definition set_closed_event (c : UserClient) : UserClient :=
  mkUserClient (UID c) (Send c) (send_closed c) true (served c) (eventType_ c) (lastEventID_ c) (resent c) (written c).
Definition set_resent (l : list Event) (c : UserClient) : UserClient :=
  mkUserClient (UID c) (Send c) (send_closed c) (isSendClosedEvent c) (served c) (eventType_ c) (lastEventID_ c) l (written c).
Definition set_written (l : list Event) (c : UserClient) : UserClient :=
  mkUserClient (UID c) (Send c) (send_closed c) (isSendClosedEvent c) (served c) (eventType_ c) (lastEventID_ c) (resent c) l.

(** ** The client's goroutine (server.go) *)

(** [sendEvent] to a writer that takes the data or not; the boolean is a nil
    error.  The stream and [resendEvents] keep what was written apart. *)
Definition sendEvent (wrote : bool) (record : Event -> UserClient -> UserClient) (e : Event) (c : UserClient)
    : UserClient * bool :=
  match event_text e with
  | None => (c, false)
  | Some _ =>
      let c := if bool_decide (Event_ e = "close") then set_closed_event c else c in
      if wrote then (record e c, true) else (c, false)
  end.
Definition record_written (e : Event) (c : UserClient) : UserClient := set_written (written c ++ [e]) c.
Definition record_resent (e : Event) (c : UserClient) : UserClient := set_resent (resent c ++ [e]) c.

(** [Serve] up to the registration: the header's or the query's event type
    and identifier, the default event type. *)
Definition new_client (uid et id : string) : UserClient :=
  mkUserClient uid [] false false Registering (if bool_decide (et = "") then DefaultEventType else et) id [] [].

(** One page of [resendEvents]; the writer takes an event or not. *)
Definition resend_step (takes : Event -> bool) (s : UserClient * list (string * Event)) (e : Event)
    : UserClient * list (string * Event) :=
  let '(c, failures) := s in
  let '(c, ok) := sendEvent (takes e) record_resent e c in
  (c, if ok then failures else failures ++ [(UID c, e)]).

(** [resendEvents] with the failures it reports; [None] without enough fuel. *)
Fixpoint resendEvents (fuel : nat) (st : S) (takes : Event -> bool) (eventType lastEventID : string)
    (s : UserClient * list (string * Event)) : option (UserClient * list (string * Event)) :=
  match fuel with
  | O => None
  | Datatypes.S fuel =>
      match ListByLastID st eventType lastEventID 100 with
      | None => Some s
      | Some ([], _) => Some s
      | Some (events, nextID) =>
          let s := foldl (resend_step takes) s events in
          if bool_decide (nextID = "") then Some s else resendEvents fuel st takes eventType nextID s
      end
  end.

(** ** Steps *)

Inductive blocked : Type := Blocked.

Inductive action : Type :=
  (* a request comes in; the hub takes its registration *)
  | Serve (uid eventType lastEventID : string)
  | HubRegister (cid : nat)
  (* the client's goroutine resends, takes an event of its channel, finds it
     closed, sends a heartbeat, sees the request end *)
  | Resend (cid fuel : nat) (takes : Event -> bool)
  | ClientEvent (cid : nat) (wrote : bool)
  | ClientClosed (cid : nat)
  | ClientHeartbeat (cid : nat) (wrote : bool)
  | ClientGone (cid : nat)
  (* the hub takes an unregistration, a broadcast, goes on with a send that
     blocks, sees its context done *)
  | HubUnregister (cid : nat)
  | HubBroadcast
  | HubSend
  | HubSendTimeout
  | HubStop
  (* a push of one event, the tasks that retry it *)
  | PushOne (uid : string) (e : Event)
  | TaskPush (k : nat)
  | TaskTimeout (k : nat)
  (* the sweep of Close on one client *)
  | CloseSweep (cid : nat).

(** The hub's goroutine is at its [select]. *)
Definition hub_idle (h : Hub) : bool := negb (stopped h) && match sending h with None => true | Some _ => false end.

Definition get_client (cid : nat) (h : Hub) : result blocked UserClient :=
  match objs h !! cid with Some c => Ok c | None => Err Blocked end.
Definition put_client (cid : nat) (c : UserClient) (h : Hub) : Hub := set_objs (<[cid := c]> (objs h)) h.

(** A send to a client's channel: it panics when closed, blocks when full. *)
Definition channel_send (cid : nat) (e : Event) (h : Hub) : result blocked Hub :=
  c ← get_client cid h;
  if send_closed c then Panic
  else if (length (Send c) <? pushBufferSize (options h))%nat then Ok (put_client cid (set_Send (Send c ++ [e]) c) h)
  else Err Blocked.

(** [close(cli.Send)]. *)
Definition channel_close (cid : nat) (h : Hub) : result blocked Hub :=
  c ← get_client cid h;
  if send_closed c then Panic else Ok (put_client cid (set_send_closed c) h).

(** The cases of the [select] in [run]. *)
Definition hub_register (cid : nat) (h : Hub) : result blocked Hub :=
  c ← get_client cid h;
  if negb (hub_idle h && bool_decide (served c = Registering)) then Err Blocked
  else
    let next := if enableResendEvents (options h) && negb (bool_decide (lastEventID_ c = "")) then Resending else Streaming in
    Ok (set_clients (<[UID c := cid]> (clients h)) (put_client cid (set_served next c) h)).

Definition hub_unregister (cid : nat) (h : Hub) : result blocked Hub :=
  c ← get_client cid h;
  if negb (hub_idle h && bool_decide (served c = Unregistering)) then Err Blocked
  else
    let h := put_client cid (set_served Gone c) h in
    if Has (UID c) h then channel_close cid (set_clients (delete (UID c) (clients h)) h) else Ok h.

Definition hub_broadcast (h : Hub) : result blocked Hub :=
  match hub_idle h, broadcast h with
  | true, ue :: rest =>
      let h := set_broadcast rest h in
      match clients h !! ue_UID ue with
      | None => Ok h
      | Some cid =>
          match channel_send cid (ue_Event ue) h with
          | Err Blocked => Ok (set_sending (Some (cid, ue, O)) h)
          | r => r
          end
      end
  | _, _ => Err Blocked
  end.

(** [trySendWithTimeout]: the send goes through, or five seconds pass. *)
Definition hub_send (h : Hub) : result blocked Hub :=
  match sending h with
  | Some (cid, ue, _) => h ← channel_send cid (ue_Event ue) h; Ok (set_sending None h)
  | None => Err Blocked
  end.
Definition hub_send_timeout (h : Hub) : result blocked Hub :=
  match sending h with
  | Some (cid, ue, i) =>
      let h := set_stats (IncTimeout (stats h)) h in
      if (i + 1 <? maxRetry)%nat then Ok (set_sending (Some (cid, ue, i + 1)%nat) h)
      else Ok (log_failed (ue_UID ue) (ue_Event ue) (set_sending None (set_stats (IncFailed (stats h)) h)))
  | None => Err Blocked
  end.

(** [pushOne]; [Submit] blocks when the task channel is full. *)
Definition pushOne (ue : UserEvent) (h : Hub) : result blocked Hub :=
  let h := set_stats (IncTotal (stats h)) h in
  if (length (broadcast h) <? pushBufferSize (options h))%nat then Ok (set_broadcast (broadcast h ++ [ue]) h)
  else if (length (tasks h) <? task_capacity + workerNum (options h))%nat then Ok (set_tasks (tasks h ++ [(ue, O)]) h)
  else Err Blocked.

(** [tryPushWithTimeout] in a worker: the tasks are taken in order, so those
    that run are among the first [workerNum] left. *)
Definition task (k : nat) (h : Hub) : result blocked (UserEvent * nat) :=
  if (k <? workerNum (options h))%nat then
    match tasks h !! k with Some t => Ok t | None => Err Blocked end
  else Err Blocked.
Definition task_push (k : nat) (h : Hub) : result blocked Hub :=
  t ← task k h;
  if (length (broadcast h) <? pushBufferSize (options h))%nat
  then Ok (set_tasks (delete k (tasks h)) (set_broadcast (broadcast h ++ [t.1]) h))
  else Err Blocked.
Definition task_timeout (k : nat) (h : Hub) : result blocked Hub :=
  t ← task k h;
  let h := set_stats (IncTimeout (stats h)) h in
  if (t.2 + 1 <? maxRetry)%nat then Ok (set_tasks (<[k := (t.1, t.2 + 1)%nat]> (tasks h)) h)
  else Ok (log_failed (ue_UID t.1) (ue_Event t.1)
             (set_tasks (delete k (tasks h)) (set_stats (IncFailed (stats h)) h))).

(** The cases of the [select] in [Serve]; [false] ends the stream, and the
    deferred function unregisters. *)
Definition client_select (cid : nat) (h : Hub) (f : UserClient -> result blocked (UserClient * PushStats)) : result blocked Hub :=
  c ← get_client cid h;
  if negb (bool_decide (served c = Streaming)) then Err Blocked
  else '(c, st) ← f c; Ok (set_stats st (put_client cid c h)).

Definition client_event (wrote : bool) (st : PushStats) (c : UserClient) : result blocked (UserClient * PushStats) :=
  match Send c with
  | [] => Err Blocked
  | e :: q =>
      let '(c, ok) := sendEvent wrote record_written e (set_Send q c) in
      if ok then Ok (c, IncSuccess st) else Ok (set_served Unregistering c, IncFailed st)
  end.
Definition client_closed (st : PushStats) (c : UserClient) : result blocked (UserClient * PushStats) :=
  match Send c with
  | [] => if send_closed c then Ok (set_served Unregistering c, st) else Err Blocked
  | _ => Err Blocked
  end.
Definition client_heartbeat (wrote : bool) (st : PushStats) (c : UserClient) : result blocked (UserClient * PushStats) :=
  Ok (if wrote then c else set_served Unregistering c, st).
Definition client_gone (st : PushStats) (c : UserClient) : result blocked (UserClient * PushStats) :=
  Ok (set_served Unregistering c, st).

Definition client_resend (cid fuel : nat) (takes : Event -> bool) (h : Hub) : result blocked Hub :=
  c ← get_client cid h;
  if negb (bool_decide (served c = Resending)) then Err Blocked
  else
    match store h with
    | None => Ok (put_client cid (set_served Streaming c) h)
    | Some st =>
        match resendEvents fuel st takes (eventType_ c) (lastEventID_ c) (c, []) with
        | None => Err Blocked
        | Some (c, failures) =>
            Ok (foldl (fun h x => log_failed x.1 x.2 h) (put_client cid (set_served Streaming c) h) failures)
        end
    end.

(** The body of the loop in [Close]. *)
Definition close_sweep (cid : nat) (h : Hub) : result blocked Hub :=
  c ← get_client cid h;
  if bool_decide (clients h !! UID c = Some cid) && isSendClosedEvent c
  then channel_close cid (set_clients (delete (UID c) (clients h)) h)
  else Err Blocked.

Definition step (h : Hub) (a : action) : result blocked Hub :=
  match a with
  | Serve uid et id => if bool_decide (uid = "") then Ok h else Ok (set_objs (objs h ++ [new_client uid et id]) h)
  | HubRegister cid => hub_register cid h
  | Resend cid fuel takes => client_resend cid fuel takes h
  | ClientEvent cid wrote => client_select cid h (client_event wrote (stats h))
  | ClientClosed cid => client_select cid h (client_closed (stats h))
  | ClientHeartbeat cid wrote => client_select cid h (client_heartbeat wrote (stats h))
  | ClientGone cid => client_select cid h (client_gone (stats h))
  | HubUnregister cid => hub_unregister cid h
  | HubBroadcast => hub_broadcast h
  | HubSend => hub_send h
  | HubSendTimeout => hub_send_timeout h
  | HubStop => if hub_idle h then Ok (set_stopped h) else Err Blocked
  | PushOne uid e => pushOne (mkUserEvent uid e) h
  | TaskPush k => task_push k h
  | TaskTimeout k => task_timeout k h
  | CloseSweep cid => close_sweep cid h
  end.

(** ** Pushing

    [Push] with nothing else running in between; the identifiers of events
    without one come from the clock and a random number, one argument each.
    The state after a failure is kept: earlier events are already out. *)
Inductive push_error : Type := ErrEmptyEvents | ErrInvalid (err : event_error) | ErrSave.

Definition with_id (newID : string) (e : Event) : Event :=
  if bool_decide (ID e = "") then mkEvent newID (Event_ e) (Data e) else e.

(** The users [Push] addresses: those named that are online, or all online,
    in the order the map gives them. *)
Definition push_targets (uids : list string) (h : Hub) : list string :=
  match uids with
  | [] => map fst (map_to_list (clients h))
  | _ => filter (fun uid => Has uid h = true) uids
  end.

Fixpoint push_loop (uids : list string) (events : list (Event * string)) (h : Hub)
    : result blocked (Hub * option push_error) :=
  match events with
  | [] => Ok (h, None)
  | (e, newID) :: events =>
      match CheckValid e with
      | Some err => Ok (h, Some (ErrInvalid err))
      | None =>
          let e := with_id newID e in
          let saved := match store h with
                       | None => Some h
                       | Some st => match Save st e with Some st => Some (set_store (Some st) h) | None => None end
                       end in
          match saved with
          | None => Ok (h, Some ErrSave)
          | Some h =>
              h ← foldM (fun h uid => step h (PushOne uid e)) h (push_targets uids h);
              push_loop uids events h
          end
      end
  end.
Definition Push (uids : list string) (events : list (Event * string)) (h : Hub) : result blocked (Hub * option push_error) :=
  match events with [] => Ok (h, Some ErrEmptyEvents) | _ => push_loop uids events h end.

Definition PushHeartBeat (uid : string) (h : Hub) : result blocked Hub := pushOne (mkUserEvent uid (mkEvent "" "heartbeat" None)) h.

(** ** Runs *)

(** The client a broadcast is routed to. *)
Definition route (h : Hub) (a : action) : option (nat * Event) :=
  match a, broadcast h with
  | HubBroadcast, ue :: _ => cid ← clients h !! ue_UID ue; Some (cid, ue_Event ue)
  | _, _ => None
  end.

Definition run_step (s : Hub * list (nat * Event)) (a : action) : result blocked (Hub * list (nat * Event)) :=
  h ← step s.1 a; Ok (h, s.2 ++ option_list (route s.1 a)).
Definition run (h : Hub) (acts : list action) : result blocked (Hub * list (nat * Event)) := foldM run_step (h, []) acts.

(** ** The invariant *)

#[local] Arguments Nat.ltb : simpl never.

Definition online (c : UserClient) : Prop := served c = Resending \/ served c = Streaming \/ served c = Unregistering.

(** A registered client, and one being sent to, is open and online; only a
    client that is gone is closed; no channel is over its capacity. *)
Record sound (o : hubOptions) (m : gmap string nat) (l : list UserClient) (q : list UserEvent)
    (x : option (nat * UserEvent * nat)) : Prop := {
  sound_clients uid cid : m !! uid = Some cid ->
    exists c, l !! cid = Some c /\ UID c = uid /\ send_closed c = false /\ online c;
  sound_closed cid c : l !! cid = Some c -> send_closed c = true -> served c = Gone;
  sound_sending cid ue n : x = Some (cid, ue, n) -> (n < maxRetry)%nat /\
    exists c, l !! cid = Some c /\ UID c = ue_UID ue /\ send_closed c = false /\ online c;
  sound_sends cid c : l !! cid = Some c -> (length (Send c) <= pushBufferSize o)%nat;
  sound_broadcast : (length q <= pushBufferSize o)%nat }.
Definition hub_ok (h : Hub) : Prop := sound (options h) (clients h) (objs h) (broadcast h) (sending h).

(** A change of a client that keeps it sound. *)
Definition keeps (n : nat) (c c' : UserClient) : Prop :=
  UID c' = UID c /\ send_closed c' = send_closed c /\ (length (Send c') <= n)%nat /\
  (online c -> online c') /\ (served c = Gone -> served c' = Gone).

Lemma keeps_set_Send n c q : (length q <= n)%nat -> keeps n c (set_Send q c).
Proof. intros Hq. by unfold keeps, online. Qed.
Lemma keeps_served n c p : (length (Send c) <= n)%nat -> p <> Registering -> served c <> Gone ->
  (p = Gone -> ~ online c) -> keeps n c (set_served p c).
Proof. intros Hn Hp Hg Ho. unfold keeps, online in *. cbn. destruct p; intuition congruence. Qed.
Lemma keeps_trans n c d e : keeps n c d -> keeps n d e -> keeps n c e.
Proof. unfold keeps. intuition congruence. Qed.

Lemma put_sound o m l q x cid c c' :
  sound o m l q x -> l !! cid = Some c -> keeps (pushBufferSize o) c c' -> sound o m (<[cid := c']> l) q x.
Proof.
  intros [H1 H2 H3 H4 H5] Hc (Hu & Hcl & Hs & Hon & Hg).
  assert (forall i d, l !! i = Some d -> exists d', <[cid := c']> l !! i = Some d' /\ UID d' = UID d /\
    send_closed d' = send_closed d /\ (online d -> online d')) as Hget.
  { intros i d Hd. destruct (decide (i = cid)) as [->|Hne].
    - simplify_eq. exists c'. rewrite list_lookup_insert_eq by (by eapply lookup_lt_Some). done.
    - exists d. by rewrite list_lookup_insert_ne. }
  split.
  - intros uid i Hi. destruct (H1 _ _ Hi) as (d & Hd & <- & Hdc & Hdo).
    destruct (Hget _ _ Hd) as (d' & ? & ? & ? & ?). exists d'. split_and!; [done|done|congruence|auto].
  - intros i d [(-> & <- & _)|[Hne Hd]]%list_lookup_insert_Some; [|by eapply H2].
    rewrite Hcl. intros Hclosed. apply Hg. by apply (H2 i).
  - intros i ue n Hx. destruct (H3 _ _ _ Hx) as (Hn & d & Hd & Hdu & Hdc & Hdo). split; [done|].
    destruct (Hget _ _ Hd) as (d' & ? & ? & ? & ?). exists d'. split_and!; [done|congruence|congruence|auto].
  - intros i d [(-> & <- & _)|[Hne Hd]]%list_lookup_insert_Some; [done|by eapply H4].
  - done.
Qed.

Lemma get_client_ok cid h c : get_client cid h = Ok c <-> objs h !! cid = Some c.
Proof. unfold get_client. destruct (objs h !! cid); naive_solver. Qed.

(** Outcomes of a step: never a panic, and a sound hub. *)
Definition safe (o : hubOptions) (r : result blocked Hub) : Prop :=
  match r with Ok h => hub_ok h /\ options h = o | Err _ => True | Panic => False end.

Lemma safe_bind {A} o (m : result blocked A) f :
  m <> Panic -> (forall a, m = Ok a -> safe o (f a)) -> safe o (m ≫= f).
Proof. destruct m; cbn; auto. Qed.

Lemma get_client_no_panic cid h : get_client cid h <> Panic.
Proof. unfold get_client. by destruct (objs h !! cid). Qed.

Lemma channel_send_safe cid e h c :
  hub_ok h -> objs h !! cid = Some c -> send_closed c = false -> safe (options h) (channel_send cid e h).
Proof.
  intros Hok Hc Hcl. unfold channel_send. rewrite (proj2 (get_client_ok cid h c) Hc). cbn. rewrite Hcl.
  destruct (Nat.ltb_spec (length (Send c)) (pushBufferSize (options h))); cbn; [|done]. split; [|done].
  unfold hub_ok. cbn. eapply put_sound; [done|done|]. apply keeps_set_Send. list_lia.
Qed.

Lemma sendEvent_keeps wrote record e c n :
  (record = record_written \/ record = record_resent) -> (length (Send c) <= n)%nat ->
  keeps n c (sendEvent wrote record e c).1 /\ served (sendEvent wrote record e c).1 = served c.
Proof.
  intros Hr Hn. unfold sendEvent. destruct (event_text e); [|done].
  case_bool_decide; destruct wrote; destruct Hr as [->| ->]; done.
Qed.

Lemma resend_keeps takes events n s :
  (length (Send s.1) <= n)%nat ->
  keeps n s.1 (foldl (resend_step takes) s events).1 /\ served (foldl (resend_step takes) s events).1 = served s.1.
Proof.
  revert s. induction events as [|e events IH]; intros [c fs] Hn; [done|]. cbn [foldl].
  destruct (sendEvent_keeps (takes e) record_resent e c n (or_intror eq_refl) Hn) as [Hk Hs].
  destruct (sendEvent (takes e) record_resent e c) as [c' ok] eqn:E. cbn [fst] in Hk, Hs.
  assert (resend_step takes (c, fs) e = (c', if ok then fs else fs ++ [(UID c', e)])) as ->
    by (unfold resend_step; by rewrite E).
  edestruct (IH (c', if ok then fs else fs ++ [(UID c', e)])) as [Hk' Hs']; [apply Hk|].
  cbn [fst] in *. split; [eapply keeps_trans; eassumption|congruence].
Qed.

Lemma resendEvents_keeps fuel st takes et id s r n :
  (length (Send s.1) <= n)%nat -> resendEvents fuel st takes et id s = Some r ->
  keeps n s.1 r.1 /\ served r.1 = served s.1.
Proof.
  revert id s. induction fuel as [|fuel IH]; intros id s Hn; cbn; [done|].
  destruct (ListByLastID st et id 100) as [[[|e events] next]|]; [by intros [= <-]| |by intros [= <-]].
  destruct (resend_keeps takes (e :: events) n s Hn) as [Hk Hs].
  case_bool_decide; [by intros [= <-]|]. intros Hr.
  destruct (IH next _ ltac:(apply Hk) Hr) as [Hk' Hs']. split; [eapply keeps_trans; eassumption|congruence].
Qed.

(** A step of the client's goroutine. *)
Lemma client_select_safe cid h f :
  hub_ok h ->
  (forall c, objs h !! cid = Some c -> served c = Streaming -> match f c with
     | Ok (c', _) => keeps (pushBufferSize (options h)) c c'
     | Err _ => True
     | Panic => False
     end) ->
  safe (options h) (client_select cid h f).
Proof.
  intros Hok Hf. unfold client_select. apply safe_bind; [apply get_client_no_panic|].
  intros c Hc%get_client_ok. case_bool_decide as Hs; [|done]. cbn [negb]. specialize (Hf c Hc Hs).
  destruct (f c) as [[c' st]|e|]; [|done..]. split; [|done].
  unfold hub_ok. cbn. by eapply put_sound.
Qed.

Lemma log_failures_ok h l :
  let h' := foldl (fun h x => log_failed x.1 x.2 h) h l in
  options h' = options h /\ clients h' = clients h /\ objs h' = objs h /\ broadcast h' = broadcast h /\ sending h' = sending h.
Proof.
  revert h. induction l as [|x l IH]; intros h; [done|]. apply (IH (log_failed x.1 x.2 h)).
Qed.

Definition sweeps (a : action) : bool := match a with CloseSweep _ => true | _ => false end.

Lemma hub_register_safe cid h : hub_ok h -> safe (options h) (hub_register cid h).
Proof.
  intros Hok. unfold hub_register. apply safe_bind; [apply get_client_no_panic|].
  intros c Hc%get_client_ok. destruct (hub_idle h) eqn:Hidle; [|done]. case_bool_decide as Hs; [|done]. cbn.
  split; [|done]. set (p := if (_ : bool) then Resending else Streaming).
  assert (p <> Registering /\ p <> Gone /\ online (set_served p c)) as (Hp & Hg & Ho).
  { unfold p, online. cbn. destruct (enableResendEvents _ && _); split_and!; try done; tauto. }
  pose proof (sound_sends _ _ _ _ _ Hok _ _ Hc) as Hlen.
  assert (keeps (pushBufferSize (options h)) c (set_served p c)) as Hk by (apply keeps_served; [done|done|congruence|done]).
  assert (send_closed c = false) as Hcl.
  { destruct (send_closed c) eqn:E; [|done]. by rewrite (sound_closed _ _ _ _ _ Hok _ _ Hc E) in Hs. }
  pose proof (put_sound _ _ _ _ _ _ _ _ Hok Hc Hk) as [H1 H2 H3 H4 H5]. split; [|done..].
  intros uid i. cbn. rewrite lookup_insert_Some. intros [[<- <-]|[_ Hi]]; [|by apply H1].
  exists (set_served p c). rewrite list_lookup_insert_eq by (by eapply lookup_lt_Some). done.
Qed.

Lemma hub_idle_spec h : hub_idle h = true <-> stopped h = false /\ sending h = None.
Proof. unfold hub_idle. destruct (stopped h), (sending h); naive_solver. Qed.

(** A client leaves: nothing refers to it any more. *)
Lemma retire_sound o m m' l q cid c c' :
  sound o m l q None -> l !! cid = Some c ->
  (forall uid i, m' !! uid = Some i -> m !! uid = Some i /\ i <> cid) ->
  served c' = Gone -> Send c' = Send c -> sound o m' (<[cid := c']> l) q None.
Proof.
  intros [H1 H2 H3 H4 H5] Hc Hm Hg Hs. split; [| |done| |done].
  - intros uid i Hi. destruct (Hm _ _ Hi) as [Hi' Hne]. destruct (H1 _ _ Hi') as (d & Hd & Hrest).
    exists d. by rewrite list_lookup_insert_ne.
  - intros i d [(-> & <- & _)|[Hne Hd]]%list_lookup_insert_Some; [done|by eapply H2].
  - intros i d [(-> & <- & _)|[Hne Hd]]%list_lookup_insert_Some; [rewrite Hs; by eapply H4|by eapply H4].
Qed.

(** The user of a registered client is its own. *)
Lemma registered_uid o m l q x uid cid c :
  sound o m l q x -> m !! uid = Some cid -> l !! cid = Some c -> UID c = uid.
Proof. intros H Hm Hl. destruct (sound_clients _ _ _ _ _ H _ _ Hm) as (d & Hd & Hu & _). congruence. Qed.

Lemma hub_unregister_safe cid h : hub_ok h -> safe (options h) (hub_unregister cid h).
Proof.
  intros Hok. unfold hub_unregister. apply safe_bind; [apply get_client_no_panic|].
  intros c Hc%get_client_ok. destruct (hub_idle h) eqn:Hidle; [|done]. case_bool_decide as Hs; [|done]. cbn [andb negb].
  apply hub_idle_spec in Hidle as [_ Hnone]. unfold hub_ok in Hok. rewrite Hnone in Hok.
  assert (forall uid i, clients h !! uid = Some i -> i = cid -> uid = UID c) as Hown.
  { intros uid i Hi ->. symmetry. by eapply registered_uid. }
  assert (send_closed c = false) as Hcl.
  { destruct (send_closed c) eqn:E; [|done]. by rewrite (sound_closed _ _ _ _ _ Hok _ _ Hc E) in Hs. }
  unfold Has. cbn [clients put_client set_objs]. case_bool_decide as Hhas.
  - unfold channel_close, get_client. cbn [objs put_client set_objs set_clients].
    rewrite list_lookup_insert_eq by (by eapply lookup_lt_Some). cbn [mbind result_bind send_closed set_served].
    rewrite Hcl. split; [|done]. unfold hub_ok. cbn. rewrite Hnone, list_insert_insert_eq.
    eapply retire_sound; [done|done| |done|done].
    intros uid i [Hne Hi]%lookup_delete_Some. split; [done|]. intros Hi'. apply Hne. symmetry. by eapply Hown.
  - split; [|done]. unfold hub_ok. cbn. rewrite Hnone. eapply retire_sound; [done|done| |done|done].
    intros uid i Hi. split; [done|]. intros Hi'. apply Hhas. rewrite <- (Hown _ _ Hi Hi'). by eexists.
Qed.

Lemma hub_broadcast_safe h : hub_ok h -> safe (options h) (hub_broadcast h).
Proof.
  intros Hok. unfold hub_broadcast. destruct (hub_idle h) eqn:Hidle; [|done].
  apply hub_idle_spec in Hidle as [_ Hnone]. destruct (broadcast h) as [|ue rest] eqn:Hq; [done|].
  assert (hub_ok (set_broadcast rest h)) as Hok'.
  { destruct Hok as [H1 H2 H3 H4 H5]. split; cbn; [done..|]. rewrite Hq in H5. cbn in H5. lia. }
  cbn [clients set_broadcast]. destruct (clients h !! ue_UID ue) as [cid|] eqn:Hm; [|done].
  destruct (sound_clients _ _ _ _ _ Hok _ _ Hm) as (c & Hc & Hu & Hcl & Hon).
  pose proof (channel_send_safe cid (ue_Event ue) (set_broadcast rest h) c Hok' Hc Hcl) as Hsafe.
  destruct (channel_send cid (ue_Event ue) (set_broadcast rest h)) as [h'|[]|]; [done| |done].
  split; [|done]. destruct Hok' as [H1 H2 H3 H4 H5]. split; cbn; [done..| |done|done].
  intros i ue' n [= <- <- <-]. split; [unfold maxRetry; lia|]. by exists c.
Qed.

Lemma hub_send_safe h : hub_ok h -> safe (options h) (hub_send h).
Proof.
  intros Hok. unfold hub_send. destruct (sending h) as [[[cid ue] n]|] eqn:Hx; [|done].
  destruct (sound_sending _ _ _ _ _ Hok _ _ _ Hx) as (Hn & c & Hc & Hu & Hcl & Hon).
  pose proof (channel_send_safe cid (ue_Event ue) h c Hok Hc Hcl) as Hsafe.
  destruct (channel_send cid (ue_Event ue) h) as [h'|[]|]; [|done..]. cbn in *.
  destruct Hsafe as [[H1 H2 H3 H4 H5] Ho]. split; [|done]. by split.
Qed.

Lemma hub_send_timeout_safe h : hub_ok h -> safe (options h) (hub_send_timeout h).
Proof.
  intros Hok. unfold hub_send_timeout. destruct (sending h) as [[[cid ue] n]|] eqn:Hx; [|done].
  destruct (sound_sending _ _ _ _ _ Hok _ _ _ Hx) as (Hn & Hc). destruct Hok as [H1 H2 H3 H4 H5].
  destruct (Nat.ltb_spec (n + 1) maxRetry); (split; [|done]); (split; cbn; [done..| |done|done]); [|done].
  by intros i ue' k [= <- <- <-].
Qed.

Lemma pushOne_safe ue h : hub_ok h -> safe (options h) (pushOne ue h).
Proof.
  intros [H1 H2 H3 H4 H5]. unfold pushOne. cbn [broadcast set_stats options tasks].
  destruct (Nat.ltb_spec (length (broadcast h)) (pushBufferSize (options h))).
  - split; [|done]. split; cbn; [done..|]. list_lia.
  - destruct (Nat.ltb_spec (length (tasks h)) (task_capacity + workerNum (options h))); [|done]. split; [by split|done].
Qed.

Lemma task_no_panic k h : task k h <> Panic.
Proof. unfold task. destruct (k <? _)%nat; [|done]. by destruct (tasks h !! k). Qed.

Lemma task_push_safe k h : hub_ok h -> safe (options h) (task_push k h).
Proof.
  intros [H1 H2 H3 H4 H5]. unfold task_push. apply safe_bind; [apply task_no_panic|]. intros [ue n] _.
  destruct (Nat.ltb_spec (length (broadcast h)) (pushBufferSize (options h))); [|done].
  split; [|done]. split; cbn; [done..|]. list_lia.
Qed.

Lemma task_timeout_safe k h : hub_ok h -> safe (options h) (task_timeout k h).
Proof.
  intros [H1 H2 H3 H4 H5]. unfold task_timeout. apply safe_bind; [apply task_no_panic|]. intros [ue n] _.
  cbn [fst snd]. destruct (n + 1 <? maxRetry)%nat; (split; [by split|done]).
Qed.

Lemma client_resend_safe cid fuel takes h : hub_ok h -> safe (options h) (client_resend cid fuel takes h).
Proof.
  intros Hok. unfold client_resend. apply safe_bind; [apply get_client_no_panic|].
  intros c Hc%get_client_ok. case_bool_decide as Hs; [|done]. cbn [negb].
  pose proof (sound_sends _ _ _ _ _ Hok _ _ Hc) as Hlen.
  destruct (store h) as [st|].
  - destruct (resendEvents fuel st takes (eventType_ c) (lastEventID_ c) (c, [])) as [[c' fs]|] eqn:Hr; [|done].
    destruct (resendEvents_keeps _ _ _ _ _ (c, []) _ (pushBufferSize (options h)) Hlen Hr) as [Hk Hs'].
    cbn [fst] in Hk, Hs'. unfold safe, hub_ok.
    destruct (log_failures_ok (put_client cid (set_served Streaming c') h) fs) as (-> & -> & -> & -> & ->). split; [|done].
    cbn. eapply put_sound; [done|done|]. eapply keeps_trans; [done|].
    apply keeps_served; [apply Hk|done|congruence|done].
  - split; [|done]. unfold hub_ok. cbn. eapply put_sound; [done|done|].
    apply keeps_served; [done|done|congruence|done].
Qed.

Lemma serve_sound h uid et id : hub_ok h -> hub_ok (set_objs (objs h ++ [new_client uid et id]) h).
Proof.
  intros [H1 H2 H3 H4 H5]. unfold hub_ok. cbn.
  assert (forall i c, (objs h ++ [new_client uid et id]) !! i = Some c -> objs h !! i = Some c \/ c = new_client uid et id) as Hnew.
  { intros i c [Hi|[_ Hi]]%lookup_app_Some; [by left|right]. apply list_lookup_singleton_Some in Hi as [_ <-]. done. }
  split; [| | | |done].
  - intros u i Hi. destruct (H1 _ _ Hi) as (c & Hc & Hrest). exists c. split; [by apply lookup_app_l_Some|done].
  - intros i c [Hc| ->]%Hnew; [by eapply H2|done].
  - intros i ue n Hx. destruct (H3 _ _ _ Hx) as (Hn & c & Hc & Hrest). split; [done|].
    exists c. split; [by apply lookup_app_l_Some|done].
  - intros i c [Hc| ->]%Hnew; [by eapply H4|cbn; lia].
Qed.

Lemma step_safe h a : hub_ok h -> sweeps a = false -> safe (options h) (step h a).
Proof.
  intros Hok Ha. destruct a as [uid et id|cid|cid fuel takes|cid wrote|cid|cid wrote|cid|cid| | | | |uid e|k|k|cid]; cbn; try done.
  - case_bool_decide; [done|]. split; [|done]. by apply serve_sound.
  - by apply hub_register_safe.
  - by apply client_resend_safe.
  - apply client_select_safe; [done|]. intros c Hc Hs. unfold client_event.
    pose proof (sound_sends _ _ _ _ _ Hok _ _ Hc) as Hlen. destruct (Send c) as [|e q]; [done|].
    cbn in Hlen. destruct (sendEvent_keeps wrote record_written e (set_Send q c) (pushBufferSize (options h))) as [Hk Hs'];
      [by left|cbn; lia|].
    assert (keeps (pushBufferSize (options h)) c (set_Send q c)) as Hq by (apply keeps_set_Send; lia).
    destruct (sendEvent _ _ _ _) as [c' ok]. cbn [fst] in *. pose proof (keeps_trans _ _ _ _ Hq Hk) as Hk'.
    destruct ok; [done|]. eapply keeps_trans; [done|].
    apply keeps_served; [apply Hk'|done|rewrite Hs'; cbn; congruence|done].
  - apply client_select_safe; [done|]. intros c Hc Hs. unfold client_closed.
    pose proof (sound_sends _ _ _ _ _ Hok _ _ Hc) as Hlen.
    destruct (Send c) eqn:E; [|done]. destruct (send_closed c); [|done]. apply keeps_served; [by rewrite E|done|congruence|done].
  - apply client_select_safe; [done|]. intros c Hc Hs.
    pose proof (sound_sends _ _ _ _ _ Hok _ _ Hc) as Hlen. cbn. destruct wrote; [by repeat split|].
    apply keeps_served; [done|done|congruence|done].
  - apply client_select_safe; [done|]. intros c Hc Hs.
    apply keeps_served; [by eapply sound_sends|done|congruence|done].
  - by apply hub_unregister_safe.
  - by apply hub_broadcast_safe.
  - by apply hub_send_safe.
  - by apply hub_send_timeout_safe.
  - by destruct (hub_idle h).
  - by apply pushOne_safe.
  - by apply task_push_safe.
  - by apply task_timeout_safe.
Qed.

(** ** The flow of events *)

Definition routed (cid : nat) (log : list (nat * Event)) : list Event :=
  omap (fun x => if bool_decide (x.1 = cid) then Some x.2 else None) log.

Definition content (c : UserClient) : list Event := written c ++ Send c.
Definition held (cid : nat) (x : option (nat * UserEvent * nat)) : list Event :=
  match x with Some (i, ue, _) => if bool_decide (i = cid) then [ue_Event ue] else [] | None => [] end.

(** All of [l2], or with [k > 0] losses some of it, in order. *)
Definition conveyed (k : nat) (l1 l2 : list Event) : Prop := l1 `sublist_of` l2 /\ (k = O -> l1 = l2).

Lemma conveyed_app k l1 l2 m : conveyed k l1 l2 -> conveyed k (l1 ++ m) (l2 ++ m).
Proof. intros [Hs He]. split; [by apply sublist_app|]. intros Hk. by rewrite He. Qed.
Lemma conveyed_lose k l1 l1' l2 : conveyed k l1 l2 -> l1' `sublist_of` l1 -> conveyed (Datatypes.S k) l1' l2.
Proof. intros [Hs He] H. split; [by etrans|done]. Qed.
Lemma conveyed_weaken k l1 l2 : conveyed k l1 l2 -> conveyed (Datatypes.S k) l1 l2.
Proof. intros H. by apply (conveyed_lose k l1). Qed.

(** [k] failures were counted; what each client was given or still has is
    conveyed from what was routed to it. *)
Record flows (l : list UserClient) (x : option (nat * UserEvent * nat)) (f : Z) (log : list (nat * Event)) (k : nat) : Prop := {
  flow_content cid c : l !! cid = Some c -> conveyed k (content c ++ held cid x) (routed cid log);
  flow_out cid : (length l <= cid)%nat -> routed cid log = [];
  flow_failed : f = wrap64 (Z.of_nat k) }.
Definition flow (h : Hub) : list (nat * Event) -> nat -> Prop := flows (objs h) (sending h) (failed (stats h)).

Lemma flow_put l x f log k cid c c' :
  flows l x f log k -> l !! cid = Some c -> content c' = content c -> flows (<[cid := c']> l) x f log k.
Proof.
  intros [H1 H2 H3] Hc He. split; [| |done].
  - intros i d [(-> & <- & _)|[Hne Hd]]%list_lookup_insert_Some; [rewrite He|]; by apply H1.
  - intros i Hi. rewrite length_insert in Hi. by apply H2.
Qed.

(** A change of one client that keeps its content. *)
Lemma client_step_content (h h' : Hub) log k cid c c' :
  flow h log k -> objs h' = <[cid := c']> (objs h) -> objs h !! cid = Some c -> content c' = content c ->
  sending h' = sending h -> failed (stats h') = failed (stats h) -> flow h' log k.
Proof. unfold flow. intros Hf -> Hc He -> ->. by eapply flow_put. Qed.

Lemma flow_fail l x f log k : flows l x f log k -> flows l x (wrap64 (f + 1)) log (Datatypes.S k).
Proof.
  intros [H1 H2 H3]. split; [|done|].
  - intros cid c Hc. by apply conveyed_weaken, H1.
  - rewrite H3, wrap64_shift. f_equal. lia.
Qed.

Lemma routed_app cid l1 l2 : routed cid (l1 ++ l2) = routed cid l1 ++ routed cid l2.
Proof. apply omap_app. Qed.

(** An event for a client goes to its channel or is held by the hub. *)
Lemma flow_route l f log k i e c (send : bool) :
  flows l None f log k -> l !! i = Some c -> forall ue, ue_Event ue = e ->
  flows (if send then <[i := set_Send (Send c ++ [e]) c]> l else l) (if send then None else Some (i, ue, O)) f (log ++ [(i, e)]) k.
Proof.
  intros [H1 H2 H3] Hi ue Hue. pose proof (lookup_lt_Some _ _ _ Hi) as Hlt. split; [| |done].
  - intros j d Hj. rewrite routed_app. cbn.
    assert (exists d0, l !! j = Some d0 /\ content d ++ held j (if send then None else Some (i, ue, O)) =
      content d0 ++ (if bool_decide (i = j) then [e] else [])) as (d0 & Hd0 & ->).
    { destruct send; cbn.
      - apply list_lookup_insert_Some in Hj as [(-> & <- & _)|[Hne Hj]].
        + exists c. rewrite bool_decide_true by done. split; [done|]. unfold content. cbn. by rewrite app_nil_r, app_assoc.
        + exists d. by rewrite bool_decide_false.
      - exists d. by rewrite Hue. }
    specialize (H1 _ _ Hd0). cbn in H1. rewrite app_nil_r in H1.
    case_bool_decide; cbn; by apply conveyed_app.
  - intros j Hj. assert (length l <= j)%nat as Hj' by (destruct send; [by rewrite length_insert in Hj|done]).
    rewrite routed_app, H2 by done. cbn. by rewrite bool_decide_false by lia.
Qed.

Lemma broadcast_flow h h' log k : hub_ok h -> flow h log k -> hub_broadcast h = Ok h' ->
  flow h' (log ++ option_list (route h HubBroadcast)) k.
Proof.
  intros Hok Hf. unfold hub_broadcast, route. destruct (hub_idle h) eqn:Hidle; [|done].
  apply hub_idle_spec in Hidle as [_ Hnone]. destruct (broadcast h) as [|ue rest]; [done|].
  cbn [clients set_broadcast]. destruct (clients h !! ue_UID ue) as [cid|] eqn:Hm; cbn [mbind option_bind option_list].
  2:{ intros [= <-]. by rewrite app_nil_r. }
  destruct (sound_clients _ _ _ _ _ Hok _ _ Hm) as (c & Hc & Hu & Hcl & Hon).
  unfold flow in Hf. rewrite Hnone in Hf. unfold channel_send, get_client. cbn [objs set_broadcast].
  rewrite Hc. cbn [mbind result_bind]. rewrite Hcl. cbn [options set_broadcast].
  destruct (_ <? _)%nat; intros [= <-]; unfold flow; cbn.
  - rewrite Hnone. by apply (flow_route _ _ _ _ _ _ _ true Hf Hc ue).
  - by apply (flow_route _ _ _ _ _ _ _ false Hf Hc ue).
Qed.

Lemma send_flow h h' log k : hub_ok h -> flow h log k -> hub_send h = Ok h' -> flow h' log k.
Proof.
  intros Hok [H1 H2 H3]. unfold hub_send. destruct (sending h) as [[[cid ue] n]|] eqn:Hx; [|done].
  destruct (sound_sending _ _ _ _ _ Hok _ _ _ Hx) as (_ & c & Hc & _ & Hcl & _).
  unfold channel_send, get_client. rewrite Hc. cbn [mbind result_bind]. rewrite Hcl.
  destruct (_ <? _)%nat; [|done]. cbn [mbind result_bind]. intros [= <-]. unfold flow. cbn. split; [| |done].
  - intros i d [(-> & <- & _)|[Hne Hd]]%list_lookup_insert_Some.
    + specialize (H1 _ _ Hc). cbn in H1. rewrite bool_decide_true in H1 by done.
      unfold content in *. cbn. by rewrite app_nil_r, app_assoc.
    + specialize (H1 _ _ Hd). cbn in H1. by rewrite bool_decide_false in H1.
  - intros i Hi. rewrite length_insert in Hi. by apply H2.
Qed.

Lemma send_timeout_flow h h' log k : flow h log k -> hub_send_timeout h = Ok h' ->
  exists k', (k' <= Datatypes.S k)%nat /\ flow h' log k'.
Proof.
  intros [H1 H2 H3]. unfold hub_send_timeout. destruct (sending h) as [[[cid ue] n]|] eqn:Hx; [|done].
  destruct (n + 1 <? maxRetry)%nat; intros [= <-].
  - exists k. split; [lia|]. by split.
  - exists (Datatypes.S k). split; [lia|]. split; cbn; [|done|].
    + intros i c Hc. eapply conveyed_lose; [by apply H1|]. rewrite app_nil_r. by apply sublist_inserts_r.
    + rewrite H3, wrap64_shift. f_equal. lia.
Qed.

Lemma flow_lose l x f log k cid c c' :
  flows l x f log k -> l !! cid = Some c -> content c' `sublist_of` content c ->
  flows (<[cid := c']> l) x (wrap64 (f + 1)) log (Datatypes.S k).
Proof.
  intros Hf Hc He. pose proof (flow_fail _ _ _ _ _ Hf) as [H1' H2' H3']. destruct Hf as [H1 H2 H3]. split; [| |done].
  - intros i d [(-> & <- & _)|[Hne Hd]]%list_lookup_insert_Some; [|by apply H1'].
    eapply conveyed_lose; [by apply H1|]. by apply sublist_app.
  - intros i Hi. rewrite length_insert in Hi. by apply H2.
Qed.

Lemma sendEvent_written wrote e c c' ok : sendEvent wrote record_written e c = (c', ok) ->
  Send c' = Send c /\ written c' = written c ++ (if ok then [e] else []).
Proof.
  unfold sendEvent. destruct (event_text e).
  - case_bool_decide; destruct wrote; intros [= <- <-]; cbn; by rewrite ?app_nil_r.
  - intros [= <- <-]. by rewrite app_nil_r.
Qed.

(** The steps of a stream: the content stays, or the failure is counted. *)
Lemma client_select_flow cid h f h' log k : flow h log k ->
  (forall c c' st, f c = Ok (c', st) ->
     (content c' = content c /\ failed st = failed (stats h)) \/
     (content c' `sublist_of` content c /\ failed st = wrap64 (failed (stats h) + 1))) ->
  client_select cid h f = Ok h' -> exists k', (k' <= Datatypes.S k)%nat /\ flow h' log k'.
Proof.
  intros Hf Hstep. unfold client_select. intros (c & Hc%get_client_ok & Hr)%bind_ok.
  destruct (negb _); [done|]. apply bind_ok in Hr as ([c' st] & Hfc & [= <-]).
  destruct (Hstep _ _ _ Hfc) as [[He Hst]|[He Hst]]; unfold flow; cbn; rewrite Hst.
  - exists k. split; [lia|]. by eapply flow_put.
  - exists (Datatypes.S k). split; [lia|]. by eapply flow_lose.
Qed.

Lemma client_event_flow wrote st c c' st' : client_event wrote st c = Ok (c', st') ->
  (content c' = content c /\ failed st' = failed st) \/
  (content c' `sublist_of` content c /\ failed st' = wrap64 (failed st + 1)).
Proof.
  unfold client_event. destruct (Send c) as [|e q] eqn:Hq; [done|].
  destruct (sendEvent _ _ _ _) as [c1 ok] eqn:Hs. apply sendEvent_written in Hs as [Hs1 Hs2]. cbn in Hs1, Hs2.
  unfold content. rewrite Hq. destruct ok; intros [= <- <-]; cbn; rewrite Hs1, Hs2.
  - left. by rewrite <- app_assoc.
  - right. rewrite app_nil_r. split; [|done]. apply sublist_app; [done|]. by apply sublist_cons.
Qed.

Lemma resend_content takes events s :
  content (foldl (resend_step takes) s events).1 = content s.1.
Proof.
  revert s. induction events as [|e events IH]; intros [c fs]; [done|]. cbn [foldl]. rewrite IH.
  unfold resend_step, sendEvent. destruct (event_text e); [|done]. by case_bool_decide; destruct (takes e).
Qed.

Lemma resendEvents_content fuel st takes et id s r :
  resendEvents fuel st takes et id s = Some r -> content r.1 = content s.1.
Proof.
  revert id s. induction fuel as [|fuel IH]; intros id s; cbn; [done|].
  destruct (ListByLastID st et id 100) as [[[|e events] next]|]; [by intros [= <-]| |by intros [= <-]].
  case_bool_decide; [intros [= <-]|intros Hr; rewrite (IH _ _ Hr)]; exact (resend_content takes (e :: events) s).
Qed.

Lemma log_failures_stats h l : stats (foldl (fun h x => log_failed x.1 x.2 h) h l) = stats h.
Proof. revert h. induction l as [|x l IH]; intros h; [done|]. apply (IH (log_failed x.1 x.2 h)). Qed.

Lemma resend_flow cid fuel takes h h' log k : flow h log k -> client_resend cid fuel takes h = Ok h' -> flow h' log k.
Proof.
  intros Hf. unfold client_resend. intros (c & Hc%get_client_ok & Hr)%bind_ok. destruct (negb _); [done|].
  destruct (store h) as [st|]; [|injection Hr as <-; eapply (client_step_content h); [done|reflexivity|exact Hc|done..]].
  destruct (resendEvents fuel st takes _ _ (c, [])) as [[c' fs]|] eqn:He; [|done]. injection Hr as <-.
  apply resendEvents_content in He. unfold flow. rewrite log_failures_stats.
  destruct (log_failures_ok (put_client cid (set_served Streaming c') h) fs) as (_ & _ & -> & _ & ->).
  by eapply flow_put.
Qed.

Lemma unregister_flow cid h h' log k : flow h log k -> hub_unregister cid h = Ok h' -> flow h' log k.
Proof.
  intros Hf. unfold hub_unregister. intros (c & Hc%get_client_ok & Hr)%bind_ok. destruct (negb _); [done|].
  assert (flow (put_client cid (set_served Gone c) h) log k) as Hf1
    by (eapply (client_step_content h); [done|reflexivity|exact Hc|done..]).
  destruct (Has _ _); [|by injection Hr as <-]. unfold channel_close in Hr.
  apply bind_ok in Hr as (c1 & Hc1%get_client_ok & Hr). destruct (send_closed c1); [done|]. injection Hr as <-.
  eapply (client_step_content (put_client cid (set_served Gone c) h)); [done|reflexivity|exact Hc1|done..].
Qed.

Lemma task_flow h log k i h' : flow h log k -> task_push i h = Ok h' \/ task_timeout i h = Ok h' ->
  exists k', (k' <= Datatypes.S k)%nat /\ flow h' log k'.
Proof.
  intros Hf [Hr|Hr]; [unfold task_push in Hr|unfold task_timeout in Hr]; apply bind_ok in Hr as ([ue n] & _ & Hr).
  - destruct (_ <? _)%nat; [|done]. injection Hr as <-. exists k. split; [lia|]. exact Hf.
  - cbn [fst snd] in Hr. destruct (n + 1 <? maxRetry)%nat; injection Hr as <-.
    + exists k. split; [lia|]. exact Hf.
    + exists (Datatypes.S k). split; [lia|]. by apply flow_fail in Hf.
Qed.

Lemma step_flow h a h' log k : hub_ok h -> flow h log k -> sweeps a = false -> step h a = Ok h' ->
  exists k', (k' <= Datatypes.S k)%nat /\ flow h' (log ++ option_list (route h a)) k'.
Proof.
  intros Hok Hf Ha Hstep.
  destruct a as [uid et id|cid|cid fuel takes|cid wrote|cid|cid wrote|cid|cid| | | | |uid e|i|i|cid]; try done;
    cbn [route option_list]; rewrite ?app_nil_r; cbn in Hstep.
  - exists k. split; [lia|]. case_bool_decide; injection Hstep as <-; [done|]. destruct Hf as [H1 H2 H3]. split; cbn; [| |done].
    + intros j c [Hj|[Hlen Hj]]%lookup_app_Some; [by apply H1|].
      apply list_lookup_singleton_Some in Hj as [Hj <-]. rewrite (H2 j) by done.
      assert (held j (sending h) = []) as ->; [|done]. unfold held. destruct (sending h) as [[[i ue] n]|] eqn:Hx; [|done].
      destruct (sound_sending _ _ _ _ _ Hok _ _ _ Hx) as (_ & c & Hc & _). apply lookup_lt_Some in Hc.
      by rewrite bool_decide_false by lia.
    + intros j Hj. rewrite length_app in Hj. apply H2. lia.
  - exists k. split; [lia|]. unfold hub_register in Hstep. apply bind_ok in Hstep as (c & Hc%get_client_ok & Hr).
    destruct (negb _); [done|]. injection Hr as <-. eapply (client_step_content h); [done|reflexivity|exact Hc|done..].
  - exists k. split; [lia|]. by eapply resend_flow.
  - eapply client_select_flow; [done| |done]. intros c c' st. apply client_event_flow.
  - eapply client_select_flow; [done| |done]. intros c c' st. unfold client_closed.
    destruct (Send c) eqn:E; [|done]. destruct (send_closed c); [|done]. intros [= <- <-]. by left.
  - eapply client_select_flow; [done| |done]. intros c c' st [= <- <-]. left. by destruct wrote.
  - eapply client_select_flow; [done| |done]. intros c c' st [= <- <-]. by left.
  - exists k. split; [lia|]. by eapply unregister_flow.
  - exists k. split; [lia|]. by apply broadcast_flow.
  - exists k. split; [lia|]. by eapply send_flow.
  - by eapply send_timeout_flow.
  - exists k. split; [lia|]. destruct (hub_idle h); [|done]. by injection Hstep as <-.
  - exists k. split; [lia|]. unfold pushOne in Hstep. destruct (_ <? _)%nat; [by injection Hstep as <-|].
    destruct (_ <? _)%nat; [|done]. by injection Hstep as <-.
  - eapply task_flow; [done|]. by left.
  - eapply task_flow; [done|]. by right.
Qed.

(** ** Runs of the hub *)

Lemma new_hub_ok opts st : hub_ok (NewHub opts st).
Proof. split; cbn; [intros ? ?; by rewrite lookup_empty|done|done|done|lia]. Qed.

Lemma new_hub_flow opts st : flow (NewHub opts st) [] 0.
Proof. by split. Qed.

Lemma run_snoc h acts a : run h (acts ++ [a]) = (s ← run h acts; run_step s a).
Proof. unfold run. rewrite foldM_app. destruct (foldM run_step (h, []) acts); [|done..]. cbn. by destruct (run_step _ _). Qed.

Lemma run_sound opts st acts : existsb sweeps acts = false ->
  match run (NewHub opts st) acts with
  | Ok (h, log) => hub_ok h /\ options h = options (NewHub opts st) /\
      exists k, (k <= length acts)%nat /\ flow h log k
  | Err _ => True
  | Panic => False
  end.
Proof.
  induction acts as [|a acts IH] using rev_ind; intros Hs.
  { cbn. split; [apply new_hub_ok|]. split; [done|]. exists O. split; [lia|apply new_hub_flow]. }
  rewrite existsb_app in Hs. apply orb_false_iff in Hs as [Hs [Ha _]%orb_false_iff].
  specialize (IH Hs). rewrite run_snoc. destruct (run _ acts) as [[h log]|[]|]; [|done..].
  destruct IH as (Hok & Hopt & k & Hk & Hf). cbn [mbind result_bind]. unfold run_step. cbn [fst snd].
  pose proof (step_safe h a Hok Ha) as Hsafe. destruct (step h a) as [h'|[]|] eqn:Hstep; [|done..].
  destruct Hsafe as [Hok' Hopt']. cbn [safe]. split; [done|]. split; [by rewrite Hopt'|].
  destruct (step_flow h a h' log k Hok Hf Ha Hstep) as (k' & Hk' & Hf'). exists k'. split; [|done].
  rewrite length_app. cbn. lia.
Qed.

(** C14: In any interleaving of the goroutines without a sweep of Close, no
    send hits a closed channel and no channel is closed twice.  Every
    registered user has a client of its own that is open and online, a closed
    client is gone, and no channel holds more than its capacity. *)
Theorem hub_invariant (opts : list (hubOptions -> hubOptions)) (st : option S) (acts : list action) :
  existsb sweeps acts = false ->
  match run (NewHub opts st) acts with
  | Ok (h, _) =>
      (forall uid cid, clients h !! uid = Some cid ->
         exists c, objs h !! cid = Some c /\ UID c = uid /\ send_closed c = false /\ online c) /\
      (forall cid c, objs h !! cid = Some c -> send_closed c = true -> served c = Gone) /\
      let cap := pushBufferSize (foldl (fun o opt => opt o) defaultHubOptions opts) in
      (length (broadcast h) <= cap)%nat /\ Forall (fun c => (length (Send c) <= cap)%nat) (objs h)
  | Err _ => True
  | Panic => False
  end.
Proof.
  intros Hs. pose proof (run_sound opts st acts Hs) as H. destruct (run _ acts) as [[h log]|[]|]; [|done..].
  destruct H as ([H1 H2 H3 H4 H5] & Ho & _). split; [done|]. split; [done|].
  change (foldl _ defaultHubOptions opts) with (options (NewHub opts st)). rewrite <- Ho. split; [done|].
  rewrite Forall_lookup. done.
Qed.

(** C15: In any such interleaving, what a client's stream was written, then
    its channel, then the event the hub is trying to send it, are events
    routed to that client, in the order they were routed, none twice; and they
    are all of them as long as no failure was counted. *)
Theorem hub_delivers_in_order (opts : list (hubOptions -> hubOptions)) (st : option S) (acts : list action)
    (h : Hub) (log : list (nat * Event)) (cid : nat) (c : UserClient) :
  existsb sweeps acts = false -> run (NewHub opts st) acts = Ok (h, log) -> objs h !! cid = Some c ->
  written c ++ Send c ++ held cid (sending h) `sublist_of` routed cid log /\
  (failed (stats h) = 0 -> Z.of_nat (length acts) < 2 ^ 63 ->
     written c ++ Send c ++ held cid (sending h) = routed cid log).
Proof.
  intros Hs Hrun Hc. pose proof (run_sound opts st acts Hs) as H. rewrite Hrun in H.
  destruct H as (_ & _ & k & Hk & [Hf _ Hfail]). destruct (Hf _ _ Hc) as [Hsub Heq].
  unfold content in *. rewrite <- app_assoc in *. split; [done|]. intros Hzero Hlen.
  apply Heq. rewrite Hzero, wrap64_id in Hfail by (unfold in_int64, int64_min, int64_max; lia). lia.
Qed.

(** ** A client that the map has lost *)

(** Clients are never removed, and none registers again. *)
Definition grows (l l' : list UserClient) : Prop :=
  forall i d, l !! i = Some d -> exists d', l' !! i = Some d' /\ (served d <> Registering -> served d' <> Registering).

Lemma grows_refl l : grows l l.
Proof. intros i d Hd. by exists d. Qed.
Lemma grows_trans l1 l2 l3 : grows l1 l2 -> grows l2 l3 -> grows l1 l3.
Proof.
  intros H1 H2 i d Hd. destruct (H1 _ _ Hd) as (d' & Hd' & ?). destruct (H2 _ _ Hd') as (d'' & Hd'' & ?).
  exists d''. auto.
Qed.
Lemma grows_put l cid c c' : l !! cid = Some c -> (served c <> Registering -> served c' <> Registering) ->
  grows l (<[cid := c']> l).
Proof.
  intros Hc Hs i d Hd. destruct (decide (i = cid)) as [->|Hne].
  - simplify_eq. exists c'. by rewrite list_lookup_insert_eq by (by eapply lookup_lt_Some).
  - exists d. by rewrite list_lookup_insert_ne.
Qed.

Lemma channel_send_shape cid e h h' : channel_send cid e h = Ok h' ->
  exists c, objs h !! cid = Some c /\ h' = put_client cid (set_Send (Send c ++ [e]) c) h.
Proof.
  unfold channel_send. intros (c & Hc%get_client_ok & Hr)%bind_ok. destruct (send_closed c); [done|].
  destruct (_ <? _)%nat; [|done]. injection Hr as <-. by exists c.
Qed.
Lemma channel_close_shape cid h h' : channel_close cid h = Ok h' ->
  exists c, objs h !! cid = Some c /\ h' = put_client cid (set_send_closed c) h.
Proof.
  unfold channel_close. intros (c & Hc%get_client_ok & Hr)%bind_ok. destruct (send_closed c); [done|].
  injection Hr as <-. by exists c.
Qed.

Lemma client_select_shape cid h f h' : client_select cid h f = Ok h' ->
  exists c c' st, objs h !! cid = Some c /\ served c = Streaming /\ f c = Ok (c', st) /\ h' = set_stats st (put_client cid c' h).
Proof.
  unfold client_select. intros (c & Hc%get_client_ok & Hr)%bind_ok. case_bool_decide; [|done].
  apply bind_ok in Hr as ([c' st] & Hf & [= <-]). by eexists _, _, _.
Qed.

Lemma client_event_served wrote st c c' st' : client_event wrote st c = Ok (c', st') ->
  served c' = served c \/ served c' = Unregistering.
Proof.
  unfold client_event. destruct (Send c) as [|e q] eqn:Hq; [done|].
  pose proof (sendEvent_keeps wrote record_written e (set_Send q c) (length q) (or_introl eq_refl) ltac:(cbn; lia)) as [_ Hs].
  destruct (sendEvent _ _ _ _) as [c1 ok]. cbn [fst] in Hs. destruct ok; intros [= <- <-]; [by left|by right].
Qed.

Lemma resend_shape cid fuel takes h h' : client_resend cid fuel takes h = Ok h' ->
  exists c c', objs h !! cid = Some c /\ objs h' = <[cid := set_served Streaming c']> (objs h) /\
    clients h' = clients h /\ sending h' = sending h.
Proof.
  unfold client_resend. intros (c & Hc%get_client_ok & Hr)%bind_ok. destruct (negb _); [done|].
  destruct (store h) as [st|].
  - destruct (resendEvents _ _ _ _ _ _) as [[c' fs]|]; [|done]. injection Hr as <-. exists c, c'.
    by destruct (log_failures_ok (put_client cid (set_served Streaming c') h) fs) as (_ & -> & -> & _ & ->).
  - injection Hr as <-. by exists c, c.
Qed.

(** What a step may do to the clients, the map and the event being sent. *)
Definition evolves (h : Hub) (a : action) (h' : Hub) : Prop :=
  grows (objs h) (objs h') /\
  (forall uid i, clients h' !! uid = Some i -> clients h !! uid = Some i \/
     exists c, objs h !! i = Some c /\ served c = Registering).

Lemma evolves_same h a h' : clients h' = clients h -> objs h' = objs h -> evolves h a h'.
Proof. intros Hm Hl. split; [rewrite Hl; apply grows_refl|]. intros uid i. rewrite Hm. by left. Qed.
Lemma evolves_put h a h' cid c c' : objs h !! cid = Some c -> objs h' = <[cid := c']> (objs h) -> clients h' = clients h ->
  (served c <> Registering -> served c' <> Registering) -> evolves h a h'.
Proof.
  intros Hc Hl Hm Hs. split; [rewrite Hl; by eapply grows_put|]. intros uid i. rewrite Hm. by left.
Qed.

Lemma unregister_evolves cid h h' : hub_unregister cid h = Ok h' -> evolves h (HubUnregister cid) h'.
Proof.
  unfold hub_unregister. intros (c & Hc%get_client_ok & Hr)%bind_ok. destruct (negb _); [done|].
  assert (evolves h (HubUnregister cid) (put_client cid (set_served Gone c) h)) as Hput
    by (eapply evolves_put; [exact Hc|reflexivity|done|done]).
  destruct (Has _ _); [|by injection Hr as <-].
  apply channel_close_shape in Hr as (c1 & Hc1 & ->). destruct Hput as [Hg Hm]. split.
  - eapply grows_trans; [exact Hg|]. by eapply grows_put.
  - cbn. intros uid i [_ Hi]%lookup_delete_Some. by left.
Qed.

Lemma step_evolves h a h' : step h a = Ok h' -> evolves h a h'.
Proof.
  destruct a as [uid et id|cid|cid fuel takes|cid wrote|cid|cid wrote|cid|cid| | | | |uid e|i|i|cid]; cbn; intros Hstep.
  - case_bool_decide; injection Hstep as <-; [by apply evolves_same|]. split; [|by left].
    intros i d Hd. exists d. split; [by apply lookup_app_l_Some|done].
  - unfold hub_register in Hstep. apply bind_ok in Hstep as (c & Hc%get_client_ok & Hr).
    destruct (hub_idle h); [|done]. case_bool_decide as Hs; [|done]. injection Hr as <-. split.
    + cbn. by eapply grows_put.
    + cbn. intros uid i [[<- <-]|[_ Hi]]%lookup_insert_Some; [right; by exists c|by left].
  - apply resend_shape in Hstep as (c & c' & Hc & Hl & Hm & _). by eapply evolves_put.
  - apply client_select_shape in Hstep as (c & c' & st & Hc & Hs & Hf & ->).
    eapply evolves_put; [exact Hc|reflexivity|done|]. apply client_event_served in Hf as [->| ->]; congruence.
  - apply client_select_shape in Hstep as (c & c' & st & Hc & Hs & Hf & ->). unfold client_closed in Hf.
    destruct (Send c); [|done]. destruct (send_closed c); [|done]. injection Hf as <- <-.
    by eapply evolves_put; [exact Hc|reflexivity|..].
  - apply client_select_shape in Hstep as (c & c' & st & Hc & Hs & [= <- <-] & ->).
    eapply evolves_put; [exact Hc|reflexivity|done|]. by destruct wrote.
  - apply client_select_shape in Hstep as (c & c' & st & Hc & Hs & [= <- <-] & ->).
    by eapply evolves_put; [exact Hc|reflexivity|..].
  - by apply unregister_evolves.
  - unfold hub_broadcast in Hstep. destruct (hub_idle h); [|done]. destruct (broadcast h) as [|ue rest]; [done|].
    cbn [clients set_broadcast] in Hstep. destruct (clients h !! ue_UID ue) as [cid|]; [|injection Hstep as <-; by apply evolves_same].
    destruct (channel_send _ _ _) as [h1|[]|] eqn:Hsend; [|injection Hstep as <-; by apply evolves_same|done].
    injection Hstep as ->. apply channel_send_shape in Hsend as (c & Hc & ->). by eapply evolves_put; [exact Hc|reflexivity|..].
  - unfold hub_send in Hstep. destruct (sending h) as [[[cid ue] n]|]; [|done].
    apply bind_ok in Hstep as (h1 & Hsend & [= <-]). apply channel_send_shape in Hsend as (c & Hc & ->).
    by eapply evolves_put; [exact Hc|reflexivity|..].
  - unfold hub_send_timeout in Hstep. destruct (sending h) as [[[cid ue] n]|]; [|done].
    destruct (_ <? _)%nat; injection Hstep as <-; by apply evolves_same.
  - destruct (hub_idle h); [|done]. injection Hstep as <-. by apply evolves_same.
  - unfold pushOne in Hstep. destruct (_ <? _)%nat; [injection Hstep as <-; by apply evolves_same|].
    destruct (_ <? _)%nat; [|done]. injection Hstep as <-. by apply evolves_same.
  - unfold task_push in Hstep. apply bind_ok in Hstep as (t & _ & Hr). destruct (_ <? _)%nat; [|done].
    injection Hr as <-. by apply evolves_same.
  - unfold task_timeout in Hstep. apply bind_ok in Hstep as (t & _ & Hr).
    destruct (_ <? _)%nat; injection Hr as <-; by apply evolves_same.
  - unfold close_sweep in Hstep. apply bind_ok in Hstep as (c & Hc%get_client_ok & Hr).
    destruct (_ && _); [|done]. apply channel_close_shape in Hr as (c1 & Hc1 & ->). split.
    + cbn. by eapply grows_put.
    + cbn. intros uid i [_ Hi]%lookup_delete_Some. by left.
Qed.

(** Registered once, and no longer in the map. *)
Definition orphan (cid : nat) (h : Hub) : Prop :=
  (exists c, objs h !! cid = Some c /\ served c <> Registering) /\ forall uid, clients h !! uid <> Some cid.

Lemma orphan_step cid h a h' : orphan cid h -> step h a = Ok h' -> orphan cid h' /\ forall e, route h a <> Some (cid, e).
Proof.
  intros [(c & Hc & Hs) Hm] Hstep. apply step_evolves in Hstep as [Hg Hm']. split; [split|].
  - destruct (Hg _ _ Hc) as (c' & Hc' & Hs'). exists c'. auto.
  - intros uid Hu. destruct (Hm' _ _ Hu) as [Hold|(d & Hd & Hreg)]; [by apply (Hm uid)|congruence].
  - intros e. unfold route. destruct a; try done. destruct (broadcast h) as [|ue q]; [done|].
    intros (i & Hi & [= -> <-])%bind_Some. by apply (Hm (ue_UID ue)).
Qed.

Lemma orphan_run cid h acts h' log : orphan cid h -> run h acts = Ok (h', log) -> orphan cid h' /\ routed cid log = [].
Proof.
  intros Ho. revert h' log. induction acts as [|a acts IH] using rev_ind; intros h' log.
  { by intros [= <- <-]. }
  rewrite run_snoc. intros ([h1 log1] & Hrun & Hr)%bind_ok. destruct (IH _ _ Hrun) as [Ho1 Hlog].
  apply bind_ok in Hr as (h2 & Hstep & [= <- <-]). cbn [fst snd] in *.
  destruct (orphan_step _ _ _ _ Ho1 Hstep) as [Ho2 Hroute]. split; [done|].
  rewrite routed_app, Hlog. destruct (route h1 a) as [[i e]|] eqn:E; [|done]. cbn.
  rewrite bool_decide_false; [done|]. intros ->. by apply (Hroute e).
Qed.

(** When a user's old connection unregisters after the user has
    registered a new one, the hub removes the new one: it is open and online,
    but no event is ever routed to it again and it never comes back. *)
Theorem stale_unregister_cuts_off (opts : list (hubOptions -> hubOptions)) (st : option S) (acts : list action)
    (h : Hub) (log : list (nat * Event)) (old new : nat) (c : UserClient) :
  existsb sweeps acts = false -> run (NewHub opts st) acts = Ok (h, log) ->
  objs h !! old = Some c -> served c = Unregistering -> hub_idle h = true ->
  clients h !! UID c = Some new -> old <> new ->
  exists h1, step h (HubUnregister old) = Ok h1 /\ Has (UID c) h1 = false /\
    (exists d, objs h1 !! new = Some d /\ UID d = UID c /\ send_closed d = false /\ online d) /\
    forall acts' h2 log2, run h1 acts' = Ok (h2, log2) ->
      routed new log2 = [] /\ forall uid, clients h2 !! uid <> Some new.
Proof.
  intros Hs Hrun Hc Hserved Hidle Hm Hne. pose proof (run_sound opts st acts Hs) as H. rewrite Hrun in H.
  destruct H as (Hok & _). destruct (sound_clients _ _ _ _ _ Hok _ _ Hm) as (d & Hd & Hu & Hcl & Hon).
  assert (send_closed c = false) as Hccl.
  { destruct (send_closed c) eqn:E; [|done]. by rewrite (sound_closed _ _ _ _ _ Hok _ _ Hc E) in Hserved. }
  eexists. split; [|split; [|split]].
  - cbn. unfold hub_unregister. rewrite (proj2 (get_client_ok old h c) Hc). cbn [mbind result_bind].
    rewrite Hidle, bool_decide_true by done. cbn [andb negb].
    unfold Has. cbn [clients put_client set_objs]. rewrite bool_decide_true by (by eexists).
    unfold channel_close, get_client. cbn [objs put_client set_objs set_clients].
    rewrite list_lookup_insert_eq by (by eapply lookup_lt_Some). cbn [mbind result_bind send_closed set_served].
    rewrite Hccl. reflexivity.
  - unfold Has. cbn. rewrite bool_decide_false; [done|]. rewrite lookup_delete_eq. apply is_Some_None.
  - exists d. cbn. by rewrite !list_lookup_insert_ne.
  - intros acts' h2 log2 Hrun2. eapply orphan_run in Hrun2; [by destruct Hrun2 as [[_ ?] ?]|]. split.
    + exists d. cbn. rewrite !list_lookup_insert_ne by done. split; [done|]. destruct Hon as [|[|]]; congruence.
    + cbn. intros uid [Hu' Hi]%lookup_delete_Some. apply Hu'. rewrite <- Hu. by eapply registered_uid.
Qed.
End Hub.
Arguments UserClient : clear implicits.
Arguments UserEvent : clear implicits.
Arguments Hub : clear implicits.
Arguments action : clear implicits.

(** ** A concrete hub

    The JSON of numbers of SseClient.v and no store. *)

Definition no_store : Store N unit := {| Save _ _ := None; ListByLastID _ _ _ _ := None |}.
Definition toy_hub : Hub N unit := NewHub [WithPushBufferSize 2] None.
Definition toy_run := run (HJ := toy_json) (HS := no_store) toy_hub.
Definition note (n : N) : Event N := mkEvent "1" "message" (Some n).

(** Two users; three pushes of which the slow one gets one late. *)
Definition two_users : list (action N) :=
  [Serve "ann" "" ""; HubRegister 0; Serve "bob" "" ""; HubRegister 1;
   PushOne "ann" (note 1); PushOne "bob" (note 2); HubBroadcast; HubBroadcast;
   PushOne "bob" (note 3); HubBroadcast; PushOne "bob" (note 4); HubBroadcast; HubSendTimeout;
   ClientEvent 1 true; HubSend; ClientEvent 0 true].

Lemma hub_invariant_witness :
  exists h log, toy_run two_users = Ok (h, log) /\
    exists c, objs h !! 1%nat = Some c /\ UID c = "bob" /\ send_closed c = false /\ online c.
Proof.
  pose proof (hub_invariant (HJ := toy_json) (HS := no_store) [WithPushBufferSize 2] None two_users eq_refl) as H.
  unfold toy_run, toy_hub. destruct (run _ two_users) as [[h log]|e|] eqn:E; [|vm_compute in E; discriminate|destruct H].
  exists h, log. split; [reflexivity|]. apply (proj1 H). vm_compute in E. injection E as <- <-. reflexivity.
Defined.

Lemma hub_delivers_in_order_witness :
  exists h log c, toy_run two_users = Ok (h, log) /\ objs h !! 1%nat = Some c /\
    routed 1 log = [note 2; note 3; note 4] /\ written c ++ Send c ++ held 1 (sending h) = routed 1 log.
Proof.
  unfold toy_run, toy_hub.
  destruct (run (HJ := toy_json) (HS := no_store) (NewHub [WithPushBufferSize 2] None) two_users) as [[h log]|e|] eqn:E;
    [|vm_compute in E; discriminate..].
  assert (exists c, objs h !! 1%nat = Some c) as [c Hc].
  { vm_compute in E. injection E as <- <-. eexists. reflexivity. }
  exists h, log, c. split; [reflexivity|]. split; [exact Hc|]. split.
  - vm_compute in E. injection E as <- <-. reflexivity.
  - assert (failed (stats h) = 0) as Hf by (pose proof E as E'; vm_compute in E'; injection E' as <- <-; reflexivity).
    assert (Z.of_nat (length two_users) < 2 ^ 63) as Hlen by (vm_compute; reflexivity).
    pose proof (hub_delivers_in_order (HJ := toy_json) (HS := no_store) [WithPushBufferSize 2] None two_users h log 1 c
      eq_refl E Hc) as [_ H].
    exact (H Hf Hlen).
Defined.

(** Ann reconnects, then the request of her first connection ends. *)
Definition reconnect : list (action N) :=
  [Serve "ann" "" ""; HubRegister 0; Serve "ann" "" ""; HubRegister 1; ClientGone 0].

Lemma stale_unregister_cuts_off_witness :
  exists h log h1, toy_run reconnect = Ok (h, log) /\
    step (HJ := toy_json) (HS := no_store) h (HubUnregister 0) = Ok h1 /\
    forall acts' h2 log2, run (HJ := toy_json) (HS := no_store) h1 acts' = Ok (h2, log2) -> routed 1 log2 = [].
Proof.
  destruct (toy_run reconnect) as [[h log]|e|] eqn:E; [|vm_compute in E; discriminate..].
  pose proof E as E'. vm_compute in E'. injection E' as <- <-.
  destruct (stale_unregister_cuts_off (HJ := toy_json) (HS := no_store) [WithPushBufferSize 2] None reconnect _ _ 0 1 _
    eq_refl E eq_refl eq_refl eq_refl eq_refl ltac:(discriminate)) as (h1 & H1 & _ & _ & H2).
  eexists _, _, h1. split; [reflexivity|]. split; [exact H1|]. intros acts' h2 log2 Hr. apply (H2 acts' h2 log2 Hr).
Defined.

(** The sweep of Close closes the channel of a client that was sent its close
    event; when the user has come back meanwhile, the old connection's
    unregistration closes it again. *)
Lemma sweep_then_unregister_panics :
  let close := mkEvent "" "close" (Some 0%N) in
  toy_run [Serve "ann" "" ""; HubRegister 0; PushOne "ann" close; HubBroadcast; ClientEvent 0 true; CloseSweep 0;
           Serve "ann" "" ""; HubRegister 1; ClientClosed 0; HubUnregister 0] = Panic.
Proof. vm_compute. reflexivity. Qed.

(** Once the hub's context is done no client gets away: its goroutine waits
    for the hub for ever. *)
Lemma stopped_hub_never_unregisters {any S} `{Json any} `{Store any S} (h : Hub any S) cid :
  stopped h = true -> is_ok (step h (HubUnregister cid)) = false.
Proof.
  intros Hs. cbn. unfold hub_unregister, get_client, hub_idle. rewrite Hs.
  by destruct (objs h !! cid).
Qed.

End SseHub.
