(* ===== verification/FieldName.v ===== *)
(** * Go field names from document keys (pkg/jy2struct: FmtFieldName)

    [FmtFieldName] and the linting it builds on, over the runes of an ASCII
    key.  The theorem: whatever the key, the result is a blank name or an
    exported Go identifier. *)

From S2P Require Import Prelude GoStr.
From Stdlib Require Import Ascii.

Module FieldName.

(** ** Runes *)

Fixpoint to_runes (s : string) : list ascii :=
  match s with EmptyString => [] | String c s' => c :: to_runes s' end.
Fixpoint of_runes (l : list ascii) : string :=
  match l with [] => EmptyString | c :: l' => String c (of_runes l') end.

Definition underscore : ascii := "_"%char.
Definition is_alnum (c : ascii) : bool := is_alpha c || is_digit c.

Definition commonInitialisms : list string :=
  ["API"; "ASCII"; "CPU"; "CSS"; "DNS"; "EOF"; "GUID"; "HTML"; "HTTP"; "HTTPS"; "ID"; "IP"; "JSON"; "LHS"; "QPS";
   "RAM"; "RHS"; "RPC"; "SLA"; "SMTP"; "SSH"; "TLS"; "TTL"; "UI"; "UID"; "UUID"; "URI"; "URL"; "UTF8"; "VM"; "XML";
   "NTP"; "DB"].
Definition intToWordMap : list string :=
  ["zero"; "one"; "two"; "three"; "four"; "five"; "six"; "seven"; "eight"; "nine"].

Definition is_initialism (word : list ascii) : bool := bool_decide (of_runes (map upper word) ∈ commonInitialisms).

(** ** lintFieldName *)

(** The length of the run of underscores at the head. *)
Fixpoint run_length (l : list ascii) : nat :=
  match l with c :: l' => if bool_decide (c = underscore) then S (run_length l') else O | [] => O end.

Definition rune_at (l : list ascii) (i : nat) : ascii := nth i l "000"%char.

(** The word [[w, i)] ends: its initialism, or its first letter, is put in
    capitals in place. *)
Definition end_word (runes : list ascii) (w i : nat) : list ascii :=
  let word := drop w (take i runes) in
  if is_initialism word then take w runes ++ map upper word ++ drop i runes
  else if bool_decide (map lower word = word) then take w runes ++ upper (rune_at runes w) :: drop (S w) runes
  else runes.

(** One iteration of the scan: the runes, the start of the word, the scan. *)
Definition lint_step (s : list ascii * nat * nat) : list ascii * nat * nat :=
  let '(runes, w, i) := s in
  let '(runes, eow) :=
    if (i + 1 =? length runes)%nat then (runes, true)
    else if bool_decide (rune_at runes (i + 1) = underscore) then
      let n := run_length (drop (i + 1) runes) in
      let n := if (i + n + 1 <? length runes)%nat && is_digit (rune_at runes i) && is_digit (rune_at runes (i + n + 1))
               then (n - 1)%nat else n in
      (take (i + 1) runes ++ drop (i + n + 1) runes, true)
    else (runes, is_lower (rune_at runes i) && negb (is_lower (rune_at runes (i + 1)))) in
  if eow then (end_word runes w (i + 1), (i + 1)%nat, (i + 1)%nat) else (runes, w, (i + 1)%nat).

(** The scan moves on by one rune: the length of the name is enough fuel. *)
Fixpoint lint_loop (fuel : nat) (s : list ascii * nat * nat) : list ascii :=
  let '(runes, w, i) := s in
  match fuel with
  | O => runes
  | S fuel => if (i + 1 <=? length runes)%nat then lint_loop fuel (lint_step s) else runes
  end.

Definition lintFieldName (name : list ascii) : list ascii :=
  if bool_decide (name = [underscore]) then name
  else if forallb is_lower name then
    if is_initialism name then map upper name
    else match name with c :: l => upper c :: l | [] => [] end
  else
    let name := if forallb (fun c => is_upper c || bool_decide (c = underscore)) name then map lower name else name in
    lint_loop (length name) (name, O, O).

(** ** FmtFieldName *)

Definition stringifyFirstChar (str : list ascii) : list ascii :=
  match str with
  | c :: l => if is_digit c then to_runes (nth (Z.to_nat (digit_val c)) intToWordMap "") ++ underscore :: l else str
  | [] => []
  end.

Fixpoint drop_head (f : ascii -> bool) (l : list ascii) : list ascii :=
  match l with c :: l' => if f c then drop_head f l' else l | [] => [] end.

(** The runes that an identifier cannot have become underscores. *)
Definition sanitize (name : list ascii) : list ascii :=
  imap (fun i c => if (if (i =? 0)%nat then is_alpha c else is_alnum c) then c else underscore) name.
Definition trim_underscores (l : list ascii) : list ascii :=
  let f c := bool_decide (c = underscore) in
  reverse (drop_head f (reverse (drop_head f l))).

Definition FmtFieldName (s : string) : string :=
  match drop_head (fun c => negb (is_alnum c)) (to_runes s) with
  | [] => "_"
  | runes =>
      match trim_underscores (sanitize (lintFieldName (stringifyFirstChar runes))) with
      | [] => "_"
      | l => of_runes l
      end
  end.

Example FmtFieldName_samples :
  map FmtFieldName ["foo_id"; "2fooBar"; "user-name"; "HTTP_URL"; "x_1_2"; "--"; "apiKey"] =
    ["FooID"; "TwoFooBar"; "User_name"; "HTTPURL"; "X1_2"; "_"; "APIKey"].
Proof. reflexivity. Qed.

(** ** The result is an identifier *)

(** The first rune is in capitals. *)
Definition capital (l : list ascii) : Prop := exists c l', l = c :: l' /\ is_upper c = true.

Lemma upper_lower c : is_lower c = true -> is_upper (upper c) = true.
Proof. destruct c as [[] [] [] [] [] [] [] []]; vm_compute; congruence. Qed.
Lemma upper_keeps c : is_upper c = true -> upper c = c.
Proof. destruct c as [[] [] [] [] [] [] [] []]; vm_compute; congruence. Qed.
Lemma lower_keeps c : is_lower c = true -> lower c = c.
Proof. destruct c as [[] [] [] [] [] [] [] []]; vm_compute; congruence. Qed.
Lemma lower_upper c : is_upper c = true -> is_lower (lower c) = true.
Proof. destruct c as [[] [] [] [] [] [] [] []]; vm_compute; congruence. Qed.
Lemma lower_of_upper c : is_upper c = true -> lower c <> c.
Proof. destruct c as [[] [] [] [] [] [] [] []]; vm_compute; congruence. Qed.

Lemma alpha_cases c : is_alpha c = true -> is_upper c = true \/ is_lower c = true.
Proof. unfold is_alpha. apply orb_true_iff. Qed.

(** Before the first word ends, it is all lower case up to the scan, or it
    starts with a capital; afterwards the name starts with a capital. *)
Definition scanned (s : list ascii * nat * nat) : Prop :=
  let '(runes, w, i) := s in
  capital runes \/ (w = O /\ (i < length runes)%nat /\ Forall (fun c => is_lower c = true) (take (i + 1) runes)).

Lemma capital_app c l1 l2 : capital (c :: l1) -> capital (c :: l2).
Proof. intros (c' & l' & [= -> ->] & Hc). by exists c', l2. Qed.

Lemma map_lower_id l : Forall (fun c => is_lower c = true) l -> map lower l = l.
Proof. induction 1 as [|c l Hc Hl IH]; [done|]. cbn. by rewrite lower_keeps, IH. Qed.

Lemma end_word_capital runes w i : capital runes -> (w < i)%nat -> capital (end_word runes w i).
Proof.
  intros (c & l & -> & Hc) Hi. destruct i as [|i]; [lia|]. unfold end_word. destruct w as [|w].
  - cbn [drop take app]. destruct (is_initialism _); [|case_bool_decide].
    + exists (upper c), (map upper (take i l) ++ drop i l). split; [done|]. by rewrite upper_keeps.
    + exists (upper c), l. split; [done|]. by rewrite upper_keeps.
    + by exists c, l.
  - destruct (is_initialism _); [|case_bool_decide].
    + by exists c, (take w l ++ map upper (drop (S w) (take (S i) (c :: l))) ++ drop i l).
    + by exists c, (take w l ++ upper (rune_at (c :: l) (S w)) :: drop (S w) l).
    + by exists c, l.
Qed.

Lemma end_word_lower runes i : (0 < i <= length runes)%nat ->
  Forall (fun c => is_lower c = true) (take i runes) -> capital (end_word runes 0 i).
Proof.
  intros Hi Hl. destruct runes as [|c l]; [cbn in Hi; lia|]. destruct i as [|i]; [lia|].
  unfold end_word. cbn [drop take app]. cbn [take] in Hl. pose proof (Forall_inv Hl) as Hc. cbn in Hc.
  destruct (is_initialism _).
  - exists (upper c), (map upper (take i l) ++ drop i l). split; [done|]. by apply upper_lower.
  - rewrite bool_decide_true by by apply map_lower_id. exists (upper c), l. split; [done|]. by apply upper_lower.
Qed.

Lemma rune_at_lookup l i c : l !! i = Some c -> rune_at l i = c.
Proof. revert i. induction l as [|x l IH]; intros [|i]; cbn; naive_solver. Qed.

Lemma end_word_length runes w i : (w < i <= length runes)%nat -> length (end_word runes w i) = length runes.
Proof.
  intros Hi. unfold end_word. destruct (is_initialism _); [|case_bool_decide]; [| |done].
  - rewrite !length_app, length_map, length_drop, !length_take, length_drop. lia.
  - rewrite length_app, length_cons, length_take, length_drop. lia.
Qed.

Lemma capital_take n l1 l2 : capital l1 -> (0 < n)%nat -> capital (take n l1 ++ l2).
Proof. intros (c & l & -> & Hc) Hn. destruct n as [|n]; [lia|]. by exists c, (take n l ++ l2). Qed.

(** The two outcomes of an iteration: the word ends, or the scan goes on. *)
Lemma lint_step_cases runes w i : (i + 1 <= length runes)%nat ->
  (exists l, (i + 1 <= length (take (i + 1) runes ++ l) <= length runes)%nat /\
     lint_step (runes, w, i) = (end_word (take (i + 1) runes ++ l) w (i + 1), (i + 1)%nat, (i + 1)%nat)) \/
  (lint_step (runes, w, i) = (runes, w, (i + 1)%nat) /\ (i + 1 < length runes)%nat /\
     (is_lower (rune_at runes i) = true -> is_lower (rune_at runes (i + 1)) = true)).
Proof.
  intros Hi. unfold lint_step. destruct (Nat.eqb_spec (i + 1) (length runes)) as [E|E].
  - left. exists (drop (i + 1) runes). rewrite take_drop. split; [lia|done].
  - case_bool_decide as Hu.
    + set (n := if _ && _ && _ then _ else _). left. exists (drop (i + n + 1) runes). split; [|done].
      rewrite length_app, length_take, length_drop. lia.
    + destruct (is_lower (rune_at runes i)) eqn:Hl, (is_lower (rune_at runes (i + 1))) eqn:Hl'; cbn [andb negb].
      * right. split; [done|]. split; [lia|done].
      * left. exists (drop (i + 1) runes). rewrite take_drop. split; [lia|done].
      * right. split; [done|]. split; [lia|done].
      * right. split; [done|]. split; [lia|done].
Qed.

Lemma lint_step_scanned runes w i : (w <= i)%nat -> (i + 1 <= length runes)%nat -> scanned (runes, w, i) ->
  let '(runes', w', i') := lint_step (runes, w, i) in
  (w' <= i')%nat /\ i' = (i + 1)%nat /\ (length runes' <= length runes)%nat /\ scanned (runes', w', i').
Proof.
  intros Hw Hi Hs. destruct (lint_step_cases runes w i Hi) as [(l & Hl & ->)|(-> & Hlt & Hnext)].
  - split; [done|]. split; [done|]. rewrite end_word_length by lia. split; [lia|]. left.
    destruct Hs as [Hc|(-> & _ & Hlow)].
    + apply end_word_capital; [|lia]. apply capital_take; [done|lia].
    + apply end_word_lower; [lia|]. rewrite take_app_le by (rewrite length_take; lia). by rewrite take_take, Nat.min_id.
  - split; [lia|]. split; [done|]. split; [lia|]. destruct Hs as [Hc|(-> & _ & Hlow)]; [by left|right].
    split; [done|]. split; [lia|]. destruct (runes !! (i + 1)%nat) as [c|] eqn:Hc; [|apply lookup_ge_None in Hc; lia].
    replace (i + 1 + 1)%nat with (S (i + 1)) by lia. rewrite (take_S_r _ _ c) by done. apply Forall_app. split; [done|].
    constructor; [|done]. rewrite <- (rune_at_lookup _ _ _ Hc). apply Hnext.
    destruct (runes !! i) as [d|] eqn:Hd; [|apply lookup_ge_None in Hd; lia]. rewrite (rune_at_lookup _ _ _ Hd).
    rewrite Forall_lookup in Hlow. apply (Hlow i). by rewrite lookup_take_lt by lia.
Qed.

Lemma lint_loop_capital fuel runes w i : (w <= i)%nat -> (length runes <= fuel + i)%nat ->
  scanned (runes, w, i) -> capital (lint_loop fuel (runes, w, i)).
Proof.
  revert runes w i. induction fuel as [|fuel IH]; intros runes w i Hw Hf Hs; cbn [lint_loop].
  { destruct Hs as [|(_ & Hi & _)]; [done|lia]. }
  destruct (Nat.leb_spec (i + 1) (length runes)) as [Hi|Hi].
  - pose proof (lint_step_scanned runes w i Hw Hi Hs) as H. destruct (lint_step (runes, w, i)) as [[runes' w'] i'].
    destruct H as (Hw' & -> & Hl & Hs'). apply IH; [done|lia|done].
  - destruct Hs as [|(_ & Hi' & _)]; [done|lia].
Qed.

(** A name that starts with a letter is linted to one that starts with a
    capital. *)
Lemma lintFieldName_capital c l : is_alpha c = true -> capital (lintFieldName (c :: l)).
Proof.
  intros Hc. unfold lintFieldName. rewrite bool_decide_false by (intros [= ->]; discriminate).
  destruct (forallb is_lower (c :: l)) eqn:Hlow.
  - cbn in Hlow. apply andb_true_iff in Hlow as [Hlow _].
    destruct (is_initialism _); (eexists _, _; split; [reflexivity|]); by apply upper_lower.
  - set (up := forallb (fun c => is_upper c || bool_decide (c = underscore)) (c :: l)).
    assert (exists d l', (if up then map lower (c :: l) else c :: l) = d :: l' /\ is_alpha d = true) as (d & l' & -> & Hd).
    { destruct up; [|by exists c, l]. exists (lower c), (map lower l). split; [done|].
      unfold is_alpha. destruct (alpha_cases c Hc) as [Hu|Hl].
      - rewrite (lower_upper c Hu). apply orb_true_r.
      - rewrite (lower_keeps c Hl), Hl. apply orb_true_r. }
    apply lint_loop_capital; [lia|cbn; lia|]. destruct (alpha_cases d Hd) as [Hu|Hl].
    + left. by exists d, l'.
    + right. split; [done|]. split; [cbn; lia|]. cbn. by repeat constructor.
Qed.

(** ** The theorem *)

Definition ident_char (c : ascii) : bool := is_alnum c || bool_decide (c = underscore).
(** An identifier of Go that its package exports. *)
Definition exported (s : string) : bool :=
  match s with String c s' => is_upper c && forall_chars ident_char s' | EmptyString => false end.

Lemma forall_chars_of_runes f l : forall_chars f (of_runes l) = forallb f l.
Proof. induction l as [|c l IH]; [done|]. cbn. by rewrite IH. Qed.

Lemma sanitize_ident l : Forall (fun c => ident_char c = true) (sanitize l).
Proof.
  rewrite Forall_lookup. intros i c. unfold sanitize. rewrite list_lookup_imap.
  destruct (l !! i) as [d|]; [|done]. intros [= <-].
  destruct (if (i =? 0)%nat then is_alpha d else is_alnum d) eqn:E; [|done].
  unfold ident_char, is_alnum in *. destruct (i =? 0)%nat; by rewrite E.
Qed.

Lemma drop_head_app f l : exists t, l = t ++ drop_head f l.
Proof.
  induction l as [|c l [t IH]]; [by exists []|]. cbn. destruct (f c); [|by exists []].
  exists (c :: t). by rewrite IH at 1.
Qed.

Lemma drop_head_nil f l : drop_head f l = [] -> Forall (fun c => f c = true) l.
Proof. induction l as [|c l IH]; cbn; [done|]. destruct (f c) eqn:E; [|done]. auto. Qed.
Lemma drop_head_first f l c l' : drop_head f l = c :: l' -> f c = false.
Proof. induction l as [|d l IH]; cbn; [done|]. destruct (f d) eqn:E; [done|]. by intros [= <- <-]. Qed.

Lemma trim_capital l : capital l -> Forall (fun c => ident_char c = true) l ->
  exists c l', trim_underscores l = c :: l' /\ is_upper c = true /\ Forall (fun c => ident_char c = true) l'.
Proof.
  intros (c & l' & -> & Hc) Hl. unfold trim_underscores.
  assert (forall x, is_upper x = true -> bool_decide (x = underscore) = false) as Hu.
  { intros x Hx. apply bool_decide_false. by intros ->. }
  set (f := fun c => bool_decide (c = underscore)). cbn [drop_head]. unfold f at 2. rewrite (Hu c Hc).
  destruct (drop_head_app f (reverse (c :: l'))) as [t Ht].
  apply (f_equal reverse) in Ht. rewrite reverse_involutive, reverse_app in Ht.
  destruct (reverse (drop_head f (reverse (c :: l')))) as [|d m] eqn:Hm.
  - exfalso. apply (f_equal reverse) in Hm. rewrite reverse_involutive in Hm. apply drop_head_nil in Hm.
    rewrite Forall_forall in Hm. specialize (Hm c). unfold f in Hm. rewrite (Hu c Hc) in Hm.
    by discriminate Hm; rewrite elem_of_reverse; left.
  - injection Ht as <- Ht. exists c, m. split; [done|]. split; [done|].
    inversion_clear Hl as [|? ? _ Hl']. rewrite Ht in Hl'. by apply Forall_app in Hl' as [? _].
Qed.

(** The field name of any key is the blank identifier, or an exported
    identifier of Go: a capital letter, then letters, digits and
    underscores. *)
Theorem field_name_exported (s : string) : FmtFieldName s = "_" \/ exported (FmtFieldName s) = true.
Proof.
  unfold FmtFieldName. destruct (drop_head _ (to_runes s)) as [|c l] eqn:Hl; [by left|]. right.
  assert (is_alnum c = true) as Hc by (by apply drop_head_first in Hl; destruct (is_alnum c)).
  assert (exists d l', stringifyFirstChar (c :: l) = d :: l' /\ is_alpha d = true) as (d & l' & -> & Hd).
  { unfold stringifyFirstChar. destruct (is_digit c) eqn:Hdig.
    - revert Hdig. clear. destruct c as [[] [] [] [] [] [] [] []]; intros H; vm_compute in H; try discriminate; by eexists _, _.
    - exists c, l. split; [done|]. unfold is_alnum in Hc. by rewrite Hdig, orb_false_r in Hc. }
  destruct (trim_capital (sanitize (lintFieldName (d :: l')))) as (e & m & -> & He & Hm).
  - destruct (lintFieldName_capital d l' Hd) as (e & m & -> & He). unfold sanitize. cbn [imap].
    eexists _, _. split; [reflexivity|]. cbn. unfold is_alpha. by rewrite He.
  - apply sanitize_ident.
  - cbn. rewrite He, forall_chars_of_runes. cbn. apply forallb_forall.
    intros x Hx. rewrite Forall_forall in Hm. by apply Hm, list_elem_of_In.
Qed.

End FieldName.
