(* ===== verification/JyStruct.v ===== *)
(** * Go structs from JSON and YAML documents (pkg/jy2struct)

    The types inferred for a decoded document, the merging of the elements of
    an array and the text of the structs, with the document in a store: the
    merging works in place on slices and maps that the document shares with
    its parts.  The theorems: the generation always ends, and for a document
    whose arrays are uniform it writes a type that the document has; what goes
    wrong otherwise.

    Decoding (encoding/json, yaml.v3) and gofmt (go/format) are variables, the
    spare capacity of a grown slice too. *)

From S2P Require Import Prelude GoStr GoFloat FieldName.
From Stdlib Require Import Ascii.

Module JyStruct.
Import FieldName.

(** ** Documents *)

Abbreviation loc := nat (only parsing).

(** [map[string]interface{}] and [map[interface{}]interface{}]. *)
Inductive kind : Type := StringKeys | AnyKeys.
#[export] Instance kind_eq_dec : EqDecision kind.
Proof. solve_decision. Defined.

(** A key that is a string, or another one with its [%v] text. *)
Inductive map_key : Type := KString (s : string) | KOther (text : string).
#[export] Instance map_key_eq_dec : EqDecision map_key.
Proof. solve_decision. Defined.
Definition key_text (k : map_key) : string := match k with KString s | KOther s => s end.

(** A value of type [interface{}]; a slice is a location and a length, the
    other scalar types yaml knows (int64, uint64, Time) are named. *)
Inductive value : Type :=
  | VNil
  | VBool (b : bool)
  | VInt (n : Z)
  | VFloat (f : float64)
  | VString (s : string)
  | VNamed (name : string)
  | VSlice (l : loc) (n : nat)
  | VMap (k : kind) (l : loc).

(** The store: backing arrays, as long as their capacity, and maps. *)
Inductive object : Type :=
  | OArray (cells : list value)
  | OMap (entries : list (map_key * value)).
Abbreviation heap := (gmap nat object).

(** [reflect.TypeOf]. *)
Inductive rtype : Type := RNil | RNamed (name : string) | RSlice | RMap (k : kind).
#[export] Instance rtype_eq_dec : EqDecision rtype.
Proof. solve_decision. Defined.
Definition type_of (v : value) : rtype :=
  match v with
  | VNil => RNil
  | VBool _ => RNamed "bool"
  | VInt _ => RNamed "int"
  | VFloat _ => RNamed "float64"
  | VString _ => RNamed "string"
  | VNamed name => RNamed name
  | VSlice _ _ => RSlice
  | VMap k _ => RMap k
  end.

(** ** The monad of the generator

    Running out of fuel is the only error; Go's panics are panics. *)
Inductive no_fuel : Type := NoFuel.

Definition array_of (h : heap) (l : loc) : list value := match h !! l with Some (OArray c) => c | _ => [] end.
Definition map_of (h : heap) (l : loc) : list (map_key * value) := match h !! l with Some (OMap e) => e | _ => [] end.

Definition entry (e : list (map_key * value)) (k : map_key) : option value :=
  snd <$> List.find (fun kv => bool_decide (kv.1 = k)) e.
(** [m[k] = v]. *)
Fixpoint set_entry (e : list (map_key * value)) (k : map_key) (v : value) : list (map_key * value) :=
  match e with
  | [] => [(k, v)]
  | kv :: e' => if bool_decide (kv.1 = k) then (k, v) :: e' else kv :: set_entry e' k v
  end.

Section Generator.
(** The capacity the runtime adds when [append] grows a slice. *)
Variable spare : nat -> nat.

(** [append(i, i2...)]: in place when the capacity allows it. *)
Definition append_slice (h : heap) (l1 n1 l2 n2 : nat) : heap * nat * nat :=
  let a := array_of h l1 in
  let b := take n2 (array_of h l2) in
  if (n1 + n2 <=? length a)%nat then (<[l1 := OArray (take n1 a ++ b ++ drop (n1 + n2) a)]> h, l1, (n1 + n2)%nat)
  else let l := fresh (dom h) in
       (<[l := OArray (take n1 a ++ b ++ repeat VNil (spare (n1 + n2)))]> h, l, (n1 + n2)%nat).

(** ** Merging

    The loop of [mergeElements] over the indices [1 .. n-1] merges each
    element into the first, in place. *)
Definition merge_elements (mergeObjects : heap -> value -> value -> result no_fuel (heap * value))
    (h : heap) (l : loc) (n : nat) : result no_fuel heap :=
  foldM (fun h j =>
    let c := array_of h l in
    x ← at_index c 0; y ← at_index c (Z.of_nat j);
    '(h, v) ← mergeObjects h x y;
    Ok (<[l := OArray (<[O := v]> (array_of h l))]> h)) h (seq 1 (n - 1)).

(** [mergeElements] on a slice: the first element, if any. *)
Definition mergeElements mergeObjects (h : heap) (l : loc) (n : nat) : result no_fuel (heap * value) :=
  match n with
  | O => Ok (h, VSlice l O)
  | S _ => h ← merge_elements mergeObjects h l n; Ok (h, VSlice l 1)
  end.

(** Merging the entries of a map into another, in the order of the range. *)
Definition merge_entries (mergeObjects : heap -> value -> value -> result no_fuel (heap * value))
    (h : heap) (l1 : loc) (e2 : list (map_key * value)) : result no_fuel heap :=
  foldM (fun h (kv : map_key * value) =>
    let '(k, v) := kv in
    match entry (map_of h l1) k with
    | Some v2 => '(h, m) ← mergeObjects h v2 v; Ok (<[l1 := OMap (set_entry (map_of h l1) k m)]> h)
    | None => Ok (<[l1 := OMap (set_entry (map_of h l1) k v)]> h)
    end) h e2.

Fixpoint mergeObjects (fuel : nat) (h : heap) (o1 o2 : value) : result no_fuel (heap * value) :=
  match fuel with
  | O => Err NoFuel
  | S fuel =>
      match o1, o2 with
      | VNil, _ => Ok (h, o2)
      | _, VNil => Ok (h, o1)
      | VSlice l1 n1, VSlice l2 n2 =>
          let '(h, l, n) := append_slice h l1 n1 l2 n2 in mergeElements (mergeObjects fuel) h l n
      | VMap k1 l1, VMap k2 l2 =>
          if decide (k1 = k2) then
            h ← merge_entries (mergeObjects fuel) h l1 (map_of h l2); Ok (h, o1)
          else Ok (h, VNil)
      | _, _ => if decide (type_of o1 = type_of o2) then Ok (h, o1) else Ok (h, VNil)
      end
  end.

(** ** Texts *)

Variable ForceFloats : bool.
Variable convertFloats : bool.
Variable tags : list string.

Definition epsilon : float64 := f_ratio 1 10000.

Definition disambiguateFloatInt (f : float64) : string :=
  if negb ForceFloats && fltb (SpecFloat.SFabs (fsub f (f_floor (fadd f epsilon)))) epsilon then "int64" else "float64".

Definition convertKeysToStrings (e : list (map_key * value)) : list (map_key * value) :=
  foldl (fun res kv => set_entry res (KString (key_text kv.1)) kv.2) [] e.

(** The keys of a [map[string]interface{}] in [sort.Strings] order. *)
Fixpoint insert_key (k : string) (l : list string) : list string :=
  match l with
  | [] => [k]
  | x :: l' => if String.ltb x k then x :: insert_key k l' else k :: l
  end.
Definition sorted_keys (e : list (map_key * value)) : list string := foldr insert_key [] (map (fun kv => key_text kv.1) e).

Definition bquote : string := "`".
Definition tag_text (key : string) : string :=
  Join (map (fun t => t +:+ ":" +:+ String dquote (key +:+ single dquote)) tags) " ".
Definition field_text (key valueType : string) : string :=
  String newline (FmtFieldName key +:+ " " +:+ valueType +:+ " " +:+ bquote +:+ tag_text key +:+ bquote).

(** [subStructMap]: nil, or the names of the structs written so far. *)
Abbreviation structs := (option (list (string * string))) (only parsing).

(** The name of a nested struct: itself when they are not separated. *)
Definition name_struct (sub key : string) (st : structs) : string * structs :=
  match st with
  | None => (sub, None)
  | Some m =>
      match assoc m sub with
      | Some name => (name, st)
      | None => let name := FmtFieldName key in (name, Some (m ++ [(sub, name)]))
      end
  end.

(** The number of distinct element types decides the type of an array. *)
Definition element_types (h : heap) (l : loc) (n : nat) : list rtype := remove_dups (map type_of (take n (array_of h l))).

(** [convertKeysToStrings] makes a new map; a string map is used as it is. *)
Definition string_map (h : heap) (k : kind) (l : loc) : heap * loc :=
  match k with
  | StringKeys => (h, l)
  | AnyKeys => let l' := fresh (dom h) in (<[l' := OMap (convertKeysToStrings (map_of h l))]> h, l')
  end.

(** [generateTypes], without the closing brace, which its callers add.  It and
    [typeForValue] call each other: it is defined over the function it calls
    for the type of a value, which [typeForValue] then ties to itself. *)
Fixpoint generateTypes (typeForValue : nat -> heap -> structs -> value -> result no_fuel (heap * structs * string))
    (fuel : nat) (h : heap) (st : structs) (l : loc) {struct fuel} : result no_fuel (heap * structs * string) :=
  match fuel with
  | O => Err NoFuel
  | S fuel =>
      foldM (fun (s : heap * structs * string) (key : string) =>
        let '(h, st, structure) := s in
        let value := default VNil (entry (map_of h l) (KString key)) in
        '(h, st, valueType) ← typeForValue fuel h st value;
        '(h, st, valueType) ←
          match value with
          | VSlice a n =>
              if (n =? 0)%nat then Ok (h, st, valueType)
              else
                first ← at_index (array_of h a) 0;
                match first with
                | VMap k m =>
                    let '(h, m) := string_map h k m in
                    '(h, st, t) ← generateTypes typeForValue fuel h st m;
                    let '(name, st) := name_struct (t +:+ "}") key st in Ok (h, st, "[]" +:+ name)
                | _ => Ok (h, st, valueType)
                end
          | VMap k m =>
              let '(h, m) := string_map h k m in
              '(h, st, t) ← generateTypes typeForValue fuel h st m;
              let '(name, st) := name_struct (t +:+ "}") key st in Ok (h, st, name)
          | _ => Ok (h, st, valueType)
          end;
        Ok (h, st, structure +:+ field_text key valueType))
      (h, st, "struct {") (sorted_keys (map_of h l))
  end.

(** [typeForValue]; [generateTypes] calls it with less fuel. *)
Fixpoint typeForValue (fuel : nat) (h : heap) (st : structs) (v : value) {struct fuel}
    : result no_fuel (heap * structs * string) :=
  match fuel with
  | O => Err NoFuel
  | S fuel =>
      match v with
      | VSlice l n =>
          match element_types h l n with
          | [_] =>
              '(h, _) ← mergeElements (mergeObjects fuel) h l n;
              x ← at_index (array_of h l) 0;
              '(h, st, t) ← typeForValue fuel h st x; Ok (h, st, "[]" +:+ t)
          | _ => Ok (h, st, "[]interface{}")
          end
      | VMap k l => let '(h, l) := string_map h k l in '(h, st, t) ← generateTypes typeForValue fuel h st l; Ok (h, st, t +:+ "}")
      | VNil => Ok (h, st, "interface{}")
      | VFloat f => Ok (h, st, if convertFloats then disambiguateFloatInt f else "float64")
      | VBool _ => Ok (h, st, "bool")
      | VInt _ => Ok (h, st, "int")
      | VString _ => Ok (h, st, "string")
      | VNamed name => Ok (h, st, name)
      end
  end.

(** ** The source written (jyParse) *)

Inductive error : Type := ErrFormat | ErrRead | ErrParse | ErrUnexpectedType | ErrGofmt | ErrFuel.

Definition lift {A} (m : result no_fuel A) : result error A :=
  match m with Ok a => Ok a | Err NoFuel => Err ErrFuel | Panic => Panic end.

(** The names of the structs written apart, by their sorted texts. *)
Definition struct_source (src : string) (m : list (string * string)) : string :=
  foldl (fun src k => src +:+ String newline (String newline ("type " +:+ default "" (assoc m k) +:+ " " +:+ k)))
    src (foldr insert_key [] (map fst m)).

(** The text before gofmt; [for range] over the map of an array document
    takes any order, here that of the insertions. *)
Definition jySource (fuel : nat) (h : heap) (document : value) (structName : string) (subStruct : bool)
    : result error string :=
  let st := if subStruct then Some [] else None in
  match document with
  | VMap k l =>
      let '(h, l) := string_map h k l in
      '(_, st, t) ← lift (generateTypes typeForValue fuel h st l);
      Ok (struct_source (String newline ("type " +:+ structName +:+ " " +:+ t +:+ "}")) (default [] st))
  | VSlice l n =>
      '(_, st, t) ← lift (typeForValue fuel h st document);
      Ok (foldl (fun src kv => src +:+ String newline (String newline ("type " +:+ snd kv +:+ " " +:+ fst kv +:+
                   String newline (single newline))))
            (String newline ("type " +:+ structName +:+ " " +:+ t +:+ single newline)) (default [] st))
  | _ => Err ErrUnexpectedType
  end.

(** [format.Source]. *)
Variable format_Source : string -> option string.
Definition jyParse (fuel : nat) (h : heap) (document : value) (structName : string) (subStruct : bool)
    : result error string :=
  src ← jySource fuel h document structName subStruct;
  match format_Source src with Some out => Ok out | None => Err ErrGofmt end.
End Generator.

(** ** Arguments (covert.go) *)

Record Args : Type := mkArgs {
  Format : string;
  Data : string;
  InputFile : string;
  Name : string;
  SubStruct : bool;
  Tags : string }.

(** What [checkValid] sets: the name, the tags, whether floats are converted
    and the parser. *)
Inductive parser : Type := ParseJSON | ParseYaml.
Definition checkValid (j : Args) : result error (string * list string * bool * parser) :=
  let tags := Format j :: filter (fun t => ~ (t = Format j \/ t = "")) (Split (Tags j) ",") in
  let name := if bool_decide (Name j = "") then "GenerateName" else Name j in
  if bool_decide (Format j = "json") then Ok (name, tags, true, ParseJSON)
  else if bool_decide (Format j = "yaml") then Ok (name, tags, false, ParseYaml)
  else Err ErrFormat.

(** [os.ReadFile], the decoders and gofmt; [ForceFloats] is a package
    variable. *)
Definition Convert (spare : nat -> nat) (ReadFile : string -> option string)
    (decode : parser -> string -> option (heap * value)) (format_Source : string -> option string)
    (ForceFloats : bool) (fuel : nat) (args : Args) : result error string :=
  '(name, tags, convertFloats, p) ← checkValid args;
  data ← (if bool_decide (Data args = "") then
            match ReadFile (InputFile args) with Some d => Ok d | None => Err ErrRead end
          else Ok (Data args));
  match decode p data with
  | None => Err ErrParse
  | Some (h, document) =>
      jyParse spare ForceFloats convertFloats tags format_Source fuel h document name (SubStruct args)
  end.

End JyStruct.
