(* ===== verification/JySound.v ===== *)
(** * What the generated structs are worth (pkg/jy2struct)

    Documents as trees and their loading into the store of JyStruct.v; what it
    takes to follow a document through the generator, as a class
    ([Discipline]): a shape for every location of the store that merging in
    place preserves.  Two disciplines: the levels of the document, which show
    that the generation ends, and the Go types, which show that the type
    written for a uniform document is one the document has. *)

From S2P Require Import Prelude GoStr GoFloat FieldName JyStruct.
From Stdlib Require Import Ascii.

Module JySound.
Import FieldName JyStruct.

(** ** Documents as trees *)

Inductive scalar : Type :=
  | SBool (b : bool)
  | SInt (n : Z)
  | SFloat (f : float64)
  | SString (s : string)
  | SNamed (name : string).

Definition scalar_value (v : scalar) : value :=
  match v with
  | SBool b => VBool b
  | SInt n => VInt n
  | SFloat f => VFloat f
  | SString s => VString s
  | SNamed name => VNamed name
  end.

Inductive json : Type :=
  | JNil
  | JScalar (v : scalar)
  | JArray (l : list json)
  | JObject (k : kind) (l : list (map_key * json)).

Section JsonInd.
Variable P : json -> Prop.
Hypothesis case_nil : P JNil.
Hypothesis case_scalar : forall v, P (JScalar v).
Hypothesis case_array : forall l, Forall P l -> P (JArray l).
Hypothesis case_object : forall k l, Forall (fun kj => P (snd kj)) l -> P (JObject k l).

Fixpoint json_rect_forall (j : json) : P j :=
  match j with
  | JNil => case_nil
  | JScalar v => case_scalar v
  | JArray l => case_array l ((fix go l : Forall P l :=
      match l with [] => @List.Forall_nil _ _ | j :: l => @List.Forall_cons _ _ _ _ (json_rect_forall j) (go l) end) l)
  | JObject k l => case_object k l ((fix go l : Forall (fun kj => P (snd kj)) l :=
      match l with [] => @List.Forall_nil _ _ | kj :: l => @List.Forall_cons _ _ _ _ (json_rect_forall (snd kj)) (go l) end) l)
  end.
End JsonInd.

Section Load.
Variable spare : nat -> nat.

(** The decoders build the parts, then the array (with spare capacity) or the
    map. *)
Definition load_list (load : heap -> json -> heap * value) : heap -> list json -> heap * list value :=
  fix go h l := match l with
    | [] => (h, [])
    | j :: l => let '(h, v) := load h j in let '(h, vs) := go h l in (h, v :: vs)
    end.
Definition load_entries (load : heap -> json -> heap * value) : heap -> list (map_key * json) -> heap * list (map_key * value) :=
  fix go h l := match l with
    | [] => (h, [])
    | (key, j) :: l => let '(h, v) := load h j in let '(h, es) := go h l in (h, (key, v) :: es)
    end.

Fixpoint load (h : heap) (j : json) : heap * value :=
  match j with
  | JNil => (h, VNil)
  | JScalar v => (h, scalar_value v)
  | JArray l =>
      let '(h, vs) := load_list load h l in
      let a := fresh (dom h) in
      (<[a := OArray (vs ++ repeat VNil (spare (length vs)))]> h, VSlice a (length vs))
  | JObject k l =>
      let '(h, es) := load_entries load h l in
      let a := fresh (dom h) in (<[a := OMap es]> h, VMap k a)
  end.
End Load.

(** ** Disciplines *)

(** The text written for a scalar. *)
Definition scalar_text (ForceFloats convertFloats : bool) (v : scalar) : string :=
  match v with
  | SBool _ => "bool"
  | SInt _ => "int"
  | SFloat f => if convertFloats then disambiguateFloatInt ForceFloats f else "float64"
  | SString _ => "string"
  | SNamed name => name
  end.

Definition struct_text (tags : list string) (l : list (string * string)) : string :=
  foldl (fun s kt => s +:+ field_text tags (fst kt) (snd kt)) "struct {" l +:+ "}".

(** Shapes of values: what the elements of a slice and the fields of a map
    have, how deep a shape is, and which texts are right for it. *)
Class Discipline (ForceFloats convertFloats : bool) (tags : list string) := {
  shape : Type;
  fields : Type;
  depth : shape -> nat;
  scalar_ok : shape -> scalar -> Prop;
  slice_elem : shape -> option shape;
  map_fields : shape -> option fields;
  field : fields -> string -> option shape;
  prints : shape -> string -> Prop;
  structs_ok : option (list (string * string)) -> Prop;
  slice_depth s e : slice_elem s = Some e -> (depth e < depth s)%nat;
  field_depth s m key f : map_fields s = Some m -> field m key = Some f -> (depth f < depth s)%nat;
  map_depth s m : map_fields s = Some m -> (0 < depth s)%nat;
  prints_any s : prints s "interface{}";
  prints_scalar s v : scalar_ok s v -> prints s (scalar_text ForceFloats convertFloats v);
  prints_any_slice s e : slice_elem s = Some e -> prints s "[]interface{}";
  prints_slice s e t : slice_elem s = Some e -> prints e t -> prints s ("[]" +:+ t);
  prints_struct s m l : map_fields s = Some m ->
    Forall (fun kt => exists f, field m (fst kt) = Some f /\ prints f (snd kt)) l -> prints s (struct_text tags l);
  prints_name s sub key st name st' : structs_ok st -> prints s sub -> name_struct sub key st = (name, st') ->
    structs_ok st' /\ prints s name }.

Section Generic.
Context {ForceFloats convertFloats : bool} {tags : list string} `{D : Discipline ForceFloats convertFloats tags}.
Variable spare : nat -> nat.

(** The shape of every location. *)
Inductive location : Type := LArray (e : shape) (cap : nat) | LMap (m : fields).
Abbreviation store := (gmap nat location).

Definition has (S : store) (s : shape) (v : value) : Prop :=
  match v with
  | VNil => True
  | VBool b => scalar_ok s (SBool b)
  | VInt n => scalar_ok s (SInt n)
  | VFloat f => scalar_ok s (SFloat f)
  | VString str => scalar_ok s (SString str)
  | VNamed name => scalar_ok s (SNamed name)
  | VSlice l n => exists e cap, slice_elem s = Some e /\ S !! l = Some (LArray e cap) /\ (n <= cap)%nat
  | VMap k l => exists m, map_fields s = Some m /\ S !! l = Some (LMap m)
  end.

Definition entry_has (S : store) (m : fields) (kv : map_key * value) : Prop :=
  exists f, field m (key_text (fst kv)) = Some f /\ has S f (snd kv).

Definition object_has (S : store) (x : location) (o : object) : Prop :=
  match x, o with
  | LArray e cap, OArray c => length c = cap /\ Forall (has S e) c
  | LMap m, OMap es => Forall (entry_has S m) es
  | _, _ => False
  end.

Definition heap_ok (S : store) (h : heap) : Prop :=
  dom h = dom S /\ forall l x, S !! l = Some x -> exists o, h !! l = Some o /\ object_has S x o.

(** ** The store *)

Lemma has_mono S S' s v : S ⊆ S' -> has S s v -> has S' s v.
Proof.
  intros Hsub. destruct v; cbn; try done.
  - intros (e & cap & He & Hl & Hn). exists e, cap. split_and!; [done|by eapply lookup_weaken|done].
  - intros (m & Hm & Hl). exists m. split; [done|by eapply lookup_weaken].
Qed.

Lemma entry_has_mono S S' m kv : S ⊆ S' -> entry_has S m kv -> entry_has S' m kv.
Proof. intros Hsub (f & Hf & Hv). exists f. split; [done|by eapply has_mono]. Qed.

Lemma object_has_mono S S' x o : S ⊆ S' -> object_has S x o -> object_has S' x o.
Proof.
  intros Hsub. destruct x, o; cbn; try done.
  - intros [Hl Hf]. split; [done|]. eapply Forall_impl; [done|]. intros v. by apply has_mono.
  - intros Hf. eapply Forall_impl; [done|]. intros kv. by apply entry_has_mono.
Qed.

Lemma heap_ok_array S h l e cap : heap_ok S h -> S !! l = Some (LArray e cap) ->
  length (array_of h l) = cap /\ Forall (has S e) (array_of h l).
Proof.
  intros [_ Hh] Hl. destruct (Hh _ _ Hl) as (o & Ho & Hobj). unfold array_of. rewrite Ho. by destruct o.
Qed.
Lemma heap_ok_map S h l m : heap_ok S h -> S !! l = Some (LMap m) -> Forall (entry_has S m) (map_of h l).
Proof.
  intros [_ Hh] Hl. destruct (Hh _ _ Hl) as (o & Ho & Hobj). unfold map_of. rewrite Ho. by destruct o.
Qed.

Lemma heap_ok_put S h l x o : heap_ok S h -> S !! l = Some x -> object_has S x o -> heap_ok S (<[l := o]> h).
Proof.
  intros [Hd Hh] Hl Ho. split.
  - rewrite dom_insert_L, Hd. apply elem_of_dom_2 in Hl. set_solver.
  - intros l' x' Hl'. destruct (decide (l' = l)) as [->|Hne].
    + simplify_eq. exists o. by rewrite lookup_insert_eq.
    + rewrite lookup_insert_ne by done. by apply Hh.
Qed.

Lemma heap_ok_alloc S h x o : heap_ok S h -> object_has S x o ->
  let l := fresh (dom h) in heap_ok (<[l := x]> S) (<[l := o]> h) /\ S ⊆ <[l := x]> S.
Proof.
  intros [Hd Hh] Ho l. assert (S !! l = None) as Hfresh.
  { apply not_elem_of_dom. rewrite <- Hd. apply is_fresh. }
  assert (S ⊆ <[l := x]> S) as Hsub by by apply insert_subseteq.
  split; [|done]. split; [by rewrite !dom_insert_L, Hd|].
  intros l' x'. rewrite lookup_insert_Some. intros [[<- <-]|[Hne Hl']].
  - exists o. rewrite lookup_insert_eq. split; [done|by eapply object_has_mono].
  - destruct (Hh _ _ Hl') as (o' & Ho' & Hobj). exists o'. rewrite lookup_insert_ne by done.
    split; [done|by eapply object_has_mono].
Qed.

(** ** Merging keeps the shapes *)

(** A computation that returns, in a store with the same shapes and more. *)
Definition keeps {A} (S : store) (m : result no_fuel A) (heap_of : A -> heap) (Q : store -> A -> Prop) : Prop :=
  exists a S', m = Ok a /\ S ⊆ S' /\ heap_ok S' (heap_of a) /\ Q S' a.

Lemma keeps_bind {A B} S (m : result no_fuel A) hA QA (f : A -> result no_fuel B) hB (QB : store -> B -> Prop) :
  keeps S m hA QA ->
  (forall a S', S ⊆ S' -> heap_ok S' (hA a) -> QA S' a -> keeps S' (f a) hB QB) ->
  keeps S (m ≫= f) hB QB.
Proof.
  intros (a & S' & -> & Hsub & Hok & HQ) Hf. destruct (Hf a S' Hsub Hok HQ) as (b & S'' & Hb & Hsub' & Hok' & HQ').
  exists b, S''. cbn. split; [done|]. split; [by etrans|done].
Qed.

Lemma keeps_ok {A} S (a : A) hA (QA : store -> A -> Prop) : heap_ok S (hA a) -> QA S a -> keeps S (Ok a) hA QA.
Proof. intros Hok HQ. exists a, S. done. Qed.

Lemma keeps_weaken {A} S S' (m : result no_fuel A) hA Q : S ⊆ S' -> keeps S' m hA Q -> keeps S m hA Q.
Proof. intros Hsub (a & S'' & Hm & Hsub' & H). exists a, S''. split; [done|]. split; [by etrans|done]. Qed.

(** A loop: the invariant and what is known of the items last as the store
    grows. *)
Lemma keeps_foldM {A X} S (f : A -> X -> result no_fuel A) a l (hA : A -> heap) (I : store -> A -> Prop) (P : store -> X -> Prop) :
  (forall S S' x, S ⊆ S' -> P S x -> P S' x) ->
  (forall S a x, P S x -> heap_ok S (hA a) -> I S a -> keeps S (f a x) hA I) ->
  Forall (P S) l -> heap_ok S (hA a) -> I S a -> keeps S (foldM f a l) hA I.
Proof.
  intros Hmono Hf. revert S a. induction l as [|x l IH]; intros S a Hl Hok HI; cbn [foldM]; [by apply keeps_ok|].
  inversion_clear Hl as [|? ? Hx Hl']. eapply keeps_bind; [by apply Hf|]. intros a' S' Hsub Hok' HI'.
  apply IH; [|done|done]. eapply Forall_impl; [done|]. intros y. by apply Hmono.
Qed.

Lemma append_slice_keeps S h e l1 n1 c1 l2 n2 c2 :
  heap_ok S h -> S !! l1 = Some (LArray e c1) -> (n1 <= c1)%nat -> S !! l2 = Some (LArray e c2) -> (n2 <= c2)%nat ->
  exists h' l c S', append_slice spare h l1 n1 l2 n2 = (h', l, (n1 + n2)%nat) /\ S ⊆ S' /\ heap_ok S' h' /\
    S' !! l = Some (LArray e c) /\ (n1 + n2 <= c)%nat.
Proof.
  intros Hok H1 Hn1 H2 Hn2. destruct (heap_ok_array _ _ _ _ _ Hok H1) as [Hc1 Hf1].
  destruct (heap_ok_array _ _ _ _ _ Hok H2) as [Hc2 Hf2]. unfold append_slice.
  destruct (Nat.leb_spec (n1 + n2) (length (array_of h l1))) as [Hle|Hgt].
  - exists (<[l1:=OArray (take n1 (array_of h l1) ++ take n2 (array_of h l2) ++ drop (n1 + n2) (array_of h l1))]> h), l1, c1, S.
    split; [done|]. split; [done|]. split; [|split; [done|lia]].
    eapply heap_ok_put; [done|done|]. split.
    + rewrite !length_app, !length_take, length_drop. lia.
    + rewrite !Forall_app. split_and!; [by apply Forall_take|by apply Forall_take|by apply Forall_drop].
  - set (o := OArray _). set (c := length (take n1 (array_of h l1) ++ take n2 (array_of h l2) ++ repeat VNil (spare (n1 + n2)))).
    assert (object_has S (LArray e c) o) as Ho.
    { split; [done|]. rewrite !Forall_app. split_and!; [by apply Forall_take|by apply Forall_take|].
      apply Forall_forall. intros v Hv. by apply list_elem_of_In, repeat_spec in Hv as ->. }
    destruct (heap_ok_alloc S h _ _ Hok Ho) as [Hok' Hsub].
    eexists _, (fresh (dom h)), c, _. split; [reflexivity|]. split; [exact Hsub|]. split; [exact Hok'|].
    split; [by rewrite lookup_insert_eq|]. unfold c. rewrite !length_app, !length_take. lia.
Qed.

Lemma at_index_elem S e (c : list value) i : Forall (has S e) c -> 0 <= i < Z.of_nat (length c) ->
  exists v, at_index (E := no_fuel) c i = Ok v /\ has S e v.
Proof.
  intros Hc Hi. destruct (lookup_lt_is_Some_2 c (Z.to_nat i)) as [v Hv]; [lia|]. exists v.
  split; [|by apply (Forall_lookup_1 _ _ _ _ Hc Hv)].
  rewrite <- (Z2Nat.id i) by lia. by apply at_index_lookup.
Qed.

(** [merge] keeps the shapes on values of shape [s]. *)
Definition merges (merge : heap -> value -> value -> result no_fuel (heap * value)) (s : shape) : Prop :=
  forall S h o1 o2, heap_ok S h -> has S s o1 -> has S s o2 -> keeps S (merge h o1 o2) fst (fun S' hv => has S' s (snd hv)).

Lemma merge_elements_keeps merge S h l e c n :
  merges merge e -> heap_ok S h -> S !! l = Some (LArray e c) -> (n <= c)%nat ->
  keeps S (merge_elements merge h l n) (fun h => h) (fun S' _ => S' !! l = Some (LArray e c)).
Proof.
  intros Hm Hok Hl Hn. unfold merge_elements.
  apply (keeps_foldM S _ h _ (fun h => h) (fun S' _ => S' !! l = Some (LArray e c)) (fun _ j => (1 <= j < c)%nat)); [done| | |done|done].
  - clear S h Hok Hl. intros S h j Hj Hok Hl. destruct (heap_ok_array _ _ _ _ _ Hok Hl) as [Hc Hf].
    destruct (at_index_elem S e (array_of h l) 0 Hf ltac:(lia)) as (x & -> & Hx).
    destruct (at_index_elem S e (array_of h l) (Z.of_nat j) Hf ltac:(lia)) as (y & -> & Hy). cbn [mbind result_bind].
    eapply keeps_bind; [by apply Hm|]. intros [h' v] S' Hsub Hok' Hv. cbn [fst snd] in *.
    assert (S' !! l = Some (LArray e c)) as Hl' by (by eapply lookup_weaken).
    destruct (heap_ok_array _ _ _ _ _ Hok' Hl') as [Hc' Hf'].
    apply keeps_ok; [|done]. eapply heap_ok_put; [done|done|]. split; [by rewrite length_insert|].
    by apply Forall_insert.
  - apply Forall_forall. intros j. rewrite list_elem_of_In, in_seq. lia.
Qed.

Lemma mergeElements_keeps merge S h l s e c n :
  merges merge e -> slice_elem s = Some e -> heap_ok S h -> S !! l = Some (LArray e c) -> (n <= c)%nat ->
  keeps S (mergeElements merge h l n) fst (fun S' hv => has S' s (snd hv) /\ S' !! l = Some (LArray e c)).
Proof.
  intros Hm He Hok Hl Hn. unfold mergeElements. destruct n as [|n].
  - apply keeps_ok; [done|]. split; [|done]. exists e, c. split_and!; [done|done|lia].
  - eapply keeps_bind; [by eapply merge_elements_keeps|]. intros h' S' Hsub Hok' Hl'. apply keeps_ok; [done|].
    split; [|done]. exists e, c. split_and!; [done|done|lia].
Qed.

Lemma entry_has_value S m es k v : Forall (entry_has S m) es -> entry es k = Some v ->
  exists f, field m (key_text k) = Some f /\ has S f v.
Proof.
  intros Hes. unfold entry. destruct (List.find _ es) as [[k' v']|] eqn:E; [|done]. intros [= <-].
  apply find_some in E as [Hin Hk]. apply bool_decide_eq_true in Hk. cbn in Hk. subst k'.
  apply list_elem_of_In in Hin. rewrite Forall_forall in Hes. apply (Hes _ Hin).
Qed.

Lemma set_entry_has S m es k v f : Forall (entry_has S m) es -> field m (key_text k) = Some f -> has S f v ->
  Forall (entry_has S m) (set_entry es k v).
Proof.
  intros Hes Hf Hv. assert (entry_has S m (k, v)) as Hkv by by exists f.
  induction Hes as [|kv es Hkv' Hes IH]; cbn; [by repeat constructor|]. case_bool_decide; by constructor.
Qed.

Lemma merge_entries_keeps merge S h l1 m e2 :
  (forall key f, field m key = Some f -> merges merge f) -> heap_ok S h -> S !! l1 = Some (LMap m) ->
  Forall (entry_has S m) e2 ->
  keeps S (merge_entries merge h l1 e2) (fun h => h) (fun S' _ => S' !! l1 = Some (LMap m)).
Proof.
  intros Hm Hok Hl He2. unfold merge_entries.
  apply (keeps_foldM S _ h _ (fun h => h) (fun S' _ => S' !! l1 = Some (LMap m)) (fun S' => entry_has S' m));
    [intros ? ? ?; apply entry_has_mono| |done|done|done].
  clear S h Hok Hl He2. intros S h [k v] (f & Hf & Hv) Hok Hl. cbn [fst snd] in Hf, Hv.
  assert (forall S' h' w, S ⊆ S' -> heap_ok S' h' -> has S' f w ->
    keeps S' (Ok (<[l1 := OMap (set_entry (map_of h' l1) k w)]> h')) (fun h => h) (fun S' _ => S' !! l1 = Some (LMap m))) as Hput.
  { intros S' h' w Hsub Hok' Hw. assert (S' !! l1 = Some (LMap m)) as Hl' by (by eapply lookup_weaken).
    apply keeps_ok; [|done]. eapply heap_ok_put; [done|done|]. eapply set_entry_has; [by eapply heap_ok_map|done|done]. }
  destruct (entry (map_of h l1) k) as [v2|] eqn:E; [|by apply Hput].
  destruct (entry_has_value _ _ _ _ _ (heap_ok_map _ _ _ _ Hok Hl) E) as (f' & Hf' & Hv2).
  assert (f' = f) as -> by congruence.
  eapply keeps_bind; [by apply (Hm _ _ Hf)|]. intros [h' w] S' Hsub Hok' Hw. by apply Hput.
Qed.

Lemma mergeObjects_keeps fuel s : (depth s < fuel)%nat -> merges (mergeObjects spare fuel) s.
Proof.
  revert s. induction fuel as [|fuel IH]; intros s Hd S h o1 o2 Hok H1 H2; [lia|]. cbn [mergeObjects].
  destruct o1 as [|b1|n1|f1|s1|m1|l1 n1|k1 l1]; [by apply keeps_ok|..];
    destruct o2 as [|b2|n2|f2|s2|m2|l2 n2|k2 l2]; try (by apply keeps_ok); try (case_decide; by apply keeps_ok).
  - destruct H1 as (e & c1 & He & Hl1 & Hn1), H2 as (e' & c2 & He' & Hl2 & Hn2). assert (e' = e) as -> by congruence.
    destruct (append_slice_keeps S h e l1 n1 c1 l2 n2 c2 Hok Hl1 Hn1 Hl2 Hn2) as (h' & l & c & S' & -> & Hsub & Hok' & Hl & Hn).
    eapply keeps_weaken; [exact Hsub|]. pose proof (slice_depth _ _ He).
    destruct (mergeElements_keeps (mergeObjects spare fuel) S' h' l s e c (n1 + n2)) as (hv & S'' & Hm & Hsub' & Hok'' & Hv & _);
      [apply IH; lia|done..|]. by exists hv, S''.
  - case_decide as Hk; [subst k2|by apply keeps_ok].
    destruct H1 as (m & Hm & Hl1), H2 as (m' & Hm' & Hl2). assert (m' = m) as -> by congruence.
    eapply keeps_bind.
    + apply (merge_entries_keeps _ S h l1 m); [|done|done|by eapply heap_ok_map].
      intros key f Hf. apply IH. pose proof (field_depth _ _ _ _ Hm Hf). lia.
    + intros h' S' Hsub Hok' Hl. apply keeps_ok; [done|]. by exists m.
Qed.

(** ** Writing keeps the shapes and prints them *)

Abbreviation type_text := (typeForValue spare ForceFloats convertFloats tags).
Abbreviation fields_text := (generateTypes tags type_text).
Abbreviation outcome := (heap * option (list (string * string)) * string)%type.

Definition writes (s : shape) (tail : string) (S : store) (r : result no_fuel outcome) : Prop :=
  keeps S r (fun x => fst (fst x)) (fun S' x => structs_ok (snd (fst x)) /\ prints s (snd x +:+ tail)).

Definition value_writer (n fuel : nat) : Prop := forall s S h st v,
  (depth s <= n)%nat -> heap_ok S h -> has S s v -> structs_ok st -> writes s "" S (type_text fuel h st v).
Definition map_writer (n fuel : nat) : Prop := forall s m S h st l,
  (depth s <= n)%nat -> map_fields s = Some m -> heap_ok S h -> S !! l = Some (LMap m) -> structs_ok st ->
  writes s "}" S (fields_text fuel h st l).

Lemma convert_has S m es : Forall (entry_has S m) es -> Forall (entry_has S m) (convertKeysToStrings es).
Proof.
  intros Hes. unfold convertKeysToStrings. assert (Forall (entry_has S m) []) as Hacc by constructor.
  revert Hacc. generalize (@nil (map_key * value)) as acc. induction Hes as [|[k v] es (f & Hf & Hv) Hes IH]; intros acc Hacc; [done|].
  cbn [foldl]. apply IH. by eapply set_entry_has.
Qed.

Lemma string_map_keeps S h k l m : heap_ok S h -> S !! l = Some (LMap m) ->
  exists h' l' S', string_map h k l = (h', l') /\ S ⊆ S' /\ heap_ok S' h' /\ S' !! l' = Some (LMap m).
Proof.
  intros Hok Hl. destruct k; cbn; [by exists h, l, S|].
  destruct (heap_ok_alloc S h (LMap m) (OMap (convertKeysToStrings (map_of h l))) Hok) as [Hok' Hsub].
  { apply convert_has. by eapply heap_ok_map. }
  eexists _, _, _. split; [reflexivity|]. split; [exact Hsub|]. split; [exact Hok'|]. by rewrite lookup_insert_eq.
Qed.

(** A nested map, with its name. *)
Lemma nested_writes n fuel k s S h st l key :
  map_writer n fuel -> (depth s <= n)%nat -> heap_ok S h -> has S s (VMap k l) -> structs_ok st ->
  writes s "" S (let '(h, l) := string_map h k l in
    '(h, st, t) ← fields_text fuel h st l; let '(name, st) := name_struct (t +:+ "}") key st in Ok (h, st, name)).
Proof.
  intros Hw Hn Hok (m & Hm & Hl) Hst.
  destruct (string_map_keeps S h k l m Hok Hl) as (h' & l' & S' & -> & Hsub & Hok' & Hl').
  eapply keeps_weaken; [exact Hsub|]. eapply keeps_bind; [by eapply Hw|].
  intros [[h2 st2] t] S2 _ Hok2 [Hst2 Ht]. cbn [fst snd] in *.
  destruct (name_struct (t +:+ "}") key st2) as [name st3] eqn:Hname.
  destruct (prints_name s (t +:+ "}") key st2 name st3 Hst2 Ht Hname) as [Hst3 Hp].
  apply keeps_ok; [done|]. cbn. by rewrite app_nil_s.
Qed.

Lemma type_text_step n fuel : (2 * n <= fuel)%nat -> (forall k, (k < n)%nat -> value_writer k fuel) -> map_writer n fuel ->
  value_writer n (Datatypes.S fuel).
Proof.
  intros Hf Hval Hmap s S h st v Hn Hok Hv Hst. unfold writes. cbn [typeForValue].
  assert (forall t, prints s t -> keeps S (Ok (h, st, t)) (fun x : outcome => fst (fst x))
    (fun S' x => structs_ok (snd (fst x)) /\ prints s (snd x +:+ ""))) as Hdone.
  { intros t Ht. apply keeps_ok; [done|]. cbn. by rewrite app_nil_s. }
  destruct v as [|b|z|f|str|name|l len|k l];
    try (apply Hdone; by apply (prints_scalar s (SBool b)) || by apply (prints_scalar s (SInt z)) ||
         by apply (prints_scalar s (SFloat f)) || by apply (prints_scalar s (SString str)) || by apply (prints_scalar s (SNamed name))).
  - apply Hdone, prints_any.
  - destruct Hv as (e & c & He & Hl & Hlen). pose proof (slice_depth _ _ He) as Hde.
    destruct (heap_ok_array _ _ _ _ _ Hok Hl) as [Hc _].
    destruct (element_types h l len) as [|ty [|ty2 tys]] eqn:Hty; [by apply Hdone; eapply prints_any_slice| |by apply Hdone; eapply prints_any_slice].
    assert (0 < len)%nat as Hpos.
    { destruct len; [|lia]. unfold element_types in Hty. by rewrite take_0 in Hty. }
    assert (merges (mergeObjects spare fuel) e) as Hmerge by (apply mergeObjects_keeps; lia).
    eapply keeps_bind; [by eapply mergeElements_keeps|].
    intros [h1 x0] S1 Hsub1 Hok1 [_ Hl1]. cbn [fst] in Hok1.
    destruct (heap_ok_array _ _ _ _ _ Hok1 Hl1) as [Hc1 Hf1].
    destruct (at_index_elem S1 e (array_of h1 l) 0 Hf1 ltac:(lia)) as (x & -> & Hx). cbn [mbind result_bind].
    eapply keeps_bind; [apply (Hval (depth e) ltac:(lia) e S1 h1 st x); done|].
    intros [[h2 st2] t] S2 _ Hok2 [Hst2 Ht]. cbn [fst snd] in *. rewrite app_nil_s in Ht.
    apply keeps_ok; [done|]. cbn. split; [done|]. rewrite app_nil_s. by eapply prints_slice.
  - destruct Hv as (m & Hm & Hl).
    destruct (string_map_keeps S h k l m Hok Hl) as (h' & l' & S' & -> & Hsub & Hok' & Hl').
    eapply keeps_weaken; [exact Hsub|]. eapply keeps_bind; [by eapply Hmap|].
    intros [[h2 st2] t] S2 _ Hok2 [Hst2 Ht]. cbn [fst snd] in *. apply keeps_ok; [done|]. cbn. by rewrite app_nil_s.
Qed.

Lemma insert_key_elem k x l : x ∈ insert_key k l -> x = k \/ x ∈ l.
Proof. induction l as [|y l IH]; cbn; [set_solver|]. destruct (String.ltb y k); set_solver. Qed.
Lemma sorted_keys_elem es key : key ∈ sorted_keys es -> exists kv, kv ∈ es /\ key = key_text (fst kv).
Proof.
  unfold sorted_keys. induction es as [|kv es IH]; cbn; [set_solver|]. intros [->|H]%insert_key_elem.
  - exists kv. split; [left|done].
  - destruct (IH H) as (kv' & Hin & Hk). exists kv'. split; [by right|done].
Qed.

Lemma fields_text_step n fuel : (forall k, (k < n)%nat -> value_writer k fuel /\ map_writer k fuel) ->
  map_writer n (Datatypes.S fuel).
Proof.
  intros Hw s m S h st l Hn Hm Hok Hl Hst. unfold writes. cbn [generateTypes].
  set (body := fun (x : outcome) (key : string) => _).
  set (I := fun (S' : store) (x : outcome) => structs_ok (snd (fst x)) /\ S' !! l = Some (LMap m) /\
    exists lst, snd x = foldl (fun s kt => s +:+ field_text tags (fst kt) (snd kt)) "struct {" lst /\
      Forall (fun kt => exists f, field m (fst kt) = Some f /\ prints f (snd kt)) lst).
  enough (keeps S (foldM body (h, st, "struct {") (sorted_keys (map_of h l))) (fun x => fst (fst x)) I) as (x & S' & Hx & Hsub & Hok' & Hst' & _ & lst & Htext & Hlst).
  { exists x, S'. split; [exact Hx|]. split; [done|]. split; [done|]. split; [done|]. rewrite Htext. by eapply prints_struct. }
  apply (keeps_foldM S body _ _ _ I (fun _ key => exists f, field m key = Some f)); [done| | |done|].
  - clear S h st Hok Hl Hst. intros S [[h st] structure] key (f & Hf) Hok (Hst & Hl & lst & Htext & Hlst). cbn [fst snd] in *.
    pose proof (field_depth _ _ _ _ Hm Hf) as Hdf. unfold body. set (value := default VNil _).
    assert (has S f value) as Hvalue.
    { unfold value. destruct (entry (map_of h l) (KString key)) as [v|] eqn:E; [|done]. cbn.
      destruct (entry_has_value _ _ _ _ _ (heap_ok_map _ _ _ _ Hok Hl) E) as (f' & Hf' & Hv). cbn in Hf'. congruence. }
    destruct (Hw (depth f) ltac:(lia)) as [Hval Hmap].
    eapply keeps_bind; [by apply Hval|]. intros [[h1 st1] t1] S1 Hsub1 Hok1 [Hst1 Ht1]. cbn [fst snd] in *. rewrite app_nil_s in Ht1.
    assert (has S1 f value) as Hvalue1 by by eapply has_mono.
    assert (S1 !! l = Some (LMap m)) as Hl1 by by eapply lookup_weaken.
    clearbody value. clear body.
    apply (keeps_bind S1 _ (fun x : outcome => fst (fst x)) (fun S' x => structs_ok (snd (fst x)) /\ prints f (snd x +:+ ""))).
    + assert (forall S', heap_ok S' h1 -> keeps S' (Ok (h1, st1, t1)) (fun x : outcome => fst (fst x))
        (fun S' x => structs_ok (snd (fst x)) /\ prints f (snd x +:+ ""))) as Hkeep.
      { intros S' Hok'. apply keeps_ok; [done|]. cbn. by rewrite app_nil_s. }
      destruct value as [| | | | | |a len|k2 a]; try by apply Hkeep.
      * destruct (Nat.eqb_spec len 0) as [|Hlen]; [by apply Hkeep|].
        destruct Hvalue1 as (e & c & He & Ha & Hc). pose proof (slice_depth _ _ He).
        destruct (heap_ok_array _ _ _ _ _ Hok1 Ha) as [Hlc Hfc].
        destruct (at_index_elem S1 e (array_of h1 a) 0 Hfc ltac:(lia)) as (x & -> & Hx). cbn [mbind result_bind].
        destruct x as [| | | | | | |k2 b]; try by apply Hkeep.
        pose proof (nested_writes (depth e) fuel k2 e S1 h1 st1 b key (proj2 (Hw (depth e) ltac:(lia))) (le_n _) Hok1 Hx Hst1)
          as (([h2 st2] & name) & S2 & Hr & Hsub2 & Hok2 & Hst2 & Hp). cbn [fst snd] in *. rewrite app_nil_s in Hp.
        exists (h2, st2, "[]" +:+ name), S2. split; [|split; [done|split; [done|]]].
        -- revert Hr. clear. destruct (string_map h1 k2 b) as [h' l']. intros ([[h'' st''] t] & -> & Hr)%bind_ok.
           cbn [mbind result_bind]. destruct (name_struct _ key st'') as [nm st3]. by injection Hr as <- <- <-.
        -- cbn. rewrite app_nil_s. split; [done|]. by eapply prints_slice.
      * by apply (nested_writes (depth f) fuel k2 f S1 h1 st1 a key Hmap (le_n _) Hok1 Hvalue1).
    + intros [[h2 st2] t2] S2 Hsub2 Hok2 [Hst2 Ht2]. cbn [fst snd] in *. rewrite app_nil_s in Ht2.
      apply keeps_ok; [done|]. split; [done|]. split; [by eapply lookup_weaken|].
      exists (lst ++ [(key, t2)]). cbn [fst snd]. split; [by rewrite foldl_snoc, <- Htext|].
      apply Forall_app. split; [done|]. constructor; [by exists f|done].
  - apply Forall_forall. intros key Hkey. apply sorted_keys_elem in Hkey as (kv & Hkv & ->).
    pose proof (heap_ok_map _ _ _ _ Hok Hl) as Hes. rewrite Forall_forall in Hes. destruct (Hes _ Hkv) as (f & Hf & _). by exists f.
  - split; [done|]. split; [done|]. by exists [].
Qed.

(** Two units of fuel for each level of the shape are enough. *)
Lemma writers fuel n : ((2 * n + 1 <= fuel)%nat -> value_writer n fuel) /\ ((2 * n <= fuel)%nat -> map_writer n fuel).
Proof.
  revert n. induction fuel as [|fuel IH]; intros n; split; intros Hf.
  - lia.
  - intros s m S h st l Hn Hm. pose proof (map_depth _ _ Hm). lia.
  - apply type_text_step; [lia| |apply IH; lia]. intros k Hk. apply IH. lia.
  - apply fields_text_step. intros k Hk. split; apply IH; lia.
Qed.

(** ** Loading a document *)

Inductive shaped : shape -> json -> Prop :=
  | shaped_nil s : shaped s JNil
  | shaped_scalar s v : scalar_ok s v -> shaped s (JScalar v)
  | shaped_array s e l : slice_elem s = Some e -> Forall (shaped e) l -> shaped s (JArray l)
  | shaped_object s k m l : map_fields s = Some m ->
      Forall (fun kj => exists f, field m (key_text (fst kj)) = Some f /\ shaped f (snd kj)) l -> shaped s (JObject k l).

Lemma load_has j : forall s S h, shaped s j -> heap_ok S h ->
  exists h' v S', load spare h j = (h', v) /\ S ⊆ S' /\ heap_ok S' h' /\ has S' s v.
Proof.
  induction j as [|v|l IH|k l IH] using json_rect_forall; intros s S h Hj Hok; inversion Hj; subst.
  - by exists h, VNil, S.
  - exists h, (scalar_value v), S. split_and!; [done..|]. by destruct v.
  - cbn [load].
    assert (forall S h, heap_ok S h -> exists h' vs S', load_list (load spare) h l = (h', vs) /\ S ⊆ S' /\ heap_ok S' h' /\ Forall (has S' e) vs) as Hgo.
    { clear S h Hok Hj. rename select (Forall (shaped e) l) into Hl. induction l as [|j l IHl]; intros S h Hok; [by exists h, [], S|].
      inversion_clear IH as [|? ? Hj Hrest]. inversion_clear Hl as [|? ? Hje Hle]. cbn [load_list]; fold (load_list (load spare)).
      destruct (Hj e S h Hje Hok) as (h1 & v & S1 & -> & Hsub1 & Hok1 & Hv).
      destruct (IHl Hrest Hle S1 h1 Hok1) as (h2 & vs & S2 & -> & Hsub2 & Hok2 & Hvs).
      exists h2, (v :: vs), S2. split; [done|]. split; [by etrans|]. split; [done|]. constructor; [by eapply has_mono|done]. }
    destruct (Hgo S h Hok) as (h1 & vs & S1 & -> & Hsub1 & Hok1 & Hvs).
    set (c := length (vs ++ repeat VNil (spare (length vs)))).
    destruct (heap_ok_alloc S1 h1 (LArray e c) (OArray (vs ++ repeat VNil (spare (length vs)))) Hok1) as [Hok2 Hsub2].
    { split; [done|]. apply Forall_app. split; [done|]. apply Forall_forall. intros v Hv.
      by apply list_elem_of_In, repeat_spec in Hv as ->. }
    eexists _, _, _. split; [reflexivity|]. split; [by etrans|]. split; [exact Hok2|].
    exists e, c. rewrite lookup_insert_eq. split_and!; [done..|]. unfold c. rewrite length_app. lia.
  - cbn [load].
    assert (forall S h, heap_ok S h -> exists h' es S', load_entries (load spare) h l = (h', es) /\ S ⊆ S' /\ heap_ok S' h' /\ Forall (entry_has S' m) es) as Hgo.
    { clear S h Hok Hj. rename select (Forall _ l) into Hl. induction l as [|[key j] l IHl]; intros S h Hok; [by exists h, [], S|].
      inversion_clear IH as [|? ? Hj Hrest]. inversion_clear Hl as [|? ? (f & Hf & Hjf) Hle]. cbn [fst snd] in *; cbn [load_entries]; fold (load_entries (load spare)).
      destruct (Hj f S h Hjf Hok) as (h1 & v & S1 & -> & Hsub1 & Hok1 & Hv).
      destruct (IHl Hrest Hle S1 h1 Hok1) as (h2 & es & S2 & -> & Hsub2 & Hok2 & Hes).
      exists h2, ((key, v) :: es), S2. split; [done|]. split; [by etrans|]. split; [done|].
      constructor; [|done]. exists f. split; [done|by eapply has_mono]. }
    destruct (Hgo S h Hok) as (h1 & es & S1 & -> & Hsub1 & Hok1 & Hes).
    destruct (heap_ok_alloc S1 h1 (LMap m) (OMap es) Hok1 Hes) as [Hok2 Hsub2].
    eexists _, _, _. split; [reflexivity|]. split; [by etrans|]. split; [exact Hok2|].
    exists m. by rewrite lookup_insert_eq.
Qed.

Definition container (j : json) : bool := match j with JArray _ | JObject _ _ => true | _ => false end.

(** What follows the type of the document in the source. *)
Definition source_tail (j : json) (src : string) (st : option (list (string * string))) : string :=
  match j with
  | JArray _ => foldl (fun src kv => src +:+ String newline (String newline ("type " +:+ snd kv +:+ " " +:+ fst kv +:+
                   String newline (single newline)))) (src +:+ single newline) (default [] st)
  | _ => struct_source src (default [] st)
  end.

Lemma document_source fuel j s name (subStruct : bool) :
  shaped s j -> container j = true -> (2 * depth s + 1 <= fuel)%nat ->
  structs_ok (if subStruct then Some [] else None) ->
  exists t st, jySource spare ForceFloats convertFloats tags fuel (fst (load spare ∅ j)) (snd (load spare ∅ j)) name subStruct =
    Ok (source_tail j (String newline ("type " +:+ name +:+ " " +:+ t)) st) /\ structs_ok st /\ prints s t.
Proof.
  intros Hj Hc Hf Hst. destruct (load_has j s ∅ ∅ Hj) as (h & v & S & Hload & _ & Hok & Hv).
  { split; [by rewrite !dom_empty_L|]. intros l x. by rewrite lookup_empty. }
  assert (v = snd (load spare ∅ j)) as Hlast by by rewrite Hload.
  rewrite Hload. cbn [fst snd]. unfold jySource. destruct j as [| |l|k l]; try done.
  - cbn [load] in Hlast. destruct (load_list (load spare) ∅ l) as [h0 vs]. cbn in Hlast. rewrite Hlast in Hv |- *.
    destruct (proj1 (writers fuel (depth s)) Hf s S h (if subStruct then Some [] else None) _ (le_n _) Hok Hv Hst)
      as ([[h' st'] t] & S' & -> & _ & _ & Hst' & Ht). cbn [fst snd] in *. rewrite app_nil_s in Ht.
    exists t, st'. cbn [lift mbind result_bind source_tail]. split; [|done]. do 2 f_equal.
    change (String newline ?a +:+ ?b) with (String newline (a +:+ b)). by rewrite <- !app_assoc_s.
  - cbn [load] in Hlast. destruct (load_entries (load spare) ∅ l) as [h0 es]. cbn in Hlast. rewrite Hlast in Hv |- *.
    destruct Hv as (m & Hm & Hl). destruct (string_map_keeps S h k _ m Hok Hl) as (h1 & l1 & S1 & -> & _ & Hok1 & Hl1).
    destruct (proj2 (writers fuel (depth s)) ltac:(lia) s m S1 h1 (if subStruct then Some [] else None) l1 (le_n _) Hm Hok1 Hl1 Hst)
      as ([[h' st'] t] & S' & -> & _ & _ & Hst' & Ht). cbn [fst snd] in *.
    exists (t +:+ "}"), st'. cbn [lift mbind result_bind source_tail]. split; [|done]. done.
Qed.
End Generic.

End JySound.
