(* ===== verification/JyTypes.v ===== *)
(** * The two disciplines of the struct generator (pkg/jy2struct)

    The levels of a document, which show that the generation ends, and the Go
    types, which show that the type written for a uniform document is one the
    document fits; then what the generator does with documents that are not
    uniform. *)

From S2P Require Import Prelude GoStr GoFloat FieldName JyStruct JySound.
From Stdlib Require Import Ascii.

Module JyTypes.
Import FieldName JyStruct JySound.

(** ** Levels *)

Fixpoint height (j : json) : nat :=
  match j with
  | JNil | JScalar _ => O
  | JArray l => Datatypes.S (foldr (fun j n => Nat.max (height j) n) O l)
  | JObject _ l => Datatypes.S (foldr (fun kj n => Nat.max (height (snd kj)) n) O l)
  end.

Section Levels.
Variables (ForceFloats convertFloats : bool) (tags : list string).

Local Instance levels : Discipline ForceFloats convertFloats tags.
Proof.
  refine {| shape := nat; fields := nat; depth := id; scalar_ok := fun _ _ => True;
    slice_elem := fun n => match n with O => None | Datatypes.S n => Some n end;
    map_fields := fun n => match n with O => None | Datatypes.S n => Some n end;
    field := fun n _ => Some n; prints := fun _ _ => True; structs_ok := fun _ => True |}; try done.
  - intros [|n] e; [done|]. intros [= <-]. cbn. lia.
  - intros [|n] m key f; [done|]. intros [= <-] [= <-]. cbn. lia.
  - intros [|n] m; [done|]. intros _. cbn. lia.
Defined.

Lemma foldr_max_le {A} (f : A -> nat) (l : list A) n : (foldr (fun a k => Nat.max (f a) k) O l <= n)%nat ->
  Forall (fun a => (f a <= n)%nat) l.
Proof. induction l as [|a l IH]; cbn; intros H; constructor; [lia|]. apply IH. lia. Qed.

Lemma levels_shaped j n : (height j <= n)%nat -> shaped (D := levels) n j.
Proof.
  revert n. induction j as [|v|l IH|k l IH] using json_rect_forall; cbn [height]; intros n Hn.
  - apply (shaped_nil (D := levels)).
  - by apply (shaped_scalar (D := levels)).
  - destruct n as [|n]; [lia|]. apply (shaped_array (D := levels) (Datatypes.S n) n); [done|].
    apply le_S_n, (foldr_max_le height) in Hn. rewrite !Forall_forall in *. intros j Hj. by apply IH, Hn.
  - destruct n as [|n]; [lia|]. apply (shaped_object (D := levels) (Datatypes.S n) k n); [done|].
    apply le_S_n, (foldr_max_le (fun kj => height (snd kj))) in Hn. rewrite !Forall_forall in *.
    intros kj Hj. exists n. split; [done|]. by apply IH, Hn.
Qed.

(** Two units of fuel for each level of a document give a source, for any
    array or object. *)
Lemma source_of_levels spare fuel j name subStruct : container j = true -> (2 * height j + 1 <= fuel)%nat ->
  exists src, jySource spare ForceFloats convertFloats tags fuel (fst (load spare ∅ j)) (snd (load spare ∅ j)) name subStruct = Ok src.
Proof.
  intros Hc Hf. destruct (document_source (D := levels) spare fuel j (height j) name subStruct)
    as (t & st & -> & _); [by apply levels_shaped|done|done|by destruct subStruct|]. by eexists.
Qed.
End Levels.

(** What the conversion of a decoded document gives, with the fuel it takes. *)
Lemma source_other spare ForceFloats convertFloats tags fuel j name subStruct : container j = false ->
  jySource spare ForceFloats convertFloats tags fuel (fst (load spare ∅ j)) (snd (load spare ∅ j)) name subStruct = Err ErrUnexpectedType.
Proof. by destruct j as [|[]| |]. Qed.

(** ** Go types *)

Inductive gotype : Type :=
  | TAny
  | TNamed (name : string)
  | TSlice (t : gotype)
  | TStruct (l : list (string * gotype)).

(** How the generator writes a type. *)
Fixpoint render (tags : list string) (t : gotype) : string :=
  match t with
  | TAny => "interface{}"
  | TNamed name => name
  | TSlice t => "[]" +:+ render tags t
  | TStruct l => struct_text tags (map (fun kt => (fst kt, render tags (snd kt))) l)
  end.

Fixpoint type_depth (t : gotype) : nat :=
  match t with
  | TAny | TNamed _ => O
  | TSlice t => Datatypes.S (type_depth t)
  | TStruct l => Datatypes.S (foldr (fun kt n => Nat.max (type_depth (snd kt)) n) O l)
  end.

(** The numbers that a variable of type [int64] holds. *)
Definition int64_number (f : float64) : Prop := exists z, in_int64 z /\ f = f_of_Z z.
(** A variable of the named type holds the scalar. *)
Definition names (name : string) (v : scalar) : Prop :=
  match v with
  | SBool _ => name = "bool"
  | SInt _ => name = "int"
  | SFloat f => name = "float64" \/ (name = "int64" /\ int64_number f)
  | SString _ => name = "string"
  | SNamed n => name = n
  end.

(** A variable of the type holds the document: [null] leaves any variable at
    its zero value, a decoder skips the keys a struct does not have. *)
Inductive fits : gotype -> json -> Prop :=
  | fits_any j : fits TAny j
  | fits_nil t : fits t JNil
  | fits_scalar name v : names name v -> fits (TNamed name) (JScalar v)
  | fits_array t l : Forall (fits t) l -> fits (TSlice t) (JArray l)
  | fits_object fs k l :
      Forall (fun kj => forall t, assoc fs (key_text (fst kj)) = Some t -> fits t (snd kj)) l -> fits (TStruct fs) (JObject k l).

(** The same type with [interface{}] for some parts and fewer fields. *)
Inductive weaker : gotype -> gotype -> Prop :=
  | weaker_any t : weaker TAny t
  | weaker_named name : weaker (TNamed name) (TNamed name)
  | weaker_slice t t' : weaker t' t -> weaker (TSlice t') (TSlice t)
  | weaker_struct l l' :
      Forall (fun kt => exists t, assoc l (fst kt) = Some t /\ weaker (snd kt) t) l' -> weaker (TStruct l') (TStruct l).

Section Types.
Variables (ForceFloats convertFloats : bool) (tags : list string).

Definition writes_type (t : gotype) (text : string) : Prop := exists t', text = render tags t' /\ weaker t' t.

Lemma struct_types (l : list (string * gotype)) texts :
  Forall (fun kt => exists t, assoc l (fst kt) = Some t /\ writes_type t (snd kt)) texts ->
  exists l', texts = map (fun kt => (fst kt, render tags (snd kt))) l' /\
    Forall (fun kt => exists t, assoc l (fst kt) = Some t /\ weaker (snd kt) t) l'.
Proof.
  induction 1 as [|[key text] texts (t & Ht & t' & Heq & Hw) _ (l' & -> & Hl')]; [by exists []|]. cbn in Heq. subst.
  exists ((key, t') :: l'). split; [done|]. constructor; [by exists t|done].
Qed.

Lemma assoc_depth (l : list (string * gotype)) key t : assoc l key = Some t ->
  (type_depth t <= foldr (fun kt n => Nat.max (type_depth (snd kt)) n) O l)%nat.
Proof.
  induction l as [|[k u] l IH]; cbn; [done|]. case_bool_decide; [intros [= ->]; lia|]. intros Ht. apply IH in Ht. lia.
Qed.

Local Instance types : Discipline ForceFloats convertFloats tags.
Proof.
  refine {| shape := gotype; fields := list (string * gotype); depth := type_depth;
    scalar_ok := fun t v => t = TNamed (scalar_text ForceFloats convertFloats v) /\
                            names (scalar_text ForceFloats convertFloats v) v;
    slice_elem := fun t => match t with TSlice t => Some t | _ => None end;
    map_fields := fun t => match t with TStruct l => Some l | _ => None end;
    field := fun l key => assoc l key; prints := writes_type; structs_ok := fun st => st = None |}.
  - intros [] e; try done. intros [= <-]. cbn. lia.
  - intros [| | |l] m key f; try done. intros [= <-] Hf. apply assoc_depth in Hf. cbn. lia.
  - intros [] m; try done. intros _. cbn. lia.
  - intros t. exists TAny. split; [done|constructor].
  - intros t v [-> _]. eexists (TNamed _). split; [done|constructor].
  - intros [| |t|] e; try done. intros _. exists (TSlice TAny). split; [done|]. repeat constructor.
  - intros [| |t|] e text; try done. intros [= <-] (t' & -> & Hw). exists (TSlice t'). split; [done|]. by constructor.
  - intros [| | |l] m texts; try done. intros [= <-] Hl. destruct (struct_types l texts Hl) as (l' & -> & Hw).
    exists (TStruct l'). split; [done|]. by constructor.
  - intros t sub key st name st' -> Hp. cbn. by intros [= <- <-].
Defined.

Lemma assoc_elem (l : list (string * gotype)) key t : assoc l key = Some t -> (key, t) ∈ l.
Proof. induction l as [|[k u] l IH]; cbn; [done|]. case_bool_decide; [intros [= ->]; subst; left|]. intros Ht. right. by apply IH. Qed.

Lemma weaker_fits j : forall t t', shaped (D := types) t j -> weaker t' t -> fits t' j.
Proof.
  induction j as [|v|l IH|k l IH] using json_rect_forall; intros t t' Hj Hw; inversion Hj; subst; [constructor|..].
  - rename select (scalar_ok _ _) into Hv. destruct Hv as [-> Hn]. inversion Hw; subst; by constructor.
  - rename select (slice_elem _ = _) into He. destruct t as [| |t|]; try done. injection He as <-.
    inversion Hw; subst; constructor. rewrite Forall_forall in *. by eauto.
  - rename select (map_fields _ = _) into Hm. destruct t as [| | |fs]; try done. injection Hm as <-.
    inversion Hw as [| | |l0 l' Hl']; subst; constructor.
    rename select (Forall _ l) into Hfs. rewrite Forall_forall in IH. rewrite Forall_forall in Hfs. rewrite Forall_forall in Hl'.
    apply Forall_forall. intros kj Hkj u Hu. destruct (Hfs kj Hkj) as (f & Hf & Hjf).
    destruct (Hl' _ (assoc_elem _ _ _ Hu)) as (t & Ht & Hwt). cbn in Ht, Hwt. unfold field in Hf. cbn in Hf. simplify_eq. by eapply IH.
Qed.

(** Documents whose arrays are uniform, with the type that says so. *)
Definition uniform : gotype -> json -> Prop := shaped (D := types).

End Types.

(** ** The theorems *)

(** C19: A conversion always ends: whatever the decoders read, two units of
    fuel for each level of the documents give a source, or an error that is
    not the lack of fuel, and no panic - with merging in place on slices
    that share their cells. *)
Theorem generation_ends spare ReadFile decode format_Source ForceFloats n fuel args :
  (forall p text h v, decode p text = Some (h, v) -> exists j, (h, v) = load spare ∅ j /\ (height j <= n)%nat) ->
  (2 * n + 1 <= fuel)%nat ->
  match Convert spare ReadFile decode format_Source ForceFloats fuel args with
  | Ok _ => True
  | Err e => e <> ErrFuel
  | Panic => False
  end.
Proof.
  intros Hdecode Hf. unfold Convert. destruct (checkValid args) as [[[[name tags] cf] p]|e|] eqn:Hvalid; cbn [mbind result_bind].
  - assert (forall text, match (match decode p text with None => Err ErrParse | Some (h, document) =>
        jyParse spare ForceFloats cf tags format_Source fuel h document name (SubStruct args) end) with
        Ok _ => True | Err e => e <> ErrFuel | Panic => False end) as Hparse.
    { intros text. destruct (decode p text) as [[h v]|] eqn:Hd; [|done]. destruct (Hdecode _ _ _ _ Hd) as (j & Hj & Hh).
      unfold jyParse. replace h with (fst (load spare ∅ j)) by by rewrite <- Hj. replace v with (snd (load spare ∅ j)) by by rewrite <- Hj.
      destruct (container j) eqn:Hc; [|by rewrite source_other].
      destruct (source_of_levels ForceFloats cf tags spare fuel j name (SubStruct args) Hc ltac:(lia)) as [src ->].
      cbn [mbind result_bind]. by destruct (format_Source src). }
    case_bool_decide; cbn [mbind result_bind]; [|apply Hparse]. destruct (ReadFile (InputFile args)); [apply Hparse|done].
  - revert Hvalid. unfold checkValid. repeat case_bool_decide; by intros [= <-].
  - revert Hvalid. unfold checkValid. by repeat case_bool_decide.
Qed.

(** C18: For a document whose arrays are uniform (every place has one type)
    the source written, without separate sub-structs, declares a type that
    the document fits. *)
Theorem generated_struct_fits spare ForceFloats convertFloats tags fuel t j name :
  uniform ForceFloats convertFloats tags t j -> container j = true -> (2 * type_depth t + 1 <= fuel)%nat ->
  exists t', fits t' j /\
    jySource spare ForceFloats convertFloats tags fuel (fst (load spare ∅ j)) (snd (load spare ∅ j)) name false =
      Ok (String newline ("type " +:+ name +:+ " " +:+ render tags t') +:+
          match j with JArray _ => single newline | _ => "" end).
Proof.
  intros Hj Hc Hf.
  destruct (document_source (D := types ForceFloats convertFloats tags) spare fuel j t name false Hj Hc Hf eq_refl)
    as (text & st & -> & -> & t' & -> & Hw).
  exists t'. split; [by eapply weaker_fits|]. destruct j; try done; cbn [source_tail]; f_equal; by rewrite ?app_nil_s.
Qed.

(** ** Documents to try them on *)

Definition num (p q : Z) : json := JScalar (SFloat (f_ratio p q)).
Definition str (s : string) : json := JScalar (SString s).
Definition obj (l : list (string * json)) : json := JObject StringKeys (map (fun kj => (KString (fst kj), snd kj)) l).
(** The source for a JSON document, with the flags of the command. *)
Definition json_source (subStruct : bool) (j : json) : result error string :=
  let hv := load (fun _ => O) ∅ j in
  jySource (fun _ => O) false true ["json"] (2 * height j + 1) (fst hv) (snd hv) "T" subStruct.
Definition declares (t : gotype) (tail : string) : result error string :=
  Ok (String newline ("type T " +:+ render ["json"] t) +:+ tail).

Definition rows : json :=
  obj [("id", num 7 1); ("rows", JArray [obj [("a", num 1 1)]; obj [("b", str "x")]; obj [("a", JNil); ("b", str "y")]])].
Definition rows_type : gotype :=
  TStruct [("id", TNamed "int64"); ("rows", TSlice (TStruct [("a", TNamed "int64"); ("b", TNamed "string")]))].

Lemma rows_source : json_source false rows = declares rows_type "".
Proof. by vm_compute. Qed.

Lemma generation_ends_witness :
  match Convert (fun _ => O) (fun _ => None) (fun _ _ => Some (load (fun _ => O) ∅ rows)) Some false 7
          (mkArgs "json" "text" "" "T" false "") with
  | Ok _ => True | Err e => e <> ErrFuel | Panic => False end.
Proof.
  apply (generation_ends _ _ _ _ _ 3).
  - intros p text h v Heq. exists rows. split; [congruence|vm_compute; lia].
  - lia.
Defined.

Lemma int64_of_ratio p : in_int64 p -> f_ratio p 1 = f_of_Z p -> names "int64" (SFloat (f_ratio p 1)).
Proof. intros Hp ->. right. split; [done|]. by exists p. Qed.

Lemma generated_struct_fits_witness :
  exists t', fits t' rows /\
    jySource (fun _ => O) false true ["json"] 7 (fst (load (fun _ => O) ∅ rows)) (snd (load (fun _ => O) ∅ rows)) "T" false =
      Ok (String newline ("type T " +:+ render ["json"] t') +:+ "").
Proof.
  apply (generated_struct_fits (fun _ => O) false true ["json"] 7 rows_type rows "T"); [|reflexivity|vm_compute; lia].
  unfold uniform, rows, rows_type, obj. cbn [map fst snd].
  assert (forall n, in_int64 n -> f_ratio n 1 = f_of_Z n -> scalar_text false true (SFloat (f_ratio n 1)) = "int64" ->
    @shaped _ _ _ (types false true ["json"]) (TNamed "int64") (num n 1)) as Hnum.
  { intros n Hn Hf Ht. apply shaped_scalar. split; rewrite Ht; [reflexivity|by apply int64_of_ratio]. }
  assert (forall s, @shaped _ _ _ (types false true ["json"]) (TNamed "string") (str s)) as Hstr.
  { intros s. apply shaped_scalar. by split. }
  assert (@shaped _ _ _ (types false true ["json"]) (TNamed "int64") (num 7 1)) as H7 by (apply Hnum; done).
  assert (@shaped _ _ _ (types false true ["json"]) (TNamed "int64") (num 1 1)) as H1 by (apply Hnum; done).
  eapply shaped_object; [done|]. repeat (constructor; [eexists; split; [reflexivity|]|]); [done| |constructor].
  eapply shaped_array; [done|].
  repeat (constructor; [eapply shaped_object; [done|]; repeat (constructor; [eexists; split; [reflexivity|]|]); 
    first [exact H1 | apply Hstr | constructor]|]).
  constructor.
Defined.

(** ** Documents that are not uniform *)

(** The first number of an array decides: 5/2 does not fit [int64]. *)
Lemma first_number_decides : json_source false (JArray [num 1 1; num 5 2]) = declares (TSlice (TNamed "int64")) (single newline).
Proof. by vm_compute. Qed.

(** Merging two types gives nil, that a third takes for nothing. *)
Lemma third_type_wins :
  json_source false (JArray [obj [("a", num 1 1)]; obj [("a", str "x")]; obj [("a", JScalar (SBool true))]]) =
    declares (TSlice (TStruct [("a", TNamed "bool")])) (single newline).
Proof. by vm_compute. Qed.

(** A field whose array starts with an object is a slice of that object's
    struct, whatever the other elements are. *)
Lemma first_object_decides :
  json_source false (obj [("items", JArray [obj [("a", num 1 1)]; num 3 1])]) =
    declares (TStruct [("items", TSlice (TStruct [("a", TNamed "int64")]))]) "" /\
  json_source false (JArray [obj [("a", num 1 1)]; num 3 1]) = declares (TSlice TAny) (single newline).
Proof. split_and?; by vm_compute. Qed.

(** Two keys with one field name: the source has the field twice. *)
Lemma field_twice :
  FmtFieldName "a_b" = FmtFieldName "aB" /\
  json_source false (obj [("a_b", num 1 1); ("aB", num 2 1)]) =
    declares (TStruct [("aB", TNamed "int64"); ("a_b", TNamed "int64")]) "".
Proof. split_and?; by vm_compute. Qed.

(** Two structs under one key name, apart: two declarations of [Item]. *)
Lemma struct_declared_twice :
  json_source true (obj [("x", obj [("item", obj [("a", num 1 1)])]); ("y", obj [("n", num 1 1); ("item", obj [("b", num 1 1)])])]) =
    declares (TStruct [("x", TNamed "X"); ("y", TNamed "Y")])
      (foldr (fun nt s => String newline (String newline ("type " +:+ fst nt +:+ " " +:+ render ["json"] (snd nt) +:+ s))) ""
        [("Item", TStruct [("a", TNamed "int64")]); ("Item", TStruct [("b", TNamed "int64")]);
         ("Y", TStruct [("item", TNamed "Item"); ("n", TNamed "int64")]); ("X", TStruct [("item", TNamed "Item")])]).
Proof. split_and?; by vm_compute. Qed.

(** A fraction below 1/10000 and a number out of range are [int64]. *)
Lemma not_an_int64 :
  json_source false (obj [("big", num (10 ^ 30) 1); ("p", num 100005 100000)]) =
    declares (TStruct [("big", TNamed "int64"); ("p", TNamed "int64")]) "".
Proof. split_and?; by vm_compute. Qed.

End JyTypes.
