(* ===== verification/GoAst.v ===== *)
(** * The blocks of a Go file (pkg/goast/ast.go, filter.go)

    What the package reads from the syntax trees of go/parser - names, doc
    comments, the bytes and the lines of declarations - and the functions kept
    for completion.  The parser and the printer are variables; the trees are
    records of the fields the package reads.

    Theorems: the body of every block is a piece of the source; the filter
    keeps what it promises. *)

From S2P Require Import Prelude GoStr.
From Stdlib Require Import Ascii.

Module GoAst.

(** ** Syntax trees (go/ast)

    Positions are byte offsets, with the line that [fset.Position] gives for
    the start and the number of lines from there to the end. *)
Record Span : Type := mkSpan { Pos : nat; End_ : nat; Line : nat; MoreLines : nat }.
Definition EndLine (s : Span) : nat := (Line s + MoreLines s)%nat.

(** A comment group: the texts of its comments, the lines of the first and of
    the last. *)
Record CommentGroup : Type := mkComment { CommentList : list string; CommentSpan : Span }.

Inductive Expr : Type :=
  | Ident (name : string)
  | ArrayTypeE (elt : Expr)
  | StructTypeE (fields : list FieldDecl)
  | SelectorExpr (x : Expr) (sel : string)
  | StarExpr (x : Expr)
  | MapTypeE (key value : Expr)
  | InterfaceTypeE (methods : list FieldDecl)
  | ChanTypeE (value : Expr)
  | FuncTypeE
  | BasicLit (value : string)
  | OtherExpr (goType : string)
with FieldDecl : Type :=
  | mkField (FieldDoc : option CommentGroup) (FieldNames : list string) (FieldType : Expr) (FieldSpan : Span).
Definition FieldDoc (f : FieldDecl) := let '(mkField d _ _ _) := f in d.
Definition FieldNames (f : FieldDecl) := let '(mkField _ n _ _) := f in n.
Definition FieldType (f : FieldDecl) := let '(mkField _ _ t _) := f in t.
Definition FieldSpan (f : FieldDecl) := let '(mkField _ _ _ s) := f in s.

Record ImportSpec : Type := mkImportSpec {
  ImportDoc : option CommentGroup; ImportName : option string; PathValue : string; ImportSpan : Span }.
(** [len(Names) > 0]: the first name and the others. *)
Record ValueSpec : Type := mkValueSpec {
  ValueDoc : option CommentGroup; FirstName : string; OtherNames : list string; Values : list Expr; ValueSpan : Span }.
Record TypeSpec : Type := mkTypeSpec {
  TypeDoc : option CommentGroup; TypeName : string; TypeExpr : Expr; TypeSpan : Span }.

(** The specs of a declaration, by its token. *)
Inductive Specs : Type :=
  | IMPORT (l : list ImportSpec)
  | CONST (l : list ValueSpec)
  | VAR (l : list ValueSpec)
  | TYPE (l : list TypeSpec).

Record GenDecl : Type := mkGenDecl {
  GenDoc : option CommentGroup; TokPos : nat; Rparen : option nat; Specs_ : Specs; GenSpan : Span }.

(** A call in a function body: the name called and the first argument, where
    they are an identifier and a string literal (unquoted). *)
Record CallExpr : Type := mkCall { Fun : option string; Arg0 : option string }.

(** A body, by the calls in it (function literals included). *)
Record Block : Type := mkBlock { Rbrace : nat; Calls : list CallExpr }.

Record FuncDecl : Type := mkFuncDecl {
  FuncDoc : option CommentGroup; Recv : list Expr; FuncName : string; FuncPos : nat; Body : option Block; FuncSpan : Span }.

Inductive Decl : Type :=
  | DFunc (f : FuncDecl)
  | DGen (g : GenDecl).

(** [Inspected]: the declarations in the order of [ast.Inspect], which also
    visits those inside function bodies; [Decls] has those of the file. *)
Record File : Type := mkFile {
  FileDoc : option CommentGroup; PackagePos : nat; PackageName : string;
  Decls : list Decl; Inspected : list Decl; Comments : list CommentGroup }.

(** ** Code blocks *)

Definition PackageType : string := "package".
Definition ImportType : string := "import".
Definition ConstType : string := "const".
Definition VarType : string := "var".
Definition FuncType : string := "func".
Definition TypeType : string := "type".
Definition StructType : string := "struct".
Definition InterfaceType : string := "interface".
Definition ArrayType : string := "array".
Definition MapType : string := "map".
Definition ChanType : string := "chan".

Record AstInfo : Type := mkAstInfo {
  AstType : string;
  Names : list string;
  AstComment : string;
  AstBody : string }.

Definition IsPackageType (a : AstInfo) : bool := bool_decide (AstType a = PackageType).
Definition IsImportType (a : AstInfo) : bool := bool_decide (AstType a = ImportType).
Definition IsConstType (a : AstInfo) : bool := bool_decide (AstType a = ConstType).
Definition IsVarType (a : AstInfo) : bool := bool_decide (AstType a = VarType).
Definition IsTypeType (a : AstInfo) : bool := bool_decide (AstType a = TypeType).
Definition IsFuncType (a : AstInfo) : bool := bool_decide (AstType a = FuncType).
Definition GetName (a : AstInfo) : string := Join (Names a) ",".

Inductive error : Type := ErrSyntax | ErrDuplication (marker src : string) | ErrNoMatch | ErrFile.

(** [src[i:j]], a panic out of range. *)
Definition slice_str (src : string) (i j : nat) : result error string :=
  if bool_decide (i <= j <= str_len src)%nat then Ok (str_take (j - i) (str_drop i src)) else Panic.

Definition nl : string := single newline.
Definition lines_of (parts : list string) : string := Join parts nl.

Definition getPackageCode (f : File) (src : string) : result error (list string * string * string) :=
  let comment := match FileDoc f with Some d => lines_of (CommentList d) | None => "" end in
  body ← slice_str src (PackagePos f) (PackagePos f + str_len ("package " +:+ PackageName f));
  Ok ([PackageName f], comment, body).

(** Offsets out of the file give no code. *)
Definition getCodeFromPos (start end_ : nat) (src : string) : string :=
  if (str_len src <? end_)%nat || (end_ <=? start)%nat then "" else str_take (end_ - start) (str_drop start src).

Definition doc_text (d : option CommentGroup) : string :=
  match d with Some d => lines_of (map TrimSpace (CommentList d)) | None => "" end.

(** The end of the body of a function without one is a nil pointer. *)
Definition getFuncDeclCode (fn : FuncDecl) (src : string) : result error (string * string * string) :=
  let receiverName :=
    match Recv fn with
    | StarExpr (Ident name) :: _ => name
    | Ident name :: _ => name
    | _ => ""
    end in
  match Body fn with
  | None => Panic
  | Some b => Ok (receiverName, doc_text (FuncDoc fn), getCodeFromPos (FuncPos fn) (Rbrace b + 1) src)
  end.

Definition getGenName (s : Specs) : list string :=
  match s with
  | IMPORT l => map PathValue l
  | CONST l => map FirstName l
  | TYPE l => map TypeName l
  | VAR l => map FirstName l
  end.

Definition token (s : Specs) : string :=
  match s with IMPORT _ => ImportType | CONST _ => ConstType | VAR _ => VarType | TYPE _ => TypeType end.
Definition spec_ends (s : Specs) : list nat :=
  match s with
  | IMPORT l => map (fun x => End_ (ImportSpan x)) l
  | CONST l | VAR l => map (fun x => End_ (ValueSpan x)) l
  | TYPE l => map (fun x => End_ (TypeSpan x)) l
  end.

Definition getGenDeclCode (gen : GenDecl) (src : string) : list string * string * string :=
  let start := TokPos gen in
  let end_ :=
    match Rparen gen, last (spec_ends (Specs_ gen)) with
    | Some rparen, _ => (rparen + 1)%nat
    | None, Some e => e
    | None, None => (start + str_len (token (Specs_ gen)))%nat
    end in
  (getGenName (Specs_ gen), doc_text (GenDoc gen), getCodeFromPos start end_ src).

(** The block of a declaration. *)
Definition decl_info (src : string) (d : Decl) : result error AstInfo :=
  match d with
  | DFunc fn =>
      '(receiverName, comment, body) ← getFuncDeclCode fn src;
      Ok (mkAstInfo FuncType (FuncName fn :: (if bool_decide (receiverName = "") then [] else [receiverName])) comment body)
  | DGen gen =>
      let '(names, comment, body) := getGenDeclCode gen src in
      Ok (mkAstInfo (token (Specs_ gen)) names comment body)
  end.

Section Parse.
(** [parser.ParseFile] with comments. *)
Variable ParseFile : string -> option File.

Definition ParseGoCode (src : string) : result error (list AstInfo) :=
  match ParseFile src with
  | None => Err ErrSyntax
  | Some file =>
      '(names, comment, body) ← getPackageCode file src;
      infos ← traverse (decl_info src) (Inspected file);
      Ok (mkAstInfo PackageType names comment body :: infos)
  end.

(** ** Groups: the parts of declarations by lines *)

Definition package_clause : string := "package parse" +:+ nl +:+ nl.
Definition adaptPackage (src : string) : string :=
  if (50 <? str_len src)%nat && Contains (str_take 50 src) "package " then src
  else if Contains src (nl +:+ "package ") then src
  else package_clause +:+ src.

(** The source returned is not the one parsed the second time. *)
Definition parseBody (body : string) : result error (File * string) :=
  let src := adaptPackage body in
  match ParseFile src with
  | Some f => Ok (f, src)
  | None => match ParseFile (package_clause +:+ src) with Some f => Ok (f, src) | None => Err ErrSyntax end
  end.

Definition getSrcContent (srcLines : list string) (start end_ : nat) : string :=
  let l := length srcLines in
  if (start <? 1)%nat || (l <? start)%nat || (end_ <? 1)%nat || (l <? end_)%nat then ""
  else if (start =? end_)%nat then default "" (srcLines !! (start - 1)%nat)
  else lines_of (take (end_ - (start - 1)) (drop (start - 1) srcLines)).

Definition span_code (srcLines : list string) (s : Span) : string := getSrcContent srcLines (Line s) (EndLine s).
Definition doc_code (srcLines : list string) (d : option CommentGroup) : string :=
  match d with Some d => span_code srcLines (CommentSpan d) | None => "" end.
(** The comment of a spec: its own, or that of a declaration of one spec. *)
Definition spec_comment (srcLines : list string) (gen own : option CommentGroup) (specs : nat) : string :=
  let comment := doc_code srcLines own in
  let singleComment := doc_code srcLines gen in
  if (specs =? 1)%nat && negb (bool_decide (singleComment = "")) && bool_decide (comment = "") then singleComment else comment.

Record ImportInfo : Type := mkImportInfo { Path : string; Alias : string; ImportComment : string; ImportBody : string }.
(** [ConstInfo] and [VarInfo], which have the same fields. *)
Record ValueInfo : Type := mkValueInfo { ValueName : string; Value : string; ValueComment : string; ValueBody : string }.
Record TypeInfo : Type := mkTypeInfo { TIType : string; TIName : string; TIComment : string; TIBody : string; TIIsIdent : bool }.

Definition gen_decls (f : File) : list GenDecl :=
  omap (fun d => match d with DGen g => Some g | DFunc _ => None end) (Decls f).

Definition ParseImportGroup (body : string) : result error (list ImportInfo) :=
  '(f, src) ← parseBody body;
  let srcLines := Split src newline in
  Ok (mjoin (map (fun gen => match Specs_ gen with
    | IMPORT l => map (fun s => mkImportInfo (Trim (PathValue s) dquote) (default "" (ImportName s))
                                 (doc_code srcLines (ImportDoc s)) (span_code srcLines (ImportSpan s))) l
    | _ => []
    end) (gen_decls f))).

Definition literal (e : option Expr) : string := match e with Some (BasicLit v) => v | _ => "" end.
Definition value_infos (srcLines : list string) (doc : option CommentGroup) (l : list ValueSpec) : list ValueInfo :=
  mjoin (map (fun s => imap (fun i name =>
    mkValueInfo name (literal (Values s !! i)) (spec_comment srcLines doc (ValueDoc s) (length l))
      (span_code srcLines (ValueSpan s))) (FirstName s :: OtherNames s)) l).

Definition ParseConstGroup (body : string) : result error (list ValueInfo) :=
  '(f, src) ← parseBody body;
  let srcLines := Split src newline in
  Ok (mjoin (map (fun gen => match Specs_ gen with CONST l => value_infos srcLines (GenDoc gen) l | _ => [] end) (gen_decls f))).
Definition ParseVarGroup (body : string) : result error (list ValueInfo) :=
  '(f, src) ← parseBody body;
  let srcLines := Split src newline in
  Ok (mjoin (map (fun gen => match Specs_ gen with VAR l => value_infos srcLines (GenDoc gen) l | _ => [] end) (gen_decls f))).

Definition type_def (e : Expr) : string * bool :=
  match e with
  | StructTypeE _ => (StructType, false)
  | InterfaceTypeE _ => (InterfaceType, false)
  | FuncTypeE => (FuncType, false)
  | MapTypeE _ _ => (MapType, false)
  | ArrayTypeE _ => (ArrayType, false)
  | ChanTypeE _ => (ChanType, false)
  | Ident name => (name, true)
  | SelectorExpr _ _ => ("*ast.SelectorExpr", false)
  | StarExpr _ => ("*ast.StarExpr", false)
  | BasicLit _ => ("*ast.BasicLit", false)
  | OtherExpr goType => (goType, false)
  end.

Definition type_specs (f : File) : list (GenDecl * list TypeSpec) :=
  omap (fun g => match Specs_ g with TYPE l => Some (g, l) | _ => None end) (gen_decls f).

Definition ParseTypeGroup (body : string) : result error (list TypeInfo) :=
  '(f, src) ← parseBody body;
  let srcLines := Split src newline in
  Ok (mjoin (map (fun '(gen, l) => map (fun s =>
    let '(typeDef, isIdent) := type_def (TypeExpr s) in
    mkTypeInfo typeDef (TypeName s) (spec_comment srcLines (GenDoc gen) (TypeDoc s) (length l))
      (span_code srcLines (TypeSpan s)) isIdent) l) (type_specs f))).

(** ** Interfaces, methods and structs *)

Record MethodInfo : Type := mkMethodInfo {
  MethodName : string; MethodComment : string; MethodBody : string; ReceiverName : string; MethodIsIdent : bool }.
Record InterfaceInfo : Type := mkInterfaceInfo {
  InterfaceName : string; InterfaceComment : string; MethodInfos : list MethodInfo }.

(** One method of an interface: the flag of embedded ones is never cleared. *)
Definition interface_method (srcLines : list string) (interfaceName : string) (acc : list MethodInfo * bool) (method : FieldDecl)
    : list MethodInfo * bool :=
  let '(methodInfos, isIdent) := acc in
  let add name isIdent :=
    (methodInfos ++ [mkMethodInfo name (doc_code srcLines (FieldDoc method)) (span_code srcLines (FieldSpan method)) interfaceName isIdent],
     isIdent) in
  match FieldType method with
  | FuncTypeE => add (default "" (head (FieldNames method))) isIdent
  | Ident name => add name true
  | _ => acc
  end.

(** The interfaces of one declaration; the methods found so far are kept from
    one to the next. *)
Fixpoint interface_specs (srcLines : list string) (gen : GenDecl) (n : nat) (methodInfos : list MethodInfo) (l : list TypeSpec)
    : list InterfaceInfo :=
  match l with
  | [] => []
  | s :: l =>
      match TypeExpr s with
      | InterfaceTypeE methods =>
          let '(methodInfos, _) := foldl (interface_method srcLines (TypeName s)) (methodInfos, false) methods in
          mkInterfaceInfo (TypeName s) (spec_comment srcLines (GenDoc gen) (TypeDoc s) n) methodInfos ::
          interface_specs srcLines gen n methodInfos l
      | _ => interface_specs srcLines gen n methodInfos l
      end
  end.

Definition ParseInterface (body : string) : result error (list InterfaceInfo) :=
  '(f, src) ← parseBody body;
  let srcLines := Split src newline in
  Ok (mjoin (map (fun '(gen, l) => interface_specs srcLines gen (length l) [] l) (type_specs f))).

Record StructFieldInfo : Type := mkStructField {
  SFName : string; SFType : string; SFComment : string; SFBody : string }.
Record StructInfo : Type := mkStructInfo {
  StructName : string; StructComment : string; Fields : list StructFieldInfo }.

Fixpoint getTypeString (e : Expr) : string :=
  match e with
  | Ident name => name
  | ArrayTypeE elt => "[]" +:+ getTypeString elt
  | StructTypeE _ => "struct"
  | SelectorExpr x sel => getTypeString x +:+ "." +:+ sel
  | StarExpr x => "*" +:+ getTypeString x
  | MapTypeE key value => "map[" +:+ getTypeString key +:+ "]" +:+ getTypeString value
  | InterfaceTypeE _ => "interface{}"
  | ChanTypeE value => "chan " +:+ getTypeString value
  | _ => "unknown"
  end.

(** The first name of a field, or the type it embeds. *)
Definition field_name (field : FieldDecl) : string :=
  match FieldNames field with
  | name :: _ => name
  | [] => match FieldType field with
          | Ident name => name
          | StarExpr (Ident name) => "*" +:+ name
          | _ => ""
          end
  end.

(** A Go map written entry by entry. *)
Definition set_key {A} (m : list (string * A)) (k : string) (v : A) : list (string * A) :=
  match assoc m k with
  | Some _ => map (fun kv => if bool_decide (fst kv = k) then (k, v) else kv) m
  | None => m ++ [(k, v)]
  end.

Definition struct_field (srcLines : list string) (field : FieldDecl) : StructFieldInfo :=
  mkStructField (field_name field) (getTypeString (FieldType field)) (doc_code srcLines (FieldDoc field))
    (span_code srcLines (FieldSpan field)).
Definition struct_spec (srcLines : list string) (gen : GenDecl) (n : nat) (m : list (string * StructInfo)) (s : TypeSpec)
    : list (string * StructInfo) :=
  match TypeExpr s with
  | StructTypeE fields =>
      set_key m (TypeName s) (mkStructInfo (TypeName s) (spec_comment srcLines (GenDoc gen) (TypeDoc s) n)
                                (map (struct_field srcLines) fields))
  | _ => m
  end.
Definition ParseStruct (body : string) : result error (list (string * StructInfo)) :=
  '(f, src) ← parseBody body;
  let srcLines := Split src newline in
  Ok (foldl (fun m '(gen, l) => foldl (struct_spec srcLines gen (length l)) m l) [] (type_specs f)).
End Parse.

(** The methods of each receiver, in the order of the file. *)
Definition add_method (m : list (string * list MethodInfo)) (info : AstInfo) : list (string * list MethodInfo) :=
  if IsFuncType info then
    match Names info with
    | [funcName; structName] =>
        let method := mkMethodInfo funcName (AstComment info) (AstBody info) structName false in
        set_key m structName (default [] (assoc m structName) ++ [method])
    | _ => m
    end
  else m.
Definition ParseStructMethods (astInfos : list AstInfo) : list (string * list MethodInfo) := foldl add_method [] astInfos.

(** ** Filtering functions (filter.go) *)

Record FuncInfo : Type := mkFuncInfo { Name : string; FuncComment : string }.

(** The white space of [\s]: tab, newline, form feed, carriage return, space. *)
Definition re_space (c : ascii) : bool :=
  bool_decide (c ∈ [ascii_of_nat 9; newline; ascii_of_nat 12; ascii_of_nat 13; " "%char]).

(** [(?m)^//\s?] replaced by nothing; [start]: at the start of a line. *)
Fixpoint strip_line_comment (start : bool) (s : string) : string :=
  match s with
  | String "/" (String "/" s') =>
      if start then
        match s' with
        | String c s'' => if re_space c then strip_line_comment (bool_decide (c = newline)) s''
                          else String c (strip_line_comment (bool_decide (c = newline)) s'')
        | EmptyString => EmptyString
        end
      else String "/" (String "/" (strip_line_comment false s'))
  | String c s' => String c (strip_line_comment (bool_decide (c = newline)) s')
  | EmptyString => EmptyString
  end.

(** [(?m)/\*|\*/] replaced by nothing. *)
Fixpoint strip_block_comment (s : string) : string :=
  match s with
  | String "/" (String "*" s') => strip_block_comment s'
  | String "*" (String "/" s') => strip_block_comment s'
  | String c s' => String c (strip_block_comment s')
  | EmptyString => EmptyString
  end.

Definition ExtractComment (f : FuncInfo) : string :=
  if bool_decide (FuncComment f = "") then ""
  else
    let comment := strip_block_comment (strip_line_comment true (FuncComment f)) in
    let commentStr := TrimSpace (lines_of (map TrimSpace (Split comment newline))) in
    TrimSpace (TrimPrefix commentStr (Name f)).

(** A call of panic with a literal that says so, anywhere in the body. *)
Definition containsPanicCall (calls : list CallExpr) (customFlag : list string) : bool :=
  existsb (fun ce => match Fun ce, Arg0 ce with
    | Some "panic", Some s => HasPrefix s "implement me" || existsb (fun flag => Contains s flag) customFlag
    | _, _ => false
    end) calls.

(** What becomes of a declaration: kept, kept and reported, dropped and
    reported, or dropped with its bytes. *)
Inductive verdict : Type :=
  | Keep
  | KeepReported (info : FuncInfo)
  | DropReported (info : FuncInfo)
  | Delete (start end_ : nat).

Definition judge (customFlag : list string) (decl : Decl) : verdict :=
  match decl with
  | DGen _ => Keep
  | DFunc fn =>
      if HasPrefix (FuncName fn) "New" then Keep
      else match Body fn with
      | None => Keep
      | Some body =>
          if containsPanicCall (Calls body) customFlag then
            let commentText := doc_text (FuncDoc fn) in
            let info := mkFuncInfo (FuncName fn) commentText in
            if bool_decide (commentText = "") then DropReported info else KeepReported info
          else
            let start := match FuncDoc fn with Some d => Pos (CommentSpan d) | None => Pos (FuncSpan fn) end in
            Delete start (End_ (FuncSpan fn))
      end
  end.

Definition kept (v : verdict) : bool := match v with Keep | KeepReported _ => true | _ => false end.
Definition reported (v : verdict) : option FuncInfo :=
  match v with KeepReported i | DropReported i => Some i | _ => None end.
Definition deleted (v : verdict) : option (nat * nat) := match v with Delete s e => Some (s, e) | _ => None end.

Definition inside (cg : CommentGroup) (i : nat * nat) : bool :=
  (fst i <=? Pos (CommentSpan cg))%nat && (End_ (CommentSpan cg) <=? snd i)%nat.

(** The file printed, and the functions reported. *)
Definition filter_file (customFlag : list string) (f : File) : result error (File * list FuncInfo) :=
  let verdicts := map (judge customFlag) (Decls f) in
  if existsb (fun v => match v with KeepReported _ => true | _ => false end) verdicts then
    Ok (mkFile (FileDoc f) (PackagePos f) (PackageName f)
          (filter (fun d => kept (judge customFlag d) = true) (Decls f)) (Inspected f)
          (filter (fun cg => existsb (inside cg) (omap deleted verdicts) = false) (Comments f)),
        omap reported verdicts)
  else Err ErrNoMatch.

Definition FilterFuncCode (ParseFile : string -> option File) (Fprint : File -> option string)
    (src : string) (customFlag : list string) : result error (string * list FuncInfo) :=
  match ParseFile src with
  | None => Err ErrSyntax
  | Some f =>
      '(f, infos) ← filter_file customFlag f;
      match Fprint f with Some out => Ok (out, infos) | None => Err ErrFile end
  end.

End GoAst.
