(* ===== verification/GoMergeFacts.v ===== *)
(** * What a merge of Go files does (pkg/goast)

    The theorems about GoMerge.v: a file merged with itself is unchanged, new
    functions and types are in the result, nothing is lost without the cover
    option; and evaluated merges of files of particular shapes. *)

From S2P Require Import Prelude GoStr GoAst GoMerge.
From Stdlib Require Import Ascii.
From Stdlib Require String.

Module GoMergeFacts.
Import GoAst GoMerge.

(** ** Texts within texts *)

(** The bytes of [s], in order, are among those of [t]. *)
Definition within (s t : string) : Prop := String.list_ascii_of_string s `sublist_of` String.list_ascii_of_string t.

#[global] Instance within_preorder : PreOrder within.
Proof. split; [intros s; unfold within; reflexivity|]. intros s t u. unfold within. by etrans. Qed.

Lemma bytes_app s t : String.list_ascii_of_string (s +:+ t) = String.list_ascii_of_string s ++ String.list_ascii_of_string t.
Proof. induction s as [|c s IH]; [done|]. rewrite app_cons_s. cbn. by rewrite IH. Qed.

Lemma within_app s s' t t' : within s s' -> within t t' -> within (s +:+ t) (s' +:+ t').
Proof. unfold within. rewrite !bytes_app. apply sublist_app. Qed.
Lemma within_l s t : within s (s +:+ t).
Proof. unfold within. rewrite bytes_app. by apply sublist_inserts_r. Qed.

Lemma Replace1_within s old new : within old new -> within s (Replace1 s old new).
Proof.
  intros Hn. destruct (Replace1_cases s old new) as [(t & u & -> & ->)| ->]; [|done].
  apply within_app; [done|]. by apply within_app.
Qed.

Lemma Join_contains l x sep : x ∈ l -> Contains (Join l sep) x = true.
Proof.
  induction l as [|y l IH]; [set_solver|]. intros Hx. destruct (decide (x = y)) as [->|Hne].
  - apply Contains_spec. destruct l as [|z l]; [exists "", ""; cbn; by rewrite app_nil_s|].
    exists "", (sep +:+ Join (z :: l) sep). by rewrite Join_cons.
  - assert (x ∈ l) as Hl by set_solver. destruct l as [|z l]; [set_solver|]. rewrite Join_cons by done.
    by apply Contains_app, Contains_app, IH.
Qed.

(** ** The blocks of a file *)

Lemma getCodeFromPos_contained i j src : Contains src (getCodeFromPos i j src) = true.
Proof.
  unfold getCodeFromPos. destruct (_ || _).
  - apply Contains_spec. by exists "", src.
  - apply Contains_spec. exists (str_take i src), (str_drop (j - i) (str_drop i src)).
    by rewrite !take_drop_s.
Qed.

Lemma decl_info_contained src d info : decl_info src d = Ok info -> Contains src (AstBody info) = true.
Proof.
  destruct d as [fn|gen]; cbn.
  - unfold getFuncDeclCode. destruct (Body fn); [|done]. intros [= <-]. apply getCodeFromPos_contained.
  - intros [= <-]. apply getCodeFromPos_contained.
Qed.

Section Facts.
Variable ParseFile : string -> option File.
Variable order : list string -> list string.

Lemma blocks_are_source src infos : ParseGoCode ParseFile src = Ok infos ->
  Forall (fun i => Contains src (AstBody i) = true) infos.
Proof.
  unfold ParseGoCode. destruct (ParseFile src) as [file|]; [|done]. intros ([[names comment] body] & Hp & H)%bind_ok.
  apply bind_ok in H as (l & Hl & [= <-]). constructor; cbn.
  - unfold getPackageCode in Hp. apply bind_ok in Hp as (b & Hb & [= _ _ ->]). unfold slice_str in Hb.
    case_bool_decide; [|done]. injection Hb as <-. apply Contains_spec. eexists (str_take _ src), (str_drop _ (str_drop _ src)).
    by rewrite !take_drop_s.
  - apply traverse_ok in Hl. induction Hl as [|d i ds infos Hd _ IH]; constructor; [by eapply decl_info_contained|done].
Qed.

(** ** Parsing fails in one way *)

Definition syntax_only {A} (m : result error A) : Prop := (exists a, m = Ok a) \/ m = Err ErrSyntax.

Lemma parseBody_syntax body : syntax_only (parseBody ParseFile body).
Proof.
  unfold parseBody. destruct (ParseFile _); [left; by eexists|]. destruct (ParseFile _); [left; by eexists|by right].
Qed.
Lemma bind_parse_syntax {B} body (f : File * string -> result error B) :
  (forall x, syntax_only (f x)) -> syntax_only (parseBody ParseFile body ≫= f).
Proof. intros Hf. destruct (parseBody_syntax body) as [[x ->]| ->]; [apply Hf|by right]. Qed.

Lemma ParseImportGroup_syntax body : syntax_only (ParseImportGroup ParseFile body).
Proof. apply bind_parse_syntax. intros [f src]. left. by eexists. Qed.
Lemma ParseConstGroup_syntax body : syntax_only (ParseConstGroup ParseFile body).
Proof. apply bind_parse_syntax. intros [f src]. left. by eexists. Qed.
Lemma ParseVarGroup_syntax body : syntax_only (ParseVarGroup ParseFile body).
Proof. apply bind_parse_syntax. intros [f src]. left. by eexists. Qed.
Lemma ParseTypeGroup_syntax body : syntax_only (ParseTypeGroup ParseFile body).
Proof. apply bind_parse_syntax. intros [f src]. left. by eexists. Qed.
Lemma ParseInterface_syntax body : syntax_only (ParseInterface ParseFile body).
Proof. apply bind_parse_syntax. intros [f src]. left. by eexists. Qed.
Lemma ParseStruct_syntax body : syntax_only (ParseStruct ParseFile body).
Proof. apply bind_parse_syntax. intros [f src]. left. by eexists. Qed.

(** ** Maps *)

Lemma assoc_replace {A} (m : list (string * A)) k v k' :
  assoc (map (fun kv => if bool_decide (fst kv = k) then (k, v) else kv) m) k' =
    if bool_decide (k' = k) then const v <$> assoc m k else assoc m k'.
Proof.
  induction m as [|[k0 v0] m IH]; cbn; [by case_bool_decide|].
  destruct (decide (k0 = k)) as [->|Hne].
  - rewrite !(bool_decide_true (k = k)) by done. cbn. rewrite IH. by case_bool_decide.
  - rewrite (bool_decide_false (k0 = k)) by done. rewrite (bool_decide_false (k = k0)) by congruence. rewrite IH.
    destruct (decide (k' = k)) as [->|]; repeat case_bool_decide; congruence.
Qed.

Lemma assoc_snoc {A} (m : list (string * A)) k v k' :
  assoc m k = None -> assoc (m ++ [(k, v)]) k' = if bool_decide (k' = k) then Some v else assoc m k'.
Proof.
  induction m as [|[k0 v0] m IH]; cbn; [done|]. intros Hm.
  destruct (decide (k = k0)) as [->|]; [by rewrite bool_decide_true in Hm|]. rewrite bool_decide_false in Hm by done.
  rewrite (IH Hm). repeat case_bool_decide; congruence.
Qed.

Lemma assoc_set_key {A} (m : list (string * A)) k v k' :
  assoc (set_key m k v) k' = if bool_decide (k' = k) then Some v else assoc m k'.
Proof.
  unfold set_key. destruct (assoc m k) as [w|] eqn:Ek; [|by apply assoc_snoc].
  rewrite assoc_replace, Ek. done.
Qed.

Lemma assoc_in {A} (m : list (string * A)) k v : assoc m k = Some v -> (k, v) ∈ m.
Proof. induction m as [|[k0 v0] m IH]; cbn; [done|]. case_bool_decide; [intros [= ->]; subst; left|]. intros Hr. right. by apply IH. Qed.

Lemma range_map_assoc {A} (m : list (string * A)) k v : (k, v) ∈ range_map order m -> assoc m k = Some v.
Proof.
  unfold range_map. rewrite list_elem_of_omap. intros (k' & _ & H). destruct (assoc m k') eqn:E; [|done].
  cbn in H. by injection H as -> ->.
Qed.

(** The methods or types of a key are those with its name. *)
Lemma parseTypeCode_map (infos : list TypeInfo) k v : assoc (foldl add_type [] infos) k = Some v ->
  Forall (fun i => i ∈ infos /\ TIName i = k) v.
Proof.
  set (P := fun (m : list (string * list TypeInfo)) => forall k v, assoc m k = Some v -> Forall (fun i => i ∈ infos /\ TIName i = k) v).
  assert (forall l m, (forall i, i ∈ l -> i ∈ infos) -> P m -> P (foldl add_type m l)) as Hgen.
  { intros l. induction l as [|i l IH]; intros m Hl Hm; [done|]. cbn. apply IH; [set_solver|].
    unfold add_type. case_bool_decide; [done|]. intros k' v'. rewrite assoc_set_key. case_bool_decide; [|apply Hm].
    subst. intros [= <-]. apply Forall_app. split; [|constructor; [|done]; split; [apply Hl; left|done]].
    destruct (assoc m (TIName i)) as [w|] eqn:E; [by apply Hm|done]. }
  apply (Hgen infos []); [done|]. intros ? ?. done.
Qed.

Lemma foldM_fixed {S A} (f : S -> A -> result error S) s l :
  Forall (fun a => f s a = Ok s \/ f s a = Err ErrSyntax) l -> foldM f s l = Ok s \/ foldM f s l = Err ErrSyntax.
Proof. induction 1 as [|a l Ha _ IH]; cbn; [by left|]. destruct Ha as [-> | ->]; cbn; [done|by right]. Qed.

(** ** A file merged with itself

    The blocks of a type have one name each, and blank variables are found in
    the file by the text of their lines. *)
Definition self_mergeable (a : CodeAst) : Prop :=
  (forall infos, ParseTypeGroup ParseFile (group_text (typeInfos a)) = Ok infos -> NoDup (map TIName infos)) /\
  (forall infos, ParseVarGroup ParseFile (group_text (varInfos a)) = Ok infos ->
     Forall (fun i => ValueName i = "_" -> Contains (Code a) (TrimSpace (ValueBody i)) = true) infos).

Definition fixed (a : CodeAst) (m : result error CodeAst) : Prop := m = Ok a \/ m = Err ErrSyntax.

Lemma fixed_bind a m f : fixed a m -> fixed a (f a) -> fixed a (m ≫= f).
Proof. by intros [-> | ->] Hf; [|right]. Qed.

Lemma parsed_fixed {X} a (m : result error X) f : syntax_only m -> (forall x, m = Ok x -> fixed a (f x)) -> fixed a (m ≫= f).
Proof. intros [[x ->]| ->] Hf; [by apply Hf|by right]. Qed.

Lemma filter_none {A} (P : A -> Prop) `{!forall x, Decision (P x)} l : Forall (fun x => ~ P x) l -> filter P l = [].
Proof. induction 1 as [|x l Hx _ IH]; [done|]. by rewrite filter_cons_False. Qed.

Lemma none_new {A} (name : A -> string) l : filter (fun i => name i ∉ map name l) l = [].
Proof. apply filter_none, Forall_forall. intros x Hx Hn. apply Hn. apply list_elem_of_In, in_map. by apply list_elem_of_In. Qed.

Lemma mergeImport_self a : is_Some (packageInfo a) -> fixed a (mergeImportCode ParseFile a a).
Proof.
  intros [p Hp]. unfold mergeImportCode. rewrite Hp. destruct (importInfos a) as [|i l] eqn:Hi; [by left|].
  unfold parseImportCode. rewrite Hi. apply parsed_fixed; [apply ParseImportGroup_syntax|]. intros x Hx.
  apply parsed_fixed; [apply ParseImportGroup_syntax|]. intros y Hy. assert (y = x) as -> by congruence.
  rewrite none_new. by left.
Qed.

Lemma compareConst_self a : fixed a (compareConstCode ParseFile a a).
Proof.
  unfold compareConstCode. destruct (constInfos a) as [|i l] eqn:Hi; [by left|].
  unfold parseConstCode. rewrite Hi. apply parsed_fixed; [apply ParseConstGroup_syntax|]. intros x Hx.
  apply parsed_fixed; [apply ParseConstGroup_syntax|]. intros y Hy. assert (y = x) as -> by congruence.
  rewrite none_new. by left.
Qed.

Lemma compareVar_self a : self_mergeable a -> fixed a (compareVarCode ParseFile a a).
Proof.
  intros [_ Hblank]. unfold compareVarCode. destruct (varInfos a) as [|i l] eqn:Hi; [by left|].
  unfold parseVarCode. rewrite Hi. apply parsed_fixed; [apply ParseVarGroup_syntax|]. intros x Hx.
  apply parsed_fixed; [apply ParseVarGroup_syntax|]. intros y Hy. assert (y = x) as -> by congruence.
  rewrite filter_none; [by left|]. apply Forall_forall. intros v Hv. unfold new_var.
  rewrite bool_decide_true by (apply list_elem_of_In, in_map; by apply list_elem_of_In).
  specialize (Hblank x Hx). rewrite Forall_forall in Hblank. specialize (Hblank v Hv).
  case_bool_decide; cbn; [|done]. by rewrite Hblank.
Qed.

Lemma new_members_self {A} (name comment body : A -> string) l : new_members name comment body l l = [].
Proof.
  unfold new_members. assert (forall l', (forall x, x ∈ l' -> x ∈ l) ->
    omap (fun m => if bool_decide (name m ∈ map name l) then None else Some (with_comment (comment m) (body m))) l' = []) as Hgen.
  { induction l' as [|x l' IH]; intros Hl; [done|]. cbn.
    rewrite bool_decide_true by (apply list_elem_of_In, in_map, list_elem_of_In; apply Hl; left). apply IH. set_solver. }
  by apply Hgen.
Qed.

Lemma merge_type_self a (v : list TypeInfo) t : (forall u, u ∈ v -> TIName u = TIName t -> u = t) ->
  fixed a (merge_type ParseFile order v a t).
Proof.
  intros Hone. unfold merge_type. destruct (last (filter _ v)) as [u|] eqn:Hu; [|by left].
  apply last_Some_elem_of, list_elem_of_filter in Hu as [Hn Hu]. rewrite (Hone u Hu Hn). case_bool_decide; [|case_bool_decide; [|by left]].
  - apply parsed_fixed; [apply ParseInterface_syntax|]. intros x Hx.
    apply parsed_fixed; [apply ParseInterface_syntax|]. intros y Hy. assert (y = x) as -> by congruence.
    destruct x as [|i [|]]; [by left| |by left]. rewrite new_members_self. by left.
  - apply parsed_fixed; [apply ParseStruct_syntax|]. intros x Hx.
    apply parsed_fixed; [apply ParseStruct_syntax|]. intros y Hy. assert (y = x) as -> by congruence.
    apply foldM_fixed, Forall_forall. intros [name s] Hs%range_map_assoc. rewrite Hs, new_members_self. by left.
Qed.

Lemma NoDup_map_inj {A} (f : A -> string) l x y : NoDup (map f l) -> x ∈ l -> y ∈ l -> f x = f y -> x = y.
Proof.
  intros Hnd [i Hi]%list_elem_of_lookup [j Hj]%list_elem_of_lookup Hf.
  assert (i = j) as ->; [|congruence]. eapply NoDup_lookup; [exact Hnd| |];
    change (map f l) with (f <$> l); rewrite list_lookup_fmap; [rewrite Hi; reflexivity|rewrite Hj; by rewrite Hf].
Qed.

(** What a range over the types of a file yields. *)
Lemma range_types infos k v : (k, v) ∈ range_map order (foldl add_type [] infos) ->
  assoc (foldl add_type [] infos) k = Some v /\ Forall (fun i => i ∈ infos /\ TIName i = k) v.
Proof. intros Hr%range_map_assoc. split; [done|]. by apply parseTypeCode_map. Qed.

Lemma mergeTypes_self a : self_mergeable a -> nonExistedTypeInfoMap a = [] -> fixed a (mergeExistedTypeCode ParseFile order a a).
Proof.
  intros [Hone _] Hnil. unfold mergeExistedTypeCode, parseTypeCode.
  apply parsed_fixed; [destruct (ParseTypeGroup_syntax (group_text (typeInfos a))) as [[x ->]| ->]; [left; by eexists|by right]|].
  intros x (infos & Hinfos & [= <-])%bind_ok. rewrite Hinfos. cbn [mbind result_bind]. specialize (Hone _ Hinfos).
  set (m := foldl add_type [] infos).
  apply fixed_bind.
  - apply foldM_fixed, Forall_forall. intros [k v] Hkv. destruct (range_types _ _ _ Hkv) as [Hk Hv].
    change (assoc m k = Some v) in Hk. rewrite Hk.
    apply foldM_fixed, Forall_forall. intros t Ht. apply merge_type_self. intros u Hu Hn.
    rewrite Forall_forall in Hv. by apply (NoDup_map_inj TIName infos); [done|apply Hv|apply Hv|].
  - left. f_equal. assert (forall l, (forall i, i ∈ l -> TIName i ∈ mjoin (map (fun kv => map TIName (snd kv)) m)) -> forall acc,
      foldl (fun m' info => if bool_decide (TIName info ∈ mjoin (map (fun kv => map TIName (snd kv)) m)) then m' else set_key m' (TIName info) info)
        acc l = acc) as Hnone.
    { induction l as [|i l IH]; intros Hl acc; [done|]. cbn [foldl]. rewrite bool_decide_true by (apply Hl; left). apply IH. set_solver. }
    rewrite Hnone; [by destruct a; cbn in *; subst|]. intros i Hi.
    apply list_elem_of_join in Hi as (v & Hv & Hm). apply list_elem_of_In, in_map_iff in Hm as ([k v'] & <- & Hm).
    apply list_elem_of_In in Hm. apply range_types in Hm as [Hk _]. apply assoc_in in Hk.
    apply list_elem_of_join. exists (map TIName v'). split; [apply list_elem_of_In, in_map; by apply list_elem_of_In|].
    apply list_elem_of_In, in_map_iff. exists (k, v'). split; [done|by apply list_elem_of_In].
Qed.

Lemma mergeMethods_self a : fixed a (mergeStructMethodsCode order a a).
Proof.
  unfold mergeStructMethodsCode. apply foldM_fixed, Forall_forall. intros [k v] Hkv%range_map_assoc.
  unfold merge_methods. rewrite Hkv, none_new. by left.
Qed.

Lemma append_self a : nonExistedConstCode a = [] -> nonExistedVarCode a = [] ->
  Forall (fun i => Contains (Code a) (AstBody i) = true) (AstInfos a) -> appendNonExistedCode (AstInfos a) a = a.
Proof.
  intros Hc Hv Hin. unfold appendNonExistedCode. rewrite Hc. cbn [append_code]. rewrite Hv. cbn [append_code].
  assert (forall l, (forall i, i ∈ l -> i ∈ AstInfos a) -> omap (appended a (map GetName (AstInfos a))) l = []) as Hnone.
  { induction l as [|i l IH]; intros Hl; [done|]. cbn. rewrite IH by set_solver.
    unfold appended. rewrite (bool_decide_true (GetName i ∈ _)) by (apply list_elem_of_In, in_map, list_elem_of_In; apply Hl; left).
    rewrite Forall_forall in Hin. rewrite Hin by (apply Hl; left). rewrite andb_false_r.
    by repeat case_match. }
  by rewrite Hnone.
Qed.

Lemma new_code_ast_fields path code infos opts : let a := new_code_ast path code infos opts in
  Code a = code /\ AstInfos a = infos /\ packageInfo a = last (of_type IsPackageType infos) /\
  nonExistedConstCode a = [] /\ nonExistedVarCode a = [] /\ nonExistedTypeInfoMap a = [] /\ changeCodeFlag a = false.
Proof. unfold new_code_ast. by destruct (foldl _ _ _). Qed.

(** C22: Merging a file with itself, without the option to cover functions,
    changes nothing - when its type names are distinct and its blank
    variables are found by their lines. *)
Theorem merge_with_itself format_Source data opts a :
  NewCodeAstFromData ParseFile data opts = Ok a -> isCoverSameFunc a = false -> self_mergeable a ->
  match MergeGoCode ParseFile format_Source order data data opts with
  | Ok a' => Code a' = data /\ changeCodeFlag a' = false
  | Err e => e = ErrSyntax
  | Panic => False
  end.
Proof.
  intros Ha Hcover Hself. unfold MergeGoCode. rewrite Ha. cbn [mbind result_bind]. unfold NewCodeAstFromData in Ha.
  apply bind_ok in Ha as (infos & Hparse & [= <-]). pose proof (blocks_are_source _ _ Hparse) as Hin.
  destruct (new_code_ast_fields "" data infos opts) as (Hcode & Hinfos & Hpkg & Hc & Hv & Ht & Hflag).
  set (a := new_code_ast "" data infos opts) in *.
  assert (is_Some (packageInfo a)) as Hp.
  { rewrite Hpkg. unfold ParseGoCode in Hparse. destruct (ParseFile data); [|done].
    apply bind_ok in Hparse as ([[n c] b] & _ & Hrest). apply bind_ok in Hrest as (l & _ & [= <-]).
    unfold of_type. rewrite filter_cons_True by done. apply last_is_Some. done. }
  assert (fixed a (merged ParseFile order a a)) as Hm.
  { unfold merged. apply fixed_bind; [by apply mergeImport_self|]. apply fixed_bind; [apply compareConst_self|].
    apply fixed_bind; [by apply compareVar_self|]. apply fixed_bind; [by apply mergeTypes_self|].
    apply fixed_bind; [apply mergeMethods_self|]. left. rewrite Hcover. f_equal. apply append_self; [done|done|].
    by rewrite Hinfos, Hcode. }
  unfold mergeCode. destruct Hm as [-> | ->]; [|done]. cbn. unfold formatted. by rewrite Hflag.
Qed.

(** ** New functions and types *)

Lemma foldM_related {S A} (R : S -> S -> Prop) `{!PreOrder R} (f : S -> A -> result error S) s l s' :
  (forall s s' a, a ∈ l -> f s a = Ok s' -> R s s') -> foldM f s l = Ok s' -> R s s'.
Proof.
  revert s. induction l as [|a l IH]; intros s Hf; cbn; [by intros [= ->]|].
  intros (t & Ht & Hl)%bind_ok. transitivity t; [apply (Hf s t a); [left|done]|]. apply IH; [|done].
  intros u u' b Hb. apply Hf. by right.
Qed.

(** A step keeps the blocks of the file and marks only receivers in [K]. *)
Definition marks (K : list string) (a a' : CodeAst) : Prop :=
  AstInfos a' = AstInfos a /\ typeInfos a' = typeInfos a /\ isCoverSameFunc a' = isCoverSameFunc a /\
  forall s, s ∈ mergedStructMethodsMap a' -> s ∈ mergedStructMethodsMap a \/ s ∈ K.

#[local] Instance marks_preorder K : PreOrder (marks K).
Proof.
  split; [intros a; split_and!; auto|]. intros a b c (H1 & H2 & H3 & H4) (H1' & H2' & H3' & H4').
  split_and!; [congruence..|]. intros s Hs. destruct (H4' s Hs) as [Hb|]; [|by right]. by apply H4.
Qed.

Lemma merge_members_marks K marker srcStr keyword name bodies new a a' :
  merge_members marker srcStr keyword name bodies new a = Ok a' -> marks K a a'.
Proof.
  unfold merge_members. destruct new; [by intros [= <-]|]. destruct (_ <? _)%nat; [done|]. intros [= <-]. split_and!; auto.
Qed.

Lemma merge_type_marks K v a t a' : merge_type ParseFile order v a t = Ok a' -> marks K a a'.
Proof.
  unfold merge_type, mergeInterfaceMethodCode, mergeStructFieldsCode. destruct (last _) as [u|]; [|by intros [= <-]].
  case_bool_decide; [|case_bool_decide; [|by intros [= <-]]]; intros (x & _ & (y & _ & Hm)%bind_ok)%bind_ok.
  - destruct x as [|i [|]], y as [|j [|]]; try (injection Hm as <-; reflexivity). by eapply merge_members_marks.
  - eapply foldM_related; [apply _| |exact Hm]. intros b b' [name g] _. cbn.
    destruct (assoc x name); [apply merge_members_marks|by intros [= <-]].
Qed.

Lemma mergeImport_marks K a gen a' : mergeImportCode ParseFile a gen = Ok a' -> marks K a a'.
Proof.
  unfold mergeImportCode. destruct (importInfos gen); [by intros [= <-]|]. destruct (packageInfo a); [|done].
  destruct (importInfos a); [destruct (_ <? _)%nat; [done|]; intros [= <-]; split_and!; auto|].
  intros (x & _ & (y & _ & Hm)%bind_ok)%bind_ok. destruct (filter _ y); injection Hm as <-; split_and!; auto.
Qed.
Lemma compareConst_marks K a gen a' : compareConstCode ParseFile a gen = Ok a' -> marks K a a' /\ Code a' = Code a.
Proof.
  unfold compareConstCode. destruct (constInfos gen); [intros [= <-]; by split|].
  destruct (constInfos a); [intros [= <-]; split; [split_and!; auto|done]|].
  intros (x & _ & (y & _ & Hm)%bind_ok)%bind_ok. destruct (filter _ y); injection Hm as <-; (split; [split_and!; auto|done]).
Qed.
Lemma compareVar_marks K a gen a' : compareVarCode ParseFile a gen = Ok a' -> marks K a a' /\ Code a' = Code a.
Proof.
  unfold compareVarCode. destruct (varInfos gen); [intros [= <-]; by split|].
  destruct (varInfos a); [intros [= <-]; split; [split_and!; auto|done]|].
  intros (x & _ & (y & _ & Hm)%bind_ok)%bind_ok. destruct (filter _ y); injection Hm as <-; (split; [split_and!; auto|done]).
Qed.
Lemma mergeTypes_marks K a gen a' : mergeExistedTypeCode ParseFile order a gen = Ok a' -> marks K a a'.
Proof.
  unfold mergeExistedTypeCode. intros (x & _ & (y & _ & (b & Hb & [= <-])%bind_ok)%bind_ok)%bind_ok.
  transitivity b; [|split_and!; auto]. eapply foldM_related; [apply _| |exact Hb]. intros c c' [k v] _. cbn.
  destruct (assoc x k); [|by intros [= <-]]. intros Hf. eapply foldM_related; [apply _| |exact Hf].
  intros d d' t _. apply merge_type_marks.
Qed.

(** The receivers with methods in the file. *)
Definition receivers (a : CodeAst) : list string := map fst (ParseStructMethods (AstInfos a)).

Lemma mergeMethods_marks a gen a' : mergeStructMethodsCode order a gen = Ok a' -> marks (receivers a) a a'.
Proof.
  unfold mergeStructMethodsCode. apply foldM_related; [apply _|]. intros b b' [k v] _. unfold merge_methods.
  destruct (assoc _ k) as [ms|] eqn:Hk; [|by intros [= <-]]. destruct (filter _ v); [by intros [= <-]|].
  destruct (_ <? _)%nat; [done|]. intros [= <-]. split_and!; [done..|]. cbn. intros s [-> |]%elem_of_cons; [|by left]. right.
  apply assoc_in in Hk. apply list_elem_of_In. apply (in_map fst _ (k, ms)). by apply list_elem_of_In.
Qed.

Lemma cover_marks K a gen : marks K a (coverFuncCode a gen).
Proof.
  unfold coverFuncCode. generalize (funcInfos a) as src. intros src. revert a.
  induction (funcInfos gen) as [|g l IH]; intros a; [reflexivity|]. cbn [foldl]. transitivity (cover_func src a g); [|apply IH].
  unfold cover_func. repeat case_match; try reflexivity; split_and!; auto.
Qed.

(** A block of the generated code that is new: a function whose receiver has
    no methods in the file, or the declaration of one type. *)
Definition new_block (a : CodeAst) (g : AstInfo) : Prop :=
  GetName g ∉ map GetName (AstInfos a) /\
  ((AstType g = FuncType /\ match Names g with [_; s] => s ∉ receivers a /\ s ∉ mergedStructMethodsMap a | _ => True end) \/
   (AstType g = TypeType /\ (length (Names g) <= 1)%nat)).

Lemma new_block_appended a b g : new_block a g -> marks (receivers a) a b ->
  appended b (map GetName (AstInfos a)) g = Some (AstComment g +:+ nl +:+ AstBody g).
Proof.
  intros [Hname Hkind] (Hi & _ & _ & Hm). unfold appended, IsPackageType, IsImportType, IsConstType, IsVarType, IsFuncType, IsTypeType.
  rewrite (bool_decide_false (GetName g ∈ _)) by done. destruct Hkind as [[-> Hs]|[-> Hl]].
  - replace (match Names g with [_; s] => bool_decide (s ∈ mergedStructMethodsMap b) | _ => false end) with false; [done|].
    destruct (Names g) as [|n [|s [|]]]; try done. symmetry. apply bool_decide_false. intros Hs'. destruct (Hm s Hs') as [|]; tauto.
  - destruct (Nat.ltb_spec 1 (length (Names g))); [lia|done].
Qed.

Lemma append_code_contains a codes text p : Contains (Code a) p = true -> Contains (Code (append_code codes text a)) p = true.
Proof. destruct codes; [done|]. cbn. apply Contains_app_l. Qed.

Lemma append_code_marks K codes text a : marks K a (append_code codes text a).
Proof. destruct codes; [reflexivity|]. split_and!; auto. Qed.

Lemma appended_contains a infos g text : g ∈ infos ->
  (forall b, marks (receivers a) a b -> appended b (map GetName (AstInfos a)) g = Some text) ->
  forall b, marks (receivers a) a b -> Contains (Code (appendNonExistedCode infos b)) text = true.
Proof.
  intros Hg Happ b Hb. unfold appendNonExistedCode.
  set (c := append_code (nonExistedConstCode b) _ b). set (d := append_code (nonExistedVarCode c) _ c).
  assert (marks (receivers a) a d) as Hd.
  { transitivity b; [done|]. transitivity c; apply append_code_marks. }
  destruct Hb as [-> _]. set (codes := omap _ infos).
  assert (text ∈ codes) as Ht by (apply list_elem_of_omap; exists g; split; [done|by apply Happ]).
  destruct codes as [|x codes]; [set_solver|]. cbn [append_code set_code Code].
  apply Contains_app, Contains_app_l. by apply Join_contains.
Qed.

Lemma merged_steps a gen a' : merged ParseFile order a gen = Ok a' ->
  exists b, marks (receivers a) a b /\ a' = appendNonExistedCode (AstInfos gen) b.
Proof.
  unfold merged. intros (a1 & H1%(mergeImport_marks (receivers a)) & Hm)%bind_ok.
  apply bind_ok in Hm as (a2 & [H2 _]%(compareConst_marks (receivers a)) & Hm).
  apply bind_ok in Hm as (a3 & [H3 _]%(compareVar_marks (receivers a)) & Hm).
  apply bind_ok in Hm as (a4 & H4%(mergeTypes_marks (receivers a)) & Hm).
  apply bind_ok in Hm as (a5 & H5%mergeMethods_marks & [= <-]).
  assert (marks (receivers a) a a4) as Ha4 by (do 3 (etrans; [eassumption|]); done).
  assert (receivers a4 = receivers a) as Hr by (unfold receivers; by rewrite (proj1 Ha4)).
  rewrite Hr in H5. eexists. split; [|reflexivity]. transitivity a4; [done|]. transitivity a5; [done|].
  destruct (isCoverSameFunc a5); [apply cover_marks|reflexivity].
Qed.

(** C21: Every new function, and every new method of a receiver without
    methods, and every new type declared alone, is in the merged text as it
    was generated, comment included. *)
Theorem new_blocks_arrive a gen a' g :
  merged ParseFile order a gen = Ok a' -> g ∈ AstInfos gen -> new_block a g ->
  Contains (Code a') (AstComment g +:+ nl +:+ AstBody g) = true.
Proof.
  intros (b & Hb & ->)%merged_steps Hg Hnew. eapply appended_contains; [done| |done].
  intros c Hc. by apply new_block_appended.
Qed.

(** ** Nothing is lost *)

(** No interface and no struct of the file is empty. *)
Definition full_members (a : CodeAst) : Prop :=
  forall infos, ParseTypeGroup ParseFile (group_text (typeInfos a)) = Ok infos ->
  Forall (fun t =>
    (forall i, ParseInterface ParseFile (TIBody t) = Ok [i] -> MethodInfos i <> []) /\
    (forall m name s, ParseStruct ParseFile (TIBody t) = Ok m -> assoc m name = Some s -> Fields s <> [])) infos.

Definition inserts (a a' : CodeAst) : Prop := within (Code a) (Code a').
#[local] Instance inserts_preorder : PreOrder inserts.
Proof. split; [intros a; unfold inserts; reflexivity|]. intros a b c. unfold inserts. by etrans. Qed.

Lemma merge_members_inserts marker srcStr keyword name bodies new a a' : bodies <> [] ->
  merge_members marker srcStr keyword name bodies new a = Ok a' -> inserts a a'.
Proof.
  intros Hb. unfold merge_members. destruct new as [|n new]; [by intros [= <-]|]. destruct (_ <? _)%nat; [done|].
  destruct (last bodies) as [b|] eqn:E; [|by apply last_None in E]. intros [= <-]. apply Replace1_within, Replace1_within, within_l.
Qed.

Lemma merge_type_inserts v a t a' :
  Forall (fun u => (forall i, ParseInterface ParseFile (TIBody u) = Ok [i] -> MethodInfos i <> []) /\
    (forall m name s, ParseStruct ParseFile (TIBody u) = Ok m -> assoc m name = Some s -> Fields s <> [])) v ->
  merge_type ParseFile order v a t = Ok a' -> inserts a a'.
Proof.
  intros Hv. unfold merge_type, mergeInterfaceMethodCode, mergeStructFieldsCode. destruct (last _) as [u|] eqn:Hu; [|by intros [= <-]].
  apply last_Some_elem_of, list_elem_of_filter in Hu as [_ Hu]. rewrite Forall_forall in Hv. destruct (Hv u Hu) as [Hi Hs].
  case_bool_decide; [|case_bool_decide; [|by intros [= <-]]]; intros (x & Hx & (y & _ & Hm)%bind_ok)%bind_ok.
  - destruct x as [|i [|]], y as [|j [|]]; try (injection Hm as <-; reflexivity).
    eapply merge_members_inserts; [|exact Hm]. intros Hnil%map_eq_nil. by apply (Hi i).
  - eapply foldM_related; [apply _| |exact Hm]. intros b b' [name g] _. cbn.
    destruct (assoc x name) as [st|] eqn:Hst; [|by intros [= <-]]. apply merge_members_inserts.
    intros Hnil%map_eq_nil. by apply (Hs x name st).
Qed.

Lemma mergeTypes_inserts a gen a' : full_members a -> mergeExistedTypeCode ParseFile order a gen = Ok a' -> inserts a a'.
Proof.
  intros Hfull. unfold mergeExistedTypeCode, parseTypeCode.
  intros (x & (infos & Hinfos & [= <-])%bind_ok & (y & _ & (b & Hb & [= <-])%bind_ok)%bind_ok)%bind_ok.
  transitivity b; [|unfold inserts; reflexivity]. specialize (Hfull _ Hinfos). rewrite Forall_forall in Hfull.
  eapply foldM_related; [apply _| |exact Hb]. intros c c' [k v] _. cbn.
  destruct (assoc _ k) as [w|] eqn:Hw; [|by intros [= <-]]. apply parseTypeCode_map in Hw. intros Hf.
  eapply foldM_related; [apply _| |exact Hf]. intros d d' t _. apply merge_type_inserts.
  rewrite Forall_forall in Hw |- *. intros u Hu. by apply Hfull, Hw.
Qed.

Lemma mergeMethods_inserts a gen a' : mergeStructMethodsCode order a gen = Ok a' -> inserts a a'.
Proof.
  unfold mergeStructMethodsCode. apply foldM_related; [apply _|]. intros b b' [k v] _. unfold merge_methods.
  destruct (assoc _ k) as [ms|]; [|by intros [= <-]]. destruct (filter _ v); [by intros [= <-]|].
  destruct (_ <? _)%nat; [done|]. intros [= <-]. apply Replace1_within, within_l.
Qed.

Lemma mergeImport_inserts a gen a' : importInfos a = [] \/ importInfos gen = [] ->
  mergeImportCode ParseFile a gen = Ok a' -> inserts a a'.
Proof.
  intros Hnone. unfold mergeImportCode. destruct (importInfos gen) as [|g l]; [by intros [= <-]|]. destruct Hnone as [-> |]; [|done].
  destruct (packageInfo a); [|done]. destruct (_ <? _)%nat; [done|]. intros [= <-]. apply Replace1_within, within_l.
Qed.

Lemma append_code_inserts codes text a : inserts a (append_code codes text a).
Proof. destruct codes; [reflexivity|]. apply within_l. Qed.
Lemma append_inserts infos a : inserts a (appendNonExistedCode infos a).
Proof. unfold appendNonExistedCode. etrans; [apply append_code_inserts|]. etrans; apply append_code_inserts. Qed.

(** C20: Without the option to cover functions a merge only inserts: the bytes
    of the file are all in the merged text, in their order - for a file
    without imports, or generated code without them, and without empty
    interfaces and structs. *)
Theorem merge_only_inserts a gen a' :
  merged ParseFile order a gen = Ok a' -> isCoverSameFunc a = false -> importInfos a = [] \/ importInfos gen = [] ->
  full_members a -> within (Code a) (Code a').
Proof.
  unfold merged. intros (a1 & H1 & Hm)%bind_ok Hcover Himports Hfull.
  apply bind_ok in Hm as (a2 & [M2 H2]%(compareConst_marks []) & Hm).
  apply bind_ok in Hm as (a3 & [M3 H3]%(compareVar_marks []) & Hm).
  apply bind_ok in Hm as (a4 & H4 & Hm). apply bind_ok in Hm as (a5 & H5 & [= <-]).
  assert (marks [] a a3) as (_ & Ht & Hc & _).
  { transitivity a1; [by eapply mergeImport_marks|]. by transitivity a2. }
  assert (isCoverSameFunc a5 = false) as ->.
  { destruct (mergeTypes_marks [] _ _ _ H4) as (_ & _ & H4' & _). destruct (mergeMethods_marks _ _ _ H5) as (_ & _ & H5' & _). congruence. }
  change (inserts a (appendNonExistedCode (AstInfos gen) a5)). transitivity a1; [by eapply mergeImport_inserts|].
  transitivity a3; [unfold inserts; by rewrite H3, H2|]. transitivity a4.
  { eapply mergeTypes_inserts; [|done]. unfold full_members. by rewrite Ht. }
  transitivity a5; [by eapply mergeMethods_inserts|]. apply append_inserts.
Qed.

End Facts.
(** ** Files to try it on

    A parser that knows some files. *)
Section Samples.
Variable src : string.

Definition offset (piece : string) : nat := default O (Index src piece).
Definition span_of (piece : string) : Span :=
  mkSpan (offset piece) (offset piece + str_len piece) (S (count_char newline (str_take (offset piece) src)))
    (count_char newline piece).
Definition func_of (name code : string) : Decl :=
  DFunc (mkFuncDecl None [] name (offset code) (Some (mkBlock (offset code + str_len code - 1) [])) (span_of code)).
Definition var_of (name code spec : string) : Decl :=
  DGen (mkGenDecl None (offset code) None (VAR [mkValueSpec None name [] [] (span_of spec)]) (span_of code)).
Definition type_of (code name : string) (e : Expr) : Decl :=
  DGen (mkGenDecl None (offset code) None (TYPE [mkTypeSpec None name e (span_of (TrimPrefix code "type "))]) (span_of code)).
Definition import_of (path : string) : Decl :=
  let quoted := String dquote (path +:+ single dquote) in
  DGen (mkGenDecl None (offset ("import " +:+ quoted)) None (IMPORT [mkImportSpec None None quoted (span_of quoted)])
          (span_of ("import " +:+ quoted))).
Definition file_of (clause name : string) (decls inspected : list Decl) : File :=
  mkFile None (offset clause) name decls inspected [].
End Samples.

Definition text (l : list string) : string := lines_of l +:+ nl.
Definition table (l : list (string * File)) (src : string) : option File := assoc l src.
(** [import "path"]. *)
Definition import_text (path : string) : string := "import " +:+ String dquote (path +:+ single dquote).

Definition own_src : string := text ["package a"; ""; "func F() {}"; ""; "var _ = F"].
Definition own_group : string := text ["package parse"; ""; "var _ = F"].
Definition gen_src : string := text ["package a"; ""; "func F() {}"; ""; "func G() {"; "	var x int"; "	_ = x"; "}"].
Definition gen_group : string := text ["package parse"; ""; "var x int"].
Definition some_files : list (string * File) :=
  [(own_src, file_of own_src "package a" "a" [func_of own_src "F" "func F() {}"; var_of own_src "_" "var _ = F" "_ = F"]
               [func_of own_src "F" "func F() {}"; var_of own_src "_" "var _ = F" "_ = F"]);
   (own_group, file_of own_group "package parse" "parse" [var_of own_group "_" "var _ = F" "_ = F"] []);
   (gen_group, file_of gen_group "package parse" "parse" [var_of gen_group "x" "var x int" "x int"] []);
   (package_clause, file_of package_clause "package parse" "parse" [] []);
   (gen_src, let f := func_of gen_src "F" "func F() {}" in
             let g := func_of gen_src "G" (lines_of ["func G() {"; "	var x int"; "	_ = x"; "}"]) in
             file_of gen_src "package a" "a" [f; g] [f; g; var_of gen_src "x" "var x int" "x int"])].

Definition opened (l : list (string * File)) (src : string) : CodeAst :=
  match NewCodeAstFromData (table l) src [] with
  | Ok a => a
  | _ => new_code_ast "" "" [] []
  end.
Definition merged_text (l : list (string * File)) (src gen : string) : result error string :=
  Code <$> merged (table l) (fun keys => keys) (opened l src) (opened l gen).

Lemma merge_with_itself_witness :
  match MergeGoCode (table some_files) (fun _ => None) (fun keys => keys) own_src own_src [] with
  | Ok a' => Code a' = own_src /\ changeCodeFlag a' = false
  | Err e => e = ErrSyntax
  | Panic => False
  end.
Proof.
  apply (merge_with_itself (table some_files) (fun keys => keys) (fun _ => None) own_src [] (opened some_files own_src)).
  - by vm_compute.
  - by vm_compute.
  - split; intros infos; vm_compute; intros [= <-].
    + constructor.
    + repeat constructor.
Defined.

(** The merge of [own_src] and the code generated with [G]. *)
Definition gen_merged : CodeAst :=
  match merged (table some_files) (fun keys => keys) (opened some_files own_src) (opened some_files gen_src) with
  | Ok a => a
  | _ => opened some_files own_src
  end.

Definition block_G : AstInfo := mkAstInfo FuncType ["G"] "" (lines_of ["func G() {"; "	var x int"; "	_ = x"; "}"]).

Lemma new_blocks_arrive_witness : Contains (Code gen_merged) (AstComment block_G +:+ nl +:+ AstBody block_G) = true.
Proof.
  apply (new_blocks_arrive (table some_files) (fun keys => keys) (opened some_files own_src) (opened some_files gen_src)).
  - by vm_compute.
  - apply list_elem_of_In. vm_compute. tauto.
  - split.
    + rewrite list_elem_of_In. vm_compute. intros Hin. repeat destruct Hin as [Hin|Hin]; done.
    + by left.
Defined.

Lemma merge_only_inserts_witness : within own_src (Code gen_merged).
Proof.
  apply (merge_only_inserts (table some_files) (fun keys => keys) (opened some_files own_src) (opened some_files gen_src)).
  - by vm_compute.
  - by vm_compute.
  - left. by vm_compute.
  - intros infos. vm_compute. intros [= <-]. constructor.
Defined.

(** A local variable of a function is taken for one of the file: it is not
    blank, so it is added. *)
Lemma local_variable_added :
  Code gen_merged = own_src +:+ nl +:+ text ["var ("; "	x int"; ")"] +:+ nl +:+ text ["func G() {"; "	var x int"; "	_ = x"; "}"].
Proof. by vm_compute. Qed.

(** A type of a group is not known by its name: it is declared again. *)
Definition group_src : string := text ["package a"; ""; "type ("; "	B int"; "	C int"; ")"].
Definition group_body : string := text ["package parse"; ""; "type ("; "	B int"; "	C int"; ")"].
Definition alone_src : string := text ["package a"; ""; "type B int"].
Definition alone_body : string := text ["package parse"; ""; "type B int"].
Definition group_decl (s : string) : Decl :=
  let code := lines_of ["type ("; "	B int"; "	C int"; ")"] in
  DGen (mkGenDecl None (offset s code) (Some (offset s code + str_len code - 1)%nat)
    (TYPE [mkTypeSpec None "B" (Ident "int") (span_of s "B int"); mkTypeSpec None "C" (Ident "int") (span_of s "C int")])
    (span_of s code)).
Definition type_files : list (string * File) :=
  [(group_src, file_of group_src "package a" "a" [group_decl group_src] [group_decl group_src]);
   (group_body, file_of group_body "package parse" "parse" [group_decl group_body] []);
   (alone_src, file_of alone_src "package a" "a" [type_of alone_src "type B int" "B" (Ident "int")] [type_of alone_src "type B int" "B" (Ident "int")]);
   (alone_body, file_of alone_body "package parse" "parse" [type_of alone_body "type B int" "B" (Ident "int")] [])].

Lemma grouped_type_declared_twice :
  merged_text type_files group_src alone_src = Ok (group_src +:+ nl +:+ text ["type B int"]).
Proof. by vm_compute. Qed.

(** The imports follow the first text that reads like the package clause. *)
Definition import_src : string := text ["// package a"; "package a"; ""; import_text "x"].
Definition import_gen : string := text ["package a"; ""; import_text "y"].
Definition import_group (path : string) : string := text ["package parse"; ""; import_text path].
Definition import_file (s clause name path : string) : File := file_of s clause name [import_of s path] [import_of s path].
Definition import_files : list (string * File) :=
  [(import_src, mkFile None 13 "a" [import_of import_src "x"] [import_of import_src "x"] []);
   (import_gen, import_file import_gen "package a" "a" "y");
   (import_group "x", import_file (import_group "x") "package parse" "parse" "x");
   (import_group "y", import_file (import_group "y") "package parse" "parse" "y");
   (package_clause, file_of package_clause "package parse" "parse" [] [])].

Lemma imports_before_the_package :
  merged_text import_files import_src import_gen =
    Ok (text ["// package a"; ""; "import ("; String (ascii_of_nat 9) (String dquote ("x" +:+ single dquote));
              String (ascii_of_nat 9) (String dquote ("y" +:+ single dquote)); ")"; "package a"; ""; ""]).
Proof. by vm_compute. Qed.

(** A comment that names a package makes a group be read two lines too low. *)
Definition commented : string := text ["// B counts the things of the package that owns it, all."; "type B int"].
Definition commented_body : string := package_clause +:+ commented.
Lemma commented_type_lost :
  ParseTypeGroup (table [(commented_body, file_of commented_body "package parse" "parse"
                            [type_of commented_body "type B int" "B" (Ident "int")] [])]) commented =
    Ok [mkTypeInfo "int" "B" "" "" true].
Proof. by vm_compute. Qed.

(** A function without a body, as one written in assembly. *)
Lemma bodiless_function_panics :
  let src := text ["package a"; ""; "func F()"] in
  let f := DFunc (mkFuncDecl None [] "F" 11 None (span_of src "func F()")) in
  NewCodeAstFromData (table [(src, file_of src "package a" "a" [f] [f])]) src [] = Panic.
Proof. by vm_compute. Qed.

End GoMergeFacts.
