(* ===== verification/SqlNames.v ===== *)
(** * Names of generated code (pkg/sql2code/parser/nameFormat.go, commonParser.go)

    Table and column names in the cases that Go, JSON and protobuf use.  The
    word splitting of xstrings and the plurals of inflection are a class; the
    table of abbreviations is a Go map, ranged over in an order that is a
    variable.

    Theorems: the Pascal case does not depend on that order; the snake case
    does. *)

From S2P Require Import Prelude GoStr.
From Stdlib Require Import Ascii.

Module SqlNames.

(** xstrings and inflection. *)
Class Words := {
  ToPascalCase : string -> string;
  ToCamelCase : string -> string;
  ToSnakeCase : string -> string;
  Plural : string -> string }.

Definition peculiarNouns : list (string * string) :=
  [("ID", "Id"); ("UID", "Uid"); ("UUID", "Uuid"); ("GUID", "Guid"); ("URI", "Uri"); ("URL", "Url"); ("IP", "Ip");
   ("QPS", "Qps"); ("API", "Api"); ("ASCII", "Ascii"); ("CPU", "Cpu"); ("CSS", "Css"); ("DNS", "Dns"); ("EOF", "Eof");
   ("HTML", "Html"); ("HTTP", "Http"); ("HTTPS", "Https"); ("JSON", "Json"); ("LHS", "Lhs"); ("RAM", "Ram");
   ("RHS", "Rhs"); ("RPC", "Rpc"); ("SLA", "Sla"); ("SMTP", "Smtp"); ("SSH", "Ssh"); ("TLS", "Tls"); ("TTL", "Ttl");
   ("UI", "Ui"); ("UTF8", "Utf8"); ("VM", "Vm"); ("XML", "Xml"); ("XSRF", "Xsrf"); ("XSS", "Xss")].

(** [l > nl && str[l-nl:] == v]. *)
Definition ends_with (str v : string) : bool :=
  (str_len v <? str_len str)%nat && bool_decide (str_drop (str_len str - str_len v) str = v).
Definition cut_end (str v : string) : string := str_take (str_len str - str_len v) str.

Definition firstLetterToLower (str : string) : string :=
  match str with
  | String c s => if is_alpha c then String (lower c) s else str
  | EmptyString => str
  end.
Definition firstLetterToUpper (str : string) : string :=
  match str with
  | String c s => if is_alpha c then String (upper c) s else str
  | EmptyString => str
  end.

(** iD, iP, iDs and iPs are lower case. *)
Definition customFirstLetterToLower (str : string) : string :=
  let str := firstLetterToLower str in
  if bool_decide (str = "iD") then "id"
  else if bool_decide (str = "iP") then "ip"
  else if bool_decide (str = "iDs") then "ids"
  else if bool_decide (str = "iPs") then "ips"
  else str.

(** The ending of a plural in lower case. *)
Definition customEndOfLetterToLower (srcStr str : string) : string :=
  let l := Z.of_nat (str_len str) - Z.of_nat (str_len srcStr) in
  if l =? 1 then
    if bool_decide (str_drop (str_len str - 1) str = "S") then str_take (str_len str - 1) str +:+ "s" else str
  else if l =? 2 then
    if bool_decide (str_drop (str_len str - 2) str = "ES") then str_take (str_len str - 2) str +:+ "es" else str
  else str.

Section Names.
Context `{Words}.
(** The table in the order of one range over it. *)
Variable nouns : list (string * string).

Definition toCamel (s : string) : string :=
  let str := ToPascalCase s in
  let name := ToUpper str in
  if bool_decide (name ∈ map fst peculiarNouns) then name
  else
    let str := match List.find (fun kv => ends_with str (snd kv)) nouns with
               | Some (k, v) => cut_end str v +:+ k
               | None => str
               end in
    if bool_decide (str = "_ID") then "ID" else str.

Definition customToCamel (str : string) : string :=
  let str := toCamel str in
  if bool_decide (str ∈ map fst peculiarNouns) then ToLower str else firstLetterToLower str.

(** The first noun that the name is or ends with. *)
Definition snake_step (str : string) : string :=
  match List.find (fun kv => bool_decide (str = fst kv) || ends_with str (fst kv)) nouns with
  | Some (k, _) => if bool_decide (str = k) then ToLower str else cut_end str k +:+ "_" +:+ ToLower k
  | None => str
  end.
Definition customToSnake (str : string) : string :=
  let str := ToSnakeCase (snake_step (toCamel str)) in
  if HasPrefix str "__" then str_drop 1 str else str.
End Names.

(** ** The order of the table *)

Lemma ends_with_suffix str v : ends_with str v = true -> exists t, str = t +:+ v.
Proof.
  unfold ends_with. rewrite andb_true_iff, bool_decide_eq_true. intros [_ Hv].
  exists (str_take (str_len str - str_len v) str). rewrite <- Hv at 2. by rewrite take_drop_s.
Qed.

(** Of two endings of a text one is an ending of the other. *)
Lemma suffixes_nest (s t u v : string) : s +:+ t = u +:+ v -> (str_len v <= str_len t)%nat -> exists w, t = w +:+ v.
Proof.
  revert u. induction s as [|c s IH]; intros u Heq Hlen.
  - rewrite app_nil_l_s in Heq. by exists u.
  - destruct u as [|d u].
    + exfalso. rewrite app_nil_l_s in Heq. apply (f_equal str_len) in Heq. rewrite str_len_app in Heq. cbn in Heq. lia.
    + rewrite !app_cons_s in Heq. injection Heq as _ Heq. by apply (IH u).
Qed.

(** No ending in the table is an ending of another. *)
Definition endings_apart (l : list string) : bool :=
  forallb (fun v => forallb (fun w => bool_decide (v = w) || negb (HasSuffix w v)) l) l.
Lemma nouns_apart : endings_apart (map snd peculiarNouns) = true.
Proof. by vm_compute. Qed.

Lemma one_ending str v w : v ∈ map snd peculiarNouns -> w ∈ map snd peculiarNouns ->
  ends_with str v = true -> ends_with str w = true -> v = w.
Proof.
  assert (forall v w, v ∈ map snd peculiarNouns -> w ∈ map snd peculiarNouns -> ends_with str v = true -> ends_with str w = true ->
    (str_len v <= str_len w)%nat -> v = w) as Hle.
  { intros v' w' Hv Hw [t Ht]%ends_with_suffix [u Hu]%ends_with_suffix Hlen.
    assert (HasSuffix w' v' = true) as Hs.
    { apply HasSuffix_spec. apply (suffixes_nest u w' t v'); [congruence|done]. }
    pose proof nouns_apart as Hap. unfold endings_apart in Hap. rewrite forallb_forall in Hap.
    specialize (Hap v' (proj1 (list_elem_of_In _ _) Hv)). rewrite forallb_forall in Hap.
    specialize (Hap w' (proj1 (list_elem_of_In _ _) Hw)). rewrite Hs, orb_false_r in Hap. by apply bool_decide_eq_true in Hap. }
  intros Hv Hw Ev Ew. destruct (Nat.le_ge_cases (str_len v) (str_len w)) as [Hl|Hl]; [by apply Hle|].
  symmetry. by apply Hle.
Qed.

Lemma keys_determined : forallb (fun kv => forallb (fun kw => negb (bool_decide (snd kv = snd kw)) || bool_decide (kv = kw)) peculiarNouns) peculiarNouns = true.
Proof. by vm_compute. Qed.
Lemma one_key kv kw : kv ∈ peculiarNouns -> kw ∈ peculiarNouns -> snd kv = snd kw -> kv = kw.
Proof.
  intros Hv Hw Heq. pose proof keys_determined as Hd. rewrite forallb_forall in Hd.
  specialize (Hd kv (proj1 (list_elem_of_In _ _) Hv)). rewrite forallb_forall in Hd.
  specialize (Hd kw (proj1 (list_elem_of_In _ _) Hw)). rewrite (bool_decide_true _ Heq) in Hd. by apply bool_decide_eq_true in Hd.
Qed.

(** Finding an entry that only one has does not depend on the order. *)
Lemma find_perm {A} (f : A -> bool) l1 l2 : l1 ≡ₚ l2 ->
  (forall x y, x ∈ l1 -> y ∈ l1 -> f x = true -> f y = true -> x = y) -> List.find f l1 = List.find f l2.
Proof.
  intros Hp Hone. assert (forall x, In x l1 <-> In x l2) as Hin by (intros x; by rewrite <- !list_elem_of_In, Hp).
  destruct (List.find f l1) as [x|] eqn:E1; destruct (List.find f l2) as [y|] eqn:E2; [|..|done].
  - apply find_some in E1 as [H1 F1], E2 as [H2 F2]. f_equal. apply Hone; [| |done|done]; apply list_elem_of_In; [done|by apply Hin].
  - apply find_some in E1 as [H1 F1]. apply Hin in H1. pose proof (find_none _ _ E2 _ H1). congruence.
  - apply find_some in E2 as [H2 F2]. apply Hin in H2. pose proof (find_none _ _ E1 _ H2). congruence.
Qed.

(** The Pascal case of a name does not depend on the order in which Go
    ranges over the table of abbreviations. *)
Theorem toCamel_order_independent `{Words} nouns1 nouns2 s :
  nouns1 ≡ₚ peculiarNouns -> nouns2 ≡ₚ peculiarNouns -> toCamel nouns1 s = toCamel nouns2 s.
Proof.
  intros H1 H2. unfold toCamel. case_bool_decide; [done|].
  rewrite (find_perm (fun kv => ends_with (ToPascalCase s) (snd kv)) nouns1 nouns2); [done|by rewrite H1, H2|].
  intros kv kw Hv Hw Ev Ew. rewrite H1 in Hv, Hw. apply one_key; [done|done|].
  eapply one_ending; [| |exact Ev|exact Ew]; apply list_elem_of_In, in_map; by apply list_elem_of_In.
Qed.

(** The words of the examples. *)
Definition sample_words : Words := {|
  ToPascalCase := fun s => Join (map firstLetterToUpper (Split (ToLower s) "_")) "";
  ToCamelCase := fun s => Join (map firstLetterToUpper (Split (ToLower s) "_")) "";
  ToSnakeCase := ToLower;
  Plural := fun s => s +:+ "s" |}.

Lemma toCamel_order_independent_witness :
  @toCamel sample_words peculiarNouns "order_uuid" = @toCamel sample_words (rev peculiarNouns) "order_uuid".
Proof.
  apply (@toCamel_order_independent sample_words); [done|]. apply Permutation_sym, Permutation_rev.
Defined.

(** The snake case does: [uuid] is itself, or [uu_id]. *)
Lemma snake_case_depends_on_order :
  snake_step peculiarNouns "UUID" = "UU_id" /\ snake_step (rev peculiarNouns) "UUID" = "uuid" /\
  snake_step peculiarNouns "OrderUID" = "OrderU_id" /\ snake_step (rev peculiarNouns) "OrderUID" = "Order_uid".
Proof. by vm_compute. Qed.

End SqlNames.
