(* ===== verification/SqlFields.v ===== *)
(** * Fields of generated code (pkg/sql2code/parser/parser.go, commonParser.go)

    The Go type of a column, its protobuf type, the zero values the templates
    write, and the column that the generated operations are keyed by.

    Theorems: every known column type that is not null has a protobuf scalar
    type; which column is the key. *)

From S2P Require Import Prelude GoStr SqlNames.
From Stdlib Require Import Ascii.

Module SqlFields.
Import SqlNames.

Definition DBDriverMysql : string := "mysql".
Definition DBDriverPostgresql : string := "postgresql".
Definition DBDriverTidb : string := "tidb".
Definition DBDriverSqlite : string := "sqlite".
Definition DBDriverMongodb : string := "mongodb".

Definition jsonTypeName : string := "datatypes.JSON".
Definition jsonPkgPath : string := "gorm.io/datatypes".
Definition boolTypeName : string := "sgorm.Bool".
Definition boolTypeTinyName : string := "sgorm.TinyBool".
Definition boolPkgPath : string := "github.com/moweilong/milady/pkg/sgorm".
Definition decimalTypeName : string := "decimal.Decimal".
Definition decimalPkgPath : string := "github.com/shopspring/decimal".
Definition unknownCustomType : string := "UnknownCustomType".
Definition goTypeOID : string := "primitive.ObjectID".

Definition quoted (s : string) : string := String dquote (s +:+ single dquote).

(** ** Columns (sqlparser) *)

(** The column types of the SQL parser that the code names. *)
Inductive mysqlType : Type :=
  | TypeTiny | TypeShort | TypeInt24 | TypeLong | TypeYear | TypeLonglong | TypeDuration | TypeFloat | TypeDouble
  | TypeString | TypeVarchar | TypeVarString | TypeBlob | TypeTinyBlob | TypeMediumBlob | TypeLongBlob
  | TypeTimestamp | TypeDatetime | TypeDate | TypeNewDate | TypeDecimal | TypeNewDecimal | TypeJSON | TypeEnum
  | TypeSet | TypeGeometry | TypeBit | TypeOther.
#[export] Instance mysqlType_eq_dec : EqDecision mysqlType.
Proof. solve_decision. Defined.

(** The type of a column, with its text and that of the schema. *)
Record FieldType : Type := mkFieldType { Tp : mysqlType; Unsigned : bool; TypeText : string; InfoSchemaStr : string }.

Inductive NullStyle : Type := NullDisable | NullInSql | NullInPointer.

Record rewriterField : Type := mkRewriter { rwGoType : string; rwPath : string }.

Record tmplField : Type := mkField {
  IsPrimaryKey : bool;
  ColName : string;
  FName : string;
  GoType : string;
  FTag : string;
  FComment : string;
  JSONName : string;
  FDriver : string;
  rewriter : option rewriterField }.
Definition with_type (t : string) (f : tmplField) : tmplField :=
  mkField (IsPrimaryKey f) (ColName f) (FName f) t (FTag f) (FComment f) (JSONName f) (FDriver f) (rewriter f).
Definition with_json (n : string) (f : tmplField) : tmplField :=
  mkField (IsPrimaryKey f) (ColName f) (FName f) (GoType f) (FTag f) (FComment f) n (FDriver f) (rewriter f).

(** ** Go types *)

Definition sql_null_type (t : mysqlType) : option string :=
  match t with
  | TypeTiny => Some "sql.NullInt8"
  | TypeShort | TypeInt24 | TypeLong | TypeYear => Some "sql.NullInt32"
  | TypeLonglong | TypeDuration => Some "sql.NullInt64"
  | TypeFloat | TypeDouble => Some "sql.NullFloat64"
  | TypeString | TypeVarchar | TypeVarString | TypeBlob | TypeTinyBlob | TypeMediumBlob | TypeLongBlob => Some "sql.NullString"
  | TypeTimestamp | TypeDatetime | TypeDate | TypeNewDate => Some "sql.NullTime"
  | TypeDecimal | TypeNewDecimal => Some "sql.NullString"
  | TypeJSON | TypeEnum | TypeSet | TypeGeometry => Some "sql.NullString"
  | TypeBit => Some "sql.NullBool"
  | TypeOther => None
  end.

(** The type, the package to import and the type the model has instead. *)
Definition plain_type (colTp : FieldType) : option (string * string * option rewriterField) :=
  match Tp colTp with
  | TypeTiny =>
      if bool_decide (ToLower (TypeText colTp) = "tinyint(1)") then Some ("bool", "", Some (mkRewriter boolTypeTinyName boolPkgPath))
      else Some (if Unsigned colTp then "uint" else "int", "", None)
  | TypeShort | TypeInt24 | TypeLong | TypeYear => Some (if Unsigned colTp then "uint" else "int", "", None)
  | TypeLonglong | TypeDuration => Some (if Unsigned colTp then "uint64" else "int64", "", None)
  | TypeFloat | TypeDouble => Some ("float64", "", None)
  | TypeString | TypeVarchar | TypeVarString | TypeBlob | TypeTinyBlob | TypeMediumBlob | TypeLongBlob => Some ("string", "", None)
  | TypeTimestamp | TypeDatetime | TypeDate | TypeNewDate => Some ("time.Time", "time", None)
  | TypeEnum | TypeSet | TypeGeometry => Some ("string", "", None)
  | TypeJSON => Some ("string", "", Some (mkRewriter jsonTypeName jsonPkgPath))
  | TypeBit =>
      if bool_decide (ToLower (TypeText colTp) = "bit(1)") then Some ("bool", "", Some (mkRewriter boolTypeName boolPkgPath))
      else Some ("[]byte", "", None)
  | TypeDecimal | TypeNewDecimal => Some ("string", "", Some (mkRewriter decimalTypeName decimalPkgPath))
  | TypeOther => None
  end.

Definition mysqlToGoType (colTp : FieldType) (style : NullStyle) : string * string * option rewriterField :=
  match style with
  | NullInSql =>
      match sql_null_type (Tp colTp) with Some name => (name, "database/sql", None) | None => (unknownCustomType, "", None) end
  | _ =>
      match plain_type colTp with
      | Some (name, path, rw) => (match style with NullInPointer => "*" +:+ name | _ => name end, path, rw)
      | None => (unknownCustomType, "", None)
      end
  end.

(** ** Protobuf types *)

Definition proto_type (goType : string) : string :=
  if bool_decide (goType = "int") then "int32"
  else if bool_decide (goType = "uint") then "uint32"
  else if bool_decide (goType ∈ ["time.Time"; "*time.Time"]) then "string"
  else if bool_decide (goType = "float32") then "float"
  else if bool_decide (goType = "float64") then "double"
  else if bool_decide (goType ∈ ["[]int"; "[]int64"]) then "repeated int64"
  else if bool_decide (goType = "[]int32") then "repeated int32"
  else if bool_decide (goType = "[]byte") then "string"
  else if bool_decide (goType = "[]string") then "repeated string"
  else if bool_decide (goType = jsonTypeName) then "string"
  else goType.

(** Pointers and slices of mongodb. *)
Definition mongo_proto_type (goType : string) : string :=
  let t := match goType with
    | String c rest => if bool_decide (c = "*"%char) then rest
                       else if Contains goType "[]*" then "repeated " +:+ ReplaceAll goType "[]*" "" else goType
    | EmptyString => goType
    end in
  if bool_decide (t = "[]time.Time") then "repeated string" else t.

Definition is_rewriter (f : tmplField) (names : list string) : bool :=
  match rewriter f with Some r => bool_decide (rwGoType r ∈ names) | None => false end.

Section Naming.
Context `{Words}.
Variable nouns : list (string * string).

Definition json_name (jsonNameType : Z) (colName : string) : string :=
  if jsonNameType =? 0 then customToSnake nouns colName else customToCamel nouns colName.

Definition field_to_proto (jsonNameType : Z) (isCommonStyle : bool) (field : tmplField) : tmplField :=
  let t := proto_type (GoType field) in
  let t := if bool_decide (FDriver field = DBDriverMongodb /\ t <> "") then mongo_proto_type t
           else if bool_decide (ToLower (FName field) = "id") && negb isCommonStyle then "uint64" else t in
  let t := if is_rewriter field [jsonTypeName; decimalTypeName] then "string"
           else if is_rewriter field [boolTypeName; boolTypeTinyName] then "bool" else t in
  with_json (json_name jsonNameType (ColName field)) (with_type t field).
Definition goTypeToProto (fields : list tmplField) (jsonNameType : Z) (isCommonStyle : bool) : list tmplField :=
  map (field_to_proto jsonNameType isCommonStyle) fields.
End Naming.

Definition simpleGoTypeToProtoType (goType : string) : string :=
  if bool_decide (goType ∈ ["int"; "int32"]) then "int32"
  else if bool_decide (goType ∈ ["uint"; "uint32"]) then "uint32"
  else if bool_decide (goType = "int64") then "int64"
  else if bool_decide (goType = "uint64") then "uint64"
  else if bool_decide (goType = "string") then "string"
  else if bool_decide (goType ∈ ["time.Time"; "*time.Time"]) then "string"
  else if bool_decide (goType = "float32") then "float"
  else if bool_decide (goType = "float64") then "double"
  else if bool_decide (goType ∈ ["[]int"; "[]int64"]) then "repeated int64"
  else if bool_decide (goType = "[]int32") then "repeated int32"
  else if bool_decide (goType = "[]byte") then "string"
  else if bool_decide (goType = "[]string") then "repeated string"
  else "string".

(** ** Texts of the templates *)

Definition is_sql (driver : string) : bool := bool_decide (driver ∈ [DBDriverMysql; DBDriverPostgresql; DBDriverTidb]).
Definition number_types : list string :=
  ["int8"; "int16"; "int32"; "int64"; "int"; "uint8"; "uint16"; "uint32"; "uint64"; "uint"; "float64"; "float32";
   "sql.NullInt32"; "sql.NullInt64"; "sql.NullFloat64"].
Definition text_types : list string := ["string"; "sql.NullString"].
Definition time_types : list string := ["time.Time"; "*time.Time"; "sql.NullTime"].
Definition nil_types : list string := ["[]byte"; "[]string"; "[]int"; "interface{}"].

Definition ConditionZero (t : tmplField) : string :=
  if is_sql (FDriver t) && is_rewriter t [boolTypeName; boolTypeTinyName] then " != nil"
  else if is_sql (FDriver t) && is_rewriter t [jsonTypeName] then ".String() != " +:+ quoted ""
  else if is_sql (FDriver t) && is_rewriter t [decimalTypeName] then ".IsZero() == false"
  else if bool_decide (GoType t ∈ number_types) then " != 0"
  else if bool_decide (GoType t ∈ text_types) then " != " +:+ quoted ""
  else if bool_decide (GoType t ∈ time_types) then " != nil && table." +:+ FName t +:+ ".IsZero() == false"
  else if bool_decide (GoType t = "interface{}") then " != nil"
  else if bool_decide (GoType t = "bool") then " != false"
  else if bool_decide (FDriver t = DBDriverMongodb /\ GoType t = goTypeOID) then " != primitive.NilObjectID"
  else if bool_decide (GoType t = "*" +:+ FName t) then " != nil"
  else if Contains (GoType t) "[]" then " != nil && len(table." +:+ FName t +:+ ") > 0"
  else if bool_decide (GoType t = "") then " != " +:+ quoted "unknown_zero_value"
  else " != " +:+ GoType t.

(** The cases of mongodb in the zero values. *)
Definition mongo_zero (t : tmplField) (prefix : string) : option string :=
  if bool_decide (FDriver t = DBDriverMongodb) then
    if bool_decide (GoType t = goTypeOID) then Some (prefix +:+ "primitive.NilObjectID")
    else if bool_decide (GoType t = "*" +:+ FName t) then Some (prefix +:+ "nil")
    else if Contains (GoType t) "[]" then Some (prefix +:+ "nil")
    else None
  else None.

Definition GoZero (t : tmplField) : string :=
  if is_sql (FDriver t) && is_rewriter t [jsonTypeName; decimalTypeName] then " = " +:+ quoted "string"
  else if is_sql (FDriver t) && is_rewriter t [boolTypeName; boolTypeTinyName] then "= false"
  else if bool_decide (GoType t ∈ number_types) then "= 0"
  else if bool_decide (GoType t ∈ text_types) then "= " +:+ quoted "string"
  else if bool_decide (GoType t ∈ time_types) then "= " +:+ quoted "0000-01-00T00:00:00.000+08:00"
  else if bool_decide (GoType t ∈ nil_types) then "= nil"
  else if bool_decide (GoType t = "bool") then "= false"
  else match mongo_zero t "= " with
       | Some z => z
       | None => if bool_decide (GoType t = "") then "!= " +:+ quoted "unknown_zero_value" else "= " +:+ GoType t
       end.

Definition GoTypeZero (t : tmplField) : string :=
  if is_sql (FDriver t) && is_rewriter t [jsonTypeName; decimalTypeName] then quoted ""
  else if is_sql (FDriver t) && is_rewriter t [boolTypeName; boolTypeTinyName] then "false"
  else if bool_decide (GoType t ∈ number_types) then "0"
  else if bool_decide (GoType t ∈ text_types \/ GoType t = jsonTypeName) then quoted ""
  else if bool_decide (GoType t ∈ time_types) then quoted ""
  else if bool_decide (GoType t ∈ nil_types) then "nil"
  else if bool_decide (GoType t = "bool") then "false"
  else match mongo_zero t "" with
       | Some z => z
       | None => if bool_decide (GoType t = "") then quoted "unknown_zero_value" else GoType t
       end.

Definition AddOne (t : tmplField) (i : Z) : Z := wrap64 (i + 1).

(** [(validate.rules).T.rule, (tagger.tags) = "uri:\"name\""]. *)
Definition number (i : Z) : string := if i <? 0 then "-" +:+ FormatUint (- i) else FormatUint i.
Definition uri_tag (name : string) : string :=
  "(tagger.tags) = " +:+ quoted ("uri:\" +:+ String dquote (name +:+ "\" +:+ single dquote)).
Definition AddOneWithTag (t : tmplField) (i : Z) : string :=
  if bool_decide (ColName t = "id") then
    if bool_decide (FDriver t = DBDriverMongodb)
    then number (i + 1) +:+ " [(validate.rules).string.min_len = 6, " +:+ uri_tag "id" +:+ "]"
    else number (i + 1) +:+ " [(validate.rules)." +:+ GoType t +:+ ".gt = 0, " +:+ uri_tag "id" +:+ "]"
  else number (i + 1).
Definition AddOneWithTag2 (t : tmplField) (i : Z) : string :=
  if IsPrimaryKey t || bool_decide (ColName t = "id") then
    if bool_decide (GoType t = "string")
    then number (i + 1) +:+ " [(validate.rules).string.min_len = 1, " +:+ uri_tag (JSONName t) +:+ "]"
    else number (i + 1) +:+ " [(validate.rules)." +:+ GoType t +:+ ".gt = 0, " +:+ uri_tag (JSONName t) +:+ "]"
  else number (i + 1).
Definition getProtoFieldName (fields : list tmplField) : string :=
  match List.find (fun f => IsPrimaryKey f || bool_decide (ColName f = "id")) fields with Some f => JSONName f | None => "" end.

Definition ignoreColumns : list string := ["id"; "created_at"; "updated_at"; "deleted_at"; "__mysqlModel__"].
Definition isIgnoreFields (colName : string) (falseColumn : list string) : bool :=
  if bool_decide (colName ∈ falseColumn) then false else bool_decide (colName ∈ ignoreColumns).

(** Line ends of a comment as Go comment lines. *)
Definition cr : string := single (ascii_of_nat 13).
Definition lf : string := single newline.
Definition newlineIdentifier : list (string * string) :=
  [(cr +:+ lf, lf +:+ "//"); (lf, lf +:+ "//"); (cr, lf +:+ "//"); (lf +:+ "////", lf +:+ "//")].
Definition replaceCommentNewline (comment : string) : string :=
  foldl (fun c r => if Contains c (fst r) then ReplaceAll c (fst r) (snd r) else c) comment newlineIdentifier.

Definition getHandlerGoType (field : tmplField) : string :=
  if bool_decide (GoType field = "time.Time") then "*time.Time"
  else if is_sql (FDriver field) && is_rewriter field [jsonTypeName; decimalTypeName] then "string"
  else if is_sql (FDriver field) && is_rewriter field [boolTypeName; boolTypeTinyName] then "*bool"
  else GoType field.

(** ** The key of the generated operations *)

Record CrudInfo : Type := mkCrudInfo {
  TableNameCamel : string; TableNameCamelFCL : string; TableNamePluralCamel : string; TableNamePluralCamelFCL : string;
  ColumnName : string; ColumnNameCamel : string; ColumnNameCamelFCL : string; ColumnNamePluralCamel : string;
  ColumnNamePluralCamelFCL : string; CGoType : string; GoTypeFCU : string; ProtoType : string; IsStringType : bool;
  PrimaryKeyColumnName : string; IsCommonType : bool; IsStandardPrimaryKey : bool }.

Definition isDesiredGoType (t : string) : bool :=
  bool_decide (t ∈ ["string"; "uint64"; "int64"; "uint"; "int"; "uint32"; "int32"]).

Definition key_field (fields : list tmplField) : option tmplField :=
  match List.find IsPrimaryKey fields with
  | Some f => Some f
  | None =>
      match List.find (fun f => HasSuffix (ColName f) "_id" && isDesiredGoType (GoType f)) fields with
      | Some f => Some f
      | None =>
          match List.find (fun f => isDesiredGoType (GoType f)) fields with
          | Some f => Some f
          | None => head fields
          end
      end
  end.

Section Crud.
Context `{Words}.

(** A plural like its singular gets an [s]. *)
Definition distinct_plural (single plural : string) : string := if bool_decide (single = plural) then plural +:+ "s" else plural.
Definition setCrudInfo (table tname : string) (field : tmplField) : CrudInfo :=
  let plural := customEndOfLetterToLower (FName field) (Plural (FName field)) in
  let tablePlural := customEndOfLetterToLower table (Plural table) in
  mkCrudInfo table tname tablePlural (customFirstLetterToLower tablePlural)
    (ColName field) (FName field) (customFirstLetterToLower (FName field))
    (distinct_plural (FName field) plural)
    (distinct_plural (customFirstLetterToLower (FName field)) (customFirstLetterToLower plural))
    (GoType field) (firstLetterToUpper (GoType field)) (simpleGoTypeToProtoType (GoType field))
    (bool_decide (GoType field = "string")) (if IsPrimaryKey field then ColName field else "") false
    (bool_decide (ColName field = "id")).

(** [data.TableName] and [data.TName] are the arguments. *)
Definition newCrudInfo (table tname : string) (fields : list tmplField) : option CrudInfo :=
  setCrudInfo table tname <$> key_field fields.
End Crud.

Definition isIDPrimaryKey (info : option CrudInfo) : bool :=
  match info with
  | None => false
  | Some info => bool_decide (ColumnName info = "id" /\ CGoType info ∈ ["uint64"; "int64"; "uint"; "int"; "uint32"; "int32"])
  end.
Definition CheckCommonType (info : option CrudInfo) : bool := match info with None => false | Some i => IsCommonType i end.
Definition GetGRPCProtoValidation (info : option CrudInfo) : string :=
  match info with
  | None => ""
  | Some i => if bool_decide (ProtoType i = "string") then "[(validate.rules).string.min_len = 1]"
              else "[(validate.rules)." +:+ ProtoType i +:+ ".gt = 0]"
  end.
Definition GetWebProtoValidation (info : option CrudInfo) : string :=
  match info with
  | None => ""
  | Some i => if bool_decide (ProtoType i = "string")
              then "[(validate.rules).string.min_len = 1, " +:+ uri_tag (ColumnNameCamelFCL i) +:+ "]"
              else "[(validate.rules)." +:+ ProtoType i +:+ ".gt = 0, " +:+ uri_tag (ColumnNameCamelFCL i) +:+ "]"
  end.

(** ** The types agree *)

Definition proto_scalars : list string := ["int32"; "uint32"; "int64"; "uint64"; "double"; "string"; "bool"].
(** The zero value of a protobuf scalar, as Go writes it. *)
Definition proto_zero (t : string) : string :=
  if bool_decide (t = "string") then quoted "" else if bool_decide (t = "bool") then "false" else "0".

(** For a column of a known type that is not null the generated message
    has a protobuf scalar type, and - apart from columns called id and bit
    strings - the service compares it with the zero value of that type. *)
Theorem proto_types_valid `{Words} nouns jsonNameType isCommonStyle col f :
  Tp col <> TypeOther -> FDriver f <> DBDriverMongodb ->
  (GoType f, rewriter f) = (let '(name, _, rw) := mysqlToGoType col NullDisable in (name, rw)) ->
  let t := GoType (field_to_proto nouns jsonNameType isCommonStyle f) in
  t ∈ proto_scalars /\ (ToLower (FName f) <> "id" -> GoType f <> "[]byte" -> GoTypeZero f = proto_zero t).
Proof.
  intros Htp Hdrv Heq t. destruct f as [pk cn fname gt tag cmt jn drv rw]. cbn [GoType rewriter FDriver FName] in Hdrv, Heq |- *.
  assert (t = GoType (field_to_proto nouns jsonNameType isCommonStyle (mkField pk cn fname gt tag cmt jn drv rw))) as Ht by done.
  clearbody t. unfold field_to_proto in Ht. cbn [GoType with_json with_type FDriver FName] in Ht.
  rewrite (bool_decide_false (_ /\ _)) in Ht by tauto. unfold is_rewriter in *. cbn [rewriter] in *.
  unfold mysqlToGoType, plain_type in Heq. unfold GoTypeZero. cbn [GoType FDriver rewriter is_rewriter].
  destruct (bool_decide (ToLower fname = "id") && negb isCommonStyle) eqn:Hid.
  - assert (t ∈ proto_scalars) as Hin.
    { destruct (Tp col); try done; repeat case_bool_decide; try destruct (Unsigned col); simplify_eq; vm_compute; set_solver. }
    split; [done|]. apply andb_true_iff in Hid as [Hid%bool_decide_eq_true _]. tauto.
  - destruct (Tp col); try done; try destruct (bool_decide (ToLower (TypeText col) = _)); try destruct (Unsigned col);
      injection Heq as -> ->; subst t; (split; [vm_compute; set_solver|]); intros _ Hbytes; try done;
      unfold is_rewriter; cbn [rewriter]; destruct (is_sql drv); by vm_compute.
Qed.

(** ** The key *)

(** Primary keys, then keys by their name, then keys by their type. *)
Definition rank (f : tmplField) : nat :=
  if IsPrimaryKey f then 0
  else if isDesiredGoType (GoType f) then (if HasSuffix (ColName f) "_id" then 1 else 2)
  else 3.

Lemma find_split {A} (p : A -> bool) l x : List.find p l = Some x ->
  exists l1 l2, l = l1 ++ x :: l2 /\ p x = true /\ Forall (fun y => p y = false) l1.
Proof.
  induction l as [|y l IH]; cbn; [done|]. destruct (p y) eqn:E; [intros [= ->]; by exists [], l|].
  intros Hx. destruct (IH Hx) as (l1 & l2 & -> & Hp & Hl). exists (y :: l1), l2. split; [done|]. split; [done|by constructor].
Qed.
Lemma find_nothing {A} (p : A -> bool) l : List.find p l = None -> Forall (fun y => p y = false) l.
Proof. intros Hn. apply Forall_forall. intros x Hx. apply (find_none _ _ Hn). by apply list_elem_of_In. Qed.

(** The first field with [p], when [p] is having a rank of at most [n] and no
    field has a lower rank. *)
Lemma find_best (p : tmplField -> bool) n fields f :
  (forall g, g ∈ fields -> (n <= rank g)%nat) -> (forall g, g ∈ fields -> p g = true <-> rank g = n) ->
  List.find p fields = Some f ->
  exists l1 l2, fields = l1 ++ f :: l2 /\ Forall (fun g => (rank f < rank g)%nat) l1 /\ Forall (fun g => (rank f <= rank g)%nat) l2.
Proof.
  intros Hmin Hp Hf. destruct (find_split _ _ _ Hf) as (l1 & l2 & -> & Hpf & Hl1). exists l1, l2. split; [done|].
  assert (rank f = n) as -> by (apply Hp; [set_solver|done]). split; apply Forall_forall; intros g Hg.
  - pose proof (Hmin g ltac:(set_solver)). rewrite Forall_forall in Hl1. specialize (Hl1 g Hg).
    destruct (decide (rank g = n)) as [Hr|]; [|lia]. apply Hp in Hr; [congruence|set_solver].
  - apply Hmin. set_solver.
Qed.

Lemma rank_cases f :
  (IsPrimaryKey f = true <-> rank f = 0%nat) /\
  (HasSuffix (ColName f) "_id" && isDesiredGoType (GoType f) = true -> (rank f <= 1)%nat) /\
  (rank f = 1%nat -> HasSuffix (ColName f) "_id" && isDesiredGoType (GoType f) = true) /\
  (isDesiredGoType (GoType f) = true -> (rank f <= 2)%nat) /\ ((1 <= rank f <= 2)%nat -> isDesiredGoType (GoType f) = true) /\
  (rank f <= 3)%nat.
Proof. unfold rank. destruct (IsPrimaryKey f), (isDesiredGoType (GoType f)), (HasSuffix (ColName f) "_id"); cbn; split_and!; try done; lia. Qed.

(** The key of the generated operations is the first field of the best
    rank: a primary key, or else an [_id] column of an integer or string type,
    or else any such column, or else the first; a table with columns has one. *)
Theorem key_is_best `{Words} table tname fields : fields <> [] ->
  exists f l1 l2, fields = l1 ++ f :: l2 /\
    Forall (fun g => (rank f < rank g)%nat) l1 /\ Forall (fun g => (rank f <= rank g)%nat) l2 /\
    newCrudInfo table tname fields = Some (setCrudInfo table tname f).
Proof.
  intros Hne. unfold newCrudInfo. cut (exists f, key_field fields = Some f /\ exists l1 l2, fields = l1 ++ f :: l2 /\
    Forall (fun g => (rank f < rank g)%nat) l1 /\ Forall (fun g => (rank f <= rank g)%nat) l2).
  { intros (f & -> & l1 & l2 & -> & H1 & H2). by exists f, l1, l2. }
  unfold key_field. destruct (List.find IsPrimaryKey fields) as [f|] eqn:E0.
  { exists f. split; [done|]. apply (find_best IsPrimaryKey 0); [lia| |done]. intros g _. apply rank_cases. }
  apply find_nothing in E0. rewrite Forall_forall in E0.
  assert (forall g, g ∈ fields -> (1 <= rank g)%nat) as H1.
  { intros g Hg. specialize (E0 g Hg). pose proof (proj1 (rank_cases g)) as [_ Hr].
    destruct (rank g); [|lia]. specialize (Hr eq_refl). congruence. }
  destruct (List.find (fun f => HasSuffix (ColName f) "_id" && _) fields) as [f|] eqn:E1.
  { exists f. split; [done|]. eapply (find_best _ 1); [done| |exact E1]. intros g Hg. specialize (H1 g Hg).
    destruct (rank_cases g) as (_ & Ha & Hb & _). split; [intros Hs%Ha; lia|done]. }
  apply find_nothing in E1. rewrite Forall_forall in E1.
  assert (forall g, g ∈ fields -> (2 <= rank g)%nat) as H2.
  { intros g Hg. specialize (E1 g Hg). specialize (H1 g Hg). destruct (rank_cases g) as (_ & _ & Hb & _).
    destruct (decide (rank g = 1%nat)) as [Hr|]; [|lia]. rewrite (Hb Hr) in E1. done. }
  destruct (List.find (fun f => isDesiredGoType (GoType f)) fields) as [f|] eqn:E2.
  { exists f. split; [done|]. eapply (find_best _ 2); [done| |exact E2]. intros g Hg. specialize (H2 g Hg).
    destruct (rank_cases g) as (_ & _ & _ & Ha & Hb & _). split; [intros Hs%Ha; lia|intros; apply Hb; lia]. }
  apply find_nothing in E2. rewrite Forall_forall in E2.
  assert (forall g, g ∈ fields -> rank g = 3%nat) as H3.
  { intros g Hg. specialize (E2 g Hg). specialize (H2 g Hg). destruct (rank_cases g) as (_ & _ & _ & _ & Hb & H3).
    destruct (decide (rank g = 2%nat)) as [Hr|]; [|lia]. rewrite Hb in E2 by lia. done. }
  destruct fields as [|f l]; [done|]. exists f. split; [done|]. exists [], l. split; [done|]. split; [constructor|].
  apply Forall_forall. intros g Hg. rewrite !H3 by set_solver. done.
Qed.

(** ** Fields to try it on *)

Definition sample_field (name goType : string) (rw : option rewriterField) : tmplField :=
  mkField false name name goType "" "" name DBDriverMysql rw.

Lemma proto_types_valid_witness :
  let f := sample_field "age" "uint" None in
  GoType (@field_to_proto sample_words peculiarNouns 0 true f) ∈ proto_scalars /\
  (ToLower (FName f) <> "id" -> GoType f <> "[]byte" -> GoTypeZero f = proto_zero (GoType (@field_to_proto sample_words peculiarNouns 0 true f))).
Proof.
  apply (@proto_types_valid sample_words peculiarNouns 0 true (mkFieldType TypeLong true "int unsigned" "int unsigned") (sample_field "age" "uint" None)).
  - discriminate.
  - discriminate.
  - reflexivity.
Defined.

Lemma key_is_best_witness :
  let fields := [sample_field "name" "string" None; sample_field "user_id" "int" None] in
  exists f l1 l2, fields = l1 ++ f :: l2 /\
    Forall (fun g => (rank f < rank g)%nat) l1 /\ Forall (fun g => (rank f <= rank g)%nat) l2 /\
    @newCrudInfo sample_words "Order" "order" fields = Some (@setCrudInfo sample_words "Order" "order" f).
Proof. apply (@key_is_best sample_words). discriminate. Defined.

(** With the other styles of null a column that may be null gets a type that
    protobuf does not have. *)
Lemma null_styles_leave_go_types :
  let col := mkFieldType TypeLong false "int" "int" in
  let proto style := let '(name, _, rw) := mysqlToGoType col style in
    GoType (@field_to_proto sample_words peculiarNouns 0 true (sample_field "age" name rw)) in
  proto NullInPointer = "*int" /\ proto NullInSql = "sql.NullInt32".
Proof. split; by vm_compute. Qed.

(** A bit string is a string in the message and compared with nil. *)
Lemma bit_string_compared_with_nil :
  let f := sample_field "flags" "[]byte" None in
  mysqlToGoType (mkFieldType TypeBit false "bit(8)" "bit(8)") NullDisable = (GoType f, "", None) /\
  GoType (@field_to_proto sample_words peculiarNouns 0 true f) = "string" /\ GoTypeZero f = "nil".
Proof. split_and!; by vm_compute. Qed.

End SqlFields.
