(* ===== verification/SqlTables.v ===== *)
(** * Tables of other databases as MySQL tables (pkg/sql2code/parser)

    postgresql.go, sqlite.go and mongodb.go: the statement that declares the
    table in MySQL's language, from the columns that the database reports, and
    the structs of embedded mongodb documents.  The queries are not modelled;
    BSON values are trees.

    Theorem: the statement lists every column, in order, and then the key. *)

From S2P Require Import Prelude GoStr SqlNames SqlFields.
From Stdlib Require Import Ascii.

Module SqlTables.
Import SqlNames SqlFields.

Definition bq : string := "`".
(** The end of a column. *)
Definition comma : string := "," +:+ lf.
Definition create_table (tableName fieldStr : string) : string :=
  "CREATE TABLE " +:+ bq +:+ tableName +:+ bq +:+ " (" +:+ lf +:+ fieldStr +:+ lf +:+ ");".
Definition primary_key (name : string) : string := "    PRIMARY KEY (" +:+ bq +:+ name +:+ bq +:+ ")".

(** ** postgresql.go *)

Record PGField : Type := mkPGField {
  PName : string; PType : string; PComment : string; Length : Z; Lengthvar : Z; Notnull : bool; PIsPrimaryKey : bool }.

Definition pg_texts : list string := ["character"; "character varying"; "varchar"; "char"; "bpchar"].
Definition varchar (n : Z) : string := "varchar(" +:+ number n +:+ ")".

Definition getType (field : PGField) : string :=
  if bool_decide (PType field ∈ pg_texts /\ 4 < Lengthvar field) then varchar (Lengthvar field - 4) else PType field.

Definition pg_mysql_type (field : PGField) : string :=
  let t := PType field in
  if bool_decide (t ∈ ["smallint"; "integer"; "smallserial"; "serial"; "int2"; "int4"]) then "int"
  else if bool_decide (t ∈ ["bigint"; "bigserial"; "int8"]) then "bigint"
  else if bool_decide (t ∈ ["real"; "float4"]) then "float"
  else if bool_decide (t ∈ ["double precision"; "float8"]) then "double"
  else if bool_decide (t ∈ ["decimal"; "numeric"; "money"]) then "decimal(10, 2)"
  else if bool_decide (t ∈ pg_texts) then (if 4 <? Lengthvar field then varchar (Lengthvar field - 4) else "varchar(100)")
  else if bool_decide (t = "text") then "text"
  else if bool_decide (t = "timestamp") then "timestamp"
  else if bool_decide (t = "date") then "date"
  else if bool_decide (t = "time") then "time"
  else if bool_decide (t = "interval") then "year"
  else if bool_decide (t ∈ ["json"; "jsonb"]) then "json"
  else if bool_decide (t ∈ ["boolean"; "bool"]) then "bit(1)"
  else if bool_decide (t = "bit") then "bit"
  else "varchar(100)".

Definition pg_primary (fields : list PGField) : option PGField :=
  List.find (fun f => PIsPrimaryKey f || bool_decide (PName f = "id")) fields.

Definition column_line (name sqlType : string) (notnull : bool) (comment : string) : string :=
  "    " +:+ bq +:+ name +:+ bq +:+ " " +:+ sqlType +:+ " " +:+ (if notnull then "not null" else "null") +:+ " comment '" +:+ comment +:+ "'".
Definition pg_line (f : PGField) : string :=
  column_line (PName f) (pg_mysql_type f) (Notnull f) (ReplaceAll (PComment f) "'" "\'").

(** The columns, with the key or without the last comma. *)
Definition with_key (fieldStr : string) (key : option string) : string :=
  match key with
  | Some name => fieldStr +:+ primary_key name +:+ lf
  | None => TrimSuffix fieldStr comma
  end.

(** The statement, and the types by the names, the last of a name. *)
Definition ConvertToSQLByPgFields (tableName : string) (fields : list PGField) : string * list (string * string) :=
  match fields with
  | [] => ("", [])
  | _ =>
      (create_table tableName (with_key (foldl (fun s f => s +:+ pg_line f +:+ comma) "" fields) (PName <$> pg_primary fields)),
       rev (map (fun f => (PName f, getType f)) fields))
  end.

(** ** sqlite.go *)

Record SqliteField : Type := mkSqliteField {
  SName : string; SType : string; SNotnull : Z; Pk : Z }.

Definition sqliteToMysqlType : list (string * string) :=
  [("integer", "INT"); ("text", "TEXT"); ("real", "FLOAT"); ("datetime", "DATETIME"); ("blob", "BLOB");
   ("boolean", "TINYINT"); ("numeric", " VARCHAR(255)"); ("autoincrement", "auto_increment")].

Definition sqlite_mysql_type (field : SqliteField) : string :=
  match assoc sqliteToMysqlType (ToLower (SType field)) with
  | Some mysqlType =>
      if bool_decide (SName field = "id" /\ ToLower (SType field) = "text") then "VARCHAR(50)" else mysqlType
  | None => "VARCHAR(100)"
  end.
Definition sqlite_primary (fields : list SqliteField) : option SqliteField :=
  List.find (fun f => bool_decide (Pk f = 1) || bool_decide (SName f = "id")) fields.
Definition sqlite_line (f : SqliteField) : string :=
  column_line (SName f) (sqlite_mysql_type f) (negb (SNotnull f =? 0)) "".
Definition convertToSQLBySqliteFields (tableName : string) (fields : list SqliteField) : string :=
  match fields with
  | [] => ""
  | _ => create_table tableName (with_key (foldl (fun s f => s +:+ sqlite_line f +:+ comma) "" fields) (SName <$> sqlite_primary fields))
  end.

(** ** mongodb.go *)

Inductive bsonType : Type :=
  | TypeObjectID | TypeInt32 | TypeInt64 | TypeDouble | TypeBsonString | TypeTimestampB | TypeDateTime | TypeBoolean
  | TypeNull | TypeBinary | TypeUndefined | TypeCodeWithScope | TypeSymbol | TypeRegex | TypeDecimal128
  | TypeDBPointer | TypeMinKey | TypeMaxKey | TypeJavaScript | TypeUnknown.

(** A value: documents and arrays whose bytes are broken have no elements. *)
Inductive bson : Type :=
  | BDocument (es : option (list (string * bson)))
  | BArray (es : option (list (string * bson)))
  | BValue (t : bsonType).

Definition goTypeInterface : string := "interface{}".
Definition mgoTypeToGo (t : bsonType) : option string :=
  match t with
  | TypeObjectID => Some goTypeOID
  | TypeInt32 | TypeMinKey | TypeMaxKey => Some "int"
  | TypeInt64 => Some "int64"
  | TypeDouble => Some "float64"
  | TypeBsonString | TypeCodeWithScope | TypeSymbol | TypeRegex | TypeJavaScript => Some "string"
  | TypeTimestampB | TypeDateTime => Some "time.Time"
  | TypeBoolean => Some "bool"
  | TypeNull => Some "nil"
  | TypeBinary => Some "[]byte"
  | TypeUndefined | TypeDecimal128 | TypeDBPointer => Some goTypeInterface
  | TypeUnknown => None
  end.

Definition toLowerFirst (str : string) : string := match str with String c s => String (lower c) s | EmptyString => str end.

Definition convertToProtoFieldType (name goType : string) : string :=
  if bool_decide (goType = "int") then "int32"
  else if bool_decide (goType = "uint") then "uint32"
  else if bool_decide (goType = "time.Time") then "int64"
  else if bool_decide (goType = "float32") then "float"
  else if bool_decide (goType = "float64") then "double"
  else if bool_decide (goType ∈ ["[]int"; "[]int64"]) then "repeated int64"
  else if bool_decide (goType = "[]int32") then "repeated int32"
  else if bool_decide (goType = "[]byte") then "bytes"
  else if bool_decide (goType = "[]string") then "repeated string"
  else if Contains goType "[]" then
    let t := trim_left_by (fun c => bool_decide (c = "["%char \/ c = "]"%char)) goType in
    if Contains name t then "repeated " +:+ t else goType
  else goType.

Definition toSingular (word : string) : string :=
  if HasSuffix word "es" then (if (2 <? str_len word)%nat then str_take (str_len word - 2) word else word)
  else if HasSuffix word "s" then (if (1 <? str_len word)%nat then str_take (str_len word - 1) word else word)
  else word.

Definition nameToSingular (goTypeStr targetObjectStr markStr : string) : string :=
  let prefixStr := markStr +:+ " " +:+ ReplaceAll goTypeStr "[]*" "" in
  let l := str_len prefixStr in
  if (str_len targetObjectStr <=? l)%nat then targetObjectStr
  else if bool_decide (prefixStr = str_take l targetObjectStr) then toSingular prefixStr +:+ " " +:+ str_drop l targetObjectStr
  else targetObjectStr.

Definition convertToSingular (goTypeStr objectStr protoObjectStr : string) : string * string * string :=
  if negb (Contains goTypeStr "[]*") || bool_decide (objectStr = "") then (goTypeStr, objectStr, protoObjectStr)
  else (toSingular goTypeStr, nameToSingular goTypeStr objectStr "type", nameToSingular goTypeStr protoObjectStr "message").

Section Mongo.
Context `{Words}.
(** [jsonTagFormat], the package variable: zero is snake case. *)
Variable jsonTagFormat : Z.

Definition bson_tag (k jsonTag : string) : string := bq +:+ "bson:" +:+ quoted k +:+ " json:" +:+ quoted jsonTag +:+ bq.

(** The Go field and the message field of each element, by its type. *)
Definition object_lines (name : string) (es : list (string * string)) : string * string :=
  foldl (fun (acc : string * string) (nkt : nat * (string * string)) =>
    let '(goObj, protoObj) := acc in
    let '(num, (k, t)) := nkt in
    let jsonTag := if jsonTagFormat =? 0 then ToSnakeCase k else toLowerFirst (ToCamelCase k) in
    (goObj +:+ "    " +:+ ToCamelCase k +:+ " " +:+ t +:+ " " +:+ bson_tag k jsonTag +:+ lf,
     protoObj +:+ "  " +:+ convertToProtoFieldType name t +:+ " " +:+ k +:+ " = " +:+ FormatUint (Z.of_nat num + 1) +:+ ";" +:+ lf))
    ("", "") (zip (seq 0 (length es)) es).
Definition parseObject (name : string) (es : list (string * string)) : string * string * string :=
  let '(goObjStr, protoObjStr) := object_lines name es in
  ("*" +:+ ToCamelCase name,
   "type " +:+ ToCamelCase name +:+ " struct {" +:+ lf +:+ goObjStr +:+ "}" +:+ lf,
   "message " +:+ ToCamelCase name +:+ " {" +:+ lf +:+ protoObjStr +:+ "}" +:+ lf).

Definition parseArray (first : string * string * string) : string * string * string :=
  let '(t, o, p) := first in if bool_decide (o = "") then ("[]" +:+ t, "", "") else ("[]" +:+ t, o, p).

(** The elements of a document are typed under the name of the field. *)
Fixpoint getTypeFromMgo (name : string) (v : bson) : string * string * string :=
  match v with
  | BDocument (Some es) => parseObject name (map (fun kv => (fst kv, fst (fst (getTypeFromMgo name (snd kv))))) es)
  | BArray (Some ((_, e) :: _)) =>
      let '(t, o, p) := parseArray (getTypeFromMgo name e) in convertToSingular t o p
  | BDocument None | BArray None | BArray (Some []) => (goTypeInterface, "", "")
  | BValue t => match mgoTypeToGo t with Some goType => (goType, "", "") | None => (goTypeInterface, "", "") end
  end.

Record MgoField : Type := mkMgoField { MName : string; MType : string; ObjectStr : string; ProtoObjectStr : string }.

Definition embedTimeField (names : list string) (fields : list MgoField) : list MgoField :=
  fields ++
  (if bool_decide ("created_at" ∈ names \/ "createdAt" ∈ names) then [] else [mkMgoField "created_at" "time.Time" "" ""]) ++
  (if bool_decide ("updated_at" ∈ names \/ "updatedAt" ∈ names) then [] else [mkMgoField "updated_at" "time.Time" "" ""]).

(** The fields of the last document of the collection. *)
Definition mongo_fields (elements : list (string * bson)) : list MgoField :=
  let elements := filter (fun kv => fst kv <> "deleted_at") elements in
  embedTimeField (map fst elements)
    (map (fun kv => let '(t, o, p) := getTypeFromMgo (fst kv) (snd kv) in mkMgoField (fst kv) t o p) elements).

Definition convertMongoToMysqlType (goType : string) : string :=
  if bool_decide (goType = "int") then "int"
  else if bool_decide (goType = "int64") then "bigint"
  else if bool_decide (goType = "float64") then "double"
  else if bool_decide (goType = "string") then "varchar(255)"
  else if bool_decide (goType = "time.Time") then "timestamp"
  else if bool_decide (goType = "bool") then "bit(1)"
  else "json".

Definition is_any (goType : string) : bool := bool_decide (goType ∈ [goTypeInterface; "[]interface{}"]).
Definition mongo_line (f : MgoField) : string := "    " +:+ bq +:+ MName f +:+ bq +:+ " " +:+ convertMongoToMysqlType (MType f).

Definition SubStructKey : string := "_sub_struct_".
Definition ProtoSubStructKey : string := "_proto_sub_struct_".
Definition oidName : string := "_id".

(** Types by the names; later entries first. *)
Definition mongo_types (fields : list MgoField) : list (string * string) :=
  foldl (fun m f =>
    let m := (MName f, if is_any (MType f) then ToCamelCase (MName f) else MType f) :: m in
    if bool_decide (MName f = oidName) then ("id", MType f) :: m else m) [] fields.

Definition ConvertToSQLByMgoFields (tableName : string) (fields : list MgoField) : string * list (string * string) :=
  let columns := filter (fun f => MName f <> oidName) fields in
  let isHaveID := bool_decide (oidName ∈ map MName fields) in
  let fieldStr := TrimSuffix (foldl (fun s f => s +:+ mongo_line f +:+ comma) "" columns) comma in
  let fieldStr := if isHaveID then "    " +:+ bq +:+ "id" +:+ bq +:+ " varchar(24)" +:+ comma +:+ fieldStr +:+ comma +:+ "    PRIMARY KEY (id)"
                  else fieldStr in
  let objects := filter (fun f => ObjectStr f <> "") columns in
  let types := match objects with
    | [] => mongo_types fields
    | _ => (ProtoSubStructKey, Join (map ProtoObjectStr objects) lf +:+ lf) ::
           (SubStructKey, Join (map ObjectStr objects) lf +:+ lf) :: mongo_types fields
    end in
  (create_table tableName fieldStr, types).

Definition MgoFieldToGoStruct (name : string) (fs : list MgoField) : string :=
  let '(str, objStr) := foldl (fun (acc : string * string) f =>
    let '(str, objStr) := acc in
    if bool_decide (MName f = oidName)
    then (str +:+ "    ID primitive.ObjectID " +:+ bson_tag "_id" "id" +:+ lf, objStr)
    else
      let t := if is_any (MType f) then ToCamelCase (MName f) else MType f in
      (str +:+ "    " +:+ ToCamelCase (MName f) +:+ " " +:+ t +:+ " " +:+ bson_tag (MName f) (MName f) +:+ lf,
       if bool_decide (ObjectStr f = "") then objStr else objStr +:+ ObjectStr f +:+ lf)) ("", "") fs in
  "type " +:+ ToCamelCase name +:+ " struct {" +:+ lf +:+ str +:+ "}" +:+ lf +:+ lf +:+ objStr +:+ lf.
End Mongo.

(** ** The statements are lists *)

Lemma lines_joined {A} (line : A -> string) l acc : l <> [] ->
  foldl (fun s f => s +:+ line f +:+ comma) acc l = acc +:+ Join (map line l) comma +:+ comma.
Proof.
  revert acc. induction l as [|x l IH]; intros acc Hne; [done|]. cbn [foldl map].
  destruct l as [|y l]; [done|]. rewrite IH by done. cbn [map]. rewrite (Join_cons _ (line y :: _)) by done.
  by rewrite !app_assoc_s.
Qed.

Lemma Join_snoc l x sep : l <> [] -> Join (l ++ [x]) sep = Join l sep +:+ sep +:+ x.
Proof.
  induction l as [|y l IH]; [done|]. intros _. destruct l as [|z l]; [done|].
  change ((y :: z :: l) ++ [x]) with (y :: ((z :: l) ++ [x])). rewrite Join_cons by by destruct l.
  rewrite IH by done. rewrite (Join_cons y) by done. by rewrite !app_assoc_s.
Qed.

(** The reference: lines apart by commas, the key last. *)
Definition declared (tableName : string) (columns : list string) (key : option string) : string :=
  match key with
  | Some name => create_table tableName (Join (columns ++ [primary_key name]) comma +:+ lf)
  | None => create_table tableName (Join columns comma)
  end.

Lemma with_key_declared {A} (line : A -> string) l key tableName : l <> [] ->
  create_table tableName (with_key (foldl (fun s f => s +:+ line f +:+ comma) "" l) key) = declared tableName (map line l) key.
Proof.
  intros Hne. rewrite lines_joined by done. unfold with_key, declared. rewrite app_nil_l_s. destruct key as [name|].
  - rewrite Join_snoc by by destruct l. by rewrite !app_assoc_s.
  - by rewrite TrimSuffix_app.
Qed.

(** C24: The statement for a table of postgres or sqlite with columns declares
    each of them, in order, and then the key, with commas between them only;
    so does that of a mongodb collection with a field besides [_id]. *)
Theorem statements_declare_columns tableName :
  (forall fields, fields <> [] -> fst (ConvertToSQLByPgFields tableName fields) =
     declared tableName (map pg_line fields) (PName <$> pg_primary fields)) /\
  (forall fields, fields <> [] -> convertToSQLBySqliteFields tableName fields =
     declared tableName (map sqlite_line fields) (SName <$> sqlite_primary fields)) /\
  (forall `{Words} fields, filter (fun f => MName f <> oidName) fields <> [] ->
     fst (ConvertToSQLByMgoFields tableName fields) =
       create_table tableName (Join
         (if bool_decide (oidName ∈ map MName fields)
          then ["    " +:+ bq +:+ "id" +:+ bq +:+ " varchar(24)"] ++ map mongo_line (filter (fun f => MName f <> oidName) fields) ++ ["    PRIMARY KEY (id)"]
          else map mongo_line (filter (fun f => MName f <> oidName) fields)) comma)).
Proof.
  split_and!.
  - intros fields Hne. destruct fields as [|f fields]; [done|]. by apply (with_key_declared pg_line (f :: fields)).
  - intros fields Hne. destruct fields as [|f fields]; [done|]. by apply (with_key_declared sqlite_line (f :: fields)).
  - intros Hw fields Hne. unfold ConvertToSQLByMgoFields. cbn [fst]. f_equal.
    rewrite lines_joined by done. rewrite app_nil_l_s, TrimSuffix_app. case_bool_decide; [|done].
    cbn [app]. rewrite Join_cons by (intros [_ Hx]%app_nil; done). rewrite Join_snoc by (intros Hx%map_eq_nil; done). by rewrite !app_assoc_s.
Qed.

Definition pg_id : PGField := mkPGField "id" "int8" "" 8 (-1) true false.

Lemma statements_declare_columns_witness :
  fst (ConvertToSQLByPgFields "t" [pg_id]) = declared "t" (map pg_line [pg_id]) (PName <$> pg_primary [pg_id]).
Proof. apply (proj1 (statements_declare_columns "t")). discriminate. Defined.

(** A document in a document is given the type of the outer one. *)
Lemma nested_document_typed_as_outer :
  @getTypeFromMgo sample_words 1 "address" (BDocument (Some [("geo", BDocument (Some [("lat", BValue TypeDouble)]))])) =
    ("*Address",
     "type Address struct {" +:+ lf +:+ "    Geo *Address " +:+ bson_tag "geo" "geo" +:+ lf +:+ "}" +:+ lf,
     "message Address {" +:+ lf +:+ "  *Address geo = 1;" +:+ lf +:+ "}" +:+ lf).
Proof. by vm_compute. Qed.

(** A collection of documents with nothing but [_id], as a statement. *)
Lemma only_id_two_commas :
  fst (@ConvertToSQLByMgoFields sample_words "t" [mkMgoField "_id" goTypeOID "" ""]) =
    create_table "t" ("    " +:+ bq +:+ "id" +:+ bq +:+ " varchar(24)" +:+ comma +:+ comma +:+ "    PRIMARY KEY (id)").
Proof. by vm_compute. Qed.

End SqlTables.
