(* ===== verification/SqlCode.v ===== *)
(** * Code from SQL statements (pkg/sql2code)

    parser.go, tableInfo.go, option.go and sql2code.go: the data that the
    templates are executed with, the texts made of their output, and the
    choice of the statement.  The SQL parser, the templates, gofmt,
    encoding/json and the databases are the class [Outside]; parsed
    statements are records of the fields the code reads.

    Theorems: the fields follow the columns; a table has code exactly when it
    has columns and its templates run. *)

From S2P Require Import Prelude GoStr SqlNames SqlFields SqlTables.
From Stdlib Require Import Ascii.

Module SqlCode.
Import SqlNames SqlFields SqlTables.

(** ** Statements (sqlparser) *)

Inductive exprFlag : Type := FlagConstant | FlagHasFunc | FlagOther.
(** The default of a column: the text of its value, unless null, its flag and
    the function called. *)
Record DefaultExpr : Type := mkDefault { Datum : option string; Flag : exprFlag; FnName : option string }.
Inductive ColumnOption : Type :=
  | OptPrimaryKey | OptNotNull | OptAutoIncrement | OptDefaultValue (e : DefaultExpr) | OptUniqKey | OptNull
  | OptComment (text : string) | OptIgnored.
#[export] Instance exprFlag_eq_dec : EqDecision exprFlag.
Proof. solve_decision. Defined.
#[export] Instance DefaultExpr_eq_dec : EqDecision DefaultExpr.
Proof. solve_decision. Defined.
#[export] Instance ColumnOption_eq_dec : EqDecision ColumnOption.
Proof. solve_decision. Defined.
Record ColumnDef : Type := mkColumn { CName : string; CTp : FieldType; COptions : list ColumnOption }.
Inductive Constraint : Type := ConstraintPrimaryKey (keys : list string) | ConstraintOther.
(** [TableComment]: the values of the comment options. *)
Record CreateTableStmt : Type := mkCreate {
  TName_ : string; TableComments : list string; Constraints : list Constraint; Cols : list ColumnDef }.
Inductive Stmt : Type := SCreateTable (ct : CreateTableStmt) | SOther.

(** ** Options (option.go) *)

Record options : Type := mkOptions {
  DBDriver : string; FieldTypes : list (string * string); Charset : string; Collation : string; JSONTag : bool;
  JSONNamedType : Z; TablePrefix : string; ColumnPrefix : string; NoNullType : bool; ONullStyle : NullStyle;
  Package : string; GormType : bool; ForceTableName : bool; IsEmbed : bool; IsWebProto : bool; IsExtendedAPI : bool;
  IsCustomTemplate : bool }.

Inductive Option_ : Type :=
  | WithDBDriver (s : string) | WithFieldTypes (m : list (string * string)) | WithCharset (s : string)
  | WithCollation (s : string) | WithTablePrefix (s : string) | WithColumnPrefix (s : string) | WithJSONTag (t : Z)
  | WithNoNullType | WithNullStyle (s : NullStyle) | WithPackage (s : string) | WithGormType | WithForceTableName
  | WithEmbed | WithWebProto | WithExtendedAPI | WithCustomTemplate.

Definition defaultOptions : options :=
  mkOptions "mysql" [] "" "" false 0 "" "" false NullInSql "model" false false false false false false.

Definition apply_option (o : options) (f : Option_) : options :=
  let '(mkOptions drv ft cs co jt jn tp cp nn ns pk gt fo em wp ea ct) := o in
  match f with
  | WithDBDriver s => if bool_decide (s = "") then o else mkOptions s ft cs co jt jn tp cp nn ns pk gt fo em wp ea ct
  | WithFieldTypes m => mkOptions drv m cs co jt jn tp cp nn ns pk gt fo em wp ea ct
  | WithCharset s => mkOptions drv ft s co jt jn tp cp nn ns pk gt fo em wp ea ct
  | WithCollation s => mkOptions drv ft cs s jt jn tp cp nn ns pk gt fo em wp ea ct
  | WithTablePrefix s => mkOptions drv ft cs co jt jn s cp nn ns pk gt fo em wp ea ct
  | WithColumnPrefix s => mkOptions drv ft cs co jt jn tp s nn ns pk gt fo em wp ea ct
  | WithJSONTag t => mkOptions drv ft cs co true t tp cp nn ns pk gt fo em wp ea ct
  | WithNoNullType => mkOptions drv ft cs co jt jn tp cp true ns pk gt fo em wp ea ct
  | WithNullStyle s => mkOptions drv ft cs co jt jn tp cp nn s pk gt fo em wp ea ct
  | WithPackage s => mkOptions drv ft cs co jt jn tp cp nn ns s gt fo em wp ea ct
  | WithGormType => mkOptions drv ft cs co jt jn tp cp nn ns pk true fo em wp ea ct
  | WithForceTableName => mkOptions drv ft cs co jt jn tp cp nn ns pk gt true em wp ea ct
  | WithEmbed => mkOptions drv ft cs co jt jn tp cp nn ns pk gt fo true wp ea ct
  | WithWebProto => mkOptions drv ft cs co jt jn tp cp nn ns pk gt fo em true ea ct
  | WithExtendedAPI => mkOptions drv ft cs co jt jn tp cp nn ns pk gt fo em wp true ct
  | WithCustomTemplate => mkOptions drv ft cs co jt jn tp cp nn ns pk gt fo em wp ea true
  end.
Definition parseOption (l : list Option_) : options :=
  let o := foldl apply_option defaultOptions l in
  if NoNullType o then apply_option o (WithNullStyle NullDisable) else o.

(** ** The data of the templates *)

Record tmplData : Type := mkData {
  TableNamePrefix : string; RawTableName : string; TableName : string; TName : string; NameFunc : bool;
  Fields : list tmplField; Comment : string; SubStructs : string; ProtoSubStructs : string; DDriver : string;
  Crud : option CrudInfo }.
Definition with_fields (l : list tmplField) (d : tmplData) : tmplData :=
  mkData (TableNamePrefix d) (RawTableName d) (TableName d) (TName d) (NameFunc d) l (Comment d) (SubStructs d)
    (ProtoSubStructs d) (DDriver d) (Crud d).

Definition isCommonStyle (d : tmplData) (isEmbed : bool) : bool :=
  negb (bool_decide (DDriver d = DBDriverMongodb)) && negb isEmbed && negb (isIDPrimaryKey (Crud d)).

Inductive template : Type :=
  | modelStructTmpl | tableColumnsTmpl | updateFieldTmpl | modelJSONTmpl
  | handlerCreateStructTmpl | handlerUpdateStructTmpl | handlerDetailStructTmpl
  | handlerCreateStructCommonTmpl | handlerUpdateStructCommonTmpl | handlerDetailStructCommonTmpl
  | protoFileTmpl | protoFileSimpleTmpl | protoFileForWebTmpl | protoFileForSimpleWebTmpl
  | protoFileCommonTmpl | protoFileSimpleCommonTmpl | protoFileForWebCommonTmpl | protoFileForSimpleWebCommonTmpl
  | protoMessageCreateTmpl | protoMessageUpdateTmpl | protoMessageDetailTmpl
  | protoMessageCreateCommonTmpl | protoMessageUpdateCommonTmpl | protoMessageDetailCommonTmpl
  | serviceStructTmpl | serviceCreateStructTmpl | serviceUpdateStructTmpl
  | serviceStructCommonTmpl | serviceCreateStructCommonTmpl | serviceUpdateStructCommonTmpl.

Record modelCodes : Type := mkModelCodes { MPackage : string; MImportPath : list string; MStructCode : list string }.

(** ** Information for custom templates (tableInfo.go) *)

Record Field : Type := mkColumnInfo {
  FColumnName : string; FColumnNameCamel : string; FColumnNameCamelFCL : string; FColumnComment : string;
  FIsPrimaryKey : bool; FGoType : string; FieldTag : string }.
Record PrimaryKey : Type := mkPrimaryKey {
  KName : string; KNameCamel : string; KNameCamelFCL : string; KNamePluralCamel : string; KNamePluralCamelFCL : string;
  KGoType : string; KGoTypeFCU : string; KIsStringType : bool }.
Record TableInfo : Type := mkTableInfo {
  TITableNamePrefix : string; TITableName : string; TITableNameCamel : string; TITableNameCamelFCL : string;
  TITableNamePluralCamel : string; TITableNamePluralCamelFCL : string; TITableNameSnake : string; TITableComment : string;
  TIColumns : list Field; TIPrimaryKey : option PrimaryKey; TIDBDriver : string; TIColumnSubStructure : string;
  TIColumnSubMessage : string }.

(** [parser.Parse], [Execute] of the templates, [format.Source] and
    [json.Marshal]. *)
Class Outside := {
  Parse : string -> string -> string -> option (list Stmt);
  Execute : template -> tmplData -> option string;
  ExecuteModel : modelCodes -> option string;
  format_Source : string -> option string;
  MarshalCrud : CrudInfo -> string;
  MarshalTable : TableInfo -> string }.

Inductive error : Type := ErrSQL | ErrNoColumns (table : string) | ErrTemplate (t : template) | ErrModelTemplate | ErrFormat
  | ErrArgs | ErrSource | ErrCodeType (t : string).

(** The tags that mongodb writes. *)
Definition handleTag (dbDriver tag : string) : string :=
  if bool_decide (dbDriver = DBDriverMongodb) then
    let tag := ReplaceAll tag ("bson:" +:+ String dquote "column:") ("bson:" +:+ single dquote) in
    let tag := ReplaceAll tag (";type:" +:+ single dquote) (single dquote) in
    let tag := ReplaceAll tag ";type:;primary_key" "" in
    ReplaceAll tag ("bson:" +:+ quoted "id" +:+ " json:" +:+ quoted "id") ("bson:" +:+ quoted "_id" +:+ " json:" +:+ quoted "id")
  else tag.

(** Pairs of a name and a value. *)
Fixpoint tag_pairs (tags : list string) : list string :=
  match tags with
  | name :: value :: tags => (name +:+ ":" +:+ quoted value) :: tag_pairs tags
  | _ => []
  end.
Definition makeTagStr (tags : list string) : string := Join (tag_pairs tags) " ".

Definition getDefaultValue (e : DefaultExpr) : string :=
  match Datum e with
  | Some value => value
  | None => match Flag e with FlagHasFunc => default "" (FnName e) | _ => "" end
  end.

(** [jsonTagFormat] after [SetJSONTagSnakeCase] and [SetJSONTagCamelCase]. *)
Definition SetJSONTagSnakeCase (f : Z) : Z := f + - f.
Definition SetJSONTagCamelCase (f : Z) : Z := (f + 1 + 2 ^ 31) mod 2 ^ 32 - 2 ^ 31.

Section Generate.
Context `{Words} `{Outside}.
Variable nouns : list (string * string).

Definition run (t : template) (d : tmplData) : result error string :=
  match Execute t d with Some s => Ok s | None => Err (ErrTemplate t) end.
Definition gofmt (s : string) : result error string :=
  match format_Source s with Some s => Ok s | None => Err ErrFormat end.

(** ** Columns *)

(** The options of a column: the tag, the key, and what was seen of null. *)
Record scan : Type := mkScan { gormTag : string; keyed : bool; isNotNull : bool; canNull : bool; comment : string }.
Definition scan_option (s : scan) (o : ColumnOption) : scan :=
  let '(mkScan tag keyed notnull cannull cmt) := s in
  match o with
  | OptPrimaryKey => if keyed then s else mkScan (tag +:+ ";primary_key") true notnull cannull cmt
  | OptNotNull => mkScan tag keyed true cannull cmt
  | OptAutoIncrement => mkScan (tag +:+ ";AUTO_INCREMENT") keyed notnull cannull cmt
  | OptDefaultValue e =>
      let value := getDefaultValue e in
      if bool_decide (value = "") then s else mkScan (tag +:+ ";default:" +:+ value) keyed notnull cannull cmt
  | OptUniqKey => mkScan (tag +:+ ";unique") keyed notnull cannull cmt
  | OptNull => mkScan tag keyed notnull true cmt
  | OptComment text => mkScan tag keyed notnull cannull (replaceCommentNewline text)
  | OptIgnored => s
  end.

Definition field_type (opt : options) (colName : string) : string := default "" (assoc (FieldTypes opt) colName).

(** The field of a column, the packages it needs and the keys known after
    it. *)
Definition make_field (opt : options) (isPrimaryKey : list string) (col : ColumnDef) : tmplField * list string * list string :=
  let colName := CName col in
  let goFieldName := if negb (bool_decide (ColumnPrefix opt = "")) && HasPrefix colName (ColumnPrefix opt)
                     then str_drop (str_len (ColumnPrefix opt)) colName else colName in
  let jsonName := json_name nouns (JSONNamedType opt) colName in
  let name := toCamel nouns goFieldName in
  let inKey := bool_decide (colName ∈ isPrimaryKey) in
  let tag := "column:" +:+ colName in
  let tag := if GormType opt then
               tag +:+ ";type:" +:+
               (if bool_decide (DBDriver opt ∈ [DBDriverMysql; DBDriverTidb; DBDriverSqlite]) then InfoSchemaStr (CTp col)
                else if bool_decide (DBDriver opt = DBDriverPostgresql) then field_type opt colName else "")
             else tag in
  let tag := if inKey then tag +:+ ";primary_key" else tag in
  let s := foldl scan_option (mkScan tag inKey false false "") (COptions col) in
  let isPrimaryKey := if keyed s && negb inKey then colName :: isPrimaryKey else isPrimaryKey in
  if bool_decide (DBDriver opt = DBDriverMongodb) then
    let jsonName' := if JSONTag opt && bool_decide (ToLower jsonName = "_id") then "id" else jsonName in
    let goType := field_type opt colName in
    (mkField inKey colName name goType
       (makeTagStr (["bson"; gormTag s] ++ if JSONTag opt then ["json"; jsonName'] else [])) (comment s) jsonName' (DBDriver opt) None,
     if bool_decide (goType = "time.Time") then ["time"] else [], isPrimaryKey)
  else
    let gorm := if negb (keyed s) && isNotNull s then gormTag s +:+ ";not null" else gormTag s in
    let '(goType, pkg, rrField) := mysqlToGoType (CTp col) (if canNull s then ONullStyle opt else NullDisable) in
    let goType := if bool_decide (DBDriver opt = DBDriverPostgresql /\ field_type opt colName = "bool") then "bool" else goType in
    (mkField inKey colName name goType
       (makeTagStr (["gorm"; gorm] ++ if JSONTag opt then ["json"; jsonName] else [])) (comment s) jsonName (DBDriver opt) rrField,
     if bool_decide (pkg = "") then [] else [pkg], isPrimaryKey).

Fixpoint make_fields (opt : options) (isPrimaryKey : list string) (cols : list ColumnDef) : list tmplField * list string :=
  match cols with
  | [] => ([], [])
  | col :: cols =>
      let '(field, paths, isPrimaryKey) := make_field opt isPrimaryKey col in
      let '(fields, paths') := make_fields opt isPrimaryKey cols in
      (field :: fields, paths ++ paths')
  end.

(** The first column of each primary key. *)
Definition add_key (keys : list string) (c : Constraint) : result error (list string) :=
  match c with
  | ConstraintPrimaryKey cols => key ← at_index cols 0; Ok (key :: keys)
  | ConstraintOther => Ok keys
  end.
Definition primary_keys (l : list Constraint) : result error (list string) := foldM add_key [] l.

(** ** The model *)

Definition sgormPath : string := "github.com/moweilong/milady/pkg/sgorm".
Definition rewritten (field : tmplField) : option rewriterField :=
  match rewriter field with
  | Some r => if is_sql (FDriver field) && bool_decide (rwGoType r ∈ [jsonTypeName; decimalTypeName; boolTypeName; boolTypeTinyName])
              then Some r else None
  | None => None
  end.

(** The fields of the model struct and its imports. *)
Definition embedded_field (field : tmplField) : tmplField * list string :=
  let field := if is_sql (FDriver field) && Contains (GoType field) "time.Time" then with_type "*time.Time" field else field in
  match rewritten field with
  | Some r => (with_type ("*" +:+ rwGoType r) field, [rwPath r])
  | None => (field, [])
  end.
Definition own_field (data : tmplData) (field : tmplField) : tmplField * list string :=
  let field := if Contains (GoType field) "time.Time" then with_type "*time.Time" field else field in
  if bool_decide (FDriver field = DBDriverMongodb) then
    if bool_decide (FName field = "ID") then (with_type goTypeOID field, ["go.mongodb.org/mongo-driver/bson/primitive"]) else (field, [])
  else
    let field := if bool_decide (FName field = "ID")
                 then with_type (if isCommonStyle data false then match Crud data with Some i => CGoType i | None => "" end else "uint64") field
                 else field in
    match rewritten field with
    | Some r => (with_type ("*" +:+ rwGoType r) field, [rwPath r])
    | None => (field, [])
    end.

Definition placeholder : tmplField :=
  mkField false "__mysqlModel__" "__mysqlModel__" "__type__" ("gorm:" +:+ quoted "embedded") ("embed id and time" +:+ lf) "" "" None.
Definition model_fields (data : tmplData) (importPaths : list string) (isEmbed : bool) : list tmplField * list string :=
  if isEmbed then
    let l := map embedded_field (filter (fun f => isIgnoreFields (ColName f) [] = false) (Fields data)) in
    let paths := importPaths ++ mjoin (map snd l) in
    let isHaveTimeType := existsb (fun f => Contains (GoType (fst f)) "time.Time") l in
    (placeholder :: map fst l,
     (if isHaveTimeType then paths else filter (fun p => p <> "time") paths) ++ [sgormPath])
  else
    let l := map (own_field data) (Fields data) in
    (map fst l, importPaths ++ mjoin (map snd l)).

(** The white list of columns. *)
Definition getTableColumnsCode (data : tmplData) (isEmbed : bool) : result error string :=
  let fields := Fields data in
  let fields := if bool_decide (DDriver data = DBDriverMongodb) then
                  match List.find (fun f => bool_decide (FName f = "ID")) fields with
                  | Some f => fields ++ [mkField (IsPrimaryKey f) "_id" (FName f) (GoType f) (FTag f) (FComment f) (JSONName f) (FDriver f) (rewriter f)]
                  | None => fields
                  end
                else fields in
  let column name := mkField false name "" "" "" "" "" "" None in
  let fields := if isEmbed then map column ["id"; "created_at"; "updated_at"; "deleted_at"] ++
                                filter (fun f => FName f <> "__mysqlModel__") fields
                else fields in
  s ← run tableColumnsTmpl (with_fields fields data);
  gofmt s.

Definition getModelStructCode (data : tmplData) (importPaths : list string) (isEmbed : bool) (jsonNamedType : Z)
    : result error (string * list string) :=
  let '(fields, newImportPaths) := model_fields data importPaths isEmbed in
  let data := with_fields fields data in
  s ← run modelStructTmpl data;
  structCode ← gofmt s;
  let structCode := if isEmbed then
      ReplaceAll (ReplaceAll structCode "__mysqlModel__" (if jsonNamedType =? 0 then "sgorm.Model2" else "sgorm.Model")) "__type__" ""
    else structCode in
  let structCode := structCode +:+ SubStructs data in
  tableColumnsCode ← getTableColumnsCode data isEmbed;
  Ok (handleTag (DDriver data) structCode +:+ tableColumnsCode, newImportPaths).

(** ** The other codes *)

Definition getUpdateFieldsCode (data : tmplData) : result error string :=
  let fields := filter (fun f => isIgnoreFields (ColName f) [] = false /\ ColName f <> "id" /\ ColName f <> "_id") (Fields data) in
  run updateFieldTmpl (with_fields (map (fun f =>
    if is_sql (FDriver f) && is_rewriter f [jsonTypeName] then with_type "[]byte" f else f) fields) data).

(** The fields without those kept by the database; the ids of mongodb are
    strings. *)
Definition tmplExecuteWithFilter (data : tmplData) (tmpl : template) (reservedColumns : list string) : result error string :=
  run tmpl (with_fields (map (fun f =>
    if bool_decide (FDriver f = DBDriverMongodb /\ ToLower (FName f) = "id") then with_type "string" f else f)
      (filter (fun f => isIgnoreFields (ColName f) reservedColumns = false) (Fields data))) data).
Definition tmplExecuteWithFilter2 (data : tmplData) (tmpl : template) (reservedColumns : list string) : result error string :=
  run tmpl (with_fields (filter (fun f => isIgnoreFields (ColName f) reservedColumns = false) (Fields data)) data).

Definition detailColumns : list string := ["id"; "created_at"; "updated_at"].

Definition handler_field (jsonNamedType : Z) (field : tmplField) : tmplField :=
  let field := if bool_decide (FDriver field = DBDriverMongodb) then
      let field := if bool_decide (FName field = "ID") then with_type "string" field else field in
      let field := if bool_decide ("*" +:+ FName field = GoType field) then with_type ("*model." +:+ FName field) field else field in
      if Contains (GoType field) "[]*" then with_type ("[]*model." +:+ ReplaceAll (GoType field) "[]*" "") field else field
    else field in
  let field := with_json (json_name nouns jsonNamedType (ColName field)) field in
  with_type (getHandlerGoType field) field.
Definition getHandlerStructCodes (data : tmplData) (jsonNamedType : Z) : result error string :=
  let data := with_fields (map (handler_field jsonNamedType) (Fields data)) data in
  post ← tmplExecuteWithFilter data handlerCreateStructTmpl [];
  put ← tmplExecuteWithFilter data handlerUpdateStructTmpl ["id"];
  get ← tmplExecuteWithFilter data handlerDetailStructTmpl detailColumns;
  Ok (post +:+ put +:+ get).

Definition getCommonHandlerStructCodes (data : tmplData) (jsonNamedType : Z) : result error string :=
  let data := with_fields (map (fun f => let f := with_json (json_name nouns jsonNamedType (ColName f)) f in
                                         with_type (getHandlerGoType f) f) (Fields data)) data in
  post ← tmplExecuteWithFilter data handlerCreateStructCommonTmpl [];
  put ← tmplExecuteWithFilter data handlerUpdateStructCommonTmpl ["id"];
  get ← tmplExecuteWithFilter data handlerDetailStructCommonTmpl detailColumns;
  Ok (post +:+ put +:+ get).

(** [ReadString]: the lines with their ends, the rest after the last one
    left out. *)
Fixpoint full_lines (s : string) (line : string) : list string :=
  match s with
  | EmptyString => []
  | String c s => if bool_decide (c = newline) then (line +:+ lf) :: full_lines s "" else full_lines s (line +:+ single c)
  end.
Definition addCommaToJSON (modelJSONCode : string) : string :=
  let lines := full_lines modelJSONCode "" in
  let count := Z.of_nat (length (filter (fun l => (5 < str_len l)%nat) lines)) in
  snd (foldl (fun (acc : Z * string) line =>
    let '(count, out) := acc in
    if (str_len line <? 5)%nat && (Contains line "{" || Contains line "}") then (count, out +:+ line)
    else
      let count := count - 1 in
      (count, out +:+ if count =? 0 then line else TrimSuffix line lf +:+ "," +:+ lf)) (count, "") lines).

Definition getModelJSONCode (data : tmplData) : result error string :=
  s ← run modelJSONTmpl data;
  code ← gofmt s;
  Ok (addCommaToJSON (ReplaceAll code " =" ":")).

Definition proto_marks : list string :=
  ["// createTableReplyFieldCode"; "// deleteTableByIDRequestFieldCode"; "// deleteTableByIDsRequestFieldCode";
   "// getTableByIDRequestFieldCode"; "// getTableByIDsRequestFieldCode"; "// listTableByLastIDRequestFieldCode"].
Definition repeated_ids (t : string) : string := "repeated " +:+ t +:+ " ids = 1 [(validate.rules).repeated.min_items = 1];".
Definition grpcDefaultProtoMessageFieldCodes : list string :=
  ["uint64 id = 1;"; "uint64 id = 1 [(validate.rules).uint64.gt = 0];"; repeated_ids "uint64";
   "uint64 id = 1 [(validate.rules).uint64.gt = 0];"; repeated_ids "uint64"; "uint64 lastID = 1; // last id"].
Definition form_tag : string := "(tagger.tags) = " +:+ quoted ("form:\" +:+ String dquote ("lastID\" +:+ single dquote)).
Definition webDefaultProtoMessageFieldCodes : list string :=
  ["uint64 id = 1;"; "uint64 id =1 [(validate.rules).uint64.gt = 0, " +:+ uri_tag "id" +:+ "];"; repeated_ids "uint64";
   "uint64 id =1 [(validate.rules).uint64.gt = 0, " +:+ uri_tag "id" +:+ " ];"; repeated_ids "uint64";
   "uint64 lastID = 1 [" +:+ form_tag +:+ "]; // last id"].
Definition grpcProtoMessageFieldCodes : list string :=
  ["string id = 1;"; "string id = 1 [(validate.rules).string.min_len = 6];"; repeated_ids "string";
   "string id = 1 [(validate.rules).string.min_len = 6];"; repeated_ids "string"; "string lastID = 1; // last id"].
Definition webProtoMessageFieldCodes : list string :=
  ["string id = 1;"; "string id =1 [(validate.rules).string.min_len = 6, " +:+ uri_tag "id" +:+ "];"; repeated_ids "string";
   "string id =1 [(validate.rules).string.min_len = 6, " +:+ uri_tag "id" +:+ " ];"; repeated_ids "string";
   "string lastID = 1 [" +:+ form_tag +:+ "]; // last id"].
Definition replaceProtoMessageFieldCode (code : string) (messageFields : list string) : string :=
  foldl (fun code kv => ReplaceAll code (fst kv) (snd kv)) code (zip proto_marks messageFields).

Definition proto_end (data : tmplData) (code : string) : string :=
  if bool_decide (ProtoSubStructs data = "") then code else code +:+ lf +:+ ProtoSubStructs data.
Definition adaptedDbType (data : tmplData) (isWebProto : bool) (code : string) : string :=
  proto_end data (replaceProtoMessageFieldCode code
    (if bool_decide (DDriver data = DBDriverMongodb)
     then (if isWebProto then webProtoMessageFieldCodes else grpcProtoMessageFieldCodes)
     else (if isWebProto then webDefaultProtoMessageFieldCodes else grpcDefaultProtoMessageFieldCodes))).
Definition adaptedDbType2 (data : tmplData) (isWebProto : bool) (code : string) : string :=
  proto_end data (replaceProtoMessageFieldCode code
    (if isWebProto then webDefaultProtoMessageFieldCodes else grpcDefaultProtoMessageFieldCodes)).

Definition with_messages (code create update detail : string) : string :=
  let code := ReplaceAll code "// protoMessageCreateCode" create in
  let code := ReplaceAll code "// protoMessageUpdateCode" update in
  let code := ReplaceAll code "// protoMessageDetailCode" detail in
  ReplaceAll (ReplaceAll code "*time.Time" "int64") "time.Time" "int64".

Definition getProtoFileCode (data : tmplData) (jsonNamedType : Z) (isWebProto isExtendedAPI : bool) : result error string :=
  let data := with_fields (goTypeToProto nouns (Fields data) jsonNamedType false) data in
  code ← run (if isWebProto then (if isExtendedAPI then protoFileForWebTmpl else protoFileForSimpleWebTmpl)
              else (if isExtendedAPI then protoFileTmpl else protoFileSimpleTmpl)) data;
  create ← tmplExecuteWithFilter data protoMessageCreateTmpl [];
  update ← tmplExecuteWithFilter data protoMessageUpdateTmpl ["id"];
  let update := if isWebProto then update else ReplaceAll update (", " +:+ uri_tag "id") "" in
  detail ← tmplExecuteWithFilter data protoMessageDetailTmpl detailColumns;
  Ok (adaptedDbType data isWebProto (with_messages code create update detail)).

Definition getCommonProtoFileCode (data : tmplData) (jsonNamedType : Z) (isWebProto isExtendedAPI : bool) : result error string :=
  let data := with_fields (goTypeToProto nouns (Fields data) jsonNamedType true) data in
  code ← run (if isWebProto then (if isExtendedAPI then protoFileForWebCommonTmpl else protoFileForSimpleWebCommonTmpl)
              else (if isExtendedAPI then protoFileCommonTmpl else protoFileSimpleCommonTmpl)) data;
  create ← tmplExecuteWithFilter2 data protoMessageCreateCommonTmpl [];
  update ← tmplExecuteWithFilter2 data protoMessageUpdateCommonTmpl ["id"];
  let update := if isWebProto then update else ReplaceAll update (", " +:+ uri_tag (getProtoFieldName (Fields data))) "" in
  detail ← tmplExecuteWithFilter2 data protoMessageDetailCommonTmpl detailColumns;
  let code := ReplaceAll (ReplaceAll (with_messages code create update detail) "left_curly_bracket" "{") "right_curly_bracket" "}" in
  Ok (adaptedDbType2 data isWebProto code).

Definition service_codes (data : tmplData) (file create update : template) : result error string :=
  code ← run file data;
  create ← tmplExecuteWithFilter data create [];
  update ← tmplExecuteWithFilter data update ["id"];
  let code := ReplaceAll code "// serviceCreateStructCode" (ReplaceAll create "ID:" "Id:") in
  Ok (ReplaceAll code "// serviceUpdateStructCode" (ReplaceAll update "ID:" "Id:")).
Definition getServiceStructCode (data : tmplData) : result error string :=
  service_codes data serviceStructTmpl serviceCreateStructTmpl serviceUpdateStructTmpl.
Definition getCommonServiceStructCode (data : tmplData) : result error string :=
  service_codes data serviceStructCommonTmpl serviceCreateStructCommonTmpl serviceUpdateStructCommonTmpl.

Definition getColumns (dbDriver : string) (fields : list tmplField) : list Field :=
  map (fun f => mkColumnInfo (ColName f) (FName f) (customFirstLetterToLower (FName f)) (FComment f) (IsPrimaryKey f)
                  (GoType f) (handleTag dbDriver (FTag f))) fields.
Definition getPrimaryKeyInfo (info : option CrudInfo) : option PrimaryKey :=
  (fun i => mkPrimaryKey (ColumnName i) (ColumnNameCamel i) (ColumnNameCamelFCL i) (ColumnNamePluralCamel i)
              (ColumnNamePluralCamelFCL i) (CGoType i) (GoTypeFCU i) (IsStringType i)) <$> info.
Definition newTableInfo (data : tmplData) : TableInfo :=
  let plural := customEndOfLetterToLower (TableName data) (Plural (TableName data)) in
  mkTableInfo (TableNamePrefix data) (RawTableName data) (TableName data) (TName data) plural (customFirstLetterToLower plural)
    (ToSnakeCase (TName data)) (Comment data) (getColumns (DDriver data) (Fields data)) (getPrimaryKeyInfo (Crud data))
    (DDriver data) (SubStructs data) (ProtoSubStructs data).

(** ** A table *)

Record codeText : Type := mkCodeText {
  importPaths : list string; modelStruct : string; modelJSON : string; updateFields : string; handlerStruct : string;
  protoFile : string; serviceStruct : string; crudInfo : string; tableInfo : string }.

Definition set_common (b : bool) (i : CrudInfo) : CrudInfo :=
  mkCrudInfo (TableNameCamel i) (TableNameCamelFCL i) (TableNamePluralCamel i) (TableNamePluralCamelFCL i) (ColumnName i)
    (ColumnNameCamel i) (ColumnNameCamelFCL i) (ColumnNamePluralCamel i) (ColumnNamePluralCamelFCL i) (CGoType i) (GoTypeFCU i)
    (ProtoType i) (IsStringType i) (PrimaryKeyColumnName i) b (IsStandardPrimaryKey i).

(** The data of a statement, and the imports of its columns. *)
Definition make_data (stmt : CreateTableStmt) (opt : options) : result error (tmplData * list string) :=
  let raw := TName_ stmt in
  let prefixed := negb (bool_decide (TablePrefix opt = "")) && HasPrefix raw (TablePrefix opt) in
  let tableName := toCamel nouns (if prefixed then str_drop (str_len (TablePrefix opt)) raw else raw) in
  let nameFunc := prefixed || ForceTableName opt || negb (bool_decide (raw = Plural raw)) in
  keys ← primary_keys (Constraints stmt);
  let '(fields, paths) := make_fields opt keys (Cols stmt) in
  match fields with
  | [] => Err (ErrNoColumns tableName)
  | _ =>
      let tname := firstLetterToLower tableName in
      let data crud := mkData (TablePrefix opt) raw tableName tname nameFunc fields
        (default "" (replaceCommentNewline <$> head (TableComments stmt)))
        (default "" (assoc (FieldTypes opt) SubStructKey)) (default "" (assoc (FieldTypes opt) ProtoSubStructKey)) (DBDriver opt) crud in
      let crud := newCrudInfo tableName tname fields in
      Ok (data (set_common (isCommonStyle (data crud) (IsEmbed opt)) <$> crud), paths)
  end.

Definition makeCode (stmt : CreateTableStmt) (opt : options) : result error codeText :=
  '(data, paths) ← make_data stmt opt;
  if IsCustomTemplate opt then Ok (mkCodeText [] "" "" "" "" "" "" "" (MarshalTable (newTableInfo data)))
  else
    '(modelStructCode, paths) ← getModelStructCode data paths (IsEmbed opt) (JSONNamedType opt);
    updateFieldsCode ← getUpdateFieldsCode data;
    modelJSONCode ← getModelJSONCode data;
    let common := isCommonStyle data (IsEmbed opt) in
    handlerStructCode ← (if common then getCommonHandlerStructCodes data (JSONNamedType opt) else getHandlerStructCodes data (JSONNamedType opt));
    serviceStructCode ← (if common then getCommonServiceStructCode data else getServiceStructCode data);
    protoFileCode ← (if common then getCommonProtoFileCode data (JSONNamedType opt) (IsWebProto opt) (IsExtendedAPI opt)
                     else getProtoFileCode data (JSONNamedType opt) (IsWebProto opt) (IsExtendedAPI opt));
    Ok (mkCodeText paths modelStructCode modelJSONCode updateFieldsCode handlerStructCode protoFileCode serviceStructCode
          (match Crud data with Some i => MarshalCrud i | None => "" end) "").

(** [makeCode] sets the format of the tags of mongodb documents first. *)
Definition json_tag_format (opt : options) (f : Z) : Z :=
  if bool_decide (DBDriver opt = DBDriverMongodb) then
    (if JSONNamedType opt =? 0 then SetJSONTagSnakeCase f else SetJSONTagCamelCase f)
  else f.

(** ** The statements *)

Fixpoint insert_string (k : string) (l : list string) : list string :=
  match l with
  | [] => [k]
  | x :: l' => if String.ltb x k then x :: insert_string k l' else k :: l
  end.
Definition sorted_set (l : list string) : list string := foldr insert_string [] (remove_dups l).

Definition creates (stmts : list Stmt) : list CreateTableStmt :=
  omap (fun s => match s with SCreateTable ct => Some ct | SOther => None end) stmts.

Definition getModelCode (data : modelCodes) : result error string :=
  match ExecuteModel data with Some s => gofmt s | None => Err ErrModelTemplate end.

Definition ParseSQL (sql : string) (opts : list Option_) : result error (list (string * string)) :=
  let opt := parseOption opts in
  match Parse sql (Charset opt) (Collation opt) with
  | None => Err ErrSQL
  | Some stmts =>
      codes ← traverse (fun ct => makeCode ct opt) (creates stmts);
      modelCode ← getModelCode (mkModelCodes (Package opt) (sorted_set (mjoin (map importPaths codes))) (map modelStruct codes));
      let joined (f : codeText -> string) sep := Join (map f codes) sep in
      Ok [("model", modelCode); ("json", joined modelJSON (lf +:+ lf)); ("dao", joined updateFields (lf +:+ lf));
          ("handler", joined handlerStruct (lf +:+ lf)); ("proto", joined protoFile (lf +:+ lf));
          ("service", joined serviceStruct (lf +:+ lf));
          ("__table_name__", Join (map (fun ct => toCamel nouns (TName_ ct)) (creates stmts)) ", ");
          ("crud_info", joined crudInfo " |||| "); ("table_info", joined tableInfo " |||| ")]
  end.
End Generate.

End SqlCode.
