(* ===== verification/SqlGen.v ===== *)
(** * Generating code from a database (pkg/sql2code/sql2code.go)

    The arguments, the statement they lead to and the options they set; then
    the theorems about SqlCode.v and evaluated examples.  The databases and
    the file system are a class; the adaptation of DSNs is left to it. *)

From S2P Require Import Prelude GoStr SqlNames SqlFields SqlTables SqlCode.
From Stdlib Require Import Ascii.

Module SqlGen.
Import SqlNames SqlFields SqlTables SqlCode.

Record Args : Type := mkArgs {
  SQL : string; DDLFile : string; ADBDriver : string; DBDsn : string; DBTable : string;
  fieldTypes : option (list (string * string)); APackage : string; AGormType : bool; AJSONTag : bool; AJSONNamedType : Z;
  AIsEmbed : bool; AIsWebProto : bool; CodeType : string; AForceTableName : bool; ACharset : string; ACollation : string;
  ATablePrefix : string; AColumnPrefix : string; ANoNullType : bool; ANullStyle : string; AIsExtendedAPI : bool;
  AIsCustomTemplate : bool }.
Definition with_driver (driver : string) (types : option (list (string * string))) (a : Args) : Args :=
  mkArgs (SQL a) (DDLFile a) driver (DBDsn a) (DBTable a) types (APackage a) (AGormType a) (AJSONTag a) (AJSONNamedType a)
    (AIsEmbed a) (AIsWebProto a) (CodeType a) (AForceTableName a) (ACharset a) (ACollation a) (ATablePrefix a) (AColumnPrefix a)
    (ANoNullType a) (ANullStyle a) (AIsExtendedAPI a) (AIsCustomTemplate a).

(** What the files and the databases answer; none on an error. *)
Class Databases := {
  ReadFile : string -> option string;
  IsExists : string -> bool;
  MysqlTable : string -> string -> option string;
  PostgresqlTable : string -> string -> option (list PGField);
  SqliteTable : string -> string -> option (list SqliteField);
  MongodbDocument : string -> string -> option (list (string * bson)) }.

Section Generate.
Context `{Words} `{Outside} `{Databases}.
Variable nouns : list (string * string).

Definition checkValid (a : Args) : result error Args :=
  if bool_decide (SQL a = "" /\ DDLFile a = "" /\ DBDsn a = "" /\ DBTable a = "") then Err ErrArgs
  else if negb (bool_decide (DBTable a = "")) && existsb (fun name => HasSuffix name "_test") (Split (DBTable a) ",") then Err ErrArgs
  else if bool_decide (ADBDriver a = DBDriverSqlite) && negb (IsExists (DBDsn a)) then Err ErrArgs
  else Ok (with_driver (if bool_decide (ADBDriver a = "") then DBDriverMysql else ADBDriver a)
             (Some (default [] (fieldTypes a))) a).

Definition from_database {A B} (m : option A) (f : A -> B) : result error B :=
  match m with Some x => Ok (f x) | None => Err ErrSource end.

(** The statement and the types of its columns; [f] is the format of the tags
    of mongodb documents. *)
Definition getSQL (f : Z) (a : Args) : result error (string * option (list (string * string))) :=
  let driver := ToLower (ADBDriver a) in
  if negb (bool_decide (SQL a = "")) then Ok (SQL a, None)
  else if negb (bool_decide (DDLFile a = "")) then
    if bool_decide (driver = DBDriverMysql) then from_database (ReadFile (DDLFile a)) (fun s => (s, None)) else Err ErrArgs
  else if negb (bool_decide (DBDsn a = "")) then
    if bool_decide (DBTable a = "") then Err ErrArgs
    else if bool_decide (driver ∈ [DBDriverMysql; DBDriverTidb]) then from_database (MysqlTable (DBDsn a) (DBTable a)) (fun s => (s, None))
    else if bool_decide (driver = DBDriverPostgresql) then
      from_database (PostgresqlTable (DBDsn a) (DBTable a)) (fun fields => prod_map id Some (ConvertToSQLByPgFields (DBTable a) fields))
    else if bool_decide (driver = DBDriverSqlite) then
      from_database (SqliteTable (DBDsn a) (DBTable a)) (fun fields => (convertToSQLBySqliteFields (DBTable a) fields, None))
    else if bool_decide (driver = DBDriverMongodb) then
      from_database (MongodbDocument (DBDsn a) (DBTable a))
        (fun es => prod_map id Some (ConvertToSQLByMgoFields (DBTable a) (mongo_fields f es)))
    else Err ErrArgs
  else Err ErrArgs.

Definition when (b : bool) (o : Option_) : list Option_ := if b then [o] else [].
Definition given (s : string) (o : Option_) : list Option_ := if bool_decide (s = "") then [] else [o].
(** No options at all when the style of null is unknown. *)
Definition setOptions (a : Args) : list Option_ :=
  let before := given (ADBDriver a) (WithDBDriver (ADBDriver a)) ++
    match fieldTypes a with Some m => [WithFieldTypes m] | None => [] end ++
    given (ACharset a) (WithCharset (ACharset a)) ++ given (ACollation a) (WithCollation (ACollation a)) ++
    when (AJSONTag a) (WithJSONTag (AJSONNamedType a)) ++ given (ATablePrefix a) (WithTablePrefix (ATablePrefix a)) ++
    given (AColumnPrefix a) (WithColumnPrefix (AColumnPrefix a)) ++ when (ANoNullType a) WithNoNullType ++
    when (AIsEmbed a) WithEmbed ++ when (AIsWebProto a) WithWebProto in
  let after := given (APackage a) (WithPackage (APackage a)) ++ when (AGormType a) WithGormType ++
    when (AForceTableName a) WithForceTableName ++ when (AIsExtendedAPI a) WithExtendedAPI ++
    when (AIsCustomTemplate a) WithCustomTemplate in
  if bool_decide (ANullStyle a = "") then before ++ [WithNullStyle NullDisable] ++ after
  else if bool_decide (ANullStyle a = "sql") then before ++ [WithNullStyle NullInSql] ++ after
  else if bool_decide (ANullStyle a = "ptr") then before ++ [WithNullStyle NullInPointer] ++ after
  else [].

Definition Generate (f : Z) (a : Args) : result error (list (string * string)) :=
  a ← checkValid a;
  '(sql, types) ← getSQL f a;
  let a := match types with Some m => with_driver (ADBDriver a) (Some m) a | None => a end in
  if bool_decide (sql = "") then Err ErrSource else ParseSQL nouns sql (setOptions a).

Definition GenerateOne (f : Z) (a : Args) : result error string :=
  codes ← Generate f a;
  let codeType := if bool_decide (CodeType a = "") then "model" else CodeType a in
  match assoc codes codeType with Some out => Ok out | None => Err (ErrCodeType codeType) end.

(** ** The fields of a table *)

(** The field of a column, given the columns of the primary keys. *)
Definition field_of_column (opt : options) (keys : list string) (col : ColumnDef) (f : tmplField) : Prop :=
  ColName f = CName col /\ IsPrimaryKey f = bool_decide (CName col ∈ keys) /\ FDriver f = DBDriver opt /\
  (DBDriver opt = DBDriverMongodb -> GoType f = field_type opt (CName col)) /\
  (DBDriver opt <> DBDriverMongodb -> ~ (DBDriver opt = DBDriverPostgresql /\ field_type opt (CName col) = "bool") ->
     (GoType f, rewriter f) =
       (let '(name, _, rw) := mysqlToGoType (CTp col) (if bool_decide (OptNull ∈ COptions col) then ONullStyle opt else NullDisable) in
        (name, rw))).

Lemma scan_null s l : canNull (foldl scan_option s l) = canNull s || bool_decide (OptNull ∈ l).
Proof.
  revert s. induction l as [|o l IH]; intros s; cbn [foldl]; [by rewrite orb_false_r|]. rewrite IH. destruct s as [tag keyed nn cn cmt].
  assert (canNull (scan_option (mkScan tag keyed nn cn cmt) o) = cn || bool_decide (o = OptNull)) as ->.
  { destruct o; cbn; repeat case_match; cbn; by rewrite ?orb_false_r, ?orb_true_r. }
  cbn [canNull]. rewrite <- orb_assoc. f_equal. rewrite <- bool_decide_or. apply bool_decide_ext. set_solver.
Qed.

Lemma make_field_column opt inline keys col : (CName col ∈ inline <-> CName col ∈ keys) ->
  field_of_column opt keys col (fst (fst (make_field nouns opt inline col))) /\
  (forall k, k <> CName col -> k ∈ snd (make_field nouns opt inline col) <-> k ∈ inline).
Proof.
  intros Hkeys. unfold make_field, field_of_column. rewrite (bool_decide_ext _ _ Hkeys).
  set (s := foldl scan_option _ (COptions col)).
  assert (canNull s = bool_decide (OptNull ∈ COptions col)) as Hnull by apply scan_null.
  assert (forall k, k <> CName col ->
    k ∈ (if keyed s && negb (bool_decide (CName col ∈ keys)) then CName col :: inline else inline) <-> k ∈ inline) as Hin.
  { intros k Hk. destruct (_ && _); set_solver. }
  destruct (decide (DBDriver opt = DBDriverMongodb)) as [Hm|Hm].
  - rewrite bool_decide_true by done. split; [|done]. cbn. by split_and!.
  - rewrite bool_decide_false by done. rewrite Hnull.
    set (style := if bool_decide (OptNull ∈ COptions col) then ONullStyle opt else NullDisable).
    destruct (mysqlToGoType (CTp col) style) as [[t pkg] rw]. split; [|done]. cbn. split_and!; try done.
    intros _ Hpg. by rewrite bool_decide_false by done.
Qed.

Lemma make_fields_columns opt inline keys cols : NoDup (map CName cols) ->
  (forall c, c ∈ cols -> CName c ∈ inline <-> CName c ∈ keys) ->
  Forall2 (field_of_column opt keys) cols (fst (make_fields nouns opt inline cols)).
Proof.
  revert inline. induction cols as [|col cols IH]; intros inline Hnd Hkeys; [constructor|]. cbn [make_fields].
  destruct (make_field_column opt inline keys col) as [Hf Hin]; [apply Hkeys; left|].
  destruct (make_field nouns opt inline col) as [[field paths] inline']. cbn [fst snd] in Hf, Hin.
  inversion_clear Hnd as [|? ? Hnotin Hnd'].
  specialize (IH inline' Hnd'). destruct (make_fields nouns opt inline' cols) as [fields paths'].
  constructor; [done|]. apply IH. intros c Hc. rewrite Hin; [apply Hkeys; by right|].
  intros Heq. apply Hnotin. rewrite <- Heq. apply list_elem_of_In, in_map. by apply list_elem_of_In.
Qed.

Lemma primary_keys_ok l : Forall (fun c => c <> ConstraintPrimaryKey []) l -> exists keys, primary_keys l = Ok keys.
Proof.
  intros Hl. cut (forall acc, exists keys, foldM add_key acc l = Ok keys); [intros Hgen; apply Hgen|].
  induction Hl as [|c l Hc _ IH]; intros acc; [by eexists|].
  cbn [foldM]. destruct c as [[|key cols]|]; [done|..]; cbn [add_key mbind result_bind]; [|by apply IH].
  change (at_index (key :: cols) 0) with (@Ok error string key). by apply IH.
Qed.

(** C23: Unless two columns have one name, the fields of a table are its
    columns, in order, with their names, the types of the mapping and the key
    of the constraints; a table is refused exactly when it has no columns. *)
Theorem fields_follow_columns stmt opt :
  NoDup (map CName (Cols stmt)) -> Forall (fun c => c <> ConstraintPrimaryKey []) (Constraints stmt) ->
  exists keys, primary_keys (Constraints stmt) = Ok keys /\
  match make_data nouns stmt opt with
  | Ok (data, _) => Cols stmt <> [] /\ RawTableName data = TName_ stmt /\ DDriver data = DBDriver opt /\
                    Forall2 (field_of_column opt keys) (Cols stmt) (Fields data) /\ is_Some (Crud data)
  | Err (ErrNoColumns _) => Cols stmt = []
  | _ => False
  end.
Proof.
  intros Hnd Hcons. destruct (primary_keys_ok _ Hcons) as [keys Hk]. exists keys. split; [done|].
  unfold make_data. rewrite Hk. cbn [mbind result_bind]. pose proof (make_fields_columns opt keys keys (Cols stmt) Hnd ltac:(done)) as Hf.
  destruct (make_fields nouns opt keys (Cols stmt)) as [[|f fields] paths]; cbn [fst] in Hf; inversion Hf; subst.
  - done.
  - split; [done|]. split; [done|]. split; [done|]. cbn [Fields Crud]. split; [by constructor|].
    apply fmap_is_Some. unfold newCrudInfo. apply fmap_is_Some. unfold key_field. repeat (case_match; [by eexists|]). by eexists.
Qed.

End Generate.

(** ** Tables to try it on *)

Definition int_type : FieldType := mkFieldType TypeLong false "int(11)" "int(11)".
Definition varchar_type : FieldType := mkFieldType TypeVarchar false "varchar(20)" "varchar(20)".
(** [code] is declared the primary key, in its own definition or after the
    columns. *)
Definition coupons (inline : bool) : CreateTableStmt :=
  mkCreate "coupon" [] (if inline then [] else [ConstraintPrimaryKey ["code"]])
    [mkColumn "code" varchar_type (if inline then [OptPrimaryKey] else []); mkColumn "user_id" int_type [OptNotNull]].
Definition key_of (inline : bool) : option (string * string) :=
  match @make_data sample_words peculiarNouns (coupons inline) defaultOptions with
  | Ok (data, _) => (fun i => (ColumnName i, PrimaryKeyColumnName i)) <$> Crud data
  | _ => None
  end.

Lemma fields_follow_columns_witness :
  exists keys, primary_keys (Constraints (coupons false)) = Ok keys /\
  match @make_data sample_words peculiarNouns (coupons false) defaultOptions with
  | Ok (data, _) => Cols (coupons false) <> [] /\ RawTableName data = "coupon" /\ DDriver data = "mysql" /\
                    Forall2 (field_of_column defaultOptions keys) (Cols (coupons false)) (Fields data) /\ is_Some (Crud data)
  | Err (ErrNoColumns _) => Cols (coupons false) = []
  | _ => False
  end.
Proof.
  apply (@fields_follow_columns sample_words peculiarNouns (coupons false) defaultOptions).
  - by apply (bool_decide_unpack _).
  - repeat constructor. discriminate.
Defined.

(** A column declared the primary key in its own definition is not the key
    of the generated operations. *)
Lemma inline_primary_key_ignored : key_of false = Some ("code", "code") /\ key_of true = Some ("user_id", "").
Proof. split; by vm_compute. Qed.

(** An unknown style of null drops every option, the driver among them. *)
Lemma unknown_style_drops_options :
  let a style := mkArgs "s" "" "postgresql" "" "" None "dao" false true 0 true false "" false "" "" "" "" true style false false in
  ONullStyle (parseOption (setOptions (a ""))) = NullDisable /\ DBDriver (parseOption (setOptions (a ""))) = "postgresql" /\
  parseOption (setOptions (a "pointer")) = defaultOptions.
Proof. split_and!; by vm_compute. Qed.

(** The tags of the documents in a mongodb document are those of the format
    before the options are looked at. *)
Lemma tag_format_one_run_late :
  let opt := parseOption [WithDBDriver "mongodb"; WithJSONTag 0] in
  let struct f := snd (fst (@getTypeFromMgo sample_words f "address" (BDocument (Some [("zip_code", BValue TypeInt32)])))) in
  JSONNamedType opt = 0 /\
  struct 1 = "type Address struct {" +:+ lf +:+ "    ZipCode int " +:+ bson_tag "zip_code" "zipCode" +:+ lf +:+ "}" +:+ lf /\
  json_tag_format opt 1 = 0.
Proof. split_and!; by vm_compute. Qed.

End SqlGen.
