(* ===== verification/Files.v ===== *)
(** * Files and directories (pkg/gofile)

    filePath.go, fileContent.go and options.go: paths, the listing of
    directories and the search of marked bytes, over a disk that is a tree of
    named entries in the order of ReadDir.  The packages os and path/filepath
    are defined as far as they are used, without symbolic links, permissions
    and volume names; [windows] is the value of IsWindows, [cwd] the working
    directory.  Theorems: a listing has every file below a directory once and
    ends; marked blocks are found, or the search panics. *)

From S2P Require Import Prelude GoStr.
From Stdlib Require Import Ascii.
From Stdlib Require String.

Module Files.

(** ** The disk *)

Inductive errno : Type := ENOENT | ENOTDIR | EISDIR.
#[global] Instance errno_eq_dec : EqDecision errno.
Proof. solve_decision. Defined.

Inductive node : Type :=
  | File (data : string)
  | Dir (entries : list (string * node)).

Definition is_dir (n : node) : bool := match n with Dir _ => true | File _ => false end.

(** The node of a path of names from the root. *)
Fixpoint lookup_node (d : node) (k : list string) : option node :=
  match k with
  | [] => Some d
  | c :: k' => match d with Dir es => assoc es c ≫= (fun n => lookup_node n k') | File _ => None end
  end.

(** An entry set or added; entries stay in the order of their names. *)
Fixpoint set_entry (c : string) (n : node) (es : list (string * node)) : list (string * node) :=
  match es with
  | [] => [(c, n)]
  | (c', n') :: es' =>
      if bool_decide (c = c') then (c, n) :: es'
      else if String.ltb c c' then (c, n) :: es
      else (c', n') :: set_entry c n es'
  end.
Fixpoint put_node (d : node) (k : list string) (n : node) : node :=
  match k with
  | [] => n
  | c :: k' =>
      match d with
      | Dir es => Dir (set_entry c (put_node (default (Dir []) (assoc es c)) k' n) es)
      | File _ => d
      end
  end.

Fixpoint depth (n : node) : nat :=
  match n with
  | File _ => O
  | Dir es => S (list_max (map (fun '(_, n) => depth n) es))
  end.

(** ** Package filepath *)

Definition slash : ascii := ascii_of_nat 47.
Definition backslash : ascii := ascii_of_nat 92.
Definition dot : ascii := ascii_of_nat 46.

Section OnDisk.
Variable windows : bool.
Variable cwd : list string.

Definition is_sep (c : ascii) : bool := bool_decide (c = slash) || (windows && bool_decide (c = backslash)).

Definition GetPathDelimiter : string := if windows then single backslash else "/".

Definition ToSlash (p : string) : string := if windows then ReplaceChar p backslash "/" else p.
Definition FromSlash (p : string) : string := if windows then ReplaceChar p slash (single backslash) else p.

(** [filepath.Split]: up to and after the last separator. *)
Fixpoint SplitPath (p : string) : string * string :=
  match p with
  | EmptyString => ("", "")
  | String c p' =>
      let '(d, f) := SplitPath p' in
      match d with
      | EmptyString => if is_sep c then (single c, f) else ("", String c f)
      | _ => (String c d, f)
      end
  end.

(** From the last dot of a name. *)
Fixpoint ext (f : string) : string :=
  match f with
  | EmptyString => ""
  | String c f' => match ext f' with EmptyString => if bool_decide (c = dot) then f else "" | e => e end
  end.
Definition Ext (p : string) : string := ext (snd (SplitPath p)).

Definition rooted (p : string) : bool := match p with String c _ => is_sep c | EmptyString => false end.

(** [filepath.Clean], by elements: the stack has the last element first. *)
Definition clean_step (root : bool) (stack : list string) (c : string) : list string :=
  if bool_decide (c = "" \/ c = ".") then stack
  else if bool_decide (c = "..") then
    match stack with
    | top :: rest => if bool_decide (top = "..") then c :: stack else rest
    | [] => if root then [] else [c]
    end
  else c :: stack.
Definition Clean (p : string) : string :=
  let root := rooted p in
  let elems := rev (foldl (clean_step root) [] (Split (ToSlash p) slash)) in
  FromSlash (if root then "/" +:+ Join elems "/"
             else match elems with [] => "." | _ => Join elems "/" end).

(** [filepath.Join]: empty elements are left out. *)
Definition JoinPath (elem : list string) : string :=
  match filter (fun e => e <> "") elem with
  | [] => ""
  | l => Clean (Join l GetPathDelimiter)
  end.
Definition DirOf (p : string) : string := Clean (fst (SplitPath p)).
Definition Base (p : string) : string :=
  if bool_decide (p = "") then "."
  else match snd (SplitPath (trim_right_by is_sep p)) with
       | EmptyString => GetPathDelimiter
       | b => b
       end.
Definition wd : string := GetPathDelimiter +:+ Join cwd GetPathDelimiter.
Definition Abs (p : string) : string := if rooted p then Clean p else JoinPath [wd; p].

(** ** Package os *)

Definition abs_comps (p : string) : list string :=
  let cs := Split (ToSlash p) slash in if rooted p then cs else cwd ++ cs.

Definition step (cur : list string) (c : string) : list string :=
  if bool_decide (c = "" \/ c = ".") then cur else if bool_decide (c = "..") then removelast cur else cur ++ [c].

(** Every directory on the way has to exist. *)
Fixpoint resolve (d : node) (cur cs : list string) : result errno (list string) :=
  match cs with
  | [] => Ok cur
  | c :: cs' =>
      match lookup_node d cur with
      | Some (Dir _) => resolve d (step cur c) cs'
      | Some (File _) => Err ENOTDIR
      | None => Err ENOENT
      end
  end.

Definition Stat (d : node) (p : string) : result errno node :=
  if bool_decide (p = "") then Err ENOENT
  else
    k ← resolve d [] (abs_comps p);
    match lookup_node d k with Some n => Ok n | None => Err ENOENT end.

(** The entries of a directory, sorted by name. *)
Definition ReadDir (d : node) (p : string) : result errno (list (string * node)) :=
  n ← Stat d p;
  match n with Dir es => Ok es | File _ => Err ENOTDIR end.
Definition ReadFile (d : node) (p : string) : result errno string :=
  n ← Stat d p;
  match n with File s => Ok s | Dir _ => Err EISDIR end.

Definition WriteFile (d : node) (p data : string) : result errno node :=
  if bool_decide (p = "") then Err ENOENT
  else
    k ← resolve d [] (abs_comps p);
    match lookup_node d k with
    | Some (Dir _) => Err EISDIR
    | _ => Ok (put_node d k (File data))
    end.

(** Missing directories are made one by one. *)
Fixpoint mkdirs (d : node) (cur cs : list string) : node * option errno :=
  match cs with
  | [] => (d, None)
  | c :: cs' =>
      let cur := step cur c in
      match lookup_node d cur with
      | Some (Dir _) => mkdirs d cur cs'
      | Some (File _) => (d, Some ENOTDIR)
      | None => mkdirs (put_node d cur (Dir [])) cur cs'
      end
  end.
Definition MkdirAll (d : node) (p : string) : node * option errno :=
  if bool_decide (p = "") then (d, Some ENOENT) else mkdirs d [] (abs_comps p).

Fixpoint remove_node (d : node) (k : list string) : node :=
  match k, d with
  | c :: k', Dir es =>
      match k' with
      | [] => Dir (filter (fun kv => kv.1 <> c) es)
      | _ => match assoc es c with Some n => Dir (set_entry c (remove_node n k') es) | None => d end
      end
  | _, _ => d
  end.
Definition RemoveAll (d : node) (p : string) : node :=
  if bool_decide (p = "") then d else match resolve d [] (abs_comps p) with Ok k => remove_node d k | _ => d end.

(** ** Paths (filePath.go) *)

(** Every error other than that of a missing file counts as existing. *)
Definition IsExists (d : node) (f : string) : bool :=
  match Stat d f with Err ENOENT => false | _ => true end.

Definition GetFilename (p : string) : string := snd (SplitPath p).
Definition GetFileSuffixName (p : string) : string := Ext p.
Definition GetDir (p : string) : string := DirOf p.
Definition GetFileDir (p : string) : string := fst (SplitPath p).
Definition GetFilenameWithoutSuffix (p : string) : string :=
  let name := snd (SplitPath p) in TrimSuffix name (ext name).
Definition GetSuffixDir (d : node) (p : string) : string :=
  match Stat d p with
  | Ok (File _) => Base (TrimSuffix p (Base p))
  | _ => Base p
  end.
Definition CreateDir (d : node) (dir : string) : node * option errno :=
  match Stat d dir with Err ENOENT => MkdirAll d dir | _ => (d, None) end.
Definition GetRelativeFilePath (absFilePath : string) : string :=
  let dirPath := ToSlash (Clean (Abs ".")) in
  let dirPath := if HasSuffix dirPath "/" then dirPath else dirPath +:+ "/" in
  TrimPrefix (ToSlash (Clean absFilePath)) dirPath.
(** [Join] of this package, which does not clean. *)
Definition Join_ (elem : list string) : string := FromSlash (Join elem "/").

(** ** Listing *)

Inductive Option_ : Type :=
  | WithSuffix (name : string)
  | WithPrefix (name : string)
  | WithContain (name : string)
  | WithNoAbsolutePath.
Inductive Filter : Type := NoFilter | Prefix | Suffix | Contain.
Record options : Type := mkOptions { filter_ : Filter; name_ : string; noAbsolutePath : bool }.
Definition defaultOptions : options := mkOptions NoFilter "" false.
Definition apply_option (o : options) (opt : Option_) : options :=
  match opt with
  | WithSuffix n => mkOptions Suffix n (noAbsolutePath o)
  | WithPrefix n => mkOptions Prefix n (noAbsolutePath o)
  | WithContain n => mkOptions Contain n (noAbsolutePath o)
  | WithNoAbsolutePath => mkOptions (filter_ o) (name_ o) true
  end.

Definition matchSuffix (suffixName filename : string) : bool :=
  negb (bool_decide (suffixName = "")) && HasSuffix filename suffixName.
Definition matchPrefix (prefixName filePath : string) : bool :=
  negb (bool_decide (prefixName = "")) && HasPrefix (GetFilename filePath) prefixName.
Definition matchContain (containName filePath : string) : bool :=
  negb (bool_decide (containName = "")) && Contains (GetFilename filePath) containName.

(** What a walk visits, in order: directories and files. *)
Definition visit : Type := (string * bool)%type.
Definition walked : Type := (list visit * option errno)%type.

(** The loop over the entries of [dirPath]; an error ends it. *)
Fixpoint walk_entries (rec : string -> option walked) (dirPath : string) (es : list (string * node)) : option walked :=
  match es with
  | [] => Some ([], None)
  | (name, n) :: es' =>
      let deepFile := dirPath +:+ GetPathDelimiter +:+ name in
      match (if is_dir n then rec deepFile else Some ([], None)) with
      | None => None
      | Some (l, Some e) => Some ((deepFile, is_dir n) :: l, Some e)
      | Some (l, None) =>
          match walk_entries rec dirPath es' with
          | None => None
          | Some (l', e) => Some ((deepFile, is_dir n) :: l ++ l', e)
          end
      end
  end.
(** The recursion of walkDir, walkDir2 and walkDirWithFilter, which reads
    every directory from the disk; [None] when the fuel runs out. *)
Fixpoint walk (fuel : nat) (d : node) (dirPath : string) : option walked :=
  match fuel with
  | O => None
  | S fuel =>
      match ReadDir d dirPath with
      | Ok es => walk_entries (walk fuel d) dirPath es
      | Err e => Some ([], Some e)
      | Panic => Some ([], Some ENOENT)
      end
  end.

Definition files_of (l : list visit) : list string := omap (fun v : visit => if snd v then None else Some (fst v)) l.
Definition dirs_of (l : list visit) : list string := omap (fun v : visit => if snd v then Some (fst v) else None) l.

Definition walkDir (fuel : nat) (d : node) (dirPath : string) : option (list string * option errno) :=
  prod_map files_of id <$> walk fuel d dirPath.
Definition walkDirWithFilter (fuel : nat) (d : node) (dirPath : string) (keep : string -> bool) :
    option (list string * option errno) :=
  prod_map (fun l => filter (fun f => keep f = true) (files_of l)) id <$> walk fuel d dirPath.
Definition walkDir2 (fuel : nat) (d : node) (dirPath : string) : option (list string * list string * option errno) :=
  (fun w => (dirs_of (fst w), files_of (fst w), snd w)) <$> walk fuel d dirPath.

(** The files found before an error are returned with it. *)
Definition ListFiles (fuel : nat) (d : node) (dirPath : string) (opts : list Option_) : option (list string * option errno) :=
  let o := foldl apply_option defaultOptions opts in
  let dirPath := if noAbsolutePath o then dirPath else Abs dirPath in
  match filter_ o with
  | Prefix => walkDirWithFilter fuel d dirPath (matchPrefix (name_ o))
  | Suffix => walkDirWithFilter fuel d dirPath (matchSuffix (name_ o))
  | Contain => walkDirWithFilter fuel d dirPath (matchContain (name_ o))
  | NoFilter => walkDir fuel d dirPath
  end.
(** The map with the keys dirs and files, or an empty one. *)
Definition ListDirsAndFiles (fuel : nat) (d : node) (dirPath : string) : option (result errno (list string * list string)) :=
  (fun w : list string * list string * option errno => match snd w with None => Ok (fst w) | Some e => Err e end)
    <$> walkDir2 fuel d (Abs dirPath).

(** The elements of a pattern of [path.Match]; [None] is a bad pattern, which
    matches nothing. *)
Inductive glob : Type := Star | AnyChar | Lit (c : ascii) | Class (negated : bool) (ranges : list (ascii * ascii)).

Definition get_esc (s : string) : option (ascii * string) :=
  match s with
  | String c s' =>
      let r := if bool_decide (c = "-"%char \/ c = "]"%char) then None
               else if bool_decide (c = backslash) then match s' with String c' s'' => Some (c', s'') | _ => None end
               else Some (c, s') in
      match r with Some (_, EmptyString) | None => None | r => r end
  | EmptyString => None
  end.
Fixpoint get_class (fuel : nat) (s : string) (ranges : list (ascii * ascii)) : option (list (ascii * ascii) * string) :=
  match fuel, s with
  | S fuel, String c s' =>
      if bool_decide (c = "]"%char) && negb (bool_decide (ranges = [])) then Some (ranges, s')
      else match get_esc s with
           | Some (lo, String c' s'') =>
               if bool_decide (c' = "-"%char) then
                 match get_esc s'' with Some (hi, s3) => get_class fuel s3 (ranges ++ [(lo, hi)]) | None => None end
               else get_class fuel (String c' s'') (ranges ++ [(lo, lo)])
           | _ => None
           end
  | _, _ => None
  end.
Fixpoint get_glob (fuel : nat) (s : string) : option (list glob) :=
  match fuel, s with
  | _, EmptyString => Some []
  | O, _ => None
  | S fuel, String c s' =>
      if bool_decide (c = "*"%char) then cons Star <$> get_glob fuel s'
      else if bool_decide (c = "?"%char) then cons AnyChar <$> get_glob fuel s'
      else if bool_decide (c = backslash) then
        match s' with String c' s'' => cons (Lit c') <$> get_glob fuel s'' | _ => None end
      else if bool_decide (c = "["%char) then
        let '(neg, s') := match s' with String "^" s'' => (true, s'') | _ => (false, s') end in
        match get_class (str_len s') s' [] with
        | Some (ranges, s'') => cons (Class neg ranges) <$> get_glob fuel s''
        | None => None
        end
      else cons (Lit c) <$> get_glob fuel s'
  end.
Definition in_range (c : ascii) (r : ascii * ascii) : bool :=
  (nat_of_ascii (fst r) <=? nat_of_ascii c)%nat && (nat_of_ascii c <=? nat_of_ascii (snd r))%nat.
Fixpoint glob_match (g : list glob) : string -> bool :=
  match g with
  | [] => fun s => bool_decide (s = "")
  | Star :: g' =>
      fix star (s : string) : bool :=
        glob_match g' s || match s with String c s' => negb (bool_decide (c = slash)) && star s' | _ => false end
  | AnyChar :: g' => fun s => match s with String c s' => negb (bool_decide (c = slash)) && glob_match g' s' | _ => false end
  | Lit c :: g' => fun s => match s with String c' s' => bool_decide (c = c') && glob_match g' s' | _ => false end
  | Class neg ranges :: g' => fun s =>
      match s with
      | String c s' => negb (Bool.eqb (existsb (in_range c) ranges) neg) && glob_match g' s'
      | _ => false
      end
  end.
Definition Match (pattern name : string) : bool :=
  match get_glob (str_len pattern) pattern with Some g => glob_match g name | None => false end.

Definition FuzzyMatchFiles (fuel : nat) (d : node) (f : string) : option (list string) :=
  let '(dir, filenameReg) := SplitPath f in
  if negb (Contains filenameReg "*") then Some [f]
  else
    (fun w : list string * option errno =>
       match snd w with
       | Some _ => []
       | None => filter (fun file => Match filenameReg (GetFilename file) = true) (fst w)
       end) <$> ListFiles fuel d dir [].

(** [nil] and the error when any directory cannot be read. *)
Fixpoint list_dirs_loop (rec : string -> option (result errno (list string))) (dir : string) (es : list (string * node)) :
    option (result errno (list string)) :=
  match es with
  | [] => Some (Ok [])
  | (name, n) :: es' =>
      if is_dir n then
        match rec (JoinPath [dir; name]) with
        | Some (Ok tmpDirs) =>
            match list_dirs_loop rec dir es' with
            | Some (Ok dirs) => Some (Ok (JoinPath [dir; name] :: tmpDirs ++ dirs))
            | r => r
            end
        | r => r
        end
      else list_dirs_loop rec dir es'
  end.
Fixpoint ListDirs (fuel : nat) (d : node) (specifiedDir : string) : option (result errno (list string)) :=
  match fuel with
  | O => None
  | S fuel =>
      match ReadDir d specifiedDir with
      | Ok es => list_dirs_loop (ListDirs fuel d) specifiedDir es
      | Err e => Some (Err e)
      | Panic => Some Panic
      end
  end.

Definition FilterDirs (d : node) (dirs : list string) (opt : Option_) : list string :=
  let o := apply_option defaultOptions opt in
  let matches name := match filter_ o with
    | Prefix => matchPrefix (name_ o) name
    | Suffix => matchSuffix (name_ o) name
    | Contain => matchContain (name_ o) name
    | NoFilter => false
    end in
  filter (fun dir => match ReadDir d dir with
    | Ok es => existsb (fun '(name, n) => negb (is_dir n) && matches name) es
    | _ => false
    end = true) dirs.

Definition hasSubDir (d : node) (dirPath subDir : string) : bool := is_ok (Stat d (JoinPath [dirPath; subDir])).
(** [filepath.Walk] below [root], with the function that ListSubDirs passes. *)
Fixpoint walk_sub_dirs (fuel : nat) (d : node) (dirPath : string) (n : node) (subDir : string) : option (list string) :=
  match fuel with
  | O => None
  | S fuel =>
      match n with
      | File _ => Some []
      | Dir es =>
          let here := if hasSubDir d dirPath subDir then
                        [if bool_decide (subDir = "") then dirPath else dirPath +:+ GetPathDelimiter +:+ subDir]
                      else [] in
          foldl (fun acc '(name, n) => acc ≫= fun l => app l <$> walk_sub_dirs fuel d (JoinPath [dirPath; name]) n subDir)
            (Some here) es
      end
  end.
Definition ListSubDirs (fuel : nat) (d : node) (root subDir : string) : option (result errno (list string)) :=
  match Stat d root with
  | Ok n => Ok <$> walk_sub_dirs fuel d root n subDir
  | Err e => Some (Err e)
  | Panic => Some Panic
  end.

End OnDisk.

(** ** Marked bytes (fileContent.go) *)

(** [bytes.Index], and a slice [data[a:b]], which panics out of range. *)
Definition index_z (data p : string) : Z := match Index data p with Some i => Z.of_nat i | None => -1 end.
Definition slice (data : string) (a b : Z) : result errno string :=
  if (0 <=? a) && (a <=? b) && (b <=? Z.of_nat (str_len data))
  then Ok (str_take (Z.to_nat (b - a)) (str_drop (Z.to_nat a) data)) else Panic.

Definition findSubByte2 (data start end_ : string) : result errno (string * Z) :=
  let startIndex := index_z data start in
  let endIndex := index_z data end_ in
  if endIndex <=? startIndex then Ok ("", 0)
  else
    let endIndex := if endIndex + Z.of_nat (str_len end_) <=? Z.of_nat (str_len data)
                    then endIndex + Z.of_nat (str_len end_) else endIndex in
    s ← slice data startIndex endIndex;
    Ok (s, endIndex).
Definition FindSubBytes (data start end_ : string) : result errno string := fst <$> findSubByte2 data start end_.

(** The loop; [None] when the fuel runs out. *)
Fixpoint find_all (fuel : nat) (data start end_ : string) : option (result errno (list string)) :=
  match fuel with
  | O => None
  | S fuel =>
      match findSubByte2 data start end_ with
      | Ok (EmptyString, _) => Some (Ok [])
      | Ok (sub, endIndex) =>
          match slice data endIndex (Z.of_nat (str_len data)) with
          | Ok rest => (fun r : result errno (list string) => cons sub <$> r) <$> find_all fuel rest start end_
          | _ => Some Panic
          end
      | Err e => Some (Err e)
      | Panic => Some Panic
      end
  end.
Definition FindAllSubBytes (data start end_ : string) : option (result errno (list string)) :=
  find_all (S (str_len data)) data start end_.

Definition FindSubBytesNotIn (data start end_ : string) : result errno string :=
  let startIndex := index_z data start in
  let endIndex := index_z data end_ in
  if endIndex <=? startIndex + Z.of_nat (str_len start) then Ok ""
  else slice data (startIndex + Z.of_nat (str_len start)) endIndex.

(** * Proofs *)

(** ** The disk *)

Lemma assoc_set_same c n es : assoc (set_entry c n es) c = Some n.
Proof.
  induction es as [|[c' n'] es IH]; cbn [set_entry assoc]; [by rewrite bool_decide_eq_true_2|].
  case_bool_decide; [cbn; by rewrite bool_decide_eq_true_2|]. destruct (String.ltb c c'); cbn [assoc].
  - by rewrite bool_decide_eq_true_2.
  - by rewrite bool_decide_eq_false_2.
Qed.
Lemma assoc_set_other c c' n es : c <> c' -> assoc (set_entry c n es) c' = assoc es c'.
Proof.
  intros Hne. induction es as [|[c1 n1] es IH]; cbn [set_entry assoc].
  - case_bool_decide; congruence.
  - case_bool_decide as H1; subst; cbn [assoc]; [|destruct (String.ltb c c1); cbn [assoc]; [|by rewrite IH]];
      repeat case_bool_decide; congruence.
Qed.

(** What a disk may become: files keep their bytes, directories stay. *)
Definition grows (n n' : node) : Prop := match n with File _ => n' = n | Dir _ => is_dir n' = true end.
Definition extends (d d' : node) : Prop :=
  forall k n, lookup_node d k = Some n -> exists n', lookup_node d' k = Some n' /\ grows n n'.

#[global] Instance grows_preorder : PreOrder grows.
Proof. split; [by intros []|]. by intros [] y z Hxy Hyz; destruct y; simplify_eq/=; [|destruct z]. Qed.
#[global] Instance extends_preorder : PreOrder extends.
Proof.
  split; [intros d k n Hk; by exists n|]. intros d1 d2 d3 H12 H23 k n Hk.
  destruct (H12 k n Hk) as (n2 & Hk2 & Hn2). destruct (H23 k n2 Hk2) as (n3 & Hk3 & Hn3). exists n3. split; [done|]. by etrans.
Qed.

Lemma put_extends d k n : lookup_node d k = None -> extends d (put_node d k n).
Proof.
  revert d. induction k as [|c k IH]; intros d Hk; [done|]. destruct d as [s|es]; [reflexivity|].
  intros [|c' k'] m Hm; cbn in Hm; [injection Hm as <-; by eexists|]. cbn [put_node lookup_node].
  destruct (decide (c = c')) as [<-|Hne]; [|rewrite assoc_set_other by done; by exists m].
  rewrite assoc_set_same. cbn in Hk |- *. destruct (assoc es c) as [n1|] eqn:E; [|done]. cbn in Hm, Hk |- *. by apply (IH n1 Hk k').
Qed.

(** Adding or changing a file leaves other paths alone. *)
Lemma lookup_put_same d k c n es : lookup_node d k = Some (Dir es) -> lookup_node (put_node d (k ++ [c]) n) (k ++ [c]) = Some n.
Proof.
  revert d. induction k as [|c1 k IH]; intros d Hk; cbn in Hk |- *.
  - injection Hk as ->. cbn. by rewrite assoc_set_same.
  - destruct d as [s|es1]; [done|]. cbn. rewrite assoc_set_same. cbn. destruct (assoc es1 c1) as [n1|] eqn:E; [|done]. by apply IH.
Qed.
Lemma lookup_put_other d k k' n : ~ k `prefix_of` k' -> ~ k' `prefix_of` k -> lookup_node (put_node d k n) k' = lookup_node d k'.
Proof.
  revert d k'. induction k as [|c k IH]; intros d k' H1 H2; [by destruct H1; apply prefix_nil|].
  destruct k' as [|c' k']; [by destruct H2; apply prefix_nil|]. destruct d as [s|es]; [done|]. cbn.
  destruct (decide (c = c')) as [<-|Hne]; [|by rewrite assoc_set_other].
  rewrite assoc_set_same. cbn. destruct (assoc es c) as [n1|] eqn:E; cbn.
  - apply IH; [contradict H1|contradict H2]; by apply prefix_cons.
  - rewrite IH; [|contradict H1; by apply prefix_cons|contradict H2; by apply prefix_cons].
    destruct k'; [|done]. destruct H2. apply prefix_cons, prefix_nil.
Qed.

Lemma lookup_app d k1 k2 : lookup_node d (k1 ++ k2) = lookup_node d k1 ≫= fun n => lookup_node n k2.
Proof.
  revert d. induction k1 as [|c k1 IH]; intros d; [done|]. cbn. destruct d as [s|es]; [done|]. by destruct (assoc es c); cbn.
Qed.

(** ** Paths *)

(** A name as a directory can hold. *)
Definition proper (windows : bool) (c : string) : bool :=
  negb (bool_decide (c = "" \/ c = "." \/ c = "..")) && forall_chars (fun a => negb (is_sep windows a)) c.
Fixpoint names_ok (windows : bool) (n : node) : bool :=
  match n with
  | File _ => true
  | Dir es => bool_decide (NoDup (map fst es)) && forallb (fun '(c, n) => proper windows c && names_ok windows n) es
  end.

Section Walks.
Variable windows : bool.
Variable cwd : list string.
#[local] Notation delim := (GetPathDelimiter windows).

Lemma ReplaceChar_app s t old new : ReplaceChar (s +:+ t) old new = ReplaceChar s old new +:+ ReplaceChar t old new.
Proof.
  induction s as [|a s IH]; [done|]. rewrite app_cons_s. cbn [ReplaceChar]. case_bool_decide; rewrite IH; [by rewrite app_assoc_s|done].
Qed.
Lemma proper_spec c : proper windows c = true ->
  c <> "" /\ c <> "." /\ c <> ".." /\ no_char slash c /\ ToSlash windows c = c.
Proof.
  unfold proper. intros [Hn Hc]%andb_true_iff. apply negb_true_iff, bool_decide_eq_false in Hn.
  assert (no_char slash c /\ ReplaceChar c backslash "/" = c \/ windows = false /\ no_char slash c) as Hs.
  { clear Hn. induction c as [|a c IH]; [by left|]. cbn [forall_chars] in Hc. apply andb_true_iff in Hc as [Ha Hc].
    unfold is_sep in Ha. apply negb_true_iff, orb_false_iff in Ha as [Ha1 Ha2]. apply bool_decide_eq_false in Ha1.
    rewrite no_char_cons. cbn. specialize (IH Hc). destruct windows; cbn in Ha2.
    - apply bool_decide_eq_false in Ha2. rewrite bool_decide_eq_false_2 by done. destruct IH as [[? ->]|[? ?]]; [by left|done].
    - right. naive_solver. }
  unfold ToSlash. repeat split; [tauto..| |]; destruct windows; naive_solver.
Qed.

Lemma Split_app_r p t sep : no_char sep t -> Split (p +:+ String sep t) sep = Split p sep ++ [t].
Proof.
  intros Ht. induction p as [|a p IH].
  - change ("" +:+ String sep t) with ("" +:+ String sep t). rewrite Split_app_sep by done. by rewrite Split_plain.
  - rewrite app_cons_s. cbn [Split]. case_bool_decide; [by rewrite IH|]. rewrite IH.
    destruct (Split p sep) as [|q qs] eqn:E; [by apply Split_nonempty in E|done].
Qed.

Lemma rooted_app p q : p <> "" -> rooted windows (p +:+ q) = rooted windows p.
Proof. by destruct p. Qed.
Lemma abs_comps_child p c : p <> "" -> proper windows c = true ->
  abs_comps windows cwd (p +:+ delim +:+ c) = abs_comps windows cwd p ++ [c].
Proof.
  intros Hp Hc. apply proper_spec in Hc as (_ & _ & _ & Hs & Ht). unfold abs_comps. rewrite rooted_app by done.
  assert (Split (ToSlash windows (p +:+ delim +:+ c)) slash = Split (ToSlash windows p) slash ++ [c]) as ->.
  { rewrite <- Split_app_r by done. f_equal. revert Ht. unfold ToSlash, GetPathDelimiter. destruct windows; intros Ht.
    - rewrite !ReplaceChar_app, Ht. reflexivity.
    - reflexivity. }
  destruct (rooted windows p); [done|]. by rewrite app_assoc.
Qed.

Lemma resolve_app d cur cs1 cs2 : resolve d cur (cs1 ++ cs2) = k ← resolve d cur cs1; resolve d k cs2.
Proof. revert cur. induction cs1 as [|c cs1 IH]; intros cur; [done|]. cbn. destruct (lookup_node d cur) as [[]|]; [done|apply IH|done]. Qed.

Lemma Stat_child d p es c m : Stat windows cwd d p = Ok (Dir es) -> assoc es c = Some m -> proper windows c = true ->
  Stat windows cwd d (p +:+ delim +:+ c) = Ok m.
Proof.
  unfold Stat. case_bool_decide as Hp; [done|]. intros Hk Hm Hc.
  rewrite bool_decide_eq_false_2 by (destruct p; [done|by rewrite app_cons_s]).
  rewrite abs_comps_child, resolve_app by done. destruct (resolve d [] _) as [k| |]; [|done..]. cbn in Hk |- *.
  destruct (lookup_node d k) as [[]|] eqn:E; simplify_eq/=. apply proper_spec in Hc as (H1 & H2 & H3 & _).
  unfold step. rewrite !bool_decide_eq_false_2 by naive_solver. by rewrite lookup_app, E; cbn; rewrite Hm.
Qed.

(** ** Walks *)

(** The paths below a node, by name, in the order of a walk. *)
Fixpoint below (n : node) : list (list string * bool) :=
  match n with
  | File _ => []
  | Dir es => mjoin (map (fun '(c, m) => ([c], is_dir m) :: map (prod_map (cons c) id) (below m)) es)
  end.
Definition path_below (p : string) (ks : list string) : string := p +:+ delim +:+ Join ks delim.

Lemma below_cons c m es : below (Dir ((c, m) :: es)) = ([c], is_dir m) :: map (prod_map (cons c) id) (below m) ++ below (Dir es).
Proof. done. Qed.

Lemma below_nonempty n ks b : (ks, b) ∈ below n -> ks <> [].
Proof.
  destruct n as [s|es]; cbn; [set_solver|]. intros Hin. apply list_elem_of_join in Hin as (l & Hl & Hin).
  apply list_elem_of_fmap in Hin as ([c m] & -> & _). apply elem_of_cons in Hl as [[= -> _]|Hl]; [done|].
  apply list_elem_of_fmap in Hl as ([ks' b'] & [= -> _] & _). done.
Qed.

Lemma depth_child es c m : (c, m) ∈ es -> (depth m < depth (Dir es))%nat.
Proof.
  cbn. intros Hin. apply Nat.lt_succ_r. pose proof (list_max_le (map (fun '(_, n) => depth n) es) (list_max (map (fun '(_, n) => depth n) es))) as [Hle _].
  rewrite List.Forall_forall in Hle. apply (Hle ltac:(lia)). apply list_elem_of_In, list_elem_of_fmap. by eexists (_, m).
Qed.
Lemma assoc_child {A} (es : list (string * A)) c m : assoc es c = Some m -> (c, m) ∈ es.
Proof. induction es as [|[c1 m1] es IH]; [done|]. cbn. case_bool_decide; [intros [= ->]; subst; by left|]. intros ?. right. auto. Qed.
Lemma assoc_unique es c (m : node) : NoDup (map fst es) -> (c, m) ∈ es -> assoc es c = Some m.
Proof.
  induction es as [|[c1 m1] es IH]; [set_solver|]. cbn. intros [Hn Hd]%NoDup_cons [[= -> ->]|Hin]%elem_of_cons.
  - by rewrite bool_decide_eq_true_2.
  - rewrite bool_decide_eq_false_2; [by apply IH|]. intros ->. apply Hn. apply list_elem_of_fmap. by eexists (_, m).
Qed.
Lemma names_ok_child es c m : names_ok windows (Dir es) = true -> (c, m) ∈ es ->
  proper windows c = true /\ names_ok windows m = true /\ assoc es c = Some m.
Proof.
  cbn. intros [Hd Hf]%andb_true_iff Hin. apply bool_decide_eq_true in Hd. rewrite forallb_forall in Hf.
  specialize (Hf (c, m)). apply list_elem_of_In in Hin as Hin'. specialize (Hf Hin'). cbn in Hf. apply andb_true_iff in Hf as [? ?].
  split_and!; [done..|]. by apply assoc_unique.
Qed.

Lemma walk_below fuel : forall d p n, Stat windows cwd d p = Ok n -> is_dir n = true -> names_ok windows n = true -> (depth n <= fuel)%nat ->
  walk windows cwd fuel d p = Some (map (prod_map (path_below p) id) (below n), None).
Proof.
  induction fuel as [|fuel IH]; intros d p n Hs Hd Hn Hf; [by destruct n; cbn in Hd, Hf; [|lia]|].
  destruct n as [|es]; [done|]. cbn [walk]. unfold ReadDir. rewrite Hs. cbn [mbind result_bind].
  assert (forall es', es' ⊆ es -> walk_entries windows (walk windows cwd fuel d) p es' =
            Some (map (prod_map (path_below p) id) (below (Dir es')), None)) as Hall; [|by apply Hall].
  intros es'. induction es' as [|[c m] es' IHe]; intros Hsub; [done|]. cbn [walk_entries].
  assert ((c, m) ∈ es) as Hin by set_solver. rewrite IHe by set_solver.
  destruct (names_ok_child es c m Hn Hin) as (Hp & Hm & Ha). pose proof (depth_child es c m Hin) as Hdep.
  rewrite below_cons. cbn [map]. rewrite map_app. destruct m as [s|es1]; cbn [is_dir]; [done|].
  rewrite (IH d (p +:+ delim +:+ c) (Dir es1)); [|by eapply Stat_child|done|done|lia].
  do 4 f_equal. rewrite map_map. apply map_ext_in. intros [ks b] Hks%list_elem_of_In. apply below_nonempty in Hks.
  cbn [prod_map fst snd]. f_equal. unfold path_below. by rewrite Join_cons, !app_assoc_s.
Qed.

Lemma elem_below c ks b es : (c :: ks, b) ∈ below (Dir es) <->
  exists m, (c, m) ∈ es /\ (ks = [] /\ b = is_dir m \/ (ks, b) ∈ below m).
Proof.
  induction es as [|[c1 m1] es IH]; [cbn; set_solver|]. rewrite below_cons, elem_of_cons, elem_of_app, IH, list_elem_of_fmap. split.
  - intros [[= -> -> ->]|[([ks' b'] & [= -> -> ->] & Hin)|(m & Hm & H)]]; [exists m1; set_solver|exists m1; set_solver|exists m; set_solver].
  - intros (m & [[= -> ->]|Hin]%elem_of_cons & H); [|right; right; by exists m].
    destruct H as [[-> ->]|H]; [by left|right; left; by exists (ks, b)].
Qed.

(** What is below a node is what can be looked up in it. *)
Lemma below_spec ks : forall n b, names_ok windows n = true ->
  (ks, b) ∈ below n <-> ks <> [] /\ exists m, lookup_node n ks = Some m /\ b = is_dir m.
Proof.
  induction ks as [|c ks IH]; intros n b Hn; [split; [by intros ?%below_nonempty|naive_solver]|].
  destruct n as [s|es]; [cbn; split; [set_solver|naive_solver]|]. rewrite elem_below. cbn [lookup_node]. split.
  - intros (m & Hin & H). split; [done|]. destruct (names_ok_child es c m Hn Hin) as (_ & Hm & ->). cbn.
    destruct H as [[-> ->]|H]; [by exists m|]. by apply IH in H as [_ H].
  - intros [_ (m & Hm & ->)]. destruct (assoc es c) as [m1|] eqn:E; [|done]. cbn in Hm.
    assert ((c, m1) ∈ es) as Hin by by apply assoc_child.
    exists m1. split; [done|]. destruct ks as [|c' ks]; [left; by simplify_eq/=|]. right. apply IH; [|naive_solver].
    by apply (names_ok_child es c m1 Hn Hin).
Qed.

Lemma below_NoDup fuel : forall n, (depth n <= fuel)%nat -> names_ok windows n = true -> NoDup (map fst (below n)).
Proof.
  induction fuel as [|fuel IH]; intros [s|es] Hf Hn; [constructor|cbn in Hf; lia|constructor|].
  assert (forall c m, (c, m) ∈ es -> NoDup (map fst (below m))) as Hes.
  { intros c m Hin. pose proof (depth_child es c m Hin). apply IH; [lia|]. by apply (names_ok_child es c m Hn Hin). }
  cbn in Hn. apply andb_true_iff in Hn as [Hd%bool_decide_eq_true _]. clear Hf IH.
  induction es as [|[c m] es IHe]; [constructor|]. cbn in Hd. apply NoDup_cons in Hd as [Hc Hd].
  rewrite below_cons. cbn [map]. rewrite map_app, map_map. specialize (IHe Hd ltac:(intros; eapply Hes; by right)).
  assert (forall ks, c :: ks ∉ map fst (below (Dir es))) as Hout.
  { intros ks ([ks' b] & Hk & Hin)%list_elem_of_fmap. cbn in Hk. subst. apply elem_below in Hin as (m' & Hin & _). apply Hc, list_elem_of_fmap. by eexists (_, _). }
  apply NoDup_cons. split.
  - intros [([ks b] & [= Hk] & Hin)%list_elem_of_fmap|Hin]%elem_of_app; [|by apply Hout in Hin].
    apply below_nonempty in Hin. by cbn in Hk; subst.
  - apply NoDup_app. split_and!; [|by intros x ([ks b] & Hk & _)%list_elem_of_fmap; cbn in Hk; subst; apply Hout|done].
    change (NoDup (map (fun x => c :: fst x) (below m))). rewrite <- (map_map fst (cons c)).
    apply NoDup_fmap_2; [by intros ?? [= ->]|]. eapply Hes. by left.
Qed.

Definition delim_char : ascii := if windows then backslash else slash.
Lemma proper_no_delim c : proper windows c = true -> no_char delim_char c.
Proof.
  unfold proper, delim_char. intros [_ Hc]%andb_true_iff. induction c as [|a c IH]; [done|]. cbn in Hc.
  apply andb_true_iff in Hc as [Ha Hc]. apply no_char_cons. split; [|auto]. intros ->. clear - Ha. unfold is_sep in Ha. by destruct windows.
Qed.
Lemma lookup_proper ks : forall n m, names_ok windows n = true -> lookup_node n ks = Some m -> Forall (no_char delim_char) ks.
Proof.
  induction ks as [|c ks IH]; intros n m Hn Hm; [constructor|]. destruct n as [|es]; [done|]. cbn in Hm.
  destruct (assoc es c) as [m1|] eqn:E; [|done]. 
  assert ((c, m1) ∈ es) as Hin by by apply assoc_child.
  destruct (names_ok_child es c m1 Hn Hin) as (Hp & Hn1 & _). constructor; [by apply proper_no_delim|]. by eapply IH.
Qed.

Lemma app_inj_s (s t u : string) : s +:+ t = s +:+ u -> t = u.
Proof. intros H. rewrite <- (drop_app s t), H. apply drop_app. Qed.
Lemma path_below_inj p ks ks' : ks <> [] -> ks' <> [] -> Forall (no_char delim_char) ks -> Forall (no_char delim_char) ks' ->
  path_below p ks = path_below p ks' -> ks = ks'.
Proof.
  unfold path_below. intros H1 H2 F1 F2 He. apply app_inj_s, app_inj_s in He.
  assert (delim = single delim_char) as Hd by (unfold GetPathDelimiter, delim_char; by destruct windows). rewrite Hd in He.
  rewrite <- (Split_Join ks delim_char), <- (Split_Join ks' delim_char) by done. by rewrite He.
Qed.

(** The filter of the options. *)
Definition keeps (opts : list Option_) (f : string) : bool :=
  let o := foldl apply_option defaultOptions opts in
  match filter_ o with
  | Prefix => matchPrefix windows (name_ o) f
  | Suffix => matchSuffix (name_ o) f
  | Contain => matchContain windows (name_ o) f
  | NoFilter => true
  end.

Lemma ListFiles_walk fuel d dirPath opts l : let o := foldl apply_option defaultOptions opts in
  walk windows cwd fuel d (if noAbsolutePath o then dirPath else Abs windows cwd dirPath) = Some (l, None) ->
  ListFiles windows cwd fuel d dirPath opts = Some (filter (fun f => keeps opts f = true) (files_of l), None).
Proof.
  intros o Hw. unfold ListFiles, walkDir, walkDirWithFilter, keeps. fold o. rewrite Hw. destruct (filter_ o); cbn; try done.
  unfold id. do 2 f_equal. change (files_of l = filter (fun _ => true = true) (files_of l)). induction (files_of l) as [|f fs IH]; [done|]. by rewrite filter_cons_True, <- IH.
Qed.

Lemma files_of_NoDup l : NoDup (map fst l) -> NoDup (files_of l).
Proof.
  induction l as [|[f b] l IH]; [constructor|]. cbn. intros [Hn Hd]%NoDup_cons. destruct b; cbn; [by apply IH|].
  apply NoDup_cons. split; [|by apply IH]. contradict Hn. apply list_elem_of_omap in Hn as ([f' b'] & Hin & Hb). cbn in Hb.
  destruct b'; simplify_eq. apply list_elem_of_fmap. by eexists (_, _).
Qed.

(** The listing of a directory ends with every file below it that the filter keeps,
    once each, under its path, and nothing else; fuel as deep as the directory is enough. *)
Theorem list_files_complete fuel d dirPath opts n :
  let dir := if noAbsolutePath (foldl apply_option defaultOptions opts) then dirPath else Abs windows cwd dirPath in
  Stat windows cwd d dir = Ok n -> is_dir n = true -> names_ok windows n = true -> (depth n <= fuel)%nat ->
  exists l, ListFiles windows cwd fuel d dirPath opts = Some (l, None) /\ NoDup l /\
    forall f, f ∈ l <-> exists ks s, lookup_node n ks = Some (File s) /\ f = path_below dir ks /\ keeps opts f = true.
Proof.
  intros dir Hs Hd Hn Hf. eexists. split; [by apply ListFiles_walk, walk_below|]. split.
  - apply NoDup_filter, files_of_NoDup. rewrite map_map. apply (below_NoDup _ _ Hf) in Hn as Hnd.
    assert (Forall (fun kb => fst kb <> [] /\ Forall (no_char delim_char) (fst kb)) (below n)) as Hok.
    { apply Forall_forall. intros [ks b] Hin. split; [by eapply below_nonempty|]. apply below_spec in Hin as (_ & m & Hm & _); [|done].
      by eapply lookup_proper. }
    clear - Hnd Hok. induction (below n) as [|[ks b] l IH]; [constructor|]. cbn in *. inversion Hok as [|?? [H1 H2] Hl]; subst.
    apply NoDup_cons in Hnd as [Hin Hnd]. apply NoDup_cons. split; [|by apply IH]. contradict Hin.
    apply list_elem_of_fmap in Hin as ([ks' b'] & He & Hin). rewrite Forall_forall in Hl. destruct (Hl _ Hin) as [H1' H2']. cbn in *.
    apply path_below_inj in He; [|done..]. subst. apply list_elem_of_fmap. by eexists (_, _).
  - intros f. unfold files_of. rewrite list_elem_of_filter, list_elem_of_omap. split.
    + intros [Hk ([f' b] & ([ks b'] & [= -> ->] & Hin)%list_elem_of_fmap & Hb)]. cbn in Hb. destruct b'; simplify_eq.
      apply below_spec in Hin as (_ & [s|] & Hm & ?); [|done..]. by exists ks, s.
    + intros (ks & s & Hm & -> & Hk). split; [done|]. exists (path_below dir ks, false). split; [|done].
      apply list_elem_of_fmap. exists (ks, false). split; [done|]. apply below_spec; [done|]. split; [|by exists (File s)].
      intros ->. by destruct n.
Qed.

End Walks.

(** ** Writing *)

Lemma put_grows k : forall d n k0 n0, ~ k `prefix_of` k0 -> lookup_node d k0 = Some n0 ->
  exists n', lookup_node (put_node d k n) k0 = Some n' /\ grows n0 n'.
Proof.
  induction k as [|c k IH]; intros d n k0 n0 Hk H0; [by destruct Hk; apply prefix_nil|].
  destruct d as [s|es]; [by exists n0|]. destruct k0 as [|c0 k0]; cbn in H0 |- *; [injection H0 as <-; by eexists|].
  destruct (decide (c = c0)) as [<-|Hne]; [|rewrite assoc_set_other by done; by exists n0].
  rewrite assoc_set_same. cbn. destruct (assoc es c) as [m|] eqn:E; [|done]. apply IH; [|done]. contradict Hk. by apply prefix_cons.
Qed.

(** The files after an entry was put are those before, and its own. *)
Lemma put_files k : forall d n k0 s, lookup_node (put_node d k n) k0 = Some (File s) ->
  lookup_node d k0 = Some (File s) \/ exists k1, k0 = k ++ k1 /\ lookup_node n k1 = Some (File s).
Proof.
  induction k as [|c k IH]; intros d n k0 s H0; [right; by exists k0|]. destruct d as [s0|es]; [by left|].
  destruct k0 as [|c0 k0]; [done|]. cbn in H0. destruct (decide (c = c0)) as [<-|Hne]; [|rewrite assoc_set_other in H0 by done; by left].
  rewrite assoc_set_same in H0. cbn in H0 |- *. destruct (IH _ _ _ _ H0) as [H|(k1 & -> & H)]; [|right; by exists k1].
  destruct (assoc es c) as [m|]; [by left|]. cbn in H. by destruct k0.
Qed.

Lemma lookup_prefix d k1 k2 n : lookup_node d (k1 ++ k2) = Some n -> k2 <> [] -> exists es, lookup_node d k1 = Some (Dir es).
Proof.
  rewrite lookup_app. destruct (lookup_node d k1) as [[s|es]|]; [by destruct k2|by exists es|done].
Qed.
Lemma step_cases cur c : step cur c = cur \/ step cur c = removelast cur \/ step cur c = cur ++ [c].
Proof. unfold step. repeat case_bool_decide; auto. Qed.

(** Without dots a path only goes down. *)
Lemma step_plain cur c : c <> ".." -> step cur c = cur \/ step cur c = cur ++ [c].
Proof. intros Hc. unfold step. rewrite (bool_decide_eq_false_2 (c = "..")) by done. case_bool_decide; auto. Qed.
Lemma steps_prefix cs : forall cur, ".." ∉ cs -> cur `prefix_of` foldl step cur cs.
Proof.
  induction cs as [|c cs IH]; intros cur Hc; [reflexivity|]. apply not_elem_of_cons in Hc as [Hc Hcs].
  cbn. etrans; [|by apply IH]. destruct (step_plain cur c) as [-> | ->]; [done|done|by apply prefix_app_r].
Qed.
Lemma lookup_below_none d k1 k2 : k1 `prefix_of` k2 -> lookup_node d k1 = None -> lookup_node d k2 = None.
Proof. intros [k ->] Hk. by rewrite lookup_app, Hk. Qed.

(** A path that was resolved is in an existing directory. *)
Lemma resolve_parent d cs : forall cur k, resolve d cur cs = Ok k ->
  cur = [] \/ (exists es, lookup_node d (removelast cur) = Some (Dir es)) ->
  k = [] \/ exists es, lookup_node d (removelast k) = Some (Dir es).
Proof.
  induction cs as [|c cs IH]; intros cur k Hk Hcur; cbn in Hk; [by simplify_eq|].
  destruct (lookup_node d cur) as [[s|es]|] eqn:E; [done| |done]. apply (IH _ _ Hk).
  destruct (step_cases cur c) as [-> |[-> | ->]]; [done| |right; rewrite removelast_last; eauto].
  destruct Hcur as [->|[es' Hes]]; [by left|]. destruct (removelast cur) as [|x l] eqn:Er using rev_ind; [by left|right].
  rewrite removelast_last. by apply (lookup_prefix d l [x] (Dir es')).
Qed.

Lemma resolve_root d cs k : resolve d [] cs = Ok k -> cs <> [] -> exists es, d = Dir es.
Proof. destruct cs as [|c cs]; [done|]. cbn. destruct d as [s|es]; [done|]. intros _ _. by exists es. Qed.

Section Writes.
Variable windows : bool.
Variable cwd : list string.

Lemma abs_comps_nonempty p : abs_comps windows cwd p <> [].
Proof.
  unfold abs_comps. destruct (rooted _ _); [apply Split_nonempty|]. intros [_ H]%app_eq_nil. by apply Split_nonempty in H.
Qed.

(** A successful write: the file is there, all else as before. *)
Lemma WriteFile_ok d p data d' : WriteFile windows cwd d p data = Ok d' -> exists k,
  resolve d [] (abs_comps windows cwd p) = Ok k /\ (forall es, lookup_node d k <> Some (Dir es)) /\ d' = put_node d k (File data) /\
  lookup_node d' k = Some (File data) /\
  forall k0 n0, lookup_node d k0 = Some n0 -> k0 <> k -> exists n', lookup_node d' k0 = Some n' /\ grows n0 n'.
Proof.
  unfold WriteFile. case_bool_decide; [done|]. destruct (resolve d [] _) as [k| |] eqn:Hk; [|done..]. cbn.
  intros Hw. exists k. assert (forall es, lookup_node d k <> Some (Dir es)) as Hn by (intros es He; by rewrite He in Hw).
  assert (d' = put_node d k (File data)) as -> by (destruct (lookup_node d k) as [[]|]; congruence). clear Hw.
  destruct (resolve_root _ _ _ Hk (abs_comps_nonempty p)) as [es0 Hd].
  destruct (resolve_parent d _ _ _ Hk (or_introl eq_refl)) as [->|[es Hes]]; [subst d; by destruct (Hn es0)|].
  split_and!; [done..| |].
  - destruct k as [|x k _] using rev_ind; [subst d; by destruct (Hn es0)|]. rewrite removelast_last in Hes. by eapply lookup_put_same.
  - intros k0 n0 H0 Hne. apply put_grows; [|done]. intros [[|x k1] ->]; [by rewrite app_nil_r in Hne|].
    apply lookup_prefix in H0 as [es1 H1]; [|done]. by apply Hn in H1.
Qed.

Lemma resolve_key d cs : forall cur k, resolve d cur cs = Ok k -> k = foldl step cur cs.
Proof.
  induction cs as [|c cs IH]; intros cur k; cbn; [by intros [= ->]|]. destruct (lookup_node d cur) as [[]|]; [done|apply IH|done].
Qed.
(** Directories that stay keep a path resolved. *)
Lemma resolve_dirs d d' cs : (forall k es, lookup_node d k = Some (Dir es) -> exists es', lookup_node d' k = Some (Dir es')) ->
  forall cur k, resolve d cur cs = Ok k -> resolve d' cur cs = Ok k.
Proof.
  intros He. induction cs as [|c cs IH]; intros cur k; cbn; [done|]. destruct (lookup_node d cur) as [[s|es]|] eqn:E; [done| |done].
  intros Hk. destruct (He _ _ E) as [es' ->]. by apply IH.
Qed.
Lemma resolve_extends d d' cs cur k : extends d d' -> resolve d cur cs = Ok k -> resolve d' cur cs = Ok k.
Proof.
  intros He. apply resolve_dirs. intros k0 es Hk. destruct (He _ _ Hk) as ([s|es'] & Hk' & Hg); [done|by exists es'].
Qed.
Lemma read_after_write d p data d' : WriteFile windows cwd d p data = Ok d' -> ReadFile windows cwd d' p = Ok data.
Proof.
  intros Hw. destruct (WriteFile_ok _ _ _ _ Hw) as (k & Hk & Hn & _ & Hl & Hg). unfold ReadFile, Stat.
  case_bool_decide; [subst; by unfold WriteFile in Hw|]. rewrite (resolve_dirs d d' _) with (k := k); [cbn; by rewrite Hl| |done].
  intros k0 es H0. destruct (Hg k0 (Dir es) H0) as ([s|es'] & H' & Hd); [by intros ->; apply Hn in H0|done|by exists es'].
Qed.

(** Making directories changes no file, whether it succeeds or not. *)
Lemma mkdirs_grows cs : forall d cur, let d' := (mkdirs d cur cs).1 in
  extends d d' /\ forall k s, lookup_node d' k = Some (File s) -> lookup_node d k = Some (File s).
Proof.
  induction cs as [|c cs IH]; intros d cur; cbn; [split; [reflexivity|done]|].
  destruct (lookup_node d (step cur c)) as [[s|es]|] eqn:E; cbn; [split; [reflexivity|done]|apply IH|].
  destruct (IH (put_node d (step cur c) (Dir [])) (step cur c)) as [He Hf]. split.
  - etrans; [by apply put_extends|done].
  - intros k s Hs%Hf. apply put_files in Hs as [Hs|(k1 & -> & Hs)]; [done|]. by destruct k1.
Qed.

(** What is new is on the way. *)
Lemma put_new k : forall d n k0, lookup_node (put_node d k n) k0 <> None ->
  lookup_node d k0 <> None \/ k0 `prefix_of` k \/ exists k1, k0 = k ++ k1 /\ lookup_node n k1 <> None.
Proof.
  induction k as [|c k IH]; intros d n k0 H0; [right; right; by exists k0|]. destruct d as [s|es]; [by left|].
  destruct k0 as [|c0 k0]; [by left|]. cbn in H0. destruct (decide (c = c0)) as [<-|Hne]; [|rewrite assoc_set_other in H0 by done; by left].
  rewrite assoc_set_same in H0. cbn in H0 |- *. destruct (IH _ _ _ H0) as [H|[H|(k1 & -> & H)]].
  - destruct (assoc es c) as [m|]; [by left|]. cbn in H. destruct k0; [|done]. right. left. apply prefix_cons, prefix_nil.
  - right. left. by apply prefix_cons.
  - right. right. by exists k1.
Qed.
Lemma mkdirs_new cs : forall d cur k, ".." ∉ cs -> lookup_node (mkdirs d cur cs).1 k <> None ->
  lookup_node d k <> None \/ k `prefix_of` foldl step cur cs.
Proof.
  induction cs as [|c cs IH]; intros d cur k Hc Hk; cbn in Hk; [by left|]. apply not_elem_of_cons in Hc as [_ Hc]. cbn [foldl].
  destruct (lookup_node d (step cur c)) as [[s|es]|] eqn:E; [by left|by apply IH|].
  apply IH in Hk as [Hk|Hk]; [|by right|done]. apply put_new in Hk as [Hk|[Hk|(k1 & -> & Hk)]]; [by left| |].
  - right. etrans; [done|]. by apply steps_prefix.
  - destruct k1; [|done]. rewrite app_nil_r. right. by apply steps_prefix.
Qed.

(** Without a file in the way, and without dots, it succeeds. *)
Lemma mkdirs_ok cs : forall d cur es, ".." ∉ cs -> lookup_node d cur = Some (Dir es) ->
  (forall k s, k `prefix_of` foldl step cur cs -> lookup_node d k <> Some (File s)) ->
  exists d' es', mkdirs d cur cs = (d', None) /\ lookup_node d' (foldl step cur cs) = Some (Dir es') /\
    resolve d' cur cs = Ok (foldl step cur cs).
Proof.
  induction cs as [|c cs IH]; intros d cur es Hc Hcur Hf; cbn; [by exists d, es|].
  apply not_elem_of_cons in Hc as [Hc Hcs].
  assert (exists d1 es1, (if lookup_node d (step cur c) then d else put_node d (step cur c) (Dir [])) = d1 /\
    lookup_node d1 (step cur c) = Some (Dir es1) /\ (forall k s, lookup_node d1 k = Some (File s) -> lookup_node d k = Some (File s)) /\
    (exists es0, lookup_node d1 cur = Some (Dir es0)) /\
    mkdirs d cur (c :: cs) = mkdirs d1 (step cur c) cs) as (d1 & es1 & _ & H1 & Hf1 & [es0 H0] & Hm).
  { cbn [mkdirs]. destruct (lookup_node d (step cur c)) as [[s|es1]|] eqn:E.
    - exfalso. eapply Hf; [|exact E]. by apply (steps_prefix cs (step cur c)).
    - exists d, es1. eauto 10.
    - exists (put_node d (step cur c) (Dir [])), []. split; [done|].
      assert (step cur c = cur ++ [c]) as Hs by (destruct (step_plain cur c) as [Hs|Hs]; congruence).
      rewrite Hs in *. split; [by eapply lookup_put_same|]. split; [|split; [|done]].
      + intros k s [Hs'|(k1 & -> & Hs')]%put_files; [done|by destruct k1].
      + destruct (put_extends _ _ (Dir []) E _ _ Hcur) as ([s|es'] & H' & Hg); [done|by exists es']. }
  destruct (IH d1 (step cur c) es1 Hcs H1) as (d' & es' & Hd' & Hl & Hr).
  { intros k s Hk Hs%Hf1. by eapply Hf. }
  exists d', es'. cbn [mkdirs] in Hm. rewrite Hm. split_and!; [done..|].
  pose proof (mkdirs_grows cs d1 (step cur c)) as [Hg _]. rewrite Hd' in Hg. cbn in Hg. destruct (Hg cur _ H0) as ([s|es2] & -> & Hd); [done|]. done.
Qed.

(** A missing path without dots: no file is in its way. *)
Lemma not_exists_lookup d p : ".." ∉ abs_comps windows cwd p -> p <> "" -> is_dir d = true -> IsExists windows cwd d p = false ->
  lookup_node d (foldl step [] (abs_comps windows cwd p)) = None /\
  forall k s, k `prefix_of` foldl step [] (abs_comps windows cwd p) -> lookup_node d k <> Some (File s).
Proof.
  intros Hc Hp Hd. unfold IsExists, Stat. rewrite bool_decide_eq_false_2 by done.
  assert (forall cs cur, ".." ∉ cs -> (forall k s, k `prefix_of` cur -> k <> cur -> lookup_node d k <> Some (File s)) ->
    match (k ← resolve d cur cs; match lookup_node d k with Some n => Ok n | None => Err ENOENT end) with Err ENOENT => false | _ => true end = false ->
    lookup_node d (foldl step cur cs) = None /\ forall k s, k `prefix_of` foldl step cur cs -> lookup_node d k <> Some (File s)) as Hgen.
  { clear Hc Hd. induction cs as [|c cs IH]; intros cur Hc Hf; cbn.
    - destruct (lookup_node d cur) eqn:E; [done|]. intros _. split; [done|]. intros k s Hk. destruct (decide (k = cur)) as [->|]; [congruence|by apply Hf].
    - destruct (lookup_node d cur) as [[s|es]|] eqn:E; [done|..].
      + apply not_elem_of_cons in Hc as [Hc Hcs]. apply IH; [done|]. intros k s Hk Hne.
        destruct (decide (k = cur)) as [->|Hkc]; [congruence|]. apply Hf; [|done].
        destruct (step_plain cur c) as [Hs|Hs]; [done|by rewrite Hs in Hk|]. rewrite Hs in *.
        destruct Hk as [k1 Hk]. destruct k1 as [|x k1 _] using rev_ind; [by rewrite app_nil_r in Hk|].
        rewrite app_assoc in Hk. apply app_inj_tail in Hk as [-> _]. by apply prefix_app_r.
      + intros _. pose proof (steps_prefix (c :: cs) cur Hc) as Hpre. cbn in Hpre. split; [by eapply lookup_below_none|].
        intros k s Hk. destruct (prefix_weak_total _ _ _ Hk Hpre) as [Hkc|Hkc].
        * destruct (decide (k = cur)) as [->|]; [congruence|by apply Hf].
        * by rewrite (lookup_below_none d cur k). }
  apply Hgen; [done|]. intros k s ->%prefix_nil_inv. done.
Qed.
End Writes.

(** ** Marked bytes *)

Lemma find_sub_cases data start end_ :
  findSubByte2 data start end_ =
  match Index data start, Index data end_ with
  | _, None => Ok ("", 0)
  | None, Some _ => Panic
  | Some i, Some j =>
      if (j <=? i)%nat then Ok ("", 0)
      else Ok (str_take (j + str_len end_ - i) (str_drop i data), Z.of_nat (j + str_len end_))
  end.
Proof.
  unfold findSubByte2, index_z, slice. destruct (Index data end_) as [j|] eqn:Ej.
  - apply Index_spec in Ej as (u & Hu & Hj). assert (j + str_len end_ <= str_len data)%nat as Hl.
    { apply (f_equal str_len) in Hu. rewrite str_len_drop, str_len_app in Hu. lia. }
    rewrite (proj2 (Z.leb_le (_ + _) _)) by lia. destruct (Index data start) as [i|] eqn:Ei.
    + destruct (j <=? i)%nat eqn:E; [by rewrite (proj2 (Z.leb_le _ _)) by lia|]. rewrite (proj2 (Z.leb_gt _ _)) by lia.
      replace (_ && _ && _) with true by lia. cbn. repeat f_equal; lia.
    + rewrite (proj2 (Z.leb_gt _ _)) by lia. done.
  - by destruct (Index data start); rewrite (proj2 (Z.leb_le _ _)) by lia.
Qed.

(** [data] is text with blocks [bs] from a [start] to an [end_]; [rest] is the
    text without them. *)
Inductive marked (start end_ : string) : string -> list string -> string -> Prop :=
  | marked_none t : Index t end_ = None -> marked start end_ t [] t
  | marked_block t b u bs rest :
      let data := t +:+ (start +:+ b +:+ end_) +:+ u in
      Index data start = Some (str_len t) -> Index data end_ = Some (str_len t + str_len start + str_len b)%nat ->
      marked start end_ u bs rest -> marked start end_ data ((start +:+ b +:+ end_) :: bs) (t +:+ rest).

Lemma find_all_ends fuel data start end_ : (str_len data < fuel)%nat -> is_Some (find_all fuel data start end_).
Proof.
  revert data. induction fuel as [|fuel IH]; intros data Hf; [lia|]. cbn [find_all]. rewrite find_sub_cases.
  destruct (Index data start) as [i|], (Index data end_) as [j|]; try by eexists. destruct (j <=? i)%nat eqn:E; [by eexists|].
  destruct (str_take _ _) as [|c sub] eqn:Et; [by eexists|]. unfold slice. destruct (_ && _) eqn:Eb; [|by eexists].
  apply fmap_is_Some, IH.
  assert (forall m (s : string), str_len (str_take m s) <= m)%nat as Htake.
  { induction m as [|m IHm]; intros [|]; cbn; try lia. specialize (IHm s). lia. }
  specialize (Htake (Z.to_nat (Z.of_nat (str_len data) - Z.of_nat (j + str_len end_))) (str_drop (Z.to_nat (Z.of_nat (j + str_len end_))) data)).
  lia.
Qed.

Lemma take_all s n : (str_len s <= n)%nat -> str_take n s = s.
Proof. revert n. induction s as [|c s IH]; intros [|n] Hn; cbn in *; [done..|lia|]. rewrite IH by lia. done. Qed.

(** The search of the blocks between two marks ends on every text and gives the blocks
    in order, marks included, when each start mark is closed before the next. *)
Theorem find_all_marked start end_ data :
  is_Some (FindAllSubBytes data start end_) /\
  (start <> "" -> forall bs rest, marked start end_ data bs rest -> FindAllSubBytes data start end_ = Some (Ok bs)).
Proof.
  unfold FindAllSubBytes. split; [apply find_all_ends; lia|]. intros Hs bs rest Hm.
  cut (forall fuel, (str_len data < fuel)%nat -> find_all fuel data start end_ = Some (Ok bs)); [auto with lia|].
  induction Hm as [t Ht|t b u bs rest data Hi Hj _ IH]; intros [|fuel] Hf; try lia; cbn [find_all]; rewrite find_sub_cases.
  - rewrite Ht. by destruct (Index t start).
  - rewrite Hi, Hj. rewrite (proj2 (Nat.leb_gt _ _)) by (destruct start; cbn; [done|lia]).
    subst data. rewrite drop_app. replace (_ - _)%nat with (str_len (start +:+ b +:+ end_)) by (rewrite !str_len_app; lia).
    rewrite take_app. destruct start as [|c start]; [done|]. rewrite (app_cons_s c start (b +:+ end_)) at 1.
    unfold slice. rewrite !str_len_app in *. replace (_ && _ && _) with true by lia.
    rewrite <- (app_assoc_s t). replace (Z.to_nat (Z.of_nat _)) with (str_len (t +:+ String c start +:+ b +:+ end_))
      by (rewrite !str_len_app; lia). rewrite drop_app, take_all by lia.
    rewrite IH by (cbn in Hf; lia). by rewrite app_cons_s.
Qed.

(** An end mark without a start mark: the slice starts at -1. *)
Lemma missing_start_mark_panics data start end_ :
  Index data start = None -> Index data end_ <> None -> FindSubBytes data start end_ = Panic.
Proof. unfold FindSubBytes. rewrite find_sub_cases. intros ->. by destruct (Index data end_). Qed.

(** ** A disk to try it on *)

Definition sample_disk : node :=
  Dir [("home", Dir [("a.txt", File "x"); ("b", Dir [("c.go", File "y"); ("d.txt", File "z")])])].

Example list_files_complete_witness :
  exists l, ListFiles false ["home"] 3 sample_disk "b/.." [WithSuffix ".txt"] = Some (l, None) /\ NoDup l /\
    forall f, f ∈ l <-> exists ks s,
      lookup_node (default (File "") (lookup_node sample_disk ["home"])) ks = Some (File s) /\
      f = path_below false (Abs false ["home"] "b/..") ks /\ keeps false [WithSuffix ".txt"] f = true.
Proof. apply (list_files_complete false ["home"] 3); [reflexivity..|apply (Nat.leb_le 2 3); reflexivity]. Defined.

Example files_of_a_suffix :
  ListFiles false ["home"] 3 sample_disk "b/.." [WithSuffix ".txt"] = Some (["/home/a.txt"; "/home/b/d.txt"], None).
Proof. by vm_compute. Qed.
Example missing_directory : ListFiles false ["home"] 3 sample_disk "c" [] = Some ([], Some ENOENT).
Proof. by vm_compute. Qed.
Example fuzzy_files : FuzzyMatchFiles false ["home"] 3 sample_disk "b/[a-d]?[!x]*" = Some [] /\
  FuzzyMatchFiles false ["home"] 3 sample_disk "b/[^d]*" = Some ["/home/b/c.go"].
Proof. by vm_compute. Qed.

Example find_all_marked_witness :
  is_Some (FindAllSubBytes "a<x>b</x>c<x></x>" "<x>" "</x>") /\
  FindAllSubBytes "a<x>b</x>c<x></x>" "<x>" "</x>" = Some (Ok ["<x>b</x>"; "<x></x>"]).
Proof.
  destruct (find_all_marked "<x>" "</x>" "a<x>b</x>c<x></x>") as [H1 H2]. split; [exact H1|].
  apply (H2 ltac:(discriminate) _ ("a" +:+ "c" +:+ "")). apply (marked_block "<x>" "</x>" "a" "b" "c<x></x>" _ "c"); [reflexivity..|].
  apply (marked_block "<x>" "</x>" "c" "" "" [] ""); [reflexivity..|]. by apply marked_none.
Defined.

(** After the last block an end mark is left without a start mark. *)
Example stray_end_mark_panics : FindAllSubBytes "a<x>b</x>c</x>" "<x>" "</x>" = Some Panic.
Proof. by vm_compute. Qed.
(** An end mark before the first block hides it. *)
Example early_end_mark_hides : FindAllSubBytes "</x>a<x>b</x>" "<x>" "</x>" = Some (Ok []).
Proof. by vm_compute. Qed.
(** The bytes before the end mark, when there is no start mark. *)
Example no_start_mark_garbage : FindSubBytesNotIn "abcdef</x>" "<x>" "</x>" = Ok "cdef".
Proof. by vm_compute. Qed.

(** ** The file name of a path *)

Lemma SplitPath_spec windows p : let '(dir, file) := SplitPath windows p in
  p = dir +:+ file /\ forall_chars (fun c => negb (is_sep windows c)) file = true /\
  (dir = "" \/ exists q c, dir = q +:+ single c /\ is_sep windows c = true).
Proof.
  induction p as [|c p IH]; [by split_and!; [..|left]|]. cbn. destruct (SplitPath windows p) as [dir file]. destruct IH as (-> & Hf & Hd).
  destruct dir as [|a dir].
  - destruct (is_sep windows c) eqn:E; split_and!; try done.
    + right. by exists "", c.
    + cbn. by rewrite E.
  - split_and!; [done..|]. right. destruct Hd as [?|(q & c' & Hq & Hs)]; [done|]. exists (String c q), c'. by rewrite Hq, app_cons_s.
Qed.

Notation no_sep windows := (forall_chars (fun c => negb (is_sep windows c))).

Lemma SplitPath_file windows t : no_sep windows t = true -> SplitPath windows t = ("", t).
Proof.
  induction t as [|c t IH]; cbn; [done|]. intros [Hc Ht]%andb_prop. rewrite (IH Ht). by destruct (is_sep windows c).
Qed.

Lemma no_sep_no_slash t : no_sep false t = true -> no_char slash t.
Proof.
  induction t as [|a t IH]; [done|]. cbn. intros [Ha Ht]%andb_prop. apply no_char_cons. split; [|by apply IH]. by intros ->.
Qed.

Lemma SplitPath_app windows p t : no_sep windows t = true -> SplitPath windows (p +:+ String slash t) = (p +:+ single slash, t).
Proof.
  intros Ht. assert (is_sep windows slash = true) as Hs by (unfold is_sep; by rewrite bool_decide_eq_true_2).
  induction p as [|c p IH].
  { rewrite app_nil_l_s. cbn [SplitPath]. rewrite (SplitPath_file windows t Ht). cbn. by rewrite Hs. }
  rewrite !app_cons_s. cbn [SplitPath]. rewrite IH. by destruct p.
Qed.

(** The last component of a path of the disk is its file name. *)
Lemma resolve_base cwd p d k :
  let b := snd (SplitPath false p) in b <> "" -> b <> "." -> b <> ".." ->
  resolve d [] (abs_comps false cwd p) = Ok k -> exists k0, k = k0 ++ [b].
Proof.
  intros b H0 H1 H2 ->%resolve_key. subst b. pose proof (SplitPath_spec false p) as Hs. destruct (SplitPath false p) as [dir b].
  destruct Hs as (-> & Hn%no_sep_no_slash & Hd). cbn in H0, H1, H2.
  assert (exists cs, abs_comps false cwd (dir +:+ b) = cs ++ [b]) as [cs ->].
  { unfold abs_comps. cbn [ToSlash]. destruct Hd as [-> |(q & c & -> & Hsep)].
    - rewrite app_nil_l_s, Split_plain by done. destruct (rooted false b); [by exists []|by exists cwd].
    - assert (c = slash) as -> by (unfold is_sep in Hsep; cbn in Hsep; rewrite orb_false_r in Hsep; by apply bool_decide_eq_true in Hsep).
      rewrite app_assoc_s. change (single slash +:+ b) with (String slash b). rewrite Split_app_r by done.
      destruct (rooted _ _); [by eexists|eexists; by rewrite app_assoc]. }
  rewrite foldl_app. cbn. exists (foldl step [] cs). unfold step. by rewrite !bool_decide_eq_false_2 by (intros ?; naive_solver).
Qed.

(** Removing an entry keeps all that is not below it. *)
Lemma remove_other k : forall d k0, ~ k `prefix_of` k0 -> lookup_node d k0 <> None ->
  forall s, lookup_node d k0 = Some (File s) -> lookup_node (remove_node d k) k0 = Some (File s).
Proof.
  induction k as [|c k IH]; intros d k0 Hk H0 s Hs; [by destruct Hk; apply prefix_nil|].
  destruct d as [s0|es]; [done|]. destruct k0 as [|c0 k0]; [done|]. cbn in Hs.
  destruct (assoc es c0) as [n|] eqn:Ea; [|done]. cbn in Hs.
  destruct (decide (c = c0)) as [<-|Hne].
  - destruct k as [|c1 k]; [destruct Hk; by apply prefix_cons, prefix_nil|]. cbn [remove_node]. rewrite Ea. cbn [lookup_node]. rewrite assoc_set_same. cbn.
    apply IH; [intros Hp; destruct Hk; by apply prefix_cons|congruence|done].
  - destruct k as [|c1 k]; cbn [remove_node].
    + cbn [lookup_node]. assert (assoc (filter (fun kv => kv.1 <> c) es) c0 = Some n) as ->; [|done].
      clear -Ea Hne. induction es as [|[c2 n2] es IH]; [done|]. cbn in Ea. rewrite filter_cons. cbn.
      destruct (decide (c2 <> c)) as [_|Hc]; cbn; [by destruct (bool_decide (c0 = c2)) eqn:E; [|apply IH]|].
      apply dec_stable in Hc as ->. rewrite bool_decide_eq_false_2 in Ea by done. by apply IH.
    + destruct (assoc es c) as [m|]; cbn [lookup_node]; [rewrite assoc_set_other by done|]; by rewrite Ea.
Qed.

End Files.
