(* ===== verification/Replacer.v ===== *)
(** * Replacing texts in template files (pkg/replacer)

    replacer.go over the disk of Files.v: the choice of the files, the
    replacement rules, and the writing of the files and of templates.  The
    embedded file system is a tree of the same kind that is only read;
    text/template is a parameter.  Theorems: nothing that exists is changed,
    whatever happens; when files were saved, every selected file is at its new
    path with the rules applied in order. *)

From S2P Require Import Prelude GoStr Files.
From Stdlib Require Import Ascii.
From Stdlib Require String.

Module Replacer.
Import Files.

Inductive error : Type :=
  | ErrOS (e : errno)
  | ErrFound (n : nat)                    (* total %d file named *)
  | ErrExisting (files : list string)     (* existing files detected *)
  | ErrForbidden (file : string)          (* disable writing file *)
  | ErrExists (file : string)             (* file %s already exists *)
  | ErrTemplate.                          (* parse or execute failed *)
#[global] Instance error_eq_dec : EqDecision error.
Proof. solve_decision. Defined.

Definition os {A} (m : result errno A) : result error A :=
  match m with Ok a => Ok a | Err e => Err (ErrOS e) | Panic => Panic end.

Record Field : Type := mkField { Old : string; New : string; IsCaseSensitive : bool }.

Record replacerInfo : Type := mkReplacer {
  path : string; embedFS : node; isActual : bool; files : list string; ignoreFiles : list string; ignoreDirs : list string;
  replacementFields : list Field; outPath : string }.

Definition set_files (l : list string) (r : replacerInfo) : replacerInfo :=
  mkReplacer (path r) (embedFS r) (isActual r) l (ignoreFiles r) (ignoreDirs r) (replacementFields r) (outPath r).
Definition set_ignore (fs ds : list string) (r : replacerInfo) : replacerInfo :=
  mkReplacer (path r) (embedFS r) (isActual r) (files r) fs ds (replacementFields r) (outPath r).
Definition set_fields (l : list Field) (r : replacerInfo) : replacerInfo :=
  mkReplacer (path r) (embedFS r) (isActual r) (files r) (ignoreFiles r) (ignoreDirs r) l (outPath r).
Definition set_out (p : string) (r : replacerInfo) : replacerInfo :=
  mkReplacer (path r) (embedFS r) (isActual r) (files r) (ignoreFiles r) (ignoreDirs r) (replacementFields r) p.

(** ** Rules *)

Definition isFirstAlphabet (s : string) : bool := match s with String c _ => is_alpha c | EmptyString => false end.
(** [f(s[:1]) + s[1:]]. *)
Definition first_letter (f : ascii -> ascii) (s : string) : string :=
  match s with String c s' => String (f c) s' | EmptyString => "" end.

Definition split_field (field : Field) : list Field :=
  if IsCaseSensitive field && isFirstAlphabet (Old field) then
    if bool_decide (New field = "") then []
    else [mkField (first_letter upper (Old field)) (first_letter upper (New field)) false;
          mkField (first_letter lower (Old field)) (first_letter lower (New field)) false]
  else [field].
Definition SetReplacementFields (fields : list Field) (r : replacerInfo) : replacerInfo :=
  set_fields (mjoin (map split_field fields)) r.

(** [bytes.ReplaceAll] by every rule in turn. *)
Definition replace_data (fields : list Field) (data : string) : string :=
  foldl (fun data f => ReplaceAll data (Old f) (New f)) data fields.

Section Replacing.
Variable windows : bool.
Variable cwd : list string.
#[local] Notation delim := (GetPathDelimiter windows).

(** ** Paths *)

Definition to_windows (p : string) : string := ReplaceChar p slash (single backslash).

Definition convertPathDelimiter (r : replacerInfo) (filePath : string) : string :=
  if isActual r && windows then to_windows filePath else filePath.
Definition convertPathsDelimiter (r : replacerInfo) (filePaths : list string) : list string :=
  if isActual r && windows then map to_windows filePaths else filePaths.

Definition isSubPath (filePath subPath : string) : bool := Contains (fst (SplitPath windows filePath)) subPath.
Definition isMatchFile (filePath sf : string) : bool :=
  let '(dir1, file1) := SplitPath windows filePath in
  let '(dir2, file2) := SplitPath windows sf in
  if negb (bool_decide (file1 = file2)) then false
  else
    let convert p := if windows then to_windows p else ReplaceChar p backslash "/" in
    HasSuffix (convert dir1) (convert dir2).
Definition isIgnoreFile (r : replacerInfo) (file : string) : bool := existsb (isMatchFile file) (ignoreFiles r).
Definition isInIgnoreDir (r : replacerInfo) (file : string) : bool :=
  existsb (Contains (fst (SplitPath windows file))) (ignoreDirs r).
Definition isForbiddenFile (file path : string) : bool :=
  if windows then Contains (to_windows file) (to_windows path) else Contains file path.

Definition getNewFilePath (r : replacerInfo) (file : string) : string :=
  let newFilePath := outPath r +:+ Replace1 file (path r) "" in
  if windows then to_windows newFilePath else newFilePath.
Definition getNewFilePath2 (r : replacerInfo) (file refDir : string) : string :=
  if bool_decide (refDir = "") then getNewFilePath r file
  else
    let newFilePath := outPath r +:+ delim +:+ refDir +:+ delim +:+ Replace1 file (path r) "" in
    if windows then to_windows newFilePath else newFilePath.
Definition trimExt (file : string) : string :=
  TrimSuffix (TrimSuffix (TrimSuffix file ".tmpl") ".tpl") ".template".

(** ** The embedded files *)

(** [fs.ValidPath]. *)
Definition valid_path (p : string) : bool :=
  bool_decide (p = ".") || forallb (fun c => negb (bool_decide (c = "" \/ c = "." \/ c = ".."))) (Split p slash).
Definition embed_node (d : node) (p : string) : result error node :=
  if valid_path p then
    match lookup_node d (if bool_decide (p = ".") then [] else Split p slash) with Some n => Ok n | None => Err (ErrOS ENOENT) end
  else Err (ErrOS ENOENT).
Definition embed_read_dir (d : node) (p : string) : result error (list (string * node)) :=
  n ← embed_node d p; match n with Dir es => Ok es | File _ => Err (ErrOS ENOTDIR) end.
Definition embed_read (d : node) (p : string) : result error string :=
  n ← embed_node d p; match n with File s => Ok s | Dir _ => Err (ErrOS EISDIR) end.

(** The walk drops the errors of directories further down. *)
Fixpoint embed_walk (fuel : nat) (d : node) (dirPath : string) : option (result error (list string)) :=
  match fuel with
  | O => None
  | S fuel =>
      match embed_read_dir d dirPath with
      | Ok es =>
          (fun l : list string => Ok l) <$> foldl (fun acc '(name, n) =>
            l ← acc;
            let deepFile := dirPath +:+ "/" +:+ name in
            if is_dir n then (fun r => match r with Ok l' => l ++ l' | _ => l end) <$> embed_walk fuel d deepFile
            else Some (l ++ [deepFile])) (Some []) es
      | Err e => Some (Err e)
      | Panic => Some Panic
      end
  end.

(** ** Creating *)

Definition New_ (fuel : nat) (d : node) (p : string) : option (result error replacerInfo) :=
  (fun w : list string * option errno =>
     match snd w with
     | Some e => Err (ErrOS e)
     | None => Ok (mkReplacer (Abs windows cwd p) (Dir []) true (fst w) [] [] [] "")
     end) <$> ListFiles windows cwd fuel d p [].
Definition NewFS (fuel : nat) (p : string) (embed : node) : option (result error replacerInfo) :=
  (fun w : result error (list string) => l ← w; Ok (mkReplacer p embed false l [] [] [] "")) <$> embed_walk fuel embed p.

(** ** Settings *)

(** The files in the directories and of the names, each once; all files stay
    when there is none. *)
Definition SetSubDirsAndFiles (subDirs subFiles : list string) (r : replacerInfo) : replacerInfo :=
  let subDirs := convertPathsDelimiter r subDirs in
  let subFiles := convertPathsDelimiter r subFiles in
  let add (acc : list string) (file : string) :=
    if (existsb (isSubPath file) subDirs || existsb (isMatchFile file) subFiles) && negb (bool_decide (file ∈ acc))
    then acc ++ [file] else acc in
  match foldl add [] (files r) with
  | [] => r
  | l => set_files l r
  end.
Definition SetIgnoreSubFiles (filenames : list string) (r : replacerInfo) : replacerInfo :=
  set_ignore (ignoreFiles r ++ filenames) (ignoreDirs r) r.
Definition SetIgnoreSubDirs (dirs : list string) (r : replacerInfo) : replacerInfo :=
  set_ignore (ignoreFiles r) (ignoreDirs r ++ convertPathsDelimiter r dirs) r.
(** [stamp] is the time in the format 150405. *)
Definition SetOutputDir (stamp absPath : string) (name : list string) (r : replacerInfo) : replacerInfo :=
  if negb (bool_decide (absPath = "")) then set_out (Abs windows cwd absPath) r
  else set_out (wd windows cwd +:+ delim +:+ Join name "_" +:+ "_" +:+ stamp) r.

Definition GetFiles (r : replacerInfo) : list string := files r.
Definition GetOutputDir (r : replacerInfo) : string := outPath r.
Definition GetSourcePath (r : replacerInfo) : string := path r.

(** ** Reading *)

Definition read_source (d : node) (r : replacerInfo) (file : string) : result error string :=
  if isActual r then os (Files.ReadFile windows cwd d file) else embed_read (embedFS r) file.
Definition ReadFile (d : node) (r : replacerInfo) (filename : string) : result error string :=
  let filename := convertPathDelimiter r filename in
  match filter (fun file => Contains file filename && bool_decide (GetFilename windows file = GetFilename windows filename) = true)
          (files r) with
  | [f] => read_source d r f
  | foundFile => Err (ErrFound (length foundFile))
  end.

(** ** Saving *)

(** The new path of a file: the rules apply to the directory, the output
    directory included, and to the name. *)
Definition replace_path (fields : list Field) (p : string) : string :=
  foldl (fun p f => if Contains p (Old f) then ReplaceAll p (Old f) (New f) else p) p fields.
Definition new_path (r : replacerInfo) (file : string) : string :=
  let '(dir, filename) := SplitPath windows (getNewFilePath r file) in
  replace_path (replacementFields r) dir +:+ replace_path (replacementFields r) filename.

Definition ignored (r : replacerInfo) (file : string) : bool := isInIgnoreDir r file || isIgnoreFile r file.

(** One turn of the loop: what to write, and the new paths that exist. *)
Definition collect (d : node) (r : replacerInfo) (acc : gmap string string * list string) (file : string) :
    result error (gmap string string * list string) :=
  if ignored r file then Ok acc
  else
    data ← read_source d r file;
    let p := new_path r file in
    Ok (<[p := replace_data (replacementFields r) data]> (fst acc),
        if IsExists windows cwd d p then snd acc ++ [p] else snd acc).

Definition saveToNewFile (d : node) (filePath data : string) : node * result error unit :=
  match MkdirAll windows cwd d (fst (SplitPath windows filePath)) with
  | (d, Some e) => (d, Err (ErrOS e))
  | (d, None) =>
      match WriteFile windows cwd d filePath data with
      | Ok d => (d, Ok tt)
      | Err e => (d, Err (ErrOS e))
      | Panic => (d, Panic)
      end
  end.
(** The first error ends the loop. *)
Fixpoint save_all (d : node) (writeData : list (string * string)) : node * result error unit :=
  match writeData with
  | [] => (d, Ok tt)
  | (file, data) :: rest =>
      match saveToNewFile d file data with
      | (d, Ok _) => save_all d rest
      | r => r
      end
  end.

(** The order of [range writeData], in the two loops. *)
Variables order1 order2 : gmap string string -> list (string * string).

(** [exe] is the directory of the program. *)
Definition with_out_path (exe stamp : string) (r : replacerInfo) : replacerInfo :=
  if bool_decide (outPath r = "") then set_out (exe +:+ delim +:+ "generate_" +:+ stamp) r else r.
Definition SaveFiles (exe stamp : string) (d : node) (r : replacerInfo) : node * result error unit :=
  let r := with_out_path exe stamp r in
  match foldM (collect d r) (∅, []) (files r) with
  | Err e => (d, Err e)
  | Panic => (d, Panic)
  | Ok (writeData, existFiles) =>
      if negb (bool_decide (existFiles = [])) then (d, Err (ErrExisting existFiles))
      else match List.find (fun kv => isForbiddenFile (fst kv) (path r)) (order1 writeData) with
           | Some (file, _) => (d, Err (ErrForbidden file))
           | None => save_all d (order2 writeData)
           end
  end.

(** ** Templates *)

(** A parsed and executed template, with its name and its text. *)
Variable execute : string -> string -> option string.

(** Reads the disk also for embedded files. *)
Definition replaceTemplateData (d : node) (file : string) : result error string :=
  data ← os (Files.ReadFile windows cwd d file);
  if negb (Contains data "{{") then Ok data
  else match execute file data with Some s => Ok s | None => Err ErrTemplate end.
Definition replaceTemplateFilePath (file : string) : result error string :=
  if negb (Contains file "{{") then Ok file
  else match execute ("file: " +:+ file) file with Some s => Ok s | None => Err ErrTemplate end.

(** The path is looked up before its template is executed. *)
Definition collect_template (d : node) (r : replacerInfo) (refDir : string) (writeData : gmap string string) (file : string) :
    result error (gmap string string) :=
  data ← replaceTemplateData d file;
  let newFilePath := trimExt (getNewFilePath2 r file refDir) in
  if IsExists windows cwd d newFilePath then Err (ErrExists newFilePath)
  else
    newFilePath ← replaceTemplateFilePath newFilePath;
    Ok (<[newFilePath := data]> writeData).
Definition SaveTemplateFiles (parentDir : list string) (d : node) (r : replacerInfo) : node * result error unit :=
  match foldM (collect_template d r (Join parentDir delim)) ∅ (files r) with
  | Ok writeData => save_all d (order2 writeData)
  | Err e => (d, Err e)
  | Panic => (d, Panic)
  end.

End Replacing.

(** * Proofs *)

(** ** Saving *)

Section Saving.
Variable cwd : list string.
Variables order1 order2 : gmap string string -> list (string * string).
Hypothesis order1_range : forall m, order1 m ≡ₚ map_to_list m.
Hypothesis order2_range : forall m, order2 m ≡ₚ map_to_list m.

(** An absolute path without dots that ends with a name. *)
Definition plain (p : string) : Prop :=
  rooted false p = true /\ ".." ∉ abs_comps false cwd p /\ snd (SplitPath false p) <> "" /\ snd (SplitPath false p) <> ".".
Definition key (p : string) : list string := foldl step [] (abs_comps false cwd p).

Lemma plain_key p : plain p -> exists cs, let '(dir, file) := SplitPath false p in
  dir <> "" /\ abs_comps false cwd dir = cs ++ [""] /\ ".." ∉ cs ++ [""] /\ abs_comps false cwd p = cs ++ [file] /\ step (key dir) file = key p /\
  key p = key dir ++ [file].
Proof.
  intros (Hr & Hd & Hf1 & Hf2). pose proof (SplitPath_spec false p) as Hs. destruct (SplitPath false p) as [dir file]. destruct Hs as (-> & Hc & Hdir).
  cbn in Hf1, Hf2. assert (no_char slash file) as Hno.
  { clear - Hc. induction file as [|a file IH]; [done|]. cbn in Hc. apply andb_true_iff in Hc as [Ha Hc]. apply no_char_cons. split; [|auto].
    intros ->. by cbn in Ha. }
  destruct Hdir as [->|(q & c & -> & Hsep)].
  { exfalso. rewrite app_nil_l_s in Hr. destruct file as [|a file]; [done|]. cbn [rooted forall_chars] in Hr, Hc. by rewrite Hr in Hc. }
  assert (c = slash) as -> by (unfold is_sep in Hsep; cbn in Hsep; rewrite orb_false_r in Hsep; by apply bool_decide_eq_true in Hsep).
  exists (Split q slash). rewrite app_assoc_s in Hr, Hd |- *. change (single slash +:+ file) with (String slash file) in *.
  assert (rooted false (q +:+ single slash) = true) as Hr'.
  { destruct q; [done|]. by rewrite app_cons_s in *. }
  unfold key, abs_comps in *. rewrite Hr in *. rewrite Hr'. cbn [ToSlash] in *. rewrite Split_app_r in Hd |- * by done.
  change (single slash) with (String slash ""). rewrite Split_app_r by done. rewrite !foldl_app. cbn.
  split; [by destruct q|]. split; [done|]. split; [set_solver|]. split; [done|].
  assert (forall k, step k "" = k) as -> by done. split; [done|]. unfold step.
  rewrite !bool_decide_eq_false_2 by set_solver. done.
Qed.

Lemma save_new_file d p data : plain p -> is_dir d = true -> lookup_node d (key p) = None ->
  (forall k s, k `prefix_of` key p -> lookup_node d k <> Some (File s)) ->
  exists d', saveToNewFile false cwd d p data = (d', Ok tt) /\ Files.ReadFile false cwd d' p = Ok data /\ extends d d' /\
    lookup_node d' (key p) = Some (File data) /\
    (forall k, lookup_node d' k <> None -> lookup_node d k <> None \/ k `prefix_of` key p) /\
    (forall k s, lookup_node d' k = Some (File s) -> lookup_node d k = Some (File s) \/ k = key p).
Proof.
  intros Hp Hd Hn Hf. destruct (plain_key p Hp) as [cs Hcs]. unfold saveToNewFile. destruct (SplitPath false p) as [dir file] eqn:Es.
  destruct Hcs as (Hdir & Hcd & Hdots & Hcp & Hstep & Hkey). cbn [fst]. unfold MkdirAll. rewrite bool_decide_eq_false_2 by done.
  destruct d as [|es0]; [done|]. set (d := Dir es0) in *.
  destruct (mkdirs_ok (abs_comps false cwd dir) d [] es0) as (d1 & es1 & Hm & Hl & Hr); [by rewrite Hcd|done| |].
  { intros k s Hk. apply Hf. rewrite Hkey. by apply prefix_app_r. }
  rewrite Hm. pose proof (mkdirs_grows (abs_comps false cwd dir) d []) as [Hg1 Hf1]. rewrite Hm in Hg1, Hf1. cbn in Hg1, Hf1.
  assert (forall k, lookup_node d1 k <> None -> lookup_node d k <> None \/ k `prefix_of` key dir) as Hn1.
  { intros k Hk. apply (mkdirs_new (abs_comps false cwd dir)); [by rewrite Hcd|by rewrite Hm]. }
  assert (lookup_node d1 (key p) = None) as Hn1p.
  { destruct (lookup_node d1 (key p)) eqn:E; [|done]. exfalso. destruct (Hn1 (key p)) as [?|[l Hl']]; [by rewrite E|done|].
    rewrite Hkey in Hl'. apply (f_equal length) in Hl'. rewrite !length_app in Hl'. cbn in Hl'. lia. }
  assert (resolve d1 [] (abs_comps false cwd p) = Ok (key p)) as Hrp.
  { rewrite Hcp. rewrite Hcd in Hr. rewrite resolve_app in Hr |- *. fold (key dir) in Hl.
    destruct (resolve d1 [] cs) as [k0| |] eqn:E0; [|done..]. cbn in Hr |- *.
    assert (k0 = key dir) as ->.
    { destruct (lookup_node d1 k0) as [[]|]; [done| |done]. injection Hr as Hr. unfold key. by rewrite Hcd. }
    rewrite Hl. by rewrite Hstep. }
  destruct (WriteFile false cwd d1 p data) as [d'|e|] eqn:Hw.
  - exists d'. destruct (WriteFile_ok _ _ _ _ _ _ Hw) as (k & Hk & _ & -> & Hlk & Hgr). rewrite Hrp in Hk. injection Hk as <-.
    assert (extends d1 (put_node d1 (key p) (File data))) as Hext by by apply put_extends.
    split_and!; [done| |by etrans|done| |].
    + unfold Files.ReadFile, Stat. rewrite bool_decide_eq_false_2 by (destruct Hp as [Hp _]; by destruct p).
      rewrite (resolve_extends _ _ _ _ _ Hext Hrp). cbn. by rewrite Hlk.
    + intros k [Hk|[Hk|(k1 & -> & Hk)]]%put_new; [|by right|destruct k1; [|done]; right; by rewrite app_nil_r].
      destruct (Hn1 k Hk) as [?|?]; [by left|right]. rewrite Hkey. by apply prefix_app_r.
    + intros k s [Hk%Hf1|(k1 & -> & Hk)]%put_files; [by left|]. destruct k1; [|done]. right. by rewrite app_nil_r.
  - exfalso. unfold WriteFile in Hw. rewrite bool_decide_eq_false_2, Hrp in Hw by (destruct Hp as [Hp _]; by destruct p). cbn in Hw. by rewrite Hn1p in Hw.
  - exfalso. unfold WriteFile in Hw. rewrite bool_decide_eq_false_2, Hrp in Hw by (destruct Hp as [Hp _]; by destruct p). cbn in Hw. by rewrite Hn1p in Hw.
Qed.

(** Whatever happens on the way, what was on the disk before stays. *)
Lemma save_keeps d di p data : extends d di -> lookup_node d (key p) = None -> extends d (saveToNewFile false cwd di p data).1.
Proof.
  intros He Hn. unfold saveToNewFile, MkdirAll. case_bool_decide; [done|]. set (cs := abs_comps false cwd _).
  pose proof (mkdirs_grows cs di []) as [Hg _]. destruct (mkdirs di [] cs) as [d1 [e|]]; cbn in Hg |- *; [by etrans|].
  assert (extends d d1) as He1 by by etrans. destruct (WriteFile false cwd d1 p data) as [d2|e|] eqn:Hw; cbn; [|done..].
  destruct (WriteFile_ok _ _ _ _ _ _ Hw) as (k & Hk & _ & -> & _ & _). apply resolve_key in Hk. fold (key p) in Hk. subst k.
  intros k0 n0 H0. destruct (He1 _ _ H0) as (n1 & H1 & Hg1). destruct (put_grows (key p) d1 (File data) k0 n1) as (n2 & H2 & Hg2); [|done|].
  - intros Hpre. rewrite (lookup_below_none d _ _ Hpre Hn) in H0. done.
  - exists n2. split; [done|by etrans].
Qed.
Lemma save_all_keeps d l : forall di, extends d di -> Forall (fun kv => lookup_node d (key kv.1) = None) l ->
  extends d (save_all false cwd di l).1.
Proof.
  induction l as [|[p s] l IH]; intros di He Hn; [done|]. apply Forall_cons in Hn as [Hn1 Hn]. cbn in Hn1 |- *.
  pose proof (save_keeps d di p s He Hn1) as Hk. destruct (saveToNewFile _ _ _ _ _) as [d1 [[]|e|]]; cbn in Hk |- *; [by apply IH|done..].
Qed.

Lemma save_all_ok l : forall d, is_dir d = true -> NoDup (map fst l) -> Forall (fun kv => plain kv.1) l ->
  (forall p q, p ∈ map fst l -> q ∈ map fst l -> key p `prefix_of` key q -> p = q) ->
  Forall (fun kv => lookup_node d (key kv.1) = None /\ forall k s, k `prefix_of` key kv.1 -> lookup_node d k <> Some (File s)) l ->
  exists d', save_all false cwd d l = (d', Ok tt) /\ extends d d' /\
    forall p s, (p, s) ∈ l -> Files.ReadFile false cwd d' p = Ok s.
Proof.
  induction l as [|[p s] l IH]; intros d Hd Hnd Hp Hk Hn; cbn; [exists d; split_and!; [done..|set_solver]|].
  cbn in Hnd. apply NoDup_cons in Hnd as [Hpl Hnd]. apply Forall_cons in Hp as [Hp Hpp]. apply Forall_cons in Hn as [[Hn1 Hn2] Hn].
  cbn in Hp, Hn1, Hn2. destruct (save_new_file d p s Hp Hd Hn1 Hn2) as (d1 & -> & Hr & He & Hl & Hnew & Hfiles).
  destruct (IH d1) as (d' & -> & He' & Hall).
  - destruct (He [] d eq_refl) as (n' & [= <-] & Hg). destruct d; [done|by destruct d1].
  - done.
  - done.
  - intros q1 q2 H1 H2. apply Hk; by right.
  - rewrite Forall_forall in Hn |- *. intros [q t] Hq. cbn. specialize (Hn _ Hq). cbn in Hn. destruct Hn as [Hq1 Hq2].
    assert (q ∈ map fst l) as Hql by (apply list_elem_of_fmap; by eexists (_, _)). assert (q <> p) as Hne by congruence. split.
    + destruct (lookup_node d1 (key q)) eqn:E; [|done]. exfalso. destruct (Hnew (key q)) as [?|Hpre]; [by rewrite E|done|].
      apply Hne, Hk; [by right|by left|done].
    + intros k u Hku [Hf|Hf]%Hfiles; [by eapply Hq2|]. subst k. apply Hne. symmetry. apply Hk; [by left|by right|done].
  - exists d'. split_and!; [done|by etrans|]. intros q t [[= -> ->]|Hq]%elem_of_cons; [|by apply Hall].
    unfold Files.ReadFile, Stat in Hr |- *. case_bool_decide; [done|]. destruct (resolve d1 [] _) as [k| |] eqn:Hk1; [|done..].
    rewrite (resolve_extends _ _ _ _ _ He' Hk1). cbn in Hr |- *. destruct (lookup_node d1 k) as [n|] eqn:E; [|done].
    destruct (He' _ _ E) as (n' & -> & Hg). destruct n; [|done]. cbn in Hg. by subst.
Qed.

Section Collect.
Variables (d : node) (r : replacerInfo).
#[local] Notation sel l := (filter (fun f => ignored false r f = false) l).
Definition content (f : string) : string :=
  match read_source false cwd d r f with Ok s => replace_data (replacementFields r) s | _ => "" end.

Lemma resolve_no_panic cs : forall d cur, resolve d cur cs <> Panic.
Proof. induction cs as [|c cs IH]; intros d' cur; cbn; [done|]. destruct (lookup_node d' cur) as [[]|]; [done|apply IH|done]. Qed.
Lemma read_source_no_panic f : read_source false cwd d r f <> Panic.
Proof.
  unfold read_source, os, Files.ReadFile, Stat, embed_read, embed_node. destruct (isActual r).
  - case_bool_decide; [done|]. pose proof (resolve_no_panic (abs_comps false cwd f) d []). destruct (resolve _ _ _) as [k| |]; [|done..].
    cbn. by destruct (lookup_node d k) as [[]|].
  - destruct (valid_path f); [|done]. by destruct (lookup_node _ _) as [[]|].
Qed.

Lemma collect_ok l : forall w e,
  match foldM (collect false cwd d r) (w, e) l with
  | Ok (w', e') => w' = foldl (fun w f => <[new_path false r f := content f]> w) w (sel l) /\
                   e' = e ++ filter (fun p => IsExists false cwd d p = true) (map (new_path false r) (sel l)) /\
                   Forall (fun f => exists s, read_source false cwd d r f = Ok s) (sel l)
  | Err _ => exists f, f ∈ sel l /\ forall s, read_source false cwd d r f <> Ok s
  | Panic => False
  end.
Proof.
  pose proof read_source_no_panic as Hnp.
  induction l as [|f l IH]; intros w e; [split_and!; [done|by rewrite app_nil_r|constructor]|]. cbn [foldM]. unfold collect at 2.
  destruct (ignored false r f) eqn:Hi.
  - rewrite filter_cons_False by congruence. cbn [mbind result_bind]. apply IH.
  - rewrite filter_cons_True by done. destruct (read_source false cwd d r f) as [s| |] eqn:Hs; cbn [mbind result_bind].
    + specialize (IH (<[new_path false r f := replace_data (replacementFields r) s]> w)
        (if IsExists false cwd d (new_path false r f) then e ++ [new_path false r f] else e)).
      cbn [fst snd]. destruct (foldM _ _ l) as [[w' e']| |]; [|destruct IH as (g & Hg & Hr); exists g; by split; [right|]|done].
      destruct IH as (-> & -> & Hall). split_and!; [|cbn [map filter]|by constructor; [exists s|]].
      * cbn [foldl]. assert (content f = replace_data (replacementFields r) s) as -> by (unfold content; by rewrite Hs). done.
      * rewrite filter_cons. destruct (IsExists _ _ _ _) eqn:E; [rewrite decide_True by done; by rewrite <- app_assoc|by rewrite decide_False by congruence].
    + exists f. split; [by left|congruence].
    + by apply Hnp in Hs.
Qed.
End Collect.

Lemma written_inv {A} (k v : A -> string) l : forall (w : gmap string string) p s,
  foldl (fun w f => <[k f := v f]> w) w l !! p = Some s -> w !! p = Some s \/ exists f, f ∈ l /\ p = k f /\ s = v f.
Proof.
  induction l as [|f l IH]; intros w p s; cbn; [by left|]. intros [Hw|(g & Hg & Hkv)]%IH.
  - apply lookup_insert_Some in Hw as [[<- <-]|[_ Hw]]; [|by left]. right. exists f. by split; [left|].
  - right. exists g. by split; [right|].
Qed.
Lemma written_lookup {A} (k v : A -> string) l f : f ∈ l -> (forall g, g ∈ l -> k g = k f -> v g = v f) ->
  forall w : gmap string string, foldl (fun w f => <[k f := v f]> w) w l !! k f = Some (v f).
Proof.
  induction l as [|f' l IH] using rev_ind; [set_solver|]. intros Hf Hu w. rewrite foldl_app. cbn.
  destruct (decide (k f' = k f)) as [He|Hne].
  - rewrite He. rewrite lookup_insert_eq. f_equal. apply Hu; [set_solver|done].
  - rewrite lookup_insert_ne by done. apply IH; [|intros g Hg; apply Hu; set_solver].
    apply elem_of_app in Hf as [?|?]; [done|]. assert (f = f') by set_solver. by subst.
Qed.

(** C25: Saving files is all or nothing: when every selected file could be read, no new path existed
    and none was forbidden, every file is at its new path with the rules applied in
    order and nothing that was on the disk is changed; else the disk is as before. *)
Theorem save_all_or_nothing exe stamp d r0 :
  let r := with_out_path false exe stamp r0 in
  let sel := filter (fun f => ignored false r f = false) (files r) in
  is_dir d = true -> Forall (fun f => plain (new_path false r f)) sel ->
  (forall f g, f ∈ sel -> g ∈ sel -> key (new_path false r f) `prefix_of` key (new_path false r g) -> f = g) ->
  match SaveFiles false cwd order1 order2 exe stamp d r0 with
  | (d', Ok _) => extends d d' /\ forall f, f ∈ sel -> IsExists false cwd d (new_path false r f) = false /\
      exists s, read_source false cwd d r f = Ok s /\
        Files.ReadFile false cwd d' (new_path false r f) = Ok (replace_data (replacementFields r) s)
  | (d', Err _) => d' = d /\ exists f, f ∈ sel /\ ((forall s, read_source false cwd d r f <> Ok s) \/
      IsExists false cwd d (new_path false r f) = true \/ isForbiddenFile false (new_path false r f) (path r) = true)
  | (_, Panic) => False
  end.
Proof.
  intros r sel Hd Hplain Hanti. unfold SaveFiles. fold r. pose proof (collect_ok d r (files r) ∅ []) as Hc. fold sel in Hc.
  destruct (foldM _ _ (files r)) as [[w e]|e|]; [|split; [done|]; destruct Hc as (f & Hf & Hr); exists f; by split; [|left]|done].
  destruct Hc as (Hw & -> & Hread). cbn [app]. destruct (filter _ (map _ sel)) as [|p ps] eqn:Ef; cbn [negb bool_decide decide_rel].
  2: { split; [done|]. assert (p ∈ filter (fun p => IsExists false cwd d p = true) (map (new_path false r) sel)) as Hp by (rewrite Ef; by left).
       apply list_elem_of_filter in Hp as [He (f & -> & Hf)%list_elem_of_fmap]. exists f. auto. }
  assert (forall f, f ∈ sel -> IsExists false cwd d (new_path false r f) = false) as Hex.
  { intros f Hf. destruct (IsExists _ _ _ _) eqn:E; [|done]. exfalso.
    eapply (filter_nil_not_elem_of _ _ (new_path false r f) Ef E). apply list_elem_of_fmap. by exists f. }
  assert (forall p s, w !! p = Some s -> exists f, f ∈ sel /\ p = new_path false r f /\ s = content d r f) as Hinv.
  { intros p s. rewrite Hw. intros [?|?]%written_inv; [by rewrite lookup_empty in *|done]. }
  destruct (List.find _ (order1 w)) as [[file data]|] eqn:Efind.
  - split; [done|]. apply find_some in Efind as [Hin Hforb]. rewrite <- list_elem_of_In, order1_range in Hin.
    apply elem_of_map_to_list, Hinv in Hin as (f & Hf & -> & _). exists f. auto.
  - assert (forall p s, (p, s) ∈ order2 w <-> w !! p = Some s) as Helem by (intros; by rewrite order2_range, elem_of_map_to_list).
    destruct (save_all_ok (order2 w) d Hd) as (d' & -> & He & Hall).
    + rewrite order2_range. apply NoDup_fst_map_to_list.
    + apply Forall_forall. intros [p s] (f & Hf & -> & _)%Helem%Hinv. cbn. rewrite Forall_forall in Hplain. by apply Hplain.
    + intros p q ([? s] & -> & (f & Hf & -> & _)%Helem%Hinv)%list_elem_of_fmap ([? t] & -> & (g & Hg & -> & _)%Helem%Hinv)%list_elem_of_fmap Hpre.
      cbn in *. by rewrite (Hanti f g Hf Hg Hpre).
    + apply Forall_forall. intros [p s] (f & Hf & -> & _)%Helem%Hinv. cbn. rewrite Forall_forall in Hplain.
      destruct (Hplain f Hf) as (Hr & Hdots & _). apply not_exists_lookup; [done|by destruct (new_path false r f)|done|by apply Hex].
    + split; [done|]. intros f Hf. split; [by apply Hex|]. rewrite Forall_forall in Hread. destruct (Hread f Hf) as [s Hs].
      exists s. split; [done|]. apply Hall, Helem. rewrite Hw. rewrite (written_lookup _ (content d r) sel f Hf).
      * unfold content. by rewrite Hs.
      * intros g Hg Hk. f_equal. apply (Hanti g f Hg Hf). by rewrite Hk.
Qed.

(** Whatever the rules and the files, and however the saving ends, no file on the
    disk is changed and no directory removed, while the new paths have no dots. *)
Theorem saving_keeps_the_disk exe stamp d r0 :
  let r := with_out_path false exe stamp r0 in
  is_dir d = true -> Forall (fun f => plain (new_path false r f)) (filter (fun f => ignored false r f = false) (files r)) ->
  extends d (SaveFiles false cwd order1 order2 exe stamp d r0).1.
Proof.
  intros r Hd Hplain. unfold SaveFiles. fold r. pose proof (collect_ok d r (files r) ∅ []) as Hc.
  destruct (foldM _ _ (files r)) as [[w e]|e|]; [|done|done]. destruct Hc as (Hw & -> & _). case_bool_decide as Hf; [|done]. cbn.
  destruct (List.find _ _) as [[]|]; [done|]. apply save_all_keeps; [done|]. apply Forall_forall. intros [p s] Hin. cbn.
  rewrite order2_range, elem_of_map_to_list, Hw in Hin. apply written_inv in Hin as [Hin|(f & Hf' & -> & _)]; [by rewrite lookup_empty in Hin|].
  rewrite Forall_forall in Hplain. destruct (Hplain f Hf') as (Hr & Hdots & _).
  apply not_exists_lookup; [done|by destruct (new_path false r f)|done|]. destruct (IsExists _ _ _ _) eqn:E; [|done]. exfalso.
  eapply (filter_nil_not_elem_of _ _ (new_path false r f) Hf E). apply list_elem_of_fmap. by exists f.
Qed.

End Saving.

(** ** The choice of the files *)

Lemma selection_spec windows subDirs subFiles r l :
  foldl (fun acc file =>
    if (existsb (isSubPath windows file) subDirs || existsb (isMatchFile windows file) subFiles) && negb (bool_decide (file ∈ acc))
    then acc ++ [file] else acc) [] l = r -> NoDup r /\
  forall f, f ∈ r <-> f ∈ l /\ (existsb (isSubPath windows f) subDirs || existsb (isMatchFile windows f) subFiles) = true.
Proof.
  intros <-. induction l as [|f l [IHn IH]] using rev_ind; [split; [constructor|set_solver]|]. rewrite foldl_app. cbn [foldl].
  set (acc := foldl _ [] l) in *. destruct (existsb (isSubPath windows f) subDirs || _) eqn:E; cbn [andb].
  - case_bool_decide as Hf; cbn [negb].
    + split; [done|]. intros g. rewrite IH, elem_of_app. apply IH in Hf. set_solver.
    + split; [apply NoDup_app; split_and!; [done|set_solver|apply NoDup_singleton]|]. intros g. rewrite elem_of_app, IH. set_solver.
  - split; [done|]. intros g. rewrite IH, elem_of_app. split; [tauto|]. intros [[?|Hg%list_elem_of_singleton] ?]; [done|congruence].
Qed.

(** The selection has exactly the files in a chosen directory or of a chosen name,
    once each; when there is none it has all files. *)
Theorem selection_exact windows subDirs subFiles r :
  let chosen f := existsb (isSubPath windows f) (convertPathsDelimiter windows r subDirs)
                  || existsb (isMatchFile windows f) (convertPathsDelimiter windows r subFiles) in
  let r' := SetSubDirsAndFiles windows subDirs subFiles r in
  if existsb chosen (files r)
  then NoDup (files r') /\ forall f, f ∈ files r' <-> f ∈ files r /\ chosen f = true
  else files r' = files r.
Proof.
  intros chosen r'. unfold r', SetSubDirsAndFiles. set (l := foldl _ [] (files r)).
  destruct (selection_spec windows (convertPathsDelimiter windows r subDirs) (convertPathsDelimiter windows r subFiles) l (files r) eq_refl) as [Hn Hl].
  destruct (existsb chosen (files r)) eqn:E.
  - apply existsb_exists in E as (f & Hf & Hc). destruct l as [|g l']; [|done]. apply list_elem_of_In in Hf.
    assert (f ∈ @nil string) as H%not_elem_of_nil by by apply Hl. done.
  - destruct l as [|g l']; [done|]. assert (existsb chosen (files r) = true) as He; [|congruence].
    apply existsb_exists. exists g. rewrite <- list_elem_of_In. apply Hl. by left.
Qed.

(** ** Templates to try it on *)

Definition sample_disk : node :=
  Dir [("home", Dir [("old", Dir [("a.go", File "package a")]);
    ("tpl", Dir [("a.go", File "package user // User");
      ("model", Dir [("d.txt", File "z"); ("user.go", File "type User struct")])])])].
Definition sample_replacer : replacerInfo :=
  match New_ false ["home"] 5 sample_disk "tpl" with
  | Some (Ok r) => SetIgnoreSubFiles ["d.txt"] (SetReplacementFields [mkField "user" "order" true] r)
  | _ => mkReplacer "" (Dir []) true [] [] [] [] ""
  end.
Definition out_to (p : string) : replacerInfo := SetOutputDir false ["home"] "150405" p [] sample_replacer.

(** The hypotheses of the theorems, by evaluation. *)
Lemma plain_sample r : forallb (fun f =>
    let p := new_path false r f in
    rooted false p && negb (bool_decide (".." ∈ abs_comps false ["home"] p))
    && negb (bool_decide (snd (SplitPath false p) ∈ [""; "."]))) (filter (fun f => ignored false r f = false) (files r)) = true ->
  Forall (fun f => plain ["home"] (new_path false r f)) (filter (fun f => ignored false r f = false) (files r)).
Proof.
  intros Hf. apply Forall_forall. intros f Hin. rewrite forallb_forall in Hf. apply list_elem_of_In in Hin. specialize (Hf f Hin).
  cbn in Hf. rewrite !andb_true_iff, !negb_true_iff, !bool_decide_eq_false in Hf. unfold plain. set_solver.
Qed.

Example save_all_or_nothing_witness :
  match SaveFiles false ["home"] map_to_list map_to_list "/bin" "150405" sample_disk (out_to "out") with
  | (d', Ok _) => extends sample_disk d' /\ forall f, f ∈ ["/home/tpl/a.go"; "/home/tpl/model/user.go"] ->
      IsExists false ["home"] sample_disk (new_path false (out_to "out") f) = false /\
      exists s, read_source false ["home"] sample_disk (out_to "out") f = Ok s /\
        Files.ReadFile false ["home"] d' (new_path false (out_to "out") f) = Ok (replace_data (replacementFields (out_to "out")) s)
  | (d', Err _) => d' = sample_disk /\ exists f, f ∈ ["/home/tpl/a.go"; "/home/tpl/model/user.go"] /\
      ((forall s, read_source false ["home"] sample_disk (out_to "out") f <> Ok s) \/
      IsExists false ["home"] sample_disk (new_path false (out_to "out") f) = true \/
      isForbiddenFile false (new_path false (out_to "out") f) (path (out_to "out")) = true)
  | (_, Panic) => False
  end.
Proof.
  apply (save_all_or_nothing ["home"] map_to_list map_to_list (fun m => Permutation_refl _) (fun m => Permutation_refl _) "/bin" "150405" sample_disk (out_to "out")).
  - reflexivity.
  - apply plain_sample. by vm_compute.
  - intros f g Hf Hg.
    assert (Forall (fun f => Forall (fun g => key ["home"] (new_path false (out_to "out") f) `prefix_of` key ["home"] (new_path false (out_to "out") g) -> f = g)
      ["/home/tpl/a.go"; "/home/tpl/model/user.go"]) ["/home/tpl/a.go"; "/home/tpl/model/user.go"]) as H
      by (apply (proj1 (bool_decide_eq_true _)); by vm_compute).
    rewrite Forall_forall in H. specialize (H f Hf). rewrite Forall_forall in H. by apply H.
Defined.
Example saved_files :
  SaveFiles false ["home"] map_to_list map_to_list "/bin" "150405" sample_disk (out_to "out") =
  (Dir [("home", Dir [("old", Dir [("a.go", File "package a")]);
     ("out", Dir [("a.go", File "package order // Order"); ("model", Dir [("order.go", File "type Order struct")])]);
     ("tpl", Dir [("a.go", File "package user // User");
       ("model", Dir [("d.txt", File "z"); ("user.go", File "type User struct")])])])], Ok tt).
Proof. by vm_compute. Qed.
Example existing_file_stops : SaveFiles false ["home"] map_to_list map_to_list "/bin" "150405" sample_disk (out_to "old") =
  (sample_disk, Err (ErrExisting ["/home/old/a.go"])).
Proof. by vm_compute. Qed.

Example saving_keeps_the_disk_witness :
  extends sample_disk (SaveFiles false ["home"] map_to_list map_to_list "/bin" "150405" sample_disk (out_to "old")).1.
Proof.
  apply (saving_keeps_the_disk ["home"] map_to_list map_to_list (fun m => Permutation_refl _) "/bin" "150405" sample_disk (out_to "old")).
  - reflexivity.
  - apply plain_sample. by vm_compute.
Defined.

(** The rules apply to the output directory as well: the files land next to
    the directory that was set. *)
Example output_directory_rewritten :
  GetOutputDir (out_to "user") = "/home/user" /\
  snd (SaveFiles false ["home"] map_to_list map_to_list "/bin" "150405" sample_disk (out_to "user")) = Ok tt /\
  let d' := fst (SaveFiles false ["home"] map_to_list map_to_list "/bin" "150405" sample_disk (out_to "user")) in
  IsExists false ["home"] d' "/home/user" = false /\ Files.ReadFile false ["home"] d' "/home/order/a.go" = Ok "package order // Order".
Proof. by vm_compute. Qed.

(** Two files with one new path: the first is dropped without an error. *)
Example colliding_file_dropped :
  let r := set_fields [mkField "/model" "" false; mkField "user.go" "a.go" false] (out_to "out") in
  let '(d', res) := SaveFiles false ["home"] map_to_list map_to_list "/bin" "150405" sample_disk r in
  res = Ok tt /\ lookup_node d' ["home"; "out"] = Some (Dir [("a.go", File "type User struct")]).
Proof. by vm_compute. Qed.

(** A selection that matches nothing selects everything. *)
Example no_match_selects_all : files (SetSubDirsAndFiles false ["servce"] [] (out_to "out")) = files (out_to "out").
Proof. by vm_compute. Qed.
(** A directory is matched by any text in the path, a name by the end of one. *)
Example other_directories_match :
  isSubPath false "/home/tpl/datamodels/x.go" "model" = true /\ isMatchFile false "/home/tpl/supermodel/a.go" "model/a.go" = true.
Proof. by vm_compute. Qed.
(** A directory that only begins like the source is refused. *)
Example neighbour_directory_refused :
  exists f, snd (SaveFiles false ["home"] map_to_list map_to_list "/bin" "150405" sample_disk (out_to "tpl2")) = Err (ErrForbidden f).
Proof. by eexists; vm_compute. Qed.

(** The new path of a template is only looked up before it is executed. *)
Example template_overwrites :
  let d := Dir [("t", Dir [("{{.name}}.go.tpl", File "package b")]); ("out", Dir [("a.go", File "package a")])] in
  let exec (name text : string) := Some (ReplaceAll text "{{.name}}" "a") in
  let r := mkReplacer "/t" (Dir []) true ["/t/{{.name}}.go.tpl"] [] [] [] "/out" in
  let '(d', res) := SaveTemplateFiles false [] map_to_list exec [] d r in
  res = Ok tt /\ Files.ReadFile false [] d' "/out/a.go" = Ok "package b".
Proof. by vm_compute. Qed.
(** Embedded templates are looked for on the disk. *)
Example embedded_templates_not_read :
  let e := Dir [("t", Dir [("a.go", File "package a")])] in
  match NewFS 5 "t" e with
  | Some (Ok r) => SaveTemplateFiles false [] map_to_list (fun _ t => Some t) [] (Dir []) (set_out "/out" r)
                   = (Dir [], Err (ErrOS ENOENT)) /\ ReadFile false [] (Dir []) r "a.go" = Ok "package a"
  | _ => False
  end.
Proof. by vm_compute. Qed.

End Replacer.
