(* ===== verification/Utils.v ===== *)
(** * Small packages (pkg/utils, conf, gocron, stat, mapp, gobash)

    dsn.go, type_convert.go and strings/strings.go of pkg/utils; the hiding of
    passwords in pkg/conf; the names of the tasks of pkg/gocron, over the
    entries of cron; the alarms of pkg/stat; the application of pkg/mapp; the
    commands of pkg/gobash.  Theorems: alarms are fifteen
    minutes apart and follow three samples; names and entries of tasks stay
    one to one; what is hidden of a line; a number that is printed is read
    back, where a conversion truncates; where a slice panics. *)

From S2P Require Import Prelude GoStr GoFloat.
From Stdlib Require Import Ascii SpecFloat.
From Stdlib Require String.

Module Utils.

(** ** Addresses of databases (dsn.go) *)

(** [strings.LastIndex] for a text that is not empty. *)
Fixpoint LastIndex (s p : string) : option nat :=
  match s with
  | EmptyString => None
  | String a s' => match LastIndex s' p with Some i => Some (S i) | None => if HasPrefix s p then Some O else None end
  end.

Definition AdaptiveMysqlDsn (dsn : string) : string := ReplaceAll dsn "mysql://" "".
Definition AdaptiveSqlite (dbFile : string) : string := dbFile.
Definition DeleteBrackets {E} (str : string) : result E string :=
  match Index str "@(", LastIndex str ")/" with
  | Some start, Some end_ =>
      if (end_ <? start + 2)%nat then Panic
      else let addr := str_take (end_ - (start + 2)) (str_drop (start + 2) str) in
           Ok (Replace1 str ("@(" +:+ addr +:+ ")/") ("@" +:+ addr +:+ "/"))
  | _, _ => Ok str
  end.
Definition AdaptiveMongodbDsn (dsn : string) : result string string :=
  DeleteBrackets (if negb (Contains dsn "mongodb://") && negb (Contains dsn "mongodb+srv://") then "mongodb://" +:+ dsn else dsn).

(** [url.Parse]: what is read of the result. *)
Record pg_url : Type := mkPg { Hostname : string; Port : string; Username : string; Password : string; Path : string; RawQuery : string; sslmode : string }.
Definition AdaptivePostgresqlDsn (Parse : string -> option pg_url) (dsn : string) : result string string :=
  if (3 <? count_char " " dsn)%nat then Ok dsn else
  let dsn := if negb (Contains dsn "postgres://") then "postgres://" +:+ dsn else dsn in
  dsn ← DeleteBrackets dsn;
  match Parse dsn with
  | None => Panic
  | Some u =>
      let query := if bool_decide (RawQuery u = "") then "sslmode=disable"
                   else if bool_decide (sslmode u = "") then "sslmode=disable&" +:+ RawQuery u else RawQuery u in
      match Path u with
      | EmptyString => Panic
      | String _ dbname =>
          Ok ("host=" +:+ Hostname u +:+ " port=" +:+ Port u +:+ " user=" +:+ Username u +:+ " password=" +:+ Password u
              +:+ " dbname=" +:+ dbname +:+ " " +:+ Join (Split query "&") " ")
      end
  end.

Lemma LastIndex_spec s p i : LastIndex s p = Some i -> exists t u, s = t +:+ p +:+ u /\ str_len t = i.
Proof.
  revert i. induction s as [|a s IH]; intros i; cbn [LastIndex]; [done|]. destruct (LastIndex s p) as [j|].
  - intros [= <-]. destruct (IH j eq_refl) as (t & u & -> & <-). by exists (String a t), u.
  - destruct (HasPrefix (String a s) p) eqn:E; [|done]. intros [= <-]. apply HasPrefix_spec in E as [u Hu]. by exists "", u.
Qed.

(** The brackets around the address are removed and nothing else. *)
Lemma brackets_deleted user addr db : Index (user +:+ "@(" +:+ addr +:+ ")/" +:+ db) "@(" = Some (str_len user) ->
  LastIndex (user +:+ "@(" +:+ addr +:+ ")/" +:+ db) ")/" = Some (str_len user + 2 + str_len addr)%nat ->
  DeleteBrackets (E := string) (user +:+ "@(" +:+ addr +:+ ")/" +:+ db) =
  Ok (Replace1 (user +:+ "@(" +:+ addr +:+ ")/" +:+ db) ("@(" +:+ addr +:+ ")/") ("@" +:+ addr +:+ "/")).
Proof.
  intros H1 H2. unfold DeleteBrackets. rewrite H1, H2. replace (_ <? _)%nat with false by lia. do 3 f_equal.
  - replace (str_len user + 2)%nat with (str_len (user +:+ "@(")) by (rewrite str_len_app; done).
    rewrite <- (app_assoc_s user "@("), drop_app. replace (_ - _)%nat with (str_len addr) by lia. by rewrite take_app.
  - replace (str_len user + 2)%nat with (str_len (user +:+ "@(")) by (rewrite str_len_app; done).
    rewrite <- (app_assoc_s user "@("), drop_app. replace (_ - _)%nat with (str_len addr) by lia. by rewrite take_app.
Qed.
Example mysql_brackets : DeleteBrackets (E := string) "root:pw@(127.0.0.1:3306)/db?x=1" = Ok "root:pw@127.0.0.1:3306/db?x=1".
Proof. vm_compute. reflexivity. Qed.
(** A closing bracket that comes first is a slice out of range. *)
Example brackets_panic : DeleteBrackets (E := string) "a)/b@(c" = Panic.
Proof. vm_compute. reflexivity. Qed.
(** An address without a database panics. *)
Example no_database_panics : AdaptivePostgresqlDsn (fun _ => Some (mkPg "h" "5432" "u" "p" "" "" "")) "u:p@h:5432" = Panic.
Proof. vm_compute. reflexivity. Qed.

(** ** Numbers from texts (type_convert.go) *)

Inductive NumError : Type := ErrSyntax | ErrRange.

(** [strconv.ParseUint(s, 10, 64)]: the digits are read until one of them is
    not a digit or the number is too large. *)
Fixpoint uint_from (n : Z) (s : string) : Z * option NumError :=
  match s with
  | EmptyString => (n, None)
  | String c s' =>
      if negb (is_digit c) then (0, Some ErrSyntax)
      else if 2 ^ 64 <=? 10 * n + digit_val c then (2 ^ 64 - 1, Some ErrRange)
      else uint_from (10 * n + digit_val c) s'
  end.
Definition parse_uint (s : string) : Z * option NumError := match s with EmptyString => (0, Some ErrSyntax) | _ => uint_from 0 s end.

(** [strconv.ParseInt(s, 10, 64)], and [strconv.Atoi(s)], which gives the same. *)
Definition parse_int (s : string) : Z * option NumError :=
  let '(neg, t) := match s with String "-" t => (true, t) | String "+" t => (false, t) | t => (false, t) end in
  match parse_uint t with
  | (_, Some ErrSyntax) => (0, Some ErrSyntax)
  | (un, e) =>
      if negb neg && (2 ^ 63 <=? un) then (2 ^ 63 - 1, Some ErrRange)
      else if neg && (2 ^ 63 <? un) then (- 2 ^ 63, Some ErrRange)
      else (if neg then - un else un, e)
  end.

Definition StrToInt (str : string) : Z := fst (parse_int str).
Definition StrToIntE (str : string) : Z * option NumError := parse_int str.
Definition StrToInt64 (str : string) : Z := fst (parse_int str).
Definition StrToInt64E (str : string) : Z * option NumError := parse_int str.
Definition StrToUint32 (str : string) : Z := fst (parse_uint str) mod 2 ^ 32.
Definition StrToUint32E (str : string) : Z * option NumError :=
  match parse_uint str with (_, Some e) => (0, Some e) | (v, None) => (v mod 2 ^ 32, None) end.
Definition StrToUint64 (str : string) : Z := fst (parse_uint str).
Definition StrToUint64E (str : string) : Z * option NumError := parse_uint str.
Definition StrToUint (str : string) : Z := wrapu64 (StrToUint64 str).
Definition StrToUintE (str : string) : Z * option NumError := let '(v, err) := StrToUint64E str in (wrapu64 v, err).
Definition IntToStr (v : Z) : string := Itoa v.
Definition Uint64ToStr (v : Z) : string := FormatUint v.
Definition UintToStr (v : Z) : string := Uint64ToStr (wrapu64 v).
Definition Int64ToStr (v : Z) : string := Itoa v.
Definition ProtoInt32ToInt (v : Z) : Z := v.
Definition IntToProtoInt32 (v : Z) : Z := (v + 2 ^ 31) mod 2 ^ 32 - 2 ^ 31.
Definition ProtoInt64ToUint64 (v : Z) : Z := wrapu64 v.
Definition Uint64ToProtoInt64 (v : Z) : Z := wrap64 v.

Lemma uint_from_value s : forall n v, 0 <= n -> digits_value n s = Some v -> n <= v /\ (v < 2 ^ 64 -> uint_from n s = (v, None)).
Proof.
  induction s as [|c s IH]; intros n v Hn; cbn [digits_value uint_from].
  - intros [= <-]. split; [lia|done].
  - destruct (is_digit c) eqn:E; [|done]. intros H. assert (0 <= digit_val c <= 9) by (unfold is_digit, digit_val in *; lia).
    apply IH in H as [Hv H]; [|lia]. split; [lia|]. intros Hlt. cbn. replace (_ <=? _) with false by lia. by apply H.
Qed.
Lemma parse_uint_FormatUint n : 0 <= n < 2 ^ 64 -> parse_uint (FormatUint n) = (n, None).
Proof.
  intros Hn. pose proof (digits_value_FormatUint n ltac:(lia)) as H. apply uint_from_value in H as [_ H]; [|lia].
  unfold parse_uint. destruct (FormatUint_cons n) as (a & s & E). rewrite E in *. apply H. lia.
Qed.
Lemma uint_from_range s : forall n v e, 0 <= n < 2 ^ 64 -> uint_from n s = (v, e) -> 0 <= v < 2 ^ 64.
Proof.
  induction s as [|c s IH]; intros n v e Hn; cbn [uint_from]; [by intros [= <- _]|].
  destruct (is_digit c) eqn:E; cbn [negb]; [|intros [= <- _]; lia]. assert (0 <= digit_val c) by (unfold is_digit, digit_val in *; lia).
  destruct (2 ^ 64 <=? _) eqn:E2; [intros [= <- _]; lia|]. apply IH. lia.
Qed.
Lemma parse_uint_range s : 0 <= fst (parse_uint s) < 2 ^ 64.
Proof.
  destruct s as [|a s]; [done|]. destruct (parse_uint (String a s)) as [v e] eqn:E. by eapply (uint_from_range _ 0).
Qed.
(** A number that is printed is read back; the reader never leaves the range,
    whatever the text. *)
Theorem numbers_read_back n : in_int64 n -> StrToIntE (IntToStr n) = (n, None).
Proof.
  unfold in_int64, int64_min, int64_max, StrToIntE, IntToStr, Itoa, parse_int. intros Hn. destruct (n <? 0) eqn:E.
  - rewrite parse_uint_FormatUint by lia. cbn. replace (_ <? _) with false by lia. f_equal. lia.
  - pose proof (FormatUint_digits n ltac:(lia)) as Hd. pose proof (parse_uint_FormatUint n ltac:(lia)) as Hp.
    destruct (FormatUint_cons n) as (a & s & Es). rewrite Es in *. cbn [forall_chars] in Hd. apply andb_true_iff in Hd as [Ha _].
    assert (Hc : forall c t, a = c -> is_digit c = false -> False) by (intros c t -> Hc; rewrite Ha in Hc; done).
    destruct a as [[] [] [] [] [] [] [] []]; try discriminate Ha; rewrite Hp; cbn; by replace (_ <=? _) with false by lia.
Qed.
Lemma numbers_in_range s : in_int64 (StrToInt64 s).
Proof.
  unfold StrToInt64, parse_int, in_int64, int64_min, int64_max.
  destruct (match s with String "-" t => (true, t) | String "+" t => (false, t) | t => (false, t) end) as [neg t].
  pose proof (parse_uint_range t) as H. destruct (parse_uint t) as [v [[]|]]; cbn [fst] in *; [cbn; lia|..];
    destruct (2 ^ 63 <=? v) eqn:?, (2 ^ 63 <? v) eqn:?, neg; cbn [negb andb fst]; lia.
Qed.
(** A number that does not fit in 32 bits is cut without an error. *)
Example uint32_truncates : StrToUint32E "4294967296" = (0, None).
Proof. vm_compute. reflexivity. Qed.
Example int_saturates : StrToInt "99999999999999999999x" = 2 ^ 63 - 1.
Proof. vm_compute. reflexivity. Qed.

(** ** Lists of strings (strings/strings.go) *)

Definition Diff (base exclude : list string) : list string := filter (fun s => s ∉ exclude) base.
Definition Include (base include : list string) : list string := filter (fun s => s ∈ base) include.
Fixpoint find_from (i : Z) (array : list string) (str : string) : Z :=
  match array with [] => -1 | s :: array => if bool_decide (str = s) then i else find_from (i + 1) array str end.
Definition FindString (array : list string) (str : string) : Z := find_from 0 array str.
Definition StringIn (str : string) (array : list string) : bool := -1 <? FindString array str.
Definition Filter (l : list string) (strToFilter : string) : list string := filter (fun item => item <> strToFilter) l.
Definition strings_Contains (l : list string) (strToSearch : string) : bool := bool_decide (strToSearch ∈ l).
Definition Add (l : list string) (str : string) : list string := if strings_Contains l str then l else l ++ [str].
Definition ContainsEqualFold (slice : list string) (s : string) : bool := existsb (fun item => bool_decide (ToLower item = ToLower s)) slice.

(** [Unique] and [FrequencySort] range over a map: [order] is the order the
    keys come in, [sort] is [sort.Sort] on the pairs by frequency. *)
Definition Unique (order : gset string -> list string) (ss : list string) : list string := order (list_to_set ss).
Definition frequency (l : list string) (s : string) : nat := length (filter (eq s) l).
Definition FrequencySort (order : gset string -> list string) (sort : list (string * nat) -> list (string * nat)) (l : list string) : list string :=
  fst <$> sort ((fun s => (s, frequency l s)) <$> order (list_to_set l)).

Lemma find_from_spec array str i : 0 <= i ->
  (find_from i array str = -1 /\ str ∉ array) \/ (exists k, find_from i array str = i + Z.of_nat k /\ array !! k = Some str /\ str ∉ take k array).
Proof.
  revert i. induction array as [|s array IH]; intros i Hi; cbn [find_from]; [left; split; [done|apply not_elem_of_nil]|].
  case_bool_decide as E; [right; exists O; subst; split; [lia|]; split; [done|apply not_elem_of_nil]|].
  destruct (IH (i + 1) ltac:(lia)) as [[-> H]|(k & -> & H & H')].
  - left. split; [done|]. rewrite elem_of_cons. tauto.
  - right. exists (S k). split; [lia|]. split; [done|]. cbn. rewrite elem_of_cons. tauto.
Qed.
(** The first place of the string, or -1: [StringIn] is membership. *)
Theorem StringIn_spec str array : StringIn str array = true <-> str ∈ array.
Proof.
  unfold StringIn, FindString. destruct (find_from_spec array str 0 ltac:(lia)) as [[-> H]|(k & -> & H & _)].
  - split; [done|]. intros Hin. by destruct (H Hin).
  - split; [|lia]. intros _. by eapply list_elem_of_lookup_2.
Qed.
Lemma Diff_spec base exclude s : s ∈ Diff base exclude <-> s ∈ base /\ s ∉ exclude.
Proof. unfold Diff. rewrite list_elem_of_filter. tauto. Qed.
Lemma Add_NoDup l str : NoDup l -> NoDup (Add l str) /\ str ∈ Add l str.
Proof.
  intros H. unfold Add, strings_Contains. case_bool_decide; [done|]. split; [|apply elem_of_app; right; by apply list_elem_of_singleton].
  apply NoDup_app. split; [done|]. split; [|apply NoDup_singleton]. intros x Hx. rewrite list_elem_of_singleton. by intros ->.
Qed.

(** ** Printing a configuration (pkg/conf) *)

(** The place of the last colon before the first [@], and that of the [@]. *)
Fixpoint dsn_span (k start : nat) (s : string) : nat * nat :=
  match s with
  | EmptyString => (start, O)
  | String v s => let start := if bool_decide (v = ":"%char) then k else start in
                  if bool_decide (v = "@"%char) then (start, k) else dsn_span (S k) start s
  end.
Definition replaceDSN (str : string) : string :=
  let '(start, end_) := dsn_span 0 0 str in
  if (end_ <=? start)%nat then str else str_take (S start) str +:+ "******" +:+ str_drop end_ str.
Definition looks_dsn (line : string) : bool := Contains line "@" && Contains line ":".
Fixpoint hideSensitiveFields (line : string) (fields : list string) : string :=
  match fields with
  | [] => if looks_dsn line then replaceDSN line else line
  | field :: fields =>
      match Index line field with
      | Some index => if looks_dsn line then replaceDSN line
                      else str_take (index + str_len field) line +:+ ": " +:+ single dquote +:+ "******" +:+ single dquote +:+ "," +:+ single newline
      | None => hideSensitiveFields line fields
      end
  end.
Definition quoted (s : string) : string := single dquote +:+ s +:+ single dquote.

(** [bufio.Reader.ReadString]: the lines that end; what follows the last
    newline comes with an error and is dropped. *)
Definition ended_lines (data : string) : list string := (fun l => l +:+ single newline) <$> removelast (Split data newline).
Fixpoint show_lines (out : string) (fields : list string) (lines : list string) : string :=
  match lines with
  | [] => out
  | line :: lines =>
      let fields := fields ++ [quoted "dsn"; quoted "password"; quoted "pwd"] in
      show_lines (out +:+ hideSensitiveFields line fields) fields lines
  end.
(** [Show] over the document that [json.MarshalIndent] gives. *)
Definition Show (MarshalIndent : option string) (fields : list string) : string :=
  match MarshalIndent with None => "" | Some data => show_lines "" fields (ended_lines data) end.

Lemma dsn_span_app a : forall k start t, no_char "@" a -> no_char ":" a -> dsn_span k start (a +:+ t) = dsn_span (k + str_len a) start t.
Proof.
  induction a as [|c a IH]; intros k start t H1 H2; [by rewrite Nat.add_0_r|].
  apply no_char_cons in H1 as [H1 H1']. apply no_char_cons in H2 as [H2 H2']. rewrite app_cons_s. cbn [dsn_span str_len].
  rewrite !bool_decide_eq_false_2 by done. rewrite IH by done. f_equal. lia.
Qed.
Lemma dsn_span_start a : forall k start t, no_char "@" a -> exists start', dsn_span k start (a +:+ t) = dsn_span (k + str_len a) start' t.
Proof.
  induction a as [|c a IH]; intros k start t H; [exists start; by rewrite Nat.add_0_r|].
  apply no_char_cons in H as [H H']. rewrite app_cons_s. cbn [dsn_span str_len]. rewrite (bool_decide_eq_false_2 (c = "@"%char)) by done.
  destruct (IH (S k) (if bool_decide (c = ":"%char) then k else start) t H') as [s' ->]. exists s'. f_equal. lia.
Qed.
(** The password of an address is hidden: what is printed is the same whatever
    it is, as long as it has neither a colon nor an at sign. *)
Theorem password_hidden user pw host : no_char "@" user -> no_char "@" pw -> no_char ":" pw -> 
  replaceDSN (user +:+ ":" +:+ pw +:+ "@" +:+ host) = user +:+ ":******@" +:+ host.
Proof.
  intros H1 H2 H3. unfold replaceDSN. destruct (dsn_span_start user 0 0 (":" +:+ pw +:+ "@" +:+ host) H1) as [s' ->].
  change (dsn_span (0 + str_len user) s' (":" +:+ pw +:+ "@" +:+ host)) with (dsn_span (S (str_len user)) (str_len user) (pw +:+ "@" +:+ host)).
  rewrite dsn_span_app by done. change (dsn_span ?k ?s ("@" +:+ host)) with (s, k). cbn beta iota.
  replace (_ <=? _)%nat with false by lia.
  rewrite <- (app_assoc_s user ":"). replace (S (str_len user)) with (str_len (user +:+ ":")) by (rewrite str_len_app; cbn; lia). 
  rewrite take_app, <- (app_assoc_s (user +:+ ":") pw), <- str_len_app, drop_app, !app_assoc_s. done.
Qed.
(** A line with a sensitive field and without an address: the value is gone. *)
Lemma field_hidden line field fields i : Index line field = Some i -> looks_dsn line = false ->
  hideSensitiveFields line (field :: fields) =
  str_take (i + str_len field) line +:+ ": " +:+ quoted "******" +:+ "," +:+ single newline.
Proof. intros H1 H2. cbn [hideSensitiveFields]. rewrite H1, H2. unfold quoted. by rewrite !app_assoc_s. Qed.

(** A password with an at sign is taken for an address: the rest of it, after
    the first at sign, is printed. *)
Example password_leaks : hideSensitiveFields (quoted "password" +:+ ": " +:+ quoted "abc@123") [quoted "password"] = quoted "password" +:+ ":******@123" +:+ single dquote.
Proof. vm_compute. reflexivity. Qed.
(** A password without an at sign of an object's only line: dropped, as the
    document's last line has no newline. *)
Example last_line_dropped : Show (Some ("{" +:+ single newline +:+ "}")) [] = "{" +:+ single newline.
Proof. vm_compute. reflexivity. Qed.

(** ** Alarms (pkg/stat) *)

Record System : Type := mkSystem { Sys_CPUUsage : float64; CPUCores : Z; MemTotal : Z }.
Record Process : Type := mkProcess { CPUUsage : float64; RSS : Z }.
Record StatData : Type := mkStat { Sys : System; Proc : Process }.
Definition triggerInterval : Z := 900.
(** The thresholds of [alarm.go], as [WithCPUThreshold] and
    [WithMemoryThreshold] set them. *)
Record thresholds : Type := mkThresholds { cpuThreshold : float64; memoryThreshold : float64 }.
Definition default_thresholds : thresholds := mkThresholds (f_ratio 8 10) (f_ratio 8 10).
Definition f_of_1 : float64 := f_of_Z 1.
Definition valid_threshold (threshold : float64) : bool := negb (fltb threshold f0 || SFleb f_of_1 threshold).
Definition WithCPUThreshold (threshold : float64) (t : thresholds) : thresholds :=
  if valid_threshold threshold then mkThresholds threshold (memoryThreshold t) else t.
Definition WithMemoryThreshold (threshold : float64) (t : thresholds) : thresholds :=
  if valid_threshold threshold then mkThresholds (cpuThreshold t) threshold else t.

(** The three last samples, the latest first, and the time of the last alarm
    ([None] is the zero time).  A sample is nil when [getStatData] recovered
    from a panic. *)
Record statGroup : Type := mkGroup { data0 : option StatData; data1 : option StatData; data2 : option StatData; alarmAt : option time }.
Definition newStatGroup : statGroup := mkGroup None None None None.
Definition checkCPU (threshold : float64) (d0 d1 d2 : StatData) : bool :=
  if bool_decide (CPUCores (Sys d0) = 0) then false
  else let average := fdiv (fadd (fadd (CPUUsage (Proc d0)) (CPUUsage (Proc d1))) (CPUUsage (Proc d2))) (f_of_Z 3) in
       SFleb (fmul threshold (f_of_Z 100)) average.
Definition checkMemory (threshold : float64) (d0 d1 d2 : StatData) : bool :=
  if bool_decide (MemTotal (Sys d0) = 0) then false
  else let procAverage := wrapu64 (wrapu64 (RSS (Proc d0) + RSS (Proc d1)) + RSS (Proc d2)) / 3 in
       SFleb threshold (fdiv (f_of_Z procAverage) (f_of_Z (MemTotal (Sys d0)))).

(** [check] with the readings of the clock for [time.Since] and for
    [time.Now]; [Seconds() >= 900] is that of whole nanoseconds. *)
Definition check (t : thresholds) (now_since now : time) (sd : option StatData) (g : statGroup) : result string (statGroup * bool) :=
  match data0 g, data1 g with
  | None, d1 => Ok (mkGroup sd d1 (data2 g) (alarmAt g), false)
  | d0, None => Ok (mkGroup sd d0 (data2 g) (alarmAt g), false)
  | Some d0, Some d1 =>
      match sd with
      | None => Panic
      | Some d =>
          let quiet := (mkGroup sd (Some d0) (Some d1) (alarmAt g), false) in
          let alarm := (mkGroup sd (Some d0) (Some d1) (Some now), true) in
          if checkCPU (cpuThreshold t) d d0 d1 || checkMemory (memoryThreshold t) d d0 d1 then
            match alarmAt g with
            | None => Ok alarm
            | Some at_ => if triggerInterval * second <=? since now_since at_ then Ok alarm else Ok quiet
            end
          else Ok quiet
      end
  end.
(** The loop of [Init] with alarms on and the default printer: one sample per
    tick, and the times of the alarms; the
    printing of a nil sample panics as well. *)
Fixpoint samples (t : thresholds) (g : statGroup) (ticks : list (time * time * option StatData)) : list time * bool :=
  match ticks with
  | [] => ([], false)
  | (now_since, now, sd) :: ticks =>
      match check t now_since now sd g with
      | Ok (g, alarm) =>
          let now := if alarm then [now] else [] in
          match sd with
          | None => (now, true)
          | Some _ => let '(ts, panics) := samples t g ticks in (now ++ ts, panics)
          end
      | _ => ([], true)
      end
  end.

(** The clock does not go back. *)
Fixpoint clock_from (t0 : time) (ticks : list (time * time * option StatData)) : Prop :=
  match ticks with [] => True | (a, b, _) :: ticks => t0 <= a <= b /\ clock_from b ticks end.
Fixpoint spaced (last : option time) (ts : list time) : Prop :=
  match ts with [] => True | t :: ts => match last with Some l => l + triggerInterval * second <= t | None => True end /\ spaced (Some t) ts end.

Lemma check_alarm t a b sd g g' : check t a b sd g = Ok (g', true) ->
  alarmAt g' = Some b /\ data1 g <> None /\ (forall l, alarmAt g = Some l -> triggerInterval * second <= since a l).
Proof.
  unfold check. destruct (data0 g), (data1 g), sd; try done. destruct (_ || _); [|done]. destruct (alarmAt g) as [l|].
  - destruct (_ <=? _) eqn:E; [|done]. intros [= <-]. split; [done|]. split; [done|]. intros l' [= <-]. lia.
  - intros [= <-]. done.
Qed.
Lemma check_quiet t a b sd g g' : check t a b sd g = Ok (g', false) -> alarmAt g' = alarmAt g.
Proof.
  unfold check. destruct (data0 g), (data1 g), sd; try done; try by intros [= <-]. destruct (_ || _); [|by intros [= <-]].
  destruct (alarmAt g) as [l|]; [|done]. destruct (_ <=? _); [done|by intros [= <-]].
Qed.
(** Alarms are fifteen minutes apart, whatever the samples and thresholds. *)
Theorem alarms_apart t ticks t0 : clock_from t0 ticks -> spaced None (samples t newStatGroup ticks).1.
Proof.
  intros H. change None with (alarmAt newStatGroup) at 1. assert (Hl : forall l, alarmAt newStatGroup = Some l -> l <= t0) by done.
  revert t0 H Hl. generalize newStatGroup. induction ticks as [|[[a b] sd] ticks IH]; intros g t0 H Hl; [done|].
  destruct H as [Ht H]. cbn [samples]. destruct (check t a b sd g) as [[g' []]| |] eqn:E; [| |done..].
  - pose proof (check_alarm _ _ _ _ _ _ E) as (E1 & _ & E2).
    assert (Hs : match alarmAt g with Some l => l + triggerInterval * second <= b | None => True end).
    { destruct (alarmAt g) as [l|] eqn:El; [|done]. specialize (E2 l eq_refl). unfold since, saturate64, int64_min, int64_max, triggerInterval, second, millisecond in *. lia. }
    destruct sd; [|done]. specialize (IH g' b H). destruct (samples t g' ticks) as [ts p]. cbn in *. split; [done|].
    rewrite <- E1. apply IH. intros l [= <-]%(eq_trans (eq_sym E1)). lia.
  - pose proof (check_quiet _ _ _ _ _ _ E) as E1. destruct sd; [|done]. specialize (IH g' b H). destruct (samples t g' ticks) as [ts p].
    cbn in *. rewrite <- E1. apply IH. intros l El. rewrite E1 in El. apply Hl in El. lia.
Qed.
(** The first two samples give no alarm. *)
Lemma alarms_need_three t a b a' b' x y ticks :
  samples t newStatGroup ((a, b, Some x) :: (a', b', Some y) :: ticks) = samples t (mkGroup (Some y) (Some x) None None) ticks.
Proof. cbn. by destruct (samples _ _ ticks). Qed.
(** A sample that fails ends the process: the loop has no recover. *)
Lemma failed_sample_panics t g a b ticks : (samples t g ((a, b, None) :: ticks)).2 = true.
Proof. cbn. by destruct (check t a b None g) as [[]| |]. Qed.
Definition busy : StatData := mkStat (mkSystem f0 8 1000) (mkProcess (f_of_Z 90) 10).
Definition busy_ticks : list (time * time * option StatData) :=
  (fun m => (m * minute, m * minute, Some busy)) <$> [0; 1; 2; 3; 17].
Lemma alarms_apart_witness :
  samples default_thresholds newStatGroup busy_ticks = ([2 * minute; 17 * minute], false) /\
  spaced None (samples default_thresholds newStatGroup busy_ticks).1.
Proof.
  split; [vm_compute; reflexivity|]. apply (alarms_apart _ _ 0). cbn. unfold minute, second, millisecond. lia.
Defined.
(** The threshold of one is refused. *)
Example threshold_one : WithCPUThreshold f_of_1 default_thresholds = default_thresholds.
Proof. vm_compute. reflexivity. Qed.

(** ** Named tasks (pkg/gocron)

    Over the entries of robfig/cron: [parse] tells if a time is understood,
    an entry has the next number.  A job is what it does to the tasks when it
    ends: the names that it deletes. *)
Section Gocron.
Context (parse : string -> bool).

Record Task : Type := mkTask { TimeSpec : string; Name : string; Fn : option (list string); IsRunOnce : bool }.
Record cron : Type := mkCron { entries : gmap Z (list string); nextID : Z; nameID : gmap string Z; idName : gmap Z string }.
Definition newCron : cron := mkCron ∅ 0 ∅ ∅.

Definition IsRunningTask (c : cron) (name : string) : bool := bool_decide (is_Some (nameID c !! name)).
Definition GetRunningTasks (range : gmap string Z -> list (string * Z)) (c : cron) : list string := fst <$> range (nameID c).
Definition DeleteTask (c : cron) (name : string) : cron :=
  match nameID c !! name with
  | Some id => mkCron (delete id (entries c)) (nextID c) (delete name (nameID c)) (delete id (idName c))
  | None => c
  end.
Definition checkRunOnce (task : Task) : result string (list string) :=
  match Fn task with
  | None => Err ("task '" +:+ Name task +:+ "' is nil")
  | Some job => Ok (if IsRunOnce task then job ++ [Name task] else job)
  end.
Definition AddFunc (c : cron) (spec : string) (fn : list string) : option (cron * Z) :=
  if parse spec then Some (mkCron (<[nextID c + 1 := fn]> (entries c)) (nextID c + 1) (nameID c) (idName c), nextID c + 1) else None.
Definition store_id (c : cron) (id : Z) (name : string) : cron := mkCron (entries c) (nextID c) (nameID c) (<[id := name]> (idName c)).
Definition store_name (c : cron) (id : Z) (name : string) : cron := mkCron (entries c) (nextID c) (<[name := id]> (nameID c)) (idName c).

(** One task of [Run]; the error if there is one. *)
Definition run_task (c : cron) (task : Task) : cron * list string :=
  if IsRunningTask c (Name task) then (c, ["task '" +:+ Name task +:+ "' is already exists"])
  else match checkRunOnce task with
       | Ok fn => match AddFunc c (TimeSpec task) fn with
                  | Some (c, id) => (store_name (store_id c id (Name task)) id (Name task), [])
                  | None => (c, ["run task '" +:+ Name task +:+ "' error: parse"])
                  end
       | Err e => (c, [e])
       | Panic => (c, [])
       end.
Fixpoint run_tasks (c : cron) (errs : list string) (tasks : list Task) : cron * list string :=
  match tasks with
  | [] => (c, errs)
  | task :: tasks => let '(c, e) := run_task c task in run_tasks c (errs ++ e) tasks
  end.
Definition Run (c : option cron) (tasks : list Task) : option cron * option string :=
  match c with
  | None => (None, Some "cron is not initialized")
  | Some c => let '(c, errs) := run_tasks c [] tasks in
              (Some c, match errs with [] => None | _ => Some (Join errs " || ") end)
  end.
(** An entry fires: the job, then what it deletes; a job that panics is
    recovered by the chain and deletes nothing. *)
Definition fire (panics : bool) (c : cron) (id : Z) : cron :=
  match entries c !! id with Some names => if panics then c else foldl DeleteTask c names | None => c end.

Definition EverySecond (size : Z) : string := "@every " +:+ Itoa size +:+ "s".
Definition EveryMinute (size : Z) : string := "@every " +:+ Itoa size +:+ "m".
Definition EveryHour (size : Z) : string := "@every " +:+ Itoa size +:+ "h".
Definition Everyday (size : Z) : string := "@every " +:+ Itoa (wrap64 (size * 24)) +:+ "h".

(** Names and entries are one to one. *)
Record cron_inv (c : cron) : Prop := {
  inv_names : forall name id, nameID c !! name = Some id <-> idName c !! id = Some name;
  inv_entries : forall id, is_Some (entries c !! id) <-> is_Some (idName c !! id);
  inv_next : forall id, is_Some (entries c !! id) -> id <= nextID c }.

Lemma newCron_inv : cron_inv newCron.
Proof. split; cbn; intros *; rewrite ?lookup_empty; [done|done|by intros [? H]]. Qed.
Lemma DeleteTask_inv c name : cron_inv c -> cron_inv (DeleteTask c name).
Proof.
  intros [H1 H2 H3]. unfold DeleteTask. destruct (nameID c !! name) as [id|] eqn:E; [|done].
  assert (E' := E). apply H1 in E'. split; cbn.
  - intros n i. rewrite !lookup_delete_Some, H1. split; intros [Hn Hi]; (split; [|done]); intros ->; apply Hn; congruence || (apply H1 in Hi; congruence).
  - intros i. destruct (decide (id = i)) as [->|Hne]; [by rewrite !lookup_delete_eq|by rewrite !lookup_delete_ne].
  - intros i [x Hx]. apply lookup_delete_Some in Hx as [_ Hx]. apply H3. by exists x.
Qed.
Lemma run_task_inv c task : cron_inv c -> cron_inv (run_task c task).1.
Proof.
  intros Hi. unfold run_task, IsRunningTask. case_bool_decide as Hr; [done|]. destruct (checkRunOnce task) as [fn| |]; [|done..].
  unfold AddFunc. destruct (parse _); [|done]. apply eq_None_not_Some in Hr. destruct Hi as [H1 H2 H3].
  assert (Hn : idName c !! (nextID c + 1) = None).
  { apply eq_None_not_Some. intros H. apply H2, H3 in H. lia. }
  split; cbn.
  - intros n i. rewrite !lookup_insert_Some, H1. split; intros [[-> ->]|[Hne Hi]]; [by left|right; split; [|done]|by left|right; split; [|done]].
    + intros <-. congruence.
    + intros <-. apply H1 in Hi. congruence.
  - intros i. destruct (decide (nextID c + 1 = i)) as [<-|Hne]; [rewrite !lookup_insert_eq; split; eauto|by rewrite !lookup_insert_ne].
  - intros i [x Hx]. apply lookup_insert_Some in Hx as [[<- _]|[_ Hx]]; [lia|]. enough (i <= nextID c) by lia. apply H3. by exists x.
Qed.

(** What happens to the tasks: a call of [Run] or [DeleteTask], an entry that
    fires. *)
Inductive cron_step : cron -> cron -> Prop :=
  | step_run c task : cron_step c (run_task c task).1
  | step_delete c name : cron_step c (DeleteTask c name)
  | step_fire c panics id : cron_step c (fire panics c id).
(** Names and entries of cron stay one to one, whatever is run, deleted or
    fires: a name is that of one entry that is scheduled. *)
Theorem tasks_one_to_one c : star cron_step newCron c -> cron_inv c.
Proof.
  intros H. eapply star_invariant; [|exact H|apply newCron_inv]. intros s s' [c' task|c' name|c' panics id] Hi.
  - by apply run_task_inv.
  - by apply DeleteTask_inv.
  - unfold fire. destruct (entries c' !! id) as [names|]; [|done]. destruct panics; [done|].
    revert c' Hi. induction names as [|n names IH]; intros c' Hi; [done|]. by apply IH, DeleteTask_inv.
Qed.

(** A task that is run once is gone when its job has ended. *)
Lemma run_once_gone c id name : cron_inv c -> nameID c !! name = Some id -> entries c !! id = Some [name] ->
  entries (fire false c id) = delete id (entries c) /\ nameID (fire false c id) !! name = None.
Proof. intros Hi Hn He. unfold fire. rewrite He. cbn. unfold DeleteTask. rewrite Hn. cbn. by rewrite lookup_delete_eq. Qed.

(** Unless it fires before [Run] has stored its name: then the deletion finds
    nothing and the task stays. *)
Lemma early_fire_stays c name fn id : parse fn = true -> nameID c !! name = None -> id = nextID c + 1 ->
  exists c1, AddFunc c fn [name] = Some (c1, id) /\
    let c2 := store_name (store_id (fire false c1 id) id name) id name in entries c2 !! id = Some [name] /\ IsRunningTask c2 name = true.
Proof.
  intros Hp Hn ->. unfold AddFunc. rewrite Hp. eexists. split; [done|]. unfold fire. cbn [entries]. rewrite lookup_insert_eq. cbn.
  unfold DeleteTask. cbn. rewrite Hn. cbn. rewrite lookup_insert_eq. split; [done|]. unfold IsRunningTask. cbn. rewrite lookup_insert_eq. by apply bool_decide_eq_true_2.
Qed.
(** And a job that panics keeps its entry. *)
Lemma panic_stays c id : fire true c id = c.
Proof. unfold fire. by destruct (entries c !! id). Qed.
End Gocron.
Example same_name_refused : (Run (fun _ => true) (Some newCron) [mkTask "@every 1s" "a" (Some []) false; mkTask "@every 2s" "a" (Some []) true]).2 = Some "task 'a' is already exists".
Proof. vm_compute. reflexivity. Qed.

(** ** Starting and stopping an application (pkg/mapp)

    The servers run until they return, one goroutine each, and [watch] until a
    signal or the first error; [errgroup] keeps the first error and waits for
    all.  A close function is what it returns. *)
Section App.
Context (closes : list (option string)).

(** [stop]: how many close functions were called, and the error of the last. *)
Fixpoint stop_from (l : list (option string)) : nat * option string :=
  match l with
  | [] => (O, None)
  | Some e :: _ => (1%nat, Some e)
  | None :: l => let '(n, e) := stop_from l in (S n, e)
  end.
Definition stop : nat * option string := stop_from closes.

Record app : Type := mkApp { running : gset nat; watching : bool; first_err : option string; closed : nat }.
Definition App_start (servers : nat) : app := mkApp (list_to_set (seq 0 servers)) true None 0.
Definition keep_first (e e' : option string) : option string := match e with Some _ => e | None => e' end.
Inductive signal : Type := SIGINT | SIGTERM | SIGHUP | SIGTRAP.
Definition server_return (a : app) (i : nat) (e : option string) : app := mkApp (running a ∖ {[i]}) (watching a) (keep_first (first_err a) e) (closed a).
Definition watch_done (a : app) : app := mkApp (running a) false (first_err a) (closed a + stop.1).
Definition watch_signal (a : app) (s : signal) : app :=
  match s with
  | SIGTRAP => a
  | _ => mkApp (running a) false (keep_first (first_err a) stop.2) (closed a + stop.1)
  end.
Inductive app_step : app -> app -> Prop :=
  | app_server a i e : i ∈ running a -> app_step a (server_return a i e)
  | app_done a e : watching a = true -> first_err a = Some e -> app_step a (watch_done a)
  | app_signal a s : watching a = true -> app_step a (watch_signal a s).
(** [eg.Wait] has returned: all goroutines have. *)
Definition finished (a : app) : Prop := running a = ∅ /\ watching a = false.
Definition Run_result (a : app) : result string unit := match first_err a with Some _ => Panic | None => Ok tt end.

Lemma stop_spec l : match stop_from l with
  | (n, None) => n = length l /\ Forall (eq None) l
  | (n, Some e) => (0 < n)%nat /\ l !! (n - 1)%nat = Some (Some e) /\ Forall (eq None) (take (n - 1) l)
  end.
Proof.
  induction l as [|[e|] l IH]; cbn; [by split|by split; [lia|]; split|]. destruct (stop_from l) as [n [e|]].
  - destruct IH as (Hn & He & Hf). split; [lia|]. replace (S n - 1)%nat with (S (n - 1)) by lia. split; [done|]. by constructor.
  - destruct IH as [-> Hf]. split; [done|]. by constructor.
Qed.
(** Whatever the order of signals, errors and returns, the close functions are
    called once, in order, up to the first that fails, and only by the end of
    the watching; an application that has ended has called them. *)
Theorem closes_once servers a : star app_step (App_start servers) a -> closed a = (if watching a then 0 else stop.1)%nat.
Proof.
  intros H. eapply (star_invariant _ (fun a => closed a = (if watching a then 0 else stop.1)%nat)); [|exact H|done].
  intros s s' [b i e _|b e Hw _|b sg Hw] Hi; rewrite ?Hw in Hi.
  - done.
  - cbn. by rewrite Hi.
  - destruct sg; cbn; rewrite ?Hi, ?Hw; done.
Qed.
Lemma finished_closed servers a : star app_step (App_start servers) a -> finished a -> closed a = stop.1.
Proof. intros H [_ Hw]. apply closes_once in H. by rewrite Hw in H. Qed.
(** The servers are not told to stop: one that only returns when it is told to
    keeps the application running after the signal. *)
Lemma servers_not_stopped s : s <> SIGTRAP -> let a := watch_signal (App_start 1) s in watching a = false /\ running a = {[0%nat]} /\ ~ finished a.
Proof. intros Hs. destruct s; try done; (split; [done|]; split; [by apply leibniz_equiv; cbn; set_solver|]; intros [H _]; cbn in H; set_solver). Qed.
End App.

(** ** Commands (pkg/gobash) *)

(** What a command does: it starts with a number, writes and ends. *)
Record Cmd : Type := mkCmd { Args : list string; Pid : Z; Stdout : string; Stderr : string; Wait : option string }.
Record Result : Type := mkResult { StdOut : list string; Res_Err : option string; Res_Pid : Z }.
Definition cmd_error (cmd : Cmd) : option string :=
  match Wait cmd with
  | Some err => Some (if bool_decide (Stderr cmd = "") then err else Stderr cmd)
  | None => None
  end.
Definition getResult (start : result string Cmd) : result string string :=
  cmd ← start; match cmd_error cmd with Some e => Err e | None => Ok (Stdout cmd) end.
Definition first_line (cmd : Cmd) : string := Join (Args cmd) " " +:+ (" [pid]=" +:+ Itoa (Pid cmd)) +:+ single newline.
(** [canceled]: the context is done before that many lines are taken. *)
Definition handleExec (start : result string Cmd) (canceled : option (nat * string)) : Result :=
  match start with
  | Ok cmd =>
      let lines := ended_lines (Stdout cmd) in
      match canceled with
      | Some (n, e) => if (n <? length lines)%nat then mkResult (first_line cmd :: take n lines) (Some e) (Pid cmd)
                       else mkResult (first_line cmd :: lines) (cmd_error cmd) (Pid cmd)
      | None => mkResult (first_line cmd :: lines) (cmd_error cmd) (Pid cmd)
      end
  | Err e => mkResult [] (Some e) 0
  | Panic => mkResult [] None 0
  end.
Definition ParsePid (s : string) : Z :=
  match Index s "[pid]=" with
  | None => 0
  | Some idx => default 0 (Atoi (TrimSpace (str_drop (idx + 6) s)))
  end.
(** The number is read back from the first line. *)
Example pid_read_back : ParsePid (first_line (mkCmd ["/bin/sleep"; "5"] 4711 "" "" None)) = 4711.
Proof. vm_compute. reflexivity. Qed.
(** Unless an argument looks like it. *)
Example pid_misread : ParsePid (first_line (mkCmd ["/bin/echo"; "[pid]=1"] 4711 "" "" None)) = 0.
Proof. vm_compute. reflexivity. Qed.
(** An output that does not end with a newline loses its last line with [Run],
    not with [Exec]. *)
Example last_output_lost : let cmd := mkCmd ["/bin/printf"; "x"] 7 "x" "" None in
  StdOut (handleExec (Ok cmd) None) = [first_line cmd] /\ getResult (Ok cmd) = Ok "x".
Proof. vm_compute. done. Qed.
End Utils.
