(* ===== verification/GenCommon.v ===== *)
(** * The generator's rules (cmd/milady/commands/generate)

    common.go: the names, rules and files the generating commands share, over
    the disk of Files.v and the replacer of Replacer.v.  The texts of
    template.go are data, the module xstrings, the template engine, the
    output of the go command and the home directory are parameters.
    Theorems: what a service writes down about itself is read back; the
    package of a protobuf file is renamed. *)

From S2P Require Import Prelude GoStr Files Replacer SqlNames SqlFields SqlCode.
From Stdlib Require Import Ascii.
From Stdlib Require String.

Module GenCommon.
Import SqlNames SqlFields SqlCode Files Replacer.

Inductive error : Type :=
  | ErrTestSuffix (serverName : string)
  | ErrNotProto (file : string)
  | ErrNoService
  | ErrSave (file : string)                (* save file %s error *)
  | ErrFileExists (file : string)
  | ErrDisk (e : errno)
  | ErrTooLong
  | ErrTemplate
  | ErrReplacer (e : Replacer.error)
  | ErrCrudInfo
  | ErrDBDriver (driver : string)
  | ErrNilReplacer
  | ErrNotJSON (file : string)
  | ErrJSON.
#[global] Instance error_eq_dec : EqDecision error.
Proof. solve_decision. Defined.

Definition disk {A} (m : result errno A) : result error A :=
  match m with Ok a => Ok a | Err e => Err (ErrDisk e) | Panic => Panic end.
Definition rep {A} (m : result Replacer.error A) : result error A :=
  match m with Ok a => Ok a | Err e => Err (ErrReplacer e) | Panic => Panic end.

Notation "old ~> new | s" := (mkField old new s) (at level 62, new at level 61, s at level 0).

Definition nl : string := single newline.
Definition tab : string := single (ascii_of_nat 9).
Definition q (s : string) : string := single dquote +:+ s.
Definition backquote : string := single (ascii_of_nat 96).

(** ** Constants *)

Definition defaultGoModVersion : string := "go 1.25.1".
Definition codeNameHTTP : string := "http".
Definition mgoSuffix : string := ".mgo".
Definition pkgPathSuffix : string := "/pkg".
Definition expSuffix : string := ".exp".
Definition tplSuffix : string := ".tpl".
Definition undeterminedDBDriver : string := "undetermined".
Definition expectedSQLForDeletion : string := "expectedSQLForDeletion := " +:+ q "UPDATE .*" +:+ single dquote.
Definition spongeTemplateVersionMark : string := "// todo generate the local sponge template code version here".
Definition configmapFileMark : string := "# todo generate server configuration code here".
Definition appConfigFileMark3 : string := "# todo generate the registry and discovery configuration here".
Definition startMark : string := "// delete the templates code start".
Definition endMark : string := "// delete the templates code end".

(** ** Names *)

Definition symbolConvert (str : string) (additionalChar : list string) : string :=
  Replace1 str "//" "#" +:+ default "" (head additionalChar).
Definition convertServerName (serverName : string) : string := ReplaceAll serverName "-" "_".

(** Both names are returned with the error. *)
Definition convertProjectAndServerName (ToKebabCase : string -> string) (projectName serverName : string) :
    string * string * option error :=
  (ToKebabCase projectName, ReplaceAll serverName "-" "_",
   if HasSuffix serverName "-test" || HasSuffix serverName "_test" then Some (ErrTestSuffix serverName) else None).

Definition parseImageRepoAddr (addr : string) : string * string :=
  let splits := Split addr slash in
  match splits with
  | [_] => ("https://index.docker.io/v1", addr)
  | _ => (Join (removelast splits) "/", default "" (last splits))
  end.

(** ** Types of identifiers *)

(** The bytes between a start and an end, the end kept. *)
Definition id_type (subStart subEnd field comment codes : string) : result errno string :=
  subBytes ← FindSubBytesNotIn codes subStart subEnd;
  if bool_decide (subBytes = "") then Ok codes
  else
    let old := subStart +:+ subBytes +:+ subEnd in
    let newStr := subStart +:+ nl +:+ tab +:+ field +:+ " " +:+ subEnd +:+ comment +:+ nl in
    Ok (ReplaceAll codes old newStr).
Definition id_tag : string := backquote +:+ "json:" +:+ quoted "id" +:+ backquote.
Definition bound_tag : string := backquote +:+ "json:" +:+ quoted "id" +:+ " binding:" +:+ quoted "" +:+ backquote.
Definition idTypeFixToUint64 : string -> result errno string :=
  id_type "ByIDRequest struct {" bound_tag "ID uint64" " // uint64 id".
Definition idTypeToUint64 : string -> result errno string :=
  id_type "ObjDetail struct {" id_tag "ID uint64" " // convert to uint64 id".
Definition idTypeToStr : string -> result errno string :=
  id_type "ObjDetail struct {" id_tag "ID string" " // convert to string id".
Definition adjustmentOfIDType (handlerCodes dbDriver : string) (isCommonStyle : bool) : result errno string :=
  if bool_decide (dbDriver = DBDriverMongodb) then idTypeToStr handlerCodes
  else if isCommonStyle then Ok handlerCodes
  else idTypeFixToUint64 handlerCodes ≫= idTypeToUint64.

(** ** Protobuf files *)

(** The first match of [\nservice (\w+)]. *)
Definition is_word (c : ascii) : bool := is_alpha c || is_digit c || bool_decide (c = "_"%char).
Fixpoint find_service (data : string) : bool :=
  match data with
  | EmptyString => false
  | String _ data' =>
      (HasPrefix data (nl +:+ "service ") && match str_drop 9 data with String c _ => is_word c | _ => false end) || find_service data'
  end.
Definition isExistServiceName (data : string) : bool := find_service data.
Definition isDependImport (protoData pkgName : string) : bool := Contains protoData pkgName.

(** The first match of [prefix [\w\W]*? suffix]: from the first prefix with a
    suffix after it, to the first such suffix. *)
Fixpoint find_span (prefix suffix data : string) : string :=
  match data with
  | EmptyString => ""
  | String _ data' =>
      if HasPrefix data prefix then
        match Index (str_drop (str_len prefix) data) suffix with
        | Some i => str_take (str_len prefix + i + str_len suffix) data
        | None => find_span prefix suffix data'
        end
      else find_span prefix suffix data'
  end.
Definition replacePackage (data moduleName serverName : string) : string :=
  let data := if Contains data (single (ascii_of_nat 13) +:+ nl) then ReplaceAll data (single (ascii_of_nat 13) +:+ nl) nl else data in
  let packageName := find_span (nl +:+ "package ") ";" data in
  let goPackageName := find_span "go_package " (";" +:+ nl) data in
  let data := if bool_decide (packageName = "") then data
              else Replace1 data packageName (nl +:+ "package api." +:+ serverName +:+ ".v1;") in
  if bool_decide (goPackageName = "") then data
  else Replace1 data goPackageName ("go_package = " +:+ quoted (moduleName +:+ "/api/" +:+ serverName +:+ "/v1;v1") +:+ ";" +:+ nl).

Section Disk.
Variable windows : bool.
Variable cwd : list string.
Variable fuel : nat.
#[local] Notation delim := (GetPathDelimiter windows).
#[local] Notation read := (Files.ReadFile windows cwd).

(** The files of a pattern, and whether one imports the types; an unreadable
    file is an error.  [None] when the fuel for the listing runs out. *)
Definition parseProtobufFiles (d : node) (protobufFile : string) : option (result error (list string * bool)) :=
  if negb (bool_decide (Ext windows protobufFile = ".proto")) then Some (Err (ErrNotProto protobufFile))
  else
    (fun files : list string =>
       datas ← traverse (fun f => disk (read d f)) files;
       if existsb isExistServiceName datas
       then Ok (files, existsb (fun data => isDependImport data "api/types/types.proto") datas)
       else Err ErrNoService) <$> FuzzyMatchFiles windows cwd fuel d protobufFile.
Definition ParseFuzzyProtobufFiles (d : node) (protobufFile : string) : option (result error (list string)) :=
  foldl (fun acc s =>
    match acc with
    | Some (Ok files) =>
        (fun r : result error (list string * bool) => l ← r; Ok (files ++ fst l)) <$> parseProtobufFiles d s
    | r => r
    end) (Some (Ok [])) (Split protobufFile ","%char).

Definition save (d : node) (file data : string) : node * result error unit :=
  match WriteFile windows cwd d file data with
  | Ok d => (d, Ok tt)
  | Err _ => (d, Err (ErrSave file))
  | Panic => (d, Panic)
  end.

Definition FormatBool (b : bool) : string := if b then "true" else "false".
(** The error of MkdirAll is dropped. *)
Definition saveGenInfo (d : node) (moduleName serverName : string) (suitedMonoRepo : bool) (outputDir : string) : node * result error unit :=
  let genInfo := moduleName +:+ "," +:+ serverName +:+ "," +:+ FormatBool suitedMonoRepo in
  let dir := outputDir +:+ "/docs" in
  save (fst (MkdirAll windows cwd d dir)) (dir +:+ "/gen.info") genInfo.
Definition saveEmptySwaggerJSON (d : node) (outputDir : string) : node * result error unit :=
  let dir := outputDir +:+ "/docs" in
  save (fst (MkdirAll windows cwd d dir)) (dir +:+ "/apis.swagger.json")
    ("{" +:+ quoted "swagger" +:+ ":" +:+ quoted "2.0" +:+ "," +:+ quoted "info" +:+ ":{" +:+ quoted "version" +:+ ":"
     +:+ quoted "version not set" +:+ "}}").
Definition getNamesFromOutDir (d : node) (dir : string) : string * string * bool :=
  if bool_decide (dir = "") then ("", "", false)
  else
    match read d (dir +:+ "/docs/gen.info") with
    | Ok data =>
        match Split data ","%char with
        | [a; b] => (a, b, false)
        | a :: b :: c :: _ => (a, b, bool_decide (c = "true"))
        | _ => ("", "", false)
        end
    | _ => ("", "", false)
    end.

(** A file that cannot be read is left out; one that exists ends the loop. *)
Fixpoint save_protos (d : node) (moduleName serverName dir : string) (protobufFiles : list string) : node * result error unit :=
  match protobufFiles with
  | [] => (d, Ok tt)
  | pbFile :: rest =>
      match read d pbFile with
      | Ok pbContent =>
          let d := fst (MkdirAll windows cwd d dir) in
          let file := dir +:+ "/" +:+ GetFilename windows pbFile in
          if IsExists windows cwd d file then (d, Err (ErrFileExists file))
          else match save d file (replacePackage pbContent moduleName serverName) with
               | (d, Ok _) => save_protos d moduleName serverName dir rest
               | r => r
               end
      | _ => save_protos d moduleName serverName dir rest
      end
  end.
Definition saveProtobufFiles (d : node) (moduleName serverName : string) (suitedMonoRepo : bool) (outputDir : string)
    (protobufFiles : list string) : node * result error unit :=
  let outputDir := if suitedMonoRepo then TrimSuffix (TrimSuffix outputDir serverName) delim else outputDir in
  save_protos d moduleName serverName (outputDir +:+ "/api/" +:+ serverName +:+ "/v1") protobufFiles.
Definition moveProtoFileToAPIDir (d : node) (moduleName serverName : string) (suitedMonoRepo : bool) (outputDir : string) :
    option (node * result error unit) :=
  let apiDir := outputDir +:+ delim +:+ "api" in
  (fun w : list string * option errno =>
     match saveProtobufFiles d moduleName serverName suitedMonoRepo outputDir (fst w) with
     | (d, Ok _) => (RemoveAll windows cwd d apiDir, Ok tt)
     | r => r
     end) <$> ListFiles windows cwd fuel d apiDir [WithNoAbsolutePath; WithSuffix ".proto"].

(** ** Rules that depend on files *)

Definition deleteFieldsMark (d : node) (r : replacerInfo) (filename startMark endMark : string) : result errno (list Field) :=
  match Replacer.ReadFile windows cwd d r filename with
  | Ok data =>
      subBytes ← FindSubBytes data startMark endMark;
      Ok (if bool_decide (subBytes = "") then [] else [subBytes ~> "" | false])
  | _ => Ok []
  end.
Definition DeleteCodeMark := deleteFieldsMark.
Definition deleteAllFieldsMark (d : node) (r : replacerInfo) (filename startMark endMark : string) : option (result errno (list Field)) :=
  match Replacer.ReadFile windows cwd d r filename with
  | Ok data =>
      (fun l : result errno (list string) => allSubBytes ← l; Ok (map (fun s => s ~> "" | false) allSubBytes))
        <$> FindAllSubBytes data startMark endMark
  | _ => Some (Ok [])
  end.
Definition replaceFileContentMark (d : node) (r : replacerInfo) (filename newContent : string) : list Field :=
  match Replacer.ReadFile windows cwd d r filename with
  | Ok data => [data ~> newContent | false]
  | _ => []
  end.

(** The order of a range over a map of files. *)
Variable order : gmap string (list string) -> list (string * list string).

Definition getSubFiles (selectFiles replaceFiles : gmap string (list string)) : list string :=
  mjoin (map (fun '(dir, filenames) =>
    map (fun filename => dir +:+ "/" +:+ filename) (default filenames (replaceFiles !! dir))) (order selectFiles)).
Definition getTemplateFiles (files : gmap string (list string)) : list string :=
  mjoin (map (fun '(dir, filenames) =>
    map (fun filename => dir +:+ "/" +:+ filename) (filter (fun f => HasSuffix f tplSuffix = true) filenames)) (order files)).

(** A template parsed and executed with the data of a table; a panic of the
    parser is recovered to an error. *)
Variable execute : string -> string -> CrudInfo -> option string.

Definition replaceTemplateFileContent (d : node) (r : replacerInfo) (file : string) (crudInfo : CrudInfo) : result error Field :=
  data ← rep (Replacer.ReadFile windows cwd d r file);
  let mark := "{{{.ColumnNameCamelFCL}}}" in
  let content := if Contains data mark then ReplaceAll data mark ("{" +:+ ColumnNameCamelFCL crudInfo +:+ "}") else data in
  match execute file content crudInfo with
  | None => Err ErrTemplate
  | Some dstContent =>
      let dstContent := if Contains dstContent "utils." then dstContent
                        else ReplaceAll dstContent (quoted "github.com/go-dev-frame/sponge/pkg/utils") "" in
      let dstContent := if Contains dstContent "math.MaxInt32" then dstContent else ReplaceAll dstContent (quoted "math") "" in
      Ok (data ~> dstContent | false)
  end.
Definition replaceFilesContent (d : node) (r : replacerInfo) (files : list string) (crudInfo : CrudInfo) : result error (list Field) :=
  fields ← traverse (fun file => replaceTemplateFileContent d r file crudInfo) files;
  Ok (filter (fun f => Old f <> "") fields).

(** ** Configuration maps *)

(** The lines of a scanner with its buffer of 64 KiB; the last one may lack
    its end. *)
Definition scan_lines (data : string) : result error (list string) :=
  let drop_cr l := TrimSuffix l (single (ascii_of_nat 13)) in
  let lines := Split data newline in
  let lines := match last lines with Some EmptyString => removelast lines | _ => lines end in
  if existsb (fun l => 65536 <=? str_len l)%nat lines then Err ErrTooLong else Ok (map drop_cr lines).
Definition convertYamlConfig (d : node) (configFile : string) : result error string :=
  data ← disk (read d configFile);
  lines ← scan_lines data;
  Ok (Join (map (fun line => "    " +:+ line) lines) nl).
Definition generateConfigmap (d : node) (serverName outPath : string) : node * result error unit :=
  let configFile := outPath +:+ "/configs/" +:+ serverName +:+ ".yml" in
  let configmapFile := outPath +:+ "/deployments/kubernetes/" +:+ serverName +:+ "-configmap.yml" in
  match (configFileData ← convertYamlConfig d configFile;
         configmapFileData ← disk (read d configmapFile);
         disk (WriteFile windows cwd d configmapFile (ReplaceAll configmapFileData configmapFileMark configFileData))) with
  | Ok d => (d, Ok tt)
  | Err e => (d, Err e)
  | Panic => (d, Panic)
  end.

Definition sqliteDSNAdaptation (dbDriver dsn : string) : string :=
  let two := String backslash (single backslash) in
  if bool_decide (dbDriver = DBDriverSqlite) && windows
  then ReplaceAll (ReplaceAll dsn (single backslash) two) "/" two else dsn.

Definition changeOutPath (outPath serverName : string) : string :=
  if bool_decide (outPath ∈ [""; "."; "./"; "." +:+ single backslash; serverName; "./" +:+ serverName; "." +:+ single backslash +:+ serverName])
  then serverName else outPath +:+ delim +:+ serverName.
Definition cutPath (srcFilePath : string) : string :=
  ReplaceAll (ReplaceAll srcFilePath (Abs windows cwd ".") ".") (single backslash) "/".

End Disk.

(** [make] panics for the capacity -1: no elements of an empty slice. *)
Definition removeElements (slice elements : list string) : result error (list string) :=
  match elements, slice with
  | [], _ => Ok slice
  | _, [] => Panic
  | _, _ => Ok (filter (fun s => s ∉ elements) slice)
  end.

(** ** Texts and rules *)

(** The constants of template.go that are chosen here. *)
Record Texts : Type := mkTexts {
  mysqlConfigCode : string; postgresqlConfigCode : string; sqliteConfigCode : string; mongodbConfigCode : string;
  undeterminedDatabaseConfigCode : string; modelInitDBFileMysqlCode : string; modelInitDBFilePostgresqlCode : string;
  modelInitDBFileSqliteCode : string; embedTimeCode : string }.

Definition getDBConfigCode (t : Texts) (dbDriver : string) : string :=
  let driver := ToLower dbDriver in
  if bool_decide (driver = DBDriverMysql \/ driver = DBDriverTidb) then mysqlConfigCode t
  else if bool_decide (driver = DBDriverPostgresql) then postgresqlConfigCode t
  else if bool_decide (driver = DBDriverSqlite) then sqliteConfigCode t
  else if bool_decide (driver = DBDriverMongodb) then mongodbConfigCode t
  else if bool_decide (driver = undeterminedDBDriver) then undeterminedDatabaseConfigCode t
  else "".
Definition getInitDBCode (t : Texts) (dbDriver : string) : result error string :=
  let driver := ToLower dbDriver in
  if bool_decide (driver = DBDriverMysql \/ driver = DBDriverTidb) then Ok (modelInitDBFileMysqlCode t)
  else if bool_decide (driver = DBDriverPostgresql) then Ok (modelInitDBFilePostgresqlCode t)
  else if bool_decide (driver = DBDriverSqlite) then Ok (modelInitDBFileSqliteCode t)
  else if bool_decide (driver = DBDriverMongodb) then Ok ""
  else Panic.
Definition getEmbedTimeCode (t : Texts) (isEmbed : bool) : string := if isEmbed then embedTimeCode t else "".

Definition getExpectedSQLForDeletion (isEmbed : bool) : string :=
  if isEmbed then expectedSQLForDeletion else ReplaceAll expectedSQLForDeletion "UPDATE" "DELETE".
Definition getExpectedSQLForDeletionField (isEmbed : bool) : list Field :=
  let esql := getExpectedSQLForDeletion isEmbed in
  if bool_decide (esql = expectedSQLForDeletion) then []
  else [expectedSQLForDeletion ~> esql | false;
        "expectedArgsForDeletionTime := d.AnyTime" ~> "" | false;
        "expectedArgsForDeletionTime := h.MockDao.AnyTime" ~> "" | false;
        "WithArgs(expectedArgsForDeletionTime, testData.ID)" ~> "WithArgs(testData.ID)" | false].

Definition dupCodeMark : string := "--dir=internal/ecode".
Definition adaptDupCode (serverType serverName : string) : string :=
  if bool_decide (serverType = codeNameHTTP) then dupCodeMark else "--dir=" +:+ serverName +:+ "/internal/ecode".
Definition monoRepoAPIPath : string :=
  "bash scripts/patch-mono.sh" +:+ nl +:+ "cd .." +:+ nl +:+ nl +:+ "protoBasePath=" +:+ quoted "api".
Definition monoRepoHTTPPatch : string := "bash scripts/patch-mono.sh" +:+ nl +:+ nl +:+ "HOST_ADDR=$1".
Definition typePbShellCode : string :=
  nl +:+ "    if [ ! -d " +:+ quoted "../api/types" +:+ " ]; then" +:+ nl
  +:+ "        sponge patch gen-types-pb --out=./" +:+ nl +:+ "        checkResult $?" +:+ nl
  +:+ "        mv -f api/types ../api" +:+ nl +:+ "        rmdir api" +:+ nl +:+ "    fi".

(** An import path below the module, moved below the server. *)
Definition server_import (moduleName serverName dir : string) : Field :=
  q (moduleName +:+ dir) ~> q (moduleName +:+ "/" +:+ serverName +:+ dir) | false.
Definition serverCodeFields (serverType moduleName serverName : string) : list Field :=
  [server_import moduleName serverName "/internal/";
   "=$(cat docs/gen.info" ~> "=$(cat " +:+ serverName +:+ "/docs/gen.info" | false;
   dupCodeMark ~> adaptDupCode serverType serverName | false;
   server_import moduleName serverName "/cmd/";
   server_import moduleName serverName "/configs";
   server_import moduleName serverName "/docs";
   server_import moduleName serverName "/api";
   "merge_file_name=docs/apis.json" ~> "merge_file_name=" +:+ serverName +:+ "/docs/apis.json" | false;
   "--file=docs/apis.swagger.json" ~> "--file=" +:+ serverName +:+ "/docs/apis.swagger.json" | false;
   "sponge merge http-pb" ~> "sponge merge http-pb --dir=" +:+ serverName | false;
   "sponge merge rpc-pb" ~> "sponge merge rpc-pb --dir=" +:+ serverName | false;
   "sponge merge rpc-gw-pb" ~> "sponge merge rpc-gw-pb --dir=" +:+ serverName | false;
   "docs/apis.html" ~> serverName +:+ "/docs/apis.html" | false;
   "sponge patch gen-types-pb --out=./" ~> typePbShellCode | false;
   "protoBasePath=" +:+ quoted "api" ~> monoRepoAPIPath | false;
   "HOST_ADDR=$1" ~> monoRepoHTTPPatch | false;
   "genServerType=$1" ~> "genServerType=" +:+ quoted serverType | false;
   "go get " +:+ moduleName +:+ "@" ~> "go get github.com/go-dev-frame/sponge@" | false].
Definition SubServerCodeFields (moduleName serverName : string) : list Field :=
  [server_import moduleName serverName "/internal/"; server_import moduleName serverName "/configs"; server_import moduleName serverName "/api"].

Definition getHTTPServiceFields : list Field :=
  [appConfigFileMark3 ~> "" | false; "http.go.noregistry" ~> "http.go" | false; "http_option.go.noregistry" ~> "http_option.go" | false;
   "registryDiscoveryType: " +:+ quoted "" ~> "#registryDiscoveryType: " +:+ quoted "" | false].

(** ** The version of Go *)

(** [strconv.Atoi] of digits, with the largest value for longer ones. *)
Definition StrToInt (s : string) : Z := match Atoi s with Some v => v | None => if forall_chars is_digit s && negb (bool_decide (s = "")) then int64_max else 0 end.

Fixpoint span_digits (s : string) : string * string :=
  match s with
  | String c s' => if is_digit c then let '(l, r) := span_digits s' in (String c l, r) else ("", s)
  | EmptyString => ("", "")
  end.
(** [(\d+)\.(\d+)(\.(\d+))?] at the front. *)
Definition match_version (s : string) : option (string * string * string) :=
  let '(major, r) := span_digits s in
  match r with
  | String "." r' =>
      let '(minor, r2) := span_digits r' in
      if bool_decide (major = "" \/ minor = "") then None
      else Some (major, minor, match r2 with String "." r3 => fst (span_digits r3) | _ => "" end)
  | _ => None
  end.
(** The first match of the expression with go before it. *)
Fixpoint find_version (s : string) : option (string * string * string) :=
  match s with
  | EmptyString => None
  | String _ s' =>
      match (if HasPrefix s "go" then match_version (str_drop 2 s) else None) with Some v => Some v | None => find_version s' end
  end.
Definition version_after (a b : string * string * string) : bool :=
  let '(major1, minor1, patch1) := a in
  let '(major2, minor2, patch2) := b in
  if negb (bool_decide (major1 = major2)) then StrToInt major2 <? StrToInt major1
  else if negb (bool_decide (minor1 = minor2)) then StrToInt minor2 <? StrToInt minor1
  else StrToInt patch2 <? StrToInt patch1.
(** [None] is a failure of the command; sort.Slice swaps the two versions
    when the second is later. *)
Definition getLocalGoVersion (output : option string) : string :=
  match output with
  | None => defaultGoModVersion
  | Some result =>
      let text '(major, minor, patch) := "go " +:+ major +:+ "." +:+ minor +:+ (if bool_decide (patch = "") then "" else "." +:+ patch) in
      match omap find_version [ReplaceAll defaultGoModVersion " " ""; result] with
      | [a; b] => if version_after b a then text b else text a
      | a :: _ => text a
      | [] => defaultGoModVersion
      end
  end.

Definition wrapPoint (s : string) : string := backquote +:+ s +:+ backquote.
Definition setReadmeTitle (moduleName serverName serverType : string) (suitedMonoRepo : bool) : string :=
  let repoType := if suitedMonoRepo then "mono-repo" else if bool_decide (serverType = codeNameHTTP) then "monolith" else "multi-repo" in
  "## " +:+ serverName +:+ nl +:+ nl +:+ "| Feature             | Value          |" +:+ nl +:+ "| :----------------: | :-----------: |" +:+ nl
  +:+ "| Server name      |  " +:+ wrapPoint serverName +:+ "   |" +:+ nl
  +:+ "| Server type        |  " +:+ wrapPoint serverType +:+ "   |" +:+ nl
  +:+ "| Go module name |  " +:+ wrapPoint moduleName +:+ "  |" +:+ nl
  +:+ "| Repository type   |  " +:+ wrapPoint repoType +:+ "  |" +:+ nl +:+ nl.

(** [home] is the text of the version file below the home directory, if it
    can be read. *)
Definition getLocalSpongeTemplateVersion (home : option string) : string :=
  match home with
  | None | Some EmptyString => ""
  | Some v => "github.com/go-dev-frame/sponge " +:+ v
  end.
Definition GetGoModFields (output home : option string) (moduleName : string) : list Field :=
  ["github.com/go-dev-frame/sponge" ~> moduleName | false;
   defaultGoModVersion ~> getLocalGoVersion output | false;
   spongeTemplateVersionMark ~> getLocalSpongeTemplateVersion home | false].

Definition SetSelectFiles (dbDriver : string) (selectFiles : gmap string (list string)) : result error (gmap string (list string)) :=
  let driver := ToLower dbDriver in
  let set l := Ok (<["internal/database" := l]> selectFiles) in
  if bool_decide (driver = DBDriverMysql \/ driver = DBDriverTidb) then set ["init.go"; "redis.go"; "mysql.go"]
  else if bool_decide (driver = DBDriverPostgresql) then set ["init.go"; "redis.go"; "postgresql.go"]
  else if bool_decide (driver = DBDriverSqlite) then set ["init.go"; "redis.go"; "sqlite.go"]
  else if bool_decide (driver = DBDriverMongodb) then set ["init.go.mgo"; "redis.go"; "mongodb.go.mgo"]
  else Err (ErrDBDriver driver).

(** * Proofs *)

(** The module, the server and the kind of repository that a generated service notes
    are read back from its directory, when the names have no commas. *)
Theorem gen_info_roundtrip windows cwd d d' moduleName serverName suitedMonoRepo outputDir :
  outputDir <> "" -> no_char ","%char moduleName -> no_char ","%char serverName ->
  saveGenInfo windows cwd d moduleName serverName suitedMonoRepo outputDir = (d', Ok tt) ->
  getNamesFromOutDir windows cwd d' outputDir = (moduleName, serverName, suitedMonoRepo).
Proof.
  intros Hdir Hm Hs. unfold saveGenInfo, save. set (d1 := fst _).
  destruct (WriteFile windows cwd d1 _ _) as [d2| |] eqn:Hw; [|done..]. intros [= <-]. apply read_after_write in Hw.
  unfold getNamesFromOutDir. rewrite bool_decide_eq_false_2 by done. rewrite app_assoc_s in Hw. change ("/docs" +:+ "/gen.info") with "/docs/gen.info" in Hw.
  assert (forall p t, no_char ","%char p -> Split (p +:+ "," +:+ t) ","%char = p :: Split t ","%char) as Hcomma
    by (intros p t; apply Split_app_sep).
  rewrite Hw, !Hcomma, Split_plain by (try done; by destruct suitedMonoRepo). by destruct suitedMonoRepo.
Qed.

(** ** Spans *)

Lemma find_span_first prefix suffix t n u : prefix <> "" ->
  Index (t +:+ prefix +:+ n +:+ suffix +:+ u) prefix = Some (str_len t) -> Index (n +:+ suffix +:+ u) suffix = Some (str_len n) ->
  find_span prefix suffix (t +:+ prefix +:+ n +:+ suffix +:+ u) = prefix +:+ n +:+ suffix.
Proof.
  intros Hp Ht Hn. induction t as [|a t IH].
  - rewrite app_nil_l_s in *. destruct prefix as [|c prefix]; [done|]. rewrite app_cons_s at 1. cbn [find_span].
    rewrite <- app_cons_s, HasPrefix_app, drop_app, Hn, <- !str_len_app, <- !app_assoc_s. apply take_app.
  - rewrite app_cons_s in *. cbn [find_span Index str_len] in *. destruct (HasPrefix _ _); [done|]. apply IH.
    by destruct (Index _ _); simplify_eq/=.
Qed.

Lemma Index_longer t p n u : Index (t +:+ p +:+ n +:+ u) p = Some (str_len t) -> Index (t +:+ (p +:+ n) +:+ u) (p +:+ n) = Some (str_len t).
Proof.
  intros Hi. induction t as [|a t IH].
  - destruct (Index_first "" (p +:+ n) u) as (i & -> & Hle). cbn in Hle. f_equal. cbn. lia.
  - rewrite !(app_cons_s a t) in *. cbn [Index str_len] in *. destruct (HasPrefix _ p) eqn:E; [done|]. destruct (HasPrefix _ (p +:+ n)) eqn:E'.
    + apply HasPrefix_spec in E' as [v Hv]. rewrite app_assoc_s in Hv. rewrite Hv, app_assoc_s, HasPrefix_app in E. done.
    + rewrite IH; [done|]. by destruct (Index _ p); simplify_eq/=.
Qed.

Lemma Replace1_first t old u new : Index (t +:+ old +:+ u) old = Some (str_len t) -> Replace1 (t +:+ old +:+ u) old new = t +:+ new +:+ u.
Proof.
  intros Hi. unfold Replace1. rewrite Hi. rewrite take_app. do 2 f_equal. rewrite <- str_len_app, <- app_assoc_s. apply drop_app.
Qed.

(** In a protobuf file with lines that end without carriage returns, the package and
    then the go_package option are renamed for the server and nothing else changes. *)
Theorem package_renamed moduleName serverName t n u g v :
  let package := nl +:+ "package " in
  let data := t +:+ package +:+ n +:+ ";" +:+ u +:+ "go_package " +:+ g +:+ (";" +:+ nl) +:+ v in
  let newPackage := nl +:+ "package api." +:+ serverName +:+ ".v1;" in
  Contains data (single (ascii_of_nat 13) +:+ nl) = false ->
  Index data package = Some (str_len t) -> no_char ";"%char n ->
  Index data "go_package " = Some (str_len (t +:+ package +:+ n +:+ ";" +:+ u)) ->
  Index (g +:+ (";" +:+ nl) +:+ v) (";" +:+ nl) = Some (str_len g) ->
  Index (t +:+ newPackage +:+ u +:+ "go_package " +:+ g +:+ (";" +:+ nl) +:+ v) "go_package " = Some (str_len (t +:+ newPackage +:+ u)) ->
  replacePackage data moduleName serverName =
  t +:+ newPackage +:+ u +:+ "go_package = " +:+ quoted (moduleName +:+ "/api/" +:+ serverName +:+ "/v1;v1") +:+ ";" +:+ nl +:+ v.
Proof.
  intros package data newPackage Hcr Hp Hn Hg Hgs Hg'. unfold replacePackage. rewrite Hcr. fold package newPackage.
  assert (find_span package ";" data = package +:+ n +:+ ";") as ->.
  { apply find_span_first; [done|exact Hp|]. clear - Hn. induction n as [|a n IH]; [done|]. apply no_char_cons in Hn as [Ha Hn].
    rewrite app_cons_s. cbn [Index HasPrefix]. rewrite bool_decide_eq_false_2 by done. cbn. by rewrite IH. }
  assert (find_span "go_package " (";" +:+ nl) data = "go_package " +:+ g +:+ (";" +:+ nl)) as ->.
  { assert (data = (t +:+ package +:+ n +:+ ";" +:+ u) +:+ "go_package " +:+ g +:+ (";" +:+ nl) +:+ v) as Hd
      by (unfold data; by rewrite !app_assoc_s).
    rewrite Hd in Hg |- *. by apply find_span_first. }
  rewrite bool_decide_eq_false_2 by done. rewrite bool_decide_eq_false_2 by done.
  assert (data = t +:+ (package +:+ n +:+ ";") +:+ (u +:+ "go_package " +:+ g +:+ (";" +:+ nl) +:+ v)) as Hd
    by (unfold data; by rewrite !app_assoc_s).
  assert (Index data (package +:+ n +:+ ";") = Some (str_len t)) as Hi.
  { rewrite Hd. apply Index_longer. rewrite <- Hp. f_equal. by rewrite Hd, !app_assoc_s. }
  rewrite Hd in Hi |- *. rewrite (Replace1_first _ _ _ _ Hi). fold newPackage.
  replace (t +:+ newPackage +:+ u +:+ "go_package " +:+ g +:+ (";" +:+ nl) +:+ v)
    with ((t +:+ newPackage +:+ u) +:+ ("go_package " +:+ g +:+ (";" +:+ nl)) +:+ v) by by rewrite !app_assoc_s.
  rewrite Replace1_first; [by rewrite !app_assoc_s|]. apply Index_longer. rewrite <- Hg'. f_equal. by rewrite !app_assoc_s.
Qed.

(** ** Imports of a mono-repo *)

(** A quoted text that begins with a directory of the module is moved below
    the server. *)
Definition moved (moduleName serverName : string) (dirs : list string) (s : string) : string :=
  if existsb (fun dir => HasPrefix s (moduleName +:+ dir)) dirs
  then moduleName +:+ "/" +:+ serverName +:+ str_drop (str_len moduleName) s else s.

Lemma HasPrefix_app_l m s p : HasPrefix (m +:+ s) (m +:+ p) = HasPrefix s p.
Proof. induction m as [|a m IH]; [done|]. rewrite !app_cons_s. cbn. by rewrite bool_decide_eq_true_2. Qed.
(** Of two texts with a common prefix one is a prefix of the other. *)
Lemma HasPrefix_common x y p : HasPrefix (x +:+ y) p = true -> HasPrefix x p = true \/ HasPrefix p x = true.
Proof.
  revert x. induction p as [|b p IH]; intros x; [by left|]. destruct x as [|a x]; [by right|]. rewrite app_cons_s. cbn.
  intros [Ha Hp]%andb_true_iff. apply bool_decide_eq_true in Ha as ->. destruct (IH x Hp) as [-> | ->]; rewrite bool_decide_eq_true_2 by done; auto.
Qed.

Lemma server_imports_step moduleName serverName dirs dir s :
  (forall d, d ∈ dirs -> HasPrefix ("/" +:+ serverName +:+ "/") d = false /\ HasPrefix d ("/" +:+ serverName +:+ "/") = false) ->
  HasPrefix dir "/" = true ->
  moved moduleName serverName dirs (after_sep (moduleName +:+ dir) (moduleName +:+ "/" +:+ serverName +:+ dir) s)
  = moved moduleName serverName (dir :: dirs) s.
Proof.
  intros Hd Hs. unfold after_sep, moved at 2. cbn [existsb]. destruct (HasPrefix s (moduleName +:+ dir)) eqn:E; [|done]. cbn [orb].
  apply HasPrefix_spec in E as [r ->]. rewrite drop_app, !app_assoc_s, drop_app. unfold moved.
  assert (existsb (fun d => HasPrefix (moduleName +:+ "/" +:+ serverName +:+ dir +:+ r) (moduleName +:+ d)) dirs = false) as ->; [|done].
  apply not_true_iff_false. intros (d & Hin & Hp)%existsb_exists. rewrite <- list_elem_of_In in Hin. rewrite HasPrefix_app_l in Hp.
  apply HasPrefix_spec in Hs as [dir' ->]. destruct (Hd d Hin) as [H1 H2].
  replace ("/" +:+ serverName +:+ ("/" +:+ dir') +:+ r) with (("/" +:+ serverName +:+ "/") +:+ (dir' +:+ r)) in Hp by by rewrite !app_assoc_s.
  apply HasPrefix_common in Hp as [?|?]; congruence.
Qed.

Lemma moved_nil moduleName serverName s : moved moduleName serverName [] s = s.
Proof. done. Qed.

Lemma server_imports moduleName serverName dirs : no_char dquote moduleName -> no_char dquote serverName -> Forall (no_char dquote) dirs ->
  (forall d, d ∈ dirs -> HasPrefix d "/" = true /\
     HasPrefix ("/" +:+ serverName +:+ "/") d = false /\ HasPrefix d ("/" +:+ serverName +:+ "/") = false) ->
  forall s0 parts, Forall (no_char dquote) (s0 :: parts) ->
  replace_data (map (server_import moduleName serverName) dirs) (Join (s0 :: parts) (single dquote)) =
  Join (s0 :: map (moved moduleName serverName dirs) parts) (single dquote).
Proof.
  intros Hm Hs Hds Hd. induction Hds as [|dir dirs Hdir Hds IH]; intros s0 parts Hp.
  - cbn [map]. rewrite (map_ext _ id) by done. by rewrite map_id.
  - cbn [map]. unfold replace_data in *. cbn [foldl server_import Old New]. unfold q.
    change (single dquote +:+ ?x) with (String dquote x). rewrite ReplaceAll_sep; [|by apply no_char_app|done].
    rewrite IH.
    + f_equal. f_equal. rewrite map_map. apply map_ext. intros s. apply server_imports_step; [|by apply Hd; left]. intros d Hin. apply Hd. by right.
    + intros d Hin. apply Hd. by right.
    + apply Forall_cons in Hp as [H0 Hp]. constructor; [done|]. apply Forall_fmap. eapply Forall_impl; [exact Hp|]. intros s Hns. unfold compose, after_sep.
      destruct (HasPrefix s _) eqn:E; [|done]. apply HasPrefix_spec in E as [r ->]. rewrite drop_app.
      assert (no_char dquote "/") by done. rewrite !no_char_app in *. tauto.
Qed.

(** In a mono-repo every quoted path of a text that is below internal, configs or api of the
    module is moved below the server, once, and nothing else changes, unless the server
    is named internal or its name begins like configs or api. *)
Theorem mono_repo_imports moduleName serverName s0 parts :
  no_char dquote moduleName -> no_char dquote serverName -> Forall (no_char dquote) (s0 :: parts) ->
  no_char slash serverName -> serverName <> "internal" -> HasPrefix serverName "configs" = false -> HasPrefix serverName "api" = false ->
  replace_data (SubServerCodeFields moduleName serverName) (Join (s0 :: parts) (single dquote)) =
  Join (s0 :: map (moved moduleName serverName ["/internal/"; "/configs"; "/api"]) parts) (single dquote).
Proof.
  intros Hm Hs Hp Hsl Hi Hc Ha. apply (server_imports moduleName serverName ["/internal/"; "/configs"; "/api"]); [done|done|by repeat constructor| |done].
  assert (forall s t, no_char slash s -> HasPrefix (s +:+ "/") t = true -> no_char slash t -> HasPrefix s t = true) as Hshort.
  { clear. intros s t Hs Ht Hn. change (s +:+ "/") with (s +:+ String slash "") in Ht. by rewrite HasPrefix_sep in Ht. }
  assert (forall t, no_char slash t -> HasPrefix t (serverName +:+ "/") = false) as Hlong.
  { clear - Hsl. intros t Ht. apply not_true_iff_false. intros [u ->]%HasPrefix_spec. apply no_char_app in Ht as [[_ Ht]%no_char_app _]. done. }
  assert (forall t, HasPrefix ("/" +:+ serverName +:+ "/") ("/" +:+ t) = HasPrefix (serverName +:+ "/") t) as H1 by done.
  assert (forall t, HasPrefix ("/" +:+ t) ("/" +:+ serverName +:+ "/") = HasPrefix t (serverName +:+ "/")) as H2 by done.
  intros d Hd. assert (d = "/" +:+ "internal/" \/ d = "/" +:+ "configs" \/ d = "/" +:+ "api") as Hcases by (rewrite !elem_of_cons in Hd; set_solver).
  destruct Hcases as [-> |[-> | ->]]; (split; [done|]); rewrite H1, H2.
  - split; apply not_true_iff_false; intros [u Hu]%HasPrefix_spec.
    + apply Hi. change "internal/" with ("internal" +:+ String slash "") in Hu. rewrite app_assoc_s in Hu.
      change (String slash "" +:+ u) with (String slash u) in Hu. change (serverName +:+ "/") with (serverName +:+ String slash "") in Hu.
      apply (f_equal (fun s => Split s slash)) in Hu. rewrite !Split_app_sep in Hu by done. by injection Hu.
    + apply Hi. change "internal/" with ("internal" +:+ String slash "") in Hu. rewrite app_assoc_s in Hu. change ("/" +:+ u) with (String slash u) in Hu.
      apply (f_equal (fun s => Split s slash)) in Hu. rewrite !Split_app_sep in Hu by done. by injection Hu.
  - split; [|by apply Hlong]. apply not_true_iff_false. intros H%Hshort; [congruence|done|done].
  - split; [|by apply Hlong]. apply not_true_iff_false. intros H%Hshort; [congruence|done|done].
Qed.

(** ** Texts to try it on *)

Example gen_info_roundtrip_witness :
  getNamesFromOutDir false ["home"] (fst (saveGenInfo false ["home"] (Dir [("home", Dir [])]) "github.com/me/shop" "order" true "order")) "order"
  = ("github.com/me/shop", "order", true).
Proof.
  apply (gen_info_roundtrip false ["home"] (Dir [("home", Dir [])]) _ "github.com/me/shop" "order" true "order"); [discriminate|reflexivity..].
Defined.

Definition sample_proto : string :=
  "syntax = " +:+ quoted "proto3" +:+ ";" +:+ nl +:+ "package old.v1;" +:+ nl +:+ "option go_package = " +:+ quoted "old;v1" +:+ ";" +:+ nl
  +:+ "service A {}" +:+ nl.
Example package_renamed_witness :
  replacePackage sample_proto "shop" "order" =
  ("syntax = " +:+ quoted "proto3" +:+ ";") +:+ (nl +:+ "package api." +:+ "order" +:+ ".v1;") +:+ (nl +:+ "option ")
  +:+ "go_package = " +:+ quoted ("shop" +:+ "/api/" +:+ "order" +:+ "/v1;v1") +:+ ";" +:+ nl +:+ ("service A {}" +:+ nl).
Proof.
  apply (package_renamed "shop" "order" ("syntax = " +:+ quoted "proto3" +:+ ";") "old.v1" (nl +:+ "option ") ("= " +:+ quoted "old;v1")
    ("service A {}" +:+ nl)); by vm_compute.
Defined.
(** A package on the first line keeps its name. *)
Example first_line_package_kept : replacePackage ("package old;" +:+ nl) "shop" "order" = "package old;" +:+ nl.
Proof. by vm_compute. Qed.
(** After a comment that mentions go_package the option keeps its value. *)
Example go_package_in_a_comment :
  let option_line := "option go_package = " +:+ quoted "old;v1" +:+ ";" +:+ nl in
  replacePackage ("// go_package is set below" +:+ nl +:+ "package old;" +:+ nl +:+ option_line) "shop" "order" =
  "// go_package is set below" +:+ nl +:+ "package api.order.v1;" +:+ nl +:+ option_line.
Proof. by vm_compute. Qed.

Definition sample_imports : list string := ["shop/internal/model"; nl; "shop/configs"; nl; "github.com/gin"; nl].
Example mono_repo_imports_witness :
  replace_data (SubServerCodeFields "shop" "order") (Join ("import " :: sample_imports) (single dquote)) =
  Join ("import " :: ["shop/order/internal/model"; nl; "shop/order/configs"; nl; "github.com/gin"; nl]) (single dquote).
Proof.
  change ["shop/order/internal/model"; nl; "shop/order/configs"; nl; "github.com/gin"; nl]
    with (map (moved "shop" "order" ["/internal/"; "/configs"; "/api"]) sample_imports).
  apply (mono_repo_imports "shop" "order" "import " sample_imports); [reflexivity|reflexivity|by repeat constructor|reflexivity|discriminate|reflexivity..].
Defined.
(** The imports of a server named apiserver are moved twice. *)
Example apiserver_imports_broken :
  replace_data (SubServerCodeFields "shop" "apiserver") (quoted "shop/internal/model") = quoted "shop/apiserver/apiserver/internal/model".
Proof. by vm_compute. Qed.

(** Nothing can be removed from an empty slice. *)
Example removeElements_panics : removeElements [] ["sponge/go.mod"] = Panic.
Proof. done. Qed.
(** For a service of its own the protobuf files are deleted after the move. *)
Example moved_protos_deleted :
  let d := Dir [("out", Dir [("api", Dir [("a.proto", File sample_proto)])])] in
  moveProtoFileToAPIDir false [] 5 d "shop" "order" false "/out" = Some (Dir [("out", Dir [])], Ok tt).
Proof. by vm_compute. Qed.
Example go_version_of_the_machine : getLocalGoVersion (Some "go version go1.26.2 linux/amd64") = "go 1.26.2" /\
  getLocalGoVersion (Some "go version go1.9 linux/amd64") = "go 1.25.1".
Proof. by vm_compute. Qed.

End GenCommon.
