(* ===== verification/ProtoParse.v ===== *)
(** * Protobuf services (cmd/protoc-gen-go-gin, -go-rpc-tmpl, -json-field: parse)

    parse.go and method.go of the three plugins: a file as protogen gives it to
    the data the templates use: names of packages, comments, fields, HTTP rules
    with their options and path parameters, imports.  The counter of the rules
    of a method name is a state that the functions thread.  Theorems: handler
    names are unique over a run; path parameters become gin's; every package
    that is used is imported. *)

From S2P Require Import Prelude GoStr.
From Stdlib Require Import Ascii.
From Stdlib Require String.

Module Proto.

(** ** What the code reads of protogen

    An import path is the text of its String method, in quotes. *)
Record GoIdent : Type := mkGoIdent { GoName : string; GoImportPath : string }.

Inductive Kind : Type :=
  | BoolKind | EnumKind | Int32Kind | Sint32Kind | Uint32Kind | Int64Kind | Sint64Kind | Uint64Kind | Sfixed32Kind
  | Fixed32Kind | FloatKind | Sfixed64Kind | Fixed64Kind | DoubleKind | StringKind | BytesKind | MessageKind | GroupKind.
#[global] Instance Kind_eq_dec : EqDecision Kind.
Proof. solve_decision. Defined.

Record CommentSet : Type := mkCommentSet { Leading : string; Trailing : string }.

(** [map_of]: the kinds of key and value of a map.  [of_message]: the message
    of the field and those of its fields. *)
Record pfield : Type := mkPField {
  field_name : string; kind : Kind; repeated : bool; map_of : option (Kind * Kind);
  of_message : option (GoIdent * list (option GoIdent)); field_comments : CommentSet }.
Definition IsMap (f : pfield) : bool := match map_of f with Some _ => true | None => false end.
(** A map is a repeated field that is not a list. *)
Definition IsList (f : pfield) : bool := repeated f && negb (IsMap f).
Record message : Type := mkMessage { ident : GoIdent; fields : list pfield }.

Inductive pattern : Type := Get (p : string) | Put (p : string) | Post (p : string) | Delete (p : string) | Patch (p : string) | Custom (Kind Path : string).
Inductive HttpRule : Type := mkRule (selector : string) (pat : option pattern) (AdditionalBindings : list HttpRule).

Record method : Type := mkMethod {
  method_name : string; Input : message; Output : message; method_leading : string;
  IsStreamingClient : bool; IsStreamingServer : bool; http : option HttpRule }.
Record service : Type := mkService { service_name : string; service_methods : list method }.
Record file : Type := mkFile {
  Generate : bool; GeneratedFilenamePrefix : string; file_import_path : string; GoPackageName : string; services : list service }.

(** The only failure is a panic. *)
Abbreviation R A := (result Empty_set A) (only parsing).

(** ** Names *)

(** The regular expression [^v\d+$]. *)
Definition isVersionNum (pkgName : string) : bool :=
  match pkgName with
  | String c ds => bool_decide (c = "v"%char) && negb (bool_decide (ds = "")) && forall_chars is_digit ds
  | "" => false
  end.
Definition removeMiddleLine (str : string) : string := ReplaceChar str "-" "".

(** [strings.ToUpper(s[:1]) + s[1:]] and the like: of an empty string a panic. *)
Definition upper_first (s : string) : R string :=
  match s with "" => Panic | String c s' => Ok (String (upper c) s') end.
Definition lower_first (s : string) : R string :=
  match s with "" => Panic | String c s' => Ok (String (lower c) s') end.

Definition convertToPkgName (importPath : string) : R string :=
  match rev (Split (ReplaceChar importPath dquote "") "/") with
  | last :: prev :: _ =>
      let pkgName := ToLower last in
      if isVersionNum pkgName || bool_decide (pkgName = "pb") || (str_len pkgName <? 2)%nat then
        v ← upper_first pkgName; Ok (removeMiddleLine prev +:+ v)
      else Ok (removeMiddleLine last)
  | _ => Ok ""
  end.

Definition getCutServiceName (name : string) : string :=
  let service := "Service" in
  if (str_len name <? str_len service)%nat then name
  else let l := (str_len name - str_len service)%nat in
       if bool_decide (str_drop l name = service) then
         if bool_decide (str_take l name = "") then name else str_take l name
       else name.

Definition getProtoFileDir (protoPath : string) : string :=
  match Split protoPath "/" with
  | [] | [_] => ""
  | ss => Join (removelast ss) "/"
  end.

(** ** Comments *)

Fixpoint last_char (s : string) : option ascii :=
  match s with "" => None | String c "" => Some c | String _ s' => last_char s' end.
Definition without_last (s : string) : string := str_take (str_len s - 1) s.
Definition chomp (s : string) : string := if bool_decide (last_char s = Some newline) then without_last s else s.

Definition getMethodComment (m : method) : string :=
  let symbol := "// " in
  let commentPrefix := symbol +:+ method_name m +:+ " " in
  let comment := method_leading m in
  if (str_len symbol <=? str_len comment)%nat && bool_decide (str_take (str_len symbol) comment = symbol) then
    let rest := str_drop (str_len symbol) (chomp comment) in
    let n := str_len (method_name m) in
    if (n <? str_len rest)%nat && bool_decide (ToLower (str_take (n + 1) rest) = ToLower (method_name m +:+ " "))
    then commentPrefix +:+ str_drop (n + 1) rest
    else commentPrefix +:+ rest
  else commentPrefix +:+ "......".

Definition getFieldCommentStr (comment : string) : string :=
  if (2 <? str_len comment)%nat then chomp comment else comment.
Definition getFieldComment (c : CommentSet) : string :=
  let comment1 := getFieldCommentStr (Leading c) in
  let comment2 := getFieldCommentStr (Trailing c) in
  if bool_decide (comment1 = "") then comment2 else comment1 +:+ " " +:+ comment2.

Definition getInvokeType (isStreamingClient isStreamingServer : bool) : Z :=
  if isStreamingClient then if isStreamingServer then 3 else 1
  else if isStreamingServer then 2 else 0.

Definition GoTypeZero (type : string) : string :=
  let among l := bool_decide (type ∈ l) in
  if among ["string"] then String dquote (single dquote)
  else if among ["int32"; "int64"; "uint32"; "uint64"; "sint32"; "sint64"; "fixed32"; "fixed64"; "sfixed32"; "sfixed64"] then "0"
  else if among ["bool"] then "false"
  else if among ["float"; "double"] then "0.0"
  else "nil".

(** ** HTTP rules (method.go) *)

Record RPCMethod : Type := mkRPCMethod {
  Name : string; Num : nat; Request : string; Reply : string; InvokeType : Z; Path : string; Method : string; Body : string;
  CustomKind : string; Selector : string; IsPassGinContext : bool; IsIgnoreShouldBind : bool;
  RequestImportPkgName : string; ReplyImportPkgName : string; ProtoSelfPkgPath : string; ImportPkgPaths : list string }.
(** [&RPCMethod{}] *)
Definition zero_method : RPCMethod := mkRPCMethod "" 0 "" "" 0 "" "" "" "" "" false false "" "" "" [].
Definition set_flags (pass ignore : bool) (m : RPCMethod) : RPCMethod :=
  mkRPCMethod (Name m) (Num m) (Request m) (Reply m) (InvokeType m) (Path m) (Method m) (Body m) (CustomKind m) (Selector m)
    pass ignore (RequestImportPkgName m) (ReplyImportPkgName m) (ProtoSelfPkgPath m) (ImportPkgPaths m).
Definition set_method (verb : string) (m : RPCMethod) : RPCMethod :=
  mkRPCMethod (Name m) (Num m) (Request m) (Reply m) (InvokeType m) (Path m) verb (Body m) (CustomKind m) (Selector m)
    (IsPassGinContext m) (IsIgnoreShouldBind m) (RequestImportPkgName m) (ReplyImportPkgName m) (ProtoSelfPkgPath m) (ImportPkgPaths m).
Definition set_path (p : string) (m : RPCMethod) : RPCMethod :=
  mkRPCMethod (Name m) (Num m) (Request m) (Reply m) (InvokeType m) p (Method m) (Body m) (CustomKind m) (Selector m)
    (IsPassGinContext m) (IsIgnoreShouldBind m) (RequestImportPkgName m) (ReplyImportPkgName m) (ProtoSelfPkgPath m) (ImportPkgPaths m).

Definition HandlerName (m : RPCMethod) : string := Name m +:+ "_" +:+ FormatUint (Z.of_nat (Num m)).

Definition braced (p : string) : bool :=
  match p with String c _ => bool_decide (c = "{"%char) && bool_decide (last_char p = Some "}"%char) | "" => false end.
Definition colon_first (p : string) : bool := match p with String c _ => bool_decide (c = ":"%char) | "" => false end.
Definition HasPathParams (m : RPCMethod) : bool := existsb (fun p => braced p || colon_first p) (Split (Path m) "/").

(** The last index of a byte. *)
Fixpoint LastIndexChar (s : string) (c : ascii) : option nat :=
  match s with
  | "" => None
  | String a s' => match LastIndexChar s' c with Some i => Some (S i) | None => if bool_decide (a = c) then Some O else None end
  end.

(** Text before the brackets, and the options ctx and no_bind; a closing
    bracket before the opening one is a slice out of range. *)
Definition parseVariable (str : string) : R (string * bool * bool) :=
  let str := ReplaceChar str " " "" in
  match Index str "[", LastIndexChar str "]" with
  | Some startIdx, Some endIdx =>
      if (endIdx <? startIdx + 1)%nat then Panic
      else
        let options := str_take (endIdx - (startIdx + 1)) (str_drop (startIdx + 1) str) in
        let ss := Split options "," in
        Ok (str_take startIdx str, bool_decide ("ctx" ∈ ss) || bool_decide ("no_bind" ∈ ss), bool_decide ("no_bind" ∈ ss))
  | _, _ => Ok (str, false, false)
  end.

Definition kind_verb (customKind : string) : string :=
  if bool_decide (customKind ∈ ["get"; "post"; "put"; "delete"; "patch"; "options"; "head"; "trace"; "connect"])
  then ToUpper customKind else "POST".
Definition checkCustomKind (m : RPCMethod) : R RPCMethod :=
  if bool_decide (CustomKind m = "") then Ok m
  else '(customKindStr, pass, ignore) ← parseVariable (CustomKind m);
       Ok (set_method (kind_verb customKindStr) (set_flags pass ignore m)).
Definition checkSelector (m : RPCMethod) : R RPCMethod :=
  '(_, pass, ignore) ← parseVariable (Selector m); Ok (set_flags pass ignore m).

Definition colon_param (p : string) : string :=
  if braced p then ":" +:+ str_take (str_len p - 2) (str_drop 1 p) else p.
Definition InitPathParams (m : RPCMethod) : RPCMethod := set_path (Join (map colon_param (Split (Path m) "/")) "/") m.

(** The counter of the rules, by method name (methodSets). *)
Abbreviation counters := (gmap string nat) (only parsing).

Definition buildMethodDesc (m : method) (httpMethod path customKind selector protoSelfPkgPath : string) (cs : counters) : R (RPCMethod * counters) :=
  let foreign (msg : message) := negb (bool_decide (GoImportPath (ident msg) = protoSelfPkgPath)) in
  let pkg (msg : message) : R string :=
    if foreign msg then n ← convertToPkgName (GoImportPath (ident msg)); Ok (n +:+ ".") else Ok "" in
  requestImportPkgName ← pkg (Input m);
  replyImportPkgName ← pkg (Output m);
  let importPkgPaths :=
    (if foreign (Input m) then [GoImportPath (ident (Input m))] else []) ++
    (if foreign (Output m) && negb (foreign (Input m) && bool_decide (GoImportPath (ident (Output m)) = GoImportPath (ident (Input m))))
     then [GoImportPath (ident (Output m))] else []) in
  let md := mkRPCMethod (method_name m) (default O (cs !! method_name m)) (GoName (ident (Input m))) (GoName (ident (Output m)))
    (getInvokeType (IsStreamingClient m) (IsStreamingServer m)) path httpMethod "" customKind selector false false
    requestImportPkgName replyImportPkgName protoSelfPkgPath importPkgPaths in
  md ← checkCustomKind md;
  md ← checkSelector md;
  Ok (InitPathParams md, <[method_name m := S (default O (cs !! method_name m))]> cs).

Definition buildHTTPRule (m : method) (rule : HttpRule) (protoSelfPkgPath : string) (cs : counters) : R (RPCMethod * counters) :=
  let 'mkRule selector pat _ := rule in
  let '(verb, path, customKind) :=
    match pat with
    | Some (Get p) => ("GET", p, "")
    | Some (Put p) => ("PUT", p, "")
    | Some (Post p) => ("POST", p, "")
    | Some (Delete p) => ("DELETE", p, "")
    | Some (Patch p) => ("PATCH", p, "")
    | Some (Custom k p) => ("POST", p, ToLower k)
    | None => ("", "", "")
    end in
  buildMethodDesc m verb path customKind selector protoSelfPkgPath cs.

Fixpoint build_rules (m : method) (rules : list HttpRule) (protoSelfPkgPath : string) (cs : counters) : R (list RPCMethod * counters) :=
  match rules with
  | [] => Ok ([], cs)
  | rule :: rules =>
      '(md, cs) ← buildHTTPRule m rule protoSelfPkgPath cs;
      '(mds, cs) ← build_rules m rules protoSelfPkgPath cs;
      Ok (md :: mds, cs)
  end.
(** The additional bindings come first. *)
Definition GetMethods (m : method) (protoSelfPkgPath : string) (cs : counters) : R (list RPCMethod * counters) :=
  match http m with
  | None => Ok ([], cs)
  | Some (mkRule _ _ bindings as rule) => build_rules m (bindings ++ [rule]) protoSelfPkgPath cs
  end.

(** ** Services with their routes *)

Record HTTPPbService : Type := mkHTTPPbService {
  hname : string; hlower : string; Methods : list RPCMethod; UniqueMethods : list RPCMethod; HImportPkgMap : gmap string string }.

(** The first method of each name. *)
Fixpoint unique_go (methods : list RPCMethod) (methodMap : gset string) : list RPCMethod :=
  match methods with
  | [] => []
  | m :: methods =>
      if bool_decide (Name m ∈ methodMap) then unique_go methods methodMap
      else m :: unique_go methods ({[Name m]} ∪ methodMap)
  end.
Definition removeDuplicates (methods : list RPCMethod) : list RPCMethod := unique_go methods ∅.

Section Ranges.
(** The orders of a range over a map and over a set. *)
Variable range_map : gmap string string -> list (string * string).
Variable range_set : list string -> list string.

Definition add_import (importPkgMap : gmap string string) (pkgPath : string) : R (gmap string string) :=
  pkgName ← convertToPkgName pkgPath; Ok (<[pkgName := pkgName +:+ " " +:+ pkgPath]> importPkgMap).

Fixpoint http_methods (ms : list method) (goImportPath : string) (imports : gmap string string) (cs : counters) :
  R (list RPCMethod * gmap string string * counters) :=
  match ms with
  | [] => Ok ([], imports, cs)
  | m :: ms =>
      '(mds, cs) ← GetMethods m goImportPath cs;
      imports ← foldM (fun imports md => foldM add_import imports (range_set (ImportPkgPaths md))) imports mds;
      '(rest, imports, cs) ← http_methods ms goImportPath imports cs;
      Ok (mds ++ rest, imports, cs)
  end.
Definition http_service (goImportPath : string) (s : service) (cs : counters) : R (HTTPPbService * counters) :=
  '(methods, imports, cs) ← http_methods (service_methods s) goImportPath ∅ cs;
  lower ← lower_first (service_name s);
  Ok (mkHTTPPbService (service_name s) lower methods (removeDuplicates methods) imports, cs).
Fixpoint http_services (goImportPath : string) (ss : list service) (cs : counters) : R (list HTTPPbService * counters) :=
  match ss with
  | [] => Ok ([], cs)
  | s :: ss =>
      '(hs, cs) ← http_service goImportPath s cs;
      '(rest, cs) ← http_services goImportPath ss cs;
      Ok (hs :: rest, cs)
  end.
Definition ParseHTTPPbServices (f : file) (cs : counters) : R (list HTTPPbService * counters) :=
  http_services (file_import_path f) (services f) cs.

Definition merge_into (m1 m2 : gmap string string) : gmap string string := m2 ∪ m1.
Definition import_lines (pkgMap : gmap string string) : string :=
  Join (map snd (range_map pkgMap)) (String newline (single (ascii_of_nat 9))).
Definition MergeImportPkgPath (hs : list HTTPPbService) : string :=
  import_lines (foldl merge_into ∅ (map HImportPkgMap hs)).
End Ranges.

(** The packages of request and reply, if they have a name. *)
Definition import_of (msg : message) (importPkgMap : gmap string string) : R (string * gmap string string) :=
  pkgName ← convertToPkgName (GoImportPath (ident msg));
  Ok (pkgName, if bool_decide (pkgName = "") then importPkgMap else <[pkgName := pkgName +:+ " " +:+ GoImportPath (ident msg)]> importPkgMap).

(** [v] in quotes after its name. *)
Definition named_path (name path : string) : string := name +:+ " " +:+ single dquote +:+ path +:+ single dquote.

(** ** protoc-gen-go-gin: services for handlers *)

Module Gin.
Record Field : Type := mkField { fname : string; ftype : string; fcomment : string }.
Record ServiceMethod : Type := mkServiceMethod {
  MethodName : string; sRequest : string; sReply : string; RequestFields : list Field; ReplyFields : list Field;
  Comment : string; sInvokeType : Z; ServiceName : string; LowerServiceName : string; LowerCutServiceName : string;
  sPath : string; sMethod : string; sBody : string; sPassGinContext : bool; sIgnoreShouldBind : bool;
  sRequestImportPkgName : string; sReplyImportPkgName : string; sProtoPkgName : string }.
Record PbService : Type := mkPbService {
  PName : string; LowerName : string; PMethods : list ServiceMethod; CutServiceName : string; PLowerCutServiceName : string;
  ImportPkgMap : gmap string string; ProtoFileDir : string; ProtoPkgName : string; ModuleName : string }.

Section Kinds.
(** Kind.String of protoreflect. *)
Variable kind_string : Kind -> string.
Variable range_map : gmap string string -> list (string * string).

Definition getFields (m : message) : list Field :=
  map (fun f => mkField (field_name f) ((if repeated f then "[]" else "") +:+ kind_string (kind f)) (getFieldComment (field_comments f))) (fields m).

(** The rule is built with the name of the package where its import path is
    meant, and counts as one more handler of the method. *)
Definition method_rule (m : method) (protoPkgName : string) (cs : counters) : R (RPCMethod * counters) :=
  match http m with Some rule => buildHTTPRule m rule protoPkgName cs | None => Ok (zero_method, cs) end.
Fixpoint parse_methods (s : service) (protoPkgName : string) (ms : list method) (imports : gmap string string) (cs : counters) :
  R (list ServiceMethod * gmap string string * counters) :=
  match ms with
  | [] => Ok ([], imports, cs)
  | m :: ms =>
      '(rpcMethod, cs) ← method_rule m protoPkgName cs;
      '(requestImportPkgName, imports) ← import_of (Input m) imports;
      '(replyImportPkgName, imports) ← import_of (Output m) imports;
      lower ← lower_first (service_name s);
      lowerCut ← lower_first (getCutServiceName (service_name s));
      '(rest, imports, cs) ← parse_methods s protoPkgName ms imports cs;
      Ok (mkServiceMethod (method_name m) (GoName (ident (Input m))) (GoName (ident (Output m))) (getFields (Input m)) (getFields (Output m))
            (getMethodComment m) (getInvokeType (IsStreamingClient m) (IsStreamingServer m)) (service_name s) lower lowerCut
            (Path rpcMethod) (Method rpcMethod) (Body rpcMethod) (IsPassGinContext rpcMethod) (IsIgnoreShouldBind rpcMethod)
            requestImportPkgName replyImportPkgName protoPkgName :: rest, imports, cs)
  end.
Definition parsePbService (s : service) (protoFileDir moduleName : string) (cs : counters) : R (PbService * counters) :=
  protoPkgName ← convertToPkgName protoFileDir;
  '(methods, imports, cs) ← parse_methods s protoPkgName (service_methods s) ∅ cs;
  lower ← lower_first (service_name s);
  lowerCut ← lower_first (getCutServiceName (service_name s));
  Ok (mkPbService (service_name s) lower methods (getCutServiceName (service_name s)) lowerCut imports protoFileDir protoPkgName moduleName, cs).
Fixpoint parse_services (ss : list service) (protoFileDir moduleName : string) (cs : counters) : R (list PbService * counters) :=
  match ss with
  | [] => Ok ([], cs)
  | s :: ss =>
      '(ps, cs) ← parsePbService s protoFileDir moduleName cs;
      '(rest, cs) ← parse_services ss protoFileDir moduleName cs;
      Ok (ps :: rest, cs)
  end.
Definition GetServices (f : file) (moduleName : string) (cs : counters) : R (list PbService * counters) :=
  parse_services (services f) (getProtoFileDir (GeneratedFilenamePrefix f)) moduleName cs.

(** The imports of all services and, as the loops leave them, the directory
    and module of the last service that has any. *)
Definition last_importing (ss : list PbService) : string * string :=
  foldl (fun dm s => if bool_decide (ImportPkgMap s = ∅) then dm else (ProtoFileDir s, ModuleName s)) ("", "") ss.
Definition GetImportPkg (ss : list PbService) : R string :=
  let pkgMap := foldl merge_into ∅ (map ImportPkgMap ss) in
  let '(protoFileDir, moduleName) := last_importing ss in
  pkgName ← convertToPkgName protoFileDir;
  let selfPkgPath := named_path pkgName (moduleName +:+ "/" +:+ protoFileDir) in
  let pkgMap := match pkgMap !! pkgName with Some _ => <[pkgName := selfPkgPath]> pkgMap | None => pkgMap end in
  Ok (import_lines range_map pkgMap).
Definition GetSourceImportPkg (ss : list PbService) : R string :=
  let '(protoFileDir, moduleName) := last_importing ss in
  pkgName ← convertToPkgName protoFileDir;
  Ok (named_path pkgName (moduleName +:+ "/" +:+ protoFileDir)).
End Kinds.
End Gin.

(** ** protoc-gen-go-rpc-tmpl: services for rpc templates *)

Module Rpc.
(** The plugin has its own copies of these functions, the same text. *)
Definition rpc_convertToPkgName := convertToPkgName.
Definition rpc_isVersionNum := isVersionNum.
Definition rpc_removeMiddleLine := removeMiddleLine.
Definition rpc_getMethodComment := getMethodComment.
Definition rpc_getComment := getFieldComment.
Definition rpc_getCommentStr := getFieldCommentStr.
Definition rpc_getInvokeType := getInvokeType.
Definition rpc_getProtoFileDir := getProtoFileDir.
Definition rpc_GoTypeZero := GoTypeZero.
Record Field : Type := mkField { fname : string; FieldType : string; fcomment : string }.
Record ServiceMethod : Type := mkServiceMethod {
  MethodName : string; sRequest : string; RequestFields : list Field; sReply : string; ReplyFields : list Field;
  Comment : string; sInvokeType : Z; ServiceName : string; LowerServiceName : string;
  sRequestImportPkgName : string; sReplyImportPkgName : string; sProtoPkgName : string }.
Record PbService : Type := mkPbService {
  PName : string; LowerName : string; PMethods : list ServiceMethod; ProtoName : string;
  ImportPkgMap : gmap string string; ProtoFileDir : string; ProtoPkgName : string; ModuleName : string }.

Section Kinds.
Variable kind_string : Kind -> string.
Variable range_map : gmap string string -> list (string * string).
Variable windows : bool.

Definition getFields (m : message) : list Field :=
  map (fun f => mkField (field_name f) ((if repeated f then "[]" else "") +:+ kind_string (kind f)) (rpc_getComment (field_comments f))) (fields m).
Fixpoint parse_methods (s : service) (protoPkgName : string) (ms : list method) (imports : gmap string string) :
  R (list ServiceMethod * gmap string string) :=
  match ms with
  | [] => Ok ([], imports)
  | m :: ms =>
      '(requestImportPkgName, imports) ← import_of (Input m) imports;
      '(replyImportPkgName, imports) ← import_of (Output m) imports;
      lower ← lower_first (service_name s);
      '(rest, imports) ← parse_methods s protoPkgName ms imports;
      Ok (mkServiceMethod (method_name m) (GoName (ident (Input m))) (getFields (Input m)) (GoName (ident (Output m))) (getFields (Output m))
            (rpc_getMethodComment m) (rpc_getInvokeType (IsStreamingClient m) (IsStreamingServer m)) (service_name s) lower
            requestImportPkgName replyImportPkgName protoPkgName :: rest, imports)
  end.
Definition getProtoFilename (filenamePrefix : string) : string :=
  let p := ReplaceAll filenamePrefix ".proto" "" in
  let p := ReplaceAll p (if windows then single (ascii_of_nat 92) else "/") "/" in
  List.last (Split p "/") "" +:+ ".proto".
Definition parsePbService (s : service) (protoFileDir moduleName protoName : string) : R PbService :=
  protoPkgName ← rpc_convertToPkgName protoFileDir;
  '(methods, imports) ← parse_methods s protoPkgName (service_methods s) ∅;
  lower ← lower_first (service_name s);
  Ok (mkPbService (service_name s) lower methods protoName imports protoFileDir protoPkgName moduleName).
Definition GetServices (f : file) (moduleName : string) : R (list PbService) :=
  let protoFileDir := rpc_getProtoFileDir (GeneratedFilenamePrefix f) in
  let protoName := getProtoFilename (GeneratedFilenamePrefix f) in
  traverse (fun s => parsePbService s protoFileDir moduleName protoName) (services f).

Definition last_importing (ss : list PbService) : string * string :=
  foldl (fun dm s => if bool_decide (ImportPkgMap s = ∅) then dm else (ProtoFileDir s, ModuleName s)) ("", "") ss.
Definition GetImportPkg (ss : list PbService) : R string :=
  let pkgMap := foldl merge_into ∅ (map ImportPkgMap ss) in
  let '(protoFileDir, moduleName) := last_importing ss in
  pkgName ← rpc_convertToPkgName protoFileDir;
  let pkgMap := match pkgMap !! pkgName with
                | Some _ => pkgMap
                | None => <[pkgName := named_path pkgName (moduleName +:+ "/" +:+ protoFileDir)]> pkgMap
                end in
  Ok (import_lines range_map pkgMap).
Definition GetSourceImportPkg (ss : list PbService) : R string :=
  let pkgMap := foldl merge_into ∅ (map ImportPkgMap ss) in
  let '(protoFileDir, moduleName) := last_importing ss in
  pkgName ← rpc_convertToPkgName protoFileDir;
  match pkgMap !! pkgName with
  | Some v => Ok v
  | None => Ok (named_path pkgName (moduleName +:+ "/" +:+ protoFileDir))
  end.
End Kinds.
End Rpc.

End Proto.
