(* ===== verification/ProtoFacts.v ===== *)
(** * Facts about protobuf services

    Handler names are unique over a run, path parameters become gin's, the
    packages that are used are imported; what modelling showed. *)

From S2P Require Import Prelude GoStr ProtoParse.
From Stdlib Require Import Ascii.
From Stdlib Require String.

Module ProtoFacts.
Import Proto.

(** ** Handler names *)

Lemma underscore_not_digits s d : forall_chars is_digit (s +:+ String "_" d) = false.
Proof. rewrite forall_chars_app. cbn. by rewrite andb_false_r. Qed.

Lemma numbered_inj n1 n2 d1 d2 :
  forall_chars is_digit d1 = true -> forall_chars is_digit d2 = true ->
  n1 +:+ String "_" d1 = n2 +:+ String "_" d2 -> n1 = n2 /\ d1 = d2.
Proof.
  intros H1 H2. revert n2. induction n1 as [|a n1 IH]; intros [|b n2]; cbn.
  - by intros [= ->].
  - intros [= <- ->]. by rewrite underscore_not_digits in H1.
  - intros [= -> <-]. by rewrite underscore_not_digits in H2.
  - intros [= -> [-> ->]%IH]. done.
Qed.

Lemma FormatUint_inj n m : FormatUint (Z.of_nat n) = FormatUint (Z.of_nat m) -> n = m.
Proof.
  intros Heq. pose proof (digits_value_FormatUint (Z.of_nat n)) as Hn. rewrite Heq, digits_value_FormatUint in Hn by lia.
  injection (Hn ltac:(lia)). lia.
Qed.

Lemma HandlerName_inj m1 m2 : HandlerName m1 = HandlerName m2 -> (Name m1, Num m1) = (Name m2, Num m2).
Proof.
  unfold HandlerName. cbn [String.append]. intros [-> Hn]%numbered_inj; [|by apply FormatUint_digits; lia..].
  by apply FormatUint_inj in Hn as ->.
Qed.

Definition count (cs : counters) (n : string) : nat := default O (cs !! n).
(** From [cs] to [cs'] the methods [ms] were numbered. *)
Definition numbered (cs cs' : counters) (ms : list RPCMethod) : Prop :=
  (forall n, (count cs n <= count cs' n)%nat) /\
  Forall (fun m => (count cs (Name m) <= Num m < count cs' (Name m))%nat) ms /\
  NoDup (map (fun m => (Name m, Num m)) ms).

Lemma numbered_nil cs : numbered cs cs [].
Proof. repeat split; [done|constructor|constructor]. Qed.

Lemma numbered_app cs cs1 cs2 ms1 ms2 : numbered cs cs1 ms1 -> numbered cs1 cs2 ms2 -> numbered cs cs2 (ms1 ++ ms2).
Proof.
  intros (Hle1 & Hb1 & Hn1) (Hle2 & Hb2 & Hn2). rewrite Forall_forall in Hb1, Hb2. repeat split.
  - intros n. etrans; [apply Hle1|apply Hle2].
  - apply Forall_app. split; apply Forall_forall.
    + intros m Hm. specialize (Hb1 m Hm). specialize (Hle2 (Name m)). lia.
    + intros m Hm. specialize (Hb2 m Hm). specialize (Hle1 (Name m)). lia.
  - rewrite map_app. apply NoDup_app. split; [done|]. split; [|done].
    intros [n k] (m1 & [= -> ->] & Hm1)%list_elem_of_fmap (m2 & [= Hname Hnum] & Hm2)%list_elem_of_fmap.
    specialize (Hb1 m1 Hm1). specialize (Hb2 m2 Hm2). rewrite <- Hname, <- Hnum in Hb2. lia.
Qed.

(** The methods of a suffix only, for what is built and not served. *)
Lemma numbered_drop cs cs' ms1 ms2 : numbered cs cs' (ms1 ++ ms2) -> numbered cs cs' ms1.
Proof.
  intros (Hle & Hb & Hn). rewrite Forall_app in Hb. rewrite map_app, NoDup_app in Hn. by destruct Hb, Hn.
Qed.

Lemma checkSelector_name m m' : checkSelector m = Ok m' -> Name m' = Name m /\ Num m' = Num m.
Proof. unfold checkSelector. destruct (parseVariable _) as [[[]]| |]; cbn; [|done..]. by intros [= <-]. Qed.
Lemma checkCustomKind_name m m' : checkCustomKind m = Ok m' -> Name m' = Name m /\ Num m' = Num m.
Proof.
  unfold checkCustomKind. case_bool_decide; [by intros [= <-]|].
  destruct (parseVariable _) as [[[]]| |]; cbn; [|done..]. by intros [= <-].
Qed.

Lemma buildMethodDesc_numbered m verb path ck sel self cs md cs' :
  buildMethodDesc m verb path ck sel self cs = Ok (md, cs') -> numbered cs cs' [md].
Proof.
  unfold buildMethodDesc. intros Hm. ok_inv.
  match goal with Hs : checkSelector _ = Ok _, Hc : checkCustomKind _ = Ok _ |- _ =>
    apply checkSelector_name in Hs as [Hs1 Hs2]; apply checkCustomKind_name in Hc as [Hc1 Hc2] end. cbn in Hc1, Hc2.
  assert (forall n, count (<[method_name m := S (count cs (method_name m))]> cs) n =
    if decide (n = method_name m) then S (count cs n) else count cs n) as Hcount.
  { intros n. unfold count at 1. destruct (decide (n = method_name m)) as [-> |Hne]; [by rewrite lookup_insert_eq|by rewrite lookup_insert_ne]. }
  repeat split; cbn.
  - intros n. rewrite Hcount. destruct (decide _); lia.
  - constructor; [|constructor]. cbn. rewrite Hcount, Hs1, Hc1, Hs2, Hc2, decide_True by done. unfold count. lia.
  - constructor; [by intros ?%elem_of_nil|constructor].
Qed.

Lemma buildHTTPRule_numbered m rule self cs md cs' : buildHTTPRule m rule self cs = Ok (md, cs') -> numbered cs cs' [md].
Proof. destruct rule as [sel [[]|] bs]; apply buildMethodDesc_numbered. Qed.

Lemma build_rules_numbered m rules self : forall cs mds cs', build_rules m rules self cs = Ok (mds, cs') -> numbered cs cs' mds.
Proof.
  induction rules as [|rule rules IH]; intros cs mds cs' Hb; cbn in Hb; [injection Hb as <- <-; apply numbered_nil|].
  apply bind_ok in Hb as ([md cs1] & H1 & Hb). apply bind_ok in Hb as ([mds2 cs2] & H2 & Hb). injection Hb as <- <-.
  eapply (numbered_app _ _ _ [md]); [by eapply buildHTTPRule_numbered|by eapply IH].
Qed.

Lemma GetMethods_numbered m self cs mds cs' : GetMethods m self cs = Ok (mds, cs') -> numbered cs cs' mds.
Proof.
  unfold GetMethods. destruct (http m) as [[sel pat bs]|]; [apply build_rules_numbered|].
  intros [= <- <-]. apply numbered_nil.
Qed.

Section Run.
Variable range_set : list string -> list string.
Variable kind_string : Kind -> string.

Lemma http_methods_numbered self ms : forall imports cs mds imports' cs',
  http_methods range_set ms self imports cs = Ok (mds, imports', cs') -> numbered cs cs' mds.
Proof.
  induction ms as [|m ms IH]; intros imports cs mds imports' cs' Hb; cbn in Hb; [injection Hb as <- <- <-; apply numbered_nil|].
  apply bind_ok in Hb as ([md1 cs1] & H1 & Hb). apply bind_ok in Hb as (i1 & _ & Hb).
  apply bind_ok in Hb as ([[mds2 i2] cs2] & H2 & Hb). injection Hb as <- <- <-.
  eapply numbered_app; [by eapply GetMethods_numbered|by eapply IH].
Qed.

Lemma http_services_numbered self ss : forall cs hs cs',
  http_services range_set self ss cs = Ok (hs, cs') -> numbered cs cs' (concat (map Methods hs)).
Proof.
  induction ss as [|s ss IH]; intros cs hs cs' Hb; cbn in Hb; [injection Hb as <- <-; apply numbered_nil|].
  apply bind_ok in Hb as ([h cs1] & H1 & Hb). apply bind_ok in Hb as ([hs2 cs2] & H2 & Hb). injection Hb as <- <-.
  unfold http_service in H1. apply bind_ok in H1 as ([[mds i] cs1'] & Hm & H1). ok_inv. cbn.
  eapply numbered_app; [by eapply http_methods_numbered|by eapply IH].
Qed.

Lemma parse_methods_numbered s pkg ms : forall imports cs sms imports' cs',
  Gin.parse_methods kind_string s pkg ms imports cs = Ok (sms, imports', cs') -> numbered cs cs' [].
Proof.
  induction ms as [|m ms IH]; intros imports cs sms imports' cs' Hb; cbn in Hb; [injection Hb as <- <- <-; apply numbered_nil|].
  apply bind_ok in Hb as ([md cs1] & H1 & Hb).
  apply bind_ok in Hb as ([n1 i1] & _ & Hb). apply bind_ok in Hb as ([n2 i2] & _ & Hb).
  apply bind_ok in Hb as (l1 & _ & Hb). apply bind_ok in Hb as (l2 & _ & Hb).
  apply bind_ok in Hb as ([[r i3] cs2] & H2 & Hb). injection Hb as <- <- <-.
  eapply (numbered_app _ _ _ [] []); [|by eapply IH]. unfold Gin.method_rule in H1.
  destruct (http m); [|injection H1 as <- <-; apply numbered_nil].
  by eapply (numbered_drop _ _ [] [md]), buildHTTPRule_numbered.
Qed.

Lemma parse_services_numbered ss dir md : forall cs ps cs',
  Gin.parse_services kind_string ss dir md cs = Ok (ps, cs') -> numbered cs cs' [].
Proof.
  induction ss as [|s ss IH]; intros cs ps cs' Hb; cbn in Hb; [injection Hb as <- <-; apply numbered_nil|].
  apply bind_ok in Hb as ([p cs1] & H1 & Hb). apply bind_ok in Hb as ([r cs2] & H2 & Hb). injection Hb as <- <-.
  unfold Gin.parsePbService in H1. apply bind_ok in H1 as (n & _ & H1). apply bind_ok in H1 as ([[ms i] cs1'] & Hm & H1). ok_inv.
  eapply (numbered_app _ _ _ [] []); [by eapply parse_methods_numbered|by eapply IH].
Qed.

(** What a run of the plugin parses of one file, then of all: the routes, then
    the services of the handlers. *)
Definition parse_file (moduleName : string) (acc : list HTTPPbService * counters) (f : file) : R (list HTTPPbService * counters) :=
  '(hs, cs) ← ParseHTTPPbServices range_set f (snd acc);
  '(_, cs) ← Gin.GetServices kind_string f moduleName cs;
  Ok (fst acc ++ hs, cs).
Definition all_methods (hs : list HTTPPbService) : list RPCMethod := concat (map Methods hs).

Lemma parse_files_numbered moduleName fs : forall hs0 cs0 cs hs cs',
  numbered cs0 cs (all_methods hs0) -> foldM (parse_file moduleName) (hs0, cs) fs = Ok (hs, cs') ->
  numbered cs0 cs' (all_methods hs).
Proof.
  induction fs as [|f fs IH]; intros hs0 cs0 cs hs cs' Hn Hr; cbn in Hr; [by injection Hr as <- <-|].
  apply bind_ok in Hr as ([hs1 cs1] & H1 & Hr). eapply IH; [|exact Hr].
  unfold parse_file in H1. apply bind_ok in H1 as ([h c1] & Hh & H1). apply bind_ok in H1 as ([p c2] & Hp & H1).
  injection H1 as <- <-. cbn. unfold all_methods. rewrite map_app, concat_app.
  eapply numbered_app; [exact Hn|]. rewrite <- (app_nil_r (concat (map Methods h))).
  eapply numbered_app; [by eapply http_services_numbered|by eapply parse_services_numbered].
Qed.
End Run.

(** in one run of protoc-gen-go-gin, over any files, no two routes have a
    handler of the same name, although the numbers of a method's routes are
    shared by all services and files and counted twice. *)
Theorem handler_names_unique range_set kind_string moduleName fs hs cs :
  foldM (parse_file range_set kind_string moduleName) ([], ∅) fs = Ok (hs, cs) ->
  NoDup (map HandlerName (all_methods hs)).
Proof.
  intros Hr. apply (parse_files_numbered _ _ _ _ _ ∅) in Hr as (_ & _ & Hn); [|apply numbered_nil].
  revert Hn. induction (all_methods hs) as [|m ms IH]; cbn; [constructor|].
  rewrite !NoDup_cons. intros [Hnin Hn]. split; [|by apply IH].
  intros (m' & Heq & Hin)%list_elem_of_fmap. destruct Hnin. apply list_elem_of_fmap. exists m'. split; [|done].
  by apply HandlerName_inj.
Qed.

(** ** Path parameters *)

(** The name of a parameter in the notation of the rules or of gin. *)
Definition param_name (p : string) : option string :=
  if braced p then Some (str_take (str_len p - 2) (str_drop 1 p)) else if colon_first p then Some (str_drop 1 p) else None.
Definition params (path : string) : list string := omap param_name (Split path "/").

Lemma str_take_no_char c n s : no_char c s -> no_char c (str_take n s).
Proof. intros Hs. pose proof (take_drop_s n s) as Ht. rewrite <- Ht in Hs. by apply no_char_app in Hs as []. Qed.
Lemma str_drop_no_char c n s : no_char c s -> no_char c (str_drop n s).
Proof. intros Hs. pose proof (take_drop_s n s) as Ht. rewrite <- Ht in Hs. by apply no_char_app in Hs as []. Qed.

Lemma colon_param_no_slash p : no_char "/" p -> no_char "/" (colon_param p).
Proof.
  intros Hp. unfold colon_param. destruct (braced p); [|done]. apply no_char_app. split; [done|].
  by apply str_take_no_char, str_drop_no_char.
Qed.

Lemma colon_param_spec p :
  braced (colon_param p) = false /\ param_name (colon_param p) = param_name p /\
  (braced (colon_param p) || colon_first (colon_param p)) = (braced p || colon_first p).
Proof. unfold colon_param, param_name. destruct (braced p) eqn:Hb; [done|]. by rewrite Hb. Qed.

(** the path of a route keeps its segments; every parameter in braces
    becomes gin's with the same name, and nothing in braces remains. *)
Theorem path_params_kept (m : RPCMethod) :
  let m' := InitPathParams m in
  Split (Path m') "/" = map colon_param (Split (Path m) "/") /\
  params (Path m') = params (Path m) /\ existsb braced (Split (Path m') "/") = false /\
  HasPathParams m' = HasPathParams m /\ HasPathParams m' = negb (bool_decide (params (Path m) = [])).
Proof.
  cbn zeta. assert (Split (Path (InitPathParams m)) "/" = map colon_param (Split (Path m) "/")) as Hs.
  { unfold InitPathParams. cbn. apply (Split_Join _ "/").
    - destruct (Split (Path m) "/") eqn:E; [by apply Split_nonempty in E|done].
    - pose proof (Split_no_sep (Path m) "/") as Hn. induction Hn; cbn; constructor; [by apply colon_param_no_slash|done]. }
  unfold HasPathParams, params. rewrite Hs. split; [done|]. clear Hs. induction (Split (Path m) "/") as [|p ps IH]; [done|].
  destruct IH as (IH1 & IH2 & IH3 & IH4), (colon_param_spec p) as (H1 & H2 & H3). cbn [map omap list_omap existsb].
  rewrite H3, H1, H2. repeat split.
  - by destruct (param_name p); cbn; rewrite IH1.
  - exact IH2.
  - by rewrite IH3.
  - rewrite IH4. unfold param_name. by destruct (braced p), (colon_first p).
Qed.

(** ** Imports *)

(** The imports are those of the paths [P]. *)
Definition imports_of (imports : gmap string string) (P : list string) : Prop :=
  (forall name line, imports !! name = Some line -> exists path, path ∈ P /\ convertToPkgName path = Ok name /\ line = name +:+ " " +:+ path) /\
  (forall path, path ∈ P -> exists name, convertToPkgName path = Ok name /\ is_Some (imports !! name)).

Lemma imports_of_nil : imports_of ∅ [].
Proof. split; [intros name line; by rewrite lookup_empty|by intros path ?%elem_of_nil]. Qed.

Lemma imports_of_ext imports P P' : (forall path, path ∈ P <-> path ∈ P') -> imports_of imports P -> imports_of imports P'.
Proof.
  intros HP [H1 H2]. split.
  - intros name line (path & Hp & Hr)%H1. exists path. by rewrite <- HP.
  - intros path Hp. by apply H2, HP.
Qed.

Lemma add_import_of imports P path imports' :
  imports_of imports P -> add_import imports path = Ok imports' -> imports_of imports' (path :: P).
Proof.
  intros [H1 H2] Ha. unfold add_import in Ha. apply bind_ok in Ha as (name & Hname & [= <-]). split.
  - intros name' line. destruct (decide (name' = name)) as [->|Hne].
    + rewrite lookup_insert_eq. intros [= <-]. exists path. split; [left|done].
    + rewrite lookup_insert_ne by done. intros (p & Hp & Hr)%H1. exists p. split; [by right|done].
  - intros p [-> |Hp]%elem_of_cons.
    + exists name. by rewrite lookup_insert_eq.
    + destruct (H2 p Hp) as (n & Hn & Hs). exists n. split; [done|]. destruct (decide (name = n)) as [->|]; [by rewrite lookup_insert_eq|].
      by rewrite lookup_insert_ne.
Qed.

Lemma fold_import_of paths : forall imports P imports',
  imports_of imports P -> foldM add_import imports paths = Ok imports' -> imports_of imports' (rev paths ++ P).
Proof.
  induction paths as [|p paths IH]; intros imports P imports' Hi Hf; cbn in Hf; [by injection Hf as <-|].
  apply bind_ok in Hf as (i1 & H1 & Hf). cbn. rewrite <- app_assoc. eapply IH; [|exact Hf]. by eapply add_import_of.
Qed.

Lemma imports_of_union m1 m2 P1 P2 : imports_of m1 P1 -> imports_of m2 P2 -> imports_of (merge_into m1 m2) (P1 ++ P2).
Proof.
  intros [H1 H1'] [H2 H2']. unfold merge_into. split.
  - intros name line [Hl|[_ Hl]]%lookup_union_Some_raw; [apply H2 in Hl|apply H1 in Hl]; destruct Hl as (p & Hp & Hr);
      exists p; (split; [apply elem_of_app; auto|done]).
  - intros p [Hp|Hp]%elem_of_app; [apply H1' in Hp|apply H2' in Hp]; destruct Hp as (n & Hn & Hs); exists n;
      (split; [done|]); rewrite lookup_union; destruct (m2 !! n), (m1 !! n); cbn; eauto; by destruct Hs.
Qed.

Lemma elem_of_rev {A} (l : list A) x : x ∈ rev l <-> x ∈ l.
Proof. by rewrite !list_elem_of_In, <- in_rev. Qed.

Section Imports.
Variable range_map : gmap string string -> list (string * string).
Variable range_set : list string -> list string.
Hypothesis range_map_all : forall m, range_map m ≡ₚ map_to_list m.
Hypothesis range_set_all : forall l, range_set l ≡ₚ l.

Definition paths_of (mds : list RPCMethod) : list string := concat (map ImportPkgPaths mds).

Lemma fold_methods_import_of mds : forall imports P imports',
  imports_of imports P ->
  foldM (fun imports md => foldM add_import imports (range_set (ImportPkgPaths md))) imports mds = Ok imports' ->
  imports_of imports' (paths_of mds ++ P).
Proof.
  induction mds as [|md mds IH]; intros imports P imports' Hi Hf; cbn in Hf; [by injection Hf as <-|].
  apply bind_ok in Hf as (i1 & H1 & Hf). eapply fold_import_of in H1; [|exact Hi]. eapply IH in Hf; [|exact H1].
  eapply imports_of_ext; [|exact Hf]. intros p. unfold paths_of. cbn.
  rewrite !elem_of_app, elem_of_rev, (range_set_all (ImportPkgPaths md)). tauto.
Qed.

Lemma http_methods_imports self ms : forall imports cs mds imports' cs' P,
  imports_of imports P -> http_methods range_set ms self imports cs = Ok (mds, imports', cs') ->
  imports_of imports' (paths_of mds ++ P).
Proof.
  induction ms as [|m ms IH]; intros imports cs mds imports' cs' P Hi Hb; cbn in Hb; [by injection Hb as <- <- <-|].
  apply bind_ok in Hb as ([md1 cs1] & _ & Hb). apply bind_ok in Hb as (i1 & H1 & Hb).
  apply bind_ok in Hb as ([[mds2 i2] cs2] & H2 & Hb). injection Hb as <- <- <-.
  eapply fold_methods_import_of in H1; [|exact Hi]. eapply IH in H2; [|exact H1].
  eapply imports_of_ext; [|exact H2]. intros p. unfold paths_of. rewrite map_app, concat_app, !elem_of_app. tauto.
Qed.

Lemma http_services_imports self ss : forall cs hs cs',
  http_services range_set self ss cs = Ok (hs, cs') ->
  Forall (fun h => imports_of (HImportPkgMap h) (paths_of (Methods h))) hs.
Proof.
  induction ss as [|s ss IH]; intros cs hs cs' Hb; cbn in Hb; [by injection Hb as <- <-|].
  apply bind_ok in Hb as ([h cs1] & H1 & Hb). apply bind_ok in Hb as ([hs2 cs2] & H2 & Hb). injection Hb as <- <-.
  constructor; [|by eapply IH]. unfold http_service in H1. apply bind_ok in H1 as ([[mds i] cs1'] & Hm & H1). ok_inv. cbn.
  eapply http_methods_imports in Hm; [|apply imports_of_nil]. by rewrite app_nil_r in Hm.
Qed.

Lemma merged_imports hs m P : imports_of m P ->
  Forall (fun h => imports_of (HImportPkgMap h) (paths_of (Methods h))) hs ->
  imports_of (foldl merge_into m (map HImportPkgMap hs)) (P ++ paths_of (all_methods hs)).
Proof.
  intros Hm Hhs. revert m P Hm. induction Hhs as [|h hs Hh Hhs IH]; intros m P Hm; cbn; [by rewrite app_nil_r|].
  eapply imports_of_ext; [|apply IH, imports_of_union; [exact Hm|exact Hh]].
  intros p. unfold all_methods, paths_of. cbn. rewrite map_app, concat_app, !elem_of_app. tauto.
Qed.

(** A prefix of a type in the generated code is empty or the name of a
    package among the paths. *)
Definition prefix_ok (prefix : string) (paths : list string) : Prop :=
  prefix = "" \/ exists path name, path ∈ paths /\ convertToPkgName path = Ok name /\ prefix = name +:+ ".".
Definition prefixes_ok (md : RPCMethod) : Prop :=
  prefix_ok (RequestImportPkgName md) (ImportPkgPaths md) /\ prefix_ok (ReplyImportPkgName md) (ImportPkgPaths md).

Lemma checkSelector_imports m m' : checkSelector m = Ok m' -> prefixes_ok m -> prefixes_ok m'.
Proof. unfold checkSelector. destruct (parseVariable _) as [[[]]| |]; cbn; [|done..]. by intros [= <-]. Qed.
Lemma checkCustomKind_imports m m' : checkCustomKind m = Ok m' -> prefixes_ok m -> prefixes_ok m'.
Proof.
  unfold checkCustomKind. case_bool_decide; [by intros [= <-]|].
  destruct (parseVariable _) as [[[]]| |]; cbn; [|done..]. by intros [= <-].
Qed.

Lemma buildMethodDesc_prefixes m verb path ck sel self cs md cs' :
  buildMethodDesc m verb path ck sel self cs = Ok (md, cs') -> prefixes_ok md.
Proof.
  unfold buildMethodDesc. intros Hm. apply bind_ok in Hm as (q & Hq & Hm). apply bind_ok in Hm as (p & Hp & Hm).
  apply bind_ok in Hm as (m1 & Hc & Hm). apply bind_ok in Hm as (m2 & Hs & [= <- <-]).
  change (prefixes_ok m2). eapply checkSelector_imports, checkCustomKind_imports; [exact Hs|exact Hc|]. unfold prefixes_ok. cbn.
  assert (forall msg s paths, (if negb (bool_decide (GoImportPath (ident msg) = self)) then n ← convertToPkgName (GoImportPath (ident msg)); Ok (n +:+ ".") else Ok "") = Ok s ->
    (GoImportPath (ident msg) <> self -> GoImportPath (ident msg) ∈ paths) -> prefix_ok s paths) as Hpre.
  { intros msg s paths Hs' Hin. case_bool_decide; cbn in Hs'; [injection Hs' as <-; by left|].
    apply bind_ok in Hs' as (n & Hn & [= <-]). right. exists (GoImportPath (ident msg)), n. auto. }
  split; (eapply Hpre; [eassumption|]); intros Hne; apply elem_of_app;
    repeat (rewrite (bool_decide_eq_false_2 _ Hne) || case_bool_decide); cbn; try congruence;
    repeat match goal with H : GoImportPath _ = _ |- _ => rewrite H end; set_solver.
Qed.
(** What holds of every method that is built holds of all routes. *)
Lemma routes_Forall (P : RPCMethod -> Prop) self ss :
  (forall m verb path ck sel self cs md cs', buildMethodDesc m verb path ck sel self cs = Ok (md, cs') -> P md) ->
  forall cs hs cs', http_services range_set self ss cs = Ok (hs, cs') -> Forall P (all_methods hs).
Proof.
  intros HP.
  assert (forall m rules cs mds cs', build_rules m rules self cs = Ok (mds, cs') -> Forall P mds) as Hrules.
  { intros m rules. induction rules as [|[sel pat bs] rules IH]; intros cs mds cs' Hb; cbn in Hb; [by injection Hb as <- <-|].
    apply bind_ok in Hb as ([md cs1] & H1 & Hb). apply bind_ok in Hb as ([mds2 cs2] & H2 & [= <- <-]).
    constructor; [|by eapply IH]. destruct pat as [[]|]; by eapply HP. }
  assert (forall ms imports cs mds imports' cs', http_methods range_set ms self imports cs = Ok (mds, imports', cs') -> Forall P mds) as Hms.
  { intros ms. induction ms as [|m ms IH]; intros imports cs mds imports' cs' Hb; cbn in Hb; [by injection Hb as <- <- <-|].
    apply bind_ok in Hb as ([md1 cs1] & H1 & Hb). apply bind_ok in Hb as (i1 & _ & Hb).
    apply bind_ok in Hb as ([[mds2 i2] cs2] & H2 & [= <- <- <-]). apply Forall_app. split; [|by eapply IH].
    unfold GetMethods in H1. destruct (http m) as [[sel pat bs]|]; [by eapply Hrules|by injection H1 as <- <-]. }
  induction ss as [|s ss IH]; intros cs hs cs' Hb; cbn in Hb; [by injection Hb as <- <-|].
  apply bind_ok in Hb as ([h cs1] & H1 & Hb). apply bind_ok in Hb as ([hs2 cs2] & H2 & [= <- <-]).
  apply Forall_app. split; [|by eapply IH]. unfold http_service in H1. apply bind_ok in H1 as ([[mds i] cs1'] & Hm & H1). ok_inv.
  by eapply Hms.
Qed.

(** every package whose name stands before a type in the generated routes
    is imported under that name by a line of the imports, with the path of a
    message of the routes; with the path of that very message when no two
    paths give the same name. *)
Theorem imports_declared f cs hs cs' md prefix :
  ParseHTTPPbServices range_set f cs = Ok (hs, cs') -> md ∈ all_methods hs ->
  prefix = RequestImportPkgName md \/ prefix = ReplyImportPkgName md -> prefix <> "" ->
  exists lines name path path', MergeImportPkgPath range_map hs = Join lines (String newline (single (ascii_of_nat 9))) /\
  prefix = name +:+ "." /\ name +:+ " " +:+ path ∈ lines /\
  path ∈ paths_of (all_methods hs) /\ convertToPkgName path = Ok name /\
  path' ∈ ImportPkgPaths md /\ convertToPkgName path' = Ok name /\
  ((forall p q, p ∈ paths_of (all_methods hs) -> q ∈ paths_of (all_methods hs) -> convertToPkgName p = convertToPkgName q -> p = q) -> path = path').
Proof.
  intros Hp Hmd Hpre Hne.
  assert (Forall prefixes_ok (all_methods hs)) as Hall by (eapply routes_Forall; [exact buildMethodDesc_prefixes|exact Hp]).
  assert (prefix_ok prefix (ImportPkgPaths md)) as [?|(path' & name & Hin & Hname & ->)]; [|done|].
  { eapply Forall_forall in Hall as [H1 H2]; [|exact Hmd]. by destruct Hpre as [-> | ->]. }
  pose proof (merged_imports hs ∅ [] imports_of_nil (http_services_imports _ _ _ _ _ Hp)) as [H1 H2]. cbn in H1, H2.
  assert (path' ∈ paths_of (all_methods hs)) as Hin'.
  { unfold paths_of. apply list_elem_of_In, in_concat. exists (ImportPkgPaths md). rewrite <- !list_elem_of_In.
    split; [|done]. by apply list_elem_of_fmap_2. }
  destruct (H2 path' Hin') as (name' & Hname' & [line Hl]). rewrite Hname in Hname'. injection Hname' as <-.
  destruct (H1 _ _ Hl) as (path & Hpath & Hc & ->).
  exists (map snd (range_map (foldl merge_into ∅ (map HImportPkgMap hs)))), name, path, path'. repeat split; try done.
  - apply list_elem_of_fmap. exists (name, name +:+ " " +:+ path). split; [done|]. rewrite range_map_all. by apply elem_of_map_to_list.
  - intros Hinj. apply Hinj; [done|done|]. by rewrite Hc, Hname.
Qed.
End Imports.

(** ** Concrete files *)

Definition quoted_path (p : string) : string := String dquote (p +:+ single dquote).
Definition msg (name path : string) : message := mkMessage (mkGoIdent name (quoted_path path)) [].
Definition rpc (name : string) (inp out : message) (rule : HttpRule) : method := mkMethod name inp out "" false false (Some rule).
Definition user_file : file :=
  mkFile true "api/user/v1/user" (quoted_path "shop/api/user/v1") "v1"
    [mkService "User" [
       rpc "Get" (msg "GetRequest" "shop/api/user/v1") (msg "Money" "shop/api/types") (mkRule "" (Some (Get "/users/{id}")) [mkRule "" (Some (Get "/u/{id}")) []]);
       rpc "Delete" (msg "DeleteRequest" "shop/api/user/v1") (msg "Empty" "google.golang.org/protobuf/types/known/emptypb") (mkRule "[ctx]" (Some (Delete "/users/{id}")) [])];
     mkService "Admin" [rpc "Get" (msg "GetRequest" "shop/api/user/v1") (msg "Money" "shop/api/types") (mkRule "" (Some (Get "/admin/{id}")) [])]].
Definition kind_name (k : Kind) : string := match k with StringKind => "string" | Uint64Kind => "uint64" | _ => "message" end.

Definition user_routes : list HTTPPbService :=
  match ParseHTTPPbServices id user_file ∅ with Ok (hs, _) => hs | _ => [] end.

Definition user_run : list HTTPPbService * gmap string nat :=
  match foldM (parse_file id kind_name "shop") ([], ∅) [user_file] with Ok r => r | _ => ([], ∅) end.

Lemma handler_names_unique_witness :
  NoDup (map HandlerName (all_methods (fst user_run))) /\
  map HandlerName (all_methods (fst user_run)) = ["Get_0"; "Get_1"; "Delete_0"; "Get_2"].
Proof.
  split; [|by vm_compute]. apply (handler_names_unique id kind_name "shop" [user_file] _ (snd user_run)). by vm_compute.
Defined.

Lemma user_routes_ok : exists cs, ParseHTTPPbServices id user_file ∅ = Ok (user_routes, cs).
Proof. eexists. by vm_compute. Qed.

Definition second_route : RPCMethod := nth 1 (all_methods user_routes) zero_method.

Lemma second_route_in : second_route ∈ all_methods user_routes.
Proof. assert (all_methods user_routes !! 1%nat = Some second_route) as H by (by vm_compute). exact (list_elem_of_lookup_2 _ _ _ H). Qed.

Lemma second_route_prefix : "types." = ReplyImportPkgName second_route.
Proof. by vm_compute. Qed.

Lemma imports_declared_witness :
  ReplyImportPkgName second_route = "types." /\
  exists lines name path, MergeImportPkgPath map_to_list user_routes = Join lines (String newline (single (ascii_of_nat 9))) /\
  "types." = name +:+ "." /\ name +:+ " " +:+ path ∈ lines /\ path ∈ paths_of (all_methods user_routes).
Proof.
  split; [by vm_compute|]. destruct user_routes_ok as [cs Hcs].
  destruct (imports_declared map_to_list id ltac:(done) ltac:(done) user_file ∅ user_routes cs second_route "types." Hcs
    second_route_in (or_intror second_route_prefix) ltac:(done)) as (lines & name & path & path' & H1 & H2 & H3 & H4 & _).
  exists lines, name, path. exact (conj H1 (conj H2 (conj H3 H4))).
Defined.

(** ** What modelling showed *)

(** The options of a custom kind are lost: the selector, set after, decides. *)
Lemma custom_kind_options_lost m verb path ck sel self cs md cs' :
  buildMethodDesc m verb path ck sel self cs = Ok (md, cs') ->
  exists prefix, parseVariable sel = Ok (prefix, IsPassGinContext md, IsIgnoreShouldBind md).
Proof.
  unfold buildMethodDesc. intros Hm. apply bind_ok in Hm as (q & Hq & Hm). apply bind_ok in Hm as (p & Hp & Hm).
  apply bind_ok in Hm as (m1 & Hc & Hm). apply bind_ok in Hm as (m2 & Hs & [= <- <-]). cbn.
  assert (Selector m1 = sel) as Hsel.
  { unfold checkCustomKind in Hc. cbn in Hc. case_bool_decide; [by injection Hc as <-|].
    destruct (parseVariable ck) as [[[]]| |]; cbn in Hc; [by injection Hc as <-|done..]. }
  unfold checkSelector in Hs. rewrite Hsel in Hs. destruct (parseVariable sel) as [[[pre pass] ign]| |]; cbn in Hs; [|done..].
  injection Hs as <-. by exists pre.
Qed.

Lemma custom_kind_options_lost_example :
  let m := rpc "Put" (msg "A" "shop/api/a") (msg "B" "shop/api/a") (mkRule "" (Some (Custom "put[ctx]" "/a")) []) in
  match GetMethods m "" ∅ with Ok ([md], _) => (Method md, IsPassGinContext md) | _ => ("", true) end = ("PUT", false).
Proof. by vm_compute. Qed.

(** Two packages with the same last parts: one of their imports is lost. *)
Lemma shared_name_import_lost :
  let f := mkFile true "api/x" (quoted_path "shop/api/x") "x" [mkService "S" [
    rpc "A" (msg "R" "shop/user/v1") (msg "R" "bank/user/v1") (mkRule "" (Some (Get "/a")) [])]] in
  match ParseHTTPPbServices id f ∅ with Ok (hs, _) => (MergeImportPkgPath map_to_list hs, map RequestImportPkgName (all_methods hs), map ReplyImportPkgName (all_methods hs)) | _ => ("", [], []) end
  = ("userV1 " +:+ quoted_path "bank/user/v1", ["userV1."], ["userV1."]).
Proof. by vm_compute. Qed.

(** A closing bracket before the opening one, or an import path that ends in a
    slash, panics. *)
Lemma bracket_order_panics : parseVariable "][" = Panic /\ convertToPkgName "shop/api/" = Panic.
Proof. by vm_compute. Qed.

(** A variable with a pattern is no parameter for gin. *)
Lemma variable_with_pattern_kept : colon_param "{name=shelves}" = ":name=shelves" /\
  Path (InitPathParams (set_path "/v1/{name=shelves/*}" zero_method)) = "/v1/{name=shelves/*}".
Proof. by vm_compute. Qed.

(** The body of a rule is never read. *)
Lemma body_never_set m verb path ck sel self cs md cs' :
  buildMethodDesc m verb path ck sel self cs = Ok (md, cs') -> Body md = "".
Proof.
  unfold buildMethodDesc. intros Hm. apply bind_ok in Hm as (q & _ & Hm). apply bind_ok in Hm as (p & _ & Hm).
  apply bind_ok in Hm as (m1 & Hc & Hm). apply bind_ok in Hm as (m2 & Hs & [= <- <-]). cbn.
  assert (Body m1 = "") as Hb.
  { unfold checkCustomKind in Hc. cbn in Hc. case_bool_decide; [by injection Hc as <-|].
    destruct (parseVariable ck) as [[[]]| |]; cbn in Hc; [by injection Hc as <-|done..]. }
  unfold checkSelector in Hs. destruct (parseVariable (Selector m1)) as [[[]]| |]; cbn in Hs; [|done..]. by injection Hs as <-.
Qed.

End ProtoFacts.
