(* ===== verification/ProtoJson.v ===== *)
(** * Protobuf services as data (cmd/protoc-gen-json-field)

    parser.go and gen.go: the services with the Go types of their fields, for a
    JSON document.  protogen and protoreflect are records of what is read,
    xstrings, inflection and the JSON encoder variables. *)

From S2P Require Import Prelude GoStr Files ProtoParse.
Import Files.
From Stdlib Require Import Ascii.
From Stdlib Require String.

Module ProtoJson.
Import Proto.

(** The plugin has its own copies of these functions, the same text. *)
Definition json_convertToPkgName := convertToPkgName.
Definition GetProtoPkgName := json_convertToPkgName.
Definition json_isVersionNum := isVersionNum.
Definition json_removeMiddleLine := removeMiddleLine.
Definition json_getCutServiceName := getCutServiceName.
Definition json_getMethodComment := getMethodComment.
Definition json_getFieldComment := getFieldComment.
Definition json_getFieldCommentStr := getFieldCommentStr.
Definition json_getInvokeType := getInvokeType.
Definition json_GoTypeZero := GoTypeZero.
Definition json_buildHTTPRule := buildHTTPRule.
Definition json_buildMethodDesc := buildMethodDesc.
Definition json_HandlerName := HandlerName.
Definition json_HasPathParams := HasPathParams.
Definition json_parseVariable := parseVariable.
Definition json_checkCustomKind := checkCustomKind.
Definition json_checkSelector := checkSelector.
Definition json_InitPathParams := InitPathParams.
Definition json_RPCMethod := RPCMethod.

Record Field : Type := mkField {
  fname : string; GoType : string; GoTypeCrossPkg : string; fcomment : string; FieldType : string; fIsList : bool; fIsMap : bool;
  ImportPkgName : string; ImportPkgPath : string }.
Record ServiceMethod : Type := mkServiceMethod {
  MethodName : string; sRequest : string; RequestFields : list Field; sReply : string; ReplyFields : list Field; Comment : string;
  sInvokeType : Z; ServiceName : string; LowerServiceName : string; LowerCutServiceName : string;
  sPath : string; sMethod : string; sBody : string; sPassGinContext : bool; sIgnoreShouldBind : bool;
  sRequestImportPkgName : string; sReplyImportPkgName : string; sProtoPkgName : string }.
Record PbService : Type := mkPbService {
  PName : string; LowerName : string; PMethods : list ServiceMethod; CutServiceName : string; PLowerCutServiceName : string;
  ImportPkgMap : gmap string string; FieldImportPkgMap : gmap string string; ProtoFileDir : string; ProtoPkgName : string }.

(** ** Types of fields *)

Record fieldPkgInfo : Type := mkInfo {
  fieldType : string; importPkgPath : string; importPkgName : string; goType : string; goTypeCrossPkg : string }.

Definition newFieldPkgInfo (id : GoIdent) (importPkgMap : gmap string string) : R (fieldPkgInfo * gmap string string) :=
  name ← json_convertToPkgName (GoImportPath id);
  Ok (mkInfo (GoName id) (GoImportPath id) name ("*" +:+ GoName id) ("*" +:+ name +:+ "." +:+ GoName id),
      if bool_decide (name = "") then importPkgMap else <[name := name +:+ " " +:+ GoImportPath id]> importPkgMap).

Section Kinds.
Variable kind_string : Kind -> string.

Definition toGoType (k : Kind) : string :=
  match k with
  | BoolKind => "bool"
  | EnumKind | Int32Kind | Sint32Kind | Sfixed32Kind => "int32"
  | Uint32Kind | Fixed32Kind => "uint32"
  | Int64Kind | Sint64Kind | Sfixed64Kind => "int64"
  | Uint64Kind | Fixed64Kind => "uint64"
  | FloatKind => "float32"
  | DoubleKind => "float64"
  | StringKind => "string"
  | BytesKind => "[]byte"
  | MessageKind | GroupKind => "unsported(" +:+ kind_string k +:+ ")"
  end.

(** The message of the value among the fields of a map's entry. *)
Fixpoint map_values (mk : Kind) (subs : list (option GoIdent)) (acc : fieldPkgInfo) (imports : gmap string string) :
  R (fieldPkgInfo * gmap string string) :=
  match subs with
  | [] => Ok (acc, imports)
  | None :: subs => map_values mk subs acc imports
  | Some id :: subs =>
      '(fpi, imports) ← newFieldPkgInfo id imports;
      let of_map t := "map[" +:+ toGoType mk +:+ "]" +:+ t in
      map_values mk subs (mkInfo (fieldType fpi) (importPkgPath fpi) (importPkgName fpi) (of_map (goType fpi)) (of_map (goTypeCrossPkg fpi))) imports
  end.
Definition field_info (f : pfield) (imports : gmap string string) : R (fieldPkgInfo * gmap string string) :=
  let slice t := if IsList f then "[]" +:+ t else t in
  match of_message f with
  | Some (id, subs) =>
      '(fpi, imports) ← newFieldPkgInfo id imports;
      match map_of f with
      | Some (mk, MessageKind) => map_values mk subs (mkInfo "" "" "" "" "") imports
      | Some (mk, mv) =>
          let t := "map[" +:+ toGoType mk +:+ "]" +:+ toGoType mv in Ok (mkInfo "" "" "" t t, imports)
      | None => Ok (mkInfo (fieldType fpi) (importPkgPath fpi) (importPkgName fpi) (slice (goType fpi)) (slice (goTypeCrossPkg fpi)), imports)
      end
  | None => Ok (mkInfo (kind_string (kind f)) "" "" (slice (toGoType (kind f))) (slice (toGoType (kind f))), imports)
  end.
Fixpoint getFields (fs : list pfield) (imports : gmap string string) : R (list Field * gmap string string) :=
  match fs with
  | [] => Ok ([], imports)
  | f :: fs =>
      '(i, imports) ← field_info f imports;
      '(rest, imports) ← getFields fs imports;
      Ok (mkField (field_name f) (goType i) (goTypeCrossPkg i) (json_getFieldComment (field_comments f)) (fieldType i) (IsList f) (IsMap f)
            (importPkgName i) (importPkgPath i) :: rest, imports)
  end.

(** ** Services *)

Definition json_rule (m : method) (protoPkgName : string) (cs : counters) : R (RPCMethod * counters) :=
  match http m with Some rule => json_buildHTTPRule m rule protoPkgName cs | None => Ok (zero_method, cs) end.
Fixpoint parse_methods (s : service) (protoPkgName : string) (ms : list method) (imports fimports : gmap string string) (cs : counters) :
  R (list ServiceMethod * gmap string string * gmap string string * counters) :=
  match ms with
  | [] => Ok ([], imports, fimports, cs)
  | m :: ms =>
      '(rpcMethod, cs) ← json_rule m protoPkgName cs;
      '(requestImportPkgName, imports) ← import_of (Input m) imports;
      '(replyImportPkgName, imports) ← import_of (Output m) imports;
      '(requestFields, fimports) ← getFields (fields (Input m)) fimports;
      '(replyFields, fimports) ← getFields (fields (Output m)) fimports;
      lower ← lower_first (service_name s);
      lowerCut ← lower_first (json_getCutServiceName (service_name s));
      '(rest, imports, fimports, cs) ← parse_methods s protoPkgName ms imports fimports cs;
      Ok (mkServiceMethod (method_name m) (GoName (ident (Input m))) requestFields (GoName (ident (Output m))) replyFields
            (json_getMethodComment m) (json_getInvokeType (IsStreamingClient m) (IsStreamingServer m)) (service_name s) lower lowerCut
            (Path rpcMethod) (Method rpcMethod) (Body rpcMethod) (IsPassGinContext rpcMethod) (IsIgnoreShouldBind rpcMethod)
            requestImportPkgName replyImportPkgName protoPkgName :: rest, imports, fimports, cs)
  end.
Definition parsePbService (s : service) (protoFileDir : string) (cs : counters) : R (PbService * counters) :=
  protoPkgName ← json_convertToPkgName protoFileDir;
  '(methods, imports, fimports, cs) ← parse_methods s protoPkgName (service_methods s) ∅ ∅ cs;
  lower ← lower_first (service_name s);
  lowerCut ← lower_first (json_getCutServiceName (service_name s));
  Ok (mkPbService (service_name s) lower methods (json_getCutServiceName (service_name s)) lowerCut imports fimports protoFileDir protoPkgName, cs).
(** Unlike its namesakes it keeps a path of one part. *)
Definition GetProtoFileDir (protoPath : string) : string :=
  match Split protoPath "/" with
  | [] | [_] => protoPath
  | ss => Join (removelast ss) "/"
  end.
Fixpoint parse_services (ss : list service) (protoFileDir : string) (cs : counters) : R (list PbService * counters) :=
  match ss with
  | [] => Ok ([], cs)
  | s :: ss =>
      '(ps, cs) ← parsePbService s protoFileDir cs;
      '(rest, cs) ← parse_services ss protoFileDir cs;
      Ok (ps :: rest, cs)
  end.
Definition GetServices (f : file) (cs : counters) : R (list PbService * counters) :=
  parse_services (services f) (GetProtoFileDir (GeneratedFilenamePrefix f)) cs.

(** ** The document (gen.go) *)

Record jmethod : Type := mkJMethod {
  jMethodName : string; jComment : string; jInvokeType : string; RequestName : string; jRequestFields : list Field;
  jRequestImportPkgName : string; ReplyName : string; jReplyFields : list Field; jReplyImportPkgName : string;
  HTTPRouter : string; HTTPRequestMethod : string; HTTPRequestBody : string; jPassGinContext : bool; IsIgnoreGinBind : bool }.
Record jservice : Type := mkJService {
  jServiceName : string; ServiceNameCamel : string; ServiceNameCamelFCL : string; ServiceNamePluralCamel : string;
  ServiceNamePluralCamelFCL : string; jGoPkgName : string; jMethods : list jmethod }.
Record ProtoInfo : Type := mkProtoInfo {
  FileName : string; FileNamePrefix : string; FileNamePrefixCamel : string; Services : list jservice; FileDir : string;
  Package : string; GoPkgName : string; GoPackage : string; jImportPkgMap : gmap string string; jFieldImportPkgMap : gmap string string }.

Definition firstLetterToLower (str : string) : string :=
  match str with String c s => if is_alpha c then String (lower c) s else str | "" => "" end.
(** Lengths may not grow by one or two: then nothing changes. *)
Definition customEndOfLetterToLower (srcStr str : string) : string :=
  let n := str_len str in
  let l := Z.of_nat n - Z.of_nat (str_len srcStr) in
  if l =? 1 then if bool_decide (last_char str = Some "S"%char) then str_take (n - 1) str +:+ "s" else str
  else if l =? 2 then if bool_decide (str_drop (n - 2) str = "ES") then str_take (n - 2) str +:+ "es" else str
  else str.
Definition invoke_name (t : Z) : string :=
  if t =? 0 then "unary_call" else if t =? 1 then "client_side_streaming"
  else if t =? 2 then "server_side_streaming" else if t =? 3 then "bidirectional_streaming" else "".
Definition mergeMap (m1 m2 : gmap string string) : gmap string string := m2 ∪ m1.

(** The two flags of lists and maps are not copied to the document's fields. *)
Definition getMessageFields (fs : list Field) : list Field :=
  map (fun f => mkField (fname f) (GoType f) (GoTypeCrossPkg f) (fcomment f) (FieldType f) false false (ImportPkgName f) (ImportPkgPath f)) fs.

Variables ToCamelCase Plural : string -> string.

Definition json_method (m : ServiceMethod) : jmethod :=
  mkJMethod (MethodName m) (Comment m) (invoke_name (sInvokeType m)) (sRequest m) (getMessageFields (RequestFields m)) (sRequestImportPkgName m)
    (sReply m) (getMessageFields (ReplyFields m)) (sReplyImportPkgName m) (sPath m) (sMethod m) (sBody m) (sPassGinContext m) (sIgnoreShouldBind m).
Definition json_service (goPkgName : string) (ps : PbService) : jservice :=
  let camel := ToCamelCase (PName ps) in
  let plural := customEndOfLetterToLower camel (Plural (PName ps)) in
  mkJService (PName ps) camel (firstLetterToLower camel) plural (firstLetterToLower plural) goPkgName (map json_method (PMethods ps)).
(** With the fields of the file still empty. *)
Definition newProtoInfo (pss : list PbService) (goPkgName : string) : ProtoInfo :=
  mkProtoInfo "" "" "" (map (json_service goPkgName) pss) "" "" "" ""
    (foldl mergeMap ∅ (map ImportPkgMap pss)) (foldl mergeMap ∅ (map FieldImportPkgMap pss)).

Variable windows : bool.
Variable MarshalIndent : ProtoInfo -> option string.

(** [goPackage]: GoDescriptorIdent's import path; [pkg]: Desc.Package. *)
Definition GenerateFiles (f : file) (goPackage pkg : string) (cs : counters) : result Empty_set (option string * counters) :=
  '(pss, cs) ← GetServices f cs;
  goPkgName ← GetProtoPkgName goPackage;
  let v := newProtoInfo pss goPkgName in
  let prefix := snd (SplitPath windows (GeneratedFilenamePrefix f)) in
  Ok (MarshalIndent (mkProtoInfo (prefix +:+ ".proto") prefix (ToCamelCase prefix) (Services v) (ReplaceChar pkg "." "/") pkg
        goPkgName goPackage (jImportPkgMap v) (jFieldImportPkgMap v)), cs).
End Kinds.

End ProtoJson.
