(* ===== verification/ProtoPlugins.v ===== *)
(** * The protoc plugins (cmd/protoc-gen-go-gin, -go-rpc-tmpl, -json-field)

    main.go and gen.go: from the files protoc gives to the files on the disk.
    The templates are variables (text/template on the data of the parsers), the
    time of the copies of a run an argument.  Theorem: no file that exists is written or
    removed, only older copies of what is generated. *)

From S2P Require Import Prelude GoStr Files ProtoParse ProtoJson.
From Stdlib Require Import Ascii.
From Stdlib Require String.
Import Files.

Module ProtoPlugins.
Import Proto.

(** ** Files on the disk *)

Section Disk.
Variable windows : bool.
Variable cwd : list string.

(** [os.Remove]: a file or an empty directory. *)
Definition Remove (d : node) (p : string) : node :=
  if bool_decide (p = "") then d
  else match resolve d [] (abs_comps windows cwd p) with
       | Ok k => match lookup_node d k with Some (File _) | Some (Dir []) => remove_node d k | _ => d end
       | _ => d
       end.
(** The listing ends within the depth of the disk. *)
Definition old_gen_files (d : node) (file : string) : list string :=
  default [] (FuzzyMatchFiles windows cwd (S (depth d)) d (file +:+ ".gen*")).
Definition removeOldGenFile (d : node) (file : string) : node := foldl Remove d (old_gen_files d file).

Definition firstLetterToUpper (s : string) : string :=
  match s with "" => "" | String c s' => String (upper c) s' end.

(** The rules are ranged over in any order. *)
Variable range_rules : list (string * string) -> list (string * string).
Definition adaptMonoRepo (moduleName serverName data : string) : string :=
  let rule (part : string) := (String dquote (moduleName +:+ part), String dquote (moduleName +:+ "/" +:+ serverName +:+ part)) in
  foldl (fun data r => ReplaceAll data (fst r) (snd r)) data (range_rules [rule "/internal/"; rule "/configs"; rule "/api"]).

Definition save_new (out filePath content : string) (isNeedCovered : bool) (stamp : string) (d : node) : node * result errno unit :=
  let '(d, _) := MkdirAll windows cwd d out in
  let file := out +:+ "/" +:+ snd (SplitPath windows filePath) in
  let '(d, file) :=
    if negb isNeedCovered && IsExists windows cwd d file then (removeOldGenFile d file, file +:+ ".gen" +:+ stamp) else (d, file) in
  match WriteFile windows cwd d file content with
  | Ok d' => (d', Ok tt)
  | Err e => (d, Err e)
  | Panic => (d, Panic)
  end.
Definition adapted (moduleName serverName content : string) (suitedMonoRepo : bool) : string :=
  let content := ReplaceAll content "moduleNameExample" moduleName in
  let content := ReplaceAll content "serverNameExample" serverName in
  let content := ReplaceAll content (firstLetterToUpper "serverNameExample") (firstLetterToUpper serverName) in
  if suitedMonoRepo then adaptMonoRepo moduleName serverName content else content.
Definition saveFile (moduleName serverName out filePath content : string) (isNeedCovered suitedMonoRepo : bool) (stamp : string) (d : node) :
  node * result errno unit :=
  if bool_decide (content = "") then (d, Ok tt)
  else if bool_decide (moduleName = "") then (d, Panic)
  else if bool_decide (serverName = "") then (d, Panic)
  else save_new out filePath (adapted moduleName serverName content suitedMonoRepo) isNeedCovered stamp d.
Definition saveFileSimple (out filePath content : string) (isNeedCovered : bool) (stamp : string) (d : node) : node * result errno unit :=
  if bool_decide (content = "") then (d, Ok tt) else save_new out filePath content isNeedCovered stamp d.

(** One save after another, until the first that fails. *)
Definition then_ (r : node * result errno unit) (next : node -> node * result errno unit) : node * result errno unit :=
  match r with (d, Ok tt) => next d | _ => r end.
End Disk.

Definition importPkgPathMark : string := "// import api service package here".

Inductive error : Type :=
  | ErrUnknownPlugin | ErrTestSuffix | ErrJson | ErrOs (e : errno).

(** ** protoc-gen-go-gin *)

Module Gin.
Record options : Type := mkOptions {
  plugin : string; moduleName : string; serverName : string; logicOut : string; routerOut : string; ecodeOut : string; suitedMonoRepo : bool }.

Section Plugin.
Variable windows : bool.
Variable cwd : list string.
Variable range_rules : list (string * string) -> list (string * string).
Variable range_map : gmap string string -> list (string * string).
Variable range_set : list string -> list string.
Variable kind_string : Kind -> string.
(** The templates: a failure is a panic. *)
Variables handlerLogicTmpl handlerRouterTmpl httpErrCodeTmpl mixLogicTmpl mixRouterTmpl serviceLogicTmpl serviceRouterTmpl rpcErrCodeTmpl :
  list Proto.Gin.PbService -> option string.
Variable importPkgTmpl : string -> string -> option string.
Variable ginRouterTmpl : HTTPPbService -> option string.

Definition must (o : option string) : R string := match o with Some s => Ok s | None => Panic end.

(** *** Contents (gen.go of handler, service and router) *)

Definition logic_execute (tmpl : list Proto.Gin.PbService -> option string) (pss : list Proto.Gin.PbService) : R string :=
  content ← must (tmpl pss); pkgs ← Proto.Gin.GetImportPkg range_map pss; Ok (ReplaceAll content importPkgPathMark pkgs).
Definition router_execute (tmpl : list Proto.Gin.PbService -> option string) (pss : list Proto.Gin.PbService) : R string :=
  content ← must (tmpl pss); pkgs ← Proto.Gin.GetSourceImportPkg pss; Ok (ReplaceAll content importPkgPathMark pkgs).
Definition errcode_execute (tmpl : list Proto.Gin.PbService -> option string) (pss : list Proto.Gin.PbService) : R string :=
  content ← must (tmpl pss); Ok (ReplaceAll content "// --blank line--" "").
Definition mix_execute (pss : list Proto.Gin.PbService) : R string :=
  content ← must (mixLogicTmpl pss); pkgs ← Proto.Gin.GetImportPkg range_map pss;
  let middleware := String dquote ("github.com/go-dev-frame/sponge/pkg/gin/middleware" +:+ single dquote) in
  let pkgs := if Contains content "ctx = middleware.AdaptCtx(ctx)"
              then pkgs +:+ String newline (String (ascii_of_nat 9) middleware) else pkgs in
  Ok (ReplaceAll content importPkgPathMark pkgs).

Definition handler_GenerateFiles (f : file) (isMixType : bool) (moduleName : string) (cs : counters) : R (string * string * string * counters) :=
  match services f with
  | [] => Ok ("", "", "", cs)
  | _ =>
      '(pss, cs) ← Proto.Gin.GetServices kind_string f moduleName cs;
      if isMixType then
        logic ← mix_execute pss; router ← router_execute mixRouterTmpl pss; Ok (logic, router, "", cs)
      else
        logic ← logic_execute handlerLogicTmpl pss; router ← router_execute handlerRouterTmpl pss;
        errcode ← errcode_execute httpErrCodeTmpl pss; Ok (logic, router, errcode, cs)
  end.
Definition service_GenerateFiles (f : file) (moduleName : string) (cs : counters) : R (string * string * string * counters) :=
  match services f with
  | [] => Ok ("", "", "", cs)
  | _ =>
      '(pss, cs) ← Proto.Gin.GetServices kind_string f moduleName cs;
      logic ← logic_execute serviceLogicTmpl pss; router ← router_execute serviceRouterTmpl pss;
      errcode ← errcode_execute rpcErrCodeTmpl pss; Ok (logic, router, errcode, cs)
  end.
Definition genGinRouterFile (hs : list HTTPPbService) (goPackageName : string) : R string :=
  content ← must (importPkgTmpl goPackageName (MergeImportPkgPath range_map hs));
  foldM (fun content h => c ← must (ginRouterTmpl h); Ok (content +:+ c)) content hs.
Definition router_GenerateFiles (f : file) (cs : counters) : R (string * counters) :=
  match services f with
  | [] => Ok ("", cs)
  | _ => '(hs, cs) ← ParseHTTPPbServices range_set f cs; content ← genGinRouterFile hs (GoPackageName f); Ok (content, cs)
  end.

(** *** Saving (main.go) *)

(** Imports that are not used are taken out, by the text that would use them. *)
Definition unused_removed (content : string) : string :=
  let q s := String dquote (s +:+ single dquote) in
  let content := if Contains content "errors." then content else Replace1 content (q "errors") "" in
  if Contains content "middleware." then content else Replace1 content (q "github.com/go-dev-frame/sponge/pkg/gin/middleware") "".
Definition saveGinRouterFiles (f : file) (cs : counters) (d : node) : R (node * result errno unit * counters) :=
  '(content, cs) ← router_GenerateFiles f cs;
  if bool_decide (content = "") then Ok ((d, Ok tt), cs)
  else match WriteFile windows cwd d (GeneratedFilenamePrefix f +:+ "_router.pb.go") (unused_removed content) with
       | Ok d' => Ok ((d', Ok tt), cs)
       | Err e => Ok ((d, Err e), cs)
       | Panic => Panic
       end.
Definition saveHandlerAndRouterFiles (o : options) (f : file) (isMixType : bool) (stamp : string) (cs : counters) (d : node) :
  R (node * result errno unit * counters) :=
  '(logic, router, errcode, cs) ← handler_GenerateFiles f isMixType (moduleName o) cs;
  let prefix := GeneratedFilenamePrefix f in
  let save := saveFile windows cwd range_rules (moduleName o) (serverName o) in
  Ok (then_ (save (logicOut o) (prefix +:+ ".go") logic false (suitedMonoRepo o) stamp d) (fun d =>
      then_ (save (routerOut o) (prefix +:+ "_router.go") router false (suitedMonoRepo o) stamp d) (fun d =>
      if isMixType then (d, Ok tt)
      else saveFileSimple windows cwd (ecodeOut o) (prefix +:+ "_http.go") errcode false stamp d)), cs).
Definition saveServiceAndRouterFiles (o : options) (f : file) (stamp : string) (cs : counters) (d : node) :
  R (node * result errno unit * counters) :=
  '(logic, router, errcode, cs) ← service_GenerateFiles f (moduleName o) cs;
  let prefix := GeneratedFilenamePrefix f in
  let save := saveFile windows cwd range_rules (moduleName o) (serverName o) in
  Ok (then_ (save (logicOut o) (prefix +:+ ".go") logic false (suitedMonoRepo o) stamp d) (fun d =>
      then_ (save (routerOut o) (prefix +:+ "_router.go") router false (suitedMonoRepo o) stamp d) (fun d =>
      saveFileSimple windows cwd (ecodeOut o) (prefix +:+ "_rpc.go") errcode false stamp d)), cs).

(** The directories by default; [None] is an unknown plugin. *)
Definition with_dirs (o : options) : option (options * (bool * bool * bool)) :=
  let pluginName := ReplaceChar (plugin o) " " "" in
  let dirName := if suitedMonoRepo o then serverName o +:+ "/internal" else "internal" in
  let or_ (s dflt : string) := if bool_decide (s = "") then dirName +:+ dflt else s in
  let dirs logic ecode := mkOptions (plugin o) (moduleName o) (serverName o) (or_ (logicOut o) logic) (or_ (routerOut o) "/routers") ecode (suitedMonoRepo o) in
  if bool_decide (pluginName = "handler") then Some (dirs "/handler" (or_ (ecodeOut o) "/ecode"), (true, false, false))
  else if bool_decide (pluginName = "service") then Some (dirs "/service" (or_ (ecodeOut o) "/ecode"), (false, true, false))
  else if bool_decide (pluginName = "mix") then Some (dirs "/handler" (ecodeOut o), (true, false, true))
  else None.

(** One file of the request. *)
Definition gin_file (o : options) (handlerFlag serviceFlag mixFlag : bool) (stamp : string) (f : file) (cs : counters) (d : node) :
  node * result error counters :=
  let check := snd (SplitPath windows (GeneratedFilenamePrefix f +:+ ".proto")) in
  let finish d (r : result errno unit) cs := (d, match r with Ok _ => Ok cs | Err e => Err (ErrOs e) | Panic => Panic end) in
  if HasSuffix check "_test.proto" then (d, Err ErrTestSuffix)
  else match saveGinRouterFiles f cs d with
       | Ok ((d, Ok _), cs) =>
           let r := if handlerFlag then saveHandlerAndRouterFiles o f mixFlag stamp cs d
                    else if serviceFlag then saveServiceAndRouterFiles o f stamp cs d else Ok ((d, Ok tt), cs) in
           match r with Ok ((d, r), cs) => finish d r cs | _ => (d, Panic) end
       | Ok ((d, r), cs) => finish d r cs
       | _ => (d, Panic)
       end.
Fixpoint gin_files (o : options) (flags : bool * bool * bool) (stamp : string) (fs : list file) (cs : counters) (d : node) : node * result error counters :=
  match fs with
  | [] => (d, Ok cs)
  | f :: fs =>
      if Generate f then
        let '(handlerFlag, serviceFlag, mixFlag) := flags in
        match gin_file o handlerFlag serviceFlag mixFlag stamp f cs d with
        | (d, Ok cs) => gin_files o flags stamp fs cs d
        | r => r
        end
      else gin_files o flags stamp fs cs d
  end.
Definition run (o : options) (stamp : string) (fs : list file) (d : node) : node * result error unit :=
  match with_dirs o with
  | None => (d, Err ErrUnknownPlugin)
  | Some (o, flags) => let '(d, r) := gin_files o flags stamp fs ∅ d in (d, (fun _ => tt) <$> r)
  end.
End Plugin.
End Gin.

(** ** protoc-gen-go-rpc-tmpl *)

Module Rpc.
Record options : Type := mkOptions { moduleName : string; serverName : string; tmplDir : string; ecodeOut : string; suitedMonoRepo : bool }.

Section Plugin.
Variable windows : bool.
Variable cwd : list string.
Variable range_rules : list (string * string) -> list (string * string).
Variable range_map : gmap string string -> list (string * string).
Variable kind_string : Kind -> string.
Variables serviceLogicTmpl serviceLogicTestTmpl rpcErrCodeTmpl : list Proto.Rpc.PbService -> option string.

Definition must (o : option string) : R string := match o with Some s => Ok s | None => Panic end.
Definition tmpl_execute (tmpl : list Proto.Rpc.PbService -> option string) (pss : list Proto.Rpc.PbService) : R string :=
  content ← must (tmpl pss); pkgs ← Proto.Rpc.GetImportPkg range_map pss; Ok (ReplaceAll content importPkgPathMark pkgs).
Definition errcode_execute (pss : list Proto.Rpc.PbService) : R string :=
  content ← must (rpcErrCodeTmpl pss); Ok (ReplaceAll content "// --blank line--" "").
Definition GenerateFiles (f : file) (moduleName : string) : R (string * string * string) :=
  match services f with
  | [] => Ok ("", "", "")
  | _ =>
      pss ← Proto.Rpc.GetServices kind_string windows f moduleName;
      tmpl ← tmpl_execute serviceLogicTmpl pss; test ← tmpl_execute serviceLogicTestTmpl pss;
      errcode ← errcode_execute pss; Ok (tmpl, test, errcode)
  end.

Definition rpc_saveFile := saveFile windows cwd range_rules.
Definition saveRPCTmplFiles (o : options) (f : file) (stamp : string) (d : node) : node * result error unit :=
  let prefix := GeneratedFilenamePrefix f in
  if HasSuffix (snd (SplitPath windows (prefix +:+ ".proto"))) "_test.proto" then (d, Err ErrTestSuffix)
  else match GenerateFiles f (moduleName o) with
       | Ok (tmpl, test, errcode) =>
           let save := rpc_saveFile (moduleName o) (serverName o) (tmplDir o) in
           let '(d, r) :=
             then_ (save (prefix +:+ ".go") tmpl false (suitedMonoRepo o) stamp d) (fun d =>
             then_ (save (prefix +:+ "_client_test.go") test false (suitedMonoRepo o) stamp d) (fun d =>
             saveFileSimple windows cwd (ecodeOut o) (prefix +:+ "_rpc.go") errcode false stamp d)) in
           (d, match r with Ok _ => Ok tt | Err e => Err (ErrOs e) | Panic => Panic end)
       | _ => (d, Panic)
       end.
Definition with_dirs (o : options) : options :=
  let dirName := if suitedMonoRepo o then serverName o +:+ "/internal" else "internal" in
  mkOptions (moduleName o) (serverName o) (if bool_decide (tmplDir o = "") then dirName +:+ "/service" else tmplDir o)
    (if bool_decide (ecodeOut o = "") then dirName +:+ "/ecode" else ecodeOut o) (suitedMonoRepo o).
(** An error of a file is skipped. *)
Fixpoint run (o : options) (stamp : string) (fs : list file) (d : node) : node * result error unit :=
  match fs with
  | [] => (d, Ok tt)
  | f :: fs =>
      if Generate f then
        match saveRPCTmplFiles (with_dirs o) f stamp d with
        | (d, Panic) => (d, Panic)
        | (d, _) => run o stamp fs d
        end
      else run o stamp fs d
  end.
End Plugin.
End Rpc.

(** ** protoc-gen-json-field *)

Module JsonField.
Section Plugin.
Variable windows : bool.
Variable cwd : list string.
Variable kind_string : Kind -> string.
Variables ToCamelCase Plural : string -> string.
Variable MarshalIndent : ProtoJson.ProtoInfo -> option string.
(** GoDescriptorIdent and Desc.Package of a file. *)
Variables descriptor_path package_of : file -> string.

Definition saveJSONFiles (f : file) (cs : counters) (d : node) : node * result error counters :=
  match ProtoJson.GenerateFiles kind_string ToCamelCase Plural windows MarshalIndent f (descriptor_path f) (package_of f) cs with
  | Ok (Some content, cs) =>
      match WriteFile windows cwd d (GeneratedFilenamePrefix f +:+ ".json") content with
      | Ok d => (d, Ok cs)
      | Err e => (d, Err (ErrOs e))
      | Panic => (d, Panic)
      end
  | Ok (None, _) => (d, Err ErrJson)
  | _ => (d, Panic)
  end.
Fixpoint json_files (fs : list file) (cs : counters) (d : node) : node * result error counters :=
  match fs with
  | [] => (d, Ok cs)
  | f :: fs =>
      if Generate f then match saveJSONFiles f cs d with (d, Ok cs) => json_files fs cs d | r => r end
      else json_files fs cs d
  end.
End Plugin.
End JsonField.

(** ** What a save changes *)

(** The files outside [P] are kept. *)
Definition kept (P : list string -> Prop) (d d' : node) : Prop :=
  forall k s, lookup_node d k = Some (File s) -> ~ P k -> lookup_node d' k = Some (File s).
(** A copy that was generated beside the file of this name. *)
Definition gen_copy (name : string) (k : list string) : Prop :=
  exists k0 b, k = k0 ++ [b] /\ HasPrefix b (name +:+ ".gen") = true.
(** No separator and no character of a pattern. *)
Definition plain_char (c : ascii) : bool := negb (bool_decide (c ∈ [slash; backslash; "*"%char; "?"%char; "["%char])).
Definition plain_name (s : string) : bool := forall_chars plain_char s.

Lemma kept_refl P d : kept P d d.
Proof. by intros k s. Qed.
Lemma kept_trans P d1 d2 d3 : kept P d1 d2 -> kept P d2 d3 -> kept P d1 d3.
Proof. intros H1 H2 k s Hk HP. apply H2; [by apply H1|done]. Qed.
Lemma kept_weaken (P Q : list string -> Prop) d d' : (forall k, P k -> Q k) -> kept P d d' -> kept Q d d'.
Proof. intros HPQ H k s Hk HQ. apply H; [done|]. intros HP. by apply HQ, HPQ. Qed.

Lemma plain_no_sep s : plain_name s = true -> no_sep false s = true.
Proof.
  unfold plain_name. induction s as [|c s IH]; cbn; [done|]. intros [Hc Hs]%andb_prop. rewrite IH by done.
  unfold plain_char in Hc. apply negb_true_iff, bool_decide_eq_false in Hc. unfold is_sep. cbn.
  rewrite bool_decide_eq_false_2; [done|]. intros ->. apply Hc. set_solver.
Qed.

(** A plain name and a star match what begins with the name. *)
Lemma get_glob_plain s n : plain_name s = true -> (str_len s < n)%nat ->
  get_glob n (s +:+ "*") = Some (map Lit (String.list_ascii_of_string s) ++ [Star]).
Proof.
  revert n. induction s as [|c s IH]; intros [|n] Hs Hn; cbn in Hn; try lia; [by destruct n|].
  unfold plain_name in *. cbn [forall_chars] in Hs. apply andb_prop in Hs as [Hc Hs].
  unfold plain_char in Hc. apply negb_true_iff, bool_decide_eq_false in Hc. rewrite app_cons_s. cbn [get_glob].
  rewrite !bool_decide_eq_false_2 by (intros ->; apply Hc; set_solver). rewrite IH by (try done; lia). done.
Qed.

Lemma glob_match_prefix s t g : glob_match (map Lit (String.list_ascii_of_string s) ++ g) t = true -> HasPrefix t s = true.
Proof.
  revert t. induction s as [|c s IH]; intros t; [by destruct t|]. destruct t as [|a t]; [done|]. cbn.
  intros [Hc Ht]%andb_prop. apply bool_decide_eq_true in Hc as ->. rewrite bool_decide_eq_true_2 by done. by apply IH.
Qed.

Lemma Match_prefix s t : plain_name s = true -> Match (s +:+ "*") t = true -> HasPrefix t s = true.
Proof.
  intros Hs. unfold Match. rewrite get_glob_plain; [|done|rewrite str_len_app; cbn; lia]. apply glob_match_prefix.
Qed.

Lemma gen_name_no_dots b name : HasPrefix b (name +:+ ".gen") = true -> b <> "" /\ b <> "." /\ b <> "..".
Proof.
  intros [t ->]%HasPrefix_spec. repeat split; intros Hb%(f_equal str_len); rewrite !str_len_app in Hb; cbn in Hb; lia.
Qed.

Section Saves.
Variable cwd : list string.

Lemma Remove_kept name d p : HasPrefix (snd (SplitPath false p)) (name +:+ ".gen") = true -> kept (gen_copy name) d (Remove false cwd d p).
Proof.
  intros Hp. unfold Remove. case_bool_decide; [apply kept_refl|]. destruct (resolve d [] _) as [k| |] eqn:Hk; [|apply kept_refl..].
  destruct (gen_name_no_dots _ _ Hp) as (Hb0 & Hb1 & Hb2). apply (resolve_base cwd) in Hk as [k0 Hk0]; [|done..].
  assert (forall n, lookup_node d k = Some n -> (forall s, n = File s -> True) -> (forall l, l <> [] -> lookup_node n l = None) ->
    kept (gen_copy name) d (remove_node d k)) as Hgen.
  { intros n Hn _ Hl k1 s Hs Hg. apply remove_other; [|congruence|done]. intros [l ->].
    destruct l as [|x l].
    2: { assert (lookup_node d (k ++ x :: l) = lookup_node n (x :: l)) as Hx by (by rewrite lookup_app, Hn). by rewrite Hx, Hl in Hs. }
    apply Hg. rewrite app_nil_r. subst k. by eexists _, _. }
  destruct (lookup_node d k) as [[s|[|e es]]|] eqn:E; try apply kept_refl; (eapply Hgen; [done..|]); intros [|x l]; by cbn.
Qed.

Lemma old_gen_files_prefix d out name p : plain_name name = true ->
  p ∈ old_gen_files false cwd d (out +:+ "/" +:+ name) -> HasPrefix (snd (SplitPath false p)) (name +:+ ".gen") = true.
Proof.
  intros Hn Hp. unfold old_gen_files, FuzzyMatchFiles in Hp.
  rewrite !app_assoc_s in Hp. change ("/" +:+ name +:+ ".gen*") with (String slash (name +:+ ".gen*")) in Hp.
  rewrite SplitPath_app in Hp by (rewrite forall_chars_app; apply andb_true_intro; split; [by apply plain_no_sep|done]).
  assert (Contains (name +:+ ".gen*") "*" = true) as Hstar by (apply Contains_spec; exists (name +:+ ".gen"), ""; by rewrite !app_assoc_s).
  rewrite Hstar in Hp. cbn [negb] in Hp. destruct (ListFiles _ _ _ _ _ _) as [[l [e|]]|]; cbn in Hp; [by apply elem_of_nil in Hp| |by apply elem_of_nil in Hp].
  apply list_elem_of_filter in Hp as [Hm _]. unfold GetFilename in Hm.
  change (name +:+ ".gen*") with (name +:+ (".gen" +:+ "*")) in Hm. rewrite <- app_assoc_s in Hm.
  apply Match_prefix in Hm; [done|]. unfold plain_name in *. rewrite forall_chars_app, Hn. by vm_compute.
Qed.

Lemma removeOldGenFile_kept d out name : plain_name name = true ->
  kept (gen_copy name) d (removeOldGenFile false cwd d (out +:+ "/" +:+ name)).
Proof.
  intros Hn. unfold removeOldGenFile. pose proof (old_gen_files_prefix d out name) as Hp.
  revert Hp. generalize (old_gen_files false cwd d (out +:+ "/" +:+ name)) as l. intros l. revert d.
  assert (forall l d, (forall p, p ∈ l -> HasPrefix (snd (SplitPath false p)) (name +:+ ".gen") = true) -> kept (gen_copy name) d (foldl (Remove false cwd) d l)) as Hl.
  { clear l. induction l as [|p l IH]; intros d Hp; [apply kept_refl|]. cbn. eapply kept_trans; [apply Remove_kept, Hp; by left|].
    apply IH. intros q Hq. apply Hp. by right. }
  intros d Hp. apply Hl. intros p. by apply Hp.
Qed.

Lemma MkdirAll_kept P d out : kept P d (fst (MkdirAll false cwd d out)).
Proof.
  unfold MkdirAll. case_bool_decide; [apply kept_refl|]. pose proof (mkdirs_grows (abs_comps false cwd out) d []) as [Hg _].
  intros k s Hk _. by destruct (Hg _ _ Hk) as (n & Hn & ->).
Qed.

Lemma WriteFile_kept (P : list string -> Prop) d p data d' :
  WriteFile false cwd d p data = Ok d' ->
  (forall k, resolve d [] (abs_comps false cwd p) = Ok k -> (exists s, lookup_node d k = Some (File s)) -> P k) -> kept P d d'.
Proof.
  intros (k & Hk & _ & _ & _ & Hg)%WriteFile_ok HP k1 s Hs Hn. destruct (decide (k1 = k)) as [->|Hne]; [destruct Hn; eauto|].
  by destruct (Hg _ _ Hs Hne) as (n & Hl & ->).
Qed.

Lemma save_new_kept out filePath content stamp d :
  plain_name (snd (SplitPath false filePath)) = true -> no_sep false stamp = true ->
  kept (gen_copy (snd (SplitPath false filePath))) d (fst (save_new false cwd out filePath content false stamp d)).
Proof.
  set (name := snd (SplitPath false filePath)). intros Hn Hst. unfold save_new. fold name.
  pose proof (MkdirAll_kept (gen_copy name) d out) as Hm. destruct (MkdirAll false cwd d out) as [d1 e]. cbn in Hm. cbn [negb andb].
  destruct (IsExists false cwd d1 (out +:+ "/" +:+ name)) eqn:He.
  - pose proof (removeOldGenFile_kept d1 out name Hn) as Hr. set (d2 := removeOldGenFile _ _ _ _) in *.
    destruct (WriteFile _ _ d2 _ content) as [d3| |] eqn:Hw; cbn; try by eapply kept_trans.
    eapply kept_trans; [exact Hm|]. eapply kept_trans; [exact Hr|]. eapply WriteFile_kept; [exact Hw|]. intros k Hk _.
    rewrite !app_assoc_s in Hk. change ("/" +:+ name +:+ ".gen" +:+ stamp) with (String slash (name +:+ ".gen" +:+ stamp)) in Hk.
    assert (snd (SplitPath false (out +:+ String slash (name +:+ ".gen" +:+ stamp))) = name +:+ ".gen" +:+ stamp) as Hb.
    { rewrite SplitPath_app; [done|]. rewrite !forall_chars_app, Hst, (plain_no_sep _ Hn). done. }
    assert (HasPrefix (name +:+ ".gen" +:+ stamp) (name +:+ ".gen") = true) as Hpre by (rewrite <- app_assoc_s; apply HasPrefix_app).
    destruct (gen_name_no_dots _ _ Hpre) as (Hb0 & Hb1 & Hb2). apply resolve_base in Hk as [k0 Hk0]; [|by rewrite Hb..].
    rewrite Hb in Hk0. by exists k0, (name +:+ ".gen" +:+ stamp).
  - destruct (WriteFile _ _ d1 _ content) as [d3| |] eqn:Hw; cbn; try done.
    eapply kept_trans; [exact Hm|]. eapply WriteFile_kept; [exact Hw|]. intros k Hk [s Hs].
    unfold IsExists, Stat in He. unfold WriteFile in Hw. case_bool_decide; [done|]. rewrite Hk in He. cbn in He. by rewrite Hs in He.
Qed.

Lemma saveFile_kept range_rules m sv out filePath content mono stamp d :
  plain_name (snd (SplitPath false filePath)) = true -> no_sep false stamp = true ->
  kept (gen_copy (snd (SplitPath false filePath))) d (fst (saveFile false cwd range_rules m sv out filePath content false mono stamp d)).
Proof.
  intros Hn Hs. unfold saveFile. repeat (case_bool_decide; [apply kept_refl|]). by apply save_new_kept.
Qed.
Lemma saveFileSimple_kept out filePath content stamp d :
  plain_name (snd (SplitPath false filePath)) = true -> no_sep false stamp = true ->
  kept (gen_copy (snd (SplitPath false filePath))) d (fst (saveFileSimple false cwd out filePath content false stamp d)).
Proof. intros Hn Hs. unfold saveFileSimple. case_bool_decide; [apply kept_refl|]. by apply save_new_kept. Qed.

Lemma then_kept P d r next : kept P d (fst r) -> (forall d1, kept P d1 (fst (next d1))) -> kept P d (fst (then_ r next)).
Proof. destruct r as [d1 [[]| |]]; cbn; [|done..]. intros H1 H2. by eapply kept_trans. Qed.
(** *** A run of protoc-gen-go-gin *)

Lemma SplitPath_suffix p t : no_sep false t = true -> snd (SplitPath false (p +:+ t)) = snd (SplitPath false p) +:+ t.
Proof.
  intros Ht. assert (SplitPath false (p +:+ t) = (fst (SplitPath false p), snd (SplitPath false p) +:+ t)) as ->; [|done].
  induction p as [|c p IH]; [by apply SplitPath_file|]. rewrite app_cons_s. cbn [SplitPath]. rewrite IH.
  destruct (SplitPath false p) as [[|a dir] f]; cbn; [by destruct (is_sep false c)|done].
Qed.

Definition base (f : file) : string := snd (SplitPath false (GeneratedFilenamePrefix f)).
Definition router_file (f : file) : list string := foldl step [] (abs_comps false cwd (GeneratedFilenamePrefix f +:+ "_router.pb.go")).
(** What a run may write or remove of what exists: the routes of a file and
    the copies of what was generated for it. *)
Definition generated (fs : list file) (k : list string) : Prop :=
  exists f, f ∈ fs /\ (k = router_file f \/ exists suffix, suffix ∈ [".go"; "_router.go"; "_http.go"; "_rpc.go"] /\ gen_copy (base f +:+ suffix) k).

Section Run.
Variable range_rules : list (string * string) -> list (string * string).
Variable range_map : gmap string string -> list (string * string).
Variable range_set : list string -> list string.
Variable kind_string : Kind -> string.
Variables handlerLogicTmpl handlerRouterTmpl httpErrCodeTmpl mixLogicTmpl mixRouterTmpl serviceLogicTmpl serviceRouterTmpl rpcErrCodeTmpl :
  list Proto.Gin.PbService -> option string.
Variable importPkgTmpl : string -> string -> option string.
Variable ginRouterTmpl : HTTPPbService -> option string.
Variable stamp : string.
Hypothesis stamp_ok : no_sep false stamp = true.

Lemma save_suffix_kept fs f suffix m sv out content mono d :
  f ∈ fs -> suffix ∈ [".go"; "_router.go"; "_http.go"; "_rpc.go"] -> plain_name (base f) = true ->
  kept (generated fs) d (fst (saveFile false cwd range_rules m sv out (GeneratedFilenamePrefix f +:+ suffix) content false mono stamp d)) /\
  kept (generated fs) d (fst (saveFileSimple false cwd out (GeneratedFilenamePrefix f +:+ suffix) content false stamp d)).
Proof.
  intros Hf Hsuf Hb.
  assert (no_sep false suffix = true /\ plain_name suffix = true) as [Hs1 Hs2].
  { rewrite !elem_of_cons in Hsuf. by destruct Hsuf as [->|[->|[->|[->|Hsuf%elem_of_nil]]]]. }
  assert (plain_name (snd (SplitPath false (GeneratedFilenamePrefix f +:+ suffix))) = true) as Hp.
  { rewrite SplitPath_suffix by done. unfold plain_name in *. by rewrite forall_chars_app, Hs2, andb_true_r. }
  assert (forall k, gen_copy (snd (SplitPath false (GeneratedFilenamePrefix f +:+ suffix))) k -> generated fs k) as Hg.
  { intros k Hk. rewrite SplitPath_suffix in Hk by done. exists f. split; [done|]. right. by exists suffix. }
  split; (eapply kept_weaken; [exact Hg|]); [by apply saveFile_kept|by apply saveFileSimple_kept].
Qed.

Definition run_gin := Gin.run false cwd range_rules range_map range_set kind_string handlerLogicTmpl handlerRouterTmpl httpErrCodeTmpl
  mixLogicTmpl mixRouterTmpl serviceLogicTmpl serviceRouterTmpl rpcErrCodeTmpl importPkgTmpl ginRouterTmpl.

Lemma gin_file_kept fs o hf sf mf f cs d : f ∈ fs -> plain_name (base f) = true ->
  kept (generated fs) d (fst (Gin.gin_file false cwd range_rules range_map range_set kind_string handlerLogicTmpl handlerRouterTmpl httpErrCodeTmpl
    mixLogicTmpl mixRouterTmpl serviceLogicTmpl serviceRouterTmpl rpcErrCodeTmpl importPkgTmpl ginRouterTmpl o hf sf mf stamp f cs d)).
Proof.
  intros Hf Hb. unfold Gin.gin_file. destruct (HasSuffix _ _); [apply kept_refl|].
  destruct (Gin.saveGinRouterFiles _ _ _ _ _ _ _ _ _) as [[[d1 r1] cs1]| |] eqn:Hg; [|apply kept_refl..].
  assert (kept (generated fs) d d1) as H1.
  { unfold Gin.saveGinRouterFiles in Hg. apply bind_ok in Hg as ([content cs2] & _ & Hg). case_bool_decide; [injection Hg as <- <- <-; apply kept_refl|].
    destruct (WriteFile _ _ d _ _) as [d2| |] eqn:Hw; [|injection Hg as <- <- <-; apply kept_refl|done]. injection Hg as <- <- <-.
    eapply WriteFile_kept; [exact Hw|]. intros k ->%resolve_key _. exists f. by split; [|left]. }
  destruct r1 as [[]| |]; [|exact H1..].
  assert (forall r cs3 d3, (if hf then Gin.saveHandlerAndRouterFiles false cwd range_rules range_map kind_string handlerLogicTmpl handlerRouterTmpl httpErrCodeTmpl mixLogicTmpl mixRouterTmpl o f mf stamp cs1 d1
    else if sf then Gin.saveServiceAndRouterFiles false cwd range_rules range_map kind_string serviceLogicTmpl serviceRouterTmpl rpcErrCodeTmpl o f stamp cs1 d1 else Ok ((d1, Ok tt), cs1)) = Ok ((d3, r), cs3) ->
    kept (generated fs) d1 d3) as H2.
  { intros r cs3 d3. destruct hf; [|destruct sf; [|intros [= <- <- <-]; apply kept_refl]].
    - unfold Gin.saveHandlerAndRouterFiles. intros ([[[logic router] errcode] cs4] & _ & Hs)%bind_ok. injection Hs as Hs _.
      apply (f_equal fst) in Hs. cbn in Hs. subst d3.
      repeat (apply then_kept; [|intros]); [eapply save_suffix_kept; [exact Hf| |exact Hb]; set_solver..|].
      destruct mf; [apply kept_refl|]. eapply (save_suffix_kept fs f "_http.go" "" "" _ _ false); [exact Hf|set_solver|exact Hb].
    - unfold Gin.saveServiceAndRouterFiles. intros ([[[logic router] errcode] cs4] & _ & Hs)%bind_ok. injection Hs as Hs _.
      apply (f_equal fst) in Hs. cbn in Hs. subst d3.
      repeat (apply then_kept; [|intros]); [eapply save_suffix_kept; [exact Hf| |exact Hb]; set_solver..|].
      eapply (save_suffix_kept fs f "_rpc.go" "" "" _ _ false); [exact Hf|set_solver|exact Hb]. }
  destruct (if hf then _ else _) as [[[d3 r] cs3]| |] eqn:E; [|exact H1..].
  eapply kept_trans; [exact H1|]. by eapply H2.
Qed.

Lemma gin_files_kept all o flags fs : forall cs d, (forall f, f ∈ fs -> f ∈ all /\ plain_name (base f) = true) ->
  kept (generated all) d (fst (Gin.gin_files false cwd range_rules range_map range_set kind_string handlerLogicTmpl handlerRouterTmpl httpErrCodeTmpl
    mixLogicTmpl mixRouterTmpl serviceLogicTmpl serviceRouterTmpl rpcErrCodeTmpl importPkgTmpl ginRouterTmpl o flags stamp fs cs d)).
Proof.
  destruct flags as [[hf sf] mf]. induction fs as [|f fs IH]; intros cs d Hfs; cbn [Gin.gin_files]; [apply kept_refl|].
  destruct (Hfs f) as [Hin Hb]; [by left|]. destruct (Generate f); [|apply IH; intros g Hg; apply Hfs; by right].
  pose proof (gin_file_kept all o hf sf mf f cs d Hin Hb) as Hk. destruct (Gin.gin_file _ _ _ _ _ _ _ _ _ _ _ _ _ _ _ _ _ _ _ _ _ _ _ _) as [d1 [cs1| |]]; cbn in Hk |- *; [|exact Hk..].
  eapply kept_trans; [exact Hk|]. apply IH. intros g Hg. apply Hfs. by right.
Qed.
End Run.
End Saves.

(** C27: a run of protoc-gen-go-gin, whatever its options, templates and
    outcome, leaves every existing file as it is, but the generated routes and
    older copies of its own (name.go.gen...): code a user wrote is kept. *)
Theorem user_code_kept cwd range_rules range_map range_set kind_string t1 t2 t3 t4 t5 t6 t7 t8 pkg routes o stamp fs d k s :
  no_sep false stamp = true -> (forall f, f ∈ fs -> plain_name (base f) = true) ->
  lookup_node d k = Some (File s) -> ~ generated cwd fs k ->
  lookup_node (fst (run_gin cwd range_rules range_map range_set kind_string t1 t2 t3 t4 t5 t6 t7 t8 pkg routes o stamp fs d)) k = Some (File s).
Proof.
  intros Hst Hfs Hk Hg. unfold run_gin, Gin.run. destruct (Gin.with_dirs o) as [[o' flags]|]; [|done].
  pose proof (gin_files_kept cwd range_rules range_map range_set kind_string t1 t2 t3 t4 t5 t6 t7 t8 pkg routes stamp Hst fs o' flags fs ∅ d) as Hkept.
  destruct (Gin.gin_files _ _ _ _ _ _ _ _ _ _ _ _ _ _ _ _ _ _ _ _ _ _) as [d' r]. cbn. apply Hkept; [by auto|done|done].
Qed.

(** ** A concrete run *)

Definition user_proto : file :=
  mkFile true "api/user" (String dquote ("shop/api" +:+ single dquote)) "api"
    [mkService "User" [mkMethod "Get" (mkMessage (mkGoIdent "GetRequest" (String dquote ("shop/api" +:+ single dquote))) [])
      (mkMessage (mkGoIdent "GetReply" (String dquote ("shop/api" +:+ single dquote))) []) "" false false (Some (mkRule "" (Some (Get "/users/{id}")) []))]].
Definition shop : node :=
  Dir [("api", Dir [("user.proto", File "service")]);
       ("internal", Dir [("handler", Dir [("user.go", File "mine"); ("user.go.gen20240101T000000", File "old")])])].
Definition text (s : string) (_ : list Proto.Gin.PbService) : option string := Some s.
Definition shop_run : node * result error unit :=
  run_gin [] id map_to_list id (fun _ => "") (text "logic") (text "router") (text "errcode") (text "mix") (text "") (text "") (text "") (text "")
    (fun _ _ => Some "package api") (fun _ => Some "routes")
    (Gin.mkOptions "handler" "shop" "shop" "" "" "" false) "20250101T000000" [user_proto] shop.

Lemma user_code_kept_witness :
  lookup_node (fst shop_run) ["internal"; "handler"; "user.go"] = Some (File "mine") /\
  lookup_node (fst shop_run) ["internal"; "handler"; "user.go.gen20250101T000000"] = Some (File "logic") /\
  lookup_node (fst shop_run) ["internal"; "handler"; "user.go.gen20240101T000000"] = None.
Proof.
  split; [|by vm_compute]. apply user_code_kept; [done|by intros f ->%list_elem_of_singleton|done|].
  intros (f & ->%list_elem_of_singleton & [Hk|(suffix & Hs & k0 & b & Hk & Hp)]).
  - by vm_compute in Hk.
  - apply (app_inj_tail ["internal"; "handler"]) in Hk as [_ <-]. rewrite !elem_of_cons in Hs.
    destruct Hs as [->|[->|[->|[->|Hs]]]]; [by vm_compute in Hp..|by apply elem_of_nil in Hs].
Defined.

(** ** What modelling showed *)

(** Copies of files of the same name in directories below are removed too. *)
Lemma copies_below_removed :
  let d := Dir [("out", Dir [("a.go", File "x"); ("sub", Dir [("a.go.gen1", File "other")])])] in
  lookup_node (removeOldGenFile false [] d "out/a.go") ["out"; "sub"; "a.go.gen1"] = None.
Proof. by vm_compute. Qed.

(** A server whose name begins like a directory of a mono-repo: its name goes
    into the path twice. *)
Lemma server_named_api_twice :
  adaptMonoRepo id "shop" "apis" (String dquote "shop/internal/x") = String dquote "shop/apis/apis/internal/x".
Proof. by vm_compute. Qed.

End ProtoPlugins.
