(* ===== verification/Cache.v ===== *)
(** * Caches (pkg/cache, pkg/encoding)

    cache.go, redis.go and memory.go: the Redis cache, over one server or a
    cluster, and the memory cache over ristretto; encoding.go and the
    encodings made of others.  The clients are classes with the documented
    behaviour as laws, the codecs parameters.  Theorems: a Redis cache answers
    by the last write to a key; a memory cache never gives anything else; what
    was encoded is decoded. *)

From S2P Require Import Prelude GoStr.
From Stdlib Require Import Ascii.
From Stdlib Require String.

Module Cache.

(** ** Encoding *)

Inductive error : Type :=
  | ErrNotAPointer
  | ErrMarshal            (* encoding.Marshal error *)
  | ErrUnmarshal          (* encoding.Unmarshal error *)
  | ErrEmptyKey           (* BuildCacheKey error *)
  | ErrPlaceholder
  | CacheNotFound
  | ErrClient             (* an error of the client *)
  | ErrSetFailed.         (* SetWithTTL failed *)
#[global] Instance error_eq_dec : EqDecision error.
Proof. solve_decision. Defined.

(** A codec for values of type [V]; [None] is an error. *)
Record Encoding (V : Type) : Type := mkEncoding { marshal : V -> option string; unmarshal : string -> option V }.
Arguments mkEncoding {V}. Arguments marshal {V}. Arguments unmarshal {V}.

(** JSON and a compression after it. *)
Definition compressed {V} (json : Encoding V) (compress : string -> option string) (uncompress : string -> option string) : Encoding V :=
  mkEncoding (fun v => marshal json v ≫= compress) (fun data => uncompress data ≫= unmarshal json).

Section Values.
Context {V : Type}.

(** An argument of type interface{}: a pointer to a value or not. *)
Definition arg : Type := (bool * V)%type.

(** The methods MarshalBinary and UnmarshalBinary, if the type has them. *)
Variable binary : option (Encoding V).

Definition Marshal (e : option (Encoding V)) (v : arg) : result error string :=
  let mar (c : Encoding V) := match marshal c (snd v) with Some data => Ok data | None => Err ErrMarshal end in
  if negb (fst v) then Err ErrNotAPointer
  else match e, binary with
       | None, Some bm => mar bm
       | None, None => Panic
       | Some e, _ =>
           match marshal e (snd v) with
           | Some data => Ok data
           | None => match binary with Some bm => mar bm | None => Err ErrMarshal end
           end
       end.
(** [pointer] tells whether the destination is one. *)
Definition Unmarshal (e : option (Encoding V)) (data : string) (pointer : bool) : result error V :=
  let unmar (c : Encoding V) := match unmarshal c data with Some v => Ok v | None => Err ErrUnmarshal end in
  if negb pointer then Err ErrNotAPointer
  else match e, binary with
       | None, Some bm => unmar bm
       | None, None => Panic
       | Some e, _ =>
           match unmarshal e data with
           | Some v => Ok v
           | None => match binary with Some bm => unmar bm | None => Err ErrUnmarshal end
           end
       end.
End Values.
Arguments Marshal : simpl never.
Arguments Unmarshal : simpl never.

(** ** The parts of the two caches *)

Definition NotFoundPlaceholder : string := "*".
(** The comment above it in cache.go says one minute. *)
Definition DefaultNotFoundExpireTime : Z := 10 * minute.

Definition BuildCacheKey (keyPrefix key : string) : result error string :=
  if bool_decide (key = "") then Err ErrEmptyKey
  else Ok (if bool_decide (keyPrefix = "") then key else Join [keyPrefix; key] ":").

Definition is_placeholder (data : string) : bool := bool_decide (data = "" \/ data = NotFoundPlaceholder).

Record cache (V : Type) : Type := mkCache {
  KeyPrefix : string; encoding : option (Encoding V); binary : option (Encoding V); newObject : bool }.
Arguments mkCache {V}. Arguments KeyPrefix {V}. Arguments encoding {V}. Arguments binary {V}. Arguments newObject {V}.

(** ** The Redis cache *)

(** What the code uses of the client, at a time: SET with a time to live (0:
    none), GET, MGET, DEL, and a pipeline of one MSET and EXPIREs.  [None] is
    an error of the command. *)
Class RedisClient (R : Type) : Type := {
  rSet : Z -> string -> string -> Z -> R -> option R;
  rGet : Z -> string -> R -> result error string;
  rMGet : Z -> list string -> R -> option (list (option string));
  rDel : list string -> R -> option R;
  rMSetExpire : Z -> list (string * string) -> list (string * Z) -> R -> option R }.

(** Documented behaviour: what a key reads at a time is what was last written,
    until its time has passed; a read gives that or the error of the client.
    [alive t d]: at time [t] a deadline [d] has not passed; the moment itself
    is left to the server. *)
Definition until (alive : Z -> Z -> bool) (t : Z) (deadline : option Z) : bool :=
  match deadline with None => true | Some d => alive t d end.
Definition ttl_deadline (now ttl : Z) : option Z := if ttl =? 0 then None else Some (now + ttl).

Class RedisLaws (R : Type) `{RedisClient R} : Type := {
  alive : Z -> Z -> bool;
  view : Z -> R -> gmap string string;
  alive_before : forall t d, t < d -> alive t d = true;
  alive_after : forall t d, d < t -> alive t d = false;
  view_set : forall now k d ttl r r', rSet now k d ttl r = Some r' -> 0 <= ttl -> (millisecond | ttl) ->
    forall t, now <= t -> forall k', view t r' !! k' = if decide (k' = k) then if until alive t (ttl_deadline now ttl) then Some d else None else view t r !! k';
  view_get : forall now k r, rGet now k r = Err ErrClient \/ rGet now k r = match view now r !! k with Some d => Ok d | None => Err CacheNotFound end;
  view_mget : forall now ks r, rMGet now ks r = None \/ rMGet now ks r = Some (map (fun k => view now r !! k) ks);
  view_del : forall ks r r', rDel ks r = Some r' -> forall t k, view t r' !! k = if decide (k ∈ ks) then None else view t r !! k;
  view_mset_expire : forall now kds ttl r r', rMSetExpire now kds (map (fun kd => (fst kd, ttl)) kds) r = Some r' ->
    NoDup kds.*1 -> 0 <= ttl -> (second | ttl) -> forall t, now <= t -> forall k,
    view t r' !! k = match (list_to_map kds : gmap string string) !! k with
                     | Some d => if (ttl =? 0) || negb (alive t (now + ttl)) then None else Some d
                     | None => view t r !! k
                     end }.

Module Redis.
Section Redis.
Context {V R : Type} `{RedisClient R}.
Variable c : cache V.

Definition Set_ (now : Z) (key : string) (val : arg) (expiration : Z) (r : R) : result error R :=
  buf ← Marshal (binary c) (encoding c) val;
  cacheKey ← BuildCacheKey (KeyPrefix c) key;
  let buf := if bool_decide (buf = "") then NotFoundPlaceholder else buf in
  match rSet now cacheKey buf expiration r with Some r => Ok r | None => Err ErrClient end.

Definition Get (now : Z) (key : string) (pointer : bool) (r : R) : result error V :=
  cacheKey ← BuildCacheKey (KeyPrefix c) key;
  dataBytes ← rGet now cacheKey r;
  if is_placeholder dataBytes then Err ErrPlaceholder else Unmarshal (binary c) (encoding c) dataBytes pointer.

(** Values that cannot be encoded and empty keys are left out; the order is
    that of one range over the map. *)
Definition pairs (valueMap : list (string * arg)) : list (string * string) :=
  omap (fun kv => match Marshal (binary c) (encoding c) (snd kv), BuildCacheKey (KeyPrefix c) (fst kv) with
                  | Ok buf, Ok cacheKey => Some (cacheKey, buf)
                  | _, _ => None
                  end) valueMap.
(** A nil encoding panics. *)
Definition marshal_panics (valueMap : list (string * arg)) : bool :=
  existsb (fun kv => is_panic (Marshal (binary c) (encoding c) (snd kv))) valueMap.
Definition MultiSet (now : Z) (valueMap : list (string * arg)) (expiration : Z) (r : R) : result error R :=
  match valueMap with
  | [] => Ok r
  | _ =>
      if marshal_panics valueMap then Panic
      else
        let paris := pairs valueMap in
        match rMSetExpire now paris (map (fun kb => (fst kb, expiration)) paris) r with Some r => Ok r | None => Err ErrClient end
  end.

(** The entries added to the map, in order: under the keys with the prefix. *)
Definition decoded (cacheKey : string) (v : option string) : option (result error (string * V)) :=
  match v with
  | None => None
  | Some dataBytes =>
      if is_placeholder dataBytes then None
      else match Unmarshal (binary c) (encoding c) dataBytes (newObject c) with
           | Ok object => Some (Ok (cacheKey, object))
           | Err _ => None
           | Panic => Some Panic
           end
  end.
Definition MultiGet (now : Z) (keys : list string) (r : R) : result error (list (string * V)) :=
  match keys with
  | [] => Ok []
  | _ =>
      cacheKeys ← traverse (BuildCacheKey (KeyPrefix c)) keys;
      match rMGet now cacheKeys r with
      | None => Err ErrClient
      | Some values => traverse id (omap (fun kv => decoded (fst kv) (snd kv)) (zip cacheKeys values))
      end
  end.

(** The cache key of an empty key stays empty. *)
Definition del_keys (keys : list string) : list string :=
  map (fun key => match BuildCacheKey (KeyPrefix c) key with Ok k => k | _ => "" end) keys.
Definition Del (keys : list string) (r : R) : result error R :=
  match keys with
  | [] => Ok r
  | _ =>
      match rDel (del_keys keys) r with Some r => Ok r | None => Err ErrClient end
  end.
Definition SetCacheWithNotFound (now : Z) (key : string) (r : R) : result error R :=
  cacheKey ← BuildCacheKey (KeyPrefix c) key;
  match rSet now cacheKey NotFoundPlaceholder DefaultNotFoundExpireTime r with Some r => Ok r | None => Err ErrClient end.
End Redis.
End Redis.

(** The cache over a cluster has the same methods with another client. *)
Module RedisCluster.
Section Cluster.
Context {V R : Type} `{RedisClient R}.
Definition cluster_Set (c : cache V) := Redis.Set_ (R := R) c.
Definition cluster_Get (c : cache V) := Redis.Get (R := R) c.
Definition cluster_MultiSet (c : cache V) := Redis.MultiSet (R := R) c.
Definition cluster_MultiGet (c : cache V) := Redis.MultiGet (R := R) c.
Definition cluster_Del (c : cache V) := Redis.Del (R := R) c.
Definition cluster_SetCacheWithNotFound (c : cache V) := Redis.SetCacheWithNotFound (R := R) c.
End Cluster.
End RedisCluster.

(** ** The memory cache *)

(** What the code uses of ristretto: a write may be refused or dropped. *)
Class Ristretto (M : Type) : Type := {
  SetWithTTL : Z -> string -> string -> Z -> M -> bool * M;
  Wait : M -> M;
  mGet : Z -> string -> M -> option string;
  mDel : string -> M -> M }.

(** Documented behaviour: a read gives the last write to the key or, at any
    time, nothing. *)
Class RistrettoLaws (M : Type) `{Ristretto M} : Type := {
  m_alive : Z -> Z -> bool;
  held : Z -> M -> gmap string string;
  m_alive_before : forall t d, t < d -> m_alive t d = true;
  m_alive_after : forall t d, d < t -> m_alive t d = false;
  held_set : forall now k d ttl m m', SetWithTTL now k d ttl m = (true, m') -> 0 <= ttl ->
    forall t, now <= t -> forall k' d', held t m' !! k' = Some d' ->
    if decide (k' = k) then d' = d /\ until m_alive t (ttl_deadline now ttl) = true else held t m !! k' = Some d';
  held_wait : forall m t, held t (Wait m) ⊆ held t m;
  held_get : forall now k m d, mGet now k m = Some d -> held now m !! k = Some d;
  held_del : forall k m t k' d, held t (mDel k m) !! k' = Some d -> k' <> k /\ held t m !! k' = Some d }.

Module Memory.
Section Memory.
Context {V M : Type} `{Ristretto M}.
Variable c : cache V.

Definition Set_ (now : Z) (key : string) (val : arg) (expiration : Z) (m : M) : result error M :=
  buf ← Marshal (binary c) (encoding c) val;
  let buf := if bool_decide (buf = "") then NotFoundPlaceholder else buf in
  cacheKey ← BuildCacheKey (KeyPrefix c) key;
  match SetWithTTL now cacheKey buf expiration m with
  | (true, m) => Ok (Wait m)
  | (false, _) => Err ErrSetFailed
  end.

Definition Get (now : Z) (key : string) (pointer : bool) (m : M) : result error V :=
  cacheKey ← BuildCacheKey (KeyPrefix c) key;
  match mGet now cacheKey m with
  | None => Err CacheNotFound
  | Some dataBytes => if is_placeholder dataBytes then Err ErrPlaceholder else Unmarshal (binary c) (encoding c) dataBytes pointer
  end.

(** Only the first key is deleted. *)
Definition Del (keys : list string) (m : M) : result error M :=
  match keys with
  | [] => Ok m
  | key :: _ => cacheKey ← BuildCacheKey (KeyPrefix c) key; Ok (mDel cacheKey m)
  end.

(** The first error ends the loop. *)
Fixpoint MultiSet (now : Z) (valueMap : list (string * arg)) (expiration : Z) (m : M) : result error M :=
  match valueMap with
  | [] => Ok m
  | (key, value) :: rest => m ← Set_ now key value expiration m; MultiSet now rest expiration m
  end.
(** The entries added to the map: under the keys as given. *)
Definition MultiGet (now : Z) (keys : list string) (m : M) : result error (list (string * V)) :=
  traverse id (omap (fun key => match Get now key (newObject c) m with
                                | Ok object => Some (Ok (key, object))
                                | Err _ => None
                                | Panic => Some Panic
                                end) keys).
(** The write is not waited for. *)
Definition SetCacheWithNotFound (now : Z) (key : string) (m : M) : result error M :=
  cacheKey ← BuildCacheKey (KeyPrefix c) key;
  match SetWithTTL now cacheKey NotFoundPlaceholder DefaultNotFoundExpireTime m with
  | (true, m) => Ok m
  | (false, _) => Err ErrSetFailed
  end.
End Memory.
End Memory.

(** ** The contract of a cache

    A map from keys to a value, or the note that there is none, and the
    deadline; operations at a time. *)

Inductive command (V : Type) : Type :=
  | CSet (key : string) (val : @arg V) (ttl : Z)
  | CMultiSet (valueMap : list (string * @arg V)) (ttl : Z)
  | CDel (keys : list string)
  | CNotFound (key : string).
Arguments CSet {V}. Arguments CMultiSet {V}. Arguments CDel {V}. Arguments CNotFound {V}.

Abbreviation contents V := (gmap string (option V * option Z)) (only parsing).

Section Contract.
Context {V : Type}.
Variable al : Z -> Z -> bool.

Definition live (t : Z) (entry : option V * option Z) : option (option V) :=
  if until al t (snd entry) then Some (fst entry) else None.
Definition answer (t : Z) (key : string) (s : contents V) : result error V :=
  match s !! key ≫= live t with
  | None => Err CacheNotFound
  | Some None => Err ErrPlaceholder
  | Some (Some v) => Ok v
  end.
Definition answers (t : Z) (keys : list string) (s : contents V) : list (string * V) :=
  omap (fun key => match answer t key s with Ok v => Some (key, v) | _ => None end) keys.

Definition put (now : Z) (key : string) (x : option V) (ttl : Z) (s : contents V) : contents V :=
  <[key := (x, ttl_deadline now ttl)]> s.

(** What the order of a range over a map and the time units ask of a command. *)
Definition fits (c : command V) : Prop :=
  match c with
  | CSet _ _ ttl => 0 <= ttl /\ (millisecond | ttl)
  | CMultiSet valueMap ttl => 0 <= ttl /\ (second | ttl) /\ NoDup valueMap.*1
  | _ => True
  end.

(** Redis: several values with the time to live 0 are gone at once, unlike
    one value; empty keys and values that cannot be encoded are left out. *)
Definition redis_entry (encodes : @arg V -> bool) (now ttl : Z) (kv : string * @arg V) (s : contents V) : contents V :=
  if negb (encodes (snd kv)) || bool_decide (fst kv = "") then s
  else if ttl =? 0 then delete (fst kv) s else put now (fst kv) (Some (snd (snd kv))) ttl s.
Definition redis_spec (encodes : @arg V -> bool) (now : Z) (c : command V) (s : contents V) : contents V :=
  match c with
  | CSet key val ttl => put now key (Some (snd val)) ttl s
  | CMultiSet valueMap ttl => foldr (redis_entry encodes now ttl) s valueMap
  | CDel keys => foldr delete s keys
  | CNotFound key => put now key None DefaultNotFoundExpireTime s
  end.

(** The keys a command names, and those it writes when it succeeds. *)
Definition named (c : command V) : list string :=
  match c with
  | CSet key _ _ | CNotFound key => [key]
  | CMultiSet valueMap _ => valueMap.*1
  | CDel keys => keys
  end.
Definition written (encodes : @arg V -> bool) (c : command V) : list string :=
  match c with
  | CMultiSet valueMap _ => (filter (fun kv => encodes (snd kv) = true) valueMap).*1
  | _ => named c
  end.

(** Memory: of several keys the first is deleted. *)
Definition memory_spec (now : Z) (c : command V) (s : contents V) : contents V :=
  match c with
  | CSet key val ttl => put now key (Some (snd val)) ttl s
  | CMultiSet valueMap ttl => foldl (fun s kv => put now (fst kv) (Some (snd (snd kv))) ttl s) s valueMap
  | CDel keys => match keys with [] => s | key :: _ => delete key s end
  | CNotFound key => put now key None DefaultNotFoundExpireTime s
  end.
End Contract.

(** A history: commands with their times, in order. *)
Fixpoint in_order {V} (start : Z) (h : list (Z * command V)) : Prop :=
  match h with [] => True | (t, c) :: h => start <= t /\ fits c /\ in_order t h end.
Definition last_time {V} (start : Z) (h : list (Z * command V)) : Z := foldl (fun _ tc => fst tc) start h.

Section Run.
Context {V R M : Type} `{RedisClient R} `{Ristretto M}.
Variable c : cache V.

Definition redis_step (r : R) (tc : Z * command V) : result error R :=
  let now := fst tc in
  match snd tc with
  | CSet key val ttl => Redis.Set_ c now key val ttl r
  | CMultiSet valueMap ttl => Redis.MultiSet c now valueMap ttl r
  | CDel keys => Redis.Del c keys r
  | CNotFound key => Redis.SetCacheWithNotFound c now key r
  end.
Definition memory_step (m : M) (tc : Z * command V) : result error M :=
  let now := fst tc in
  match snd tc with
  | CSet key val ttl => Memory.Set_ c now key val ttl m
  | CMultiSet valueMap ttl => Memory.MultiSet c now valueMap ttl m
  | CDel keys => Memory.Del c keys m
  | CNotFound key => Memory.SetCacheWithNotFound c now key m
  end.
End Run.

(** The encoding decodes what it encodes, to text other than the placeholder. *)
Definition faithful {V} (c : cache V) : Prop :=
  forall v data, Marshal (binary c) (encoding c) (true, v) = Ok data ->
  is_placeholder data = false /\ Unmarshal (binary c) (encoding c) data true = Ok v.
Definition encodable {V} (c : cache V) (a : @arg V) : bool := is_ok (Marshal (binary c) (encoding c) a).

(** ** Keys *)

Definition cache_key (keyPrefix key : string) : string := if bool_decide (keyPrefix = "") then key else Join [keyPrefix; key] ":".

Lemma BuildCacheKey_ok p key : key <> "" -> BuildCacheKey p key = Ok (cache_key p key).
Proof. intros Hk. unfold BuildCacheKey. by rewrite bool_decide_eq_false_2. Qed.

Lemma BuildCacheKey_inv p key k : BuildCacheKey p key = Ok k -> key <> "" /\ k = cache_key p key.
Proof. unfold BuildCacheKey, cache_key. case_bool_decide; [done|]. by intros [= <-]. Qed.

#[global] Instance cache_key_inj p : Inj (=) (=) (cache_key p).
Proof.
  intros k k'. unfold cache_key. case_bool_decide; [done|]. cbn.
  by intros [= Hk]%(inj (String.append p)).
Qed.

Lemma cache_key_nonempty p key : key <> "" -> cache_key p key <> "".
Proof. unfold cache_key. case_bool_decide; [done|]. intros _. by destruct p. Qed.

(** ** A Redis cache answers by the last write *)

Lemma lookup_foldr_delete {A} (keys : list string) (m : gmap string A) key :
  foldr delete m keys !! key = if decide (key ∈ keys) then None else m !! key.
Proof.
  induction keys as [|k keys IH]; cbn; [done|]. rewrite lookup_delete, IH.
  repeat case_decide; set_solver.
Qed.

Section RedisRefines.
Context {V R : Type} `{RedisLaws R}.
Variable c : cache V.
Hypothesis Hc : faithful c.

(** What is read under a key of the cache and what the contract holds, for the
    keys that are not uncertain. *)
Definition stands (x : option (option V)) (data : option string) : Prop :=
  match x, data with
  | None, None => True
  | Some None, Some d => is_placeholder d = true
  | Some (Some v), Some d => is_placeholder d = false /\ Unmarshal (binary c) (encoding c) d true = Ok v
  | _, _ => False
  end.
Definition redis_sim (now : Z) (r : R) (s : contents V) (u : gset string) : Prop :=
  forall t, now <= t -> forall key, key <> "" -> key ∉ u -> stands (s !! key ≫= live alive t) (view t r !! cache_key (KeyPrefix c) key).

Lemma marshal_stands (a : arg) data :
  Marshal (binary c) (encoding c) a = Ok data ->
  is_placeholder data = false /\ Unmarshal (binary c) (encoding c) data true = Ok (snd a).
Proof. destruct a as [[] v]; intros Ha; [by apply Hc|discriminate Ha]. Qed.

(** One write of data that stands for an entry. *)
Lemma sim_put now0 now r r' s u key x d ttl :
  redis_sim now0 r s u -> now0 <= now -> key <> "" -> 0 <= ttl -> (millisecond | ttl) -> stands (Some x) (Some d) ->
  rSet now (cache_key (KeyPrefix c) key) d ttl r = Some r' -> redis_sim now r' (put now key x ttl s) (u ∖ list_to_set [key]).
Proof.
  intros Hs Hn Hk Hp Hm Hd Hr t Ht key' Hk' Hu. rewrite (view_set _ _ _ _ _ _ Hr) by done. unfold put.
  destruct (decide (key' = key)) as [->|Hne].
  - rewrite lookup_insert_eq, decide_True by done. cbn. unfold live. cbn. by destruct (until _ _ _).
  - rewrite lookup_insert_ne, decide_False by (try done; by intros ?%(inj (cache_key _))). apply Hs; [lia|done|set_solver].
Qed.

Lemma sim_set now0 now r r' s u key val ttl :
  redis_sim now0 r s u -> now0 <= now -> 0 <= ttl -> (millisecond | ttl) ->
  Redis.Set_ c now key val ttl r = Ok r' -> redis_sim now r' (put now key (Some (snd val)) ttl s) (u ∖ list_to_set [key]).
Proof.
  intros Hs Hn Hp Hm Hr. unfold Redis.Set_ in Hr. ok_inv.
  match goal with Ha : Marshal _ _ _ = Ok ?d, Hb : BuildCacheKey _ _ = Ok _ |- _ =>
    destruct (marshal_stands _ _ Ha) as [Hd Hu]; apply BuildCacheKey_inv in Hb as [Hk ->] end.
  rewrite bool_decide_eq_false_2 in Hr by (intros ->; done).
  destruct (rSet _ _ _ _ _) eqn:Hset; [|done]. injection Hr as <-. by eapply sim_put.
Qed.

Lemma sim_not_found now0 now r r' s u key :
  redis_sim now0 r s u -> now0 <= now -> Redis.SetCacheWithNotFound c now key r = Ok r' ->
  redis_sim now r' (put now key None DefaultNotFoundExpireTime s) (u ∖ list_to_set [key]).
Proof.
  intros Hs Hn Hr. unfold Redis.SetCacheWithNotFound in Hr. ok_inv.
  match goal with Hb : BuildCacheKey _ _ = Ok _ |- _ => apply BuildCacheKey_inv in Hb as [Hk ->] end.
  destruct (rSet _ _ _ _ _) eqn:Hset; [|done]. injection Hr as <-. eapply sim_put; try done; [by exists 600000|by vm_compute].
Qed.

Lemma del_keys_elem keys key :
  key <> "" -> cache_key (KeyPrefix c) key ∈ Redis.del_keys c keys <-> key ∈ keys.
Proof.
  intros Hk. unfold Redis.del_keys. rewrite list_elem_of_In, in_map_iff. setoid_rewrite <- list_elem_of_In. split.
  - intros (key' & Hk' & Hin). destruct (decide (key' = "")) as [->|Hne].
    + cbn in Hk'. by destruct (cache_key_nonempty (KeyPrefix c) key Hk).
    + rewrite BuildCacheKey_ok in Hk' by done. by apply (inj (cache_key _)) in Hk' as ->.
  - intros Hin. exists key. by rewrite BuildCacheKey_ok.
Qed.

Lemma sim_del now0 now r r' s u keys :
  redis_sim now0 r s u -> now0 <= now -> Redis.Del c keys r = Ok r' ->
  redis_sim now r' (foldr delete s keys) (u ∖ list_to_set keys).
Proof.
  intros Hs Hn Hr t Ht key Hk Hu. rewrite lookup_foldr_delete. unfold Redis.Del in Hr.
  destruct keys as [|k0 ks0]; [injection Hr as <-; apply Hs; [lia|done|set_solver]|].
  destruct (rDel _ _) eqn:Hdel; [|done]. injection Hr as <-. rewrite (view_del _ _ _ Hdel).
  rewrite (decide_ext _ _ _ _ (del_keys_elem _ _ Hk)). case_decide; [done|]. apply Hs; [lia|done|set_solver].
Qed.

(** The pairs of a map, by key. *)
Lemma pairs_lookup valueMap key :
  NoDup valueMap.*1 -> key <> "" ->
  (list_to_map (Redis.pairs c valueMap) : gmap string string) !! cache_key (KeyPrefix c) key =
  a ← (list_to_map valueMap : gmap string arg) !! key;
  match Marshal (binary c) (encoding c) a with Ok d => Some d | _ => None end.
Proof.
  intros Hnd Hk. induction valueMap as [|[k a] vm IH]; [done|]. rewrite fmap_cons, NoDup_cons in Hnd. destruct Hnd as [Hnin Hnd].
  specialize (IH Hnd). unfold Redis.pairs in *. cbn [omap list_omap fst snd list_to_map foldr uncurry].
  destruct (decide (k = key)) as [->|Hne].
  - rewrite lookup_insert_eq, BuildCacheKey_ok by done. cbn.
    rewrite (not_elem_of_list_to_map_1 vm key) in IH by done. destruct (Marshal _ _ a); cbn; [by rewrite lookup_insert_eq|done..].
  - rewrite lookup_insert_ne, <- IH by done. destruct (Marshal _ _ a), (BuildCacheKey (KeyPrefix c) k) eqn:Hb; try done.
    apply BuildCacheKey_inv in Hb as [_ ->]. cbn. apply lookup_insert_ne. by intros ?%(inj (cache_key _)).
Qed.

Lemma pairs_nodup valueMap : NoDup valueMap.*1 -> NoDup (Redis.pairs c valueMap).*1.
Proof.
  induction valueMap as [|[k a] vm IH]; [constructor|]. rewrite fmap_cons, NoDup_cons. intros [Hnin Hnd]. specialize (IH Hnd).
  unfold Redis.pairs in *. cbn [omap list_omap fst snd]. destruct (Marshal _ _ a), (BuildCacheKey (KeyPrefix c) k) eqn:Hb; try exact IH.
  apply BuildCacheKey_inv in Hb as [Hk ->]. cbn. apply NoDup_cons. split; [|done]. intros Hin. destruct Hnin.
  apply list_elem_of_fmap in Hin as ([k' d] & Hk' & Hin). apply list_elem_of_omap in Hin as ([k2 a2] & Hin & Heq). cbn in *.
  destruct (Marshal _ _ a2), (BuildCacheKey (KeyPrefix c) k2) eqn:Hb2; try done. apply BuildCacheKey_inv in Hb2 as [_ ->].
  injection Heq as <- _. apply (inj (cache_key _)) in Hk' as ->. apply list_elem_of_fmap. by exists (k2, a2).
Qed.

(** The contract's MultiSet, by key. *)
Lemma redis_entries_lookup now ttl valueMap s key :
  NoDup valueMap.*1 -> key <> "" ->
  foldr (redis_entry (encodable c) now ttl) s valueMap !! key =
  match (list_to_map valueMap : gmap string arg) !! key with
  | Some a => if encodable c a then if ttl =? 0 then None else Some (Some (snd a), ttl_deadline now ttl) else s !! key
  | None => s !! key
  end.
Proof.
  intros Hnd Hk. induction valueMap as [|[k a] vm IH]; [done|]. rewrite fmap_cons, NoDup_cons in Hnd. destruct Hnd as [Hnin Hnd].
  specialize (IH Hnd). cbn [foldr list_to_map uncurry]. unfold redis_entry at 1. cbn [fst snd].
  destruct (decide (k = key)) as [->|Hne].
  - rewrite lookup_insert_eq, bool_decide_eq_false_2 by done. rewrite (not_elem_of_list_to_map_1 vm key) in IH by done.
    destruct (encodable c a); cbn; [|done]. destruct (ttl =? 0); [by rewrite lookup_delete_eq|by apply lookup_insert_eq].
  - rewrite lookup_insert_ne, <- IH by done. destruct (_ || _); [done|].
    destruct (ttl =? 0); [by rewrite lookup_delete_ne|by apply lookup_insert_ne].
Qed.

(** A key that is still uncertain was not written. *)
Lemma still_uncertain valueMap ttl key (u : gset string) :
  NoDup valueMap.*1 -> key ∉ u ∖ list_to_set (written (encodable c) (CMultiSet valueMap ttl)) ->
  (forall a, (list_to_map valueMap : gmap string arg) !! key = Some a -> encodable c a = false) -> key ∉ u.
Proof.
  intros Hnd Hu Ha Hin. apply Hu, elem_of_difference. split; [done|]. cbn [written].
  intros ((k & a) & -> & [He Hel]%list_elem_of_filter)%elem_of_list_to_set%list_elem_of_fmap.
  apply elem_of_list_to_map_1 in Hel; [|done]. apply Ha in Hel. cbn in *. congruence.
Qed.

Lemma sim_multi_set now0 now r r' s u valueMap ttl :
  redis_sim now0 r s u -> now0 <= now -> 0 <= ttl -> (second | ttl) -> NoDup valueMap.*1 ->
  Redis.MultiSet c now valueMap ttl r = Ok r' ->
  redis_sim now r' (foldr (redis_entry (encodable c) now ttl) s valueMap) (u ∖ list_to_set (written (encodable c) (CMultiSet valueMap ttl))).
Proof.
  intros Hs Hn Hp Hm Hnd Hr t Ht key Hk Hu. unfold Redis.MultiSet in Hr. destruct valueMap as [|kv vm] eqn:Evm.
  { injection Hr as <-. apply Hs; [lia|done|set_solver]. }
  rewrite <- Evm in *. clear Evm. destruct (Redis.marshal_panics _ _); [done|].
  destruct (rMSetExpire _ _ _ _) eqn:Hset; [|done]. injection Hr as <-.
  rewrite (view_mset_expire _ _ _ _ _ Hset) by (try done; by apply pairs_nodup).
  rewrite pairs_lookup, redis_entries_lookup by done.
  pose proof (still_uncertain _ _ _ _ Hnd Hu) as Hu'.
  destruct (list_to_map valueMap !! key) as [a|] eqn:El; cbn; [|apply Hs; [lia|done|by apply Hu']]. unfold encodable in *.
  destruct (Marshal _ _ a) as [d| |] eqn:Ha; cbn; [|apply Hs; [lia|done|apply Hu'; intros ? [= <-]; by rewrite Ha]..].
  pose proof (marshal_stands _ _ Ha). unfold ttl_deadline. destruct (ttl =? 0); cbn; [done|].
  unfold live. cbn. by destruct (alive _ _).
Qed.

Lemma redis_step_sim now0 t cmd r r' s u :
  redis_sim now0 r s u -> now0 <= t -> fits cmd -> redis_step c r (t, cmd) = Ok r' ->
  redis_sim t r' (redis_spec (encodable c) t cmd s) (u ∖ list_to_set (written (encodable c) cmd)).
Proof.
  intros Hs Hn Hf Hr. destruct cmd; cbn in Hf, Hr; cbn [redis_spec].
  - destruct Hf. by eapply sim_set.
  - destruct Hf as (? & ? & ?). by eapply sim_multi_set.
  - by eapply sim_del.
  - by eapply sim_not_found.
Qed.

(** Commands that were run, in order of time, with what the contract holds and
    the keys that are uncertain: a command that succeeds does what the
    contract says; one that fails before it reaches the client does nothing;
    and one for which the client reports an error may have done anything to
    the keys it names, and nothing else. *)
Inductive ran (start : Z) (r0 : R) : Z -> R -> contents V -> gset string -> Prop :=
  | ran_start : ran start r0 start r0 ∅ ∅
  | ran_done now r s u t cmd r' :
      ran start r0 now r s u -> now <= t -> fits cmd -> redis_step c r (t, cmd) = Ok r' ->
      ran start r0 t r' (redis_spec (encodable c) t cmd s) (u ∖ list_to_set (written (encodable c) cmd))
  | ran_refused now r s u t cmd e :
      ran start r0 now r s u -> now <= t -> redis_step c r (t, cmd) = Err e -> e <> ErrClient -> ran start r0 t r s u
  | ran_failed now r s u t cmd r' :
      ran start r0 now r s u -> now <= t -> redis_step c r (t, cmd) = Err ErrClient ->
      (forall t' k, t <= t' -> k <> "" -> k ∉ named cmd ->
        view t' r' !! cache_key (KeyPrefix c) k = view t' r !! cache_key (KeyPrefix c) k) ->
      ran start r0 t r' s (u ∪ list_to_set (named cmd)).

Lemma ran_sim start r0 now r s u :
  (forall t k, start <= t -> k <> "" -> view t r0 !! cache_key (KeyPrefix c) k = None) ->
  ran start r0 now r s u -> redis_sim now r s u.
Proof.
  intros Hr0. induction 1 as [|now r s u t cmd r' _ IH Hn Hf Hr|now r s u t cmd e _ IH Hn Hr He|now r s u t cmd r' _ IH Hn Hr Hv].
  - intros t Ht key Hk _. by rewrite lookup_empty, Hr0.
  - by eapply redis_step_sim.
  - intros t' Ht. apply IH. lia.
  - intros t' Ht key Hk Hu. rewrite Hv by (try done; set_solver). apply IH; [lia|done|set_solver].
Qed.
End RedisRefines.

Section RedisTheorem.
Context {V R : Type} `{RedisLaws R}.

Lemma Get_sim (c : cache V) now0 t r s u key :
  redis_sim c now0 r s u -> now0 <= t -> key <> "" -> key ∉ u ->
  Redis.Get c t key true r = Err ErrClient \/ Redis.Get c t key true r = answer alive t key s.
Proof.
  intros Hs Ht Hk Hu. unfold Redis.Get. rewrite BuildCacheKey_ok by done. cbn.
  destruct (view_get t (cache_key (KeyPrefix c) key) r) as [-> | ->]; [by left|right].
  specialize (Hs t Ht key Hk Hu). unfold answer, stands in *.
  destruct (s !! key ≫= live alive t) as [[v|]|], (view t r !! _); try done; cbn.
  - by destruct Hs as [-> ->].
  - by rewrite Hs.
Qed.

Lemma MultiGet_sim (c : cache V) now0 t r s u keys :
  redis_sim c now0 r s u -> now0 <= t -> newObject c = true -> Forall (fun key => key <> "" /\ key ∉ u) keys ->
  Redis.MultiGet c t keys r = Err ErrClient \/
  Redis.MultiGet c t keys r = Ok (map (fun kv => (cache_key (KeyPrefix c) (fst kv), snd kv)) (answers alive t keys s)).
Proof.
  intros Hs Ht Ho Hk. destruct keys as [|k0 ks]; [by right|]. unfold Redis.MultiGet.
  remember (k0 :: ks) as keys eqn:E. clear E.
  assert (traverse (BuildCacheKey (KeyPrefix c)) keys = Ok (map (cache_key (KeyPrefix c)) keys)) as ->.
  { apply traverse_ok. induction Hk; cbn; constructor; [apply BuildCacheKey_ok; tauto|done]. }
  cbn. destruct (view_mget t (map (cache_key (KeyPrefix c)) keys) r) as [-> | ->]; [by left|right].
  clear k0 ks. induction Hk as [|key keys [Hkey Hu] Hk IH]; [done|]. cbn [map zip_with]. unfold answers. cbn [omap list_omap fst snd].
  assert (Redis.decoded c (cache_key (KeyPrefix c) key) (view t r !! cache_key (KeyPrefix c) key) =
    match answer alive t key s with Ok v => Some (Ok (cache_key (KeyPrefix c) key, v)) | _ => None end) as ->.
  { specialize (Hs t Ht key Hkey Hu). unfold Redis.decoded, answer, stands in *. rewrite Ho.
    destruct (s !! key ≫= live alive t) as [[v|]|], (view t r !! _); try done; [by destruct Hs as [-> ->]|by rewrite Hs]. }
  destruct (answer alive t key s); cbn; [|exact IH..]. unfold answers in IH. cbn in IH. by rewrite IH.
Qed.

(** C26: whatever commands were run on a Redis cache, a read of a key, alone or
    with others, gives what the contract holds at that time, the value last
    set, the note that there is none or no entry, or the error of the client.
    Commands may have failed: one that did not reach the client changed
    nothing, and a key is uncertain, so that nothing is said about it, from an
    error of the client for a command that names it until the next write of it
    that succeeds.  The encoding decodes what it encodes, and times to live are
    whole milliseconds, seconds for several values.  The note that there is
    none lasts 10 minutes, as the code has it; its comment says one. *)
Theorem redis_answers_by_the_last_write (c : cache V) start (r r' : R) s u now t key keys :
  faithful c -> newObject c = true -> (forall t k, start <= t -> k <> "" -> view t r !! cache_key (KeyPrefix c) k = None) ->
  ran c start r now r' s u ->
  now <= t -> key <> "" -> key ∉ u -> Forall (fun k => k <> "" /\ k ∉ u) keys ->
  (Redis.Get c t key true r' = Err ErrClient \/ Redis.Get c t key true r' = answer alive t key s) /\
  (Redis.MultiGet c t keys r' = Err ErrClient \/
   Redis.MultiGet c t keys r' = Ok (map (fun kv => (cache_key (KeyPrefix c) (fst kv), snd kv)) (answers alive t keys s))).
Proof.
  intros Hc Ho Hr Hrun Ht Hk Hu Hks. pose proof (ran_sim c Hc _ _ _ _ _ _ Hr Hrun) as Hs.
  split; [by eapply Get_sim|by eapply MultiGet_sim].
Qed.

(** When all the commands of a history succeed, no key is uncertain. *)
Lemma ran_history (c : cache V) start (r r' : R) h :
  in_order start h -> foldM (redis_step c) r h = Ok r' ->
  ran c start r (last_time start h) r' (foldl (fun s tc => redis_spec (encodable c) (fst tc) (snd tc) s) ∅ h) ∅.
Proof.
  enough (forall now r1 s, ran c start r now r1 s ∅ -> in_order now h -> foldM (redis_step c) r1 h = Ok r' ->
    ran c start r (last_time now h) r' (foldl (fun s tc => redis_spec (encodable c) (fst tc) (snd tc) s) s h) ∅) as H'
    by (intros Hh Hr; eapply H'; [constructor|done..]).
  induction h as [|[t cmd] h IH]; intros now r1 s Hran Hh Hr; cbn in Hr; [by injection Hr as <-|].
  destruct Hh as (? & ? & ?). ok_inv. cbn. eapply IH; [|done|done].
  rewrite <- (empty_difference_L (list_to_set (C := gset string) (written (encodable c) cmd))). by econstructor.
Qed.
End RedisTheorem.

(** ** A memory cache gives the last write or nothing *)

Section MemoryRefines.
Context {V M : Type} `{RistrettoLaws M}.
Variable c : cache V.
Hypothesis Hc : faithful c.

Definition memory_sim (now : Z) (m : M) (s : contents V) : Prop :=
  forall t, now <= t -> forall key, key <> "" -> forall d, held t m !! cache_key (KeyPrefix c) key = Some d ->
  stands c (s !! key ≫= live m_alive t) (Some d).

Lemma memory_sim_later now now' m s : memory_sim now m s -> now <= now' -> memory_sim now' m s.
Proof. intros Hs Hn t Ht. apply Hs. lia. Qed.

Lemma memory_sim_wait now m s : memory_sim now m s -> memory_sim now (Wait m) s.
Proof. intros Hs t Ht key Hk d Hd. apply Hs; [done..|]. by eapply lookup_weaken, held_wait. Qed.

Lemma memory_sim_put now m m' s key x d ttl :
  memory_sim now m s -> key <> "" -> 0 <= ttl -> stands c (Some x) (Some d) ->
  SetWithTTL now (cache_key (KeyPrefix c) key) d ttl m = (true, m') -> memory_sim now m' (put now key x ttl s).
Proof.
  intros Hs Hk Hp Hd Hm t Ht key' Hk' d' Hd'. pose proof (held_set _ _ _ _ _ _ Hm Hp t Ht _ _ Hd') as Hh. unfold put.
  destruct (decide (key' = key)) as [->|Hne].
  - rewrite decide_True in Hh by done. destruct Hh as [-> Hu]. rewrite lookup_insert_eq. cbn. unfold live. cbn. by rewrite Hu.
  - rewrite decide_False in Hh by (by intros ?%(inj (cache_key _))). rewrite lookup_insert_ne by done. by apply Hs.
Qed.

Lemma memory_sim_set now m m' s key val ttl :
  memory_sim now m s -> 0 <= ttl -> Memory.Set_ c now key val ttl m = Ok m' ->
  memory_sim now m' (put now key (Some (snd val)) ttl s).
Proof.
  intros Hs Hp Hm. unfold Memory.Set_ in Hm. ok_inv.
  match goal with Ha : Marshal _ _ _ = Ok ?d, Hb : BuildCacheKey _ _ = Ok _ |- _ =>
    destruct (marshal_stands c Hc _ _ Ha) as [Hd Hu]; apply BuildCacheKey_inv in Hb as [Hk ->] end.
  rewrite bool_decide_eq_false_2 in Hm by (intros ->; done).
  destruct (SetWithTTL _ _ _ _ _) as [[] m1] eqn:Hset; [|done]. injection Hm as <-.
  by eapply memory_sim_wait, memory_sim_put.
Qed.

Lemma memory_sim_multi now valueMap ttl m m' s :
  memory_sim now m s -> 0 <= ttl -> Memory.MultiSet c now valueMap ttl m = Ok m' ->
  memory_sim now m' (foldl (fun s kv => put now (fst kv) (Some (snd (snd kv))) ttl s) s valueMap).
Proof.
  intros Hs Hp. revert m s Hs. induction valueMap as [|[key v] vm IH]; intros m s Hs Hm; cbn in Hm.
  { by injection Hm as <-. }
  ok_inv. cbn. eapply IH; [|done]. by eapply memory_sim_set.
Qed.

Lemma memory_sim_del now m m' s keys :
  memory_sim now m s -> Memory.Del c keys m = Ok m' -> memory_sim now m' (memory_spec now (CDel keys) s).
Proof.
  intros Hs Hm. destruct keys as [|key keys]; cbn in Hm; [by injection Hm as <-|]. ok_inv.
  match goal with Hb : BuildCacheKey _ _ = Ok _ |- _ => apply BuildCacheKey_inv in Hb as [Hk ->] end.
  intros t Ht key' Hk' d Hd. apply held_del in Hd as [Hne Hd]. cbn.
  rewrite lookup_delete_ne by (by intros <-). by apply Hs.
Qed.

Lemma memory_sim_not_found now m m' s key :
  memory_sim now m s -> Memory.SetCacheWithNotFound c now key m = Ok m' ->
  memory_sim now m' (put now key None DefaultNotFoundExpireTime s).
Proof.
  intros Hs Hm. unfold Memory.SetCacheWithNotFound in Hm. ok_inv.
  match goal with Hb : BuildCacheKey _ _ = Ok _ |- _ => apply BuildCacheKey_inv in Hb as [Hk ->] end.
  destruct (SetWithTTL _ _ _ _ _) as [[] m1] eqn:Hset; [|done]. injection Hm as <-.
  eapply memory_sim_put; [exact Hs|done| | |exact Hset]; by vm_compute.
Qed.

Lemma memory_run_sim now0 h m m' s :
  memory_sim now0 m s -> in_order now0 h -> foldM (memory_step c) m h = Ok m' ->
  memory_sim (last_time now0 h) m' (foldl (fun s tc => memory_spec (fst tc) (snd tc) s) s h).
Proof.
  revert now0 m s. induction h as [|[t cmd] h IH]; intros now0 m s Hs Hh Hm; cbn in Hm.
  { by injection Hm as <-. }
  destruct Hh as (Hn & Hf & Hh). ok_inv. cbn. eapply IH; [|done|done].
  eapply memory_sim_later in Hs; [|exact Hn]. match goal with Hc : memory_step _ _ _ = _ |- _ => rename Hc into Hstep end.
  destruct cmd; cbn in Hf, Hstep.
  - destruct Hf. by eapply memory_sim_set.
  - destruct Hf as (? & ? & ?). by eapply memory_sim_multi.
  - by eapply memory_sim_del.
  - by eapply memory_sim_not_found.
Qed.
End MemoryRefines.

(** a read of a memory cache gives what the contract holds or no entry:
    never a value that was replaced, deleted or has expired. *)
Theorem memory_gives_the_last_write_or_nothing {V M} `{RistrettoLaws M} (c : cache V) start h (m m' : M) t key :
  faithful c -> (forall t k, start <= t -> k <> "" -> held t m !! cache_key (KeyPrefix c) k = None) ->
  in_order start h -> foldM (memory_step c) m h = Ok m' -> last_time start h <= t -> key <> "" ->
  Memory.Get c t key true m' = Err CacheNotFound \/
  Memory.Get c t key true m' = answer m_alive t key (foldl (fun s tc => memory_spec (fst tc) (snd tc) s) ∅ h).
Proof.
  intros Hc Hm0 Hh Hrun Ht Hk.
  assert (memory_sim c start m ∅) as Hs by (intros t' Ht' k Hk' d Hd; by rewrite Hm0 in Hd).
  pose proof (memory_run_sim c Hc _ _ _ _ _ Hs Hh Hrun _ Ht key Hk) as Hsim.
  unfold Memory.Get. rewrite BuildCacheKey_ok by done. cbn. destruct (mGet t _ m') as [d|] eqn:Hg; [right|by left].
  apply held_get, Hsim in Hg. unfold answer, stands in *. destruct (_ !! key ≫= live m_alive t) as [[v|]|]; [|by rewrite Hg|done].
  by destruct Hg as [-> ->].
Qed.

(** ** Encodings *)

(** A compression after an encoding keeps values when both do. *)
Lemma compressed_round_trip {V} (json : Encoding V) compress uncompress v data :
  (forall v d, marshal json v = Some d -> unmarshal json d = Some v) ->
  (forall d z, compress d = Some z -> uncompress z = Some d) ->
  marshal (compressed json compress uncompress) v = Some data ->
  unmarshal (compressed json compress uncompress) data = Some v.
Proof.
  intros Hj Hz. cbn. intros (d & Hd & Hdata)%bind_Some. rewrite (Hz _ _ Hdata). cbn. by apply Hj.
Qed.

(** An encoding that keeps values and never gives the placeholder is faithful,
    for types without methods of their own. *)
Lemma faithful_encoding {V} prefix (e : Encoding V) b :
  (forall v d, marshal e v = Some d -> is_placeholder d = false /\ unmarshal e d = Some v) ->
  faithful (mkCache prefix (Some e) None b).
Proof.
  intros He v data. unfold Marshal, Unmarshal. cbn. destruct (marshal e v) as [d|] eqn:Hd; [|done].
  intros [= <-]. by destruct (He _ _ Hd) as [-> ->].
Qed.

(** ** Concrete clients and an encoding, for examples *)

(** Data with deadlines: a server, and a ristretto that drops nothing. *)
Record server : Type := mkServer { entries : gmap string (string * option Z) }.
Record ristretto : Type := mkRistretto { items : gmap string (string * option Z) }.
Definition current (t : Z) (m : gmap string (string * option Z)) : gmap string string :=
  omap (fun e => if until Z.ltb t (snd e) then Some (fst e) else None) m.
Definition expire (now : Z) (exps : list (string * Z)) (k d : string) : option (string * option Z) :=
  match (list_to_map exps : gmap string Z) !! k with
  | None => Some (d, None)
  | Some e => if e <? second then None else Some (d, Some (now + e))
  end.
Definition mset_expire (now : Z) (kds : list (string * string)) (exps : list (string * Z)) (m : gmap string (string * option Z)) :=
  map_imap (expire now exps) (list_to_map kds : gmap string string) ∪ filter (fun kv => fst kv ∉ kds.*1) m.

#[global] Instance server_client : RedisClient server := {
  rSet now k d ttl r := Some (mkServer (<[k := (d, ttl_deadline now ttl)]> (entries r)));
  rGet now k r := match current now (entries r) !! k with Some d => Ok d | None => Err CacheNotFound end;
  rMGet now ks r := Some (map (fun k => current now (entries r) !! k) ks);
  rDel ks r := Some (mkServer (foldr delete (entries r) ks));
  rMSetExpire now kds exps r :=
    match kds with [] => None | _ => Some (mkServer (mset_expire now kds exps (entries r))) end }.
#[global] Instance ristretto_client : Ristretto ristretto := {
  SetWithTTL now k d ttl m := if ttl <? 0 then (false, m) else (true, mkRistretto (<[k := (d, ttl_deadline now ttl)]> (items m)));
  Wait m := m;
  mGet now k m := current now (items m) !! k;
  mDel k m := mkRistretto (delete k (items m)) }.

Lemma current_insert t m k d deadline k' :
  current t (<[k := (d, deadline)]> m) !! k' =
  if decide (k' = k) then if until Z.ltb t deadline then Some d else None else current t m !! k'.
Proof.
  unfold current. rewrite !lookup_omap. case_decide; subst; [by rewrite lookup_insert_eq|by rewrite lookup_insert_ne].
Qed.

Lemma current_mset_expire now kds ttl m t k :
  0 <= ttl -> (second | ttl) ->
  current t (mset_expire now kds (map (fun kd => (fst kd, ttl)) kds) m) !! k =
  match (list_to_map kds : gmap string string) !! k with
  | Some d => if (ttl =? 0) || negb (t <? now + ttl) then None else Some d
  | None => current t m !! k
  end.
Proof.
  intros Hp [q Hq]. unfold current, mset_expire. rewrite !lookup_omap, lookup_union, map_lookup_imap, map_lookup_filter.
  unfold expire. replace (map (fun kd => (fst kd, ttl)) kds) with (prod_map id (fun _ => ttl) <$> kds) by done.
  rewrite list_to_map_fmap, lookup_fmap.
  destruct (list_to_map kds !! k) as [d|] eqn:Hd; cbn.
  - assert (guard (k ∉ kds.*1) = None) as Hg.
    { apply elem_of_list_to_map_2, (list_elem_of_fmap_2 fst) in Hd. by apply option_guard_False; intros []. }
    assert (forall (x : option (string * option Z)), x ≫= (fun y => guard (k ∉ kds.*1);; Some y) = None) as ->.
    { intros [x|]; [|done]. cbn. by rewrite Hg. }
    unfold second, millisecond in *. destruct (Z.eqb_spec ttl 0), (Z.ltb_spec ttl (1000 * 1000000)); cbn; try lia; [done|].
    by destruct (t <? now + ttl).
  - apply not_elem_of_list_to_map in Hd. rewrite (left_id_L None (∪)). destruct (m !! k); cbn; [|done].
    by rewrite option_guard_True.
Qed.

#[global, program] Instance server_laws : RedisLaws server := {
  alive := Z.ltb; view t r := current t (entries r) }.
Next Obligation. intros t d Ht. by apply Z.ltb_lt. Qed.
Next Obligation. intros t d Ht. apply Z.ltb_ge. lia. Qed.
Next Obligation. intros now k d ttl r r' [= <-] _ _ t _ k'. apply current_insert. Qed.
Next Obligation. intros now k r. by right. Qed.
Next Obligation. intros now ks r. by right. Qed.
Next Obligation.
  intros ks r r' [= <-] t k. cbn. unfold current. rewrite !lookup_omap, lookup_foldr_delete. by case_decide.
Qed.
Next Obligation.
  intros now kds ttl r r' Hr _ Hp Hm t _ k. destruct kds as [|kd kds]; [done|]. injection Hr as <-.
  exact (current_mset_expire now (kd :: kds) ttl (entries r) t k Hp Hm).
Qed.

#[global, program] Instance ristretto_laws : RistrettoLaws ristretto := {
  m_alive := Z.ltb; held t m := current t (items m) }.
Next Obligation. intros t d Ht. by apply Z.ltb_lt. Qed.
Next Obligation. intros t d Ht. apply Z.ltb_ge. lia. Qed.
Next Obligation.
  intros now k d ttl m m' Hm Hp t _ k' d'. cbn in Hm. destruct (Z.ltb_spec ttl 0); [lia|]. injection Hm as <-. unfold held. cbn [items].
  rewrite current_insert. case_decide; [|done]. destruct (until _ _ _); [by intros [= <-]|done].
Qed.
Next Obligation. done. Qed.
Next Obligation. done. Qed.
Next Obligation.
  intros k m t k' d. cbn. unfold current. rewrite !lookup_omap, lookup_delete. by case_decide.
Qed.

(** Quoted text. *)
Definition quoted : Encoding string :=
  mkEncoding (fun v => Some (String "034" v)) (fun d => match d with String _ v => Some v | "" => None end).
Definition users : cache string := mkCache "user" (Some quoted) None true.

Lemma users_faithful : faithful users.
Proof. apply faithful_encoding. intros v d [= <-]. done. Qed.

Definition h_users : list (Z * command string) :=
  [(1, CSet "1" (true, "Ann") (2 * second)); (2, CMultiSet [("2", (true, "Bob")); ("3", (true, "Cid"))] minute);
   (3, CNotFound "4"); (4, CDel ["2"])].

Lemma h_users_in_order : in_order 0 h_users.
Proof.
  cbn. repeat split; try (by vm_compute); [by exists 2000|by exists 60|]. by repeat constructor; set_solver.
Qed.

Definition users_run : result error server := foldM (redis_step users) (mkServer ∅) h_users.
Definition users_memory_run : result error ristretto := foldM (memory_step users) (mkRistretto ∅) h_users.

Definition ok_or {A} (m : result error A) (d : A) : A := match m with Ok a => a | _ => d end.

(** Two commands fail after those: one has no key, the other no value that can
    be encoded. *)
Lemma redis_answers_by_the_last_write_witness :
  exists r', users_run = Ok r' /\ Redis.Get users second "1" true r' = Ok "Ann" /\
  Redis.MultiGet users second ["1"; "2"; "3"] r' = Ok [("user:1", "Ann"); ("user:3", "Cid")].
Proof.
  set (r' := ok_or users_run (mkServer ∅)). exists r'. split; [by vm_compute|].
  assert (ran users 0 (mkServer ∅) 6 r' (foldl (fun s tc => redis_spec (encodable users) (fst tc) (snd tc) s) ∅ h_users) {["5"]}) as Hran.
  { replace {["5"]} with (∅ ∪ list_to_set (C := gset string) (named (CMultiSet [("5", (false, "Eve"))] minute))) by set_solver.
    eapply (ran_failed users 0 (mkServer ∅) 5 r'); [|done|by vm_compute|done].
    eapply (ran_refused users 0 (mkServer ∅) 4 r' _ _ 5 (CNotFound "")); [|done|by vm_compute|done].
    apply (ran_history users 0 (mkServer ∅) r' h_users h_users_in_order). by vm_compute. }
  destruct (redis_answers_by_the_last_write users 0 (mkServer ∅) r' _ _ 6 second "1" ["1"; "2"; "3"] users_faithful eq_refl
    (fun t k _ _ => lookup_empty _) Hran ltac:(by vm_compute) ltac:(done) ltac:(set_solver) ltac:(repeat constructor; set_solver))
    as [[Hg|Hg] [Hm|Hm]]; by vm_compute in Hg, Hm |- *.
Defined.

Lemma memory_gives_the_last_write_or_nothing_witness :
  exists m', users_memory_run = Ok m' /\ Memory.Get users (3 * second) "1" true m' = Err CacheNotFound /\
  Memory.Get users second "1" true m' = Ok "Ann".
Proof.
  set (m' := ok_or users_memory_run (mkRistretto ∅)). exists m'. split; [by vm_compute|].
  destruct (memory_gives_the_last_write_or_nothing users 0 h_users (mkRistretto ∅) m' second "1" users_faithful
    (fun t k _ _ => lookup_empty _) h_users_in_order ltac:(by vm_compute) ltac:(by vm_compute) ltac:(done)) as [Hg|Hg]; by vm_compute in Hg |- *.
Defined.

(** ** What modelling showed *)

(** Values read together come under the keys with the prefix from Redis and
    under the keys as given from memory. *)
Lemma keys_of_several_values_differ :
  (r ← users_run; Redis.MultiGet users second ["1"] r) = Ok [("user:1", "Ann")] /\
  (m ← users_memory_run; Memory.MultiGet users second ["1"] m) = Ok [("1", "Ann")].
Proof. by vm_compute. Qed.

(** Several values set without a time to live are gone from Redis at once; one
    such value stays. *)
Lemma several_values_without_ttl_gone :
  (r ← Redis.MultiSet users 1 [("1", (true, "Ann"))] 0 (mkServer ∅); Redis.Get users 1 "1" true r) = Err CacheNotFound /\
  (r ← Redis.Set_ users 1 "1" (true, "Ann") 0 (mkServer ∅); Redis.Get users 1 "1" true r) = Ok "Ann".
Proof. by vm_compute. Qed.

(** Of several keys the memory cache deletes the first. *)
Lemma second_key_not_deleted :
  (m ← Memory.MultiSet users 1 [("1", (true, "Ann")); ("2", (true, "Bob"))] minute (mkRistretto ∅);
   m ← Memory.Del users ["1"; "2"] m; Memory.Get users 2 "2" true m) = Ok "Bob".
Proof. by vm_compute. Qed.

(** The note that there is no value stays for ten minutes, not for one. *)
Lemma note_after_a_minute :
  (r ← Redis.SetCacheWithNotFound users 0 "1" (mkServer ∅); Redis.Get users (9 * minute) "1" true r) = Err ErrPlaceholder /\
  (r ← Redis.SetCacheWithNotFound users 0 "1" (mkServer ∅); Redis.Get users (10 * minute) "1" true r) = Err CacheNotFound.
Proof. by vm_compute. Qed.

(** When no value of a map can be encoded, MSET is sent without arguments. *)
Lemma nothing_encodable_is_an_error :
  Redis.MultiSet users 1 [("1", (false, "Ann"))] minute (mkServer ∅) = Err ErrClient.
Proof. by vm_compute. Qed.

End Cache.
