(* ===== verification/Errcode.v ===== *)
(** * Error codes and the answers made from them (pkg/errcode, pkg/gin/response)

    http_error.go, rpc_error.go, the tables of system codes, the codes of
    services, response.go (the answer a gin handler gives to an error of an
    http or rpc service) and gin/response.  google.golang.org/grpc/status is a
    class with the documented laws; [c.JSON] is a reply that is returned.
    Theorems: a code survives the text of the error that carries it; the
    answers a responder gives to the errors of the package; the two conversions
    to standard rpc codes agree; where the conversions to http do not. *)

From stdpp Require Import sorting.
From S2P Require Import Prelude GoStr.
From Stdlib Require Import Ascii.
From Stdlib Require String.

Module Errcode.

(** ** Errors of http services *)

Definition ToHTTPCodeLabel : string := "[standard http code]".

Record Error : Type := mkError { code : Z; msg : string; details : list string; needHTTPCode : bool }.
#[global] Instance Error_eq_dec : EqDecision Error.
Proof. solve_decision. Defined.

(** The package variables [errCodes] and [httpErrCodes]. *)
Record registry : Type := mkRegistry { errCodes : gmap Z Error; httpErrCodes : gmap Z string }.
Definition no_codes : registry := mkRegistry ∅ ∅.

(** A code that exists is a panic. *)
Definition NewError (c : Z) (m : string) (ds : list string) (r : registry) : result unit (Error * registry) :=
  match errCodes r !! c with
  | Some _ => Panic
  | None =>
      let e := mkError c m ds false in
      Ok (e, mkRegistry (<[c := e]> (errCodes r)) (<[c := m]> (httpErrCodes r)))
  end.

Definition Success := mkError 0 "ok" [] false.
Definition InvalidParams := mkError 100001 "Invalid Parameter" [] false.
Definition Unauthorized := mkError 100002 "Unauthorized" [] false.
Definition InternalServerError := mkError 100003 "Internal Server Error" [] false.
Definition NotFound := mkError 100004 "Not Found" [] false.
Definition Timeout := mkError 100006 "Request Timeout" [] false.
Definition TooManyRequests := mkError 100007 "Too Many Requests" [] false.
Definition Forbidden := mkError 100008 "Forbidden" [] false.
Definition LimitExceed := mkError 100009 "Limit Exceed" [] false.
Definition DeadlineExceeded := mkError 100010 "Deadline Exceeded" [] false.
Definition AccessDenied := mkError 100011 "Access Denied" [] false.
Definition MethodNotAllowed := mkError 100012 "Method Not Allowed" [] false.
Definition ServiceUnavailable := mkError 100013 "Service Unavailable" [] false.
Definition Canceled := mkError 100014 "Canceled" [] false.
Definition Unknown := mkError 100015 "Unknown" [] false.
Definition PermissionDenied := mkError 100016 "Permission Denied" [] false.
Definition ResourceExhausted := mkError 100017 "Resource Exhausted" [] false.
Definition FailedPrecondition := mkError 100018 "Failed Precondition" [] false.
Definition Aborted := mkError 100019 "Aborted" [] false.
Definition OutOfRange := mkError 100020 "Out Of Range" [] false.
Definition Unimplemented := mkError 100021 "Unimplemented" [] false.
Definition DataLoss := mkError 100022 "Data Loss" [] false.
Definition StatusBadGateway := mkError 100023 "Bad Gateway" [] false.
Definition AlreadyExists := mkError 100005 "Already Exists" [] false.
Definition Conflict := mkError 100409 "Conflict" [] false.
Definition TooEarly := mkError 100425 "Too Early" [] false.

(** In the order of the declarations. *)
Definition system_errors : list Error :=
  [Success; InvalidParams; Unauthorized; InternalServerError; NotFound; Timeout; TooManyRequests; Forbidden; LimitExceed;
   DeadlineExceeded; AccessDenied; MethodNotAllowed; ServiceUnavailable; Canceled; Unknown; PermissionDenied;
   ResourceExhausted; FailedPrecondition; Aborted; OutOfRange; Unimplemented; DataLoss; StatusBadGateway; AlreadyExists;
   Conflict; TooEarly].

Definition register (r : registry) (e : Error) : result unit registry := snd <$> NewError (code e) (msg e) (details e) r.
Definition init_errors : result unit registry := foldM register no_codes system_errors.

(** The codes of a service. *)
Definition HCode (num : Z) : result unit Z := if (999 <? num) || (num <? 1) then Panic else Ok (200000 + num * 100).
Definition RCode (num : Z) : result unit Z := if (999 <? num) || (num <? 1) then Panic else Ok (400000 + num * 100).

(** *** Texts of errors *)

Definition message_of (e : Error) (msgs : list string) : string := match msgs with [] => msg e | _ => Join msgs ", " end.

(** The verb [%v] on strings: in brackets, with blanks between. *)
Definition Err (e : Error) (msgs : list string) : string :=
  match details e with
  | [] => "code = " +:+ Itoa (code e) +:+ ", msg = " +:+ message_of e msgs
  | ds => "code = " +:+ Itoa (code e) +:+ ", msg = " +:+ message_of e msgs +:+ ", details = [" +:+ Join ds " " +:+ "]"
  end.
Definition ErrToHTTP (e : Error) (msgs : list string) : string :=
  match details e with
  | [] => "code = " +:+ Itoa (code e) +:+ ", msg = " +:+ message_of e msgs +:+ ToHTTPCodeLabel
  | ds => "code = " +:+ Itoa (code e) +:+ ", msg = " +:+ message_of e msgs +:+ ", details = " +:+ Join ds ", " +:+ ToHTTPCodeLabel
  end.

Definition WithDetails (e : Error) (ds : list string) : Error := mkError (code e) (msg e +:+ ", " +:+ Join ds ", ") [] false.
Definition RewriteMsg (e : Error) (m : string) : Error := mkError (code e) m [] false.
Definition WithOutMsg (e : Error) (m : string) : Error := mkError (code e) m [] false.
Definition WithOutMsgI18n (e : Error) (langMsg : gmap Z (gmap string string)) (lang : string) : Error :=
  match langMsg !! code e with
  | Some i18nMsg => match i18nMsg !! lang with Some m => mkError (code e) m [] false | None => mkError (code e) (msg e) [] false end
  | None => mkError (code e) (msg e) [] false
  end.

(** *** Codes of http *)

(** A [switch]: the first case that lists the value. *)
Fixpoint switch {A} (c : Z) (cases : list (list Z * A)) : option A :=
  match cases with
  | [] => None
  | (ks, a) :: cases' => if existsb (Z.eqb c) ks then Some a else switch c cases'
  end.

Definition http_cases1 : list (list Z * Z) :=
  [([code Success], 200); ([code InternalServerError], 500); ([code InvalidParams], 400)].
Definition http_cases2 : list (list Z * Z) :=
  [([code Unauthorized; code PermissionDenied], 401);
   ([code TooManyRequests; code LimitExceed], 429);
   ([code Forbidden; code AccessDenied], 403);
   ([code NotFound], 404);
   ([code Conflict; code AlreadyExists], 409);
   ([code TooEarly], 425);
   ([code Timeout; code DeadlineExceeded], 408);
   ([code MethodNotAllowed], 405);
   ([code ServiceUnavailable], 503);
   ([code Unimplemented], 501);
   ([code StatusBadGateway], 502)].
Definition ToHTTPCode (e : Error) : Z :=
  match switch (code e) http_cases1 with
  | Some h => h
  | None => match switch (code e) http_cases2 with Some h => h | None => 500 end
  end.

(** [http.StatusText]. *)
Definition status_texts : list (list Z * string) :=
  [([100], "Continue"); ([101], "Switching Protocols"); ([102], "Processing"); ([103], "Early Hints"); ([200], "OK");
   ([201], "Created"); ([202], "Accepted"); ([203], "Non-Authoritative Information"); ([204], "No Content");
   ([205], "Reset Content"); ([206], "Partial Content"); ([207], "Multi-Status"); ([208], "Already Reported");
   ([226], "IM Used"); ([300], "Multiple Choices"); ([301], "Moved Permanently"); ([302], "Found"); ([303], "See Other");
   ([304], "Not Modified"); ([305], "Use Proxy"); ([307], "Temporary Redirect"); ([308], "Permanent Redirect");
   ([400], "Bad Request"); ([401], "Unauthorized"); ([402], "Payment Required"); ([403], "Forbidden"); ([404], "Not Found");
   ([405], "Method Not Allowed"); ([406], "Not Acceptable"); ([407], "Proxy Authentication Required");
   ([408], "Request Timeout"); ([409], "Conflict"); ([410], "Gone"); ([411], "Length Required");
   ([412], "Precondition Failed"); ([413], "Request Entity Too Large"); ([414], "Request URI Too Long");
   ([415], "Unsupported Media Type"); ([416], "Requested Range Not Satisfiable"); ([417], "Expectation Failed");
   ([418], "I'm a teapot"); ([421], "Misdirected Request"); ([422], "Unprocessable Entity"); ([423], "Locked");
   ([424], "Failed Dependency"); ([425], "Too Early"); ([426], "Upgrade Required"); ([428], "Precondition Required");
   ([429], "Too Many Requests"); ([431], "Request Header Fields Too Large"); ([451], "Unavailable For Legal Reasons");
   ([500], "Internal Server Error"); ([501], "Not Implemented"); ([502], "Bad Gateway"); ([503], "Service Unavailable");
   ([504], "Gateway Timeout"); ([505], "HTTP Version Not Supported"); ([506], "Variant Also Negotiates");
   ([507], "Insufficient Storage"); ([508], "Loop Detected"); ([510], "Not Extended");
   ([511], "Network Authentication Required")].
Definition StatusText (c : Z) : string := default "" (switch c status_texts).

(** *** Reading an error *)

(** The number [strconv.Atoi] returns beside its error: 0 for a text that is
    not a number, the bound for one out of range. *)
Fixpoint clamped (n : Z) (s : string) : Z :=
  match s with
  | EmptyString => n
  | String.String c s' =>
      if is_digit c then let n' := 10 * n + digit_val c in if 2 ^ 64 <=? n' then 2 ^ 64 - 1 else clamped n' s'
      else 0
  end.
Definition Atoi_value (s : string) : Z :=
  match s with
  | String.String "-" t => - Z.min (clamped 0 t) (2 ^ 63)
  | String.String "+" t => Z.min (clamped 0 t) (2 ^ 63 - 1)
  | t => Z.min (clamped 0 t) (2 ^ 63 - 1)
  end.

(** [err == nil] is [None]. *)
Definition unknown_error : Error := mkError (-1) "unknown error" [] false.
Definition ParseError (r : registry) (err : option string) : Error :=
  match err with
  | None => Success
  | Some text =>
      let splits := SplitStr text ", msg = " in
      let codeStr := ReplaceAll (default "" (splits !! 0%nat)) "code = " "" in
      match Atoi codeStr with
      | None => unknown_error
      | Some c =>
          match errCodes r !! c with
          | Some e =>
              match splits !! 1%nat with
              | Some m => mkError c m [] (Contains text ToHTTPCodeLabel)
              | None => e
              end
          | None => unknown_error
          end
      end
  end.
Definition GetErrorCode (r : registry) (err : option string) : Z :=
  let e := ParseError r err in if needHTTPCode e then ToHTTPCode e else code e.
Definition Is (r : registry) (err : option string) (e : Error) : bool := GetErrorCode r err =? code e.

(** [getErrorInfo]: by ascending code. *)
Definition getErrorInfo (codeInfo : gmap Z string) : list (Z * string) :=
  map (fun k => (k, default "" (codeInfo !! k))) (merge_sort Z.le (elements (dom codeInfo))).
Definition ListHTTPErrCodes (r : registry) : list (Z * string) := getErrorInfo (httpErrCodes r).

(** ** Statuses of grpc services *)

(** The package google.golang.org/grpc/codes. *)
Module codes.
Definition OK := 0.
Definition Canceled := 1.
Definition Unknown := 2.
Definition InvalidArgument := 3.
Definition DeadlineExceeded := 4.
Definition NotFound := 5.
Definition AlreadyExists := 6.
Definition PermissionDenied := 7.
Definition ResourceExhausted := 8.
Definition FailedPrecondition := 9.
Definition Aborted := 10.
Definition OutOfRange := 11.
Definition Unimplemented := 12.
Definition Internal := 13.
Definition Unavailable := 14.
Definition DataLoss := 15.
Definition Unauthenticated := 16.
End codes.

(** An [error] that is not nil: a text, or the error of a status. *)
Inductive error (St : Type) : Type :=
  | Text (s : string)
  | StatusError (s : St).
Arguments Text {St} s.
Arguments StatusError {St} s.

(** google.golang.org/grpc/status.  A [*Status] is an option: its methods
    accept nil. *)
Class GrpcStatus (St : Type) := {
  New : Z -> string -> St;
  Code : option St -> Z;
  Message : option St -> string;
  String : option St -> string;         (* the text of its error, too *)
  code_String : Z -> string;            (* codes.Code.String() *)
  FromError : option (error St) -> option St }.

(** [st.Err()]: nil for the code OK. *)
Definition status_Err {St} `{GrpcStatus St} (st : St) : option (error St) :=
  if Code (Some st) =? codes.OK then None else Some (StatusError st).
(** [status.Errorf(c, "%s", m)]. *)
Definition Errorf {St} `{GrpcStatus St} (c : Z) (m : string) : option (error St) := status_Err (New c m).

(** The documentation: "FromError returns a Status representation of err: if it
    was produced by this package the status, if it is nil, nil, otherwise a
    status with Unknown and err's message". *)
Class GrpcStatusLaws (St : Type) `{GrpcStatus St} : Prop := {
  Code_nil : Code None = codes.OK;
  Code_New c m : Code (Some (New c m)) = c;
  Message_nil : Message None = "";
  Message_New c m : Message (Some (New c m)) = m;
  String_New c m : String (Some (New c m)) = "rpc error: code = " +:+ code_String c +:+ " desc = " +:+ m;
  FromError_nil : FromError None = None;
  FromError_status s : FromError (Some (StatusError s)) = Some s;
  FromError_text t : FromError (Some (Text t)) = Some (New codes.Unknown t);
  code_String_Unknown : code_String codes.Unknown = "Unknown" }.

(** What [c.JSON] is given: the http status and the fields code, msg and data. *)
Inductive payload (D : Type) : Type :=
  | EmptyStruct
  | Data (d : D).
Arguments EmptyStruct {D}.
Arguments Data {D} d.
Record reply (D : Type) : Type := mkReply { rstatus : Z; rcode : Z; rmsg : string; rdata : payload D }.
Arguments mkReply {D}. Arguments rstatus {D}. Arguments rcode {D}. Arguments rmsg {D}. Arguments rdata {D}.

Section Rpc.
Context {St : Type} `{GrpcStatus St}.

(** The text of an error. *)
Definition Error_text (e : error St) : string := match e with Text s => s | StatusError s => String (Some s) end.

Record RPCStatus : Type := mkRPCStatus { status : option St }.

(** The package variables [statusCodes] and [grpcErrCodes]. *)
Definition NewRPCStatus (c : Z) (m : string) (r : gmap Z string * gmap Z string) : result unit (RPCStatus * (gmap Z string * gmap Z string)) :=
  match r.1 !! c with
  | Some _ => Panic
  | None => Ok (mkRPCStatus (Some (New c m)), (<[c := m]> r.1, <[c := m]> r.2))
  end.

Definition system (c : Z) (m : string) : RPCStatus := mkRPCStatus (Some (New c m)).
Definition StatusSuccess := system 0 "ok".
Definition StatusCanceled := system 300001 "Canceled".
Definition StatusUnknown := system 300002 "Unknown".
Definition StatusInvalidParams := system 300003 "Invalid Parameter".
Definition StatusDeadlineExceeded := system 300004 "Deadline Exceeded".
Definition StatusNotFound := system 300005 "Not Found".
Definition StatusAlreadyExists := system 300006 "Already Exists".
Definition StatusPermissionDenied := system 300007 "Permission Denied".
Definition StatusResourceExhausted := system 300008 "Resource Exhausted".
Definition StatusFailedPrecondition := system 300009 "Failed Precondition".
Definition StatusAborted := system 300010 "Aborted".
Definition StatusOutOfRange := system 300011 "Out Of Range".
Definition StatusUnimplemented := system 300012 "Unimplemented".
Definition StatusInternalServerError := system 300013 "Internal Server Error".
Definition StatusServiceUnavailable := system 300014 "Service Unavailable".
Definition StatusDataLoss := system 300015 "Data Loss".
Definition StatusUnauthorized := system 300016 "Unauthorized".
Definition StatusTimeout := system 300017 "Request Timeout".
Definition StatusTooManyRequests := system 300018 "Too Many Requests".
Definition StatusForbidden := system 300019 "Forbidden".
Definition StatusLimitExceed := system 300020 "Limit Exceed".
Definition StatusMethodNotAllowed := system 300021 "Method Not Allowed".
Definition StatusAccessDenied := system 300022 "Access Denied".
Definition StatusConflict := system 300023 "Conflict".

(** [s.status.Code()] and [s.status.Message()]. *)
Definition scode (s : RPCStatus) : Z := Code (status s).
Definition smsg (s : RPCStatus) : string := Message (status s).

Definition RPC_Err (s : RPCStatus) (desc : list string) : option (error St) :=
  Errorf (scode s) (match desc with [] => smsg s | _ => Join desc ", " end).
Definition RPC_ErrToHTTP (s : RPCStatus) (desc : list string) : option (error St) :=
  Errorf (scode s) ((match desc with [] => smsg s | _ => Join desc ", " end) +:+ ToHTTPCodeLabel).

Definition toRPCErr (c : Z) (descs : list string) : option (error St) :=
  status_Err (New c (match descs with [] => code_String c | _ => Join descs ", " end)).

Definition rpc_err_cases1 : list (list Z * Z) :=
  [([scode StatusInvalidParams], codes.InvalidArgument); ([scode StatusInternalServerError], codes.Internal)].
Definition rpc_err_cases2 : list (list Z * Z) :=
  [([scode StatusCanceled], codes.Canceled);
   ([scode StatusUnknown], codes.Unknown);
   ([scode StatusDeadlineExceeded], codes.DeadlineExceeded);
   ([scode StatusNotFound], codes.NotFound);
   ([scode StatusAlreadyExists; scode StatusConflict], codes.AlreadyExists);
   ([scode StatusPermissionDenied], codes.PermissionDenied);
   ([scode StatusResourceExhausted], codes.ResourceExhausted);
   ([scode StatusFailedPrecondition], codes.FailedPrecondition);
   ([scode StatusAborted], codes.Aborted);
   ([scode StatusOutOfRange], codes.OutOfRange);
   ([scode StatusUnimplemented], codes.Unimplemented);
   ([scode StatusServiceUnavailable], codes.Unavailable);
   ([scode StatusDataLoss], codes.DataLoss);
   ([scode StatusUnauthorized], codes.Unauthenticated);
   ([scode StatusAccessDenied], codes.PermissionDenied);
   ([scode StatusLimitExceed], codes.ResourceExhausted);
   ([scode StatusMethodNotAllowed], codes.Unimplemented)].
Definition ToRPCErr (s : RPCStatus) (desc : list string) : option (error St) :=
  match switch (scode s) rpc_err_cases1 with
  | Some c => toRPCErr c desc
  | None =>
      match switch (scode s) rpc_err_cases2 with
      | Some c => toRPCErr c desc
      | None => RPC_Err s []
      end
  end.

Definition rpc_code_cases1 : list (list Z * Z) :=
  [([scode StatusInvalidParams], codes.InvalidArgument);
   ([scode StatusInternalServerError], codes.Internal);
   ([scode StatusUnimplemented], codes.Unimplemented)].
Definition rpc_code_cases2 : list (list Z * Z) :=
  [([scode StatusPermissionDenied], codes.PermissionDenied);
   ([scode StatusCanceled], codes.Canceled);
   ([scode StatusUnknown], codes.Unknown);
   ([scode StatusDeadlineExceeded], codes.DeadlineExceeded);
   ([scode StatusNotFound], codes.NotFound);
   ([scode StatusAlreadyExists; scode StatusConflict], codes.AlreadyExists);
   ([scode StatusResourceExhausted], codes.ResourceExhausted);
   ([scode StatusFailedPrecondition], codes.FailedPrecondition);
   ([scode StatusAborted], codes.Aborted);
   ([scode StatusOutOfRange], codes.OutOfRange);
   ([scode StatusServiceUnavailable], codes.Unavailable);
   ([scode StatusDataLoss], codes.DataLoss);
   ([scode StatusUnauthorized], codes.Unauthenticated);
   ([scode StatusAccessDenied], codes.PermissionDenied);
   ([scode StatusLimitExceed], codes.ResourceExhausted);
   ([scode StatusMethodNotAllowed], codes.Unimplemented)].
Definition ToRPCCode (s : RPCStatus) : Z :=
  match switch (scode s) rpc_code_cases1 with
  | Some c => c
  | None => default (scode s) (switch (scode s) rpc_code_cases2)
  end.

(** A grpc code as an http code. *)
Definition convert_cases1 : list (list Z * Z) :=
  [([scode StatusSuccess], 200);
   ([codes.InvalidArgument; scode StatusInvalidParams], 400);
   ([codes.Internal; scode StatusInternalServerError], 500);
   ([codes.Unimplemented; scode StatusUnimplemented], 501);
   ([codes.NotFound; scode StatusNotFound], 404);
   ([scode StatusForbidden; scode StatusAccessDenied], 403)].
Definition convert_cases2 : list (list Z * Z) :=
  [([scode StatusTimeout], 408);
   ([scode StatusTooManyRequests; scode StatusLimitExceed], 429);
   ([codes.FailedPrecondition; scode StatusFailedPrecondition], 412);
   ([codes.Unavailable; scode StatusServiceUnavailable], 503);
   ([codes.Unauthenticated; scode StatusUnauthorized], 401);
   ([codes.PermissionDenied; scode StatusPermissionDenied], 401);
   ([scode StatusLimitExceed], 429);
   ([scode StatusMethodNotAllowed], 405);
   ([scode StatusConflict], 409)].
Definition convertToHTTPCode (c : Z) : Z :=
  match switch c convert_cases1 with
  | Some h => h
  | None => default 500 (switch c convert_cases2)
  end.

Definition GetStatusCode (err : option (error St)) : Z :=
  match FromError err with None => codes.OK | Some st => Code (Some st) end.
Definition IsStatus (err : option (error St)) (e : RPCStatus) : bool := GetStatusCode err =? scode e.

(** A grpc status as an error of http. *)
Definition to_http_cases1 : list (list Z * Error) :=
  [([scode StatusSuccess; codes.OK], Success);
   ([scode StatusInvalidParams; codes.InvalidArgument], InvalidParams);
   ([scode StatusInternalServerError; codes.Internal], InternalServerError);
   ([scode StatusUnimplemented; codes.Unimplemented], Unimplemented);
   ([scode StatusPermissionDenied; codes.PermissionDenied], PermissionDenied)].
Definition to_http_cases2 : list (list Z * Error) :=
  [([scode StatusCanceled; codes.Canceled], Canceled);
   ([scode StatusUnknown; codes.Unknown], Unknown);
   ([scode StatusDeadlineExceeded; codes.DeadlineExceeded], DeadlineExceeded);
   ([scode StatusNotFound; codes.NotFound], NotFound);
   ([scode StatusAlreadyExists; codes.AlreadyExists; scode StatusConflict], Conflict);
   ([scode StatusResourceExhausted; codes.ResourceExhausted], ResourceExhausted);
   ([scode StatusFailedPrecondition; codes.FailedPrecondition], FailedPrecondition);
   ([scode StatusAborted; codes.Aborted], Aborted);
   ([scode StatusOutOfRange; codes.OutOfRange], OutOfRange);
   ([scode StatusServiceUnavailable; codes.Unavailable], ServiceUnavailable);
   ([scode StatusDataLoss; codes.DataLoss], DataLoss);
   ([scode StatusUnauthorized; codes.Unauthenticated], Unauthorized);
   ([scode StatusAccessDenied], AccessDenied);
   ([scode StatusLimitExceed], LimitExceed);
   ([scode StatusMethodNotAllowed], MethodNotAllowed)].
Definition ToHTTPErr (st : option St) : Error :=
  match switch (Code st) to_http_cases1 with
  | Some e => e
  | None =>
      match switch (Code st) to_http_cases2 with
      | Some e => e
      | None => mkError (Code st) (Message st) [] false
      end
  end.

(** ** Answers of gin handlers *)

Record defaultResponse : Type := mkResponse { isFromRPC : bool; httpErrors : gmap Z Error; rpcStatus : gmap Z RPCStatus }.

(** nil pointers, and statuses without one inside, are passed over. *)
Definition NewResponser (fromRPC : bool) (errs : list (option Error)) (stats : list (option RPCStatus)) : defaultResponse :=
  mkResponse fromRPC
    (foldl (fun m oe => match oe with Some e => <[code e := e]> m | None => m end) ∅ errs)
    (foldl (fun m os =>
              match os with
              | Some s => match status s with Some _ => <[scode s := s]> (<[ToRPCCode s := s]> m) | None => m end
              | None => m
              end) ∅ stats).

Section Reply.
Context {D : Type}.

Definition reply_Success (data : D) : reply D := mkReply 200 0 "ok" (Data data).
Definition ParamError (_ : option (error St)) : reply D := mkReply 200 (code InvalidParams) (msg InvalidParams) EmptyStruct.

Definition user_defined (e : Error) : reply D * bool :=
  let httpCode := ToHTTPCode e in
  let m := if bool_decide (StatusText httpCode = "") then "unknown error" else StatusText httpCode in
  (mkReply httpCode httpCode m EmptyStruct, true).
Definition isUserDefinedRPCErrorCode (resp : defaultResponse) (errCode : Z) : option (reply D * bool) :=
  (fun v => user_defined (ToHTTPErr (status v))) <$> rpcStatus resp !! errCode.
Definition isUserDefinedHTTPErrorCode (resp : defaultResponse) (errCode : Z) : option (reply D * bool) :=
  user_defined <$> httpErrors resp !! errCode.

Definition parseCodeAndMsg (errStr : string) : Z * string :=
  if bool_decide (errStr = "") then (-1, errStr)
  else
    let ss := SplitStr errStr "desc = " in
    match SplitStr (default "" (last ss)) "msg = " with
    | [c; m] =>
        let codeStr := ReplaceAll (ReplaceAll c "code = " "") ", " "" in
        (Atoi_value codeStr, m)
    | _ => (-1, errStr)
    end.

Definition standard (c : Z) : reply D * bool := (mkReply c c (StatusText c) EmptyStruct, true).

Definition handleRPCError (resp : defaultResponse) (err : option (error St)) : reply D * bool :=
  let st := FromError err in
  if Code st =? codes.Unknown then
    let '(c, m) := parseCodeAndMsg (String st) in
    (if c =? -1 then mkReply 200 (-1) "unknown error" EmptyStruct else mkReply 200 c m EmptyStruct, false)
  else
    match switch (Code st) [([codes.Internal; scode StatusInternalServerError], 500); ([codes.Unavailable; scode StatusServiceUnavailable], 503)] with
    | Some c => standard c
    | None =>
        if Contains (Message st) ToHTTPCodeLabel then
          (mkReply (convertToHTTPCode (Code st)) (Code st) (ReplaceAll (Message st) ToHTTPCodeLabel "") EmptyStruct, true)
        else
          match isUserDefinedRPCErrorCode resp (Code st) with
          | Some a => a
          | None => (mkReply 200 (Code st) (Message st) EmptyStruct, false)
          end
    end.

(** [r] holds the registered codes. *)
Definition handleHTTPError (r : registry) (resp : defaultResponse) (err : option (error St)) : reply D * bool :=
  let e := ParseError r (Error_text <$> err) in
  match switch (code e) [([code InternalServerError; 500], 500); ([code ServiceUnavailable; 503], 503)] with
  | Some c => standard c
  | None =>
      if needHTTPCode e then (mkReply (ToHTTPCode e) (code e) (ReplaceAll (msg e) ToHTTPCodeLabel "") EmptyStruct, true)
      else
        match isUserDefinedHTTPErrorCode resp (code e) with
        | Some a => a
        | None => (mkReply 200 (code e) (msg e) EmptyStruct, false)
        end
  end.

Definition resp_Error (r : registry) (resp : defaultResponse) (err : option (error St)) : reply D * bool :=
  if isFromRPC resp then handleRPCError resp err else handleHTTPError r resp err.
End Reply.
End Rpc.

(** ** Answers in one format (pkg/gin/response) *)

Module Response.
Section Response.
Context {D : Type}.

(** The data of an answer is never null. *)
Definition newResp (c : Z) (m : string) (data : option D) (httpCode : Z) : reply D :=
  mkReply httpCode c m (match data with None => EmptyStruct | Some d => Data d end).
Definition first (data : list (option D)) : option D := match data with d :: _ => d | [] => None end.
Definition respJSONWithStatusCode (c : Z) (m : string) (data : list (option D)) : reply D := newResp c m (first data) c.
Definition respJSONWith200 (c : Z) (m : string) (data : list (option D)) : reply D := newResp c m (first data) 200.

Definition Output (c : Z) (data : list (option D)) : reply D :=
  match switch c [([200], "ok"); ([400], msg InvalidParams); ([401], msg Unauthorized); ([403], msg Forbidden);
                  ([404], msg NotFound); ([408], msg Timeout); ([409], msg Conflict); ([500], msg InternalServerError);
                  ([429], msg LimitExceed); ([503], msg ServiceUnavailable)] with
  | Some m => respJSONWithStatusCode c m data
  | None => respJSONWithStatusCode c (StatusText c) data
  end.

Definition Out (err : Error) (data : list (option D)) : reply D :=
  let c := ToHTTPCode err in
  match switch c [([200], "ok"); ([500], msg err); ([400], msg err); ([401], msg err); ([403], msg err); ([404], msg err);
                  ([408], msg err); ([409], msg err); ([429], msg err); ([503], msg err); ([405], msg err)] with
  | Some m => respJSONWithStatusCode c m data
  | None => respJSONWithStatusCode 510 (msg err) data
  end.

Definition Success (data : list (option D)) : reply D := respJSONWith200 0 "ok" data.
Definition Error (err : Errcode.Error) (data : list (option D)) : reply D := respJSONWith200 (code err) (msg err) data.
End Response.
End Response.

(** ** The registry *)

(** Every code is its error's, and is listed with its message. *)
Definition registry_wf (r : registry) : Prop :=
  (forall c e, errCodes r !! c = Some e -> code e = c /\ needHTTPCode e = false) /\
  httpErrCodes r = msg <$> errCodes r.

Lemma NewError_wf c m ds r e r' : NewError c m ds r = Ok (e, r') -> registry_wf r ->
  registry_wf r' /\ errCodes r' !! c = Some e /\ errCodes r !! c = None /\ errCodes r ⊆ errCodes r'.
Proof.
  unfold NewError. destruct (errCodes r !! c) eqn:E; [done|]. intros [= <- <-] [Hc Hm]. cbn. split_and!.
  - split; cbn; [|by rewrite fmap_insert, Hm]. intros c' e. rewrite lookup_insert_Some. naive_solver.
  - apply lookup_insert_eq.
  - done.
  - by apply insert_subseteq.
Qed.

Lemma register_wf l : forall r r', foldM register r l = Ok r' -> registry_wf r ->
  registry_wf r' /\ errCodes r ⊆ errCodes r' /\
  Forall (fun e => errCodes r' !! code e = Some (mkError (code e) (msg e) (details e) false)) l.
Proof.
  induction l as [|e l IH]; intros r r' Hl Hr; cbn in Hl; [injection Hl as <-; by split_and!|].
  ok_inv. unfold register in *. destruct (NewError _ _ _ r) as [[e' r1]| |] eqn:E; simplify_eq/=.
  pose proof (NewError_wf _ _ _ _ _ _ E Hr) as (Hr1 & He & _ & Hsub).
  destruct (IH _ _ Hl Hr1) as (Hr' & Hsub' & Hall). split_and!; [done|by etrans|].
  constructor; [|done]. unfold NewError in E. case_match; [done|]. injection E as <- _. eapply lookup_weaken; done.
Qed.

(** The system codes are distinct: the package can be loaded. *)
Lemma init_errors_ok : exists r, init_errors = Ok r /\ registry_wf r /\
  Forall (fun e => errCodes r !! code e = Some e) system_errors.
Proof.
  assert (is_ok init_errors = true) as H by (vm_cast_no_check (eq_refl true)).
  destruct init_errors as [r| |] eqn:E in H |- *; [|discriminate H..]. clear H. exists r. split; [done|].
  destruct (register_wf _ _ _ E) as (Hr & _ & Hall); [by split|]. split; [done|].
  assert (Forall (fun e => mkError (code e) (msg e) (details e) false = e) system_errors) as Heq by (by repeat constructor).
  rewrite Forall_forall in *. intros e He. by rewrite (Hall e He), (Heq e He).
Qed.

(** Codes of services neither meet each other nor those of the system. *)
Lemma service_codes_apart i j ci cj a b : HCode i = Ok ci -> HCode j = Ok cj -> 0 <= a < 100 -> 0 <= b < 100 ->
  ci + a = cj + b -> i = j /\ a = b.
Proof. unfold HCode. repeat case_match; intros [= <-] [= <-]; lia. Qed.

Lemma service_codes_range i c a : HCode i = Ok c -> 0 <= a < 100 ->
  200100 <= c + a < 300000 /\ forall j d, RCode j = Ok d -> c + a < d.
Proof. unfold HCode, RCode. case_match; intros [= <-] Ha. split; [lia|]. intros j d. case_match; intros [= <-]; lia. Qed.

(** Every code is listed, once, in ascending order. *)
Lemma getErrorInfo_sorted m : StronglySorted Z.le (getErrorInfo m).*1.
Proof.
  unfold getErrorInfo. rewrite <- list_fmap_compose. unfold compose. cbn. rewrite list_fmap_id.
  apply StronglySorted_merge_sort; [apply _|]. intros x y. lia.
Qed.

Lemma getErrorInfo_lists m : map_to_list m ≡ₚ getErrorInfo m.
Proof.
  apply NoDup_Permutation.
  - apply NoDup_map_to_list.
  - apply (NoDup_fmap_1 fst). unfold getErrorInfo. rewrite <- list_fmap_compose. unfold compose. cbn. rewrite list_fmap_id, merge_sort_Permutation.
    apply NoDup_elements.
  - intros [c s]. rewrite elem_of_map_to_list. unfold getErrorInfo. rewrite list_elem_of_fmap. setoid_rewrite merge_sort_Permutation.
    setoid_rewrite elem_of_elements. setoid_rewrite elem_of_dom. split.
    + intros Hc. exists c. rewrite Hc. by split.
    + intros (k & [= -> ->] & v & Hv). by rewrite Hv.
Qed.

(** ** Codes in texts *)

Definition sep : string := ", msg = ".

Lemma Err_text e msgs : exists rest, Err e msgs = "code = " +:+ Itoa (code e) +:+ sep +:+ message_of e msgs +:+ rest /\
  (details e = [] -> rest = "").
Proof.
  unfold Err. destruct (details e); [exists ""|eexists; split; [reflexivity|done]].
  by rewrite app_nil_s.
Qed.

Lemma ErrToHTTP_text e msgs : exists rest,
  ErrToHTTP e msgs = "code = " +:+ Itoa (code e) +:+ sep +:+ message_of e msgs +:+ rest +:+ ToHTTPCodeLabel /\
  (details e = [] -> rest = "").
Proof.
  unfold ErrToHTTP. destruct (details e) as [|d ds]; [by exists ""|].
  exists (", details = " +:+ Join (d :: ds) ", "). split; [by rewrite !app_assoc_s|done].
Qed.

Lemma code_text_no_comma c : no_char "," ("code = " +:+ Itoa c).
Proof. apply no_char_app. split; [done|by apply Itoa_no_char]. Qed.

Lemma code_text_number c : ReplaceAll ("code = " +:+ Itoa c) "code = " "" = Itoa c.
Proof.
  rewrite <- (app_nil_l_s ("code = " +:+ Itoa c)), ReplaceAll_first; [|done|].
  - rewrite !app_nil_l_s. apply ReplaceAll_absent; [done|]. apply Index_no_char. by apply Itoa_no_char.
  - rewrite app_nil_l_s. by apply (Index_app_first "c"%char "ode = " "" (Itoa c)).
Qed.

Lemma Itoa_no_space c : no_char " " (Itoa c).
Proof. by apply Itoa_no_char. Qed.

(** The error read from a text of this form. *)
Lemma ParseError_text r c rest e : in_int64 c -> errCodes r !! c = Some e ->
  let text := "code = " +:+ Itoa c +:+ sep +:+ rest in
  exists m, head (SplitStr rest sep) = Some m /\
    ParseError r (Some text) = mkError c m [] (Contains text ToHTTPCodeLabel).
Proof.
  intros Hc He text. assert (SplitStr text sep = ("code = " +:+ Itoa c) :: SplitStr rest sep) as Hs.
  { unfold text. rewrite <- app_assoc_s. apply SplitStr_first; [done|].
    by apply (Index_app_first "," " msg = "), Index_no_char, code_text_no_comma. }
  unfold ParseError. change ", msg = " with sep. rewrite Hs. cbn [lookup list_lookup default from_option id].
  rewrite code_text_number, Atoi_Itoa, He by done.
  destruct (SplitStr rest sep) as [|m ms] eqn:E; [by apply SplitStr_nonempty in E|]. cbn. by exists m.
Qed.

(** A message without the separator is read back whole. *)
Lemma ParseError_message r c m rest e : in_int64 c -> errCodes r !! c = Some e -> Index (m +:+ rest) sep = None ->
  let text := "code = " +:+ Itoa c +:+ sep +:+ m +:+ rest in
  ParseError r (Some text) = mkError c (m +:+ rest) [] (Contains text ToHTTPCodeLabel).
Proof.
  intros Hc He Hm. destruct (ParseError_text r c (m +:+ rest) e Hc He) as (m' & Hh & Hp).
  rewrite SplitStr_absent in Hh by done. injection Hh as <-. exact Hp.
Qed.

Lemma Index_label m : Index m sep = None -> Index (m +:+ ToHTTPCodeLabel) sep = None.
Proof. intros Hm. by apply Index_none_app. Qed.

Lemma label_removed m : Index m ToHTTPCodeLabel = None -> ReplaceAll (m +:+ ToHTTPCodeLabel) ToHTTPCodeLabel "" = m.
Proof.
  intros Hm. pose proof (ReplaceAll_first m ToHTTPCodeLabel "" "") as H. rewrite !app_nil_s in H. apply H; [done|].
  pose proof (Index_app_first "[" "standard http code]" m "") as H'. rewrite app_nil_s in H'. by apply H'.
Qed.

Lemma Contains_none s p : Index s p = None -> Contains s p = false.
Proof. unfold Contains. by intros ->. Qed.

Lemma Contains_label s : Contains (s +:+ ToHTTPCodeLabel) ToHTTPCodeLabel = true.
Proof. apply Contains_spec. exists s, "". by rewrite app_nil_s. Qed.

Lemma code_text_label c m : Index m ToHTTPCodeLabel = None ->
  Contains ("code = " +:+ Itoa c +:+ sep +:+ m) ToHTTPCodeLabel = false.
Proof.
  intros Hm. apply Contains_none. unfold ToHTTPCodeLabel. rewrite <- !app_assoc_s.
  assert (no_char "[" (("code = " +:+ Itoa c) +:+ sep)) as Hn.
  { rewrite !no_char_app. split_and!; [done|by apply Itoa_no_char|done]. }
  revert Hn. generalize (("code = " +:+ Itoa c) +:+ sep). intros s. induction s as [|a s IH]; [done|].
  intros [Ha Hs]%no_char_cons. rewrite app_cons_s. cbn [Index HasPrefix]. rewrite bool_decide_eq_false_2 by done.
  cbn [andb]. by rewrite IH.
Qed.

Lemma ToHTTPCode_code e e' : code e = code e' -> ToHTTPCode e = ToHTTPCode e'.
Proof. unfold ToHTTPCode. by intros ->. Qed.

(** A code survives the text of the error that carries it: whatever the
    messages and details, a registered code is read back from [Err] and from
    [ErrToHTTP], the first giving the code itself and the second the http code
    when no text holds the label. *)
Theorem error_code_recovered r e e0 msgs : in_int64 (code e) -> errCodes r !! code e = Some e0 ->
  code (ParseError r (Some (Err e msgs))) = code e /\
  code (ParseError r (Some (ErrToHTTP e msgs))) = code e /\
  GetErrorCode r (Some (ErrToHTTP e msgs)) = ToHTTPCode e /\
  (Contains (Err e msgs) ToHTTPCodeLabel = false -> GetErrorCode r (Some (Err e msgs)) = code e /\ Is r (Some (Err e msgs)) e = true).
Proof.
  intros Hc He. destruct (Err_text e msgs) as (rest & Ht & _). destruct (ErrToHTTP_text e msgs) as (rest' & Ht' & _).
  destruct (ParseError_text r _ (message_of e msgs +:+ rest) _ Hc He) as (m & _ & Hp).
  destruct (ParseError_text r _ (message_of e msgs +:+ rest' +:+ ToHTTPCodeLabel) _ Hc He) as (m' & _ & Hp').
  cbn zeta in *. rewrite <- Ht in Hp. rewrite <- Ht' in Hp'. unfold Is, GetErrorCode. rewrite Hp, Hp'. cbn [code needHTTPCode].
  split_and!; [done..| |].
  - rewrite Ht', <- !app_assoc_s, Contains_label. by apply ToHTTPCode_code.
  - intros ->. cbn. by rewrite Z.eqb_refl.
Qed.

Lemma error_code_recovered_witness :
  GetErrorCode (mkRegistry {[100004 := NotFound]} ∅) (Some (ErrToHTTP NotFound ["no such user"])) = 404.
Proof.
  assert (in_int64 (code NotFound)) as Hc by (unfold in_int64, int64_min, int64_max; cbn; lia).
  assert (errCodes (mkRegistry {[100004 := NotFound]} ∅) !! code NotFound = Some NotFound) as He by reflexivity.
  exact (proj1 (proj2 (proj2 (error_code_recovered _ NotFound NotFound ["no such user"] Hc He)))).
Defined.

(** But [Is] fails on an error made with the label: a code is compared with
    the http code. *)
Lemma label_breaks_Is r e msgs : in_int64 (code e) -> e ∈ system_errors -> code e <> 0 -> errCodes r !! code e = Some e ->
  Is r (Some (ErrToHTTP e msgs)) e = false.
Proof.
  intros Hc Hin Hne He. destruct (ErrToHTTP_text e msgs) as (rest' & Ht' & _).
  destruct (ParseError_text r _ (message_of e msgs +:+ rest' +:+ ToHTTPCodeLabel) _ Hc He) as (m' & _ & Hp').
  cbn zeta in *. rewrite <- Ht' in Hp'. unfold Is, GetErrorCode. rewrite Hp'. cbn [code needHTTPCode].
  rewrite Ht', <- !app_assoc_s, Contains_label. rewrite (ToHTTPCode_code (mkError _ _ _ _) e eq_refl).
  assert (Forall (fun e => code e <> 0 -> (ToHTTPCode e =? code e) = false) system_errors) as Hall
    by (repeat constructor; by vm_compute).
  rewrite Forall_forall in Hall. by apply Hall.
Qed.

(** A message with the separator in it is cut. *)
Lemma separator_cuts_message :
  ParseError (mkRegistry {[100004 := NotFound]} ∅) (Some (Err NotFound ["code = 5, msg = lost"])) = mkError 100004 "code = 5" [] false.
Proof. reflexivity. Qed.

(** ** Statuses of grpc services *)

(** Tables with the same answers at their keys have them everywhere. *)
Definition keys {A} (cases : list (list Z * A)) : list Z := concat cases.*1.
Lemma switch_none {A} (c : Z) (cases : list (list Z * A)) : c ∉ keys cases -> switch c cases = None.
Proof.
  unfold keys. induction cases as [|[ks a] cases IH]; [done|]. cbn. rewrite elem_of_app. intros Hc.
  destruct (existsb (Z.eqb c) ks) eqn:E; [|apply IH; tauto].
  apply existsb_exists in E as (k & Hk%list_elem_of_In & ->%Z.eqb_eq). tauto.
Qed.

Lemma switch_in {A} (c : Z) (cases : list (list Z * A)) a : switch c cases = Some a -> a ∈ cases.*2.
Proof.
  induction cases as [|[ks b] cases IH]; [done|]. cbn. case_match; [intros [= <-]; left|intros Hs; right; auto].
Qed.

Lemma agree_at_keys {B} (f g : Z -> B) (ks : list Z) :
  (forall c, c ∉ ks -> f c = g c) -> Forall (fun c => f c = g c) ks -> forall c, f c = g c.
Proof. intros Hn Hall c. destruct (decide (c ∈ ks)); [rewrite Forall_forall in Hall|]; auto. Qed.

Section Facts.
Context {St : Type} `{GrpcStatusLaws St}.

Lemma scode_system c m : scode (system c m) = c.
Proof. apply Code_New. Qed.

Definition system_codes : list Z := 0 :: map (fun k => 300000 + Z.of_nat k) (seq 1 23).

(** The two conversions give the same code. *)
Definition rpc_code (c : Z) : option Z :=
  match switch c rpc_err_cases1 with Some k => Some k | None => switch c rpc_err_cases2 end.

Lemma ToRPCCode_eq s : ToRPCCode s = default (scode s) (rpc_code (scode s)).
Proof.
  unfold ToRPCCode, rpc_code. generalize (scode s). intros c.
  enough (match switch c rpc_code_cases1 with Some k => Some k | None => switch c rpc_code_cases2 end =
          match switch c rpc_err_cases1 with Some k => Some k | None => switch c rpc_err_cases2 end) as He.
  { rewrite <- He. by destruct (switch c rpc_code_cases1). }
  revert c. unfold rpc_code_cases1, rpc_code_cases2, rpc_err_cases1, rpc_err_cases2, StatusSuccess, StatusCanceled, StatusUnknown,
    StatusInvalidParams, StatusDeadlineExceeded, StatusNotFound, StatusAlreadyExists, StatusPermissionDenied,
    StatusResourceExhausted, StatusFailedPrecondition, StatusAborted, StatusOutOfRange, StatusUnimplemented,
    StatusInternalServerError, StatusServiceUnavailable, StatusDataLoss, StatusUnauthorized, StatusLimitExceed,
    StatusMethodNotAllowed, StatusAccessDenied, StatusConflict. rewrite !scode_system.
  apply (agree_at_keys _ _ system_codes).
  - intros c Hc. rewrite !switch_none; [done|..]; contradict Hc; revert Hc; unfold keys, system_codes; cbn; set_solver.
  - repeat constructor.
Qed.

Lemma status_Err_ok c m : c <> 0 -> status_Err (New c m) = Some (StatusError (New c m)).
Proof. intros Hc. unfold status_Err. rewrite Code_New. destruct (c =? codes.OK) eqn:E; [|done]. unfold codes.OK in E. lia. Qed.

Lemma rpc_code_not_ok c k : rpc_code c = Some k -> k <> 0.
Proof.
  unfold rpc_code. destruct (switch c rpc_err_cases1) eqn:E; [intros [= <-]|clear E; intros E];
    apply switch_in in E; cbn in E; unfold codes.InvalidArgument in *; set_solver.
Qed.

(** The error that [ToRPCErr] makes of a status has the code that
    [ToRPCCode] gives, for every status that is not a success. *)
Theorem ToRPCErr_code s desc : scode s <> 0 -> exists st, ToRPCErr s desc = Some (StatusError st) /\ Code (Some st) = ToRPCCode s.
Proof.
  intros Hs. rewrite ToRPCCode_eq. unfold ToRPCErr, toRPCErr.
  assert (forall k m, rpc_code (scode s) = Some k -> exists st, status_Err (New k m) = Some (StatusError st) /\ Code (Some st) = k) as Hk.
  { intros k m Hk. exists (New k m). rewrite Code_New. split; [apply status_Err_ok; by eapply rpc_code_not_ok|done]. }
  unfold rpc_code in *. case_match eqn:E1; [by apply Hk|]. case_match eqn:E2; [by apply Hk|]. cbn.
  exists (New (scode s) (smsg s)). rewrite Code_New. split; [by apply status_Err_ok|done].
Qed.

(** Without a description the message of the status is lost, although the
    comment says that a description replaces it. *)
Lemma ToRPCErr_loses_message m : ToRPCErr (system 300005 m) [] = Some (StatusError (New codes.NotFound (code_String codes.NotFound))).
Proof.
  unfold ToRPCErr, rpc_err_cases1, rpc_err_cases2. unfold StatusInvalidParams, StatusInternalServerError, StatusCanceled,
    StatusUnknown, StatusDeadlineExceeded, StatusNotFound. rewrite !scode_system. cbn. unfold toRPCErr. by rewrite status_Err_ok.
Qed.

(** *** Numbers of texts *)

Lemma digit_val_range a : is_digit a = true -> 0 <= digit_val a <= 9.
Proof. unfold is_digit, digit_val. lia. Qed.

Lemma digits_value_le s : forall acc v, 0 <= acc -> digits_value acc s = Some v -> acc <= v.
Proof.
  induction s as [|a s IH]; intros acc v Ha; cbn; [intros [= <-]; lia|]. destruct (is_digit a) eqn:E; [|done].
  pose proof (digit_val_range a E). intros Hv%IH; lia.
Qed.

Lemma clamped_value s : forall acc v, 0 <= acc -> digits_value acc s = Some v -> v < 2 ^ 64 -> clamped acc s = v.
Proof.
  induction s as [|a s IH]; intros acc v Ha Hs Hv; cbn -[Z.mul Z.pow] in *; [by injection Hs|].
  destruct (is_digit a) eqn:E; [|done]. pose proof (digit_val_range a E).
  pose proof (digits_value_le s (10 * acc + digit_val a) v ltac:(lia) Hs).
  rewrite (proj2 (Z.leb_gt _ _)) by lia. apply IH; [lia|done..].
Qed.

Lemma Atoi_value_Itoa n : in_int64 n -> Atoi_value (Itoa n) = n.
Proof.
  intros Hn. unfold in_int64, int64_min, int64_max in Hn. unfold Itoa, Atoi_value. destruct (n <? 0) eqn:E.
  - rewrite (clamped_value _ 0 (- n)); [lia|lia|by apply digits_value_FormatUint; lia|lia].
  - destruct (FormatUint_cons n) as (a & s & Hs). pose proof (digits_value_FormatUint n ltac:(lia)) as Hv.
    pose proof (FormatUint_digits n ltac:(lia)) as Hd. rewrite Hs in *. apply andb_prop in Hd as [Ha _].
    pose proof (clamped_value _ 0 n ltac:(lia) Hv ltac:(lia)) as Hc.
    destruct a as [[|] [|] [|] [|] [|] [|] [|] [|]]; try discriminate Ha; rewrite Hc; lia.
Qed.

(** *** Errors of http services behind a grpc service *)

Lemma Index_desc c m : Index m "desc = " = None -> Index ("code = " +:+ Itoa c +:+ sep +:+ m) "desc = " = None.
Proof.
  intros Hm. replace ("code = " +:+ Itoa c +:+ sep +:+ m)
    with ((("code = " +:+ Itoa c) +:+ String.String "," " ") +:+ String.String "m" ("sg = " +:+ m)) by (by rewrite !app_assoc_s).
  apply Index_none_app; [done|apply Index_none_app; [done| |done]|].
  - assert (Index (Itoa c) "desc = " = None) as Hi by (by apply Index_no_char, Itoa_no_char).
    revert Hi. generalize (Itoa c). intros s Hs. rewrite !app_cons_s, app_nil_l_s. cbn. by rewrite Hs.
  - rewrite !app_cons_s, app_nil_l_s. cbn. by rewrite Hm.
Qed.

Lemma ReplaceAll_end t p q : no_char p t -> no_char p q -> ReplaceAll (t +:+ String.String p q) (String.String p q) "" = t.
Proof.
  intros Ht Hq. pose proof (ReplaceAll_first t (String.String p q) "" "") as H1. rewrite !app_nil_s in H1.
  apply H1; [done|]. pose proof (Index_app_first p q t "" Hq) as H2. rewrite app_nil_s in H2. by apply H2, Index_no_char.
Qed.

Lemma parseCodeAndMsg_text c m : in_int64 c -> Index m "desc = " = None -> Index m "msg = " = None ->
  parseCodeAndMsg ("rpc error: code = Unknown desc = " +:+ "code = " +:+ Itoa c +:+ sep +:+ m) = (c, m).
Proof.
  intros Hc Hd Hm. unfold parseCodeAndMsg. rewrite bool_decide_eq_false_2 by done. set (text := "code = " +:+ _).
  assert (SplitStr ("rpc error: code = Unknown desc = " +:+ text) "desc = " = ["rpc error: code = Unknown "; text]) as ->.
  { replace ("rpc error: code = Unknown desc = " +:+ text) with ("rpc error: code = Unknown " +:+ "desc = " +:+ text) by done.
    rewrite SplitStr_first; [|done|by apply (Index_app_first "d" "esc = ")].
    by rewrite SplitStr_absent by (done || by apply Index_desc). }
  cbn [last default from_option id].
  assert (SplitStr text "msg = " = ["code = " +:+ Itoa c +:+ ", "; m]) as ->.
  { replace text with (("code = " +:+ Itoa c +:+ ", ") +:+ "msg = " +:+ m) by (unfold text; by rewrite !app_assoc_s).
    rewrite SplitStr_first; [by rewrite SplitStr_absent|done|]. apply (Index_app_first "m" "sg = "); [done|].
    apply Index_no_char. rewrite !no_char_app. split_and!; [done|by apply Itoa_no_char|done]. }
  pose proof (ReplaceAll_first "" "code = " (Itoa c +:+ ", ") "") as Hr. rewrite !app_nil_l_s in Hr. rewrite Hr; [|done|].
  - rewrite (ReplaceAll_absent (Itoa c +:+ ", ")), ReplaceAll_end, Atoi_value_Itoa;
      [done|done|by apply Itoa_no_char|done|done|]. apply Index_no_char. rewrite no_char_app. split; [by apply Itoa_no_char|done].
  - by apply (Index_app_first "c" "ode = " "").
Qed.

(** *** The answers *)

Context {D : Type}.

(** The errors that are always answered with their http code. *)
Definition always (c : Z) : option Z :=
  switch c [([code InternalServerError; 500], 500); ([code ServiceUnavailable; 503], 503)].

(** A message that none of the parsers takes for a part of the format. *)
Definition plain (m : string) : Prop :=
  Index m sep = None /\ Index m "desc = " = None /\ Index m "msg = " = None /\ Index m ToHTTPCodeLabel = None.

(** C28: What a handler answers to an error of the package whose message is
    plain.  Of an http service: an internal error and an unavailable service
    with 500 and 503; with the label, the http code of the error beside its
    own code and message; without, 200 with both, or, when the code was given
    to the responder, its http code alone.  The same error coming through a
    grpc service is answered 200 with its code and message, unless the code
    is -1. *)
Theorem http_errors_answered r e msgs errs stats :
  in_int64 (code e) -> is_Some (errCodes r !! code e) -> details e = [] -> plain (message_of e msgs) ->
  handleHTTPError (D := D) r (NewResponser false errs stats) (Some (Text (ErrToHTTP e msgs))) =
    match always (code e) with
    | Some h => standard h
    | None => (mkReply (ToHTTPCode e) (code e) (message_of e msgs) EmptyStruct, true)
    end /\
  handleHTTPError (D := D) r (NewResponser false errs stats) (Some (Text (Err e msgs))) =
    match always (code e), httpErrors (NewResponser false errs stats) !! code e with
    | Some h, _ => standard h
    | None, Some e' => user_defined e'
    | None, None => (mkReply 200 (code e) (message_of e msgs) EmptyStruct, false)
    end /\
  (code e <> -1 -> handleRPCError (D := D) (NewResponser true errs stats) (Some (Text (Err e msgs))) =
    (mkReply 200 (code e) (message_of e msgs) EmptyStruct, false)).
Proof.
  intros Hc [e0 He] Hd (Hsep & Hdesc & Hmsg & Hlab).
  assert (ErrToHTTP e msgs = "code = " +:+ Itoa (code e) +:+ sep +:+ message_of e msgs +:+ ToHTTPCodeLabel) as Ht'
    by (unfold ErrToHTTP; by rewrite Hd).
  assert (Err e msgs = "code = " +:+ Itoa (code e) +:+ sep +:+ message_of e msgs +:+ "") as Ht
    by (unfold Err; rewrite Hd; by rewrite app_nil_s).
  pose proof (ParseError_message r _ _ _ _ Hc He (Index_label _ Hsep)) as Hp'.
  pose proof (ParseError_message r _ (message_of e msgs) "" _ Hc He ltac:(by rewrite app_nil_s)) as Hp.
  cbn zeta in Hp, Hp'. rewrite <- Ht in Hp. rewrite <- Ht' in Hp'. split_and!.
  - unfold handleHTTPError. cbn [fmap option_fmap option_map Error_text]. rewrite Hp'. cbn [code msg needHTTPCode].
    change (switch (code e) _) with (always (code e)). destruct (always (code e)); [done|].
    rewrite Ht', <- !app_assoc_s, Contains_label, label_removed by done. by rewrite (ToHTTPCode_code (mkError _ _ _ _) e eq_refl).
  - unfold handleHTTPError. cbn [fmap option_fmap option_map Error_text]. rewrite Hp. cbn [code msg needHTTPCode].
    change (switch (code e) _) with (always (code e)). destruct (always (code e)); [done|].
    rewrite Ht, app_nil_s, code_text_label by done. unfold isUserDefinedHTTPErrorCode.
    by destruct (httpErrors _ !! code e).
  - intros Hm1. unfold handleRPCError. rewrite FromError_text, Code_New, String_New, code_String_Unknown. cbn [Z.eqb codes.Unknown Pos.eqb].
    replace ("rpc error: code = " +:+ "Unknown" +:+ " desc = " +:+ Err e msgs)
      with ("rpc error: code = Unknown desc = " +:+ "code = " +:+ Itoa (code e) +:+ sep +:+ message_of e msgs)
      by (rewrite Ht, app_nil_s; reflexivity).
    rewrite parseCodeAndMsg_text by done. by rewrite (proj2 (Z.eqb_neq _ _) Hm1).
Qed.

(** A text with one "msg = " after something that is no number: the answer is
    that of a success. *)
Lemma text_answered_as_success resp :
  handleRPCError (D := D) resp (Some (Text "save: retry failed, msg = disk full")) = (mkReply 200 0 "disk full" EmptyStruct, false).
Proof. unfold handleRPCError. rewrite FromError_text, Code_New, String_New, code_String_Unknown. reflexivity. Qed.

(** What a handler answers to a status of the package. *)
Lemma statuses_answered c m desc errs stats : c <> 0 -> c <> codes.Unknown ->
  Index (match desc with [] => m | _ => Join desc ", " end) ToHTTPCodeLabel = None ->
  let msg := match desc with [] => m | _ => Join desc ", " end in
  let always := switch c [([codes.Internal; 300013], 500); ([codes.Unavailable; 300014], 503)] in
  let resp := NewResponser true errs stats in
  handleRPCError (D := D) resp (RPC_ErrToHTTP (system c m) desc) =
    match always with Some h => standard h | None => (mkReply (convertToHTTPCode c) c msg EmptyStruct, true) end /\
  handleRPCError (D := D) resp (RPC_Err (system c m) desc) =
    match always, rpcStatus resp !! c with
    | Some h, _ => standard h
    | None, Some s => user_defined (ToHTTPErr (status s))
    | None, None => (mkReply 200 c msg EmptyStruct, false)
    end.
Proof.
  intros Hc Hu Hl. cbn zeta. set (t := match desc with [] => m | _ => Join desc ", " end) in *.
  assert (forall m', Errorf c m' = Some (StatusError (New c m'))) as He by (intros m'; by apply status_Err_ok).
  unfold RPC_ErrToHTTP, RPC_Err, smsg. rewrite scode_system. cbn [status system]. rewrite Message_New. fold t.
  rewrite !He. unfold handleRPCError. rewrite !FromError_status, !Code_New, !Message_New.
  rewrite (proj2 (Z.eqb_neq _ _) Hu). unfold StatusInternalServerError, StatusServiceUnavailable. rewrite !scode_system.
  destruct (switch c _); [done|]. rewrite Contains_label, label_removed, (Contains_none t) by done. split; [done|].
  unfold isUserDefinedRPCErrorCode. by destruct (rpcStatus _ !! c).
Qed.
End Facts.

(** ** A status as a pair *)

#[export] Instance pair_status : GrpcStatus (Z * string) := {|
  New c m := (c, m);
  Code o := match o with Some s => fst s | None => 0 end;
  Message o := match o with Some s => snd s | None => "" end;
  code_String c := if c =? 2 then "Unknown" else "Code(" +:+ Itoa c +:+ ")";
  String o := match o with
              | Some s => "rpc error: code = " +:+ (if fst s =? 2 then "Unknown" else "Code(" +:+ Itoa (fst s) +:+ ")") +:+ " desc = " +:+ snd s
              | None => "rpc error: code = OK desc = "
              end;
  FromError e := match e with None => None | Some (StatusError s) => Some s | Some (Text t) => Some (2, t) end |}.
#[export] Instance pair_status_laws : GrpcStatusLaws (Z * string).
Proof. by split. Qed.

Lemma ToRPCErr_code_witness : exists st, ToRPCErr (St := Z * string) StatusAccessDenied [] = Some (StatusError st) /\
  Code (Some st) = ToRPCCode (St := Z * string) StatusAccessDenied.
Proof.
  assert (scode (St := Z * string) StatusAccessDenied <> 0) as Hs by discriminate.
  exact (ToRPCErr_code StatusAccessDenied [] Hs).
Defined.

Lemma http_errors_answered_witness :
  handleHTTPError (D := unit) (mkRegistry {[100004 := NotFound]} {[100004 := "Not Found"]}) (NewResponser (St := Z * string) false [] [])
    (Some (Text (ErrToHTTP NotFound ["no such user"]))) = (mkReply 404 100004 "no such user" EmptyStruct, true).
Proof.
  set (r := mkRegistry {[100004 := NotFound]} {[100004 := "Not Found"]}).
  assert (in_int64 (code NotFound)) as Hc by (unfold in_int64, int64_min, int64_max; cbn; lia).
  assert (is_Some (errCodes r !! code NotFound)) as He by (by exists NotFound).
  assert (plain (message_of NotFound ["no such user"])) as Hp by (by repeat split).
  exact (proj1 (http_errors_answered (St := Z * string) (D := unit) r NotFound ["no such user"] [] [] Hc He eq_refl Hp)).
Defined.

(** ** Where the conversions to http differ *)

(** The code of a status with the label, and that of the same status given to
    the responder. *)
Definition two_codes (s : RPCStatus (St := Z * string)) : Z * Z := (convertToHTTPCode (scode s), ToHTTPCode (ToHTTPErr (status s))).

Lemma conversions_differ :
  map two_codes [StatusDeadlineExceeded; StatusAlreadyExists; StatusFailedPrecondition; StatusTimeout; StatusTooManyRequests; StatusForbidden]
  = [(500, 408); (500, 409); (412, 500); (408, 500); (429, 500); (403, 500)].
Proof. reflexivity. Qed.

Lemma conversions_agree :
  Forall (fun s => (two_codes s).1 = (two_codes s).2)
    [StatusSuccess; StatusCanceled; StatusUnknown; StatusInvalidParams; StatusNotFound; StatusPermissionDenied;
     StatusResourceExhausted; StatusAborted; StatusOutOfRange; StatusUnimplemented; StatusInternalServerError;
     StatusServiceUnavailable; StatusDataLoss; StatusUnauthorized; StatusLimitExceed; StatusMethodNotAllowed;
     StatusAccessDenied; StatusConflict].
Proof. by repeat constructor. Qed.

(** [Out] answers with the http code of the error, but 425, 501 and 502
    become 510. *)
Lemma Out_status {D} e (data : list (option D)) :
  rstatus (Response.Out e data) = if decide (ToHTTPCode e ∈ [425; 501; 502]) then 510 else ToHTTPCode e.
Proof.
  assert (ToHTTPCode e ∈ [200; 500; 400; 401; 429; 403; 404; 409; 425; 408; 405; 503; 501; 502]) as Hin.
  { unfold ToHTTPCode. destruct (switch _ http_cases1) eqn:E1; [apply switch_in in E1; cbn in E1; set_solver|].
    destruct (switch _ http_cases2) eqn:E2; [apply switch_in in E2; cbn in E2; set_solver|set_solver]. }
  unfold Response.Out. revert Hin. generalize (ToHTTPCode e). intros h. rewrite !elem_of_cons, elem_of_nil.
  intros Hh. destruct_or? Hh; subst; done.
Qed.

Lemma TooEarly_answered_510 {D} : rstatus (Response.Out (D := D) TooEarly []) = 510 /\ ToHTTPCode TooEarly = 425.
Proof. done. Qed.

End Errcode.
