(* ===== verification/Amqp.v ===== *)
(** * Producers, publishers and consumers of RabbitMQ (pkg/rabbitmq)

    common.go, producer.go, publisher.go, subscriber.go and consumer.go: the
    options, what a producer and a consumer declare, what is published, and the
    loop that handles the messages.  The broker is a variable that answers
    every call as it likes; tables are references into a heap, since the code
    writes into the maps it is given.  Theorems: a producer or a consumer that
    fails to start leaves no channel open; the loop acknowledges and counts
    exactly the messages handled without an error; what leaks, and which
    option is lost. *)

From S2P Require Import Prelude GoStr.
From Stdlib Require Import Ascii.
From Stdlib Require String.

Module Amqp.

(** ** Tables, calls and the state *)

Inductive value : Type :=
  | VString (s : string)
  | VInt (z : Z)
  | VOther (n : nat).
#[global] Instance value_eq_dec : EqDecision value.
Proof. solve_decision. Defined.

(** A [amqp.Table] or map[string]interface{}: a reference, or nil.  What the
    broker is sent is its content. *)
Abbreviation loc := positive (only parsing).
Definition table : Type := option positive.
Definition content : Type := option (gmap string value).

Record Publishing : Type := mkPublishing { DeliveryMode : Z; ContentType : string; Headers : content; Body : string }.
#[global] Instance Publishing_eq_dec : EqDecision Publishing.
Proof. solve_decision. Defined.

(** The calls of amqp091: [Channel] of a connection, the others of a channel. *)
Inductive op : Type :=
  | OChannel
  | OConfirm (noWait : bool)
  | OExchangeDeclare (name kind : string) (durable autoDelete internal noWait : bool) (args : content)
  | OQueueDeclare (name : string) (durable autoDelete exclusive noWait : bool) (args : content)
  | OQueueBind (name key exchange : string) (noWait : bool) (args : content)
  | OQos (prefetchCount prefetchSize : Z) (global : bool)
  | OConsume (queue consumer : string) (autoAck exclusive noLocal noWait : bool) (args : content)
  | OPublish (exchange key : string) (mandatory immediate : bool) (msg : Publishing)
  | OHandle (tagID body : string) (ok : bool)
  | OAck (tag : Z)
  | OClose.
#[global] Instance op_eq_dec : EqDecision op.
Proof. solve_decision. Defined.

Inductive error : Type :=
  | ErrBroker (e : string)
  | ErrExchangeType (t : string)      (* invalid exchange type *)
  | ErrTopicKey                       (* topic key is required *)
  | ErrHeadersKeys.                   (* headers keys is required *)
#[global] Instance error_eq_dec : EqDecision error.
Proof. solve_decision. Defined.

(** The maps, the calls so far (each with its channel, the last first) and the
    number of the next channel. *)
Record world : Type := mkWorld { heap : gmap positive (gmap string value); calls : list (nat * op); next : nat }.

(** Functions with an error that change the world and the fields of an object
    of type [X]. *)
Definition M (X A : Type) : Type := X * world -> result error A * (X * world).
#[export] Instance M_ret {X} : MRet (M X) := fun A a s => (Ok a, s).
#[export] Instance M_bind {X} : MBind (M X) := fun A B f m s =>
  match m s with
  | (Ok a, s') => f a s'
  | (Err e, s') => (Err e, s')
  | (Panic, s') => (Panic, s')
  end.
Definition fail {X A} (e : error) : M X A := fun s => (Err e, s).
Definition get {X} : M X X := fun s => (Ok (fst s), s).
Definition modify {X} (f : X -> X) : M X unit := fun s => (Ok tt, (f (fst s), snd s)).

Definition content_of (t : table) (w : world) : content := t ≫= fun l => heap w !! l.
Definition read {X} (t : table) : M X content := fun s => (Ok (content_of t (snd s)), s).

(** [make(map)] and [m[k] = v]; writing to nil panics. *)
Definition alloc {X} (m : gmap string value) : M X table := fun '(x, w) =>
  let l := fresh (dom (heap w)) in (Ok (Some l), (x, mkWorld (<[l := m]> (heap w)) (calls w) (next w))).
Definition write {X} (t : table) (k : string) (v : value) : M X unit := fun '(x, w) =>
  match t with
  | None => (Panic, (x, w))
  | Some l => (Ok tt, (x, mkWorld (alter (fun m => <[k := v]> m) l (heap w)) (calls w) (next w)))
  end.

(** ** Options *)

Record exchangeDeclareOptions : Type := mkEd { ed_autoDelete : bool; ed_internal : bool; ed_noWait : bool; ed_args : table }.
Record queueDeclareOptions : Type := mkQd { qd_autoDelete : bool; qd_exclusive : bool; qd_noWait : bool; qd_args : table }.
Record queueBindOptions : Type := mkQb { qb_noWait : bool; qb_args : table }.
Record delayedMessagePublishOptions : Type := mkDmp { topicKey : string; dm_headersKeys : table }.
Record deadLetterOptions : Type := mkDl {
  dl_exchangeName : string; dl_queueName : string; dl_routingKey : string;
  dl_exchangeDeclare : exchangeDeclareOptions; dl_queueDeclare : queueDeclareOptions; dl_queueBind : queueBindOptions }.

(** [o.apply(opts...)]: the options in order. *)
Definition apply {O} (opts : list (O -> O)) (o : O) : O := foldl (fun o opt => opt o) o opts.

Definition defaultQueueDeclareOptions : queueDeclareOptions := mkQd false false false None.
Definition WithQueueDeclareAutoDelete (b : bool) (o : queueDeclareOptions) := mkQd b (qd_exclusive o) (qd_noWait o) (qd_args o).
Definition WithQueueDeclareExclusive (b : bool) (o : queueDeclareOptions) := mkQd (qd_autoDelete o) b (qd_noWait o) (qd_args o).
Definition WithQueueDeclareNoWait (b : bool) (o : queueDeclareOptions) := mkQd (qd_autoDelete o) (qd_exclusive o) b (qd_args o).
Definition WithQueueDeclareArgs (t : table) (o : queueDeclareOptions) := mkQd (qd_autoDelete o) (qd_exclusive o) (qd_noWait o) t.

Definition defaultExchangeDeclareOptions : exchangeDeclareOptions := mkEd false false false None.
Definition WithExchangeDeclareAutoDelete (b : bool) (o : exchangeDeclareOptions) := mkEd b (ed_internal o) (ed_noWait o) (ed_args o).
Definition WithExchangeDeclareInternal (b : bool) (o : exchangeDeclareOptions) := mkEd (ed_autoDelete o) b (ed_noWait o) (ed_args o).
Definition WithExchangeDeclareNoWait (b : bool) (o : exchangeDeclareOptions) := mkEd (ed_autoDelete o) (ed_internal o) b (ed_args o).
Definition WithExchangeDeclareArgs (t : table) (o : exchangeDeclareOptions) := mkEd (ed_autoDelete o) (ed_internal o) (ed_noWait o) t.

Definition defaultQueueBindOptions : queueBindOptions := mkQb false None.
Definition WithQueueBindNoWait (b : bool) (o : queueBindOptions) := mkQb b (qb_args o).
Definition WithQueueBindArgs (t : table) (o : queueBindOptions) := mkQb (qb_noWait o) t.

Definition defaultDelayedMessagePublishOptions : delayedMessagePublishOptions := mkDmp "" None.
Definition WithDelayedMessagePublishTopicKey (k : string) (o : delayedMessagePublishOptions) :=
  if bool_decide (k = "") then o else mkDmp k (dm_headersKeys o).
Definition WithDelayedMessagePublishHeadersKeys (t : table) (o : delayedMessagePublishOptions) :=
  match t with None => o | Some _ => mkDmp (topicKey o) t end.

Definition defaultDeadLetterOptions : deadLetterOptions :=
  mkDl "" "" "" defaultExchangeDeclareOptions defaultQueueDeclareOptions defaultQueueBindOptions.
Definition isEnabled (o : deadLetterOptions) : bool := negb (bool_decide (dl_exchangeName o = "")) && negb (bool_decide (dl_queueName o = "")).
Definition WithDeadLetterExchangeDeclareOptions opts (o : deadLetterOptions) :=
  mkDl (dl_exchangeName o) (dl_queueName o) (dl_routingKey o) (apply opts (dl_exchangeDeclare o)) (dl_queueDeclare o) (dl_queueBind o).
Definition WithDeadLetterQueueDeclareOptions opts (o : deadLetterOptions) :=
  mkDl (dl_exchangeName o) (dl_queueName o) (dl_routingKey o) (dl_exchangeDeclare o) (apply opts (dl_queueDeclare o)) (dl_queueBind o).
Definition WithDeadLetterQueueBindOptions opts (o : deadLetterOptions) :=
  mkDl (dl_exchangeName o) (dl_queueName o) (dl_routingKey o) (dl_exchangeDeclare o) (dl_queueDeclare o) (apply opts (dl_queueBind o)).
Definition WithDeadLetter (exchangeName queueName routingKey : string) (o : deadLetterOptions) :=
  mkDl exchangeName queueName routingKey (dl_exchangeDeclare o) (dl_queueDeclare o) (dl_queueBind o).

(** ** Exchanges *)

Definition exchangeTypeDirect := "direct".
Definition exchangeTypeTopic := "topic".
Definition exchangeTypeFanout := "fanout".
Definition exchangeTypeHeaders := "headers".
Definition exchangeTypeDelayedMessage := "x-delayed-message".
Definition HeadersTypeAll := "all".
Definition HeadersTypeAny := "any".

Record Exchange : Type := mkExchange { name : string; eType : string; routingKey : string; headersKeys : table; delayedMessageType : string }.

Definition NewDirectExchange (exchangeName key : string) : Exchange := mkExchange exchangeName exchangeTypeDirect key None "".
Definition NewTopicExchange (exchangeName key : string) : Exchange := mkExchange exchangeName exchangeTypeTopic key None "".
Definition NewFanoutExchange (exchangeName : string) : Exchange := mkExchange exchangeName exchangeTypeFanout "" None "".
(** It writes the kind of match into the map it is given. *)
Definition NewHeadersExchange {X} (exchangeName headersType : string) (keys : table) : M X Exchange :=
  keys ← (match keys with None => alloc ∅ | Some _ => mret keys end);
  _ ← write keys "x-match" (VString (if bool_decide (headersType = HeadersTypeAll \/ headersType = HeadersTypeAny) then headersType else HeadersTypeAll));
  mret (mkExchange exchangeName exchangeTypeHeaders "" keys "").
Definition NewDelayedMessageExchange (exchangeName : string) (e : Exchange) : Exchange :=
  mkExchange exchangeName "x-delayed-message" (routingKey e) (headersKeys e) (eType e).

(** What is logged of a queue and its exchange. *)
Definition logFields (queueName : string) (e : Exchange) : list (string * (string + table)) :=
  let key := [("routingKey", inl (routingKey e))] in
  let hdr := [("headersKeys", inr (headersKeys e))] in
  [("queue", inl queueName); ("exchange", inl (name e)); ("exchangeType", inl (eType e))] ++
  (if bool_decide (eType e ∈ [exchangeTypeDirect; exchangeTypeTopic]) then key
   else if bool_decide (eType e = exchangeTypeHeaders) then hdr
   else if bool_decide (eType e = exchangeTypeDelayedMessage) then
     ("delayedMessageType", inl (delayedMessageType e)) ::
     (if bool_decide (delayedMessageType e ∈ [exchangeTypeDirect; exchangeTypeTopic]) then key
      else if bool_decide (delayedMessageType e = exchangeTypeHeaders) then hdr else [])
   else []).

(** ** Producers *)

Record producerOptions : Type := mkPo {
  po_exchangeDeclare : exchangeDeclareOptions; po_queueDeclare : queueDeclareOptions; po_queueBind : queueBindOptions;
  po_deadLetter : deadLetterOptions; po_isPersistent : bool; po_mandatory : bool; po_isPublisherConfirm : bool }.

Definition defaultProducerOptions : producerOptions :=
  mkPo defaultExchangeDeclareOptions defaultQueueDeclareOptions defaultQueueBindOptions defaultDeadLetterOptions true true false.
Definition WithProducerExchangeDeclareOptions opts (o : producerOptions) :=
  mkPo (apply opts (po_exchangeDeclare o)) (po_queueDeclare o) (po_queueBind o) (po_deadLetter o) (po_isPersistent o) (po_mandatory o) (po_isPublisherConfirm o).
Definition WithProducerQueueDeclareOptions opts (o : producerOptions) :=
  mkPo (po_exchangeDeclare o) (apply opts (po_queueDeclare o)) (po_queueBind o) (po_deadLetter o) (po_isPersistent o) (po_mandatory o) (po_isPublisherConfirm o).
Definition WithProducerQueueBindOptions opts (o : producerOptions) :=
  mkPo (po_exchangeDeclare o) (po_queueDeclare o) (apply opts (po_queueBind o)) (po_deadLetter o) (po_isPersistent o) (po_mandatory o) (po_isPublisherConfirm o).
Definition WithDeadLetterOptions opts (o : producerOptions) :=
  mkPo (po_exchangeDeclare o) (po_queueDeclare o) (po_queueBind o) (apply opts (po_deadLetter o)) (po_isPersistent o) (po_mandatory o) (po_isPublisherConfirm o).
Definition WithProducerPersistent (b : bool) (o : producerOptions) :=
  mkPo (po_exchangeDeclare o) (po_queueDeclare o) (po_queueBind o) (po_deadLetter o) b (po_mandatory o) (po_isPublisherConfirm o).
Definition WithProducerMandatory (b : bool) (o : producerOptions) :=
  mkPo (po_exchangeDeclare o) (po_queueDeclare o) (po_queueBind o) (po_deadLetter o) (po_isPersistent o) b (po_isPublisherConfirm o).
Definition WithPublisherConfirm (o : producerOptions) :=
  mkPo (po_exchangeDeclare o) (po_queueDeclare o) (po_queueBind o) (po_deadLetter o) (po_isPersistent o) (po_mandatory o) true.

(** [amqp.Persistent] and [amqp.Transient]. *)
Definition delivery_mode (persistent : bool) : Z := if persistent then 2 else 1.

Record Producer : Type := mkProducer {
  p_Exchange : Exchange; p_QueueName : string; p_ch : nat; p_isPersistent : bool; p_deliveryMode : Z; p_mandatory : bool;
  exchangeArgs : table; queueArgs : table; queueBindArgs : table; p_isPublisherConfirm : bool }.

(** ** Consumers *)

Record consumeOptions : Type := mkCo { co_consumer : string; co_exclusive : bool; co_noLocal : bool; co_noWait : bool; co_args : table }.
Definition defaultConsumeOptions : consumeOptions := mkCo "" false false false None.
Definition WithConsumeConsumer (c : string) (o : consumeOptions) := mkCo c (co_exclusive o) (co_noLocal o) (co_noWait o) (co_args o).
Definition WithConsumeExclusive (b : bool) (o : consumeOptions) := mkCo (co_consumer o) b (co_noLocal o) (co_noWait o) (co_args o).
Definition WithConsumeNoLocal (b : bool) (o : consumeOptions) := mkCo (co_consumer o) (co_exclusive o) b (co_noWait o) (co_args o).
Definition WithConsumeNoWait (b : bool) (o : consumeOptions) := mkCo (co_consumer o) (co_exclusive o) (co_noLocal o) b (co_args o).
Definition WithConsumeArgs (t : table) (o : consumeOptions) := mkCo (co_consumer o) (co_exclusive o) (co_noLocal o) (co_noWait o) t.

Record qosOptions : Type := mkQos { enable : bool; prefetchCount : Z; prefetchSize : Z; global : bool }.
Definition defaultQosOptions : qosOptions := mkQos false 0 0 false.
Definition WithQosEnable (o : qosOptions) := mkQos true (prefetchCount o) (prefetchSize o) (global o).
Definition WithQosPrefetchCount (n : Z) (o : qosOptions) := mkQos (enable o) n (prefetchSize o) (global o).
Definition WithQosPrefetchSize (n : Z) (o : qosOptions) := mkQos (enable o) (prefetchCount o) n (global o).
Definition WithQosPrefetchGlobal (b : bool) (o : qosOptions) := mkQos (enable o) (prefetchCount o) (prefetchSize o) b.

Record consumerOptions : Type := mkCs {
  cs_exchangeDeclare : exchangeDeclareOptions; cs_queueDeclare : queueDeclareOptions; cs_queueBind : queueBindOptions;
  cs_qos : qosOptions; cs_consume : consumeOptions; cs_isPersistent : bool; cs_isAutoAck : bool }.
Definition defaultConsumerOptions : consumerOptions :=
  mkCs defaultExchangeDeclareOptions defaultQueueDeclareOptions defaultQueueBindOptions defaultQosOptions defaultConsumeOptions true true.
Definition WithConsumerExchangeDeclareOptions opts (o : consumerOptions) :=
  mkCs (apply opts (cs_exchangeDeclare o)) (cs_queueDeclare o) (cs_queueBind o) (cs_qos o) (cs_consume o) (cs_isPersistent o) (cs_isAutoAck o).
Definition WithConsumerQueueDeclareOptions opts (o : consumerOptions) :=
  mkCs (cs_exchangeDeclare o) (apply opts (cs_queueDeclare o)) (cs_queueBind o) (cs_qos o) (cs_consume o) (cs_isPersistent o) (cs_isAutoAck o).
Definition WithConsumerQueueBindOptions opts (o : consumerOptions) :=
  mkCs (cs_exchangeDeclare o) (cs_queueDeclare o) (apply opts (cs_queueBind o)) (cs_qos o) (cs_consume o) (cs_isPersistent o) (cs_isAutoAck o).
Definition WithConsumerQosOptions opts (o : consumerOptions) :=
  mkCs (cs_exchangeDeclare o) (cs_queueDeclare o) (cs_queueBind o) (apply opts (cs_qos o)) (cs_consume o) (cs_isPersistent o) (cs_isAutoAck o).
Definition WithConsumerConsumeOptions opts (o : consumerOptions) :=
  mkCs (cs_exchangeDeclare o) (cs_queueDeclare o) (cs_queueBind o) (cs_qos o) (apply opts (cs_consume o)) (cs_isPersistent o) (cs_isAutoAck o).
Definition WithConsumerAutoAck (b : bool) (o : consumerOptions) :=
  mkCs (cs_exchangeDeclare o) (cs_queueDeclare o) (cs_queueBind o) (cs_qos o) (cs_consume o) (cs_isPersistent o) b.
Definition WithConsumerPersistent (b : bool) (o : consumerOptions) :=
  mkCs (cs_exchangeDeclare o) (cs_queueDeclare o) (cs_queueBind o) (cs_qos o) (cs_consume o) b (cs_isAutoAck o).

Record Consumer : Type := mkConsumer { c_Exchange : Exchange; c_QueueName : string; c_ch : option nat; c_options : consumerOptions; c_count : Z }.
Definition set_ch (ch : nat) (c : Consumer) : Consumer := mkConsumer (c_Exchange c) (c_QueueName c) (Some ch) (c_options c) (c_count c).
Definition set_args (t : table) (c : Consumer) : Consumer :=
  mkConsumer (c_Exchange c) (c_QueueName c) (c_ch c) (WithConsumerExchangeDeclareOptions [WithExchangeDeclareArgs t] (c_options c)) (c_count c).
Definition add_count (c : Consumer) : Consumer := mkConsumer (c_Exchange c) (c_QueueName c) (c_ch c) (c_options c) (wrap64 (c_count c + 1)).

Definition NewConsumer (exchange : Exchange) (queueName : string) (opts : list (consumerOptions -> consumerOptions)) : Consumer :=
  mkConsumer exchange queueName None (apply opts defaultConsumerOptions) 0.
(** A subscriber is a consumer of a fanout exchange. *)
Definition NewSubscriber (channelName identifier : string) (opts : list (consumerOptions -> consumerOptions)) : Consumer :=
  NewConsumer (NewFanoutExchange channelName) identifier opts.

Section Broker.

(** The broker's answer to a call, from the calls before: an error, or a name
    (only that of a declared queue is looked at). *)
Variable answer : list (nat * op) -> nat * op -> string + string.

Definition record (c : nat * op) (w : world) : world := mkWorld (heap w) (c :: calls w) (next w).
Definition opened (w : world) : world := mkWorld (heap w) (calls w) (S (next w)).

Definition channel {X} : M X nat := fun '(x, w) =>
  let c := (next w, OChannel) in
  match answer (calls w) c with
  | inl e => (Err (ErrBroker e), (x, record c w))
  | inr _ => (Ok (next w), (x, opened (record c w)))
  end.
Definition call {X} (ch : nat) (o : op) : M X string := fun '(x, w) =>
  match answer (calls w) (ch, o) with
  | inl e => (Err (ErrBroker e), (x, record (ch, o) w))
  | inr s => (Ok s, (x, record (ch, o) w))
  end.
(** [_ = ch.Close()] *)
Definition close {X} (ch : nat) : M X unit := fun '(x, w) => (Ok tt, (x, record (ch, OClose) w)).
(** The channel is closed when [m] returns an error. *)
Definition or_close {X A} (ch : nat) (m : M X A) : M X A := fun s =>
  match m s with
  | (Err e, s') => let '(_, s'') := close ch s' in (Err e, s'')
  | r => r
  end.

(** The argument x-delayed-type, in a new map or in the given one. *)
Definition delayed_args {X} (e : Exchange) (args : table) : M X table :=
  if bool_decide (eType e = exchangeTypeDelayedMessage) then
    match args with
    | None => alloc {["x-delayed-type" := VString (delayedMessageType e)]}
    | Some _ => _ ← write args "x-delayed-type" (VString (delayedMessageType e)); mret args
    end
  else mret args.
Definition dead_letter_args {X} (d : deadLetterOptions) (args : table) : M X table :=
  if isEnabled d then
    match args with
    | None => alloc (<["x-dead-letter-exchange" := VString (dl_exchangeName d)]> {["x-dead-letter-routing-key" := VString (dl_routingKey d)]})
    | Some _ =>
        _ ← write args "x-dead-letter-exchange" (VString (dl_exchangeName d));
        _ ← write args "x-dead-letter-routing-key" (VString (dl_routingKey d));
        mret args
    end
  else mret args.

Definition exchange_declare {X} (ch : nat) (name kind : string) (durable : bool) (o : exchangeDeclareOptions) : M X unit :=
  args ← read (ed_args o);
  _ ← call ch (OExchangeDeclare name kind durable (ed_autoDelete o) (ed_internal o) (ed_noWait o) args);
  mret tt.
Definition queue_declare {X} (ch : nat) (name : string) (durable : bool) (o : queueDeclareOptions) : M X string :=
  args ← read (qd_args o);
  call ch (OQueueDeclare name durable (qd_autoDelete o) (qd_exclusive o) (qd_noWait o) args).
Definition queue_bind {X} (ch : nat) (queue key exchange : string) (noWait : bool) (args : table) : M X unit :=
  args ← read args;
  _ ← call ch (OQueueBind queue key exchange noWait args);
  mret tt.

Definition createDeadLetter {X} (ch : nat) (o : deadLetterOptions) : M X unit :=
  _ ← exchange_declare ch (dl_exchangeName o) exchangeTypeDirect true (dl_exchangeDeclare o);
  q ← queue_declare ch (dl_queueName o) true (dl_queueDeclare o);
  queue_bind ch q (dl_routingKey o) (dl_exchangeName o) (qb_noWait (dl_queueBind o)) (qb_args (dl_queueBind o)).

Definition NewProducer (exchange : Exchange) (queueName : string) (opts : list (producerOptions -> producerOptions)) : M unit Producer :=
  let o := apply opts defaultProducerOptions in
  ch ← channel;
  eargs ← delayed_args exchange (ed_args (po_exchangeDeclare o));
  _ ← or_close ch (exchange_declare ch (name exchange) (eType exchange) (po_isPersistent o) (WithExchangeDeclareArgs eargs (po_exchangeDeclare o)));
  qargs ← dead_letter_args (po_deadLetter o) (qd_args (po_queueDeclare o));
  q ← or_close ch (queue_declare ch queueName (po_isPersistent o) (WithQueueDeclareArgs qargs (po_queueDeclare o)));
  let args := if bool_decide (eType exchange = exchangeTypeHeaders) then headersKeys exchange else qb_args (po_queueBind o) in
  _ ← or_close ch (queue_bind ch q (routingKey exchange) (name exchange) (qb_noWait (po_queueBind o)) args);
  _ ← (if isEnabled (po_deadLetter o) then or_close ch (createDeadLetter ch (po_deadLetter o)) else mret tt);
  mret (mkProducer exchange queueName ch (po_isPersistent o) (delivery_mode (po_isPersistent o)) (po_mandatory o)
          eargs qargs (qb_args (po_queueBind o)) false).

(** *** Publishing *)

Definition publish {X} (p : Producer) (key : string) (headers : table) (body : string) : M X unit :=
  h ← read headers;
  _ ← call (p_ch p) (OPublish (name (p_Exchange p)) key (p_mandatory p) false (mkPublishing (p_deliveryMode p) "text/plain" h body));
  mret tt.
Definition only {X} (p : Producer) (kind : string) (m : M X unit) : M X unit :=
  if bool_decide (eType (p_Exchange p) <> kind) then fail (ErrExchangeType (eType (p_Exchange p))) else m.

Definition PublishDirect (p : Producer) (body : string) : M unit unit :=
  only p exchangeTypeDirect (publish p (routingKey (p_Exchange p)) None body).
Definition PublishFanout (p : Producer) (body : string) : M unit unit :=
  only p exchangeTypeFanout (publish p (routingKey (p_Exchange p)) None body).
Definition PublishTopic (p : Producer) (topic body : string) : M unit unit :=
  only p exchangeTypeTopic (publish p topic None body).
Definition PublishHeaders (p : Producer) (keys : table) (body : string) : M unit unit :=
  only p exchangeTypeHeaders (publish p (routingKey (p_Exchange p)) keys body).

(** [delayTime] in nanoseconds; the header is in milliseconds. *)
Definition PublishDelayedMessage (p : Producer) (delayTime : Z) (body : string)
    (opts : list (delayedMessagePublishOptions -> delayedMessagePublishOptions)) : M unit unit :=
  only p exchangeTypeDelayedMessage (
    made ← alloc ∅;
    let o := apply opts defaultDelayedMessagePublishOptions in
    '(key, hdr) ← (if bool_decide (delayedMessageType (p_Exchange p) = exchangeTypeTopic) then
                     if bool_decide (topicKey o = "") then fail ErrTopicKey else mret (topicKey o, made)
                   else if bool_decide (delayedMessageType (p_Exchange p) = exchangeTypeHeaders) then
                     match dm_headersKeys o with
                     | None => fail ErrHeadersKeys
                     | Some _ => mret (routingKey (p_Exchange p), dm_headersKeys o)
                     end
                   else mret (routingKey (p_Exchange p), made));
    _ ← write hdr "x-delay" (VInt (Z.quot delayTime millisecond));
    publish p key hdr body).

Definition producer_Close (p : Producer) : M unit unit := close (p_ch p).

(** *** Publishers *)

(** The Producer inside has no value for isPublisherConfirm. *)
Definition NewPublisher (channelName : string) (opts : list (producerOptions -> producerOptions)) : M unit Producer :=
  let o := apply opts defaultProducerOptions in
  ch ← channel;
  _ ← (if po_isPublisherConfirm o then or_close ch (call ch (OConfirm false)) else mret "");
  _ ← or_close ch (exchange_declare ch channelName exchangeTypeFanout (po_isPersistent o) (po_exchangeDeclare o));
  mret (mkProducer (NewFanoutExchange channelName) "" ch (po_isPersistent o) (delivery_mode (po_isPersistent o)) (po_mandatory o)
          None None None false).

(** What the select of Publish finds: the end of the context, or a
    confirmation. *)
Inductive confirmation : Type :=
  | CtxDone
  | Confirmation (ack : bool) (tag : Z).
Definition Publish (p : Producer) (body : string) (wait : confirmation) : M unit unit :=
  _ ← publish p (routingKey (p_Exchange p)) None body;
  if p_isPublisherConfirm p then
    match wait with
    | CtxDone => fail (ErrBroker "context done")
    | Confirmation true _ => mret tt
    | Confirmation false _ => fail (ErrBroker "publisher confirm failed")
    end
  else mret tt.

(** *** Consuming *)

Definition initialize : M Consumer unit :=
  ch ← channel;
  _ ← modify (set_ch ch);
  c ← get;
  let o := c_options c in
  args ← delayed_args (c_Exchange c) (ed_args (cs_exchangeDeclare o));
  _ ← modify (if bool_decide (eType (c_Exchange c) = exchangeTypeDelayedMessage) then set_args args else id);
  _ ← or_close ch (exchange_declare ch (name (c_Exchange c)) (eType (c_Exchange c)) (cs_isPersistent o)
                     (WithExchangeDeclareArgs args (cs_exchangeDeclare o)));
  q ← or_close ch (queue_declare ch (c_QueueName c) (cs_isPersistent o) (cs_queueDeclare o));
  let bargs := if bool_decide (eType (c_Exchange c) = exchangeTypeHeaders) then headersKeys (c_Exchange c) else qb_args (cs_queueBind o) in
  _ ← or_close ch (queue_bind ch q (routingKey (c_Exchange c)) (name (c_Exchange c)) (qb_noWait (cs_queueBind o)) bargs);
  if enable (cs_qos o) then
    _ ← or_close ch (call ch (OQos (prefetchCount (cs_qos o)) (prefetchSize (cs_qos o)) (global (cs_qos o)))); mret tt
  else mret tt.

Definition on_channel {A} (f : nat -> M Consumer A) : M Consumer A :=
  c ← get; match c_ch c with Some ch => f ch | None => fun s => (Panic, s) end.

Definition consumeWithContext : M Consumer string :=
  c ← get;
  let o := cs_consume (c_options c) in
  args ← read (co_args o);
  on_channel (fun ch => call ch (OConsume (c_QueueName c) (co_consumer o) (cs_isAutoAck (c_options c)) (co_exclusive o) (co_noLocal o) (co_noWait o) args)).

Definition consumer_Close : M Consumer unit :=
  c ← get; match c_ch c with Some ch => close ch | None => mret tt end.

(** A message as it is delivered. *)
Record Delivery : Type := mkDelivery { d_Exchange : string; d_Body : string; DeliveryTag : Z }.
Definition tagID (c : Consumer) (d : Delivery) : string := Join [d_Exchange d; c_QueueName c; FormatUint (DeliveryTag d)] "/".

(** The handler of the user: an error (false) or not, also from the past. *)
Variable handler : list (nat * op) -> string -> string -> bool.
Definition handle (c : Consumer) (d : Delivery) : M Consumer bool :=
  on_channel (fun ch '(x, w) =>
    let ok := handler (calls w) (d_Body d) (tagID c d) in
    (Ok ok, (x, record (ch, OHandle (tagID c d) (d_Body d) ok) w))).

(** One message: an error of the handler or of the acknowledgement ends it. *)
Definition consume_one (d : Delivery) : M Consumer unit :=
  c ← get;
  ok ← handle c d;
  if negb ok then mret tt
  else if cs_isAutoAck (c_options c) then modify add_count
  else fun s =>
    match on_channel (fun ch => call ch (OAck (DeliveryTag d))) s with
    | (Ok _, s') => modify add_count s'
    | (Err _, s') => (Ok tt, s')
    | (Panic, s') => (Panic, s')
    end.

(** The goroutine of Consume: it waits for a tick, starts, and receives. *)
Inductive phase : Type := Waiting | Receiving | Stopped.
#[local] Instance phase_eq_dec : EqDecision phase.
Proof. solve_decision. Defined.

(** What the selects find. *)
Inductive event : Type :=
  | Tick (connected : bool)      (* of the ticker, and CheckConnected *)
  | Exit                         (* the connection is closed *)
  | Deliver (d : Delivery)
  | DeliveryClosed.

Definition start (s : Consumer * world) : phase * (Consumer * world) :=
  match initialize s with
  | (Ok _, s') =>
      match consumeWithContext s' with
      | (Ok _, s'') => (Receiving, s'')
      | (_, s'') => (Waiting, s'')
      end
  | (_, s') => (Waiting, s')
  end.
Definition consume_step (t : phase * (Consumer * world)) (e : event) : phase * (Consumer * world) :=
  let '(ph, s) := t in
  match ph, e with
  | Waiting, Tick false => t
  | Waiting, Tick true => start s
  | (Waiting | Receiving), Exit => (Stopped, snd (consumer_Close s))
  | Receiving, DeliveryClosed => (Waiting, s)
  | Receiving, Deliver d => (Receiving, snd (consume_one d s))
  | _, _ => t
  end.
Definition Consume (c : Consumer) (w : world) (es : list event) : phase * (Consumer * world) :=
  foldl consume_step (Waiting, (c, w)) es.
End Broker.

(** ** Channels *)

(** The channels opened and not closed. *)
Definition open (w : world) : list nat := filter (fun n => (n, OClose) ∉ calls w) (seq 0 (next w)).
Definition world_wf (w : world) : Prop := forall n, (n, OClose) ∈ calls w -> (n < next w)%nat.

Section Channels.
Variable answer : list (nat * op) -> nat * op -> string + string.

(** A part of a start on channel [ch]: it calls, closes [ch] exactly when it
    fails, closes and opens nothing else, and does not panic. *)
Definition piece {X A} (ch : nat) (m : M X A) : Prop := forall x w r x' w', m (x, w) = (r, (x', w')) ->
  r <> Panic /\ next w' = next w /\ exists l, calls w' = l ++ calls w /\
  (forall n, (n, OClose) ∈ l -> n = ch) /\ ((ch, OClose) ∈ l <-> is_ok r = false).

Lemma piece_ret {X A} ch (a : A) : piece (X := X) ch (mret a).
Proof. intros x w r x' w' [= <- <- <-]. split_and!; [done..|]. exists []. set_solver. Qed.

Lemma piece_bind {X A B} ch (m : M X A) (f : A -> M X B) : piece ch m -> (forall a, piece ch (f a)) -> piece ch (m ≫= f).
Proof.
  intros Hm Hf x w r x' w'. unfold mbind, M_bind. destruct (m (x, w)) as [r1 [x1 w1]] eqn:E.
  destruct (Hm _ _ _ _ _ E) as (Hp & Hn & l & Hl & Ho & Hc). destruct r1 as [a|e|]; [|intros [= <- <- <-]..]; [|by eauto 10|done].
  intros E'. destruct (Hf _ _ _ _ _ _ E') as (Hp' & Hn' & l' & Hl' & Ho' & Hc'). split_and!; [done|congruence|].
  exists (l' ++ l). rewrite Hl', Hl, app_assoc. cbn in Hc. split_and!; [done|set_solver|]. rewrite elem_of_app, <- Hc'. split; [by intros [?|?%Hc]|by left].
Qed.

Lemma piece_pure {X A} ch (m : M X A) :
  (forall x w, exists a x' h, m (x, w) = (Ok a, (x', mkWorld h (calls w) (next w)))) -> piece ch m.
Proof.
  intros Hm x w r x' w' E. destruct (Hm x w) as (a & x1 & h & E1). rewrite E1 in E. injection E as <- <- <-.
  split_and!; [done..|]. exists []. set_solver.
Qed.

Lemma piece_read {X} ch t : piece (X := X) ch (read t).
Proof. apply piece_pure. intros x [h c n]. cbn. eauto. Qed.
Lemma piece_get {X} ch : piece (X := X) ch get.
Proof. apply piece_pure. intros x [h c n]. cbn. eauto. Qed.
Lemma piece_modify {X} ch (f : X -> X) : piece ch (modify f).
Proof. apply piece_pure. intros x [h c n]. cbn. eauto. Qed.
Lemma piece_alloc {X} ch m : piece (X := X) ch (alloc m).
Proof. apply piece_pure. intros x [h c n]. cbn. eauto. Qed.
Lemma piece_write {X} ch l k v : piece (X := X) ch (write (Some l) k v).
Proof. apply piece_pure. intros x [h c n]. cbn. eauto. Qed.

(** Calls that fail without closing: made whole by [or_close]. *)
Definition calling {X A} (ch : nat) (m : M X A) : Prop := forall x w r x' w', m (x, w) = (r, (x', w')) ->
  r <> Panic /\ next w' = next w /\ exists l, calls w' = l ++ calls w /\ forall n, (n, OClose) ∉ l.

Lemma calling_call {X} ch o : o <> OClose -> calling (X := X) ch (call answer ch o).
Proof.
  intros Ho x w r x' w'. unfold call. destruct (answer _ _); intros [= <- <- <-]; (split_and!; [done..|]);
    exists [(ch, o)]; (split; [done|]); intros n; set_solver.
Qed.
Lemma calling_bind {X A B} ch (m : M X A) (f : A -> M X B) : calling ch m -> (forall a, calling ch (f a)) -> calling ch (m ≫= f).
Proof.
  intros Hm Hf x w r x' w'. unfold mbind, M_bind. destruct (m (x, w)) as [r1 [x1 w1]] eqn:E.
  destruct (Hm _ _ _ _ _ E) as (Hp & Hn & l & Hl & Ho). destruct r1 as [a|e|]; [|intros [= <- <- <-]..]; [|by eauto 10|done].
  intros E'. destruct (Hf _ _ _ _ _ _ E') as (Hp' & Hn' & l' & Hl' & Ho'). split_and!; [done|congruence|].
  exists (l' ++ l). rewrite Hl', Hl, app_assoc. split; [done|]. intros n. rewrite elem_of_app. intros [?|?]; [by eapply Ho'|by eapply Ho].
Qed.
Lemma calling_ret {X A} ch (a : A) : calling (X := X) ch (mret a).
Proof. intros x w r x' w' [= <- <- <-]. split_and!; [done..|]. exists []. set_solver. Qed.
Lemma calling_read {X} ch t : calling (X := X) ch (read t).
Proof. intros x w r x' w' [= <- <- <-]. split_and!; [done..|]. exists []. set_solver. Qed.

Lemma piece_or_close {X A} ch (m : M X A) : calling ch m -> piece ch (or_close ch m).
Proof.
  intros Hm x w r x' w'. unfold or_close. destruct (m (x, w)) as [r1 [x1 w1]] eqn:E.
  destruct (Hm _ _ _ _ _ E) as (Hp & Hn & l & Hl & Ho). destruct r1 as [a|e|]; [intros [= <- <- <-]..|]; [| |done].
  - split_and!; [done..|]. exists l. split_and!; [done| |]; [intros n Hc; by apply Ho in Hc|]. split; [|done]. intros Hc. by apply Ho in Hc.
  - split_and!; [done..|]. exists ((ch, OClose) :: l). cbn. rewrite Hl. split_and!; [done| |]; [set_solver|]. split; [done|set_solver].
Qed.

Create HintDb amqp.
#[local] Hint Resolve piece_ret piece_read piece_get piece_modify piece_alloc piece_write piece_or_close
  calling_ret calling_read : amqp.
Local Ltac pieces := repeat first [solve [auto with amqp] | apply piece_bind; [|intros ?] | apply calling_bind; [|intros ?]].

Lemma calling_exchange_declare {X} ch n k d o : calling (X := X) ch (exchange_declare answer ch n k d o).
Proof. unfold exchange_declare. pieces. by apply calling_call. Qed.
Lemma calling_queue_declare {X} ch n d o : calling (X := X) ch (queue_declare answer ch n d o).
Proof. unfold queue_declare. pieces. by apply calling_call. Qed.
Lemma calling_queue_bind {X} ch q k e nw t : calling (X := X) ch (queue_bind answer ch q k e nw t).
Proof. unfold queue_bind. pieces. by apply calling_call. Qed.
#[local] Hint Resolve calling_exchange_declare calling_queue_declare calling_queue_bind : amqp.

Lemma calling_createDeadLetter {X} ch o : calling (X := X) ch (createDeadLetter answer ch o).
Proof. unfold createDeadLetter. pieces. Qed.

Lemma piece_delayed_args {X} ch e t : piece (X := X) ch (delayed_args e t).
Proof. unfold delayed_args. case_bool_decide; [|auto with amqp]. destruct t; [pieces|auto with amqp]. Qed.
Lemma piece_dead_letter_args {X} ch d t : piece (X := X) ch (dead_letter_args d t).
Proof. unfold dead_letter_args. case_match; [|auto with amqp]. destruct t; [pieces|auto with amqp]. Qed.
#[local] Hint Resolve calling_createDeadLetter piece_delayed_args piece_dead_letter_args : amqp.

(** A start: a channel, and a piece on it. *)
Definition clean_start {X A} (m : M X A) : Prop := forall x w r x' w', world_wf w -> m (x, w) = (r, (x', w')) ->
  r <> Panic /\ world_wf w' /\ open w' = open w ++ (if is_ok r then [next w] else []).

Lemma clean_start_intro {X A} (f : nat -> M X A) : (forall ch, piece ch (f ch)) -> clean_start (ch ← channel answer; f ch).
Proof.
  intros Hf x w r x' w' Hw. unfold mbind, M_bind, channel. destruct (answer _ _) as [e|q].
  - intros [= <- <- <-]. split_and!; [done|intros n [|]%elem_of_cons; [done|by apply Hw]|].
    rewrite app_nil_r. unfold open. cbn. apply filter_agree. intros n _. set_solver.
  - intros E. destruct (Hf _ _ _ _ _ _ E) as (Hp & Hn & l & Hl & Ho & Hc). cbn in Hn, Hl. split_and!; [done| |].
    + intros n. rewrite Hl, Hn, elem_of_app, elem_of_cons. intros [->%Ho|[|Hin]]; [lia|done|]. specialize (Hw n Hin). lia.
    + unfold open. rewrite Hn. rewrite seq_S, filter_app. cbn [Nat.add]. f_equal.
      * apply filter_agree. intros n Hin%elem_of_seq. rewrite Hl. split; [set_solver|].
        intros Hin' [Hl'%Ho|[|]%elem_of_cons]%elem_of_app; [lia|done|done].
      * rewrite filter_cons, filter_nil. assert ((next w, OClose) ∉ calls w) as Hnw by (intros Hin; specialize (Hw _ Hin); lia).
        destruct (is_ok r); [rewrite decide_True|rewrite decide_False]; try done; rewrite Hl.
        -- intros [Hl'%Hc|[|]%elem_of_cons]%elem_of_app; done.
        -- intros Hin. apply Hin, elem_of_app. left. by apply Hc.
Qed.

(** Starting a producer, a publisher or a consumer does not panic, opens
    one channel when it succeeds, and leaves none open when it fails, whatever
    the broker answers to the calls. *)
Theorem starts_are_clean : (forall e q opts, clean_start (NewProducer answer e q opts)) /\
  (forall n opts, clean_start (NewPublisher answer n opts)) /\ clean_start (initialize answer).
Proof.
  split_and!.
  - intros e q opts. apply clean_start_intro. intros ch. unfold NewProducer. pieces. case_match; auto with amqp.
  - intros n opts. apply clean_start_intro. intros ch. pieces. case_match; auto with amqp. apply piece_or_close. by apply calling_call.
  - apply clean_start_intro. intros ch. pieces. case_match; [pieces|auto with amqp]. apply piece_or_close. by apply calling_call.
Qed.
End Channels.

(** ** The loop of a consumer *)

(** What became of a message: the error of its handler, and that of the
    acknowledgement. *)
Record outcome : Type := mkOutcome { o_delivery : Delivery; o_ok : bool; o_acked : bool }.

Definition is_mark (c : nat * op) : Prop := match snd c with OHandle _ _ _ | OAck _ => True | _ => False end.
#[global] Instance is_mark_dec c : Decision (is_mark c).
Proof. unfold is_mark. destruct (snd c); apply _. Defined.
Definition marks (w : world) : list op := rev (map snd (filter is_mark (calls w))).

Section Loop.
Variable answer : list (nat * op) -> nat * op -> string + string.
Variable handler : list (nat * op) -> string -> string -> bool.

(** What the handler and the broker answered to the messages and to the
    acknowledgements of a record of calls, the first first. *)
Fixpoint handled (l : list (nat * op)) : list bool :=
  match l with
  | [] => []
  | (_, OHandle tag body _) :: l => handled l ++ [handler l body tag]
  | _ :: l => handled l
  end.
Fixpoint acknowledged (l : list (nat * op)) : list bool :=
  match l with
  | [] => []
  | (ch, OAck tag) :: l => acknowledged l ++ [match answer l (ch, OAck tag) with inr _ => true | inl _ => false end]
  | _ :: l => acknowledged l
  end.
Definition seen (w : world) : list op * list bool * list bool := (marks w, handled (calls w), acknowledged (calls w)).

(** What a message leaves in the calls, and whether it counts. *)
Definition needs_ack (c : Consumer) (o : outcome) : bool := o_ok o && negb (cs_isAutoAck (c_options c)).
Definition trace_of (c : Consumer) (o : outcome) : list op :=
  OHandle (tagID c (o_delivery o)) (d_Body (o_delivery o)) (o_ok o) ::
  (if needs_ack c o then [OAck (DeliveryTag (o_delivery o))] else []).
Definition counts (c : Consumer) (o : outcome) : bool := o_ok o && (cs_isAutoAck (c_options c) || o_acked o).

(** The messages that arrive while the loop receives. *)
Definition received_now (ph : phase) (e : event) : list Delivery :=
  match ph, e with Receiving, Deliver d => [d] | _, _ => [] end.
Fixpoint received (t : phase * (Consumer * world)) (es : list event) : list Delivery :=
  match es with [] => [] | e :: es' => received_now (fst t) e ++ received (consume_step answer handler t e) es' end.

(** The fields the loop does not change. *)
Definition same_consumer (c c' : Consumer) : Prop :=
  c_QueueName c' = c_QueueName c /\ cs_isAutoAck (c_options c') = cs_isAutoAck (c_options c).

(** The messages [ds] with their outcomes, which are what the handler answered
    to each and the broker to each acknowledgement. *)
Definition accounted (c : Consumer) (w : world) (ds : list Delivery) (c' : Consumer) (w' : world) : Prop :=
  exists os, map o_delivery os = ds /\ marks w' = marks w ++ concat (map (trace_of c) os) /\
  handled (calls w') = handled (calls w) ++ map o_ok os /\
  acknowledged (calls w') = acknowledged (calls w) ++ map o_acked (filter (fun o => needs_ack c o = true) os) /\
  c_count c' = wrap64 (c_count c + Z.of_nat (length (filter (fun o => counts c o = true) os))) /\ same_consumer c c'.

Lemma accounted_trans c w ds1 c1 w1 ds2 c2 w2 :
  accounted c w ds1 c1 w1 -> accounted c1 w1 ds2 c2 w2 -> accounted c w (ds1 ++ ds2) c2 w2.
Proof.
  intros (os1 & Hd1 & Hm1 & Hh1 & Hk1 & Hc1 & Hq1 & Ha1) (os2 & Hd2 & Hm2 & Hh2 & Hk2 & Hc2 & Hq2 & Ha2). exists (os1 ++ os2).
  assert (map (trace_of c1) os2 = map (trace_of c) os2) as Ht
    by (apply map_ext; intros o; unfold trace_of, tagID, needs_ack; by rewrite Hq1, Ha1).
  assert (filter (fun o => needs_ack c1 o = true) os2 = filter (fun o => needs_ack c o = true) os2) as Hn
    by (apply filter_agree; intros o _; unfold needs_ack; by rewrite Ha1).
  assert (filter (fun o => counts c1 o = true) os2 = filter (fun o => counts c o = true) os2) as Hf
    by (apply filter_agree; intros o _; unfold counts; by rewrite Ha1).
  split_and!.
  - by rewrite map_app, Hd1, Hd2.
  - by rewrite Hm2, Hm1, Ht, map_app, concat_app, app_assoc.
  - by rewrite Hh2, Hh1, map_app, app_assoc.
  - by rewrite Hk2, Hk1, Hn, filter_app, map_app, app_assoc.
  - rewrite Hc2, Hc1, Hf, wrap64_shift, filter_app, length_app. f_equal. lia.
  - split; congruence.
Qed.

(** Parts that neither handle nor acknowledge. *)
Definition unmarked {A} (m : M Consumer A) : Prop := forall c w r c' w', m (c, w) = (r, (c', w')) ->
  seen w' = seen w /\ c_count c' = c_count c /\ same_consumer c c' /\ (is_Some (c_ch c) -> is_Some (c_ch c')).

Lemma unmarked_accounted {A} (m : M Consumer A) c w r c' w' : unmarked m -> in_int64 (c_count c) -> m (c, w) = (r, (c', w')) ->
  accounted c w [] c' w' /\ (is_Some (c_ch c) -> is_Some (c_ch c')).
Proof.
  intros Hm Hc E. destruct (Hm _ _ _ _ _ E) as (Hw & Hn & Hs & Hch). split; [|done]. injection Hw as Hw Hh Hk. exists []. cbn. rewrite !app_nil_r, Z.add_0_r, wrap64_id; done.
Qed.

Lemma unmarked_bind {A B} (m : M Consumer A) (f : A -> M Consumer B) : unmarked m -> (forall a, unmarked (f a)) -> unmarked (m ≫= f).
Proof.
  intros Hm Hf c w r c' w'. unfold mbind, M_bind. destruct (m (c, w)) as [r1 [c1 w1]] eqn:E.
  destruct (Hm _ _ _ _ _ E) as (Hw & Hn & [Hs Hs'] & Hch). destruct r1 as [a|e|]; [|intros [= <- <- <-]; by repeat split..].
  intros E'. destruct (Hf _ _ _ _ _ _ E') as (Hw' & Hn' & [Hs1 Hs1'] & Hch'). unfold same_consumer. split_and!; [congruence..|auto].
Qed.
Lemma unmarked_pure {A} (m : M Consumer A) :
  (forall c w, exists r h, m (c, w) = (r, (c, mkWorld h (calls w) (next w)))) -> unmarked m.
Proof.
  intros Hm c w r c' w' E. destruct (Hm c w) as (r1 & h & E1). rewrite E1 in E. injection E as <- <- <-. by repeat split.
Qed.
Lemma unmarked_ret {A} (a : A) : unmarked (mret a).
Proof. apply unmarked_pure. intros c [h l n]. cbn. eauto. Qed.
Lemma unmarked_get : unmarked get.
Proof. apply unmarked_pure. intros c [h l n]. cbn. eauto. Qed.
Lemma unmarked_read t : unmarked (read t).
Proof. apply unmarked_pure. intros c [h l n]. cbn. eauto. Qed.
Lemma unmarked_panic {A} : unmarked (fun s => (Panic (A := A), s)).
Proof. apply unmarked_pure. intros c [h l n]. cbn. eauto. Qed.
Lemma unmarked_delayed_args e t : unmarked (delayed_args e t).
Proof.
  apply unmarked_pure. intros c [h l n]. unfold delayed_args. case_bool_decide; [|cbn; eauto]. destruct t; cbn; eauto.
Qed.
Lemma unmarked_call ch o : ~ is_mark (ch, o) -> unmarked (call answer ch o).
Proof.
  intros Ho c w r c' w'. unfold call. destruct (answer _ _); intros [= <- <- <-]; repeat split; try done; unfold seen, marks, record; cbn [calls];
    rewrite filter_cons_False by done; destruct o; done || by destruct Ho.
Qed.
Lemma unmarked_close ch : unmarked (close ch).
Proof. intros c w r c' w' [= <- <- <-]. repeat split; try done. Qed.
Lemma unmarked_or_close {A} ch (m : M Consumer A) : unmarked m -> unmarked (or_close ch m).
Proof.
  intros Hm c w r c' w'. unfold or_close. destruct (m (c, w)) as [r1 [c1 w1]] eqn:E. pose proof (Hm _ _ _ _ _ E) as H.
  destruct r1; intros [= <- <- <-]; [done| |done]. exact H.
Qed.
Lemma unmarked_modify f : (forall c, c_count (f c) = c_count c /\ same_consumer c (f c) /\ (is_Some (c_ch c) -> is_Some (c_ch (f c)))) -> unmarked (modify f).
Proof. intros Hf c w r c' w' [= <- <- <-]. by split. Qed.

#[local] Hint Resolve unmarked_ret unmarked_get unmarked_read unmarked_panic unmarked_delayed_args unmarked_close unmarked_or_close : amqp.
Local Ltac parts := repeat first
  [solve [auto with amqp] | apply unmarked_bind; [|intros ?] | apply unmarked_or_close | apply unmarked_call; exact id | apply unmarked_modify].

Lemma unmarked_channel : unmarked (channel answer).
Proof. intros c w r c' w'. unfold channel. destruct (answer _ _); intros [= <- <- <-]; by repeat split. Qed.
#[local] Hint Resolve unmarked_channel : amqp.

Lemma unmarked_initialize : unmarked (initialize answer).
Proof.
  unfold initialize. parts.
  - intros c. by repeat split.
  - intros c. case_bool_decide; by repeat split.
  - case_match; parts.
Qed.

Lemma unmarked_consume : unmarked (consumeWithContext answer).
Proof. unfold consumeWithContext, on_channel. parts. case_match; parts. Qed.

Lemma unmarked_consumer_Close : unmarked consumer_Close.
Proof. unfold consumer_Close. parts. case_match; auto with amqp. Qed.

Lemma initialize_channel c w u c' w' : initialize answer (c, w) = (Ok u, (c', w')) -> is_Some (c_ch c').
Proof.
  unfold initialize. unfold mbind at 1, M_bind at 1. destruct (channel answer (c, w)) as [[ch| |] [c1 w1]]; [|done..].
  unfold mbind at 1, M_bind at 1. cbn [modify fst snd].
  match goal with |- ?m (set_ch ch c1, w1) = _ -> _ => assert (unmarked m) as Hm end.
  - parts.
    + intros c0. case_bool_decide; by repeat split.
    + case_match; parts.
  - intros E. destruct (Hm _ _ _ _ _ E) as (_ & _ & _ & Hch). apply Hch. by exists ch.
Qed.

#[local] Arguments marks : simpl never.
#[local] Arguments tagID : simpl never.
#[local] Arguments filter : simpl never.

(** One outcome: every part of the account by the equations at hand. *)
Local Ltac one_outcome :=
  cbn; unfold needs_ack, counts; cbn;
  repeat match goal with Ha : cs_isAutoAck _ = _ |- _ => rewrite Ha end;
  repeat match goal with Hm : forall o r, marks (record _ _) = _ |- _ => rewrite Hm end; cbn;
  repeat first [rewrite filter_cons_True by done | rewrite filter_cons_False by done]; rewrite ?filter_nil; cbn;
  rewrite ?app_nil_r, ?Z.add_0_r, ?wrap64_id, <- ?app_assoc by done;
  repeat match goal with He : handler _ _ _ = _ |- _ => rewrite He | He : answer _ _ = _ |- _ => rewrite He end; by split_and!.

(** A message that arrives while the channel is there. *)
Lemma consume_one_accounted c w d : in_int64 (c_count c) -> is_Some (c_ch c) ->
  let '(r, (c', w')) := consume_one answer handler d (c, w) in
  accounted c w [d] c' w' /\ is_Some (c_ch c').
Proof.
  intros Hc [ch Hch]. unfold consume_one, handle, on_channel, get, modify, mbind, M_bind, mret, M_ret. cbn. rewrite Hch. cbn.
  unfold accounted.
  assert (forall o r, marks (record (ch, o) r) = marks r ++ (if decide (is_mark (ch, o)) then [o] else [])) as Hm.
  { intros o r. unfold marks, record. cbn [calls]. rewrite filter_cons. case_decide; cbn; by rewrite ?app_nil_r. }
  destruct (handler _ _ _) eqn:Eok; cbn [negb]; [destruct (cs_isAutoAck (c_options c)) eqn:Ea; cbn; [|rewrite Hch; unfold call; cbn; destruct (answer _ _) eqn:Ean]|];
    cbn; (split; [|by exists ch]).
  - exists [mkOutcome d true true]. one_outcome.
  - exists [mkOutcome d true false]. one_outcome.
  - exists [mkOutcome d true true]. one_outcome.
  - exists [mkOutcome d false false]. one_outcome.
Qed.

(** The loop has a channel while it receives. *)
Definition loop_ok (t : phase * (Consumer * world)) : Prop :=
  (fst t = Receiving -> is_Some (c_ch (fst (snd t)))) /\ in_int64 (c_count (fst (snd t))).

Lemma accounted_range c w ds c' w' : accounted c w ds c' w' -> in_int64 (c_count c').
Proof. intros (os & _ & _ & _ & _ & -> & _). apply wrap64_range. Qed.

Lemma consume_step_accounted ph c w e : loop_ok (ph, (c, w)) ->
  let '(ph', (c', w')) := consume_step answer handler (ph, (c, w)) e in
  accounted c w (received_now ph e) c' w' /\ loop_ok (ph', (c', w')).
Proof.
  intros [Hch Hc]. cbn in Hch, Hc.
  assert (accounted c w [] c w) as Hid.
  { exists []. cbn. rewrite !app_nil_r, Z.add_0_r, wrap64_id by done. by repeat split. }
  assert (forall p, p <> Receiving -> loop_ok (p, (c, w))) as Hlo by (by intros p Hp; split).
  destruct ph, e as [[]| | |]; cbn; try (by split; [|apply Hlo]).
  - unfold start. destruct (initialize answer (c, w)) as [r1 [c1 w1]] eqn:E1.
    destruct (unmarked_accounted _ _ _ _ _ _ unmarked_initialize Hc E1) as [H1 _]. pose proof (accounted_range _ _ _ _ _ H1) as Hr1.
    destruct r1 as [u|e|]; [|split; [exact H1|by split]..]. pose proof (initialize_channel _ _ _ _ _ E1) as Hch1.
    destruct (consumeWithContext answer (c1, w1)) as [r2 [c2 w2]] eqn:E2.
    destruct (unmarked_accounted _ _ _ _ _ _ unmarked_consume Hr1 E2) as [H2 Hch2].
    pose proof (accounted_trans _ _ _ _ _ _ _ _ H1 H2) as H12. pose proof (accounted_range _ _ _ _ _ H12) as Hr2.
    destruct r2; (split; [done|split; [|done]]); cbn; auto.
  - destruct (consumer_Close (c, w)) as [r1 [c1 w1]] eqn:E1. cbn.
    destruct (unmarked_accounted _ _ _ _ _ _ unmarked_consumer_Close Hc E1) as [H1 _]. split; [done|]. split; [done|by eapply accounted_range].
  - split; [done|]. by split.
  - split; [done|]. by split.
  - destruct (consumer_Close (c, w)) as [r1 [c1 w1]] eqn:E1. cbn.
    destruct (unmarked_accounted _ _ _ _ _ _ unmarked_consumer_Close Hc E1) as [H1 _]. split; [done|]. split; [done|by eapply accounted_range].
  - pose proof (consume_one_accounted c w d Hc (Hch eq_refl)) as H1. destruct (consume_one _ _ d (c, w)) as [r1 [c1 w1]]. cbn.
    destruct H1 as [H1 Hch1]. split; [done|]. split; [done|by eapply accounted_range].
Qed.

(** C29: Whatever the broker answers, whenever the connection is lost and found
    again, and whatever the handler returns: the messages that arrive while
    the loop receives are handled once each, in order; with manual
    acknowledgement exactly those for which the handler returned no error are
    acknowledged, else none; and the count is the number of the messages for
    which the handler returned no error and, with manual acknowledgement, the
    broker accepted the acknowledgement.  The outcomes are the answers: the
    handler's to every message and the broker's to every acknowledgement, at
    the calls made until then. *)
Theorem consumer_accounts_for_messages exchange queueName opts w es :
  let c := NewConsumer exchange queueName opts in
  let '(_, (c', w')) := Consume answer handler c w es in
  accounted c w (received (Waiting, (c, w)) es) c' w'.
Proof.
  intros c. unfold Consume.
  enough (forall es t, loop_ok t -> let '(_, (c', w')) := foldl (consume_step answer handler) t es in
    accounted (fst (snd t)) (snd (snd t)) (received t es) c' w') as H.
  { apply (H es (Waiting, (c, w))). split; [done|]. unfold in_int64, int64_min, int64_max; cbn; lia. }
  clear. intros es. induction es as [|e es IH]; intros [ph [c w]] Ht; cbn.
  - destruct Ht as [_ Hc]. exists []. cbn in *. rewrite !app_nil_r, Z.add_0_r, wrap64_id by done. by repeat split.
  - pose proof (consume_step_accounted ph c w e Ht) as H1. cbn [consume_step] in H1.
    destruct (consume_step answer handler (ph, (c, w)) e) as [ph1 [c1 w1]] eqn:E. cbn in E, H1.
    rewrite E in H1. destruct H1 as [H1 H2]. rewrite E. specialize (IH _ H2).
    destruct (foldl _ _ es) as [ph2 [c2 w2]]. cbn in IH. by eapply accounted_trans.
Qed.
End Loop.

(** ** What the theorems do not promise *)

(** A broker that refuses to deliver. *)
Definition refusing (_ : list (nat * op)) (c : nat * op) : string + string :=
  match snd c with OConsume _ _ _ _ _ _ _ => inl "refused" | OQueueDeclare n _ _ _ _ _ => inr n | _ => inr "" end.
Definition empty_world : world := mkWorld ∅ [] 0.

(** Every attempt opens a channel that is never closed. *)
Lemma refused_consumer_leaks :
  let c := NewConsumer (NewDirectExchange "e" "k") "q" [] in
  let '(ph, (_, w)) := Consume refusing (fun _ _ _ => true) c empty_world [Tick true; Tick true; Tick true; Exit] in
  ph = Stopped /\ open w = [0%nat; 1%nat].
Proof. vm_compute. split; reflexivity. Qed.

(** The option of a publisher is lost: nothing waits for a confirmation. *)
Lemma publisher_confirm_lost answer n opts s p s' :
  NewPublisher answer n opts s = (Ok p, s') -> p_isPublisherConfirm p = false /\
  forall body wait, Publish answer p body wait = Publish answer p body CtxDone.
Proof.
  intros E. assert (p_isPublisherConfirm p = false) as Hp.
  { revert E. unfold NewPublisher, mbind, M_bind, mret, M_ret. repeat (case_match; try done); by intros [= <- _]. }
  split; [done|]. intros body wait. unfold Publish. by rewrite Hp.
Qed.

(** The headers the caller gives for a delayed message are written to. *)
Lemma delayed_headers_written answer p l m delay body w :
  eType (p_Exchange p) = exchangeTypeDelayedMessage -> delayedMessageType (p_Exchange p) = exchangeTypeHeaders ->
  heap w !! l = Some m ->
  heap (snd (snd (PublishDelayedMessage answer p delay body [WithDelayedMessagePublishHeadersKeys (Some l)] (tt, w)))) !! l =
    Some (<["x-delay" := VInt (Z.quot delay millisecond)]> m).
Proof.
  intros He Hd Hl. unfold PublishDelayedMessage, only. rewrite bool_decide_eq_false_2 by (intros Hn; by apply Hn). rewrite Hd.
  rewrite bool_decide_eq_false_2, bool_decide_eq_true_2 by done.
  unfold mbind, M_bind, mret, M_ret, alloc, write, publish, read, call. cbn. unfold mbind, M_bind. cbn.
  match goal with |- context [answer ?a ?b] => destruct (answer a b) end; cbn;
    rewrite lookup_alter_eq, lookup_insert_ne, Hl; try done; intros <-;
    by apply (is_fresh (dom (heap w))), elem_of_dom.
Qed.

End Amqp.
