(* ===== verification/AmqpConn.v ===== *)
(** * The connection to RabbitMQ (pkg/rabbitmq/connection.go)

    The options, NewConnection, and the goroutine that watches the connection,
    interleaved with the broker that drops it and the callers of Close.  A
    select, a section under the mutex and a dial are one step each.  Theorems:
    at most one connection is open at any time, and none once the goroutine
    ended; a lost connection is made again; CheckConnected can stay true after
    Close. *)

From S2P Require Import Prelude GoStr.
From Stdlib Require String.

Module AmqpConn.

(** ** Options *)

(** Only whether there is a tls configuration, and its own value, matter. *)
Record connectionOptions {Tls : Type} : Type := mkOptions { tlsConfig : option Tls; reconnectTime : Z }.
Arguments connectionOptions Tls : clear implicits.
Arguments mkOptions {Tls}.

Definition defaultConnectionOptions {Tls} : connectionOptions Tls := mkOptions None (3 * second).
(** [insecure] is the configuration that skips the verification. *)
Definition WithTLSConfig {Tls} (insecure : Tls) (c : option Tls) (o : connectionOptions Tls) : connectionOptions Tls :=
  mkOptions (Some (default insecure c)) (reconnectTime o).
Definition WithReconnectTime {Tls} (d : Z) (o : connectionOptions Tls) : connectionOptions Tls :=
  mkOptions (tlsConfig o) (if d =? 0 then 3 * second else d).
Definition apply {Tls} (opts : list (connectionOptions Tls -> connectionOptions Tls)) (o : connectionOptions Tls) : connectionOptions Tls :=
  foldl (fun o opt => opt o) o opts.

Inductive error : Type :=
  | ErrURLEmpty
  | ErrTLSNotSet
  | ErrDial (e : string).

(** ** Dialling *)

(** The dials of amqp091, with a tls configuration and without: [None] is a
    connection. *)
Definition connect {Tls} (DialTLS : string -> Tls -> option string) (Dial : string -> option string)
    (url : string) (tls : option Tls) : option error :=
  if HasPrefix url "amqps://" then
    match tls with
    | None => Some ErrTLSNotSet
    | Some t => ErrDial <$> DialTLS url t
    end
  else ErrDial <$> Dial url.

(** ** The connection and who works on it *)

(** Where the goroutine monitor stands. *)
Inductive monitor_at : Type :=
  | Selecting
  | Sleeping               (* waiting to dial again *)
  | Dialled (id : nat)     (* before the second section under the mutex *)
  | Ended.
#[global] Instance monitor_at_eq_dec : EqDecision monitor_at.
Proof. solve_decision. Defined.

(** Connections are numbered; [live] are those that are open at the broker.
    [closing] counts the callers of Close between its two parts. *)
Record Connection : Type := mkConnection {
  conn : nat; isConnected : bool; exit_closed : bool; monitor : monitor_at; retryCount : Z;
  live : gset nat; made : nat; closing : nat; panicked : bool }.

(** After the first dial. *)
Definition connected_state : Connection := mkConnection 0 true false Selecting 0 {[0%nat]} 1 0 false.
Definition NewConnection {Tls} (DialTLS : string -> Tls -> option string) (Dial : string -> option string)
    (url : string) (opts : list (connectionOptions Tls -> connectionOptions Tls)) : result error Connection :=
  if bool_decide (url = "") then Err ErrURLEmpty
  else match connect DialTLS Dial url (tlsConfig (apply opts defaultConnectionOptions)) with
       | Some e => Err e
       | None => Ok connected_state
       end.

Definition CheckConnected (c : Connection) : bool := isConnected c.

Definition set_monitor (m : monitor_at) (c : Connection) : Connection :=
  mkConnection (conn c) (isConnected c) (exit_closed c) m (retryCount c) (live c) (made c) (closing c) (panicked c).
Definition set_connected (b : bool) (c : Connection) : Connection :=
  mkConnection (conn c) b (exit_closed c) (monitor c) (retryCount c) (live c) (made c) (closing c) (panicked c).
Definition set_live (l : gset nat) (c : Connection) : Connection :=
  mkConnection (conn c) (isConnected c) (exit_closed c) (monitor c) (retryCount c) l (made c) (closing c) (panicked c).

(** What can happen. *)
Inductive label : Type :=
  | Drop (id : nat)   (* the broker or the network ends a connection *)
  | Blocked           (* a notification of blocking *)
  | LostSeen          (* the monitor reads closeChan, which is readable once the connection is gone *)
  | DialFails
  | DialOk
  | Reconnected       (* the second section under the mutex *)
  | ExitSeen          (* the monitor reads exit *)
  | CloseCalled       (* the section of Close under the mutex *)
  | CloseExit.        (* close(c.exit) *)

(** The section of the monitor that follows a lost connection. *)
Definition lost (c : Connection) : Connection :=
  mkConnection (conn c) false (exit_closed c) Sleeping (wrap64 (retryCount c + 1)) (live c) (made c) (closing c) (panicked c).
Definition dialled (c : Connection) : Connection :=
  mkConnection (conn c) (isConnected c) (exit_closed c) (Dialled (made c)) (retryCount c) ({[made c]} ∪ live c) (S (made c)) (closing c) (panicked c).
Definition reconnected (id : nat) (c : Connection) : Connection :=
  mkConnection id true (exit_closed c) Selecting (retryCount c) (live c) (made c) (closing c) (panicked c).
Definition closeConn (c : Connection) : Connection := set_live (live c ∖ {[conn c]}) c.
(** Close: its section under the mutex, then the channel, which panics when it
    is closed already. *)
Definition close_called (c : Connection) : Connection :=
  mkConnection (conn c) false (exit_closed c) (monitor c) (retryCount c) (live c) (made c) (S (closing c)) (panicked c).
Definition close_exit (c : Connection) : Connection :=
  mkConnection (conn c) (isConnected c) true (monitor c) (retryCount c) (live c) (made c) (pred (closing c)) (exit_closed c || panicked c).

(** [None]: it cannot happen now.  Nothing happens after a panic. *)
Definition step (c : Connection) (l : label) : option Connection :=
  if panicked c then None else
  match l, monitor c with
  | Drop id, _ => if decide (id ∈ live c) then Some (set_live (live c ∖ {[id]}) c) else None
  | Blocked, Selecting => Some c
  | LostSeen, Selecting => if decide (conn c ∈ live c) then None else Some (lost c)
  | DialFails, Sleeping => Some (set_monitor Selecting c)
  | DialOk, Sleeping => Some (dialled c)
  | Reconnected, Dialled id => Some (reconnected id c)
  | ExitSeen, Selecting => if exit_closed c then Some (set_monitor Ended (closeConn c)) else None
  | CloseCalled, _ => Some (close_called c)
  | CloseExit, _ => match closing c with O => None | S _ => Some (close_exit c) end
  | _, _ => None
  end.
Definition steps (c c' : Connection) : Prop := exists l, step c l = Some c'.
Fixpoint run (c : Connection) (ls : list label) : option Connection :=
  match ls with [] => Some c | l :: ls' => c' ← step c l; run c' ls' end.

Lemma run_star ls : forall c c', run c ls = Some c' -> star steps c c'.
Proof.
  induction ls as [|l ls IH]; intros c c'; cbn; [intros [= <-]; constructor|].
  destruct (step c l) as [c1|] eqn:E; [|done]. intros H. econstructor; [by exists l|by apply IH].
Qed.

Lemma run_app ls1 ls2 : forall c, run c (ls1 ++ ls2) = run c ls1 ≫= fun c1 => run c1 ls2.
Proof. induction ls1 as [|l ls1 IH]; intros c; cbn; [done|]. destruct (step c l); cbn; [apply IH|done]. Qed.

Lemma step_lost c : panicked c = false -> monitor c = Selecting -> conn c ∉ live c -> step c LostSeen = Some (lost c).
Proof. intros Hp Hm Hl. unfold step. by rewrite Hp, Hm, decide_False. Qed.
Lemma step_asleep c : panicked c = false -> monitor c = Sleeping ->
  step c DialFails = Some (set_monitor Selecting c) /\ step c DialOk = Some (dialled c).
Proof. intros Hp Hm. unfold step. by rewrite Hp, Hm. Qed.
Lemma step_reconnected c id : panicked c = false -> monitor c = Dialled id -> step c Reconnected = Some (reconnected id c).
Proof. intros Hp Hm. unfold step. by rewrite Hp, Hm. Qed.
Lemma step_exit c : panicked c = false -> monitor c = Selecting -> exit_closed c = true -> step c ExitSeen = Some (set_monitor Ended (closeConn c)).
Proof. intros Hp Hm He. unfold step. by rewrite Hp, Hm, He. Qed.

(** ** One connection at most *)

Definition conn_inv (c : Connection) : Prop :=
  (made c <> 0%nat /\ conn c < made c)%nat /\
  match monitor c with
  | Selecting => live c ⊆ {[conn c]}
  | Sleeping => live c = ∅ /\ isConnected c = false
  | Dialled id => live c ⊆ {[id]} /\ id <> conn c /\ (id < made c)%nat /\ isConnected c = false
  | Ended => live c = ∅ /\ exit_closed c = true
  end.

Lemma step_inv c l c' : step c l = Some c' -> conn_inv c -> conn_inv c'.
Proof.
  unfold step. destruct (panicked c); [done|]. intros E [[Hm Hc] Hmon].
  destruct l, (monitor c) eqn:Em; try discriminate E; try case_decide; try (destruct (closing c); [discriminate E|]);
    try (destruct (exit_closed c) eqn:Ex; try discriminate E); injection E as <-; unfold conn_inv; cbn; rewrite ?Em, ?Ex;
    destruct_and?; split_and!; (done || set_solver || lia).
Qed.

Lemma reachable_inv c : star steps connected_state c -> conn_inv c.
Proof.
  intros H. eapply (star_invariant steps conn_inv); [|done|].
  - intros s s' [l Hl] Hs. by eapply step_inv.
  - split; cbn; [lia|set_solver].
Qed.

(** C30: However the broker, the monitor and callers of Close interleave, at
    most one connection is open at any time; while it is being made again
    CheckConnected answers false; and when the monitor has ended, exit was
    closed and no connection is open. *)
Theorem one_live_connection c : star steps connected_state c ->
  (size (live c) <= 1)%nat /\
  (monitor c <> Selecting -> monitor c <> Ended -> CheckConnected c = false) /\
  (monitor c = Ended -> exit_closed c = true /\ live c = ∅).
Proof.
  intros H%reachable_inv. destruct H as [_ Hm]. unfold CheckConnected.
  assert (forall x : nat, live c ⊆ {[x]} -> (size (live c) <= 1)%nat) as Hsz
    by (intros x Hx%subseteq_size; by rewrite size_singleton in Hx).
  destruct (monitor c); destruct_and?; split_and!; try done; eauto; replace (live c) with (∅ : gset nat) by done; by rewrite size_empty; lia.
Qed.

Lemma one_live_connection_witness : (size (live connected_state) <= 1)%nat.
Proof. exact (proj1 (one_live_connection connected_state (star_refl steps connected_state))). Defined.

(** A lost connection is made again, also after refused dials. *)
Fixpoint failures (n : nat) : list label := match n with O => [] | S n' => LostSeen :: DialFails :: failures n' end.

Lemma failures_run n : forall c, monitor c = Selecting -> panicked c = false -> conn c ∉ live c ->
  exists c', run c (failures n) = Some c' /\ monitor c' = Selecting /\ panicked c' = false /\ live c' = live c /\ conn c' = conn c.
Proof.
  induction n as [|n IH]; intros c Hm Hp Hl; [by exists c|]. cbn [failures run]. rewrite step_lost by done. cbn.
  destruct (step_asleep (lost c) Hp eq_refl) as [-> _]. cbn. by apply (IH (set_monitor Selecting (lost c))).
Qed.

Lemma lost_connection_recovers n c : monitor c = Selecting -> panicked c = false -> conn c ∉ live c ->
  exists c', run c (failures n ++ [LostSeen; DialOk; Reconnected]) = Some c' /\ CheckConnected c' = true /\ conn c' ∈ live c' /\ monitor c' = Selecting.
Proof.
  intros Hm Hp Hl. destruct (failures_run n c Hm Hp Hl) as (c1 & Hr & Hm1 & Hp1 & Hl1 & Hc1). rewrite run_app, Hr. cbn.
  rewrite step_lost by (congruence || by rewrite Hl1, Hc1). cbn. destruct (step_asleep (lost c1) Hp1 eq_refl) as [_ ->]. cbn.
  rewrite (step_reconnected (dialled (lost c1)) (made (lost c1)) Hp1 eq_refl). cbn. eexists. split; [done|]. cbn. set_solver.
Qed.

(** After exit is closed the monitor can end within two steps of its own. *)
Lemma closed_monitor_ends c : exit_closed c = true -> panicked c = false ->
  exists ls c', (length ls <= 2)%nat /\ ls ⊆ [DialFails; Reconnected; ExitSeen] /\ run c ls = Some c' /\ monitor c' = Ended.
Proof.
  intros He Hp. destruct (monitor c) as [| |id|] eqn:Em.
  - exists [ExitSeen]. cbn. rewrite step_exit by done. eexists. split_and!; [lia|set_solver|done|done].
  - exists [DialFails; ExitSeen]. cbn. destruct (step_asleep c Hp Em) as [-> _]. cbn. rewrite step_exit by done.
    eexists. split_and!; [lia|set_solver|done|done].
  - exists [Reconnected; ExitSeen]. cbn. rewrite (step_reconnected c id Hp Em). cbn. rewrite step_exit by done.
    eexists. split_and!; [lia|set_solver|done|done].
  - exists [], c. cbn. split_and!; [lia|set_solver|done|done].
Qed.

(** But a Close during a reconnection is forgotten: the monitor sets
    isConnected again, ends, and CheckConnected stays true. *)
Lemma connected_after_close : exists c, star steps connected_state c /\
  monitor c = Ended /\ exit_closed c = true /\ live c = ∅ /\ closing c = 0%nat /\ CheckConnected c = true.
Proof.
  destruct (run connected_state [Drop 0; LostSeen; CloseCalled; CloseExit; DialOk; Reconnected; ExitSeen]) as [c|] eqn:E;
    [|by vm_compute in E].
  exists c. split; [by eapply run_star|]. vm_compute in E. injection E as <-. by repeat split.
Qed.

(** Closing twice panics. *)
Lemma close_twice_panics : exists c, run connected_state [CloseCalled; CloseExit; CloseCalled; CloseExit] = Some c /\ panicked c = true.
Proof. eexists. split; [reflexivity|done]. Qed.

Lemma NewConnection_needs_tls {Tls} DialTLS Dial opts : tlsConfig (apply opts defaultConnectionOptions) = None ->
  NewConnection (Tls := Tls) DialTLS Dial "amqps://localhost" opts = Err ErrTLSNotSet.
Proof. intros H. unfold NewConnection, connect. cbn. by rewrite H. Qed.

End AmqpConn.
