(* ===== verification/Ws.v ===== *)
(** * WebSockets (pkg/ws)

    client.go: the options, the client, the reconnection with its growing
    delay, and the goroutine that pings and reconnects, as a machine over what
    its selects find; server.go: the options, the deadline that pings put off,
    IsClientClose.  gorilla/websocket is a variable: a dial is answered as the
    world likes.  Theorems: a reconnection waits 1, 2, 4, ... at most 32
    seconds and ends at the first dial that succeeds or with the context; the
    pinging client never ends but by Close; a server closes a silent client. *)

From S2P Require Import Prelude GoStr.
From Stdlib Require Import Ascii.
From Stdlib Require String.

Module Ws.

(** ** The client *)

Section Client.
Context {Dialer Header Conn : Type}.

Record clientOptions : Type := mkClientOptions { co_dialer : Dialer; co_requestHeader : option Header; pingDialInterval : Z }.
Definition defaultClientOptions (DefaultDialer : Dialer) : clientOptions := mkClientOptions DefaultDialer None 0.
Definition WithDialer (d : Dialer) (o : clientOptions) : clientOptions := mkClientOptions d (co_requestHeader o) (pingDialInterval o).
Definition WithRequestHeader (h : option Header) (o : clientOptions) : clientOptions := mkClientOptions (co_dialer o) h (pingDialInterval o).
Definition WithPing (interval : Z) (o : clientOptions) : clientOptions := mkClientOptions (co_dialer o) (co_requestHeader o) interval.

(** The goroutine of [ping]: not started, waiting for a tick, in TryReconnect
    with its delay, or ended. *)
Inductive pinger : Type :=
  | NoPing
  | Pinging
  | Reconnecting (delay : Z)
  | PingEnded.

Record Client : Type := mkClient {
  dialer : Dialer; requestHeader : option Header; url : string; conn : option Conn; pingInterval : Z; cancelled : bool; pings : pinger }.
Definition set_conn (k : option Conn) (c : Client) : Client :=
  mkClient (dialer c) (requestHeader c) (url c) k (pingInterval c) (cancelled c) (pings c).
Definition set_pings (p : pinger) (c : Client) : Client :=
  mkClient (dialer c) (requestHeader c) (url c) (conn c) (pingInterval c) (cancelled c) p.

(** An answer to a dial: a connection or an error. *)
Definition connect (dial : option Conn) (c : Client) : bool * Client :=
  match dial with Some k => (true, set_conn (Some k) c) | None => (false, c) end.

(** [dial] answers the dial it makes, if any. *)
Definition NewClient (DefaultDialer : Dialer) (u : string) (opts : list (clientOptions -> clientOptions)) (dial : option Conn) : option Client :=
  let o := foldl (fun o opt => opt o) (defaultClientOptions DefaultDialer) opts in
  let c := mkClient (co_dialer o) (co_requestHeader o) u None (pingDialInterval o) false NoPing in
  let '(ok, c) := connect dial c in
  if ok then Some (if 0 <? pingInterval c then set_pings Pinging c else c) else None.

(** The panic on an error is recovered: nil is returned. *)
Definition GetConn (dial : option Conn) (c : Client) : option Conn * Client :=
  match conn c with
  | None => let '(ok, c) := connect dial c in (if ok then conn c else None, c)
  | Some k => (Some k, c)
  end.

(** [c.cancel()] and the closing of the connection, if there is one. *)
Definition Close (c : Client) : Client :=
  mkClient (dialer c) (requestHeader c) (url c) (conn c) (pingInterval c) true (pings c).

(** *** Reconnecting *)

Definition first_delay : Z := 1 * second.
Definition maxDelay : Z := 32 * second.
(** The delay after a dial that failed. *)
Definition next_delay (delay : Z) : Z := if maxDelay <=? delay then maxDelay else wrap64 (delay * 2).

(** What one select of TryReconnect finds: the end of the context, or the
    timer, and then the answer to the dial. *)
Inductive attempt : Type :=
  | CtxDone
  | Timer (dial : option Conn).

(** The delays waited for, and the outcome: [Some true] nil, [Some false] the
    error of the context, [None] still trying. *)
Fixpoint TryReconnect_from (delay : Z) (atts : list attempt) (c : Client) : list Z * option bool * Client :=
  match atts with
  | [] => ([], None, c)
  | CtxDone :: _ => ([], Some false, c)
  | Timer dial :: atts' =>
      let '(ok, c) := connect dial c in
      if ok then ([delay], Some true, c)
      else let '(ds, r, c) := TryReconnect_from (next_delay delay) atts' c in (delay :: ds, r, c)
  end.
Definition TryReconnect (atts : list attempt) (c : Client) : list Z * option bool * Client := TryReconnect_from first_delay atts c.

(** *** Pinging *)

(** What the goroutine finds: a tick with the outcome of the write (a panic is
    recovered and handled like an error), the end of the context, or, when
    it reconnects, the timer. *)
Inductive ping_event : Type :=
  | Tick (sent : bool)
  | Done
  | Redial (dial : option Conn).

Definition ping_step (c : Client) (e : ping_event) : Client :=
  match pings c, e with
  | Pinging, Tick true => c
  | Pinging, Tick false => set_pings (Reconnecting first_delay) c
  | Pinging, Done | Reconnecting _, Done => if cancelled c then set_pings PingEnded c else c
  | Reconnecting delay, Redial dial =>
      let '(ok, c) := connect dial c in set_pings (if ok then Pinging else Reconnecting (next_delay delay)) c
  | _, _ => c
  end.

(** ** Theorems *)

Lemma next_delay_pow (n : nat) : next_delay (Z.min maxDelay (second * 2 ^ Z.of_nat n)) = Z.min maxDelay (second * 2 ^ Z.of_nat (S n)).
Proof.
  unfold next_delay. destruct (decide (n < 5)%nat) as [Hn|Hn].
  - do 5 (destruct n as [|n]; [by vm_compute|]). lia.
  - assert (2 ^ 5 <= 2 ^ Z.of_nat n) as Hp by (apply Z.pow_le_mono_r; lia).
    rewrite Nat2Z.inj_succ, Z.pow_succ_r by lia. unfold maxDelay, second, millisecond in *.
    rewrite !Z.min_l by lia. rewrite (proj2 (Z.leb_le _ _)) by lia. lia.
Qed.

Definition backoff (n : nat) : Z := Z.min maxDelay (second * 2 ^ Z.of_nat n).

Lemma TryReconnect_from_fails n : forall k c atts,
  TryReconnect_from (backoff k) (replicate n (Timer None) ++ atts) c =
    let '(ds, r, c') := TryReconnect_from (backoff (k + n)) atts c in (map backoff (seq k n) ++ ds, r, c').
Proof.
  induction n as [|n IH]; intros k c atts; cbn [replicate seq map].
  - rewrite Nat.add_0_r. cbn. by destruct (TryReconnect_from _ _ _) as [[ds r] c'].
  - cbn [app TryReconnect_from connect]. unfold backoff at 1. rewrite next_delay_pow. fold (backoff (S k)). rewrite IH.
    replace (S k + n)%nat with (k + S n)%nat by lia. by destruct (TryReconnect_from _ _ _) as [[ds r] c'].
Qed.

(** Dials that fail are followed by waits of 1, 2, 4, 8, 16, 32, 32, ...
    seconds; the first that succeeds gives its connection and no error; the
    end of the context gives its error. *)
Theorem reconnect_waits n c k :
  TryReconnect (replicate n (Timer None) ++ [Timer (Some k)]) c = (map backoff (seq 0 (S n)), Some true, set_conn (Some k) c) /\
  TryReconnect (replicate n (Timer None) ++ [CtxDone]) c = (map backoff (seq 0 n), Some false, c) /\
  TryReconnect (replicate n (Timer None)) c = (map backoff (seq 0 n), None, c).
Proof.
  unfold TryReconnect. change first_delay with (backoff 0). split_and!.
  - rewrite TryReconnect_from_fails. cbn [TryReconnect_from connect]. by rewrite seq_S, map_app.
  - rewrite TryReconnect_from_fails. cbn. by rewrite app_nil_r.
  - rewrite <- (app_nil_r (replicate _ _)), TryReconnect_from_fails. cbn. by rewrite app_nil_r.
Qed.

Lemma backoff_bounds n : second <= backoff n <= 32 * second.
Proof.
  unfold backoff, maxDelay, second, millisecond. assert (1 <= 2 ^ Z.of_nat n) by (pose proof (Z.pow_pos_nonneg 2 (Z.of_nat n)); lia). lia.
Qed.

(** A client that pings goes on pinging or reconnecting until Close. *)
Theorem ping_until_close c es : cancelled c = false -> (pings c = Pinging \/ exists d, pings c = Reconnecting d) ->
  let c' := foldl ping_step c es in pings c' = Pinging \/ exists d, pings c' = Reconnecting d.
Proof.
  revert c. induction es as [|e es IH]; intros c Hc Hp; [done|]. cbn. apply IH.
  - unfold ping_step. destruct Hp as [Hp|[d Hp]]; rewrite Hp; destruct e as [[]| |[k|]]; cbn; rewrite ?Hc; try done; by rewrite Hc.
  - unfold ping_step. destruct Hp as [Hp|[d Hp]]; rewrite Hp; destruct e as [[]| |[k|]]; cbn; rewrite ?Hc; cbn; eauto.
Qed.

Lemma ping_ends_after_close c : pings c = Pinging \/ (exists d, pings c = Reconnecting d) -> pings (ping_step (Close c) Done) = PingEnded.
Proof. unfold ping_step, Close. cbn. by intros [->|[d ->]]. Qed.
End Client.

(** ** The server *)

(** The options that matter: how long a client may be silent. *)
Record serverOptions : Type := mkServerOptions { noClientPingTimeout : Z }.
Definition defaultServerOptions : serverOptions := mkServerOptions 0.
Definition WithMaxMessageWaitPeriod (period : Z) (_ : serverOptions) : serverOptions := mkServerOptions period.
Definition WithNoClientPingTimeout (timeout : Z) (_ : serverOptions) : serverOptions := mkServerOptions timeout.

(** The read deadline that Run sets, and that its ping handler puts off;
    [None] is no deadline. *)
Definition initial_deadline (o : serverOptions) (now : time) : option time :=
  if 0 <? noClientPingTimeout o then Some (now + noClientPingTimeout o) else None.
Definition ping_handler (o : serverOptions) (deadline : option time) (now : time) : option time :=
  if 0 <? noClientPingTimeout o then Some (now + noClientPingTimeout o) else deadline.
Definition deadline_after (o : serverOptions) (start : time) (pings : list time) : option time :=
  foldl (ping_handler o) (initial_deadline o start) pings.

Lemma last_default (a b z : time) ps : List.last (z :: ps) a = List.last (z :: ps) b.
Proof. revert z. induction ps as [|y ps IH]; intros z; [done|]. exact (IH y). Qed.

(** A read waits until then exactly when the last sign of the client is not
    older than the timeout. *)
Lemma silent_client_closed o start pings t :
  0 < noClientPingTimeout o ->
  (exists d, deadline_after o start pings = Some d /\ t <= d) <-> t - List.last pings start <= noClientPingTimeout o.
Proof.
  intros Ho. assert (deadline_after o start pings = Some (List.last pings start + noClientPingTimeout o)) as ->.
  { unfold deadline_after, initial_deadline, ping_handler. rewrite (proj2 (Z.ltb_lt _ _) Ho). clear.
    revert start. induction pings as [|p ps IH]; intros start; [done|]. cbn [foldl]. rewrite IH. destruct ps; [done|].
    by rewrite (last_default p start). }
  split; [intros (d & [= <-] & Hd); lia|intros Ht; eexists; split; [done|lia]].
Qed.

Lemma no_timeout_no_deadline o start pings : noClientPingTimeout o <= 0 -> deadline_after o start pings = None.
Proof.
  intros Ho. unfold deadline_after, initial_deadline, ping_handler. rewrite (proj2 (Z.ltb_ge _ _) Ho).
  induction pings as [|p ps IH]; [done|]. exact IH.
Qed.

(** On the text of the error. *)
Definition IsClientClose (err : string) : bool := Contains err "websocket: close" || Contains err "closed by the remote host".

End Ws.
