(* ===== verification/Where.v ===== *)
(** * Conditions for gorm and the generic store (pkg/store)

    where/where.go: the options of a query, their setters in both styles, the
    tenant, and their application to a database; store.go: the operations of
    the generic store.  gorm is a variable: a database is the list of what was
    applied to it, and answers the final call.  Theorems: pages of a size share
    the rows out; the two ways to set a page agree on valid ones; what the
    operations hide and report; where they panic. *)

From S2P Require Import Prelude GoStr.
From Stdlib Require String.

Module Where.
Section Where.

(** Values of type any, of which some can be keys of a map; expressions, and
    gorm's [BuildCondition]. *)
Context {Any : Type} `{Countable Any} {Expr : Type}.
Variable hashable : Any -> bool.
Variable BuildCondition : Any -> list Any -> list Expr.
Variable AnyString : string -> Any.

Definition defaultLimit : Z := -1.

Record Query : Type := mkQuery { query : Any; args : list Any }.
(** A nil map of filters is [None]. *)
Record Options : Type := mkOptions { Offset : Z; Limit : Z; Filters : option (gmap Any Any); Clauses : list Expr; Queries : list Query }.

Definition set_offset (n : Z) (w : Options) : Options := mkOptions n (Limit w) (Filters w) (Clauses w) (Queries w).
Definition set_limit (n : Z) (w : Options) : Options := mkOptions (Offset w) n (Filters w) (Clauses w) (Queries w).
Definition set_filters (m : option (gmap Any Any)) (w : Options) : Options := mkOptions (Offset w) (Limit w) m (Clauses w) (Queries w).
Definition add_clauses (l : list Expr) (w : Options) : Options := mkOptions (Offset w) (Limit w) (Filters w) (Clauses w ++ l) (Queries w).
Definition add_query (q : Query) (w : Options) : Options := mkOptions (Offset w) (Limit w) (Filters w) (Clauses w) (Queries w ++ [q]).

(** ** Options of NewWhere *)

Definition WithOffset (offset : Z) (w : Options) : Options := set_offset (if offset <? 0 then 0 else offset) w.
Definition WithLimit (limit : Z) (w : Options) : Options := set_limit (if limit <=? 0 then defaultLimit else limit) w.
Definition WithPage (page pageSize : Z) (w : Options) : Options :=
  let page := if page =? 0 then 1 else page in
  let pageSize := if pageSize =? 0 then defaultLimit else pageSize in
  set_limit pageSize (set_offset (wrap64 (wrap64 (page - 1) * pageSize)) w).
Definition WithFilter (m : option (gmap Any Any)) (w : Options) : Options := set_filters m w.
Definition WithClauses (conds : list Expr) (w : Options) : Options := add_clauses conds w.
Definition WithQuery (q : Any) (l : list Any) (w : Options) : Options := add_query (mkQuery q l) w.
Definition NewWhere (opts : list (Options -> Options)) : Options :=
  foldl (fun w opt => opt w) (mkOptions 0 defaultLimit (Some ∅) [] []) opts.

(** ** Methods *)

Definition O_ (offset : Z) (w : Options) : Options := set_offset (if offset <? 0 then 0 else offset) w.
Definition L_ (limit : Z) (w : Options) : Options := set_limit (if limit <=? 0 then defaultLimit else limit) w.
Definition P_ (page pageSize : Z) (w : Options) : Options :=
  let page := if page <? 1 then 1 else page in
  let pageSize := if pageSize <=? 0 then defaultLimit else pageSize in
  set_limit pageSize (set_offset (wrap64 (wrap64 (page - 1) * pageSize)) w).
Definition C_ (conds : list Expr) (w : Options) : Options := add_clauses conds w.
Definition Q_ (q : Any) (l : list Any) (w : Options) : Options := add_query (mkQuery q l) w.

(** [whr.Filters[key] = value]: a nil map or a key that cannot be hashed is a
    panic. *)
Definition set_filter (k v : Any) (w : Options) : result unit Options :=
  match Filters w with
  | None => Panic
  | Some m => if hashable k then Ok (set_filters (Some (<[k := v]> m)) w) else Panic
  end.
Fixpoint set_pairs (kvs : list Any) (w : Options) : result unit Options :=
  match kvs with
  | k :: v :: kvs' => w ← set_filter k v w; set_pairs kvs' w
  | _ => Ok w
  end.
(** An odd number of arguments changes nothing. *)
Definition F_ (kvs : list Any) (w : Options) : result unit Options :=
  if bool_decide ((length kvs `mod` 2)%nat <> 0%nat) then Ok w else set_pairs kvs w.

(** The registered tenant: its key, and its value for the context of the
    call, unless the function is nil. *)
Record Tenant : Type := mkTenant { Key : string; Value : option string }.
Definition no_tenant : Tenant := mkTenant "" None.
Definition RegisterTenant (key : string) (value : option string) : Tenant := mkTenant key value.

Definition T_ (t : Tenant) (w : Options) : result unit Options :=
  if bool_decide (Key t = "") then Ok w
  else match Value t with None => Ok w | Some v => F_ [AnyString (Key t); AnyString v] w end.

(** The functions of the same names, on new options.  [T] calls the function
    of the tenant without looking. *)
Definition O (offset : Z) : Options := O_ offset (NewWhere []).
Definition L (limit : Z) : Options := L_ limit (NewWhere []).
Definition P (page pageSize : Z) : Options := P_ page pageSize (NewWhere []).
Definition C (conds : list Expr) : Options := C_ conds (NewWhere []).
Definition F (kvs : list Any) : result unit Options := F_ kvs (NewWhere []).
Definition T (t : Tenant) : result unit Options :=
  match Value t with None => Panic | Some v => F_ [AnyString (Key t); AnyString v] (NewWhere []) end.

(** ** Application *)

(** What is applied to a [*gorm.DB]. *)
Record applied : Type := mkApplied { a_filters : option (gmap Any Any); a_clauses : list Expr; a_offset : Z; a_limit : Z }.
Definition DB : Type := list applied.

(** The conditions of the queries are appended to the options themselves. *)
Definition Where (w : Options) (db : DB) : Options * DB :=
  let w := foldl (fun w q => add_clauses (BuildCondition (query q) (args q)) w) w (Queries w) in
  (w, db ++ [mkApplied (Filters w) (Clauses w) (Offset w) (Limit w)]).

(** ** The generic store *)

(** An argument of interface type where.Where: nil, or a pointer, which may be
    nil itself. *)
Definition where_arg : Type := option (option Options).
(** [s.db]: the options are applied in order; they are changed. *)
Fixpoint db (base : DB) (wheres : list where_arg) : result unit (list where_arg * DB) :=
  match wheres with
  | [] => Ok ([], base)
  | None :: ws => '(ws', d) ← db base ws; Ok (None :: ws', d)
  | Some None :: _ => Panic
  | Some (Some w) :: ws => let '(w', d) := Where w base in '(ws', d') ← db d ws; Ok (Some (Some w') :: ws', d')
  end.

Inductive gorm_error : Type := ErrRecordNotFound | ErrOther (e : string).

Section Store.
Context {Obj : Type}.

(** The final calls of gorm. *)
Variable Create_ : DB -> Obj -> option gorm_error.
Variable Save_ : DB -> Obj -> option gorm_error.
Variable Delete_ : DB -> option gorm_error.
Variable First_ : DB -> Obj + gorm_error.
Variable Find_ : DB -> (Z * list Obj * option gorm_error).
(** What [storage.DB(ctx)] gives. *)
Variable base : DB.

(** The error that is returned, and whether it is logged. *)
Definition reported : Type := option gorm_error * bool.
Definition report (e : option gorm_error) : reported := (e, match e with Some _ => true | None => false end).

Definition Create (obj : Obj) : result unit reported := '(_, d) ← db base []; Ok (report (Create_ d obj)).
Definition Update (obj : Obj) : result unit reported := '(_, d) ← db base []; Ok (report (Save_ d obj)).
(** A record that is not there is not an error. *)
Definition Delete (opts : option Options) : result unit reported :=
  '(_, d) ← db base [Some opts];
  Ok (match Delete_ d with
      | Some (ErrOther e) => (Some (ErrOther e), true)
      | Some ErrRecordNotFound | None => (None, false)
      end).
Definition Get (opts : option Options) : result unit (option Obj * reported) :=
  '(_, d) ← db base [Some opts];
  Ok (match First_ d with inl o => (Some o, (None, false)) | inr e => (None, (Some e, true)) end).
Definition List (opts : option Options) : result unit (Z * list Obj * reported) :=
  '(_, d) ← db base [Some opts];
  let '(n, l, e) := Find_ d in Ok (n, l, report e).
End Store.

(** ** Pages *)

(** The two styles agree on pages that exist. *)
Lemma WithPage_P page size w : 1 <= page -> 1 <= size -> WithPage page size w = P_ page size w.
Proof.
  intros Hp Hs. unfold WithPage, P_.
  by rewrite (proj2 (Z.eqb_neq page 0)), (proj2 (Z.eqb_neq size 0)), (proj2 (Z.ltb_ge page 1)), (proj2 (Z.leb_gt size 0)) by lia.
Qed.

(** Every row belongs to exactly one page of a size. *)
Definition on_page (w : Options) (i : Z) : Prop := Offset w <= i < Offset w + Limit w.
Lemma pages_share_rows size i : 1 <= size -> 0 <= i < 2 ^ 62 -> size < 2 ^ 62 ->
  forall page, 1 <= page -> in_int64 ((page - 1) * size) -> in_int64 page ->
  on_page (P page size) i <-> page = i / size + 1.
Proof.
  intros Hs Hi Hs2 page Hp Ho Hpg. unfold on_page, P, P_. rewrite (proj2 (Z.ltb_ge page 1)), (proj2 (Z.leb_gt size 0)) by lia. cbn.
  assert (in_int64 (page - 1)) by (unfold in_int64, int64_min, int64_max in *; lia). rewrite !wrap64_id by (rewrite ?wrap64_id; done).
  pose proof (Z.div_mod i size ltac:(lia)). pose proof (Z.mod_pos_bound i size ltac:(lia)). split; intros; [|subst]; nia.
Qed.

(** But negative pages and sizes pass WithPage. *)
Lemma WithPage_negative : Offset (WithPage (-1) 10 (NewWhere [])) = -20 /\ Offset (P (-1) 10) = 0 /\
  Limit (WithPage 2 (-5) (NewWhere [])) = -5.
Proof. done. Qed.

(** The setters never leave a negative offset. *)
Lemma O_offset n w : 0 <= Offset (O_ n w).
Proof. unfold O_, set_offset. cbn. destruct (n <? 0) eqn:E; lia. Qed.

(** ** Filters *)

Definition pairs (l : list (Any * Any)) : list Any := concat (map (fun kv => [kv.1; kv.2]) l).
Definition written (l : list (Any * Any)) (m : gmap Any Any) : gmap Any Any := foldl (fun m kv => <[kv.1 := kv.2]> m) m l.

Lemma length_pairs l : (length (pairs l) `mod` 2)%nat = 0%nat.
Proof.
  unfold pairs. induction l as [|[k v] l IH]; [done|]. cbn [map concat app length fst snd].
  replace (S (S _)) with (length (concat (map (fun kv : Any * Any => [kv.1; kv.2]) l)) + 1 * 2)%nat by lia. by rewrite Nat.Div0.mod_add.
Qed.

(** Pairs are written in order: the last value of a key stays. *)
Lemma F_pairs l : forall w m, Filters w = Some m -> Forall (fun kv => hashable kv.1 = true) l ->
  F_ (pairs l) w = Ok (set_filters (Some (written l m)) w).
Proof.
  intros w m Hm Hl. unfold F_. rewrite bool_decide_eq_false_2 by (rewrite length_pairs; tauto). revert w m Hm Hl.
  induction l as [|[k v] l IH]; intros w m Hm Hl; cbn.
  - destruct w. cbn in *. by subst.
  - apply Forall_cons in Hl as [Hk Hl]. unfold set_filter. cbn in Hk. rewrite Hm, Hk. cbn.
    by rewrite (IH (set_filters (Some (<[k:=v]> m)) w) (<[k:=v]> m) eq_refl Hl).
Qed.

Lemma F_odd kvs w : (length kvs `mod` 2)%nat = 1%nat -> F_ kvs w = Ok w.
Proof. intros Hk. unfold F_. by rewrite Hk. Qed.

(** A nil map given to WithFilter makes F panic. *)
Lemma nil_filter_panics k v : F_ [k; v] (WithFilter None (NewWhere [])) = Panic.
Proof. done. Qed.

(** Without a tenant the method does nothing, and the function panics. *)
Lemma no_tenant_panics : T no_tenant = Panic /\ forall w, T_ no_tenant w = Ok w.
Proof. done. Qed.

(** ** Applying *)

Definition conditions (l : list Query) : list Expr := concat (map (fun q => BuildCondition (query q) (args q)) l).
Lemma add_conditions l : forall w,
  foldl (fun w q => add_clauses (BuildCondition (query q) (args q)) w) w l = add_clauses (conditions l) w.
Proof.
  induction l as [|q l IH]; intros w; cbn.
  - unfold add_clauses. rewrite app_nil_r. by destruct w.
  - rewrite IH. unfold add_clauses. cbn. by rewrite <- app_assoc.
Qed.

Lemma Where_spec w d : Where w d = (add_clauses (conditions (Queries w)) w,
  d ++ [mkApplied (Filters w) (Clauses w ++ conditions (Queries w)) (Offset w) (Limit w)]).
Proof. unfold Where. by rewrite add_conditions. Qed.

(** The same options applied again apply the conditions of their queries
    again. *)
Lemma Where_twice w d : let '(w', d') := Where w d in
  snd (Where w' d') = d' ++ [mkApplied (Filters w) (Clauses w ++ conditions (Queries w) ++ conditions (Queries w)) (Offset w) (Limit w)].
Proof. rewrite Where_spec. rewrite Where_spec. cbn. by rewrite !app_assoc. Qed.

Section StoreFacts.
Context {Obj : Type} (Delete_ : DB -> option gorm_error) (First_ : DB -> Obj + gorm_error).

(** What the operations of the store return for options that are there. *)
Lemma Delete_spec base w : let d := snd (Where w base) in
  Delete Delete_ base (Some w) = Ok (match Delete_ d with Some (ErrOther e) => (Some (ErrOther e), true) | _ => (None, false) end).
Proof. cbn. unfold Delete. cbn. destruct (Where w base) as [w' d']. cbn. by destruct (Delete_ d') as [[]|]. Qed.

(** Options that are nil are not nil as an interface: a panic. *)
Lemma nil_options_panic base : Delete Delete_ base None = Panic /\ Get First_ base None = Panic.
Proof. done. Qed.
End StoreFacts.
End Where.
End Where.
