(* ===== verification/TextTemplate.v ===== *)
(** * Templates of Go (text/template)

    The part of the standard package that the generators use: texts with trim
    marks, values of fields, variables and methods, [if] with [else], [range],
    and the function [eq].  An action outside of this part does not parse here.

    Theorems: a text without actions renders as itself; a template that checks
    against a type renders every value of the type. *)

From S2P Require Import Prelude GoStr.
From Stdlib Require Import Ascii.

Module TextTemplate.

(** ** Values *)

(** Data as reflection shows it: fields and methods without arguments under
    their names, and methods of an index. *)
Inductive value : Type :=
  | VNil | VBool (b : bool) | VInt (z : Z) | VStr (s : string) | VList (l : list value)
  | VStruct (fields : list (string * value)) | VMethod (f : Z -> option value).

Definition truth (v : value) : option bool :=
  match v with
  | VNil => Some false
  | VBool b => Some b
  | VInt z => Some (negb (z =? 0))
  | VStr s => Some (negb (bool_decide (s = "")))
  | VList l => Some (match l with [] => false | _ => true end)
  | VStruct _ => Some true
  | VMethod _ => None
  end.
(** What an action prints; data of other kinds is not printed. *)
Definition print (v : value) : option string :=
  match v with
  | VBool b => Some (if b then "true" else "false")
  | VInt z => Some (Itoa z)
  | VStr s => Some s
  | _ => None
  end.

(** ** Parsed templates *)

(** An operand: fields below the dot or a variable, and constants. *)
Inductive operand : Type :=
  | OPath (var : option string) (path : list string) | OInt (z : Z) | OStr (s : string) | OBool (b : bool).
Inductive command : Type := CValue (o : operand) (args : list operand) | CEq (args : list operand).
Inductive node : Type :=
  | NText (s : string)
  | NAction (c : command)
  | NIf (c : command) (l1 l2 : list node)
  | NRange (vars : list string) (c : command) (l1 l2 : list node).

Section NodeInd.
Variable P : node -> Prop.
Hypothesis Htext : forall s, P (NText s).
Hypothesis Haction : forall c, P (NAction c).
Hypothesis Hif : forall c l1 l2, Forall P l1 -> Forall P l2 -> P (NIf c l1 l2).
Hypothesis Hrange : forall vars c l1 l2, Forall P l1 -> Forall P l2 -> P (NRange vars c l1 l2).
Fixpoint node_ind' (n : node) : P n :=
  let all := fix all (l : list node) : Forall P l :=
    match l with [] => Forall_nil_2 P | n :: l => Forall_cons_2 P n l (node_ind' n) (all l) end in
  match n with
  | NText s => Htext s
  | NAction c => Haction c
  | NIf c l1 l2 => Hif c l1 l2 (all l1) (all l2)
  | NRange vars c l1 l2 => Hrange vars c l1 l2 (all l1) (all l2)
  end.
End NodeInd.

(** ** Lexing *)

Inductive token : Type := TText (s : string) | TAction (words : list string).

Definition is_blank (c : ascii) : bool :=
  bool_decide (c = " "%char) || bool_decide (c = newline) || bool_decide (c = ascii_of_nat 9) || bool_decide (c = ascii_of_nat 13).

(** The words of an action: a string keeps its first quote, a comma is a word
    of its own. *)
Definition flush (cur : string) (l : list string) : list string := if bool_decide (cur = "") then l else cur :: l.
Fixpoint lex_words (quote : bool) (cur s : string) : option (list string) :=
  match s with
  | EmptyString => if quote then None else Some (flush cur [])
  | String c s =>
      if quote then
        (if bool_decide (c = dquote) then cons cur <$> lex_words false "" s else lex_words true (cur +:+ single c) s)
      else if bool_decide (c = dquote) then flush cur <$> lex_words true (single dquote) s
      else if is_blank c then flush cur <$> lex_words false "" s
      else if bool_decide (c = ","%char) then (fun l => flush cur ("," :: l)) <$> lex_words false "" s
      else lex_words false (cur +:+ single c) s
  end.

(** A text between two actions, trimmed on the sides that have a mark. *)
Definition trimmed (left right : bool) (s : string) : string :=
  let s := if left then trim_left_by is_blank s else s in
  if right then trim_right_by is_blank s else s.
Definition text_token (s : string) : list token := if bool_decide (s = "") then [] else [TText s].
Definition left_mark (action : string) : bool :=
  match action with String "-" (String c _) => is_blank c | _ => false end.

Definition right_mark (action : string) : bool :=
  existsb (fun c => HasSuffix action (single c +:+ "-")) [" "%char; newline; ascii_of_nat 9; ascii_of_nat 13].

(** The text after a pair of braces: an action to the next pair and a text. *)
Definition split_action (piece : string) : option (bool * string * bool * string) :=
  i ← Index piece "}}";
  let action := str_take i piece in
  let left := left_mark action in
  let action := if left then str_drop 2 action else action in
  let right := right_mark action in
  Some (left, if right then str_take (str_len action - 2) action else action, right, str_drop (i + 2) piece).

(** The tokens after a text and its trim mark on the left. *)
Fixpoint lex_pieces (left : bool) (before : string) (pieces : list string) : option (list token) :=
  match pieces with
  | [] => Some (text_token (trimmed left false before))
  | piece :: pieces =>
      '(l, action, r, after) ← split_action piece;
      words ← lex_words false "" action;
      tokens ← lex_pieces r after pieces;
      Some (text_token (trimmed left l before) ++ TAction words :: tokens)
  end.
Definition lex (s : string) : option (list token) :=
  match SplitStr s "{{" with before :: pieces => lex_pieces false before pieces | [] => None end.

(** ** Parsing *)

Definition is_name_char (c : ascii) : bool := is_alpha c || is_digit c || bool_decide (c = "_"%char).
Definition is_name (s : string) : bool := negb (bool_decide (s = "")) && forall_chars is_name_char s.

Definition parse_operand (w : string) : option operand :=
  match w with
  | String c s =>
      if bool_decide (c = dquote) then Some (OStr s)
      else if bool_decide (w = ".") then Some (OPath None [])
      else if bool_decide (w = "true") then Some (OBool true)
      else if bool_decide (w = "false") then Some (OBool false)
      else if bool_decide (c = "."%char) then
        let path := Split s "."%char in if forallb is_name path then Some (OPath None path) else None
      else if bool_decide (c = "$"%char) then
        match Split s "."%char with
        | var :: path => if (bool_decide (var = "") || is_name var) && forallb is_name path then Some (OPath (Some var) path) else None
        | [] => None
        end
      else OInt <$> Atoi w
  | EmptyString => None
  end.
Definition parse_command (words : list string) : option command :=
  match words with
  | "eq" :: words => CEq <$> mapM parse_operand words
  | w :: words => o ← parse_operand w; args ← mapM parse_operand words; Some (CValue o args)
  | [] => None
  end.
Definition parse_var (w : string) : option string :=
  match w with String "$" s => if is_name s then Some s else None | _ => None end.
(** The variables of a range and what it runs over. *)
Definition parse_range (words : list string) : option (list string * command) :=
  match words with
  | i :: "," :: v :: ":=" :: words => i ← parse_var i; v ← parse_var v; c ← parse_command words; Some ([i; v], c)
  | v :: ":=" :: words => v ← parse_var v; c ← parse_command words; Some ([v], c)
  | _ => c ← parse_command words; Some ([], c)
  end.

(** How a list of nodes ends: at the end of the template, at [end], or at
    [else] with the words after it. *)
Inductive stop : Type := SEof | SEnd | SElse (words : list string).

Fixpoint parse_list (fuel : nat) (tokens : list token) : option (list node * stop * list token) :=
  match fuel with
  | O => None
  | S fuel =>
      match tokens with
      | [] => Some ([], SEof, [])
      | TText s :: tokens => '(l, e, rest) ← parse_list fuel tokens; Some (NText s :: l, e, rest)
      | TAction ["end"] :: tokens => Some ([], SEnd, tokens)
      | TAction ("else" :: words) :: tokens => Some ([], SElse words, tokens)
      | TAction ("if" :: words) :: tokens =>
          '(n, tokens) ← parse_if fuel words tokens; '(l, e, rest) ← parse_list fuel tokens; Some (n :: l, e, rest)
      | TAction ("range" :: words) :: tokens =>
          '(vars, c) ← parse_range words; '(l1, l2, tokens) ← parse_bodies fuel false tokens;
          '(l, e, rest) ← parse_list fuel tokens; Some (NRange vars c l1 l2 :: l, e, rest)
      | TAction words :: tokens =>
          c ← parse_command words; '(l, e, rest) ← parse_list fuel tokens; Some (NAction c :: l, e, rest)
      end
  end
(** Two lists up to the [end], the second one after an [else]; only an [if]
    goes on with another one. *)
with parse_bodies (fuel : nat) (is_if : bool) (tokens : list token) : option (list node * list node * list token) :=
  match fuel with
  | O => None
  | S fuel =>
      '(l1, e, tokens) ← parse_list fuel tokens;
      match e with
      | SEnd => Some (l1, [], tokens)
      | SElse [] => '(l2, e, tokens) ← parse_list fuel tokens; match e with SEnd => Some (l1, l2, tokens) | _ => None end
      | SElse ("if" :: words) =>
          if is_if then ('(n, tokens) ← parse_if fuel words tokens; Some (l1, [n], tokens)) else None
      | _ => None
      end
  end
with parse_if (fuel : nat) (words : list string) (tokens : list token) : option (node * list token) :=
  match fuel with
  | O => None
  | S fuel => c ← parse_command words; '(l1, l2, tokens) ← parse_bodies fuel true tokens; Some (NIf c l1 l2, tokens)
  end.

(** Three calls for each token are enough. *)
Definition Parse (s : string) : option (list node) :=
  tokens ← lex s;
  '(l, e, _) ← parse_list (3 * length tokens + 1) tokens;
  match e with SEof => Some l | _ => None end.

(** ** Execution *)

Definition env : Type := list (string * value).

Fixpoint field_path (v : value) (path : list string) : option value :=
  match path with
  | [] => Some v
  | f :: path => match v with VStruct fields => v ← assoc fields f; field_path v path | _ => None end
  end.
Definition eval_operand (vars : env) (dot : value) (o : operand) : option value :=
  match o with
  | OPath None path => field_path dot path
  | OPath (Some v) path => v ← assoc vars v; field_path v path
  | OInt z => Some (VInt z)
  | OStr s => Some (VStr s)
  | OBool b => Some (VBool b)
  end.

(** [eq]: the first value is one of the others; kinds are not mixed. *)
Definition eq_value (a b : value) : option bool :=
  match a, b with
  | VBool a, VBool b => Some (Bool.eqb a b)
  | VInt a, VInt b => Some (a =? b)
  | VStr a, VStr b => Some (bool_decide (a = b))
  | _, _ => None
  end.
Fixpoint eq_any (a : value) (l : list value) : option bool :=
  match l with
  | [] => Some false
  | b :: l => r ← eq_value a b; if (r : bool) then Some true else eq_any a l
  end.
Definition eval_command (vars : env) (dot : value) (c : command) : option value :=
  match c with
  | CValue o [] => v ← eval_operand vars dot o; match v with VMethod _ => None | _ => Some v end
  | CValue o [arg] =>
      v ← eval_operand vars dot o; i ← eval_operand vars dot arg;
      match v, i with VMethod f, VInt i => f i | _, _ => None end
  | CValue _ _ => None
  | CEq args =>
      l ← mapM (eval_operand vars dot) args;
      match l with a :: (_ :: _) as l => VBool <$> eq_any a l | _ => None end
  end.

(** The variables of a range at an element. *)
Definition bind_vars (vars : list string) (i : Z) (v : value) (e : env) : env :=
  match vars with
  | [a; b] => (a, VInt i) :: (b, v) :: e
  | [b] => (b, v) :: e
  | _ => e
  end.

Fixpoint exec (vars : env) (dot : value) (n : node) {struct n} : option string :=
  let execs := fix execs (vars : env) (dot : value) (l : list node) : option string :=
    match l with [] => Some "" | n :: l => s ← exec vars dot n; t ← execs vars dot l; Some (s +:+ t) end in
  match n with
  | NText s => Some s
  | NAction c => v ← eval_command vars dot c; print v
  | NIf c l1 l2 => v ← eval_command vars dot c; b ← truth v; if (b : bool) then execs vars dot l1 else execs vars dot l2
  | NRange names c l1 l2 =>
      v ← eval_command vars dot c;
      match v with
      | VList [] => execs vars dot l2
      | VList l =>
          (fix elements (i : Z) (l : list value) : option string :=
             match l with
             | [] => Some ""
             | v :: l => s ← execs (bind_vars names i v vars) v l1; t ← elements (i + 1) l; Some (s +:+ t)
             end) 0 l
      | _ => None
      end
  end.
Fixpoint execs (vars : env) (dot : value) (l : list node) : option string :=
  match l with [] => Some "" | n :: l => s ← exec vars dot n; t ← execs vars dot l; Some (s +:+ t) end.
Definition exec_elements (names : list string) (vars : env) (body : list node) : Z -> list value -> option string :=
  fix elements i l :=
    match l with
    | [] => Some ""
    | v :: l => s ← execs (bind_vars names i v vars) v body; t ← elements (i + 1) l; Some (s +:+ t)
    end.

(** The dollar is the data. *)
Definition run (l : list node) (data : value) : option string := execs [("", data)] data l.
Definition Execute (s : string) (data : value) : option string := l ← Parse s; run l data.

(** A raw string of Go, in parts around its double quotes. *)
Definition text (parts : list string) : string := Join parts (single dquote).

(** ** Types of data *)

Inductive ty : Type :=
  | TyBool | TyInt | TyStr | TyList (t : ty) | TyStruct (fields : list (string * ty)) | TyMethod (t : ty).

Fixpoint conforms (t : ty) (v : value) {struct t} : Prop :=
  match t with
  | TyBool => exists b, v = VBool b
  | TyInt => exists z, v = VInt z
  | TyStr => exists s, v = VStr s
  | TyList t => exists l, v = VList l /\ Forall (conforms t) l
  | TyStruct fields => exists vs, v = VStruct vs /\
      (fix all (fields : list (string * ty)) : Prop :=
         match fields with
         | [] => True
         | (k, t) :: fields => match assoc vs k with Some w => conforms t w | None => False end /\ all fields
         end) fields
  | TyMethod t => exists f, v = VMethod f /\ forall i, match f i with Some w => conforms t w | None => False end
  end.

Definition tenv : Type := list (string * ty).
Definition env_conforms (G : tenv) (e : env) : Prop :=
  forall x t, assoc G x = Some t -> exists v, assoc e x = Some v /\ conforms t v.

Fixpoint field_type (t : ty) (path : list string) : option ty :=
  match path with
  | [] => Some t
  | f :: path => match t with TyStruct fields => t ← assoc fields f; field_type t path | _ => None end
  end.
Definition operand_type (G : tenv) (dot : ty) (o : operand) : option ty :=
  match o with
  | OPath None path => field_type dot path
  | OPath (Some x) path => t ← assoc G x; field_type t path
  | OInt _ => Some TyInt
  | OStr _ => Some TyStr
  | OBool _ => Some TyBool
  end.
(** The kinds that are printed and compared. *)
Definition is_basic (t : ty) : bool := match t with TyBool | TyInt | TyStr => true | _ => false end.
Definition same_basic (a b : ty) : bool :=
  match a, b with TyBool, TyBool | TyInt, TyInt | TyStr, TyStr => true | _, _ => false end.
Definition command_type (G : tenv) (dot : ty) (c : command) : option ty :=
  match c with
  | CValue o [] => t ← operand_type G dot o; match t with TyMethod _ => None | _ => Some t end
  | CValue o [arg] =>
      t ← operand_type G dot o; i ← operand_type G dot arg;
      match t, i with TyMethod t, TyInt => Some t | _, _ => None end
  | CValue _ _ => None
  | CEq args =>
      l ← mapM (operand_type G dot) args;
      match l with a :: (_ :: _) as l => if forallb (same_basic a) l then Some TyBool else None | _ => None end
  end.
Definition bind_types (vars : list string) (t : ty) (G : tenv) : tenv :=
  match vars with
  | [a; b] => (a, TyInt) :: (b, t) :: G
  | [b] => (b, t) :: G
  | _ => G
  end.

Fixpoint check (G : tenv) (dot : ty) (n : node) {struct n} : bool :=
  let checks := fix checks (G : tenv) (dot : ty) (l : list node) : bool :=
    match l with [] => true | n :: l => check G dot n && checks G dot l end in
  match n with
  | NText _ => true
  | NAction c => match command_type G dot c with Some t => is_basic t | None => false end
  | NIf c l1 l2 =>
      match command_type G dot c with Some (TyMethod _) | None => false | Some _ => checks G dot l1 && checks G dot l2 end
  | NRange names c l1 l2 =>
      match command_type G dot c with
      | Some (TyList t) => checks (bind_types names t G) t l1 && checks G dot l2
      | _ => false
      end
  end.
Fixpoint checks (G : tenv) (dot : ty) (l : list node) : bool :=
  match l with [] => true | n :: l => check G dot n && checks G dot l end.

(** A text that parses to a template for data of the type. *)
Definition Checks (s : string) (t : ty) : bool :=
  match Parse s with Some l => checks [("", t)] t l | None => false end.

(** * Proofs *)

Definition Concat (l : list string) : string := foldr String.append "" l.

Lemma exec_if vars dot c l1 l2 : exec vars dot (NIf c l1 l2) =
  (v ← eval_command vars dot c; b ← truth v; if (b : bool) then execs vars dot l1 else execs vars dot l2).
Proof. done. Qed.
Lemma exec_range vars dot names c l1 l2 : exec vars dot (NRange names c l1 l2) =
  (v ← eval_command vars dot c;
   match v with VList [] => execs vars dot l2 | VList l => exec_elements names vars l1 0 l | _ => None end).
Proof. done. Qed.
Lemma check_if G dot c l1 l2 : check G dot (NIf c l1 l2) =
  match command_type G dot c with Some (TyMethod _) | None => false | Some _ => checks G dot l1 && checks G dot l2 end.
Proof. done. Qed.
Lemma check_range G dot names c l1 l2 : check G dot (NRange names c l1 l2) =
  match command_type G dot c with Some (TyList t) => checks (bind_types names t G) t l1 && checks G dot l2 | _ => false end.
Proof. done. Qed.

Lemma execs_app vars dot l1 l2 :
  execs vars dot (l1 ++ l2) = (s ← execs vars dot l1; t ← execs vars dot l2; Some (s +:+ t)).
Proof.
  induction l1 as [|n l1 IH]; cbn; [by destruct (execs vars dot l2)|]. destruct (exec vars dot n); [cbn|done].
  rewrite IH. destruct (execs vars dot l1); [cbn|done]. destruct (execs vars dot l2); [cbn|done]. by rewrite app_assoc_s.
Qed.

(** ** What a template renders *)

(** The elements of a list, one after the other. *)
Lemma exec_elements_map {A} (val : A -> value) names vars body (line : nat -> A -> string) l :
  (forall k a, a ∈ l -> execs (bind_vars names (Z.of_nat k) (val a) vars) (val a) body = Some (line k a)) ->
  exec_elements names vars body 0 (map val l) = Some (Concat (imap line l)).
Proof.
  intros Hl. cut (forall n, exec_elements names vars body (Z.of_nat n) (map val l) = Some (Concat (imap (fun k => line (n + k)%nat) l))).
  { intros Hcut. exact (Hcut O). }
  induction l as [|a l IH]; intros n; [done|]. cbn [map].
  unfold exec_elements. fold (exec_elements names vars body). rewrite Hl by left. cbn [mbind option_bind].
  replace (Z.of_nat n + 1) with (Z.of_nat (S n)) by lia. rewrite IH by (intros; apply Hl; by right). cbn. rewrite Nat.add_0_r.
  do 3 f_equal. apply imap_ext. intros k b _. cbn. f_equal. lia.
Qed.
Lemma exec_map {A} (val : A -> value) names vars dot c body (line : nat -> A -> string) l :
  eval_command vars dot c = Some (VList (map val l)) ->
  (forall k a, execs (bind_vars names (Z.of_nat k) (val a) vars) (val a) body = Some (line k a)) ->
  exec vars dot (NRange names c body []) = Some (Concat (imap line l)).
Proof.
  intros Hc Hl. rewrite exec_range, Hc. cbn [mbind option_bind]. rewrite <- (exec_elements_map val names vars body line l) by auto.
  by destruct l.
Qed.
Lemma execs_cons vars dot n l s t : exec vars dot n = Some s -> execs vars dot l = Some t -> execs vars dot (n :: l) = Some (s +:+ t).
Proof. intros Hn Hl. cbn [execs]. rewrite Hn. cbn [mbind option_bind]. by rewrite Hl. Qed.
Lemma exec_cond vars dot c l1 l2 v b s1 s2 : eval_command vars dot c = Some v -> truth v = Some b ->
  execs vars dot l1 = Some s1 -> execs vars dot l2 = Some s2 ->
  exec vars dot (NIf c l1 l2) = Some (if b then s1 else s2).
Proof. intros Hc Hb H1 H2. rewrite exec_if, Hc. cbn [mbind option_bind]. rewrite Hb. cbn [mbind option_bind]. by destruct b. Qed.
(** A comparison with one value or more. *)
Fixpoint any (l : list bool) : bool := match l with [] => false | [b] => b | b :: l => b || any l end.
Lemma eval_eq vars dot a b os va vb vs rs : eval_operand vars dot a = Some va -> Forall2 (fun o v => eval_operand vars dot o = Some v) (b :: os) (vb :: vs) ->
  Forall2 (fun v r => eq_value va v = Some r) (vb :: vs) rs -> eval_command vars dot (CEq (a :: b :: os)) = Some (VBool (any rs)).
Proof.
  intros Ha Hos Hrs. assert (mapM (eval_operand vars dot) (a :: b :: os) = Some (va :: vb :: vs)) as Hm by (apply mapM_Some; by constructor).
  cbn [eval_command]. rewrite Hm. cbn [mbind option_bind]. assert (eq_any va (vb :: vs) = Some (any rs)) as ->; [|done].
  clear - Hrs. revert Hrs. generalize (vb :: vs). intros l Hl. induction Hl as [|v r l rs Hr Hl IH]; [done|]. cbn [eq_any]. rewrite Hr.
  cbn [mbind option_bind]. rewrite IH. destruct Hl; by destruct r.
Qed.
Lemma Some_app s s' t t' : s = s' -> Some t = Some t' -> Some (s +:+ t) = Some (s' +:+ t').
Proof. intros -> Ht. by injection Ht as ->. Qed.

(** ** Checked templates run *)

Lemma conforms_field fields f t v :
  conforms (TyStruct fields) v -> assoc fields f = Some t -> exists vs w, v = VStruct vs /\ assoc vs f = Some w /\ conforms t w.
Proof.
  intros (vs & -> & Hall). induction fields as [|[k u] fields IH]; [done|]. cbn. destruct Hall as [Hk Hall]. case_bool_decide; [|by auto].
  intros [= <-]. subst k. destruct (assoc vs f) as [w|] eqn:E; [|done]. by exists vs, w.
Qed.

Lemma field_path_ok path : forall t t' v, conforms t v -> field_type t path = Some t' -> exists w, field_path v path = Some w /\ conforms t' w.
Proof.
  induction path as [|f path IH]; cbn; intros t t' v Hc Ht; [by simplify_eq; exists v|]. destruct t as [| | | |fields|]; try done.
  destruct (assoc fields f) as [u|] eqn:Ef; [|done]. destruct (conforms_field _ _ _ _ Hc Ef) as (vs & w & -> & Hw & Hcw).
  rewrite Hw. cbn. by apply (IH u).
Qed.

Lemma operand_ok G e t dot o t' : env_conforms G e -> conforms t dot -> operand_type G t o = Some t' ->
  exists v, eval_operand e dot o = Some v /\ conforms t' v.
Proof.
  intros He Hd. destruct o as [[x|] path|z|s|b]; cbn; [|by apply field_path_ok|..]; try (intros [= <-]; cbn; eauto).
  destruct (assoc G x) as [u|] eqn:Ex; [|done]. destruct (He x u Ex) as (v & -> & Hv). cbn. by apply field_path_ok.
Qed.

Lemma operands_ok G e t dot os : forall ts, env_conforms G e -> conforms t dot -> mapM (operand_type G t) os = Some ts ->
  exists vs, mapM (eval_operand e dot) os = Some vs /\ Forall2 conforms ts vs.
Proof.
  intros ts He Hd. rewrite mapM_Some. intros Hts.
  assert (exists vs, Forall2 (fun o v => eval_operand e dot o = Some v) os vs /\ Forall2 conforms ts vs) as (vs & Hv & Hc).
  { induction Hts as [|o u os ts Ho _ (vs & Hv & Hc)]; [by exists []|].
    destruct (operand_ok _ _ _ _ _ _ He Hd Ho) as (v & Hov & Hcv). exists (v :: vs). by split; constructor. }
  exists vs. split; [by apply mapM_Some|done].
Qed.

Lemma eq_any_ok a va l vl : conforms a va -> Forall2 conforms l vl -> forallb (same_basic a) l = true -> is_Some (eq_any va vl).
Proof.
  intros Ha Hl. induction Hl as [|b vb l vl Hb _ IH]; cbn; [eauto|]. intros [Hsame Hrest]%andb_true_iff.
  assert (exists r, eq_value va vb = Some r) as [r ->]
    by (destruct a, b; try done; cbn in Ha, Hb; destruct Ha as [? ->], Hb as [? ->]; cbn; eauto).
  cbn. destruct r; [eauto|by apply IH].
Qed.

Lemma command_ok G e t dot c t' : env_conforms G e -> conforms t dot -> command_type G t c = Some t' ->
  exists v, eval_command e dot c = Some v /\ conforms t' v.
Proof.
  intros He Hd. destruct c as [o [|arg [|]]|args]; cbn [command_type eval_command]; [| |done|].
  - destruct (operand_type G t o) as [u|] eqn:Eo; [|done]. destruct (operand_ok _ _ _ _ _ _ He Hd Eo) as (v & -> & Hv). cbn.
    destruct u; intros [= <-]; cbn in Hv; decompose record Hv; subst; cbn; eauto.
  - destruct (operand_type G t o) as [u|] eqn:Eo; [|done]. destruct (operand_ok _ _ _ _ _ _ He Hd Eo) as (v & -> & Hv). cbn.
    destruct (operand_type G t arg) as [ua|] eqn:Ea; [|done]. destruct (operand_ok _ _ _ _ _ _ He Hd Ea) as (va & -> & Hva). cbn.
    destruct u; try done. destruct ua; intros [= <-]. cbn in Hv, Hva. destruct Hv as (f & -> & Hf), Hva as [z ->].
    specialize (Hf z). destruct (f z) as [w|]; [|done]. by exists w.
  - destruct (mapM (operand_type G t) args) as [ts|] eqn:Ets; [|done]. destruct (operands_ok _ _ _ _ _ _ He Hd Ets) as (vs & -> & Hvs). cbn.
    destruct Hvs as [|a va ts vs Ha Hvs]; [done|]. destruct Hvs as [|b vb ts vs Hb Hvs]; [done|].
    destruct (forallb (same_basic a) (b :: ts)) eqn:Eall; [|done]. intros [= <-].
    destruct (eq_any_ok a va (b :: ts) (vb :: vs) Ha ltac:(by constructor) Eall) as [r ->]. cbn. eauto.
Qed.

Lemma bind_conforms names t i v G e :
  env_conforms G e -> conforms t v -> env_conforms (bind_types names t G) (bind_vars names i v e).
Proof.
  intros He Hv. assert (forall (G : tenv) e x u w, env_conforms G e -> conforms u w -> env_conforms ((x, u) :: G) ((x, w) :: e)) as Hcons.
  { clear. intros G e x u w He Hw y u'. cbn. case_bool_decide; [|by apply He]. intros [= <-]. by exists w. }
  destruct names as [|a [|b [|]]]; cbn; auto. apply Hcons; [by apply Hcons|]. cbn. eauto.
Qed.

Lemma truth_ok t v : conforms t v -> match t with TyMethod _ => False | _ => True end -> is_Some (truth v).
Proof. destruct t; cbn; intros Hv Ht; try done; decompose record Hv; subst; cbn; eauto. Qed.

Definition runs (n : node) : Prop :=
  forall G t e dot, env_conforms G e -> conforms t dot -> check G t n = true -> is_Some (exec e dot n).
Lemma runs_all l : Forall runs l ->
  forall G t e dot, env_conforms G e -> conforms t dot -> checks G t l = true -> is_Some (execs e dot l).
Proof.
  intros Hl G t e dot He Hd. induction Hl as [|n l Hn _ IH]; cbn; [eauto|]. intros [Hc Hcs]%andb_true_iff.
  destruct (Hn _ _ _ _ He Hd Hc) as [s ->], (IH Hcs) as [u ->]. cbn. eauto.
Qed.
Lemma elements_ok names G t e l1 l : Forall runs l1 -> env_conforms G e -> Forall (conforms t) l ->
  checks (bind_types names t G) t l1 = true -> forall i, is_Some (exec_elements names e l1 i l).
Proof.
  intros Hr He Hl Hc. induction Hl as [|v l Hv _ IH]; intros i; cbn; [eauto|].
  destruct (runs_all _ Hr _ _ (bind_vars names i v e) v (bind_conforms _ _ _ _ _ _ He Hv) Hv Hc) as [s ->]. destruct (IH (i + 1)) as [u ->].
  cbn. eauto.
Qed.

Lemma checked_node_runs n : runs n.
Proof.
  induction n as [s|c|c l1 l2 H1 H2|names c l1 l2 H1 H2] using node_ind'; intros G t e dot He Hd.
  - cbn. eauto.
  - cbn. destruct (command_type G t c) as [u|] eqn:Ec; [|done]. destruct (command_ok _ _ _ _ _ _ He Hd Ec) as (v & -> & Hv). cbn.
    destruct u; try done; cbn in Hv; destruct Hv as [? ->]; cbn; eauto.
  - rewrite check_if, exec_if. destruct (command_type G t c) as [u|] eqn:Ec; [|done].
    destruct (command_ok _ _ _ _ _ _ He Hd Ec) as (v & -> & Hv). cbn. intros Hc.
    destruct (truth_ok u v Hv) as [b ->]; [by destruct u|]. cbn.
    assert (checks G t l1 && checks G t l2 = true) as [Hc1 Hc2]%andb_true_iff by by destruct u.
    destruct b; [exact (runs_all _ H1 _ _ _ _ He Hd Hc1)|exact (runs_all _ H2 _ _ _ _ He Hd Hc2)].
  - rewrite check_range, exec_range. destruct (command_type G t c) as [[| | |u| |]|] eqn:Ec; try done. intros [Hc1 Hc2]%andb_true_iff.
    destruct (command_ok _ _ _ _ _ _ He Hd Ec) as (v & -> & Hv). cbn in Hv. destruct Hv as (l & -> & Hl). cbn.
    destruct l as [|v l]; [exact (runs_all _ H2 _ _ _ _ He Hd Hc2)|by eapply elements_ok].
Qed.

(** A text that parses and checks against a type renders all data of the type. *)
Theorem checked_template_renders s t v : Checks s t = true -> conforms t v -> exists out, Execute s v = Some out.
Proof.
  unfold Checks, Execute, run. destruct (Parse s) as [l|]; [|done]. cbn. intros Hc Hv.
  apply (runs_all l (Forall_true _ l checked_node_runs) [("", t)] t); [|done..].
  intros x u. cbn. case_bool_decide; [|done]. intros [= <-]. by exists v.
Qed.

(** A text without actions renders as itself. *)
Theorem plain_text_renders s data : Index s "{{" = None -> Execute s data = Some s.
Proof.
  intros Hs. unfold Execute, Parse, lex. rewrite SplitStr_absent by done. cbn. unfold text_token. case_bool_decide as He; [by subst|].
  cbn. by rewrite app_nil_s.
Qed.

(** The value of a condition. *)
Ltac condition := lazymatch goal with
  | |- eval_command _ _ (CEq _) = _ => eapply eval_eq; [reflexivity|repeat (constructor; [reflexivity|]); constructor..]
  | |- _ => reflexivity
  end.
(** Runs the nodes of a template one after the other. *)
Ltac render := lazymatch goal with
  | |- execs _ _ [] = _ => reflexivity
  | |- execs _ _ (NIf _ _ _ :: _) = _ => eapply execs_cons; [eapply exec_cond; [condition|reflexivity|render|render]|render]
  | |- execs _ _ (NRange _ _ _ _ :: _) = _ => eapply execs_cons; [eapply exec_map; [reflexivity|intros k f; render]|render]
  | |- execs _ _ (_ :: _) = _ => eapply execs_cons; [reflexivity|render]
  end.
(** Parses a text and runs it. *)
Ltac render_text s :=
  unfold Execute, run;
  let p := eval vm_compute in (Parse s) in
  replace (Parse s) with p by (vm_compute; reflexivity);
  cbn [mbind option_bind]; etransitivity; [render|].
(** Compares two texts piece by piece; the lines of lists remain. *)
Ltac finish_text := repeat (apply Some_app; [try reflexivity; f_equal; apply imap_ext|]); rewrite ?app_nil_s; try reflexivity.

End TextTemplate.
