(* ===== verification/SqlTemplates.v ===== *)
(** * The templates of pkg/sql2code/parser

    template.go and commonTemplate.go: the texts themselves, executed by the
    model of text/template on the data of SqlCode.v, in place of its class.

    Theorems: every template renders whatever the table; a table has code
    exactly when it has columns, while gofmt answers; protobuf messages number
    their fields from one in order. *)

From S2P Require Import Prelude GoStr TextTemplate SqlNames SqlFields SqlTables SqlCode SqlGen.
From Stdlib Require Import Ascii.

Module SqlTemplates.
Import TextTemplate SqlNames SqlFields SqlCode SqlGen.

(** ** Texts *)

(** template.go *)

Definition modelStructTmplRaw : string := text ["
{{- if .Comment -}}
// {{.TableName}} {{.Comment}}
{{end -}}
type {{.TableName}} struct {
{{- range .Fields}}
	{{.Name}} {{.GoType}} {{if .Tag}}`{{.Tag}}`{{end}}{{if .Comment}} // {{.Comment}}{{end}}
{{- end}}
}
{{if .NameFunc}}
// TableName table name
func (m *{{.TableName}}) TableName() string {
	return "; "{{.RawTableName}}"; "
}
{{end}}
"].

Definition tableColumnsTmplRaw : string := text ["
// {{.TableName}}ColumnNames Whitelist for custom query fields to prevent sql injection attacks
var {{.TableName}}ColumnNames = map[string]bool{
{{- range .Fields}}
	"; "{{.ColName}}"; ": true,
{{- end}}
}
"].

Definition modelTmplRaw : string := text ["package {{.Package}}
{{if .ImportPath}}
import (
	{{- range .ImportPath}}
	"; "{{.}}"; "
	{{- end}}
)
{{- end}}
{{range .StructCode}}
{{.}}
{{end}}"].

Definition updateFieldTmplRaw : string := text ["
{{- range .Fields}}
	if table.{{.Name}}{{.ConditionZero}} {
		update["; "{{.ColName}}"; "] = table.{{.Name}}
	}
{{- end}}"].

Definition handlerCreateStructTmplRaw : string := text ["
// Create{{.TableName}}Request request params
type Create{{.TableName}}Request struct {
{{- range .Fields}}
	{{.Name}}  {{.GoType}} `json:"; "{{.JSONName}}"; " binding:"; EmptyString; "`{{if .Comment}} // {{.Comment}}{{end}}
{{- end}}
}
"].

Definition handlerUpdateStructTmplRaw : string := text ["
// Update{{.TableName}}ByIDRequest request params
type Update{{.TableName}}ByIDRequest struct {
{{- range .Fields}}
	{{.Name}}  {{.GoType}} `json:"; "{{.JSONName}}"; " binding:"; EmptyString; "`{{if .Comment}} // {{.Comment}}{{end}}
{{- end}}
}
"].

Definition handlerDetailStructTmplRaw : string := text ["
// {{.TableName}}ObjDetail detail
type {{.TableName}}ObjDetail struct {
{{- range .Fields}}
	{{.Name}}  {{.GoType}} `json:"; "{{.JSONName}}"; "`{{if .Comment}} // {{.Comment}}{{end}}
{{- end}}
}"].

Definition modelJSONTmplRaw : string := text ["{
{{- range .Fields}}
	"; "{{.ColName}}"; " {{.GoZero}}
{{- end}}
}
"].

Definition protoFileTmplRaw : string := text ["syntax = "; "proto3"; ";

package api.serverNameExample.v1;

import "; "api/types/types.proto"; ";
import "; "validate/validate.proto"; ";

option go_package = "; "github.com/moweilong/milady/api/serverNameExample/v1;v1"; ";

service {{.TName}} {
  // Create a new {{.TName}}
  rpc Create(Create{{.TableName}}Request) returns (Create{{.TableName}}Reply) {}

  // Delete a {{.TName}} by id
  rpc DeleteByID(Delete{{.TableName}}ByIDRequest) returns (Delete{{.TableName}}ByIDReply) {}

  // Update a {{.TName}} by id
  rpc UpdateByID(Update{{.TableName}}ByIDRequest) returns (Update{{.TableName}}ByIDReply) {}

  // Get a {{.TName}} by id
  rpc GetByID(Get{{.TableName}}ByIDRequest) returns (Get{{.TableName}}ByIDReply) {}

  // Get a paginated list of {{.TName}} by custom conditions
  rpc List(List{{.TableName}}Request) returns (List{{.TableName}}Reply) {}

  // Batch delete {{.TName}} by ids
  rpc DeleteByIDs(Delete{{.TableName}}ByIDsRequest) returns (Delete{{.TableName}}ByIDsReply) {}

  // Get a {{.TName}} by custom condition
  rpc GetByCondition(Get{{.TableName}}ByConditionRequest) returns (Get{{.TableName}}ByConditionReply) {}

  // Batch get {{.TName}} by ids
  rpc ListByIDs(List{{.TableName}}ByIDsRequest) returns (List{{.TableName}}ByIDsReply) {}

  // Get a paginated list of {{.TName}} by last id
  rpc ListByLastID(List{{.TableName}}ByLastIDRequest) returns (List{{.TableName}}ByLastIDReply) {}
}


/*
Notes for defining message fields:
    1. Suggest using camel case style naming for message field names, such as firstName, lastName, etc.
    2. If the message field name ending in 'id', it is recommended to use xxxID naming format, such as userID, orderID, etc.
    3. Add validate rules https://github.com/envoyproxy/protoc-gen-validate#constraint-rules, such as:
        uint64 id = 1 [(validate.rules).uint64.gte  = 1];
*/


// protoMessageCreateCode

message Create{{.TableName}}Reply {
  // createTableReplyFieldCode
}

message Delete{{.TableName}}ByIDRequest {
  // deleteTableByIDRequestFieldCode
}

message Delete{{.TableName}}ByIDReply {

}

// protoMessageUpdateCode

message Update{{.TableName}}ByIDReply {

}

// protoMessageDetailCode

message Get{{.TableName}}ByIDRequest {
  // getTableByIDRequestFieldCode
}

message Get{{.TableName}}ByIDReply {
  {{.TableName}} {{.TName}} = 1;
}

message List{{.TableName}}Request {
  api.types.Params params = 1;
}

message List{{.TableName}}Reply {
  int64 total = 1;
  repeated {{.TableName}} {{.TName}}s = 2;
}

message Delete{{.TableName}}ByIDsRequest {
  // deleteTableByIDsRequestFieldCode
}

message Delete{{.TableName}}ByIDsReply {

}

message Get{{.TableName}}ByConditionRequest {
  types.Conditions conditions = 1;
}

message Get{{.TableName}}ByConditionReply {
  {{.TableName}} {{.TName}} = 1;
}

message List{{.TableName}}ByIDsRequest {
  // getTableByIDsRequestFieldCode
}

message List{{.TableName}}ByIDsReply {
  repeated {{.TableName}} {{.TName}}s = 1;
}

message List{{.TableName}}ByLastIDRequest {
  // listTableByLastIDRequestFieldCode
  uint32 limit = 2 [(validate.rules).uint32.gt = 0]; // limit size per page
  string sort = 3; // sort by column name of table, default is -id, the - sign indicates descending order.
}

message List{{.TableName}}ByLastIDReply {
  repeated {{.TableName}} {{.TName}}s = 1;
}
"].

Definition protoFileSimpleTmplRaw : string := text ["syntax = "; "proto3"; ";

package api.serverNameExample.v1;

import "; "api/types/types.proto"; ";
import "; "validate/validate.proto"; ";

option go_package = "; "github.com/moweilong/milady/api/serverNameExample/v1;v1"; ";

service {{.TName}} {
  // Create a new {{.TName}}
  rpc Create(Create{{.TableName}}Request) returns (Create{{.TableName}}Reply) {}

  // Delete a {{.TName}} by id
  rpc DeleteByID(Delete{{.TableName}}ByIDRequest) returns (Delete{{.TableName}}ByIDReply) {}

  // Update a {{.TName}} by id
  rpc UpdateByID(Update{{.TableName}}ByIDRequest) returns (Update{{.TableName}}ByIDReply) {}

  // Get a {{.TName}} by id
  rpc GetByID(Get{{.TableName}}ByIDRequest) returns (Get{{.TableName}}ByIDReply) {}

  // Get a paginated list of {{.TName}} by custom conditions
  rpc List(List{{.TableName}}Request) returns (List{{.TableName}}Reply) {}
}


/*
Notes for defining message fields:
    1. Suggest using camel case style naming for message field names, such as firstName, lastName, etc.
    2. If the message field name ending in 'id', it is recommended to use xxxID naming format, such as userID, orderID, etc.
    3. Add validate rules https://github.com/envoyproxy/protoc-gen-validate#constraint-rules, such as:
        uint64 id = 1 [(validate.rules).uint64.gte  = 1];
*/


// protoMessageCreateCode

message Create{{.TableName}}Reply {
  // createTableReplyFieldCode
}

message Delete{{.TableName}}ByIDRequest {
  // deleteTableByIDRequestFieldCode
}

message Delete{{.TableName}}ByIDReply {

}

// protoMessageUpdateCode

message Update{{.TableName}}ByIDReply {

}

// protoMessageDetailCode

message Get{{.TableName}}ByIDRequest {
  // getTableByIDRequestFieldCode
}

message Get{{.TableName}}ByIDReply {
  {{.TableName}} {{.TName}} = 1;
}

message List{{.TableName}}Request {
  api.types.Params params = 1;
}

message List{{.TableName}}Reply {
  int64 total = 1;
  repeated {{.TableName}} {{.TName}}s = 2;
}
"].

Definition protoFileForWebTmplRaw : string := text ["syntax = "; "proto3"; ";

package api.serverNameExample.v1;

import "; "api/types/types.proto"; ";
import "; "google/api/annotations.proto"; ";
import "; "protoc-gen-openapiv2/options/annotations.proto"; ";
import "; "tagger/tagger.proto"; ";
import "; "validate/validate.proto"; ";

option go_package = "; "github.com/moweilong/milady/api/serverNameExample/v1;v1"; ";

/*
Default settings for generating *.swagger.json documents. For reference, see: https://bit.ly/4dE5jj7
Tip: To enhance the generated Swagger documentation, you can add the openapiv2_operation option to your RPC method. For example:
    option (grpc.gateway.protoc_gen_openapiv2.options.openapiv2_operation) = {
      summary: "; "get user by id"; ",
      description: "; "get user by id"; ",
      security: {
        security_requirement: {
          key: "; "BearerAuth"; ";
          value: {}
        }
      }
    };
*/
option (grpc.gateway.protoc_gen_openapiv2.options.openapiv2_swagger) = {
  host: "; "localhost:8080"; "
  base_path: "; EmptyString; "
  info: {
    title: "; "serverNameExample api docs"; ";
    version: "; "v1.0.0"; ";
  }
  schemes: HTTP;
  schemes: HTTPS;
  consumes: "; "application/json"; ";
  produces: "; "application/json"; ";
  security_definitions: {
    security: {
      key: "; "BearerAuth"; ";
      value: {
        type: TYPE_API_KEY;
        in: IN_HEADER;
        name: "; "Authorization"; ";
        description: "; "Type Bearer your-jwt-token to Value"; ";
      }
    }
  }
};

service {{.TName}} {
  // Create a new {{.TName}}
  rpc Create(Create{{.TableName}}Request) returns (Create{{.TableName}}Reply) {
    option (google.api.http) = {
      post: "; "/api/v1/{{.TName}}"; "
      body: "; "*"; "
    };
  }

  // Delete a {{.TName}} by id
  rpc DeleteByID(Delete{{.TableName}}ByIDRequest) returns (Delete{{.TableName}}ByIDReply) {
    option (google.api.http) = {
      delete: "; "/api/v1/{{.TName}}/{id}"; "
    };
  }

  // Update a {{.TName}} by id
  rpc UpdateByID(Update{{.TableName}}ByIDRequest) returns (Update{{.TableName}}ByIDReply) {
    option (google.api.http) = {
      put: "; "/api/v1/{{.TName}}/{id}"; "
      body: "; "*"; "
    };
  }

  // Get a {{.TName}} by id
  rpc GetByID(Get{{.TableName}}ByIDRequest) returns (Get{{.TableName}}ByIDReply) {
    option (google.api.http) = {
      get: "; "/api/v1/{{.TName}}/{id}"; "
    };
  }

  // Get a paginated list of {{.TName}} by custom conditions
  rpc List(List{{.TableName}}Request) returns (List{{.TableName}}Reply) {
    option (google.api.http) = {
      post: "; "/api/v1/{{.TName}}/list"; "
      body: "; "*"; "
    };
  }

  // Batch delete {{.TName}} by ids
  rpc DeleteByIDs(Delete{{.TableName}}ByIDsRequest) returns (Delete{{.TableName}}ByIDsReply) {
    option (google.api.http) = {
      post: "; "/api/v1/{{.TName}}/delete/ids"; "
      body: "; "*"; "
    };
  }

  // Get a {{.TName}} by custom condition
  rpc GetByCondition(Get{{.TableName}}ByConditionRequest) returns (Get{{.TableName}}ByConditionReply) {
    option (google.api.http) = {
      post: "; "/api/v1/{{.TName}}/condition"; "
      body: "; "*"; "
    };
  }

  // Batch get {{.TName}} by ids
  rpc ListByIDs(List{{.TableName}}ByIDsRequest) returns (List{{.TableName}}ByIDsReply) {
    option (google.api.http) = {
      post: "; "/api/v1/{{.TName}}/list/ids"; "
      body: "; "*"; "
    };
  }

  // Get a paginated list of {{.TName}} by last id
  rpc ListByLastID(List{{.TableName}}ByLastIDRequest) returns (List{{.TableName}}ByLastIDReply) {
    option (google.api.http) = {
      get: "; "/api/v1/{{.TName}}/list"; "
    };
  }
}


/*
Notes for defining message fields:
    1. Suggest using camel case style naming for message field names, such as firstName, lastName, etc.
    2. If the message field name ending in 'id', it is recommended to use xxxID naming format, such as userID, orderID, etc.
    3. Add validate rules https://github.com/envoyproxy/protoc-gen-validate#constraint-rules, such as:
        uint64 id = 1 [(validate.rules).uint64.gte  = 1];

If used to generate code that supports the HTTP protocol, notes for defining message fields:
    1. If the route contains the path parameter, such as /api/v1/userExample/{id}, the defined
        message must contain the name of the path parameter and the name should be added
        with a new tag, such as int64 id = 1 [(tagger.tags) = "; "uri:\"; "id\"; EmptyString; "];
    2. If the request url is followed by a query parameter, such as /api/v1/getUserExample?name=Tom,
        a form tag must be added when defining the query parameter in the message, such as:
        string name = 1 [(tagger.tags) = "; "form:\"; "name\"; EmptyString; "].
    3. When the message fields use snake_case naming (e.g., order_id), the generated swagger.json file
        will use camelCase (e.g., orderId) instead of the expected snake_case. This behavior aligns with
        the JSON tag names used by gRPC, but it can cause the Gin framework to fail to correctly bind and
        retrieve parameter values. There are two ways to resolve this issue:
            (1) Explicitly specify the JSON tag name using the json_name option, such as:
                 string order_id = 1 [json_name = "; "order_id"; "];
            (2) If you want to switch to camelCase naming and update the JSON tag name accordingly, such as:
                 string order_id = 1 [json_name = "; "orderID"; ", (tagger.tags) = "; "json:\"; "orderID\"; EmptyString; "];
*/


// protoMessageCreateCode

message Create{{.TableName}}Reply {
  // createTableReplyFieldCode
}

message Delete{{.TableName}}ByIDRequest {
  // deleteTableByIDRequestFieldCode
}

message Delete{{.TableName}}ByIDReply {

}

// protoMessageUpdateCode

message Update{{.TableName}}ByIDReply {

}

// protoMessageDetailCode

message Get{{.TableName}}ByIDRequest {
  // getTableByIDRequestFieldCode
}

message Get{{.TableName}}ByIDReply {
  {{.TableName}} {{.TName}} = 1;
}

message List{{.TableName}}Request {
  api.types.Params params = 1;
}

message List{{.TableName}}Reply {
  int64 total = 1;
  repeated {{.TableName}} {{.TName}}s = 2;
}

message Delete{{.TableName}}ByIDsRequest {
  // deleteTableByIDsRequestFieldCode
}

message Delete{{.TableName}}ByIDsReply {

}

message Get{{.TableName}}ByConditionRequest {
  types.Conditions conditions = 1;
}

message Get{{.TableName}}ByConditionReply {
  {{.TableName}} {{.TName}} = 1;
}

message List{{.TableName}}ByIDsRequest {
  // getTableByIDsRequestFieldCode
}

message List{{.TableName}}ByIDsReply {
  repeated {{.TableName}} {{.TName}}s = 1;
}

message List{{.TableName}}ByLastIDRequest {
  // listTableByLastIDRequestFieldCode
  uint32 limit = 2 [(validate.rules).uint32.gt = 0, (tagger.tags) = "; "form:\"; "limit\"; EmptyString; "]; // limit size per page
  string sort = 3 [(tagger.tags) = "; "form:\"; "sort\"; EmptyString; "]; // sort by column name of table, default is -id, the - sign indicates descending order.
}

message List{{.TableName}}ByLastIDReply {
  repeated {{.TableName}} {{.TName}}s = 1;
}
"].

Definition protoFileForSimpleWebTmplRaw : string := text ["syntax = "; "proto3"; ";

package api.serverNameExample.v1;

import "; "api/types/types.proto"; ";
import "; "google/api/annotations.proto"; ";
import "; "protoc-gen-openapiv2/options/annotations.proto"; ";
import "; "tagger/tagger.proto"; ";
import "; "validate/validate.proto"; ";

option go_package = "; "github.com/moweilong/milady/api/serverNameExample/v1;v1"; ";

/*
Default settings for generating *.swagger.json documents. For reference, see: https://bit.ly/4dE5jj7
Tip: To enhance the generated Swagger documentation, you can add the openapiv2_operation option to your RPC method. For example:
    option (grpc.gateway.protoc_gen_openapiv2.options.openapiv2_operation) = {
      summary: "; "get user by id"; ",
      description: "; "get user by id"; ",
      security: {
        security_requirement: {
          key: "; "BearerAuth"; ";
          value: {}
        }
      }
    };
*/
option (grpc.gateway.protoc_gen_openapiv2.options.openapiv2_swagger) = {
  host: "; "localhost:8080"; "
  base_path: "; EmptyString; "
  info: {
    title: "; "serverNameExample api docs"; ";
    version: "; "v1.0.0"; ";
  }
  schemes: HTTP;
  schemes: HTTPS;
  consumes: "; "application/json"; ";
  produces: "; "application/json"; ";
  security_definitions: {
    security: {
      key: "; "BearerAuth"; ";
      value: {
        type: TYPE_API_KEY;
        in: IN_HEADER;
        name: "; "Authorization"; ";
        description: "; "Type Bearer your-jwt-token to Value"; ";
      }
    }
  }
};

service {{.TName}} {
  // Create a new {{.TName}}
  rpc Create(Create{{.TableName}}Request) returns (Create{{.TableName}}Reply) {
    option (google.api.http) = {
      post: "; "/api/v1/{{.TName}}"; "
      body: "; "*"; "
    };
  }

  // Delete a {{.TName}} by id
  rpc DeleteByID(Delete{{.TableName}}ByIDRequest) returns (Delete{{.TableName}}ByIDReply) {
    option (google.api.http) = {
      delete: "; "/api/v1/{{.TName}}/{id}"; "
    };
  }

  // Update a {{.TName}} by id
  rpc UpdateByID(Update{{.TableName}}ByIDRequest) returns (Update{{.TableName}}ByIDReply) {
    option (google.api.http) = {
      put: "; "/api/v1/{{.TName}}/{id}"; "
      body: "; "*"; "
    };
  }

  // Get a {{.TName}} by id
  rpc GetByID(Get{{.TableName}}ByIDRequest) returns (Get{{.TableName}}ByIDReply) {
    option (google.api.http) = {
      get: "; "/api/v1/{{.TName}}/{id}"; "
    };
  }

  // Get a paginated list of {{.TName}} by custom conditions
  rpc List(List{{.TableName}}Request) returns (List{{.TableName}}Reply) {
    option (google.api.http) = {
      post: "; "/api/v1/{{.TName}}/list"; "
      body: "; "*"; "
    };
  }
}


/*
Notes for defining message fields:
    1. Suggest using camel case style naming for message field names, such as firstName, lastName, etc.
    2. If the message field name ending in 'id', it is recommended to use xxxID naming format, such as userID, orderID, etc.
    3. Add validate rules https://github.com/envoyproxy/protoc-gen-validate#constraint-rules, such as:
        uint64 id = 1 [(validate.rules).uint64.gte  = 1];

If used to generate code that supports the HTTP protocol, notes for defining message fields:
    1. If the route contains the path parameter, such as /api/v1/userExample/{id}, the defined
        message must contain the name of the path parameter and the name should be added
        with a new tag, such as int64 id = 1 [(tagger.tags) = "; "uri:\"; "id\"; EmptyString; "];
    2. If the request url is followed by a query parameter, such as /api/v1/getUserExample?name=Tom,
        a form tag must be added when defining the query parameter in the message, such as:
        string name = 1 [(tagger.tags) = "; "form:\"; "name\"; EmptyString; "].
    3. When the message fields use snake_case naming (e.g., order_id), the generated swagger.json file
        will use camelCase (e.g., orderId) instead of the expected snake_case. This behavior aligns with
        the JSON tag names used by gRPC, but it can cause the Gin framework to fail to correctly bind and
        retrieve parameter values. There are two ways to resolve this issue:
            (1) Explicitly specify the JSON tag name using the json_name option, such as:
                 string order_id = 1 [json_name = "; "order_id"; "];
            (2) If you want to switch to camelCase naming and update the JSON tag name accordingly, such as:
                 string order_id = 1 [json_name = "; "orderID"; ", (tagger.tags) = "; "json:\"; "orderID\"; EmptyString; "];
*/


// protoMessageCreateCode

message Create{{.TableName}}Reply {
  // createTableReplyFieldCode
}

message Delete{{.TableName}}ByIDRequest {
  // deleteTableByIDRequestFieldCode
}

message Delete{{.TableName}}ByIDReply {

}

// protoMessageUpdateCode

message Update{{.TableName}}ByIDReply {

}

// protoMessageDetailCode

message Get{{.TableName}}ByIDRequest {
  // getTableByIDRequestFieldCode
}

message Get{{.TableName}}ByIDReply {
  {{.TableName}} {{.TName}} = 1;
}

message List{{.TableName}}Request {
  api.types.Params params = 1;
}

message List{{.TableName}}Reply {
  int64 total = 1;
  repeated {{.TableName}} {{.TName}}s = 2;
}
"].

Definition protoMessageCreateTmplRaw : string := "message Create{{.TableName}}Request {
{{- range $i, $v := .Fields}}
	{{$v.GoType}} {{$v.JSONName}} = {{$v.AddOne $i}}; {{if $v.Comment}} // {{$v.Comment}}{{end}}
{{- end}}
}".

Definition protoMessageUpdateTmplRaw : string := "message Update{{.TableName}}ByIDRequest {
{{- range $i, $v := .Fields}}
	{{$v.GoType}} {{$v.JSONName}} = {{$v.AddOneWithTag $i}}; {{if $v.Comment}} // {{$v.Comment}}{{end}}
{{- end}}
}".

Definition protoMessageDetailTmplRaw : string := "message {{.TableName}} {
{{- range $i, $v := .Fields}}
	{{$v.GoType}} {{$v.JSONName}} = {{$v.AddOne $i}}; {{if $v.Comment}} // {{$v.Comment}}{{end}}
{{- end}}
}".

Definition serviceStructTmplRaw : string := text ["
		{
			name: "; "Create"; ",
			fn: func() (interface{}, error) {
				// todo enter parameters before testing
// serviceCreateStructCode
			},
			wantErr: false,
		},

		{
			name: "; "UpdateByID"; ",
			fn: func() (interface{}, error) {
				// todo enter parameters before testing
// serviceUpdateStructCode
			},
			wantErr: false,
		},
"].

Definition serviceCreateStructTmplRaw : string := "				req := &serverNameExampleV1.Create{{.TableName}}Request{
					{{- range .Fields}}
						{{.Name}}:  {{.GoTypeZero}}, {{if .Comment}} // {{.Comment}}{{end}}
					{{- end}}
				}
				return cli.Create(ctx, req)".

Definition serviceUpdateStructTmplRaw : string := "				req := &serverNameExampleV1.Update{{.TableName}}ByIDRequest{
					{{- range .Fields}}
						{{.Name}}:  {{.GoTypeZero}}, {{if .Comment}} // {{.Comment}}{{end}}
					{{- end}}
				}
				return cli.UpdateByID(ctx, req)".

(** commonTemplate.go *)

Definition handlerCreateStructCommonTmplRaw : string := text ["
// Create{{.TableName}}Request request params
type Create{{.TableName}}Request struct {
{{- range .Fields}}
	{{.Name}}  {{.GoType}} `json:"; "{{.JSONName}}"; " binding:"; EmptyString; "`{{if .Comment}} // {{.Comment}}{{end}}
{{- end}}
}
"].

Definition handlerUpdateStructCommonTmplRaw : string := text ["
// Update{{.TableName}}By{{.CrudInfo.ColumnNameCamel}}Request request params
type Update{{.TableName}}By{{.CrudInfo.ColumnNameCamel}}Request struct {
{{- range .Fields}}
	{{.Name}}  {{.GoType}} `json:"; "{{.JSONName}}"; " binding:"; EmptyString; "`{{if .Comment}} // {{.Comment}}{{end}}
{{- end}}
}
"].

Definition handlerDetailStructCommonTmplRaw : string := text ["
// {{.TableName}}ObjDetail detail
type {{.TableName}}ObjDetail struct {
{{- range .Fields}}
	{{.Name}}  {{.GoType}} `json:"; "{{.JSONName}}"; "`{{if .Comment}} // {{.Comment}}{{end}}
{{- end}}
}"].

Definition protoFileCommonTmplRaw : string := text ["syntax = "; "proto3"; ";

package api.serverNameExample.v1;

import "; "api/types/types.proto"; ";
import "; "validate/validate.proto"; ";

option go_package = "; "github.com/moweilong/milady/api/serverNameExample/v1;v1"; ";

service {{.TName}} {
  // Create a new {{.TName}}
  rpc Create(Create{{.TableName}}Request) returns (Create{{.TableName}}Reply) {}

  // Delete a {{.TName}} by {{.CrudInfo.ColumnNameCamelFCL}}
  rpc DeleteBy{{.CrudInfo.ColumnNameCamel}}(Delete{{.TableName}}By{{.CrudInfo.ColumnNameCamel}}Request) returns (Delete{{.TableName}}By{{.CrudInfo.ColumnNameCamel}}Reply) {}

  // Update a {{.TName}} by {{.CrudInfo.ColumnNameCamelFCL}}
  rpc UpdateBy{{.CrudInfo.ColumnNameCamel}}(Update{{.TableName}}By{{.CrudInfo.ColumnNameCamel}}Request) returns (Update{{.TableName}}By{{.CrudInfo.ColumnNameCamel}}Reply) {}

  // Get a {{.TName}} by {{.CrudInfo.ColumnNameCamelFCL}}
  rpc GetBy{{.CrudInfo.ColumnNameCamel}}(Get{{.TableName}}By{{.CrudInfo.ColumnNameCamel}}Request) returns (Get{{.TableName}}By{{.CrudInfo.ColumnNameCamel}}Reply) {}

  // Get a paginated list of {{.TName}} by custom conditions
  rpc List(List{{.TableName}}Request) returns (List{{.TableName}}Reply) {}

  // Batch delete {{.TName}} by {{.CrudInfo.ColumnNameCamelFCL}}
  rpc DeleteBy{{.CrudInfo.ColumnNamePluralCamel}}(Delete{{.TableName}}By{{.CrudInfo.ColumnNamePluralCamel}}Request) returns (Delete{{.TableName}}By{{.CrudInfo.ColumnNamePluralCamel}}Reply) {}

  // Get a {{.TName}} by custom condition
  rpc GetByCondition(Get{{.TableName}}ByConditionRequest) returns (Get{{.TableName}}ByConditionReply) {}

  // Batch get {{.TName}} by {{.CrudInfo.ColumnNameCamelFCL}}
  rpc ListBy{{.CrudInfo.ColumnNamePluralCamel}}(List{{.TableName}}By{{.CrudInfo.ColumnNamePluralCamel}}Request) returns (List{{.TableName}}By{{.CrudInfo.ColumnNamePluralCamel}}Reply) {}

  // Get a paginated list of {{.TName}} by last {{.CrudInfo.ColumnNameCamelFCL}}
  rpc ListByLast{{.CrudInfo.ColumnNameCamel}}(List{{.TableName}}ByLast{{.CrudInfo.ColumnNameCamel}}Request) returns (List{{.TableName}}ByLast{{.CrudInfo.ColumnNameCamel}}Reply) {}
}


/*
Notes for defining message fields:
    1. Suggest using camel case style naming for message field names, such as firstName, lastName, etc.
    2. If the message field name ending in 'id', it is recommended to use xxxID naming format, such as userID, orderID, etc.
    3. Add validate rules https://github.com/envoyproxy/protoc-gen-validate#constraint-rules, such as:
        uint64 id = 1 [(validate.rules).uint64.gte  = 1];
*/


// protoMessageCreateCode

message Create{{.TableName}}Reply {
  {{.CrudInfo.ProtoType}} {{.CrudInfo.ColumnNameCamelFCL}} = 1;
}

message Delete{{.TableName}}By{{.CrudInfo.ColumnNameCamel}}Request {
  {{.CrudInfo.ProtoType}} {{.CrudInfo.ColumnNameCamelFCL}} = 1 {{.CrudInfo.GetGRPCProtoValidation}};
}

message Delete{{.TableName}}By{{.CrudInfo.ColumnNameCamel}}Reply {

}

// protoMessageUpdateCode

message Update{{.TableName}}By{{.CrudInfo.ColumnNameCamel}}Reply {

}

// protoMessageDetailCode

message Get{{.TableName}}By{{.CrudInfo.ColumnNameCamel}}Request {
  {{.CrudInfo.ProtoType}} {{.CrudInfo.ColumnNameCamelFCL}} = 1 {{.CrudInfo.GetGRPCProtoValidation}};
}

message Get{{.TableName}}By{{.CrudInfo.ColumnNameCamel}}Reply {
  {{.TableName}} {{.TName}} = 1;
}

message List{{.TableName}}Request {
  api.types.Params params = 1;
}

message List{{.TableName}}Reply {
  int64 total = 1;
  repeated {{.TableName}} {{.CrudInfo.TableNamePluralCamelFCL}} = 2;
}

message Delete{{.TableName}}By{{.CrudInfo.ColumnNamePluralCamel}}Request {
  repeated {{.CrudInfo.ProtoType}} {{.CrudInfo.ColumnNamePluralCamelFCL}} = 1 [(validate.rules).repeated.min_items = 1];
}

message Delete{{.TableName}}By{{.CrudInfo.ColumnNamePluralCamel}}Reply {

}

message Get{{.TableName}}ByConditionRequest {
  types.Conditions conditions = 1;
}

message Get{{.TableName}}ByConditionReply {
  {{.TableName}} {{.TName}} = 1;
}

message List{{.TableName}}By{{.CrudInfo.ColumnNamePluralCamel}}Request {
  repeated {{.CrudInfo.ProtoType}} {{.CrudInfo.ColumnNamePluralCamelFCL}} = 1 [(validate.rules).repeated.min_items = 1];
}

message List{{.TableName}}By{{.CrudInfo.ColumnNamePluralCamel}}Reply {
  repeated {{.TableName}} {{.CrudInfo.TableNamePluralCamelFCL}} = 1;
}

message List{{.TableName}}ByLast{{.CrudInfo.ColumnNameCamel}}Request {
  {{.CrudInfo.ProtoType}} last{{.CrudInfo.ColumnNameCamel}} = 1;
  uint32 limit = 2 [(validate.rules).uint32.gt = 0]; // limit size per page
  string sort = 3; // sort by column name of table, default is -{{.CrudInfo.ColumnName}}, the - sign indicates descending order.
}

message List{{.TableName}}ByLast{{.CrudInfo.ColumnNameCamel}}Reply {
  repeated {{.TableName}} {{.CrudInfo.TableNamePluralCamelFCL}} = 1;
}
"].

Definition protoFileSimpleCommonTmplRaw : string := text ["syntax = "; "proto3"; ";

package api.serverNameExample.v1;

import "; "api/types/types.proto"; ";
import "; "validate/validate.proto"; ";

option go_package = "; "github.com/moweilong/milady/api/serverNameExample/v1;v1"; ";

service {{.TName}} {
  // Create a new {{.TName}}
  rpc Create(Create{{.TableName}}Request) returns (Create{{.TableName}}Reply) {}

  // Delete a {{.TName}} by {{.CrudInfo.ColumnNameCamelFCL}}
  rpc DeleteBy{{.CrudInfo.ColumnNameCamel}}(Delete{{.TableName}}By{{.CrudInfo.ColumnNameCamel}}Request) returns (Delete{{.TableName}}By{{.CrudInfo.ColumnNameCamel}}Reply) {}

  // Update a {{.TName}} by {{.CrudInfo.ColumnNameCamelFCL}}
  rpc UpdateBy{{.CrudInfo.ColumnNameCamel}}(Update{{.TableName}}By{{.CrudInfo.ColumnNameCamel}}Request) returns (Update{{.TableName}}By{{.CrudInfo.ColumnNameCamel}}Reply) {}

  // Get a {{.TName}} by {{.CrudInfo.ColumnNameCamelFCL}}
  rpc GetBy{{.CrudInfo.ColumnNameCamel}}(Get{{.TableName}}By{{.CrudInfo.ColumnNameCamel}}Request) returns (Get{{.TableName}}By{{.CrudInfo.ColumnNameCamel}}Reply) {}

  // Get a paginated list of {{.TName}} by custom conditions
  rpc List(List{{.TableName}}Request) returns (List{{.TableName}}Reply) {}
}


/*
Notes for defining message fields:
    1. Suggest using camel case style naming for message field names, such as firstName, lastName, etc.
    2. If the message field name ending in 'id', it is recommended to use xxxID naming format, such as userID, orderID, etc.
    3. Add validate rules https://github.com/envoyproxy/protoc-gen-validate#constraint-rules, such as:
        uint64 id = 1 [(validate.rules).uint64.gte  = 1];
*/


// protoMessageCreateCode

message Create{{.TableName}}Reply {
  {{.CrudInfo.ProtoType}} {{.CrudInfo.ColumnNameCamelFCL}} = 1;
}

message Delete{{.TableName}}By{{.CrudInfo.ColumnNameCamel}}Request {
  {{.CrudInfo.ProtoType}} {{.CrudInfo.ColumnNameCamelFCL}} = 1 {{.CrudInfo.GetGRPCProtoValidation}};
}

message Delete{{.TableName}}By{{.CrudInfo.ColumnNameCamel}}Reply {

}

// protoMessageUpdateCode

message Update{{.TableName}}By{{.CrudInfo.ColumnNameCamel}}Reply {

}

// protoMessageDetailCode

message Get{{.TableName}}By{{.CrudInfo.ColumnNameCamel}}Request {
  {{.CrudInfo.ProtoType}} {{.CrudInfo.ColumnNameCamelFCL}} = 1 {{.CrudInfo.GetGRPCProtoValidation}};
}

message Get{{.TableName}}By{{.CrudInfo.ColumnNameCamel}}Reply {
  {{.TableName}} {{.TName}} = 1;
}

message List{{.TableName}}Request {
  api.types.Params params = 1;
}

message List{{.TableName}}Reply {
  int64 total = 1;
  repeated {{.TableName}} {{.CrudInfo.TableNamePluralCamelFCL}} = 2;
}
"].

Definition protoFileForWebCommonTmplRaw : string := text ["syntax = "; "proto3"; ";

package api.serverNameExample.v1;

import "; "api/types/types.proto"; ";
import "; "google/api/annotations.proto"; ";
import "; "protoc-gen-openapiv2/options/annotations.proto"; ";
import "; "tagger/tagger.proto"; ";
import "; "validate/validate.proto"; ";

option go_package = "; "github.com/moweilong/milady/api/serverNameExample/v1;v1"; ";

/*
Default settings for generating *.swagger.json documents. For reference, see: https://bit.ly/4dE5jj7
Tip: To enhance the generated Swagger documentation, you can add the openapiv2_operation option to your RPC method. For example:
    option (grpc.gateway.protoc_gen_openapiv2.options.openapiv2_operation) = {
      summary: "; "get user details by id"; ",
      description: "; "Gets detailed information of a userExample specified by the given id in the path."; ",
      security: {
        security_requirement: {
          key: "; "BearerAuth"; ";
          value: {}
        }
      }
    };
*/
option (grpc.gateway.protoc_gen_openapiv2.options.openapiv2_swagger) = {
  host: "; "localhost:8080"; "
  base_path: "; EmptyString; "
  info: {
    title: "; "serverNameExample api docs"; ";
    version: "; "v1.0.0"; ";
  }
  schemes: HTTP;
  schemes: HTTPS;
  consumes: "; "application/json"; ";
  produces: "; "application/json"; ";
  security_definitions: {
    security: {
      key: "; "BearerAuth"; ";
      value: {
        type: TYPE_API_KEY;
        in: IN_HEADER;
        name: "; "Authorization"; ";
        description: "; "Type Bearer your-jwt-token to Value"; ";
      }
    }
  }
};

service {{.TName}} {
  // Create a new {{.TName}}
  rpc Create(Create{{.TableName}}Request) returns (Create{{.TableName}}Reply) {
    option (google.api.http) = {
      post: "; "/api/v1/{{.TName}}"; "
      body: "; "*"; "
    };
  }

  // Delete a {{.TName}} by {{.CrudInfo.ColumnNameCamelFCL}}
  rpc DeleteBy{{.CrudInfo.ColumnNameCamel}}(Delete{{.TableName}}By{{.CrudInfo.ColumnNameCamel}}Request) returns (Delete{{.TableName}}By{{.CrudInfo.ColumnNameCamel}}Reply) {
    option (google.api.http) = {
      delete: "; "/api/v1/{{.TName}}/left_curly_bracket{{.CrudInfo.ColumnNameCamelFCL}}right_curly_bracket"; "
    };
  }

  // Update a {{.TName}} by {{.CrudInfo.ColumnNameCamelFCL}}
  rpc UpdateBy{{.CrudInfo.ColumnNameCamel}}(Update{{.TableName}}By{{.CrudInfo.ColumnNameCamel}}Request) returns (Update{{.TableName}}By{{.CrudInfo.ColumnNameCamel}}Reply) {
    option (google.api.http) = {
      put: "; "/api/v1/{{.TName}}/left_curly_bracket{{.CrudInfo.ColumnNameCamelFCL}}right_curly_bracket"; "
      body: "; "*"; "
    };
  }

  // Get a {{.TName}} by {{.CrudInfo.ColumnNameCamelFCL}}
  rpc GetBy{{.CrudInfo.ColumnNameCamel}}(Get{{.TableName}}By{{.CrudInfo.ColumnNameCamel}}Request) returns (Get{{.TableName}}By{{.CrudInfo.ColumnNameCamel}}Reply) {
    option (google.api.http) = {
      get: "; "/api/v1/{{.TName}}/left_curly_bracket{{.CrudInfo.ColumnNameCamelFCL}}right_curly_bracket"; "
    };
  }

  // Get a paginated list of {{.TName}} by custom conditions
  rpc List(List{{.TableName}}Request) returns (List{{.TableName}}Reply) {
    option (google.api.http) = {
      post: "; "/api/v1/{{.TName}}/list"; "
      body: "; "*"; "
    };
  }

  // Batch delete {{.TName}} by {{.CrudInfo.ColumnNameCamelFCL}}
  rpc DeleteBy{{.CrudInfo.ColumnNamePluralCamel}}(Delete{{.TableName}}By{{.CrudInfo.ColumnNamePluralCamel}}Request) returns (Delete{{.TableName}}By{{.CrudInfo.ColumnNamePluralCamel}}Reply) {
    option (google.api.http) = {
      post: "; "/api/v1/{{.TName}}/delete/ids"; "
      body: "; "*"; "
    };
  }

  // Get a {{.TName}} by custom conditions
  rpc GetByCondition(Get{{.TableName}}ByConditionRequest) returns (Get{{.TableName}}ByConditionReply) {
    option (google.api.http) = {
      post: "; "/api/v1/{{.TName}}/condition"; "
      body: "; "*"; "
    };
  }

  // Batch get {{.TName}} by {{.CrudInfo.ColumnNameCamelFCL}}
  rpc ListBy{{.CrudInfo.ColumnNamePluralCamel}}(List{{.TableName}}By{{.CrudInfo.ColumnNamePluralCamel}}Request) returns (List{{.TableName}}By{{.CrudInfo.ColumnNamePluralCamel}}Reply) {
    option (google.api.http) = {
      post: "; "/api/v1/{{.TName}}/list/ids"; "
      body: "; "*"; "
    };
  }

  // Get a paginated list of {{.TName}} by last {{.CrudInfo.ColumnNameCamelFCL}}
  rpc ListByLast{{.CrudInfo.ColumnNameCamel}}(List{{.TableName}}ByLast{{.CrudInfo.ColumnNameCamel}}Request) returns (List{{.TableName}}ByLast{{.CrudInfo.ColumnNameCamel}}Reply) {
    option (google.api.http) = {
      get: "; "/api/v1/{{.TName}}/list"; "
    };
  }
}


/*
Notes for defining message fields:
    1. Suggest using camel case style naming for message field names, such as firstName, lastName, etc.
    2. If the message field name ending in 'id', it is recommended to use xxxID naming format, such as userID, orderID, etc.
    3. Add validate rules https://github.com/envoyproxy/protoc-gen-validate#constraint-rules, such as:
        uint64 id = 1 [(validate.rules).uint64.gte  = 1];

If used to generate code that supports the HTTP protocol, notes for defining message fields:
    1. If the route contains the path parameter, such as /api/v1/userExample/{id}, the defined
        message must contain the name of the path parameter and the name should be added
        with a new tag, such as int64 id = 1 [(tagger.tags) = "; "uri:\"; "id\"; EmptyString; "];
    2. If the request url is followed by a query parameter, such as /api/v1/getUserExample?name=Tom,
        a form tag must be added when defining the query parameter in the message, such as:
        string name = 1 [(tagger.tags) = "; "form:\"; "name\"; EmptyString; "].
    3. When the message fields use snake_case naming (e.g., order_id), the generated swagger.json file
        will use camelCase (e.g., orderId) instead of the expected snake_case. This behavior aligns with
        the JSON tag names used by gRPC, but it can cause the Gin framework to fail to correctly bind and
        retrieve parameter values. There are two ways to resolve this issue:
            (1) Explicitly specify the JSON tag name using the json_name option, such as:
                 string order_id = 1 [json_name = "; "order_id"; "];
            (2) If you want to switch to camelCase naming and update the JSON tag name accordingly, such as:
                 string order_id = 1 [json_name = "; "orderID"; ", (tagger.tags) = "; "json:\"; "orderID\"; EmptyString; "];
*/


// protoMessageCreateCode

message Create{{.TableName}}Reply {
  {{.CrudInfo.ProtoType}} {{.CrudInfo.ColumnNameCamelFCL}} = 1;
}

message Delete{{.TableName}}By{{.CrudInfo.ColumnNameCamel}}Request {
  {{.CrudInfo.ProtoType}} {{.CrudInfo.ColumnNameCamelFCL}} = 1 {{.CrudInfo.GetWebProtoValidation}};
}

message Delete{{.TableName}}By{{.CrudInfo.ColumnNameCamel}}Reply {

}

// protoMessageUpdateCode

message Update{{.TableName}}By{{.CrudInfo.ColumnNameCamel}}Reply {

}

// protoMessageDetailCode

message Get{{.TableName}}By{{.CrudInfo.ColumnNameCamel}}Request {
  {{.CrudInfo.ProtoType}} {{.CrudInfo.ColumnNameCamelFCL}} = 1 {{.CrudInfo.GetWebProtoValidation}};
}

message Get{{.TableName}}By{{.CrudInfo.ColumnNameCamel}}Reply {
  {{.TableName}} {{.TName}} = 1;
}

message List{{.TableName}}Request {
  api.types.Params params = 1;
}

message List{{.TableName}}Reply {
  int64 total = 1;
  repeated {{.TableName}} {{.CrudInfo.TableNamePluralCamelFCL}} = 2;
}

message Delete{{.TableName}}By{{.CrudInfo.ColumnNamePluralCamel}}Request {
  repeated {{.CrudInfo.ProtoType}} {{.CrudInfo.ColumnNamePluralCamelFCL}} = 1 [(validate.rules).repeated.min_items = 1];
}

message Delete{{.TableName}}By{{.CrudInfo.ColumnNamePluralCamel}}Reply {

}

message Get{{.TableName}}ByConditionRequest {
  types.Conditions conditions = 1;
}

message Get{{.TableName}}ByConditionReply {
  {{.TableName}} {{.TName}} = 1;
}

message List{{.TableName}}By{{.CrudInfo.ColumnNamePluralCamel}}Request {
  repeated {{.CrudInfo.ProtoType}} {{.CrudInfo.ColumnNamePluralCamelFCL}} = 1 [(validate.rules).repeated.min_items = 1];
}

message List{{.TableName}}By{{.CrudInfo.ColumnNamePluralCamel}}Reply {
  repeated {{.TableName}} {{.CrudInfo.TableNamePluralCamelFCL}} = 1;
}

message List{{.TableName}}ByLast{{.CrudInfo.ColumnNameCamel}}Request {
  {{.CrudInfo.ProtoType}} last{{.CrudInfo.ColumnNameCamel}} = 1 [(tagger.tags) = "; "form:\"; "last{{.CrudInfo.ColumnNameCamel}}\"; EmptyString; "];
  uint32 limit = 2 [(validate.rules).uint32.gt = 0, (tagger.tags) = "; "form:\"; "limit\"; EmptyString; "]; // limit size per page
  string sort = 3 [(tagger.tags) = "; "form:\"; "sort\"; EmptyString; "]; // sort by column name of table, default is -{{.CrudInfo.ColumnName}}, the - sign indicates descending order.
}

message List{{.TableName}}ByLast{{.CrudInfo.ColumnNameCamel}}Reply {
  repeated {{.TableName}} {{.CrudInfo.TableNamePluralCamelFCL}} = 1;
}
"].

Definition protoFileForSimpleWebCommonTmplRaw : string := text ["syntax = "; "proto3"; ";

package api.serverNameExample.v1;

import "; "api/types/types.proto"; ";
import "; "google/api/annotations.proto"; ";
import "; "protoc-gen-openapiv2/options/annotations.proto"; ";
import "; "tagger/tagger.proto"; ";
import "; "validate/validate.proto"; ";

option go_package = "; "github.com/moweilong/milady/api/serverNameExample/v1;v1"; ";

/*
Default settings for generating *.swagger.json documents. For reference, see: https://bit.ly/4dE5jj7
Tip: To enhance the generated Swagger documentation, you can add the openapiv2_operation option to your RPC method. For example:
    option (grpc.gateway.protoc_gen_openapiv2.options.openapiv2_operation) = {
      summary: "; "get user by id"; ",
      description: "; "get user by id"; ",
      security: {
        security_requirement: {
          key: "; "BearerAuth"; ";
          value: {}
        }
      }
    };
*/
option (grpc.gateway.protoc_gen_openapiv2.options.openapiv2_swagger) = {
  host: "; "localhost:8080"; "
  base_path: "; EmptyString; "
  info: {
    title: "; "serverNameExample api docs"; ";
    version: "; "v1.0.0"; ";
  }
  schemes: HTTP;
  schemes: HTTPS;
  consumes: "; "application/json"; ";
  produces: "; "application/json"; ";
  security_definitions: {
    security: {
      key: "; "BearerAuth"; ";
      value: {
        type: TYPE_API_KEY;
        in: IN_HEADER;
        name: "; "Authorization"; ";
        description: "; "Type Bearer your-jwt-token to Value"; ";
      }
    }
  }
};

service {{.TName}} {
  // Create a new {{.TName}}
  rpc Create(Create{{.TableName}}Request) returns (Create{{.TableName}}Reply) {
    option (google.api.http) = {
      post: "; "/api/v1/{{.TName}}"; "
      body: "; "*"; "
    };
  }

  // Delete a {{.TName}} by {{.CrudInfo.ColumnNameCamelFCL}}
  rpc DeleteBy{{.CrudInfo.ColumnNameCamel}}(Delete{{.TableName}}By{{.CrudInfo.ColumnNameCamel}}Request) returns (Delete{{.TableName}}By{{.CrudInfo.ColumnNameCamel}}Reply) {
    option (google.api.http) = {
      delete: "; "/api/v1/{{.TName}}/left_curly_bracket{{.CrudInfo.ColumnNameCamelFCL}}right_curly_bracket"; "
    };
  }

  // Update a {{.TName}} by {{.CrudInfo.ColumnNameCamelFCL}}
  rpc UpdateBy{{.CrudInfo.ColumnNameCamel}}(Update{{.TableName}}By{{.CrudInfo.ColumnNameCamel}}Request) returns (Update{{.TableName}}By{{.CrudInfo.ColumnNameCamel}}Reply) {
    option (google.api.http) = {
      put: "; "/api/v1/{{.TName}}/left_curly_bracket{{.CrudInfo.ColumnNameCamelFCL}}right_curly_bracket"; "
      body: "; "*"; "
    };
  }

  // Get a {{.TName}} by {{.CrudInfo.ColumnNameCamelFCL}}
  rpc GetBy{{.CrudInfo.ColumnNameCamel}}(Get{{.TableName}}By{{.CrudInfo.ColumnNameCamel}}Request) returns (Get{{.TableName}}By{{.CrudInfo.ColumnNameCamel}}Reply) {
    option (google.api.http) = {
      get: "; "/api/v1/{{.TName}}/left_curly_bracket{{.CrudInfo.ColumnNameCamelFCL}}right_curly_bracket"; "
    };
  }

  // Get a paginated list of {{.TName}} by custom conditions
  rpc List(List{{.TableName}}Request) returns (List{{.TableName}}Reply) {
    option (google.api.http) = {
      post: "; "/api/v1/{{.TName}}/list"; "
      body: "; "*"; "
    };
  }
}


/*
Notes for defining message fields:
    1. Suggest using camel case style naming for message field names, such as firstName, lastName, etc.
    2. If the message field name ending in 'id', it is recommended to use xxxID naming format, such as userID, orderID, etc.
    3. Add validate rules https://github.com/envoyproxy/protoc-gen-validate#constraint-rules, such as:
        uint64 id = 1 [(validate.rules).uint64.gte  = 1];

If used to generate code that supports the HTTP protocol, notes for defining message fields:
    1. If the route contains the path parameter, such as /api/v1/userExample/{id}, the defined
        message must contain the name of the path parameter and the name should be added
        with a new tag, such as int64 id = 1 [(tagger.tags) = "; "uri:\"; "id\"; EmptyString; "];
    2. If the request url is followed by a query parameter, such as /api/v1/getUserExample?name=Tom,
        a form tag must be added when defining the query parameter in the message, such as:
        string name = 1 [(tagger.tags) = "; "form:\"; "name\"; EmptyString; "].
    3. When the message fields use snake_case naming (e.g., order_id), the generated swagger.json file
        will use camelCase (e.g., orderId) instead of the expected snake_case. This behavior aligns with
        the JSON tag names used by gRPC, but it can cause the Gin framework to fail to correctly bind and
        retrieve parameter values. There are two ways to resolve this issue:
            (1) Explicitly specify the JSON tag name using the json_name option, such as:
                 string order_id = 1 [json_name = "; "order_id"; "];
            (2) If you want to switch to camelCase naming and update the JSON tag name accordingly, such as:
                 string order_id = 1 [json_name = "; "orderID"; ", (tagger.tags) = "; "json:\"; "orderID\"; EmptyString; "];
*/


// protoMessageCreateCode

message Create{{.TableName}}Reply {
  {{.CrudInfo.ProtoType}} {{.CrudInfo.ColumnNameCamelFCL}} = 1;
}

message Delete{{.TableName}}By{{.CrudInfo.ColumnNameCamel}}Request {
  {{.CrudInfo.ProtoType}} {{.CrudInfo.ColumnNameCamelFCL}} = 1 {{.CrudInfo.GetWebProtoValidation}};
}

message Delete{{.TableName}}By{{.CrudInfo.ColumnNameCamel}}Reply {

}

// protoMessageUpdateCode

message Update{{.TableName}}By{{.CrudInfo.ColumnNameCamel}}Reply {

}

// protoMessageDetailCode

message Get{{.TableName}}By{{.CrudInfo.ColumnNameCamel}}Request {
  {{.CrudInfo.ProtoType}} {{.CrudInfo.ColumnNameCamelFCL}} = 1 {{.CrudInfo.GetWebProtoValidation}};
}

message Get{{.TableName}}By{{.CrudInfo.ColumnNameCamel}}Reply {
  {{.TableName}} {{.TName}} = 1;
}

message List{{.TableName}}Request {
  api.types.Params params = 1;
}

message List{{.TableName}}Reply {
  int64 total = 1;
  repeated {{.TableName}} {{.CrudInfo.TableNamePluralCamelFCL}} = 2;
}
"].

Definition protoMessageCreateCommonTmplRaw : string := "message Create{{.TableName}}Request {
{{- range $i, $v := .Fields}}
	{{$v.GoType}} {{$v.JSONName}} = {{$v.AddOne $i}}; {{if $v.Comment}} // {{$v.Comment}}{{end}}
{{- end}}
}".

Definition protoMessageUpdateCommonTmplRaw : string := "message Update{{.TableName}}By{{.CrudInfo.ColumnNameCamel}}Request {
{{- range $i, $v := .Fields}}
	{{$v.GoType}} {{$v.JSONName}} = {{$v.AddOneWithTag2 $i}}; {{if $v.Comment}} // {{$v.Comment}}{{end}}
{{- end}}
}".

Definition protoMessageDetailCommonTmplRaw : string := "message {{.TableName}} {
{{- range $i, $v := .Fields}}
	{{$v.GoType}} {{$v.JSONName}} = {{$v.AddOne $i}}; {{if $v.Comment}} // {{$v.Comment}}{{end}}
{{- end}}
}".

Definition serviceStructCommonTmplRaw : string := text ["
		{
			name: "; "Create"; ",
			fn: func() (interface{}, error) {
				// todo enter parameters before testing
// serviceCreateStructCode
			},
			wantErr: false,
		},

		{
			name: "; "UpdateBy{{.CrudInfo.ColumnNameCamel}}"; ",
			fn: func() (interface{}, error) {
				// todo enter parameters before testing
// serviceUpdateStructCode
			},
			wantErr: false,
		},
"].

Definition serviceCreateStructCommonTmplRaw : string := "				req := &serverNameExampleV1.Create{{.TableName}}Request{
					{{- range .Fields}}
						{{.Name}}:  {{.GoTypeZero}}, {{if .Comment}} // {{.Comment}}{{end}}
					{{- end}}
				}
				return cli.Create(ctx, req)".

Definition serviceUpdateStructCommonTmplRaw : string := "				req := &serverNameExampleV1.Update{{.TableName}}By{{.CrudInfo.ColumnNameCamel}}Request{
					{{- range .Fields}}
						{{.Name}}:  {{.GoTypeZero}}, {{if .Comment}} // {{.Comment}}{{end}}
					{{- end}}
				}
				return cli.UpdateBy{{.CrudInfo.ColumnNameCamel}}(ctx, req)".

Definition raw (t : template) : string :=
  match t with
  | modelStructTmpl => modelStructTmplRaw | tableColumnsTmpl => tableColumnsTmplRaw
  | updateFieldTmpl => updateFieldTmplRaw | modelJSONTmpl => modelJSONTmplRaw
  | handlerCreateStructTmpl => handlerCreateStructTmplRaw | handlerUpdateStructTmpl => handlerUpdateStructTmplRaw
  | handlerDetailStructTmpl => handlerDetailStructTmplRaw
  | handlerCreateStructCommonTmpl => handlerCreateStructCommonTmplRaw
  | handlerUpdateStructCommonTmpl => handlerUpdateStructCommonTmplRaw
  | handlerDetailStructCommonTmpl => handlerDetailStructCommonTmplRaw
  | protoFileTmpl => protoFileTmplRaw | protoFileSimpleTmpl => protoFileSimpleTmplRaw
  | protoFileForWebTmpl => protoFileForWebTmplRaw | protoFileForSimpleWebTmpl => protoFileForSimpleWebTmplRaw
  | protoFileCommonTmpl => protoFileCommonTmplRaw | protoFileSimpleCommonTmpl => protoFileSimpleCommonTmplRaw
  | protoFileForWebCommonTmpl => protoFileForWebCommonTmplRaw
  | protoFileForSimpleWebCommonTmpl => protoFileForSimpleWebCommonTmplRaw
  | protoMessageCreateTmpl => protoMessageCreateTmplRaw | protoMessageUpdateTmpl => protoMessageUpdateTmplRaw
  | protoMessageDetailTmpl => protoMessageDetailTmplRaw
  | protoMessageCreateCommonTmpl => protoMessageCreateCommonTmplRaw
  | protoMessageUpdateCommonTmpl => protoMessageUpdateCommonTmplRaw
  | protoMessageDetailCommonTmpl => protoMessageDetailCommonTmplRaw
  | serviceStructTmpl => serviceStructTmplRaw | serviceCreateStructTmpl => serviceCreateStructTmplRaw
  | serviceUpdateStructTmpl => serviceUpdateStructTmplRaw
  | serviceStructCommonTmpl => serviceStructCommonTmplRaw
  | serviceCreateStructCommonTmpl => serviceCreateStructCommonTmplRaw
  | serviceUpdateStructCommonTmpl => serviceUpdateStructCommonTmplRaw
  end.

(** ** Data *)

Definition field_value (f : tmplField) : value :=
  VStruct [("IsPrimaryKey", VBool (IsPrimaryKey f)); ("ColName", VStr (ColName f)); ("Name", VStr (FName f)); ("GoType", VStr (GoType f));
    ("Tag", VStr (FTag f)); ("Comment", VStr (FComment f)); ("JSONName", VStr (JSONName f)); ("DBDriver", VStr (FDriver f));
    ("ConditionZero", VStr (ConditionZero f)); ("GoZero", VStr (GoZero f)); ("GoTypeZero", VStr (GoTypeZero f));
    ("AddOne", VMethod (fun i => Some (VInt (AddOne f i)))); ("AddOneWithTag", VMethod (fun i => Some (VStr (AddOneWithTag f i))));
    ("AddOneWithTag2", VMethod (fun i => Some (VStr (AddOneWithTag2 f i))))].
(** The information is behind a pointer. *)
Definition crud_value (info : option CrudInfo) : value :=
  match info with
  | None => VNil
  | Some i =>
      VStruct [("TableNameCamel", VStr (TableNameCamel i)); ("TableNameCamelFCL", VStr (TableNameCamelFCL i));
        ("TableNamePluralCamel", VStr (TableNamePluralCamel i)); ("TableNamePluralCamelFCL", VStr (TableNamePluralCamelFCL i));
        ("ColumnName", VStr (ColumnName i)); ("ColumnNameCamel", VStr (ColumnNameCamel i)); ("ColumnNameCamelFCL", VStr (ColumnNameCamelFCL i));
        ("ColumnNamePluralCamel", VStr (ColumnNamePluralCamel i)); ("ColumnNamePluralCamelFCL", VStr (ColumnNamePluralCamelFCL i));
        ("GoType", VStr (CGoType i)); ("GoTypeFCU", VStr (GoTypeFCU i)); ("ProtoType", VStr (ProtoType i));
        ("IsStringType", VBool (IsStringType i)); ("PrimaryKeyColumnName", VStr (PrimaryKeyColumnName i));
        ("IsCommonType", VBool (IsCommonType i)); ("IsStandardPrimaryKey", VBool (IsStandardPrimaryKey i));
        ("CheckCommonType", VBool (CheckCommonType info));
        ("GetGRPCProtoValidation", VStr (GetGRPCProtoValidation info)); ("GetWebProtoValidation", VStr (GetWebProtoValidation info))]
  end.
Definition data_value (d : tmplData) : value :=
  VStruct [("TableNamePrefix", VStr (TableNamePrefix d)); ("RawTableName", VStr (RawTableName d)); ("TableName", VStr (TableName d));
    ("TName", VStr (TName d)); ("NameFunc", VBool (NameFunc d)); ("Fields", VList (map field_value (Fields d)));
    ("Comment", VStr (Comment d)); ("SubStructs", VStr (SubStructs d)); ("ProtoSubStructs", VStr (ProtoSubStructs d));
    ("DBDriver", VStr (DDriver d)); ("CrudInfo", crud_value (Crud d))].
Definition codes_value (m : modelCodes) : value :=
  VStruct [("Package", VStr (MPackage m)); ("ImportPath", VList (map VStr (MImportPath m)));
    ("StructCode", VList (map VStr (MStructCode m)))].

(** ** Their types *)

Definition field_ty : ty :=
  TyStruct [("IsPrimaryKey", TyBool); ("ColName", TyStr); ("Name", TyStr); ("GoType", TyStr); ("Tag", TyStr); ("Comment", TyStr);
    ("JSONName", TyStr); ("DBDriver", TyStr); ("ConditionZero", TyStr); ("GoZero", TyStr); ("GoTypeZero", TyStr);
    ("AddOne", TyMethod TyInt); ("AddOneWithTag", TyMethod TyStr); ("AddOneWithTag2", TyMethod TyStr)].
Definition crud_ty : ty :=
  TyStruct [("TableNameCamel", TyStr); ("TableNameCamelFCL", TyStr); ("TableNamePluralCamel", TyStr); ("TableNamePluralCamelFCL", TyStr);
    ("ColumnName", TyStr); ("ColumnNameCamel", TyStr); ("ColumnNameCamelFCL", TyStr); ("ColumnNamePluralCamel", TyStr);
    ("ColumnNamePluralCamelFCL", TyStr); ("GoType", TyStr); ("ProtoType", TyStr); ("GetGRPCProtoValidation", TyStr);
    ("GetWebProtoValidation", TyStr)].
Definition plain_fields : list (string * ty) :=
  [("RawTableName", TyStr); ("TableName", TyStr); ("TName", TyStr); ("NameFunc", TyBool); ("Fields", TyList field_ty); ("Comment", TyStr)].
(** The templates for tables with an own key also use the information. *)
Definition is_common (t : template) : bool :=
  match t with
  | handlerUpdateStructCommonTmpl | protoFileCommonTmpl | protoFileSimpleCommonTmpl | protoFileForWebCommonTmpl
  | protoFileForSimpleWebCommonTmpl | protoMessageUpdateCommonTmpl | serviceStructCommonTmpl | serviceUpdateStructCommonTmpl => true
  | _ => false
  end.
Definition data_ty (common : bool) : ty :=
  TyStruct (plain_fields ++ if common then [("CrudInfo", crud_ty)] else []).
Definition codes_ty : ty := TyStruct [("Package", TyStr); ("ImportPath", TyList TyStr); ("StructCode", TyList TyStr)].

(** ** The templates as the code runs them *)

Section Rendering.
Variable parse : string -> string -> string -> option (list Stmt).
Variable gofmt_source : string -> option string.
Variable marshal_crud : CrudInfo -> string.
Variable marshal_table : TableInfo -> string.

#[export] Instance rendering : Outside := {|
  Parse := parse;
  Execute t d := TextTemplate.Execute (raw t) (data_value d);
  ExecuteModel m := TextTemplate.Execute modelTmplRaw (codes_value m);
  format_Source := gofmt_source;
  MarshalCrud := marshal_crud;
  MarshalTable := marshal_table |}.
End Rendering.

(** * Proofs *)

Ltac conform := repeat first [ progress cbn | split | eexists | done ].

Lemma field_conforms f : conforms field_ty (field_value f).
Proof. cbn. conform. Qed.
Lemma fields_conform l : Forall (conforms field_ty) (map field_value l).
Proof. apply Forall_map, Forall_true. intros f. apply field_conforms. Qed.
Lemma data_conforms d common : (common = true -> is_Some (Crud d)) -> conforms (data_ty common) (data_value d).
Proof.
  intros Hc. pose proof (fields_conform (Fields d)) as Hl. assert (common = true -> conforms crud_ty (crud_value (Crud d))) as Hi.
  { intros Ht. destruct (Hc Ht) as [i ->]. cbn. conform. }
  destruct common; cbn -[field_ty crud_ty]; eexists; (split; [reflexivity|]); repeat apply conj; try exact I; try exact (Hi eq_refl); hnf; eauto.
Qed.

(** Each text parses and is right for its data. *)
Lemma templates_check t : Checks (raw t) (data_ty (is_common t)) = true.
Proof. destruct t; by vm_compute. Qed.
Lemma model_checks : Checks modelTmplRaw codes_ty = true.
Proof. by vm_compute. Qed.

Lemma template_renders t d : (is_common t = true -> is_Some (Crud d)) -> is_Some (TextTemplate.Execute (raw t) (data_value d)).
Proof. intros H. destruct (checked_template_renders _ _ _ (templates_check t) (data_conforms d _ H)) as [s ->]. eauto. Qed.
Lemma model_renders m : is_Some (TextTemplate.Execute modelTmplRaw (codes_value m)).
Proof.
  destruct (checked_template_renders _ _ (codes_value m) model_checks) as [s ->]; [|eauto]. cbn.
  assert (forall l, Forall (conforms TyStr) (map VStr l)) as Hl by (intros l; apply Forall_map, Forall_true; cbn; eauto).
  eexists. split; [reflexivity|]. repeat apply conj; try exact I; hnf; eauto.
Qed.

(** ** Code for every table *)

Section Tables.
Context `{Words}.
Variable parse : string -> string -> string -> option (list Stmt).
Variable gofmt_source : string -> option string.
Variable marshal_crud : CrudInfo -> string.
Variable marshal_table : TableInfo -> string.
Variable nouns : list (string * string).
#[local] Existing Instance rendering.
#[local] Notation outside := (rendering parse gofmt_source marshal_crud marshal_table).
#[local] Notation make := (@makeCode _ outside nouns).

(** Either a value, or gofmt refused a text. *)
Definition formatted {A} (r : result error A) : Prop :=
  match r with Ok _ => True | Err e => e = ErrFormat /\ exists s, gofmt_source s = None | Panic => False end.

Lemma formatted_bind {A B} (r : result error A) (k : A -> result error B) :
  formatted r -> (forall a, formatted (k a)) -> formatted (r ≫= k).
Proof. destruct r as [a| |]; intros Hr Hk; [exact (Hk a)|exact Hr..]. Qed.
Lemma run_formatted t d : is_Some (Crud d) -> formatted (@SqlCode.run outside t d).
Proof. intros Hc. unfold SqlCode.run. cbn [Execute rendering]. by destruct (template_renders t d (fun _ => Hc)) as [s ->]. Qed.
Lemma gofmt_formatted s : formatted (@gofmt outside s).
Proof. unfold gofmt. cbn [format_Source rendering]. destruct (gofmt_source s) eqn:E; cbn; eauto. Qed.
Lemma filtered_formatted d t l : is_Some (Crud d) -> formatted (@tmplExecuteWithFilter outside d t l).
Proof. intros. unfold tmplExecuteWithFilter. by apply run_formatted. Qed.
Lemma filtered2_formatted d t l : is_Some (Crud d) -> formatted (@tmplExecuteWithFilter2 outside d t l).
Proof. intros. unfold tmplExecuteWithFilter2. by apply run_formatted. Qed.

(** Sequences of renderings for one table, whatever is made of their output. *)
Ltac formatted_steps :=
  repeat match goal with
  | |- forall _, _ => intros
  | |- formatted (_ ≫= _) => apply formatted_bind
  | |- formatted (@SqlCode.run _ _ _) => apply run_formatted
  | |- formatted (@gofmt _ _) => apply gofmt_formatted
  | |- formatted (@tmplExecuteWithFilter _ _ _ _) => apply filtered_formatted
  | |- formatted (@tmplExecuteWithFilter2 _ _ _ _) => apply filtered2_formatted
  | |- formatted (Ok _) => exact I
  | |- formatted (let '(_, _) := ?p in _) => destruct p
  | |- formatted (if ?b then _ else _) => destruct b
  | |- is_Some (Crud (with_fields _ ?d)) => change (is_Some (Crud d))
  | H : is_Some (Crud ?d) |- is_Some (Crud ?d) => exact H
  end.

Lemma codes_formatted d opt paths common : is_Some (Crud d) ->
  formatted (@getModelStructCode outside d paths (IsEmbed opt) (JSONNamedType opt)) /\
  formatted (@getUpdateFieldsCode outside d) /\ formatted (@getModelJSONCode outside d) /\
  formatted (if common : bool then @getCommonHandlerStructCodes _ outside nouns d (JSONNamedType opt)
             else @getHandlerStructCodes _ outside nouns d (JSONNamedType opt)) /\
  formatted (if common then @getCommonServiceStructCode outside d else @getServiceStructCode outside d) /\
  formatted (if common then @getCommonProtoFileCode _ outside nouns d (JSONNamedType opt) (IsWebProto opt) (IsExtendedAPI opt)
             else @getProtoFileCode _ outside nouns d (JSONNamedType opt) (IsWebProto opt) (IsExtendedAPI opt)).
Proof.
  intros Hc. repeat apply conj; try destruct common;
    unfold getModelStructCode, getTableColumnsCode, getUpdateFieldsCode, getModelJSONCode, getCommonHandlerStructCodes, getHandlerStructCodes,
      getCommonServiceStructCode, getServiceStructCode, service_codes, getCommonProtoFileCode, getProtoFileCode; cbv zeta; formatted_steps.
Qed.

Lemma make_fields_length opt cols : forall keys, length (fst (make_fields nouns opt keys cols)) = length cols.
Proof.
  induction cols as [|col cols IH]; intros keys; [done|]. cbn. destruct (make_field _ _ _ _) as [[field paths] keys']. specialize (IH keys').
  destruct (make_fields nouns opt keys' cols). cbn in *. by rewrite IH.
Qed.
Lemma key_field_some f l : is_Some (key_field (f :: l)).
Proof. unfold key_field. repeat case_match; eauto. Qed.

Lemma data_of_columns stmt opt : Forall (fun c => c <> ConstraintPrimaryKey []) (Constraints stmt) ->
  match make_data nouns stmt opt with
  | Ok (d, _) => Cols stmt <> [] /\ is_Some (Crud d)
  | Err (ErrNoColumns _) => Cols stmt = []
  | _ => False
  end.
Proof.
  intros Hk. unfold make_data. destruct (primary_keys_ok _ Hk) as [keys ->]. cbn [mbind result_bind].
  pose proof (make_fields_length opt (Cols stmt) keys) as Hl. destruct (make_fields nouns opt keys (Cols stmt)) as [fields paths].
  destruct fields as [|f fields]; cbn in Hl; [by destruct (Cols stmt)|]. split; [by destruct (Cols stmt)|]. cbn [Crud].
  unfold newCrudInfo. destruct (key_field_some f fields) as [k ->]. cbn. eauto.
Qed.

(** Code, unless there are no columns. *)
Definition code_result (cols : list ColumnDef) (r : result error codeText) : Prop :=
  match r with
  | Ok _ => cols <> []
  | Err (ErrNoColumns _) => cols = []
  | Err e => e = ErrFormat /\ exists s, gofmt_source s = None
  | Panic => False
  end.
Lemma formatted_code (r : result error codeText) cols : cols <> [] -> formatted r -> code_result cols r.
Proof. destruct r as [|[]|]; intros Hc Hr; [exact Hc|exact Hr|by destruct Hr|exact Hr..]. Qed.

Lemma code_of_columns stmt opt : Forall (fun c => c <> ConstraintPrimaryKey []) (Constraints stmt) ->
  code_result (Cols stmt) (make stmt opt).
Proof.
  intros Hk. unfold makeCode. pose proof (data_of_columns stmt opt Hk) as Hd. destruct (make_data nouns stmt opt) as [[d paths]|[]|]; try done.
  destruct Hd as [Hcols Hc]. cbn [mbind result_bind]. destruct (IsCustomTemplate opt); [done|].
  destruct (codes_formatted d opt paths (isCommonStyle d (IsEmbed opt)) Hc) as (H1 & H2 & H3 & H4 & H5 & H6). cbv zeta.
  apply (formatted_code _ _ Hcols). apply formatted_bind; [exact H1|intros [code paths']].
  do 5 (apply formatted_bind; [assumption|intros ?]). exact I.
Qed.

(** C31: With the templates of the package, and when no key constraint is empty, a
    parsed text of statements has code exactly when every table has a column;
    else the error names a table without columns, or gofmt refused a text.
    No template fails. *)
Theorem every_table_has_code sql opts stmts :
  parse sql (Charset (parseOption opts)) (Collation (parseOption opts)) = Some stmts ->
  Forall (fun ct => Forall (fun c => c <> ConstraintPrimaryKey []) (Constraints ct)) (creates stmts) ->
  match @ParseSQL _ outside nouns sql opts with
  | Ok _ => Forall (fun ct => Cols ct <> []) (creates stmts)
  | Err (ErrNoColumns _) => Exists (fun ct => Cols ct = []) (creates stmts)
  | Err ErrFormat => exists s, gofmt_source s = None
  | _ => False
  end.
Proof.
  intros Hp Hk. unfold ParseSQL. cbn [Parse rendering]. rewrite Hp. set (opt := parseOption opts).
  assert (match traverse (fun ct => make ct opt) (creates stmts) with
          | Ok _ => Forall (fun ct => Cols ct <> []) (creates stmts)
          | Err (ErrNoColumns _) => Exists (fun ct => Cols ct = []) (creates stmts)
          | Err e => e = ErrFormat /\ exists s, gofmt_source s = None
          | Panic => False
          end) as Ht.
  { clear Hp. induction Hk as [|ct l Hct _ IH]; cbn; [done|]. pose proof (code_of_columns ct opt Hct) as Hc.
    destruct (make ct opt) as [c|[]|]; cbn; try (by constructor); try (by destruct Hc).
    destruct (traverse _ l) as [cs|[]|]; cbn in *; auto using Forall_cons_2, Exists_cons_tl. }
  destruct (traverse _ _) as [codes|e|]; cbn [mbind result_bind]; [|by destruct e; try done; destruct Ht|done].
  unfold getModelCode. cbn [ExecuteModel rendering]. destruct (model_renders (mkModelCodes (Package opt)
    (sorted_set (mjoin (map importPaths codes))) (map modelStruct codes))) as [s ->].
  pose proof (gofmt_formatted s) as Hg. by destruct (gofmt s) as [|e|]; [..|destruct Hg as [-> ?]|].
Qed.

End Tables.

(** ** What some templates render *)

Definition tab : string := single (ascii_of_nat 9).
Definition comment_of (f : tmplField) : string := if negb (bool_decide (FComment f = "")) then " // " +:+ FComment f else "".
(** The line of a field in a message. *)
Definition message_line (k : nat) (f : tmplField) : string :=
  lf +:+ tab +:+ GoType f +:+ " " +:+ JSONName f +:+ " = " +:+ Itoa (wrap64 (Z.of_nat k + 1)) +:+ "; " +:+ comment_of f.

(** In the message of a create request and the message of a row the fields are
    in the order of the columns and numbered from one. *)
Theorem message_fields_numbered d :
  TextTemplate.Execute (raw protoMessageCreateTmpl) (data_value d)
    = Some ("message Create" +:+ TableName d +:+ "Request {" +:+ Concat (imap message_line (Fields d)) +:+ lf +:+ "}") /\
  TextTemplate.Execute (raw protoMessageDetailTmpl) (data_value d)
    = Some ("message " +:+ TableName d +:+ " {" +:+ Concat (imap message_line (Fields d)) +:+ lf +:+ "}").
Proof.
  split; [render_text (raw protoMessageCreateTmpl)|render_text (raw protoMessageDetailTmpl)]; finish_text;
    intros; unfold message_line, comment_of; rewrite ?app_nil_s; reflexivity.
Qed.

(** The line of a field in the struct of a model, with its tag and comment. *)
Definition struct_line (_ : nat) (f : tmplField) : string :=
  lf +:+ tab +:+ FName f +:+ " " +:+ GoType f +:+ " " +:+ (if negb (bool_decide (FTag f = "")) then "`" +:+ FTag f +:+ "`" else "") +:+ comment_of f.
(** The white list has each column once per field, and the struct each field. *)
Theorem model_follows_fields d :
  TextTemplate.Execute (raw tableColumnsTmpl) (data_value d)
    = Some ((lf +:+ "// ") +:+ TableName d
            +:+ ("ColumnNames Whitelist for custom query fields to prevent sql injection attacks" +:+ lf +:+ "var ") +:+ TableName d
            +:+ "ColumnNames = map[string]bool{"
            +:+ Concat (imap (fun _ f => lf +:+ tab +:+ single dquote +:+ ColName f +:+ single dquote +:+ ": true,") (Fields d))
            +:+ lf +:+ "}" +:+ lf) /\
  exists before after, TextTemplate.Execute (raw modelStructTmpl) (data_value d)
    = Some (before +:+ "type " +:+ TableName d +:+ " struct {" +:+ Concat (imap struct_line (Fields d)) +:+ after).
Proof.
  split.
  - render_text (raw tableColumnsTmpl). finish_text.
  - do 2 eexists. render_text (raw modelStructTmpl). finish_text. intros. unfold struct_line, comment_of. rewrite ?app_nil_s. reflexivity.
Qed.

(** ** A table to try it on *)

Definition sample_parse (sql charset collation : string) : option (list Stmt) := Some [SCreateTable (coupons false); SOther].
#[local] Notation sample := (rendering sample_parse Some (fun _ => "") (fun _ => "")).

Example every_table_has_code_witness :
  match @ParseSQL sample_words sample peculiarNouns "create table" [WithDBDriver "mysql"] with
  | Ok _ => Forall (fun ct => Cols ct <> []) [coupons false]
  | Err (ErrNoColumns _) => Exists (fun ct => Cols ct = []) [coupons false]
  | Err ErrFormat => exists s, @Some string s = None
  | _ => False
  end.
Proof.
  apply (@every_table_has_code sample_words sample_parse Some (fun _ => "") (fun _ => "") peculiarNouns "create table" [WithDBDriver "mysql"]
    [SCreateTable (coupons false); SOther]); [reflexivity|]. repeat constructor. discriminate.
Defined.

(** What is made for that table, of its own key. *)
Example coupon_codes :
  match @ParseSQL sample_words sample peculiarNouns "create table" [WithDBDriver "mysql"] with
  | Ok codes => assoc codes "model" = Some (text ["package model


type Coupon struct {
	Code string `gorm:"; "column:code;primary_key"; "`
	UserID int `gorm:"; "column:user_id;not null"; "`
}

// TableName table name
func (m *Coupon) TableName() string {
	return "; "coupon"; "
}


// CouponColumnNames Whitelist for custom query fields to prevent sql injection attacks
var CouponColumnNames = map[string]bool{
	"; "code"; ": true,
	"; "user_id"; ": true,
}

"])
  | _ => False
  end.
Proof. by vm_compute. Qed.

(** With names in snake case the path of an update has a parameter that is no
    field of its message. *)
Definition vouchers : CreateTableStmt :=
  mkCreate "voucher" [] [ConstraintPrimaryKey ["voucher_code"]] [mkColumn "voucher_code" varchar_type []; mkColumn "user_id" int_type [OptNotNull]].
Example snake_key_not_in_path :
  match @ParseSQL sample_words (rendering (fun _ _ _ => Some [SCreateTable vouchers]) Some (fun _ => "") (fun _ => "")) peculiarNouns "create table"
          [WithDBDriver "mysql"; WithJSONTag 0; WithWebProto] with
  | Ok codes =>
      match assoc codes "proto" with
      | Some proto => Contains proto ("put: " +:+ quoted "/api/v1/voucher/{voucherCode}")
                      && negb (Contains proto ("message UpdateVoucherByVoucherCodeRequest {" +:+ lf +:+ tab +:+ "string voucherCode"))
      | None => false
      end
  | _ => false
  end = true.
Proof. by vm_compute. Qed.

End SqlTemplates.
