(* ===== verification/ProtoTemplates.v ===== *)
(** * The templates of the protoc plugins

    The texts of protoc-gen-go-gin and protoc-gen-go-rpc-tmpl, executed by the
    model of text/template on the data of ProtoParse.v, in place of the
    variables of ProtoPlugins.v.

    Theorems: every template renders whatever the services, so the plugins do
    not panic in one; the generated router registers the routes of a service
    in order, each with the handler it declares below. *)

From S2P Require Import Prelude GoStr TextTemplate ProtoParse.
From Stdlib Require Import Ascii.

Module ProtoTemplates.
Import TextTemplate.

(** ** Texts *)

(** protoc-gen-go-gin/internal/generate/handler/template.go *)
Module Handler.

Definition handlerLogicTmplRaw : string := text ["// Code generated by https://github.com/moweilong/milady

package handler

import (
	"; "context"; "

	//"; "github.com/moweilong/milady/pkg/gin/middleware"; "

	// import api service package here
)

{{- range .PbServices}}

var _ {{.ProtoPkgName}}.{{.Name}}Logicer = (*{{.LowerName}}Handler)(nil)

type {{.LowerName}}Handler struct {
	// example: 
	// 	{{.LowerName}}Dao dao.{{.Name}}Dao
}

// New{{.Name}}Handler create a handler
func New{{.Name}}Handler() {{.ProtoPkgName}}.{{.Name}}Logicer {
	return &{{.LowerName}}Handler{
		// example:
		// 	{{.LowerName}}Dao: dao.New{{.Name}}Dao(
		// 		database.GetDB(),
		// 		cache.New{{.Name}}Cache(database.GetCacheType()),
		// 	),
	}
}

{{- range .Methods}}

{{if eq .InvokeType 0}}{{if .Path}}{{.Comment}}
func (h *{{.LowerServiceName}}Handler) {{.MethodName}}(ctx context.Context, req *{{.RequestImportPkgName}}.{{.Request}}) (*{{.ReplyImportPkgName}}.{{.Reply}}, error) {
	panic("; "implement me"; ")

	// fill in the business logic code here
	// example:
	//	    {{if .IsIgnoreShouldBind}}c, ctx := middleware.AdaptCtx(ctx)
	//	    if err = c.ShouldBindJSON(req); err != nil {
	//	    	logger.Warn("; "ShouldBindJSON error"; ", logger.Err(err), middleware.CtxRequestIDField(ctx))
	//	    	return nil, ecode.InvalidParams.Err()
	//	    }{{else}}{{if .IsPassGinContext}}c, ctx := middleware.AdaptCtx(ctx){{end}}{{end}}
	//	    err := req.Validate()
	//	    if err != nil {
	//		    logger.Warn("; "req.Validate error"; ", logger.Err(err), logger.Any("; "req"; ", req), middleware.CtxRequestIDField(ctx))
	//		    return nil, ecode.InvalidParams.Err()
	//	    }
	//
	//	    reply, err := h.{{.LowerServiceName}}Dao.{{.MethodName}}(ctx, &model.{{.ServiceName}}{
{{- range .RequestFields}}
	//     	{{.Name}}: req.{{.Name}},
{{- end}}
	//     })
	//	    if err != nil {
	//			logger.Warn("; "{{.MethodName}} error"; ", logger.Err(err), middleware.CtxRequestIDField(ctx))
	//			return nil, ecode.InternalServerError.Err()
	//		}
	//
	//     return &{{.ReplyImportPkgName}}.{{.Reply}}{
{{- range .ReplyFields}}
	//     	{{.Name}}: reply.{{.Name}},
{{- end}}
	//     }, nil
}{{end}}{{end}}

{{- end}}
{{- end}}
"].

Definition routerTmplRaw : string := text ["// Code generated by https://github.com/moweilong/milady

package routers

import (
	"; "github.com/gin-gonic/gin"; "

	"; "github.com/moweilong/milady/pkg/logger"; "
	//"; "github.com/moweilong/milady/pkg/middleware"; "

	// import api service package here
	"; "moduleNameExample/internal/handler"; "
)

func init() {
	allMiddlewareFns = append(allMiddlewareFns, func(c *middlewareConfig) {
{{- range .PbServices}}
		{{.LowerName}}Middlewares(c)
{{- end}}
	})

	allRouteFns = append(allRouteFns,
		func(r *gin.Engine, groupPathMiddlewares map[string][]gin.HandlerFunc, singlePathMiddlewares map[string][]gin.HandlerFunc) {
{{- range .PbServices}}
			{{.LowerName}}Router(r, groupPathMiddlewares, singlePathMiddlewares, handler.New{{.Name}}Handler())
{{- end}}
		})
}

{{- range .PbServices}}

func {{.LowerName}}Router(
	r *gin.Engine,
	groupPathMiddlewares map[string][]gin.HandlerFunc,
	singlePathMiddlewares map[string][]gin.HandlerFunc,
	iService {{.ProtoPkgName}}.{{.Name}}Logicer) {
	{{.ProtoPkgName}}.Register{{.Name}}Router(
		r,
		groupPathMiddlewares,
		singlePathMiddlewares,
		iService,
		{{.ProtoPkgName}}.With{{.Name}}Logger(logger.Get()),
		{{.ProtoPkgName}}.With{{.Name}}HTTPResponse(),
		{{.ProtoPkgName}}.With{{.Name}}ErrorToHTTPCode(
			// Set some error codes to standard http return codes,
			// by default there is already ecode.InternalServerError and ecode.ServiceUnavailable
			// example:
			// 	ecode.Forbidden, ecode.LimitExceed,
		),
	)
}

// you can set the middleware of a route group, or set the middleware of a single route, 
// or you can mix them, pay attention to the duplication of middleware when mixing them, 
// it is recommended to set the middleware of a single route in preference
func {{.LowerName}}Middlewares(c *middlewareConfig) {
	// JWT authentication reference: https://go-sponge.com/component/transport/gin.html#jwt-authorization-middleware

	// set up group route middleware, group path is left prefix rules,
	// if the left prefix is hit, the middleware will take effect, e.g. group route is /api/v1, route /api/v1/{{.LowerName}}/:id  will take effect
	// c.setGroupPath("; "/api/v1/{{.LowerName}}"; ", middleware.Auth())

	// set up single route middleware, just uncomment the code and fill in the middlewares, nothing else needs to be changed
{{- range .Methods}}
	{{if eq .InvokeType 0}}{{if .Path}}//c.setSinglePath("; "{{.Method}}"; ", "; "{{.Path}}"; ", middleware.Auth())    {{.Comment}}{{end}}{{end}}
{{- end}}
}

{{- end}}
"].

Definition mixLogicTmplRaw : string := text ["// Code generated by https://github.com/moweilong/milady

package handler

import (
	"; "context"; "

	// import api service package here
	"; "moduleNameExample/internal/service"; "
)

{{- range .PbServices}}

var _ {{.ProtoPkgName}}.{{.Name}}Logicer = (*{{.LowerName}}Handler)(nil)

type {{.LowerName}}Handler struct {
	server {{.ProtoPkgName}}.{{.Name}}Server
}

// New{{.Name}}Handler create a handler
func New{{.Name}}Handler() {{.ProtoPkgName}}.{{.Name}}Logicer {
	return &{{.LowerName}}Handler{
		server: service.New{{.Name}}Server(),
	}
}

{{- range .Methods}}

{{if eq .InvokeType 0}}{{if .Path}}{{.Comment}}
func (h *{{.LowerServiceName}}Handler) {{.MethodName}}(ctx context.Context, req *{{.RequestImportPkgName}}.{{.Request}}) (*{{.ReplyImportPkgName}}.{{.Reply}}, error) {
	{{if eq true .IsIgnoreShouldBind .IsPassGinContext}}_, ctx = middleware.AdaptCtx(ctx){{end}}
	return h.server.{{.MethodName}}(ctx, req)
}{{end}}{{end}}

{{- end}}
{{- end}}
"].

Definition mixRouterTmplRaw : string := text ["// Code generated by https://github.com/moweilong/milady

package routers

import (
	"; "context"; "

	"; "github.com/gin-gonic/gin"; "
	"; "google.golang.org/grpc/metadata"; "

	"; "github.com/moweilong/milady/pkg/gin/middleware"; "
	"; "github.com/moweilong/milady/pkg/logger"; "

	// import api service package here
	"; "moduleNameExample/internal/handler"; "
)

func init() {
	allMiddlewareFns = append(allMiddlewareFns, func(c *middlewareConfig) {
{{- range .PbServices}}
		{{.LowerName}}Middlewares(c)
{{- end}}
	})

	allRouteFns = append(allRouteFns,
		func(r *gin.Engine, groupPathMiddlewares map[string][]gin.HandlerFunc, singlePathMiddlewares map[string][]gin.HandlerFunc) {
{{- range .PbServices}}
			{{.LowerName}}Router(r, groupPathMiddlewares, singlePathMiddlewares, handler.New{{.Name}}Handler())
{{- end}}
		})
}

{{- range .PbServices}}

func {{.LowerName}}Router(
	r *gin.Engine,
	groupPathMiddlewares map[string][]gin.HandlerFunc,
	singlePathMiddlewares map[string][]gin.HandlerFunc,
	iService {{.ProtoPkgName}}.{{.Name}}Logicer) {
	ctxFn := func(c *gin.Context) context.Context {
		md := metadata.New(map[string]string{
			middleware.ContextRequestIDKey: middleware.GCtxRequestID(c), // request_id
			//middleware.HeaderAuthorizationKey: c.GetHeader(middleware.HeaderAuthorizationKey),  // authorization
		})
		return metadata.NewIncomingContext(c.Request.Context(), md)
	}
	{{.ProtoPkgName}}.Register{{.Name}}Router(
		r,
		groupPathMiddlewares,
		singlePathMiddlewares,
		iService,
		{{.ProtoPkgName}}.With{{.Name}}Logger(logger.Get()),
		{{.ProtoPkgName}}.With{{.Name}}RPCResponse(),
		{{.ProtoPkgName}}.With{{.Name}}WrapCtx(ctxFn),
		{{.ProtoPkgName}}.With{{.Name}}ErrorToHTTPCode(
			// Set some error codes to standard http return codes,
			// by default there is already ecode.InternalServerError and ecode.ServiceUnavailable
			// example:
			// 	ecode.Forbidden, ecode.LimitExceed,
		),
	)
}

// you can set the middleware of a route group, or set the middleware of a single route, 
// or you can mix them, pay attention to the duplication of middleware when mixing them, 
// it is recommended to set the middleware of a single route in preference
func {{.LowerName}}Middlewares(c *middlewareConfig) {
	// set up group route middleware, group path is left prefix rules,
	// if the left prefix is hit, the middleware will take effect, e.g. group route is /api/v1, route /api/v1/{{.LowerName}}/:id  will take effect
	// c.setGroupPath("; "/api/v1/{{.LowerName}}"; ", middleware.Auth())

	// set up single route middleware, just uncomment the code and fill in the middlewares, nothing else needs to be changed
{{- range .Methods}}
	{{if eq .InvokeType 0}}{{if .Path}}//c.setSinglePath("; "{{.Method}}"; ", "; "{{.Path}}"; ", middleware.Auth())    {{.Comment}}{{end}}{{end}}
{{- end}}
}

{{- end}}
"].

Definition httpErrCodeTmplRaw : string := text ["// Code generated by https://github.com/moweilong/milady

package ecode

import (
	"; "github.com/moweilong/milady/pkg/errcode"; "
)

{{- range .PbServices}}

// {{.LowerName}} business-level http error codes.
// the {{.LowerName}}NO value range is 1~999, if the same error code is used, it will cause panic.
var (
	{{.LowerName}}NO       = 1
	{{.LowerName}}Name     = "; "{{.LowerName}}"; "
	{{.LowerName}}BaseCode = errcode.HCode({{.LowerName}}NO)
// --blank line--
{{- range $i, $v := .Methods}}
	{{if eq .InvokeType 0}}{{if .Path}}Err{{.MethodName}}{{.ServiceName}}   = errcode.NewError({{.LowerServiceName}}BaseCode+{{$v.AddOne $i}}, "; "failed to {{.MethodName}} "; "+{{.LowerServiceName}}Name){{end}}{{end}}
{{- end}}

	// error codes are globally unique, adding 1 to the previous error code
)

{{- end}}
"].

End Handler.

(** protoc-gen-go-gin/internal/generate/service/template.go *)
Module Service.

Definition serviceLogicTmplRaw : string := text ["// Code generated by https://github.com/go-dev-frame/sponge

package service

import (
	"; "context"; "

	// import api service package here
	//"; "moduleNameExample/internal/rpcclient"; "
)

{{- range .PbServices}}

var _ {{.ProtoPkgName}}.{{.Name}}Logicer = (*{{.LowerName}}Client)(nil)

type {{.LowerName}}Client struct {
	// define rpc clients interface here
	// example:
	//	    {{.LowerName}}Cli {{.ProtoPkgName}}.{{.Name}}Client
}

// New{{.Name}}Client create a client
func New{{.Name}}Client() {{.ProtoPkgName}}.{{.Name}}Logicer {
	return &{{.LowerName}}Client{
		// example:
		//	    {{.LowerName}}Cli: {{.ProtoPkgName}}.New{{.Name}}Client(rpcclient.Get{{.CutServiceName}}RPCConn()),
	}
}

{{- range .Methods}}

{{if eq .InvokeType 0}}{{if .Path}}{{.Comment}}
func (c *{{.LowerServiceName}}Client) {{.MethodName}}(ctx context.Context, req *{{.RequestImportPkgName}}.{{.Request}}) (*{{.ReplyImportPkgName}}.{{.Reply}}, error) {
	panic("; "implement me"; ")

	// fill in the business logic code here
	// example:
	//	    {{if .IsIgnoreShouldBind}}gc, ctx := middleware.AdaptCtx(ctx)
	//	    if err = gc.ShouldBindJSON(req); err != nil {
	//	    	logger.Warn("; "ShouldBindJSON error"; ", logger.Err(err), middleware.CtxRequestIDField(ctx))
	//	    	return nil, ecode.StatusInvalidParams.Err()
	//	    }{{else}}{{if .IsPassGinContext}}gc, ctx := middleware.AdaptCtx(ctx){{end}}{{end}}
	//	    err := req.Validate()
	//	    if err != nil {
	//		    logger.Warn("; "req.Validate error"; ", logger.Err(err), logger.Any("; "req"; ", req), interceptor.CtxRequestIDField(ctx))
	//		    return nil, ecode.StatusInvalidParams.Err()
	//	    }
	//
	//	    reply, err := c.{{.LowerServiceName}}Cli.{{.MethodName}}(ctx, &{{.RequestImportPkgName}}.{{.Request}}{
{{- range .RequestFields}}
	//     	{{.Name}}: req.{{.Name}},
{{- end}}
	//     })
	//	    if err != nil {
	//     	logger.Warn("; "{{.MethodName}} error"; ", logger.Err(err), interceptor.CtxRequestIDField(ctx))
	//     	return nil, err
	//     }
	//
	//     return &{{.ReplyImportPkgName}}.{{.Reply}}{
{{- range .ReplyFields}}
	//     	{{.Name}}: reply.{{.Name}},
{{- end}}
	//     }, nil
}{{end}}{{end}}

{{- end}}
{{- end}}
"].

Definition routerTmplRaw : string := text ["// Code generated by https://github.com/go-dev-frame/sponge

package routers

import (
	"; "context"; "

	"; "github.com/gin-gonic/gin"; "
	"; "google.golang.org/grpc/metadata"; "

	"; "github.com/go-dev-frame/sponge/pkg/gin/middleware"; "
	"; "github.com/go-dev-frame/sponge/pkg/logger"; "

	// import api service package here
	"; "moduleNameExample/internal/service"; "
)

func init() {
	allMiddlewareFns = append(allMiddlewareFns, func(c *middlewareConfig) {
{{- range .PbServices}}
		{{.LowerName}}Middlewares(c)
{{- end}}
	})

	allRouteFns = append(allRouteFns,
		func(r *gin.Engine, groupPathMiddlewares map[string][]gin.HandlerFunc, singlePathMiddlewares map[string][]gin.HandlerFunc) {
{{- range .PbServices}}
			{{.LowerName}}Router(r, groupPathMiddlewares, singlePathMiddlewares, service.New{{.Name}}Client())
{{- end}}
		})
}

{{- range .PbServices}}

func {{.LowerName}}Router(
	r *gin.Engine,
	groupPathMiddlewares map[string][]gin.HandlerFunc,
	singlePathMiddlewares map[string][]gin.HandlerFunc,
	iService {{.ProtoPkgName}}.{{.Name}}Logicer) {
	ctxFn := func(c *gin.Context) context.Context {
		md := metadata.New(map[string]string{
			// set metadata to be passed from http to rpc
			middleware.ContextRequestIDKey: middleware.GCtxRequestID(c), // request_id
			//middleware.HeaderAuthorizationKey: c.GetHeader(middleware.HeaderAuthorizationKey),  // authorization
		})
		return metadata.NewOutgoingContext(c.Request.Context(), md)
	}

	{{.ProtoPkgName}}.Register{{.Name}}Router(
		r,
		groupPathMiddlewares,
		singlePathMiddlewares,
		iService,
		{{.ProtoPkgName}}.With{{.Name}}Logger(logger.Get()),
		{{.ProtoPkgName}}.With{{.Name}}RPCResponse(),
		{{.ProtoPkgName}}.With{{.Name}}WrapCtx(ctxFn),
		{{.ProtoPkgName}}.With{{.Name}}RPCStatusToHTTPCode(
			// Set some error codes to standard http return codes,
			// by default there is already ecode.StatusInternalServerError and ecode.StatusServiceUnavailable
			// example:
			// 	ecode.StatusUnimplemented, ecode.StatusAborted,
		),
	)
}

// you can set the middleware of a route group, or set the middleware of a single route, 
// or you can mix them, pay attention to the duplication of middleware when mixing them, 
// it is recommended to set the middleware of a single route in preference
func {{.LowerName}}Middlewares(c *middlewareConfig) {
	// JWT authentication reference: https://go-sponge.com/component/transport/gin.html#jwt-authorization-middleware

	// set up group route middleware, group path is left prefix rules,
	// if the left prefix is hit, the middleware will take effect, e.g. group route is /api/v1, route /api/v1/{{.LowerName}}/:id  will take effect
	// c.setGroupPath("; "/api/v1/{{.LowerName}}"; ", middleware.Auth())

	// set up single route middleware, just uncomment the code and fill in the middlewares, nothing else needs to be changed
{{- range .Methods}}
	{{if eq .InvokeType 0}}{{if .Path}}//c.setSinglePath("; "{{.Method}}"; ", "; "{{.Path}}"; ", middleware.Auth())    {{.Comment}}{{end}}{{end}}
{{- end}}
}

{{- end}}
"].

Definition rpcErrCodeTmplRaw : string := text ["// Code generated by https://github.com/go-dev-frame/sponge

package ecode

import (
	"; "github.com/go-dev-frame/sponge/pkg/errcode"; "
)

{{- range .PbServices}}

// {{.LowerName}} business-level rpc error codes.
// the {{.LowerName}}NO value range is 1~999, if the same error code is used, it will cause panic.
var (
	_{{.LowerName}}NO       = 1
	_{{.LowerName}}Name     = "; "{{.LowerName}}"; "
	_{{.LowerName}}BaseCode = errcode.RCode(_{{.LowerName}}NO)
// --blank line--
{{- range $i, $v := .Methods}}
	{{if eq .InvokeType 0}}{{if .Path}}Status{{.MethodName}}{{.ServiceName}}   = errcode.NewRPCStatus(_{{.LowerServiceName}}BaseCode+{{$v.AddOne $i}}, "; "failed to {{.MethodName}} "; "+_{{.LowerServiceName}}Name){{end}}{{end}}
{{- end}}

	// error codes are globally unique, adding 1 to the previous error code
)

{{- end}}
"].

End Service.

(** protoc-gen-go-gin/internal/generate/router/template.go *)
Module Router.

Definition importPkgTmplRaw : string := text ["// Code generated by https://github.com/go-dev-frame/sponge, DO NOT EDIT.

package {{$.PackageName}}

import (
	"; "context"; "
	"; "errors"; "
	"; "strings"; "

	"; "github.com/gin-gonic/gin"; "
	"; "go.uber.org/zap"; "

	"; "github.com/go-dev-frame/sponge/pkg/errcode"; "
	"; "github.com/go-dev-frame/sponge/pkg/gin/middleware"; "

	{{$.PackagePaths}}
)
"].

Definition ginRouterTmplRaw : string := text ["
type {{$.Name}}Logicer interface {
{{- range $.UniqueMethods}}
	{{if eq .InvokeType 0}}{{if .Path}}{{.Name}}(ctx context.Context, req *{{.RequestImportPkgName}}{{.Request}}) (*{{.ReplyImportPkgName}}{{.Reply}}, error){{end}}{{end}}
{{- end}}
}

type {{$.Name}}Option func(*{{$.LowerName}}Options)

type {{$.LowerName}}Options struct {
	isFromRPC bool
	responser errcode.Responser
	zapLog    *zap.Logger
	httpErrors []*errcode.Error
	rpcStatus  []*errcode.RPCStatus
	wrapCtxFn  func(c *gin.Context) context.Context
}

func (o *{{$.LowerName}}Options) apply(opts ...{{$.Name}}Option) {
	for _, opt := range opts {
		opt(o)
	}
}

func With{{$.Name}}HTTPResponse() {{$.Name}}Option {
	return func(o *{{$.LowerName}}Options) {
		o.isFromRPC = false
	}
}

func With{{$.Name}}RPCResponse() {{$.Name}}Option {
	return func(o *{{$.LowerName}}Options) {
		o.isFromRPC = true
	}
}

func With{{$.Name}}Responser(responser errcode.Responser) {{$.Name}}Option {
	return func(o *{{$.LowerName}}Options) {
		o.responser = responser
	}
}

func With{{$.Name}}Logger(zapLog *zap.Logger) {{$.Name}}Option {
	return func(o *{{$.LowerName}}Options) {
		o.zapLog = zapLog
	}
}

func With{{$.Name}}ErrorToHTTPCode(e ...*errcode.Error) {{$.Name}}Option {
	return func(o *{{$.LowerName}}Options) {
		o.httpErrors = e
	}
}

func With{{$.Name}}RPCStatusToHTTPCode(s ...*errcode.RPCStatus) {{$.Name}}Option {
	return func(o *{{$.LowerName}}Options) {
		o.rpcStatus = s
	}
}

func With{{$.Name}}WrapCtx(wrapCtxFn func(c *gin.Context) context.Context) {{$.Name}}Option {
	return func(o *{{$.LowerName}}Options) {
		o.wrapCtxFn = wrapCtxFn
	}
}

func Register{{$.Name}}Router(
	iRouter gin.IRouter,
	groupPathMiddlewares map[string][]gin.HandlerFunc,
	singlePathMiddlewares map[string][]gin.HandlerFunc,
	iLogic {{$.Name}}Logicer,
	opts ...{{$.Name}}Option) {

	o := &{{$.LowerName}}Options{}
	o.apply(opts...)

	if o.responser == nil {
		o.responser = errcode.NewResponser(o.isFromRPC, o.httpErrors, o.rpcStatus)
	}
	if o.zapLog == nil {
		o.zapLog,_ = zap.NewProduction()
	}

	r := &{{$.LowerName}}Router {
		iRouter:               iRouter,
		groupPathMiddlewares:  groupPathMiddlewares,
		singlePathMiddlewares: singlePathMiddlewares,
		iLogic:                iLogic,
		iResponse:             o.responser,
		zapLog:                o.zapLog,
		wrapCtxFn:             o.wrapCtxFn,
	}
	r.register()
}

type {{$.LowerName}}Router struct {
	iRouter               gin.IRouter
	groupPathMiddlewares  map[string][]gin.HandlerFunc
	singlePathMiddlewares map[string][]gin.HandlerFunc
	iLogic                {{$.Name}}Logicer
	iResponse             errcode.Responser
	zapLog                *zap.Logger
	wrapCtxFn             func(c *gin.Context) context.Context
}

func (r *{{$.LowerName}}Router) register() {
{{range .Methods}}	{{if eq .InvokeType 0}}{{if .Path}}r.iRouter.Handle("; "{{.Method}}"; ", "; "{{.Path}}"; ", r.withMiddleware("; "{{.Method}}"; ", "; "{{.Path}}"; ", r.{{ .HandlerName }})...){{end}}{{end}}
{{end}}
}

func (r *{{$.LowerName}}Router) withMiddleware(method string, path string, fn gin.HandlerFunc) []gin.HandlerFunc {
	handlerFns := []gin.HandlerFunc{}

	// determine if a route group is hit or miss, left prefix rule
	for groupPath, fns := range r.groupPathMiddlewares {
		if groupPath == "; EmptyString; " || groupPath == "; "/"; " {
			handlerFns = append(handlerFns, fns...)
			continue
		}
		size := len(groupPath)
		if len(path) < size {
			continue
		}
		if groupPath == path[:size] {
			handlerFns = append(handlerFns, fns...)
		}
	}

	// determine if a single route has been hit
	key := strings.ToUpper(method) + "; "->"; " + path
	if fns, ok := r.singlePathMiddlewares[key]; ok {
		handlerFns = append(handlerFns, fns...)
	}

	return append(handlerFns, fn)
}

{{range .Methods}}
{{if eq .InvokeType 0}}{{if .Path}}func (r *{{$.LowerName}}Router) {{ .HandlerName }} (c *gin.Context) {
	req := &{{.RequestImportPkgName}}{{.Request}}{}
{{if eq .IsIgnoreShouldBind false}}	var err error
{{if .HasPathParams }}
	if err = c.ShouldBindUri(req); err != nil {
		r.zapLog.Warn("; "ShouldBindUri error"; ", zap.Error(err), middleware.GCtxRequestIDField(c))
		r.iResponse.ParamError(c, err)
		return
	}
{{end}}

{{if eq .Method "; "GET"; " "; "DELETE"; " }}
	if err = c.ShouldBindQuery(req); err != nil {
		r.zapLog.Warn("; "ShouldBindQuery error"; ", zap.Error(err), middleware.GCtxRequestIDField(c))
		r.iResponse.ParamError(c, err)
		return
	}
{{else if eq .Method "; "POST"; " "; "PUT"; " "; "PATCH"; "}}
	if err = c.ShouldBindJSON(req); err != nil {
		r.zapLog.Warn("; "ShouldBindJSON error"; ", zap.Error(err), middleware.GCtxRequestIDField(c))
		r.iResponse.ParamError(c, err)
		return
	}
{{else}}
	if err = c.ShouldBind(req); err != nil {
		r.zapLog.Warn("; "ShouldBind error"; ", zap.Error(err), middleware.GCtxRequestIDField(c))
		r.iResponse.ParamError(c, err)
		return
	}
{{end}}
{{end}}

{{if .IsPassGinContext}}
	var ctx context.Context = c
{{else}}
	var ctx context.Context
	if r.wrapCtxFn != nil {
		ctx = r.wrapCtxFn(c)
	} else {
		ctx = middleware.WrapCtx(c)
	}
{{end}}

	out, err := r.iLogic.{{.Name}}(ctx, req)
	if err != nil {
		if errors.Is(err, errcode.SkipResponse) {
			return
		}
		r.iResponse.Error(c, err)
		return
	}

	r.iResponse.Success(c, out)
}{{end}}{{end}}
{{end}}
"].

End Router.

(** protoc-gen-go-rpc-tmpl/internal/generate/service/template.go *)
Module RpcTmpl.

Definition serviceLogicTmplRaw : string := text ["// Code generated by https://github.com/go-dev-frame/sponge

package service

import (
	"; "context"; "

	"; "google.golang.org/grpc"; "

	//"; "github.com/go-dev-frame/sponge/pkg/grpc/interceptor"; "
	//"; "github.com/go-dev-frame/sponge/pkg/logger"; "

	// import api service package here
	//"; "moduleNameExample/internal/cache"; "
	//"; "moduleNameExample/internal/dao"; "
	//"; "moduleNameExample/internal/database"; "
	//"; "moduleNameExample/internal/ecode"; "
	//"; "moduleNameExample/internal/model"; "
)

func init() {
	registerFns = append(registerFns, func(server *grpc.Server) {
		{{- range .PbServices}}
		{{.ProtoPkgName}}.Register{{.Name}}Server(server, New{{.Name}}Server())
		{{- end}}
	})
}

{{- range .PbServices}}

var _ {{.ProtoPkgName}}.{{.Name}}Server = (*{{.LowerName}})(nil)

type {{.LowerName}} struct {
	{{.ProtoPkgName}}.Unimplemented{{.Name}}Server

	// example:
	//		iDao dao.{{.Name}}Dao
}

// New{{.Name}}Server create a server
func New{{.Name}}Server() {{.ProtoPkgName}}.{{.Name}}Server {
	return &{{.LowerName}}{
		// example:
		//		iDao: dao.New{{.Name}}Dao(
		//			database.GetDB(),
		//			cache.New{{.Name}}Cache(database.GetCacheType()),
		//		),
	}
}

{{- range .Methods}}
{{if eq .InvokeType 1}}
{{.Comment}}
func (s *{{.LowerServiceName}}) {{.MethodName}}(stream {{.RequestImportPkgName}}.{{.ServiceName}}_{{.MethodName}}Server) error {
	panic("; "implement me"; ")

	// fill in the business logic code here
	// example:
	//	    ctx := interceptor.WrapServerCtx(stream.Context())
	//	    for {
	//	        req, err := stream.Recv()
	//	        if err != nil {
	//	    	    if err == io.EOF {
	//	    	        return stream.SendAndClose(&{{.ReplyImportPkgName}}.{{.Reply}}{
		    	            {{- range .ReplyFields}}
	//	    	            {{.Name}}: reply.{{.Name}},
		    	            {{- end}}
	//	    	        })
	//	    	    }
	//	    	    return err
	//	        }
	//
	//	        err = req.Validate()
	//	        if err != nil {
	//		        logger.Warn("; "req.Validate error"; ", logger.Err(err), logger.Any("; "req"; ", req), interceptor.ServerCtxRequestIDField(ctx))
	//		        return ecode.StatusInvalidParams.Err()
	//	        }
	//
	//	        reply, err := s.iDao.{{.MethodName}}(ctx, &model.{{.ServiceName}}{
				    {{- range .RequestFields}}
	//     	    {{.Name}}: req.{{.Name}},
				    {{- end}}
	//         })
	//	        if err != nil {
	//			    logger.Warn("; "{{.MethodName}} error"; ", logger.Err(err), interceptor.ServerCtxRequestIDField(ctx))
	//			    return ecode.StatusInternalServerError.Err()
	//		    }
	//	    }
}
{{else if eq .InvokeType 2}}
{{.Comment}}
func (s *{{.LowerServiceName}}) {{.MethodName}}(req *{{.RequestImportPkgName}}.{{.Request}}, stream {{.ReplyImportPkgName}}.{{.ServiceName}}_{{.MethodName}}Server) error {
	panic("; "implement me"; ")

	// fill in the business logic code here
	// example:
	//	    ctx := interceptor.WrapServerCtx(stream.Context())
	//	    err := req.Validate()
	//	    if err != nil {
	//		    logger.Warn("; "req.Validate error"; ", logger.Err(err), logger.Any("; "req"; ", req), interceptor.ServerCtxRequestIDField(ctx))
	//		    return ecode.StatusInvalidParams.Err()
	//	    }
	//
	//	    for i := 0; i < 3; i++ {
	//         reply, err := s.iDao.{{.MethodName}}(ctx, &model.{{.ServiceName}}{
				    {{- range .RequestFields}}
	//     	    {{.Name}}: req.{{.Name}},
				    {{- end}}
	//         })
	//         if err != nil {
	//			    logger.Warn("; "{{.MethodName}} error"; ", logger.Err(err), interceptor.ServerCtxRequestIDField(ctx))
	//			    return ecode.StatusInternalServerError.Err()
	//		    }
	//
	//	        err = stream.Send(&{{.ReplyImportPkgName}}.{{.Reply}}{
				    {{- range .ReplyFields}}
	//	            {{.Name}}: reply.{{.Name}},
				    {{- end}}
	//	        })
	//	        if err != nil {
	//			    logger.Warn("; "stream.Send error"; ", logger.Err(err), interceptor.ServerCtxRequestIDField(ctx))
	//	    	    return err
	//	        }
	//	    }
	//	    return nil
}
{{else if eq .InvokeType 3}}
{{.Comment}}
func (s *{{.LowerServiceName}}) {{.MethodName}}(stream {{.RequestImportPkgName}}.{{.ServiceName}}_{{.MethodName}}Server) error {
	panic("; "implement me"; ")

	// fill in the business logic code here
	// example:
	//	    ctx := interceptor.WrapServerCtx(stream.Context())
	//	    for {
	//	        req, err := stream.Recv()
	//	        if err != nil {
	//	    	    if err == io.EOF {
	//	    	        return nil
	//	    	    }
	//	    	    return err
	//	        }
	//
	//	        err = req.Validate()
	//	        if err != nil {
	//		        logger.Warn("; "req.Validate error"; ", logger.Err(err), logger.Any("; "req"; ", req), interceptor.ServerCtxRequestIDField(ctx))
	//		        return ecode.StatusInvalidParams.Err()
	//	        }
	//
	//         reply, err := s.iDao.{{.MethodName}}(ctx, &model.{{.ServiceName}}{
				    {{- range .RequestFields}}
	//     	    {{.Name}}: req.{{.Name}},
				    {{- end}}
	//         })
	//         if err != nil {
	//			    logger.Warn("; "{{.MethodName}} error"; ", logger.Err(err), interceptor.ServerCtxRequestIDField(ctx))
	//			    return ecode.StatusInternalServerError.Err()
	//		    }
	//
	//	    	err = stream.Send(&{{.ReplyImportPkgName}}.{{.Reply}}{
				    {{- range .ReplyFields}}
	//			    {{.Name}}: reply.{{.Name}},
				    {{- end}}
	//	    	})
	//         if err != nil {
	//			    logger.Warn("; "stream.Send error"; ", logger.Err(err), interceptor.ServerCtxRequestIDField(ctx))
	//			    return ecode.StatusInternalServerError.Err()
	//		    }
	//	    }
}
{{else}}
{{.Comment}}
func (s *{{.LowerServiceName}}) {{.MethodName}}(ctx context.Context, req *{{.RequestImportPkgName}}.{{.Request}}) (*{{.ReplyImportPkgName}}.{{.Reply}}, error) {
	panic("; "implement me"; ")

	// fill in the business logic code here
	// example:
	//	    err := req.Validate()
	//	    if err != nil {
	//		    logger.Warn("; "req.Validate error"; ", logger.Err(err), logger.Any("; "req"; ", req), interceptor.ServerCtxRequestIDField(ctx))
	//		    return nil, ecode.StatusInvalidParams.Err()
	//	    }
	//     ctx = interceptor.WrapServerCtx(ctx)
    //
	//     reply, err := s.iDao.{{.MethodName}}(ctx, &model.{{.ServiceName}}{
				{{- range .RequestFields}}
	//     	{{.Name}}: req.{{.Name}},
				{{- end}}
	//     })
	//     if err != nil {
	//			logger.Warn("; "{{.MethodName}} error"; ", logger.Err(err), interceptor.ServerCtxRequestIDField(ctx))
	//			return nil, ecode.StatusInternalServerError.Err()
	//		}
	//
	//     return &{{.ReplyImportPkgName}}.{{.Reply}}{
				{{- range .ReplyFields}}
	//     	{{.Name}}: reply.{{.Name}},
				{{- end}}
	//     }, nil
}
{{end}}
{{- end}}

{{- end}}
"].

Definition serviceLogicTestTmplRaw : string := text ["// Code generated by https://github.com/go-dev-frame/sponge
{{- range .PbServices}}
// Test_service_{{.LowerName}}_methods is used to test the {{.LowerName}} api
// Test_service_{{.LowerName}}_benchmark is used to performance test the {{.LowerName}} api
{{- end}}

package service

import (
	"; "context"; "
	"; "encoding/json"; "
	"; "fmt"; "
	"; "testing"; "
	"; "time"; "

	"; "github.com/go-dev-frame/sponge/pkg/grpc/benchmark"; "

	// import api service package here
	"; "moduleNameExample/configs"; "
	"; "moduleNameExample/internal/config"; "
)

{{- range .PbServices}}

// Test service {{.LowerName}} api via grpc client
func Test_service_{{.LowerName}}_methods(t *testing.T) {
	conn := getRPCClientConnForTest()
	cli := {{.ProtoPkgName}}.New{{.Name}}Client(conn)
	ctx, _ := context.WithTimeout(context.Background(), time.Second*30)

	tests := []struct {
		name    string
		fn      func() (interface{}, error)
		wantErr bool
	}{
{{- range .Methods}}
{{if eq .InvokeType 1}}
		{
			name: "; "{{.MethodName}}"; ",
			fn: func() (interface{}, error) {
				// todo type in the parameters before testing
				req := &{{.RequestImportPkgName}}.{{.Request}}{
					{{- range .RequestFields}}
					{{.Name}}: {{.GoTypeZero}}, {{if .Comment}} {{.Comment}}{{end}}
					{{- end}}
				}

				stream, err := cli.{{.MethodName}}(context.Background())
				if err != nil {
					return nil, err
				}
				for i:=0; i<3; i++ {
					err = stream.Send(req)
					if err != nil {
						return nil, err
					}
				}
				return stream.CloseAndRecv()
			},
			wantErr: false,
		},
{{else if eq .InvokeType 2}}
		{
			name: "; "{{.MethodName}}"; ",
			fn: func() (interface{}, error) {
				// todo type in the parameters before testing
				req := &{{.RequestImportPkgName}}.{{.Request}}{
					{{- range .RequestFields}}
					{{.Name}}: {{.GoTypeZero}}, {{if .Comment}} {{.Comment}}{{end}}
					{{- end}}
				}

				ctx, _ := context.WithTimeout(context.Background(), 10*time.Second)
				stream, err := cli.{{.MethodName}}(ctx, req)
				if err != nil {
					return nil, err
				}
				result := &{{.ReplyImportPkgName}}.{{.Reply}}{}
				for {
					select {
					case <-ctx.Done():
						return nil, stream.CloseSend()
					default:
						reply, err := stream.Recv()
						if err == ioEOF {
							return result, nil
						}
						if err != nil {
							return nil, err
						}
						result = reply
					}
				}
			},
			wantErr: false,
		},
{{else if eq .InvokeType 3}}
		{
			name: "; "{{.MethodName}}"; ",
			fn: func() (interface{}, error) {
				// todo type in the parameters before testing
				req := &{{.RequestImportPkgName}}.{{.Request}}{
					{{- range .RequestFields}}
					{{.Name}}: {{.GoTypeZero}}, {{if .Comment}} {{.Comment}}{{end}}
					{{- end}}
				}

				stream, err := cli.{{.MethodName}}(context.Background())
				if err != nil {
					return nil, err
				}
				reply := &{{.ReplyImportPkgName}}.{{.Reply}}{}
				for i:=0; i<3; i++ {
					err = stream.Send(req)
					if err != nil {
						return nil, err
					}
					reply, err = stream.Recv()
					if err == ioEOF {
						return &{{.ReplyImportPkgName}}.{{.Reply}}{
							{{- range .ReplyFields}}
							{{.Name}}: reply.{{.Name}},
							{{- end}}
						}, nil
					}
					if err != nil {
						return nil, err
					}
				}
				return reply, stream.CloseSend()
			},
			wantErr: false,
		},
{{else}}
		{
			name: "; "{{.MethodName}}"; ",
			fn: func() (interface{}, error) {
				// todo type in the parameters before testing
				req := &{{.RequestImportPkgName}}.{{.Request}}{
					{{- range .RequestFields}}
					{{.Name}}: {{.GoTypeZero}}, {{if .Comment}} {{.Comment}}{{end}}
					{{- end}}
				}

				return cli.{{.MethodName}}(ctx, req)
			},
			wantErr: false,
		},
{{end}}
{{- end}}
	}

	for _, tt := range tests {
		t.Run(tt.name, func(t *testing.T) {
			got, err := tt.fn()
			if (err != nil) != tt.wantErr {
				t.Errorf("; "test '%s' error = %v, wantErr %v"; ", tt.name, err, tt.wantErr)
				return
			}
			data, _ := json.MarshalIndent(got, "; EmptyString; ", "; "    "; ")
			fmt.Println(string(data))
		})
	}
}

// performance test service {{.LowerName}} api, copy the report to
// the browser to view when the pressure test is finished.
func Test_service_{{.LowerName}}_benchmark(t *testing.T) {
	err := config.Init(configs.Path("; "serverNameExample.yml"; "))
	if err != nil {
		panic(err)
	}

	grpcClientCfg := getGRPCClientCfg()
	host := fmt.Sprintf("; "%s:%d"; ", grpcClientCfg.Host, grpcClientCfg.Port)
	protoFile := configs.Path("; "../{{.ProtoFileDir}}/{{.ProtoName}}"; ")
	// If third-party dependencies are missing during the press test,
	// copy them to the project's third_party directory.
	dependentProtoFilePath := []string{
		configs.Path("; "../third_party"; "), // third_party directory
		configs.Path("; ".."; "),             // Previous level of third_party
	}

	tests := []struct {
		name    string
		fn      func() error
		wantErr bool
	}{
{{- range .Methods}}
{{if eq .InvokeType 1}}
		{
			name: "; "{{.MethodName}}"; ",
			fn: func() error {
				// todo type in the parameters before benchmark testing
				message := &{{.RequestImportPkgName}}.{{.Request}}{
					{{- range .RequestFields}}
					{{.Name}}: {{.GoTypeZero}}, {{if .Comment}} {{.Comment}}{{end}}
					{{- end}}
				}
				total := 100 // total number of requests

				options := []benchmark.Option{
					// runner.WithStreamCallCount(10), // steam count, need to import "; "github.com/bojand/ghz/runner"; "
				}

				b, err := benchmark.New(host, protoFile, "; "{{.MethodName}}"; ", message, dependentProtoFilePath, total, options...)
				if err != nil {
					return err
				}
				return b.Run()
			},
			wantErr: false,
		},
{{else if eq .InvokeType 2}}
		{
			name: "; "{{.MethodName}}"; ",
			fn: func() error {
				// todo type in the parameters before benchmark testing
				message := &{{.RequestImportPkgName}}.{{.Request}}{
					{{- range .RequestFields}}
					{{.Name}}: {{.GoTypeZero}}, {{if .Comment}} {{.Comment}}{{end}}
					{{- end}}
				}
				total := 100 // total number of requests

				options := []benchmark.Option{
					// runner.WithStreamCallCount(10), // steam count, need to import "; "github.com/bojand/ghz/runner"; "
				}

				b, err := benchmark.New(host, protoFile, "; "{{.MethodName}}"; ", message, dependentProtoFilePath, total, options...)
				if err != nil {
					return err
				}
				return b.Run()
			},
			wantErr: false,
		},
{{else if eq .InvokeType 3}}
		{
			name: "; "{{.MethodName}}"; ",
			fn: func() error {
				// todo type in the parameters before benchmark testing
				message := &{{.RequestImportPkgName}}.{{.Request}}{
					{{- range .RequestFields}}
					{{.Name}}: {{.GoTypeZero}}, {{if .Comment}} {{.Comment}}{{end}}
					{{- end}}
				}
				total := 100 // total number of requests

				options := []benchmark.Option{
					// runner.WithStreamCallCount(10), // steam count, need to import "; "github.com/bojand/ghz/runner"; "
				}

				b, err := benchmark.New(host, protoFile, "; "{{.MethodName}}"; ", message, dependentProtoFilePath, total, options...)
				if err != nil {
					return err
				}
				return b.Run()
			},
			wantErr: false,
		},
{{else}}
		{
			name: "; "{{.MethodName}}"; ",
			fn: func() error {
				// todo type in the parameters before benchmark testing
				message := &{{.RequestImportPkgName}}.{{.Request}}{
					{{- range .RequestFields}}
					{{.Name}}: {{.GoTypeZero}}, {{if .Comment}} {{.Comment}}{{end}}
					{{- end}}
				}
				total := 1000 // total number of requests

				b, err := benchmark.New(host, protoFile, "; "{{.MethodName}}"; ", message, dependentProtoFilePath, total)
				if err != nil {
					return err
				}
				return b.Run()
			},
			wantErr: false,
		},
{{end}}
{{- end}}
	}

	for _, tt := range tests {
		t.Run(tt.name, func(t *testing.T) {
			err := tt.fn()
			if (err != nil) != tt.wantErr {
				t.Errorf("; "test '%s' error = %v, wantErr %v"; ", tt.name, err, tt.wantErr)
				return
			}
		})
	}
}

{{- end}}
"].

Definition rpcErrCodeTmplRaw : string := text ["// Code generated by https://github.com/go-dev-frame/sponge

package ecode

import (
	"; "github.com/go-dev-frame/sponge/pkg/errcode"; "
)

{{- range .PbServices}}

// {{.LowerName}} business-level rpc error codes.
// the _{{.LowerName}}NO value range is 1~999, if the same error code is used, it will cause panic.
var (
	_{{.LowerName}}NO       = 1
	_{{.LowerName}}Name     = "; "{{.LowerName}}"; "
	_{{.LowerName}}BaseCode = errcode.RCode(_{{.LowerName}}NO)
// --blank line--
{{- range $i, $v := .Methods}}
	Status{{.MethodName}}{{.ServiceName}}   = errcode.NewRPCStatus(_{{.LowerServiceName}}BaseCode+{{$v.AddOne $i}}, "; "failed to {{.MethodName}} "; "+_{{.LowerServiceName}}Name)
{{- end}}

	// error codes are globally unique, adding 1 to the previous error code
)

{{- end}}
"].

End RpcTmpl.

(** ** Data of the handler and service templates *)

Definition method_value (m : Proto.Gin.ServiceMethod) : value :=
  let names (l : list Proto.Gin.Field) :=
    VList (map (fun f => VStruct [("Name", VStr (Proto.Gin.fname f)); ("Type", VStr (Proto.Gin.ftype f)); ("Comment", VStr (Proto.Gin.fcomment f))]) l) in
  VStruct [("MethodName", VStr (Proto.Gin.MethodName m)); ("Request", VStr (Proto.Gin.sRequest m)); ("Reply", VStr (Proto.Gin.sReply m));
    ("RequestFields", names (Proto.Gin.RequestFields m)); ("ReplyFields", names (Proto.Gin.ReplyFields m));
    ("Comment", VStr (Proto.Gin.Comment m)); ("InvokeType", VInt (Proto.Gin.sInvokeType m)); ("ServiceName", VStr (Proto.Gin.ServiceName m));
    ("LowerServiceName", VStr (Proto.Gin.LowerServiceName m)); ("LowerCutServiceName", VStr (Proto.Gin.LowerCutServiceName m));
    ("Path", VStr (Proto.Gin.sPath m)); ("Method", VStr (Proto.Gin.sMethod m)); ("Body", VStr (Proto.Gin.sBody m));
    ("IsPassGinContext", VBool (Proto.Gin.sPassGinContext m)); ("IsIgnoreShouldBind", VBool (Proto.Gin.sIgnoreShouldBind m));
    ("RequestImportPkgName", VStr (Proto.Gin.sRequestImportPkgName m)); ("ReplyImportPkgName", VStr (Proto.Gin.sReplyImportPkgName m));
    ("ProtoPkgName", VStr (Proto.Gin.sProtoPkgName m)); ("AddOne", VMethod (fun i => Some (VInt (wrap64 (i + 1)))))].
Definition service_value (s : Proto.Gin.PbService) : value :=
  VStruct [("Name", VStr (Proto.Gin.PName s)); ("LowerName", VStr (Proto.Gin.LowerName s)); ("Methods", VList (map method_value (Proto.Gin.PMethods s)));
    ("CutServiceName", VStr (Proto.Gin.CutServiceName s)); ("LowerCutServiceName", VStr (Proto.Gin.PLowerCutServiceName s));
    ("ProtoFileDir", VStr (Proto.Gin.ProtoFileDir s)); ("ProtoPkgName", VStr (Proto.Gin.ProtoPkgName s)); ("ModuleName", VStr (Proto.Gin.ModuleName s))].
Definition services_value (pss : list Proto.Gin.PbService) : value := VStruct [("PbServices", VList (map service_value pss))].

Definition name_ty : ty := TyStruct [("Name", TyStr)].
Definition method_fields : list (string * ty) :=
  [("MethodName", TyStr); ("Request", TyStr); ("Reply", TyStr); ("Comment", TyStr); ("InvokeType", TyInt); ("ServiceName", TyStr);
   ("LowerServiceName", TyStr); ("RequestImportPkgName", TyStr); ("ReplyImportPkgName", TyStr); ("ProtoPkgName", TyStr);
   ("AddOne", TyMethod TyInt)].
Definition method_ty : ty :=
  TyStruct (method_fields ++ [("RequestFields", TyList name_ty); ("ReplyFields", TyList name_ty); ("Path", TyStr); ("Method", TyStr);
    ("IsPassGinContext", TyBool); ("IsIgnoreShouldBind", TyBool)]).
Definition service_fields : list (string * ty) := [("Name", TyStr); ("LowerName", TyStr); ("ProtoFileDir", TyStr); ("ProtoPkgName", TyStr)].
Definition services_ty : ty :=
  TyStruct [("PbServices", TyList (TyStruct (service_fields ++ [("Methods", TyList method_ty); ("CutServiceName", TyStr)])))].

(** ** Data of the router *)

Definition route_value (m : Proto.RPCMethod) : value :=
  VStruct [("Name", VStr (Proto.Name m)); ("Num", VInt (Z.of_nat (Proto.Num m))); ("Request", VStr (Proto.Request m)); ("Reply", VStr (Proto.Reply m));
    ("InvokeType", VInt (Proto.InvokeType m)); ("Path", VStr (Proto.Path m)); ("Method", VStr (Proto.Method m)); ("Body", VStr (Proto.Body m));
    ("CustomKind", VStr (Proto.CustomKind m)); ("Selector", VStr (Proto.Selector m)); ("IsPassGinContext", VBool (Proto.IsPassGinContext m));
    ("IsIgnoreShouldBind", VBool (Proto.IsIgnoreShouldBind m)); ("RequestImportPkgName", VStr (Proto.RequestImportPkgName m));
    ("ReplyImportPkgName", VStr (Proto.ReplyImportPkgName m)); ("HandlerName", VStr (Proto.HandlerName m));
    ("HasPathParams", VBool (Proto.HasPathParams m))].
Definition router_value (h : Proto.HTTPPbService) : value :=
  VStruct [("Name", VStr (Proto.hname h)); ("LowerName", VStr (Proto.hlower h)); ("Methods", VList (map route_value (Proto.Methods h)));
    ("UniqueMethods", VList (map route_value (Proto.UniqueMethods h)))].
Definition import_value (packageName packagePaths : string) : value :=
  VStruct [("PackageName", VStr packageName); ("PackagePaths", VStr packagePaths)].

Definition route_ty : ty :=
  TyStruct [("Name", TyStr); ("Request", TyStr); ("Reply", TyStr); ("InvokeType", TyInt); ("Path", TyStr); ("Method", TyStr);
    ("IsPassGinContext", TyBool); ("IsIgnoreShouldBind", TyBool); ("RequestImportPkgName", TyStr); ("ReplyImportPkgName", TyStr);
    ("HandlerName", TyStr); ("HasPathParams", TyBool)].
Definition router_ty : ty :=
  TyStruct [("Name", TyStr); ("LowerName", TyStr); ("Methods", TyList route_ty); ("UniqueMethods", TyList route_ty)].
Definition import_ty : ty := TyStruct [("PackageName", TyStr); ("PackagePaths", TyStr)].

(** ** Data of the rpc templates *)

Definition rpc_method_value (m : Proto.Rpc.ServiceMethod) : value :=
  let fields (l : list Proto.Rpc.Field) :=
    VList (map (fun f => VStruct [("Name", VStr (Proto.Rpc.fname f)); ("FieldType", VStr (Proto.Rpc.FieldType f));
      ("Comment", VStr (Proto.Rpc.fcomment f)); ("GoTypeZero", VStr (Proto.Rpc.rpc_GoTypeZero (Proto.Rpc.FieldType f)))]) l) in
  VStruct [("MethodName", VStr (Proto.Rpc.MethodName m)); ("Request", VStr (Proto.Rpc.sRequest m)); ("Reply", VStr (Proto.Rpc.sReply m));
    ("RequestFields", fields (Proto.Rpc.RequestFields m)); ("ReplyFields", fields (Proto.Rpc.ReplyFields m));
    ("Comment", VStr (Proto.Rpc.Comment m)); ("InvokeType", VInt (Proto.Rpc.sInvokeType m)); ("ServiceName", VStr (Proto.Rpc.ServiceName m));
    ("LowerServiceName", VStr (Proto.Rpc.LowerServiceName m)); ("RequestImportPkgName", VStr (Proto.Rpc.sRequestImportPkgName m));
    ("ReplyImportPkgName", VStr (Proto.Rpc.sReplyImportPkgName m)); ("ProtoPkgName", VStr (Proto.Rpc.sProtoPkgName m));
    ("AddOne", VMethod (fun i => Some (VInt (wrap64 (i + 1)))))].
Definition rpc_service_value (s : Proto.Rpc.PbService) : value :=
  VStruct [("Name", VStr (Proto.Rpc.PName s)); ("LowerName", VStr (Proto.Rpc.LowerName s)); ("ProtoName", VStr (Proto.Rpc.ProtoName s));
    ("Methods", VList (map rpc_method_value (Proto.Rpc.PMethods s))); ("ProtoFileDir", VStr (Proto.Rpc.ProtoFileDir s));
    ("ProtoPkgName", VStr (Proto.Rpc.ProtoPkgName s)); ("ModuleName", VStr (Proto.Rpc.ModuleName s))].
Definition rpc_services_value (pss : list Proto.Rpc.PbService) : value := VStruct [("PbServices", VList (map rpc_service_value pss))].

Definition rpc_field_ty : ty := TyStruct [("Name", TyStr); ("Comment", TyStr); ("GoTypeZero", TyStr)].
Definition rpc_services_ty : ty :=
  TyStruct [("PbServices", TyList (TyStruct (service_fields ++ [("ProtoName", TyStr);
    ("Methods", TyList (TyStruct (method_fields ++ [("RequestFields", TyList rpc_field_ty); ("ReplyFields", TyList rpc_field_ty)])))])))].

(** ** The templates as the plugins run them *)

Definition tmpl (s : string) (pss : list Proto.Gin.PbService) : option string := Execute s (services_value pss).
Definition handlerLogicTmpl := tmpl Handler.handlerLogicTmplRaw.
Definition handlerRouterTmpl := tmpl Handler.routerTmplRaw.
Definition httpErrCodeTmpl := tmpl Handler.httpErrCodeTmplRaw.
Definition mixLogicTmpl := tmpl Handler.mixLogicTmplRaw.
Definition mixRouterTmpl := tmpl Handler.mixRouterTmplRaw.
Definition serviceLogicTmpl := tmpl Service.serviceLogicTmplRaw.
Definition serviceRouterTmpl := tmpl Service.routerTmplRaw.
Definition rpcErrCodeTmpl := tmpl Service.rpcErrCodeTmplRaw.
Definition importPkgTmpl (packageName packagePaths : string) : option string :=
  Execute Router.importPkgTmplRaw (import_value packageName packagePaths).
Definition ginRouterTmpl (h : Proto.HTTPPbService) : option string := Execute Router.ginRouterTmplRaw (router_value h).

Definition rpc_tmpl (s : string) (pss : list Proto.Rpc.PbService) : option string := Execute s (rpc_services_value pss).
Definition rpc_serviceLogicTmpl := rpc_tmpl RpcTmpl.serviceLogicTmplRaw.
Definition rpc_serviceLogicTestTmpl := rpc_tmpl RpcTmpl.serviceLogicTestTmplRaw.
Definition rpc_errCodeTmpl := rpc_tmpl RpcTmpl.rpcErrCodeTmplRaw.

(** * Proofs *)

Definition gin_texts : list string :=
  [Handler.handlerLogicTmplRaw; Handler.routerTmplRaw; Handler.httpErrCodeTmplRaw; Handler.mixLogicTmplRaw;
   Handler.mixRouterTmplRaw; Service.serviceLogicTmplRaw; Service.routerTmplRaw; Service.rpcErrCodeTmplRaw].
Definition rpc_texts : list string := [RpcTmpl.serviceLogicTmplRaw; RpcTmpl.serviceLogicTestTmplRaw; RpcTmpl.rpcErrCodeTmplRaw].
Lemma gin_checks : forallb (fun s => Checks s services_ty) gin_texts = true.
Proof. by vm_compute. Qed.
Lemma rpc_checks : forallb (fun s => Checks s rpc_services_ty) rpc_texts = true.
Proof. by vm_compute. Qed.
Lemma router_checks : Checks Router.ginRouterTmplRaw router_ty = true /\ Checks Router.importPkgTmplRaw import_ty = true.
Proof. split; by vm_compute. Qed.

(** Lists of data with values of one type. *)
Lemma list_conforms {A} (val : A -> value) t l : (forall a, conforms t (val a)) -> conforms (TyList t) (VList (map val l)).
Proof. intros Hv. exists (map val l). split; [done|]. apply Forall_map, Forall_true, Hv. Qed.
Ltac conform := repeat first
  [ progress hnf | eexists; reflexivity | eexists; split; [reflexivity|] | exact I | apply conj
  | intros ? | apply list_conforms ].

Lemma services_conform pss : conforms services_ty (services_value pss).
Proof.
  assert (forall l, conforms (TyList name_ty) (VList (map (fun f : Proto.Gin.Field => VStruct [("Name", VStr (Proto.Gin.fname f));
    ("Type", VStr (Proto.Gin.ftype f)); ("Comment", VStr (Proto.Gin.fcomment f))]) l))) as Hnames
    by (intros l; apply list_conforms; intros f; conform).
  assert (forall m, conforms method_ty (method_value m)) as Hm by (intros m; eexists; split; [reflexivity|]; repeat apply conj; try exact (Hnames _); conform).
  eexists. split; [reflexivity|]. split; [|exact I]. apply list_conforms. intros s. eexists. split; [reflexivity|].
  repeat apply conj; try exact (list_conforms _ _ _ Hm); conform.
Qed.
Lemma rpc_services_conform pss : conforms rpc_services_ty (rpc_services_value pss).
Proof.
  assert (forall l, conforms (TyList rpc_field_ty) (VList (map (fun f => VStruct [("Name", VStr (Proto.Rpc.fname f));
    ("FieldType", VStr (Proto.Rpc.FieldType f)); ("Comment", VStr (Proto.Rpc.fcomment f));
    ("GoTypeZero", VStr (Proto.Rpc.rpc_GoTypeZero (Proto.Rpc.FieldType f)))]) l))) as Hfields
    by (intros l; apply list_conforms; intros f; conform).
  eexists. split; [reflexivity|]. split; [|exact I]. apply list_conforms. intros s. eexists. split; [reflexivity|].
  assert (forall m, conforms (TyStruct (method_fields ++ [("RequestFields", TyList rpc_field_ty); ("ReplyFields", TyList rpc_field_ty)])) (rpc_method_value m))
    as Hm by (intros m; eexists; split; [reflexivity|]; repeat apply conj; try exact (Hfields _); conform).
  repeat apply conj; try exact (list_conforms _ _ _ Hm); conform.
Qed.
Lemma router_conforms h : conforms router_ty (router_value h).
Proof.
  assert (forall m, conforms route_ty (route_value m)) as Hm by (intros m; conform).
  eexists. split; [reflexivity|]. repeat apply conj; try exact (list_conforms _ _ _ Hm); conform.
Qed.

Lemma texts_render t data texts : conforms t data -> forallb (fun s => Checks s t) texts = true ->
  Forall is_Some (map (fun s => Execute s data) texts).
Proof.
  intros Hd Hs. apply Forall_map, Forall_forall. intros s Hin. rewrite forallb_forall in Hs. apply list_elem_of_In in Hin.
  destruct (checked_template_renders _ _ _ (Hs s Hin) Hd) as [out Hout]. by exists out.
Qed.

(** C32: No template of the two plugins fails, whatever services and methods were
    parsed: the panics after a failed execution are never reached. *)
Theorem plugin_templates_render pss h rpc_pss packageName packagePaths :
  Forall is_Some [handlerLogicTmpl pss; handlerRouterTmpl pss; httpErrCodeTmpl pss; mixLogicTmpl pss; mixRouterTmpl pss; serviceLogicTmpl pss;
    serviceRouterTmpl pss; rpcErrCodeTmpl pss] /\
  Forall is_Some [rpc_serviceLogicTmpl rpc_pss; rpc_serviceLogicTestTmpl rpc_pss; rpc_errCodeTmpl rpc_pss] /\
  is_Some (ginRouterTmpl h) /\ is_Some (importPkgTmpl packageName packagePaths).
Proof.
  destruct router_checks as [Hr Hi]. split; [exact (texts_render _ _ _ (services_conform pss) gin_checks)|].
  split; [exact (texts_render _ _ _ (rpc_services_conform rpc_pss) rpc_checks)|]. split.
  - destruct (checked_template_renders _ _ _ Hr (router_conforms h)) as [out Hout]. by exists out.
  - destruct (checked_template_renders _ _ (import_value packageName packagePaths) Hi) as [out Hout]; [|by exists out].
    eexists. split; [reflexivity|]. conform.
Qed.

(** ** The routes of a service *)

Definition lf : string := single newline.
Definition tab : string := single (ascii_of_nat 9).
(** The statement that registers a unary method with a path. *)
Definition register_line (_ : nat) (m : Proto.RPCMethod) : string :=
  tab +:+ (if Proto.InvokeType m =? 0 then
             if negb (bool_decide (Proto.Path m = "")) then
               ("r.iRouter.Handle(" +:+ single dquote) +:+ Proto.Method m +:+ text [""; ", "; ""] +:+ Proto.Path m
               +:+ text [""; ", r.withMiddleware("; ""] +:+ Proto.Method m +:+ text [""; ", "; ""] +:+ Proto.Path m
               +:+ text [""; ", r."] +:+ Proto.HandlerName m +:+ ")...)"
             else ""
           else "") +:+ lf.
(** Binding the request, unless the method binds it itself: the path
    parameters, then the query or the body. *)
Definition bind (call : string) : string :=
  lf +:+ tab +:+ "if err = c." +:+ call +:+ text ["(req); err != nil {
		r.zapLog.Warn("; ""] +:+ call +:+ text [" error"; ", zap.Error(err), middleware.GCtxRequestIDField(c))
		r.iResponse.ParamError(c, err)
		return
	}
"].
Definition binding (m : Proto.RPCMethod) : string :=
  if Bool.eqb (Proto.IsIgnoreShouldBind m) false then
    (tab +:+ "var err error" +:+ lf) +:+ (if Proto.HasPathParams m then bind "ShouldBindUri" else "") +:+ (lf +:+ lf)
    +:+ (if bool_decide (Proto.Method m = "GET") || bool_decide (Proto.Method m = "DELETE") then bind "ShouldBindQuery"
         else if bool_decide (Proto.Method m = "POST") || (bool_decide (Proto.Method m = "PUT") || bool_decide (Proto.Method m = "PATCH"))
         then bind "ShouldBindJSON" else bind "ShouldBind") +:+ lf
  else "".
Definition context (m : Proto.RPCMethod) : string :=
  if Proto.IsPassGinContext m then "
	var ctx context.Context = c
" else "
	var ctx context.Context
	if r.wrapCtxFn != nil {
		ctx = r.wrapCtxFn(c)
	} else {
		ctx = middleware.WrapCtx(c)
	}
".
(** The function that handles it: it binds, calls the logic and answers. *)
Definition handler_text (h : Proto.HTTPPbService) (_ : nat) (m : Proto.RPCMethod) : string :=
  lf +:+ (if Proto.InvokeType m =? 0 then
            if negb (bool_decide (Proto.Path m = "")) then
              "func (r *" +:+ Proto.hlower h +:+ "Router) " +:+ Proto.HandlerName m
              +:+ (" (c *gin.Context) {" +:+ lf +:+ tab +:+ "req := &") +:+ Proto.RequestImportPkgName m +:+ Proto.Request m
              +:+ ("{}" +:+ lf) +:+ binding m +:+ (lf +:+ lf) +:+ context m +:+ (lf +:+ lf +:+ tab +:+ "out, err := r.iLogic.") +:+ Proto.Name m
              +:+ "(ctx, req)
	if err != nil {
		if errors.Is(err, errcode.SkipResponse) {
			return
		}
		r.iResponse.Error(c, err)
		return
	}

	r.iResponse.Success(c, out)
}"
            else ""
          else "") +:+ lf.
(** The method of the interface that the handler calls. *)
Definition interface_line (_ : nat) (m : Proto.RPCMethod) : string :=
  lf +:+ tab +:+ (if Proto.InvokeType m =? 0 then
                    if negb (bool_decide (Proto.Path m = "")) then
                      Proto.Name m +:+ "(ctx context.Context, req *" +:+ Proto.RequestImportPkgName m +:+ Proto.Request m +:+ ") (*"
                      +:+ Proto.ReplyImportPkgName m +:+ Proto.Reply m +:+ ", error)"
                    else ""
                  else "").

Lemma piece_before a b s t : Some s = Some (b +:+ t) -> Some (a +:+ s) = Some ((a +:+ b) +:+ t).
Proof. intros [= ->]. by rewrite app_assoc_s. Qed.
(** Pieces up to the list of the methods. *)
Ltac to_methods h := repeat lazymatch goal with
  | |- Some (Concat (imap _ (Proto.Methods h)) +:+ _) = _ => fail
  | |- _ => apply piece_before
  end; lazymatch goal with |- Some ?s = Some (?b +:+ _) => unify b EmptyString; rewrite app_nil_l_s end.

(** C33: The generated router declares the interface of the logic, registers every
    unary method that has a path in order, by its verb and path, and declares below
    the function that each statement registers, in the same order; it binds the path
    parameters and then the query or the body, and calls the method of the logic. *)
Theorem routes_have_handlers h : exists before between,
  ginRouterTmpl h = Some ((lf +:+ "type ") +:+ Proto.hname h +:+ "Logicer interface {" +:+ Concat (imap interface_line (Proto.UniqueMethods h))
    +:+ before +:+ Concat (imap register_line (Proto.Methods h)) +:+ between
    +:+ Concat (imap (handler_text h) (Proto.Methods h)) +:+ lf).
Proof.
  do 2 eexists. unfold ginRouterTmpl. render_text Router.ginRouterTmplRaw.
  do 3 (apply Some_app; [reflexivity|]). apply Some_app; [f_equal; apply imap_ext|].
  { intros k m _. unfold interface_line. cbn [any]. rewrite ?app_nil_s. reflexivity. }
  to_methods h. apply Some_app; [f_equal; apply imap_ext|].
  { intros k m _. unfold register_line. cbn [any]. rewrite ?app_nil_s. reflexivity. }
  to_methods h. apply Some_app; [f_equal; apply imap_ext|]; [|reflexivity].
  intros k m _. unfold handler_text, binding, context. cbn [any]. rewrite ?app_nil_s. reflexivity.
Qed.

End ProtoTemplates.
