(* ===== verification/GenRules.v ===== *)
(** * The rules of the generating commands (cmd/milady/commands/generate)

    The file names and marks of common.go, and the functions of the commands
    that make the lists of replacement rules (addFields, the rules for tables
    with an own key, the files and rules of the extended interface), in the
    order of the code.  What lies outside is the class [Machine]. *)

From S2P Require Import Prelude GoStr Utils Files Replacer TextTemplate SqlNames SqlFields SqlCode GenCommon GenTexts.
From Stdlib Require Import Ascii.

Module GenRules.
Import SqlNames SqlFields SqlCode Files Replacer GenCommon GenTexts.
#[local] Notation text := TextTemplate.text.

(** ** Names and marks (common.go) *)

Definition TplNameMilady : string := "milady".
Definition codeNameGRPC : string := "grpc".
Definition codeNameHTTPPb : string := "http-pb".
Definition codeNameGRPCPb : string := "grpc-pb".
Definition codeNameGRPCGW : string := "grpc-gw-pb".
Definition codeNameGRPCHTTP : string := "grpc-http".
Definition codeNameGRPCHTTPPb : string := "grpc-http-pb".
Definition codeNameHandler : string := "handler".
Definition codeNameHandlerPb : string := "handler-pb".
Definition codeNameService : string := "service".
Definition codeNameServiceHTTP : string := "service-handler".
Definition codeNameDao : string := "dao".
Definition codeNameStore : string := "store".
Definition codeNameProtobuf : string := "protobuf".
Definition codeNameModel : string := "model".
Definition codeNameGRPCConn : string := "grpc-conn".
Definition codeNameCache : string := "cache".
Definition apiDocsSuffix : string := " api docs".
Definition modelFile : string := "model/userExample.go".
Definition modelFileMark : string := "// todo generate model code to here".
Definition databaseInitDBFile : string := "database/init.go".
Definition databaseInitDBFileMark : string := "// todo generate initialisation database code here".
Definition showDbNameMark : string := "// todo show db driver name here".
Definition cacheFile : string := "cache/cacheNameExample.go".
Definition daoFile : string := "dao/userExample.go".
Definition daoMgoFile : string := "dao/userExample.go.mgo".
Definition daoFileMark : string := "// todo generate the update fields code to here".
Definition daoTestFile : string := "dao/userExample_test.go".
Definition typesFile : string := "types/userExample_types.go".
Definition typesMgoFile : string := "types/userExample_types.go.mgo".
Definition handlerFileMark : string := "// todo generate the request and response struct to here".
Definition handlerTestFile : string := "handler/userExample_test.go".
Definition handlerPbFile : string := "handler/userExample_logic.go".
Definition handlerPbTestFile : string := "handler/userExample_logic_test.go".
Definition handlerLogicFile : string := "handler/userExample_logic.go".
Definition serviceLogicFile : string := "service/userExample.go".
Definition embedTimeMark : string := "// todo generate the conversion createdAt and updatedAt code here".
Definition httpFile : string := "server/http.go".
Definition protoFile : string := "v1/userExample.proto".
Definition protoFileMark : string := "// todo generate the protobuf code here".
Definition serviceTestFile : string := "service/userExample_test.go".
Definition serviceClientFile : string := "service/userExample_client_test.go".
Definition serviceClientMgoFile : string := "service/userExample_client_test.go.mgo".
Definition serviceFile : string := "service/userExample.go".
Definition serviceFileMark : string := "// todo generate the service struct code here".
Definition dockerFile : string := "scripts/build/Dockerfile".
Definition dockerFileMark : string := "# todo generate dockerfile code for http or grpc here".
Definition dockerFileBuild : string := "scripts/build/Dockerfile_build".
Definition dockerFileBuildMark : string := "# todo generate dockerfile_build code for http or grpc here".
Definition imageBuildFile : string := "scripts/image-build.sh".
Definition imageBuildFileMark : string := "# todo generate image-build code for http or grpc here".
Definition imageBuildLocalFile : string := "scripts/image-build-local.sh".
Definition imageBuildLocalFileMark : string := "# todo generate image-build-local code for http or grpc here".
Definition dockerComposeFile : string := "deployments/docker-compose/docker-compose.yml".
Definition dockerComposeFileMark : string := "# todo generate docker-compose.yml code for http or grpc here".
Definition k8sDeploymentFile : string := "deployments/kubernetes/serverNameExample-deployment.yml".
Definition k8sDeploymentFileMark : string := "# todo generate k8s-deployment.yml code for http or grpc here".
Definition k8sServiceFile : string := "deployments/kubernetes/serverNameExample-svc.yml".
Definition k8sServiceFileMark : string := "# todo generate k8s-svc.yml code for http or grpc here".
Definition protoShellFile : string := "scripts/protoc.sh".
Definition protoShellFileGRPCMark : string := "# todo generate grpc files here".
Definition protoShellFileMark : string := "# todo generate api template code command here".
Definition appConfigFile : string := "configs/serverNameExample.yml".
Definition appConfigFileMark : string := "# todo generate http or rpc server configuration here".
Definition appConfigFileMark2 : string := "# todo generate the database configuration here".
Definition readmeFile : string := "sponge/README.md".
Definition makeFile : string := "sponge/Makefile".
Definition gitIgnoreFile : string := "sponge/.gitignore".
Definition selfPackageName : string := "github.com/go-dev-frame/sponge".
Definition wellStartMark : string := symbolConvert startMark [].
Definition wellEndMark : string := symbolConvert endMark [].
Definition CurrentDbDriver (dbDriver : string) : string := "// db driver is " +:+ dbDriver.

(** ** What is outside *)

(** The machine, and the packages that are not the repository's: the text of
    go version, the version file of the templates, a random number below 99,
    xstrings, encoding/json on the information of a table, the template
    engine, net/url (the raw query, its sslmode and the text with another
    query), the orders of ranges over maps, and the time. *)
Class Machine := {
  windows : bool; cwd : list string; fuel : nat; MiladyDir : string; exe : string; stamp : string;
  go_version : option string; template_version : option string; rand99 : Z;
  ToKebabCase : string -> string;
  unmarshal : string -> option CrudInfo;
  execute : string -> string -> CrudInfo -> option string;
  url_parse : string -> option (string * string * (string -> string));
  order : gmap string (list string) -> list (string * list string);
  order1 : gmap string string -> list (string * string);
  order2 : gmap string string -> list (string * string) }.

(** [None] when the fuel for a listing runs out. *)
Definition T (A : Type) : Type := option (result error A).
Definition ret {A} (a : A) : T A := Some (Ok a).
Definition fail {A} (e : error) : T A := Some (Err e).
#[global] Instance T_bind : MBind T := fun A B f m =>
  match m with Some (Ok a) => f a | Some (Err e) => Some (Err e) | Some Panic => Some Panic | None => None end.
(** Appending one list of rules after the other. *)
Fixpoint cat (l : list (T (list Field))) : T (list Field) :=
  match l with
  | [] => ret []
  | m :: l => fields ← m; rest ← cat l; ret (fields ++ rest)
  end.
Definition file_map (l : list (string * list string)) : gmap string (list string) := list_to_map l.

(** ** Generators *)

(** The fields of the generators; each uses a part of them. *)
Record generator : Type := mkGenerator {
  moduleName : string; serverName : string; projectName : string; repoAddr : string; dbDSN : string; dbDriver : string;
  protobufFile : string; codes : list (string * string); genOutPath : string; isEmbed : bool; isExtendedAPI : bool; suitedMonoRepo : bool;
  fields : list Field; isCommonStyle : bool }.
Definition append_fields (l : list Field) (g : generator) : generator :=
  mkGenerator (moduleName g) (serverName g) (projectName g) (repoAddr g) (dbDSN g) (dbDriver g) (protobufFile g) (codes g) (genOutPath g)
    (isEmbed g) (isExtendedAPI g) (suitedMonoRepo g) (fields g ++ l) (isCommonStyle g).
Definition set_common_style (g : generator) : generator :=
  mkGenerator (moduleName g) (serverName g) (projectName g) (repoAddr g) (dbDSN g) (dbDriver g) (protobufFile g) (codes g) (genOutPath g)
    (isEmbed g) (isExtendedAPI g) (suitedMonoRepo g) (fields g) true.
Definition set_server_name (s : string) (g : generator) : generator :=
  mkGenerator (moduleName g) s (projectName g) (repoAddr g) (dbDSN g) (dbDriver g) (protobufFile g) (codes g) (genOutPath g)
    (isEmbed g) (isExtendedAPI g) (suitedMonoRepo g) (fields g) (isCommonStyle g).
Definition code (g : generator) (name : string) : string := default "" (assoc (codes g) name).

Section Rules.
Context `{Machine}.
Variable d : node.
#[local] Notation delim := (GetPathDelimiter windows).

Definition lift {A} (m : result errno A) : T A := Some (disk m).
Definition del (r : replacerInfo) (file : string) : T (list Field) := lift (deleteFieldsMark windows cwd d r file startMark endMark).
Definition del_well (r : replacerInfo) (file : string) : T (list Field) := lift (deleteFieldsMark windows cwd d r file wellStartMark wellEndMark).
Definition del_all_well (r : replacerInfo) (file : string) : T (list Field) :=
  disk <$> deleteAllFieldsMark windows cwd d r file wellStartMark wellEndMark.
Definition init_db_code (dbDriver : string) : T string := Some (getInitDBCode texts dbDriver).
Definition adjusted (handlerCodes dbDriver : string) (isCommonStyle : bool) : T string :=
  lift (adjustmentOfIDType handlerCodes dbDriver isCommonStyle).
(** A rule with a text that may not be there. *)
Definition rule (old : string) (new : T string) : T (list Field) := new ← new; ret [old ~> new | false].

Definition adaptPgDsn (dsn : string) : T string :=
  let dsn := if Contains dsn "postgres://" then dsn else "postgres://" +:+ dsn in
  dsn ← (Some (Utils.DeleteBrackets dsn) : T string);
  ret (match url_parse dsn with
       | None => dsn
       | Some (rawQuery, sslmode, String_) =>
           let rawQuery := if bool_decide (rawQuery = "") then "sslmode=disable"
                           else if bool_decide (sslmode = "") then "sslmode=disable&" +:+ rawQuery else rawQuery in
           ReplaceAll (String_ rawQuery) "postgres://" ""
       end).

(** ** Rules for tables with an own key *)

Definition commonDaoFields (r : replacerInfo) : T (list Field) := cat
    [ del r (daoFile +:+ tplSuffix);
      del r (daoTestFile +:+ tplSuffix);
      ret ["userExample.go.tpl" ~> "userExample.go" | false] ].

Definition commonDaoExtendedFields (r : replacerInfo) : T (list Field) := cat
    [ del r (daoFile +:+ expSuffix +:+ tplSuffix);
      del r (daoTestFile +:+ expSuffix +:+ tplSuffix);
      ret ["userExample.go.tpl" ~> "userExample.go" | false;
         "userExample.go.exp.tpl" ~> "userExample.go" | false] ].

Definition commonStoreFields (r : replacerInfo) : T (list Field) := cat
    [ del r (daoFile +:+ tplSuffix);
      del r (daoTestFile +:+ tplSuffix);
      ret ["userExample.go.tpl" ~> "userExample.go" | false] ].

Definition commonHandlerFields (r : replacerInfo) : T (list Field) := cat
    [ del r (daoFile +:+ tplSuffix);
      del r (daoTestFile +:+ tplSuffix);
      del r (typesFile +:+ tplSuffix);
      ret ["userExample_http.go.tpl" ~> "userExample_http.go" | false;
         "userExample_types.go.tpl" ~> "userExample_types.go" | false;
         "userExample.go.tpl" ~> "userExample.go" | false] ].

Definition commonHandlerExtendedFields (r : replacerInfo) : T (list Field) := cat
    [ del r (daoFile +:+ expSuffix +:+ tplSuffix);
      del r (daoTestFile +:+ expSuffix +:+ tplSuffix);
      del r (typesFile +:+ expSuffix +:+ tplSuffix);
      ret ["userExample_http.go.exp.tpl" ~> "userExample_http.go" | false;
         "userExample_types.go.exp.tpl" ~> "userExample_types.go" | false;
         "userExample.go.tpl" ~> "userExample.go" | false;
         "userExample.go.exp.tpl" ~> "userExample.go" | false] ].

Definition commonServiceFields (r : replacerInfo) : T (list Field) := cat
    [ del r (daoFile +:+ tplSuffix);
      del r (daoTestFile +:+ tplSuffix);
      del r (serviceFile +:+ tplSuffix);
      ret ["userExample_rpc.go.tpl" ~> "userExample_rpc.go" | false;
         "userExample.go.tpl" ~> "userExample.go" | false] ].

Definition commonServiceExtendedFields (r : replacerInfo) : T (list Field) := cat
    [ del r (daoFile +:+ expSuffix +:+ tplSuffix);
      del r (daoTestFile +:+ expSuffix +:+ tplSuffix);
      del r (serviceFile +:+ expSuffix +:+ tplSuffix);
      ret ["userExample_rpc.go.exp.tpl" ~> "userExample_rpc.go" | false;
         "userExample.go.tpl" ~> "userExample.go" | false;
         "userExample.go.exp.tpl" ~> "userExample.go" | false] ].

Definition commonHandlerPbFields (r : replacerInfo) : T (list Field) := cat
    [ del r (daoFile +:+ tplSuffix);
      del r (handlerPbFile +:+ tplSuffix);
      ret ["userExample_http.go.tpl" ~> "userExample_http.go" | false;
         "userExample_logic.go.tpl" ~> "userExample.go" | false;
         "userExample.go.tpl" ~> "userExample.go" | false] ].

Definition commonHandlerPbExtendedFields (r : replacerInfo) : T (list Field) := cat
    [ del r (daoFile +:+ expSuffix +:+ tplSuffix);
      del r (handlerPbFile +:+ expSuffix +:+ tplSuffix);
      ret ["userExample_http.go.exp.tpl" ~> "userExample_http.go" | false;
         "userExample_logic.go.exp.tpl" ~> "userExample.go" | false;
         "userExample.go.tpl" ~> "userExample.go" | false;
         "userExample.go.exp.tpl" ~> "userExample.go" | false] ].

Definition commonServiceHandlerFields (r : replacerInfo) : T (list Field) := cat
    [ del r (daoFile +:+ tplSuffix);
      del r (daoTestFile +:+ tplSuffix);
      del r (serviceFile +:+ tplSuffix);
      ret ["userExample.go.service.tpl" ~> "userExample.go" | false;
         "userExample.go.tpl" ~> "userExample.go" | false] ].

Definition commonServiceHandlerExtendedFields (r : replacerInfo) : T (list Field) := cat
    [ del r (daoFile +:+ expSuffix +:+ tplSuffix);
      del r (daoTestFile +:+ expSuffix +:+ tplSuffix);
      del r (serviceFile +:+ expSuffix +:+ tplSuffix);
      ret ["userExample.go.service.exp.tpl" ~> "userExample.go" | false;
         "userExample.go.tpl" ~> "userExample.go" | false;
         "userExample.go.exp.tpl" ~> "userExample.go" | false] ].

(** ** Files and rules of the extended interface *)

Definition daoExtendedAPI (r : replacerInfo) : T (gmap string (list string) * list Field) :=
  let replaceFiles := file_map
    [("internal/dao", ["userExample.go.exp"; "userExample_test.go.exp"])] in
  fields ← cat
    [ del r (daoFile +:+ expSuffix);
      del r (daoTestFile +:+ expSuffix);
      ret ["userExample.go.exp" ~> "userExample.go" | false;
         "userExample_test.go.exp" ~> "userExample_test.go" | false] ];
  ret (replaceFiles, fields).

Definition daoMongoDBExtendedAPI (r : replacerInfo) : T (gmap string (list string) * list Field) :=
  let replaceFiles := file_map
    [("internal/cache", ["userExample.go.mgo"]);
     ("internal/dao", ["userExample.go.mgo.exp"])] in
  fields ← cat
    [ del r (daoMgoFile +:+ expSuffix);
      ret ["userExample.go.mgo.exp" ~> "userExample.go" | false;
         "userExample.go.mgo" ~> "userExample.go" | false] ];
  ret (replaceFiles, fields).

Definition storeExtendedAPI (r : replacerInfo) : T (gmap string (list string) * list Field) :=
  let replaceFiles := file_map
    [("internal/dao", ["userExample.go.exp"; "userExample_test.go.exp"])] in
  fields ← cat
    [ del r (daoFile +:+ expSuffix);
      del r (daoTestFile +:+ expSuffix);
      ret ["userExample.go.exp" ~> "userExample.go" | false;
         "userExample_test.go.exp" ~> "userExample_test.go" | false] ];
  ret (replaceFiles, fields).

Definition handlerExtendedAPI (r : replacerInfo) (codeName : string) : T (gmap string (list string) * list Field) :=
  let replaceFiles := file_map
    [("internal/dao", ["userExample.go.exp"; "userExample_test.go.exp"]);
     ("internal/ecode", ["systemCode_http.go"; "userExample_http.go.exp"]);
     ("internal/handler", ["userExample.go.exp"; "userExample_test.go.exp"]);
     ("internal/routers", ["routers.go"; "userExample.go.exp"]);
     ("internal/types", ["swagger_types.go"; "userExample_types.go.exp"])] in
  let replaceFiles := if bool_decide (codeName = codeNameHandler) then <["internal/ecode" := ["userExample_http.go.exp"]]> (<["internal/routers" := ["userExample.go.exp"]]> (<["internal/types" := ["userExample_types.go.exp"]]> replaceFiles)) else replaceFiles in
  fields ← cat
    [ del r (daoFile +:+ expSuffix);
      del r (daoTestFile +:+ expSuffix);
      del r (typesFile +:+ expSuffix);
      del r (handlerTestFile +:+ expSuffix);
      ret ["userExample_types.go.exp" ~> "userExample_types.go" | false;
         "userExample_http.go.exp" ~> "userExample_http.go" | false;
         "userExample.go.exp" ~> "userExample.go" | false;
         "userExample_test.go.exp" ~> "userExample_test.go" | false] ];
  ret (replaceFiles, fields).

Definition handlerMongoDBExtendedAPI (r : replacerInfo) (codeName : string) : T (gmap string (list string) * list Field) :=
  let replaceFiles := file_map
    [("internal/cache", ["userExample.go.mgo"]);
     ("internal/dao", ["userExample.go.mgo.exp"]);
     ("internal/ecode", ["systemCode_http.go"; "userExample_http.go.exp"]);
     ("internal/handler", ["userExample.go.mgo.exp"]);
     ("internal/routers", ["routers.go"; "userExample.go.exp"]);
     ("internal/types", ["swagger_types.go"; "userExample_types.go.mgo.exp"])] in
  let replaceFiles := if bool_decide (codeName = codeNameHandler) then <["internal/ecode" := ["userExample_http.go.exp"]]> (<["internal/routers" := ["userExample.go.exp"]]> (<["internal/types" := ["userExample_types.go.mgo.exp"]]> replaceFiles)) else replaceFiles in
  fields ← cat
    [ del r (daoMgoFile +:+ expSuffix);
      del r (typesMgoFile +:+ expSuffix);
      ret ["userExample_http.go.exp" ~> "userExample_http.go" | false;
         "userExample_types.go.mgo.exp" ~> "userExample_types.go" | false;
         "userExample.go.mgo.exp" ~> "userExample.go" | false;
         "userExample.go.exp" ~> "userExample.go" | false] ];
  ret (replaceFiles, fields).

Definition serviceExtendedAPI (r : replacerInfo) (codeName : string) : T (gmap string (list string) * list Field) :=
  let replaceFiles := file_map
    [("internal/dao", ["userExample.go.exp"; "userExample_test.go.exp"]);
     ("internal/ecode", ["systemCode_rpc.go"; "userExample_rpc.go.exp"]);
     ("internal/service", ["service.go"; "service_test.go"; "userExample.go.exp"; "userExample_client_test.go.exp"])] in
  let replaceFiles := if bool_decide (codeName = codeNameService) then <["internal/ecode" := ["userExample_rpc.go.exp"]]> (<["internal/service" := ["userExample.go.exp"; "userExample_client_test.go.exp"]]> replaceFiles) else replaceFiles in
  fields ← cat
    [ del r (daoFile +:+ expSuffix);
      del r (daoTestFile +:+ expSuffix);
      del r (serviceLogicFile +:+ expSuffix);
      del r (serviceClientFile +:+ expSuffix);
      ret ["userExample_rpc.go.exp" ~> "userExample_rpc.go" | false;
         "userExample.go.exp" ~> "userExample.go" | false;
         "userExample_test.go.exp" ~> "userExample_test.go" | false;
         "userExample_client_test.go.exp" ~> "userExample_client_test.go" | false] ];
  ret (replaceFiles, fields).

Definition serviceMongoDBExtendedAPI (r : replacerInfo) (codeName : string) : T (gmap string (list string) * list Field) :=
  let replaceFiles := file_map
    [("internal/cache", ["userExample.go.mgo"]);
     ("internal/dao", ["userExample.go.mgo.exp"]);
     ("internal/ecode", ["systemCode_rpc.go"; "userExample_rpc.go.exp"]);
     ("internal/service", ["service.go"; "service_test.go"; "userExample.go.mgo.exp"; "userExample_client_test.go.mgo.exp"])] in
  let replaceFiles := if bool_decide (codeName = codeNameService) then <["internal/ecode" := ["userExample_rpc.go.exp"]]> (<["internal/service" := ["userExample.go.mgo.exp"; "userExample_client_test.go.mgo.exp"]]> replaceFiles) else replaceFiles in
  fields ← cat
    [ del r (daoMgoFile +:+ expSuffix);
      del r (serviceLogicFile +:+ ".mgo.exp");
      del r (serviceClientMgoFile +:+ expSuffix);
      ret ["userExample_rpc.go.exp" ~> "userExample_rpc.go" | false;
         "userExample.go.mgo.exp" ~> "userExample.go" | false;
         "userExample_client_test.go.mgo.exp" ~> "userExample_client_test.go" | false] ];
  ret (replaceFiles, fields).

Definition handlerPbExtendedAPI (r : replacerInfo) : T (gmap string (list string) * list Field) :=
  let replaceFiles := file_map
    [("internal/dao", ["userExample.go.exp"; "userExample_test.go.exp"]);
     ("internal/ecode", ["userExample_http.go.exp"]);
     ("internal/handler", ["userExample_logic.go.exp"; "userExample_logic_test.go.exp"])] in
  fields ← cat
    [ del r (daoFile +:+ expSuffix);
      del r (daoTestFile +:+ expSuffix);
      del r (handlerLogicFile +:+ expSuffix);
      ret ["userExample_http.go.exp" ~> "userExample_http.go" | false;
         "userExample_logic_test.go.exp" ~> "userExample_test.go" | false;
         "userExample_test.go.exp" ~> "userExample_test.go" | false;
         "userExample_logic.go.exp" ~> "userExample.go" | false;
         "userExample.go.exp" ~> "userExample.go" | false] ];
  ret (replaceFiles, fields).

Definition handlerPbMongoDBExtendedAPI (r : replacerInfo) : T (gmap string (list string) * list Field) :=
  let replaceFiles := file_map
    [("internal/cache", ["userExample.go.mgo"]);
     ("internal/dao", ["userExample.go.mgo.exp"]);
     ("internal/ecode", ["userExample_http.go.exp"]);
     ("internal/handler", ["userExample_logic.go.mgo.exp"])] in
  fields ← cat
    [ del r (daoMgoFile +:+ expSuffix);
      del r (handlerLogicFile +:+ ".mgo.exp");
      ret ["userExample_http.go.exp" ~> "userExample_http.go" | false;
         "userExample.go.mgo.exp" ~> "userExample.go" | false;
         "userExample_logic.go.mgo.exp" ~> "userExample.go" | false;
         "userExample.go.mgo" ~> "userExample.go" | false] ];
  ret (replaceFiles, fields).

Definition serviceHandlerExtendedAPI (r : replacerInfo) : T (gmap string (list string) * list Field) :=
  let replaceFiles := file_map
    [("internal/dao", ["userExample.go.exp"; "userExample_test.go.exp"]);
     ("internal/ecode", ["userExample_rpc.go.exp"]);
     ("internal/handler", ["userExample.go.service.exp"]);
     ("internal/service", ["userExample.go.exp"; "userExample_client_test.go.exp"])] in
  fields ← cat
    [ del r (daoFile +:+ expSuffix);
      del r (daoTestFile +:+ expSuffix);
      del r (serviceLogicFile +:+ expSuffix);
      del r (serviceClientFile +:+ expSuffix);
      ret ["userExample_rpc.go.exp" ~> "userExample_rpc.go" | false;
         "userExample.go.exp" ~> "userExample.go" | false;
         "userExample_test.go.exp" ~> "userExample_test.go" | false;
         "userExample_client_test.go.exp" ~> "userExample_client_test.go" | false;
         "userExample.go.service.exp" ~> "userExample.go" | false] ];
  ret (replaceFiles, fields).

Definition serviceHandlerMongoDBExtendedAPI (r : replacerInfo) : T (gmap string (list string) * list Field) :=
  let replaceFiles := file_map
    [("internal/cache", ["userExample.go.mgo"]);
     ("internal/dao", ["userExample.go.mgo.exp"]);
     ("internal/ecode", ["userExample_rpc.go.exp"]);
     ("internal/handler", ["userExample.go.service.exp"]);
     ("internal/model", ["userExample.go"]);
     ("internal/service", ["userExample.go.mgo.exp"; "userExample_client_test.go.mgo.exp"])] in
  fields ← cat
    [ del r (daoMgoFile +:+ expSuffix);
      del r (serviceLogicFile +:+ ".mgo.exp");
      del r (serviceClientMgoFile +:+ expSuffix);
      ret ["userExample_rpc.go.exp" ~> "userExample_rpc.go" | false;
         "userExample.go.mgo.exp" ~> "userExample.go" | false;
         "userExample_client_test.go.mgo.exp" ~> "userExample_client_test.go" | false;
         "userExample.go.service.exp" ~> "userExample.go" | false] ];
  ret (replaceFiles, fields).

(** ** All rules of a command (addFields) *)

Definition model_rules (g : generator) (r : replacerInfo) : T (list Field) := cat
    [ del r modelFile;
      ret [modelFileMark ~> code g "model" | false;
         "UserExample" ~> code g "__table_name__" | true] ].

Definition protobuf_rules (g : generator) (r : replacerInfo) : T (list Field) := cat
    [ del r protoFile;
      ret [protoFileMark ~> code g "proto" | false;
         "github.com/go-dev-frame/sponge" ~> moduleName g | false;
         Join ["api"; "serverNameExample"; "v1"] delim ~> Join ["api"; serverName g; "v1"] delim | false;
         "api/serverNameExample/v1" ~> "api/" +:+ (serverName g) +:+ "/v1" | false;
         "api.serverNameExample.v1" ~> "api." +:+ (serverName g) +:+ ".v1" | false;
         "serverNameExample" ~> serverName g | false;
         "UserExample" ~> code g "__table_name__" | true] ].

Definition dao_rules (g : generator) (r : replacerInfo) : T (list Field) := cat
    [ ret (fields g);
      del r modelFile;
      del r daoFile;
      del r daoMgoFile;
      del r daoTestFile;
      ret [modelFileMark ~> code g "model" | false;
         daoFileMark ~> code g "dao" | false;
         selfPackageName +:+ "/" +:+ (GetSourcePath r) ~> moduleName g | false;
         "github.com/moweilong/milady" ~> moduleName g | false;
         (moduleName g) +:+ pkgPathSuffix ~> "github.com/moweilong/milady/pkg" | false;
         "init.go.mgo" ~> "init.go" | false;
         "userExample.go.mgo" ~> "userExample.go" | false;
         "UserExample" ~> code g "__table_name__" | true];
      ret (if suitedMonoRepo g then SubServerCodeFields (moduleName g) (serverName g) else []) ].

Definition store_rules (g : generator) (r : replacerInfo) : T (list Field) := cat
    [ ret (fields g);
      del r modelFile;
      del r daoFile;
      del r daoMgoFile;
      del r daoTestFile;
      ret [modelFileMark ~> code g "model" | false;
         daoFileMark ~> code g "dao" | false;
         selfPackageName +:+ "/" +:+ (GetSourcePath r) ~> moduleName g | false;
         "github.com/moweilong/milady" ~> moduleName g | false;
         (moduleName g) +:+ pkgPathSuffix ~> "github.com/moweilong/milady/pkg" | false;
         "init.go.mgo" ~> "init.go" | false;
         "userExample.go.mgo" ~> "userExample.go" | false;
         "UserExample" ~> code g "__table_name__" | true];
      ret (if suitedMonoRepo g then SubServerCodeFields (moduleName g) (serverName g) else []) ].

Definition handler_rules (g : generator) (r : replacerInfo) : T (list Field) := cat
    [ ret (fields g);
      del r modelFile;
      del r daoFile;
      del r daoMgoFile;
      del r daoTestFile;
      del r typesFile;
      del r typesMgoFile;
      del r handlerTestFile;
      ret [modelFileMark ~> code g "model" | false;
         daoFileMark ~> code g "dao" | false];
      rule handlerFileMark (adjusted (code g "handler") (dbDriver g) (isCommonStyle g));
      ret [selfPackageName +:+ "/" +:+ (GetSourcePath r) ~> moduleName g | false;
         "github.com/go-dev-frame/sponge" ~> moduleName g | false;
         "userExampleNO       = 1" ~> "userExampleNO = " +:+ Itoa (rand99 + 1) | false;
         (moduleName g) +:+ pkgPathSuffix ~> "github.com/go-dev-frame/sponge/pkg" | false;
         "userExample_types.go.mgo" ~> "userExample_types.go" | false;
         showDbNameMark ~> CurrentDbDriver (dbDriver g) | false;
         "userExample.go.mgo" ~> "userExample.go" | false;
         "UserExample" ~> code g "__table_name__" | true];
      ret (if suitedMonoRepo g then SubServerCodeFields (moduleName g) (serverName g) else []) ].

Definition service_rules (g : generator) (r : replacerInfo) : T (list Field) := cat
    [ ret (fields g);
      del r modelFile;
      del r daoFile;
      del r daoMgoFile;
      del r daoTestFile;
      del r serviceLogicFile;
      del r protoFile;
      del r serviceClientFile;
      del r serviceClientMgoFile;
      del r serviceTestFile;
      ret [modelFileMark ~> code g "model" | false;
         daoFileMark ~> code g "dao" | false;
         embedTimeMark ~> getEmbedTimeCode texts (isEmbed g) | false;
         protoFileMark ~> code g "proto" | false];
      rule serviceFileMark (adjusted (code g "service") (dbDriver g) (isCommonStyle g));
      ret [selfPackageName +:+ "/" +:+ (GetSourcePath r) ~> moduleName g | false;
         "github.com/go-dev-frame/sponge" ~> moduleName g | false;
         Join ["api"; "serverNameExample"; "v1"] delim ~> Join ["api"; serverName g; "v1"] delim | false;
         "api/serverNameExample/v1" ~> "api/" +:+ (serverName g) +:+ "/v1" | false;
         "api.serverNameExample.v1" ~> "api." +:+ (serverName g) +:+ ".v1" | false;
         "_userExampleNO       = 2" ~> "_userExampleNO       = " +:+ Itoa (rand99 + 1) | false;
         (moduleName g) +:+ pkgPathSuffix ~> "github.com/go-dev-frame/sponge/pkg" | false;
         "serverNameExample" ~> serverName g | false;
         showDbNameMark ~> CurrentDbDriver (dbDriver g) | false;
         "userExample_client_test.go.mgo" ~> "userExample_client_test.go" | false;
         "userExample.go.mgo" ~> "userExample.go" | false;
         "UserExample" ~> code g "__table_name__" | true];
      ret (if suitedMonoRepo g then SubServerCodeFields (moduleName g) (serverName g) else []) ].

Definition handlerPb_rules (g : generator) (r : replacerInfo) : T (list Field) := cat
    [ ret (fields g);
      del r modelFile;
      del r daoFile;
      del r daoMgoFile;
      del r daoTestFile;
      del r handlerLogicFile;
      del r handlerPbTestFile;
      del r protoFile;
      ret [modelFileMark ~> code g "model" | false;
         daoFileMark ~> code g "dao" | false;
         embedTimeMark ~> getEmbedTimeCode texts (isEmbed g) | false;
         protoFileMark ~> code g "proto" | false;
         selfPackageName +:+ "/" +:+ (GetSourcePath r) ~> moduleName g | false;
         "github.com/go-dev-frame/sponge" ~> moduleName g | false;
         Join ["api"; "serverNameExample"; "v1"] delim ~> Join ["api"; serverName g; "v1"] delim | false;
         "api/serverNameExample/v1" ~> "api/" +:+ (serverName g) +:+ "/v1" | false;
         "api.serverNameExample.v1" ~> "api." +:+ (serverName g) +:+ ".v1" | false;
         "userExampleNO       = 1" ~> "userExampleNO = " +:+ Itoa (rand99 + 1) | false;
         (moduleName g) +:+ pkgPathSuffix ~> "github.com/go-dev-frame/sponge/pkg" | false;
         "userExample_logic.go.mgo" ~> "userExample.go" | false;
         "userExample_logic.go" ~> "userExample.go" | false;
         "userExample_logic_test.go" ~> "userExample_test.go" | false;
         "userExample.go.mgo" ~> "userExample.go" | false;
         showDbNameMark ~> CurrentDbDriver (dbDriver g) | false;
         "UserExamplePb" ~> "UserExample" | true;
         "serverNameExample" ~> serverName g | false;
         "UserExample" ~> code g "__table_name__" | true];
      ret (if suitedMonoRepo g then SubServerCodeFields (moduleName g) (serverName g) else []) ].

Definition serviceHandler_rules (g : generator) (r : replacerInfo) : T (list Field) := cat
    [ ret (fields g);
      del r modelFile;
      del r daoFile;
      del r daoMgoFile;
      del r daoTestFile;
      del r serviceLogicFile;
      del r protoFile;
      del r serviceClientFile;
      del r serviceClientMgoFile;
      del r serviceTestFile;
      ret [modelFileMark ~> code g "model" | false;
         daoFileMark ~> code g "dao" | false;
         embedTimeMark ~> getEmbedTimeCode texts (isEmbed g) | false;
         protoFileMark ~> code g "proto" | false];
      rule serviceFileMark (adjusted (code g "service") (dbDriver g) (isCommonStyle g));
      ret [selfPackageName +:+ "/" +:+ (GetSourcePath r) ~> moduleName g | false;
         "github.com/go-dev-frame/sponge" ~> moduleName g | false;
         Join ["api"; "serverNameExample"; "v1"] delim ~> Join ["api"; serverName g; "v1"] delim | false;
         "api/serverNameExample/v1" ~> "api/" +:+ (serverName g) +:+ "/v1" | false;
         "api.serverNameExample.v1" ~> "api." +:+ (serverName g) +:+ ".v1" | false;
         "userExampleNO       = 1" ~> "userExampleNO = " +:+ Itoa (rand99 + 1) | false;
         "_userExampleNO       = 2" ~> "_userExampleNO       = " +:+ Itoa (rand99 + 1) | false;
         (moduleName g) +:+ pkgPathSuffix ~> "github.com/go-dev-frame/sponge/pkg" | false;
         "serverNameExample" ~> serverName g | false;
         showDbNameMark ~> CurrentDbDriver (dbDriver g) | false;
         "userExample_client_test.go.mgo" ~> "userExample_client_test.go" | false;
         "userExample_logic.go.mgo" ~> "userExample.go" | false;
         "userExample.go.service" ~> "userExample.go" | false;
         "userExample_logic.go" ~> "userExample.go" | false;
         "userExample.go.mgo" ~> "userExample.go" | false;
         "UserExamplePb" ~> "UserExample" | true;
         "UserExample" ~> code g "__table_name__" | true];
      ret (if suitedMonoRepo g then SubServerCodeFields (moduleName g) (serverName g) else []) ].

Definition http_rules (g : generator) (r : replacerInfo) : T (list Field) := cat
    [ ret (fields g);
      del r modelFile;
      del r databaseInitDBFile;
      del r daoFile;
      del r daoMgoFile;
      del r daoTestFile;
      del r typesFile;
      del r typesMgoFile;
      del r handlerTestFile;
      del r httpFile;
      del r (httpFile +:+ ".noregistry");
      del_well r dockerFile;
      del_well r dockerFileBuild;
      del_well r dockerComposeFile;
      del_well r k8sDeploymentFile;
      del_well r k8sServiceFile;
      del_well r imageBuildFile;
      del_well r imageBuildLocalFile;
      del_well r gitIgnoreFile;
      del_all_well r protoShellFile;
      del_all_well r appConfigFile;
      ret (replaceFileContentMark windows cwd d r readmeFile (setReadmeTitle (moduleName g) (serverName g) codeNameHTTP (suitedMonoRepo g)));
      ret [appConfigFileMark ~> httpServerConfigCode | false;
         appConfigFileMark2 ~> getDBConfigCode texts (dbDriver g) | false;
         modelFileMark ~> code g "model" | false];
      rule databaseInitDBFileMark (init_db_code (dbDriver g));
      ret [daoFileMark ~> code g "dao" | false];
      rule handlerFileMark (adjusted (code g "handler") (dbDriver g) (isCommonStyle g));
      ret [dockerFileMark ~> dockerFileHTTPCode | false;
         dockerFileBuildMark ~> dockerFileBuildHTTPCode | false;
         imageBuildFileMark ~> imageBuildFileHTTPCode | false;
         imageBuildLocalFileMark ~> imageBuildLocalFileHTTPCode | false;
         dockerComposeFileMark ~> dockerComposeFileHTTPCode | false;
         k8sDeploymentFileMark ~> k8sDeploymentFileHTTPCode | false;
         k8sServiceFileMark ~> k8sServiceFileHTTPCode | false;
         selfPackageName +:+ "/" +:+ (GetSourcePath r) ~> moduleName g | false;
         protoShellFileGRPCMark ~> "" | false;
         protoShellFileMark ~> "" | false;
         "github.com/go-dev-frame/sponge" ~> moduleName g | false;
         (moduleName g) +:+ pkgPathSuffix ~> "github.com/go-dev-frame/sponge/pkg" | false;
         spongeTemplateVersionMark ~> getLocalSpongeTemplateVersion template_version | false;
         "sponge api docs" ~> (serverName g) +:+ apiDocsSuffix | false;
         defaultGoModVersion ~> getLocalGoVersion go_version | false;
         "userExampleNO       = 1" ~> "userExampleNO = " +:+ Itoa (rand99 + 1) | false;
         "serverNameExample" ~> serverName g | false;
         "server-name-example" ~> ToKebabCase (serverName g) | false;
         "project-name-example" ~> projectName g | false;
         "projectNameExample" ~> projectName g | false;
         "repo-addr-example" ~> repoAddr g | false;
         "image-repo-host" ~> fst (parseImageRepoAddr (repoAddr g)) | false;
         "_httpExample" ~> "" | false;
         "_mixExample" ~> "" | false;
         "_pbExample" ~> "" | false;
         "root:123456@(192.168.3.37:3306)/account" ~> dbDSN g | false;
         "root:123456@192.168.3.37:27017/account" ~> dbDSN g | false];
      rule "root:123456@192.168.3.37:5432/account?sslmode=disable" (adaptPgDsn (dbDSN g));
      ret ["test/sql/sqlite/sponge.db" ~> sqliteDSNAdaptation windows (dbDriver g) (dbDSN g) | false;
         showDbNameMark ~> CurrentDbDriver (dbDriver g) | false;
         "Makefile-for-http" ~> "Makefile" | false;
         "init.go.mgo" ~> "init.go" | false;
         "mongodb.go.mgo" ~> "mongodb.go" | false;
         "userExample_types.go.mgo" ~> "userExample_types.go" | false;
         "userExample.go.mgo" ~> "userExample.go" | false;
         "UserExample" ~> code g "__table_name__" | true];
      ret getHTTPServiceFields;
      ret (if suitedMonoRepo g then serverCodeFields codeNameHTTP (moduleName g) (serverName g) else []) ].

Definition rpc_rules (g : generator) (r : replacerInfo) : T (list Field) := cat
    [ ret (fields g);
      del r modelFile;
      del r databaseInitDBFile;
      del r daoFile;
      del r daoMgoFile;
      del r daoTestFile;
      del r protoFile;
      del r serviceLogicFile;
      del r serviceClientFile;
      del r serviceClientMgoFile;
      del r serviceTestFile;
      del_well r dockerFile;
      del_well r dockerFileBuild;
      del_well r dockerComposeFile;
      del_well r k8sDeploymentFile;
      del_well r k8sServiceFile;
      del_well r imageBuildFile;
      del_well r imageBuildLocalFile;
      del_all_well r makeFile;
      del_well r gitIgnoreFile;
      del_all_well r protoShellFile;
      del_all_well r appConfigFile;
      ret (replaceFileContentMark windows cwd d r readmeFile (setReadmeTitle (moduleName g) (serverName g) codeNameGRPC (suitedMonoRepo g)));
      ret [appConfigFileMark ~> rpcServerConfigCode | false;
         appConfigFileMark2 ~> getDBConfigCode texts (dbDriver g) | false;
         modelFileMark ~> code g "model" | false];
      rule databaseInitDBFileMark (init_db_code (dbDriver g));
      ret [daoFileMark ~> code g "dao" | false;
         embedTimeMark ~> getEmbedTimeCode texts (isEmbed g) | false;
         protoFileMark ~> code g "proto" | false;
         protoShellFileGRPCMark ~> protoShellGRPCMark | false;
         protoShellFileMark ~> protoShellServiceTmplCode | false];
      rule serviceFileMark (adjusted (code g "service") (dbDriver g) (isCommonStyle g));
      ret [dockerFileMark ~> dockerFileGrpcCode | false;
         dockerFileBuildMark ~> dockerFileBuildGrpcCode | false;
         imageBuildFileMark ~> imageBuildFileGrpcCode | false;
         imageBuildLocalFileMark ~> imageBuildLocalFileGrpcCode | false;
         dockerComposeFileMark ~> dockerComposeFileGrpcCode | false;
         k8sDeploymentFileMark ~> k8sDeploymentFileGrpcCode | false;
         k8sServiceFileMark ~> k8sServiceFileGrpcCode | false;
         selfPackageName +:+ "/" +:+ (GetSourcePath r) ~> moduleName g | false;
         Join ["api"; "userExample"; "v1"] delim ~> Join ["api"; serverName g; "v1"] delim | false;
         "github.com/go-dev-frame/sponge" ~> moduleName g | false;
         (moduleName g) +:+ pkgPathSuffix ~> "github.com/go-dev-frame/sponge/pkg" | false;
         spongeTemplateVersionMark ~> getLocalSpongeTemplateVersion template_version | false;
         "api/userExample/v1" ~> "api/" +:+ (serverName g) +:+ "/v1" | false;
         "api.userExample.v1" ~> "api." +:+ (serverName g) +:+ ".v1" | false;
         "sponge api docs" ~> (serverName g) +:+ apiDocsSuffix | false;
         defaultGoModVersion ~> getLocalGoVersion go_version | false;
         "_userExampleNO       = 2" ~> "_userExampleNO       = " +:+ Itoa (rand99 + 1) | false;
         "serverNameExample" ~> serverName g | false;
         "server-name-example" ~> ToKebabCase (serverName g) | false;
         "project-name-example" ~> projectName g | false;
         "projectNameExample" ~> projectName g | false;
         "repo-addr-example" ~> repoAddr g | false;
         "image-repo-host" ~> fst (parseImageRepoAddr (repoAddr g)) | false;
         "_grpcExample" ~> "" | false;
         "_mixExample" ~> "" | false;
         "root:123456@(192.168.3.37:3306)/account" ~> dbDSN g | false;
         "root:123456@192.168.3.37:27017/account" ~> dbDSN g | false];
      rule "root:123456@192.168.3.37:5432/account?sslmode=disable" (adaptPgDsn (dbDSN g));
      ret ["test/sql/sqlite/sponge.db" ~> sqliteDSNAdaptation windows (dbDriver g) (dbDSN g) | false;
         showDbNameMark ~> CurrentDbDriver (dbDriver g) | false;
         "init.go.mgo" ~> "init.go" | false;
         "mongodb.go.mgo" ~> "mongodb.go" | false;
         "userExample_client_test.go.mgo" ~> "userExample_client_test.go" | false;
         "userExample.go.mgo" ~> "userExample.go" | false;
         "UserExample" ~> code g "__table_name__" | true];
      ret getGRPCServiceFields;
      ret (if suitedMonoRepo g then serverCodeFields codeNameGRPC (moduleName g) (serverName g) else []) ].

Definition httpPb_rules (g : generator) (r : replacerInfo) : T (list Field) := cat
    [ del r httpFile;
      del r (httpFile +:+ ".noregistry");
      del_well r dockerFile;
      del_well r dockerFileBuild;
      del_well r dockerComposeFile;
      del_well r k8sDeploymentFile;
      del_well r k8sServiceFile;
      del_well r imageBuildFile;
      del_well r imageBuildLocalFile;
      del_all_well r makeFile;
      del_well r gitIgnoreFile;
      del_all_well r protoShellFile;
      del_all_well r appConfigFile;
      ret (replaceFileContentMark windows cwd d r readmeFile (setReadmeTitle (moduleName g) (serverName g) codeNameHTTPPb (suitedMonoRepo g)));
      ret [appConfigFileMark ~> httpServerConfigCode | false;
         appConfigFileMark2 ~> getDBConfigCode texts undeterminedDBDriver | false;
         dockerFileMark ~> dockerFileHTTPCode | false;
         dockerFileBuildMark ~> dockerFileBuildHTTPCode | false;
         imageBuildFileMark ~> imageBuildFileHTTPCode | false;
         imageBuildLocalFileMark ~> imageBuildLocalFileHTTPCode | false;
         dockerComposeFileMark ~> dockerComposeFileHTTPCode | false;
         k8sDeploymentFileMark ~> k8sDeploymentFileHTTPCode | false;
         k8sServiceFileMark ~> k8sServiceFileHTTPCode | false;
         protoShellFileGRPCMark ~> "" | false;
         protoShellFileMark ~> protoShellHandlerCode | false;
         "github.com/go-dev-frame/sponge" ~> moduleName g | false;
         (moduleName g) +:+ pkgPathSuffix ~> "github.com/go-dev-frame/sponge/pkg" | false;
         spongeTemplateVersionMark ~> getLocalSpongeTemplateVersion template_version | false;
         "sponge api docs" ~> (serverName g) +:+ apiDocsSuffix | false;
         defaultGoModVersion ~> getLocalGoVersion go_version | false;
         "serverNameExample" ~> serverName g | false;
         "server-name-example" ~> ToKebabCase (serverName g) | false;
         "project-name-example" ~> projectName g | false;
         "projectNameExample" ~> projectName g | false;
         "repo-addr-example" ~> repoAddr g | false;
         "image-repo-host" ~> fst (parseImageRepoAddr (repoAddr g)) | false;
         "_httpPbExample" ~> "" | false;
         "_pbExample" ~> "" | false;
         "_mixExample" ~> "" | false];
      ret getHTTPServiceFields;
      ret (if suitedMonoRepo g then serverCodeFields codeNameHTTPPb (moduleName g) (serverName g) else []) ].

Definition rpcPb_rules (g : generator) (r : replacerInfo) : T (list Field) := cat
    [ del_well r dockerFile;
      del_well r dockerFileBuild;
      del_well r dockerComposeFile;
      del_well r k8sDeploymentFile;
      del_well r k8sServiceFile;
      del_well r imageBuildFile;
      del_well r imageBuildLocalFile;
      del_all_well r makeFile;
      del_well r gitIgnoreFile;
      del_all_well r protoShellFile;
      del_all_well r appConfigFile;
      ret (replaceFileContentMark windows cwd d r readmeFile (setReadmeTitle (moduleName g) (serverName g) codeNameGRPCPb (suitedMonoRepo g)));
      ret [appConfigFileMark ~> rpcServerConfigCode | false;
         appConfigFileMark2 ~> getDBConfigCode texts undeterminedDBDriver | false;
         dockerFileMark ~> dockerFileGrpcCode | false;
         dockerFileBuildMark ~> dockerFileBuildGrpcCode | false;
         imageBuildFileMark ~> imageBuildFileGrpcCode | false;
         imageBuildLocalFileMark ~> imageBuildLocalFileGrpcCode | false;
         dockerComposeFileMark ~> dockerComposeFileGrpcCode | false;
         k8sDeploymentFileMark ~> k8sDeploymentFileGrpcCode | false;
         k8sServiceFileMark ~> k8sServiceFileGrpcCode | false;
         protoShellFileGRPCMark ~> protoShellGRPCMark | false;
         protoShellFileMark ~> protoShellServiceTmplCode | false;
         "github.com/go-dev-frame/sponge" ~> moduleName g | false;
         (moduleName g) +:+ pkgPathSuffix ~> "github.com/go-dev-frame/sponge/pkg" | false;
         spongeTemplateVersionMark ~> getLocalSpongeTemplateVersion template_version | false;
         "sponge api docs" ~> (serverName g) +:+ apiDocsSuffix | false;
         defaultGoModVersion ~> getLocalGoVersion go_version | false;
         "serverNameExample" ~> serverName g | false;
         "server-name-example" ~> ToKebabCase (serverName g) | false;
         "project-name-example" ~> projectName g | false;
         "projectNameExample" ~> projectName g | false;
         "repo-addr-example" ~> repoAddr g | false;
         "image-repo-host" ~> fst (parseImageRepoAddr (repoAddr g)) | false;
         "_grpcPbExample" ~> "" | false;
         "_mixExample" ~> "" | false;
         "_pbExample" ~> "" | false];
      ret getGRPCServiceFields;
      ret (if suitedMonoRepo g then serverCodeFields codeNameGRPCPb (moduleName g) (serverName g) else []) ].

Definition rpcGwPb_rules (g : generator) (r : replacerInfo) : T (list Field) := cat
    [ del r httpFile;
      del_well r dockerFile;
      del_well r dockerFileBuild;
      del_well r dockerComposeFile;
      del_well r k8sDeploymentFile;
      del_well r k8sServiceFile;
      del_well r imageBuildFile;
      del_well r imageBuildLocalFile;
      del_all_well r makeFile;
      del_well r gitIgnoreFile;
      del_all_well r protoShellFile;
      del_all_well r appConfigFile;
      ret (replaceFileContentMark windows cwd d r readmeFile (setReadmeTitle (moduleName g) (serverName g) codeNameGRPCGW (suitedMonoRepo g)));
      ret [appConfigFileMark ~> rpcGwServerConfigCode | false;
         appConfigFileMark2 ~> getDBConfigCode texts "" | false;
         appConfigFileMark ~> "" | false;
         dockerFileMark ~> dockerFileHTTPCode | false;
         dockerFileBuildMark ~> dockerFileBuildHTTPCode | false;
         imageBuildFileMark ~> imageBuildFileHTTPCode | false;
         imageBuildLocalFileMark ~> imageBuildLocalFileHTTPCode | false;
         dockerComposeFileMark ~> dockerComposeFileHTTPCode | false;
         k8sDeploymentFileMark ~> k8sDeploymentFileHTTPCode | false;
         k8sServiceFileMark ~> k8sServiceFileHTTPCode | false;
         protoShellFileGRPCMark ~> protoShellGRPCMark | false;
         protoShellFileMark ~> protoShellServiceCode | false;
         "github.com/go-dev-frame/sponge" ~> moduleName g | false;
         (moduleName g) +:+ pkgPathSuffix ~> "github.com/go-dev-frame/sponge/pkg" | false;
         spongeTemplateVersionMark ~> getLocalSpongeTemplateVersion template_version | false;
         "sponge api docs" ~> (serverName g) +:+ " api docs" | false;
         defaultGoModVersion ~> getLocalGoVersion go_version | false;
         "serverNameExample" ~> serverName g | true;
         "server-name-example" ~> ToKebabCase (serverName g) | false;
         "project-name-example" ~> projectName g | false;
         "projectNameExample" ~> projectName g | false;
         "repo-addr-example" ~> repoAddr g | false;
         "image-repo-host" ~> fst (parseImageRepoAddr (repoAddr g)) | false;
         "_grpcGwPbExample" ~> "" | false;
         "_mixExample" ~> "" | false;
         "_pbExample" ~> "" | false];
      ret getGRPCServiceFields;
      ret (if suitedMonoRepo g then serverCodeFields codeNameGRPCGW (moduleName g) (serverName g) else []) ].

Definition extraFields (g : generator) : T (list Field) := cat
    [ rule databaseInitDBFileMark (init_db_code (dbDriver g));
      ret [showDbNameMark ~> CurrentDbDriver (dbDriver g) | false;
         "init.go.mgo" ~> "init.go" | false;
         "mongodb.go.mgo" ~> "mongodb.go" | false;
         "root:123456@(192.168.3.37:3306)/account" ~> dbDSN g | false;
         "root:123456@192.168.3.37:27017/account" ~> dbDSN g | false];
      rule "root:123456@192.168.3.37:5432/account?sslmode=disable" (adaptPgDsn (dbDSN g));
      ret ["test/sql/sqlite/sponge.db" ~> sqliteDSNAdaptation windows (dbDriver g) (dbDSN g) | false] ].

Definition httpAndGRPCPb_rules (isAddDBInitCode : bool) (extraReplaceFields : list Field) (g : generator) (r : replacerInfo) : T (list Field) := cat
    [ del r httpFile;
      del_well r dockerFile;
      del_well r dockerFileBuild;
      del_well r dockerComposeFile;
      del_well r k8sDeploymentFile;
      del_well r k8sServiceFile;
      del_well r imageBuildFile;
      del_well r imageBuildLocalFile;
      del_all_well r makeFile;
      del_well r gitIgnoreFile;
      del_all_well r protoShellFile;
      del_all_well r appConfigFile;
      (if isAddDBInitCode then del r databaseInitDBFile else ret []);
      ret (replaceFileContentMark windows cwd d r readmeFile (setReadmeTitle (moduleName g) (serverName g) codeNameGRPCHTTPPb (suitedMonoRepo g)));
      ret [appConfigFileMark ~> grpcAndHTTPServerConfigCode | false;
         appConfigFileMark2 ~> getDBConfigCode texts (if isAddDBInitCode then dbDriver g else undeterminedDBDriver) | false;
         dockerFileMark ~> dockerFileGrpcCode | false;
         dockerFileBuildMark ~> dockerFileBuildGrpcCode | false;
         imageBuildFileMark ~> imageBuildFileGrpcCode | false;
         imageBuildLocalFileMark ~> imageBuildLocalFileGrpcCode | false;
         dockerComposeFileMark ~> dockerComposeFileGrpcCode | false;
         k8sDeploymentFileMark ~> k8sDeploymentFileGrpcCode | false;
         k8sServiceFileMark ~> k8sServiceFileGrpcCode | false;
         protoShellFileGRPCMark ~> protoShellGRPCMark | false;
         protoShellFileMark ~> protoShellServiceAndHandlerCode | false;
         "github.com/go-dev-frame/sponge" ~> moduleName g | false;
         (moduleName g) +:+ pkgPathSuffix ~> "github.com/go-dev-frame/sponge/pkg" | false;
         spongeTemplateVersionMark ~> getLocalSpongeTemplateVersion template_version | false;
         "sponge api docs" ~> (serverName g) +:+ apiDocsSuffix | false;
         defaultGoModVersion ~> getLocalGoVersion go_version | false;
         "serverNameExample" ~> serverName g | false;
         "server-name-example" ~> ToKebabCase (serverName g) | false;
         "project-name-example" ~> projectName g | false;
         "projectNameExample" ~> projectName g | false;
         "repo-addr-example" ~> repoAddr g | false;
         "image-repo-host" ~> fst (parseImageRepoAddr (repoAddr g)) | false;
         "_httpPbExample" ~> "" | false;
         "_grpcHttpPbExample" ~> "" | false;
         "_grpcPbExample" ~> "" | false;
         "_mixExample" ~> "" | false;
         "_pbExample" ~> "" | false;
         "prof.Register(r, prof.WithIOWaitTime())" ~> "// implemented on port 8283" | false;
         (text [EmptyString; "github.com/go-dev-frame/sponge/pkg/gin/prof"; EmptyString]) ~> "" | false;
         "reference-db-config-url" ~> "Reference: https://github.com/go-dev-frame/sponge/blob/main/configs/serverNameExample.yml#L87" | false];
      ret (if isAddDBInitCode then extraReplaceFields else []);
      ret getGRPCServiceFields;
      ret (if suitedMonoRepo g then serverCodeFields codeNameGRPCHTTPPb (moduleName g) (serverName g) else []) ].

Definition grpcConn_rules (grpcName : string) (g : generator) : T (list Field) := cat
    [ ret ["github.com/go-dev-frame/sponge/configs" ~> moduleName g +:+ "/configs" | false;
         "github.com/go-dev-frame/sponge/internal/config" ~> moduleName g +:+ "/internal/config" | false;
         "serverNameExample" ~> grpcName | true];
      ret (if suitedMonoRepo g then SubServerCodeFields (moduleName g) (serverName g) else []) ].

End Rules.

End GenRules.
