(* ===== verification/GenCommands.v ===== *)
(** * The generating commands (cmd/milady/commands/generate)

    generateCode of every command: the choice of the template files by the
    key of the table, the driver and the extended interface, the rules of
    GenRules.v, the saving by the replacer of Replacer.v and what follows it.
    The commands for tables make a replacer of their own; the others share
    one. *)

From S2P Require Import Prelude GoStr Files Replacer SqlNames SqlFields SqlCode GenCommon GenTexts GenRules.
From Stdlib Require Import Ascii.

Module GenCommands.
Import SqlNames SqlFields SqlCode Files Replacer GenCommon GenTexts GenRules.

Definition files_by_dir : Type := gmap string (list string).

(** The information of the table, [None] when it cannot be read. *)
Definition crud_info `{Machine} (g : generator) : option CrudInfo :=
  let info := code g "crud_info" in
  if bool_decide (info = "") then None else unmarshal info.
Definition own_key `{Machine} (g : generator) : bool := CheckCommonType (crud_info g).
Definition default_server_name (g : generator) : generator :=
  if bool_decide (serverName g = "") then set_server_name (moduleName g) g else g.

Definition server_sub_files : list string :=
  ["sponge/.gitignore"; "sponge/.golangci.yml"; "sponge/go.mod"; "sponge/go.sum"; "sponge/Jenkinsfile"; "sponge/Makefile"; "sponge/README.md"].
Definition http_sub_files : list string :=
  ["sponge/.gitignore"; "sponge/.golangci.yml"; "sponge/go.mod"; "sponge/go.sum"; "sponge/Jenkinsfile"; "sponge/Makefile-for-http"; "sponge/README.md"].
Definition rpc_sub_dirs : list string :=
  ["cmd/serverNameExample_grpcExample"; "sponge/configs"; "sponge/deployments"; "sponge/scripts"; "sponge/third_party"].

Section Commands.
Context `{Machine}.
Variable d : node.
#[local] Notation getTemplateFiles := (GenCommon.getTemplateFiles order).

(** ** What the commands have in common *)

(** A directory that cannot be listed leaves a nil replacer. *)
Definition new_replacer : T replacerInfo :=
  match New_ windows cwd fuel d MiladyDir with
  | Some (Ok r) => ret r
  | Some (Err _) => fail ErrNilReplacer
  | Some Panic => Some Panic
  | None => None
  end.

(** The files for a table; with a key of its own those with templates, with
    the rules for what the templates make. *)
Definition select_files (g : generator) (r : replacerInfo) (select common common_extended : files_by_dir)
    (commonFields commonExtendedFields : T (list Field)) : T (generator * files_by_dir) :=
  match crud_info g with
  | Some info =>
      if CheckCommonType (Some info) then
        let select := if isExtendedAPI g then common_extended else common in
        fields ← (if isExtendedAPI g then commonExtendedFields else commonFields);
        contentFields ← Some (replaceFilesContent windows cwd execute d r (getTemplateFiles select) info);
        ret (append_fields (contentFields ++ fields) (set_common_style g), select)
      else ret (g, select)
  | None => ret (g, select)
  end.

(** The files to take instead, by the driver. *)
Definition by_driver (g : generator) (extended mongo_extended : T (files_by_dir * list Field)) (mongo : files_by_dir)
    (mongo_fields : T (list Field)) : T (generator * files_by_dir) :=
  let driver := ToLower (dbDriver g) in
  if bool_decide (driver ∈ [DBDriverMysql; DBDriverPostgresql; DBDriverTidb; DBDriverSqlite]) then
    let g := append_fields (getExpectedSQLForDeletionField (isEmbed g)) g in
    if isExtendedAPI g then '(replace, fields) ← extended; ret (append_fields fields g, replace) else ret (g, ∅)
  else if bool_decide (driver = DBDriverMongodb) then
    if isExtendedAPI g then '(replace, fields) ← mongo_extended; ret (append_fields fields g, replace)
    else fields ← mongo_fields; ret (append_fields fields g, mongo)
  else fail (ErrDBDriver (dbDriver g)).

(** The settings of the replacer before the saving. *)
Definition prepared (subDirs subFiles ignoreDirs ignoreFiles : list string) (name : string)
    (rules : replacerInfo -> T (list Field)) (outPath : string) (r : replacerInfo) : T replacerInfo :=
  let r := SetSubDirsAndFiles windows subDirs subFiles r in
  let r := SetIgnoreSubFiles ignoreFiles (SetIgnoreSubDirs windows ignoreDirs r) in
  let r := SetOutputDir windows cwd stamp outPath [name] r in
  fields ← rules r;
  ret (SetReplacementFields fields r).

(** A result, and the disk that is left. *)
Definition outcome (A : Type) : Type := option (node * result error A).
Definition then_ {A B} (m : outcome A) (f : node -> A -> outcome B) : outcome B :=
  match m with
  | None => None
  | Some (d, Ok a) => f d a
  | Some (d, Err e) => Some (d, Err e)
  | Some (d, Panic) => Some (d, Panic)
  end.
(** An error that is not looked at. *)
Definition dropped (m : node * result error unit) : outcome unit :=
  match m with (d, Panic) => Some (d, Panic) | (d, _) => Some (d, Ok tt) end.

(** The saving, what follows it in the directory of the output, and the
    directory as the result. *)
Definition saved (plan : T replacerInfo) (after : string -> node -> outcome unit) : outcome string :=
  match plan with
  | None => None
  | Some (Err e) => Some (d, Err e)
  | Some Panic => Some (d, Panic)
  | Some (Ok r) =>
      let '(d, s) := SaveFiles windows cwd order1 order2 exe stamp d r in
      let out := GetOutputDir (with_out_path windows exe stamp r) in
      then_ (Some (d, rep s)) (fun d _ => then_ (after out d) (fun d _ => Some (d, Ok out)))
  end.
Definition nothing (out : string) (d : node) : outcome unit := Some (d, Ok tt).
Definition gen_info (g : generator) (out : string) (d : node) : outcome unit :=
  dropped (saveGenInfo windows cwd d (moduleName g) (serverName g) (suitedMonoRepo g) out).
Definition move_protos (g : generator) (out : string) (d : node) : outcome unit :=
  if suitedMonoRepo g then moveProtoFileToAPIDir windows cwd fuel d (moduleName g) (serverName g) (suitedMonoRepo g) out else Some (d, Ok tt).

(** ** generateCode (dao.go) *)

Definition dao_files : files_by_dir := file_map
  [("internal/cache", ["userExample.go"; "userExample_test.go"]);
   ("internal/dao", ["userExample.go"; "userExample_test.go"]);
   ("internal/model", ["userExample.go"])].

Definition dao_common_files : files_by_dir := file_map
  [("internal/cache", ["userExample.go.tpl"]);
   ("internal/dao", ["userExample.go.tpl"]);
   ("internal/apiserver/model", ["userExample.go"])].

Definition dao_common_extended_files : files_by_dir :=
  <["internal/dao" := ["userExample.go.exp.tpl"]]> (dao_common_files).

Definition dao_mongo_files : files_by_dir := file_map
  [("internal/cache", ["userExample.go.mgo"]);
   ("internal/dao", ["userExample.go.mgo"])].

Definition dao_plan (g : generator) : T replacerInfo :=
  r ← new_replacer;
  '(g, select) ← select_files g r dao_files dao_common_files dao_common_extended_files (commonDaoFields d r) (commonDaoExtendedFields d r);
  '(g, replace) ← by_driver g (if own_key g then ret (∅, []) else daoExtendedAPI d r) (daoMongoDBExtendedAPI d r) dao_mongo_files (ret []);
  prepared [] (getSubFiles order select replace) [] [] codeNameDao (dao_rules d g) (genOutPath g) r.

Definition dao_generateCode (g : generator) : outcome string :=
  saved (dao_plan g) nothing.

(** ** generateCode (store.go) *)

Definition store_files : files_by_dir := file_map
  [("internal/apiserver/store", ["store.go"; "userExample.go"]);
   ("internal/model", ["userExample.go"])].

Definition store_common_files : files_by_dir := file_map
  [("internal/cache", ["userExample.go.tpl"]);
   ("internal/dao", ["userExample.go.tpl"]);
   ("internal/model", ["userExample.go"])].

Definition store_mongo_files : files_by_dir := file_map
  [("internal/cache", ["userExample.go.mgo"]);
   ("internal/dao", ["userExample.go.mgo"])].

Definition store_plan (g : generator) : T replacerInfo :=
  r ← new_replacer;
  '(g, select) ← select_files g r store_files store_common_files store_common_files (commonStoreFields d r) (commonStoreFields d r);
  '(g, replace) ← by_driver g (ret (∅, [])) (daoMongoDBExtendedAPI d r) store_mongo_files (ret []);
  prepared [] (getSubFiles order select replace) [] [] codeNameStore (store_rules d g) (genOutPath g) r.

Definition store_generateCode (g : generator) : outcome string :=
  saved (store_plan g) nothing.

(** ** generateCode (handler.go) *)

Definition handler_files : files_by_dir := file_map
  [("internal/cache", ["userExample.go"; "userExample_test.go"]);
   ("internal/dao", ["userExample.go"; "userExample_test.go"]);
   ("internal/ecode", ["userExample_http.go"]);
   ("internal/handler", ["userExample.go"; "userExample_test.go"]);
   ("internal/model", ["userExample.go"]);
   ("internal/routers", ["userExample.go"]);
   ("internal/types", ["userExample_types.go"])].

Definition handler_common_files : files_by_dir := file_map
  [("internal/cache", ["userExample.go.tpl"]);
   ("internal/dao", ["userExample.go.tpl"]);
   ("internal/ecode", ["userExample_http.go.tpl"]);
   ("internal/handler", ["userExample.go.tpl"]);
   ("internal/model", ["userExample.go"]);
   ("internal/routers", ["userExample.go.tpl"]);
   ("internal/types", ["userExample_types.go.tpl"])].

Definition handler_common_extended_files : files_by_dir :=
  <["internal/types" := ["userExample_types.go.exp.tpl"]]> (<["internal/routers" := ["userExample.go.exp.tpl"]]> (<["internal/handler" := ["userExample.go.exp.tpl"]]> (<["internal/ecode" := ["userExample_http.go.exp.tpl"]]> (<["internal/dao" := ["userExample.go.exp.tpl"]]> (handler_common_files))))).

Definition handler_mongo_files : files_by_dir := file_map
  [("internal/cache", ["userExample.go.mgo"]);
   ("internal/dao", ["userExample.go.mgo"]);
   ("internal/handler", ["userExample.go.mgo"]);
   ("internal/types", ["userExample_types.go.mgo"])].

Definition handler_plan (g : generator) : T replacerInfo :=
  r ← new_replacer;
  '(g, select) ← select_files g r handler_files handler_common_files handler_common_extended_files (commonHandlerFields d r) (commonHandlerExtendedFields d r);
  '(g, replace) ← by_driver g (if own_key g then ret (∅, []) else handlerExtendedAPI d r codeNameHandler) (handlerMongoDBExtendedAPI d r codeNameHandler) handler_mongo_files (ret []);
  prepared [] (getSubFiles order select replace) [] [] codeNameHandler (handler_rules d g) (genOutPath g) r.

Definition handler_generateCode (g : generator) : outcome string :=
  saved (handler_plan g) nothing.

(** ** generateCode (service.go) *)

Definition service_files : files_by_dir := file_map
  [("api/serverNameExample/v1", ["userExample.proto"]);
   ("internal/cache", ["userExample.go"; "userExample_test.go"]);
   ("internal/dao", ["userExample.go"; "userExample_test.go"]);
   ("internal/ecode", ["userExample_rpc.go"]);
   ("internal/model", ["userExample.go"]);
   ("internal/service", ["userExample.go"; "userExample_client_test.go"])].

Definition service_common_files : files_by_dir := file_map
  [("api/serverNameExample/v1", ["userExample.proto"]);
   ("internal/cache", ["userExample.go.tpl"]);
   ("internal/dao", ["userExample.go.tpl"]);
   ("internal/ecode", ["userExample_rpc.go.tpl"]);
   ("internal/model", ["userExample.go"]);
   ("internal/service", ["userExample.go.tpl"])].

Definition service_common_extended_files : files_by_dir :=
  <["internal/service" := ["userExample.go.exp.tpl"]]> (<["internal/ecode" := ["userExample_rpc.go.exp.tpl"]]> (<["internal/dao" := ["userExample.go.exp.tpl"]]> (service_common_files))).

Definition service_mongo_files : files_by_dir := file_map
  [("internal/cache", ["userExample.go.mgo"]);
   ("internal/dao", ["userExample.go.mgo"]);
   ("internal/service", ["userExample.go.mgo"; "userExample_client_test.go.mgo"])].

Definition service_plan (g : generator) : T replacerInfo :=
  let g := default_server_name g in
  r ← new_replacer;
  '(g, select) ← select_files g r service_files service_common_files service_common_extended_files (commonServiceFields d r) (commonServiceExtendedFields d r);
  '(g, replace) ← by_driver g (if own_key g then ret (∅, []) else serviceExtendedAPI d r codeNameService) (serviceMongoDBExtendedAPI d r codeNameService) service_mongo_files (del d r (serviceLogicFile +:+ mgoSuffix));
  prepared [] (getSubFiles order select replace) [] [] codeNameService (service_rules d g) (genOutPath g) r.

Definition service_generateCode (g : generator) : outcome string :=
  saved (service_plan g) (move_protos (default_server_name g)).

(** ** generateCode (handler-pb.go) *)

Definition handlerPb_files : files_by_dir := file_map
  [("api/serverNameExample/v1", ["userExample.proto"]);
   ("internal/cache", ["userExample.go"; "userExample_test.go"]);
   ("internal/dao", ["userExample.go"; "userExample_test.go"]);
   ("internal/ecode", ["userExample_http.go"]);
   ("internal/handler", ["userExample_logic.go"; "userExample_logic_test.go"]);
   ("internal/model", ["userExample.go"])].

Definition handlerPb_common_files : files_by_dir := file_map
  [("api/serverNameExample/v1", ["userExample.proto"]);
   ("internal/cache", ["userExample.go.tpl"]);
   ("internal/dao", ["userExample.go.tpl"]);
   ("internal/ecode", ["userExample_http.go.tpl"]);
   ("internal/handler", ["userExample_logic.go.tpl"]);
   ("internal/model", ["userExample.go"])].

Definition handlerPb_common_extended_files : files_by_dir :=
  <["internal/handler" := ["userExample_logic.go.exp.tpl"]]> (<["internal/ecode" := ["userExample_http.go.exp.tpl"]]> (<["internal/dao" := ["userExample.go.exp.tpl"]]> (handlerPb_common_files))).

Definition handlerPb_mongo_files : files_by_dir := file_map
  [("internal/cache", ["userExample.go.mgo"]);
   ("internal/dao", ["userExample.go.mgo"]);
   ("internal/handler", ["userExample_logic.go.mgo"])].

Definition handlerPb_plan (g : generator) : T replacerInfo :=
  let g := default_server_name g in
  r ← new_replacer;
  '(g, select) ← select_files g r handlerPb_files handlerPb_common_files handlerPb_common_extended_files (commonHandlerPbFields d r) (commonHandlerPbExtendedFields d r);
  '(g, replace) ← by_driver g (if own_key g then ret (∅, []) else handlerPbExtendedAPI d r) (handlerPbMongoDBExtendedAPI d r) handlerPb_mongo_files (del d r (handlerLogicFile +:+ mgoSuffix));
  prepared [] (getSubFiles order select replace) [] [] codeNameHandlerPb (handlerPb_rules d g) (genOutPath g) r.

Definition handlerPb_generateCode (g : generator) : outcome string :=
  saved (handlerPb_plan g) (move_protos (default_server_name g)).

(** ** generateCode (service-handler.go) *)

Definition serviceHandler_files : files_by_dir := file_map
  [("api/serverNameExample/v1", ["userExample.proto"]);
   ("internal/cache", ["userExample.go"; "userExample_test.go"]);
   ("internal/dao", ["userExample.go"; "userExample_test.go"]);
   ("internal/handler", ["userExample.go.service"]);
   ("internal/model", ["userExample.go"]);
   ("internal/service", ["userExample.go"; "userExample_client_test.go"])].

Definition serviceHandler_common_files : files_by_dir := file_map
  [("api/serverNameExample/v1", ["userExample.proto"]);
   ("internal/cache", ["userExample.go.tpl"]);
   ("internal/dao", ["userExample.go.tpl"]);
   ("internal/handler", ["userExample.go.service.tpl"]);
   ("internal/model", ["userExample.go"]);
   ("internal/service", ["userExample.go.tpl"])].

Definition serviceHandler_common_extended_files : files_by_dir :=
  <["internal/service" := ["userExample.go.exp.tpl"]]> (<["internal/handler" := ["userExample.go.service.exp.tpl"]]> (<["internal/dao" := ["userExample.go.exp.tpl"]]> (serviceHandler_common_files))).

Definition serviceHandler_mongo_files : files_by_dir := file_map
  [("internal/cache", ["userExample.go.mgo"]);
   ("internal/dao", ["userExample.go.mgo"]);
   ("internal/service", ["userExample.go.mgo"; "userExample_client_test.go.mgo"])].

Definition serviceHandler_plan (g : generator) : T replacerInfo :=
  let g := default_server_name g in
  r ← new_replacer;
  '(g, select) ← select_files g r serviceHandler_files serviceHandler_common_files serviceHandler_common_extended_files (commonServiceHandlerFields d r) (commonServiceHandlerExtendedFields d r);
  '(g, replace) ← by_driver g (if own_key g then ret (∅, []) else serviceHandlerExtendedAPI d r) (serviceHandlerMongoDBExtendedAPI d r) serviceHandler_mongo_files (del d r (serviceLogicFile +:+ mgoSuffix));
  prepared [] (getSubFiles order select replace) [] [] codeNameServiceHTTP (serviceHandler_rules d g) (genOutPath g) r.

Definition serviceHandler_generateCode (g : generator) : outcome string :=
  saved (serviceHandler_plan g) (move_protos (default_server_name g)).

(** ** generateCode (http.go) *)

Definition http_files : files_by_dir := file_map
  [("docs", ["docs.go"]);
   ("internal/cache", ["userExample.go"; "userExample_test.go"]);
   ("internal/config", ["serverNameExample.go"]);
   ("internal/dao", ["userExample.go"; "userExample_test.go"]);
   ("internal/database", ["init.go"]);
   ("internal/ecode", ["systemCode_http.go"; "userExample_http.go"]);
   ("internal/handler", ["userExample.go"; "userExample_test.go"]);
   ("internal/model", ["userExample.go"]);
   ("internal/routers", ["routers.go"; "userExample.go"]);
   ("internal/server", ["http.go.noregistry"; "http_option.go.noregistry"]);
   ("internal/types", ["swagger_types.go"; "userExample_types.go"])].

Definition http_common_files (select : files_by_dir) : files_by_dir :=
  <["internal/types" := ["swagger_types.go"; "userExample_types.go.tpl"]]> (<["internal/routers" := ["routers.go"; "userExample.go.tpl"]]> (<["internal/handler" := ["userExample.go.tpl"]]> (<["internal/ecode" := ["systemCode_http.go"; "userExample_http.go.tpl"]]> (<["internal/dao" := ["userExample.go.tpl"]]> (<["internal/cache" := ["userExample.go.tpl"]]> (select)))))).

Definition http_common_extended_files (select : files_by_dir) : files_by_dir :=
  <["internal/types" := ["swagger_types.go"; "userExample_types.go.exp.tpl"]]> (<["internal/routers" := ["routers.go"; "userExample.go.exp.tpl"]]> (<["internal/handler" := ["userExample.go.exp.tpl"]]> (<["internal/ecode" := ["systemCode_http.go"; "userExample_http.go.exp.tpl"]]> (<["internal/dao" := ["userExample.go.exp.tpl"]]> (http_common_files select))))).

Definition http_mongo_files : files_by_dir := file_map
  [("internal/cache", ["userExample.go.mgo"]);
   ("internal/dao", ["userExample.go.mgo"]);
   ("internal/handler", ["userExample.go.mgo"]);
   ("internal/types", ["swagger_types.go"; "userExample_types.go.mgo"])].

Definition http_plan (g : generator) : T replacerInfo :=
  r ← new_replacer;
  subFiles ← Some (if suitedMonoRepo g then removeElements http_sub_files ["sponge/go.mod"; "sponge/go.sum"] else Ok http_sub_files);
  select ← Some (SetSelectFiles (dbDriver g) http_files);
  '(g, select) ← select_files g r select (http_common_files select) (http_common_extended_files select)
                   (commonHandlerFields d r) (commonHandlerExtendedFields d r);
  '(g, replace) ← by_driver g (if own_key g then ret (∅, []) else handlerExtendedAPI d r codeNameHTTP) (handlerMongoDBExtendedAPI d r codeNameHTTP)
                    http_mongo_files (ret []);
  prepared ["cmd/serverNameExample_httpExample"; "sponge/configs"; "sponge/deployments"; "sponge/scripts"]
    (subFiles ++ getSubFiles order select replace) ["cmd/sponge"]
    ["scripts/image-rpc-test.sh"; "scripts/patch.sh"; "scripts/protoc.sh"; "scripts/proto-doc.sh"; "configs/serverNameExample_cc.yml"]
    (serverName g +:+ "_" +:+ codeNameHTTP) (http_rules d g) (genOutPath g) r.

Definition http_generateCode (g : generator) : outcome string := saved (http_plan g) (gen_info g).

(** ** generateCode (rpc.go) *)

Definition rpc_files : files_by_dir := file_map
  [("api/serverNameExample/v1", ["userExample.proto"]);
   ("api/types", ["types.proto"]);
   ("internal/cache", ["userExample.go"; "userExample_test.go"]);
   ("internal/config", ["serverNameExample.go"]);
   ("internal/dao", ["userExample.go"; "userExample_test.go"]);
   ("internal/database", ["init.go"]);
   ("internal/ecode", ["systemCode_rpc.go"; "userExample_rpc.go"]);
   ("internal/model", ["userExample.go"]);
   ("internal/server", ["grpc.go"; "grpc_option.go"]);
   ("internal/service", ["service.go"; "service_test.go"; "userExample.go"; "userExample_client_test.go"])].

Definition rpc_common_files (select : files_by_dir) : files_by_dir :=
  <["internal/service" := ["service.go"; "service_test.go"; "userExample.go.tpl"]]> (<["internal/ecode" := ["systemCode_rpc.go"; "userExample_rpc.go.tpl"]]> (<["internal/dao" := ["userExample.go.tpl"]]> (<["internal/cache" := ["userExample.go.tpl"]]> (select)))).

Definition rpc_common_extended_files (select : files_by_dir) : files_by_dir :=
  <["internal/service" := ["service.go"; "service_test.go"; "userExample.go.exp.tpl"]]> (<["internal/ecode" := ["systemCode_rpc.go"; "userExample_rpc.go.exp.tpl"]]> (<["internal/dao" := ["userExample.go.exp.tpl"]]> (rpc_common_files select))).

Definition rpc_mongo_files : files_by_dir := file_map
  [("internal/cache", ["userExample.go.mgo"]);
   ("internal/dao", ["userExample.go.mgo"]);
   ("internal/service", ["service.go"; "service_test.go"; "userExample.go.mgo"; "userExample_client_test.go.mgo"])].

(** The template directories are put together after the choice for a key of
    its own, before that for the driver; the rules of the extended interface
    are added for every key, and those for mongodb under the name http. *)
Definition rpc_plan (g : generator) : T replacerInfo :=
  r ← new_replacer;
  select ← Some (SetSelectFiles (dbDriver g) rpc_files);
  '(g, select) ← select_files g r select (rpc_common_files select) (rpc_common_extended_files select)
                   (commonServiceFields d r) (commonServiceExtendedFields d r);
  subDirs ← Some (if suitedMonoRepo g then removeElements rpc_sub_dirs ["sponge/third_party"] else Ok rpc_sub_dirs);
  subFiles ← Some (if suitedMonoRepo g then removeElements server_sub_files ["sponge/go.mod"; "sponge/go.sum"] else Ok server_sub_files);
  let select := if suitedMonoRepo g then delete "api/types" select else select in
  '(g, replace) ← by_driver g (serviceExtendedAPI d r codeNameGRPC) (serviceMongoDBExtendedAPI d r codeNameHTTP) rpc_mongo_files
                    (del d r (serviceLogicFile +:+ mgoSuffix));
  prepared subDirs (subFiles ++ getSubFiles order select replace) ["cmd/sponge"]
    ["scripts/swag-docs.sh"; "configs/serverNameExample_cc.yml"] (serverName g +:+ "_" +:+ codeNameGRPC) (rpc_rules d g) (genOutPath g) r.

Definition rpc_generateCode (g : generator) : outcome string :=
  saved (rpc_plan g) (fun out d => then_ (move_protos g out d) (fun d _ => gen_info g out d)).

Definition httpPb_files : files_by_dir := file_map
  [("docs", ["apis.go"; "apis.swagger.json"]);
   ("internal/config", ["serverNameExample.go"]);
   ("internal/ecode", ["systemCode_http.go"]);
   ("internal/routers", ["routers_pbExample.go"]);
   ("internal/server", ["http.go.noregistry"; "http_option.go.noregistry"])].

Definition rpcPb_files : files_by_dir := file_map
  [("internal/config", ["serverNameExample.go"]);
   ("internal/ecode", ["systemCode_rpc.go"]);
   ("internal/server", ["grpc.go"; "grpc_option.go"]);
   ("internal/service", ["service.go"; "service_test.go"])].

Definition rpcGwPb_files : files_by_dir := file_map
  [("docs", ["apis.go"; "apis.swagger.json"]);
   ("internal/config", ["serverNameExample.go"]);
   ("internal/ecode", ["systemCode_rpc.go"]);
   ("internal/routers", ["routers_pbExample.go"]);
   ("internal/server", ["http.go"; "http_option.go"])].

Definition grpcHttpPb_files : files_by_dir := file_map
  [("docs", ["apis.go"; "apis.swagger.json"]);
   ("internal/config", ["serverNameExample.go"]);
   ("internal/ecode", ["systemCode_http.go"; "systemCode_rpc.go"]);
   ("internal/routers", ["routers_pbExample.go"]);
   ("internal/server", ["http.go"; "http_option.go"; "grpc.go"; "grpc_option.go"]);
   ("internal/service", ["service.go"; "service_test.go"])].

(** ** The commands for tables *)

Inductive table_command : Type := Dao | Store | Handler | Service | HandlerPb | ServiceHandler.
Definition table_plan (c : table_command) : generator -> T replacerInfo :=
  match c with
  | Dao => dao_plan | Store => store_plan | Handler => handler_plan | Service => service_plan
  | HandlerPb => handlerPb_plan | ServiceHandler => serviceHandler_plan
  end.
Definition table_generateCode (c : table_command) : generator -> outcome string :=
  match c with
  | Dao => dao_generateCode | Store => store_generateCode | Handler => handler_generateCode | Service => service_generateCode
  | HandlerPb => handlerPb_generateCode | ServiceHandler => serviceHandler_generateCode
  end.

(** ** Commands that share a replacer *)

(** The shared replacer, when there is one. *)
Definition known (r0 : option replacerInfo) : T replacerInfo := match r0 with Some r => ret r | None => fail ErrNilReplacer end.
(** The settings stay in it. *)
Definition replacer_after (plan : T replacerInfo) (r0 : option replacerInfo) : option replacerInfo :=
  match plan with Some (Ok r) => Some (with_out_path windows exe stamp r) | _ => r0 end.
Definition shared (plan : T replacerInfo) (after : string -> node -> outcome unit) (r0 : option replacerInfo) :
    outcome string * option replacerInfo :=
  (saved plan after, replacer_after plan r0).

(** model.go *)
Definition model_plan (g : generator) (r0 : option replacerInfo) : T replacerInfo :=
  r ← known r0;
  prepared [] ["internal/model/userExample.go"] [] [] codeNameModel (model_rules d g) (genOutPath g) r.
Definition model_generateCode (g : generator) (r0 : option replacerInfo) := shared (model_plan g r0) nothing r0.

(** protobuf.go *)
Definition protobuf_plan (g : generator) (r0 : option replacerInfo) : T replacerInfo :=
  r ← known r0;
  let g := default_server_name g in
  prepared [] ["api/serverNameExample/v1/userExample.proto"] [] [] codeNameProtobuf (protobuf_rules d g) (genOutPath g) r.
Definition protobuf_generateCode (g : generator) (r0 : option replacerInfo) := shared (protobuf_plan g r0) nothing r0.

(** rpc-conn.go *)
Definition grpcConn_plan (grpcName : string) (g : generator) (r0 : option replacerInfo) : T replacerInfo :=
  r ← known r0;
  prepared [] ["internal/rpcclient/serverNameExample.go"] [] [] codeNameGRPCConn (fun _ => grpcConn_rules grpcName g) (genOutPath g) r.
Definition grpcConn_generateCode (grpcName : string) (g : generator) (r0 : option replacerInfo) :=
  shared (grpcConn_plan grpcName g r0) nothing r0.

(** cache.go; an empty type of the value is an index out of range. *)
Record stringCacheGenerator : Type := mkCacheGenerator {
  cacheName : string; prefixKey : string; keyName : string; keyType : string; valueName : string; valueType : string }.
Definition cache_rules (c : stringCacheGenerator) (g : generator) (r : replacerInfo) : T (list Field) := cat
    [ del d r cacheFile;
      match valueType c with
      | String "*" rest =>
          ret ["var valueNameExample valueTypeExample" ~> valueName c +:+ " := &" +:+ rest +:+ "{}" | false;
               "&valueNameExample" ~> valueName c | false]
      | String _ _ => ret []
      | EmptyString => Some Panic
      end;
      ret ["github.com/moweilong/milady/internal/apiserver/model" ~> moduleName g +:+ "/internal/apiserver/model" | false;
           "cacheNameExample" ~> cacheName c | true;
           "prefixKeyExample:" ~> prefixKey c | false;
           "keyNameExample" ~> keyName c | false;
           "keyTypeExample" ~> keyType c | false;
           "valueNameExample" ~> valueName c | false;
           "valueTypeExample" ~> valueType c | false];
      ret (if suitedMonoRepo g then SubServerCodeFields (moduleName g) (serverName g) else []) ].
Definition cache_plan (c : stringCacheGenerator) (g : generator) (r0 : option replacerInfo) : T replacerInfo :=
  r ← known r0;
  prepared [] ["internal/cache/cacheNameExample.go"] [] [] codeNameCache (cache_rules c g) (genOutPath g) r.
Definition cache_generateCode (c : stringCacheGenerator) (g : generator) (r0 : option replacerInfo) := shared (cache_plan c g r0) nothing r0.

(** configmap.go *)
Definition configmap_rules (content : string) (g : generator) : T (list Field) :=
  ret [configmapFileMark ~> content | false;
       "serverNameExample" ~> serverName g | true;
       "server-name-example" ~> ToKebabCase (serverName g) | false;
       "project-name-example" ~> projectName g | false].
Definition configmap_plan (content : string) (g : generator) (r0 : option replacerInfo) : T replacerInfo :=
  r ← known r0;
  prepared ["deployments/kubernetes"] [] []
    ["projectNameExample-namespace.yml"; "README.md"; "serverNameExample-deployment.yml"; "serverNameExample-svc.yml"]
    "configmap" (fun _ => configmap_rules content g) (genOutPath g) r.
Definition configmap_generateCode (content : string) (g : generator) (r0 : option replacerInfo) :=
  shared (configmap_plan content g r0) nothing r0.

(** ** Servers from protobuf files (http-pb.go, rpc-pb.go, rpc-gw-pb.go, grpc-http-pb.go) *)

Definition proto_files (g : generator) : T (list string * bool) := parseProtobufFiles windows cwd fuel d (protobufFile g).
Definition protos (g : generator) : list string := match proto_files g with Some (Ok (files, _)) => files | _ => [] end.
Definition save_pb (g : generator) (out : string) (d' : node) : outcome unit :=
  Some (saveProtobufFiles windows cwd d' (moduleName g) (serverName g) (suitedMonoRepo g) out (protos g)).
Definition empty_swagger (out : string) (d' : node) : outcome unit := dropped (saveEmptySwaggerJSON windows cwd d' out).

(** The files of a server without a table. *)
Definition pb_plan (isImportTypes : bool) (cmdDir : string) (select : files_by_dir) (ignoreFiles : list string) (name : string)
    (rules : replacerInfo -> T (list Field)) (g : generator) (r : replacerInfo) : T replacerInfo :=
  let subDirs := [cmdDir; "sponge/configs"; "sponge/deployments"; "sponge/scripts"; "sponge/third_party"] in
  let subFiles := server_sub_files ++ (if isImportTypes then ["api/types/types.proto"] else []) in
  subDirs ← Some (if suitedMonoRepo g then removeElements subDirs ["sponge/third_party"] else Ok subDirs);
  subFiles ← Some (if suitedMonoRepo g then removeElements subFiles ["sponge/go.mod"; "sponge/go.sum"; "api/types/types.proto"] else Ok subFiles);
  prepared subDirs (subFiles ++ getSubFiles order select ∅) ["cmd/sponge"] ignoreFiles (serverName g +:+ "_" +:+ name) rules (genOutPath g) r.

Definition httpPb_plan (g : generator) (r0 : option replacerInfo) : T replacerInfo :=
  '(_, isImportTypes) ← proto_files g;
  r ← known r0;
  pb_plan isImportTypes "cmd/serverNameExample_httpPbExample" httpPb_files ["configs/serverNameExample_cc.yml"] codeNameHTTPPb
    (httpPb_rules d g) g r.
Definition httpPb_generateCode (g : generator) (r0 : option replacerInfo) :=
  shared (httpPb_plan g r0)
    (fun out d => then_ (save_pb g out d) (fun d _ => then_ (gen_info g out d) (fun d _ => empty_swagger out d))) r0.

Definition rpcPb_plan (g : generator) (r0 : option replacerInfo) : T replacerInfo :=
  '(_, isImportTypes) ← proto_files g;
  r ← known r0;
  pb_plan isImportTypes "cmd/serverNameExample_grpcPbExample" rpcPb_files ["scripts/swag-docs.sh"; "configs/serverNameExample_cc.yml"]
    codeNameGRPCPb (rpcPb_rules d g) g r.
Definition rpcPb_generateCode (g : generator) (r0 : option replacerInfo) :=
  shared (rpcPb_plan g r0) (fun out d => then_ (save_pb g out d) (fun d _ => gen_info g out d)) r0.

Definition rpcGwPb_plan (g : generator) (r0 : option replacerInfo) : T replacerInfo :=
  '(_, isImportTypes) ← proto_files g;
  r ← known r0;
  pb_plan isImportTypes "cmd/serverNameExample_grpcGwPbExample" rpcGwPb_files ["configs/serverNameExample_cc.yml"] codeNameGRPCGW
    (rpcGwPb_rules d g) g r.
Definition rpcGwPb_generateCode (g : generator) (r0 : option replacerInfo) :=
  shared (rpcGwPb_plan g r0)
    (fun out d => then_ (save_pb g out d) (fun d _ => then_ (gen_info g out d) (fun d _ => empty_swagger out d))) r0.

(** With the code for a database there are no protobuf files to take over. *)
Definition grpcHttpPb_plan (isHandleProtoFile isAddDBInitCode : bool) (extraReplaceFields : list Field) (g : generator)
    (r0 : option replacerInfo) : T replacerInfo :=
  isImportTypes ← (if isHandleProtoFile then '(_, isImportTypes) ← proto_files g; ret isImportTypes else ret true);
  r ← known r0;
  select ← Some (if isAddDBInitCode then SetSelectFiles (dbDriver g) grpcHttpPb_files else Ok grpcHttpPb_files);
  pb_plan isImportTypes "cmd/serverNameExample_grpcHttpPbExample" select ["configs/serverNameExample_cc.yml"]
    (if isAddDBInitCode then codeNameGRPCHTTP else codeNameGRPCHTTPPb)
    (httpAndGRPCPb_rules d isAddDBInitCode extraReplaceFields g) g r.
Definition grpcHttpPb_generateCode (isHandleProtoFile isAddDBInitCode : bool) (extraReplaceFields : list Field) (g : generator)
    (r0 : option replacerInfo) :=
  shared (grpcHttpPb_plan isHandleProtoFile isAddDBInitCode extraReplaceFields g r0)
    (fun out d => then_ (if isHandleProtoFile then save_pb g out d else Some (d, Ok tt)) (fun d _ => gen_info g out d)) r0.

End Commands.

End GenCommands.
