(* ===== verification/GenNames.v ===== *)
(** * The names of generated files

    Proofs about the rules of GenRules.v as the commands of GenCommands.v put
    them together: a rule whose text has a space, a slash, a backslash or a
    quote never touches the name of a file, and what is left gives every
    template its final name. *)

From S2P Require Import Prelude GoStr Files Replacer SqlNames SqlFields SqlCode GenCommon GenTexts GenRules GenCommands.
From Stdlib Require Import Ascii.

Module GenNames.
Import SqlNames SqlFields SqlCode Files Replacer GenCommon GenTexts GenRules GenCommands.

(** ** Rules that touch names *)

Definition name_char (c : ascii) : bool := negb (bool_decide (c ∈ [" "%char; slash; backslash; dquote])).
Definition name (s : string) : Prop := forall_chars name_char s = true.
Definition long (f : Field) : Prop := IsCaseSensitive f = false /\ forall_chars name_char (Old f) = false.

Lemma name_app s t : name (s +:+ t) <-> name s /\ name t.
Proof. unfold name. rewrite forall_chars_app. apply andb_true_iff. Qed.
Lemma contains_name n p : name n -> Contains n p = true -> name p.
Proof. intros Hn (t & u & ->)%Contains_spec. rewrite !name_app in Hn. tauto. Qed.
Lemma name_single c : name (single c) <-> name_char c = true.
Proof. unfold name, single. cbn. rewrite andb_true_r. done. Qed.

Lemma name_replaced old new n : name new -> name n -> name (ReplaceAll n old new).
Proof.
  intros Hnew Hn. destruct old as [|o old]; cbn [ReplaceAll].
  - induction n as [|c n IH]; cbn [between]; [done|]. apply name_app. split; [done|].
    change (String c n) with (single c +:+ n) in Hn. change (String c (between new n)) with (single c +:+ between new n).
    rewrite name_app in Hn |- *. split; [tauto|]. apply IH. tauto.
  - generalize O as k. revert n Hn. fix IH 1. intros [|c n] Hn k; [done|].
    change (String c n) with (single c +:+ n) in Hn. apply name_app in Hn as [Hc Hn]. cbn [replace_from]. destruct k as [|k].
    + destruct (HasPrefix _ _).
      * apply name_app. split; [done|]. by apply IH.
      * change (String c ?x) with (single c +:+ x). apply name_app. split; [done|]. by apply IH.
    + by apply IH.
Qed.

Lemma replace_path_app l1 l2 n : replace_path (l1 ++ l2) n = replace_path l2 (replace_path l1 n).
Proof. apply foldl_app. Qed.
Lemma name_step old new n : name new -> name n -> name (if Contains n old then ReplaceAll n old new else n).
Proof. intros Hnew Hn. destruct (Contains n old); [by apply name_replaced|done]. Qed.
Lemma replace_path_name l n : Forall (fun f => name (New f)) l -> name n -> name (replace_path l n).
Proof.
  intros Hl. revert n. induction Hl as [|f l Hf Hl IH]; intros n Hn; [done|]. cbn. apply IH. by apply name_step.
Qed.

(** What rules do to names is what the shorter list does. *)
Definition renames (m : T (list Field)) (l : list Field) : Prop :=
  Forall (fun f => name (New f)) l /\
  forall fs, m = Some (Ok fs) -> forall n, name n -> replace_path (mjoin (map split_field fs)) n = replace_path l n.

Lemma renames_none m : (forall fs, m = Some (Ok fs) -> fs = []) -> renames m [].
Proof. intros H. split; [done|]. intros fs ->%H. done. Qed.
Lemma renames_nil : renames (ret []) [].
Proof. apply renames_none. by intros fs [= <-]. Qed.
Lemma long_skipped f fs n : long f -> name n ->
  replace_path (mjoin (map split_field (f :: fs))) n = replace_path (mjoin (map split_field fs)) n.
Proof.
  intros [Hc Hf] Hn. cbn [map mjoin list_join]. unfold split_field at 1. rewrite Hc. cbn. destruct (Contains n (Old f)) eqn:E; [|done].
  apply contains_name in E; [|done]. unfold name in E. congruence.
Qed.
Lemma renames_long f fs l : long f -> renames (ret fs) l -> renames (ret (f :: fs)) l.
Proof. intros Hf [Hl H]. split; [done|]. intros fs' [= <-] n Hn. rewrite long_skipped by done. by apply (H fs). Qed.
Lemma renames_one f n : long f -> name n -> replace_path (mjoin (map split_field [f])) n = n.
Proof. intros Hf Hn. by apply (renames_long _ _ _ Hf renames_nil). Qed.
Lemma renames_short old new fs l : name new -> renames (ret fs) l ->
  renames (ret (mkField old new false :: fs)) (mkField old new false :: l).
Proof.
  intros Hnew [Hl H]. split; [by constructor|]. intros fs' [= <-] n Hn. cbn. apply (H fs eq_refl).
  by apply name_step.
Qed.
Lemma name_first f s : (forall c, name_char c = true -> name_char (f c) = true) -> name s -> name (first_letter f s).
Proof. intros Hf. destruct s as [|c s]; [done|]. unfold name. cbn. intros [Hc Hs]%andb_true_iff. by rewrite Hf, Hs. Qed.
Lemma upper_name c : name_char c = true -> name_char (upper c) = true.
Proof. by destruct c as [[] [] [] [] [] [] [] []]; vm_compute. Qed.
Lemma lower_name c : name_char c = true -> name_char (lower c) = true.
Proof. by destruct c as [[] [] [] [] [] [] [] []]; vm_compute. Qed.
Lemma renames_both old new fs l : isFirstAlphabet old = true -> new <> "" -> name new -> renames (ret fs) l ->
  renames (ret (mkField old new true :: fs))
    (mkField (first_letter upper old) (first_letter upper new) false :: mkField (first_letter lower old) (first_letter lower new) false :: l).
Proof.
  intros Ho Hnew Hn [Hl H]. assert (name (first_letter upper new)) by by apply name_first; [apply upper_name|].
  assert (name (first_letter lower new)) by by apply name_first; [apply lower_name|].
  split; [by repeat constructor|]. intros fs' [= <-] n Hn'. cbn [map mjoin list_join]. unfold split_field at 1. cbn [IsCaseSensitive Old New].
  rewrite Ho, bool_decide_eq_false_2 by done. cbn [andb app]. unfold replace_path at 1 2. cbn [foldl]. apply (H fs eq_refl).
  cbn [Old New]. by apply name_step; [|apply name_step].
Qed.
Lemma renames_cat_nil : renames (cat []) [].
Proof. apply renames_nil. Qed.
Lemma renames_cat m ms l ls : renames m l -> renames (cat ms) ls -> renames (cat (m :: ms)) (l ++ ls).
Proof.
  intros [Hl H] [Hls Hs]. split; [by apply Forall_app|]. cbn [cat]. intros fs Hfs n Hn. destruct m as [[f1| |]|]; try done.
  destruct (cat ms) as [[f2| |]|]; try done. injection Hfs as <-. rewrite map_app, join_app, !replace_path_app, (H f1) by done.
  apply (Hs f2); [done|]. by apply replace_path_name.
Qed.
Lemma renames_app f1 f2 l1 l2 : renames (ret f1) l1 -> renames (ret f2) l2 -> renames (ret (f1 ++ f2)) (l1 ++ l2).
Proof. intros H1 H2. pose proof (renames_cat _ [ret f2] _ _ H1 (renames_cat _ [] _ _ H2 renames_cat_nil)) as H.
  change (cat [ret f1; ret f2]) with (ret (f1 ++ (f2 ++ []))) in H. by rewrite !app_nil_r in H.
Qed.

(** ** Rules made from templates *)

Lemma marked_prefix data start end_ sub : FindSubBytes data start end_ = Ok sub -> sub <> "" ->
  exists k u, sub = str_take (str_len end_ + k) (start +:+ u).
Proof.
  unfold FindSubBytes, findSubByte2, index_z. intros H Hs. destruct (Index data start) as [i|] eqn:Ei.
  - destruct (Index_spec _ _ _ Ei) as (u & Hu & _). destruct (Index data end_) as [j|] eqn:Ej.
    + destruct (Index_spec _ _ _ Ej) as (v & Hv & Hj). destruct (_ <=? _) eqn:Hle in H; [by injection H as <-|].
      destruct (_ + _ <=? _) eqn:Hin in H.
      2:{ exfalso. apply (f_equal str_len) in Hv. rewrite str_len_drop, str_len_app in Hv. lia. }
      unfold slice in H. destruct (_ && _); [|done]. injection H as <-. rewrite Nat2Z.id, Hu. exists (j - i)%nat, u. f_equal. lia.
    + destruct (_ <=? _) eqn:Hle in H; [by injection H as <-|lia].
  - destruct (Index data end_) as [j|]; [|by injection H as <-].
    destruct (_ <=? _) eqn:Hle in H; [by injection H as <-|]. unfold slice in H. destruct (_ && _) eqn:E in H; [lia|done].
Qed.
Lemma long_marked start end_ sub : (3 <= str_len end_)%nat ->
  (forall k u, forall_chars name_char (str_take (3 + k) (start +:+ u)) = false) ->
  (exists k u, sub = str_take (str_len end_ + k) (start +:+ u)) -> long (sub ~> "" | false).
Proof.
  intros He Hs (k & u & ->). split; [done|]. cbn [Old]. replace (str_len end_ + k)%nat with (3 + (str_len end_ - 3 + k))%nat by lia. apply Hs.
Qed.

Section Del.
Context `{Machine}.
Variable d : node.

Lemma renames_del r file : renames (del d r file) [].
Proof.
  split; [done|]. intros fs Hfs n Hn. unfold del, lift, deleteFieldsMark in Hfs. destruct (Replacer.ReadFile _ _ _ _ _) as [data| |]; try by injection Hfs as <-.
  destruct (FindSubBytes data startMark endMark) as [sub| |] eqn:E; cbn in Hfs; try done. injection Hfs as <-.
  case_bool_decide as Hs; [done|]. pose proof (marked_prefix _ _ _ _ E Hs) as Hp.
  apply renames_one; [|done]. apply (long_marked startMark endMark); [vm_compute; lia|by intros k u|done].
Qed.
Lemma renames_rule old new : forall_chars name_char old = false -> renames (rule old new) [].
Proof.
  intros Hold. split; [done|]. intros fs Hfs n Hn. unfold rule in Hfs. destruct new as [[new| |]|]; try done. injection Hfs as <-.
  by apply renames_one.
Qed.

(** Every template has a character that names do not have. *)
Definition spaced (r0 : replacerInfo) (f : string) : bool :=
  negb (HasSuffix f tplSuffix) ||
  match read_source windows cwd d r0 f with
  | Ok data => bool_decide (data = "") || negb (forall_chars name_char data)
  | _ => true
  end.
Lemma suffix_of_filename f t s : windows = false -> no_char slash s -> HasSuffix t s = true ->
  GetFilename windows f = GetFilename windows t -> HasSuffix f s = true.
Proof.
  intros -> Hs Ht Hf. unfold GetFilename in Hf. pose proof (SplitPath_spec false f) as Hspf. pose proof (SplitPath_spec false t) as Hspt.
  destruct (SplitPath false f) as [df nf], (SplitPath false t) as [dt nt]. destruct Hspf as (-> & _), Hspt as (-> & _ & Hdt). cbn in Hf. subst nf.
  assert (HasSuffix nt s = true) as (u & ->)%HasSuffix_spec; [|by apply HasSuffix_spec; exists (df +:+ u); rewrite app_assoc_s].
  apply HasSuffix_spec in Ht as [u Hu]. apply HasSuffix_spec.
  destruct Hdt as [->|(qd & c & -> & Hc)]; [by exists u|].
  assert (c = slash) as -> by (unfold is_sep in Hc; by apply orb_true_iff in Hc as [->%bool_decide_eq_true|?]).
  revert qd Hu. induction u as [|a u IH]; intros qd Hu.
  - exfalso. rewrite app_nil_l_s in Hu. rewrite <- Hu in Hs. rewrite !no_char_app in Hs. destruct Hs as [[_ Hs] _]. by vm_compute in Hs.
  - destruct qd as [|b qd]; [injection Hu as _ Hu; by exists u|]. injection Hu as _ Hu. by apply (IH qd).
Qed.
Lemma renames_content r file info f : forallb (spaced r) (files r) = true -> windows = false -> HasSuffix file tplSuffix = true ->
  replaceTemplateFileContent windows cwd execute d r file info = Ok f -> Old f <> "" -> long f.
Proof.
  intros Hr Hw Hfile Hf Ho. unfold replaceTemplateFileContent in Hf. destruct (Replacer.ReadFile _ _ _ _ _) as [data| |] eqn:E; [|done..]. cbn in Hf.
  destruct (execute _ _ _); [|done]. injection Hf as <-. cbn [Old] in *. split; [done|]. cbn [Old]. unfold Replacer.ReadFile in E.
  destruct (filter _ (files r)) as [|f [|]] eqn:Ef; [done| |done].
  assert (f ∈ files r /\ GetFilename windows f = GetFilename windows file) as [Hin Hname].
  { assert (f ∈ [f]) as Hf by by left. rewrite <- Ef in Hf. apply list_elem_of_filter in Hf as [[_ Hf%bool_decide_eq_true]%andb_true_iff Hin].
    split; [done|]. rewrite Hf. by unfold convertPathDelimiter; rewrite Hw, andb_false_r. }
  rewrite forallb_forall in Hr. apply list_elem_of_In, Hr in Hin. unfold spaced in Hin. rewrite E in Hin.
  rewrite (suffix_of_filename f file) in Hin by done. cbn [negb orb] in Hin. by rewrite bool_decide_eq_false_2, orb_false_l, negb_true_iff in Hin.
Qed.

Lemma template_files_suffix sel file : file ∈ getTemplateFiles order sel -> HasSuffix file tplSuffix = true.
Proof.
  unfold getTemplateFiles. intros (l & Hf & ([dir fs] & -> & _)%list_elem_of_fmap)%list_elem_of_join.
  apply list_elem_of_fmap in Hf as (n & -> & [(u & ->)%HasSuffix_spec _]%list_elem_of_filter).
  apply HasSuffix_spec. exists (dir +:+ "/" +:+ u). by rewrite !app_assoc_s.
Qed.
Lemma renames_contents r sel info : forallb (spaced r) (files r) = true -> windows = false ->
  renames (Some (replaceFilesContent windows cwd execute d r (getTemplateFiles order sel) info)) [].
Proof.
  intros Hr Hw. split; [done|]. intros fs Hfs n Hn. injection Hfs as Hfs. unfold replaceFilesContent in Hfs.
  apply bind_ok in Hfs as (l & Hl & Hfs). injection Hfs as <-. apply traverse_ok in Hl.
  assert (Forall long (filter (fun f => Old f <> "") l)) as Hall.
  { apply Forall_forall. intros f [Ho Hf]%list_elem_of_filter. apply list_elem_of_lookup in Hf as [i Hi].
    destruct (Forall2_lookup_r _ _ _ _ _ Hl Hi) as (file & Hfile & Hok). apply list_elem_of_lookup_2, template_files_suffix in Hfile.
    by apply (renames_content r file info). }
  induction Hall as [|f fs Hf Hall IH]; [done|]. by rewrite long_skipped.
Qed.
End Del.

(** ** The parts of a command *)

Lemma T_bind_ok {A B} (m : T A) (f : A -> T B) b : m ≫= f = Some (Ok b) <-> exists a, m = Some (Ok a) /\ f a = Some (Ok b).
Proof. split; [destruct m as [[a| |]|]; try done; by exists a|by intros (a & -> & ?)]. Qed.

Ltac long_rule :=
  split; [reflexivity|]; cbn [Old]; first [reflexivity | match goal with Hw : windows = false |- _ => rewrite Hw; reflexivity end | rewrite forall_chars_app; apply andb_false_iff; right; reflexivity].
Ltac name_ok := first [exact eq_refl | assumption | apply name_app; split; name_ok].
Ltac head_of t := lazymatch t with ?f _ => head_of f | _ => t end.
Ltac renames_step :=
  lazymatch goal with
  | |- renames (cat []) _ => apply renames_cat_nil
  | |- renames (cat _) _ => apply renames_cat
  | |- renames (del _ _ _) _ => apply renames_del
  | |- renames (rule _ _) _ => apply renames_rule; reflexivity
  | |- renames (ret []) _ => apply renames_nil
  | |- renames (ret (if ?b then _ else [])) _ => destruct b
  | |- renames (ret (SubServerCodeFields _ _)) _ => unfold SubServerCodeFields, server_import, q
  | |- renames (ret (fields _)) _ => eassumption
  | |- renames (ret (_ :: _)) _ =>
      first [apply renames_long; [long_rule|] | apply renames_both; [reflexivity|first [eassumption|discriminate]|name_ok|] | apply renames_short; [name_ok|]]
  | |- renames (ret _) _ => fail
  | |- renames ?m _ => let f := head_of m in unfold f
  end.

Section Parts.
Context `{Machine}.
Variable d : node.
Hypothesis posix : windows = false.

(** What a part of a generator adds to the rules. *)
Record adds (g g' : generator) (l : list Field) : Prop := {
  adds_same : (moduleName g', serverName g', dbDriver g', codes g', suitedMonoRepo g', isExtendedAPI g', isEmbed g') =
              (moduleName g, serverName g, dbDriver g, codes g, suitedMonoRepo g, isExtendedAPI g, isEmbed g);
  adds_rules : forall l0, renames (ret (fields g)) l0 -> renames (ret (fields g')) (l0 ++ l) }.

Lemma adds_append g l l' : renames (ret l) l' -> adds g (append_fields l g) l'.
Proof. intros Hl. split; [done|]. intros l0 Hl0. by apply renames_app. Qed.
Lemma adds_nil g : adds g g [].
Proof. split; [done|]. intros l0. by rewrite app_nil_r. Qed.
Lemma adds_common g : adds g (set_common_style g) [].
Proof. split; [done|]. intros l0. by rewrite app_nil_r. Qed.
Lemma adds_trans g1 g2 g3 l1 l2 : adds g1 g2 l1 -> adds g2 g3 l2 -> adds g1 g3 (l1 ++ l2).
Proof. intros [H1 H1'] [H2 H2']. split; [congruence|]. intros l0 Hl0. rewrite app_assoc. auto. Qed.

Lemma select_files_spec g r select common common_extended cf cef lc lce g' sel :
  forallb (spaced d r) (files r) = true ->
  select_files d g r select common common_extended cf cef = Some (Ok (g', sel)) -> renames cf lc -> renames cef lce ->
  adds g g' (if own_key g then if isExtendedAPI g then lce else lc else []) /\
  sel = if own_key g then if isExtendedAPI g then common_extended else common else select.
Proof.
  intros Hsp Hs Hc Hce. unfold select_files in Hs. unfold own_key. destruct (crud_info g) as [info|]; [|injection Hs as <- <-; split; [apply adds_nil|done]].
  destruct (CheckCommonType (Some info)); [|injection Hs as <- <-; split; [apply adds_nil|done]].
  apply T_bind_ok in Hs as (fs & Hfs & Hs). apply T_bind_ok in Hs as (cs & Hcs & Hs). injection Hs as <- <-. split; [|done].
  apply (adds_trans g (set_common_style g) _ []); [apply adds_common|]. apply adds_append.
  assert (renames (ret fs) (if isExtendedAPI g then lce else lc)) as Hr.
  { destruct (isExtendedAPI g); rewrite Hfs in *; done. }
  assert (renames (ret cs) []) as Hcont by (unfold ret; rewrite <- Hcs; by apply renames_contents).
  by apply (renames_app _ _ []).
Qed.

Definition sql_driver (g : generator) : bool :=
  bool_decide (ToLower (dbDriver g) ∈ [DBDriverMysql; DBDriverPostgresql; DBDriverTidb; DBDriverSqlite]).
(** Files to take instead, with their rules. *)
Definition brings (m : T (files_by_dir * list Field)) (fs : files_by_dir) (l : list Field) : Prop :=
  forall p, m = Some (Ok p) -> fst p = fs /\ renames (ret (snd p)) l.

Lemma brings_cat l fs l' : renames (cat l) l' -> brings (fields ← cat l; ret (fs, fields)) fs l'.
Proof. intros Hr p (fields & Hl & [= <-])%T_bind_ok. split; [done|]. by rewrite Hl in Hr. Qed.
Lemma brings_nothing : brings (ret (∅, [])) ∅ [].
Proof. intros p [= <-]. split; [done|apply renames_nil]. Qed.

Lemma brings_if (c : bool) m1 m2 f1 f2 l1 l2 : brings m1 f1 l1 -> brings m2 f2 l2 ->
  brings (if c then m1 else m2) (if c then f1 else f2) (if c then l1 else l2).
Proof. by destruct c. Qed.

Lemma renames_deletion b : renames (ret (getExpectedSQLForDeletionField b)) [].
Proof.
  destruct b; [apply renames_nil|]. let l := eval vm_compute in (getExpectedSQLForDeletionField false) in change (getExpectedSQLForDeletionField false) with l.
  repeat renames_step.
Qed.

Lemma by_driver_spec g extended mongo_extended mongo mongo_fields fe le fm lm g' replace :
  by_driver g extended mongo_extended mongo mongo_fields = Some (Ok (g', replace)) ->
  brings extended fe le -> brings mongo_extended fm lm -> renames mongo_fields [] ->
  adds g g' (if isExtendedAPI g then if sql_driver g then le else lm else []) /\
  replace = if sql_driver g then if isExtendedAPI g then fe else ∅ else if isExtendedAPI g then fm else mongo.
Proof.
  intros Hs He Hm Hmf. unfold by_driver in Hs. unfold sql_driver. case_bool_decide; [|case_bool_decide; [|done]].
  - pose proof (adds_append g _ _ (renames_deletion (isEmbed g))) as Ha. cbn [isExtendedAPI append_fields] in Hs. destruct (isExtendedAPI g).
    + apply T_bind_ok in Hs as ([fs l] & Hp & Hs). injection Hs as <- <-. apply He in Hp as [<- Hp]. split; [|done].
      apply (adds_trans g _ _ [] _ Ha). by apply adds_append.
    + injection Hs as <- <-. by split.
  - destruct (isExtendedAPI g).
    + apply T_bind_ok in Hs as ([fs l] & Hp & Hs). injection Hs as <- <-. apply Hm in Hp as [<- Hp]. split; [|done]. by apply adds_append.
    + apply T_bind_ok in Hs as (l & Hl & Hs). injection Hs as <- <-. split; [|done]. apply adds_append. by rewrite Hl in Hmf.
Qed.

Lemma prepared_spec subFiles nm rules out r0 r l : (forall r', renames (rules r') l) ->
  prepared [] subFiles [] [] nm rules out r0 = Some (Ok r) ->
  files r = files (SetSubDirsAndFiles windows [] subFiles r0) /\
  forall n, name n -> replace_path (replacementFields r) n = replace_path l n.
Proof.
  intros Hr Hp. unfold prepared in Hp. apply T_bind_ok in Hp as (fs & Hfs & [= <-]). split.
  - unfold SetOutputDir. by destruct (negb _).
  - intros n Hn. destruct (Hr (SetOutputDir windows cwd stamp out [nm] (SetIgnoreSubFiles [] (SetIgnoreSubDirs windows []
      (SetSubDirsAndFiles windows [] subFiles r0))))) as [_ H']. by apply (H' fs).
Qed.

(** The names of the files that are chosen. *)
Definition chosen (sel replace : files_by_dir) : list string :=
  mjoin (map (fun '(dir, filenames) => default filenames (replace !! dir)) (map_to_list sel)).
(** The name that a template stands for: of userExample_kind.ext.variant the
    stem with the same kind and extension, where the logic of a handler is the
    handler itself and the variant (.tpl, .exp, .mgo, .service) is dropped; any
    other name stays. *)
Definition final_name (stem n : string) : string :=
  match Split n "."%char with
  | kind :: ext :: _ =>
      if HasPrefix kind "userExample" then stem +:+ TrimPrefix (TrimPrefix kind "userExample") "_logic" +:+ "." +:+ ext else n
  | _ => n
  end.
(** Examples of it. *)
Lemma final_name_examples :
  map (final_name "coupon") ["userExample.go.mgo.exp"; "userExample_test.go.exp"; "userExample_logic_test.go"; "userExample_http.go.exp.tpl";
    "userExample.go.service.tpl"; "userExample.proto"; "store.go"] =
  ["coupon.go"; "coupon_test.go"; "coupon_test.go"; "coupon_http.go"; "coupon.go"; "coupon.proto"; "store.go"].
Proof. reflexivity. Qed.

(** Whether the template of the model is chosen from a directory. *)
Definition picks_model (sel replace : files_by_dir) (dir : string) : bool :=
  match sel !! dir with Some fs => bool_decide ("userExample.go" ∈ default fs (replace !! dir)) | None => false end.
Definition model_templates : list string := ["internal/model/userExample.go"; "internal/apiserver/model/userExample.go"].

Definition named (g : generator) (r0 r : replacerInfo) : Prop :=
  exists sel replace l, files r = files (SetSubDirsAndFiles windows [] (getSubFiles order sel replace) r0) /\
    (forall n, name n -> replace_path (replacementFields r) n = replace_path l n) /\
    Forall (fun n => name n /\ replace_path l n = final_name (first_letter lower (code g "__table_name__")) n) (chosen sel replace) /\
    picks_model sel replace "internal/model" || picks_model sel replace "internal/apiserver/model" = true.

Ltac brings_step :=
  lazymatch goal with
  | |- brings (if _ then _ else _) _ _ => apply brings_if
  | |- brings (ret _) _ _ => apply brings_nothing
  | |- brings (cat _ ≫= _) _ _ => apply brings_cat; repeat renames_step
  | |- brings ?m _ _ => let f := head_of m in unfold f; cbv zeta
  end.

Lemma adds_keeps g g' l : adds g g' l -> forall n, code g' n = code g n /\ own_key g' = own_key g /\ isExtendedAPI g' = isExtendedAPI g
  /\ sql_driver g' = sql_driver g /\ serverName g' = serverName g.
Proof. intros [Hs _] n. injection Hs as ? ? Hd Hc ? ? ?. unfold own_key, crud_info, sql_driver, code. by rewrite Hc, Hd. Qed.

Ltac final_ok := split; [exact eq_refl|vm_compute; reflexivity].
Ltac all_final :=
  lazymatch goal with
  | |- Forall ?P (chosen ?a ?b) /\ _ => split; [|vm_compute; reflexivity];
      let l := eval vm_compute in (chosen a b) in change (chosen a b) with l; repeat (constructor; [final_ok|]); constructor
  end.

Lemma default_server_keeps g n : code (default_server_name g) n = code g n /\ fields (default_server_name g) = fields g.
Proof. unfold default_server_name. by case_bool_decide. Qed.
Lemma named_default g r0 r : named (default_server_name g) r0 r -> named g r0 r.
Proof. unfold named. by rewrite (proj1 (default_server_keeps g "__table_name__")). Qed.

(** A plan with a fresh replacer: the rules of its parts are put together and
    tried on the names that are chosen. *)
Ltac plan_named Hp Hr0 Hsp Hg Ht Hn :=
  let r0' := fresh "r0" in let Hr0' := fresh "Hr0" in
  apply T_bind_ok in Hp as (r0' & Hr0' & Hp); rewrite Hr0 in Hr0'; injection Hr0' as <-;
  apply T_bind_ok in Hp as ([g1 sel] & Hsel & Hp); apply T_bind_ok in Hp as ([g2 replace] & Hrep & Hp);
  edestruct select_files_spec as [Ha1 Heq1]; [exact Hsp|exact Hsel|repeat renames_step..|]; subst sel;
  edestruct by_driver_spec as [Ha2 Heq2]; [exact Hrep|repeat brings_step|repeat brings_step|repeat renames_step|]; subst replace;
  destruct (adds_keeps _ _ _ Ha1 "__table_name__") as (Hc1 & Ho1 & He1 & Hs1 & Hn1);
  destruct (adds_keeps _ _ _ Ha2 "__table_name__") as (Hc2 & _ & _ & _ & Hn2); clear Hsel Hrep;
  destruct Ha1 as [_ Ha1], Ha2 as [_ Ha2]; rewrite <- Hc1, <- Hc2 in Ht, Hn; try match goal with Hs : name (serverName _) |- _ => rewrite <- Hn1, <- Hn2 in Hs end;
  pose proof (Ha2 _ (Ha1 [] ltac:(rewrite Hg; apply renames_nil))) as Hf; clear Ha1 Ha2;
  edestruct prepared_spec as [Hfiles Hrp]; [|exact Hp|]; [intros r'; repeat renames_step|];
  unfold named; eexists _, _, _; (split; [exact Hfiles|]); (split; [exact Hrp|]); clear Hfiles Hrp Hf Hp;
  rewrite ?Ho1, ?He1, ?Hs1, ?Hc2, ?Hc1.
Ltac try_names g :=
  generalize (first_letter upper (code g "__table_name__")) (first_letter lower (code g "__table_name__")); intros U L;
  destruct (own_key g), (isExtendedAPI g), (sql_driver g); all_final.

Lemma table_named c g r0 r : fields g = [] -> code g "__table_name__" <> "" -> name (code g "__table_name__") ->
  name (serverName (default_server_name g)) ->
  new_replacer d = Some (Ok r0) -> forallb (spaced d r0) (files r0) = true -> table_plan d c g = Some (Ok r) -> named g r0 r.
Proof.
  intros Hg Ht Hn Hs Hr0 Hsp Hp. destruct c; cbn [table_plan] in Hp.
  1-3: clear Hs; unfold dao_plan, store_plan, handler_plan in Hp; plan_named Hp Hr0 Hsp Hg Ht Hn; try_names g.
  all: destruct (default_server_keeps g "__table_name__") as [Hc Hf]; rewrite <- Hc in Ht, Hn; rewrite <- Hf in Hg; apply named_default;
    unfold service_plan, handlerPb_plan, serviceHandler_plan in Hp; cbv zeta in Hp; clear Hc Hf; revert Hg Ht Hn Hs Hp;
    generalize (default_server_name g) as g'; intros g' Hg Ht Hn Hs Hp; plan_named Hp Hr0 Hsp Hg Ht Hn; try_names g'.
Qed.

Hypothesis order_range : forall m, order m ≡ₚ map_to_list m.

Lemma sub_files_chosen sel replace f : f ∈ getSubFiles order sel replace -> exists dir n, f = dir +:+ "/" +:+ n /\ n ∈ chosen sel replace.
Proof.
  intros (l & Hf & ([dir fs] & -> & Hin)%list_elem_of_fmap)%list_elem_of_join. apply list_elem_of_fmap in Hf as (n & -> & Hn).
  exists dir, n. split; [done|]. apply list_elem_of_join. eexists. split; [exact Hn|]. apply list_elem_of_fmap. exists (dir, fs).
  by rewrite <- order_range.
Qed.

Lemma picks_model_sub_file sel replace dir : picks_model sel replace dir = true -> dir +:+ "/userExample.go" ∈ getSubFiles order sel replace.
Proof.
  unfold picks_model. destruct (sel !! dir) as [fs|] eqn:Es; [|done]. intros Hin%bool_decide_eq_true. unfold getSubFiles.
  apply list_elem_of_join. eexists. split; [|apply list_elem_of_fmap; exists (dir, fs); split; [reflexivity|]].
  - by apply (list_elem_of_fmap_2 (fun filename => dir +:+ "/" +:+ filename)) in Hin.
  - rewrite order_range. by apply elem_of_map_to_list.
Qed.

Lemma name_no_sep n : name n -> no_sep false n = true.
Proof.
  induction n as [|c n IH]; [done|]. unfold name. cbn [forall_chars no_sep]. intros [Hc Hn]%andb_true_iff.
  rewrite IH by done. rewrite andb_true_r. unfold is_sep. cbn [andb]. rewrite orb_false_r. unfold name_char in Hc.
  apply negb_true_iff, bool_decide_eq_false in Hc. rewrite bool_decide_eq_false_2; [done|]. intros ->. apply Hc. set_solver.
Qed.
Lemma match_name f dir n : name n -> isMatchFile windows f (dir +:+ "/" +:+ n) = true -> GetFilename windows f = n.
Proof.
  rewrite posix. intros Hn Hm. unfold isMatchFile in Hm. unfold GetFilename. destruct (SplitPath false f) as [df nf].
  change (dir +:+ "/" +:+ n) with (dir +:+ String slash n) in Hm. rewrite SplitPath_app in Hm by by apply name_no_sep.
  by case_bool_decide.
Qed.

(** C34: The six commands for tables: every file that will be saved gets the
    name that its template stands for, the name of the table with the kind and
    the extension of the template (the interfaces of the store keep theirs),
    whatever driver, key and interface, when the templates have a character
    that the names of files, table and server do not.  The exception: when
    none of the templates that a command chooses is there, not even that of
    the model, the replacer keeps all files there are, and nothing is said
    about their names. *)
Theorem generated_names c g r0 r :
  fields g = [] -> code g "__table_name__" <> "" -> name (code g "__table_name__") -> name (serverName (default_server_name g)) ->
  new_replacer d = Some (Ok r0) -> forallb (spaced d r0) (files r0) = true ->
  table_plan d c g = Some (Ok r) ->
  (files r = files r0 /\ exists m, m ∈ model_templates /\ forall f, f ∈ files r0 -> isMatchFile windows f m = false) \/
  Forall (fun f => replace_path (replacementFields r) (GetFilename windows f) =
    final_name (first_letter lower (code g "__table_name__")) (GetFilename windows f)) (files r).
Proof.
  intros Hg Ht Hn Hs Hr0 Hsp Hp. destruct (table_named c g r0 r Hg Ht Hn Hs Hr0 Hsp Hp) as (sel & replace & l & Hf & Hl & Hall & Hmodel).
  assert (convertPathsDelimiter windows r0 (getSubFiles order sel replace) = getSubFiles order sel replace) as Hconv
    by (unfold convertPathsDelimiter; by rewrite posix, andb_false_r).
  pose proof (selection_exact windows [] (getSubFiles order sel replace) r0) as Hsel. cbv zeta in Hsel. rewrite <- Hf in Hsel.
  rewrite Hconv in Hsel. destruct (existsb _ (files r0)) eqn:Hex; [right|left].
  2:{ split; [done|]. assert (exists m, m ∈ model_templates /\ m ∈ getSubFiles order sel replace) as (m & Hm & Hin).
      { apply orb_true_iff in Hmodel as [Hm|Hm]; apply picks_model_sub_file in Hm; eexists; (split; [|exact Hm]); unfold model_templates; set_solver. }
      exists m. split; [done|]. intros f Hf0. destruct (isMatchFile windows f m) eqn:E; [|done].
      assert (existsb (fun f => existsb (isSubPath windows f) (convertPathsDelimiter windows r0 []) ||
        existsb (isMatchFile windows f) (getSubFiles order sel replace)) (files r0) = true); [|congruence].
      apply existsb_exists. exists f. split; [by apply list_elem_of_In|]. apply orb_true_iff. right. apply existsb_exists. exists m.
      split; [by apply list_elem_of_In|done]. } destruct Hsel as [_ Hsel]. apply Forall_forall. intros f [_ Hm]%Hsel.
  apply orb_true_iff in Hm as [Hm|Hm]; [unfold convertPathsDelimiter in Hm; by destruct (isActual r0 && windows) in Hm|].
  apply existsb_exists in Hm as (sf & Hin & Hm). apply list_elem_of_In in Hin.
  apply sub_files_chosen in Hin as (dir & n & -> & Hin). rewrite Forall_forall in Hall.
  destruct (Hall n Hin) as [Hname Hfin]. rewrite (match_name f dir n Hname Hm). by rewrite Hl.
Qed.
End Parts.

(** ** Templates to try it on *)

Definition sample_info (own : bool) : CrudInfo := mkCrudInfo "" "" "" "" "" "" "" "" "" "" "" "" false "" own false.
Definition sample_machine (own : bool) : Machine :=
  {| windows := false; cwd := ["home"]; fuel := 6%nat; MiladyDir := "/t"; exe := "/bin"; stamp := "150405"; go_version := None;
     template_version := None; rand99 := 7; ToKebabCase := id; unmarshal := fun _ => Some (sample_info own);
     execute := fun _ s _ => Some s; url_parse := fun _ => None; order := map_to_list; order1 := map_to_list; order2 := map_to_list |}.
Definition sample_files (l : list string) : node := Dir (map (fun f => (f, File ("package " +:+ f))) l).
Definition sample_templates : node :=
  Dir [("t", Dir [("internal", Dir
    [("cache", sample_files ["userExample.go"; "userExample.go.mgo"; "userExample.go.tpl"; "userExample_test.go"]);
     ("dao", sample_files ["userExample.go"; "userExample.go.exp"; "userExample.go.exp.tpl"; "userExample.go.mgo.exp"; "userExample_test.go.exp"]);
     ("model", sample_files ["userExample.go"]);
     ("apiserver", Dir [("model", sample_files ["userExample.go"])])]);
    ("go.mod", File "module"); ("Makefile", File "all:"); ("cmd", Dir [("serverNameExample_rpc", sample_files ["main.go"])]) ])].
Definition sample_generator (dbDriver : string) (isExtendedAPI : bool) : generator :=
  mkGenerator "shop" "order" "shop" "" "" dbDriver "" [("crud_info", "{}"); ("__table_name__", "Coupon")] "/o" false isExtendedAPI false [] false.
Definition new_paths (own : bool) (m : T replacerInfo) : list string :=
  match m with Some (Ok r) => map (new_path false r) (files r) | _ => [] end.

Definition sample_r0 : replacerInfo :=
  match @new_replacer (sample_machine false) sample_templates with Some (Ok r) => r | _ => mkReplacer "" (Dir []) true [] [] [] [] "" end.
Definition sample_plan : replacerInfo :=
  match @dao_plan (sample_machine false) sample_templates (sample_generator "mysql" true) with Some (Ok r) => r | _ => sample_r0 end.
Example generated_names_witness :
  (files sample_plan = files sample_r0 /\ exists m, m ∈ model_templates /\ forall f, f ∈ files sample_r0 -> isMatchFile false f m = false) \/
  Forall (fun f => replace_path (replacementFields sample_plan) (GetFilename false f) = final_name "coupon" (GetFilename false f)) (files sample_plan).
Proof.
  apply (@generated_names (sample_machine false) sample_templates eq_refl (fun m => reflexivity _) Dao (sample_generator "mysql" true));
    [reflexivity|discriminate|vm_compute; reflexivity..].
Defined.

Example coupon_paths :
  new_paths false (@dao_plan (sample_machine false) sample_templates (sample_generator "mysql" true)) =
    ["/o/internal/cache/coupon.go"; "/o/internal/cache/coupon_test.go"; "/o/internal/dao/coupon.go"; "/o/internal/dao/coupon_test.go";
     "/o/internal/model/coupon.go"] /\
  new_paths false (@dao_plan (sample_machine false) sample_templates (sample_generator "mongodb" true)) =
    ["/o/internal/cache/coupon.go"; "/o/internal/dao/coupon.go"; "/o/internal/model/coupon.go"].
Proof. by vm_compute. Qed.
(** With a key of its own the model is looked for in internal/apiserver/model. *)
Example own_key_model_elsewhere :
  new_paths true (@dao_plan (sample_machine true) sample_templates (sample_generator "mysql" true)) =
    ["/o/internal/cache/coupon.go"; "/o/internal/dao/coupon.go"; "/o/internal/apiserver/model/coupon.go"].
Proof. by vm_compute. Qed.
(** A server gets no go.mod and no Makefile: they are looked for in a directory sponge. *)
Example server_without_go_mod :
  let paths := new_paths false (@rpc_plan (sample_machine false) sample_templates (sample_generator "mysql" false)) in
  "/o/internal/dao/coupon.go" ∈ paths /\ existsb (fun p => HasSuffix p "go.mod" || HasSuffix p "Makefile") paths = false.
Proof. vm_compute. split; [right; right; left|done]. Qed.

End GenNames.
