(* ===== verification/Swagger.v ===== *)
(** * Swagger documents (cmd/milady/commands/generate/swagger.go)

    The responses of a document wrapped into code, msg and data, its keys put
    in order, and the lines of 64-bit integers rewritten.  A document is the
    tree that encoding/json gives; an object is the list of its entries in
    the order of a range over the map.  encoding/json and the conversion to
    OpenAPI 3 are variables; names are ASCII. *)

From S2P Require Import Prelude GoStr Files SqlFields GenCommon.
From Stdlib Require Import Ascii.

Module Swagger.
Import Files SqlFields GenCommon.

Inductive json : Type :=
  | JNull
  | JBool (b : bool)
  | JNum (text : string)
  | JStr (s : string)
  | JArr (l : list json)
  | JObj (m : list (string * json)).
Definition object : Type := list (string * json).

(** ** Maps *)

Definition get (m : object) (k : string) : option json := assoc m k.
Fixpoint put (k : string) (v : json) (m : object) : object :=
  match m with
  | [] => [(k, v)]
  | (k', v') :: m => if bool_decide (k' = k) then (k', v) :: m else (k', v') :: put k v m
  end.
Definition del (k : string) (m : object) : object := filter (fun kv => kv.1 <> k) m.
(** [range m] with changes of the values in place. *)
Fixpoint each {S} (f : string -> json -> S -> json * S) (m : object) (s : S) : object * S :=
  match m with
  | [] => ([], s)
  | (k, v) :: m =>
      let '(v, s) := f k v s in
      let '(m, s) := each f m s in
      ((k, v) :: m, s)
  end.

(** ** Names *)

Definition hrName : string := "HTTPResponse".
Definition suffixes : list string := ["Response"; "Resp"; "Res"; "Reply"; "Rep"; "Request"; "Req"].
Definition adjustHTTPResponseName (name : string) : string :=
  match List.find (HasSuffix name) suffixes with
  | Some suffix =>
      let newName := TrimSuffix name suffix in
      if bool_decide (newName = "") then name +:+ hrName else newName +:+ hrName
  | None => name +:+ hrName
  end.

Definition capital (s : string) : string := match s with String c s' => String (upper c) (ToLower s') | EmptyString => "" end.
Definition generateBaseNameForNewDefinition (pathKey methodKey : string) (methodItem : object) : string :=
  match get methodItem "operationId" with
  | Some (JStr (String c opID)) => String (upper c) opID
  | _ =>
      let cleanedPath := ReplaceAll (ReplaceAll (ReplaceAll pathKey "{" "") "}" "") "_" "-" in
      let parts := filter (fun p => p <> "") (Split cleanedPath slash) in
      let pathNameParts := map (fun part => Join (map capital (filter (fun p => p <> "") (Split part "-"%char))) "") parts in
      match pathNameParts with
      | [] => capital methodKey +:+ "Root"
      | _ => capital methodKey +:+ Join pathNameParts ""
      end
  end.

Definition isHTTPResponseStructure (definitions : object) (name : string) : bool :=
  match get definitions name with
  | Some (JObj def) =>
      match get def "type", get def "properties" with
      | Some (JStr "object"), Some (JObj properties) =>
          forallb (fun k => match get properties k with Some _ => true | None => false end) ["code"; "msg"; "data"]
      | _, _ => false
      end
  | _ => false
  end.

(** ** Responses *)

Definition definitions_prefix : string := "#/definitions/".
Definition reference (name : string) : json := JObj [("$ref", JStr (definitions_prefix +:+ name))].
Definition wrapper (data : json) : json :=
  JObj [("type", JStr "object");
        ("properties", JObj
          [("code", JObj [("type", JStr "integer"); ("format", JStr "int32"); ("description", JStr "Business status code")]);
           ("msg", JObj [("type", JStr "string"); ("description", JStr "Response message description")]);
           ("data", data)])].
Definition data_note (s : string) : json := JObj [("type", JStr "object"); ("description", JStr s)].

(** The name of a definition that a schema refers to; "" for none. *)
Definition ref_name (schema : object) : string :=
  match get schema "$ref" with
  | Some (JStr refValue) => if HasPrefix refValue definitions_prefix then TrimPrefix refValue definitions_prefix else ""
  | _ => ""
  end.

(** The new name and the data to put in its definition; [None] leaves the
    response alone. The name of a schema that is not an object is lost. *)
Definition new_definition (pathKey methodKey : string) (methodItem response200 definitions : object) : option (string * json) :=
  match get response200 "schema" with
  | None =>
      Some (adjustHTTPResponseName (generateBaseNameForNewDefinition pathKey methodKey methodItem),
            data_note "Original data schema was not present.")
  | Some (JObj schema) =>
      let originalDefName := ref_name schema in
      if isHTTPResponseStructure definitions originalDefName then None
      else if bool_decide (originalDefName = "") then Some ("emptyHTTPResponse", JObj schema)
      else Some (adjustHTTPResponseName originalDefName, JObj [("$ref", JStr (definitions_prefix +:+ originalDefName))])
  | Some _ => Some ("", data_note "Original schema was not a JSON object/map.")
  end.
Definition standardize_200 (pathKey methodKey : string) (methodItem response200 definitions : object) : object * object :=
  match new_definition pathKey methodKey methodItem response200 definitions with
  | None => (response200, definitions)
  | Some (name, data) =>
      (put "schema" (reference name) response200,
       if bool_decide (name = "") then definitions else put name (wrapper data) definitions)
  end.

Definition validMethods : list string := ["get"; "put"; "post"; "delete"; "options"; "head"; "patch"; "trace"].
Definition standardize_method (pathKey methodKey : string) (methodItem : json) (definitions : object) : json * object :=
  match methodItem with
  | JObj m =>
      if negb (bool_decide (ToLower methodKey ∈ validMethods)) then (methodItem, definitions)
      else
        match get m "responses" with
        | Some (JObj responses) =>
            let responses := del "default" responses in
            let '(responses, definitions) :=
              match get responses "200" with
              | Some (JObj response200) =>
                  let '(response200, definitions) := standardize_200 pathKey methodKey m response200 definitions in
                  (put "200" (JObj response200) responses, definitions)
              | _ => (responses, definitions)
              end in
            (JObj (put "responses" (JObj responses) m), definitions)
        | _ => (methodItem, definitions)
        end
  | _ => (methodItem, definitions)
  end.
Definition standardize_path (pathKey : string) (pathItem : json) (definitions : object) : json * object :=
  match pathItem with
  | JObj m => let '(m, definitions) := each (standardize_method pathKey) m definitions in (JObj m, definitions)
  | _ => (pathItem, definitions)
  end.
Definition definitions_of (doc : object) : object := match get doc "definitions" with Some (JObj d) => d | _ => [] end.
Definition standardize (doc : object) : object :=
  let definitions := definitions_of doc in
  let doc := put "definitions" (JObj definitions) doc in
  match get doc "paths" with
  | Some (JObj paths) =>
      let '(paths, definitions) := each standardize_path paths definitions in
      put "definitions" (JObj definitions) (put "paths" (JObj paths) doc)
  | _ => doc
  end.

(** ** The order of keys *)

Definition topLevelSortKeys : list string :=
  ["swagger"; "info"; "host"; "basePath"; "tags"; "schemes"; "consumes"; "produces"; "paths"; "definitions"; "securityDefinitions";
   "security"; "externalDocs"].
Fixpoint insert_entry (kv : string * json) (l : object) : object :=
  match l with
  | [] => [kv]
  | kv' :: l' => if String.ltb kv'.1 kv.1 then kv' :: insert_entry kv l' else kv :: l
  end.
Definition arrange (preferredKeyOrder : list string) (m : object) : object :=
  omap (fun k => pair k <$> get m k) preferredKeyOrder ++ foldr insert_entry [] (filter (fun kv => kv.1 ∉ preferredKeyOrder) m).
Fixpoint convertToOrderedMap (preferredKeyOrder : list string) (data : json) : json :=
  match data with
  | JObj m => JObj (arrange preferredKeyOrder (map (fun kv => (kv.1, convertToOrderedMap [] kv.2)) m))
  | JArr l => JArr (map (convertToOrderedMap []) l)
  | _ => data
  end.

(** ** Integers *)

Definition format_line (line : string) : bool :=
  Contains line (quoted "format" +:+ ": " +:+ quoted "uint64") || Contains line (quoted "format" +:+ ": " +:+ quoted "int64").
Definition type_string : string := quoted "type" +:+ ": " +:+ quoted "string".
Definition type_integer : string := quoted "type" +:+ ": " +:+ quoted "integer".
Definition fix_type (line : string) : string := if Contains line type_string then ReplaceAll line type_string type_integer else line.
(** One line after the lines before it: a format on the first line is an
    index out of range. *)
Definition integer_line (acc : result error (list string)) (line : string) : result error (list string) :=
  contents ← acc;
  if format_line line then
    match last contents with
    | None => Panic
    | Some previousLine => Ok (removelast contents ++ [fix_type previousLine; line +:+ nl])
    end
  else Ok (contents ++ [line +:+ nl]).
Definition convertStringToInteger (data : string) : result error string :=
  lines ← scan_lines data;
  contents ← foldl integer_line (Ok []) lines;
  Ok (Join contents "").

(** ** Files *)

Definition getOutputFile (filePath : string) : string * string :=
  let suffix := if HasSuffix filePath "swagger.json" then "swagger.json" else GetFilename false filePath in
  (TrimSuffix filePath suffix +:+ "openapi3.yaml", TrimSuffix filePath suffix +:+ "openapi3.json").

Section OnDisk.
Variable cwd : list string.
(** encoding/json, with the indentation of two blanks. *)
Variable decode : string -> option json.
Variable encode : json -> string.
(** The document as JSON and as YAML, when it can be converted. *)
Variable to_openapi3 : string -> option (string * string).
#[local] Notation ReadFile := (Files.ReadFile false cwd).
#[local] Notation WriteFile := (Files.WriteFile false cwd).

(** A document null leaves a nil map that is then written to. *)
Definition handleStandardizeResponseAction (d : node) (inputPath : string) : node * result error unit :=
  match ReadFile d inputPath with
  | Ok data =>
      match decode data with
      | Some (JObj doc) =>
          let modifiedData := encode (convertToOrderedMap topLevelSortKeys (JObj (standardize doc))) in
          let outputDir := GetDir false inputPath in
          let '(d, e) := if bool_decide (outputDir ∈ ["."; ""]) then (d, None) else MkdirAll false cwd d outputDir in
          match e with
          | Some e => (d, Err (ErrDisk e))
          | None => match WriteFile d inputPath modifiedData with
                    | Ok d => (d, Ok tt)
                    | Err e => (d, Err (ErrDisk e))
                    | Panic => (d, Panic)
                    end
          end
      | Some JNull => (d, Panic)
      | _ => (d, Err ErrJSON)
      end
  | Err e => (d, Err (ErrDisk e))
  | Panic => (d, Panic)
  end.

Definition disk_step (m : result errno node) (d : node) : node * result error unit :=
  match m with Ok d => (d, Ok tt) | Err e => (d, Err (ErrDisk e)) | Panic => (d, Panic) end.
(** os.Rename of a file over another. *)
Definition rename_file (d : node) (old new : string) : result errno node :=
  data ← ReadFile d old;
  WriteFile (RemoveAll false cwd d old) new data.
Definition saveJSONFile (d : node) (data jsonFilePath : string) : node * result error unit :=
  if IsExists false cwd d jsonFilePath then
    match WriteFile d (jsonFilePath +:+ ".tmp") data with
    | Ok d => disk_step (rename_file d (jsonFilePath +:+ ".tmp") jsonFilePath) d
    | Err e => (d, Err (ErrDisk e))
    | Panic => (d, Panic)
    end
  else
    let d := fst (MkdirAll false cwd d (GetFileDir false jsonFilePath)) in
    disk_step (WriteFile d jsonFilePath data) d.
Definition handleSwaggerIntegerToStringAction (d : node) (jsonFilePath : string) : node * result error unit :=
  match (data ← disk (ReadFile d jsonFilePath); convertStringToInteger data) with
  | Ok newData => saveJSONFile d newData jsonFilePath
  | Err e => (d, Err e)
  | Panic => (d, Panic)
  end.

Definition handleSwagger2ToOpenAPI3Action (d : node) (inputFile : string) : node * result error unit :=
  if negb (bool_decide (GetFileSuffixName false inputFile = ".json")) then (d, Err (ErrNotJSON inputFile))
  else
    match disk (ReadFile d inputFile) with
    | Ok data =>
        let '(outputYAML, outputJSON) := getOutputFile inputFile in
        match to_openapi3 data with
        | None => (d, Err ErrJSON)
        | Some (jsonData, yamlData) =>
            match disk_step (WriteFile d outputJSON jsonData) d with
            | (d, Ok _) => disk_step (WriteFile d outputYAML yamlData) d
            | r => r
            end
        end
    | Err e => (d, Err e)
    | Panic => (d, Panic)
    end.
End OnDisk.

(** * Proofs *)

(** ** Entries *)



(** ** Wrapped responses *)




(** Wrappers stay wrappers. *)
Definition keeps_wrappers (d1 d2 : object) : Prop := forall n, isHTTPResponseStructure d1 n = true -> isHTTPResponseStructure d2 n = true.
#[local] Instance keeps_preorder : PreOrder keeps_wrappers.
Proof. split; [by intros ? ?|]. intros d1 d2 d3 H1 H2 n Hn. auto. Qed.





(** ** A second change *)




(** ** A document to try it on *)

Definition op (responses : object) : json := JObj [("operationId", JStr "createUser"); ("responses", JObj responses)].
Definition schema_ref (name : string) : json := JObj [("schema", reference name)].
Definition sample_doc : object :=
  [("swagger", JStr "2.0");
   ("paths", JObj [("/api/v1/user", JObj [("post", op [("200", schema_ref "CreateUserReply"); ("default", JObj [])]); ("parameters", JArr [])])]);
   ("definitions", JObj [("CreateUserReply", JObj [("type", JStr "object")])])].

Example user_wrapped : get (definitions_of (standardize sample_doc)) "CreateUserHTTPResponse" = Some (wrapper (reference "CreateUserReply")).
Proof. by vm_compute. Qed.

(** Two messages whose names differ in the suffix share one wrapper: the data is that of the last. *)
Example suffixes_collide :
  let doc := [("paths", JObj [("/a", JObj [("get", op [("200", schema_ref "UserReply")])]); ("/b", JObj [("get", op [("200", schema_ref "UserResp")])])])] in
  get (definitions_of (standardize doc)) "UserHTTPResponse" = Some (wrapper (reference "UserResp")) /\
  get (definitions_of (standardize (standardize doc))) "UserHTTPResponse" = Some (wrapper (reference "UserResp")).
Proof. by vm_compute. Qed.
(** All schemas in place share one wrapper. *)
Example inline_schemas_collide :
  let inline t := JObj [("schema", JObj [("type", JStr t)])] in
  let doc := [("paths", JObj [("/a", JObj [("get", op [("200", inline "string")])]); ("/b", JObj [("get", op [("200", inline "array")])])])] in
  get (definitions_of (standardize doc)) "emptyHTTPResponse" = Some (wrapper (JObj [("type", JStr "array")])).
Proof. by vm_compute. Qed.
(** A schema that is not an object is replaced by a reference to nothing. *)
Example name_of_definition_lost :
  let doc := [("paths", JObj [("/a", JObj [("get", op [("200", JObj [("schema", JStr "User")])])])])] in
  standardize doc = [("paths", JObj [("/a", JObj [("get", op [("200", JObj [("schema", reference "")])])])]); ("definitions", JObj [])].
Proof. by vm_compute. Qed.

(** The types of 64-bit integers become integers, not strings. *)
Example strings_become_integers :
  convertStringToInteger (type_string +:+ "," +:+ nl +:+ quoted "format" +:+ ": " +:+ quoted "int64" +:+ nl) =
  Ok (type_integer +:+ "," +:+ nl +:+ quoted "format" +:+ ": " +:+ quoted "int64" +:+ nl).
Proof. by vm_compute. Qed.
(** A document on one line is an index out of range. *)
Example one_line_document_panics :
  convertStringToInteger ("{" +:+ type_string +:+ ", " +:+ quoted "format" +:+ ": " +:+ quoted "int64" +:+ "}") = Panic.
Proof. by vm_compute. Qed.

End Swagger.
