(* ===== verification/Kafka.v ===== *)
(** * Kafka (pkg/kafka)

    producer.go, producer_option.go, consumer.go, consumer_option.go and
    backlog.go: the options and the configuration made of them, the messages
    made of data, the loops that consume a claim and a partition and that
    follow an asynchronous producer, and the backlog of a topic.  sarama is a
    class for what can be consumed and managed once, and a variable elsewhere;
    a loop runs over what its select finds.  Theorems: which messages a group
    loses; a partition is not consumed again after a panic; the handler of
    failures gets each failed message once; what a backlog is. *)

From S2P Require Import Prelude GoStr.
From Stdlib Require String.

Module Kafka.

(** [o.apply(opts...)]: the options in order. *)
Definition apply {O} (opts : list (O -> O)) (o : O) : O := foldl (fun o opt => opt o) o opts.

(** ** Options and configurations *)

Section Config.
Context {Version Acks Partitioner Strategy TLS Logger Msg : Type}.

(** The fields of [sarama.Config] that are set; [cfg_other] stands for the
    others. *)
Record Config : Type := mkConfig {
  cfg_Version : Version; cfg_ClientID : string; cfg_TLS : option TLS; cfg_TLSEnable : bool;
  cfg_RequiredAcks : Acks; cfg_Partitioner : Partitioner; cfg_ReturnSuccesses : bool;
  cfg_FlushMessages : Z; cfg_FlushFrequency : Z; cfg_FlushBytes : Z;
  cfg_GroupStrategies : list Strategy; cfg_Initial : Z; cfg_AutoCommit : bool; cfg_Interval : Z; cfg_ReturnErrors : bool }.
Variable NewConfig : Config.
Variables (V2_1_0_0 : Version) (WaitForAll WaitForLocal : Acks) (NewHashPartitioner : Partitioner)
  (NewBalanceStrategyRange : Strategy) (NewProduction : Logger).
Definition OffsetNewest : Z := -1.
Definition OffsetOldest : Z := -2.

(** [getTLSConfig]: the files are read by crypto/tls and os. *)
Variables (LoadX509KeyPair : string -> string -> option TLS) (ReadFile : string -> option string)
  (with_ca : TLS -> string -> bool -> TLS).
Definition getTLSConfig (certFile keyFile caFile : string) (isSkipVerify : bool) : option TLS :=
  cert ← LoadX509KeyPair certFile keyFile; caCert ← ReadFile caFile; Some (with_ca cert caCert isSkipVerify).

Definition with_version (v : Version) (c : Config) : Config :=
  mkConfig v (cfg_ClientID c) (cfg_TLS c) (cfg_TLSEnable c) (cfg_RequiredAcks c) (cfg_Partitioner c) (cfg_ReturnSuccesses c)
    (cfg_FlushMessages c) (cfg_FlushFrequency c) (cfg_FlushBytes c) (cfg_GroupStrategies c) (cfg_Initial c) (cfg_AutoCommit c) (cfg_Interval c) (cfg_ReturnErrors c).
Definition with_client (id : string) (t : option TLS) (c : Config) : Config :=
  mkConfig (cfg_Version c) id (match t with Some _ => t | None => cfg_TLS c end) (match t with Some _ => true | None => cfg_TLSEnable c end)
    (cfg_RequiredAcks c) (cfg_Partitioner c) (cfg_ReturnSuccesses c)
    (cfg_FlushMessages c) (cfg_FlushFrequency c) (cfg_FlushBytes c) (cfg_GroupStrategies c) (cfg_Initial c) (cfg_AutoCommit c) (cfg_Interval c) (cfg_ReturnErrors c).
Definition with_producer (a : Acks) (p : Partitioner) (r : bool) (c : Config) : Config :=
  mkConfig (cfg_Version c) (cfg_ClientID c) (cfg_TLS c) (cfg_TLSEnable c) a p r
    (cfg_FlushMessages c) (cfg_FlushFrequency c) (cfg_FlushBytes c) (cfg_GroupStrategies c) (cfg_Initial c) (cfg_AutoCommit c) (cfg_Interval c) (cfg_ReturnErrors c).
Definition with_flush (n f b : Z) (c : Config) : Config :=
  mkConfig (cfg_Version c) (cfg_ClientID c) (cfg_TLS c) (cfg_TLSEnable c) (cfg_RequiredAcks c) (cfg_Partitioner c) (cfg_ReturnSuccesses c)
    n f b (cfg_GroupStrategies c) (cfg_Initial c) (cfg_AutoCommit c) (cfg_Interval c) (cfg_ReturnErrors c).
Definition with_group (ss : list Strategy) (i : Z) (a : bool) (d : Z) (c : Config) : Config :=
  mkConfig (cfg_Version c) (cfg_ClientID c) (cfg_TLS c) (cfg_TLSEnable c) (cfg_RequiredAcks c) (cfg_Partitioner c) (cfg_ReturnSuccesses c)
    (cfg_FlushMessages c) (cfg_FlushFrequency c) (cfg_FlushBytes c) ss i a d (cfg_ReturnErrors c).
Definition with_errors (b : bool) (c : Config) : Config :=
  mkConfig (cfg_Version c) (cfg_ClientID c) (cfg_TLS c) (cfg_TLSEnable c) (cfg_RequiredAcks c) (cfg_Partitioner c) (cfg_ReturnSuccesses c)
    (cfg_FlushMessages c) (cfg_FlushFrequency c) (cfg_FlushBytes c) (cfg_GroupStrategies c) (cfg_Initial c) (cfg_AutoCommit c) (cfg_Interval c) b.

Record syncProducerOptions : Type := mkSync {
  sp_version : Version; sp_requiredAcks : Acks; sp_partitioner : Partitioner; sp_returnSuccesses : bool;
  sp_clientID : string; sp_tlsConfig : option TLS; sp_config : option Config }.
Definition defaultSyncProducerOptions : syncProducerOptions := mkSync V2_1_0_0 WaitForAll NewHashPartitioner true "sarama" None None.
Definition SyncProducerWithVersion (v : Version) (o : syncProducerOptions) :=
  mkSync v (sp_requiredAcks o) (sp_partitioner o) (sp_returnSuccesses o) (sp_clientID o) (sp_tlsConfig o) (sp_config o).
Definition SyncProducerWithRequiredAcks (a : Acks) (o : syncProducerOptions) :=
  mkSync (sp_version o) a (sp_partitioner o) (sp_returnSuccesses o) (sp_clientID o) (sp_tlsConfig o) (sp_config o).
Definition SyncProducerWithPartitioner (p : Partitioner) (o : syncProducerOptions) :=
  mkSync (sp_version o) (sp_requiredAcks o) p (sp_returnSuccesses o) (sp_clientID o) (sp_tlsConfig o) (sp_config o).
Definition SyncProducerWithReturnSuccesses (b : bool) (o : syncProducerOptions) :=
  mkSync (sp_version o) (sp_requiredAcks o) (sp_partitioner o) b (sp_clientID o) (sp_tlsConfig o) (sp_config o).
Definition SyncProducerWithClientID (id : string) (o : syncProducerOptions) :=
  mkSync (sp_version o) (sp_requiredAcks o) (sp_partitioner o) (sp_returnSuccesses o) id (sp_tlsConfig o) (sp_config o).
Definition SyncProducerWithTLS certFile keyFile caFile skip (o : syncProducerOptions) :=
  mkSync (sp_version o) (sp_requiredAcks o) (sp_partitioner o) (sp_returnSuccesses o) (sp_clientID o) (getTLSConfig certFile keyFile caFile skip) (sp_config o).
Definition SyncProducerWithConfig (c : option Config) (o : syncProducerOptions) :=
  mkSync (sp_version o) (sp_requiredAcks o) (sp_partitioner o) (sp_returnSuccesses o) (sp_clientID o) (sp_tlsConfig o) c.

(** The configuration that the client is opened with. *)
Definition sync_config (o : syncProducerOptions) : Config :=
  match sp_config o with
  | Some c => c
  | None => with_client (sp_clientID o) (sp_tlsConfig o)
              (with_producer (sp_requiredAcks o) (sp_partitioner o) (sp_returnSuccesses o) (with_version (sp_version o) NewConfig))
  end.
Definition InitSyncProducer {P E} (NewSyncProducer : list string -> Config -> result E P) (addrs : list string)
    (opts : list (syncProducerOptions -> syncProducerOptions)) : result E P :=
  NewSyncProducer addrs (sync_config (apply opts defaultSyncProducerOptions)).

Record asyncProducerOptions : Type := mkAsync {
  ap_version : Version; ap_requiredAcks : Acks; ap_partitioner : Partitioner; ap_returnSuccesses : bool; ap_clientID : string;
  ap_flushMessages : Z; ap_flushFrequency : Z; ap_flushBytes : Z; ap_tlsConfig : option TLS; ap_config : option Config;
  ap_zapLogger : Logger; ap_handleFailedFn : option (Msg -> option string) }.
Definition defaultAsyncProducerOptions : asyncProducerOptions :=
  mkAsync V2_1_0_0 WaitForLocal NewHashPartitioner true "sarama" 20 (2 * second) 0 None None NewProduction None.
Definition AsyncProducerWithVersion (v : Version) (o : asyncProducerOptions) :=
  mkAsync v (ap_requiredAcks o) (ap_partitioner o) (ap_returnSuccesses o) (ap_clientID o) (ap_flushMessages o) (ap_flushFrequency o) (ap_flushBytes o) (ap_tlsConfig o) (ap_config o) (ap_zapLogger o) (ap_handleFailedFn o).
Definition AsyncProducerWithRequiredAcks (a : Acks) (o : asyncProducerOptions) :=
  mkAsync (ap_version o) a (ap_partitioner o) (ap_returnSuccesses o) (ap_clientID o) (ap_flushMessages o) (ap_flushFrequency o) (ap_flushBytes o) (ap_tlsConfig o) (ap_config o) (ap_zapLogger o) (ap_handleFailedFn o).
Definition AsyncProducerWithPartitioner (p : Partitioner) (o : asyncProducerOptions) :=
  mkAsync (ap_version o) (ap_requiredAcks o) p (ap_returnSuccesses o) (ap_clientID o) (ap_flushMessages o) (ap_flushFrequency o) (ap_flushBytes o) (ap_tlsConfig o) (ap_config o) (ap_zapLogger o) (ap_handleFailedFn o).
Definition AsyncProducerWithReturnSuccesses (b : bool) (o : asyncProducerOptions) :=
  mkAsync (ap_version o) (ap_requiredAcks o) (ap_partitioner o) b (ap_clientID o) (ap_flushMessages o) (ap_flushFrequency o) (ap_flushBytes o) (ap_tlsConfig o) (ap_config o) (ap_zapLogger o) (ap_handleFailedFn o).
Definition AsyncProducerWithClientID (id : string) (o : asyncProducerOptions) :=
  mkAsync (ap_version o) (ap_requiredAcks o) (ap_partitioner o) (ap_returnSuccesses o) id (ap_flushMessages o) (ap_flushFrequency o) (ap_flushBytes o) (ap_tlsConfig o) (ap_config o) (ap_zapLogger o) (ap_handleFailedFn o).
Definition AsyncProducerWithFlushMessages (n : Z) (o : asyncProducerOptions) :=
  mkAsync (ap_version o) (ap_requiredAcks o) (ap_partitioner o) (ap_returnSuccesses o) (ap_clientID o) n (ap_flushFrequency o) (ap_flushBytes o) (ap_tlsConfig o) (ap_config o) (ap_zapLogger o) (ap_handleFailedFn o).
Definition AsyncProducerWithFlushFrequency (d : Z) (o : asyncProducerOptions) :=
  mkAsync (ap_version o) (ap_requiredAcks o) (ap_partitioner o) (ap_returnSuccesses o) (ap_clientID o) (ap_flushMessages o) d (ap_flushBytes o) (ap_tlsConfig o) (ap_config o) (ap_zapLogger o) (ap_handleFailedFn o).
Definition AsyncProducerWithFlushBytes (n : Z) (o : asyncProducerOptions) :=
  mkAsync (ap_version o) (ap_requiredAcks o) (ap_partitioner o) (ap_returnSuccesses o) (ap_clientID o) (ap_flushMessages o) (ap_flushFrequency o) n (ap_tlsConfig o) (ap_config o) (ap_zapLogger o) (ap_handleFailedFn o).
Definition AsyncProducerWithTLS certFile keyFile caFile skip (o : asyncProducerOptions) :=
  mkAsync (ap_version o) (ap_requiredAcks o) (ap_partitioner o) (ap_returnSuccesses o) (ap_clientID o) (ap_flushMessages o) (ap_flushFrequency o) (ap_flushBytes o) (getTLSConfig certFile keyFile caFile skip) (ap_config o) (ap_zapLogger o) (ap_handleFailedFn o).
Definition AsyncProducerWithZapLogger (l : option Logger) (o : asyncProducerOptions) :=
  match l with
  | None => o
  | Some l => mkAsync (ap_version o) (ap_requiredAcks o) (ap_partitioner o) (ap_returnSuccesses o) (ap_clientID o) (ap_flushMessages o) (ap_flushFrequency o) (ap_flushBytes o) (ap_tlsConfig o) (ap_config o) l (ap_handleFailedFn o)
  end.
Definition AsyncProducerWithHandleFailed (f : option (Msg -> option string)) (o : asyncProducerOptions) :=
  mkAsync (ap_version o) (ap_requiredAcks o) (ap_partitioner o) (ap_returnSuccesses o) (ap_clientID o) (ap_flushMessages o) (ap_flushFrequency o) (ap_flushBytes o) (ap_tlsConfig o) (ap_config o) (ap_zapLogger o) f.
Definition AsyncProducerWithConfig (c : option Config) (o : asyncProducerOptions) :=
  mkAsync (ap_version o) (ap_requiredAcks o) (ap_partitioner o) (ap_returnSuccesses o) (ap_clientID o) (ap_flushMessages o) (ap_flushFrequency o) (ap_flushBytes o) (ap_tlsConfig o) c (ap_zapLogger o) (ap_handleFailedFn o).

Definition async_config (o : asyncProducerOptions) : Config :=
  match ap_config o with
  | Some c => c
  | None => with_flush (ap_flushMessages o) (ap_flushFrequency o) (ap_flushBytes o)
              (with_client (ap_clientID o) (ap_tlsConfig o)
                (with_producer (ap_requiredAcks o) (ap_partitioner o) (ap_returnSuccesses o) (with_version (ap_version o) NewConfig)))
  end.

Record consumerOptions : Type := mkConsumer {
  co_version : Version; co_clientID : string; co_tlsConfig : option TLS; groupStrategies : list Strategy; offsetsInitial : Z;
  offsetsAutoCommitEnable : bool; offsetsAutoCommitInterval : Z; co_config : option Config; co_zapLogger : Logger }.
Definition defaultConsumerOptions : consumerOptions :=
  mkConsumer V2_1_0_0 "sarama" None [NewBalanceStrategyRange] OffsetOldest true second None NewProduction.
Definition ConsumerWithVersion (v : Version) (o : consumerOptions) :=
  mkConsumer v (co_clientID o) (co_tlsConfig o) (groupStrategies o) (offsetsInitial o) (offsetsAutoCommitEnable o) (offsetsAutoCommitInterval o) (co_config o) (co_zapLogger o).
Definition ConsumerWithGroupStrategies (ss : list Strategy) (o : consumerOptions) :=
  match ss with
  | [] => o
  | _ => mkConsumer (co_version o) (co_clientID o) (co_tlsConfig o) ss (offsetsInitial o) (offsetsAutoCommitEnable o) (offsetsAutoCommitInterval o) (co_config o) (co_zapLogger o)
  end.
Definition ConsumerWithOffsetsInitial (n : Z) (o : consumerOptions) :=
  mkConsumer (co_version o) (co_clientID o) (co_tlsConfig o) (groupStrategies o) n (offsetsAutoCommitEnable o) (offsetsAutoCommitInterval o) (co_config o) (co_zapLogger o).
Definition ConsumerWithOffsetsAutoCommitEnable (b : bool) (o : consumerOptions) :=
  mkConsumer (co_version o) (co_clientID o) (co_tlsConfig o) (groupStrategies o) (offsetsInitial o) b (offsetsAutoCommitInterval o) (co_config o) (co_zapLogger o).
Definition ConsumerWithOffsetsAutoCommitInterval (d : Z) (o : consumerOptions) :=
  mkConsumer (co_version o) (co_clientID o) (co_tlsConfig o) (groupStrategies o) (offsetsInitial o) (offsetsAutoCommitEnable o) d (co_config o) (co_zapLogger o).
Definition ConsumerWithClientID (id : string) (o : consumerOptions) :=
  mkConsumer (co_version o) id (co_tlsConfig o) (groupStrategies o) (offsetsInitial o) (offsetsAutoCommitEnable o) (offsetsAutoCommitInterval o) (co_config o) (co_zapLogger o).
Definition ConsumerWithTLS certFile keyFile caFile skip (o : consumerOptions) :=
  mkConsumer (co_version o) (co_clientID o) (getTLSConfig certFile keyFile caFile skip) (groupStrategies o) (offsetsInitial o) (offsetsAutoCommitEnable o) (offsetsAutoCommitInterval o) (co_config o) (co_zapLogger o).
Definition ConsumerWithZapLogger (l : option Logger) (o : consumerOptions) :=
  match l with
  | None => o
  | Some l => mkConsumer (co_version o) (co_clientID o) (co_tlsConfig o) (groupStrategies o) (offsetsInitial o) (offsetsAutoCommitEnable o) (offsetsAutoCommitInterval o) (co_config o) l
  end.
Definition ConsumerWithConfig (c : option Config) (o : consumerOptions) :=
  mkConsumer (co_version o) (co_clientID o) (co_tlsConfig o) (groupStrategies o) (offsetsInitial o) (offsetsAutoCommitEnable o) (offsetsAutoCommitInterval o) c (co_zapLogger o).

Definition group_config (o : consumerOptions) : Config :=
  match co_config o with
  | Some c => c
  | None => with_client (co_clientID o) (co_tlsConfig o)
              (with_group (groupStrategies o) (offsetsInitial o) (offsetsAutoCommitEnable o) (offsetsAutoCommitInterval o) (with_version (co_version o) NewConfig))
  end.
Definition consumer_config (o : consumerOptions) : Config :=
  match co_config o with
  | Some c => c
  | None => with_client (co_clientID o) (co_tlsConfig o) (with_errors true (with_version (co_version o) NewConfig))
  end.

Record ConsumerGroup (G : Type) : Type := mkGroup { Group : G; groupID : string; cg_zapLogger : Logger; autoCommitEnable : bool }.
Definition InitConsumerGroup {G E} (NewConsumerGroup : list string -> string -> Config -> result E G) (addrs : list string)
    (groupID : string) (opts : list (consumerOptions -> consumerOptions)) : result E (ConsumerGroup G) :=
  let o := apply opts defaultConsumerOptions in
  let config := group_config o in
  consumer ← NewConsumerGroup addrs groupID config;
  Ok (mkGroup _ consumer groupID (co_zapLogger o) (cfg_AutoCommit config)).
Definition InitConsumer {C E} (NewConsumer : list string -> Config -> result E C) (addrs : list string)
    (opts : list (consumerOptions -> consumerOptions)) : result E (C * Logger) :=
  let o := apply opts defaultConsumerOptions in
  consumer ← NewConsumer addrs (consumer_config o); Ok (consumer, co_zapLogger o).

(** An option that is set later replaces the whole configuration. *)
Lemma config_overrides opts c :
  group_config (apply (opts ++ [ConsumerWithConfig (Some c)]) defaultConsumerOptions) = c /\
  consumer_config (apply (opts ++ [ConsumerWithConfig (Some c)]) defaultConsumerOptions) = c.
Proof. unfold apply, group_config, consumer_config. rewrite foldl_app. done. Qed.
End Config.

(** ** Messages made of data *)

Inductive Encoder : Type := ByteEncoder (b : string) | StringEncoder (s : string).
#[global] Instance Encoder_eq_dec : EqDecision Encoder.
Proof. solve_decision. Defined.
Record Message : Type := mkMessage { Topic : string; Data : string; Key : string }.

(** A message of the caller, or one that is made here. *)
Inductive ProducerMessage (PM : Type) : Type :=
  | Given (m : PM)
  | Made (topic : string) (key : option Encoder) (value : Encoder).
Arguments Given {PM} m.
Arguments Made {PM} topic key value.

Inductive data (PM Any : Type) : Type :=
  | DMessage (m : PM)
  | DBytes (b : string)
  | DString (s : string)
  | DKeyed (m : option Message)
  | DOther (v : Any).
Arguments DMessage {PM Any} m.
Arguments DBytes {PM Any} b.
Arguments DString {PM Any} s.
Arguments DKeyed {PM Any} m.
Arguments DOther {PM Any} v.

Inductive error : Type := ErrMarshal | ErrExited | ErrNoClient | ErrMetadata (partition : Z) (s : string) | ErrSarama (e : string).
#[global] Instance error_eq_dec : EqDecision error.
Proof. solve_decision. Defined.

Section Producers.
Context {PM Any : Type}.
Variable Marshal : Any -> option string.

Definition make_message (topic : string) (d : data PM Any) : result error (ProducerMessage PM) :=
  match d with
  | DMessage m => Ok (Given m)
  | DBytes b => Ok (Made topic None (ByteEncoder b))
  | DString s => Ok (Made topic None (StringEncoder s))
  | DKeyed None => Panic
  | DKeyed (Some m) => Ok (Made (Topic m) (Some (ByteEncoder (Key m))) (ByteEncoder (Data m)))
  | DOther v => match Marshal v with Some b => Ok (Made topic None (ByteEncoder b)) | None => Err ErrMarshal end
  end.

(** [SyncProducer.SendData]: the answer is that of the client. *)
Definition sync_SendData {A} (send : ProducerMessage PM -> result error A) (topic : string) (d : data PM Any) : result error A :=
  msg ← make_message topic d; send msg.

(** [AsyncProducer.SendMessage]: for each message the select finds the input
    ready ([true]) or the producer closed; the list ends where it waits.  The
    messages that were handed over, and the result when it returned. *)
Fixpoint SendMessage (messages : list (ProducerMessage PM)) (selects : list bool) : list (ProducerMessage PM) * option (result error unit) :=
  match messages with
  | [] => ([], Some (Ok tt))
  | msg :: messages =>
      match selects with
      | [] => ([], None)
      | true :: selects => let '(sent, r) := SendMessage messages selects in (msg :: sent, r)
      | false :: _ => ([], Some (Err ErrExited))
      end
  end.
Definition async_SendData (topic : string) (multiData : list (data PM Any)) (selects : list bool) :
    list (ProducerMessage PM) * option (result error unit) :=
  match traverse (make_message topic) multiData with
  | Ok messages => SendMessage messages selects
  | Err e => ([], Some (Err e))
  | Panic => ([], Some Panic)
  end.

(** What the select of [handleResponse] finds: the message of a success (nil
    from a closed channel), a failed message with what the handler does with
    it, a nil error, or the end. *)
Inductive response : Type :=
  | Sent (m : option (ProducerMessage PM))
  | Failed (m : ProducerMessage PM) (handler : result string unit)
  | FailedNil
  | Exit.

(** The messages given to the handler; whether the goroutine ended.  A panic
    starts the function again, which is the same loop. *)
Fixpoint handleResponse (handleFn : bool) (l : list response) : list (ProducerMessage PM) * bool :=
  match l with
  | [] => ([], false)
  | Exit :: _ => ([], true)
  | Failed m _ :: l => let '(ms, b) := handleResponse handleFn l in ((if handleFn then [m] else []) ++ ms, b)
  | Sent _ :: l | FailedNil :: l => handleResponse handleFn l
  end.

(** [AsyncProducer.Close]: the channel can be closed once, a second close is a
    panic that is recovered.  [close] is the client's Close. *)
Definition async_Close (exit_closed : bool) (close : option (option error)) : bool * option error :=
  if exit_closed then (true, None) else (true, match close with Some e => e | None => None end).
Definition sync_Close (close : option (option error)) : option error := match close with Some e => e | None => None end.

Lemma SendMessage_spec messages selects sent r :
  SendMessage messages selects = (sent, r) ->
  sent `prefix_of` messages /\ (r = Some (Ok tt) <-> sent = messages).
Proof.
  revert selects sent r. induction messages as [|m ms IH]; intros selects sent r; cbn.
  - intros [= <- <-]. done.
  - destruct selects as [|[] selects].
    + intros [= <- <-]. split; [apply prefix_nil|done].
    + destruct (SendMessage ms selects) as [sent' r'] eqn:E. intros [= <- <-]. destruct (IH _ _ _ E) as [Hp Hr].
      split; [by apply prefix_cons|]. rewrite Hr. split; [by intros ->|by intros [=]].
    + intros [= <- <-]. split; [apply prefix_nil|done].
Qed.

Definition failures (l : list response) : list (ProducerMessage PM) :=
  omap (fun r => match r with Failed m _ => Some m | _ => None end) l.
Definition until_exit (l : list response) : list response := 
  (fix go l := match l with [] => [] | Exit :: _ => [] | r :: l => r :: go l end) l.

(** The handler of failures is given every message that failed until the exit,
    once and in order, even when it panics. *)
Lemma failures_handled l : (handleResponse true l).1 = failures (until_exit l).
Proof.
  induction l as [|r l IH]; [done|]. destruct r; cbn; [done| |done|done].
  destruct (handleResponse true l) as [ms b]. cbn in *. by rewrite IH.
Qed.
End Producers.

(** ** Consumer groups *)

Record message : Type := mkMsg { partition : Z; offset : Z; body : string }.
#[global] Instance message_eq_dec : EqDecision message.
Proof. solve_decision. Defined.

(** What the select finds: the end of the context, the end of the claim, or a
    message and how its handler ends. *)
Inductive event : Type :=
  | Done
  | Closed
  | Got (m : message) (handler : result string unit).

(** Calls of the handler and of the session. *)
Inductive call : Type :=
  | CHandle (m : message)
  | CMark (m : message)
  | CCommit.
#[global] Instance call_eq_dec : EqDecision call.
Proof. solve_decision. Defined.

(** The loop over one claim; whether it returned.  After a panic the function
    runs again on the same claim. *)
Fixpoint ConsumeClaim (autoCommitEnable : bool) (l : list event) : list call * bool :=
  match l with
  | [] => ([], false)
  | Done :: _ | Closed :: _ => ([], true)
  | Got m (Ok _) :: l =>
      let '(cs, b) := ConsumeClaim autoCommitEnable l in
      (CHandle m :: CMark m :: (if autoCommitEnable then [] else [CCommit]) ++ cs, b)
  | Got m (Err _) :: l | Got m Panic :: l =>
      let '(cs, b) := ConsumeClaim autoCommitEnable l in (CHandle m :: cs, b)
  end.

(** The events that the loop sees: those before the end. *)
Fixpoint seen (l : list event) : list (message * bool) :=
  match l with
  | Got m h :: l => (m, is_ok h) :: seen l
  | _ => []
  end.
Definition marks (cs : list call) : list message := omap (fun c => match c with CMark m => Some m | _ => None end) cs.
Definition handled (cs : list call) : list message := omap (fun c => match c with CHandle m => Some m | _ => None end) cs.

Lemma claim_calls auto l :
  handled (ConsumeClaim auto l).1 = fst <$> seen l /\
  marks (ConsumeClaim auto l).1 = fst <$> filter (fun p => p.2 = true) (seen l).
Proof.
  induction l as [|e l [IHh IHm]]; [done|]. destruct e as [| |m h]; [done..|].
  destruct h; cbn; destruct (ConsumeClaim auto l) as [cs b]; cbn in *; try (by rewrite IHh, IHm).
  destruct auto; cbn; by rewrite IHh, IHm.
Qed.

(** The marks that sarama has stored at the end of the session: all of them
    with automatic commits, those before the last commit without. *)
Definition commit_step (s : list message * list message) (c : call) : list message * list message :=
  match c with CMark m => (s.1, s.2 ++ [m]) | CCommit => (s.1 ++ s.2, []) | CHandle _ => s end.
Definition stored (auto : bool) (cs : list call) : list message :=
  if auto then marks cs else (foldl commit_step ([], []) cs).1.

(** A message is committed before the next one is handled. *)
Lemma commits_keep_up l st : foldl commit_step (st, []) (ConsumeClaim false l).1 = (st ++ marks (ConsumeClaim false l).1, []).
Proof.
  revert st. induction l as [|e l IH]; intros st; [cbn; by rewrite app_nil_r|]. destruct e as [| |m h]; [cbn; by rewrite app_nil_r..|].
  cbn. destruct (ConsumeClaim false l) as [cs b]. destruct h; cbn in *; try apply IH.
  rewrite IH. by rewrite <- app_assoc.
Qed.
Lemma stored_marks auto l : stored auto (ConsumeClaim auto l).1 = marks (ConsumeClaim auto l).1.
Proof. destruct auto; [done|]. unfold stored. by rewrite commits_keep_up. Qed.

(** Where the group resumes: sarama keeps the offset after the highest mark
    that is stored. *)
Class Session : Type := {
  resume : Z -> list Z -> Z;
  resume_after : forall start offsets o, resume start offsets <= o <-> start <= o /\ Forall (fun o' => o' < o) offsets }.

Definition next_offset `{Session} (start : Z) (auto : bool) (l : list event) : Z :=
  resume start (offset <$> stored auto (ConsumeClaim auto l).1).

(** A message of the session that the group will not be given again although
    its handler failed. *)
Definition lost `{Session} (start : Z) (auto : bool) (l : list event) (m : message) : Prop :=
  (m, false) ∈ seen l /\ offset m < next_offset start auto l.

Fixpoint rising (start : Z) (l : list (message * bool)) : Prop :=
  match l with
  | [] => True
  | (m, _) :: l => start <= offset m /\ rising (offset m + 1) l
  end.

Lemma rising_from start l m b : rising start l -> (m, b) ∈ l -> start <= offset m.
Proof.
  revert start. induction l as [|[m' b'] l IH]; intros start; cbn; [by intros _ ?%elem_of_nil|].
  intros [Hs Hr] [[= -> ->]|Hin]%elem_of_cons; [done|]. specialize (IH _ Hr Hin). lia.
Qed.
Lemma rising_app start l1 l2 : rising start (l1 ++ l2) ->
  rising start l1 /\ forall m1 b1 m2 b2, (m1, b1) ∈ l1 -> (m2, b2) ∈ l2 -> offset m1 < offset m2.
Proof.
  revert start. induction l1 as [|[m b] l1 IH]; intros start; cbn.
  - intros _. split; [done|]. by intros m1 b1 m2 b2 ?%elem_of_nil.
  - intros [Hs Hr]. destruct (IH _ Hr) as [Hr1 Hlt]. split; [done|].
    intros m1 b1 m2 b2 [[= -> ->]|H1]%elem_of_cons H2; [|by eapply Hlt].
    pose proof (rising_from _ _ m2 b2 Hr ltac:(apply elem_of_app; by right)). lia.
Qed.

Lemma marked_offsets auto l o :
  o ∈ offset <$> marks (ConsumeClaim auto l).1 <-> exists m, (m, true) ∈ seen l /\ offset m = o.
Proof.
  rewrite (proj2 (claim_calls auto l)), list_elem_of_fmap. split.
  - intros (m & -> & ([m' b] & -> & [Hb Hin]%list_elem_of_filter)%list_elem_of_fmap). cbn in *. subst b. by exists m'.
  - intros (m & Hin & <-). exists m. split; [done|]. apply list_elem_of_fmap. exists (m, true). split; [done|].
    apply list_elem_of_filter. done.
Qed.

(** C36: In a session of a claim, whose messages arrive by rising offsets from
    the position of the group, a message whose handler fails or panics is lost
    for the group exactly when the handler of a later message succeeds, with
    automatic commits and with those the loop makes. *)
Theorem lost_exactly `{Session} start auto l m :
  rising start (seen l) -> (m, false) ∈ seen l ->
  lost start auto l m <-> exists l1 m' l2, seen l = l1 ++ (m', true) :: l2 /\ (m, false) ∈ l1.
Proof.
  intros Hr Hin. unfold lost, next_offset. rewrite stored_marks. split.
  - intros [_ Hlt]. destruct (decide (Forall (fun o' => o' < offset m) (offset <$> marks (ConsumeClaim auto l).1))) as [Hall|Hn].
    { pose proof (rising_from _ _ _ _ Hr Hin). assert (resume start (offset <$> marks (ConsumeClaim auto l).1) <= offset m); [|lia].
      by apply resume_after. }
    apply not_Forall_Exists in Hn; [|apply _]. apply Exists_exists in Hn as (o & (m' & Hm' & <-)%marked_offsets & Hge). cbn in Hge.
    apply list_elem_of_split in Hm' as (l1 & l2 & Hl). exists l1, m', l2. split; [done|].
    rewrite Hl in Hin, Hr. apply elem_of_app in Hin as [?|[[=]|Hin]%elem_of_cons]; [done|].
    replace (l1 ++ (m', true) :: l2) with ((l1 ++ [(m', true)]) ++ l2) in Hr by (by rewrite <- app_assoc).
    destruct (rising_app _ _ _ Hr) as [_ Hlt']. exfalso. apply Hge.
    enough (offset m' < offset m) by lia. eapply Hlt'; [|done]. apply elem_of_app. right. by apply list_elem_of_singleton.
  - intros (l1 & m' & l2 & Hl & Hm). split; [done|]. rewrite Hl in Hr. destruct (rising_app _ _ _ Hr) as [_ Hlt].
    specialize (Hlt _ _ m' true Hm ltac:(by left)).
    apply Z.nle_gt. intros [_ Hall]%resume_after. rewrite Forall_forall in Hall.
    enough (offset m' < offset m) by lia. apply Hall, marked_offsets. exists m'. split; [|done]. rewrite Hl. apply elem_of_app. right. by left.
Qed.

Definition sarama_resume (start : Z) (offsets : list Z) : Z := foldr (fun o p => Z.max (o + 1) p) start offsets.
#[global] Program Instance sarama_session : Session := { resume := sarama_resume }.
Next Obligation.
  intros start offsets o. induction offsets as [|o' offsets IH]; cbn.
  - split; [by split|by intros [? _]].
  - rewrite Forall_cons, Z.max_lub_iff, IH. split; [intros (? & ? & ?)|intros (? & ? & ?)]; repeat split; try done; lia.
Qed.

Definition demo_events : list event :=
  [Got (mkMsg 0 5 "a") (Ok tt); Got (mkMsg 0 6 "b") (Err "database"); Got (mkMsg 0 7 "c") (Ok tt); Got (mkMsg 0 8 "d") Panic].

(** The second message is lost, the last one is given again. *)
Lemma lost_exactly_witness :
  rising 5 (seen demo_events) /\ lost 5 true demo_events (mkMsg 0 6 "b") /\ ~ lost 5 true demo_events (mkMsg 0 8 "d").
Proof.
  assert (Hr : rising 5 (seen demo_events)) by (cbn; repeat split; lia).
  split; [done|]. split.
  - apply (lost_exactly 5 true demo_events (mkMsg 0 6 "b") Hr).
    + right; left.
    + exists [(mkMsg 0 5 "a", true); (mkMsg 0 6 "b", false)], (mkMsg 0 7 "c"), [(mkMsg 0 8 "d", false)]. split; [done|]. right; left.
  - intros [_ H]. vm_compute in H. done.
Defined.

(** ** Consumers of a partition *)

(** A consumer of sarama consumes a partition once: until the partition
    consumer is closed, a second call is refused. *)
Class Partitions (C : Type) : Type := {
  start : C -> string -> Z -> Z -> result string C;
  consuming : C -> string -> Z -> bool;
  start_refused : forall c topic p offset, consuming c topic p = true -> is_ok (start c topic p offset) = false;
  start_once : forall c topic p offset c', start c topic p offset = Ok c' -> consuming c' topic p = true;
  start_no_panic : forall c topic p offset, start c topic p offset <> Panic }.

(** What the select of the loop finds: a message and how its handler ends, an
    error of the partition, or the end of the context. *)
Inductive pevent : Type :=
  | PMessage (m : option message) (handler : result string unit)
  | PError
  | PDone.

Section Partition.
Context `{Partitions C}.

Inductive ending : Type := Returned | Refused | Waiting | Diverged.
#[global] Instance ending_eq_dec : EqDecision ending.
Proof. solve_decision. Defined.

(** The loop up to its end or to a panic, which leaves the rest of the
    events. *)
Fixpoint partition_loop (l : list pevent) : list (option message) * (ending + list pevent) :=
  match l with
  | [] => ([], inl Waiting)
  | PDone :: _ => ([], inl Returned)
  | PError :: l => partition_loop l
  | PMessage m Panic :: l => ([m], inr l)
  | PMessage m _ :: l => let '(ms, e) := partition_loop l in (m :: ms, e)
  end.

(** [ConsumePartition]: the partition consumer is opened and not closed; the
    deferred function calls it again after a panic, with the same offset.  The
    fuel bounds the calls. *)
Fixpoint ConsumePartition (fuel : nat) (topic : string) (p offset : Z) (l : list pevent) (c : C) : list (option message) * ending * C :=
  match fuel with
  | O => ([], Diverged, c)
  | S fuel =>
      match Kafka.start c topic p offset with
      | Ok c' =>
          match partition_loop l with
          | (ms, inl e) => (ms, e, c')
          | (ms, inr l) => let '(ms', e, c'') := ConsumePartition fuel topic p offset l c' in (ms ++ ms', e, c'')
          end
      | _ => ([], Refused, c)
      end
  end.

(** The goroutines of [ConsumeAllPartition]: one per partition of the topic. *)
Definition ConsumeAllPartition (Partitions_ : string -> result error (list Z)) (topic : string) (offset : Z) : list (string * Z * Z) :=
  match Partitions_ topic with Ok ps => (fun p => (topic, p, offset)) <$> ps | _ => [] end.

(** Two calls are enough whatever the events: after a panic the partition is
    refused, and nothing of it is consumed any more. *)
Theorem panic_ends_partition fuel topic p offset l c :
  ConsumePartition (2 + fuel) topic p offset l c =
  match Kafka.start c topic p offset with
  | Ok c' => match partition_loop l with (ms, inl e) => (ms, e, c') | (ms, inr _) => (ms, Refused, c') end
  | _ => ([], Refused, c)
  end.
Proof.
  cbn -[partition_loop]. destruct (Kafka.start c topic p offset) as [c'|e|] eqn:E; [|done..].
  destruct (partition_loop l) as [ms [e|l']]; [done|].
  pose proof (start_refused _ _ _ offset (start_once _ _ _ _ _ E)) as Hr.
  destruct (Kafka.start c' topic p offset); cbn in *; [done|by rewrite app_nil_r..].
Qed.
End Partition.

#[global] Program Instance consumed_partitions : Partitions (gset (string * Z)) := {
  start := fun c topic p _ => if decide ((topic, p) ∈ c) then Err "already being consumed" else Ok ({[(topic, p)]} ∪ c);
  consuming := fun c topic p => bool_decide ((topic, p) ∈ c) }.
Next Obligation. intros c topic p offset H%bool_decide_eq_true_1. cbn. by rewrite decide_True. Qed.
Next Obligation.
  intros c topic p offset c'. cbn. case_decide; [done|]. intros [= <-]. apply bool_decide_eq_true_2. set_solver.
Qed.
Next Obligation. intros c topic p offset. cbn. by case_decide. Qed.

(** The third message is never handled, and the goroutine has ended. *)
Example a_panic_ends_the_consumption :
  let '(ms, e, _) := ConsumePartition 9 "orders" 0 (-2)
    [PMessage (Some (mkMsg 0 5 "a")) (Ok tt); PMessage (Some (mkMsg 0 6 "b")) Panic; PMessage (Some (mkMsg 0 7 "c")) (Ok tt)]
    (∅ : gset (string * Z)) in
  (ms, e) = ([Some (mkMsg 0 5 "a"); Some (mkMsg 0 6 "b")], Refused).
Proof. vm_compute. reflexivity. Qed.

(** A second consumption after the first ended with its context is refused. *)
Example a_partition_is_consumed_once :
  let '(_, e1, c) := ConsumePartition 9 "orders" 0 (-2) [PDone] (∅ : gset (string * Z)) in
  let '(_, e2, _) := ConsumePartition 9 "orders" 0 (-2) [PDone] c in (e1, e2) = (Returned, Refused).
Proof. vm_compute. reflexivity. Qed.

(** [Close] of a group and of a consumer: nil, with a nil client, or with a
    client whose Close would answer; whether that was called, and the answer. *)
Definition Close (c : option (option (option string))) : result string (bool * option string) :=
  match c with
  | None => Panic
  | Some None => Panic
  | Some (Some _) => Ok (false, None)
  end.

Example close_never_closes client : Close (Some (Some client)) = Ok (false, None) /\ Close (Some None) = Panic /\ Close None = Panic.
Proof. done. Qed.

(** ** The backlog of a topic *)

Record Backlog : Type := mkBacklog { b_partition : Z; backlog : Z; NextConsumeOffset : Z }.
#[global] Instance Backlog_eq_dec : EqDecision Backlog.
Proof. solve_decision. Defined.

(** An offset manager manages a partition once; NextOffset gives an offset and
    the metadata that were committed with it. *)
Class Offsets (M : Type) : Type := {
  manage : M -> string -> Z -> result string M;
  managing : M -> string -> Z -> bool;
  NextOffset : M -> string -> Z -> Z * string;
  manage_refused : forall m topic p, managing m topic p = true -> is_ok (manage m topic p) = false;
  manage_once : forall m topic p m', manage m topic p = Ok m' -> managing m' topic p = true;
  manage_keeps : forall m topic p m' p', manage m topic p = Ok m' -> managing m topic p' = true -> managing m' topic p' = true;
  manage_no_panic : forall m topic p, manage m topic p <> Panic }.

Section Backlog.
Context `{Offsets M}.
Variables (Partitions_ : string -> result string (list Z)) (GetOffset : string -> Z -> result string Z).

Definition sarama {A} (r : result string A) : result error A :=
  match r with Ok a => Ok a | Err e => Err (ErrSarama e) | Panic => Panic end.

Definition partition_backlog (topic : string) (p : Z) (m : M) : result error (Backlog * M) :=
  offset ← sarama (GetOffset topic p);
  m ← sarama (manage m topic p);
  let '(n, s) := NextOffset m topic p in
  if negb (bool_decide (s = "")) then Err (ErrMetadata p s)
  else Ok (mkBacklog p (if n =? -1 then offset else wrap64 (offset - n)) n, m).

Fixpoint backlogs (topic : string) (ps : list Z) (total : Z) (m : M) : result error (Z * list Backlog * M) :=
  match ps with
  | [] => Ok (total, [], m)
  | p :: ps =>
      '(b, m) ← partition_backlog topic p m;
      '(total, bs, m) ← backlogs topic ps (wrap64 (total + backlog b)) m;
      Ok (total, b :: bs, m)
  end.

(** [GetBacklog]; [None] is a nil manager or client. *)
Definition GetBacklog (topic : string) (m : option M) : result error (Z * list Backlog * M) :=
  match m with
  | None => Err ErrNoClient
  | Some m => ps ← sarama (Partitions_ topic); backlogs topic ps 0 m
  end.

Lemma backlogs_manage topic ps t m t' bs m' p :
  backlogs topic ps t m = Ok (t', bs, m') -> managing m topic p = true \/ p ∈ ps -> managing m' topic p = true.
Proof.
  revert t m bs. induction ps as [|q ps IH]; intros t m bs; cbn.
  - intros [= <- <- <-] [?|?%elem_of_nil]; done.
  - intros Hb0 Hp. apply bind_ok in Hb0 as ((b, m1) & Hb & Hb0). apply bind_ok in Hb0 as (((t2, bs2), m2) & Hr & [= <- <- <-]).
    eapply IH; [done|]. unfold partition_backlog in Hb.
    apply bind_ok in Hb as (o & Ho & Hb). apply bind_ok in Hb as (m3 & Hm & Hb).
    destruct (NextOffset m3 topic q) as [n s]. destruct (negb _); [done|]. injection Hb as <- <-.
    assert (Hok : manage m topic q = Ok m3) by (destruct (manage m topic q); cbn in Hm; congruence).
    destruct Hp as [Hp|[->|Hp]%elem_of_cons]; [left|left|by right].
    + by eapply manage_keeps.
    + by eapply manage_once.
Qed.
(** A backlog has every partition once, in order, with what is in the
    partition after the committed offset, or all of it without one. *)
Lemma backlogs_sum topic ps t m t' bs m' :
  backlogs topic ps t m = Ok (t', bs, m') ->
  b_partition <$> bs = ps /\ wrap64 t' = wrap64 (t + foldr Z.add 0 (backlog <$> bs)) /\
  Forall (fun b => exists o, GetOffset topic (b_partition b) = Ok o /\
                    backlog b = if NextConsumeOffset b =? -1 then o else wrap64 (o - NextConsumeOffset b)) bs.
Proof.
  revert t m bs. induction ps as [|q ps IH]; intros t m bs; cbn.
  - intros [= <- <- <-]. rewrite Z.add_0_r. done.
  - intros Hb0. apply bind_ok in Hb0 as ((b, m1) & Hb & Hb0). apply bind_ok in Hb0 as (((t2, bs2), m2) & Hr & [= <- <- <-]).
    destruct (IH _ _ _ Hr) as (Hps & Ht & Hall). unfold partition_backlog in Hb.
    apply bind_ok in Hb as (o & Ho & Hb). apply bind_ok in Hb as (m3 & Hm & Hb).
    destruct (NextOffset m3 topic q) as [n s]. destruct (negb _); [done|]. injection Hb as <- <-. cbn in *.
    split; [by rewrite Hps|]. split.
    + rewrite Ht, wrap64_shift. f_equal. lia.
    + constructor; [|done]. exists o. split; [|done]. cbn. destruct (GetOffset topic q); cbn in Ho; congruence.
Qed.

(** The second time, a topic with a partition has no backlog. *)
Theorem backlog_once topic m t bs m' p :
  GetBacklog topic (Some m) = Ok (t, bs, m') -> (exists ps, Partitions_ topic = Ok ps /\ p ∈ ps) ->
  is_ok (GetBacklog topic (Some m')) = false.
Proof.
  cbn. intros Hb (ps & Hps & Hp). rewrite Hps in *. cbn in *.
  assert (Hall : forall q, q ∈ ps -> managing m' topic q = true) by (intros q Hq; eapply backlogs_manage; [done|by right]).
  destruct ps as [|q ps]; [by apply elem_of_nil in Hp|]. cbn. unfold partition_backlog.
  pose proof (manage_refused m' topic q (Hall q ltac:(by left))) as Hr.
  destruct (GetOffset topic q); cbn; [|done..]. destruct (manage m' topic q); cbn in *; done.
Qed.
End Backlog.

#[global] Program Instance managed_partitions : Offsets (gset (string * Z) * gmap (string * Z) (Z * string)) := {
  manage := fun m topic p => if decide ((topic, p) ∈ m.1) then Err "already being managed" else Ok ({[(topic, p)]} ∪ m.1, m.2);
  managing := fun m topic p => bool_decide ((topic, p) ∈ m.1);
  NextOffset := fun m topic p => default (-1, "") (m.2 !! (topic, p)) }.
Next Obligation. intros m topic p H%bool_decide_eq_true_1. cbn. by rewrite decide_True. Qed.
Next Obligation. intros m topic p m'. cbn. case_decide; [done|]. intros [= <-]. apply bool_decide_eq_true_2. set_solver. Qed.
Next Obligation.
  intros m topic p m' p'. cbn. case_decide; [done|]. intros [= <-] H1%bool_decide_eq_true_1. apply bool_decide_eq_true_2. set_solver.
Qed.
Next Obligation. intros m topic p. cbn. by case_decide. Qed.

Definition demo_offsets : gset (string * Z) * gmap (string * Z) (Z * string) := (∅, {[("orders", 0) := (7, "")]}).

(** Two partitions, of which one was never consumed; then the second call. *)
Example demo_backlog :
  match GetBacklog (fun _ => Ok [0; 1]) (fun _ _ => Ok 10) "orders" (Some demo_offsets) with
  | Ok (t, bs, m) => (t, bs) = (13, [mkBacklog 0 3 7; mkBacklog 1 10 (-1)]) /\
      is_ok (GetBacklog (fun _ => Ok [0; 1]) (fun _ _ => Ok 10) "orders" (Some m)) = false
  | _ => False
  end.
Proof. vm_compute. done. Qed.

(** Metadata that another client committed is taken for an error. *)
Example metadata_is_an_error :
  GetBacklog (fun _ => Ok [0]) (fun _ _ => Ok 10) "orders" (Some (∅, {[("orders", 0) := (7, "host-1")]} : gmap (string * Z) (Z * string)))
  = Err (ErrMetadata 0 "host-1").
Proof. vm_compute. reflexivity. Qed.
End Kafka.
