(* ===== verification/HttpCli.v ===== *)
(** * The HTTP client (pkg/httpcli)

    httpcli.go: requests built by chained calls, their sending and their
    responses, and the functions that send and decode in one call.  The
    parameters of a request are a map in a heap, since the request keeps the
    map it is given.  net/url is defined as far as it is used (the escaping
    and the parsing of queries); net/http and the JSON codec are variables.
    Theorems: a server that parses the query reads the parameters that were
    set; a response can be read again; what Reset, a second call and the map
    of the caller keep. *)

From stdpp Require Import sorting.
From S2P Require Import Prelude GoStr.
From Stdlib Require Import Ascii.
From Stdlib Require String.

Module HttpCli.

(** ** Queries of net/url *)

Definition upperhex (n : nat) : ascii := ascii_of_nat (if (n <? 10)%nat then n + 48 else n + 55).
Definition unhex (c : ascii) : option nat :=
  let n := nat_of_ascii c in
  if is_digit c then Some (n - 48)%nat
  else if (65 <=? n)%nat && (n <=? 70)%nat then Some (n - 55)%nat
  else if (97 <=? n)%nat && (n <=? 102)%nat then Some (n - 87)%nat
  else None.
Definition unreserved (c : ascii) : bool := is_alpha c || is_digit c || bool_decide (c ∈ ["-"; "_"; "."; "~"]%char).

Definition escape_char (c : ascii) : string :=
  if bool_decide (c = " "%char) then "+"
  else if unreserved c then single c
  else String "%" (String (upperhex (nat_of_ascii c / 16)) (single (upperhex (nat_of_ascii c mod 16)))).
Fixpoint QueryEscape (s : string) : string :=
  match s with EmptyString => "" | String c s => escape_char c +:+ QueryEscape s end.
Fixpoint QueryUnescape (s : string) : option string :=
  match s with
  | EmptyString => Some ""
  | String c s' =>
      if bool_decide (c = "%"%char) then
        match s' with
        | String a (String b s'') => x ← unhex a; y ← unhex b; String (ascii_of_nat (x * 16 + y)) <$> QueryUnescape s''
        | _ => None
        end
      else String (if bool_decide (c = "+"%char) then " "%char else c) <$> QueryUnescape s'
  end.

Abbreviation Values := (gmap string (list string)).
Definition Add (k v : string) (m : Values) : Values := <[k := default [] (m !! k) ++ [v]]> m.

Definition key_le (p q : string * list string) : Prop := String.leb p.1 q.1 = true.
#[global] Instance key_le_dec : RelDecision key_le.
Proof. intros p q. unfold key_le. apply _. Defined.
Definition pair_text (k v : string) : string := QueryEscape k +:+ "=" +:+ QueryEscape v.
Definition Encode (m : Values) : string :=
  Join (mjoin ((fun '(k, vs) => pair_text k <$> vs) <$> merge_sort key_le (map_to_list m))) "&".

(** [url.ParseQuery]: the values and whether there was no error. *)
Definition parse_pair (acc : Values * bool) (seg : string) : Values * bool :=
  let '(m, ok) := acc in
  if Contains seg ";" then (m, false)
  else if bool_decide (seg = "") then (m, ok)
  else
    let '(k, v) := match Cut seg "=" with Some kv => kv | None => (seg, "") end in
    match QueryUnescape k with
    | None => (m, false)
    | Some k => match QueryUnescape v with None => (m, false) | Some v => (Add k v m, ok) end
    end.
Definition ParseQuery (q : string) : Values * bool := foldl parse_pair (∅, true) (Split q "&").

Lemma unhex_upperhex n : (n < 16)%nat -> unhex (upperhex n) = Some n.
Proof. intros H. do 16 (destruct n as [|n]; [reflexivity|]). lia. Qed.
Definition all_chars : list ascii := ascii_of_nat <$> seq 0 256.
Lemma in_all_chars c : c ∈ all_chars.
Proof.
  rewrite <- (ascii_nat_embedding c). apply list_elem_of_fmap. eexists; split; [done|].
  apply elem_of_seq. pose proof (nat_ascii_bounded c). lia.
Qed.
Lemma every_char (f : ascii -> bool) c : forallb f all_chars = true -> f c = true.
Proof. intros H. rewrite forallb_forall in H. apply H, list_elem_of_In, in_all_chars. Qed.

Definition escaped_char (c : ascii) : bool := unreserved c || bool_decide (c ∈ ["%"; "+"]%char).
Definition kept_char (c : ascii) : bool :=
  negb (unreserved c) || negb (bool_decide (c = "%"%char)) && negb (bool_decide (c = "+"%char)).
Definition escapes_well (c : ascii) : bool := forall_chars escaped_char (escape_char c).

Lemma unescape_char c t : QueryUnescape (escape_char c +:+ t) = String c <$> QueryUnescape t.
Proof.
  unfold escape_char. case_bool_decide as Hsp; [by subst c|]. destruct (unreserved c) eqn:Hu.
  - pose proof (every_char kept_char c eq_refl) as H. unfold kept_char in H.
    rewrite Hu in H. cbn in H. apply andb_true_iff in H as [H1 H2]. unfold single. rewrite app_cons_s, app_nil_l_s. cbn.
    apply negb_true_iff in H1, H2. by rewrite H1, H2.
  - pose proof (nat_ascii_bounded c). rewrite !app_cons_s. unfold single. rewrite !app_cons_s, app_nil_l_s. cbn [QueryUnescape].
    rewrite bool_decide_eq_true_2 by done. rewrite !unhex_upperhex.
    + cbn -[Nat.div Nat.modulo]. replace (_ + _)%nat with (nat_of_ascii c); [by rewrite ascii_nat_embedding|].
      pose proof (Nat.div_mod_eq (nat_of_ascii c) 16). lia.
    + apply Nat.Div0.div_lt_upper_bound. lia.
    + by apply Nat.mod_upper_bound.
Qed.
Lemma QueryUnescape_escape s : QueryUnescape (QueryEscape s) = Some s.
Proof. induction s as [|c s IH]; [done|]. cbn [QueryEscape]. by rewrite unescape_char, IH. Qed.

Lemma escaped_chars s : forall_chars escaped_char (QueryEscape s) = true.
Proof.
  induction s as [|c s IH]; [done|]. cbn [QueryEscape]. rewrite forall_chars_app, IH, andb_true_r.
  exact (every_char escapes_well c eq_refl).
Qed.
Lemma forall_no_char f c s : forall_chars f s = true -> f c = false -> no_char c s.
Proof.
  intros Hs Hf. induction s as [|a s IH]; [done|]. cbn in Hs. apply andb_true_iff in Hs as [Ha Hs].
  apply no_char_cons. split; [by intros ->; congruence|by apply IH].
Qed.
Lemma escape_no_char c s : escaped_char c = false -> no_char c (QueryEscape s).
Proof. apply forall_no_char, escaped_chars. Qed.

Lemma pair_no_char c k v : escaped_char c = false -> c <> "="%char -> no_char c (pair_text k v).
Proof.
  intros Hc Hne. unfold pair_text. rewrite !no_char_app. split; [by apply escape_no_char|].
  split; [|by apply escape_no_char]. apply no_char_cons. split; [congruence|done].
Qed.
Lemma parse_pair_text m ok k v : parse_pair (m, ok) (pair_text k v) = (Add k v m, ok).
Proof.
  unfold parse_pair.
  assert (Contains (pair_text k v) ";" = false) as ->.
  { unfold Contains. rewrite (Index_no_char ";" ""); [done|]. by apply pair_no_char. }
  rewrite bool_decide_eq_false_2 by (unfold pair_text; by destruct (QueryEscape k)).
  unfold pair_text. change ("=" +:+ QueryEscape v) with (String "=" (QueryEscape v)).
  rewrite Cut_app by (by apply escape_no_char). by rewrite !QueryUnescape_escape.
Qed.

Lemma parse_pairs l m ok : foldl parse_pair (m, ok) (uncurry pair_text <$> l) = (foldl (fun m '(k, v) => Add k v m) m l, ok).
Proof. revert m. induction l as [|[k v] l IH]; intros m; [done|]. cbn [fmap list_fmap foldl]. change (uncurry pair_text (k, v)) with (pair_text k v). by rewrite parse_pair_text, IH. Qed.

Definition of_key (k : string) (l : list (string * string)) : list string :=
  omap (fun p => if bool_decide (p.1 = k) then Some p.2 else None) l.
Definition values (m : Values) (k : string) : list string := default [] (m !! k).

Lemma add_values l m k : values (foldl (fun m '(k, v) => Add k v m) m l) k = values m k ++ of_key k l.
Proof.
  revert m. induction l as [|[k' v] l IH]; intros m; [by rewrite app_nil_r|]. cbn [foldl]. rewrite IH. unfold values, Add.
  unfold of_key. cbn. case_bool_decide as E; cbn.
  - subst k'. rewrite lookup_insert_eq. cbn. by rewrite <- app_assoc.
  - by rewrite lookup_insert_ne.
Qed.

(** The pairs of an encoded map are those of the map, in some order. *)
Definition flat (l : list (string * list string)) : list (string * string) :=
  mjoin ((fun '(k, vs) => (fun v => (k, v)) <$> vs) <$> l).
Definition pairs (m : Values) : list (string * string) := flat (merge_sort key_le (map_to_list m)).
Lemma Encode_pairs m : Encode m = Join (uncurry pair_text <$> pairs m) "&".
Proof.
  unfold Encode, pairs, flat. f_equal. generalize (merge_sort key_le (map_to_list m)) as l. induction l as [|[k vs] l IH]; [done|].
  transitivity ((pair_text k <$> vs) ++ mjoin ((fun '(k, vs) => pair_text k <$> vs) <$> l)); [done|]. rewrite IH.
  transitivity ((uncurry pair_text <$> ((fun v => (k, v)) <$> vs)) ++ (uncurry pair_text <$> mjoin ((fun '(k, vs) => (fun v => (k, v)) <$> vs) <$> l)));
    [by rewrite <- list_fmap_compose|symmetry; apply (fmap_app (uncurry pair_text))].
Qed.
Lemma of_key_app k l1 l2 : of_key k (l1 ++ l2) = of_key k l1 ++ of_key k l2.
Proof. apply omap_app. Qed.

Lemma of_key_cons k k' vs l : of_key k (flat ((k', vs) :: l)) = of_key k ((fun v => (k', v)) <$> vs) ++ of_key k (flat l).
Proof. apply of_key_app. Qed.
Lemma of_key_same k vs : of_key k ((fun v => (k, v)) <$> vs) = vs.
Proof. induction vs as [|v vs IH]; [done|]. unfold of_key in *. cbn. rewrite bool_decide_eq_true_2 by done. cbn. by rewrite IH. Qed.
Lemma of_key_other k k' vs : k' <> k -> of_key k ((fun v => (k', v)) <$> vs) = [].
Proof. intros Hne. induction vs as [|v vs IH]; [done|]. unfold of_key in *. cbn. by rewrite bool_decide_eq_false_2. Qed.
Lemma of_key_absent k (l : list (string * list string)) : k ∉ l.*1 -> of_key k (flat l) = [].
Proof.
  induction l as [|[k' vs] l IH]; [done|]. intros [Hne Hl]%not_elem_of_cons.
  rewrite of_key_cons, of_key_other by done. by apply IH.
Qed.
Lemma of_key_nodup k vs (l : list (string * list string)) : NoDup l.*1 -> (k, vs) ∈ l ->
  of_key k (flat l) = vs.
Proof.
  induction l as [|[k' vs'] l IH]; [by intros _ ?%elem_of_nil|]. intros [Hk Hnd]%NoDup_cons [[= <- <-]|Hin]%elem_of_cons.
  - by rewrite of_key_cons, of_key_same, of_key_absent, app_nil_r.
  - rewrite of_key_cons, of_key_other; [by apply IH|]. intros ->. apply Hk. apply list_elem_of_fmap. by exists (k, vs).
Qed.
Lemma pairs_values m k : of_key k (pairs m) = values m k.
Proof.
  unfold pairs, values. assert (Hnd : NoDup (merge_sort key_le (map_to_list m)).*1)
    by (rewrite merge_sort_Permutation; apply NoDup_fst_map_to_list).
  destruct (m !! k) as [vs|] eqn:E.
  - apply of_key_nodup; [done|]. rewrite merge_sort_Permutation. by apply elem_of_map_to_list.
  - apply of_key_absent. rewrite merge_sort_Permutation. intros ([k' vs] & Hk & Hin%elem_of_map_to_list)%list_elem_of_fmap.
    cbn in Hk. subst k'. congruence.
Qed.

Lemma Split_app_any s t c : Split (s +:+ String c t) c = Split s c ++ Split t c.
Proof.
  induction s as [|a s IH].
  - rewrite app_nil_l_s. cbn. by rewrite bool_decide_eq_true_2.
  - rewrite app_cons_s. cbn. rewrite IH. case_bool_decide; [done|].
    pose proof (Split_nonempty s c). by destruct (Split s c).
Qed.

(** Parsing after a query that was there reads its values and then those of
    the map. *)
Lemma ParseQuery_after q m : 
  ParseQuery (q +:+ String "&" (Encode m)) = (foldl (fun m '(k, v) => Add k v m) (ParseQuery q).1 (pairs m), (ParseQuery q).2).
Proof.
  unfold ParseQuery. rewrite Split_app_any, foldl_app. destruct (foldl parse_pair (∅, true) (Split q "&")) as [m0 ok]. cbn [fst snd].
  rewrite Encode_pairs. destruct (decide (pairs m = [])) as [->|Hne]; [done|].
  rewrite (Split_Join _ "&"); [apply parse_pairs| |].
  { intros H%fmap_nil_inv. done. }
  apply Forall_fmap, Forall_forall. intros [k v] _. by apply pair_no_char.
Qed.

(** ** Requests *)

Section Client.
Context {Any R Res : Type}.
(** [fmt.Sprintf("%v", v)], the codec, and net/http: its canonical header
    keys, what [NewRequest] refuses, the rest of a body on the network, and
    the order of a range over a map of headers. *)
Variables (Sprint : Any -> string) (Marshal : Any -> option string) (Unmarshal : string -> option Res).
Variables (CanonicalHeaderKey : string -> string) (refuses : string -> string -> option string)
  (ReadRemote : R -> (string + string) * R) (range : gmap string string -> list (string * string)).

Inductive error : Type :=
  | ErrParams | ErrMethod (m : string) | ErrMarshal | ErrNewRequest (e : string) | ErrDo (e : string)
  | ErrNilBody | ErrRead (e : string) | ErrUnmarshal | ErrNilResult
  | ErrRequest (e : error) | ErrParsing (e : error) | ErrStatus (code : Z) (body : string).

(** The body of a request: none, the buffer it shares with [customRequest]. *)
Record HttpRequest : Type := mkHttpRequest { h_method : string; h_url : string; h_body : bool; h_header : gmap string (list string) }.

Inductive reader : Type := Remote (r : R) | Buffer (s : string).
Definition ReadAll (b : reader) : (string + string) * reader :=
  match b with
  | Remote r => let '(x, r) := ReadRemote r in (x, Remote r)
  | Buffer s => (inl s, Buffer "")
  end.
Record HttpResponse : Type := mkHttpResponse { StatusCode : Z; Body : reader }.
Record Response : Type := mkResponse { raw : option HttpResponse; rerr : option error }.

Definition Custom : Type := HttpRequest * string -> HttpRequest * string.
Definition Header_Add (k v : string) (h : gmap string (list string)) : gmap string (list string) :=
  Add (CanonicalHeaderKey k) v h.

(** A nil map is [None]; [params] is a reference into the heap. *)
Record Request : Type := mkRequest {
  customRequest : option Custom; url : string; params : option positive; body : string; bodyJSON : option Any;
  timeout : Z; headers : option (gmap string string);
  request : option HttpRequest; response : option Response; method : string; err : option error }.
Definition heap : Type := gmap positive (gmap string Any).

Definition New : Request := mkRequest None "" None "" None 0 None None None "" None.
Definition Reset (r : Request) : Request := mkRequest (customRequest r) (url r) None "" None 0 None None None "" None.
Definition SetURL (path : string) (r : Request) : Request :=
  mkRequest (customRequest r) path (params r) (body r) (bodyJSON r) (timeout r) (headers r) (request r) (response r) (method r) (err r).
Definition set_params (p : option positive) (r : Request) : Request :=
  mkRequest (customRequest r) (url r) p (body r) (bodyJSON r) (timeout r) (headers r) (request r) (response r) (method r) (err r).
Definition SetTimeout (t : Z) (r : Request) : Request :=
  mkRequest (customRequest r) (url r) (params r) (body r) (bodyJSON r) t (headers r) (request r) (response r) (method r) (err r).
Definition set_headers (h : option (gmap string string)) (r : Request) : Request :=
  mkRequest (customRequest r) (url r) (params r) (body r) (bodyJSON r) (timeout r) h (request r) (response r) (method r) (err r).
Definition set_method (m : string) (r : Request) : Request :=
  mkRequest (customRequest r) (url r) (params r) (body r) (bodyJSON r) (timeout r) (headers r) (request r) (response r) m (err r).
Definition set_err (e : option error) (r : Request) : Request :=
  mkRequest (customRequest r) (url r) (params r) (body r) (bodyJSON r) (timeout r) (headers r) (request r) (response r) (method r) e.
Definition set_request (q : option HttpRequest) (r : Request) : Request :=
  mkRequest (customRequest r) (url r) (params r) (body r) (bodyJSON r) (timeout r) (headers r) q (response r) (method r) (err r).
Definition set_response (p : option Response) (r : Request) : Request :=
  mkRequest (customRequest r) (url r) (params r) (body r) (bodyJSON r) (timeout r) (headers r) (request r) p (method r) (err r).
Definition CustomRequest (f : option Custom) (r : Request) : Request :=
  mkRequest f (url r) (params r) (body r) (bodyJSON r) (timeout r) (headers r) (request r) (response r) (method r) (err r).

Definition content (p : option positive) (h : heap) : gmap string Any := default ∅ (p ≫= fun l => h !! l).

(** A nil map of parameters is replaced by the map itself, otherwise its
    entries are written into the map that is there. *)
Definition SetParams (m : option positive) (s : Request * heap) : Request * heap :=
  let '(r, h) := s in
  match params r with
  | None => (set_params m r, h)
  | Some l => (r, alter (fun c => content m h ∪ c) l h)
  end.
Definition SetParam (k : string) (v : Any) (s : Request * heap) : Request * heap :=
  let '(r, h) := s in
  match params r with
  | None => let l := fresh (dom h) in (set_params (Some l) r, <[l := {[k := v]}]> h)
  | Some l => (r, alter (fun c => <[k := v]> c) l h)
  end.

Inductive data : Type := DString (s : string) | DBytes (b : string) | DParams (l : option positive) | DOther (v : Any) | DNil.
(** [any] of a map of parameters, when a body is one. *)
Variable AnyParams : gmap string Any -> Any.

Definition SetBody (d : data) (s : Request * heap) : Request :=
  let '(r, h) := s in
  let json v := mkRequest (customRequest r) (url r) (params r) (body r) v (timeout r) (headers r) (request r) (response r) (method r) (err r) in
  match d with
  | DString s | DBytes s => mkRequest (customRequest r) (url r) (params r) s (bodyJSON r) (timeout r) (headers r) (request r) (response r) (method r) (err r)
  | DParams l => json (Some (AnyParams (content l h)))
  | DOther v => json (Some v)
  | DNil => json None
  end.
Definition SetHeader (k v : string) (r : Request) : Request := set_headers (Some (<[k := v]> (default ∅ (headers r)))) r.
Definition SetContentType (a : string) (r : Request) : Request := SetHeader "Content-Type" a r.
Definition SetHeaders (m : gmap string string) (r : Request) : Request := set_headers (Some (m ∪ default ∅ (headers r))) r.

(** ** Sending *)

Definition defaultTimeout : Z := 30 * second.
(** [client.Do] with its timeout; the body is what is left in the buffer. *)
Variable Do : HttpRequest -> option string -> Z -> HttpResponse + string.

Definition NewRequest (method url : string) (body : bool) : HttpRequest + error :=
  match refuses method url with Some e => inr (ErrNewRequest e) | None => inl (mkHttpRequest method url body ∅) end.
Definition add_headers (hs : option (gmap string string)) (q : HttpRequest) : HttpRequest :=
  match hs with
  | None => q
  | Some m => mkHttpRequest (h_method q) (h_url q) (h_body q) (foldl (fun a '(k, v) => Header_Add k v a) (h_header q) (range m))
  end.

(** [send]: the response (nil after an error of NewRequest), the error and the
    request object. *)
Definition send (with_body : bool) (buf : string) (r : Request) : option Response * option error * Request :=
  match NewRequest (method r) (url r) with_body with
  | inl q =>
      let '(q, buf) := match customRequest r with Some f => f (q, buf) | None => (q, buf) end in
      let q := add_headers (headers r) q in
      let r := if timeout r <? 1 then SetTimeout defaultTimeout r else r in
      let resp := match Do q (if h_body q then Some buf else None) (timeout r) with
                  | inl p => mkResponse (Some p) None
                  | inr e => mkResponse None (Some (ErrDo e))
                  end in
      (Some resp, rerr resp, set_err (rerr resp) (set_response (Some resp) (set_request (Some q) r)))
  | inr e => (None, Some e, set_err (Some e) (set_request None r))
  end.

Definition query_values (m : gmap string Any) : Values := (fun v => [Sprint v]) <$> m.
Definition with_query (u val : string) : string :=
  if bool_decide (val = "") then u else if Contains u "?" then u +:+ "&" +:+ val else u +:+ "?" +:+ val.
Definition pull (s : Request * heap) : option Response * option error * Request :=
  let '(r, h) := s in
  let val := Encode (query_values (content (params r) h)) in
  send false val (SetURL (with_query (url r) val) r).
Definition push (r : Request) : option Response * option error * Request :=
  match bodyJSON r with
  | Some v =>
      match Marshal v with
      | Some b => send true b r
      | None => (None, Some ErrMarshal, set_err (Some ErrMarshal) r)
      end
  | None => send true (body r) r
  end.

Definition GET (s : Request * heap) := pull (set_method "GET" s.1, s.2).
Definition DELETE (s : Request * heap) := pull (set_method "DELETE" s.1, s.2).
Definition POST (s : Request * heap) := push (set_method "POST" s.1).
Definition PUT (s : Request * heap) := push (set_method "PUT" s.1).
Definition PATCH (s : Request * heap) := push (set_method "PATCH" s.1).

Definition Request_Do (m : string) (d : data) (s : Request * heap) : option Response * option error * Request * heap :=
  let '(r, h) := s in
  let r := set_method m r in
  if bool_decide (m ∈ ["GET"; "DELETE"]) then
    match d with
    | DNil => (pull (r, h), h)
    | DParams l => let '(r, h) := SetParams l (r, h) in (pull (r, h), h)
    | _ => (None, Some ErrParams, set_err (Some ErrParams) r, h)
    end
  else if bool_decide (m ∈ ["POST"; "PUT"; "PATCH"]) then
    (push (match d with DNil => r | _ => SetBody d (r, h) end), h)
  else (None, Some (ErrMethod m), set_err (Some (ErrMethod m)) r, h).

Definition Request_Response (r : Request) : result error (option Response * option error) :=
  match err r with
  | Some e => Ok (None, Some e)
  | None => match response r with None => Panic | Some p => Ok (Some p, rerr p) end
  end.

(** ** Responses *)

Definition ReadBody (p : Response) : result error string * Response :=
  match rerr p, raw p with
  | Some e, _ => (Err e, p)
  | None, None => (Err ErrNilBody, p)
  | None, Some q =>
      match ReadAll (Body q) with
      | (inl b, _) => (Ok b, mkResponse (Some (mkHttpResponse (StatusCode q) (Buffer b))) None)
      | (inr e, rd) => (Err (ErrRead e), mkResponse (Some (mkHttpResponse (StatusCode q) rd)) None)
      end
  end.
Definition BodyString (p : Response) : result error string * Response :=
  match rerr p with Some e => (Err e, p) | None => ReadBody p end.
Definition BindJSON (p : Response) : result error Res * Response :=
  match rerr p with
  | Some e => (Err e, p)
  | None =>
      let '(b, p) := ReadBody p in
      (match b with
       | Ok b => match Unmarshal b with Some v => Ok v | None => Err ErrUnmarshal end
       | Err e => Err e
       | Panic => Panic
       end, p)
  end.

(** A body can be read again. *)
Theorem read_again p b p' : ReadBody p = (Ok b, p') -> ReadBody p' = (Ok b, p') /\ BodyString p' = (Ok b, p').
Proof.
  unfold ReadBody. destruct (rerr p) eqn:Ee; [done|]. destruct (raw p) as [q|]; [|done].
  destruct (ReadAll (Body q)) as [[b'|e] rd]; intros [= <- <-]. done.
Qed.

(** ** Requests in one call *)

Record options : Type := mkOptions { o_params : option positive; o_headers : option (gmap string string); o_timeout : Z }.
Definition apply (opts : list (options -> options)) (o : options) : options := foldl (fun o opt => opt o) o opts.
Definition defaultOptions : options := mkOptions None None 0.
Definition WithParams (m : option positive) (o : options) : options := mkOptions m (o_headers o) (o_timeout o).
Definition WithHeaders (m : option (gmap string string)) (o : options) : options := mkOptions (o_params o) m (o_timeout o).
Definition WithTimeout (t : Z) (o : options) : options := mkOptions (o_params o) (o_headers o) t.

Definition notOKErr (p : Response) : error :=
  match ReadBody p with
  | (Ok b, _) => ErrStatus (match raw p with Some q => StatusCode q | None => 0 end)
                   (if (500 <? str_len b)%nat then str_take 500 b +:+ " ......" else b)
  | (Err e, _) => e
  | (Panic, _) => ErrNilBody
  end.

(** What follows the request, in both ways. *)
Definition decode (r : option Response * option error * Request) : result error Res :=
  match r with
  | (_, Some e, _) => Err (ErrRequest e)
  | (None, None, _) => Panic
  | (Some p, None, _) =>
      match raw p with
      | None => Panic
      | Some q =>
          if negb (StatusCode q =? 200) then Err (notOKErr p)
          else match (BindJSON p).1 with Err e => Err (ErrParsing e) | r => r end
      end
  end.

Definition do (m : string) (result_nil : bool) (urlStr : string) (body : data) (params : option positive)
    (headers : option (gmap string string)) (timeout : Z) (h : heap) : result error Res :=
  if result_nil then Err ErrNilResult else
  let req := SetContentType "application/json" (SetURL urlStr New) in
  let '(req, h) := SetParams params (req, h) in
  let req := SetTimeout timeout (SetBody body (SetHeaders (default ∅ headers) req, h)) in
  decode (if bool_decide (m = "POST") then POST (req, h) else if bool_decide (m = "PUT") then PUT (req, h) else PATCH (req, h)).
Definition gDo (m : string) (urlStr : string) (params : option positive)
    (headers : option (gmap string string)) (timeout : Z) (h : heap) : result error Res :=
  let '(req, h) := SetParams params (SetURL urlStr New, h) in
  let req := SetTimeout timeout (SetHeaders (default ∅ headers) req) in
  decode (if bool_decide (m = "GET") then GET (req, h) else DELETE (req, h)).

Definition Get (urlStr : string) (opts : list (options -> options)) (h : heap) : result error Res :=
  let o := apply opts defaultOptions in gDo "GET" urlStr (o_params o) (o_headers o) (o_timeout o) h.
Definition Delete (urlStr : string) (opts : list (options -> options)) (h : heap) : result error Res :=
  let o := apply opts defaultOptions in gDo "DELETE" urlStr (o_params o) (o_headers o) (o_timeout o) h.
Definition Post (result_nil : bool) (urlStr : string) (body : data) (opts : list (options -> options)) (h : heap) : result error Res :=
  let o := apply opts defaultOptions in do "POST" result_nil urlStr body (o_params o) (o_headers o) (o_timeout o) h.
Definition Put (result_nil : bool) (urlStr : string) (body : data) (opts : list (options -> options)) (h : heap) : result error Res :=
  let o := apply opts defaultOptions in do "PUT" result_nil urlStr body (o_params o) (o_headers o) (o_timeout o) h.
Definition Patch (result_nil : bool) (urlStr : string) (body : data) (opts : list (options -> options)) (h : heap) : result error Res :=
  let o := apply opts defaultOptions in do "PATCH" result_nil urlStr body (o_params o) (o_headers o) (o_timeout o) h.

(** ** What is sent *)

(** The query of a URL as a server reads it: before the fragment, after the
    first question mark. *)
Definition RawQuery (u : string) : string :=
  let u := match Cut u "#" with Some (u, _) => u | None => u end in
  match Cut u "?" with Some (_, q) => q | None => "" end.

Lemma send_request b buf r x y r' :
  customRequest r = None -> refuses (method r) (url r) = None -> send b buf r = (x, y, r') ->
  exists q, request r' = Some q /\ h_url q = url r /\ h_method q = method r /\ url r' = url r.
Proof.
  intros Hc Hr. unfold send, NewRequest. rewrite Hr, Hc. intros [= <- <- <-]. eexists. split; [done|].
  unfold add_headers. destruct (headers r), (timeout r <? 1); done.
Qed.

Lemma Cut_spec u c : match Cut u c with Some (p, q) => u = p +:+ String c q /\ no_char c p | None => no_char c u end.
Proof.
  induction u as [|a u IH]; cbn; [done|]. case_bool_decide as E; [by subst a|].
  destruct (Cut u c) as [[p q]|]; [|by apply no_char_cons]. destruct IH as [-> Hp]. split; [done|by apply no_char_cons].
Qed.
Lemma Join_no_char c l sep : Forall (no_char c) l -> no_char c sep -> no_char c (Join l sep).
Proof.
  intros Hl Hs. induction Hl as [|p l Hp Hl IH]; [done|]. destruct l as [|p' l]; [done|].
  rewrite Join_cons by done. by rewrite !no_char_app.
Qed.
Lemma Encode_no_char c m : escaped_char c = false -> c <> "="%char -> c <> "&"%char -> no_char c (Encode m).
Proof.
  intros H1 H2 H3. rewrite Encode_pairs. apply Join_no_char; [|by apply no_char_cons].
  apply Forall_fmap, Forall_forall. intros [k v] _. by apply pair_no_char.
Qed.
Lemma Encode_empty m : Encode m = "" -> pairs m = [].
Proof.
  rewrite Encode_pairs. destruct (pairs m) as [|[k v] l]; [done|]. rewrite fmap_cons. change (uncurry pair_text (k, v)) with (pair_text k v).
  destruct l as [|[k' v'] l]; [|rewrite fmap_cons, Join_cons by done]; unfold pair_text; cbn [Join]; by destruct (QueryEscape k).
Qed.

Lemma RawQuery_plain u : no_char "#" u -> RawQuery u = match Cut u "?" with Some (_, q) => q | None => "" end.
Proof.
  intros H. unfold RawQuery. pose proof (Cut_spec u "#") as Hc. destruct (Cut u "#") as [[p q]|]; [|done].
  destruct Hc as [-> _]. apply no_char_app in H as [_ [H _]%no_char_cons]. done.
Qed.
Lemma parse_with_query u m : no_char "#" u ->
  ParseQuery (RawQuery (with_query u (Encode m))) =
  (foldl (fun m '(k, v) => Add k v m) (ParseQuery (RawQuery u)).1 (pairs m), (ParseQuery (RawQuery u)).2).
Proof.
  intros Hu. unfold with_query. case_bool_decide as E.
  { rewrite (Encode_empty m E). by destruct (ParseQuery (RawQuery u)). }
  assert (Hv : no_char "#" (Encode m)) by (by apply Encode_no_char). pose proof (Cut_spec u "?") as Hc.
  destruct (Contains u "?") eqn:Eq; rewrite !RawQuery_plain by (rewrite ?no_char_app; repeat split; done).
  - destruct (Cut u "?") as [[p q]|].
    + destruct Hc as [-> Hp]. rewrite app_assoc_s, app_cons_s, Cut_app by done. apply ParseQuery_after.
    + unfold Contains in Eq. by rewrite (Index_no_char "?" "") in Eq.
  - destruct (Cut u "?") as [[p q]|].
    + destruct Hc as [-> Hp]. exfalso. enough (Contains (p +:+ String "?" q) "?" = true) by congruence.
      apply Contains_spec. by exists p, q.
    + change ("?" +:+ Encode m) with (String "?" (Encode m)). rewrite Cut_app by done.
      rewrite <- (ParseQuery_after "" m). unfold ParseQuery. rewrite app_nil_l_s. done.
Qed.

(** C37: A server that parses the URL of a GET request reads, for every name,
    the values that the URL already had and then the text of the parameter
    that was set, whatever bytes names and texts have, when the URL has no
    fragment, no function customizes the request and the request is accepted. *)
Theorem query_roundtrip r h x y r' :
  customRequest r = None -> no_char "#" (url r) ->
  refuses "GET" (with_query (url r) (Encode (query_values (content (params r) h)))) = None ->
  GET (r, h) = (x, y, r') ->
  exists q, request r' = Some q /\ h_method q = "GET" /\
    (ParseQuery (RawQuery (h_url q))).2 = (ParseQuery (RawQuery (url r))).2 /\
    forall k, values (ParseQuery (RawQuery (h_url q))).1 k =
      values (ParseQuery (RawQuery (url r))).1 k ++ match content (params r) h !! k with Some v => [Sprint v] | None => [] end.
Proof.
  intros Hc Hu Hr HG. unfold GET, pull in HG. cbn in HG.
  apply send_request in HG as (q & Hq & Hurl & Hm & _); [|done..]. exists q. split; [done|]. split; [done|].
  rewrite Hurl. cbn [url SetURL set_method]. rewrite parse_with_query by done. split; [done|]. intros k.
  cbn [fst snd]. rewrite add_values, pairs_values. f_equal. unfold values, query_values. rewrite lookup_fmap. unfold content.
  cbn [params set_method]. by destruct (_ !! k).
Qed.
End Client.

(** ** Examples *)

Section Demo.
Definition demo_refuses (m u : string) : option string := None.
Definition demo_Do (code : Z) (b : string) (q : HttpRequest) (sent : option string) (t : Z) : HttpResponse (R := unit) + string :=
  inl (mkHttpResponse code (Buffer b)).
Abbreviation demo_GET := (GET (R := unit) (fun v : string => v) (fun k => k) demo_refuses map_to_list (demo_Do 200 "ok")).
Abbreviation demo_POST := (POST (R := unit) (Any := string) Some (fun k => k) demo_refuses map_to_list (demo_Do 200 "ok")).
Abbreviation demo_New := (New (Any := string) (R := unit)).
Definition demo_heap : heap := {[1%positive := {["q" := "a&b c"; "page" := "2"]}]}.

Lemma query_roundtrip_witness :
  let r := set_params (Some 1%positive) (SetURL "http://h/p?x=1" demo_New) in
  let '(_, _, r') := demo_GET (r, demo_heap) in
  h_url <$> request r' = Some "http://h/p?x=1&page=2&q=a%26b+c" /\
  exists q, request r' = Some q /\ values (ParseQuery (RawQuery (h_url q))).1 "q" = ["a&b c"].
Proof.
  intros r. destruct (demo_GET (r, demo_heap)) as [[x y] r'] eqn:E. split.
  - replace r' with (demo_GET (r, demo_heap)).2 by (by rewrite E). vm_compute. reflexivity.
  - edestruct (query_roundtrip (R := unit) (fun v : string => v) (fun k => k) demo_refuses map_to_list (demo_Do 200 "ok")
      r demo_heap x y r') as (q & Hq & _ & _ & Hk); [reflexivity|vm_compute; reflexivity|reflexivity|exact E|].
    exists q. split; [exact Hq|]. rewrite Hk. vm_compute. reflexivity.
Defined.

(** A request that is sent twice has its parameters twice in the URL. *)
Example sent_twice :
  let '(_, _, r) := demo_GET (SetParam "a" "1" (SetURL "http://h/p" demo_New, ∅)) in
  let '(_, _, r) := demo_GET (set_params (Some 1%positive) r, {[1%positive := {["a" := "1"]}]}) in
  url r = "http://h/p?a=1&a=1".
Proof. vm_compute. reflexivity. Qed.

(** Reset keeps the URL, with the parameters of the last request, and the
    function that customizes requests. *)
Example reset_keeps_url :
  let '(_, _, r) := demo_GET (SetParam "token" "secret" (SetURL "http://h/p" demo_New, ∅)) in
  url (Reset (CustomRequest (Some (fun q => q)) r)) = "http://h/p?token=secret" /\
  customRequest (Reset (CustomRequest (Some (fun q => q)) r)) <> None.
Proof. vm_compute. done. Qed.

(** The map given first is written by the calls that follow. *)
Example first_map_is_written :
  let s := SetParam "b" "2" (SetParams (Some 1%positive) (demo_New, {[1%positive := {["a" := "1"]}]})) in
  content (Some 1%positive) s.2 = {["a" := "1"; "b" := "2"]}.
Proof. vm_compute. reflexivity. Qed.

(** A text body that is set after a JSON body is not sent. *)
Example json_body_stays :
  let r := SetBody (fun _ => "") (DString "text") (SetBody (fun _ => "") (DOther "json") (demo_New, ∅), ∅) in
  (body r, bodyJSON r) = ("text", Some "json").
Proof. vm_compute. reflexivity. Qed.

(** Post, Put and Patch do not send the parameters of WithParams: the request
    that Do is given has the URL as it was. *)
Example post_without_params :
  Post (R := unit) (Any := string) (Res := string) Some Some (fun k => k) demo_refuses (fun u => (inl "", u)) map_to_list (fun _ => "")
    (fun q _ _ => inl (mkHttpResponse 200 (Buffer (h_url q)))) false "http://h/p" (DOther "x") [WithParams (Some 1%positive)] demo_heap
  = Ok "http://h/p".
Proof. vm_compute. reflexivity. Qed.

(** Parameters after a fragment never reach the server. *)
Example params_after_fragment : ParseQuery (RawQuery (with_query "http://h/p#top" "a=1")) = (∅, true).
Proof. vm_compute. reflexivity. Qed.

(** The response of a request that was not sent. *)
Example response_before_request : Request_Response demo_New = Panic.
Proof. reflexivity. Qed.
End Demo.
End HttpCli.
