(* ===== verification/Discovery.v ===== *)
(** * Registration and discovery of services (pkg/servicerd)

    registry.go and options.go (instances), discovery (the gRPC resolver), and
    the registries of etcd, consul and nacos.  The servers are variables, or a
    class with laws for the keys of etcd; [url.Parse] and the JSON codec are
    variables.  Theorems: the etcd registry answers by the last registration
    of every instance; a resolver passes on each endpoint once; the heart beat
    ends after its retries; what consul gives back and what it forgets. *)

From S2P Require Import Prelude GoStr GoFloat.
From Stdlib Require Import Ascii.
From Stdlib Require String.

Module Discovery.

(** ** Instances *)

Record ServiceInstance : Type := mkInstance {
  ID : string; Name : string; Version : string; Metadata : option (gmap string string); Endpoints : list string }.
#[global] Instance ServiceInstance_eq_dec : EqDecision ServiceInstance.
Proof. solve_decision. Defined.

Record options : Type := mkOptions { version : string; metadata : option (gmap string string) }.
Definition defaultOptions : options := mkOptions "" None.
Definition apply {O} (opts : list (O -> O)) (o : O) : O := foldl (fun o opt => opt o) o opts.
Definition WithVersion (v : string) (o : options) : options := mkOptions v (metadata o).
Definition WithMetadata (m : option (gmap string string)) (o : options) : options := mkOptions (version o) m.
Definition NewServiceInstance (id name : string) (endpoints : list string) (opts : list (options -> options)) : ServiceInstance :=
  let o := apply opts defaultOptions in mkInstance id name (version o) (metadata o) endpoints.

Inductive error : Type :=
  | ErrServer (e : string) | ErrOvertime | ErrJSON | ErrURL | ErrPort (endpoint : string) | ErrHostPort
  | ErrEmptyName | ErrNotResolved (name : string) | ErrNotFound (name : string) | ErrCanceled.
#[global] Instance error_eq_dec : EqDecision error.
Proof. solve_decision. Defined.

(** ** URLs *)

(** What is read of a [url.URL]. *)
Record URL : Type := mkURL { Scheme : string; Host : string; Path : string; Query : string -> string }.

Definition LastIndex (s : string) (c : ascii) : option (string * string) :=
  (fix go (s : string) := match s with
   | EmptyString => None
   | String a s =>
       match go s with
       | Some (l, r) => Some (String a l, r)
       | None => if bool_decide (a = c) then Some ("", s) else None
       end
   end) s.
(** [url.splitHostPort], which Hostname and Port call. *)
Definition split_host_port (hostPort : string) : string * string :=
  let '(host, port) :=
    match LastIndex hostPort ":" with
    | Some (h, p) => if forall_chars is_digit p then (h, p) else (hostPort, "")
    | None => (hostPort, "")
    end in
  (if HasPrefix host "[" && HasSuffix host "]" then str_take (str_len host - 2) (str_drop 1 host) else host, port).
Definition Hostname (u : URL) : string := (split_host_port (Host u)).1.
Definition Port (u : URL) : string := (split_host_port (Host u)).2.

(** [net.SplitHostPort]. *)
Definition SplitHostPort (hostport : string) : option (string * string) :=
  match LastIndex hostport ":" with
  | None => None
  | Some (before, port) =>
      match hostport with
      | String "[" rest =>
          match Cut rest "]" with
          | Some (host, after) =>
              if bool_decide (after = String ":" port) && negb (Contains rest "[") && negb (Contains after "]")
              then Some (host, port) else None
          | None => None
          end
      | _ =>
          if Contains before ":" || Contains hostport "[" || Contains hostport "]" then None else Some (before, port)
      end
  end.

Section URL.
Variable Parse : string -> option URL.

(** ** The resolver *)

Definition IsSecure (u : URL) : bool := default false (ParseBool (Query u "isSecure")).

Fixpoint parseEndpoint (endpoints : list string) (scheme : string) (isSecure : bool) : result error string :=
  match endpoints with
  | [] => Ok ""
  | e :: endpoints =>
      match Parse e with
      | None => Err ErrURL
      | Some u =>
          if bool_decide (Scheme u = scheme) && Bool.eqb (IsSecure u) isSecure then Ok (Host u)
          else parseEndpoint endpoints scheme isSecure
      end
  end.

(** The attributes of an address: those of the metadata, and the instance
    under its own name. *)
Record Address : Type := mkAddress { ServerName : string; Attributes : gmap string string; rawServiceInstance : ServiceInstance; Addr : string }.
Definition parseAttributes (md : option (gmap string string)) : gmap string string := default ∅ md.

Definition update_step (isSecure : bool) (acc : list Address * gset string) (ins : ServiceInstance) : list Address * gset string :=
  match parseEndpoint (Endpoints ins) "grpc" isSecure with
  | Ok endpoint =>
      if bool_decide (endpoint = "") || bool_decide (endpoint ∈ acc.2) then acc
      else (acc.1 ++ [mkAddress (Name ins) (parseAttributes (Metadata ins)) ins endpoint], {[endpoint]} ∪ acc.2)
  | _ => acc
  end.
(** The state that is passed to the connection, if any. *)
Definition update (insecure : bool) (ins : list ServiceInstance) : option (list Address) :=
  match (foldl (update_step (negb insecure)) ([], ∅) ins).1 with [] => None | addrs => Some addrs end.

(** What the loop of [watch] finds: the end of its context, or the answer of
    the watcher.  The states passed on, and whether the goroutine ended. *)
Inductive watched : Type := WDone | WNext (r : result error (list ServiceInstance)).
Fixpoint watch (insecure : bool) (l : list watched) : list (list Address) * bool :=
  match l with
  | [] => ([], false)
  | WDone :: _ | WNext (Err ErrCanceled) :: _ => ([], true)
  | WNext (Ok ins) :: l =>
      let '(ss, b) := watch insecure l in (match update insecure ins with Some s => s :: ss | None => ss end, b)
  | WNext _ :: l => watch insecure l
  end.

Record builder : Type := mkBuilder { timeout : Z; insecure : bool; debugLogDisabled : bool }.
Definition WithTimeout (t : Z) (b : builder) : builder := mkBuilder t (insecure b) (debugLogDisabled b).
Definition WithInsecure (i : bool) (b : builder) : builder := mkBuilder (timeout b) i (debugLogDisabled b).
Definition DisableDebugLog (b : builder) : builder := mkBuilder (timeout b) (insecure b) true.
Definition NewBuilder (opts : list (builder -> builder)) : builder := apply opts (mkBuilder (10 * second) false false).
(** [Build]: [answer] is the time the discovery takes and what it gives for
    the name. *)
Definition Build {W} (b : builder) (target : URL) (Watch : string -> Z * result error W) : result error W :=
  let '(t, w) := Watch (TrimPrefix (Path target) "/") in
  if t <? timeout b then w else Err ErrOvertime.
Definition discovery_Scheme : string := "discovery".

Definition endpoint_of (isSecure : bool) (ins : ServiceInstance) : option string :=
  match parseEndpoint (Endpoints ins) "grpc" isSecure with Ok e => if bool_decide (e = "") then None else Some e | _ => None end.

Lemma update_step_spec s acc ins :
  update_step s acc ins = match endpoint_of s ins with
    | Some e => if bool_decide (e ∈ acc.2) then acc
                else (acc.1 ++ [mkAddress (Name ins) (parseAttributes (Metadata ins)) ins e], {[e]} ∪ acc.2)
    | None => acc end.
Proof. unfold update_step, endpoint_of. destruct (parseEndpoint _ _ _); [|done..]. by case_bool_decide. Qed.

Lemma update_addresses s l acc :
  (forall e, e ∈ acc.2 <-> e ∈ Addr <$> acc.1) -> NoDup (Addr <$> acc.1) ->
  let acc' := foldl (update_step s) acc l in
  NoDup (Addr <$> acc'.1) /\ (forall e, e ∈ Addr <$> acc'.1 <-> e ∈ Addr <$> acc.1 \/ e ∈ omap (endpoint_of s) l) /\
  Forall (fun a => endpoint_of s (rawServiceInstance a) = Some (Addr a)) (drop (length acc.1) acc'.1) /\ acc.1 `prefix_of` acc'.1.
Proof.
  revert acc. induction l as [|ins l IH]; intros acc Hs Hnd; cbn [foldl].
  - split; [done|]. split; [intros e; set_solver|]. by rewrite drop_all.
  - rewrite update_step_spec. cbn [omap list_omap]. destruct (endpoint_of s ins) as [e|] eqn:E; [|by apply IH].
    case_bool_decide as Hin.
    + destruct (IH acc Hs Hnd) as (H1 & H2 & H3 & H4). split; [done|]. split; [|done].
      intros e'. rewrite H2, elem_of_cons. apply Hs in Hin. split; [tauto|]. intros [?|[->|?]]; auto.
    + edestruct (IH (acc.1 ++ [mkAddress (Name ins) (parseAttributes (Metadata ins)) ins e], {[e]} ∪ acc.2)) as (H1 & H2 & H3 & H4).
      * intros e'. cbn. rewrite fmap_app, elem_of_app, elem_of_union, Hs. cbn. set_solver.
      * cbn. rewrite fmap_app. apply NoDup_app. split; [done|]. split; [|by apply NoDup_singleton].
        intros e' He' ->%list_elem_of_singleton. by apply Hin, Hs.
      * cbn [fst snd] in *. split; [done|]. split.
        { intros e'. rewrite H2, fmap_app, elem_of_app, elem_of_cons. cbn. set_solver. }
        split; [|etrans; [|done]; by apply prefix_app_r].
        destruct H4 as [k Hk]. rewrite Hk in H3 |- *. rewrite <- app_assoc, drop_app_length. rewrite drop_app_length in H3.
        cbn. by constructor.
Qed.

(** Every endpoint of the instances is passed on once, with an instance it is
    of; without any nothing is passed on. *)
Theorem update_once insecure ins :
  match update insecure ins with
  | Some addrs => NoDup (Addr <$> addrs) /\ (forall e, e ∈ Addr <$> addrs <-> e ∈ omap (endpoint_of (negb insecure)) ins) /\
      Forall (fun a => endpoint_of (negb insecure) (rawServiceInstance a) = Some (Addr a)) addrs
  | None => omap (endpoint_of (negb insecure)) ins = []
  end.
Proof.
  pose proof (update_addresses (negb insecure) ins ([], ∅)) as H. unfold update. cbn [fst snd] in H.
  destruct H as (H1 & H2 & H3 & _); [set_solver|constructor|]. destruct (foldl _ _ ins).1 as [|a l].
  - destruct (omap _ ins) as [|e es]; [done|]. exfalso. eapply elem_of_nil. apply (H2 e). right. by left.
  - split; [done|]. split; [|done]. intros e. rewrite H2. set_solver.
Qed.
End URL.

(** ** The registry of etcd *)

(** The keys of etcd with their values; a prefix is read in some order, each
    key once. *)
Class Etcd (V D : Type) : Type := {
  kvs : D -> gmap string V;
  Put : string -> V -> D -> result string D;
  Delete : string -> D -> result string D;
  GetPrefix : string -> D -> result string (list (string * V));
  put_law : forall k v d d', Put k v d = Ok d' -> kvs d' = <[k := v]> (kvs d);
  delete_law : forall k d d', Delete k d = Ok d' -> kvs d' = delete k (kvs d);
  get_law : forall p d l, GetPrefix p d = Ok l -> NoDup l.*1 /\ forall k v, (k, v) ∈ l <-> kvs d !! k = Some v /\ HasPrefix k p = true }.

Section Etcd.
Context `{Etcd V D}.
Variables (Marshal : ServiceInstance -> option V) (Unmarshal : V -> option ServiceInstance).
Variable Grant : Z -> option string.

Record etcd_options : Type := mkEtcdOptions { namespace : string; ttl : Z; maxRetry : Z }.
Definition default_etcd_options : etcd_options := mkEtcdOptions "/microservices" (15 * second) 5.
Definition WithNamespace (ns : string) (o : etcd_options) : etcd_options := mkEtcdOptions ns (ttl o) (maxRetry o).
Definition WithRegisterTTL (t : Z) (o : etcd_options) : etcd_options := mkEtcdOptions (namespace o) t (maxRetry o).
Definition WithMaxRetry (n : Z) (o : etcd_options) : etcd_options := mkEtcdOptions (namespace o) (ttl o) n.

Definition server {A} (r : result string A) : result error A :=
  match r with Ok a => Ok a | Err e => Err (ErrServer e) | Panic => Panic end.

Definition instance_key (o : etcd_options) (s : ServiceInstance) : string := namespace o +:+ "/" +:+ Name s +:+ "/" +:+ ID s.
Definition service_key (o : etcd_options) (name : string) : string := namespace o +:+ "/" +:+ name.

(** A new lease of the seconds of [ttl] and the key under it. *)
Definition registerWithKV (o : etcd_options) (key : string) (value : V) (d : D) : result error D :=
  match Grant (Z.quot (ttl o) second) with
  | Some e => Err (ErrServer e)
  | None => server (Put key value d)
  end.
Definition Register (o : etcd_options) (s : ServiceInstance) (d : D) : result error D :=
  match Marshal s with None => Err ErrJSON | Some value => registerWithKV o (instance_key o s) value d end.
Definition Deregister (o : etcd_options) (s : ServiceInstance) (d : D) : result error D := server (Delete (instance_key o s) d).

(** The instances of a name among the keys with its prefix; GetService and the
    watcher's getInstance. *)
Fixpoint named (name : string) (l : list (string * V)) : result error (list ServiceInstance) :=
  match l with
  | [] => Ok []
  | (_, v) :: l =>
      match Unmarshal v with
      | None => Err ErrJSON
      | Some si => items ← named name l; Ok (if bool_decide (Name si = name) then si :: items else items)
      end
  end.
Definition GetService (o : etcd_options) (name : string) (d : D) : result error (list ServiceInstance) :=
  l ← server (GetPrefix (service_key o name) d); named name l.

(** [watcher.Next]: at first the instances, then when the watch fires; [fired]
    is [None] after the end of the context. *)
Definition Next (o : etcd_options) (name : string) (first : bool) (fired : option unit) (d : D) : result error (list ServiceInstance) * bool :=
  if first then (GetService o name d, false)
  else (match fired with None => Err ErrCanceled | Some _ => GetService o name d end, false).

(** *** A history of registrations *)

Inductive op : Type := ORegister (s : ServiceInstance) | ODeregister (s : ServiceInstance).
Definition step (o : etcd_options) (d : D) (p : op) : result error D :=
  match p with ORegister s => Register o s d | ODeregister s => Deregister o s d end.
Definition instance_of (p : op) : ServiceInstance := match p with ORegister s | ODeregister s => s end.

(** The instances by name and id. *)
Definition registered (m : gmap (string * string) ServiceInstance) (p : op) : gmap (string * string) ServiceInstance :=
  match p with
  | ORegister s => <[(Name s, ID s) := s]> m
  | ODeregister s => delete (Name s, ID s) m
  end.

Definition slash : ascii := "/"%char.
Hypothesis json_law : forall s v, Marshal s = Some v -> Unmarshal v = Some s.

Lemma instance_key_inj o s s' : no_char slash (Name s) -> no_char slash (Name s') ->
  instance_key o s = instance_key o s' -> Name s = Name s' /\ ID s = ID s'.
Proof.
  unfold instance_key. intros H1 H2 He.
  rewrite <- !(app_assoc_s (namespace o) "/") in He. apply (f_equal (str_drop (str_len (namespace o +:+ "/")))) in He.
  rewrite !drop_app in He.
  assert (Hc : Cut (Name s +:+ String slash (ID s)) slash = Cut (Name s' +:+ String slash (ID s')) slash) by (f_equal; exact He).
  rewrite !Cut_app in Hc by done. by injection Hc.
Qed.
Lemma instance_key_prefix o s : HasPrefix (instance_key o s) (service_key o (Name s)) = true.
Proof.
  apply HasPrefix_spec. exists ("/" +:+ ID s). unfold instance_key, service_key. by rewrite !app_assoc_s.
Qed.

(** The keys of etcd below a namespace that holds nothing else. *)
Definition holds (o : etcd_options) (m : gmap (string * string) ServiceInstance) (d : D) : Prop :=
  (forall k v, kvs d !! k = Some v <-> exists s, m !! (Name s, ID s) = Some s /\ k = instance_key o s /\ Marshal s = Some v) /\
  (forall k s, m !! k = Some s -> k = (Name s, ID s) /\ no_char slash (Name s) /\ Marshal s <> None).

Lemma key_iff o s s' : no_char slash (Name s) -> no_char slash (Name s') ->
  instance_key o s = instance_key o s' <-> (Name s, ID s) = (Name s', ID s').
Proof.
  intros H1 H2. split; [|intros [= E1 E2]; unfold instance_key; by rewrite E1, E2].
  intros He. by destruct (instance_key_inj o s s' H1 H2 He) as [-> ->].
Qed.

Lemma register_holds o m d s d' : no_char slash (Name s) -> holds o m d -> Register o s d = Ok d' -> holds o (<[(Name s, ID s) := s]> m) d'.
Proof.
  intros Hn [Hkv Hm] Hstep. unfold Register in Hstep. destruct (Marshal s) as [v|] eqn:Em; [|done]. unfold registerWithKV in Hstep.
  destruct (Grant _); [done|]. destruct (Put (instance_key o s) v d) as [d1| |] eqn:Ep; [|done..]. injection Hstep as <-.
  apply put_law in Ep. split.
  - intros k v'. rewrite Ep, lookup_insert_Some, Hkv. setoid_rewrite lookup_insert_Some. split.
    + intros [[<- <-]|[Hne (s' & Hs' & -> & Hv)]]; [exists s; auto|]. exists s'. split; [|done]. right. split; [|done].
      intros E. apply Hne, key_iff; [done| |done]. by destruct (Hm _ _ Hs') as (_ & ? & _).
    + intros (s' & [[E <-]|[Hne Hs']] & -> & Hv); [left; split; [done|congruence]|]. right. split; [|eauto].
      destruct (Hm _ _ Hs') as (_ & Hn' & _). by intros E%key_iff.
  - intros k s' [[<- <-]|[_ Hs']]%lookup_insert_Some; [by rewrite Em|by apply Hm].
Qed.
Lemma deregister_holds o m d s d' : no_char slash (Name s) -> holds o m d -> Deregister o s d = Ok d' -> holds o (delete (Name s, ID s) m) d'.
Proof.
  intros Hn [Hkv Hm] Hstep. unfold Deregister in Hstep. destruct (Delete (instance_key o s) d) as [d1| |] eqn:Ep; [|done..].
  injection Hstep as <-. apply delete_law in Ep. split.
  - intros k v'. rewrite Ep, lookup_delete_Some, Hkv. setoid_rewrite lookup_delete_Some. split.
    + intros [Hne (s' & Hs' & -> & Hv)]. exists s'. split; [|done]. split; [|done].
      intros E. apply Hne, key_iff; [done| |done]. by destruct (Hm _ _ Hs') as (_ & ? & _).
    + intros (s' & [Hne Hs'] & -> & Hv). split; [|eauto]. destruct (Hm _ _ Hs') as (_ & Hn' & _). by intros E%key_iff.
  - intros k s' [_ Hs']%lookup_delete_Some. by apply Hm.
Qed.
Lemma registration_holds o m d p d' : no_char slash (Name (instance_of p)) -> holds o m d -> step o d p = Ok d' -> holds o (registered m p) d'.
Proof. destruct p; [apply register_holds|apply deregister_holds]. Qed.

Lemma named_spec name l :
  Forall (fun p => Unmarshal p.2 <> None) l ->
  exists items, named name l = Ok items /\ items = filter (fun s => Name s = name) (omap (fun p => Unmarshal p.2) l).
Proof.
  induction 1 as [|[k v] l Hv Hl (items & Hi & ->)]; [by eexists|].
  cbn in Hv. destruct (Unmarshal v) as [si|] eqn:E; [|done].
  assert (omap (fun p => Unmarshal p.2) ((k, v) :: l) = si :: omap (fun p => Unmarshal p.2) l) as -> by (cbn; by rewrite E).
  cbn [named]. rewrite E, Hi. eexists. split; [done|]. rewrite filter_cons. case_decide; [by rewrite bool_decide_eq_true_2|by rewrite bool_decide_eq_false_2].
Qed.

Lemma registrations_hold o ops : forall m d d', Forall (fun p => no_char slash (Name (instance_of p))) ops -> holds o m d ->
  foldM (step o) d ops = Ok d' -> holds o (foldl registered m ops) d'.
Proof.
  induction ops as [|p ops IH]; intros m d d' Hops Hm Hrun; cbn in *; [by injection Hrun as <-|].
  apply Forall_cons in Hops as [Hp Hops]. apply bind_ok in Hrun as (d1 & E & Hrun).
  eapply IH; [done| |done]. by eapply registration_holds.
Qed.

Lemma listed o m d name l : holds o m d -> GetPrefix (service_key o name) d = Ok l ->
  NoDup l.*1 /\ forall k v, (k, v) ∈ l <->
    exists s, m !! (Name s, ID s) = Some s /\ k = instance_key o s /\ Marshal s = Some v /\ HasPrefix k (service_key o name) = true.
Proof.
  intros [Hkv _] [Hnd Hl]%get_law. split; [done|]. intros k v. rewrite Hl, Hkv. naive_solver.
Qed.

Lemma decoded_nodup o m d l : holds o m d -> NoDup l.*1 ->
  (forall k v, (k, v) ∈ l -> exists s, m !! (Name s, ID s) = Some s /\ k = instance_key o s /\ Marshal s = Some v) ->
  NoDup (omap (fun p => Unmarshal p.2) l).
Proof.
  intros Hm. induction l as [|[k v] l IH]; cbn; [constructor|]. intros [Hk Hnd]%NoDup_cons Hl.
  destruct (Hl k v ltac:(by left)) as (s & Hs & -> & Hv). rewrite (json_law _ _ Hv). constructor.
  - intros ([k' v'] & Hin & Hu)%list_elem_of_omap. cbn in Hu. destruct (Hl k' v' ltac:(by right)) as (s' & _ & -> & Hv').
    rewrite (json_law _ _ Hv') in Hu. injection Hu as ->. apply Hk. apply list_elem_of_fmap. by exists (instance_key o s, v').
  - apply IH; [done|]. intros k' v' Hin. apply Hl. by right.
Qed.

(** C38: After any successful registrations and deregistrations of services
    whose names have no slash, in a namespace that was empty, GetService
    answers with exactly the instances of the name that were registered last
    and not deregistered since, each once.  No lease runs out in between: the
    heart beat that a registration starts keeps it. *)
Theorem etcd_answers_by_registrations o d0 ops d name l :
  kvs d0 = ∅ -> Forall (fun p => no_char slash (Name (instance_of p))) ops -> foldM (step o) d0 ops = Ok d ->
  GetPrefix (service_key o name) d = Ok l ->
  exists items, GetService o name d = Ok items /\ NoDup items /\
    forall s, s ∈ items <-> Name s = name /\ foldl registered ∅ ops !! (Name s, ID s) = Some s.
Proof.
  intros H0 Hops Hrun Hl. set (m := foldl registered ∅ ops).
  assert (Hh : holds o m d).
  { eapply registrations_hold; [done| |done]. split; [|by intros k s; rewrite lookup_empty].
    intros k v. rewrite H0, lookup_empty. split; [done|]. intros (s & Hs & _). by rewrite lookup_empty in Hs. }
  destruct (listed _ _ _ _ _ Hh Hl) as [Hnd Hin].
  destruct (named_spec name l) as (items & Hi & ->).
  { apply Forall_forall. intros [k v] (s & _ & _ & Hv & _)%Hin. cbn. by rewrite (json_law _ _ Hv). }
  exists (filter (fun s => Name s = name) (omap (fun p => Unmarshal p.2) l)).
  unfold GetService. rewrite Hl. cbn. split; [done|]. split.
  - apply NoDup_filter. eapply decoded_nodup; [done..|]. intros k v (s & ? & ? & ? & _)%Hin. eauto.
  - intros s. rewrite list_elem_of_filter, list_elem_of_omap. split.
    + intros [Hname ([k v] & (s' & Hs' & _ & Hv & _)%Hin & Hu)]. cbn in Hu. rewrite (json_law _ _ Hv) in Hu. by injection Hu as ->.
    + intros [Hname Hs]. split; [done|]. destruct (proj2 Hh _ _ Hs) as (_ & _ & Hv). destruct (Marshal s) as [v|] eqn:Em; [|done].
      exists (instance_key o s, v). split; [|by apply json_law]. apply Hin. exists s. rewrite <- Hname. by rewrite instance_key_prefix.
Qed.
End Etcd.

(** A map is an etcd, values are the instances themselves. *)
#[global] Program Instance etcd_map : Etcd ServiceInstance (gmap string ServiceInstance) := {
  kvs := fun d => d;
  Put := fun k v d => Ok (<[k := v]> d);
  Delete := fun k d => Ok (delete k d);
  GetPrefix := fun p d => Ok (map_to_list (filter (fun kv => HasPrefix kv.1 p = true) d)) }.
Next Obligation. by intros k v d d' [= <-]. Qed.
Next Obligation. by intros k d d' [= <-]. Qed.
Next Obligation.
  intros p d l [= <-]. split.
  - apply NoDup_fst_map_to_list.
  - intros k v. by rewrite elem_of_map_to_list, map_lookup_filter_Some.
Qed.

Definition demo_a1 := mkInstance "1" "user" "" None ["grpc://a:1"].
Definition demo_a2 := mkInstance "2" "user" "" None ["grpc://b:1"].
Definition demo_b := mkInstance "1" "users" "" None ["grpc://c:1"].
Definition demo_ops : list op := [ORegister demo_a1; ORegister demo_b; ORegister demo_a2; ODeregister demo_a1].
Definition demo_etcd : gmap string ServiceInstance :=
  default ∅ (match foldM (step Some (fun _ => None) default_etcd_options) ∅ demo_ops with Ok d => Some d | _ => None end).

Lemma etcd_answers_by_registrations_witness :
  exists items, GetService Some default_etcd_options "user" demo_etcd = Ok items /\ demo_a2 ∈ items /\ demo_a1 ∉ items /\ demo_b ∉ items.
Proof.
  edestruct (etcd_answers_by_registrations Some Some (fun _ => None) ltac:(naive_solver) default_etcd_options (∅ : gmap string ServiceInstance) demo_ops demo_etcd "user")
    as (items & Hi & _ & Hin).
  - reflexivity.
  - repeat constructor.
  - vm_compute. reflexivity.
  - reflexivity.
  - exists items. split; [exact Hi|]. rewrite !Hin. split; [|split].
    + split; [reflexivity|vm_compute; reflexivity].
    + intros [_ H]. vm_compute in H. discriminate H.
    + intros [H _]. vm_compute in H. discriminate H.
Defined.

(** *** The heart beat *)

(** The channel of KeepAlive: nil after an error, open, or closed. *)
Inductive keepalive : Type := KNil | KOpen | KClosed.
(** Where [heartBeat] waits: in its select, before the attempt [n], at the
    receive after the attempts; or it returned. *)
Inductive beating : Type := HWait (k : keepalive) | HRetry (n : Z) (k : keepalive) | HAfter (k : keepalive) | HEnd.
#[global] Instance keepalive_eq_dec : EqDecision keepalive.
Proof. solve_decision. Defined.
#[global] Instance beating_eq_dec : EqDecision beating.
Proof. solve_decision. Defined.
Inductive attempt : Type := AOvertime | AError | ALease (kept_alive : bool).
Inductive beat : Type := EBeat | EClose (ctx_err : bool) | ECtx | EAttempt (a : attempt).

(** A receive from a nil channel waits, from a closed one gives not ok. *)
Definition after (k : keepalive) : beating := match k with KClosed => HEnd | _ => HAfter k end.
Definition retry_from (maxRetry n : Z) (k : keepalive) : beating := if n <? maxRetry then HRetry n k else after k.
Definition heartBeat (maxRetry : Z) (kept_alive : bool) : beating := if kept_alive then HWait KOpen else retry_from maxRetry 0 KNil.
Definition beat_step (maxRetry : Z) (s : beating) (e : beat) : beating :=
  match s, e with
  | HWait k, EClose true | HWait k, ECtx => HEnd
  | HWait k, EClose false => retry_from maxRetry 0 KClosed
  | HRetry n k, ECtx => HEnd
  | HRetry n k, EAttempt (AOvertime | AError) => retry_from maxRetry (n + 1) k
  | HRetry n k, EAttempt (ALease true) => HAfter KOpen
  | HRetry n k, EAttempt (ALease false) => retry_from maxRetry (n + 1) KNil
  | HAfter KOpen, EBeat => HWait KOpen
  | HAfter KOpen, EClose _ => HEnd
  | _, _ => s
  end.

Definition failing (e : beat) : bool := match e with EAttempt (AOvertime | AError) => true | _ => false end.

Lemma retries_fail maxRetry k es n : 0 <= n <= maxRetry -> Forall (fun e => failing e = true) es -> Z.of_nat (length es) = maxRetry - n ->
  foldl (beat_step maxRetry) (retry_from maxRetry n k) es = after k.
Proof.
  intros Hn Hes. revert n Hn. induction Hes as [|e es He Hes IH]; intros n Hn; cbn [length foldl]; intros Hl.
  - unfold retry_from. replace (n <? maxRetry) with false by lia. done.
  - unfold retry_from at 1. replace (n <? maxRetry) with true by lia. destruct e as [| | |[]]; cbn in He |- *; try done; apply IH; lia.
Qed.

(** When the lease is lost and as many attempts fail as are allowed, the heart
    beat ends and the service is not registered again. *)
Theorem heartbeat_gives_up maxRetry es rest : 0 <= maxRetry -> Forall (fun e => failing e = true) es -> Z.of_nat (length es) = maxRetry ->
  foldl (beat_step maxRetry) (HWait KOpen) (EClose false :: es ++ rest) = HEnd.
Proof.
  intros H0 Hes Hl. cbn [foldl beat_step]. rewrite foldl_app, (retries_fail _ _ _ 0) by (done || lia). cbn.
  induction rest as [|e rest IH]; [done|]. cbn. by destruct e.
Qed.

(** An attempt that succeeds goes on beating. *)
Lemma heartbeat_recovers maxRetry es : Forall (fun e => failing e = true) es -> Z.of_nat (length es) < maxRetry ->
  foldl (beat_step maxRetry) (HWait KOpen) (EClose false :: es ++ [EAttempt (ALease true); EBeat]) = HWait KOpen.
Proof.
  intros Hes. cbn [foldl beat_step]. intros Hl.
  assert (Hgo : forall n, 0 <= n -> n + Z.of_nat (length es) < maxRetry ->
    foldl (beat_step maxRetry) (retry_from maxRetry n KClosed) (es ++ [EAttempt (ALease true); EBeat]) = HWait KOpen); [|apply Hgo; lia].
  clear Hl. induction Hes as [|e es He Hes IH]; intros n Hn Hlt; cbn [length] in Hlt; unfold retry_from; replace (n <? maxRetry) with true by lia.
  - done.
  - destruct e as [| | |[]]; cbn in He; try done; cbn; apply IH; lia.
Qed.

(** After a failed KeepAlive and failed attempts the goroutine waits for ever,
    and does not see the end of its context. *)
Example heartbeat_hangs rest : foldl (beat_step 1) (heartBeat 1 false) (EAttempt AError :: rest) = HAfter KNil.
Proof. cbn. induction rest as [|e rest IH]; [done|]. by destruct e. Qed.

(** ** The registry of consul *)

Record ServiceAddress : Type := mkAddr { a_Address : string; a_Port : Z }.
Record Registration : Type := mkReg {
  r_ID : string; r_Name : string; r_Meta : option (gmap string string); r_Tags : list string;
  r_TaggedAddresses : gmap string ServiceAddress; r_Address : string; r_Port : Z; r_Check : option string }.
(** A service as consul knows it; the addresses in the order of a range. *)
Record entry : Type := mkEntry {
  e_ID : string; e_Service : string; e_Meta : option (gmap string string); e_Tags : list string; e_TaggedAddresses : list (string * ServiceAddress) }.

Section Consul.
Variable Parse : string -> option URL.

Definition parse_port (s : string) : option Z := p ← ParseUint s; if p <? 2 ^ 16 then Some p else None.
Definition add_endpoint (acc : gmap string ServiceAddress * string * Z) (endpoint : string) : result error (gmap string ServiceAddress * string * Z) :=
  match Parse endpoint with
  | None => Err ErrURL
  | Some raw =>
      match parse_port (Port raw) with
      | None => Err (ErrPort endpoint)
      | Some port => Ok (<[Scheme raw := mkAddr endpoint port]> acc.1.1, Hostname raw, port)
      end
  end.
Definition consul_Register (s : ServiceInstance) (enableHealthCheck : bool) : result error Registration :=
  '(addresses, addr, port) ← foldM add_endpoint (∅, "", 0) (Endpoints s);
  Ok (mkReg (ID s) (Name s) (Metadata s) ["version=" +:+ Version s] addresses addr port
        (if enableHealthCheck then Some (addr +:+ ":" +:+ FormatUint port) else None)).

Definition lan_wan : list string := ["lan_ipv4"; "wan_ipv4"; "lan_ipv6"; "wan_ipv6"].
Definition tag_version (v : string) (tag : string) : string :=
  match Cut tag "=" with Some (k, x) => if bool_decide (k = "version") then x else v | None => v end.
Definition consul_instance (e : entry) : ServiceInstance :=
  mkInstance (e_ID e) (e_Service e) (foldl tag_version "" (e_Tags e)) (e_Meta e)
    (omap (fun '(scheme, a) => if bool_decide (scheme ∈ lan_wan) then None else Some (a_Address a)) (e_TaggedAddresses e)).

(** What consul answers for a registration: its fields, and addresses of its
    own besides those of the registration. *)
Definition answers (r : Registration) (e : entry) : Prop :=
  e_ID e = r_ID r /\ e_Service e = r_Name r /\ e_Meta e = r_Meta r /\ e_Tags e = r_Tags r /\
  NoDup (e_TaggedAddresses e).*1 /\
  forall scheme a, (scheme, a) ∈ e_TaggedAddresses e /\ scheme ∉ lan_wan <-> r_TaggedAddresses r !! scheme = Some a.

Definition scheme_of (e : string) : option string := Scheme <$> Parse e.

Lemma add_endpoints l : forall acc acc', foldM add_endpoint acc l = Ok acc' -> NoDup (omap scheme_of l) ->
  (forall e s, e ∈ l -> scheme_of e = Some s -> acc.1.1 !! s = None) ->
  forall s e, a_Address <$> acc'.1.1 !! s = Some e <-> a_Address <$> acc.1.1 !! s = Some e \/ (e ∈ l /\ scheme_of e = Some s).
Proof.
  induction l as [|x l IH]; intros acc acc' Hrun Hnd Hfresh s e; cbn in *.
  - injection Hrun as <-. set_solver.
  - apply bind_ok in Hrun as (acc1 & Hadd & Hrun). unfold add_endpoint in Hadd.
    assert (Hsx : scheme_of x = Scheme <$> Parse x) by done.
    destruct (Parse x) as [raw|]; [|done]. destruct (parse_port (Port raw)) as [port|]; [|done]. injection Hadd as <-.
    cbn in Hsx. rewrite Hsx in Hnd. apply NoDup_cons in Hnd as [Hx Hnd].
    erewrite (IH _ _ Hrun Hnd); cbn [fst snd].
    + destruct (decide (s = Scheme raw)) as [->|Hne].
      * rewrite lookup_insert_eq, (Hfresh x _ ltac:(by left) Hsx), elem_of_cons. cbn. naive_solver.
      * rewrite lookup_insert_ne, elem_of_cons by done. naive_solver.
    + intros e' s' He' Hs'. rewrite lookup_insert_ne; [by apply (Hfresh e'); [right|]|]. intros Heq. apply Hx.
      apply list_elem_of_omap. exists e'. by rewrite Hs', Heq.
Qed.

(** Registration with consul and back: the same instance, when the endpoints
    have schemes of their own that are none of consul's. *)
Theorem consul_roundtrip s check r e :
  consul_Register s check = Ok r -> answers r e ->
  NoDup (omap scheme_of (Endpoints s)) -> Forall (fun x => is_Some (scheme_of x)) (Endpoints s) ->
  let s' := consul_instance e in
  ID s' = ID s /\ Name s' = Name s /\ Version s' = Version s /\ Metadata s' = Metadata s /\
  forall x, x ∈ Endpoints s' <-> x ∈ Endpoints s.
Proof.
  intros Hreg (Hid & Hname & Hmeta & Htags & _ & Haddr) Hnd Hall. unfold consul_Register in Hreg.
  apply bind_ok in Hreg as (((addresses, addr), port) & Hrun & [= <-]). cbn in *.
  pose proof (add_endpoints _ _ _ Hrun Hnd ltac:(intros; apply lookup_empty)) as Ha. cbn in Ha.
  rewrite Htags. split; [done|]. split; [done|]. split; [done|]. split; [done|]. intros x.
  rewrite list_elem_of_omap. split.
  - intros ([scheme a] & Hin & Hx). case_bool_decide as Hs; [done|]. injection Hx as <-.
    pose proof (proj1 (Haddr scheme a) (conj Hin Hs)) as Hl.
    destruct (proj1 (Ha scheme (a_Address a))) as [H|[H _]]; [by rewrite Hl|by rewrite lookup_empty in H|done].
  - intros Hin. rewrite Forall_forall in Hall. destruct (Hall x Hin) as [scheme Hs].
    pose proof (proj2 (Ha scheme x) (or_intror (conj Hin Hs))) as Hl. apply fmap_Some in Hl as (a & Hl & ->).
    apply Haddr in Hl as [Hl Hn]. exists (scheme, a). split; [done|]. by rewrite bool_decide_eq_false_2.
Qed.
End Consul.

(** *** Services that are watched *)

(** The services found last; the watchers, each with whether an event waits in
    its channel. *)
Record serviceSet : Type := mkSet { services : option (list ServiceInstance); watcher : gmap nat bool }.
Definition new_set : serviceSet := mkSet None ∅.
(** [broadcast]: an event is put into every channel that has room. *)
Definition broadcast (ss : list ServiceInstance) (s : serviceSet) : serviceSet := mkSet (Some ss) ((fun _ => true) <$> watcher s).
Definition has_services (s : serviceSet) : bool := match services s with Some (_ :: _) => true | _ => false end.
(** [Registry.Watch] of a set that exists or is made: a watcher is added. *)
Definition consul_Watch (w : nat) (s : serviceSet) : serviceSet := mkSet (services s) (<[w := has_services s]> (watcher s)).
Definition watcher_Stop (w : nat) (s : serviceSet) : serviceSet := mkSet (services s) (delete w (watcher s)).
(** [Next] when an event waits, or when the watcher was stopped. *)
Definition watcher_Next (w : nat) (stopped : bool) (s : serviceSet) : option (list ServiceInstance * option error) * serviceSet :=
  if stopped then (Some (default [] (services s), Some ErrCanceled), s)
  else match watcher s !! w with
  | Some true => (Some (default [] (services s), None), mkSet (services s) (<[w := false]> (watcher s)))
  | _ => (None, s)
  end.
Definition consul_GetService (name : string) (registry : gmap string serviceSet) : result error (list ServiceInstance) :=
  match registry !! name with
  | None => Err (ErrNotResolved name)
  | Some s => match services s with None => Err (ErrNotFound name) | Some ss => Ok ss end
  end.
Definition ListServices (registry : gmap string serviceSet) : gmap string (list ServiceInstance) := omap services registry.

(** [resolve]: each answer of consul is the instances and an index, or an
    error; the first is asked for at once. *)
Definition resolve_first (a : result error (list ServiceInstance * Z)) (s : serviceSet) : Z * serviceSet :=
  match a with
  | Ok (ss, idx) => (idx, match ss with [] => s | _ => broadcast ss s end)
  | _ => (0, s)
  end.
Definition resolve_step (st : Z * serviceSet) (a : result error (list ServiceInstance * Z)) : Z * serviceSet :=
  match a with
  | Ok (ss, idx) => (idx, if negb (bool_decide (ss = [])) && negb (idx =? st.1) then broadcast ss st.2 else st.2)
  | _ => st
  end.
Definition resolve (first : result error (list ServiceInstance * Z)) (l : list (result error (list ServiceInstance * Z))) (s : serviceSet) : serviceSet :=
  (foldl resolve_step (resolve_first first s) l).2.

(** A new answer reaches every watcher, the services and what is listed. *)
Lemma new_answer_arrives st ss idx w : ss <> [] -> idx <> st.1 -> is_Some (watcher st.2 !! w) ->
  (watcher_Next w false (resolve_step st (Ok (ss, idx))).2).1 = Some (ss, None).
Proof.
  intros Hss Hidx [b Hw]. cbn. rewrite bool_decide_eq_false_2 by done. replace (idx =? st.1) with false by lia. cbn.
  unfold watcher_Next. cbn. by rewrite lookup_fmap, Hw.
Qed.

(** The last instance of a service that goes away is kept for ever: whatever
    the indexes, an answer without instances changes neither the services nor
    any watcher. *)
Theorem last_instance_stays first l s :
  Forall (fun a => match a with Ok (ss, _) => ss = [] | _ => True end) l ->
  resolve first l s = (resolve_first first s).2.
Proof.
  unfold resolve. generalize (resolve_first first s) as st. induction l as [|a l IH]; intros st; [done|].
  intros [Ha Hl]%Forall_cons. cbn. rewrite IH by done. destruct a as [[ss idx]| |]; [|done..]. cbn. by rewrite bool_decide_eq_true_2.
Qed.

(** Two endpoints of one scheme: the registration has the last of them only. *)
Example same_scheme_twice :
  consul_instance (mkEntry "1" "user" None ["version=v1"]
    (match consul_Register (fun e => Some (mkURL "grpc" e "" (fun _ => ""))) (mkInstance "1" "user" "v1" None ["a:1"; "b:2"]) true with
     | Ok r => map_to_list (r_TaggedAddresses r) | _ => [] end))
  = mkInstance "1" "user" "v1" None ["b:2"].
Proof. vm_compute. reflexivity. Qed.

(** The client's context, and the services whose goroutine still ticks. *)
Record Client : Type := mkClient { cancelled : bool; ticking : list string }.
Definition NewClient : Client := mkClient false [].
Definition client_Register (id : string) (c : Client) : Client := if cancelled c then c else mkClient false (id :: ticking c).
Definition client_Deregister (c : Client) : Client := mkClient true [].

(** One deregistration ends the ticks of all services, for good. *)
Example deregister_stops_all : ticking (client_Register "c" (client_Deregister (client_Register "b" (client_Register "a" NewClient)))) = [].
Proof. done. Qed.

(** ** The registry of nacos *)

Record nacos_options : Type := mkNacosOptions { prefix : string; weight : float64; cluster : string; group : string; kind : string }.
Definition default_nacos_options : nacos_options := mkNacosOptions "/microservices" (f_of_Z 100) "DEFAULT" "DEFAULT_GROUP" "grpc".
Definition WithPrefix (p : string) (o : nacos_options) : nacos_options := mkNacosOptions p (weight o) (cluster o) (group o) (kind o).
Definition WithWeight (w : float64) (o : nacos_options) : nacos_options := mkNacosOptions (prefix o) w (cluster o) (group o) (kind o).
Definition WithCluster (c : string) (o : nacos_options) : nacos_options := mkNacosOptions (prefix o) (weight o) c (group o) (kind o).
Definition WithGroup (g : string) (o : nacos_options) : nacos_options := mkNacosOptions (prefix o) (weight o) (cluster o) g (kind o).
Definition WithDefaultKind (k : string) (o : nacos_options) : nacos_options := mkNacosOptions (prefix o) (weight o) (cluster o) (group o) k.

Record InstanceParam : Type := mkParam {
  p_Ip : string; p_Port : Z; p_ServiceName : string; p_Weight : float64; p_Metadata : gmap string string; p_Cluster : string; p_Group : string }.

Section Nacos.
Variable Parse : string -> option URL.

(** The instance of an endpoint: its address, and the name with the scheme. *)
Definition endpoint_instance (endpoint : string) : result error (string * Z * string) :=
  match Parse endpoint with
  | None => Err ErrURL
  | Some u =>
      match SplitHostPort (Host u) with
      | None => Err ErrHostPort
      | Some (host, port) => match Atoi port with None => Err (ErrPort port) | Some p => Ok (host, p, Scheme u) end
      end
  end.
Definition instance_metadata (s : ServiceInstance) (scheme : string) : gmap string string :=
  <["version" := Version s]> (<["kind" := scheme]> (<["id" := ID s]> (default ∅ (Metadata s)))).
Definition register_param (o : nacos_options) (s : ServiceInstance) (endpoint : string) : result error InstanceParam :=
  '(host, p, scheme) ← endpoint_instance endpoint;
  Ok (mkParam host (wrapu64 p) (Name s +:+ "." +:+ scheme) (weight o) (instance_metadata s scheme) (cluster o) (group o)).

(** Endpoints are registered one after the other; an error leaves those
    before it registered. *)
Fixpoint register_endpoints (o : nacos_options) (call : InstanceParam -> option string) (s : ServiceInstance) (l : list string) :
    list InstanceParam * option error :=
  match l with
  | [] => ([], None)
  | e :: l =>
      match register_param o s e with
      | Ok p =>
          match call p with
          | None => let '(ps, r) := register_endpoints o call s l in (p :: ps, r)
          | Some x => ([], Some (ErrServer x))
          end
      | Err x => ([], Some x)
      | Panic => ([], None)
      end
  end.
Definition nacos_Register (o : nacos_options) (call : InstanceParam -> option string) (s : ServiceInstance) : list InstanceParam * option error :=
  if bool_decide (Name s = "") then ([], Some ErrEmptyName) else register_endpoints o call s (Endpoints s).
(** [Deregister] makes the same parameters, without weight and metadata. *)
Definition deregister_param (o : nacos_options) (s : ServiceInstance) (endpoint : string) : result error (string * Z * string) :=
  '(host, p, scheme) ← endpoint_instance endpoint; Ok (host, wrapu64 p, Name s +:+ "." +:+ scheme).

Lemma nacos_all_registered o s ps : nacos_Register o (fun _ => None) s = (ps, None) -> Forall (fun e => register_param o s e <> Panic) (Endpoints s) ->
  Forall2 (fun e p => register_param o s e = Ok p) (Endpoints s) ps.
Proof.
  unfold nacos_Register. case_bool_decide; [done|]. generalize (Endpoints s) as l. induction l as [|e l IH] in ps |- *; cbn.
  - intros [= <-] _. constructor.
  - destruct (register_param o s e) as [p|x|] eqn:E; cbn; [|done|].
    + destruct (register_endpoints _ _ s l) as [ps' r]. intros [= <- ->] [_ Hl]%Forall_cons. constructor; [done|by apply IH].
    + intros _ [H' _]%Forall_cons. done.
Qed.
End Nacos.

(** Instances as the client answers: the metadata are references, since the
    code deletes from the map it is given. *)
Record Instance_ : Type := mkNacos { InstanceId : string; Ip : string; n_Port : Z; ServiceName : string; n_Metadata : option positive }.
Abbreviation maps := (gmap positive (gmap string string)).
Definition nacos_instance (default_kind name : string) (h : maps) (i : Instance_) : ServiceInstance * maps :=
  let md := n_Metadata i ≫= fun l => h !! l in
  let kind := default default_kind (md ≫= fun m => m !! "kind") in
  let id := default (InstanceId i) (md ≫= fun m => m !! "id") in
  let h := match n_Metadata i with Some l => alter (delete "id") l h | None => h end in
  let md := n_Metadata i ≫= fun l => h !! l in
  (mkInstance id name (default "" (md ≫= fun m => m !! "version")) md [kind +:+ "://" +:+ Ip i +:+ ":" +:+ FormatUint (n_Port i)], h).
Fixpoint nacos_instances (default_kind : string) (name : Instance_ -> string) (h : maps) (l : list Instance_) : list ServiceInstance * maps :=
  match l with
  | [] => ([], h)
  | i :: l =>
      let '(s, h) := nacos_instance default_kind (name i) h i in
      let '(ss, h) := nacos_instances default_kind name h l in (s :: ss, h)
  end.
(** [GetService] and [watcher.Next] on what the client answers. *)
Definition nacos_GetService (o : nacos_options) (res : result string (list Instance_)) (h : maps) : result error (list ServiceInstance) * maps :=
  match res with
  | Ok l => let '(ss, h) := nacos_instances (kind o) ServiceName h l in (Ok ss, h)
  | Err e => (Err (ErrServer e), h)
  | Panic => (Panic, h)
  end.
Definition nacos_Next (kind name : string) (ended : bool) (res : result string (list Instance_)) (h : maps) : result error (list ServiceInstance) * maps :=
  if ended then (Err ErrCanceled, h) else
  match res with
  | Ok l => let '(ss, h) := nacos_instances kind (fun _ => name) h l in (Ok ss, h)
  | Err e => (Err (ErrServer e), h)
  | Panic => (Panic, h)
  end.

(** The identity of the instance is deleted from the map of the client: when
    the client answers with the same map, the second answer has another. *)
Example id_is_deleted :
  let l := [mkNacos "10.0.0.1#8080" "10.0.0.1" 8080 "user.grpc" (Some 1%positive)] in
  let h := {[1%positive := {["id" := "u-1"; "kind" := "grpc"]}]} : maps in
  let '(r1, h1) := nacos_GetService default_nacos_options (Ok l) h in
  let '(r2, _) := nacos_GetService default_nacos_options (Ok l) h1 in
  match r1, r2 with
  | Ok [a], Ok [b] => (ID a, ID b, Endpoints a) = ("u-1", "10.0.0.1#8080", ["grpc://10.0.0.1:8080"])
  | _, _ => False
  end.
Proof. vm_compute. reflexivity. Qed.

(** Without metadata in common, an answer gives the identity, the version and
    the kind that were registered. *)
Lemma nacos_identity k name h l m s scheme : h !! l = Some m -> m = instance_metadata s scheme ->
  let i := (nacos_instance k name h (mkNacos "" "127.0.0.1" 80 name (Some l))).1 in
  ID i = ID s /\ Version i = Version s /\ Endpoints i = [scheme +:+ "://127.0.0.1:80"].
Proof.
  intros Hl ->. unfold nacos_instance. cbn -[instance_metadata]. rewrite Hl. cbn -[instance_metadata].
  rewrite lookup_alter_eq, Hl. cbn -[instance_metadata]. unfold instance_metadata. by simplify_map_eq.
Qed.
End Discovery.
