(* ===== verification/Middleware.v ===== *)
(** * Middleware of gin and gRPC (pkg/gin/middleware, pkg/grpc/interceptor)

    breaker.go and ratelimit.go of gin and ratelimit.go of gRPC over the
    breaker and the limiter; the request identities (requstid.go), the bodies
    that are logged (logging.go) and the options of the retries (retry.go).
    gin's context is what is read and written of it; a handler is what it
    does: a status, a time, a panic.  Theorems: the breaker of gin counts every
    call once; a handler that panics stays in flight for ever; a request keeps
    one identity; what a logged body loses. *)

From S2P Require Import Prelude GoStr GoFloat Window Breaker Bbr.
From Stdlib Require Import Ascii SpecFloat.
From Stdlib Require String.

Module Middleware.

Definition apply {O} (opts : list (O -> O)) (o : O) : O := foldl (fun o opt => opt o) o opts.

(** ** The circuit breaker of gin *)

Definition StatusInternalServerError : Z := 500.
Definition StatusServiceUnavailable : Z := 503.
Definition StatusTooManyRequests : Z := 429.

Section CircuitBreaker.
Context `{Platform}.

Record circuitBreakerOptions : Type := mkCb { group : Group Breaker; validCodes : gset Z; degradeHandler : bool }.
Definition defaultCircuitBreakerOptions : circuitBreakerOptions :=
  mkCb (NewGroup (NewBreaker [])) {[StatusInternalServerError; StatusServiceUnavailable]} false.
Definition WithGroup (g : option (Group Breaker)) (o : circuitBreakerOptions) : circuitBreakerOptions :=
  match g with Some g => mkCb g (validCodes o) (degradeHandler o) | None => o end.
Definition WithBreakerOption (opts : list Option_) (o : circuitBreakerOptions) : circuitBreakerOptions :=
  match opts with [] => o | _ => mkCb (NewGroup (NewBreaker opts)) (validCodes o) (degradeHandler o) end.
Definition WithValidCode (codes : list Z) (o : circuitBreakerOptions) : circuitBreakerOptions :=
  mkCb (group o) (foldl (fun s c => {[c]} ∪ s) (validCodes o) codes) (degradeHandler o).
Definition WithDegradeHandler (handler : bool) (o : circuitBreakerOptions) : circuitBreakerOptions :=
  mkCb (group o) (validCodes o) handler.

(** A request: the clock, the draw of the breaker, the clock when its handlers
    returned and the status they left. *)
Record request : Type := mkRequest { started : Z; draw : float64; finished : Z; status : Z }.
(** What the client gets: an answer of the breaker or of the degrade handler,
    or the handlers ran. *)
Inductive outcome : Type := Refused (status : Z) | Degraded | Served.
#[global] Instance outcome_eq_dec : EqDecision outcome.
Proof. solve_decision. Defined.

Definition CircuitBreaker (path : string) (c : request) (o : circuitBreakerOptions) : result string (circuitBreakerOptions * outcome) :=
  '(b, g) ← Group_Get path (started c) (group o);
  '(b, err) ← Allow (started c) (draw c) b;
  match err with
  | Some _ =>
      b ← MarkFailed (started c) b;
      Ok (mkCb (Group_put path b g) (validCodes o) (degradeHandler o),
          if degradeHandler o then Degraded else Refused StatusServiceUnavailable)
  | None =>
      b ← (if bool_decide (status c ∈ validCodes o) then MarkFailed (finished c) b else MarkSuccess (finished c) b);
      Ok (mkCb (Group_put path b g) (validCodes o) (degradeHandler o), Served)
  end.

(** The requests of one path, one after the other, with their outcomes. *)
Fixpoint serve (path : string) (cs : list request) (o : circuitBreakerOptions) : result string (circuitBreakerOptions * list outcome) :=
  match cs with
  | [] => Ok (o, [])
  | c :: cs => '(o, r) ← CircuitBreaker path c o; '(o, rs) ← serve path cs o; Ok (o, r :: rs)
  end.

(** The mark of a request, by its outcome. *)
Definition mark_of (valid : gset Z) (c : request) (r : outcome) : mark :=
  match r with
  | Served => (finished c, negb (bool_decide (status c ∈ valid)))
  | _ => (started c, false)
  end.

Lemma Allow_keeps now u b b' e : Allow now u b = Ok (b', e) -> stat b' = stat b /\ k b' = k b /\ brequest b' = brequest b.
Proof.
  unfold Allow, cas. intros HA. apply bind_ok in HA as ([accepts total] & _ & HA).
  destruct (_ || _); injection HA as <- _; destruct (decide _); done.
Qed.
Lemma do_mark_stat b b' m : stat b' = stat b -> 
  match do_mark b m, do_mark b' m with
  | Ok x, Ok y => stat x = stat y
  | Err e, Err e' => e = e'
  | Panic, Panic => True
  | _, _ => False
  end.
Proof. intros E. rewrite !do_mark_add, E. by destruct (Counter_Add _ _ _). Qed.

Lemma run_marks_stat ms x y z : stat x = stat y -> run_marks ms x = Ok z -> exists z', run_marks ms y = Ok z' /\ stat z = stat z'.
Proof.
  unfold run_marks. revert x y. induction ms as [|m ms IH]; intros x y Hxy Hz; cbn in *; [injection Hz as <-; by exists y|].
  apply bind_ok in Hz as (x1 & Hx & Hz). pose proof (do_mark_stat y x m Hxy) as Hd. rewrite Hx in Hd.
  destruct (do_mark y m) as [y1| |]; [|done..]. cbn. by eapply IH.
Qed.

Lemma CircuitBreaker_marks path c o o' r b : vals (group o) !! path = Some b -> CircuitBreaker path c o = Ok (o', r) ->
  exists b1 b2, stat b1 = stat b /\ do_mark b1 (mark_of (validCodes o) c r) = Ok b2 /\
    vals (group o') !! path = Some b2 /\ validCodes o' = validCodes o.
Proof.
  unfold CircuitBreaker, Group_Get. intros -> Hc. cbn in Hc.
  apply bind_ok in Hc as ([b1 err] & HA & Hc). destruct (Allow_keeps _ _ _ _ _ HA) as (Hst & _). exists b1.
  destruct err as [e|]; apply bind_ok in Hc as (b2 & Hb & [= <- <-]); exists b2; cbn; rewrite lookup_insert_eq; (split; [done|]).
  - by destruct (degradeHandler o).
  - split; [|done]. unfold do_mark. cbn. by case_bool_decide.
Qed.

(** The breaker of gin counts each request of a path exactly once: after
    any requests its window is the one that the marks of their outcomes make,
    a failure for a refused request and for a status among the valid codes, a
    success otherwise. *)
Theorem gin_counts_every_request path cs : forall o b0 o' rs,
  vals (group o) !! path = Some b0 -> serve path cs o = Ok (o', rs) ->
  exists b b', vals (group o') !! path = Some b /\ length rs = length cs /\
    run_marks (zip_with (mark_of (validCodes o)) cs rs) b0 = Ok b' /\ stat b = stat b'.
Proof.
  induction cs as [|c cs IH]; intros o b0 o' rs Hget Hrun; cbn in Hrun.
  - injection Hrun as <- <-. by exists b0, b0.
  - apply bind_ok in Hrun as ([o1 r] & Hc & Hrun). apply bind_ok in Hrun as ([o2 rs2] & Hr & [= <- <-]).
    destruct (CircuitBreaker_marks _ _ _ _ _ _ Hget Hc) as (b1 & b2 & Hst & Hm & Hget2 & Hv).
    destruct (IH _ _ _ _ Hget2 Hr) as (b & b' & Hb & Hlen & Hms & Hs). rewrite Hv in Hms.
    pose proof (do_mark_stat b0 b1 (mark_of (validCodes o) c r) Hst) as Hd. rewrite Hm in Hd.
    destruct (do_mark b0 _) as [b3| |] eqn:E3; [|done..].
    destruct (run_marks_stat _ b2 b3 _ (eq_sym Hd) Hms) as (b4 & Hb4 & Hs4).
    exists b, b4. cbn [zip_with length]. unfold run_marks in *. cbn [foldM]. rewrite E3. cbn. rewrite Hb4.
    split; [done|]. split; [lia|]. split; [done|congruence].
Qed.
End CircuitBreaker.

Definition demo_options : circuitBreakerOptions := mkCb (mkGroup (NewBreaker []) {["/users" := demo_breaker]}) {[500; 503]} false.
Definition demo_requests : list request :=
  [mkRequest 1 f0 2 200; mkRequest 3 f0 3 500; mkRequest 4 f0 5 404; mkRequest 6 f0 6 503].

(** Two successes and two failures are in the window of the breaker. *)
Lemma gin_counts_every_request_witness :
  exists o' rs, @serve amd64 "/users" demo_requests demo_options = Ok (o', rs) /\
  exists b b', vals (group o') !! "/users" = Some b /\ length rs = 4%nat /\
    run_marks (zip_with (mark_of {[500; 503]}) demo_requests rs) demo_breaker = Ok b' /\ stat b = stat b' /\
    @summary amd64 7 b = Ok (2, 4).
Proof.
  destruct (@serve amd64 "/users" demo_requests demo_options) as [[o' rs]| |] eqn:E; [|vm_compute in E; discriminate E..].
  exists o', rs. split; [reflexivity|].
  destruct (@gin_counts_every_request amd64 "/users" demo_requests demo_options demo_breaker o' rs) as (b & b' & Hb & Hl & Hm & Hs).
  - vm_compute. reflexivity.
  - exact E.
  - exists b, b'. split; [exact Hb|]. split; [exact Hl|]. split; [exact Hm|]. split; [exact Hs|].
    vm_compute in E. injection E as <- <-. vm_compute in Hb. injection Hb as <-. vm_compute. reflexivity.
Defined.

(** ** The rate limiters of gin and gRPC *)

Record rateLimitOptions : Type := mkRl { window : Z; bucket : Z; cpuThreshold : Z; cpuQuota : float64 }.
Definition defaultRatelimitOptions : rateLimitOptions := mkRl (10 * second) 100 800 f0.
Definition WithWindow (d : Z) (o : rateLimitOptions) : rateLimitOptions := mkRl d (bucket o) (cpuThreshold o) (cpuQuota o).
Definition WithBucket (b : Z) (o : rateLimitOptions) : rateLimitOptions := mkRl (window o) b (cpuThreshold o) (cpuQuota o).
Definition WithCPUThreshold (t : Z) (o : rateLimitOptions) : rateLimitOptions := mkRl (window o) (bucket o) t (cpuQuota o).
Definition WithCPUQuota (q : float64) (o : rateLimitOptions) : rateLimitOptions := mkRl (window o) (bucket o) (cpuThreshold o) q.
(** The limiter that the middleware makes. *)
Definition limiter_of (opts : list (rateLimitOptions -> rateLimitOptions)) (now : Z) : result string BBR :=
  let o := apply opts defaultRatelimitOptions in
  NewLimiter [Bbr.WithWindow (window o); Bbr.WithBucket (bucket o); Bbr.WithCPUThreshold (cpuThreshold o); Bbr.WithCPUQuota (cpuQuota o)] now.

Section RateLimit.
Context `{Platform}.

(** The handlers of a request return at a time, or panic. *)
Inductive limited : Type := Limited (status : Z) | Ran | Panicked.
Definition RateLimit (now gCPU numCPU : Z) (returns : option Z) (l : BBR) : result string (BBR * limited) :=
  '(l, r) ← LAllow now gCPU numCPU l;
  match r with
  | inr _ => Ok (l, Limited StatusTooManyRequests)
  | inl start =>
      match returns with
      | Some t => l ← Done start t l; Ok (l, Ran)
      | None => Ok (l, Panicked)
      end
  end.
(** [UnaryServerRateLimit] and [StreamServerRateLimit]: the refusal is the
    status of the limit, otherwise the answer of the handler. *)
Definition ServerRateLimit {A E} (StatusLimitExceed : limit_error -> E) (now gCPU numCPU : Z) (returns : option (Z * (option A * option E))) (l : BBR) :
    result string (BBR * option (option A * option E)) :=
  '(l, r) ← LAllow now gCPU numCPU l;
  match r with
  | inr e => Ok (l, Some (None, Some (StatusLimitExceed e)))
  | inl start =>
      match returns with
      | Some (t, reply) => l ← Done start t l; Ok (l, Some reply)
      | None => Ok (l, None)
      end
  end.

(** Requests interleave: the limiter, the start times of the handlers that
    run, and how many handlers panicked. *)
Record served : Type := mkServed { limiter : BBR; running : list Z; panics : nat }.
Inductive sstep : served -> served -> Prop :=
  | s_admit w now gCPU numCPU l' start :
      LAllow now gCPU numCPU (limiter w) = Ok (l', inl start) -> sstep w (mkServed l' (start :: running w) (panics w))
  | s_refuse w now gCPU numCPU l' :
      LAllow now gCPU numCPU (limiter w) = Ok (l', inr ErrLimitExceed) -> sstep w (mkServed l' (running w) (panics w))
  | s_return w now l' start before after :
      running w = before ++ start :: after -> Done start now (limiter w) = Ok l' -> sstep w (mkServed l' (before ++ after) (panics w))
  | s_panic w start before after :
      running w = before ++ start :: after -> sstep w (mkServed (limiter w) (before ++ after) (S (panics w))).

(** The limiter sees the requests that panicked as if they ran. *)
Definition still_counted (w : served) : Prop := inFlight (limiter w) = wrap64 (Z.of_nat (length (running w) + panics w)).

Lemma LAllow_inFlight now g n l l' r : LAllow now g n l = Ok (l', r) ->
  inFlight l' = match r with inl _ => wrap64 (inFlight l + 1) | inr _ => inFlight l end.
Proof.
  unfold LAllow. intros HA. apply bind_ok in HA as ([d l1] & Hd & HA). apply shouldDrop_inFlight in Hd as [Hd _].
  destruct d; injection HA as <- <-; cbn; by rewrite Hd.
Qed.

Lemma sstep_counted w w' : sstep w w' -> still_counted w -> still_counted w'.
Proof.
  unfold still_counted. intros Hs. destruct Hs as [w now g n l' start HA|w now g n l' HA|w now l' start b a Hr Hd|w start b a Hr]; cbn; intros Hc.
  - rewrite (LAllow_inFlight _ _ _ _ _ _ HA), Hc, wrap64_shift. f_equal. lia.
  - by rewrite (LAllow_inFlight _ _ _ _ _ _ HA).
  - apply Done_inFlight in Hd. rewrite Hd, Hc, Hr, !length_app. cbn. rewrite <- Z.add_opp_r, wrap64_shift. f_equal. lia.
  - rewrite Hc, Hr, !length_app. cbn. f_equal. lia.
Qed.

(** C39: A handler that panics is never counted as done: whatever the
    interleaving, the requests in flight for the limiter are those whose
    handlers run and all those that ever panicked. *)
Theorem panics_stay_in_flight opts now0 l0 w :
  limiter_of opts now0 = Ok l0 -> star sstep (mkServed l0 [] 0) w -> Z.of_nat (length (running w) + panics w) < 2 ^ 63 ->
  inFlight (limiter w) = Z.of_nat (length (running w)) + Z.of_nat (panics w).
Proof.
  intros Hnew Hstar Hlt.
  assert (Hc : still_counted w).
  { eapply star_invariant; [apply sstep_counted|done|]. pose proof (new_limiter_counted _ _ _ Hnew) as H0.
    unfold counted in H0. unfold still_counted. cbn in *. exact H0. }
  rewrite Hc, wrap64_id by (unfold in_int64, int64_min, int64_max; lia). lia.
Qed.
End RateLimit.

(** Two handlers panicked, none runs: the limiter counts two requests. *)
Lemma panics_stay_in_flight_witness :
  exists l0 l1, limiter_of [] 0 = Ok l0 /\ @star served (@sstep amd64) (mkServed l0 [] 0) (mkServed l1 [] 2) /\ inFlight l1 = 2.
Proof.
  destruct (limiter_of [] 0) as [l0| |] eqn:E0; [|vm_compute in E0; discriminate E0..].
  destruct (@LAllow amd64 1 0 1 l0) as [[l1 [s1|[]]]| |] eqn:E1; try (vm_compute in E0; injection E0 as <-; vm_compute in E1; discriminate E1).
  destruct (@LAllow amd64 2 0 1 l1) as [[l2 [s2|[]]]| |] eqn:E2;
    try (vm_compute in E0; injection E0 as <-; vm_compute in E1; injection E1 as <- <-; vm_compute in E2; discriminate E2).
  exists l0, l2.
  assert (Hs : @star served (@sstep amd64) (mkServed l0 [] 0) (mkServed l2 [] 2)).
  { eapply star_step; [apply (@s_admit amd64 (mkServed l0 [] 0) 1 0 1 l1 s1 E1)|].
    eapply star_step; [apply (@s_panic amd64 (mkServed l1 [s1] 0) s1 [] [] eq_refl)|].
    eapply star_step; [apply (@s_admit amd64 (mkServed l1 [] 1) 2 0 1 l2 s2 E2)|].
    eapply star_step; [apply (@s_panic amd64 (mkServed l2 [s2] 1) s2 [] [] eq_refl)|]. apply star_refl. }
  split; [reflexivity|]. split; [exact Hs|].
  exact (@panics_stay_in_flight amd64 [] 0 l0 (mkServed l2 [] 2) E0 Hs ltac:(cbn; lia)).
Defined.

(** ** The identity of a request *)

(** The package variables. *)
Record keys : Type := mkKeys { ContextRequestIDKey : string; HeaderXRequestIDKey : string }.
Definition initial_keys : keys := mkKeys "request_id" "X-Request-Id".
Definition defaultRequestIDOptions (k : keys) : keys := k.
Definition WithContextRequestIDKey (key : string) (o : keys) : keys := if (str_len key <? 4)%nat then o else mkKeys key (HeaderXRequestIDKey o).
Definition WithHeaderRequestIDKey (key : string) (o : keys) : keys := if (str_len key <? 4)%nat then o else mkKeys (ContextRequestIDKey o) key.
Definition setRequestIDKey (o k : keys) : keys :=
  mkKeys (if bool_decide (ContextRequestIDKey o = ContextRequestIDKey k) then ContextRequestIDKey k else ContextRequestIDKey o)
         (if bool_decide (HeaderXRequestIDKey o = HeaderXRequestIDKey k) then HeaderXRequestIDKey k else HeaderXRequestIDKey o).
(** What making the middleware does to the variables. *)
Definition RequestID_keys (opts : list (keys -> keys)) (k : keys) : keys := setRequestIDKey (apply opts (defaultRequestIDOptions k)) k.

Section RequestID.
(** Header names are canonical, [Get] and [Set] of net/http use the same. *)
Variable CanonicalHeaderKey : string -> string.

Record Context : Type := mkContext { Header : gmap string string; Keys : gmap string string; Written : gmap string string }.
Definition Get (k : string) (h : gmap string string) : string := default "" (h !! CanonicalHeaderKey k).
Definition Set_ (k v : string) (h : gmap string string) : gmap string string := <[CanonicalHeaderKey k := v]> h.

(** The handler; [fresh] is the identity that krand makes. *)
Definition RequestID (k : keys) (fresh : string) (c : Context) : Context :=
  let requestID := Get (HeaderXRequestIDKey k) (Header c) in
  let '(requestID, header) := if bool_decide (requestID = "") then (fresh, Set_ (HeaderXRequestIDKey k) fresh (Header c)) else (requestID, Header c) in
  mkContext header (<[ContextRequestIDKey k := requestID]> (Keys c)) (Set_ (HeaderXRequestIDKey k) requestID (Written c)).
Definition GCtxRequestID (k : keys) (c : Context) : string := default "" (Keys c !! ContextRequestIDKey k).
Definition HeaderRequestID (k : keys) (c : Context) : string := Get (HeaderXRequestIDKey k) (Header c).

(** A context with the values that [WrapCtx] adds. *)
Definition values : Type := list (string * (string + gmap string string)).
Definition RequestHeaderKey : string := "request_header_key".
Definition WrapCtx (k : keys) (c : Context) (ctx : values) : values :=
  (RequestHeaderKey, inr (Header c)) :: (ContextRequestIDKey k, inl (GCtxRequestID k c)) :: ctx.
Definition GetFromCtx (ctx : values) (key : string) : option (string + gmap string string) := assoc ctx key.
Definition CtxRequestID (k : keys) (ctx : values) : string := match GetFromCtx ctx (ContextRequestIDKey k) with Some (inl s) => s | _ => "" end.
Definition GetFromHeader (ctx : values) (key : string) : string := match GetFromCtx ctx RequestHeaderKey with Some (inr h) => Get key h | _ => "" end.

(** One identity everywhere: the one that came in the header, or the new one. *)
Theorem one_identity k fresh c ctx : ContextRequestIDKey k <> RequestHeaderKey ->
  let c' := RequestID k fresh c in
  let id := if bool_decide (HeaderRequestID k c = "") then fresh else HeaderRequestID k c in
  GCtxRequestID k c' = id /\ HeaderRequestID k c' = id /\ Get (HeaderXRequestIDKey k) (Written c') = id /\
  CtxRequestID k (WrapCtx k c' ctx) = id /\ GetFromHeader (WrapCtx k c' ctx) (HeaderXRequestIDKey k) = id.
Proof.
  intros Hk c' id.
  assert (Hid : GCtxRequestID k c' = id /\ HeaderRequestID k c' = id /\ Get (HeaderXRequestIDKey k) (Written c') = id).
  { subst c' id. unfold RequestID, GCtxRequestID, HeaderRequestID, Get, Set_. case_bool_decide; cbn; by rewrite !lookup_insert_eq. }
  destruct Hid as (H1 & H2 & H3). split; [done|]. split; [done|]. split; [done|].
  unfold CtxRequestID, GetFromHeader, WrapCtx, GetFromCtx. cbn [assoc].
  rewrite (bool_decide_eq_false_2 (ContextRequestIDKey k = RequestHeaderKey)) by done.
  rewrite (bool_decide_eq_true_2 (ContextRequestIDKey k = ContextRequestIDKey k)) by done. done.
Qed.
End RequestID.

(** The keys are variables of the package: a second middleware with keys of
    its own changes those of the first. *)
Example keys_are_shared :
  let k := RequestID_keys [WithHeaderRequestIDKey "X-Trace"] initial_keys in
  RequestID_keys [WithHeaderRequestIDKey "X-Other"] k = mkKeys "request_id" "X-Other".
Proof. reflexivity. Qed.

(** ** Logged bodies *)

Definition contentMark : string := " ...... ".
Definition WithMaxLen (maxLen : Z) (o : Z) : result string Z := if maxLen <? Z.of_nat (str_len contentMark) then Panic else Ok maxLen.
Definition getResponseBody (body : string) (maxLen : nat) : string :=
  let l := Nat.min (str_len body) maxLen in
  if (str_len body =? 0)%nat then "" else if (l =? 0)%nat then ""
  else if (l <? maxLen)%nat then str_take (l - 1) body
  else str_take (maxLen - str_len contentMark) body +:+ contentMark.
Definition getRequestBody (body : string) (maxLen : nat) : string :=
  if (str_len body =? 0)%nat then "" else if (str_len body <? maxLen)%nat then body
  else str_take (maxLen - str_len contentMark) body +:+ contentMark.
(** The response in the log of gRPC. *)
Definition grpc_response (data : string) (maxLength : nat) : string :=
  if (maxLength <? str_len data)%nat then str_take maxLength data +:+ contentMark else data.

Lemma str_len_take n s : str_len (str_take n s) = Nat.min n (str_len s).
Proof.
  pose proof (f_equal str_len (take_drop_s n s)) as H. rewrite str_len_app, str_len_drop in H. lia.
Qed.
(** A logged body is no longer than the limit, with the mark. *)
Lemma logged_body_bounded body maxLen : (str_len contentMark <= maxLen)%nat ->
  (str_len (getResponseBody body maxLen) <= maxLen)%nat /\ (str_len (getRequestBody body maxLen) <= maxLen)%nat.
Proof.
  intros Hm. unfold getResponseBody, getRequestBody.
  assert (Hmark : (str_len (str_take (maxLen - str_len contentMark) body +:+ contentMark) <= maxLen)%nat)
    by (rewrite str_len_app, str_len_take; lia).
  split; repeat case_match; rewrite ?str_len_take; cbn [str_len]; lia || exact Hmark.
Qed.

(** The last byte of a short response is not logged; a response of exactly the
    limit is cut; gRPC logs more than its limit. *)
Example response_without_last_byte : getResponseBody "{}" 300 = "{".
Proof. reflexivity. Qed.
Example response_of_the_limit : getResponseBody "0123456789" 10 = "01 ...... ".
Proof. reflexivity. Qed.
Example grpc_logs_more : str_len (grpc_response "0123456789" 8) = 16%nat.
Proof. reflexivity. Qed.

(** ** Retries and timeouts of gRPC clients *)

Definition codes_DeadlineExceeded : Z := 4.
Record retryOptions : Type := mkRetry { times : Z; interval : Z; errCodes : list Z }.
Inductive RetryOption : Type := RTimes (n : Z) | RInterval (t : Z) | RErrCodes (codes : list Z).
Definition WithRetryTimes (n : Z) (o : retryOptions) : retryOptions := mkRetry (if 10 <? n then 10 else n) (interval o) (errCodes o).
Definition WithRetryInterval (t : Z) (o : retryOptions) : retryOptions :=
  mkRetry (times o) (if t <? millisecond then millisecond else if 10 * second <? t then 10 * second else t) (errCodes o).
(** The codes are added to the package variable when the option is made; the
    option sets what the variable is when it is applied. *)
Definition add_codes (codes defaultErrCodes : list Z) : list Z :=
  defaultErrCodes ++ filter (fun c => c ∉ [codes_Internal; codes_DeadlineExceeded; codes_Unavailable]) codes.
Definition make_option (defaultErrCodes : list Z) (p : RetryOption) : list Z :=
  match p with RErrCodes codes => add_codes codes defaultErrCodes | _ => defaultErrCodes end.
Definition apply_option (defaultErrCodes : list Z) (o : retryOptions) (p : RetryOption) : retryOptions :=
  match p with
  | RTimes n => WithRetryTimes n o
  | RInterval t => WithRetryInterval t o
  | RErrCodes _ => mkRetry (times o) (interval o) defaultErrCodes
  end.
Definition UnaryClientRetry (opts : list RetryOption) (defaultErrCodes : list Z) : retryOptions * list Z :=
  let defaultErrCodes := foldl make_option defaultErrCodes opts in
  (foldl (apply_option defaultErrCodes) (mkRetry 2 (100 * millisecond) defaultErrCodes) opts, defaultErrCodes).

Lemma retry_bounds opts d : Forall (fun p => match p with RTimes n => 0 <= n | _ => True end) opts ->
  let o := (UnaryClientRetry opts d).1 in 0 <= times o <= 10 /\ millisecond <= interval o <= 10 * second.
Proof.
  intros Ho. cbn. generalize (foldl make_option d opts) as d'. intros d'.
  assert (H0 : 0 <= times (mkRetry 2 (100 * millisecond) d') <= 10 /\ millisecond <= interval (mkRetry 2 (100 * millisecond) d') <= 10 * second)
    by (cbn; unfold second, millisecond; lia).
  revert H0. generalize (mkRetry 2 (100 * millisecond) d') as o. induction Ho as [|p opts Hp Ho IH]; intros o H0; [done|]. cbn. apply IH.
  destruct p as [n|t|codes]; cbn; [| |done].
  - case_match; lia.
  - unfold second, millisecond in *. repeat case_match; lia.
Qed.

(** Retries on Unavailable cannot be asked for, and what one client asks for
    holds for the clients made later. *)
Example unavailable_is_ignored : errCodes (UnaryClientRetry [RErrCodes [codes_Unavailable]] [codes_Internal]).1 = [codes_Internal].
Proof. reflexivity. Qed.
Example codes_are_shared :
  let '(_, d) := UnaryClientRetry [RErrCodes [8]] [codes_Internal] in errCodes (UnaryClientRetry [] d).1 = [codes_Internal; 8].
Proof. reflexivity. Qed.

Definition UnaryClientTimeout (d : Z) : Z := if d <? millisecond then 10 * second else d.
(** The timeout of gin: none below a millisecond. *)
Definition Timeout (d : Z) : option Z := if d <? millisecond then None else Some d.
End Middleware.
