(* ===== verification/IdCode.v ===== *)
(** * Codes and random texts (pkg/id, pkg/rid, pkg/krand)

    code.go and options.go: the code of a number, by digits, diffusion and a
    permutation, with bytes that wrap around; rid.go: the identifiers of
    resources; krand.go: random texts and numbers, over the draws of
    math/rand.  Theorems: codes are unique for the numbers below the size of
    the alphabet to the length, while nothing overflows, and repeat after
    that; lengths, alphabets and ranges of what is drawn. *)

From S2P Require Import Prelude GoStr GoFloat.
From Stdlib Require Import Ascii Znumtheory Zpow_facts.
From Stdlib Require String.

Module IdCode.

(** ** Codes *)

Record CodeOptions : Type := mkOptions { chars : list ascii; n1 : Z; n2 : Z; l : Z; salt : Z }.
Definition runes (s : string) : list ascii := String.list_ascii_of_string s.
Definition getCodeOptionsOrSetDefault : CodeOptions := mkOptions (runes "23456789ABCDEFGHJKLMNPQRSTVWXY") 17 5 8 123567369.
Definition WithCodeChars (arr : list ascii) (o : CodeOptions) : CodeOptions :=
  match arr with [] => o | _ => mkOptions arr (n1 o) (n2 o) (l o) (salt o) end.
Definition WithCodeN1 (n : Z) (o : CodeOptions) : CodeOptions := mkOptions (chars o) n (n2 o) (l o) (salt o).
Definition WithCodeN2 (n : Z) (o : CodeOptions) : CodeOptions := mkOptions (chars o) (n1 o) n (l o) (salt o).
Definition WithCodeL (n : Z) (o : CodeOptions) : CodeOptions := if 0 <? n then mkOptions (chars o) (n1 o) (n2 o) n (salt o) else o.
Definition WithCodeSalt (s : Z) (o : CodeOptions) : CodeOptions := if 0 <? s then mkOptions (chars o) (n1 o) (n2 o) (l o) s else o.

(** [id % charLen] and [id /= charLen], [k] times. *)
Fixpoint code_digits (n : Z) (k : nat) (id : Z) : list Z :=
  match k with O => [] | S k => id mod n :: code_digits n k (id / n) end.

(** A byte of [slIdx]: the arithmetic is that of bytes. *)
Definition slot (n s0 : Z) (i : nat) (d : Z) : Z := wrap8 (wrap8 d + wrap8 (wrap8 (Z.of_nat i) * s0)) mod wrap8 n.
Definition diffusion (n : Z) (ds : list Z) : list Z :=
  match ds with [] => [] | d0 :: _ => imap (slot n (wrap8 d0 mod wrap8 n)) ds end.
Definition box (l n2 : Z) (i : nat) : Z := wrap8 (wrap8 (Z.of_nat i) * wrap8 n2) mod wrap8 l.
Definition pick (o : CodeOptions) (slIdx : list Z) (i : nat) : result string ascii :=
  s ← at_index slIdx (box (l o) (n2 o) i); at_index (chars o) s.

Definition NewCode (id : Z) (options : list (CodeOptions -> CodeOptions)) : result string (list ascii) :=
  let ops := foldl (fun o f => f o) getCodeOptionsOrSetDefault options in
  let id := wrapu64 (wrapu64 (id * wrapu64 (n1 ops)) + salt ops) in
  let charLen := Z.of_nat (length (chars ops)) in
  if bool_decide (wrap8 charLen = 0) || bool_decide (wrap8 (l ops) = 0) then Panic
  else traverse (pick ops (diffusion charLen (code_digits charLen (Z.to_nat (l ops)) id))) (seq 0 (Z.to_nat (l ops))).

(** ** Codes are unique *)

Lemma digits_length n k id : length (code_digits n k id) = k.
Proof. revert id. induction k as [|k IH]; intros id; [done|]. cbn. by rewrite IH. Qed.
Lemma digits_bound n k id : 0 < n -> Forall (fun d => 0 <= d < n) (code_digits n k id).
Proof. intros Hn. revert id. induction k as [|k IH]; intros id; [constructor|]. constructor; [by apply Z.mod_pos_bound|apply IH]. Qed.
Lemma digits_inj n k id id' : 0 < n -> code_digits n k id = code_digits n k id' -> id mod n ^ Z.of_nat k = id' mod n ^ Z.of_nat k.
Proof.
  intros Hn. revert id id'. induction k as [|k IH]; intros id id'; [intros _; by rewrite !Z.mod_1_r|].
  cbn [code_digits]. intros [= H0 Hk]. apply IH in Hk. rewrite Nat2Z.inj_succ, Z.pow_succ_r by lia.
  rewrite !Z.rem_mul_r by (try apply Z.pow_nonzero; lia). by rewrite H0, Hk.
Qed.
Lemma digits_mod n k id : 0 < n -> code_digits n k (id mod n ^ Z.of_nat k) = code_digits n k id.
Proof.
  intros Hn. revert id. induction k as [|k IH]; intros id; [done|]. cbn [code_digits].
  rewrite Nat2Z.inj_succ, Z.pow_succ_r by lia. rewrite Z.rem_mul_r by (try apply Z.pow_nonzero; lia). f_equal.
  - rewrite Z.mul_comm, Z.mod_add, Z.mod_mod by lia. done.
  - rewrite Z.mul_comm, Z.div_add by lia. rewrite Z.mod_div by lia. by rewrite Z.add_0_l, IH.
Qed.

(** What the options have to satisfy: an alphabet without repetitions, factors
    prime to it and to the length, and bytes that do not wrap. *)
Record good (o : CodeOptions) : Prop := {
  good_chars : NoDup (chars o);
  good_n1 : 0 <= n1 o < 2 ^ 64; good_n2 : 0 <= n2 o; good_l : 0 < l o; good_salt : 0 <= salt o < 2 ^ 64;
  good_size : l o * (Z.of_nat (length (chars o)) - 1) < 256; good_len : 0 < Z.of_nat (length (chars o)) < 256;
  good_box : (l o - 1) * n2 o < 256; good_n2' : n2 o < 256; good_l' : l o < 256;
  good_prime1 : Z.gcd (Z.of_nat (length (chars o))) (n1 o) = 1;
  good_prime2 : Z.gcd (l o) (n2 o) = 1 }.

Lemma box_exact o i : good o -> 0 <= Z.of_nat i < l o -> box (l o) (n2 o) i = (Z.of_nat i * n2 o) mod l o.
Proof.
  intros [] Hi. unfold box, wrap8. change (2 ^ 8) with 256. rewrite (Z.mod_small (n2 o)), (Z.mod_small (l o)), (Z.mod_small (Z.of_nat i)) by lia.
  rewrite (Z.mod_small (Z.of_nat i * n2 o)); [done|]. nia.
Qed.
Lemma slot_exact o s0 i d : good o -> 0 <= Z.of_nat i < l o ->
  let n := Z.of_nat (length (chars o)) in 0 <= d < n -> 0 <= s0 < n -> slot n s0 i d = (d + Z.of_nat i * s0) mod n.
Proof.
  intros [] Hi n Hd Hs. unfold slot, wrap8. change (2 ^ 8) with 256. subst n.
  rewrite (Z.mod_small d), (Z.mod_small (Z.of_nat i)), (Z.mod_small (Z.of_nat (length (chars o)))) by lia.
  rewrite (Z.mod_small (Z.of_nat i * s0)) by nia. rewrite (Z.mod_small (d + Z.of_nat i * s0)) by nia. done.
Qed.

(** The box reaches every position. *)
Lemma box_onto o j : good o -> 0 <= j < l o -> exists i, (i < Z.to_nat (l o))%nat /\ box (l o) (n2 o) i = j.
Proof.
  intros Hg Hj. pose proof Hg as [].
  destruct (Z.gcd_bezout (l o) (n2 o) 1 (good_prime2 _ Hg)) as (u & v & Huv).
  pose proof (Z.mod_pos_bound (j * v) (l o) ltac:(lia)) as Hb.
  exists (Z.to_nat ((j * v) mod l o)). split; [lia|]. rewrite box_exact by (done || lia). rewrite Z2Nat.id by lia.
  rewrite Zmult_mod_idemp_l. replace (j * v * n2 o) with (j + (- (j * u)) * l o) by nia.
  rewrite Z.mod_add by lia. by apply Z.mod_small.
Qed.

Definition configured (options : list (CodeOptions -> CodeOptions)) : CodeOptions := foldl (fun o f => f o) getCodeOptionsOrSetDefault options.
Definition enlarged (o : CodeOptions) (id : Z) : Z := wrapu64 (wrapu64 (id * wrapu64 (n1 o)) + salt o).
Definition slots (o : CodeOptions) (x : Z) : list Z :=
  let n := Z.of_nat (length (chars o)) in diffusion n (code_digits n (Z.to_nat (l o)) x).

Lemma NewCode_good id options : good (configured options) ->
  NewCode id options = traverse (pick (configured options) (slots (configured options) (enlarged (configured options) id))) (seq 0 (Z.to_nat (l (configured options)))).
Proof.
  intros Hg. pose proof Hg as []. unfold NewCode. change (foldl (fun o f => f o) getCodeOptionsOrSetDefault options) with (configured options).
  unfold wrap8. change (2 ^ 8) with 256. rewrite !Z.mod_small by lia. rewrite !bool_decide_eq_false_2 by lia. done.
Qed.

Lemma slots_length o x : length (slots o x) = Z.to_nat (l o).
Proof.
  unfold slots, diffusion. destruct (code_digits _ _ x) as [|d ds] eqn:E.
  - by rewrite <- (digits_length (Z.of_nat (length (chars o))) (Z.to_nat (l o)) x), E.
  - rewrite length_imap, <- E. apply digits_length.
Qed.

Lemma slots_lookup o x i s : good o -> slots o x !! i = Some s ->
  let n := Z.of_nat (length (chars o)) in
  exists d, code_digits n (Z.to_nat (l o)) x !! i = Some d /\ s = (d + Z.of_nat i * (x mod n)) mod n.
Proof.
  intros Hg Hs n. pose proof Hg as []. pose proof (digits_bound n (Z.to_nat (l o)) x ltac:(lia)) as Hb.
  pose proof (lookup_lt_Some _ _ _ Hs) as Hi. rewrite slots_length in Hi.
  unfold slots, diffusion in Hs. fold n in Hs. destruct (Z.to_nat (l o)) as [|k] eqn:Ek; [lia|]. cbn [code_digits] in *.
  rewrite list_lookup_imap in Hs. apply fmap_Some in Hs as (d & Hd & ->). exists d. split; [done|].
  assert (Hx : wrap8 (x mod n) mod wrap8 n = x mod n).
  { pose proof (Z.mod_pos_bound x n ltac:(lia)). unfold wrap8. change (2 ^ 8) with 256. rewrite !(Z.mod_small _ 256) by lia. by apply Z.mod_small. }
  rewrite Hx. apply slot_exact; [done|lia| |].
  - by eapply (Forall_lookup_1 _ _ _ _ Hb).
  - apply Z.mod_pos_bound. lia.
Qed.

Lemma mod_add_inj d d' c n : 0 <= d < n -> 0 <= d' < n -> (d + c) mod n = (d' + c) mod n -> d = d'.
Proof.
  intros Hd Hd' H. rewrite <- (Z.mod_small d n), <- (Z.mod_small d' n) by done.
  replace d with (d + c - c) by lia. replace d' with (d' + c - c) by lia. by rewrite Zminus_mod, H, <- Zminus_mod.
Qed.

(** The slots give the digits back. *)
Lemma slots_inj o x x' : good o -> slots o x = slots o x' -> 
  code_digits (Z.of_nat (length (chars o))) (Z.to_nat (l o)) x = code_digits (Z.of_nat (length (chars o))) (Z.to_nat (l o)) x'.
Proof.
  intros Hg He. pose proof Hg as []. set (n := Z.of_nat (length (chars o))) in *.
  assert (Hat : forall i, (i < Z.to_nat (l o))%nat -> exists d d', code_digits n (Z.to_nat (l o)) x !! i = Some d /\
    code_digits n (Z.to_nat (l o)) x' !! i = Some d' /\ (d + Z.of_nat i * (x mod n)) mod n = (d' + Z.of_nat i * (x' mod n)) mod n).
  { intros i Hi. destruct (lookup_lt_is_Some_2 (slots o x) i) as [s Hs]; [by rewrite slots_length|].
    destruct (slots_lookup _ _ _ _ Hg Hs) as (d & Hd & ->). rewrite He in Hs.
    destruct (slots_lookup _ _ _ _ Hg Hs) as (d' & Hd' & E). exists d, d'. done. }
  assert (Hx : x mod n = x' mod n).
  { destruct (Hat 0%nat ltac:(lia)) as (d & d' & Hd & Hd' & E). destruct (Z.to_nat (l o)); [done|]. cbn in Hd, Hd'.
    injection Hd as <-. injection Hd' as <-. by rewrite !Z.add_0_r, !Z.mod_mod in E by lia. }
  apply list_eq_same_length with (Z.to_nat (l o)); [apply digits_length|by rewrite !digits_length|].
  intros i d d' Hi Hd Hd'. destruct (Hat i Hi) as (e & e' & He1 & He2 & E).
  rewrite Hd in He1. rewrite Hd' in He2. injection He1 as <-. injection He2 as <-. rewrite Hx in E.
  eapply mod_add_inj; [| |exact E]; eapply (Forall_lookup_1 _ _ _ _ (digits_bound n _ _ ltac:(lia))); done.
Qed.

Lemma pick_ok o sl i c : pick o sl i = Ok c -> exists s, 0 <= box (l o) (n2 o) i /\ sl !! Z.to_nat (box (l o) (n2 o) i) = Some s /\
  0 <= s /\ chars o !! Z.to_nat s = Some c.
Proof.
  unfold pick. intros H. apply bind_ok in H as (s & Hs%at_index_inv & Hc%at_index_inv). exists s. tauto.
Qed.

(** The same code has the same slots. *)
Lemma codes_slots o x x' code : good o ->
  traverse (pick o (slots o x)) (seq 0 (Z.to_nat (l o))) = Ok code -> traverse (pick o (slots o x')) (seq 0 (Z.to_nat (l o))) = Ok code ->
  slots o x = slots o x'.
Proof.
  intros Hg H1%traverse_ok H2%traverse_ok. pose proof Hg as []. 
  apply list_eq_same_length with (Z.to_nat (l o)); [apply slots_length|by rewrite !slots_length|].
  intros j s s' Hj Hs Hs'. destruct (box_onto o (Z.of_nat j) Hg ltac:(lia)) as (i & Hi & Hb).
  assert (Hseq : seq 0 (Z.to_nat (l o)) !! i = Some i) by (by apply lookup_seq; lia).
  destruct (Forall2_lookup_l _ _ _ _ _ H1 Hseq) as (c & Hc & (t & _ & Ht & Ht0 & Htc)%pick_ok).
  destruct (Forall2_lookup_l _ _ _ _ _ H2 Hseq) as (c' & Hc' & (t' & _ & Ht' & Ht0' & Htc')%pick_ok).
  rewrite Hb, Nat2Z.id in Ht, Ht'. rewrite Hs in Ht. rewrite Hs' in Ht'. injection Ht as <-. injection Ht' as <-.
  rewrite Hc in Hc'. injection Hc' as <-. apply Z2Nat.inj; [done..|]. by eapply (NoDup_lookup (chars o)).
Qed.

Lemma pick_total o x i : good o -> (i < Z.to_nat (l o))%nat -> exists c, pick o (slots o x) i = Ok c /\ c ∈ chars o.
Proof.
  intros Hg Hi. pose proof Hg as [].
  assert (Hbox : 0 <= box (l o) (n2 o) i < l o) by (rewrite box_exact by (done || lia); apply Z.mod_pos_bound; lia).
  destruct (lookup_lt_is_Some_2 (slots o x) (Z.to_nat (box (l o) (n2 o) i))) as [s Hs]; [rewrite slots_length; lia|].
  destruct (slots_lookup _ _ _ _ Hg Hs) as (d & _ & Heq). pose proof (Z.mod_pos_bound (d + Z.of_nat (Z.to_nat (box (l o) (n2 o) i)) * (x mod Z.of_nat (length (chars o)))) (Z.of_nat (length (chars o))) ltac:(lia)) as Hb.
  rewrite <- Heq in Hb. destruct (lookup_lt_is_Some_2 (chars o) (Z.to_nat s)) as [c Hc]; [lia|]. exists c. split; [|by eapply list_elem_of_lookup_2].
  unfold pick. rewrite <- (Z2Nat.id (box (l o) (n2 o) i)) by lia. rewrite (at_index_lookup _ _ _ Hs). cbn.
  rewrite <- (Z2Nat.id s) by lia. by apply at_index_lookup.
Qed.

Lemma code_total o x : good o -> exists code, traverse (pick o (slots o x)) (seq 0 (Z.to_nat (l o))) = Ok code /\
  Z.of_nat (length code) = l o /\ Forall (fun c => c ∈ chars o) code.
Proof.
  intros Hg. pose proof Hg as [].
  assert (H : forall ks, Forall (fun i => (i < Z.to_nat (l o))%nat) ks -> exists code, traverse (pick o (slots o x)) ks = Ok code /\
    length code = length ks /\ Forall (fun c => c ∈ chars o) code).
  { induction ks as [|i ks IH]; [by exists []|]. intros [Hi Hks]%Forall_cons. destruct (IH Hks) as (code & Hc & Hl & Hall).
    destruct (pick_total o x i Hg Hi) as (c & Hp & Hin). exists (c :: code). cbn. rewrite Hp. cbn. rewrite Hc. cbn.
    split; [done|]. split; [by rewrite Hl|by constructor]. }
  destruct (H (seq 0 (Z.to_nat (l o)))) as (code & Hc & Hl & Hall).
  - apply Forall_forall. intros i Hi%elem_of_seq. lia.
  - exists code. rewrite Hl, length_seq. split; [done|]. split; [lia|done].
Qed.

Definition size (o : CodeOptions) : Z := Z.of_nat (length (chars o)) ^ l o.
(** Nothing overflows. *)
Definition fits (o : CodeOptions) (id : Z) : Prop := 0 <= id /\ id * n1 o + salt o < 2 ^ 64.

Lemma enlarged_exact o id : good o -> fits o id -> enlarged o id = id * n1 o + salt o.
Proof. intros [] [Hid Hf]. unfold enlarged. rewrite (wrapu64_id (n1 o)), (wrapu64_id (id * n1 o)) by nia. apply wrapu64_id. nia. Qed.

Lemma size_prime o : good o -> Z.gcd (size o) (n1 o) = 1.
Proof.
  intros []. unfold size. apply Zgcd_1_rel_prime. apply rel_prime_sym, rel_prime_Zpower_r; [lia|]. apply rel_prime_sym. by apply Zgcd_1_rel_prime.
Qed.

Lemma enlarged_inj o id id' : good o -> fits o id -> fits o id' -> id < size o -> id' < size o ->
  enlarged o id mod size o = enlarged o id' mod size o -> id = id'.
Proof.
  intros Hg Hf Hf' Hid Hid' He. rewrite !enlarged_exact in He by done. pose proof (size_prime o Hg) as Hp.
  assert (Hpos : 0 < size o) by (destruct Hf; lia).
  assert (Hdiv : (size o | n1 o * (id - id'))).
  { apply Z.mod_divide; [lia|]. replace (n1 o * (id - id')) with ((id * n1 o + salt o) - (id' * n1 o + salt o)) by lia.
    rewrite Zminus_mod, He, Z.sub_diag. by apply Z.mod_0_l; lia. }
  apply Z.gauss in Hdiv; [|done]. destruct Hdiv as [q Hq]. destruct Hf, Hf'. assert (q = 0) by nia. nia.
Qed.

(** C40: With an alphabet without repetitions and factors prime to its size
    and to the length, the numbers below the size to the power of the length
    all have a code, of that length and alphabet, and different numbers have
    different codes, as long as the enlarged number fits 64 bits. *)
Theorem codes_unique options id id' :
  let o := configured options in
  good o -> fits o id -> fits o id' -> id < size o -> id' < size o ->
  exists code code', NewCode id options = Ok code /\ NewCode id' options = Ok code' /\
    Z.of_nat (length code) = l o /\ Forall (fun c => c ∈ chars o) code /\ (code = code' <-> id = id').
Proof.
  intros o Hg Hf Hf' Hid Hid'. rewrite !NewCode_good by done. fold o.
  destruct (code_total o (enlarged o id) Hg) as (code & Hc & Hl & Hall). destruct (code_total o (enlarged o id') Hg) as (code' & Hc' & _ & _).
  exists code, code'. split; [done|]. split; [done|]. split; [done|]. split; [done|]. split; [|intros <-; congruence].
  intros <-. apply (enlarged_inj o); [done..|].
  pose proof Hg as []. pose proof (codes_slots _ _ _ _ Hg Hc Hc') as Hs. apply slots_inj in Hs; [|done]. apply digits_inj in Hs; [|lia].
  by rewrite Z2Nat.id in Hs by lia.
Qed.

(** Beyond, codes repeat. *)
Lemma codes_repeat options id : let o := configured options in good o -> fits o id -> fits o (id + size o) ->
  NewCode (id + size o) options = NewCode id options.
Proof.
  intros o Hg Hf Hf'. rewrite !NewCode_good by done. fold o. rewrite !enlarged_exact by done. pose proof Hg as [].
  assert (Hd : forall x, slots o (x mod size o) = slots o x).
  { intros x. unfold slots, size. rewrite <- (Z2Nat.id (l o)) at 2 by lia. by rewrite digits_mod by lia. }
  rewrite <- (Hd ((id + size o) * n1 o + salt o)), <- (Hd (id * n1 o + salt o)).
  assert (0 < size o) by (unfold size; apply Z.pow_pos_nonneg; lia).
  replace ((id + size o) * n1 o + salt o) with (id * n1 o + salt o + n1 o * size o) by lia. by rewrite Z.mod_add by lia.
Qed.

Lemma default_good : good (configured []).
Proof. constructor; try (vm_compute; (done || congruence)). apply (bool_decide_unpack _). vm_compute. done. Qed.

Lemma codes_unique_witness :
  (exists code code', NewCode 1 [] = Ok code /\ NewCode 2 [] = Ok code' /\ code <> code') /\
  String.string_of_list_ascii (match NewCode 1 [] with Ok c => c | _ => [] end) = "VHB4JX86".
Proof.
  split; [|vm_compute; reflexivity].
  destruct (codes_unique [] 1 2 default_good) as (code & code' & H1 & H2 & _ & _ & H3); [split; vm_compute; congruence..|vm_compute; reflexivity|vm_compute; reflexivity|].
  exists code, code'. split; [exact H1|]. split; [exact H2|]. intros E. apply H3 in E. discriminate E.
Defined.

(** With a length of eight and an alphabet of thirty-six the bytes of the
    diffusion wrap around: two numbers have one code. *)
Example codes_collide :
  let options := [WithCodeChars (runes "abcdefghijklmnopqrstuvwxyz1234567890"); WithCodeN1 1; WithCodeSalt 1] in
  NewCode (34 + 11 * 36 ^ 7) options = NewCode (34 + 7 * 36 ^ 7) options /\ is_ok (NewCode (34 + 11 * 36 ^ 7) options) = true.
Proof. vm_compute. done. Qed.

(** ** Identifiers of resources *)

Definition defaultCharset : string := "abcdefghijklmnopqrstuvwxyz1234567890".
Definition rid_options (Salt : Z) : list (CodeOptions -> CodeOptions) := [WithCodeChars (runes defaultCharset); WithCodeL 6; WithCodeSalt Salt].
Definition ResourceID_New (rid : string) (Salt counter : Z) : result string string :=
  uniqueStr ← NewCode counter (rid_options Salt); Ok (rid +:+ "-" +:+ String.string_of_list_ascii uniqueStr).

Lemma rid_good Salt : 0 <= Salt < 2 ^ 64 -> good (configured (rid_options Salt)).
Proof.
  intros Hs.
  assert (Ho : exists sa, 0 <= sa < 2 ^ 64 /\ configured (rid_options Salt) = mkOptions (runes defaultCharset) 17 5 6 sa).
  { unfold configured, rid_options. cbn [foldl]. unfold WithCodeSalt. destruct (0 <? Salt); [by exists Salt|]. by exists 123567369. }
  destruct Ho as (sa & Hsa & ->).
  constructor; cbn [chars n1 n2 l salt]; [|lia..|exact Hsa| | | | | | |]; try (vm_compute; split; congruence || reflexivity).
  apply (bool_decide_unpack _). vm_compute. done.
Qed.

(** Counters below 36^6 have different identifiers, on a machine whose salt
    leaves room for them. *)
Lemma resource_ids_unique rid Salt c c' r : 0 < Salt -> Salt + 17 * 36 ^ 6 < 2 ^ 64 -> 0 <= c < 36 ^ 6 -> 0 <= c' < 36 ^ 6 ->
  ResourceID_New rid Salt c = Ok r -> ResourceID_New rid Salt c' = Ok r -> c = c'.
Proof.
  intros Hs Hroom Hc Hc'. unfold ResourceID_New.
  assert (Hn1 : n1 (configured (rid_options Salt)) = 17 /\ salt (configured (rid_options Salt)) = Salt /\ size (configured (rid_options Salt)) = 36 ^ 6).
  { unfold configured, rid_options, size. cbn [foldl]. unfold WithCodeSalt. replace (0 <? Salt) with true by lia. done. }
  destruct Hn1 as (Hn1 & Hsalt & Hsize). pose proof (rid_good Salt ltac:(lia)) as Hg.
  rewrite !NewCode_good by done. set (o := configured (rid_options Salt)) in *.
  destruct (code_total o (enlarged o c) Hg) as (code & E1 & _). destruct (code_total o (enlarged o c') Hg) as (code' & E2 & _).
  rewrite E1, E2. cbn. intros [= <-] [= E]. apply (f_equal (str_drop (str_len (rid +:+ "-")))) in E.
  rewrite <- !(app_assoc_s rid "-"), !drop_app in E. apply (f_equal String.list_ascii_of_string) in E. rewrite !String.list_ascii_of_string_of_list_ascii in E. subst code'.
  apply (enlarged_inj o); [done|unfold fits; rewrite Hn1, Hsalt; lia|unfold fits; rewrite Hn1, Hsalt; lia|rewrite Hsize; lia|rewrite Hsize; lia|].
  pose proof Hg as []. pose proof (codes_slots _ _ _ _ Hg E1 E2) as Hsl. apply slots_inj in Hsl; [|done]. apply digits_inj in Hsl; [|lia].
  by rewrite Z2Nat.id in Hsl by lia.
Qed.

(** ** Sonyflake *)

(** [NewSonyflake]: the library gives a generator or nil; the first identifier
    is asked for in both cases, which for nil is a dereference. *)
Definition NewSonyflake {G} (ins : option G) (NextID : G -> option Z) : result string (G * option string) :=
  match ins with
  | None => Panic
  | Some g => Ok (g, match NextID g with Some _ => None | None => Some "invalid start time" end)
  end.
(** [Id]: zero after an error of the constructor; otherwise the answers of the
    library until one is an identifier, with the milliseconds slept. *)
Fixpoint Id_from (sleep : Z) (answers : list (option Z)) : option Z * list Z :=
  match answers with
  | [] => (None, [])
  | Some id :: _ => (Some id, [sleep])
  | None :: answers => let '(r, slept) := Id_from (wrap64 (sleep * 2)) answers in (r, sleep :: slept)
  end.
Definition Sonyflake_Id (error : bool) (answers : list (option Z)) : option Z * list Z :=
  if error then (Some 0, []) else
  match answers with
  | [] => (None, [])
  | Some id :: _ => (Some id, [])
  | None :: answers => Id_from 1 answers
  end.
Example nil_generator_panics : NewSonyflake (G := unit) None (fun _ => Some 1) = Panic.
Proof. reflexivity. Qed.
Example sonyflake_waits : Sonyflake_Id false [None; None; None; Some 9] = (Some 9, [1; 2; 4]).
Proof. reflexivity. Qed.

(** ** Random texts and numbers *)

Definition R_NUM : Z := 1.
Definition R_UPPER : Z := 2.
Definition R_LOWER : Z := 4.
Definition R_All : Z := 7.
Definition refSlices : list ascii := runes "0123456789ABCDEFGHIJKLMNOPQRSTUVWXYZabcdefghijklmnopqrstuvwxyz0123456789".
Definition slice (i j : nat) : list ascii := take (j - i) (drop i refSlices).
Definition kinds : list (list ascii) := [slice 0 10; slice 10 36; slice 0 36; slice 36 62; slice 36 72; slice 10 62; slice 0 62].

Section Rand.
(** The draws of math/rand, by their number; a draw below a bound that is not
    positive is a panic. *)
Variable draw : nat -> Z -> Z.
Hypothesis draw_range : forall i n, 0 < n -> 0 <= draw i n < n.
Definition Intn (i : nat) (n : Z) : result string Z := if 0 <? n then Ok (draw i n) else Panic.

Definition Bytes (kind : Z) (bytesLen : list Z) : result string (list ascii) :=
  let kind := if (7 <? kind) || (kind <? 1) then R_All else kind in
  let length_ := match bytesLen with [] => 6 | n :: _ => if n <? 1 then 6 else n end in
  k ← at_index kinds (kind - 1);
  traverse (fun i => j ← Intn i (Z.of_nat (length k)); at_index k j) (seq 0 (Z.to_nat length_)).
Definition krand_String (kind : Z) (size : list Z) : result string string := String.string_of_list_ascii <$> Bytes kind size.

Definition Int_ (rangeSize : list Z) : result string Z :=
  match rangeSize with
  | [] => Intn 0 101
  | [n] => Intn 0 (wrap64 (n + 1))
  | a :: b :: _ =>
      let '(a, b) := if b <? a then (b, a) else (a, b) in
      r ← Intn 0 (wrap64 (wrap64 (b - a) + 1)); Ok (wrap64 (r + a))
  end.

Definition dpmax (dpLength : nat) : Z := Nat.iter dpLength (fun d => wrap64 (d * 10)) 1.
Definition Float64_ (dpLength : Z) (rangeSize : list Z) : result string float64 :=
  dp ← (if 0 <? dpLength then let m := dpmax (Z.to_nat dpLength) in r ← Intn 0 m; Ok (fdiv (f_of_Z r) (f_of_Z m)) else Ok f0);
  match rangeSize with
  | [] => r ← Intn 1 100; Ok (fadd (f_of_Z r) dp)
  | [n] => r ← Intn 1 n; Ok (fadd (f_of_Z r) dp)
  | a :: b :: _ =>
      let '(a, b) := if b <? a then (b, a) else (a, b) in
      r ← Intn 1 (wrap64 (b - a)); Ok (fadd (f_of_Z (wrap64 (r + a))) dp)
  end.

(** The time in milliseconds; the text of the time is given with its dot. *)
Definition NewID (unixMilli : Z) : Z := wrap64 (wrap64 (unixMilli * 1000000) + draw 0 1000000).
Definition NewSeriesID (date micro : string) : string :=
  let random := draw 0 1000000 in
  date +:+ micro +:+ String.string_of_list_ascii
    ((fun d => digit_char (Z.quot random d mod 10)) <$> [100000; 10000; 1000; 100; 10; 1]).

Lemma kinds_lookup kind : 1 <= kind <= 7 -> exists k, at_index (E := string) kinds (kind - 1) = Ok k /\ k <> [] /\ Forall (fun c => c ∈ refSlices) k.
Proof.
  intros H. assert (Hall : forallb (fun z => match at_index (E := string) kinds (z - 1) with
    | Ok k => negb (bool_decide (k = [])) && forallb (fun c => bool_decide (c ∈ refSlices)) k | _ => false end) [1; 2; 3; 4; 5; 6; 7] = true) by (vm_compute; reflexivity).
  rewrite forallb_forall in Hall. specialize (Hall kind). destruct (at_index kinds (kind - 1)) as [k| |].
  - exists k. split; [done|]. assert (Hk : In kind [1; 2; 3; 4; 5; 6; 7]) by (cbn; lia). apply Hall in Hk. apply andb_true_iff in Hk as [Hne Hk].
    split; [by apply negb_true_iff, bool_decide_eq_false_1 in Hne|]. apply Forall_forall. intros c Hc.
    rewrite forallb_forall in Hk. apply list_elem_of_In, Hk, bool_decide_eq_true_1 in Hc. done.
  - assert (Hk : In kind [1; 2; 3; 4; 5; 6; 7]) by (cbn; lia). by apply Hall in Hk.
  - assert (Hk : In kind [1; 2; 3; 4; 5; 6; 7]) by (cbn; lia). by apply Hall in Hk.
Qed.

(** A random text always exists and has the length asked for, or six. *)
Theorem random_text kind size : exists t, Bytes kind size = Ok t /\
  Z.of_nat (length t) = (match size with [] => 6 | n :: _ => if n <? 1 then 6 else n end) /\ Forall (fun c => c ∈ refSlices) t.
Proof.
  unfold Bytes. set (kind' := if (7 <? kind) || (kind <? 1) then R_All else kind).
  assert (Hk : 1 <= kind' <= 7) by (subst kind'; unfold R_All; case_match; lia).
  destruct (kinds_lookup kind' Hk) as (k & Hk1 & Hne & Hall). rewrite Hk1. cbn [mbind result_bind].
  set (len := match size with [] => 6 | n :: _ => if n <? 1 then 6 else n end).
  assert (Hlen : 0 <= len) by (subst len; destruct size; [done|case_match; lia]).
  assert (H : forall ks, exists t, traverse (fun i => j ← Intn i (Z.of_nat (length k)); at_index (E := string) k j) ks = Ok t /\
    length t = length ks /\ Forall (fun c => c ∈ refSlices) t).
  { induction ks as [|i ks (t & Ht & Hl & Hf)]; [by exists []|].
    assert (Hpos : 0 < Z.of_nat (length k)) by (destruct k; [done|cbn; lia]). pose proof (draw_range i _ Hpos) as Hd.
    destruct (lookup_lt_is_Some_2 k (Z.to_nat (draw i (Z.of_nat (length k))))) as [c Hc]; [lia|].
    assert (Hi : (j ← Intn i (Z.of_nat (length k)); at_index (E := string) k j) = Ok c).
    { unfold Intn. replace (0 <? Z.of_nat (length k)) with true by lia. cbn [mbind result_bind].
      rewrite <- (Z2Nat.id (draw i (Z.of_nat (length k)))) by lia. by apply at_index_lookup. }
    exists (c :: t). cbn [traverse]. rewrite Hi. cbn [mbind result_bind]. rewrite Ht. cbn.
    split; [done|]. split; [by rewrite Hl|]. constructor; [|done]. rewrite Forall_forall in Hall. by eapply Hall, list_elem_of_lookup_2. }
  destruct (H (seq 0 (Z.to_nat len))) as (t & Ht & Hl & Hf). exists t. split; [done|]. split; [|done]. rewrite Hl, length_seq. lia.
Qed.

(** A number between two bounds, in any order, both included. *)
Theorem random_int a b : in_int64 a -> in_int64 b -> Z.abs (b - a) < 2 ^ 63 - 1 ->
  exists r, Int_ [a; b] = Ok r /\ Z.min a b <= r <= Z.max a b.
Proof.
  unfold in_int64, int64_min, int64_max. intros Ha Hb Hd. unfold Int_.
  assert (H : forall x y, x <= y -> - 2 ^ 63 <= x -> y <= 2 ^ 63 - 1 -> y - x < 2 ^ 63 - 1 ->
    exists r, (r ← Intn 0 (wrap64 (wrap64 (y - x) + 1)); Ok (wrap64 (r + x))) = Ok r /\ x <= r <= y).
  { intros x y Hxy Hx Hy Hw. rewrite (wrap64_id (y - x)), (wrap64_id (y - x + 1)) by (unfold in_int64, int64_min, int64_max; lia).
    unfold Intn. replace (0 <? y - x + 1) with true by lia. cbn. pose proof (draw_range 0 (y - x + 1) ltac:(lia)).
    eexists. split; [done|]. rewrite wrap64_id by (unfold in_int64, int64_min, int64_max; lia). lia. }
  destruct (b <? a) eqn:E.
  - destruct (H b a) as (r & Hr & Hb'); [lia..|]. exists r. split; [done|lia].
  - destruct (H a b) as (r & Hr & Hb'); [lia..|]. exists r. split; [done|lia].
Qed.

(** Nineteen digits after the point overflow, and the draw panics. *)
Lemma many_digits_panic rangeSize : Float64_ 19 rangeSize = Panic.
Proof. reflexivity. Qed.
(** A bound below minus one panics; zero is a bound for numbers, not for
    numbers with a point. *)
Lemma zero_bound : Int_ [0] = Ok (draw 0 1) /\ Float64_ 0 [0] = Panic /\ Int_ [-1] = Panic.
Proof. done. Qed.
End Rand.
End IdCode.
