(* ===== verification/Cpu.v ===== *)
(** * The use of the processor (pkg/shield/cpu)

    utils.go, cgroup.go, cgroup_cpu.go, psutil_cpu.go and stat.go, over the
    files of the system: a map from paths to texts.  gopsutil and the
    conversion of a float that is out of range are parameters.  Theorems: a
    list of processors that is printed is read back; what a reading changes;
    the number the BBR limiter reads is kept when a reading fails or is zero. *)

From S2P Require Import Prelude GoStr GoFloat Files Utils.
From Stdlib Require Import Ascii SpecFloat.
From Stdlib Require String.

Module Cpu.
Import Utils.

(** ** Reading (utils.go) *)

Definition fs : Type := gmap string string.
Definition open_err (path : string) : string := "open " +:+ path +:+ ": no such file or directory".
Definition opened (d : fs) (path : string) : result string string := match d !! path with Some t => Ok t | None => Err (open_err path) end.
Definition readFile (d : fs) (path : string) : result string string := TrimSpace <$> opened d path.
Definition num_err (s : string) (e : NumError) : string :=
  "strconv: parsing " +:+ quoted s +:+ ": " +:+ match e with ErrSyntax => "invalid syntax" | ErrRange => "value out of range" end.
Definition parseUint (s : string) : result string Z :=
  match parse_uint s with
  | (v, None) => Ok v
  | (_, Some err) =>
      match parse_int s with
      | (intValue, None) => if intValue <? 0 then Ok 0 else Err (num_err s err)
      | (intValue, Some ErrRange) => if intValue <? 0 then Ok 0 else Err (num_err s err)
      | (_, Some ErrSyntax) => Err (num_err s err)
      end
  end.
Definition ParseUint10 (s : string) : result string Z := match parse_uint s with (v, None) => Ok v | (_, Some e) => Err (num_err s e) end.
Definition ParseInt10 (s : string) : result string Z := match parse_int s with (v, None) => Ok v | (_, Some e) => Err (num_err s e) end.

(** An element of a list: the numbers that it stands for.  Counting up to the
    largest [int] does not end: [None]. *)
Definition list_item (e : string) (r : string) : option (result string (gset Z)) :=
  match Cut r "-" with
  | None => Some (match parse_int r with (v, None) => Ok {[v]} | _ => Err e end)
  | Some (a, b) =>
      match parse_int a, parse_int b with
      | (minVal, None), (maxVal, None) =>
          if maxVal <? minVal then Some (Err e)
          else if bool_decide (maxVal = int64_max) then None
          else Some (Ok (list_to_set (seqZ minVal (maxVal - minVal + 1))))
      | _, _ => Some (Err e)
      end
  end.
Fixpoint list_items (e : string) (acc : gset Z) (split : list string) : option (result string (gset Z)) :=
  match split with
  | [] => Some (Ok acc)
  | r :: split => match list_item e r with
                  | Some (Ok s) => list_items e (acc ∪ s) split
                  | x => x
                  end
  end.
Definition ParseUintList (val : string) : option (result string (gset Z)) :=
  if bool_decide (val = "") then Some (Ok ∅) else list_items ("os/stat: invalid format: " +:+ val) ∅ (Split val ",").

Definition readLinesOffsetN (d : fs) (filename : string) (offset n : Z) : result string (list string) :=
  (fun t => let lines := removelast (Split t newline) in
            drop (Z.to_nat offset) (if n <? 0 then lines else take (Z.to_nat (n + offset)) lines)) <$> opened d filename.
Definition readLines (d : fs) (filename : string) : result string (list string) := readLinesOffsetN d filename 0 (-1).

(** [strings.Fields]. *)
Fixpoint fields_from (cur : string) (s : string) : list string :=
  match s with
  | EmptyString => if bool_decide (cur = "") then [] else [cur]
  | String c s => if is_space c then (if bool_decide (cur = "") then fields_from "" s else cur :: fields_from "" s)
                  else fields_from (cur +:+ single c) s
  end.
Definition Fields (s : string) : list string := fields_from "" s.

(** ** Control groups (cgroup.go) *)

Definition cgroupRootDir : string := "/sys/fs/cgroup".
Definition cgroup : Type := gmap string string.
Definition join (l : list string) : string := Files.JoinPath false l.
Definition of_set (c : cgroup) (k : string) : string := default "" (c !! k).
Definition CPUCFSQuotaUs (d : fs) (c : cgroup) : result string Z := t ← readFile d (join [of_set c "cpu"; "cpu.cfs_quota_us"]); ParseInt10 t.
Definition CPUCFSPeriodUs (d : fs) (c : cgroup) : result string Z := t ← readFile d (join [of_set c "cpu"; "cpu.cfs_period_us"]); parseUint t.
Definition CPUAcctUsage (d : fs) (c : cgroup) : result string Z := t ← readFile d (join [of_set c "cpuacct"; "cpuacct.usage"]); parseUint t.
Definition CPUAcctUsagePerCPU (d : fs) (c : cgroup) : result string (list Z) :=
  t ← readFile d (join [of_set c "cpuacct"; "cpuacct.usage_percpu"]); us ← traverse parseUint (Fields t); Ok (filter (fun u => u <> 0) us).
Definition CPUSetCPUs (d : fs) (c : cgroup) : option (result string (gset Z)) :=
  match readFile d (join [of_set c "cpuset"; "cpuset.cpus"]) with
  | Ok t => match ParseUintList t with Some (Ok cpus) => Some (Ok (set_map wrapu64 cpus)) | x => x end
  | Err e => Some (Err e)
  | Panic => Some Panic
  end.
Definition cgroup_dir (dir k : string) : string := if bool_decide (dir = "/") then join [cgroupRootDir; k; dir] else join [cgroupRootDir; k].
Definition cgroup_line (c : cgroup) (line : string) : result string cgroup :=
  match Split (TrimSpace line) ":" with
  | [_; names; dir] =>
      let c := <[names := cgroup_dir dir names]> c in
      Ok (if Contains names "," then foldl (fun c k => <[k := cgroup_dir dir k]> c) c (Split names ",") else c)
  | _ => Err ("invalid cgroup format " +:+ line)
  end.
Definition currentcGroup (d : fs) (pid : Z) : result string cgroup :=
  t ← opened d ("/proc/" +:+ Itoa pid +:+ "/cgroup"); foldM cgroup_line ∅ (ended_lines t).

(** ** Usage (cgroup_cpu.go) *)

Section Usage.
Variables (d : fs) (pid : Z).
Variable Counts : result string Z.
Variable ParseFloat : string -> option float64.
Variable oor_u : float64 -> Z.

(** [uint64(f)]. *)
Definition uint64_of (f : float64) : Z :=
  match f_trunc f with Some z => if (0 <=? z) && (z <? 2 ^ 64) then z else oor_u f | None => oor_u f end.
Definition clockTicksPerSecond : Z := 100.
Definition stat_line (parts : list string) : result string Z :=
  if (length parts <? 8)%nat then Err "bad format of cpu stats"
  else vs ← traverse ParseUint10 (take 7 (drop 1 parts));
       Ok (wrapu64 (foldl (fun a v => wrapu64 (a + v)) 0 vs * 1000000000) / clockTicksPerSecond).
Fixpoint stat_lines (lines : list string) : result string Z :=
  match lines with
  | [] => Err "EOF"
  | line :: lines => match Fields line with
                     | [] => Panic
                     | p :: parts => if bool_decide (p = "cpu") then stat_line (p :: parts) else stat_lines lines
                     end
  end.
Definition systemCPUUsage : result string Z := t ← opened d "/proc/stat"; stat_lines (ended_lines t).
Definition totalCPUUsage : result string Z := cg ← currentcGroup d pid; CPUAcctUsage d cg.
Definition perCPUUsage : result string (list Z) := cg ← currentcGroup d pid; CPUAcctUsagePerCPU d cg.
Definition cpuSets : option (result string (gset Z)) :=
  match currentcGroup d pid with Ok cg => CPUSetCPUs d cg | Err e => Some (Err e) | Panic => Some Panic end.
Definition cpuQuota : result string Z := cg ← currentcGroup d pid; CPUCFSQuotaUs d cg.
Definition cpuPeriod : result string Z := cg ← currentcGroup d pid; CPUCFSPeriodUs d cg.
Definition f1000 : float64 := f_of_Z 1000.
Fixpoint freq_lines (lines : list string) : Z :=
  match lines with
  | [] => 0
  | line :: lines =>
      match Split line ":" with
      | k :: v :: _ =>
          if bool_decide (TrimSpace k ∈ ["cpu MHz"; "clock"]) then
            match ParseFloat (Replace1 (TrimSpace v) "MHz" "") with
            | Some t => uint64_of (fmul (fmul t f1000) f1000)
            | None => freq_lines lines
            end
          else freq_lines lines
      | _ => freq_lines lines
      end
  end.
Definition cpuFreq : Z := match readLines d "/proc/cpuinfo" with Ok lines => freq_lines lines | _ => 0 end.
Definition cpuMaxFreq : Z :=
  match readFile d "/sys/devices/system/cpu/cpu0/cpufreq/cpuinfo_max_freq" with
  | Ok data => match parseUint data with Ok cfeq => cfeq | _ => cpuFreq end
  | _ => cpuFreq
  end.

Record cgroupCPU : Type := mkCpu { frequency : Z; quota : float64; cores : Z; preSystem : Z; preTotal : Z }.
Definition core_count : result string Z :=
  match Counts with
  | Ok n => if bool_decide (n = 0) then (fun cpus => Z.of_nat (length cpus)) <$> perCPUUsage else Ok n
  | _ => (fun cpus => Z.of_nat (length cpus)) <$> perCPUUsage
  end.
Definition quota_of (sets : nat) : result string float64 :=
  let quota := f_of_Z (Z.of_nat sets) in
  match cpuQuota with
  | Ok cq => if bool_decide (cq = -1) then Ok quota
             else period ← cpuPeriod;
                  let limit := fdiv (f_of_Z cq) (f_of_Z period) in Ok (if fltb limit quota then limit else quota)
  | Err _ => Ok quota
  | Panic => Panic
  end.
Definition newCgroupCPU : option (result string cgroupCPU) :=
  match core_count, cpuSets with
  | Ok n, Some (Ok sets) =>
      Some (q ← quota_of (size sets); s ← systemCPUUsage; t ← totalCPUUsage; Ok (mkCpu cpuMaxFreq q (wrapu64 n) s t))
  | Ok _, Some (Err e) => Some (Err e)
  | Ok _, Some Panic => Some Panic
  | Ok _, None => None
  | Err e, _ => Some (Err e)
  | Panic, _ => Some Panic
  end.
Definition usage_of (c : cgroupCPU) (total system : Z) : Z :=
  if bool_decide (system = preSystem c) then 0
  else uint64_of (fdiv (f_of_Z (wrapu64 (wrapu64 (wrapu64 (total - preTotal c) * cores c) * 1000)))
                       (fmul (f_of_Z (wrapu64 (system - preSystem c))) (quota c))).
Definition Usage (c : cgroupCPU) : cgroupCPU * result string Z :=
  match (total ← totalCPUUsage; system ← systemCPUUsage; Ok (total, system)) with
  | Ok (total, system) => (mkCpu (frequency c) (quota c) (cores c) system total, Ok (usage_of c total system))
  | Err e => (c, Err e)
  | Panic => (c, Panic)
  end.
Record Info : Type := mkInfo { Frequency : Z; Quota : float64 }.
Definition cgroup_Info (c : cgroupCPU) : Info := mkInfo (frequency c) (quota c).

(** A tick of [init]: the number that [ReadStat] loads. *)
Definition tick (usage : Z) (u : result string Z) : Z := match u with Ok u => if bool_decide (u = 0) then usage else u | _ => usage end.
Definition ReadStat (usage : Z) : Z := usage.

(** psutil_cpu.go, when the control groups cannot be read. *)
Definition psutil_Usage (Percent : result string (list float64)) : result string Z :=
  (fun percents => match percents with [] => 0 | p :: _ => uint64_of (fmul p (f_of_Z 10)) end) <$> Percent.
Definition newPsutilCPU (Percent : result string (list float64)) : result string unit := (fun _ => tt) <$> psutil_Usage Percent.
Definition psutil_Info (cpu_Info : result string (list float64)) (Counts : result string Z) : result string Info :=
  match cpu_Info with
  | Ok stats => match Counts with
                | Ok n => match stats with [] => Panic | mhz :: _ => Ok (mkInfo (uint64_of mhz) (f_of_Z n)) end
                | _ => Ok (mkInfo 0 f0)
                end
  | _ => Ok (mkInfo 0 f0)
  end.
End Usage.

(** ** Lists that are printed are read back *)

(** A range as the kernel prints it. *)
Definition print_range (r : Z * Z) : string := if bool_decide (r.1 = r.2) then Itoa r.1 else Itoa r.1 +:+ "-" +:+ Itoa r.2.
Definition in_ranges (rs : list (Z * Z)) (n : Z) : Prop := exists r, r ∈ rs /\ r.1 <= n <= r.2.
Definition range_ok (r : Z * Z) : Prop := 0 <= r.1 <= r.2 /\ r.2 < int64_max.

Lemma Itoa_pos n : 0 <= n -> Itoa n = FormatUint n.
Proof. intros H. unfold Itoa. by replace (n <? 0) with false by lia. Qed.
Lemma digits_plain c s : forall_chars is_digit s = true -> is_digit c = false -> no_char c s.
Proof.
  intros H Hc. induction s as [|a s IH]; [done|]. cbn in H. apply andb_true_iff in H as [Ha H]. apply no_char_cons. split; [congruence|by apply IH].
Qed.
Lemma Itoa_plain c n : 0 <= n -> is_digit c = false -> no_char c (Itoa n).
Proof. intros Hn Hc. rewrite Itoa_pos by done. by apply digits_plain; [apply FormatUint_digits|]. Qed.
Lemma Cut_none s c : no_char c s -> Cut s c = None.
Proof.
  induction s as [|a s IH]; intros H; [done|]. apply no_char_cons in H as [Ha H]. cbn. case_bool_decide; [done|]. by rewrite IH.
Qed.
Lemma list_item_print e r : range_ok r -> list_item e (print_range r) = Some (Ok (list_to_set (seqZ r.1 (r.2 - r.1 + 1)))).
Proof.
  intros [[H1 H2] H3]. unfold int64_max in H3. pose proof (numbers_read_back r.1) as Ha. pose proof (numbers_read_back r.2) as Hb.
  unfold StrToIntE, IntToStr, in_int64, int64_min, int64_max in Ha, Hb. unfold list_item, print_range. case_bool_decide as E.
  - rewrite Cut_none by (apply Itoa_plain; [lia|done]). rewrite Ha by lia. rewrite E. replace (r.2 - r.2 + 1) with 1 by lia.
    do 2 f_equal. apply leibniz_equiv. cbn. set_solver by lia.
  - rewrite (app_cons_s "-"), Cut_app by (apply Itoa_plain; [lia|done]). rewrite app_nil_l_s, Ha, Hb by lia.
    replace (_ <? _) with false by lia. rewrite bool_decide_eq_false_2; [done|]. unfold int64_max. lia.
Qed.
Lemma list_items_print e rs acc : Forall range_ok rs ->
  exists s, list_items e acc (print_range <$> rs) = Some (Ok s) /\ forall n, n ∈ s <-> n ∈ acc \/ in_ranges rs n.
Proof.
  intros H. revert acc. induction H as [|r rs Hr _ IH]; intros acc; cbn [fmap list_fmap list_items].
  - exists acc. split; [done|]. intros n. split; [by left|]. intros [H|(r & H & _)]; [done|]. by apply not_elem_of_nil in H.
  - rewrite list_item_print by done. destruct (IH (acc ∪ list_to_set (seqZ r.1 (r.2 - r.1 + 1)))) as (s & -> & Hs).
    exists s. split; [done|]. intros n. rewrite Hs, elem_of_union, elem_of_list_to_set, elem_of_seqZ. unfold in_ranges. split.
    + intros [[H|H]|(x & Hx & H)]; [by left|right; exists r; split; [by left|lia]|right; exists x; split; [by right|done]].
    + intros [H|(x & [->|Hx]%elem_of_cons & H)]; [by left; left|left; right; lia|right; by exists x].
Qed.
Lemma print_range_plain r : range_ok r -> no_char "," (print_range r) /\ print_range r <> "".
Proof.
  intros [[H1 H2] H3]. assert (He : Itoa r.1 <> "") by (rewrite Itoa_pos by lia; destruct (FormatUint_cons r.1) as (a & s & ->); done).
  unfold print_range. case_bool_decide.
  - split; [|done]. apply Itoa_plain; [lia|done].
  - split; [|destruct (Itoa r.1); done]. rewrite !no_char_app. split; [|split]; [|done|]; apply Itoa_plain; done || lia.
Qed.
(** The list of processors of a control group, printed as ranges, is read as
    the numbers of the ranges, in any order and with repetitions. *)
Theorem cpu_list_read rs : rs <> [] -> Forall range_ok rs ->
  exists s, ParseUintList (Join (print_range <$> rs) ",") = Some (Ok s) /\ forall n, n ∈ s <-> in_ranges rs n.
Proof.
  intros Hne H. unfold ParseUintList. rewrite bool_decide_eq_false_2.
  2:{ destruct H as [|r rs Hr H]; [done|]. pose proof (print_range_plain r Hr) as [_ Hp]. destruct (print_range <$> rs) eqn:E; cbn; rewrite E; [done|].
      destruct (print_range r); done. }
  change (Join (print_range <$> rs) ",") with (Join (print_range <$> rs) (single ","%char)). rewrite Split_Join.
  - edestruct (list_items_print) as (s & -> & Hs); [exact H|]. exists s. split; [done|]. intros n. rewrite Hs. set_solver.
  - by destruct rs.
  - apply Forall_fmap. eapply Forall_impl; [exact H|]. intros r Hr. by apply print_range_plain.
Qed.
Lemma cpu_list_read_witness : exists s, ParseUintList "0,3-4,7,8-10" = Some (Ok s) /\ forall n, n ∈ s <-> in_ranges [(0, 0); (3, 4); (7, 7); (8, 10)] n.
Proof.
  change "0,3-4,7,8-10" with (Join (print_range <$> [(0, 0); (3, 4); (7, 7); (8, 10)]) ",").
  apply cpu_list_read; [done|]. repeat constructor; cbn; unfold int64_max; lia.
Defined.
(** The number that is read is the last good one. *)
Lemma last_good_kept usage us : foldl tick usage us = default usage (last (omap (fun u => match u with Ok u => if bool_decide (u = 0) then None else Some u | _ => None end) us)).
Proof.
  induction us as [|u us IH] using rev_ind; [done|]. rewrite foldl_app, omap_app, IH. cbn.
  destruct u as [u| |]; cbn; [|by rewrite app_nil_r..]. case_bool_decide; cbn; [by rewrite app_nil_r|by rewrite last_snoc].
Qed.
(** A reading that fails changes nothing. *)
Lemma Usage_fails d pid oor_u c : is_ok (Usage d pid oor_u c).2 = false -> (Usage d pid oor_u c).1 = c.
Proof. unfold Usage. by destruct (_ ≫= _) as [[]| |]. Qed.
(** A negative number is read as zero, however large. *)
Example negative_is_zero : parseUint "-99999999999999999999999" = Ok 0 /\ parseUint "-1" = Ok 0 /\ is_ok (parseUint "1x") = false.
Proof. vm_compute. done. Qed.
(** The quota of a machine with a control group of version 2: the set of
    processors is asked of a directory that is not there. *)
Definition unified : fs := {[ "/proc/7/cgroup" := "0::/user.slice" +:+ single newline; "/sys/fs/cgroup/cpuset.cpus" := "0-3" ]}.
Example unified_not_found : cpuSets unified 7 = Some (Err (open_err "cpuset.cpus")).
Proof. vm_compute. reflexivity. Qed.
Definition docker : fs := {[
  "/proc/7/cgroup" := "2:cpuset:/docker/x" +:+ single newline +:+ "1:cpu,cpuacct:/docker/x" +:+ single newline;
  "/sys/fs/cgroup/cpuset/cpuset.cpus" := "0-3"; "/sys/fs/cgroup/cpu/cpu.cfs_quota_us" := "200000"; "/sys/fs/cgroup/cpu/cpu.cfs_period_us" := "100000";
  "/sys/fs/cgroup/cpuacct/cpuacct.usage" := "5000000000"; "/proc/stat" := "cpu  100 0 50 1000 0 0 0 0 0 0" +:+ single newline ]}.
(** Two processors of four: a quota of two. *)
Example docker_quota : match newCgroupCPU docker 7 (Ok 4) (fun _ => None) (fun _ => 0) with
  | Some (Ok c) => quota c = f_of_Z 2 /\ cores c = 4 /\ preTotal c = 5000000000 /\ preSystem c = 11500000000 | _ => False end.
Proof. vm_compute. done. Qed.
End Cpu.
