(* ===== verification/ErrorX.v ===== *)
(** * Errors with a reason (pkg/errorsx)

    errorsx.go, code.go and wrap.go.  An [*ErrorX] is a pointer and its
    metadata a map: both are in a heap, where the predefined errors of code.go
    are the first.  The statuses of gRPC are what is read of them, the codes of
    kratos two functions.  Theorems: an error that is sent as a status is got
    back; matching is by code and reason along the chain; a percent sign in a
    text is taken for a verb; a message set on a predefined error is there for
    all. *)

From S2P Require Import Prelude GoStr.
From Stdlib Require Import Ascii.
From Stdlib Require String.

Module ErrorX.

(** [fmt.Sprintf] without arguments: flags and widths are skipped and a verb
    is missing its argument. *)
Definition is_flag (c : ascii) : bool := is_digit c || bool_decide (c ∈ ["+"; "-"; "#"; " "; "."]%char).
Fixpoint Sprintf0 (verb : bool) (format : string) : string :=
  match format with
  | EmptyString => if verb then "%!(NOVERB)" else ""
  | String c s =>
      if verb then
        if is_flag c then Sprintf0 true s
        else if bool_decide (c = "%"%char) then String c (Sprintf0 false s)
        else "%!" +:+ single c +:+ "(MISSING)" +:+ Sprintf0 false s
      else if bool_decide (c = "%"%char) then Sprintf0 true s else String c (Sprintf0 false s)
  end.
Lemma Sprintf0_plain s : no_char "%" s -> Sprintf0 false s = s.
Proof.
  induction s as [|c s IH]; intros H; [done|]. apply no_char_cons in H as [Hc H]. cbn.
  rewrite bool_decide_eq_false_2 by done. by rewrite IH.
Qed.

(** ** The heap *)

Record ErrorX : Type := mkErrorX { Code : Z; Reason : string; Message : string; Metadata : option nat }.
Record heap : Type := mkHeap { errs : list ErrorX; maps : list (gmap string string) }.
Definition ptr : Type := nat.
Definition err_at (h : heap) (p : ptr) : ErrorX := default (mkErrorX 0 "" "" None) (errs h !! p).
Definition map_at (h : heap) (m : nat) : gmap string string := default ∅ (maps h !! m).
Definition metadata (h : heap) (e : ErrorX) : option (gmap string string) := map_at h <$> Metadata e.
Definition set_err (h : heap) (p : ptr) (e : ErrorX) : heap := mkHeap (<[p := e]> (errs h)) (maps h).
Definition alloc (h : heap) (e : ErrorX) : heap * ptr := (mkHeap (errs h ++ [e]) (maps h), length (errs h)).
Definition alloc_map (h : heap) (m : gmap string string) : heap * nat := (mkHeap (errs h) (maps h ++ [m]), length (maps h)).

(** code.go. *)
Definition predefined : heap := mkHeap
  [ mkErrorX 200 "" "" None;
    mkErrorX 500 "InternalError" "Internal server error." None;
    mkErrorX 404 "NotFound" "Resource not found." None;
    mkErrorX 400 "BindError" "Error occurred while binding the request body to the struct." None;
    mkErrorX 400 "InvalidArgument" "Argument verification failed." None;
    mkErrorX 401 "Unauthenticated" "Unauthenticated." None;
    mkErrorX 403 "PermissionDenied" "Permission denied. Access to the requested resource is forbidden." None;
    mkErrorX 409 "OperationFailed" "The requested operation has failed. Please try again later." None ] [].
Definition OK : ptr := 0%nat.
Definition ErrInternal : ptr := 1%nat.
Definition ErrNotFound : ptr := 2%nat.
Definition ErrBind : ptr := 3%nat.
Definition ErrInvalidArgument : ptr := 4%nat.
Definition ErrUnauthenticated : ptr := 5%nat.
Definition ErrPermissionDenied : ptr := 6%nat.
Definition ErrOperationFailed : ptr := 7%nat.

(** ** Methods; a text is what [fmt.Sprintf] made of it *)

Definition New (h : heap) (code : Z) (reason text : string) : heap * ptr := alloc h (mkErrorX code reason text None).
Definition WithMessage (h : heap) (p : ptr) (text : string) : heap :=
  let e := err_at h p in set_err h p (mkErrorX (Code e) (Reason e) text (Metadata e)).
Definition WithMetadata (h : heap) (p : ptr) (md : option nat) : heap :=
  let e := err_at h p in set_err h p (mkErrorX (Code e) (Reason e) (Message e) md).
Fixpoint pairs (kvs : list string) (m : gmap string string) : gmap string string :=
  match kvs with k :: v :: kvs => pairs kvs (<[k := v]> m) | _ => m end.
Definition KV (h : heap) (p : ptr) (kvs : list string) : heap :=
  let '(h, m) := match Metadata (err_at h p) with
                 | Some m => (h, m)
                 | None => let '(h, m) := alloc_map h ∅ in (WithMetadata h p (Some m), m)
                 end in
  mkHeap (errs h) (<[m := pairs kvs (map_at h m)]> (maps h)).
Definition WithRequestID (h : heap) (p : ptr) (requestID : string) : heap := KV h p ["X-Request-ID"; requestID].

(** The statuses of gRPC, with the [ErrorInfo]s among their details. *)
Record Status : Type := mkStatus { St_Code : Z; St_Message : string; Details : list (string * option (gmap string string)) }.
(** An error: a pointer, one that wraps another, that of a status, a text. *)
Inductive error : Type :=
  | Ptr (p : ptr)
  | Wrap (text : string) (e : error)
  | StatusErr (s : Status)
  | Text (text : string).

Section Kratos.
Variables ToGRPCCode FromGRPCCode : Z -> Z.
(** The texts of errors ([%v] of a map of metadata). *)
Variable show_metadata : option (gmap string string) -> string.
Variable status_text : Status -> string.

Definition ErrorX_Error (h : heap) (e : ErrorX) : string :=
  "error: code = " +:+ Itoa (Code e) +:+ " reason = " +:+ Reason e +:+ " message = " +:+ Message e +:+ " metadata = " +:+ show_metadata (metadata h e).
Fixpoint Error (h : heap) (e : error) : string :=
  match e with
  | Ptr p => ErrorX_Error h (err_at h p)
  | Wrap text _ => text
  | StatusErr s => status_text s
  | Text text => text
  end.

(** [WithDetails] refuses a status that is OK and gives nil. *)
Definition GRPCStatus (h : heap) (p : ptr) : option Status :=
  let e := err_at h p in
  let c := ToGRPCCode (Code e) in
  if bool_decide (c = 0) then None else Some (mkStatus c (Message e) [(Reason e, metadata h e)]).

(** [errors.As] for a pointer; [errors.Unwrap]. *)
Fixpoint As (e : error) : option ptr := match e with Ptr p => Some p | Wrap _ e => As e | _ => None end.
Definition Unwrap (e : error) : option error := match e with Wrap _ e => Some e | _ => None end.
Definition ErrorX_Is (h : heap) (p : ptr) (target : error) : bool :=
  match As target with
  | Some q => bool_decide (Code (err_at h q) = Code (err_at h p)) && bool_decide (Reason (err_at h q) = Reason (err_at h p))
  | None => false
  end.
(** [errors.Is]: [same] is the equality of interface values, which for the
    errors of the library is that of pointers. *)
Fixpoint Is (same : error -> error -> bool) (h : heap) (e target : error) : bool :=
  same e target ||
  match e with
  | Ptr p => ErrorX_Is h p target
  | Wrap _ e => Is same h e target
  | _ => false
  end.

(** [status.FromError]: the status, with the text of the whole chain when it
    is wrapped. *)
Fixpoint in_chain (e : error) : option Status := match e with StatusErr s => Some s | Wrap _ e => in_chain e | _ => None end.
Definition status_FromError (h : heap) (e : error) : option Status :=
  match e with
  | StatusErr s => Some s
  | _ => (fun s => mkStatus (St_Code s) (Error h e) (Details s)) <$> in_chain e
  end.

Definition FromError (h : heap) (e : option error) : heap * option ptr :=
  match e with
  | None => (h, None)
  | Some e =>
      match As e with
      | Some p => (h, Some p)
      | None =>
          let internal := err_at h ErrInternal in
          match status_FromError h e with
          | None => let '(h, p) := New h (Code internal) (Reason internal) (Sprintf0 false (Error h e)) in (h, Some p)
          | Some gs =>
              let '(h, p) := New h (FromGRPCCode (St_Code gs)) (Reason internal) (Sprintf0 false (St_Message gs)) in
              match Details gs with
              | [] => (h, Some p)
              | (reason, md) :: _ =>
                  let x := err_at h p in
                  let h := set_err h p (mkErrorX (Code x) reason (Message x) None) in
                  match md with
                  | None => (h, Some p)
                  | Some m => let '(h, i) := alloc_map h m in (WithMetadata h p (Some i), Some p)
                  end
              end
          end
      end
  end.
Definition Code_of (h : heap) (e : option error) : Z :=
  match e with None => 200 | Some _ => match FromError h e with (h, Some p) => Code (err_at h p) | _ => 0 end end.
Definition Reason_of (h : heap) (e : option error) : string :=
  match e with None => Reason (err_at h ErrInternal) | Some _ => match FromError h e with (h, Some p) => Reason (err_at h p) | _ => "" end end.

(** ** An error crosses gRPC *)

Lemma err_alloc h e : err_at (alloc h e).1 (alloc h e).2 = e.
Proof. unfold err_at, alloc. cbn. by rewrite lookup_app_r, Nat.sub_diag by lia. Qed.
Lemma err_set h p e : (p < length (errs h))%nat -> err_at (set_err h p e) p = e.
Proof. intros H. unfold err_at, set_err. cbn. by rewrite list_lookup_insert_eq. Qed.

(** What a server sends as a status a client gets: the code of kratos for it,
    the reason, the message when it has no percent sign, and the metadata. *)
Theorem error_crosses h p s : GRPCStatus h p = Some s -> no_char "%" (Message (err_at h p)) ->
  exists h' q, FromError h (Some (StatusErr s)) = (h', Some q) /\
    Code (err_at h' q) = FromGRPCCode (ToGRPCCode (Code (err_at h p))) /\
    Reason (err_at h' q) = Reason (err_at h p) /\ Message (err_at h' q) = Message (err_at h p) /\
    metadata h' (err_at h' q) = metadata h (err_at h p).
Proof.
  unfold GRPCStatus. case_bool_decide as Hc; [done|]. intros [= <-] Hm. unfold FromError. cbn [As status_FromError].
  cbn [St_Code St_Message Details]. rewrite Sprintf0_plain by done. unfold New.
  set (x := mkErrorX (FromGRPCCode _) _ _ None). set (h1 := (alloc h x).1).
  assert (Hl : (length (errs h) < length (errs h1))%nat) by (unfold h1; cbn; rewrite length_app; cbn; lia).
  change (alloc h x) with (h1, length (errs h)). cbn beta iota.
  pose proof (err_alloc h x) as Hx. change (err_at h1 (length (errs h)) = x) in Hx. rewrite Hx.
  destruct (metadata h (err_at h p)) as [m|] eqn:Em.
  - unfold alloc_map. eexists _, _. split; [reflexivity|]. unfold WithMetadata.
    match goal with |- context [set_err ?hh (length (errs h)) (mkErrorX _ _ _ (Some _))] => set (h2 := hh) end.
    assert (H2 : err_at h2 (length (errs h)) = mkErrorX (Code x) (Reason (err_at h p)) (Message x) None).
    { unfold h2. unfold err_at. cbn. by rewrite list_lookup_insert_eq by done. }
    rewrite H2. rewrite err_set by (unfold h2; cbn; by rewrite length_insert).
    split; [done|]. split; [done|]. split; [done|]. unfold metadata, map_at, h2. cbn. by rewrite lookup_app_r, Nat.sub_diag by lia.
  - eexists _, _. split; [reflexivity|]. rewrite err_set by done. done.
Qed.

(** Matching goes down the chain, by code and reason. *)
Lemma Is_wrapped same h text e target : Is same h e target = true -> Is same h (Wrap text e) target = true.
Proof. intros H. cbn. by rewrite H, orb_true_r. Qed.
Lemma Is_reason h p q : Code (err_at h p) = Code (err_at h q) -> Reason (err_at h p) = Reason (err_at h q) -> ErrorX_Is h p (Ptr q) = true.
Proof. intros H1 H2. unfold ErrorX_Is. cbn. by rewrite H1, H2, !bool_decide_eq_true_2. Qed.
End Kratos.

Definition codes_of (c : Z) : Z := if bool_decide (c = 200) then 0 else if bool_decide (c = 404) then 5 else 2.
Definition http_of (c : Z) : Z := if bool_decide (c = 5) then 404 else 500.
Lemma error_crosses_witness : let h := KV predefined ErrNotFound ["user"; "7"] in
  exists h' q s, GRPCStatus codes_of h ErrNotFound = Some s /\
    FromError http_of (fun _ => "") (fun _ => "") h (Some (StatusErr s)) = (h', Some q) /\
    Code (err_at h' q) = 404 /\ metadata h' (err_at h' q) = Some {["user" := "7"]}.
Proof.
  destruct (error_crosses codes_of http_of (fun _ => "") (fun _ => "") (KV predefined ErrNotFound ["user"; "7"]) ErrNotFound
    (mkStatus 5 "Resource not found." [("NotFound", Some {["user" := "7"]})])) as (h' & q & H1 & H2 & _ & _ & H3);
    [vm_compute; reflexivity|vm_compute; reflexivity|].
  eexists h', q, _. split; [vm_compute; reflexivity|]. split; [exact H1|]. split; [rewrite H2; reflexivity|rewrite H3; vm_compute; reflexivity].
Defined.

(** The text of an error is taken for a format. *)
Example percent_is_a_verb : let '(h, p) := FromError http_of (fun _ => "") (fun _ => "") predefined (Some (Text "disk 90% full")) in
  Message <$> (err_at h <$> p) = Some "disk 90%!f(MISSING)ull".
Proof. vm_compute. reflexivity. Qed.
(** A message or a key set on a predefined error is there for every request
    after. *)
Lemma predefined_is_shared text id : let h := WithRequestID (WithMessage predefined ErrNotFound text) ErrNotFound id in
  Message (err_at h ErrNotFound) = text /\ metadata h (err_at h ErrNotFound) = Some {["X-Request-ID" := id]}.
Proof. split; [reflexivity|]. reflexivity. Qed.
(** An error of the success code has no status. *)
Example ok_has_no_status : GRPCStatus codes_of predefined OK = None.
Proof. reflexivity. Qed.
End ErrorX.
