(* ===== verification/OtelLog.v ===== *)
(** * Records of slog as records of OpenTelemetry (pkg/otelslog)

    handler.go and convert.go: levels, values and groups.  A buffer of
    attributes is a list: the spare capacity of its slice is not modelled.
    Printing with [%+v] and the logger of the provider are parameters.
    Theorems: with attributes in every group the record has the attributes in
    the nesting slog asks for; where a group is lost and where an empty one is
    written; which levels are kept; integers that do not fit. *)

From S2P Require Import Prelude GoStr GoFloat.
From Stdlib Require Import Ascii.
From Stdlib Require String.

Module OtelLog.

(** ** Values *)

(** A value of [log]. *)
Inductive value : Type :=
  | Empty
  | BoolValue (b : bool)
  | Int64Value (z : Z)
  | Float64Value (f : float64)
  | StringValue (s : string)
  | BytesValue (b : string)
  | SliceValue (vs : list value)
  | MapValue (kvs : list (string * value)).
Definition KeyValue : Type := string * value.

(** A Go value of any type, by the cases of [convertValue]: the small integers
    with a sign or that fit, those of 64 bits without a sign, and the kinds
    that are looked at by reflection. *)
Inductive any : Type :=
  | ANil
  | ABool (b : bool)
  | AString (s : string)
  | AInt (z : Z)
  | AUint (z : Z)
  | AFloat (f : float64)
  | ADuration (ns : Z)
  | AComplex (r i : float64)
  | ATime (unixNano : Z)
  | ABytes (b : string)
  | AError (text : string)
  | AAttribute (v : value)
  | ALogValue (v : value)
  | AStruct (printed : string)
  | ASlice (l : list any)
  | AMap (l : list (string * any))
  | APtr (o : option any)
  | AOther (type printed : string).
Definition max_int64 : Z := 2 ^ 63 - 1.
Definition convertUintValue (v : Z) : value := if max_int64 <? v then StringValue (FormatUint v) else Int64Value v.
Fixpoint convertValue (v : any) : value :=
  match v with
  | ANil => Empty
  | ABool b => BoolValue b
  | AString s => StringValue s
  | AInt z => Int64Value z
  | AUint z => convertUintValue z
  | AFloat f => Float64Value f
  | ADuration ns => Int64Value ns
  | AComplex r i => MapValue [("r", Float64Value r); ("i", Float64Value i)]
  | ATime n => Int64Value (wrap64 n)
  | ABytes b => BytesValue b
  | AError text => StringValue text
  | AAttribute v => v
  | ALogValue v => v
  | AStruct printed => StringValue printed
  | ASlice l => SliceValue (map convertValue l)
  | AMap l => MapValue (map (fun '(k, v) => (k, convertValue v)) l)
  | APtr None => Empty
  | APtr (Some v) => convertValue v
  | AOther type printed => StringValue ("unhandled: (" +:+ type +:+ ") " +:+ printed)
  end.

(** A value of slog, by its kind; a [LogValuer] is what it resolves to. *)
Inductive svalue : Type :=
  | KindAny (v : any)
  | KindBool (b : bool)
  | KindDuration (ns : Z)
  | KindFloat64 (f : float64)
  | KindInt64 (z : Z)
  | KindString (s : string)
  | KindTime (unixNano : Z)
  | KindUint64 (z : Z)
  | KindGroup (g : list (string * svalue))
  | KindLogValuer (resolved : svalue).
Definition Attr : Type := string * svalue.

Fixpoint convert (v : svalue) : value :=
  match v with
  | KindAny v => convertValue v
  | KindBool b => BoolValue b
  | KindDuration ns => Int64Value ns
  | KindFloat64 f => Float64Value f
  | KindInt64 z => Int64Value z
  | KindString s => StringValue s
  | KindTime n => Int64Value (wrap64 n)
  | KindUint64 u => if max_int64 <? u then Float64Value (f_of_Z u) else Int64Value u
  | KindGroup g =>
      MapValue ((fix AddAttrs (l : list (string * svalue)) : list (string * value) :=
        match l with
        | [] => []
        | (k, v) :: l =>
            (if bool_decide (k = "") then
               match v with
               | KindGroup inner => map (fun '(k, v) => (k, convert v)) inner
               | KindAny ANil => []
               | _ => [(k, convert v)]
               end
             else [(k, convert v)]) ++ AddAttrs l
        end) g)
  | KindLogValuer v => convert v
  end.
(** What [AddAttr] appends to a buffer. *)
Definition AddAttr (attr : Attr) : list KeyValue :=
  let '(k, v) := attr in
  if bool_decide (k = "") then
    match v with
    | KindGroup inner => map (fun '(k, v) => (k, convert v)) inner
    | KindAny ANil => []
    | _ => [(k, convert v)]
    end
  else [(k, convert v)].
Definition AddAttrs (attrs : list Attr) : list KeyValue := attrs ≫= AddAttr.

(** ** The handler *)

Record group : Type := mkGroup { name : string; attrs : list KeyValue }.
(** The groups with the leaf first, and the lowest level. *)
Record Handler : Type := mkHandler { h_attrs : list KeyValue; h_group : list group; level : Z; source : bool }.
Definition LevelDebug : Z := -4.
Definition LevelInfo : Z := 0.
Definition LevelWarn : Z := 4.
Definition LevelError : Z := 8.
Definition SeverityDebug : Z := 5.
Definition sevOffset : Z := SeverityDebug - LevelDebug.
Definition parseLevelString (levelStr : string) : Z :=
  let s := ToUpper (TrimSpace levelStr) in
  if bool_decide (s = "DEBUG") then LevelDebug else if bool_decide (s = "INFO") then LevelInfo
  else if bool_decide (s ∈ ["WARN"; "WARNING"]) then LevelWarn else if bool_decide (s = "ERROR") then LevelError else LevelInfo.

(** Options and the configuration; the provider is [None] until it is set. *)
Record config (P : Type) : Type := mkConfig { provider : option P; version : string; schemaURL : string; c_attributes : option (list KeyValue); c_source : bool; c_level : Z }.
Arguments mkConfig {P}. Arguments provider {P}. Arguments version {P}. Arguments schemaURL {P}. Arguments c_attributes {P}. Arguments c_source {P}. Arguments c_level {P}.
Section Options.
Context {P : Type}.
Definition Option : Type := config P -> config P.
Definition WithVersion (v : string) : Option := fun c => mkConfig (provider c) v (schemaURL c) (c_attributes c) (c_source c) (c_level c).
Definition WithSchemaURL (u : string) : Option := fun c => mkConfig (provider c) (version c) u (c_attributes c) (c_source c) (c_level c).
Definition WithAttributes (a : option (list KeyValue)) : Option := fun c => mkConfig (provider c) (version c) (schemaURL c) a (c_source c) (c_level c).
Definition WithLoggerProvider (p : option P) : Option := fun c => mkConfig p (version c) (schemaURL c) (c_attributes c) (c_source c) (c_level c).
Definition WithSource (s : bool) : Option := fun c => mkConfig (provider c) (version c) (schemaURL c) (c_attributes c) s (c_level c).
Definition WithLevel (l : Z) : Option := fun c => mkConfig (provider c) (version c) (schemaURL c) (c_attributes c) (c_source c) l.
Definition WithLevelString (levelStr : string) : Option := WithLevel (parseLevelString levelStr).
Definition newConfig (global : P) (options : list Option) : config P :=
  let c := foldl (fun c opt => opt c) (mkConfig None "" "" None false 0) options in
  match provider c with None => WithLoggerProvider (Some global) c | Some _ => c end.
Inductive LoggerOption : Type := InstrumentationVersion (v : string) | SchemaURL (u : string) | InstrumentationAttributes (a : list KeyValue).
Definition logger (c : config P) : list LoggerOption :=
  (if bool_decide (version c = "") then [] else [InstrumentationVersion (version c)]) ++
  (if bool_decide (schemaURL c = "") then [] else [SchemaURL (schemaURL c)]) ++
  match c_attributes c with None => [] | Some a => [InstrumentationAttributes a] end.
Definition NewHandler (global : P) (options : list Option) : Handler * option P * list LoggerOption :=
  let cfg := newConfig global options in (mkHandler [] [] (c_level cfg) (c_source cfg), provider cfg, logger cfg).
End Options.

Definition group_AddAttrs (g : group) (l : list Attr) : group := mkGroup (name g) (attrs g ++ AddAttrs l).
Definition WithAttrs (h : Handler) (l : list Attr) : Handler :=
  match h_group h with
  | g :: next => mkHandler (h_attrs h) (group_AddAttrs g l :: next) (level h) (source h)
  | [] => mkHandler (h_attrs h ++ AddAttrs l) [] (level h) (source h)
  end.
Definition WithGroup (h : Handler) (n : string) : Handler := mkHandler (h_attrs h) (mkGroup n [] :: h_group h) (level h) (source h).

Fixpoint NextNonEmpty (g : list group) : list group :=
  match g with [] => [] | g0 :: next => match attrs g0 with [] => NextNonEmpty next | _ => g end end.
Fixpoint enclose (out : KeyValue) (next : list group) : KeyValue :=
  match next with
  | [] => out
  | g :: next => enclose (match attrs g with [] => out | _ => (name g, MapValue (attrs g ++ [out])) end) next
  end.
Definition group_KeyValue (g : group) (next : list group) (kvs : list KeyValue) : KeyValue := enclose (name g, MapValue (attrs g ++ kvs)) next.

(** A record of slog; the frame of its program counter is given. *)
Record slog_Record : Type := mkRecord { Time : Z; Message : string; Level : Z; Attrs : list Attr; frame : string * string * Z }.
Record log_Record : Type := mkLog { Timestamp : Z; Body : value; Severity : Z; Attributes : list KeyValue }.
Definition source_attrs (h : Handler) (r : slog_Record) : list KeyValue :=
  let '(file, function, line) := frame r in
  if source h then [("code.file.path", StringValue file); ("code.function.name", StringValue function); ("code.line.number", Int64Value line)] else [].
Definition group_attrs (h : Handler) (l : list Attr) : list KeyValue :=
  match h_group h, l with
  | g :: next, _ :: _ => [group_KeyValue g next (AddAttrs l)]
  | (_ :: _) as gs, [] => match NextNonEmpty gs with g :: next => [group_KeyValue g next []] | [] => [] end
  | [], l => AddAttrs l
  end.
Definition convertRecord (h : Handler) (r : slog_Record) : log_Record :=
  mkLog (Time r) (StringValue (Message r)) (Level r + sevOffset) (source_attrs h r ++ h_attrs h ++ group_attrs h (Attrs r)).
Definition Enabled (logger_enabled : Z -> bool) (h : Handler) (l : Z) : bool := if l <? level h then false else logger_enabled (l + sevOffset).
Definition Handle (Emit : log_Record -> unit) (h : Handler) (r : slog_Record) : unit := Emit (convertRecord h r).

(** ** The nesting that slog asks for *)

Inductive op : Type := OAttrs (l : list Attr) | OGroup (n : string).
Definition derive (h : Handler) (ops : list op) : Handler := foldl (fun h o => match o with OAttrs l => WithAttrs h l | OGroup n => WithGroup h n end) h ops.
(** What the calls mean: the attributes that come after a group are in it, and
    a group that has none is not written. *)
Definition in_group (n : string) (kvs : list KeyValue) : list KeyValue := match kvs with [] => [] | _ => [(n, MapValue kvs)] end.
Fixpoint nested (ops : list op) (rec : list KeyValue) : list KeyValue :=
  match ops with
  | [] => rec
  | OAttrs l :: ops => AddAttrs l ++ nested ops rec
  | OGroup n :: ops => in_group n (nested ops rec)
  end.
(** The same, read off the groups of a handler from the leaf outwards. *)
Fixpoint wrap (gs : list group) (inner : list KeyValue) : list KeyValue :=
  match gs with
  | [] => inner
  | g :: gs => wrap gs (in_group (name g) (attrs g ++ inner))
  end.
Definition meaning (h : Handler) (inner : list KeyValue) : list KeyValue := h_attrs h ++ wrap (h_group h) inner.

Lemma AddAttrs_app l l' : AddAttrs (l ++ l') = AddAttrs l ++ AddAttrs l'.
Proof. apply bind_app. Qed.
Lemma meaning_WithAttrs h l inner : meaning (WithAttrs h l) inner = meaning h (AddAttrs l ++ inner).
Proof.
  unfold meaning, WithAttrs. destruct (h_group h) as [|g gs]; cbn.
  - by rewrite <- app_assoc.
  - unfold group_AddAttrs. cbn. by rewrite <- app_assoc.
Qed.
Lemma meaning_WithGroup h n inner : meaning (WithGroup h n) inner = meaning h (in_group n inner).
Proof. done. Qed.
Lemma meaning_derive ops : forall h inner, meaning (derive h ops) inner = meaning h (nested ops inner).
Proof.
  induction ops as [|[l|n] ops IH]; intros h inner; [done|..]; cbn [derive foldl nested]; rewrite IH.
  - apply meaning_WithAttrs.
  - apply meaning_WithGroup.
Qed.

Definition filled (g : group) : Prop := attrs g <> [].
Lemma enclose_wrap gs out : Forall filled gs -> [enclose out gs] = wrap gs [out].
Proof.
  intros H. revert out. induction H as [|g gs Hg _ IH]; intros out; [done|]. cbn. rewrite IH.
  unfold filled in Hg. destruct (attrs g) as [|a l] eqn:E; done.
Qed.
Lemma group_attrs_meaning h l : Forall filled (h_group h) -> (AddAttrs l = [] -> l = []) -> group_attrs h l = wrap (h_group h) (AddAttrs l).
Proof.
  intros H Hl. unfold group_attrs. destruct (h_group h) as [|g gs]; [done|]. inversion H as [|? ? Hg Hgs]; subst. unfold filled in Hg.
  assert (Hc : forall inner, wrap (g :: gs) inner = wrap gs [(name g, MapValue (attrs g ++ inner))]).
  { intros inner. cbn. by destruct (attrs g). }
  rewrite Hc. destruct l as [|a l].
  - cbn [NextNonEmpty AddAttrs mbind list_bind]. destruct (attrs g) as [|x y] eqn:E; [done|]. unfold group_KeyValue.
    rewrite enclose_wrap by done. by rewrite E.
  - unfold group_KeyValue. by rewrite enclose_wrap.
Qed.

(** The filled groups of a handler made by calls. *)
Fixpoint groups_filled (ops : list op) : Prop :=
  match ops with
  | [] => True
  | OGroup _ :: ops => match ops with OAttrs l :: _ => AddAttrs l <> [] | _ => False end /\ groups_filled ops
  | OAttrs _ :: ops => groups_filled ops
  end.
Definition leaf_ok (h : Handler) (ops : list op) : Prop :=
  Forall filled (tail (h_group h)) /\
  match h_group h with g :: _ => filled g \/ match ops with OAttrs l :: _ => AddAttrs l <> [] | _ => False end | [] => True end.
Lemma derive_filled ops : forall h, groups_filled ops -> leaf_ok h ops -> Forall filled (h_group (derive h ops)).
Proof.
  induction ops as [|o ops IH]; intros h Hg [Ht Hl].
  - cbn. destruct (h_group h) as [|g gs]; [done|]. destruct Hl as [Hl|[]]. by constructor.
  - destruct o as [l|n].
    + apply IH; [done|]. unfold WithAttrs. destruct (h_group h) as [|g gs] eqn:E; [by split|].
      split; [done|]. cbn. left. unfold filled, group_AddAttrs. cbn. destruct Hl as [Hl|Hl].
      * unfold filled in Hl. by destruct (attrs g).
      * intros [_ H]%app_eq_nil. done.
    + destruct Hg as [Hn Hg]. apply IH; [done|]. split; [|cbn; by right]. cbn.
      destruct (h_group h) as [|g gs]; [done|]. destruct Hl as [Hl|[]]. by constructor.
Qed.

(** When every group is given attributes, the record has the attributes of
    the calls and its own in the nesting of the calls. *)
Theorem groups_nested ops src lv r : groups_filled ops -> (AddAttrs (Attrs r) = [] -> Attrs r = []) ->
  let h := derive (mkHandler [] [] lv src) ops in
  Attributes (convertRecord h r) = source_attrs h r ++ nested ops (AddAttrs (Attrs r)).
Proof.
  intros Hg Hr h. unfold convertRecord. cbn [Attributes]. f_equal.
  rewrite group_attrs_meaning by (done || by apply derive_filled).
  change (h_attrs h ++ wrap (h_group h) (AddAttrs (Attrs r))) with (meaning h (AddAttrs (Attrs r))).
  unfold h. by rewrite meaning_derive.
Qed.
Definition rec_of (l : list Attr) : slog_Record := mkRecord 0 "m" LevelInfo l ("f.go", "F", 3).
Lemma groups_nested_witness :
  Attributes (convertRecord (derive (mkHandler [] [] 0 false) [OAttrs [("a", KindInt64 1)]; OGroup "G"; OAttrs [("b", KindInt64 2)]]) (rec_of [("c", KindInt64 3)])) =
  [("a", Int64Value 1); ("G", MapValue [("b", Int64Value 2); ("c", Int64Value 3)])].
Proof.
  rewrite (groups_nested [OAttrs [("a", KindInt64 1)]; OGroup "G"; OAttrs [("b", KindInt64 2)]] false 0 (rec_of [("c", KindInt64 3)])).
  - vm_compute. reflexivity.
  - cbn. split; [|exact I]. intros H. discriminate H.
  - intros H. discriminate H.
Defined.

(** A group without attributes of its own around one that has some is lost. *)
Example outer_group_lost :
  let ops := [OGroup "G"; OGroup "H"; OGroup "I"] in
  Attributes (convertRecord (derive (mkHandler [] [] 0 false) ops) (rec_of [("key", KindString "value")])) = [("I", MapValue [("key", StringValue "value")])] /\
  nested ops (AddAttrs [("key", KindString "value")]) = [("G", MapValue [("H", MapValue [("I", MapValue [("key", StringValue "value")])])])].
Proof. vm_compute. done. Qed.
(** The group of a record whose attributes are all dropped is written empty. *)
Example empty_group_written :
  Attributes (convertRecord (derive (mkHandler [] [] 0 false) [OGroup "G"]) (rec_of [("", KindAny ANil)])) = [("G", MapValue [])].
Proof. vm_compute. reflexivity. Qed.
(** An integer that does not fit is a float as an attribute and a text as any
    value. *)
Lemma large_uint u : max_int64 < u -> convert (KindUint64 u) = Float64Value (f_of_Z u) /\ convert (KindAny (AUint u)) = StringValue (FormatUint u).
Proof. intros H. cbn. unfold convertUintValue. by replace (max_int64 <? u) with true by lia. Qed.
(** Levels below that of the handler are not logged, whatever the logger; the
    names of levels are read in any case and with space around them. *)
Lemma low_levels_dropped e h l : l < level h -> Enabled e h l = false.
Proof. intros H. unfold Enabled. by replace (l <? level h) with true by lia. Qed.
Example level_names : map parseLevelString [" warn"; "Warning"; "ERROR"; "debug"; "trace"] = [4; 4; 8; -4; 0].
Proof. vm_compute. reflexivity. Qed.
End OtelLog.
