(* ===== verification/Prof.v ===== *)
(** * Sampling profiles (pkg/prof/profile.go)

    A profile with its close functions, the status shared by all, and the
    goroutines that wait for the time to be up, as a transition system: calls
    of StartOrStop, a goroutine that arrives at its select, a timer that ends.
    What is written to the files is left out.  Theorems: samplings alternate
    and none is left running after its time; the profile is not reset, so its
    files are closed again by every later stop; a stop that comes before the
    goroutine waits leaves a timer that ends the next sampling. *)

From S2P Require Import Prelude GoStr Files.
From Stdlib Require Import Ascii.
From Stdlib Require String.

Module Prof.

(** A close function is that of the file of a kind, by the number of the
    sampling. *)
Record opened : Type := mkOpened { session : nat; profileName : string }.
#[export] Instance opened_eq_dec : EqDecision opened.
Proof. solve_decision. Defined.

Record state : Type := mkState {
  status : bool;              (* true: statusStart *)
  closeFns : list opened;     (* of the profile *)
  starting : list nat;        (* goroutines before their select, by sampling *)
  waiting : list nat;         (* goroutines in their select *)
  sessions : nat;             (* samplings so far *)
  calls : list opened }.      (* the close functions called, latest first *)
Definition NewProfile : state := mkState false [] [] [] 0 [].

Section Profile.
Variable isSamplingTrace : bool.
(** Whether the file of a kind can be created, for the number of the sampling
    (and for tracing, whether it starts). *)
Variable created : nat -> string -> bool.

Definition kinds : list string := ["cpu"; "mem"; "goroutine"; "block"; "mutex"; "threadcreate"] ++ (if isSamplingTrace then ["trace"] else []).
Definition start_all (n : nat) : list opened := mkOpened n <$> filter (fun k => created n k = true) kinds.
Definition startProfile (s : state) : state :=
  mkState (status s) (closeFns s ++ start_all (sessions s)) (starting s ++ [sessions s]) (waiting s) (S (sessions s)) (calls s).
(** The one that is told is the first that waits, if one does; the profile
    that the last line makes is a local variable. *)
Definition stopProfile (s : state) : state :=
  match closeFns s with
  | [] => s
  | fns => mkState (status s) fns (starting s) (tail (waiting s)) (sessions s) (rev fns ++ calls s)
  end.
Definition set_status (b : bool) (s : state) : state := mkState b (closeFns s) (starting s) (waiting s) (sessions s) (calls s).
Definition StartOrStop (s : state) : state := if status s then stopProfile (set_status false s) else startProfile (set_status true s).

(** [checkTimeout]: the goroutine of a sampling arrives; its time is up. *)
Definition arrive (i : nat) (s : state) : state :=
  mkState (status s) (closeFns s) (filter (fun j => j <> i) (starting s)) (waiting s ++ [i]) (sessions s) (calls s).
Definition timeout (i : nat) (s : state) : state :=
  let s := mkState (status s) (closeFns s) (starting s) (filter (fun j => j <> i) (waiting s)) (sessions s) (calls s) in
  if status s then stopProfile (set_status false s) else s.

Inductive prof_step : state -> state -> Prop :=
  | step_signal s : prof_step s (StartOrStop s)
  | step_arrive s i : i ∈ starting s -> prof_step s (arrive i s)
  | step_timeout s i : i ∈ waiting s -> prof_step s (timeout i s).

(** ** A sampling ends by its time *)

(** The goroutines are those of samplings that were started, each once, and
    the one of the sampling that runs is among them. *)
Record prof_inv (s : state) : Prop := {
  inv_nodup : NoDup (starting s ++ waiting s);
  inv_old : forall i, i ∈ starting s ++ waiting s -> (i < sessions s)%nat;
  inv_running : status s = true -> exists n, sessions s = S n }.

Lemma filter_NoDup_ne (i : nat) (l : list nat) : NoDup l -> NoDup (filter (fun j => j <> i) l).
Proof. apply NoDup_filter. Qed.
Lemma stopProfile_inv s : prof_inv s -> prof_inv (stopProfile s).
Proof.
  intros [H1 H2 H3]. unfold stopProfile. destruct (closeFns s) as [|f fns]; [by split|]. split; cbn; [| |done].
  - destruct (waiting s) as [|w ws]; [done|]. cbn. apply NoDup_app in H1 as (Ha & Hb & Hc). apply NoDup_app. split; [done|]. split; [set_solver|].
    by inversion Hc.
  - intros i Hi. apply H2. destruct (waiting s); set_solver.
Qed.
Lemma set_status_inv s : prof_inv s -> prof_inv (set_status false s).
Proof. intros [H1 H2 H3]. by split. Qed.
Lemma prof_step_inv s s' : prof_step s s' -> prof_inv s -> prof_inv s'.
Proof.
  intros Hs Hi. pose proof Hi as [H1 H2 H3]. destruct Hs as [s|s i Hin|s i Hin].
  - unfold StartOrStop. destruct (status s) eqn:E; [by apply stopProfile_inv, set_status_inv|]. split; cbn; [| |by eexists].
    + assert (Hp : (starting s ++ [sessions s]) ++ waiting s ≡ₚ sessions s :: starting s ++ waiting s) by solve_Permutation.
      rewrite Hp. constructor; [|done]. intros Hin%H2. lia.
    + intros i Hi'. assert (Hc : i = sessions s \/ i ∈ starting s ++ waiting s) by set_solver. destruct Hc as [->|Hc]; [lia|]. apply H2 in Hc. lia.
  - split; cbn; [| |done].
    + apply NoDup_app in H1 as (Ha & Hb & Hc). apply NoDup_app. split; [by apply NoDup_filter|]. split.
      * intros j [Hj Hj']%list_elem_of_filter. set_solver.
      * apply NoDup_app. split; [done|]. split; [|apply NoDup_singleton]. intros j Hj. specialize (Hb i Hin). set_solver.
    + intros j Hj. apply H2. revert Hj. rewrite !elem_of_app, list_elem_of_filter. set_solver.
  - unfold timeout. cbn. assert (Hj : prof_inv (mkState (status s) (closeFns s) (starting s) (filter (fun j => j <> i) (waiting s)) (sessions s) (calls s))).
    { split; cbn; [| |done].
      - apply NoDup_app in H1 as (Ha & Hb & Hc). apply NoDup_app. split; [done|]. split; [|by apply NoDup_filter].
        intros j Hj [_ Hj']%list_elem_of_filter. by apply (Hb j).
      - intros j Hj. apply H2. revert Hj. rewrite !elem_of_app, list_elem_of_filter. tauto. }
    destruct (status s) eqn:E; [|done]. apply stopProfile_inv, (set_status_inv _ Hj).
Qed.
Lemma prof_reachable_inv s : star prof_step NewProfile s -> prof_inv s.
Proof. intros H. eapply star_invariant; [apply prof_step_inv|exact H|]. split; cbn; [constructor|set_solver|done]. Qed.

Lemma stop_status s : status (stopProfile s) = status s.
Proof. unfold stopProfile. by destruct (closeFns s). Qed.
(** After the time of any goroutine nothing is sampled, whoever it was for. *)
Lemma timeout_stops s i : status (timeout i s) = false.
Proof. unfold timeout. cbn. destruct (status s) eqn:E; [|done]. unfold stopProfile. cbn. by destruct (closeFns s). Qed.
(** Two calls are a sampling and its end. *)
Lemma start_then_stop s : status (StartOrStop (StartOrStop s)) = status s.
Proof.
  unfold StartOrStop. destruct (status s) eqn:E; cbn.
  - unfold stopProfile. cbn. by destruct (closeFns s) as [|f fns].
  - by rewrite stop_status.
Qed.

(** ** The profile is not reset *)

(** A stop calls every close function that there ever was, those of earlier
    samplings as well, and keeps them for the next. *)
Theorem closed_by_every_stop s o : status s = true -> o ∈ closeFns s ->
  (count_occ opened_eq_dec (calls s) o < count_occ opened_eq_dec (calls (StartOrStop s)) o)%nat /\ o ∈ closeFns (StartOrStop s).
Proof.
  intros Hs Ho. unfold StartOrStop. rewrite Hs. unfold stopProfile. change (closeFns (set_status false s)) with (closeFns s).
  pose proof (proj1 (list_elem_of_In _ _) Ho) as Hc. apply in_rev, (count_occ_In opened_eq_dec) in Hc.
  destruct (closeFns s) as [|f fns]; [by apply not_elem_of_nil in Ho|]. cbn [calls closeFns set_status]. split; [|done].
  rewrite count_occ_app. lia.
Qed.
End Profile.

Definition all_created (_ : nat) (_ : string) : bool := true.
Lemma closed_by_every_stop_witness :
  let s := Nat.iter 3 (StartOrStop false all_created) NewProfile in
  (count_occ opened_eq_dec (calls s) (mkOpened 0 "mem") < count_occ opened_eq_dec (calls (StartOrStop false all_created s)) (mkOpened 0 "mem"))%nat /\
  mkOpened 0 "mem" ∈ closeFns (StartOrStop false all_created s).
Proof. apply closed_by_every_stop; [vm_compute; reflexivity|]. apply (bool_decide_unpack _). vm_compute. exact I. Defined.
(** A stop before the goroutine waits is not told to it: its timer ends the
    next sampling, which then ran for less than its time. *)
Example stale_timer :
  let s := arrive 0 (StartOrStop false all_created (StartOrStop false all_created NewProfile)) in
  let s := StartOrStop false all_created s in
  status s = true /\ waiting s = [0%nat] /\ starting s = [1%nat] /\ status (timeout 0 s) = false.
Proof. vm_compute. done. Qed.

(** ** Names of files *)

Definition joinPath (windows : bool) (elem : list string) : string :=
  let dir := Join elem "/" in if windows then ReplaceChar dir "/" (single Files.backslash) else dir.
Definition getServerName (windows : bool) (arg0 : string) : string :=
  let name := snd (Files.SplitPath windows arg0) in TrimSuffix name (Files.ext name).
Definition getFilePath (windows : bool) (tempDir serverName stamp profileName : string) (pid : Z) : string :=
  let dir := joinPath windows [tempDir; serverName +:+ "_profile"] in
  joinPath windows [dir; stamp +:+ "_" +:+ Itoa pid +:+ "_" +:+ serverName +:+ "_" +:+ profileName +:+ ".out"].
Example a_file : getFilePath false "/tmp" (getServerName false "/usr/bin/user.exe") "20240101T000000" "cpu" 7 = "/tmp/user_profile/20240101T000000_7_user_cpu.out".
Proof. vm_compute. reflexivity. Qed.
End Prof.
