(* ===== verification/GenRun.v ===== *)
(** * Running the generating commands (cmd/milady/commands/generate)

    The RunE functions: the names from the flags or from the output directory,
    the tables one after the other (pkg/sql2code, SqlGen.v, then the
    generateCode of GenCommands.v), all into one directory, and the
    configuration map at the end.  Flags are a record; what is printed is left
    out.  Theorems: empty names of tables do not matter and a run is the
    composition of the runs for its tables, up to the first that fails; where
    names come from; two servers get no configuration map. *)

From S2P Require Import Prelude GoStr Files Replacer SqlNames SqlFields SqlCode SqlGen GenCommon GenTexts GenRules GenCommands.
From Stdlib Require Import Ascii.

Module GenRun.
Import SqlNames SqlFields SqlCode Files Replacer GenCommon GenTexts GenRules GenCommands.

(** What the user gave; each command has a part of it. *)
Record flags : Type := mkFlags {
  f_moduleName : string; f_serverName : string; f_projectName : string; f_repoAddr : string; f_protobufFile : string;
  f_dbTables : string; f_outPath : string; f_suitedMonoRepo : bool; sqlArgs : SqlGen.Args }.

(** Errors: a flag that is missing, pkg/sql2code, the generation. *)
Inductive run_error : Type := ErrFlag (name : string) | ErrSql2code (e : SqlCode.error) | ErrGen (e : GenCommon.error).

(** The disk and the shared replacer. *)
Definition world : Type := node * option replacerInfo.
Definition run (A : Type) : Type := option (world * result run_error A).
Definition next {A B} (m : run A) (f : world -> A -> run B) : run B :=
  match m with
  | None => None
  | Some (w, Ok a) => f w a
  | Some (w, Err e) => Some (w, Err e)
  | Some (w, Panic) => Some (w, Panic)
  end.
Definition gen_err {A} (m : result GenCommon.error A) : result run_error A :=
  match m with Ok a => Ok a | Err e => Err (ErrGen e) | Panic => Panic end.
(** A command with a replacer of its own, and one with the shared replacer. *)
Definition own (generateCode : node -> outcome string) (w : world) : run string :=
  match generateCode w.1 with Some (d, m) => Some ((d, w.2), gen_err m) | None => None end.
Definition with_shared (generateCode : node -> option replacerInfo -> outcome string * option replacerInfo) (w : world) : run string :=
  let '(m, r) := generateCode w.1 w.2 in
  match m with Some (d, m) => Some ((d, r), gen_err m) | None => None end.

Lemma next_assoc {A B C} (m : run A) (f : world -> A -> run B) (g : world -> B -> run C) :
  next (next m f) g = next m (fun w a => next (f w a) g).
Proof. by destruct m as [[w [a|e|]]|]. Qed.
Lemma next_ret {A} (m : run A) : next m (fun w a => Some (w, Ok a)) = m.
Proof. by destruct m as [[w [a|e|]]|]. Qed.

Section Run.
Context `{Machine} `{Words} `{Outside} `{SqlGen.Databases}.
Variable nouns : list (string * string).
(** The format of the tags of mongodb documents. *)
Variable tag_format : Z.

(** ** Tables *)

(** [reset]: with mongodb nothing is embedded. *)
Definition for_table (reset : bool) (table : string) (a : SqlGen.Args) : SqlGen.Args :=
  SqlGen.mkArgs (SqlGen.SQL a) (SqlGen.DDLFile a) (SqlGen.ADBDriver a) (SqlGen.DBDsn a) table (SqlGen.fieldTypes a) (SqlGen.APackage a)
    (SqlGen.AGormType a) (SqlGen.AJSONTag a) (SqlGen.AJSONNamedType a)
    (if reset && bool_decide (SqlGen.ADBDriver a = DBDriverMongodb) then false else SqlGen.AIsEmbed a) (SqlGen.AIsWebProto a) (SqlGen.CodeType a)
    (SqlGen.AForceTableName a) (SqlGen.ACharset a) (SqlGen.ACollation a) (SqlGen.ATablePrefix a) (SqlGen.AColumnPrefix a)
    (SqlGen.ANoNullType a) (SqlGen.ANullStyle a) (SqlGen.AIsExtendedAPI a) (SqlGen.AIsCustomTemplate a).
(** sql2code.Generate writes the driver and the types of the columns into the
    arguments it is given. *)
Definition args_after (a : SqlGen.Args) : SqlGen.Args :=
  match SqlGen.checkValid a with
  | Ok a => match SqlGen.getSQL tag_format a with
            | Ok (_, Some types) => SqlGen.with_driver (SqlGen.ADBDriver a) (Some types) a
            | _ => a
            end
  | _ => a
  end.
Definition generated (a : SqlGen.Args) : result run_error (list (string * string)) :=
  match SqlGen.Generate nouns tag_format a with Ok codes => Ok codes | Err e => Err (ErrSql2code e) | Panic => Panic end.

(** One table, and the tables in turn: the arguments and the directory are
    those that the last one left. *)
Definition state : Type := SqlGen.Args * string.
Definition gen_step : Type := state -> list (string * string) -> world -> run string.
Definition one_table (reset : bool) (generate : gen_step) (s : state) (w : world) (table : string) : run state :=
  if bool_decide (table = "") then Some (w, Ok s)
  else
    let a := for_table reset table s.1 in
    match generated a with
    | Ok codes => next (generate (args_after a, s.2) codes w) (fun w out => Some (w, Ok (args_after a, out)))
    | Err e => Some (w, Err e)
    | Panic => Some (w, Panic)
    end.
Fixpoint all_tables (reset : bool) (generate : gen_step) (s : state) (w : world) (tables : list string) : run state :=
  match tables with
  | [] => Some (w, Ok s)
  | table :: tables => next (one_table reset generate s w table) (fun w s => all_tables reset generate s w tables)
  end.
Definition out_of {A} (m : run (A * string)) : run string := next m (fun w s => Some (w, Ok s.2)).

Record names : Type := mkNames { n_module : string; n_server : string; n_out : string; n_mono : bool }.
(** The generator for a table. *)
Definition table_generator (n : names) (s : state) (codes : list (string * string)) : generator :=
  mkGenerator (n_module n) (n_server n) "" "" "" (SqlGen.ADBDriver s.1) "" codes s.2 (SqlGen.AIsEmbed s.1) (SqlGen.AIsExtendedAPI s.1) (n_mono n) [] false.
Definition by_table (c : table_command) (n : names) : gen_step :=
  fun s codes => own (fun d => table_generateCode d c (table_generator n s codes)).
Definition tables_of (f : flags) : list string := Split (f_dbTables f) ",".

(** ** Names (the beginnings of the RunE functions) *)

(** dao.go, store.go, handler.go, cache.go, rpc-conn.go: the server is only
    asked for in a mono-repo. *)
Definition names_mono (d : node) (f : flags) : result run_error names :=
  let '(mdName, srvName, smr) := getNamesFromOutDir windows cwd d (f_outPath f) in
  if bool_decide (mdName = "") && bool_decide (f_moduleName f = "") then Err (ErrFlag "module-name")
  else
    let '(moduleName, serverName, mono) :=
      if bool_decide (mdName = "") then (f_moduleName f, f_serverName f, f_suitedMonoRepo f) else (mdName, srvName, smr) in
    if mono then
      if bool_decide (serverName = "") then Err (ErrFlag "server-name")
      else let serverName := convertServerName serverName in
           Ok (mkNames moduleName serverName (changeOutPath windows (f_outPath f) serverName) mono)
    else Ok (mkNames moduleName serverName (f_outPath f) mono).
(** service.go, handler-pb.go, service-handler.go: both are asked for. *)
Definition names_both (d : node) (f : flags) : result run_error names :=
  let '(mdName, srvName, smr) := getNamesFromOutDir windows cwd d (f_outPath f) in
  if bool_decide (mdName = "") && bool_decide (f_moduleName f = "") then Err (ErrFlag "module-name")
  else
    let '(moduleName, mono) := if bool_decide (mdName = "") then (f_moduleName f, f_suitedMonoRepo f) else (mdName, smr) in
    if bool_decide (srvName = "") && bool_decide (f_serverName f = "") then Err (ErrFlag "server-name")
    else
      let serverName := convertServerName (if bool_decide (srvName = "") then f_serverName f else srvName) in
      Ok (mkNames moduleName serverName (if mono then changeOutPath windows (f_outPath f) serverName else f_outPath f) mono).
(** protobuf.go: the directory is left as it is. *)
Definition names_protobuf (d : node) (f : flags) : result run_error names :=
  let '(mdName, srvName, _) := getNamesFromOutDir windows cwd d (f_outPath f) in
  if bool_decide (mdName = "") && bool_decide (f_moduleName f = "") then Err (ErrFlag "module-name")
  else if bool_decide (srvName = "") && bool_decide (f_serverName f = "") then Err (ErrFlag "server-name")
  else Ok (mkNames (if bool_decide (mdName = "") then f_moduleName f else mdName)
             (convertServerName (if bool_decide (srvName = "") then f_serverName f else srvName)) (f_outPath f) false).
(** The servers: the project in kebab case, the server without hyphens. *)
Definition names_server (f : flags) : result run_error (string * names) :=
  match convertProjectAndServerName ToKebabCase (f_projectName f) (f_serverName f) with
  | (_, _, Some e) => Err (ErrGen e)
  | (projectName, serverName, None) =>
      Ok (projectName, mkNames (f_moduleName f) serverName
        (if f_suitedMonoRepo f then changeOutPath windows (f_outPath f) serverName else f_outPath f) (f_suitedMonoRepo f))
  end.
Definition named {A B} (m : result run_error A) (w : world) (k : A -> run B) : run B :=
  match m with Ok a => k a | Err e => Some (w, Err e) | Panic => Some (w, Panic) end.

(** ** Commands for tables *)

Definition table_RunE (c : table_command) (f : flags) (w : world) : run string :=
  named (match c with Dao | Store | Handler => names_mono w.1 f | Service | HandlerPb | ServiceHandler => names_both w.1 f end) w
    (fun n => out_of (all_tables true (by_table c n) (sqlArgs f, n_out n) w (tables_of f))).
Definition dao_RunE := table_RunE Dao.
Definition store_RunE := table_RunE Store.
Definition handler_RunE := table_RunE Handler.
Definition service_RunE := table_RunE Service.
Definition handlerPb_RunE := table_RunE HandlerPb.
Definition serviceHandler_RunE := table_RunE ServiceHandler.
Definition model_RunE (f : flags) (w : world) : run string :=
  let n := mkNames "" "" (f_outPath f) false in
  out_of (all_tables true (fun s codes => with_shared (fun d => model_generateCode d (table_generator n s codes))) (sqlArgs f, f_outPath f) w (tables_of f)).
Definition protobuf_RunE (f : flags) (w : world) : run string :=
  named (names_protobuf w.1 f) w (fun n =>
    out_of (all_tables true (fun s codes => with_shared (fun d => protobuf_generateCode d (table_generator n s codes))) (sqlArgs f, n_out n) w (tables_of f))).

(** cache.go: the prefix ends with a colon. *)
Definition cache_prefix (cacheName prefixKey : string) : string :=
  if bool_decide (prefixKey = "" \/ prefixKey = ":") then cacheName +:+ ":"
  else if HasSuffix prefixKey ":" then prefixKey else prefixKey +:+ ":".
Definition cache_RunE (c : stringCacheGenerator) (f : flags) (w : world) : run string :=
  named (names_mono w.1 f) w (fun n =>
    let cacheName := ReplaceAll (cacheName c) ":" "" in
    let c := mkCacheGenerator cacheName (cache_prefix cacheName (prefixKey c)) (keyName c) (keyType c) (valueName c) (valueType c) in
    with_shared (fun d => cache_generateCode d c (table_generator n (sqlArgs f, n_out n) [])) w).
(** rpc-conn.go: the names in turn. *)
Fixpoint all_conns (n : names) (a : SqlGen.Args) (out : string) (w : world) (grpcNames : list string) : run string :=
  match grpcNames with
  | [] => Some (w, Ok out)
  | grpcName :: grpcNames =>
      if bool_decide (grpcName = "") then all_conns n a out w grpcNames
      else next (with_shared (fun d => grpcConn_generateCode d grpcName (table_generator n (a, out) [])) w)
             (fun w out => all_conns n a out w grpcNames)
  end.
Definition rpcConn_RunE (grpcServerNames : string) (f : flags) (w : world) : run string :=
  named (names_mono w.1 f) w (fun n => all_conns n (sqlArgs f) (n_out n) w (Split grpcServerNames ",")).

(** ** Servers *)

(** The error of the configuration map is dropped. *)
Definition configmap (serverName out : string) (w : world) : run string :=
  match generateConfigmap windows cwd w.1 serverName out with
  | (d, Panic) => Some ((d, w.2), Panic)
  | (d, _) => Some ((d, w.2), Ok out)
  end.
Definition server_generator (f : flags) (projectName : string) (n : names) (s : state) (codes : list (string * string)) : generator :=
  mkGenerator (n_module n) (n_server n) projectName (f_repoAddr f) (SqlGen.DBDsn s.1) (SqlGen.ADBDriver s.1) (f_protobufFile f) codes s.2
    (SqlGen.AIsEmbed s.1) (SqlGen.AIsExtendedAPI s.1) (n_mono n) [] false.
(** http.go and rpc.go: the server with the first table, even when it has no
    name, then the handlers or services of the others. *)
Definition server_RunE (generateCode : node -> generator -> outcome string) (c : table_command) (f : flags) (w : world) : run string :=
  named (names_server f) w (fun '(projectName, n) =>
    let tables := tables_of f in
    let a := for_table true (default "" (head tables)) (sqlArgs f) in
    match generated a with
    | Err e => Some (w, Err e)
    | Panic => Some (w, Panic)
    | Ok codes =>
        let a := args_after a in
        next (next (own (fun d => generateCode d (server_generator f projectName n (a, n_out n) codes)) w)
                (fun w out => out_of (all_tables true (by_table c n) (a, out) w (tail tables))))
          (fun w out => configmap (n_server n) out w)
    end).
Definition http_RunE : flags -> world -> run string := server_RunE (fun d => http_generateCode d) Handler.
Definition rpc_RunE : flags -> world -> run string := server_RunE (fun d => rpc_generateCode d) Service.

(** The servers of protobuf files: [keeps] tells whether the directory of the
    output is kept for the configuration map. *)
Definition pb_RunE (generateCode : node -> generator -> option replacerInfo -> outcome string * option replacerInfo) (keeps : bool)
    (f : flags) (w : world) : run string :=
  named (names_server f) w (fun '(projectName, n) =>
    next (with_shared (fun d => generateCode d (server_generator f projectName n (sqlArgs f, n_out n) [])) w)
      (fun w out => configmap (n_server n) (if keeps then out else n_out n) w)).
Definition httpPb_RunE := pb_RunE (fun d => httpPb_generateCode d) true.
Definition rpcPb_RunE := pb_RunE (fun d => rpcPb_generateCode d) false.
Definition rpcGwPb_RunE := pb_RunE (fun d => rpcGwPb_generateCode d) false.
Definition grpcHttpPb_RunE := pb_RunE (fun d => grpcHttpPb_generateCode d true false []) true.
(** grpc-http.go: the server with the code for the database, then the tables;
    the configuration map is made before and after them. *)
Definition of_rules (m : T (list Field)) (w : world) (k : list Field -> run string) : run string :=
  match m with Some (Ok l) => k l | Some (Err e) => Some (w, Err (ErrGen e)) | Some Panic => Some (w, Panic) | None => None end.
Definition grpcHttp_RunE (f : flags) (w : world) : run string :=
  named (names_server f) w (fun '(projectName, n) =>
    let g := server_generator f projectName n (sqlArgs f, n_out n) [] in
    of_rules (extraFields g) w (fun extraReplaceFields =>
      next (next (with_shared (fun d => grpcHttpPb_generateCode d false true extraReplaceFields g) w)
              (fun w out => configmap (n_server n) out w))
        (fun w out => next (out_of (all_tables false (by_table ServiceHandler n) (sqlArgs f, out) w (tables_of f)))
                        (fun w out => configmap (n_server n) out w)))).

(** configmap.go. *)
Definition configmap_RunE (configFile : string) (f : flags) (w : world) : run string :=
  named (gen_err (convertYamlConfig windows cwd w.1 configFile)) w (fun content =>
    with_shared (fun d => configmap_generateCode d content
      (server_generator f (f_projectName f) (mkNames "" (f_serverName f) (f_outPath f) false) (sqlArgs f, f_outPath f) [])) w).

(** ** Configuration files (config.go) *)

Record configType : Type := mkConfig { configFile : string; isConfigCenter : bool }.
Inductive yaml_error : Type := ErrNoConfig (dir : string) | ErrMixed | ErrList (e : errno).
(** The Go file of every YAML file; [None] when the fuel of the listing runs
    out.  Files of one name in two directories have one Go file. *)
Definition getYAMLFile (d : node) (serverDir : string) : option (result yaml_error (gmap string configType)) :=
  let sep := GetPathDelimiter windows in
  let configsDir := serverDir +:+ sep +:+ "configs" in
  let goConfigDir := serverDir +:+ sep +:+ "internal" +:+ sep +:+ "config" in
  let entry suffix cc := fun (m : gmap string configType) file =>
    let name := GetFilename windows file in
    <[goConfigDir +:+ sep +:+ ReplaceAll name suffix ".go" := mkConfig file (Contains name cc)]> m in
  match ListFiles windows cwd fuel d configsDir [WithSuffix ".yml"], ListFiles windows cwd fuel d configsDir [WithSuffix ".yaml"] with
  | Some (_, Some e), _ => Some (Err (ErrList e))
  | Some (_, None), Some (_, Some e) => Some (Err (ErrList e))
  | Some (ymlFiles, None), Some (yamlFiles, None) =>
      match ymlFiles, yamlFiles with
      | [], [] => Some (Err (ErrNoConfig configsDir))
      | _ :: _, _ :: _ => Some (Err ErrMixed)
      | _ :: _, [] => Some (Ok (foldl (entry ".yml" "cc.yml") ∅ ymlFiles))
      | [], _ :: _ => Some (Ok (foldl (entry ".yaml" "cc.yaml") ∅ yamlFiles))
      end
  | _, _ => None
  end.

(** ** The start (init.go) *)

Definition isShowCommand (args : list string) : bool :=
  match args with
  | [_] => true
  | [_; a] => bool_decide (a = "init") || bool_decide (a = "-h")
  | a :: b :: c :: _ => Contains (a +:+ b +:+ c) "init"
  | [] => false
  end.
Inductive init_error : Type := NotInitialized | InitList (e : Replacer.error).
(** The shared replacer, when the templates are there; a second start panics. *)
Definition Init (args : list string) (w : world) : option (world * result init_error unit) :=
  if negb (IsExists windows cwd w.1 MiladyDir) then
    Some (w, if isShowCommand args then Ok tt else Err NotInitialized)
  else match w.2 with
       | Some _ => Some (w, Panic)
       | None => match New_ windows cwd fuel w.1 MiladyDir with
                 | Some (Ok r) => Some ((w.1, Some r), Ok tt)
                 | Some (Err e) => Some (w, Err (InitList e))
                 | Some Panic => Some (w, Panic)
                 | None => None
                 end
       end.

(** ** What a run does *)

(** A run over two lists of tables is the second after the first: a table
    that fails ends it, with the files of those before. *)
Lemma all_tables_app reset generate s w l1 l2 :
  all_tables reset generate s w (l1 ++ l2) = next (all_tables reset generate s w l1) (fun w s => all_tables reset generate s w l2).
Proof.
  revert s w. induction l1 as [|t l1 IH]; intros s w; [done|]. cbn [app all_tables]. rewrite next_assoc.
  destruct (one_table reset generate s w t) as [[w' [s'|e|]]|]; [apply IH|done..].
Qed.
(** Names that are empty do not count. *)
Theorem empty_tables_skipped reset generate s w l : all_tables reset generate s w l = all_tables reset generate s w (filter (fun t => t <> "") l).
Proof.
  revert s w. induction l as [|t l IH]; intros s w; [done|]. rewrite filter_cons. destruct (decide (t <> "")) as [Ht|Ht].
  - cbn [all_tables]. destruct (one_table reset generate s w t) as [[w' [s'|e|]]|]; [apply IH|done..].
  - cbn [all_tables]. apply dec_stable in Ht as ->. unfold one_table. rewrite bool_decide_eq_true_2 by done. apply IH.
Qed.
Lemma stops_at_failure reset generate s w l1 t l2 w1 s1 w2 e : all_tables reset generate s w l1 = Some (w1, Ok s1) ->
  one_table reset generate s1 w1 t = Some (w2, Err e) -> all_tables reset generate s w (l1 ++ t :: l2) = Some (w2, Err e).
Proof. intros Ha Hb. rewrite all_tables_app, Ha. cbn. by rewrite Hb. Qed.

(** The names of a directory that was generated before are taken from it; the
    flags do not count. *)
Lemma names_of_directory d f md srv mono : getNamesFromOutDir windows cwd d (f_outPath f) = (md, srv, mono) -> md <> "" -> srv <> "" ->
  exists n, names_mono d f = Ok n /\ n_module n = md /\ n_mono n = mono /\ n_server n = (if mono then convertServerName srv else srv) /\
  exists n', names_both d f = Ok n' /\ n_module n' = md /\ n_mono n' = mono /\ n_server n' = convertServerName srv.
Proof.
  intros E Hm Hs. unfold names_mono, names_both. rewrite E, !(bool_decide_eq_false_2 (md = "")) by done. cbn [andb].
  rewrite !(bool_decide_eq_false_2 (srv = "")) by done. destruct mono; cbn [andb]; rewrite ?(bool_decide_eq_false_2 (srv = "")) by done.
  - eexists. split; [reflexivity|]. do 3 (split; [reflexivity|]). eexists. split; [reflexivity|]. done.
  - eexists. split; [reflexivity|]. do 3 (split; [reflexivity|]). eexists. split; [reflexivity|]. done.
Qed.
(** Without a module, from the directory or a flag, nothing is generated. *)
Lemma module_required c d r f : (getNamesFromOutDir windows cwd d (f_outPath f)).1.1 = "" -> f_moduleName f = "" ->
  table_RunE c f (d, r) = Some ((d, r), Err (ErrFlag "module-name")).
Proof.
  intros E Hf. unfold table_RunE, names_mono, names_both. cbn [fst]. destruct (getNamesFromOutDir windows cwd d (f_outPath f)) as [[md srv] smr].
  cbn in E. subst md. rewrite Hf. by destruct c.
Qed.
(** The configuration map of the gRPC servers from protobuf files is looked
    for in the directory of the flag, which by default is not that of the
    output: nothing is changed. *)
Lemma rpc_pb_no_configmap f w projectName n out w' :
  names_server f = Ok (projectName, n) -> n_out n = "" ->
  with_shared (fun d => rpcPb_generateCode d (server_generator f projectName n (sqlArgs f, n_out n) [])) w = Some (w', Ok out) ->
  is_ok (Files.ReadFile windows cwd w'.1 ("/configs/" +:+ n_server n +:+ ".yml")) = false ->
  rpcPb_RunE f w = Some (w', Ok "") \/ rpcPb_RunE f w = Some (w', Panic).
Proof.
  intros Hn Ho Hg Hr. unfold rpcPb_RunE, pb_RunE. rewrite Hn. cbn [named]. rewrite Hg. cbn [next]. unfold configmap, generateConfigmap, convertYamlConfig.
  rewrite Ho. rewrite app_nil_l_s. destruct (Files.ReadFile _ _ _ _) as [x|e|] eqn:E; [done|..]; cbn.
  - left. by destruct w'.
  - right. by destruct w'.
Qed.
End Run.

Example prefixes : map (cache_prefix "user") [""; ":"; "token"; "token:"] = ["user:"; "user:"; "token:"; "token:"].
Proof. vm_compute. reflexivity. Qed.
(** Any command whose first arguments contain init counts as one that only
    shows. *)
Example initial_is_shown : isShowCommand ["milady"; "web"; "initial"] = true.
Proof. vm_compute. reflexivity. Qed.
End GenRun.
