(* ===== verification/Observe.v ===== *)
(** * Observability of requests (pkg/middleware/gin, pkg/middleware/grpc)

    observability.go of both: the paths that are skipped, the trace headers,
    the bodies that are captured and the log of a request.  slog, gin and the
    span of a request are what is read of them.  Theorems: what a pattern
    matches; a handler reads the body that was sent and the log has what it
    wrote; gRPC sends the metadata of a request back and loses its method when
    debugging. *)

From S2P Require Import Prelude GoStr.
From Stdlib Require Import Ascii.
From Stdlib Require String.

Module Observe.

(** ** Options *)

Definition TraceParentHeaderKey : string := "traceparent".
Definition TraceIDHeaderKey : string := "X-Trace-Id".
Inductive TraceInjectionMode : Type := InjectW3CTraceContext | InjectTraceIDOnly | InjectBoth | InjectNone.
Record ObservabilityOptions : Type := mkOptions {
  injection : TraceInjectionMode; CustomTraceHeader : string; SkipPaths : list string; SkipLogging : bool; SkipTracing : bool }.
Definition Option : Type := ObservabilityOptions -> ObservabilityOptions.
Definition WithTraceInjection (mode : TraceInjectionMode) : Option := fun o => mkOptions mode (CustomTraceHeader o) (SkipPaths o) (SkipLogging o) (SkipTracing o).
Definition WithCustomTraceHeader (headerName : string) : Option := fun o => mkOptions (injection o) headerName (SkipPaths o) (SkipLogging o) (SkipTracing o).
Definition WithSkipPaths (paths : list string) : Option := fun o => mkOptions (injection o) (CustomTraceHeader o) (SkipPaths o ++ paths) (SkipLogging o) (SkipTracing o).
Definition commonPaths : list string :=
  ["/health"; "/healthz"; "/health/*"; "/ready"; "/readiness"; "/live"; "/liveness"; "/metrics"; "/prometheus"; "/status"; "/ping"; "/version";
   "/info"; "/favicon.ico"; "/robots.txt"].
Definition WithSkipMetrics : Option := WithSkipPaths commonPaths.
Definition WithSkipLogging (skip : bool) : Option := fun o => mkOptions (injection o) (CustomTraceHeader o) (SkipPaths o) skip (SkipTracing o).
Definition WithSkipTracing (skip : bool) : Option := fun o => mkOptions (injection o) (CustomTraceHeader o) (SkipPaths o) (SkipLogging o) skip.
Definition configured (opts : list Option) : ObservabilityOptions :=
  foldl (fun o opt => opt o) (mkOptions InjectTraceIDOnly "" ["/metrics"] true false) opts.
Definition ObservabilityWithW3CTraceContext : list Option := [WithTraceInjection InjectW3CTraceContext].
Definition ObservabilityWithTraceID : list Option := [WithTraceInjection InjectTraceIDOnly].
Definition ObservabilityWithCustomHeader (headerName : string) : list Option := [WithTraceInjection InjectTraceIDOnly; WithCustomTraceHeader headerName].
Definition ObservabilitySkipMetrics : list Option := [WithSkipMetrics].
Definition ObservabilityWithSkipPaths (paths : list string) : list Option := [WithSkipPaths paths].

(** ** Paths *)

Definition matchWildcard (text pattern : string) : bool :=
  if bool_decide (pattern = "*") then true
  else if HasPrefix pattern "*" && HasSuffix pattern "*" then Contains text (str_take (str_len pattern - 2) (str_drop 1 pattern))
  else if HasPrefix pattern "*" then HasSuffix text (str_drop 1 pattern)
  else if HasSuffix pattern "*" then HasPrefix text (str_take (str_len pattern - 1) pattern)
  else bool_decide (text = pattern).
Definition matchPathPattern (path pattern : string) : bool :=
  if bool_decide (path = pattern) then true
  else if Contains pattern "*" then matchWildcard path pattern
  else if HasSuffix pattern "/" then HasPrefix path pattern
  else false.
Definition matchPath (requestPath method pattern : string) : bool :=
  match Cut pattern " " with
  | Some (m, p) => if bool_decide (ToUpper (TrimSpace m) = ToUpper method) then matchPathPattern requestPath (TrimSpace p) else false
  | None => matchPathPattern requestPath pattern
  end.
Definition shouldSkipPath (path method : string) (skipPaths : list string) : bool := existsb (matchPath path method) skipPaths.

(** ** Headers *)

Record span : Type := mkSpan { IsValid : bool; TraceID : string; SpanID : string; IsSampled : bool }.
Definition headers : Type := gmap string string.
Definition traceparent (s : span) : string := "00-" +:+ TraceID s +:+ "-" +:+ SpanID s +:+ "-" +:+ (if IsSampled s then "01" else "00").
Definition header_key (o : ObservabilityOptions) : string := if bool_decide (CustomTraceHeader o = "") then TraceIDHeaderKey else CustomTraceHeader o.
(** What is set, in this order. *)
Definition trace_headers (s : span) (o : ObservabilityOptions) : list (string * string) :=
  if negb (IsValid s) then [] else
  match injection o with
  | InjectW3CTraceContext => [(TraceParentHeaderKey, traceparent s)]
  | InjectTraceIDOnly => [(header_key o, TraceID s)]
  | InjectBoth => [(TraceParentHeaderKey, traceparent s); (header_key o, TraceID s)]
  | InjectNone => []
  end.
(** [c.Header]: an empty value deletes. *)
Definition Header (h : headers) (kv : string * string) : headers := if bool_decide (kv.2 = "") then delete kv.1 h else <[kv.1 := kv.2]> h.
Definition injectTraceHeaders (h : headers) (s : span) (o : ObservabilityOptions) : headers := foldl Header h (trace_headers s o).

(** ** A request in gin *)

Record request : Type := mkRequest { Method : string; Path : string; Body : option string }.
(** A handler: from the body it reads to the parts that it writes and the
    status. *)
Definition handler : Type := option string -> list string * Z.
Record log_entry : Type := mkEntry { log_debug : bool; l_method : string; l_path : string; l_status : Z; l_bodies : option (string * string) }.
Record served : Type := mkServed { response : list string; out_headers : headers; logged : option log_entry }.
(** [bodyCaptureWriter]: what was written. *)
Definition captured (parts : list string) : string := foldr (fun p s => p +:+ s) "" parts.
Definition Observability (debug : bool) (opts : list Option) (s : span) (r : request) (next : handler) : served :=
  let config := configured opts in
  let shouldSkip := shouldSkipPath (Path r) (Method r) (SkipPaths config) in
  let h := if negb shouldSkip || negb (SkipTracing config) then injectTraceHeaders ∅ s config else ∅ in
  let captureBody := (negb shouldSkip || negb (SkipLogging config)) && debug in
  let requestBody := match Body r with Some b => if captureBody then b else "" | None => "" end in
  let '(parts, status) := next (match Body r with Some b => Some (if captureBody then requestBody else b) | None => None end) in
  mkServed parts h
    (if shouldSkip && SkipLogging config then None
     else Some (mkEntry shouldSkip (Method r) (Path r) status (if captureBody then Some (requestBody, captured parts) else None))).

(** ** A request in gRPC *)

Definition MD : Type := gmap string (list string).
(** Setting an entry of a nil map panics. *)
Definition md_set (md : result string (option MD)) (kv : string * string) : result string (option MD) :=
  m ← md; match m with Some m => Ok (Some (<[ToLower kv.1 := [kv.2]]> m)) | None => Panic end.
(** The metadata of the call, and what is sent back as the header. *)
Definition injectTraceMetadata (md : option MD) (s : span) (o : ObservabilityOptions) : result string (option MD * option MD) :=
  if negb (IsValid s) then Ok (md, None)
  else md ← foldl md_set (Ok md) (trace_headers s o); Ok (md, md).
(** The request and the response of the log: the method and the status, or
    the bodies. *)
Definition rpc_request (debug : bool) (method requestBody : string) : list (string * string) :=
  if debug then [("body", requestBody)] else [("method", method)].
Definition rpc_response (debug : bool) (status responseBody : string) : list (string * string) :=
  if debug then [("body", responseBody)] else [("status", status)].

(** ** Patterns *)

Lemma no_star_contains p : no_char "*" p -> Contains p "*" = false.
Proof.
  intros H. destruct (Contains p "*") eqn:E; [|done]. apply Contains_spec in E as (t & u & ->). rewrite !no_char_app in H. destruct H as (_ & H & _).
  discriminate H.
Qed.
Lemma suffix_star p : HasSuffix (p +:+ "*") "*" = true.
Proof. apply HasSuffix_spec. by exists p. Qed.
Lemma prefix_no_star a p t : no_char "*" (String a p) -> HasPrefix (String a p +:+ t) "*" = false.
Proof. intros H. apply no_char_cons in H as [Ha _]. destruct (HasPrefix _ _) eqn:E; [|done]. apply HasPrefix_spec in E as [u Hu]. by injection Hu as ->. Qed.
(** What a pattern with a star at its end matches: the paths with its prefix. *)
Theorem prefix_pattern path p : no_char "*" p -> matchPathPattern path (p +:+ "*") = HasPrefix path p.
Proof.
  intros Hp. unfold matchPathPattern. case_bool_decide as E.
  - subst. symmetry. apply HasPrefix_app.
  - rewrite (proj2 (Contains_spec _ _)) by (by exists p, ""). unfold matchWildcard. case_bool_decide as Es.
    + destruct p as [|a p]; [symmetry; by destruct path|]. injection Es as -> Es. by destruct p.
    + destruct p as [|a p]; [done|]. rewrite prefix_no_star by done. rewrite suffix_star. cbn [andb].
      f_equal. rewrite str_len_app. replace (str_len (String a p) + str_len "*" - 1)%nat with (str_len (String a p)) by (cbn; lia). apply take_app.
Qed.
(** One with a star at its beginning: those with its suffix. *)
Lemma suffix_pattern path p : no_char "*" p -> p <> "" -> matchPathPattern path ("*" +:+ p) = HasSuffix path p.
Proof.
  intros Hp Hne. unfold matchPathPattern. case_bool_decide as E.
  - subst. symmetry. apply HasSuffix_spec. by exists "*".
  - rewrite (proj2 (Contains_spec _ _)) by (by exists "", p). unfold matchWildcard. rewrite bool_decide_eq_false_2 by (intros [=]; done).
    rewrite HasPrefix_app. cbn [andb]. destruct (HasSuffix ("*" +:+ p) "*") eqn:Es; [|done].
    apply HasSuffix_spec in Es as [t Et]. destruct t as [|a t]; [by injection Et|]. injection Et as _ Et. rewrite ?app_nil_l_s in Et. subst p.
    rewrite no_char_app in Hp. destruct Hp as [_ Hp]. discriminate Hp.
Qed.
(** Without a star a pattern is the path itself, or its beginning when it ends
    with a slash. *)
Lemma plain_pattern path p : no_char "*" p -> matchPathPattern path p = bool_decide (path = p) || (HasSuffix p "/" && HasPrefix path p).
Proof.
  intros Hp. unfold matchPathPattern. rewrite no_star_contains by done. case_bool_decide; [done|]. cbn. by destruct (HasSuffix p "/").
Qed.
(** A star inside is not a wildcard. *)
Example star_inside : matchPathPattern "/users/7/avatar" "/users/*/avatar" = false.
Proof. vm_compute. reflexivity. Qed.
(** The readiness of a service below a prefix is skipped with a method. *)
Example with_method : shouldSkipPath "/health/db" "get" ["GET /health/*"] = true /\ shouldSkipPath "/health/db" "POST" ["GET /health/*"] = false.
Proof. vm_compute. done. Qed.

(** ** Requests *)

(** The handler reads the body that was sent, whether it is captured or not;
    the log, when it has bodies, has that one and what the handler wrote. *)
Theorem bodies_unchanged debug opts s r next :
  let o := Observability debug opts s r next in
  response o = (next (Body r)).1 /\
  (forall e, logged o = Some e -> l_status e = (next (Body r)).2 /\
     forall b b', l_bodies e = Some (b, b') -> b = default "" (Body r) /\ b' = captured (response o)).
Proof.
  cbv zeta. unfold Observability. set (skip := shouldSkipPath _ _ _). set (cfg := configured opts).
  set (capture := (negb skip || negb (SkipLogging cfg)) && debug).
  assert (Hb : match Body r with Some b => Some (if capture then match Body r with Some b0 => if capture then b0 else "" | None => "" end else b) | None => None end = Body r).
  { destruct (Body r) as [b|]; [|done]. by destruct capture. }
  destruct (Body r) as [b|] eqn:Eb.
  - rewrite Hb. destruct (next (Some b)) as [parts status]. cbn. split; [done|]. destruct (skip && SkipLogging cfg); [done|].
    intros e [= <-]. cbn. split; [done|]. destruct capture; [|done]. by intros b1 b2 [= <- <-].
  - destruct (next None) as [parts status]. cbn. split; [done|]. destruct (skip && SkipLogging cfg); [done|].
    intros e [= <-]. cbn. split; [done|]. destruct capture; [|done]. by intros b1 b2 [= <- <-].
Qed.

(** The metadata that a client sent comes back to it in the header, whatever
    it is. *)
Lemma metadata_echoed md s o md' hdr k v : IsValid s = true -> injectTraceMetadata (Some md) s o = Ok (md', hdr) ->
  md !! k = Some v -> Forall (fun kv => ToLower kv.1 <> k) (trace_headers s o) -> exists h, hdr = Some h /\ h !! k = Some v.
Proof.
  unfold injectTraceMetadata. intros -> H Hk Hf. cbn [negb] in H. revert H.
  assert (Hg : forall l m, m !! k = Some v -> Forall (fun kv => ToLower kv.1 <> k) l -> exists m', foldl md_set (Ok (Some m)) l = Ok (Some m') /\ m' !! k = Some v).
  { intros l. induction l as [|kv l IH]; intros m Hm Hl; [by exists m|]. inversion Hl as [|? ? Hx Hl']; subst. cbn.
    apply IH; [by apply lookup_insert_Some; right|done]. }
  destruct (Hg (trace_headers s o) md Hk Hf) as (m' & -> & Hm'). cbn. intros [= <- <-]. by exists m'.
Qed.
Example authorization_echoed :
  injectTraceMetadata (Some {["authorization" := ["Bearer secret"]]}) (mkSpan true "t" "s" true) (configured []) =
  Ok (Some {["authorization" := ["Bearer secret"]; "x-trace-id" := ["t"]]}, Some {["authorization" := ["Bearer secret"]; "x-trace-id" := ["t"]]}).
Proof. vm_compute. reflexivity. Qed.
(** A context without metadata panics. *)
Example no_metadata_panics : injectTraceMetadata None (mkSpan true "t" "s" true) (configured []) = Panic.
Proof. vm_compute. reflexivity. Qed.
(** When debugging the log of a call has neither its method nor its status. *)
Lemma method_lost method body : assoc (rpc_request true method body) "method" = None /\ assoc (rpc_response true method body) "status" = None.
Proof. done. Qed.
End Observe.
