(* ===== verification/Logs.v ===== *)
(** * Logging of requests (pkg/gin/middleware/logging.go, pkg/grpc/interceptor/logging.go)

    Options with the variables of the packages they write, and what the
    middleware of gin and the interceptors of gRPC log around a call.  zap is
    what it is given, a handler a function; times are left out.  The bodies
    that are logged are in Middleware.v.  Theorems: a call is passed on as it
    is and logged before and after, as an error for the codes given; what one
    middleware ignores all ignore. *)

From S2P Require Import Prelude GoStr Middleware.
From Stdlib Require Import Ascii.
From Stdlib Require String.

Module Logs.
Import Middleware.

(** A field, and an entry: the level, the message and the fields. *)
Inductive field : Type := FString (k v : string) | FInt (k : string) (v : Z) | FBytes (k v : string) | FError (e : option string).
Record entry : Type := mkEntry { is_error : bool; message : string; fields : list field }.

(** ** gin *)

Module Gin.
(** The variables of the package. *)
Record globals : Type := mkGlobals { defaultIgnoreRoutes : gset string; printErrorBySpecifiedCodes : gset Z }.
Definition initial : globals := mkGlobals {[ "/ping"; "/pong"; "/health" ]} {[ 500; 502; 503 ]}.
(** The map of the options is that of the package. *)
Record options : Type := mkOptions { maxLength : Z; requestIDFrom : Z }.
Definition defaultOptions : options := mkOptions 300 0.
Inductive Option : Type :=
  | OMaxLen (n : Z) | OIgnoreRoutes (routes : list string) | OPrintErrorByCodes (codes : list Z) | ORequestIDFromContext | ORequestIDFromHeader.
Definition apply_option (g : globals) (o : options) (opt : Option) : result string (globals * options) :=
  match opt with
  | OMaxLen n => m ← WithMaxLen n (maxLength o); Ok (g, mkOptions m (requestIDFrom o))
  | OIgnoreRoutes routes => Ok (mkGlobals (defaultIgnoreRoutes g ∪ list_to_set routes) (printErrorBySpecifiedCodes g), o)
  | OPrintErrorByCodes codes => Ok (mkGlobals (defaultIgnoreRoutes g) (printErrorBySpecifiedCodes g ∪ list_to_set codes), o)
  | ORequestIDFromContext => Ok (g, mkOptions (maxLength o) 1)
  | ORequestIDFromHeader => Ok (g, mkOptions (maxLength o) 2)
  end.
Definition apply (g : globals) (opts : list Option) : result string (globals * options) :=
  foldM (fun '(g, o) opt => apply_option g o opt) (g, defaultOptions) opts.

Record request : Type := mkRequest { Method : string; Path : string; URL : string; Body : string; context_id : option string; header_id : string }.
(** From the body to the bytes that are written and the status. *)
Definition handler : Type := string -> string * Z.
Definition reqID (o : options) (r : request) : string :=
  if bool_decide (requestIDFrom o = 1) then default "" (context_id r) else if bool_decide (requestIDFrom o = 2) then header_id r else "".
(** [ContextRequestIDKey] is a variable of the package as well. *)
Definition id_field (key id : string) : list field := if bool_decide (id = "") then [] else [FString key id].
Definition has_body (method : string) : bool := bool_decide (method ∈ ["POST"; "PUT"; "PATCH"; "DELETE"]).
(** What the handler answered, and the entries. *)
Definition Logging (g : globals) (o : options) (key : string) (r : request) (next : handler) : (string * Z) * list entry :=
  if bool_decide (Path r ∈ defaultIgnoreRoutes g) then (next (Body r), [])
  else
    let bodies := if has_body (Method r) then [FInt "size" (Z.of_nat (str_len (Body r))); FBytes "body" (getRequestBody (Body r) (Z.to_nat (maxLength o)))] else [] in
    let id := id_field key (reqID o r) in
    let '(written, status) := next (Body r) in
    ((written, status),
     [ mkEntry false "<<<<" ([FString "method" (Method r); FString "url" (URL r)] ++ bodies ++ id);
       mkEntry (bool_decide (status ∈ printErrorBySpecifiedCodes g)) ">>>>"
         ([FInt "code" status; FString "method" (Method r); FString "url" (Path r); FInt "size" (Z.of_nat (str_len written));
           FBytes "body" (getResponseBody written (Z.to_nat (maxLength o)))] ++ id) ]).
Definition SimpleLog (g : globals) (o : options) (key : string) (r : request) (next : handler) : (string * Z) * list entry :=
  if bool_decide (Path r ∈ defaultIgnoreRoutes g) then (next (Body r), [])
  else
    let '(written, status) := next (Body r) in
    ((written, status),
     [ mkEntry (bool_decide (status ∈ printErrorBySpecifiedCodes g)) "Gin response"
         ([FInt "code" status; FString "method" (Method r); FString "url" (URL r); FInt "size" (Z.of_nat (str_len written))] ++ id_field key (reqID o r)) ]).

(** The handler gets the body and the client what it wrote. *)
Theorem logging_transparent g o key r next : (Logging g o key r next).1 = next (Body r) /\ (SimpleLog g o key r next).1 = next (Body r).
Proof. unfold Logging, SimpleLog. case_bool_decide; [done|]. by destruct (next (Body r)). Qed.
(** A route that is not ignored is logged before and after, as an error for
    the statuses given and only for them. *)
Lemma logged_twice g o key r next : Path r ∉ defaultIgnoreRoutes g ->
  is_error <$> (Logging g o key r next).2 = [false; bool_decide ((next (Body r)).2 ∈ printErrorBySpecifiedCodes g)].
Proof. intros H. unfold Logging. rewrite bool_decide_eq_false_2 by done. by destruct (next (Body r)). Qed.
Lemma apply_grows g opts g' o : apply g opts = Ok (g', o) -> defaultIgnoreRoutes g ⊆ defaultIgnoreRoutes g'.
Proof.
  unfold apply. generalize defaultOptions. revert g. induction opts as [|opt opts IH]; intros g o0; cbn [foldM]; [by intros [= <- _]|].
  destruct (apply_option g o0 opt) as [[g1 o1]| |] eqn:E; [|done..]. intros H. apply IH in H. etransitivity; [|exact H].
  destruct opt; cbn in E; [destruct (WithMaxLen n (maxLength o0)); [|done..]| | | |]; injection E as <- _; set_solver.
Qed.
(** The routes that one middleware ignores are ignored by every other, before
    and after: the map is that of the package. *)
Lemma ignored_by_all g routes opts g1 o1 g2 o2 key r next : apply g [OIgnoreRoutes routes] = Ok (g1, o1) -> apply g1 opts = Ok (g2, o2) ->
  Path r ∈ routes -> (Logging g2 o2 key r next).2 = [].
Proof.
  cbn. intros [= <- _] H Hr. apply apply_grows in H. unfold Logging. rewrite bool_decide_eq_true_2; [done|]. cbn in H. set_solver.
Qed.
Example short_limit_panics : apply initial [OMaxLen 7] = Panic.
Proof. vm_compute. reflexivity. Qed.
End Gin.

(** ** gRPC *)

Module Grpc.
Section Log.
(** The codes of the status errors of pkg/errcode, and the name of a code. *)
Variables StatusInternalServerError StatusServiceUnavailable : Z.
Variable code_String : Z -> string.

Record globals : Type := mkGlobals { ignoreLogMethods : gset string; printErrorBySpecifiedCodes : gset Z }.
Definition initial : globals := mkGlobals {[ "/grpc.health.v1.Health/Check" ]} {[ 13; 14; StatusInternalServerError; StatusServiceUnavailable ]}.
Record logOptions {R : Type} : Type := mkLog { maxLength : Z; isReplaceGRPCLogger : bool; marshalFn : R -> string }.
Arguments logOptions : clear implicits.
Inductive LogOption {R : Type} : Type :=
  | OMaxLen (n : Z) | OReplaceGRPCLogger | OPrintErrorByCodes (codes : list Z) | OMarshalFn (fn : option (R -> string)) | OIgnoreMethods (names : list string).
Arguments LogOption : clear implicits.
Definition apply_option {R} (s : globals * logOptions R) (opt : LogOption R) : globals * logOptions R :=
  let '(g, o) := s in
  match opt with
  | OMaxLen n => (g, if 0 <? n then mkLog _ n (isReplaceGRPCLogger o) (marshalFn o) else o)
  | OReplaceGRPCLogger => (g, mkLog _ (maxLength o) true (marshalFn o))
  | OPrintErrorByCodes codes => (mkGlobals (ignoreLogMethods g) (printErrorBySpecifiedCodes g ∪ list_to_set codes), o)
  | OMarshalFn (Some fn) => (g, mkLog _ (maxLength o) (isReplaceGRPCLogger o) fn)
  | OMarshalFn None => (g, o)
  | OIgnoreMethods names => (mkGlobals (ignoreLogMethods g ∪ list_to_set names) (printErrorBySpecifiedCodes g), o)
  end.
Definition defaultLogOptions {R} (Marshal : R -> string) : logOptions R := mkLog _ 300 false Marshal.
Definition apply {R} (Marshal : R -> string) (g : globals) (opts : list (LogOption R)) : globals * logOptions R :=
  foldl apply_option (g, defaultLogOptions Marshal) opts.

(** What a call ends with: the code of the status of its error and its text. *)
Definition call_error : Type := option (Z * string).
Definition statusCode (e : call_error) : Z := match e with None => 0 | Some (c, _) => c end.
Definition as_error (g : globals) (e : call_error) : bool :=
  match e with None => false | Some (c, _) => bool_decide (c ∈ printErrorBySpecifiedCodes g) end.
Definition after_fields (g : globals) (type method : string) (e : call_error) (data id : list field) : list field :=
  [FString "code" (code_String (statusCode e)); FError (snd <$> e); FString "type" type; FString "method" method] ++ data ++ id.
Definition id_field (key id : string) : list field := if bool_decide (id = "") then [] else [FString key id].
(** An entry after the call, with the message for an error and the other. *)
Definition after (g : globals) (bad good type method : string) (e : call_error) (data id : list field) : entry :=
  let err := as_error g e in mkEntry err (if err then bad else good) (after_fields g type method e data id).
Definition unless_ignored {R} (g : globals) (method : string) (r : R) (entries : list entry) : R * list entry :=
  (r, if bool_decide (method ∈ ignoreLogMethods g) then [] else entries).

Definition UnaryClientLog (g : globals) (key method id : string) (invoker : call_error) : call_error * list entry :=
  unless_ignored g method invoker [after g "invoker error" "invoker result" "unary" method invoker [] (id_field key id)].
Definition StreamClientLog {C} (g : globals) (key method id : string) (streamer : C * call_error) : (C * call_error) * list entry :=
  unless_ignored g method streamer [after g "streamer invoker error" "streamer invoker result" "stream" method streamer.2 [] (id_field key id)].
Definition UnaryServerLog {R} (g : globals) (o : logOptions R) (key method id : string) (req : string) (handler : R * call_error) : (R * call_error) * list entry :=
  let data := grpc_response (marshalFn o handler.1) (Z.to_nat (maxLength o)) in
  unless_ignored g method handler
    [ mkEntry false "<<<<" ([FString "type" "unary"; FString "method" method; FString "request" req] ++ id_field key id);
      after g ">>>>" ">>>>" "unary" method handler.2 [FBytes "data" data] (id_field key id) ].
Definition UnaryServerSimpleLog {R} (g : globals) (key method id : string) (handler : R * call_error) : (R * call_error) * list entry :=
  unless_ignored g method handler [after g "gRPC response error" "gRPC response" "unary" method handler.2 [] (id_field key id)].
Definition StreamServerLog (g : globals) (key method id : string) (handler : call_error) : call_error * list entry :=
  unless_ignored g method handler
    [ mkEntry false "<<<<" ([FString "type" "stream"; FString "method" method] ++ id_field key id);
      after g ">>>>" ">>>>" "stream" method handler [] (id_field key id) ].
Definition StreamServerSimpleLog (g : globals) (key method id : string) (handler : call_error) : call_error * list entry :=
  unless_ignored g method handler [after g "gRPC response error" "gRPC response" "stream" method handler [] (id_field key id)].

(** The result of a call is passed on, and an entry is an error exactly when
    the call failed with a code that is given. *)
Theorem calls_logged {R} g (o : logOptions R) key method id req (h : R * call_error) : method ∉ ignoreLogMethods g ->
  (UnaryServerLog g o key method id req h).1 = h /\
  is_error <$> (UnaryServerLog g o key method id req h).2 = [false; as_error g h.2] /\
  (as_error g h.2 = true <-> exists c t, h.2 = Some (c, t) /\ c ∈ printErrorBySpecifiedCodes g).
Proof.
  intros H. unfold UnaryServerLog, unless_ignored. rewrite bool_decide_eq_false_2 by done. split; [done|]. split; [done|].
  unfold as_error. destruct h.2 as [[c t]|]; [|split; [done|by intros (c & t & H' & _)]].
  rewrite bool_decide_eq_true. split; [by exists c, t|by intros (c' & t' & [= <- <-] & ?)].
Qed.
(** The option that ignores methods does so for every interceptor of the
    process. *)
Lemma methods_ignored_by_all {R} (M : R -> string) g names method key id h : method ∈ names ->
  (StreamServerLog (apply M g [OIgnoreMethods names]).1 key method id h).2 = [].
Proof. intros H. unfold StreamServerLog, unless_ignored. cbn. rewrite bool_decide_eq_true_2; [done|]. cbn. set_solver. Qed.
End Log.
End Grpc.
End Logs.
